(* ===== verification/_CoqProject ===== *)
-Q . S2P
Prelude.v
Ring.v
Sched.v
Task.v
Ipc.v
Mq.v
Semaphore.v
CondVar.v
Pipe.v
Heap.v
Pmm.v
Vmm.v
VmmBoot.v
Elf.v
Shm.v
Sha256.v
Aes.v
X25519.v
Storage.v
Buffer.v
Fs.v
Mfs4.v
Ext2.v
X509.v
Keyboard.v
Dmesg.v
Net.v
Tls.v
Packet.v
Tcp.v
TcpLink.v
Vfs.v
WebSocket.v
