(* ===== verification/Prelude.v ===== *)
(** * Oria OS kernel: verification library

    Oria OS is a 64-bit x86 teaching kernel in C (src/src/kernel), with user programs in
    src/src/programs.  This library models the parts of the kernel that carry its own
    logic as executable definitions, and proves what makes each part correct; where
    the code does not do what it means to, the theorem states what it does.

    ** Conventions

    A C integer is its value in Z; the conversions [u8 .. u64], [i8 .. i32] are written
    where the code's types make them, so wrap-around is part of the model.  An array is
    a list ([l.[i]] reads, [l.[i <- x]] writes), a [char *] the list of the bytes it
    points to, a struct a record ([r <| fld := v |>] assigns a field).  The file-scope
    variables a source file keeps are a record (or the list they are), and each
    function of the file is a definition of the same name on it; a loop over indices is
    [scan] (first index found) or [iter] (state updated), any other loop a Fixpoint on
    the list it walks or with a bound that a lemma shows to be enough.  Behaviour that
    C leaves undefined (a write past a buffer) is [None].  Helper definitions for a part
    of a function are named in the map of the manifest with the lines they translate.

    ** Files

    - Prelude: record update, machine integers, bits, arrays, loops, C strings.
    - Ring: the ring buffer idiom of pipe.c, semaphore.c, condvar.c, ipc.c, keyboard.c
      and serial.c, related once to the list of its elements.
    - Sched: the class [Scheduler], what the blocking primitives use of task.c, with its
      laws; Task discharges it, so their theorems hold for the real task table.
    - Task (task.c, timer.c): task table, signals, timers, the context switch of the
      boot processor and of the other processors.  Aging bounds waiting; no task runs on
      two processors.
    - Ipc, Mq, Semaphore, CondVar, Pipe (same names in C): the message primitives, each
      refined to the list or bag it implements.  Semaphore.v has the interleavings of
      its tasks as a step relation; the waits of the others are modelled up to the sleep.
    - Heap (memory.c): headers as a map from addresses; refines a list of blocks.
    - Pmm, Vmm, VmmBoot (vmm.c): the frame bitmap, page tables as words of physical
      memory, copy-on-write; VmmBoot has the boot state on which they are instantiated.
    - Elf, Shm (elf_loader.c, shm.c): programs and shared regions, above Pmm and Vmm.  The
      loop over the pages of a segment takes a frame per round, so it has as much fuel as
      there are frames ([elf_segment_loop_ends]).
    - Sha256, Aes, X25519 (crypto.c): hashes against FIPS 180-4, RFC 2104 and RFC 8446,
      the block cipher against its inverse, GCM as the code computes it, and the limb
      arithmetic of the ladder against integers modulo 2^255 - 19.
    - Storage: the classes [Allocator] and [BlockDevice], with the heap of Heap.v and a
      RAM disk as instances.
    - Fs, Mfs4 (fs.c, mfs4.c): the two layers of the file system above those
      interfaces; what survives a reboot, and what a flush destroys.
    - Buffer: outcomes of code on fixed buffers ([UB] is undefined behaviour, [Running] a
      loop that is not finished) and the reads and writes of them.
    - Ext2 (ext2.c): the reader of ext2 volumes above [BlockDevice], related to a volume
      given by its files.  A loop over a block or a file has its bytes as fuel, and the theorems show
      that it ends.
    - X509 (x509.c): the DER reader and the host name check.  A read outside the certificate
      is [None]; a loop has the bytes of what it walks as fuel, two of which go per round.
    - Keyboard, Dmesg (keyboard.c, the log of serial.c).
    - Tls (tls13.c): handshake, records and sessions above the class [NetStack] of Net.v; the
      theorems on streams use its refinement [TcpStream], of which a wire that cuts the
      bytes anywhere is the instance.  [rounds] bounds the polling loop of a read, which
      without data ends by the clock only; a record of 16384 bytes takes that many at most.
    - Net: the class [NetStack], what vfs.c and websocket.c use of net.c.
    - Packet, Tcp, TcpLink (net.c): checksums, the ARP cache, outgoing frames and DNS
      messages; connections, the dispatcher of received packets and the blocking calls,
      which take the rounds of their polling loops (tick and frame) as a list; two hosts
      that exchange frames.  Tcp is an instance of [NetStack].
    - Vfs (vfs.c): the descriptor table of every task above Fs, Pipe, Keyboard, Dmesg and
      Task.  Its [State] holds the states of those modules; each function of vfs.c is a
      definition on it.
    - WebSocket (websocket.c): SHA-1 and base64 against FIPS 180-4 and RFC 4648, the frame
      codec, and the client as turns of its loop above [NetStack].

    ** Groups of theorems

    Invariants and types: [fs_table_well_formed], [mfs4_table_invariant],
    [sem_conservation], [cpus_never_share_a_task].  Refinements of an abstract
    specification: [malloc_correct], [free_correct], [pipe_message_fifo],
    [ipc_fifo_refinement], [fs_survives_reboot], [dmesg_keeps_the_end],
    [ws_stream_any_chunks],
    [tcp_stream_delivered] (a connection is a reliable channel), [tls_stream_delivered],
    [elf_load_executable].  Equivalence with a reference: [sha256_streaming],
    [hmac_rfc2104], [ws_accept_rfc6455], [x25519_is_ladder_mod_p],
    [tls13_key_schedule].  Round trips:
    [aes128_block_invertible], [mfs4_flush_load_roundtrip], [vfs_write_read_back],
    [ws_frame_roundtrip], [tcp_segment_roundtrip], [dns_answer_understood],
    [x509_parse_encoded].  Behaviour of a reader on a whole volume: [ext2_cat_prints],
    [ext2_ls_lists]; of the host name check: [x509_hostname_accepted].  Liveness and termination:
    [task_switch_bounded_waiting], [mfs4_resolve_follows], [tcp_gives_up] and, on the primitives,
    [cv_broadcast_wakes_all].  Faults proved of the code: [sem_lost_wakeup],
    [vmm_forked_frame_leaks], [gcm_accepts_forgery], [ladder_doubles_on_486666],
    [fs_write_correct] (its overflow case), [mfs4_flush_erases_slot_4],
    [keyboard_arrow_leaves_waiter_asleep], [vfs_fork_gives_early_eof],
    [vfs_negative_seek_corrupts_memory], [vfs_write_nul_never_returns],
    [ws_ping_corrupts_memory],
    [tcp_server_first_lost], [tcp_old_ack_rewinds],
    [shm_attach_maps_nothing], [elf_wrapped_size_reads_outside],
    [ext2_mounts_block_size_0], [ext2_ls_never_ends], [x509_reads_behind_the_end],
    [x509_nul_name_accepted],
    [tls13_authenticates_nobody], [tls13_long_host_overruns].

    ** Bounds

    [heap_fuel] is the heap size over the size of a header, plus two, and the heap
    theorems show that the loops end within it.  The waiter loops of condvar.c and pipe.c
    run at most the size of their ring.  The padding loops of SHA-256 and SHA-1 run at
    most 64 times, [ws_frames] takes a byte at least per round, [compress_loop],
    [ctr_loop] and [expand_loop] once per block; loading a file reads its 128 sectors.
    [resolve_loop] takes the depth the caller gives.  [write_chunks] has a fuel because the
    loop it models need not end: [vfs_write_nul_never_returns] shows no fuel is enough.

    ** Not modelled

    Port and device I/O (ata, virtio_blk, rtl8139, pic, apic, vbe, mouse, the COM1 part
    of serial.c), the boot path and descriptor tables (idt, tss, paging, acpi, smp,
    kernel.c, assembly): their effect is on hardware.  The windowing code and the shell
    are user interface.  The applications in net.c
    (HTTP, NTP, IPv6, DHCP, ping) have logic of their own and are not reached; so are the system call tables, which
    mostly forward to the functions modelled here.  User programs are not modelled. *)

From Stdlib Require Import ZArith Lia.
From Stdlib Require String Ascii.
From stdpp Require Import base numbers list gmap tactics.

Declare Scope oria_scope.
Delimit Scope oria_scope with oria.
Open Scope oria_scope.
Open Scope Z_scope.

Create HintDb oria.
Create Rewrite HintDb oria.

(** ** Record update

    C code assigns single fields of structs; [r <| fld := v |>] is that
    assignment.  A record type declares once how it is rebuilt from its fields
    ([Settable]); the setter of a field is then derived on demand by abstracting
    that field in the rebuilt term. *)
Class Settable (R : Type) := { rebuild : R -> R }.
Class Setter {R T : Type} (p : R -> T) := { upd : (T -> T) -> R -> R }.
Arguments upd {R T} p {_} _ _ /.
Arguments rebuild {R} {_} _ /.

Ltac derive_setter :=
  match goal with
  | |- @Setter ?R ?T ?p =>
      refine {| upd := fun f r => _ |};
      match goal with
      | f : T -> T, r : R |- _ =>
          let e := eval hnf in (rebuild r) in
          match eval pattern (p r) in e with
          | ?F _ => let t := eval cbv beta in (F (f (p r))) in exact t
          end
      end
  end.

#[export] Hint Extern 1 (Setter _) => derive_setter : typeclass_instances.

Notation "r <| fld := v |>" := (upd fld (fun _ => v) r)
  (at level 1, left associativity, fld at level 0, format "r  <|  fld  :=  v  |>") : oria_scope.

(** ** Machine integers

    A w-bit unsigned integer is its value in [0 <= z < 2^w]; a C conversion to
    the type is reduction modulo [2^w].  Signed types are kept in
    [-2^(w-1) <= z < 2^(w-1)] (two's complement, as gcc converts). *)
Definition u8  (z : Z) : Z := z mod 2 ^ 8.
Definition u16 (z : Z) : Z := z mod 2 ^ 16.
Definition u32 (z : Z) : Z := z mod 2 ^ 32.
Definition u64 (z : Z) : Z := z mod 2 ^ 64.
Definition i8  (z : Z) : Z := (z + 2 ^ 7) mod 2 ^ 8 - 2 ^ 7.
Definition i16 (z : Z) : Z := (z + 2 ^ 15) mod 2 ^ 16 - 2 ^ 15.
Definition i32 (z : Z) : Z := (z + 2 ^ 31) mod 2 ^ 32 - 2 ^ 31.

(** A byte. *)
Definition byte (b : Z) : Prop := 0 <= b < 256.

Lemma u8_small z : 0 <= z < 256 -> u8 z = z.
Proof. intros. apply Z.mod_small. lia. Qed.
Lemma u32_small z : 0 <= z < 4294967296 -> u32 z = z.
Proof. intros. apply Z.mod_small. lia. Qed.
Lemma u64_small z : 0 <= z < 18446744073709551616 -> u64 z = z.
Proof. intros. apply Z.mod_small. lia. Qed.
Lemma i8_small z : -128 <= z < 128 -> i8 z = z.
Proof. intros. unfold i8. rewrite Z.mod_small; lia. Qed.
Lemma i32_small z : -2147483648 <= z < 2147483648 -> i32 z = z.
Proof. intros. unfold i32. rewrite Z.mod_small; lia. Qed.
Lemma u8_range z : 0 <= u8 z < 256.
Proof. apply Z.mod_pos_bound. lia. Qed.
Lemma u32_range z : 0 <= u32 z < 4294967296.
Proof. apply Z.mod_pos_bound. lia. Qed.
Lemma u64_range z : 0 <= u64 z < 18446744073709551616.
Proof. apply Z.mod_pos_bound. lia. Qed.

(** C's integer truth value. *)
Definition truth (z : Z) : bool := negb (z =? 0).

(** ** Bits *)
Lemma bits_high n z i : 0 <= n -> 0 <= z < 2 ^ n -> n <= i -> Z.testbit z i = false.
Proof. intros Hn Hz Hi. rewrite <- (Z.mod_small z (2 ^ n)) by lia. by apply Z.mod_pow2_bits_high. Qed.

Lemma bits_small n z : 0 <= n -> (forall i, n <= i -> Z.testbit z i = false) -> 0 <= z < 2 ^ n.
Proof.
  intros Hn H. assert (z = z mod 2 ^ n) as ->; [|apply Z.mod_pos_bound; lia].
  apply Z.bits_inj'. intros i Hi. rewrite Z.testbit_mod_pow2 by lia.
  destruct (Z.ltb_spec i n); [done|]. rewrite H by lia. done.
Qed.

Lemma testbit_shiftl_1 k i : 0 <= k -> Z.testbit (Z.shiftl 1 k) i = (k =? i).
Proof.
  intros Hk. destruct (Z.ltb_spec i 0).
  { rewrite Z.testbit_neg_r by lia. symmetry. apply Z.eqb_neq. lia. }
  rewrite Z.shiftl_spec by lia. destruct (Z.eqb_spec k i) as [->|]; [by rewrite Z.sub_diag|].
  destruct (Z.ltb_spec i k); [by rewrite Z.testbit_neg_r by lia|]. apply Z.bits_above_log2; [lia|]. simpl. lia.
Qed.

(** Testing a single-bit mask. *)
Lemma truth_land_bit z k : 0 <= k -> truth (Z.land z (Z.shiftl 1 k)) = Z.testbit z k.
Proof.
  intros Hk. unfold truth. destruct (Z.testbit z k) eqn:E.
  - apply negb_true_iff, Z.eqb_neq. intros H0.
    assert (Z.testbit (Z.land z (Z.shiftl 1 k)) k = false) as H by (rewrite H0; apply Z.testbit_0_l).
    rewrite Z.land_spec, testbit_shiftl_1, Z.eqb_refl, E in H by lia. done.
  - apply negb_false_iff, Z.eqb_eq. apply Z.bits_inj'. intros i Hi.
    rewrite Z.land_spec, testbit_shiftl_1, Z.testbit_0_l by lia.
    destruct (Z.eqb_spec k i) as [<-|]; [by rewrite E|apply andb_false_r].
Qed.

(** Or-ing a shifted word above a smaller one is addition. *)
Lemma lor_shiftl a b n : 0 <= n -> 0 <= a < 2 ^ n -> Z.lor a (Z.shiftl b n) = a + 2 ^ n * b.
Proof.
  intros Hn Ha. assert (Z.land a (Z.shiftl b n) = 0) as H0.
  { apply Z.bits_inj'. intros i Hi. rewrite Z.land_spec, Z.shiftl_spec, Z.testbit_0_l by lia.
    destruct (Z.ltb_spec i n); [by rewrite (Z.testbit_neg_r b), andb_false_r by lia|].
    by rewrite (bits_high n a i). }
  rewrite <- Z.lxor_lor, <- Z.add_nocarry_lxor, Z.shiftl_mul_pow2 by done. lia.
Qed.

Lemma testbit_u8 z i : 0 <= i -> Z.testbit (u8 z) i = (i <? 8) && Z.testbit z i.
Proof. intros. unfold u8. by rewrite Z.testbit_mod_pow2. Qed.

(** ** Arrays

    A C array is a list of its elements; the index is the [int] of the source.
    [l.[i]] reads and [l.[i <- x]] writes; both are used only below the guards
    that keep [i] in range, and writing out of range leaves the list alone. *)
Definition zlen {A} (l : list A) : Z := Z.of_nat (length l).
Definition aget {A} `{!Inhabited A} (l : list A) (i : Z) : A := l !!! Z.to_nat i.
Definition aset {A} (l : list A) (i : Z) (x : A) : list A := <[Z.to_nat i := x]> l.

Notation "l .[ i ]" := (aget l i) (at level 1, left associativity, format "l .[ i ]") : oria_scope.
Notation "l .[ i <- x ]" := (aset l i x) (at level 1, left associativity, format "l .[ i  <-  x ]") : oria_scope.

Lemma length_aset {A} (l : list A) i x : length (aset l i x) = length l.
Proof. apply length_insert. Qed.

Lemma zlen_aset {A} (l : list A) i x : zlen (aset l i x) = zlen l.
Proof. unfold zlen. by rewrite length_aset. Qed.

Lemma aget_aset_eq {A} `{!Inhabited A} (l : list A) i x :
  0 <= i < zlen l -> (aset l i x).[i] = x.
Proof. unfold zlen, aget, aset. intros. apply list_lookup_total_insert_eq. lia. Qed.

Lemma aget_aset_ne {A} `{!Inhabited A} (l : list A) i j x :
  0 <= i -> 0 <= j -> i <> j -> (aset l i x).[j] = l.[j].
Proof. unfold aget, aset. intros. apply list_lookup_total_insert_ne. lia. Qed.

Lemma aget_aset {A} `{!Inhabited A} (l : list A) i j x :
  0 <= i < zlen l -> 0 <= j ->
  (aset l i x).[j] = if decide (i = j) then x else l.[j].
Proof. intros. case_decide; subst; [apply aget_aset_eq | apply aget_aset_ne]; lia. Qed.

Lemma aget_lookup {A} `{!Inhabited A} (l : list A) i :
  0 <= i < zlen l -> l !! Z.to_nat i = Some l.[i].
Proof. unfold zlen. intros. apply list_lookup_lookup_total_lt. lia. Qed.

Lemma aset_aset {A} (l : list A) i x y : aset (aset l i x) i y = aset l i y.
Proof. apply list_insert_insert_eq. Qed.

Lemma aset_id {A} `{!Inhabited A} (l : list A) i : 0 <= i < zlen l -> aset l i l.[i] = l.
Proof. intros. unfold aset. apply list_insert_id. by apply aget_lookup. Qed.

Lemma aget_ext {A} `{!Inhabited A} (l k : list A) :
  zlen l = zlen k -> (forall i, 0 <= i < zlen l -> l.[i] = k.[i]) -> l = k.
Proof.
  unfold zlen. intros Hl H. apply list_eq_same_length with (length l); [lia | lia |].
  intros i x y Hi Hx Hy. specialize (H (Z.of_nat i)).
  unfold aget in H. rewrite Nat2Z.id in H.
  apply list_lookup_total_correct in Hx, Hy. subst. apply H. lia.
Qed.

Lemma aset_split {A} (l : list A) i x :
  0 <= i < zlen l -> aset l i x = take (Z.to_nat i) l ++ x :: drop (S (Z.to_nat i)) l.
Proof. unfold zlen, aset. intros. apply insert_take_drop. lia. Qed.

Lemma aget_split {A} `{!Inhabited A} (l : list A) i :
  0 <= i < zlen l -> l = take (Z.to_nat i) l ++ l.[i] :: drop (S (Z.to_nat i)) l.
Proof. intros. symmetry. apply take_drop_middle. by apply aget_lookup. Qed.

Lemma aget_in {A} `{!Inhabited A} (l : list A) i : 0 <= i < zlen l -> l.[i] ∈ l.
Proof. intros. eapply list_elem_of_lookup_2. by apply aget_lookup. Qed.

Lemma aget_take {A} `{!Inhabited A} (l : list A) i j :
  0 <= i < j -> j <= zlen l -> (take (Z.to_nat j) l).[i] = l.[i].
Proof. intros. unfold aget. apply lookup_total_take_lt. lia. Qed.

Lemma aget_take_lt {A} `{!Inhabited A} (l : list A) i n :
  0 <= i < Z.of_nat n -> (take n l).[i] = l.[i].
Proof. intros. unfold aget. apply lookup_total_take_lt. lia. Qed.

Lemma Forall_aget {A} `{!Inhabited A} (P : A -> Prop) (l : list A) :
  Forall P l <-> (forall i, 0 <= i < zlen l -> P l.[i]).
Proof.
  rewrite Forall_lookup. split.
  - intros H i Hi. eapply H. by apply aget_lookup.
  - intros H i x Hx. pose proof (lookup_lt_Some _ _ _ Hx).
    specialize (H (Z.of_nat i)). unfold aget, zlen in H. rewrite Nat2Z.id in H.
    apply list_lookup_total_correct in Hx. subst. apply H. lia.
Qed.

Lemma filter_all {A} (P : A -> Prop) `{!forall x, Decision (P x)} (l : list A) :
  Forall P l -> filter P l = l.
Proof. induction 1; [done|]. rewrite filter_cons_True by done. congruence. Qed.

Lemma filter_none {A} (P : A -> Prop) `{!forall x, Decision (P x)} (l : list A) :
  Forall (fun x => ~ P x) l -> filter P l = [].
Proof. induction 1; [done|]. by rewrite filter_cons_False. Qed.

Lemma zlen_nonneg {A} (l : list A) : 0 <= zlen l.
Proof. unfold zlen. lia. Qed.

#[export] Hint Rewrite @length_aset @zlen_aset : oria.
#[export] Hint Resolve zlen_nonneg u8_range u32_range u64_range : oria.

(** ** Loops

    [scan f lo n] is the [for] loop that returns the first index of
    [lo .. lo+n-1] satisfying [f]; [iter f lo n s] is the [for] loop whose body
    updates the state [s]. *)
Fixpoint scan (f : Z -> bool) (lo : Z) (n : nat) : option Z :=
  match n with
  | O => None
  | S k => if f lo then Some lo else scan f (lo + 1) k
  end.

Fixpoint iter {S : Type} (f : Z -> S -> S) (lo : Z) (n : nat) (s : S) : S :=
  match n with
  | O => s
  | Datatypes.S k => iter f (lo + 1) k (f lo s)
  end.

Lemma scan_Some f n : forall lo i,
  scan f lo n = Some i ->
  lo <= i < lo + Z.of_nat n /\ f i = true /\ (forall j, lo <= j < i -> f j = false).
Proof.
  induction n as [|n IH]; intros lo i H; simpl in H; [done|].
  destruct (f lo) eqn:E; [simplify_eq; repeat split; auto; lia|].
  apply IH in H as (? & ? & Hlt). repeat split; auto; try lia.
  intros j Hj. destruct (decide (j = lo)); [by subst|]. apply Hlt. lia.
Qed.

Lemma scan_None f n : forall lo,
  scan f lo n = None -> forall j, lo <= j < lo + Z.of_nat n -> f j = false.
Proof.
  induction n as [|n IH]; intros lo H j Hj; simpl in H; [lia|].
  destruct (f lo) eqn:E; [done|].
  destruct (decide (j = lo)); [by subst|]. apply (IH (lo + 1)); [done|lia].
Qed.

Lemma scan_is_Some f n lo i :
  lo <= i < lo + Z.of_nat n -> f i = true -> is_Some (scan f lo n).
Proof.
  intros Hi Hf. destruct (scan f lo n) eqn:E; [eauto|].
  rewrite (scan_None _ _ _ E i) in Hf by lia. done.
Qed.

Lemma scan_first f n lo i :
  lo <= i < lo + Z.of_nat n -> f i = true -> (forall j, lo <= j < i -> f j = false) ->
  scan f lo n = Some i.
Proof.
  intros Hi Hf Hlt. destruct (scan_is_Some f n lo i Hi Hf) as [k Hk].
  pose proof (scan_Some _ _ _ _ Hk) as (? & Hfk & Hltk).
  destruct (Z.lt_trichotomy i k) as [?|[?|?]]; [|by subst|].
  - rewrite Hltk in Hf by lia. done.
  - rewrite Hlt in Hfk by lia. done.
Qed.

Lemma scan_ext f g n : forall lo,
  (forall i, lo <= i < lo + Z.of_nat n -> f i = g i) -> scan f lo n = scan g lo n.
Proof.
  induction n as [|n IH]; intros lo H; simpl; [done|].
  rewrite H by lia. destruct (g lo); [done|]. apply IH. intros. apply H. lia.
Qed.

(** Loop invariant rule for [iter]. *)
Lemma iter_ind {S : Type} (P : Z -> S -> Prop) (f : Z -> S -> S) n : forall lo s,
  P lo s ->
  (forall i s', lo <= i < lo + Z.of_nat n -> P i s' -> P (i + 1) (f i s')) ->
  P (lo + Z.of_nat n) (iter f lo n s).
Proof.
  induction n as [|n IH]; intros lo s H0 Hs; simpl.
  - by rewrite Z.add_0_r.
  - replace (lo + Z.of_nat (Datatypes.S n)) with (lo + 1 + Z.of_nat n) by lia.
    apply IH; [apply Hs; [lia|done]|]. intros. apply Hs; [lia|done].
Qed.

Lemma iter_rel {S T : Type} (R : S -> T -> Prop) (f : Z -> S -> S) (g : Z -> T -> T) n : forall lo s t,
  R s t -> (forall i s' t', lo <= i < lo + Z.of_nat n -> R s' t' -> R (f i s') (g i t')) ->
  R (iter f lo n s) (iter g lo n t).
Proof.
  induction n as [|n IH]; intros lo s t H0 Hs; simpl; [done|].
  apply IH; [apply Hs; [lia|done]|]. intros. apply Hs; [lia|done].
Qed.

Lemma iter_ext {S : Type} (f g : Z -> S -> S) n : forall lo s,
  (forall i s', lo <= i < lo + Z.of_nat n -> f i s' = g i s') -> iter f lo n s = iter g lo n s.
Proof.
  induction n as [|n IH]; intros lo s H; simpl; [done|].
  rewrite H by lia. apply IH. intros. apply H. lia.
Qed.

(** A property of all indices below a constant, checked one by one. *)
Lemma zforall_below (P : Z -> Prop) (n : nat) :
  Forall P (Z.of_nat <$> seq 0 n) -> forall j, 0 <= j < Z.of_nat n -> P j.
Proof.
  rewrite Forall_fmap, Forall_seq. intros H j Hj.
  rewrite <- (Z2Nat.id j) by lia. apply H. lia.
Qed.

(** Prove [forall j, 0 <= j < n -> P j] for a constant [n] index by index. *)
Ltac each_index n tac :=
  match goal with
  | |- forall j, _ -> @?P j =>
      refine (zforall_below P n _); cbv beta;
      cbn [seq fmap list_fmap]; repeat (apply Forall_cons_2; [tac|]); apply Forall_nil_2
  end.

(** ** C strings

    A [char *] is the list of the bytes it points to; reading at (or past) the
    end of the list gives the terminating NUL, so a literal is the list of its
    characters and a buffer is the list of all its bytes. *)
Definition cget (s : list Z) (i : Z) : Z := default 0 (s !! Z.to_nat i).

Fixpoint cstr (s : list Z) : list Z :=
  match s with
  | [] => []
  | c :: s' => if c =? 0 then [] else c :: cstr s'
  end.

Definition c_strlen (s : list Z) : Z := zlen (cstr s).

(** [while (a[i] && b[i]) { if (a[i] != b[i]) return 0; i++; }
     return a[i] == '\0' && b[i] == '\0';] *)
Fixpoint c_streq (a b : list Z) : bool :=
  match a, b with
  | [], [] => true
  | [], y :: _ => y =? 0
  | x :: _, [] => x =? 0
  | x :: a', y :: b' =>
      if (x =? 0) || (y =? 0) then (x =? 0) && (y =? 0)
      else if negb (x =? y) then false else c_streq a' b'
  end.

(** [while (src[i] && i < n - 1) { dst[i] = src[i]; i++; } dst[i] = '\0';]
    The bytes of [dst] after the terminator keep their old value. *)
Definition c_strcpy (dst src : list Z) (n : Z) : list Z :=
  let body := take (Z.to_nat (n - 1)) (cstr src) in
  body ++ 0 :: drop (S (length body)) dst.

(** [for (k = 0; k < n; k++) dst[k] = src[k];] *)
Definition c_memcpy (dst src : list Z) (n : Z) : list Z :=
  take (Z.to_nat n) src ++ drop (Z.to_nat n) dst.

(** The characters of a literal of the source, and a line feed. *)
Definition lit (s : String.string) : list Z := (fun c => Z.of_nat (Ascii.nat_of_ascii c)) <$> String.list_ascii_of_string s.
Arguments lit s%_string_scope.
Definition nl : list Z := [10].

Lemma length_c_memcpy dst src n :
  n <= zlen src -> n <= zlen dst -> length (c_memcpy dst src n) = length dst.
Proof.
  unfold c_memcpy, zlen. intros. rewrite length_app, length_take, length_drop. lia.
Qed.

Lemma c_streq_spec a : forall b, c_streq a b = true <-> cstr a = cstr b.
Proof.
  induction a as [|x a IH]; intros [|y b]; simpl; try done.
  - destruct (y =? 0); split; done.
  - destruct (x =? 0); split; done.
  - specialize (IH b).
    destruct (Z.eqb_spec x 0), (Z.eqb_spec y 0), (Z.eqb_spec x y); simpl;
      subst; rewrite ?IH; split; congruence.
Qed.

Lemma cstr_nonzero s : Forall (fun c => c <> 0) (cstr s).
Proof.
  induction s as [|c s IH]; simpl; [done|].
  destruct (Z.eqb_spec c 0); [done|]. by constructor.
Qed.

Lemma cstr_id s : Forall (fun c => c <> 0) s -> cstr s = s.
Proof.
  induction 1 as [|c s Hc Hs IH]; simpl; [done|].
  destruct (Z.eqb_spec c 0); [done|]. by rewrite IH.
Qed.

Lemma cstr_app_nul s t : Forall (fun c => c <> 0) s -> cstr (s ++ 0 :: t) = s.
Proof.
  induction 1 as [|c s Hc Hs IH]; simpl; [done|].
  destruct (Z.eqb_spec c 0); [done|]. by rewrite IH.
Qed.

Lemma cstr_strcpy dst src n :
  cstr (c_strcpy dst src n) = take (Z.to_nat (n - 1)) (cstr src).
Proof. unfold c_strcpy. apply cstr_app_nul. apply Forall_take, cstr_nonzero. Qed.

Lemma cstr_idem s : cstr (cstr s) = cstr s.
Proof. apply cstr_id, cstr_nonzero. Qed.

Lemma length_c_strcpy dst src n :
  1 <= n -> Z.to_nat n = length dst -> length (c_strcpy dst src n) = length dst.
Proof.
  intros Hn Hd. unfold c_strcpy. rewrite length_app. simpl.
  rewrite length_drop, length_take. lia.
Qed.

Lemma cstr_strcpy_fits dst src n :
  c_strlen src < n -> cstr (c_strcpy dst src n) = cstr src.
Proof. unfold c_strlen, zlen. intros. rewrite cstr_strcpy. apply take_ge. lia. Qed.

(** ** Tactics *)

(** Split a conjunction of boolean tests and turn the comparisons into
    propositions. *)
Ltac bool_to_prop :=
  repeat match goal with
  | H : andb _ _ = true |- _ => apply andb_prop in H; destruct H
  | H : orb _ _ = false |- _ => apply orb_false_elim in H; destruct H
  | H : negb _ = true |- _ => apply negb_true_iff in H
  | H : negb _ = false |- _ => apply negb_false_iff in H
  | H : (_ =? _) = true |- _ => apply Z.eqb_eq in H
  | H : (_ =? _) = false |- _ => apply Z.eqb_neq in H
  | H : (_ <? _) = true |- _ => apply Z.ltb_lt in H
  | H : (_ <? _) = false |- _ => apply Z.ltb_ge in H
  | H : (_ <=? _) = true |- _ => apply Z.leb_le in H
  | H : (_ <=? _) = false |- _ => apply Z.leb_gt in H
  end.

(** Case analysis on the tests of the program text. *)
Ltac case_if :=
  match goal with
  | |- context [ if ?b then _ else _ ] => let E := fresh "E" in destruct b eqn:E
  end.
Ltac case_if_in H :=
  match type of H with
  | context [ if ?b then _ else _ ] => let E := fresh "E" in destruct b eqn:E
  end.

(** Rewriting of reads over writes. *)
Ltac arr := autorewrite with oria in *; simpl in *.
