(* ===== verification/Ring.v ===== *)
(** * Ring buffers

    The kernel uses one idiom for every bounded queue: an array of [N] slots, a
    [head] index read next, a [tail] index written next, empty when
    [head == tail] and full when [(tail + 1) % N == head] (so [N - 1] elements
    fit).  It appears in the byte ring and the reader ring of pipe.c, the waiter
    rings of semaphore.c and condvar.c and the message queue of ipc.c.  This file
    relates such a triple to the list of the queued elements, once for all of
    them; the components state their operations on their own fields and use
    these lemmas. *)

From Stdlib Require Import ZArith Lia.
From stdpp Require Import base numbers list tactics.
From S2P Require Import Prelude.

Section ring.
Context {A : Type} `{!Inhabited A} (N : Z).

Definition ring_wf (buf : list A) (head tail : Z) : Prop :=
  zlen buf = N /\ 0 <= head < N /\ 0 <= tail < N.

Definition ring_count (head tail : Z) : Z := (tail - head) mod N.

(** The queued elements, oldest first. *)
Definition ring_items (buf : list A) (head tail : Z) : list A :=
  (fun k => buf.[(head + Z.of_nat k) mod N]) <$> seq 0 (Z.to_nat (ring_count head tail)).

Lemma ring_mod a : 0 <= a < 2 * N -> a mod N = if a <? N then a else a - N.
Proof.
  intros Ha. destruct (Z.ltb_spec a N); [apply Z.mod_small; lia|].
  replace a with (a - N + 1 * N) at 1 by lia. rewrite Z.mod_add by lia.
  apply Z.mod_small. lia.
Qed.

Lemma ring_count_cases head tail :
  0 <= head < N -> 0 <= tail < N ->
  ring_count head tail = if head <=? tail then tail - head else tail - head + N.
Proof.
  intros. unfold ring_count. destruct (Z.leb_spec head tail); [apply Z.mod_small; lia|].
  rewrite <- (Z.mod_add _ 1) by lia. rewrite Z.mul_1_l. apply Z.mod_small. lia.
Qed.

Ltac ring_lia :=
  repeat match goal with
  | |- context [?a mod N] =>
      rewrite (ring_mod a) in * by lia; destruct (Z.ltb_spec a N)
  | H : context [?a mod N] |- _ =>
      rewrite (ring_mod a) in * by lia; destruct (Z.ltb_spec a N)
  | |- context [ring_count ?h ?t] =>
      rewrite (ring_count_cases h t) in * by lia; destruct (Z.leb_spec h t)
  | H : context [ring_count ?h ?t] |- _ =>
      rewrite (ring_count_cases h t) in * by lia; destruct (Z.leb_spec h t)
  end; try lia.

Lemma length_ring_items buf head tail :
  length (ring_items buf head tail) = Z.to_nat (ring_count head tail).
Proof. unfold ring_items. by rewrite length_fmap, length_seq. Qed.

Lemma ring_items_nil buf head tail :
  ring_wf buf head tail -> ring_items buf head tail = [] <-> head = tail.
Proof.
  intros (? & ? & ?). rewrite <- length_zero_iff_nil, length_ring_items.
  split; intros; ring_lia.
Qed.

Lemma ring_full_iff buf head tail :
  ring_wf buf head tail ->
  ((tail + 1) mod N = head <-> zlen (ring_items buf head tail) = N - 1).
Proof.
  intros (? & ? & ?). unfold zlen. rewrite length_ring_items.
  split; intros; ring_lia.
Qed.

Lemma ring_items_bound buf head tail :
  ring_wf buf head tail -> zlen (ring_items buf head tail) <= N - 1.
Proof. intros (? & ? & ?). unfold zlen. rewrite length_ring_items. ring_lia. Qed.

Lemma ring_wf_push buf head tail x :
  ring_wf buf head tail -> ring_wf (buf.[tail <- x]) head ((tail + 1) mod N).
Proof.
  intros (? & ? & ?). repeat split; try lia; [by rewrite zlen_aset|..];
    apply Z.mod_pos_bound; lia.
Qed.

Lemma ring_wf_pop buf buf' head tail :
  zlen buf' = zlen buf ->
  ring_wf buf head tail -> ring_wf buf' ((head + 1) mod N) tail.
Proof.
  intros Hl (? & ? & ?). repeat split; try lia; apply Z.mod_pos_bound; lia.
Qed.

Lemma ring_items_push buf head tail x :
  ring_wf buf head tail -> (tail + 1) mod N <> head ->
  ring_items (buf.[tail <- x]) head ((tail + 1) mod N) = ring_items buf head tail ++ [x].
Proof.
  intros (Hl & Hh & Ht) Hf. unfold ring_items.
  assert (ring_count head ((tail + 1) mod N) = ring_count head tail + 1) as -> by ring_lia.
  assert (0 <= ring_count head tail < N) by ring_lia.
  rewrite Z2Nat.inj_add, seq_app, fmap_app by lia. simpl. f_equal.
  - apply list_fmap_ext. intros k y [-> Hk]%lookup_seq.
    apply aget_aset_ne; [lia|apply Z.mod_pos_bound; lia|].
    assert (0 <= Z.of_nat k < ring_count head tail) by lia. ring_lia.
  - f_equal. rewrite Z2Nat.id by lia.
    replace ((head + ring_count head tail) mod N) with tail by ring_lia.
    apply aget_aset_eq. lia.
Qed.

Lemma ring_items_pop buf buf' head tail :
  ring_wf buf head tail -> head <> tail ->
  (forall i, 0 <= i < N -> i <> head -> buf'.[i] = buf.[i]) ->
  ring_items buf head tail = buf.[head] :: ring_items buf' ((head + 1) mod N) tail.
Proof.
  intros (Hl & Hh & Ht) Hne Heq. unfold ring_items.
  assert (ring_count head tail = 1 + ring_count ((head + 1) mod N) tail) as -> by ring_lia.
  assert (0 <= ring_count ((head + 1) mod N) tail < N - 1) by ring_lia.
  rewrite Z2Nat.inj_add by lia. simpl. f_equal.
  - f_equal. ring_lia.
  - rewrite <- fmap_S_seq, <- list_fmap_compose. apply list_fmap_ext.
    intros k y [-> Hk]%lookup_seq. simpl.
    replace ((head + Z.of_nat (S k)) mod N) with (((head + 1) mod N + Z.of_nat k) mod N).
    2:{ rewrite Zplus_mod_idemp_l. f_equal. lia. }
    symmetry. apply Heq; [apply Z.mod_pos_bound; lia|].
    rewrite Zplus_mod_idemp_l. assert (0 <= Z.of_nat k < N - 1) by lia. ring_lia.
Qed.

Lemma ring_items_empty buf head : ring_items buf head head = [].
Proof. unfold ring_items, ring_count. rewrite Z.sub_diag. by rewrite Zmod_0_l. Qed.

End ring.
