(* ===== verification/Sched.v ===== *)
(** * What the scheduler promises to the rest of the kernel

    The blocking primitives (pipe.c, semaphore.c, condvar.c, mq.c) know task.c
    only through a handful of entry points.  [Scheduler] names them;
    [SchedulerLaws] is the contract the clients' theorems rely on.  Task.v
    discharges it for the task table of task.c. *)

From Stdlib Require Import ZArith Lia.
From stdpp Require Import base numbers list.
From S2P Require Import Prelude.

Definition MAX_TASKS : Z := 32.

Definition TASK_RUNNING : Z := 0.
Definition TASK_BLOCKED : Z := 1.
Definition TASK_SLEEPING : Z := 2.

(** The entry points of task.c the primitives call.  [sch_block] is the part of
    task_block() before its halt loop: the running task becomes TASK_BLOCKED. *)
Class Scheduler (T : Type) := {
  sch_current : T -> Z;
  sch_used    : T -> Z -> bool;
  sch_status  : T -> Z -> Z;
  sch_block   : T -> T;
  sch_unblock : Z -> T -> T;
  sch_yield   : T -> T
}.

Class SchedulerLaws (T : Type) `{!Scheduler T} := {
  sch_wf : T -> Prop;
  sch_current_range t : sch_wf t -> 0 <= sch_current t < MAX_TASKS;
  sch_wf_block t : sch_wf t -> sch_wf (sch_block t);
  sch_wf_unblock i t : sch_wf t -> sch_wf (sch_unblock i t);
  sch_wf_yield t : sch_wf t -> sch_wf (sch_yield t);
  sch_unblock_status i t j : sch_wf t -> 0 <= j < MAX_TASKS ->
    sch_status (sch_unblock i t) j =
      if decide (i = j /\ sch_used t j = true /\ sch_status t j = TASK_BLOCKED)
      then TASK_RUNNING else sch_status t j;
  sch_unblock_used i t j : sch_wf t -> sch_used (sch_unblock i t) j = sch_used t j;
  sch_unblock_current i t : sch_current (sch_unblock i t) = sch_current t;
  sch_block_status t j : sch_wf t -> 0 <= j < MAX_TASKS ->
    sch_status (sch_block t) j =
      if decide (j = sch_current t) then TASK_BLOCKED else sch_status t j;
  sch_block_used t j : sch_wf t -> sch_used (sch_block t) j = sch_used t j;
  sch_block_current t : sch_current (sch_block t) = sch_current t;
  sch_yield_status t j : sch_wf t -> sch_status (sch_yield t) j = sch_status t j;
  sch_yield_used t j : sch_wf t -> sch_used (sch_yield t) j = sch_used t j;
  sch_yield_current t : sch_current (sch_yield t) = sch_current t
}.

(** Waking a list of tasks in order, as the broadcast loops do. *)
Fixpoint sch_unblock_all `{!Scheduler T} (ws : list Z) (t : T) : T :=
  match ws with
  | [] => t
  | w :: ws' => sch_unblock_all ws' (sch_unblock w t)
  end.

Section laws.
Context {T : Type} `{!Scheduler T, !SchedulerLaws T}.

Lemma sch_wf_unblock_all ws : forall t, sch_wf t -> sch_wf (sch_unblock_all ws t).
Proof. induction ws as [|w ws IH]; intros t H; simpl; [done|]. by apply IH, sch_wf_unblock. Qed.

Lemma sch_unblock_all_used ws : forall t j,
  sch_wf t -> sch_used (sch_unblock_all ws t) j = sch_used t j.
Proof.
  induction ws as [|w ws IH]; intros t j H; simpl; [done|].
  rewrite IH by by apply sch_wf_unblock. by apply sch_unblock_used.
Qed.

(** After waking [ws], exactly the used blocked tasks listed in [ws] changed
    status, to TASK_RUNNING. *)
Lemma sch_unblock_all_status ws : forall t j,
  sch_wf t -> 0 <= j < MAX_TASKS ->
  sch_status (sch_unblock_all ws t) j =
    if decide (j ∈ ws /\ sch_used t j = true /\ sch_status t j = TASK_BLOCKED)
    then TASK_RUNNING else sch_status t j.
Proof.
  induction ws as [|w ws IH]; intros t j Hwf Hj; cbn [sch_unblock_all].
  - case_decide as H; [|done]. destruct H as [H _]. by apply not_elem_of_nil in H.
  - rewrite IH by (try apply sch_wf_unblock; done).
    rewrite sch_unblock_used, sch_unblock_status by done.
    pose proof (elem_of_cons ws j w).
    repeat case_decide; naive_solver.
Qed.
End laws.
