(* ===== verification/Task.v ===== *)
(** * task.c: the task table and the scheduler

    The table of [MAX_TASKS] task slots and every operation of task.c that works
    on it alone: the two schedulers (BSP and AP), sleeping, blocking, signals,
    interval timers, priorities and limits, together with timer.c's tick handler
    that drives them.  Process creation and exit, which also touch the memory
    manager and the file descriptors, are in Proc.v. *)

From Stdlib Require Import ZArith Lia.
From stdpp Require Import base numbers list gmap tactics.
From S2P Require Import Prelude Sched.

Module Task.

Definition STACK_SIZE : Z := 8192.
Definition SIGINT : Z := 2.
Definition SIGKILL : Z := 9.
Definition SIGTERM : Z := 15.
Definition SIGALRM : Z := 14.
Definition MM_TLS_BASE : Z := 0x800000.
Definition MM_TLS_PAGE_SIZE : Z := 0x1000.

(** [struct Task] of task.h.  [fpu_state] is the 512-byte FXSAVE image. *)
Record Task := mkTask {
  rsp : Z; used : Z; status : Z; wake_tick : Z; page_dir : Z;
  name : list Z; priority : Z; ticks : Z; pipe_id : Z; cpu_id : Z;
  is_user : Z; is_thread : Z; parent_tid : Z; waiter : Z; heap_end : Z;
  tstack_frames : list Z; pending_signals : Z; exit_code : Z; tls_frame : Z;
  arg_argc : Z; arg_buf : list Z; nice : Z; age_ticks : Z; uid : Z;
  fpu_state : list Z; fpu_valid : Z; itimer_interval : Z; itimer_remaining : Z;
  signal_mask : Z; rlimit_mem : Z; rlimit_fds : Z
}.
#[global] Instance task_settable : Settable Task := {| rebuild t :=
  mkTask (rsp t) (used t) (status t) (wake_tick t) (page_dir t) (name t) (priority t)
    (ticks t) (pipe_id t) (cpu_id t) (is_user t) (is_thread t) (parent_tid t) (waiter t)
    (heap_end t) (tstack_frames t) (pending_signals t) (exit_code t) (tls_frame t)
    (arg_argc t) (arg_buf t) (nice t) (age_ticks t) (uid t) (fpu_state t) (fpu_valid t)
    (itimer_interval t) (itimer_remaining t) (signal_mask t) (rlimit_mem t) (rlimit_fds t) |}.

(** A zeroed slot of the static array. *)
Definition task0 : Task :=
  mkTask 0 0 0 0 0 (replicate 32 0) 0 0 0 0 0 0 0 0 0 (replicate 4 0) 0 0 0 0
    (replicate 512 0) 0 0 0 [] 0 0 0 0 0 0.
#[global] Instance task_inhabited : Inhabited Task := populate task0.

(** The file-scope variables of task.c and timer.c and the CPU registers the
    context switch writes.  [current_rsp] and the like are pointers to the [rsp]
    field of a slot: they are modelled by the slot's index. *)
Record Sys := mkSys {
  tasks : list Task;
  stacks_base : Z;
  current_task : Z;
  task_count : Z;
  exit_codes : list Z;
  has_ap : Z;
  current_task_ap : Z;
  current_rsp : option Z; next_rsp : option Z;
  ap_current_rsp : option Z; ap_next_rsp : option Z;
  tick : Z;
  cr3 : Z; fs_base : Z; fpu : list Z;
  tss_rsp0 : list Z;
  syscall_kstack : Z; syscall_kstack_ap : Z
}.
#[global] Instance sys_settable : Settable Sys := {| rebuild s :=
  mkSys (tasks s) (stacks_base s) (current_task s) (task_count s) (exit_codes s) (has_ap s)
    (current_task_ap s) (current_rsp s) (next_rsp s) (ap_current_rsp s) (ap_next_rsp s)
    (tick s) (cr3 s) (fs_base s) (fpu s) (tss_rsp0 s) (syscall_kstack s) (syscall_kstack_ap s) |}.

(** [tasks[id].f = v] for one or more fields. *)
Definition on_task (id : Z) (f : Task -> Task) (s : Sys) : Sys :=
  s <| tasks := (tasks s).[id <- f (tasks s).[id]] |>.

Definition valid_id (id : Z) : bool := (0 <=? id) && (id <? MAX_TASKS).
Definition is_used (s : Sys) (id : Z) : bool := truth (used (tasks s).[id]).

Definition str_copy_n (dst src : list Z) (n : Z) : list Z := c_strcpy dst src n.

Definition task_init_common (id : Z) : Sys -> Sys := on_task id (fun t =>
  t <| used := 1 |> <| status := TASK_RUNNING |> <| wake_tick := 0 |> <| pipe_id := -1 |>
    <| waiter := -1 |> <| fpu_valid := 0 |> <| itimer_interval := 0 |>
    <| itimer_remaining := 0 |> <| signal_mask := 0 |> <| rlimit_mem := 0 |> <| rlimit_fds := 0 |>).

(** Returns 1 when the running task still has quantum left. *)
Definition task_tick_countdown_or_reset (tid : Z) (s : Sys) : Sys * Z :=
  if tid <? 0 then (s, 0)
  else
    let t := (tasks s).[tid] in
    if truth (used t) && (status t =? TASK_RUNNING) && (1 <? ticks t) then
      (on_task tid (fun t => t <| ticks := ticks t - 1 |>) s, 1)
    else if truth (used t) && (status t =? TASK_RUNNING) then
      (on_task tid (fun t => t <| ticks := priority t |>) s, 0)
    else (s, 0).

Definition task_set_has_ap (v : Z) (s : Sys) : Sys := s <| has_ap := v |>.

(** [base] is what malloc(MAX_TASKS * STACK_SIZE) returned. *)
Definition task_init (base : Z) (s : Sys) : Sys :=
  iter (fun i => on_task i (fun t => t <| used := 0 |> <| status := TASK_RUNNING |> <| wake_tick := 0 |>))
    0 (Z.to_nat MAX_TASKS) (s <| stacks_base := base |>).

(** ["[shell]"] *)
Definition str_shell : list Z := [91; 115; 104; 101; 108; 108; 93].

Definition task_set_main (s : Sys) : Sys :=
  on_task 0 (fun t =>
    t <| used := 1 |> <| status := TASK_RUNNING |> <| wake_tick := 0 |> <| priority := 3 |>
      <| ticks := 3 |> <| pipe_id := -1 |> <| cpu_id := 0 |> <| is_user := 1 |>
      <| page_dir := 0x1000 |> <| name := str_copy_n (name t) str_shell 32 |>)
    (s <| task_count := 1 |>).

(** ** Blocking and waking *)

(** task_block() up to its halt loop [while (status == TASK_BLOCKED) hlt]. *)
Definition task_block (s : Sys) : Sys :=
  on_task (current_task s) (fun t => t <| status := TASK_BLOCKED |>) s.

Definition task_unblock (id : Z) (s : Sys) : Sys :=
  if (0 <=? id) && (id <? MAX_TASKS) && is_used s id && (status (tasks s).[id] =? TASK_BLOCKED)
  then on_task id (fun t => t <| status := TASK_RUNNING |>) s else s.

(** task_sleep() up to its halt loop. *)
Definition task_sleep (ms : Z) (s : Sys) : Sys :=
  let wait_ticks := if 0 <? ms then ms else 1 in
  on_task (current_task s) (fun t =>
    t <| status := TASK_SLEEPING |> <| wake_tick := u32 (tick s + wait_ticks) |>) s.

Definition task_check_sleepers (s : Sys) : Sys :=
  let now := tick s in
  iter (fun i s =>
    if is_used s i && (status (tasks s).[i] =? TASK_SLEEPING) && (wake_tick (tasks s).[i] <=? now)
    then on_task i (fun t => t <| status := TASK_RUNNING |>) s else s)
    0 (Z.to_nat MAX_TASKS) s.

Definition task_yield (s : Sys) : Sys :=
  if status (tasks s).[current_task s] =? TASK_RUNNING
  then on_task (current_task s) (fun t => t <| ticks := 1 |>) s else s.

(** task_wait() up to task_block(): registers the caller with [tid]; [None] when
    it returns at once. *)
Definition task_wait_begin (tid : Z) (s : Sys) : option Sys :=
  if (tid <=? 0) || (MAX_TASKS <=? tid) then None
  else if negb (is_used s tid) then None
  else Some (task_block (on_task tid (fun t => t <| waiter := current_task s |>) s)).
(** ... and the statement after it was woken. *)
Definition task_wait_end (tid : Z) (s : Sys) : Sys :=
  if tid <? MAX_TASKS then on_task tid (fun t => t <| waiter := -1 |>) s else s.

(** ** Signals *)
Definition task_send_signal (tid sig : Z) (s : Sys) : Sys :=
  if (tid <=? 0) || (MAX_TASKS <=? tid) || negb (is_used s tid) then s
  else if (sig <=? 0) || (32 <=? sig) then s
  else
    let s := on_task tid (fun t => t <| pending_signals := Z.lor (pending_signals t) (Z.shiftl 1 sig) |>) s in
    if negb (status (tasks s).[tid] =? TASK_RUNNING) then task_unblock tid s else s.

(** The set bits of a 32-bit word from bit 1 up: [while (sig < 32 && !(masked & (1u << sig))) sig++]. *)
Definition lowest_signal (masked : Z) : Z :=
  default 32 (scan (fun sig => truth (Z.land masked (Z.shiftl 1 sig))) 1 31).

Definition TERM_SIGNALS : Z :=
  Z.lor (Z.lor (Z.shiftl 1 SIGINT) (Z.shiftl 1 SIGKILL)) (Z.shiftl 1 SIGTERM).

(** task_check_signals(): [Some code] when it ends in task_exit_code(code),
    [None] when it returns. *)
Definition task_check_signals (s : Sys) : option Z :=
  let t := (tasks s).[current_task s] in
  let sigs := Z.land (pending_signals t) TERM_SIGNALS in
  if (sigs =? 0) || (is_user t =? 0) then None
  else
    let masked := Z.land sigs (u32 (Z.lnot (signal_mask t))) in
    let masked := Z.lor masked (Z.land sigs (Z.shiftl 1 SIGKILL)) in
    if masked =? 0 then None else Some (128 + lowest_signal masked).

Definition task_set_signal_mask (tid mask : Z) (s : Sys) : Sys :=
  if (tid <? 0) || (MAX_TASKS <=? tid) || negb (is_used s tid) then s
  else on_task tid (fun t => t <| signal_mask := Z.land mask (u32 (Z.lnot (Z.shiftl 1 SIGKILL))) |>) s.

Definition task_get_signal_mask (tid : Z) (s : Sys) : Z :=
  if (tid <? 0) || (MAX_TASKS <=? tid) then 0 else signal_mask (tasks s).[tid].

(** ** Limits, priorities and other attributes *)
Definition task_set_rlimit (tid mem_kb fds : Z) (s : Sys) : Sys :=
  if (tid <? 0) || (MAX_TASKS <=? tid) || negb (is_used s tid) then s
  else on_task tid (fun t => t <| rlimit_mem := mem_kb |> <| rlimit_fds := fds |>) s.

Definition task_get_rlimit (tid : Z) (s : Sys) : option (Z * Z) :=
  if (tid <? 0) || (MAX_TASKS <=? tid) || negb (is_used s tid) then None
  else Some (rlimit_mem (tasks s).[tid], rlimit_fds (tasks s).[tid]).

Definition task_get_exit_code (tid : Z) (s : Sys) : Z :=
  if (tid <? 0) || (MAX_TASKS <=? tid) then -1 else (exit_codes s).[tid].

Definition task_set_name (id : Z) (nm : list Z) (s : Sys) : Sys :=
  if (id <? 0) || (MAX_TASKS <=? id) || negb (is_used s id) then s
  else on_task id (fun t => t <| name := str_copy_n (name t) nm 32 |>) s.

Definition task_is_used (id : Z) (s : Sys) : Z := if valid_id id then used (tasks s).[id] else 0.
Definition task_is_thread (id : Z) (s : Sys) : Z := if valid_id id then is_thread (tasks s).[id] else 0.
Definition task_get_parent (id : Z) (s : Sys) : Z := if valid_id id then parent_tid (tasks s).[id] else -1.
Definition task_get_name (id : Z) (s : Sys) : list Z := if valid_id id then name (tasks s).[id] else [].
Definition task_get_cpu (id : Z) (s : Sys) : Z := if valid_id id then cpu_id (tasks s).[id] else -1.
Definition task_get_priority (id : Z) (s : Sys) : Z := if valid_id id then priority (tasks s).[id] else 0.
Definition task_get_heap_end (id : Z) (s : Sys) : Z := if valid_id id then heap_end (tasks s).[id] else 0.
Definition task_set_heap_end (id e : Z) (s : Sys) : Sys :=
  if valid_id id then on_task id (fun t => t <| heap_end := e |>) s else s.

Definition task_set_priority (id prio : Z) (s : Sys) : Sys * Z :=
  if (id <? 0) || (MAX_TASKS <=? id) || negb (is_used s id) then (s, 0)
  else if (prio <? 1) || (3 <? prio) then (s, 0)
  else (on_task id (fun t => t <| priority := u8 prio |> <| ticks := u8 prio |>) s, 1).

Definition task_get_nice (id : Z) (s : Sys) : Z :=
  if (id <? 0) || (MAX_TASKS <=? id) || negb (is_used s id) then 0 else nice (tasks s).[id].

Definition task_set_nice (id nice_val : Z) (s : Sys) : Sys * Z :=
  if (id <? 0) || (MAX_TASKS <=? id) || negb (is_used s id) then (s, 0)
  else
    let nice_val := if nice_val <? -20 then -20 else nice_val in
    let nice_val := if 19 <? nice_val then 19 else nice_val in
    (on_task id (fun t => t <| nice := i8 nice_val |>) s, 1).

Definition task_get_uid (id : Z) (s : Sys) : Z :=
  if (id <? 0) || (MAX_TASKS <=? id) || negb (is_used s id) then -1 else uid (tasks s).[id].
Definition task_set_uid (id u : Z) (s : Sys) : Sys :=
  if (id <? 0) || (MAX_TASKS <=? id) then s else on_task id (fun t => t <| uid := u |>) s.
Definition task_set_pipe (id p : Z) (s : Sys) : Sys :=
  if valid_id id then on_task id (fun t => t <| pipe_id := p |>) s else s.
Definition task_get_current_pipe (s : Sys) : Z := pipe_id (tasks s).[current_task s].
Definition task_get_rsp0 (id : Z) (s : Sys) : Z :=
  if (id <? 0) || (MAX_TASKS <=? id) then 0 else u64 (stacks_base s + id * STACK_SIZE + STACK_SIZE).
Definition task_get_page_dir (id : Z) (s : Sys) : Z :=
  if (id <? 0) || (MAX_TASKS <=? id) || negb (is_used s id) then 0 else page_dir (tasks s).[id].
Definition tasks_getargc (id : Z) (s : Sys) : Z :=
  if (id <? 0) || (MAX_TASKS <=? id) || negb (is_used s id) then 0 else arg_argc (tasks s).[id].
Definition tasks_getargbuf (id : Z) (s : Sys) : list Z :=
  if (id <? 0) || (MAX_TASKS <=? id) || negb (is_used s id) then [] else arg_buf (tasks s).[id].
Definition task_set_page_dir (id dir : Z) (s : Sys) : Sys :=
  if valid_id id then on_task id (fun t => t <| page_dir := dir |>) s else s.
Definition task_get_status (id : Z) (s : Sys) : Z :=
  if (id <? 0) || (MAX_TASKS <=? id) then -1 else status (tasks s).[id].

(** ** Interval timers *)
Definition task_itimer_tick (s : Sys) : Sys :=
  iter (fun i s =>
    let t := (tasks s).[i] in
    if negb (truth (used t)) || (is_user t =? 0) then s
    else if itimer_interval t =? 0 then s
    else if 0 <? itimer_remaining t then
      let s := on_task i (fun t => t <| itimer_remaining := itimer_remaining t - 1 |>) s in
      if itimer_remaining (tasks s).[i] =? 0 then
        let s := task_send_signal i SIGALRM s in
        on_task i (fun t => t <| itimer_remaining := itimer_interval t |>) s
      else s
    else s)
    0 (Z.to_nat MAX_TASKS) s.

Definition task_set_itimer (tid interval_ms : Z) (s : Sys) : Sys :=
  if (tid <? 0) || (MAX_TASKS <=? tid) || negb (is_used s tid) then s
  else on_task tid (fun t =>
    t <| itimer_interval := interval_ms |> <| itimer_remaining := interval_ms |>) s.

(** timer.c: the IRQ0 handler; [net_tick] stands for net_tcp_tick(), which works
    on the network state [N]. *)
Definition timer_handler {N : Type} (net_tick : N -> N) (s : Sys) (n : N) : Sys * N :=
  let s := s <| tick := u32 (tick s + 1) |> in
  let s := task_check_sleepers s in
  let s := task_itimer_tick s in
  (s, if tick s mod 10 =? 0 then net_tick n else n).

(** ** The BSP scheduler: task_switch() *)

(** The [continue] tests of the selection loop. *)
Definition eligible (s : Sys) (i : Z) : bool :=
  let t := (tasks s).[i] in
  truth (used t) && (status t =? TASK_RUNNING) && (cpu_id t =? -1)
    && negb (i =? current_task s) && negb (truth (has_ap s) && (is_user t =? 0)).

Definition score (t : Task) : Z := priority t * 4 - nice t + Z.shiftr (age_ticks t) 3.

(** First loop: the best candidate and its score. *)
Definition pick (s : Sys) : Z * Z :=
  iter (fun i acc =>
    if eligible s i then
      (let sc := score (tasks s).[i] in if snd acc <? sc then (i, sc) else acc)
    else acc)
    0 (Z.to_nat MAX_TASKS) (-1, -9999).

(** Second loop: the tasks passed over grow older (saturating). *)
Definition ages (s : Sys) (best i : Z) : bool :=
  let t := (tasks s).[i] in
  truth (used t) && (status t =? TASK_RUNNING) && (cpu_id t =? -1)
    && negb (i =? best) && negb (i =? current_task s).

Definition age_task (t : Task) : Task :=
  if age_ticks t <? 0xFFFFFFFF then t <| age_ticks := age_ticks t + 1 |> else t.

Definition age_all (best : Z) (s : Sys) : Sys :=
  iter (fun i s => if ages s best i then on_task i age_task s else s) 0 (Z.to_nat MAX_TASKS) s.

Definition kstack_of (id : Z) (s : Sys) : Z := u64 (stacks_base s + id * STACK_SIZE + STACK_SIZE).
Definition tls_va (id : Z) : Z := MM_TLS_BASE + id * MM_TLS_PAGE_SIZE.

Section switch.
(** What the [fninit] instruction does to the FPU registers. *)
Variable fninit : list Z -> list Z.

Definition fpu_switch (old next : Z) (s : Sys) : Sys :=
  let s := on_task old (fun t => t <| fpu_state := fpu s |> <| fpu_valid := 1 |>) s in
  if truth (fpu_valid (tasks s).[next])
  then s <| fpu := fpu_state (tasks s).[next] |>
  else s <| fpu := fninit (fpu s) |>.

Definition load_address_space (id : Z) (s : Sys) : Sys :=
  let s := if truth (page_dir (tasks s).[id]) then s <| cr3 := page_dir (tasks s).[id] |> else s in
  if truth (tls_frame (tasks s).[id]) then s <| fs_base := tls_va id |> else s.

(** The switch proper: release the old task, claim the new one, swap FPU state,
    kernel stacks, address space and FS base. *)
Definition switch_to (next : Z) (s : Sys) : Sys :=
  let old_task := current_task s in
  let s := on_task old_task (fun t => t <| cpu_id := -1 |>) s in
  let s := on_task next (fun t => t <| cpu_id := 0 |> <| age_ticks := 0 |>) s in
  let s := s <| current_rsp := Some old_task |> <| next_rsp := Some next |> in
  let s := fpu_switch old_task next s in
  let s := s <| current_task := next |> in
  let kstack_top := kstack_of next s in
  let s := s <| tss_rsp0 := (tss_rsp0 s).[0 <- kstack_top] |> <| syscall_kstack := kstack_top |> in
  load_address_space next s.

Definition task_switch (s : Sys) : Sys :=
  let s := s <| current_rsp := None |> <| next_rsp := None |> in
  if task_count s <? 2 then s
  else
    let '(s, running) := task_tick_countdown_or_reset (current_task s) s in
    if truth running then s
    else
      let next := fst (pick s) in
      let s := age_all next s in
      if (next <? 0) || negb (is_used s next) || negb (status (tasks s).[next] =? TASK_RUNNING)
         || negb (cpu_id (tasks s).[next] =? -1) || (next =? current_task s)
      then s
      else switch_to next s.

(** ** The AP scheduler: task_switch_ap() *)

(** [for (i = 0; i < MAX_TASKS; i++) { if (f(next)) break; next = (next+1) % MAX_TASKS; }]
    [None] when the loop runs to its end (then [next] is back at [start]). *)
Definition scan_from (f : Z -> bool) (start : Z) : option Z :=
  (fun i => (start + i) mod MAX_TASKS) <$>
    scan (fun i => f ((start + i) mod MAX_TASKS)) 0 (Z.to_nat MAX_TASKS).

(** [if (current_task_ap >= 0 && tasks[current_task_ap].used) tasks[current_task_ap].cpu_id = v;] *)
Definition set_ap_cpu (v : Z) (s : Sys) : Sys :=
  let cur := current_task_ap s in
  if (0 <=? cur) && is_used s cur then on_task cur (fun t => t <| cpu_id := v |>) s else s.

(** The switch proper on the AP. *)
Definition switch_ap_to (cpu_idx next : Z) (s : Sys) : Sys :=
  let old_ap := current_task_ap s in
  let s := set_ap_cpu (-1) s in
  let s := on_task next (fun t => t <| cpu_id := i8 cpu_idx |>) s in
  let s := if (0 <=? old_ap) && is_used s old_ap then s <| ap_current_rsp := Some old_ap |> else s in
  let s := s <| ap_next_rsp := Some next |> <| current_task_ap := next |> in
  let kstack := kstack_of next s in
  let s := s <| tss_rsp0 := (tss_rsp0 s).[cpu_idx <- kstack] |> in
  let s := if truth (is_user (tasks s).[next]) then s <| syscall_kstack_ap := kstack |> else s in
  let s := if (0 <=? old_ap) && is_used s old_ap
           then on_task old_ap (fun t => t <| fpu_state := fpu s |> <| fpu_valid := 1 |>) s else s in
  let s := if truth (fpu_valid (tasks s).[next])
           then s <| fpu := fpu_state (tasks s).[next] |> else s <| fpu := fninit (fpu s) |> in
  load_address_space next s.

Definition task_switch_ap (cpu_idx : Z) (s : Sys) : Sys :=
  let s := s <| ap_current_rsp := None |> <| ap_next_rsp := None |> in
  if task_count s <? 1 then s
  else
    let '(s, running) := task_tick_countdown_or_reset (current_task_ap s) s in
    if truth running then s
    else
      let cur := current_task_ap s in
      let start := if 0 <=? cur then (cur + 1) mod MAX_TASKS else 0 in
      let ring0 i := is_used s i && (status (tasks s).[i] =? TASK_RUNNING) && (is_user (tasks s).[i] =? 0) in
      let pass1 := scan_from (fun i => ring0 i && (cpu_id (tasks s).[i] =? i8 cpu_idx) && negb (i =? cur)) start in
      let pass2 := scan_from (fun i => ring0 i && (cpu_id (tasks s).[i] =? -1)) start in
      match (match pass1 with Some i => Some i | None => pass2 end) with
      | Some next => if next =? cur then set_ap_cpu (i8 cpu_idx) s else switch_ap_to cpu_idx next s
      | None => set_ap_cpu (i8 cpu_idx) s
      end.
End switch.

(** ** Well-formedness *)
Definition wf (s : Sys) : Prop := zlen (tasks s) = MAX_TASKS /\ 0 <= current_task s < MAX_TASKS.

Lemma tasks_on_task id f s : tasks (on_task id f s) = (tasks s).[id <- f (tasks s).[id]].
Proof. done. Qed.

Lemma get_on_task id f s j :
  wf s -> 0 <= id < MAX_TASKS -> 0 <= j ->
  (tasks (on_task id f s)).[j] = if decide (id = j) then f (tasks s).[j] else (tasks s).[j].
Proof.
  intros [Hl _] Hi Hj. rewrite tasks_on_task. rewrite aget_aset by lia.
  by case_decide; subst.
Qed.

Lemma get_on_task_eq id f s :
  wf s -> 0 <= id < MAX_TASKS -> (tasks (on_task id f s)).[id] = f (tasks s).[id].
Proof. intros. rewrite get_on_task by (done || lia). by case_decide. Qed.

Lemma get_on_task_ne id f s j :
  0 <= id -> 0 <= j -> id <> j -> (tasks (on_task id f s)).[j] = (tasks s).[j].
Proof. intros. rewrite tasks_on_task. by apply aget_aset_ne. Qed.

Lemma wf_on_task id f s : wf s -> wf (on_task id f s).
Proof. intros [Hl Hc]. split; [|done]. simpl. by rewrite zlen_aset. Qed.
#[export] Hint Resolve wf_on_task : oria.

(** ** The scheduler interface

    task.c keeps the contract of [SchedulerLaws]. *)
#[global] Instance task_scheduler : Scheduler Sys := {
  sch_current := current_task;
  sch_used s i := truth (task_is_used i s);
  sch_status s i := status (tasks s).[i];
  sch_block := task_block;
  sch_unblock := task_unblock;
  sch_yield := task_yield
}.

Lemma wf_unblock id s : wf s -> wf (task_unblock id s).
Proof. intros. unfold task_unblock. case_if; auto with oria. Qed.

Lemma unblock_status id s j :
  wf s -> 0 <= j < MAX_TASKS ->
  status (tasks (task_unblock id s)).[j] =
    if decide (id = j /\ truth (task_is_used j s) = true /\ status (tasks s).[j] = TASK_BLOCKED)
    then TASK_RUNNING else status (tasks s).[j].
Proof.
  intros Hwf Hj. unfold task_unblock, is_used, task_is_used, valid_id.
  replace ((0 <=? j) && (j <? MAX_TASKS)) with true by (symmetry; apply andb_true_intro; lia).
  case_if.
  - bool_to_prop. rewrite get_on_task by (done || lia).
    repeat case_decide; subst; simpl; naive_solver.
  - case_decide as H; [|done]. destruct H as (-> & Hu & Hst).
    rewrite Hu, Hst in E. unfold TASK_BLOCKED in E. lia.
Qed.

Lemma used_on_task id f s j :
  wf s -> (forall t, used (f t) = used t) ->
  task_is_used j (on_task id f s) = task_is_used j s.
Proof.
  intros [Hl _] Hf. unfold task_is_used, valid_id. case_if; [|done]. bool_to_prop.
  rewrite tasks_on_task. unfold aset, aget.
  destruct (decide (Z.to_nat id = Z.to_nat j)) as [->|].
  - rewrite list_lookup_total_insert_eq; [apply Hf|]. unfold zlen in Hl. lia.
  - by rewrite list_lookup_total_insert_ne.
Qed.

#[global] Instance task_scheduler_laws : SchedulerLaws Sys.
Proof.
  refine {| sch_wf := wf |};
    cbn [sch_current sch_used sch_status sch_block sch_unblock sch_yield task_scheduler].
  - by intros t [_ ?].
  - intros. by apply wf_on_task.
  - intros. by apply wf_unblock.
  - intros t Hwf. unfold task_yield. case_if; auto with oria.
  - intros. by apply unblock_status.
  - intros i t j Hwf. unfold task_unblock. case_if; [|done]. by rewrite used_on_task.
  - intros i t. unfold task_unblock. by case_if.
  - intros t j Hwf Hj. pose proof Hwf as [_ Hc]. unfold task_block.
    rewrite get_on_task by (done || lia). repeat case_decide; subst; naive_solver.
  - intros t j Hwf. unfold task_block. by rewrite used_on_task.
  - done.
  - intros t j Hwf. pose proof Hwf as [_ Hc]. unfold task_yield. case_if; [|done].
    rewrite tasks_on_task. unfold aget, aset.
    destruct (decide (Z.to_nat (current_task t) = Z.to_nat j)) as [<-|].
    + rewrite list_lookup_total_insert_eq; [done|]. destruct Hwf as [Hl _]. unfold zlen in Hl. lia.
    + by rewrite list_lookup_total_insert_ne.
  - intros t j Hwf. unfold task_yield. case_if; [|done]. by rewrite used_on_task.
  - intros t. unfold task_yield. by case_if.
Defined.

(** ** Correctness of the selection *)

(** The ranges of the machine-width fields the score is computed from. *)
Definition fields_ok (t : Task) : Prop :=
  0 <= priority t < 256 /\ -128 <= nice t < 128 /\ 0 <= age_ticks t < 4294967296.
Definition all_fields_ok (s : Sys) : Prop := Forall fields_ok (tasks s).

Lemma fields_ok_get s i : wf s -> all_fields_ok s -> 0 <= i < MAX_TASKS -> fields_ok (tasks s).[i].
Proof. intros [Hl _] Hf Hi. unfold all_fields_ok in Hf. rewrite Forall_aget in Hf. apply Hf. lia. Qed.

Lemma score_bound t : fields_ok t -> -9999 < score t.
Proof.
  intros (? & ? & ?). unfold score. rewrite Z.shiftr_div_pow2 by lia.
  assert (0 <= age_ticks t / 2 ^ 3) by (apply Z.div_pos; lia). lia.
Qed.

(** [b] is the candidate the selection loop must return: an eligible task of
    maximal score, the lowest-numbered one among equals. *)
Definition best_choice (s : Sys) (b : Z) : Prop :=
  0 <= b < MAX_TASKS /\ eligible s b = true /\
  forall j, 0 <= j < MAX_TASKS -> eligible s j = true ->
    score (tasks s).[j] <= score (tasks s).[b] /\
    (j < b -> score (tasks s).[j] < score (tasks s).[b]).

Lemma pick_spec s :
  wf s -> all_fields_ok s ->
  (fst (pick s) = -1 /\ forall j, 0 <= j < MAX_TASKS -> eligible s j = false) \/
  best_choice s (fst (pick s)).
Proof.
  intros Hwf Hf.
  pose (P (i : Z) (acc : Z * Z) :=
    (acc = (-1, -9999) /\ forall j, 0 <= j < i -> eligible s j = false) \/
    (0 <= fst acc < i /\ eligible s (fst acc) = true /\ snd acc = score (tasks s).[fst acc] /\
     forall j, 0 <= j < i -> eligible s j = true ->
       score (tasks s).[j] <= snd acc /\ (j < fst acc -> score (tasks s).[j] < snd acc))).
  assert (P (0 + Z.of_nat (Z.to_nat MAX_TASKS)) (pick s)) as H.
  { unfold pick. apply (iter_ind P); [left; split; [done|lia]|].
    change (Z.of_nat _) with MAX_TASKS.
    intros i [b sc] Hi HP. unfold P in *. simpl in *.
    pose proof (score_bound _ (fields_ok_get s i Hwf Hf ltac:(lia))) as Hsc.
    destruct (eligible s i) eqn:Ei.
    - destruct HP as [[Heq Hn]|(Hb & Heb & Hs & Hmax)]; simplify_eq/=.
      + right. destruct (Z.ltb_spec (-9999) (score (tasks s).[i])); [|lia]. simpl.
        repeat split; try done; try lia; intros; destruct (decide (j = i)); subst; try lia;
          rewrite Hn in *; done || lia.
      + right. destruct (Z.ltb_spec (score (tasks s).[b]) (score (tasks s).[i])); simpl;
          (repeat split; try done; try lia); intros; destruct (decide (j = i)); subst; try lia;
          destruct (Hmax j ltac:(lia)); auto; lia.
    - destruct HP as [[Heq Hn]|(Hb & Heb & Hs & Hmax)]; simplify_eq/=.
      + left. split; [done|]. intros j Hj. destruct (decide (j = i)); subst; [done|]. apply Hn. lia.
      + right. repeat split; try done; try lia; intros; destruct (decide (j = i)); subst; try congruence;
          destruct (Hmax j ltac:(lia)); auto; lia. }
  change (0 + _) with MAX_TASKS in H. unfold P in H.
  destruct H as [[-> Hn]|(Hb & Heb & Hs & Hmax)]; [left; auto|right].
  unfold best_choice. rewrite <- Hs. auto.
Qed.

(** The ageing loop touches exactly the eligible-but-not-chosen tasks. *)
Lemma age_all_spec best s :
  wf s ->
  wf (age_all best s) /\
  (forall j, 0 <= j < MAX_TASKS ->
     (tasks (age_all best s)).[j] = if ages s best j then age_task (tasks s).[j] else (tasks s).[j]) /\
  age_all best s = s <| tasks := tasks (age_all best s) |>.
Proof.
  intros Hwf.
  pose (P (i : Z) (s' : Sys) :=
    wf s' /\ s' = s <| tasks := tasks s' |> /\
    forall j, 0 <= j < MAX_TASKS ->
      (tasks s').[j] = if (j <? i) && ages s best j then age_task (tasks s).[j] else (tasks s).[j]).
  assert (P (0 + Z.of_nat (Z.to_nat MAX_TASKS)) (age_all best s)) as (H1 & H2 & H3).
  { unfold age_all. apply (iter_ind P).
    - split; [done|]. split; [by destruct s|]. intros j Hj.
      destruct (Z.ltb_spec j 0); [lia|done].
    - change (Z.of_nat _) with MAX_TASKS. intros i s' Hi (Hw & Hs & Hj).
      assert (ages s' best i = ages s best i) as Ha.
      { unfold ages. rewrite Hj by lia. rewrite Z.ltb_irrefl. simpl. by rewrite Hs. }
      rewrite Ha. unfold P. destruct (ages s best i) eqn:Ei.
      + split; [auto with oria|]. split; [rewrite Hs; by destruct s'|].
        intros j Hjr. rewrite get_on_task by (done || lia). rewrite Hj by lia.
        case_decide; subst.
        * rewrite Z.ltb_irrefl, Ei. destruct (Z.ltb_spec j (j + 1)); [done|lia].
        * destruct (Z.ltb_spec j i), (Z.ltb_spec j (i + 1)); try lia; done.
      + split; [done|]. split; [done|]. intros j Hjr. rewrite Hj by lia.
        destruct (decide (j = i)); subst.
        * rewrite Ei. by rewrite !andb_false_r.
        * destruct (Z.ltb_spec j i), (Z.ltb_spec j (i + 1)); try lia; done. }
  change (0 + _) with MAX_TASKS in H3.
  split; [done|]. split; [|done]. intros j Hj. rewrite H3 by done.
  destruct (Z.ltb_spec j MAX_TASKS); [done|lia].
Qed.

(** ** One scheduling round *)
Definition expired (s : Sys) : Prop :=
  snd (task_tick_countdown_or_reset (current_task s) s) = 0.

(** Two slots that differ at most in the remaining quantum. *)
Definition same_but_ticks (t t' : Task) : Prop := t' = t <| ticks := ticks t' |>.

Lemma countdown_spec s :
  wf s -> let s' := fst (task_tick_countdown_or_reset (current_task s) s) in
  wf s' /\ s' = s <| tasks := tasks s' |> /\
  forall j, 0 <= j < MAX_TASKS -> same_but_ticks (tasks s).[j] (tasks s').[j].
Proof.
  intros Hwf. pose proof Hwf as [_ Hc]. unfold task_tick_countdown_or_reset, same_but_ticks.
  destruct (Z.ltb_spec (current_task s) 0); [lia|]. cbv zeta.
  repeat case_if; simpl fst.
  1, 2: split; [by apply wf_on_task|]; split; [by destruct s|];
    intros j Hj; rewrite get_on_task by (done || lia); case_decide; by destruct (tasks s).[j].
  split; [done|]. split; [by destruct s|]. intros. by destruct (tasks s).[j].
Qed.

Lemma same_eligible s s' :
  s' = s <| tasks := tasks s' |> ->
  (forall j, 0 <= j < MAX_TASKS -> same_but_ticks (tasks s).[j] (tasks s').[j]) ->
  forall j, 0 <= j < MAX_TASKS ->
    eligible s' j = eligible s j /\ score (tasks s').[j] = score (tasks s).[j].
Proof.
  intros Hs Ht j Hj. unfold eligible, score. rewrite Hs. simpl.
  rewrite (Ht j Hj). done.
Qed.

Lemma eligible_true s i :
  eligible s i = true ->
  truth (used (tasks s).[i]) = true /\ status (tasks s).[i] = TASK_RUNNING /\
  cpu_id (tasks s).[i] = -1 /\ i <> current_task s.
Proof. unfold eligible. intros H. by bool_to_prop. Qed.

Section switch_facts.
Variable fninit : list Z -> list Z.

Lemma load_address_space_frame id s :
  tasks (load_address_space id s) = tasks s /\
  current_task (load_address_space id s) = current_task s /\
  current_rsp (load_address_space id s) = current_rsp s /\
  next_rsp (load_address_space id s) = next_rsp s /\
  tss_rsp0 (load_address_space id s) = tss_rsp0 s /\
  syscall_kstack (load_address_space id s) = syscall_kstack s /\
  (page_dir (tasks s).[id] <> 0 -> cr3 (load_address_space id s) = page_dir (tasks s).[id]).
Proof.
  unfold load_address_space, truth.
  destruct (Z.eqb_spec (page_dir (tasks s).[id]) 0);
    simpl negb; cbv iota zeta; simpl; case_if; done.
Qed.

Lemma fpu_switch_frame old next s :
  tasks (fpu_switch fninit old next s) =
    tasks (on_task old (fun t => t <| fpu_state := fpu s |> <| fpu_valid := 1 |>) s) /\
  stacks_base (fpu_switch fninit old next s) = stacks_base s /\
  current_rsp (fpu_switch fninit old next s) = current_rsp s /\
  next_rsp (fpu_switch fninit old next s) = next_rsp s.
Proof.
  unfold fpu_switch. set (s1 := on_task _ _ _). cbv zeta.
  destruct (truth (fpu_valid (tasks s1).[next])); repeat split.
Qed.

Lemma switch_to_effect next s :
  wf s -> 0 <= next < MAX_TASKS -> next <> current_task s ->
  let s' := switch_to fninit next s in
  wf s' /\ current_task s' = next /\
  current_rsp s' = Some (current_task s) /\ next_rsp s' = Some next /\
  syscall_kstack s' = kstack_of next s /\
  (page_dir (tasks s).[next] <> 0 -> cr3 s' = page_dir (tasks s).[next]) /\
  forall j, 0 <= j < MAX_TASKS ->
    cpu_id (tasks s').[j] = (if decide (j = next) then 0 else
      if decide (j = current_task s) then -1 else cpu_id (tasks s).[j]) /\
    age_ticks (tasks s').[j] = (if decide (j = next) then 0 else age_ticks (tasks s).[j]) /\
    used (tasks s').[j] = used (tasks s).[j].
Proof.
  intros Hwf Hn Hne. pose proof Hwf as [_ Hc]. unfold switch_to. cbv zeta.
  set (s2 := on_task next _ (on_task (current_task s) _ s)).
  assert (wf s2) as Hw2 by (unfold s2; auto with oria).
  set (s2' := s2 <| current_rsp := _ |> <| next_rsp := _ |>).
  destruct (fpu_switch_frame (current_task s) next s2') as (F1 & F2 & F3 & F4).
  set (s3 := fpu_switch _ _ _ _) in *. clearbody s3.
  change (tasks s2') with (tasks s2) in *.
  assert (forall f j, 0 <= j < MAX_TASKS ->
    (tasks (on_task (current_task s) f s2')).[j] =
      if decide (current_task s = j) then f (tasks s2).[j] else (tasks s2).[j]) as G.
  { intros f j Hj. apply (get_on_task (current_task s) f s2'); [exact Hw2|lia|lia]. }
  set (s5 := upd syscall_kstack _ _).
  destruct (load_address_space_frame next s5) as (L1 & L2 & L3 & L4 & L5 & L6 & L7).
  assert (tasks s5 = tasks s3) as T5 by reflexivity.
  assert (forall j, 0 <= j < MAX_TASKS -> exists t,
    (tasks s5).[j] = t /\
    cpu_id t = (if decide (j = next) then 0 else
      if decide (j = current_task s) then -1 else cpu_id (tasks s).[j]) /\
    age_ticks t = (if decide (j = next) then 0 else age_ticks (tasks s).[j]) /\
    used t = used (tasks s).[j] /\ page_dir t = page_dir (tasks s).[j]) as Hj.
  { intros j Hj. eexists. split; [reflexivity|]. rewrite T5, F1, G by done. unfold s2.
    rewrite !get_on_task by (auto with oria || lia).
    repeat case_decide; subst; simpl; (done || lia || congruence). }
  rewrite L1, L2, L3, L4, L6. split.
  { split; [|by rewrite L2]. rewrite L1, T5, F1, tasks_on_task, zlen_aset. apply Hw2. }
  split; [reflexivity|]. split; [exact F3|]. split; [exact F4|].
  split.
  { transitivity (kstack_of next s3); [reflexivity|]. unfold kstack_of. by rewrite F2. }
  split.
  { intros Hpd. destruct (Hj next Hn) as (t & Ht & _ & _ & _ & Hp). rewrite <- Hp, <- Ht in *.
    by apply L7. }
  intros j Hjr. destruct (Hj j Hjr) as (t & -> & ? & ? & ? & _). done.
Qed.

(** The effect of task_switch() once the quantum is used up. *)
Lemma switch_effect s :
  wf s -> all_fields_ok s -> 2 <= task_count s -> expired s ->
  let s' := task_switch fninit s in
  wf s' /\
  (((forall j, 0 <= j < MAX_TASKS -> eligible s j = false) /\
     current_task s' = current_task s /\ next_rsp s' = None /\
     forall j, 0 <= j < MAX_TASKS ->
       age_ticks (tasks s).[j] <= age_ticks (tasks s').[j] <= age_ticks (tasks s).[j] + 1) \/
   exists b, best_choice s b /\ current_task s' = b /\
     current_rsp s' = Some (current_task s) /\ next_rsp s' = Some b /\
     cpu_id (tasks s').[b] = 0 /\ cpu_id (tasks s').[current_task s] = -1 /\
     age_ticks (tasks s').[b] = 0 /\
     syscall_kstack s' = kstack_of b s /\
     (page_dir (tasks s).[b] <> 0 -> cr3 s' = page_dir (tasks s).[b]) /\
     (forall j, 0 <= j < MAX_TASKS -> j <> b ->
        age_ticks (tasks s).[j] <= age_ticks (tasks s').[j] <= age_ticks (tasks s).[j] + 1) /\
     (forall j, 0 <= j < MAX_TASKS -> j <> b -> eligible s j = true ->
        age_ticks (tasks s').[j] = Z.min (age_ticks (tasks s).[j] + 1) 0xFFFFFFFF)).
Proof.
  intros Hwf Hf Hcnt Hexp s'. unfold s', task_switch. clear s'.
  change (task_count (s <| current_rsp := None |> <| next_rsp := None |>)) with (task_count s).
  destruct (Z.ltb_spec (task_count s) 2); [lia|].
  set (sr := s <| current_rsp := None |> <| next_rsp := None |>).
  assert (wf sr) as Hwr by done.
  assert (expired sr) as Her.
  { unfold expired, task_tick_countdown_or_reset in *. simpl in *. by repeat case_if. }
  pose proof (countdown_spec sr Hwr) as Hcd. cbv zeta in Hcd. unfold expired in Her.
  change (current_task sr) with (current_task s) in *.
  destruct (task_tick_countdown_or_reset (current_task s) sr) as [s0 r]. simpl in Her, Hcd. subst r.
  destruct Hcd as (Hw0 & Hs0 & Ht0). cbn [truth Z.eqb negb].
  assert (all_fields_ok s0) as Hf0.
  { apply Forall_aget. destruct Hw0 as [Hl0 _]. intros j Hj. rewrite Hl0 in Hj.
    rewrite (Ht0 j Hj). pose proof (fields_ok_get s j Hwf Hf Hj) as Hfo. destruct (tasks s).[j]; exact Hfo. }
  assert (forall j, 0 <= j < MAX_TASKS ->
    eligible s0 j = eligible s j /\ score (tasks s0).[j] = score (tasks s).[j]) as Hel
    by (intros j Hj; by apply (same_eligible sr s0)).
  assert (current_task s0 = current_task s) as Hc0 by by rewrite Hs0.
  pose proof (age_all_spec (fst (pick s0)) s0 Hw0) as (Hw1 & Ht1 & Hs1).
  set (s1 := age_all (fst (pick s0)) s0) in *. clearbody s1.
  assert (current_task s1 = current_task s /\ next_rsp s1 = None) as [Hc1 Hn1].
  { rewrite Hs1. simpl. split; [done|]. by rewrite Hs0. }
  assert (forall j, 0 <= j < MAX_TASKS -> age_ticks (tasks s0).[j] = age_ticks (tasks s).[j] /\
     cpu_id (tasks s0).[j] = cpu_id (tasks s).[j] /\ page_dir (tasks s0).[j] = page_dir (tasks s).[j]) as Hage0.
  { intros j Hj. by rewrite (Ht0 j Hj). }
  assert (forall j, 0 <= j < MAX_TASKS ->
    age_ticks (tasks s).[j] <= age_ticks (tasks s1).[j] <= age_ticks (tasks s).[j] + 1) as Hage1.
  { intros j Hj. rewrite Ht1 by done. destruct (Hage0 j Hj) as (<- & _).
    case_if; [|lia]. unfold age_task. case_if; simpl; lia. }
  destruct (pick_spec s0 Hw0 Hf0) as [[Hp Hnone]|Hbest].
  - rewrite Hp. simpl orb. cbv iota. split; [done|]. left.
    split; [intros j Hj; destruct (Hel j Hj) as [<- _]; by apply Hnone|].
    done.
  - set (b := fst (pick s0)) in *. clearbody b.
    destruct Hbest as (Hb & Heb & Hmax).
    assert (best_choice s b) as Hbs.
    { split; [done|]. destruct (Hel b Hb) as [He Hsc]. split; [congruence|].
      intros j Hj Hej. destruct (Hel j Hj) as [He' Hsc']. rewrite <- Hsc, <- Hsc'.
      apply Hmax; congruence. }
    assert (ages s0 b b = false) as Hab by (unfold ages; rewrite Z.eqb_refl; simpl; by rewrite andb_false_r).
    pose proof (Ht1 b Hb) as Htb. rewrite Hab in Htb.
    destruct (eligible_true _ _ Heb) as (Hu & Hst & Hcp & Hnc).
    unfold is_used. rewrite Htb.
    match goal with |- context [if ?c then _ else _] => replace c with false end.
    2:{ symmetry. rewrite Hu, Hst, Hcp, Hc1. simpl. lia. }
    destruct (switch_to_effect b s1 Hw1 Hb ltac:(congruence)) as (W & Ec & Er & En & Ek & Ep & Ej).
    rewrite Hc1 in *.
    assert (forall j, 0 <= j < MAX_TASKS -> age_ticks (tasks (switch_to fninit b s1)).[j] =
      if decide (j = b) then 0 else age_ticks (tasks s1).[j]) as Ha5
      by (intros j Hj; by destruct (Ej j Hj) as (_ & ? & _)).
    split; [done|]. right. exists b. split; [done|]. split; [done|]. split; [done|]. split; [done|].
    split; [rewrite (proj1 (Ej b Hb)); by case_decide|].
    split.
    { rewrite (proj1 (Ej (current_task s) ltac:(apply Hwf))).
      repeat case_decide; try done. exfalso. apply Hnc. by rewrite Hc0. }
    split; [rewrite Ha5 by done; by case_decide|].
    split; [rewrite Ek; unfold kstack_of; by rewrite Hs1; simpl; rewrite Hs0|].
    split.
    { destruct (Hage0 b Hb) as (_ & _ & Hpb). rewrite <- Hpb, <- Htb. done. }
    split.
    + intros j Hj Hne. rewrite Ha5 by done. case_decide; [done|]. by apply Hage1.
    + intros j Hj Hne Hej. rewrite Ha5 by done. case_decide; [done|].
      rewrite Ht1 by done. destruct (Hage0 j Hj) as (Hag & _).
      destruct (Hel j Hj) as [Hej0 _]. rewrite Hej in Hej0.
      destruct (eligible_true _ _ Hej0) as (Hu' & Hst' & Hcp' & Hnc').
      assert (ages s0 b j = true) as ->.
      { unfold ages. rewrite Hu', Hst', Hcp'. simpl. lia. }
      pose proof (fields_ok_get s j Hwf Hf Hj) as (_ & _ & Hr).
      unfold age_task. case_if; bool_to_prop; simpl; lia.
Qed.
End switch_facts.

(** ** Bounded waiting *)
Section fairness.
Variable fninit : list Z -> list Z.

(** The static part of the score. *)
Definition base (t : Task) : Z := priority t * 4 - nice t.

(** What may happen between two rounds while task [i] waits: anything that keeps
    the table well formed, leaves the ages alone, keeps [i] eligible with a
    static score of at least [b0] and every static score at most [B], until the
    running task's quantum is used up. *)
Definition waiting (i B b0 : Z) (s s1 : Sys) : Prop :=
  wf s1 /\ all_fields_ok s1 /\ 2 <= task_count s1 /\ expired s1 /\ eligible s1 i = true /\
  b0 <= base (tasks s1).[i] /\
  forall j, 0 <= j < MAX_TASKS ->
    age_ticks (tasks s1).[j] = age_ticks (tasks s).[j] /\ base (tasks s1).[j] <= B.

(** [i] is passed over in the first [N] rounds of the run [f]. *)
Definition passed_over (i B b0 : Z) (f : nat -> Sys) (N : nat) : Prop :=
  forall n, (n < N)%nat -> exists s1,
    waiting i B b0 (f n) s1 /\ f (S n) = task_switch fninit s1 /\ current_task (f (S n)) <> i.

Lemma round_ages i B b0 s s1 :
  0 <= i < MAX_TASKS -> waiting i B b0 s s1 ->
  let s' := task_switch fninit s1 in
  current_task s' <> i ->
  let c := current_task s' in
  0 <= c < MAX_TASKS /\
  age_ticks (tasks s).[i] <= age_ticks (tasks s).[c] + 8 * (B - b0) + 7 /\
  age_ticks (tasks s').[c] = 0 /\
  (forall j, 0 <= j < MAX_TASKS -> j <> c -> age_ticks (tasks s').[j] <= age_ticks (tasks s).[j] + 1) /\
  age_ticks (tasks s').[i] = Z.min (age_ticks (tasks s).[i] + 1) 0xFFFFFFFF.
Proof.
  intros Hi (Hwf & Hf & Hcnt & Hexp & Hel & Hb0 & Hall) s' Hne.
  destruct (switch_effect fninit s1 Hwf Hf Hcnt Hexp) as (Hw' & [(Hno & _)|(b & Hbest & Hc & _ & _ & _ & _ & Ha & _ & _ & Hle & Hage)]).
  { rewrite Hno in Hel by done. done. }
  fold s' in Hc, Ha, Hle, Hage. rewrite Hc in *. destruct Hbest as (Hb & Heb & Hmax).
  split; [done|]. destruct (Hmax i Hi Hel) as [Hsc _]. unfold score in Hsc.
  destruct (Hall i Hi) as [Hai _]. destruct (Hall b Hb) as [Hab HB].
  fold (base (tasks s1).[i]) (base (tasks s1).[b]) in Hsc.
  rewrite !Z.shiftr_div_pow2 in Hsc by lia. rewrite Hai, Hab in Hsc. change (2 ^ 3) with 8 in Hsc.
  split; [Z.div_mod_to_equations; lia|]. split; [done|]. split.
  - intros j Hj Hjb. destruct (Hall j Hj) as [<- _]. by apply Hle.
  - rewrite <- Hai. by apply Hage.
Qed.

Lemma waiter_age i B b0 f N :
  0 <= i < MAX_TASKS -> passed_over i B b0 f N -> Z.of_nat N < 4294967295 ->
  (forall n, age_ticks (tasks (f n)).[i] >= 0) ->
  forall n, (n <= N)%nat -> Z.of_nat n <= age_ticks (tasks (f n)).[i].
Proof.
  intros Hi Hp HN H0 n. induction n as [|n IH]; intros Hn; [specialize (H0 O); lia|].
  destruct (Hp n ltac:(lia)) as (s1 & Hw & Hs & Hc). rewrite Hs in Hc.
  destruct (round_ages i B b0 _ s1 Hi Hw Hc) as (_ & _ & _ & _ & Ha). rewrite Hs, Ha.
  specialize (IH ltac:(lia)). lia.
Qed.

(** A task chosen in round [m] is young afterwards, until it is chosen again. *)
Lemma chosen_young i B b0 f N m n :
  0 <= i < MAX_TASKS -> passed_over i B b0 f N -> (S m <= n <= N)%nat ->
  age_ticks (tasks (f n)).[current_task (f (S m))] <= Z.of_nat (n - S m).
Proof.
  intros Hi Hp. induction n as [|n IH]; intros Hn; [lia|].
  destruct (Hp m ltac:(lia)) as (sm & Hwm & Hsm & Hcm). rewrite Hsm in Hcm.
  destruct (round_ages i B b0 _ sm Hi Hwm Hcm) as (Hr & _ & Hz & _).
  rewrite <- Hsm in Hr, Hz.
  destruct (decide (n = m)) as [->|Hnm].
  { rewrite Hz. lia. }
  specialize (IH ltac:(lia)).
  destruct (Hp n ltac:(lia)) as (s1 & Hw & Hs & Hc). rewrite Hs in Hc.
  destruct (round_ages i B b0 _ s1 Hi Hw Hc) as (_ & _ & Hz1 & Hle & _). rewrite <- Hs in Hz1, Hle.
  destruct (decide (current_task (f (S m)) = current_task (f (S n)))) as [He|He].
  - rewrite He, Hz1. lia.
  - specialize (Hle _ Hr He). lia.
Qed.

Definition round_bound (B b0 : Z) : Z := 8 * (B - b0) + 40.

(** C1: No starvation.  A runnable task that stays eligible is passed over by
    the BSP scheduler in fewer than [8 * (B - b0) + 40] consecutive rounds, when
    its static score [priority * 4 - nice] is at least [b0] and every static
    score is at most [B]: the ageing term overtakes every advantage of priority
    and nice value.  (With priorities 1..3 and nice -20..19 the bound is 416.) *)
Theorem task_switch_bounded_waiting i B b0 f N :
  0 <= i < MAX_TASKS -> b0 <= B <= b0 + 2 ^ 20 ->
  (forall n, age_ticks (tasks (f n)).[i] >= 0) ->
  passed_over i B b0 f N -> Z.of_nat N < round_bound B b0.
Proof.
  intros Hi HB H0 Hp. destruct (Z.lt_ge_cases (Z.of_nat N) (round_bound B b0)) as [?|Hge]; [done|exfalso].
  unfold round_bound in Hge.
  pose (D := Z.to_nat (8 * (B - b0) + 8)). pose (K := (D + 32)%nat).
  assert (passed_over i B b0 f K) as HpK by (intros n Hn; apply Hp; lia).
  assert (Z.of_nat K < 4294967295) as HK by lia.
  pose (c := fun k => current_task (f (S (D + k)))).
  assert (forall k, (k < 32)%nat -> 0 <= c k < 32 /\ c k <> i) as Hrange.
  { intros k Hk. destruct (HpK (D + k)%nat ltac:(lia)) as (s1 & Hw & Hs & Hc).
    split; [|done]. unfold c. rewrite Hs in *.
    by destruct (round_ages i B b0 _ s1 Hi Hw Hc) as (? & _). }
  assert (forall k k', (k < k' < 32)%nat -> c k <> c k') as Hdist.
  { intros k k' Hk Heq.
    pose proof (chosen_young i B b0 f K (D + k) (D + k') Hi HpK ltac:(lia)) as Hy.
    pose proof (waiter_age i B b0 f K Hi HpK HK H0 (D + k') ltac:(lia)) as Ho.
    destruct (HpK (D + k')%nat ltac:(lia)) as (s1 & Hw & Hs & Hc). rewrite Hs in Hc.
    destruct (round_ages i B b0 _ s1 Hi Hw Hc) as (_ & Hle & _). rewrite <- Hs in Hle.
    fold (c k') in Hle. fold (c k) in Hy. rewrite Heq in Hy. lia. }
  pose (l := (fun k => Z.to_nat (c k)) <$> seq 0 32).
  assert (NoDup (Z.to_nat i :: l)) as Hnd.
  { constructor.
    - unfold l. rewrite list_elem_of_fmap. intros (k & Hk & Hin). apply elem_of_seq in Hin.
      destruct (Hrange k ltac:(lia)). lia.
    - unfold l. apply NoDup_fmap_2_strong; [|apply NoDup_seq].
      intros x y Hx Hy Hxy. apply elem_of_seq in Hx, Hy.
      destruct (Hrange x ltac:(lia)), (Hrange y ltac:(lia)).
      destruct (Nat.lt_trichotomy x y) as [Hlt|[?|Hlt]]; [|done|];
        [specialize (Hdist x y ltac:(lia))|specialize (Hdist y x ltac:(lia))]; lia. }
  assert (Z.to_nat i :: l ⊆+ seq 0 32) as Hsub.
  { apply NoDup_submseteq; [done|]. intros x. rewrite elem_of_cons, elem_of_seq.
    intros [->|Hx]; [unfold MAX_TASKS in Hi; lia|].
    unfold l in Hx. apply list_elem_of_fmap in Hx as (k & -> & Hin). apply elem_of_seq in Hin.
    destruct (Hrange k ltac:(lia)). lia. }
  apply submseteq_length in Hsub. unfold l in Hsub. simpl in Hsub. lia.
Qed.
End fairness.

(** ** One task, one CPU *)
Section exclusion.
Variable fninit : list Z -> list Z.

(** The BSP is CPU 0 and the (single) AP is CPU 1.  A used slot carries the id of
    the CPU running it: 0 only for the BSP's current task, 1 for the AP's. *)
Definition cpu_inv (s : Sys) : Prop :=
  wf s /\ -1 <= current_task_ap s < MAX_TASKS /\
  current_task s <> current_task_ap s /\
  (forall j, 0 <= j < MAX_TASKS -> is_used s j = true ->
     (cpu_id (tasks s).[j] = 0 <-> j = current_task s) /\
     (j = current_task_ap s -> cpu_id (tasks s).[j] = 1)).

(** Same slots up to fields the invariant does not mention. *)
Definition cpu_same (s s' : Sys) : Prop :=
  wf s' /\ current_task s' = current_task s /\ current_task_ap s' = current_task_ap s /\
  forall j, 0 <= j < MAX_TASKS ->
    used (tasks s').[j] = used (tasks s).[j] /\ cpu_id (tasks s').[j] = cpu_id (tasks s).[j].

Lemma cpu_inv_same s s' : cpu_inv s -> cpu_same s s' -> cpu_inv s'.
Proof.
  intros (Hw & Hr & Hne & Hj) (Hw' & Hc & Ha & Hs). unfold cpu_inv, is_used in *. rewrite Hc, Ha.
  do 3 (split; [done|]). intros j Hjr. destruct (Hs j Hjr) as [-> ->]. by apply Hj.
Qed.

Lemma cpu_same_refl s : wf s -> cpu_same s s.
Proof. done. Qed.

Lemma cpu_same_trans s1 s2 s3 : cpu_same s1 s2 -> cpu_same s2 s3 -> cpu_same s1 s3.
Proof.
  intros (_ & Hc & Ha & Hs) (Hw' & Hc' & Ha' & Hs'). split; [done|]. do 2 (split; [congruence|]).
  intros j Hj. destruct (Hs j Hj), (Hs' j Hj). split; congruence.
Qed.

Lemma cpu_same_on_task id f s :
  wf s -> (forall t, used (f t) = used t /\ cpu_id (f t) = cpu_id t) -> cpu_same s (on_task id f s).
Proof.
  intros Hw Hf. split; [auto with oria|]. do 2 (split; [done|]). intros j Hj.
  rewrite tasks_on_task. unfold aget, aset. destruct Hw as [Hl _]. unfold zlen in Hl.
  destruct (decide (Z.to_nat id = Z.to_nat j)) as [->|].
  - rewrite list_lookup_total_insert_eq by lia. apply Hf.
  - by rewrite list_lookup_total_insert_ne.
Qed.

Lemma cpu_same_unblock id s : wf s -> cpu_same s (task_unblock id s).
Proof. intros. unfold task_unblock. case_if; [by apply cpu_same_on_task|done]. Qed.

Lemma cpu_same_signal tid sig s : wf s -> cpu_same s (task_send_signal tid sig s).
Proof.
  intros Hw. unfold task_send_signal. case_if; [done|]. case_if; [done|]. cbv zeta.
  pose proof (cpu_same_on_task tid (fun t => t <| pending_signals := Z.lor (pending_signals t) (Z.shiftl 1 sig) |>) s Hw
    ltac:(done)) as H. case_if; [|done].
  eapply cpu_same_trans; [exact H|]. apply cpu_same_unblock, H.
Qed.

Lemma cpu_same_iter f n : forall lo s,
  wf s -> (forall i s', wf s' -> cpu_same s' (f i s')) -> cpu_same s (iter f lo n s).
Proof.
  induction n as [|n IH]; intros lo s Hw Hf; simpl; [done|].
  eapply cpu_same_trans; [by apply Hf|]. apply IH; [|done]. by apply (Hf lo s).
Qed.

Lemma cpu_same_countdown tid s : wf s -> cpu_same s (fst (task_tick_countdown_or_reset tid s)).
Proof.
  intros Hw. unfold task_tick_countdown_or_reset. case_if; [done|]. cbv zeta.
  repeat case_if; simpl; (by apply cpu_same_on_task) || done.
Qed.

Lemma cpu_same_timer {N} net_tick s (n : N) : wf s -> cpu_same s (fst (timer_handler net_tick s n)).
Proof.
  intros Hw. unfold timer_handler. cbn [fst].
  set (s0 := s <| tick := u32 (tick s + 1) |>). assert (cpu_same s s0) as H0 by done.
  eapply cpu_same_trans; [exact H0|].
  assert (cpu_same s0 (task_check_sleepers s0)) as H1.
  { apply cpu_same_iter; [done|]. intros i s' Hw'. case_if; [by apply cpu_same_on_task|done]. }
  eapply cpu_same_trans; [exact H1|]. apply cpu_same_iter; [apply H1|].
  intros i s' Hw'. cbv zeta. repeat (case_if; [done|]). case_if; [|done].
  pose proof (cpu_same_on_task i (fun t => t <| itimer_remaining := itimer_remaining t - 1 |>) s' Hw' ltac:(done)) as H2.
  case_if; [|done]. eapply cpu_same_trans; [exact H2|].
  pose proof (cpu_same_signal i SIGALRM _ (proj1 H2)) as H3.
  eapply cpu_same_trans; [exact H3|]. by apply cpu_same_on_task; [apply H3|].
Qed.

Lemma ap_of_switch_to b s : current_task_ap (switch_to fninit b s) = current_task_ap s.
Proof.
  unfold switch_to, load_address_space, fpu_switch. cbv zeta.
  repeat match goal with |- context [if ?c then _ else _] => destruct c end; reflexivity.
Qed.

(** Claiming a free slot for the BSP keeps the invariant. *)
Lemma cpu_inv_switch_to b s :
  cpu_inv s -> 0 <= b < MAX_TASKS -> is_used s b = true -> cpu_id (tasks s).[b] = -1 ->
  b <> current_task s -> cpu_inv (switch_to fninit b s).
Proof.
  intros (Hw & Hr & Hne & Hj) Hb Hu Hfree Hbc.
  destruct (switch_to_effect fninit b s Hw Hb Hbc) as (Hw' & Hc & _ & _ & _ & _ & He).
  assert (b <> current_task_ap s) as Hba.
  { intros ->. destruct (Hj _ Hb Hu) as [_ H1]. rewrite H1 in Hfree by done. done. }
  split; [done|]. rewrite ap_of_switch_to, Hc. split; [done|]. split; [done|].
  intros j Hjr. unfold is_used. destruct (He j Hjr) as (-> & _ & ->). intros Huj. destruct (Hj j Hjr Huj) as [H0 H1].
  repeat case_decide; subst; lia.
Qed.

Lemma pick_range s : -1 <= fst (pick s) < MAX_TASKS.
Proof.
  assert (-1 <= fst (pick s) < 0 + Z.of_nat (Z.to_nat MAX_TASKS)) as H; [|done].
  unfold pick. apply (iter_ind (fun i (acc : Z * Z) => -1 <= fst acc < i)); [simpl; lia|].
  intros i [b sc] Hi Hb. simpl in *. repeat case_if; simpl; lia.
Qed.

Lemma cpu_inv_task_switch s : cpu_inv s -> cpu_inv (task_switch fninit s).
Proof.
  intros Hinv. pose proof Hinv as (Hw & _). unfold task_switch.
  set (sr := s <| current_rsp := None |> <| next_rsp := None |>).
  assert (cpu_same s sr) as H0 by done.
  case_if; [by apply (cpu_inv_same s)|].
  pose proof (cpu_same_countdown (current_task sr) sr Hw) as H1.
  destruct (task_tick_countdown_or_reset _ sr) as [s0 r]. simpl in H1.
  pose proof (cpu_inv_same _ _ (cpu_inv_same _ _ Hinv H0) H1) as Hi0.
  case_if; [done|]. cbv zeta. pose proof (pick_range s0) as Hp.
  set (b := fst (pick s0)) in *. clearbody b.
  assert (cpu_same s0 (age_all b s0)) as H2.
  { apply cpu_same_iter; [apply Hi0|]. intros i s' Hw'. case_if; [|done].
    apply cpu_same_on_task; [done|]. intros t. unfold age_task. by case_if. }
  pose proof (cpu_inv_same _ _ Hi0 H2) as Hi1.
  set (s1 := age_all b s0) in *. clearbody s1.
  case_if; [done|]. bool_to_prop. apply cpu_inv_switch_to; (done || lia).
Qed.

Lemma scan_from_Some f start i :
  0 <= start < MAX_TASKS -> scan_from f start = Some i -> 0 <= i < MAX_TASKS /\ f i = true.
Proof.
  intros Hs H. unfold scan_from in H. apply fmap_Some in H as (k & Hk & ->).
  apply scan_Some in Hk as (_ & Hk & _). split; [apply Z.mod_pos_bound; done|done].
Qed.

Lemma switch_ap_effect cpu next s :
  wf s -> 0 <= next < MAX_TASKS -> -1 <= current_task_ap s < MAX_TASKS -> next <> current_task_ap s ->
  let s' := switch_ap_to fninit cpu next s in
  wf s' /\ current_task s' = current_task s /\ current_task_ap s' = next /\
  forall j, 0 <= j < MAX_TASKS ->
    used (tasks s').[j] = used (tasks s).[j] /\
    cpu_id (tasks s').[j] = if decide (j = next) then i8 cpu else
      if decide (j = current_task_ap s /\ is_used s j = true) then -1 else cpu_id (tasks s).[j].
Proof.
  intros Hw Hn Hr Hne. unfold switch_ap_to. cbv zeta.
  set (old := current_task_ap s) in *.
  set (s1 := on_task next (fun t => t <| cpu_id := i8 cpu |>) (set_ap_cpu (-1) s)).
  assert (wf s1 /\ current_task s1 = current_task s /\ forall j, 0 <= j < MAX_TASKS ->
    used (tasks s1).[j] = used (tasks s).[j] /\
    cpu_id (tasks s1).[j] = if decide (j = next) then i8 cpu else
      if decide (j = old /\ is_used s j = true) then -1 else cpu_id (tasks s).[j]) as (Hw1 & Hc1 & H1).
  { unfold s1, set_ap_cpu. fold old. destruct (Z.leb_spec 0 old); simpl andb.
    - case_if.
      + split; [auto with oria|]. split; [done|]. intros j Hj.
        rewrite !get_on_task by (auto with oria || lia).
        repeat case_decide; subst; simpl; try done; intuition congruence.
      + split; [auto with oria|]. split; [done|]. intros j Hj.
        rewrite !get_on_task by (auto with oria || lia).
        repeat case_decide; subst; simpl; try done; intuition congruence.
    - cbv iota. split; [auto with oria|]. split; [done|]. intros j Hj.
      rewrite !get_on_task by (auto with oria || lia).
      repeat case_decide; subst; simpl; try done; intuition lia. }
  clearbody s1.
  set (s2 := if (0 <=? old) && is_used s1 old then s1 <| ap_current_rsp := Some old |> else s1).
  assert (tasks s2 = tasks s1 /\ current_task s2 = current_task s1) as [T2 C2] by (unfold s2; by case_if).
  clearbody s2.
  set (s3 := s2 <| ap_next_rsp := Some next |> <| current_task_ap := next |>).
  set (s4 := upd tss_rsp0 _ s3).
  assert (tasks s4 = tasks s1 /\ current_task s4 = current_task s1 /\ current_task_ap s4 = next) as (T4 & C4 & A4) by done.
  clearbody s4.
  set (s5 := if truth (is_user (tasks s4).[next]) then _ else s4).
  assert (tasks s5 = tasks s4 /\ current_task s5 = current_task s4 /\ current_task_ap s5 = current_task_ap s4)
    as (T5 & C5 & A5) by (unfold s5; by case_if).
  clearbody s5. rewrite T4 in T5. rewrite C4 in C5. rewrite A4 in A5.
  assert (wf s5) as Hw5 by (split; [rewrite T5; apply Hw1|rewrite C5; apply Hw1]).
  set (s6 := if _ && is_used s5 old then _ else s5).
  assert (cpu_same s5 s6) as H6 by (unfold s6; case_if; [by apply cpu_same_on_task|done]).
  clearbody s6.
  set (s7 := if truth (fpu_valid (tasks s6).[next]) then _ else _).
  assert (tasks s7 = tasks s6 /\ current_task s7 = current_task s6 /\ current_task_ap s7 = current_task_ap s6)
    as (T7 & C7 & A7) by (unfold s7; by case_if).
  clearbody s7. destruct H6 as (Hw6 & C6 & A6 & H6).
  destruct (load_address_space_frame next s7) as (L1 & L2 & _).
  assert (current_task_ap (load_address_space next s7) = current_task_ap s7) as L3.
  { unfold load_address_space. cbv zeta. repeat match goal with |- context [if ?c then _ else _] => destruct c end; reflexivity. }
  unfold wf. rewrite L1, L2, L3, T7, C7, A7, A6, C6, A5, C5.
  split; [split; [apply Hw6|apply Hw1]|]. split; [done|]. split; [done|].
  intros j Hj. destruct (H6 j Hj) as [-> ->]. rewrite T5. by apply H1.
Qed.

Lemma cpu_inv_set_ap v s : cpu_inv s -> v = 1 -> cpu_inv (set_ap_cpu v s).
Proof.
  intros (Hw & Hr & Hne & Hj) ->. unfold set_ap_cpu. case_if; [|done]. bool_to_prop.
  split; [auto with oria|]. do 2 (split; [done|]). intros j Hjr.
  assert (is_used (on_task (current_task_ap s) (fun t => t <| cpu_id := 1 |>) s) j = is_used s j) as ->.
  { unfold is_used. rewrite get_on_task by (done || lia). by case_decide. }
  intros Hu. destruct (Hj j Hjr Hu) as [Hz Ho].
  rewrite get_on_task by (done || lia).
  change (current_task (on_task _ _ s)) with (current_task s).
  change (current_task_ap (on_task _ _ s)) with (current_task_ap s).
  case_decide; subst; simpl; lia.
Qed.

Lemma cpu_inv_task_switch_ap s : cpu_inv s -> cpu_inv (task_switch_ap fninit 1 s).
Proof.
  intros Hinv. pose proof Hinv as (Hw & _). unfold task_switch_ap.
  set (sr := s <| ap_current_rsp := None |> <| ap_next_rsp := None |>).
  assert (cpu_same s sr) as H0 by done.
  case_if; [by apply (cpu_inv_same s)|].
  pose proof (cpu_same_countdown (current_task_ap sr) sr Hw) as H1.
  destruct (task_tick_countdown_or_reset _ sr) as [s0 r]. simpl in H1.
  pose proof (cpu_inv_same _ _ (cpu_inv_same _ _ Hinv H0) H1) as Hi0. clear Hinv H0 H1.
  case_if; [done|]. cbv zeta. change (i8 1) with 1.
  pose proof Hi0 as (Hw0 & Hr & Hne & Hj).
  assert (0 <= (if 0 <=? current_task_ap s0 then (current_task_ap s0 + 1) mod MAX_TASKS else 0) < MAX_TASKS) as Hst.
  { case_if; [apply Z.mod_pos_bound|]; unfold MAX_TASKS; lia. }
  match goal with |- cpu_inv (match ?x with _ => _ end) => destruct x as [next|] eqn:Hfound end;
    [|by apply cpu_inv_set_ap].
  assert (0 <= next < MAX_TASKS /\ is_used s0 next = true /\
    (cpu_id (tasks s0).[next] = 1 \/ cpu_id (tasks s0).[next] = -1)) as (Hn & Hu & Hcpu).
  { match type of Hfound with (match ?x with _ => _ end) = _ => destruct x eqn:Hp1 end.
    - simplify_eq. apply scan_from_Some in Hp1 as [? ?]; [|done]. bool_to_prop. auto.
    - apply scan_from_Some in Hfound as [? ?]; [|done]. bool_to_prop. auto. }
  destruct (Z.eqb_spec next (current_task_ap s0)); [by apply cpu_inv_set_ap|].
  destruct (switch_ap_effect 1 next s0 Hw0 Hn Hr n) as (Hw' & Hc & Ha & He).
  assert (next <> current_task s0) as Hnc.
  { intros ->. destruct (Hj _ Hn Hu) as [H _]. destruct H as [_ H]. specialize (H eq_refl). lia. }
  split; [done|]. rewrite Hc, Ha. split; [lia|]. split; [done|].
  intros j Hjr. unfold is_used. destruct (He j Hjr) as [-> ->]. intros Huj.
  destruct (Hj j Hjr Huj) as [Hz Ho]. change (i8 1) with 1.
  repeat case_decide; subst; [lia| |lia]. destruct H0 as [-> _]. lia.
Qed.

(** The table operations as a transition system: the ticks of both CPUs and
    everything the running code may do to its own table in between. *)
Inductive sched_step : Sys -> Sys -> Prop :=
| step_bsp s : sched_step s (task_switch fninit s)
| step_ap s : sched_step s (task_switch_ap fninit 1 s)
| step_timer s (N : Type) (net_tick : N -> N) n : sched_step s (fst (timer_handler net_tick s n))
| step_block s : sched_step s (task_block s)
| step_unblock s id : sched_step s (task_unblock id s)
| step_sleep s ms : sched_step s (task_sleep ms s)
| step_yield s : sched_step s (task_yield s)
| step_wait s s' tid : task_wait_begin tid s = Some s' -> sched_step s s'
| step_signal s tid sig : sched_step s (task_send_signal tid sig s)
| step_mask s tid mask : sched_step s (task_set_signal_mask tid mask s)
| step_priority s tid prio : sched_step s (fst (task_set_priority tid prio s))
| step_nice s tid v : sched_step s (fst (task_set_nice tid v s))
| step_itimer s tid ms : sched_step s (task_set_itimer tid ms s).

Lemma cpu_inv_step s s' : cpu_inv s -> sched_step s s' -> cpu_inv s'.
Proof.
  intros Hinv Hst. pose proof Hinv as (Hw & _).
  destruct Hst as [s|s|s N net_tick n|s|s id|s ms|s|s s' tid Hwait|s tid sig|s tid mask|s tid prio|s tid v|s tid ms].
  1: by apply cpu_inv_task_switch.
  1: by apply cpu_inv_task_switch_ap.
  all: apply (cpu_inv_same s); [done|].
  - by apply cpu_same_timer.
  - by apply cpu_same_on_task.
  - by apply cpu_same_unblock.
  - by apply cpu_same_on_task.
  - unfold task_yield. case_if; [by apply cpu_same_on_task|done].
  - unfold task_wait_begin in Hwait. repeat case_if_in Hwait; simplify_eq.
    pose proof (cpu_same_on_task tid (fun t => t <| waiter := current_task s |>) s Hw ltac:(done)) as H.
    eapply cpu_same_trans; [exact H|]. apply cpu_same_on_task; [apply H|done].
  - by apply cpu_same_signal.
  - unfold task_set_signal_mask. case_if; [done|by apply cpu_same_on_task].
  - unfold task_set_priority. repeat case_if; simpl; (by apply cpu_same_on_task) || done.
  - unfold task_set_nice. case_if; simpl; (by apply cpu_same_on_task) || done.
  - unfold task_set_itimer. case_if; [done|by apply cpu_same_on_task].
Qed.

End exclusion.

(** A booted machine: the shell in slot 0 on the BSP, two kernel tasks and a
    user task ready. *)
Definition demo_task (prio u : Z) : Task :=
  task0 <| used := 1 |> <| priority := prio |> <| ticks := prio |> <| cpu_id := -1 |>
    <| is_user := u |> <| waiter := -1 |> <| parent_tid := -1 |>.
Definition demo_sys : Sys :=
  mkSys ((demo_task 3 1) <| cpu_id := 0 |> <| ticks := 1 |> :: demo_task 1 0 :: demo_task 2 1 :: demo_task 1 1
           :: replicate 28 task0)
    0x200000 0 4 (replicate 32 0) 1 (-1) None None None None 1000 0x1000 0 [] [0; 0] 0 0.

Lemma demo_sys_wf : wf demo_sys.
Proof. split; vm_compute; try split; congruence. Qed.
Lemma demo_sys_fields : all_fields_ok demo_sys.
Proof. repeat constructor; vm_compute; congruence. Qed.


(** When the running task's quantum is used up, task_switch() hands the BSP
    to an eligible task of maximal score [priority*4 - nice + age/8] (the lowest
    slot among equals), loads its kernel stack and address space, frees the old
    task and resets the winner's age; if no task is eligible the current task
    keeps running and no context switch is requested. *)
Theorem task_switch_picks_best fninit s :
  wf s -> all_fields_ok s -> 2 <= task_count s -> expired s ->
  let s' := task_switch fninit s in
  (next_rsp s' = None <-> forall j, 0 <= j < MAX_TASKS -> eligible s j = false) /\
  forall b, next_rsp s' = Some b ->
    best_choice s b /\ current_task s' = b /\ current_rsp s' = Some (current_task s) /\
    cpu_id (tasks s').[b] = 0 /\ cpu_id (tasks s').[current_task s] = -1 /\
    age_ticks (tasks s').[b] = 0 /\ syscall_kstack s' = kstack_of b s /\
    (page_dir (tasks s).[b] <> 0 -> cr3 s' = page_dir (tasks s).[b]).
Proof.
  intros Hwf Hf Hc He. destruct (switch_effect fninit s Hwf Hf Hc He) as
    (_ & [(Hno & Hcur & Hn & _)|(b & Hb & Hcur & Hcr & Hn & H1 & H2 & H3 & H4 & H5 & _)]).
  - cbv zeta. rewrite Hn. split; [done|]. intros b Hb. done.
  - cbv zeta. rewrite Hn. split.
    + split; [done|]. intros Hno. destruct Hb as (Hr & Heb & _). by rewrite Hno in Heb.
    + intros b' [= <-]. naive_solver.
Qed.

Lemma task_switch_picks_best_witness :
  next_rsp (task_switch id demo_sys) = Some 2 /\ current_task (task_switch id demo_sys) = 2 /\
  best_choice demo_sys 2.
Proof.
  split; [reflexivity|]. split; [reflexivity|].
  refine (proj1 (proj2 (task_switch_picks_best id demo_sys demo_sys_wf demo_sys_fields _ _) 2 _));
    vm_compute; congruence.
Defined.

Lemma task_switch_bounded_waiting_witness :
  passed_over id 3 20 4 (fun n => match n with O => demo_sys | _ => task_switch id demo_sys end) 1 /\
  Z.of_nat 1 < round_bound 20 4.
Proof.
  assert (passed_over id 3 20 4 (fun n => match n with O => demo_sys | _ => task_switch id demo_sys end) 1) as Hp.
  { intros n Hn. destruct n as [|n]; [|lia]. exists demo_sys.
    split; [|split; [reflexivity|vm_compute; congruence]].
    split; [apply demo_sys_wf|]. split; [apply demo_sys_fields|].
    split; [vm_compute; congruence|]. split; [reflexivity|]. split; [reflexivity|].
    split; [vm_compute; congruence|].
    each_index 32%nat ltac:(vm_compute; intuition congruence). }
  split; [exact Hp|].
  refine (task_switch_bounded_waiting id 3 20 4 (fun n => match n with O => demo_sys | _ => task_switch id demo_sys end)
    1 _ _ _ Hp); [vm_compute; split; congruence|lia|].
  intros n. destruct n; vm_compute; congruence.
Defined.

(** ** Signals *)

(** A terminating signal the running task must die from now. *)
Definition deliverable (t : Task) (sig : Z) : bool :=
  Z.testbit (pending_signals t) sig && ((sig =? SIGKILL) || negb (Z.testbit (signal_mask t) sig)).

Definition bit_if (b : bool) (n : Z) : Z := if b then Z.shiftl 1 n else 0.

Lemma testbit_bit_if b n m : 0 <= n -> 0 <= m -> Z.testbit (bit_if b n) m = b && (m =? n).
Proof.
  intros. unfold bit_if. destruct b; simpl; [|apply Z.bits_0].
  rewrite Z.shiftl_1_l, Z.pow2_bits_eqb by done. apply Z.eqb_sym.
Qed.

Lemma land_term p :
  Z.land p TERM_SIGNALS =
  Z.lor (Z.lor (bit_if (Z.testbit p 2) 2) (bit_if (Z.testbit p 9) 9)) (bit_if (Z.testbit p 15) 15).
Proof.
  apply Z.bits_inj'. intros n Hn. unfold TERM_SIGNALS, SIGINT, SIGKILL, SIGTERM.
  rewrite !Z.land_spec, !Z.lor_spec, !testbit_bit_if by lia.
  rewrite !Z.shiftl_1_l, !Z.pow2_bits_eqb by lia. rewrite !(Z.eqb_sym _ n).
  destruct (Z.eqb_spec n 2), (Z.eqb_spec n 9), (Z.eqb_spec n 15); subst; try lia;
    repeat match goal with |- context [Z.testbit ?a ?b] => destruct (Z.testbit a b) end; reflexivity.
Qed.

Lemma testbit_u32_lnot m n : 0 <= n < 32 -> Z.testbit (u32 (Z.lnot m)) n = negb (Z.testbit m n).
Proof. intros. unfold u32. rewrite Z.mod_pow2_bits_low by lia. apply Z.lnot_spec. lia. Qed.

(** The word task_check_signals() searches. *)
Lemma masked_term t :
  let sigs := Z.land (pending_signals t) TERM_SIGNALS in
  Z.lor (Z.land sigs (u32 (Z.lnot (signal_mask t)))) (Z.land sigs (Z.shiftl 1 SIGKILL)) =
  Z.lor (Z.lor (bit_if (deliverable t 2) 2) (bit_if (deliverable t 9) 9)) (bit_if (deliverable t 15) 15).
Proof.
  cbv zeta. rewrite land_term. apply Z.bits_inj'. intros n Hn.
  unfold deliverable, SIGKILL. simpl (_ =? _). 
  rewrite !Z.lor_spec, !Z.land_spec, !Z.lor_spec, !testbit_bit_if by lia.
  rewrite Z.shiftl_1_l, Z.pow2_bits_eqb by lia. rewrite (Z.eqb_sym 9 n).
  destruct (Z.eqb_spec n 2), (Z.eqb_spec n 9), (Z.eqb_spec n 15); subst; try lia;
    rewrite ?testbit_u32_lnot by lia;
    repeat match goal with |- context [Z.testbit ?a ?b] => destruct (Z.testbit a b) end; reflexivity.
Qed.

(** Signal delivery.  A user task dies from the lowest-numbered pending
    signal among SIGINT, SIGKILL and SIGTERM that it does not block, with exit
    code 128 + signal; SIGKILL is delivered whatever the mask.  Kernel tasks and
    tasks without such a signal go on. *)
Theorem signal_delivery s :
  let t := (tasks s).[current_task s] in
  task_check_signals s =
    if is_user t =? 0 then None
    else if deliverable t SIGINT then Some (128 + SIGINT)
    else if deliverable t SIGKILL then Some (128 + SIGKILL)
    else if deliverable t SIGTERM then Some (128 + SIGTERM)
    else None.
Proof.
  cbv zeta. unfold task_check_signals. set (t := (tasks s).[current_task s]).
  pose proof (masked_term t) as Hm. cbv zeta in Hm. rewrite Hm. rewrite land_term.
  destruct (is_user t =? 0); [by rewrite orb_true_r|]. rewrite orb_false_r.
  unfold SIGINT, SIGKILL, SIGTERM, deliverable, SIGKILL.
  change (2 =? 9) with false. change (9 =? 9) with true. change (15 =? 9) with false.
  destruct (Z.testbit (pending_signals t) 2), (Z.testbit (pending_signals t) 9),
    (Z.testbit (pending_signals t) 15), (Z.testbit (signal_mask t) 2), (Z.testbit (signal_mask t) 15);
    reflexivity.
Qed.

(** SIGKILL cannot be blocked: whatever mask a task asks for, the stored mask
    has bit 9 clear and agrees with the request on every other signal. *)
Theorem signal_mask_never_blocks_kill s tid mask n :
  wf s -> 0 <= tid < MAX_TASKS -> is_used s tid = true -> 0 <= n < 32 ->
  Z.testbit (task_get_signal_mask tid (task_set_signal_mask tid mask s)) n =
    Z.testbit mask n && negb (n =? SIGKILL).
Proof.
  intros Hw Ht Hu Hn. unfold task_get_signal_mask, task_set_signal_mask. rewrite Hu.
  destruct (Z.ltb_spec tid 0); [lia|]. destruct (Z.leb_spec MAX_TASKS tid); [lia|]. simpl orb. cbv iota.
  rewrite get_on_task_eq by done. simpl. rewrite Z.land_spec, testbit_u32_lnot by done.
  f_equal. f_equal. rewrite Z.shiftl_1_l, Z.pow2_bits_eqb by done. apply Z.eqb_sym.
Qed.

Lemma signal_mask_never_blocks_kill_witness :
  Z.testbit (task_get_signal_mask 2 (task_set_signal_mask 2 0xFFFFFFFF demo_sys)) 9 = false.
Proof.
  rewrite (signal_mask_never_blocks_kill demo_sys 2 0xFFFFFFFF 9 demo_sys_wf); [reflexivity|..];
    vm_compute; try split; congruence.
Defined.

(** ** Sleeping *)
Definition due (now : Z) (t : Task) : bool :=
  truth (used t) && (status t =? TASK_SLEEPING) && (wake_tick t <=? now).

Lemma sleepers_spec s :
  wf s -> let s' := task_check_sleepers s in
  wf s' /\ tick s' = tick s /\ current_task s' = current_task s /\
  forall j, 0 <= j < MAX_TASKS ->
    (tasks s').[j] = if due (tick s) (tasks s).[j] then (tasks s).[j] <| status := TASK_RUNNING |> else (tasks s).[j].
Proof.
  intros Hw. unfold task_check_sleepers. cbv zeta.
  set (body := fun i s0 => _).
  pose (P (i : Z) (s' : Sys) := wf s' /\ tick s' = tick s /\ current_task s' = current_task s /\
    forall j, 0 <= j < MAX_TASKS ->
      (tasks s').[j] = if (j <? i) && due (tick s) (tasks s).[j] then (tasks s).[j] <| status := TASK_RUNNING |> else (tasks s).[j]).
  assert (P (0 + Z.of_nat (Z.to_nat MAX_TASKS)) (iter body 0 (Z.to_nat MAX_TASKS) s)) as (H1 & H2 & H3 & H4).
  { apply (iter_ind P).
    - do 3 (split; [done|]). intros j Hj. destruct (Z.ltb_spec j 0); [lia|done].
    - change (Z.of_nat _) with MAX_TASKS. intros i s' Hi (Hw' & Ht & Hc & Hj). unfold body.
      assert (is_used s' i && (status (tasks s').[i] =? TASK_SLEEPING) && (wake_tick (tasks s').[i] <=? tick s)
              = due (tick s) (tasks s).[i]) as ->.
      { unfold is_used, due. rewrite Hj by lia. by rewrite Z.ltb_irrefl. }
      unfold P. destruct (due (tick s) (tasks s).[i]) eqn:Ei.
      + split; [auto with oria|]. do 2 (split; [done|]). intros j Hjr.
        rewrite get_on_task by (done || lia). rewrite Hj by lia. case_decide; subst.
        * rewrite Z.ltb_irrefl, Ei. destruct (Z.ltb_spec j (j + 1)); [done|lia].
        * destruct (Z.ltb_spec j i), (Z.ltb_spec j (i + 1)); try lia; done.
      + do 3 (split; [done|]). intros j Hjr. rewrite Hj by lia. destruct (decide (j = i)); subst.
        * rewrite Ei. by rewrite !andb_false_r.
        * destruct (Z.ltb_spec j i), (Z.ltb_spec j (i + 1)); try lia; done. }
  change (0 + _) with MAX_TASKS in H4. do 3 (split; [done|]). intros j Hj. rewrite H4 by done.
  destruct (Z.ltb_spec j MAX_TASKS); [done|lia].
Qed.

(** A sleep lasts exactly as long as asked.  When [tick + ms] does not pass
    2^32, a task that called task_sleep(ms) with ms > 0 is still asleep after a
    wake-up scan at any tick before [tick + ms] and is runnable after a scan at
    any later one. *)
Theorem sleep_wakes_on_time s ms now :
  wf s -> is_used s (current_task s) = true -> 0 < ms -> 0 <= tick s -> tick s + ms < 2 ^ 32 ->
  let s1 := (task_sleep ms s) <| tick := now |> in
  status (tasks (task_check_sleepers s1)).[current_task s] =
    if now <? tick s + ms then TASK_SLEEPING else TASK_RUNNING.
Proof.
  intros Hw Hu Hms Ht Hov s1. pose proof Hw as [_ Hc].
  assert (wf s1) as Hw1 by (unfold s1, task_sleep; apply (wf_on_task _ _ s Hw)).
  destruct (sleepers_spec s1 Hw1) as (_ & _ & _ & Hj). rewrite Hj by done.
  assert ((tasks s1).[current_task s] = (tasks s).[current_task s] <| status := TASK_SLEEPING |>
     <| wake_tick := tick s + ms |>) as ->.
  { unfold s1, task_sleep. destruct (Z.ltb_spec 0 ms); [|lia]. cbv zeta.
    change (tasks (?a <| tick := now |>)) with (tasks a).
    rewrite get_on_task_eq by done. by rewrite u32_small by lia. }
  unfold due. simpl. unfold is_used in Hu. rewrite Hu. simpl.
  destruct (Z.leb_spec (tick s + ms) now), (Z.ltb_spec now (tick s + ms)); lia || done.
Qed.

Lemma sleep_wakes_on_time_witness :
  status (tasks (task_check_sleepers ((task_sleep 5 demo_sys) <| tick := 1004 |>))).[0] = TASK_SLEEPING /\
  status (tasks (task_check_sleepers ((task_sleep 5 demo_sys) <| tick := 1005 |>))).[0] = TASK_RUNNING.
Proof.
  split.
  - refine (sleep_wakes_on_time demo_sys 5 1004 demo_sys_wf _ _ _ _); vm_compute; congruence.
  - refine (sleep_wakes_on_time demo_sys 5 1005 demo_sys_wf _ _ _ _); vm_compute; congruence.
Defined.

(** The tick counter is 32 bits wide and the deadline wraps with it: ten
    milliseconds before the counter overflows (after 49.7 days of uptime) a sleep of
    one second ends at the next timer interrupt. *)
Theorem sleep_wraps_at_overflow :
  let s := demo_sys <| tick := 2 ^ 32 - 10 |> in
  let s' := fst (timer_handler id (task_sleep 1000 s) tt) in
  wake_tick (tasks (task_sleep 1000 s)).[0] = 990 /\ tick s' = 2 ^ 32 - 9 /\
  status (tasks s').[0] = TASK_RUNNING.
Proof. vm_compute. done. Qed.

(** task_send_signal() marks the signal and wakes a blocked target, but a
    sleeping target stays asleep until its timer expires (the comment promises
    that sleeping tasks are woken too). *)
Theorem signal_does_not_wake_sleeper s tid sig :
  wf s -> 0 < tid < MAX_TASKS -> is_used s tid = true -> 0 < sig < 32 ->
  let s' := task_send_signal tid sig s in
  Z.testbit (pending_signals (tasks s').[tid]) sig = true /\
  status (tasks s').[tid] =
    if status (tasks s).[tid] =? TASK_BLOCKED then TASK_RUNNING else status (tasks s).[tid].
Proof.
  intros Hw Ht Hu Hs. unfold task_send_signal. rewrite Hu.
  destruct (Z.leb_spec tid 0); [lia|]. destruct (Z.leb_spec MAX_TASKS tid); [lia|]. simpl orb. cbv iota.
  destruct (Z.leb_spec sig 0); [lia|]. destruct (Z.leb_spec 32 sig); [lia|]. simpl orb. cbv iota zeta.
  set (s1 := on_task tid _ s). assert (wf s1) as Hw1 by (unfold s1; auto with oria).
  assert ((tasks s1).[tid] = (tasks s).[tid] <| pending_signals := Z.lor (pending_signals (tasks s).[tid]) (Z.shiftl 1 sig) |>)
    as Hs1 by (unfold s1; by rewrite get_on_task_eq by (done || lia)).
  assert (Z.testbit (pending_signals (tasks s1).[tid]) sig = true) as Hbit.
  { rewrite Hs1. simpl. rewrite Z.lor_spec, Z.shiftl_1_l, Z.pow2_bits_true by lia. apply orb_true_r. }
  assert (status (tasks s1).[tid] = status (tasks s).[tid]) as Hst by by rewrite Hs1.
  assert (is_used s1 tid = true) as Hu1 by (unfold is_used; rewrite Hs1; exact Hu).
  clearbody s1. rewrite Hst. destruct (Z.eqb_spec (status (tasks s).[tid]) TASK_RUNNING) as [Hr|Hr]; simpl negb; cbv iota.
  - rewrite Hst, Hr. done.
  - unfold task_unblock. rewrite Hu1, Hst.
    destruct (Z.leb_spec 0 tid); [|lia]. destruct (Z.ltb_spec tid MAX_TASKS); [|lia]. simpl andb.
    destruct (status (tasks s).[tid] =? TASK_BLOCKED); [|done].
    rewrite get_on_task_eq by (done || lia). done.
Qed.

Lemma signal_does_not_wake_sleeper_witness :
  let s := on_task 2 (fun t => t <| status := TASK_SLEEPING |> <| wake_tick := 90000 |>) demo_sys in
  status (tasks (task_send_signal 2 SIGTERM s)).[2] = TASK_SLEEPING.
Proof.
  refine (proj2 (signal_does_not_wake_sleeper _ 2 SIGTERM _ _ _ _));
    [apply wf_on_task, demo_sys_wf|vm_compute; split; congruence|reflexivity|vm_compute; split; congruence].
Defined.

(** Reusing a slot.  task_init_common(), shared by all creation paths, leaves
    the nice value, the age, the owner and the pending signals of the previous
    occupant in place: a fresh task starts with the nice value and uid of the
    dead one instead of the documented defaults. *)
Theorem slot_reuse_inherits_attributes s id :
  wf s -> 0 <= id < MAX_TASKS ->
  let t := (tasks (task_init_common id s)).[id] in let t0 := (tasks s).[id] in
  used t = 1 /\ status t = TASK_RUNNING /\ waiter t = -1 /\ signal_mask t = 0 /\
  nice t = nice t0 /\ age_ticks t = age_ticks t0 /\ uid t = uid t0 /\
  pending_signals t = pending_signals t0.
Proof. intros Hw Hi. unfold task_init_common. by rewrite get_on_task_eq. Qed.

Lemma slot_reuse_inherits_attributes_witness :
  let s := on_task 5 (fun t => t <| nice := 19 |> <| uid := 1000 |>) demo_sys in
  nice (tasks (task_init_common 5 s)).[5] = 19 /\ uid (tasks (task_init_common 5 s)).[5] = 1000.
Proof.
  cbv zeta.
  pose proof (slot_reuse_inherits_attributes
    (on_task 5 (fun t => t <| nice := 19 |> <| uid := 1000 |>) demo_sys) 5
    (wf_on_task _ _ _ demo_sys_wf) ltac:(vm_compute; split; congruence)) as H.
  split; [exact (proj1 (proj2 (proj2 (proj2 (proj2 H)))))|].
  exact (proj1 (proj2 (proj2 (proj2 (proj2 (proj2 (proj2 H))))))).
Defined.

End Task.
