(* ===== verification/Ipc.v ===== *)
(** * ipc.c: the global message queue

    A ring of [IPC_QUEUE_SIZE] fixed-size string buffers.  The abstract view is
    a FIFO of strings with room for [IPC_QUEUE_SIZE - 1] of them, every string
    cut to [IPC_MSG_LEN - 1] characters. *)

From Stdlib Require Import ZArith Lia.
From stdpp Require Import base numbers list tactics.
From S2P Require Import Prelude Ring.

Module Ipc.

Definition IPC_QUEUE_SIZE : Z := 8.
Definition IPC_MSG_LEN : Z := 64.

(** The three file-scope variables of ipc.c. *)
Record State := mkState {
  queue : list (list Z);
  head : Z;
  tail : Z
}.
#[global] Instance state_settable : Settable State :=
  {| rebuild s := mkState (queue s) (head s) (tail s) |}.

Definition ipc_init (s : State) : State := s <| head := 0 |> <| tail := 0 |>.

(** [while (i < n - 1 && src[i])]: the same effect as the other copy loops. *)
Definition ipc_strncpy (dst src : list Z) (n : Z) : list Z := c_strcpy dst src n.

(** Returns the new state and 1 (queued) or 0 (full). *)
Definition ipc_send (msg : list Z) (s : State) : State * Z :=
  let next := (tail s + 1) mod IPC_QUEUE_SIZE in
  if next =? head s then (s, 0)
  else
    let s := s <| queue := (queue s).[tail s <- ipc_strncpy (queue s).[tail s] msg IPC_MSG_LEN] |> in
    (s <| tail := next |>, 1).

(** Returns the new state, the caller's buffer and 1, or 0 when empty. *)
Definition ipc_recv (buf : list Z) (s : State) : State * list Z * Z :=
  if head s =? tail s then (s, buf, 0)
  else
    let buf := ipc_strncpy buf (queue s).[head s] IPC_MSG_LEN in
    (s <| head := (head s + 1) mod IPC_QUEUE_SIZE |>, buf, 1).

(** ** Invariant and abstraction *)
Definition wf (s : State) : Prop := ring_wf IPC_QUEUE_SIZE (queue s) (head s) (tail s).

(** The strings waiting in the queue, oldest first. *)
Definition pending (s : State) : list (list Z) :=
  cstr <$> ring_items IPC_QUEUE_SIZE (queue s) (head s) (tail s).

Definition cut (msg : list Z) : list Z := take 63 (cstr msg).

Lemma wf_send msg s : wf s -> wf (fst (ipc_send msg s)).
Proof.
  unfold ipc_send. case_if; [done|]. intros H. simpl. by apply ring_wf_push.
Qed.

Lemma wf_recv buf s : wf s -> wf (fst (fst (ipc_recv buf s))).
Proof.
  unfold ipc_recv. case_if; [done|]. intros H. simpl. by apply (ring_wf_pop _ (queue s)).
Qed.

Lemma pending_send msg s :
  wf s -> (tail s + 1) mod IPC_QUEUE_SIZE <> head s ->
  pending (fst (ipc_send msg s)) = pending s ++ [cut msg].
Proof.
  intros Hwf Hf. unfold ipc_send. case_if; bool_to_prop; [done|].
  unfold pending. simpl. rewrite ring_items_push by done.
  rewrite fmap_app. simpl. by rewrite cstr_strcpy.
Qed.

Lemma pending_recv s :
  wf s -> head s <> tail s ->
  exists m rest, pending s = m :: rest /\
    forall buf, pending (fst (fst (ipc_recv buf s))) = rest /\
                cstr (snd (fst (ipc_recv buf s))) = take 63 m /\
                snd (ipc_recv buf s) = 1.
Proof.
  intros Hwf Hne. unfold pending.
  rewrite (ring_items_pop IPC_QUEUE_SIZE (queue s) (queue s)) by done.
  simpl. eexists _, _. split; [done|]. intros buf. unfold ipc_recv.
  case_if; bool_to_prop; [done|]. simpl. by rewrite cstr_strcpy.
Qed.

(** The queue is a bounded FIFO of strings.  Sending to a queue holding
    fewer than [IPC_QUEUE_SIZE - 1] messages returns 1 and appends the message
    (cut to 63 characters); sending to a full one returns 0 and changes nothing;
    receiving from a non-empty queue returns 1 and the oldest message, receiving
    from an empty one returns 0 and leaves the buffer alone. *)
Theorem ipc_fifo_refinement s msg buf :
  wf s ->
  Forall (fun m => zlen m < IPC_MSG_LEN) (pending s) ->
  (let '(s', r) := ipc_send msg s in
     wf s' /\
     if zlen (pending s) <? IPC_QUEUE_SIZE - 1
     then r = 1 /\ pending s' = pending s ++ [cut msg] else r = 0 /\ s' = s) /\
  (let '(s', b, r) := ipc_recv buf s in
     wf s' /\
     match pending s with
     | [] => r = 0 /\ s' = s /\ b = buf
     | m :: rest => r = 1 /\ pending s' = rest /\ cstr b = m
     end).
Proof.
  intros Hwf Hshort. split.
  - pose proof (wf_send msg s Hwf) as Hw. pose proof (pending_send msg s Hwf) as Hp.
    pose proof (ring_full_iff _ _ _ _ Hwf) as Hfull.
    pose proof (ring_items_bound _ _ _ _ Hwf) as Hb.
    assert (zlen (pending s) = zlen (ring_items IPC_QUEUE_SIZE (queue s) (head s) (tail s))) as Hz
      by (unfold zlen, pending; by rewrite length_fmap).
    rewrite Hz. destruct (Z.ltb_spec (zlen (ring_items IPC_QUEUE_SIZE (queue s) (head s) (tail s))) (IPC_QUEUE_SIZE - 1)).
    + unfold ipc_send in *. destruct (Z.eqb_spec ((tail s + 1) mod IPC_QUEUE_SIZE) (head s)).
      * apply Hfull in e. lia.
      * simpl in *. auto.
    + unfold ipc_send in *. destruct (Z.eqb_spec ((tail s + 1) mod IPC_QUEUE_SIZE) (head s)); [done|].
      exfalso. apply n, Hfull. lia.
  - pose proof (wf_recv buf s Hwf) as Hw.
    destruct (decide (head s = tail s)) as [He|Hne].
    + assert (pending s = []) as ->
        by (unfold pending; rewrite He, ring_items_empty; done).
      unfold ipc_recv in *. rewrite He, Z.eqb_refl in *. done.
    + destruct (pending_recv s Hwf Hne) as (m & rest & Hm & Hr).
      rewrite Hm in *. destruct (Hr buf) as (H1 & H2 & H3).
      destruct (ipc_recv buf s) as [[s' b] r]. simpl in *. do 3 (split; [done|]).
      etrans; [exact H2|]. apply take_ge. apply Forall_cons_1 in Hshort as [Hs _].
      unfold zlen, IPC_MSG_LEN in Hs. lia.
Qed.

Definition empty_queue : State := mkState (replicate 8 (replicate 64 0)) 0 0.

Lemma ipc_fifo_refinement_witness :
  let s := fst (ipc_send [104; 105] (ipc_init empty_queue)) in
  wf s /\ pending s = [[104; 105]] /\ snd (ipc_recv [] s) = 1 /\
  (let '(s', b, r) := ipc_recv [] s in wf s' /\ r = 1 /\ pending s' = [] /\ cstr b = [104; 105]).
Proof.
  assert (wf (fst (ipc_send [104; 105] (ipc_init empty_queue)))) as Hwf
    by (repeat split; vm_compute; congruence).
  split; [exact Hwf|]. split; [reflexivity|]. split; [reflexivity|].
  refine (proj2 (ipc_fifo_refinement _ [] [] Hwf _)).
  repeat constructor.
Defined.

End Ipc.
