(* ===== verification/Mq.v ===== *)
(** * mq.c: per-task mailboxes

    [mailbox[task][slot]] with [MQ_MAX_MSGS] slots per task.  A sender takes the
    lowest free slot of the receiver's mailbox, the receiver takes the lowest
    used one.  The theorems show that no message is lost, duplicated or altered
    and that the inbox is bounded, that a batch of sends is received in order,
    and that the delivery order is not FIFO in general although mq.h says it
    is. *)

From Stdlib Require Import ZArith Lia.
From stdpp Require Import base numbers list tactics.
From S2P Require Import Prelude Sched Task.

Module Mq.

Definition MQ_MAX_MSGS : Z := 8.
Definition MQ_MSG_SIZE : Z := 56.

Record MqMsg := mkMqMsg {
  used : Z;
  from : Z;
  len : Z;
  data : list Z
}.
#[global] Instance mqmsg_settable : Settable MqMsg :=
  {| rebuild m := mkMqMsg (used m) (from m) (len m) (data m) |}.
#[global] Instance mqmsg_inhabited : Inhabited MqMsg := populate (mkMqMsg 0 0 0 []).

(** [static MqMsg mailbox[MAX_TASKS][MQ_MAX_MSGS]] *)
Definition Mailbox : Type := list (list MqMsg).

Definition mq_init (mb : Mailbox) : Mailbox :=
  iter (fun i mb =>
    iter (fun j mb => mb.[i <- mb.[i].[j <- mb.[i].[j] <| used := 0 |>]])
      0 (Z.to_nat MQ_MAX_MSGS) mb)
    0 (Z.to_nat MAX_TASKS) mb.

Section ops.
Context {T : Type} `{!Scheduler T}.

Definition mq_send (t : T) (dst_pid : Z) (bytes : list Z) (n from_pid : Z) (mb : Mailbox)
    : Mailbox * Z :=
  if (dst_pid <? 0) || (MAX_TASKS <=? dst_pid) then (mb, -1)
  else if negb (sch_used t dst_pid) then (mb, -1)
  else
    let n := if MQ_MSG_SIZE <? n then MQ_MSG_SIZE else n in
    let n := if n <? 0 then 0 else n in
    match scan (fun j => negb (truth (used mb.[dst_pid].[j]))) 0 (Z.to_nat MQ_MAX_MSGS) with
    | Some j =>
        let m := mb.[dst_pid].[j] <| used := 1 |> <| from := from_pid |> <| len := u8 n |>
                   <| data := c_memcpy (data mb.[dst_pid].[j]) bytes n |> in
        (mb.[dst_pid <- mb.[dst_pid].[j <- m]], 0)
    | None => (mb, -1)
    end.

(** Returns the mailboxes, the filled buffer, the sender and the length. *)
Definition mq_recv (dst_pid : Z) (buf : list Z) (max_len : Z) (mb : Mailbox)
    : Mailbox * list Z * option Z * Z :=
  if (dst_pid <? 0) || (MAX_TASKS <=? dst_pid) then (mb, buf, None, 0)
  else
    match scan (fun j => truth (used mb.[dst_pid].[j])) 0 (Z.to_nat MQ_MAX_MSGS) with
    | Some j =>
        let m := mb.[dst_pid].[j] in
        let n := len m in
        let n := if max_len <? n then max_len else n in
        (mb.[dst_pid <- mb.[dst_pid].[j <- m <| used := 0 |>]],
         c_memcpy buf (data m) n, Some (from m), n)
    | None => (mb, buf, None, 0)
    end.

Definition mq_pending (pid : Z) (mb : Mailbox) : Z :=
  if (pid <? 0) || (MAX_TASKS <=? pid) then 0
  else iter (fun j count => if truth (used mb.[pid].[j]) then count + 1 else count)
         0 (Z.to_nat MQ_MAX_MSGS) 0.
End ops.

(** ** Invariant and abstraction *)
Definition slots_wf (l : list MqMsg) : Prop :=
  zlen l = MQ_MAX_MSGS /\
  Forall (fun m => zlen (data m) = MQ_MSG_SIZE /\ 0 <= len m <= MQ_MSG_SIZE) l.
Definition wf (mb : Mailbox) : Prop := zlen mb = MAX_TASKS /\ Forall slots_wf mb.

(** What a slot delivers: the sender and the payload. *)
Definition payload (m : MqMsg) : Z * list Z := (from m, take (Z.to_nat (len m)) (data m)).

Definition live (l : list MqMsg) : list MqMsg := filter (fun m => truth (used m) = true) l.

(** The messages waiting for [pid], in slot order. *)
Definition inbox (mb : Mailbox) (pid : Z) : list (Z * list Z) := payload <$> live mb.[pid].

(** The payload the sender asked for, after the clamping of the length. *)
Definition clamp (n : Z) : Z := Z.max 0 (Z.min n MQ_MSG_SIZE).

Lemma clamp_ifs n :
  (let n := if MQ_MSG_SIZE <? n then MQ_MSG_SIZE else n in if n <? 0 then 0 else n) = clamp n.
Proof. unfold clamp, MQ_MSG_SIZE. cbv zeta. destruct (Z.ltb_spec 56 n); case_if; bool_to_prop; lia. Qed.

Lemma wf_slots mb pid : wf mb -> 0 <= pid < MAX_TASKS -> slots_wf mb.[pid].
Proof. intros [Hl Hf] Hp. rewrite Forall_aget in Hf. apply Hf. lia. Qed.

Lemma slots_wf_get l j :
  slots_wf l -> 0 <= j < MQ_MAX_MSGS ->
  zlen (data l.[j]) = MQ_MSG_SIZE /\ 0 <= len l.[j] <= MQ_MSG_SIZE.
Proof. intros [Hl Hf] Hj. rewrite Forall_aget in Hf. apply Hf. lia. Qed.

Lemma slots_wf_aset l j m :
  slots_wf l -> zlen (data m) = MQ_MSG_SIZE /\ 0 <= len m <= MQ_MSG_SIZE ->
  slots_wf (l.[j <- m]).
Proof.
  intros [Hl Hf] Hm. split; [by rewrite zlen_aset|].
  unfold aset. by apply Forall_insert.
Qed.

Lemma wf_aset mb pid l : wf mb -> slots_wf l -> wf (mb.[pid <- l]).
Proof.
  intros [Hl Hf] Hs. split; [by rewrite zlen_aset|]. unfold aset. by apply Forall_insert.
Qed.

(** Splitting the live messages at a slot. *)
Lemma live_split l j :
  0 <= j < zlen l ->
  live l = live (take (Z.to_nat j) l) ++
           (if truth (used l.[j]) then [l.[j]] else []) ++ live (drop (S (Z.to_nat j)) l).
Proof.
  intros Hj. rewrite (aget_split l j) at 1 by done. unfold live.
  rewrite list.filter_app, filter_cons. case_decide as H; [by rewrite H|].
  by rewrite (not_true_is_false _ H).
Qed.

Lemma live_aset l j m :
  0 <= j < zlen l ->
  live (l.[j <- m]) = live (take (Z.to_nat j) l) ++
           (if truth (used m) then [m] else []) ++ live (drop (S (Z.to_nat j)) l).
Proof.
  intros Hj. rewrite (aset_split l j) by done. unfold live.
  rewrite list.filter_app, filter_cons. case_decide as H; [by rewrite H|].
  by rewrite (not_true_is_false _ H).
Qed.

Lemma live_none l : (forall j, 0 <= j < zlen l -> truth (used l.[j]) = false) -> live l = [].
Proof.
  intros H. unfold live. apply filter_none.
  apply Forall_aget. intros i Hi. rewrite H by done. done.
Qed.

Lemma live_all l : (forall j, 0 <= j < zlen l -> truth (used l.[j]) = true) -> live l = l.
Proof.
  intros H. unfold live. apply filter_all. apply Forall_aget. intros. by apply H.
Qed.

Lemma live_take_none l j :
  0 <= j <= zlen l -> (forall i, 0 <= i < j -> truth (used l.[i]) = false) ->
  live (take (Z.to_nat j) l) = [].
Proof.
  intros Hj H. apply live_none. unfold zlen. rewrite length_take. intros i Hi.
  rewrite aget_take by (unfold zlen in *; lia). apply H. unfold zlen in *. lia.
Qed.

Lemma live_take_all l j :
  0 <= j <= zlen l -> (forall i, 0 <= i < j -> truth (used l.[i]) = true) ->
  live (take (Z.to_nat j) l) = take (Z.to_nat j) l.
Proof.
  intros Hj H. apply live_all. unfold zlen. rewrite length_take. intros i Hi.
  rewrite aget_take by (unfold zlen in *; lia). apply H. unfold zlen in *. lia.
Qed.

Section theorems.
Context {T : Type} `{!Scheduler T}.

Lemma mq_wf_send (t : T) dst bytes n from_pid mb :
  wf mb -> clamp n <= zlen bytes -> wf (fst (mq_send t dst bytes n from_pid mb)).
Proof.
  intros Hwf Hlen. unfold mq_send. case_if; [done|]. case_if; [done|].
  cbv zeta. rewrite clamp_ifs. destruct (scan _ _ _) eqn:Hs; [|done].
  apply scan_Some in Hs as (Hj & _). simpl. bool_to_prop.
  pose proof (wf_slots _ dst Hwf ltac:(lia)) as Hsl.
  pose proof (slots_wf_get _ z Hsl ltac:(unfold MQ_MAX_MSGS in *; lia)) as [Hd _].
  apply wf_aset; [done|]. apply slots_wf_aset; [done|]. simpl.
  assert (0 <= clamp n <= MQ_MSG_SIZE) by (unfold clamp, MQ_MSG_SIZE; lia).
  rewrite u8_small by (unfold MQ_MSG_SIZE in *; lia). split; [|done].
  unfold zlen. rewrite length_c_memcpy by lia. done.
Qed.

(** The slot the sender uses: before it every slot is in use, and the inbox is
    the old one with the new message inserted after them. *)
Lemma inbox_send (t : T) dst bytes n from_pid mb :
  wf mb -> clamp n <= zlen bytes ->
  snd (mq_send t dst bytes n from_pid mb) = 0 ->
  exists k, (k <= length (inbox mb dst))%nat /\
    inbox (fst (mq_send t dst bytes n from_pid mb)) dst =
      take k (inbox mb dst) ++ (from_pid, take (Z.to_nat (clamp n)) bytes) :: drop k (inbox mb dst).
Proof.
  intros Hwf Hlen. unfold mq_send. case_if; [done|]. case_if; [done|].
  cbv zeta. rewrite clamp_ifs. destruct (scan _ _ _) as [j|] eqn:Hs; [|done].
  apply scan_Some in Hs as (Hj & Hfree & Hfull). simpl. intros _. bool_to_prop.
  pose proof (wf_slots _ dst Hwf ltac:(lia)) as Hsl.
  destruct Hsl as [Hz _]. pose proof Hwf as [Hzm _]. change (Z.of_nat _) with MQ_MAX_MSGS in Hj.
  assert (forall i, 0 <= i < j -> truth (used mb.[dst].[i]) = true) as Hfull'.
  { intros i Hi. specialize (Hfull i Hi). by apply negb_false_iff in Hfull. }
  unfold inbox. rewrite aget_aset_eq by lia.
  rewrite live_aset by lia. rewrite (live_split mb.[dst] j) by lia.
  rewrite live_take_all by (try done; lia). rewrite Hfree. simpl.
  assert (0 <= clamp n <= MQ_MSG_SIZE) by (unfold clamp, MQ_MSG_SIZE; lia).
  rewrite !fmap_app. simpl. exists (Z.to_nat j). split.
  - rewrite length_app, !length_fmap, length_take. unfold zlen in Hz. lia.
  - rewrite take_app_length', drop_app_length' by (rewrite length_fmap, length_take; unfold zlen in Hz; lia).
    f_equal. f_equal. unfold payload, c_memcpy. simpl. f_equal.
    rewrite u8_small by (unfold MQ_MSG_SIZE in *; lia).
    apply take_app_length'. rewrite length_take. unfold zlen in Hlen. lia.
Qed.

Lemma send_other (t : T) dst bytes n from_pid mb pid :
  0 <= pid -> pid <> dst ->
  inbox (fst (mq_send t dst bytes n from_pid mb)) pid = inbox mb pid.
Proof.
  intros Hp Hne. unfold mq_send. case_if; [done|]. case_if; [done|].
  cbv zeta. destruct (scan _ _ _) as [j|]; [|done]. bool_to_prop. simpl. unfold inbox.
  by rewrite aget_aset_ne by lia.
Qed.

Lemma recv_spec dst buf max_len mb :
  wf mb -> 0 <= dst < MAX_TASKS ->
  match inbox mb dst with
  | [] => mq_recv dst buf max_len mb = (mb, buf, None, 0)
  | (sender, bytes) :: rest =>
      let '(mb', buf', who, n) := mq_recv dst buf max_len mb in
      wf mb' /\ inbox mb' dst = rest /\ who = Some sender /\
      n = Z.min (zlen bytes) max_len /\
      (0 <= max_len -> take (Z.to_nat n) buf' = take (Z.to_nat max_len) bytes) /\
      (forall pid, 0 <= pid -> pid <> dst -> inbox mb' pid = inbox mb pid)
  end.
Proof.
  intros Hwf Hd. pose proof (wf_slots _ _ Hwf Hd) as Hsl. pose proof Hsl as [Hz _].
  pose proof Hwf as [Hzm _]. unfold mq_recv.
  destruct (Z.ltb_spec dst 0); [lia|]. destruct (Z.leb_spec MAX_TASKS dst); [lia|]. simpl orb. cbv iota.
  destruct (scan _ _ _) as [j|] eqn:Hs.
  - apply scan_Some in Hs as (Hj & Hused & Hfree). change (Z.of_nat _) with MQ_MAX_MSGS in Hj.
    pose proof (slots_wf_get _ j Hsl ltac:(lia)) as [Hdl Hln].
    unfold inbox at 1. rewrite (live_split _ j), live_take_none, Hused by (try done; lia).
    simpl. split.
    { apply wf_aset; [done|]. by apply slots_wf_aset. }
    split.
    { unfold inbox. rewrite aget_aset_eq, live_aset, live_take_none by (try done; lia). done. }
    split; [done|].
    assert (zlen (take (Z.to_nat (len mb.[dst].[j])) (data mb.[dst].[j])) = len mb.[dst].[j]) as Hlen.
    { unfold zlen in *. rewrite length_take. lia. }
    rewrite Hlen. split; [case_if; bool_to_prop; lia|]. split.
    + intros Hm. unfold c_memcpy. rewrite take_take.
      case_if; bool_to_prop; rewrite take_app_length';
        rewrite ?length_take; unfold zlen in *; try lia; f_equal; lia.
    + intros pid Hp Hne. unfold inbox. by rewrite aget_aset_ne by lia.
  - unfold inbox. rewrite live_none; [done|]. intros j Hj.
    apply (scan_None _ _ _ Hs). unfold MQ_MAX_MSGS in *. lia.
Qed.

(** mq_pending counts the inbox. *)
Lemma pending_length mb pid :
  wf mb -> 0 <= pid < MAX_TASKS -> mq_pending pid mb = zlen (inbox mb pid).
Proof.
  intros Hwf Hp. pose proof (wf_slots _ _ Hwf Hp) as [Hz _]. unfold mq_pending.
  destruct (Z.ltb_spec pid 0); [lia|]. destruct (Z.leb_spec MAX_TASKS pid); [lia|]. simpl orb. cbv iota.
  unfold inbox, zlen. rewrite length_fmap.
  transitivity (Z.of_nat (length (live (take (Z.to_nat (0 + Z.of_nat (Z.to_nat MQ_MAX_MSGS))) mb.[pid])))).
  - apply (iter_ind (fun i c => c = Z.of_nat (length (live (take (Z.to_nat i) mb.[pid]))))); [done|].
    intros i c Hi ->. change (Z.of_nat _) with MQ_MAX_MSGS in Hi.
    rewrite Z2Nat.inj_add, Nat.add_1_r by lia.
    rewrite (take_S_r _ _ mb.[pid].[i]) by (apply aget_lookup; lia).
    unfold live at 3. rewrite list.filter_app, filter_cons, filter_nil, length_app. fold (live (take (Z.to_nat i) mb.[pid])).
    case_decide as Hu; [rewrite Hu|rewrite (not_true_is_false _ Hu)]; simpl; lia.
  - by rewrite take_ge by (unfold zlen in Hz; change (0 + _) with MQ_MAX_MSGS; lia).
Qed.

(** mq_send() succeeds exactly when the mailbox has a free slot. *)
Lemma send_result (t : T) dst bytes n from_pid mb :
  wf mb -> 0 <= dst < MAX_TASKS -> sch_used t dst = true ->
  if mq_pending dst mb <? MQ_MAX_MSGS then snd (mq_send t dst bytes n from_pid mb) = 0
  else mq_send t dst bytes n from_pid mb = (mb, -1).
Proof.
  intros Hwf Hd Hu. rewrite pending_length by done. unfold mq_send. rewrite Hu.
  destruct (Z.ltb_spec dst 0); [lia|]. destruct (Z.leb_spec MAX_TASKS dst); [lia|].
  simpl orb. simpl negb. cbv iota zeta.
  pose proof (wf_slots _ _ Hwf Hd) as [Hz _]. unfold inbox, zlen. rewrite length_fmap.
  destruct (scan _ _ _) as [j|] eqn:Hs; simpl.
  - apply scan_Some in Hs as (Hj & Hf & _). change (Z.of_nat _) with MQ_MAX_MSGS in Hj.
    apply negb_true_iff in Hf. rewrite (live_split _ j), Hf by lia. simpl.
    case_if; [done|]. bool_to_prop. exfalso. rewrite length_app in E.
    unfold live in E.
    pose proof (length_filter (fun m => truth (used m) = true) (take (Z.to_nat j) mb.[dst])).
    pose proof (length_filter (fun m => truth (used m) = true) (drop (S (Z.to_nat j)) mb.[dst])).
    rewrite length_take, length_drop in *. unfold zlen, MQ_MAX_MSGS in *. lia.
  - rewrite live_all.
    + case_if; [|done]. bool_to_prop. unfold zlen in Hz. lia.
    + intros j Hj. apply negb_false_iff. apply (scan_None _ _ _ Hs). unfold MQ_MAX_MSGS in *. lia.
Qed.

(** Mailboxes neither lose, duplicate nor alter messages.  A send to a live
    task with fewer than [MQ_MAX_MSGS] pending messages succeeds and adds exactly
    the (clamped) payload to that inbox; to a full one it fails and changes
    nothing; no other inbox changes, and mq_pending() is the inbox size. *)
Theorem mq_send_adds_one (t : T) dst bytes n from_pid mb :
  wf mb -> 0 <= dst < MAX_TASKS -> sch_used t dst = true -> clamp n <= zlen bytes ->
  let '(mb', r) := mq_send t dst bytes n from_pid mb in
  wf mb' /\ mq_pending dst mb = zlen (inbox mb dst) /\
  (if mq_pending dst mb <? MQ_MAX_MSGS
   then r = 0 /\ inbox mb' dst ≡ₚ (from_pid, take (Z.to_nat (clamp n)) bytes) :: inbox mb dst
   else r = -1 /\ mb' = mb) /\
  (forall pid, 0 <= pid -> pid <> dst -> inbox mb' pid = inbox mb pid).
Proof.
  intros Hwf Hd Hu Hn. pose proof (mq_wf_send t dst bytes n from_pid mb Hwf Hn) as Hw.
  pose proof (send_result t dst bytes n from_pid mb Hwf Hd Hu) as Hr.
  pose proof (inbox_send t dst bytes n from_pid mb Hwf Hn) as Hi.
  pose proof (send_other t dst bytes n from_pid mb) as Ho.
  destruct (mq_send t dst bytes n from_pid mb) as [mb' r]. simpl in *.
  split; [done|]. split; [by apply pending_length|]. split; [|auto].
  case_if; [|by simplify_eq]. split; [done|].
  destruct (Hi Hr) as (k & _ & ->). rewrite <- Permutation_middle, take_drop. done.
Qed.

(** ** Order of delivery *)

(** The used slots come first. *)
Definition dense (l : list MqMsg) : Prop :=
  forall i j, 0 <= i < j -> j < zlen l -> truth (used l.[j]) = true -> truth (used l.[i]) = true.

Fixpoint send_batch (t : T) (dst : Z) (msgs : list (Z * list Z)) (mb : Mailbox) : Mailbox :=
  match msgs with
  | [] => mb
  | (who, bytes) :: rest => send_batch t dst rest (fst (mq_send t dst bytes (zlen bytes) who mb))
  end.

Lemma send_dense (t : T) dst bytes n from_pid mb :
  wf mb -> clamp n <= zlen bytes -> dense mb.[dst] ->
  snd (mq_send t dst bytes n from_pid mb) = 0 ->
  dense (fst (mq_send t dst bytes n from_pid mb)).[dst] /\
  inbox (fst (mq_send t dst bytes n from_pid mb)) dst =
    inbox mb dst ++ [(from_pid, take (Z.to_nat (clamp n)) bytes)].
Proof.
  intros Hwf Hlen Hdense Hok. destruct (inbox_send t dst bytes n from_pid mb Hwf Hlen Hok) as (k & Hk & Hin).
  revert Hok Hin. unfold mq_send. case_if; [done|]. case_if; [done|].
  cbv zeta. rewrite clamp_ifs. destruct (scan _ _ _) as [j|] eqn:Hs; [|done].
  apply scan_Some in Hs as (Hj & Hfree & Hfull). simpl. intros _ _. bool_to_prop.
  pose proof (wf_slots _ dst Hwf ltac:(lia)) as [Hz _]. pose proof Hwf as [Hzm _].
  change (Z.of_nat _) with MQ_MAX_MSGS in Hj.
  assert (forall i, 0 <= i < j -> truth (used mb.[dst].[i]) = true) as Hfull'.
  { intros i Hi. specialize (Hfull i Hi). by apply negb_false_iff in Hfull. }
  assert (live (drop (S (Z.to_nat j)) mb.[dst]) = []) as Hrest.
  { apply live_none. intros i Hi. unfold aget. rewrite lookup_total_drop.
    apply not_true_is_false. intros Hu. assert (0 <= i) by lia.
    assert (truth (used mb.[dst].[j]) = true) as Hc; [|congruence].
    apply (Hdense j (j + 1 + i)); [lia| |].
    - unfold zlen in *. rewrite length_drop in Hi. lia.
    - unfold aget. replace (Z.to_nat (j + 1 + i)) with (S (Z.to_nat j) + Z.to_nat i)%nat by lia. done. }
  rewrite aget_aset_eq by lia. split.
  - intros a b Hab Hb. rewrite zlen_aset in Hb. rewrite !aget_aset by lia.
    repeat case_decide; subst; simpl; try done; try lia.
    + intros _. apply Hfull'. lia.
    + intros Hub. apply (Hdense a b); done || lia.
  - unfold inbox. rewrite aget_aset_eq, live_aset, (live_split mb.[dst] j), Hrest by lia.
    rewrite Hfree. simpl. rewrite app_nil_r, fmap_app. f_equal. simpl. f_equal.
    assert (0 <= clamp n <= MQ_MSG_SIZE) by (unfold clamp, MQ_MSG_SIZE; lia).
    unfold payload, c_memcpy. simpl. f_equal. rewrite u8_small by (unfold MQ_MSG_SIZE in *; lia).
    apply take_app_length'. rewrite length_take. unfold zlen in Hlen. lia.
Qed.

Lemma send_batch_spec (t : T) dst msgs : forall mb,
  wf mb -> 0 <= dst < MAX_TASKS -> sch_used t dst = true -> dense mb.[dst] ->
  Forall (fun m => zlen (snd m) <= MQ_MSG_SIZE) msgs ->
  zlen (inbox mb dst) + zlen msgs <= MQ_MAX_MSGS ->
  wf (send_batch t dst msgs mb) /\ inbox (send_batch t dst msgs mb) dst = inbox mb dst ++ msgs.
Proof.
  induction msgs as [|[who bytes] msgs IH]; intros mb Hwf Hd Hu Hdense Hsz Hcap; simpl.
  { by rewrite app_nil_r. }
  apply Forall_cons_1 in Hsz as [Hb Hsz]. simpl in Hb.
  assert (clamp (zlen bytes) = zlen bytes) as Hcl by (pose proof (zlen_nonneg bytes); unfold clamp; lia).
  pose proof (send_result t dst bytes (zlen bytes) who mb Hwf Hd Hu) as Hr.
  rewrite pending_length in Hr by done.
  destruct (Z.ltb_spec (zlen (inbox mb dst)) MQ_MAX_MSGS); [|unfold zlen in *; simpl in *; lia].
  destruct (send_dense t dst bytes (zlen bytes) who mb Hwf ltac:(lia) Hdense Hr) as [Hd' Hi].
  assert (take (Z.to_nat (clamp (zlen bytes))) bytes = bytes) as Ht by (rewrite Hcl; apply take_ge; unfold zlen; lia).
  rewrite Ht in Hi.
  destruct (IH _ (mq_wf_send t dst bytes (zlen bytes) who mb Hwf ltac:(lia)) Hd Hu Hd' Hsz) as [Hw' Hin].
  { rewrite Hi. unfold zlen in *. rewrite length_app. simpl in *. lia. }
  split; [done|]. rewrite Hin, Hi, <- app_assoc. done.
Qed.

(** A batch is delivered in order.  Up to [MQ_MAX_MSGS] messages sent to an
    empty mailbox are all queued, and the first one sent is the first one
    received. *)
Theorem mq_batch_in_order (t : T) dst m msgs mb buf :
  wf mb -> 0 <= dst < MAX_TASKS -> sch_used t dst = true -> inbox mb dst = [] ->
  Forall (fun m => zlen (snd m) <= MQ_MSG_SIZE) (m :: msgs) -> zlen (m :: msgs) <= MQ_MAX_MSGS ->
  let mb1 := send_batch t dst (m :: msgs) mb in
  inbox mb1 dst = m :: msgs /\
  let '(mb2, buf', who, n) := mq_recv dst buf MQ_MSG_SIZE mb1 in
  who = Some (fst m) /\ n = zlen (snd m) /\ take (Z.to_nat n) buf' = snd m /\ inbox mb2 dst = msgs.
Proof.
  intros Hwf Hd Hu He Hsz Hcap.
  assert (dense mb.[dst]) as Hdense.
  { intros i j Hi Hj Huj. exfalso. unfold inbox in He. apply fmap_nil_inv in He.
    assert (mb.[dst].[j] ∈ live mb.[dst]) as Hin; [|rewrite He in Hin; by apply not_elem_of_nil in Hin].
    apply list_elem_of_filter. split; [done|]. apply aget_in. lia. }
  destruct (send_batch_spec t dst (m :: msgs) mb Hwf Hd Hu Hdense Hsz) as [Hw Hin].
  { rewrite He. done. }
  rewrite He in Hin. cbv zeta. split; [done|].
  pose proof (recv_spec dst buf MQ_MSG_SIZE _ Hw Hd) as Hr. rewrite Hin in Hr. destruct m as [who bytes].
  destruct (mq_recv dst buf MQ_MSG_SIZE (send_batch t dst ((who, bytes) :: msgs) mb)) as [[[mb2 buf'] w] n].
  destruct Hr as (_ & Hi2 & -> & -> & Htake & _).
  apply Forall_cons_1 in Hsz as [Hb _]. simpl in *.
  rewrite Z.min_l in * by done. split; [done|]. split; [done|]. split; [|done].
  rewrite Htake by done. apply take_ge. unfold zlen, MQ_MSG_SIZE in *. lia.
Qed.
End theorems.

(** An empty set of mailboxes. *)
Definition mailbox0 : Mailbox := replicate 32 (replicate 8 (mkMqMsg 0 0 0 (replicate 56 0))).

Lemma mailbox0_wf : wf mailbox0.
Proof.
  split; [reflexivity|]. apply Forall_replicate. split; [reflexivity|].
  apply Forall_replicate. simpl. split; [reflexivity|]. vm_compute. split; congruence.
Qed.

Lemma mq_send_adds_one_witness :
  let '(mb', r) := mq_send Task.demo_sys 2 [7; 8; 9] 3 1 mailbox0 in
  r = 0 /\ inbox mb' 2 ≡ₚ [(1, [7; 8; 9])].
Proof.
  pose proof (mq_send_adds_one Task.demo_sys 2 [7; 8; 9] 3 1 mailbox0 mailbox0_wf
    ltac:(vm_compute; split; congruence) ltac:(reflexivity) ltac:(vm_compute; congruence)) as H.
  destruct (mq_send Task.demo_sys 2 [7; 8; 9] 3 1 mailbox0) as [mb' r].
  destruct H as (_ & _ & H & _). exact H.
Defined.

Lemma mq_batch_in_order_witness :
  let mb1 := send_batch Task.demo_sys 2 [(1, [7]); (3, [8; 9])] mailbox0 in
  inbox mb1 2 = [(1, [7]); (3, [8; 9])].
Proof.
  refine (proj1 (mq_batch_in_order Task.demo_sys 2 (1, [7]) [(3, [8; 9])] mailbox0 [] mailbox0_wf _ _ _ _ _));
    [vm_compute; split; congruence|reflexivity|reflexivity|repeat constructor; vm_compute; congruence|vm_compute; congruence].
Defined.

(** Delivery is not FIFO.  mq.h promises that the receiver takes messages
    first-in first-out; after A and B are sent, A received and C sent, the next
    message received is C although B is older. *)
Theorem mq_not_fifo :
  let st := Task.demo_sys in
  let mb := fst (mq_send st 2 [65] 1 1 mailbox0) in
  let mb := fst (mq_send st 2 [66] 1 1 mb) in
  let '(mb, b1, _, _) := mq_recv 2 [0] 56 mb in
  let mb := fst (mq_send st 2 [67] 1 1 mb) in
  let '(mb, b2, _, _) := mq_recv 2 [0] 56 mb in
  let '(mb, b3, _, _) := mq_recv 2 [0] 56 mb in
  b1 = [65] /\ b2 = [67] /\ b3 = [66].
Proof. vm_compute. done. Qed.

End Mq.
