(* ===== verification/Semaphore.v ===== *)
(** * semaphore.c: counting semaphores with a waiter ring

    Operations on the semaphore table, then the interleaving semantics of tasks
    that call sem_wait() and sem_post() on one semaphore.  The critical sections
    (between [cli] and [sti]) are atomic steps; between them the running task
    may be preempted.  The theorems show the counting invariant over every
    interleaving, the FIFO wake-up order, and the two ways the primitive fails:
    a wake-up that is lost when the waiter is preempted between [sti] and
    task_block(), and the wrap-around of the 8-bit counter. *)

From Stdlib Require Import ZArith Lia.
From stdpp Require Import base numbers list tactics relations.
From S2P Require Import Prelude Ring Sched Task.

Module Sem.

Definition SEM_MAX : Z := 16.
Definition SEM_WAITER_MAX : Z := 4.

Record Semaphore := mkSemaphore {
  value : Z;
  used : Z;
  waiters : list Z;
  whead : Z;
  wtail : Z
}.
#[global] Instance semaphore_settable : Settable Semaphore :=
  {| rebuild s := mkSemaphore (value s) (used s) (waiters s) (whead s) (wtail s) |}.
#[global] Instance semaphore_inhabited : Inhabited Semaphore := populate (mkSemaphore 0 0 [] 0 0).

(** [static Semaphore sems[SEM_MAX]] *)
Definition Sems : Type := list Semaphore.

Definition no_waiters : list Z := [-1; -1; -1; -1].

Definition sem_init_all (ss : Sems) : Sems :=
  iter (fun i ss => ss.[i <- ss.[i] <| used := 0 |> <| value := 0 |> <| whead := 0 |> <| wtail := 0 |>
                              <| waiters := no_waiters |>]) 0 (Z.to_nat SEM_MAX) ss.

Definition sem_alloc (initial_value : Z) (ss : Sems) : Sems * Z :=
  match scan (fun i => negb (truth (used ss.[i]))) 0 (Z.to_nat SEM_MAX) with
  | Some i =>
      (ss.[i <- ss.[i] <| used := 1 |> <| value := i8 initial_value |> <| whead := 0 |> <| wtail := 0 |>
                   <| waiters := no_waiters |>], i)
  | None => (ss, -1)
  end.

Definition sem_free (id : Z) (ss : Sems) : Sems :=
  if (0 <=? id) && (id <? SEM_MAX) then ss.[id <- ss.[id] <| used := 0 |>] else ss.

Definition sem_enqueue (id tid : Z) (ss : Sems) : Sems * Z :=
  let s := ss.[id] in
  let next := (wtail s + 1) mod SEM_WAITER_MAX in
  if next =? whead s then (ss, -1)
  else (ss.[id <- s <| waiters := (waiters s).[wtail s <- tid] |> <| wtail := next |>], 0).

Definition sem_dequeue (id : Z) (ss : Sems) : Sems * Z :=
  let s := ss.[id] in
  if whead s =? wtail s then (ss, -1)
  else (ss.[id <- s <| waiters := (waiters s).[whead s <- -1] |>
                    <| whead := (whead s + 1) mod SEM_WAITER_MAX |>],
        (waiters s).[whead s]).

Definition sem_valid (id : Z) (ss : Sems) : bool :=
  negb ((id <? 0) || (SEM_MAX <=? id) || negb (truth (used ss.[id]))).

(** One turn of the [while (1)] loop of sem_wait(), from [cli] to [sti]. *)
Inductive wait_result := Acquired | MustBlock | MustYield.

Definition sem_wait_turn (id tid : Z) (ss : Sems) : Sems * wait_result :=
  if 0 <? value ss.[id] then
    (ss.[id <- ss.[id] <| value := value ss.[id] - 1 |>], Acquired)
  else
    let '(ss', r) := sem_enqueue id tid ss in
    if r <? 0 then (ss', MustYield) else (ss', MustBlock).

(** The critical section of sem_post(): dequeue one waiter and count up. *)
Definition sem_post_section (id : Z) (ss : Sems) : Sems * Z :=
  let '(ss, w) := sem_dequeue id ss in
  (ss.[id <- ss.[id] <| value := i8 (value ss.[id] + 1) |>], w).

Section ops.
Context {T : Type} `{!Scheduler T}.

(** The rest of sem_post(): [if (w >= 0 && w < MAX_TASKS && task_is_used(w)) task_unblock(w);] *)
Definition sem_post_wake (w : Z) (t : T) : T :=
  if (0 <=? w) && (w <? MAX_TASKS) && sch_used t w then sch_unblock w t else t.

Definition sem_post (id : Z) (ss : Sems) (t : T) : Sems * T * Z :=
  if negb (sem_valid id ss) then (ss, t, -1)
  else let '(ss, w) := sem_post_section id ss in (ss, sem_post_wake w t, 0).
End ops.

(** ** Invariant *)
Definition sem_wf (s : Semaphore) : Prop := ring_wf SEM_WAITER_MAX (waiters s) (whead s) (wtail s).
Definition queue (s : Semaphore) : list Z := ring_items SEM_WAITER_MAX (waiters s) (whead s) (wtail s).
Definition wf (ss : Sems) : Prop := zlen ss = SEM_MAX /\ Forall sem_wf ss.

Lemma sem_wf_get ss id : wf ss -> 0 <= id < SEM_MAX -> sem_wf ss.[id].
Proof. intros [Hl Hf] H. rewrite Forall_aget in Hf. apply Hf. lia. Qed.

Lemma sem_wf_set ss id s : wf ss -> sem_wf s -> wf (ss.[id <- s]).
Proof. intros [Hl Hf] Hs. split; [by rewrite zlen_aset|]. by apply Forall_insert. Qed.

Lemma sem_enqueue_spec id tid ss :
  wf ss -> 0 <= id < SEM_MAX ->
  let '(ss', r) := sem_enqueue id tid ss in
  wf ss' /\
  if zlen (queue ss.[id]) <? SEM_WAITER_MAX - 1
  then r = 0 /\ queue ss'.[id] = queue ss.[id] ++ [tid] /\ value ss'.[id] = value ss.[id] /\
       used ss'.[id] = used ss.[id]
  else r = -1 /\ ss' = ss.
Proof.
  intros Hwf Hid. pose proof (sem_wf_get ss id Hwf Hid) as Hs. unfold sem_enqueue. cbv zeta.
  pose proof (ring_full_iff _ _ _ _ Hs) as Hfull. pose proof (ring_items_bound _ _ _ _ Hs) as Hb.
  fold (queue ss.[id]) in *. destruct Hwf as [Hl Hf].
  destruct (Z.eqb_spec ((wtail ss.[id] + 1) mod SEM_WAITER_MAX) (whead ss.[id])) as [He|He].
  - split; [done|]. apply Hfull in He. destruct (Z.ltb_spec (zlen (queue ss.[id])) (SEM_WAITER_MAX - 1)); [lia|done].
  - split; [apply sem_wf_set; [done|by apply ring_wf_push]|].
    destruct (Z.ltb_spec (zlen (queue ss.[id])) (SEM_WAITER_MAX - 1)).
    + rewrite aget_aset_eq by lia. unfold queue. simpl. rewrite ring_items_push by done. done.
    + exfalso. apply He, Hfull. lia.
Qed.

Lemma sem_dequeue_spec id ss :
  wf ss -> 0 <= id < SEM_MAX ->
  let '(ss', w) := sem_dequeue id ss in
  wf ss' /\ value ss'.[id] = value ss.[id] /\ used ss'.[id] = used ss.[id] /\
  match queue ss.[id] with
  | [] => w = -1 /\ queue ss'.[id] = []
  | x :: rest => w = x /\ queue ss'.[id] = rest
  end.
Proof.
  intros Hwf Hid. pose proof (sem_wf_get ss id Hwf Hid) as Hs. unfold sem_dequeue. cbv zeta.
  destruct Hwf as [Hl Hf].
  destruct (Z.eqb_spec (whead ss.[id]) (wtail ss.[id])) as [He|He].
  - split; [done|]. do 2 (split; [done|]). unfold queue. by rewrite He, ring_items_empty.
  - assert (sem_wf (ss.[id] <| waiters := (waiters ss.[id]).[whead ss.[id] <- -1] |>
              <| whead := (whead ss.[id] + 1) mod SEM_WAITER_MAX |>)) as Hw.
    { unfold sem_wf. simpl. apply (ring_wf_pop _ (waiters ss.[id])); [apply zlen_aset|done]. }
    split; [by apply sem_wf_set|]. rewrite aget_aset_eq by lia. do 2 (split; [done|]).
    unfold queue at 1. rewrite (ring_items_pop _ _ ((waiters ss.[id]).[whead ss.[id] <- -1])); [done|done|done|].
    intros i Hi Hne. apply aget_aset_ne; destruct Hs as (? & ? & ?); lia.
Qed.

Lemma wait_turn_spec id tid ss :
  wf ss -> 0 <= id < SEM_MAX -> -128 <= value ss.[id] < 128 ->
  let '(ss', r) := sem_wait_turn id tid ss in
  wf ss' /\ used ss'.[id] = used ss.[id] /\
  if 0 <? value ss.[id] then r = Acquired /\ value ss'.[id] = value ss.[id] - 1 /\ queue ss'.[id] = queue ss.[id]
  else value ss'.[id] = value ss.[id] /\
    if zlen (queue ss.[id]) <? SEM_WAITER_MAX - 1
    then r = MustBlock /\ queue ss'.[id] = queue ss.[id] ++ [tid] else r = MustYield /\ ss' = ss.
Proof.
  intros Hwf Hid Hv. unfold sem_wait_turn. pose proof (sem_wf_get ss id Hwf Hid) as Hs.
  pose proof Hwf as [Hl _].
  destruct (Z.ltb_spec 0 (value ss.[id])).
  - split; [by apply sem_wf_set|]. rewrite aget_aset_eq by lia. done.
  - pose proof (sem_enqueue_spec id tid ss Hwf Hid) as He. destruct (sem_enqueue id tid ss) as [ss' r].
    destruct He as [Hw He]. destruct (zlen (queue ss.[id]) <? SEM_WAITER_MAX - 1).
    + destruct He as (-> & ? & ? & ?). done.
    + destruct He as (-> & ->). done.
Qed.

Lemma post_section_spec id ss :
  wf ss -> 0 <= id < SEM_MAX ->
  let '(ss', w) := sem_post_section id ss in
  wf ss' /\ used ss'.[id] = used ss.[id] /\ value ss'.[id] = i8 (value ss.[id] + 1) /\
  match queue ss.[id] with
  | [] => w = -1 /\ queue ss'.[id] = []
  | x :: rest => w = x /\ queue ss'.[id] = rest
  end.
Proof.
  intros Hwf Hid. unfold sem_post_section. pose proof (sem_dequeue_spec id ss Hwf Hid) as Hd.
  destruct (sem_dequeue id ss) as [ss1 w]. destruct Hd as (Hw & Hv & Hu & Hq).
  pose proof (sem_wf_get ss1 id Hw Hid) as Hs. pose proof Hw as [Hl _].
  split; [by apply sem_wf_set|]. rewrite aget_aset_eq by lia. simpl. rewrite Hv, Hu.
  do 2 (split; [done|]). unfold queue in *. simpl. done.
Qed.

(** sem_post() on a live semaphore returns 0, adds one to the 8-bit counter,
    removes the oldest waiter from the ring and changes the status of no other
    task; that waiter becomes runnable if it is a used, blocked task.  On an
    invalid id it returns -1 and changes nothing. *)
Theorem sem_post_wakes_oldest `{!Scheduler T, !SchedulerLaws T} id ss (t : T) :
  wf ss -> sch_wf t ->
  let '(ss', t', r) := sem_post id ss t in
  if sem_valid id ss then
    r = 0 /\ wf ss' /\ value ss'.[id] = i8 (value ss.[id] + 1) /\
    queue ss'.[id] = tail (queue ss.[id]) /\
    (forall j, 0 <= j < MAX_TASKS ->
       sch_status t' j =
         if decide (head (queue ss.[id]) = Some j /\ sch_used t j = true /\ sch_status t j = TASK_BLOCKED)
         then TASK_RUNNING else sch_status t j)
  else r = -1 /\ ss' = ss /\ t' = t.
Proof.
  intros Hwf Ht. unfold sem_post. destruct (sem_valid id ss) eqn:Ev; simpl; [|done].
  assert (0 <= id < SEM_MAX) as Hid.
  { unfold sem_valid in Ev. bool_to_prop. lia. }
  pose proof (post_section_spec id ss Hwf Hid) as Hp.
  destruct (sem_post_section id ss) as [ss' w]. destruct Hp as (Hw & _ & Hv & Hq).
  split; [done|]. split; [done|]. split; [done|].
  unfold sem_post_wake. destruct (queue ss.[id]) as [|x rest]; destruct Hq as [-> Hq].
  - split; [done|]. intros j Hj. rewrite decide_False; [done|]. intros [? _]. done.
  - split; [done|]. intros j Hj. simpl. case_if; bool_to_prop.
    + rewrite sch_unblock_status by done. repeat case_decide; try done; exfalso; naive_solver.
    + case_decide as Hd; [|done]. destruct Hd as ([= ->] & Hu & _).
      rewrite Hu, (proj2 (Z.leb_le 0 j)), (proj2 (Z.ltb_lt j MAX_TASKS)) in E by lia. done.
Qed.

(** ** Tasks sharing one semaphore

    [PC] is where a task stands in sem_wait()/sem_post(): [Trying] at the top of
    the loop of sem_wait(), [Parking] after [sti] and before task_block(),
    [Parked] inside the halt loop of task_block(), [Waking w] in sem_post()
    after its critical section.  [acqs] and [posts] count the completed
    decrements and increments. *)
Inductive PC := Idle | Trying | Parking | Parked | Waking (w : Z).
#[global] Instance PC_eq_dec : EqDecision PC.
Proof. solve_decision. Defined.

Record World (T : Type) := mkWorld {
  sems : Sems;
  sched : T;
  pc : list PC;
  acqs : Z;
  posts : Z
}.
Arguments mkWorld {T}.
Arguments sems {T}. Arguments sched {T}. Arguments pc {T}. Arguments acqs {T}. Arguments posts {T}.
#[global] Instance world_settable T : Settable (World T) :=
  {| rebuild s := mkWorld (sems s) (sched s) (pc s) (acqs s) (posts s) |}.
#[global] Instance PC_inhabited : Inhabited PC := populate Idle.

Section interleaving.
Context {T : Type} `{!Scheduler T, !SchedulerLaws T} (id : Z).
Implicit Types w : World T.

Definition goto (p : PC) (w : World T) : World T :=
  w <| pc := (pc w).[sch_current (sched w) <- p] |>.

Definition here (w : World T) : PC := (pc w).[sch_current (sched w)].

Inductive step : World T -> World T -> Prop :=
| step_call_wait w : here w = Idle -> sem_valid id (sems w) = true -> step w (goto Trying w)
| step_acquire w ss' : here w = Trying ->
    sem_wait_turn id (sch_current (sched w)) (sems w) = (ss', Acquired) ->
    step w ((goto Idle w) <| sems := ss' |> <| acqs := acqs w + 1 |>)
| step_enqueue w ss' : here w = Trying ->
    sem_wait_turn id (sch_current (sched w)) (sems w) = (ss', MustBlock) ->
    step w ((goto Parking w) <| sems := ss' |>)
| step_full w ss' : here w = Trying ->
    sem_wait_turn id (sch_current (sched w)) (sems w) = (ss', MustYield) ->
    step w (w <| sems := ss' |> <| sched := sch_yield (sched w) |>)
| step_park w : here w = Parking ->
    step w ((goto Parked w) <| sched := sch_block (sched w) |>)
| step_resume w : here w = Parked ->
    sch_status (sched w) (sch_current (sched w)) = TASK_RUNNING -> step w (goto Trying w)
| step_post w ss' x : here w = Idle -> sem_valid id (sems w) = true ->
    sem_post_section id (sems w) = (ss', x) ->
    step w ((goto (Waking x) w) <| sems := ss' |> <| posts := posts w + 1 |>)
| step_wake w x : here w = Waking x ->
    step w ((goto Idle w) <| sched := sem_post_wake x (sched w) |>)
| step_preempt w t' : sch_wf t' ->
    (forall j, sch_used t' j = sch_used (sched w) j) ->
    (forall j, sch_status t' j = sch_status (sched w) j) ->
    step w (w <| sched := t' |>).

(** All tasks outside the semaphore code, the counter at [v]. *)
Definition start (v : Z) (w : World T) : Prop :=
  wf (sems w) /\ 0 <= id < SEM_MAX /\ value (sems w).[id] = v /\ queue (sems w).[id] = [] /\
  sch_wf (sched w) /\ pc w = replicate (Z.to_nat MAX_TASKS) Idle /\ acqs w = 0 /\ posts w = 0.

Definition counting (v : Z) (w : World T) : Prop :=
  wf (sems w) /\ 0 <= id < SEM_MAX /\ 0 <= acqs w /\ 0 <= posts w /\
  (v + posts w <= 127 -> value (sems w).[id] = v + posts w - acqs w /\ 0 <= value (sems w).[id]).

Lemma posts_mono w w' : step w w' -> posts w <= posts w'.
Proof. destruct 1; simpl; lia. Qed.

Lemma counting_step (v : Z) w w' : 0 <= v -> counting v w -> step w w' -> counting v w'.
Proof.
  intros Hv (Hwf & Hid & Ha & Hp & Hc) Hs.
  assert (forall tid, let '(ss', r) := sem_wait_turn id tid (sems w) in wf ss' /\
     value ss'.[id] = value (sems w).[id] - (if r is Acquired then 1 else 0) /\
     (r = Acquired -> 0 < value (sems w).[id])) as Hturn.
  { intros tid. unfold sem_wait_turn. pose proof Hwf as [Hl _].
    destruct (Z.ltb_spec 0 (value (sems w).[id])).
    - split; [by apply sem_wf_set, sem_wf_get|]. rewrite aget_aset_eq by lia. simpl. lia.
    - pose proof (sem_enqueue_spec id tid (sems w) Hwf Hid) as He. destruct (sem_enqueue id tid (sems w)) as [ss' r].
      destruct He as [Hw He]. case_if_in He; [destruct He as (-> & ? & ? & ?)|destruct He as (-> & ->)];
        simpl; (split; [done|]); (split; [lia|done]). }
  unfold counting. destruct Hs; simpl; try done;
    try (specialize (Hturn (sch_current (sched w))); rewrite H0 in Hturn; simpl in Hturn;
         destruct Hturn as (? & -> & ?); split; [done|]; split; [done|]; intuition lia).
  pose proof (post_section_spec id (sems w) Hwf Hid) as Hps. rewrite H1 in Hps.
  destruct Hps as (? & _ & Hval & _). split; [done|]. split; [done|]. split; [lia|]. split; [lia|].
  intros Hle. destruct Hc as [Hc0 Hc1]; [lia|]. rewrite Hval, i8_small by lia. lia.
Qed.

Lemma counting_rtc v w w' : 0 <= v -> counting v w -> rtc step w w' -> counting v w'.
Proof. intros Hv H Hr. induction Hr; [done|]. eauto using counting_step. Qed.


(** A task asleep in task_block() that nothing in the semaphore refers to. *)
Definition forgotten (i : Z) (w : World T) : Prop :=
  wf (sems w) /\ 0 <= id < SEM_MAX /\ sch_wf (sched w) /\ 0 <= i < MAX_TASKS /\
  zlen (pc w) = MAX_TASKS /\ (pc w).[i] = Parked /\
  sch_status (sched w) i = TASK_BLOCKED /\ (i ∉ queue (sems w).[id]) /\
  (forall j, 0 <= j < MAX_TASKS -> (pc w).[j] <> Waking i).

Lemma here_goto w p j :
  0 <= sch_current (sched w) < MAX_TASKS -> zlen (pc w) = MAX_TASKS -> 0 <= j ->
  ((pc (goto p w)).[j]) = (if decide (sch_current (sched w) = j) then p else (pc w).[j]).
Proof. intros. unfold goto. simpl. apply aget_aset; lia. Qed.

Lemma forgotten_step i w w' : forgotten i w -> step w w' -> forgotten i w'.
Proof.
  intros (Hwf & Hid & Ht & Hi & Hl & Hpc & Hst & Hq & Hw) Hs.
  pose proof (sch_current_range _ Ht) as Hcur.
  assert (forall x, zlen (pc (goto x w)) = MAX_TASKS) as Hlg
    by (intros; unfold goto; simpl; by rewrite zlen_aset).
  assert (forall p, sch_current (sched w) <> i -> p <> Waking i ->
     (pc (goto p w)).[i] = Parked /\ forall j, 0 <= j < MAX_TASKS -> (pc (goto p w)).[j] <> Waking i) as Hgo.
  { intros p Hc Hp. split; [rewrite here_goto by lia; by case_decide|].
    intros j Hj. rewrite here_goto by lia. case_decide; auto. }
  assert (forall tid, tid <> i -> let '(ss', _) := sem_wait_turn id tid (sems w) in
            wf ss' /\ i ∉ queue ss'.[id]) as Hturn.
  { intros tid Hne. unfold sem_wait_turn. pose proof Hwf as [Hls _]. case_if.
    - split; [by apply sem_wf_set, sem_wf_get|]. rewrite aget_aset_eq by lia. done.
    - pose proof (sem_enqueue_spec id tid (sems w) Hwf Hid) as He. destruct (sem_enqueue id tid (sems w)) as [ss' r].
      destruct He as [Hw' He]. case_if_in He.
      + destruct He as (-> & Hq' & _). split; [done|]. rewrite Hq', elem_of_app, list_elem_of_singleton. intuition.
      + destruct He as (-> & ->). done. }
  assert (here w <> Parked -> sch_current (sched w) <> i) as Hne by (unfold here; congruence).
  unfold forgotten. destruct Hs as [w Hh _|w ss' Hh Ht'|w ss' Hh Ht'|w ss' Hh Ht'|w Hh|w Hh Hrun|w ss' x Hh _ Ht'|w x Hh|w t' Hw' Hu Hs'];
    try (specialize (Hne ltac:(rewrite Hh; discriminate)));
    try (specialize (Hturn _ Hne); rewrite Ht' in Hturn; destruct Hturn).
  - destruct (Hgo Trying Hne) as [? ?]; [done|]. split_and!; first [assumption | apply Hlg | done | lia].
  - destruct (Hgo Idle Hne) as [? ?]; [done|]. split_and!; first [assumption | apply Hlg | done | lia].
  - destruct (Hgo Parking Hne) as [? ?]; [done|]. split_and!; first [assumption | apply Hlg | done | lia].
  - simpl. rewrite sch_yield_status by done. split_and!; try (done || lia). by apply sch_wf_yield.
  - destruct (Hgo Parked Hne) as [? ?]; [done|].
    change (sched ((goto Parked w) <| sched := sch_block (sched w) |>)) with (sch_block (sched w)).
    rewrite sch_block_status, decide_False by done.
    split; [done|]. split; [done|]. split; [by apply sch_wf_block|]. split_and!; first [assumption | apply Hlg | done | lia].
  - assert (sch_current (sched w) <> i) as Hc.
    { intros Hc. rewrite Hc, Hst in Hrun. discriminate. }
    destruct (Hgo Trying Hc) as [? ?]; [done|]. split_and!; first [assumption | apply Hlg | done | lia].
  - pose proof (post_section_spec id (sems w) Hwf Hid) as Hps. rewrite Ht' in Hps.
    destruct Hps as (Hw' & _ & _ & Hps).
    assert (x <> i /\ i ∉ queue ss'.[id]) as [Hx Hq'].
    { destruct (queue (sems w).[id]) as [|y rest]; destruct Hps as [-> ->];
        [split; [lia|apply not_elem_of_nil]|]. apply not_elem_of_cons in Hq as [? ?]. split; congruence. }
    destruct (Hgo (Waking x) Hne) as [? ?]; [congruence|]. split_and!; first [assumption | apply Hlg | done | lia].
  - assert (x <> i) as Hx by (intros ->; apply (Hw _ Hcur); exact Hh).
    destruct (Hgo Idle Hne) as [? ?]; [done|].
    change (sched ((goto Idle w) <| sched := sem_post_wake x (sched w) |>)) with (sem_post_wake x (sched w)).
    assert (sch_wf (sem_post_wake x (sched w)) /\ sch_status (sem_post_wake x (sched w)) i = TASK_BLOCKED) as [? ?].
    { unfold sem_post_wake. case_if; [|done]. split; [by apply sch_wf_unblock|].
      rewrite sch_unblock_status, decide_False by (try done; intuition). done. }
    split_and!; first [assumption | apply Hlg | done | lia].
  - simpl. rewrite Hs'. split_and!; first [assumption | apply Hlg | done | lia].
Qed.

Lemma forgotten_forever i w w' : forgotten i w -> rtc step w w' -> forgotten i w'.
Proof. intros H Hr. induction Hr; [done|]. eauto using forgotten_step. Qed.
End interleaving.

(** ** A concrete machine *)
Definition sems0 : Sems := replicate 16 (mkSemaphore 0 0 no_waiters 0 0).
Definition demo_world (v : Z) : World Task.Sys :=
  mkWorld (fst (sem_alloc v sems0)) Task.demo_sys (replicate 32 Idle) 0 0.

Lemma sem_wf_bool ss :
  forallb (fun s => (zlen (waiters s) =? SEM_WAITER_MAX) && (0 <=? whead s) && (whead s <? SEM_WAITER_MAX)
                    && (0 <=? wtail s) && (wtail s <? SEM_WAITER_MAX)) ss = true ->
  zlen ss = SEM_MAX -> wf ss.
Proof.
  intros H Hl. split; [done|]. rewrite forallb_forall in H. apply Forall_forall. intros s Hs%list_elem_of_In.
  specialize (H s Hs). bool_to_prop. repeat split; lia.
Qed.

Lemma demo_start v : -128 <= v < 128 -> start 0 v (demo_world v).
Proof.
  intros Hv. split; [apply sem_wf_bool; reflexivity|]. split; [vm_compute; split; congruence|].
  split; [exact (i8_small v Hv)|]. split; [reflexivity|]. split; [apply Task.demo_sys_wf|done].
Qed.

Lemma sem_post_wakes_oldest_witness :
  let ss := fst (sem_enqueue 0 3 (fst (sem_enqueue 0 2 (sems (demo_world 0))))) in
  let t := Task.on_task 2 (fun t => t <| Task.status := TASK_BLOCKED |>) Task.demo_sys in
  queue ss.[0] = [2; 3] /\
  queue (fst (fst (sem_post 0 ss t))).[0] = [3] /\
  Task.status (Task.tasks (snd (fst (sem_post 0 ss t)))).[2] = TASK_RUNNING.
Proof.
  intros ss t. assert (wf ss) as Hss by (apply sem_wf_bool; reflexivity).
  assert (sch_wf t) as Ht by apply Task.wf_on_task, Task.demo_sys_wf.
  pose proof (sem_post_wakes_oldest 0 ss t Hss Ht) as H.
  destruct (sem_post 0 ss t) as [[ss' t'] r] eqn:E.
  replace (sem_valid 0 ss) with true in H by reflexivity. destruct H as (_ & _ & _ & Hq & Hs).
  split; [reflexivity|]. split; [exact Hq|].
  specialize (Hs 2 ltac:(vm_compute; split; congruence)). rewrite decide_True in Hs by (split; [|split]; reflexivity).
  exact Hs.
Defined.


(** Task 0 waits and is preempted before task_block(); task 2 posts; task 0 then
    puts itself to sleep. *)
Definition lost1 : World Task.Sys := goto Trying (demo_world 0).
Definition lost2 : World Task.Sys :=
  (goto Parking lost1) <| sems := fst (sem_wait_turn 0 0 (sems lost1)) |>.
Definition lost3 : World Task.Sys := lost2 <| sched := (sched lost2) <| Task.current_task := 2 |> |>.
Definition lost4 : World Task.Sys :=
  (goto (Waking 0) lost3) <| sems := fst (sem_post_section 0 (sems lost3)) |> <| posts := 1 |>.
Definition lost5 : World Task.Sys := (goto Idle lost4) <| sched := sem_post_wake 0 (sched lost4) |>.
Definition lost6 : World Task.Sys := lost5 <| sched := (sched lost5) <| Task.current_task := 0 |> |>.
Definition lost7 : World Task.Sys := (goto Parked lost6) <| sched := sch_block (sched lost6) |>.

Lemma preempt_to (w : World Task.Sys) (k : Z) :
  Task.wf (sched w) -> 0 <= k < MAX_TASKS ->
  step 0 w (w <| sched := (sched w) <| Task.current_task := k |> |>).
Proof. intros [Hl Hc] Hk. apply step_preempt; [by split|done|done]. Qed.

Lemma lost7_reached : rtc (step 0) (demo_world 0) lost7.
Proof.
  assert (step 0 (demo_world 0) lost1) as H1 by (apply step_call_wait; reflexivity).
  assert (step 0 lost1 lost2) as H2 by (apply (step_enqueue 0 lost1 (fst (sem_wait_turn 0 0 (sems lost1)))); vm_compute; reflexivity).
  assert (step 0 lost2 lost3) as H3 by (apply (preempt_to lost2 2); [apply Task.demo_sys_wf|vm_compute; split; congruence]).
  assert (step 0 lost3 lost4) as H4 by (apply (step_post 0 lost3 (fst (sem_post_section 0 (sems lost3))) 0); vm_compute; reflexivity).
  assert (step 0 lost4 lost5) as H5 by (apply (step_wake 0 lost4 0); vm_compute; reflexivity).
  assert (step 0 lost5 lost6) as H6 by (apply (preempt_to lost5 0); [split; [vm_compute; reflexivity|]|]; vm_compute; split; congruence).
  assert (step 0 lost6 lost7) as H7 by (unfold lost7; apply step_park; vm_compute; reflexivity).
  exact (rtc_l _ _ _ _ H1 (rtc_l _ _ _ _ H2 (rtc_l _ _ _ _ H3 (rtc_l _ _ _ _ H4
    (rtc_l _ _ _ _ H5 (rtc_l _ _ _ _ H6 (rtc_once _ _ H7))))))).
Qed.

Lemma lost7_forgotten : forgotten 0 0 lost7.
Proof.
  split; [apply sem_wf_bool; reflexivity|]. split; [vm_compute; split; congruence|].
  split; [split; [reflexivity|vm_compute; split; congruence]|].
  split; [vm_compute; split; congruence|]. do 3 (split; [reflexivity|]).
  split; [apply not_elem_of_nil|].
  each_index 32%nat ltac:(vm_compute; congruence).
Qed.

(** A wake-up can be lost.  A task that finds the counter at 0 leaves the
    critical section before task_block(); if it is preempted there and another
    task posts, the post dequeues it while it is still TASK_RUNNING, so
    task_unblock() does nothing, and the task then blocks although the counter
    is 1 and the ring is empty.  From that state no sequence of waits and posts
    on the semaphore, of any tasks, makes it runnable again. *)
Theorem sem_lost_wakeup :
  exists w, rtc (step 0) (demo_world 0) w /\
    0 < value (sems w).[0] /\ queue (sems w).[0] = [] /\
    forall w', rtc (step 0) w w' -> (pc w').[0] = Parked /\ Task.status (Task.tasks (sched w')).[0] = TASK_BLOCKED.
Proof.
  exists lost7. split; [apply lost7_reached|]. split; [reflexivity|]. split; [reflexivity|].
  intros w' Hr. pose proof (forgotten_forever 0 0 _ _ lost7_forgotten Hr) as H.
  destruct H as (_ & _ & _ & _ & _ & Hp & Hs & _). split; [exact Hp|exact Hs].
Qed.

(** The counter is an int8_t: the post that follows the 127th makes it -128,
    so that a waiter then blocks although 128 units were posted. *)
Theorem sem_counter_wraps :
  let ss := fst (sem_alloc 127 sems0) in
  value (fst (fst (sem_post 0 ss Task.demo_sys))).[0] = -128 /\
  snd (sem_wait_turn 0 2 (fst (fst (sem_post 0 ss Task.demo_sys)))) = MustBlock.
Proof. split; reflexivity. Qed.

End Sem.
