(* ===== verification/CondVar.v ===== *)
(** * condvar.c: condition variables

    The condition-variable table and its waiter rings, over the semaphores of
    Semaphore.v (cv_wait releases and re-acquires a semaphore) and the scheduler
    interface.  cv_wait() is given up to the point where the task sleeps; what
    remains for it to do then is a value of [cv_rest].  The theorems show that
    cv_signal() wakes the oldest waiter, that cv_broadcast() wakes exactly the
    waiters and terminates, and that a signal sent between the release of the
    mutex and task_block() is lost. *)

From Stdlib Require Import ZArith Lia.
From stdpp Require Import base numbers list tactics.
From S2P Require Import Prelude Ring Sched Task Semaphore.

Module CV.

Definition CV_MAX : Z := 8.
Definition CV_WAITER_MAX : Z := 4.

Record CondVar := mkCondVar {
  used : Z;
  waiters : list Z;
  whead : Z;
  wtail : Z
}.
#[global] Instance condvar_settable : Settable CondVar :=
  {| rebuild c := mkCondVar (used c) (waiters c) (whead c) (wtail c) |}.
#[global] Instance condvar_inhabited : Inhabited CondVar := populate (mkCondVar 0 [] 0 0).

(** [static CondVar cvars[CV_MAX]] *)
Definition CVars : Type := list CondVar.

Definition cv_enqueue (cv : CondVar) (tid : Z) : CondVar * Z :=
  let next := u8 ((wtail cv + 1) mod CV_WAITER_MAX) in
  if next =? whead cv then (cv, -1)
  else (cv <| waiters := (waiters cv).[wtail cv <- tid] |> <| wtail := next |>, 0).

Definition cv_dequeue (cv : CondVar) : CondVar * Z :=
  if whead cv =? wtail cv then (cv, -1)
  else (cv <| whead := u8 ((whead cv + 1) mod CV_WAITER_MAX) |>, (waiters cv).[whead cv]).

Definition cv_init_all (cs : CVars) : CVars :=
  iter (fun i cs => cs.[i <- cs.[i] <| used := 0 |> <| whead := 0 |> <| wtail := 0 |>
                              <| waiters := [-1; -1; -1; -1] |>]) 0 (Z.to_nat CV_MAX) cs.

Definition cv_alloc (cs : CVars) : CVars * Z :=
  match scan (fun i => negb (truth (used cs.[i]))) 0 (Z.to_nat CV_MAX) with
  | Some i => (cs.[i <- cs.[i] <| used := 1 |> <| whead := 0 |> <| wtail := 0 |>], i)
  | None => (cs, -1)
  end.

Definition cv_free (id : Z) (cs : CVars) : CVars :=
  if (0 <=? id) && (id <? CV_MAX) then cs.[id <- cs.[id] <| used := 0 |>] else cs.

Definition cv_valid (id : Z) (cs : CVars) : bool :=
  negb ((id <? 0) || (CV_MAX <=? id) || negb (truth (used cs.[id]))).

(** What is left of cv_wait() for the caller: return -1 at once; or
    task_block() and then sem_wait(sem_id); or sem_wait(sem_id) directly. *)
Inductive cv_rest := Return_error | Block_then_reacquire | Reacquire.

Section ops.
Context {T : Type} `{!Scheduler T}.

Record State := mkState { cvars : CVars; sems : Sem.Sems; sched : T }.

Definition cv_wait (id sem_id : Z) (s : State) : State * cv_rest :=
  if negb (cv_valid id (cvars s)) then (s, Return_error)
  else
    let '(cv, r) := cv_enqueue (cvars s).[id] (sch_current (sched s)) in
    let cs := (cvars s).[id <- cv] in
    let '(ss, t, _) := Sem.sem_post sem_id (sems s) (sched s) in
    if r <? 0 then (mkState cs ss (sch_yield t), Reacquire)
    else (mkState cs ss t, Block_then_reacquire).

Definition cv_signal (id : Z) (s : State) : State * Z :=
  if negb (cv_valid id (cvars s)) then (s, -1)
  else
    let '(cv, w) := cv_dequeue (cvars s).[id] in
    let s' := mkState ((cvars s).[id <- cv]) (sems s) (sched s) in
    ((if 0 <=? w then mkState (cvars s') (sems s') (sch_unblock w (sched s')) else s'), 0).

(** [while ((w = cv_dequeue(&cvars[id])) >= 0) task_unblock(w);] *)
Fixpoint cv_broadcast_loop (fuel : nat) (id : Z) (s : State) : option State :=
  match fuel with
  | O => None
  | S fuel =>
      let '(cv, w) := cv_dequeue (cvars s).[id] in
      let s' := mkState ((cvars s).[id <- cv]) (sems s) (sched s) in
      if 0 <=? w then cv_broadcast_loop fuel id (mkState (cvars s') (sems s') (sch_unblock w (sched s')))
      else Some s'
  end.

(** A ring holds fewer than [CV_WAITER_MAX] waiters. *)
Definition cv_broadcast (id : Z) (s : State) : option (State * Z) :=
  if negb (cv_valid id (cvars s)) then Some (s, -1)
  else s' ← cv_broadcast_loop (Z.to_nat CV_WAITER_MAX) id s; Some (s', 0).

(** ** Invariant *)
Definition cv_wf (c : CondVar) : Prop := ring_wf CV_WAITER_MAX (waiters c) (whead c) (wtail c).
Definition queue (c : CondVar) : list Z := ring_items CV_WAITER_MAX (waiters c) (whead c) (wtail c).
Definition wf (cs : CVars) : Prop :=
  zlen cs = CV_MAX /\ Forall (fun c => cv_wf c /\ Forall (fun w => 0 <= w) (queue c)) cs.

Lemma u8_slot a : u8 (a mod CV_WAITER_MAX) = a mod CV_WAITER_MAX.
Proof. apply u8_small. pose proof (Z.mod_pos_bound a CV_WAITER_MAX). unfold CV_WAITER_MAX in *. lia. Qed.

Lemma cv_enqueue_spec c tid :
  cv_wf c -> let '(c', r) := cv_enqueue c tid in
  cv_wf c' /\ used c' = used c /\
  if zlen (queue c) <? CV_WAITER_MAX - 1 then r = 0 /\ queue c' = queue c ++ [tid] else r = -1 /\ c' = c.
Proof.
  intros Hc. unfold cv_enqueue. cbv zeta. rewrite u8_slot.
  pose proof (ring_full_iff _ _ _ _ Hc) as Hfull. pose proof (ring_items_bound _ _ _ _ Hc) as Hb.
  fold (queue c) in *.
  destruct (Z.eqb_spec ((wtail c + 1) mod CV_WAITER_MAX) (whead c)) as [He|He].
  - do 2 (split; [done|]). apply Hfull in He. case_if; bool_to_prop; [lia|done].
  - split; [by apply ring_wf_push|]. split; [done|]. case_if; bool_to_prop.
    + split; [done|]. unfold queue. simpl. by rewrite ring_items_push.
    + exfalso. apply He, Hfull. lia.
Qed.

Lemma cv_dequeue_spec c :
  cv_wf c -> let '(c', w) := cv_dequeue c in
  cv_wf c' /\ used c' = used c /\ queue c' = tail (queue c) /\ w = default (-1) (head (queue c)).
Proof.
  intros Hc. unfold cv_dequeue. rewrite u8_slot.
  destruct (Z.eqb_spec (whead c) (wtail c)) as [He|He].
  - assert (queue c = []) as Hq by (unfold queue; by rewrite He, ring_items_empty). by rewrite Hq.
  - split; [by apply (ring_wf_pop _ (waiters c))|]. split; [done|].
    unfold queue. simpl. by rewrite (ring_items_pop _ (waiters c) (waiters c) (whead c)).
Qed.

Lemma cv_wf_get cs id : wf cs -> 0 <= id < CV_MAX -> cv_wf cs.[id] /\ Forall (fun w => 0 <= w) (queue cs.[id]).
Proof. intros [Hl Hf] H. rewrite Forall_aget in Hf. apply Hf. lia. Qed.

Lemma cv_wf_set cs id c : wf cs -> cv_wf c -> Forall (fun w => 0 <= w) (queue c) -> wf (cs.[id <- c]).
Proof. intros [Hl Hf] Hc Hq. split; [by rewrite zlen_aset|]. by apply Forall_insert. Qed.

Lemma cv_valid_range id cs : cv_valid id cs = true -> 0 <= id < CV_MAX.
Proof. unfold cv_valid. intros. bool_to_prop. lia. Qed.

(** cv_signal() on a live condition variable returns 0, removes the oldest
    waiter from the ring and unblocks it, and only it; with no waiter it changes
    nothing that later operations can observe (the ring stays empty). *)
Theorem cv_signal_wakes_oldest id s :
  wf (cvars s) -> cv_valid id (cvars s) = true ->
  let '(s', r) := cv_signal id s in
  r = 0 /\ wf (cvars s') /\ sems s' = sems s /\ queue (cvars s').[id] = tail (queue (cvars s).[id]) /\
  sched s' = match queue (cvars s).[id] with [] => sched s | w :: _ => sch_unblock w (sched s) end.
Proof.
  intros Hwf Hv. unfold cv_signal. rewrite Hv. simpl. apply cv_valid_range in Hv.
  destruct (cv_wf_get _ _ Hwf Hv) as [Hc Hq]. pose proof (cv_dequeue_spec _ Hc) as Hd.
  destruct (cv_dequeue (cvars s).[id]) as [c w]. destruct Hd as (Hc' & _ & Hq' & ->).
  assert (Forall (fun w => 0 <= w) (queue c)) as Hf.
  { rewrite Hq'. destruct (queue (cvars s).[id]); [done|]. by apply Forall_cons_1 in Hq as [_ ?]. }
  destruct Hwf as [Hl Hf0]. destruct (queue (cvars s).[id]) as [|w rest] eqn:Eq; simpl in *.
  - split; [done|]. split; [by apply cv_wf_set|]. rewrite aget_aset_eq by lia. done.
  - apply Forall_cons_1 in Hq as [Hw _]. rewrite (proj2 (Z.leb_le _ _) Hw). simpl.
    split; [done|]. split; [by apply cv_wf_set|]. rewrite aget_aset_eq by lia. done.
Qed.

Lemma broadcast_loop_spec id : forall fuel s,
  wf (cvars s) -> 0 <= id < CV_MAX -> (length (queue (cvars s).[id]) < fuel)%nat ->
  exists s', cv_broadcast_loop fuel id s = Some s' /\ wf (cvars s') /\ sems s' = sems s /\
    queue (cvars s').[id] = [] /\ sched s' = sch_unblock_all (queue (cvars s).[id]) (sched s).
Proof.
  induction fuel as [|fuel IH]; intros s Hwf Hid Hlen; [lia|]. simpl.
  destruct (cv_wf_get _ _ Hwf Hid) as [Hc Hq]. pose proof (cv_dequeue_spec _ Hc) as Hd.
  destruct (cv_dequeue (cvars s).[id]) as [c w]. destruct Hd as (Hc' & _ & Hq' & ->).
  pose proof Hwf as [Hl _].
  destruct (queue (cvars s).[id]) as [|w rest] eqn:Eq; simpl in *.
  - eexists. split; [done|]. simpl. split; [apply cv_wf_set; [done|done|by rewrite Hq']|].
    rewrite aget_aset_eq by lia. done.
  - apply Forall_cons_1 in Hq as [Hw Hrest]. rewrite (proj2 (Z.leb_le _ _) Hw).
    destruct (IH (mkState ((cvars s).[id <- c]) (sems s) (sch_unblock w (sched s)))) as (s' & H1 & H2 & H3 & H4 & H5).
    + apply cv_wf_set; [done|done|by rewrite Hq'].
    + done.
    + simpl. rewrite aget_aset_eq, Hq' by lia. lia.
    + exists s'. simpl in *. rewrite aget_aset_eq, Hq' in H5 by lia. done.
Qed.

(** cv_broadcast() terminates, empties the ring and unblocks the waiters in
    FIFO order: every used task that was blocked in the ring becomes runnable,
    no other task changes status. *)
Theorem cv_broadcast_wakes_all `{!SchedulerLaws T} id s :
  wf (cvars s) -> sch_wf (sched s) -> cv_valid id (cvars s) = true ->
  exists s', cv_broadcast id s = Some (s', 0) /\ wf (cvars s') /\ queue (cvars s').[id] = [] /\
    forall j, 0 <= j < MAX_TASKS ->
      sch_status (sched s') j =
        if decide (j ∈ queue (cvars s).[id] /\ sch_used (sched s) j = true /\
                   sch_status (sched s) j = TASK_BLOCKED)
        then TASK_RUNNING else sch_status (sched s) j.
Proof.
  intros Hwf Ht Hv. unfold cv_broadcast. rewrite Hv. cbn [negb]. apply cv_valid_range in Hv.
  destruct (cv_wf_get _ _ Hwf Hv) as [Hc _]. pose proof (ring_items_bound _ _ _ _ Hc) as Hb.
  destruct (broadcast_loop_spec id (Z.to_nat CV_WAITER_MAX) s) as (s' & H1 & H2 & _ & H4 & H5); [done|done| |].
  { unfold queue, zlen in *. unfold CV_WAITER_MAX in *. lia. }
  rewrite H1. exists s'. split; [done|]. split; [done|]. split; [done|].
  intros j Hj. rewrite H5. by apply sch_unblock_all_status.
Qed.
End ops.
Arguments State : clear implicits.
Arguments mkState {T}.
Arguments cvars {T}. Arguments sems {T}. Arguments sched {T}.

(** ** A concrete machine *)
Definition cvars0 : CVars := replicate 8 (mkCondVar 0 [-1; -1; -1; -1] 0 0).
Definition demo : State Task.Sys :=
  mkState (fst (cv_alloc cvars0)) (fst (Sem.sem_alloc 0 Sem.sems0)) Task.demo_sys.

Lemma cv_wf_bool cs :
  forallb (fun c => (zlen (waiters c) =? CV_WAITER_MAX) && (0 <=? whead c) && (whead c <? CV_WAITER_MAX)
                    && (0 <=? wtail c) && (wtail c <? CV_WAITER_MAX) && forallb (fun w => 0 <=? w) (queue c)) cs = true ->
  zlen cs = CV_MAX -> wf cs.
Proof.
  intros H Hl. split; [done|]. rewrite forallb_forall in H. apply Forall_forall. intros c Hc.
  specialize (H c Hc). bool_to_prop. rewrite forallb_forall in *. split; [repeat split; lia|].
  apply Forall_forall. intros w Hw. apply Z.leb_le. auto.
Qed.

Definition blocked_in (tid : Z) (s : State Task.Sys) : State Task.Sys :=
  mkState (cvars s) (sems s) (Task.on_task tid (fun t => t <| Task.status := TASK_BLOCKED |>) (sched s)).
Definition two_waiting : State Task.Sys :=
  mkState ((cvars demo).[0 <- fst (cv_enqueue (fst (cv_enqueue (cvars demo).[0] 2)) 3)]) (sems demo)
    (sched (blocked_in 3 (blocked_in 2 demo))).

Lemma two_waiting_wf : wf (cvars two_waiting).
Proof. apply cv_wf_bool; reflexivity. Qed.

Lemma cv_signal_wakes_oldest_witness :
  queue (cvars two_waiting).[0] = [2; 3] /\
  (let '(s', r) := cv_signal 0 two_waiting in r = 0 /\ queue (cvars s').[0] = [3]).
Proof.
  split; [reflexivity|]. pose proof (cv_signal_wakes_oldest 0 two_waiting two_waiting_wf eq_refl) as H.
  destruct (cv_signal 0 two_waiting) as [s' r]. destruct H as (Hr & _ & _ & Hq & _). split; [exact Hr|exact Hq].
Defined.

Lemma cv_broadcast_wakes_all_witness :
  exists s', cv_broadcast 0 two_waiting = Some (s', 0) /\ queue (cvars s').[0] = [] /\
    Task.status (Task.tasks (sched s')).[3] = TASK_RUNNING.
Proof.
  assert (sch_wf (sched two_waiting)) as Ht by (do 2 apply Task.wf_on_task; apply Task.demo_sys_wf).
  destruct (cv_broadcast_wakes_all 0 two_waiting two_waiting_wf Ht eq_refl) as (s' & H1 & _ & H3 & H4).
  exists s'. split; [exact H1|]. split; [exact H3|].
  specialize (H4 3 ltac:(vm_compute; split; congruence)). rewrite decide_True in H4; [exact H4|].
  split; [|split; reflexivity]. change (queue (cvars two_waiting).[0]) with [2; 3]. apply elem_of_cons; right; by apply list_elem_of_singleton.
Defined.

(** A signal can be lost.  cv_wait() releases the mutex (which enables
    interrupts) before task_block(); when another task signals in between, the
    waiter is dequeued while still TASK_RUNNING, task_unblock() ignores it, and
    the waiter then blocks with the ring empty, so no later signal or broadcast
    reaches it. *)
Theorem cv_signal_lost_before_block :
  let '(s1, rest) := cv_wait 0 0 demo in
  let '(s2, r) := cv_signal 0 (mkState (cvars s1) (sems s1) ((sched s1) <| Task.current_task := 2 |>)) in
  let s3 := mkState (cvars s2) (sems s2) (sch_block ((sched s2) <| Task.current_task := 0 |>)) in
  rest = Block_then_reacquire /\ r = 0 /\ queue (cvars s3).[0] = [] /\
  Task.status (Task.tasks (sched s3)).[0] = TASK_BLOCKED /\
  (forall s4, cv_broadcast 0 s3 = Some (s4, 0) -> Task.status (Task.tasks (sched s4)).[0] = TASK_BLOCKED).
Proof.
  vm_compute cv_wait. vm_compute cv_signal. do 4 (split; [reflexivity|]).
  intros s4 H. vm_compute in H. by injection H as <-.
Qed.

End CV.
