(* ===== verification/Pipe.v ===== *)
(** * pipe.c: anonymous and named pipes

    A pipe is a byte ring that carries NUL-separated messages, a reader-waiter
    ring and a count of write ends.  pipe_read() is split where the task leaves
    the processor: [pipe_read_turn] is one pass of its waiting loop (from [cli]
    on), [pipe_take] the copy loop that follows once data is there.  The
    theorems relate the ring to the list of queued messages (a FIFO while every
    message fits together with its separator), give the wake-up and end-of-file
    behaviour, show named_pipe_open() to be idempotent for names that fit the
    name field, and exhibit what happens to messages and names that do not fit. *)

From Stdlib Require Import ZArith Lia.
From stdpp Require Import base numbers list tactics.
From S2P Require Import Prelude Ring Sched Task.

Module Pipe.

Definition PIPE_MAX : Z := 8.
Definition PIPE_BUF : Z := 256.
Definition PIPE_WAITER_MAX : Z := 4.
Definition NAMED_PIPE_MAX : Z := 8.

Record Pipe := mkPipe {
  buf : list Z;
  head : Z;
  tail : Z;
  used : Z;
  eof : Z;
  write_refs : Z;
  reader_waiters : list Z;
  rw_head : Z;
  rw_tail : Z
}.
#[global] Instance pipe_settable : Settable Pipe := {| rebuild p :=
  mkPipe (buf p) (head p) (tail p) (used p) (eof p) (write_refs p) (reader_waiters p) (rw_head p) (rw_tail p) |}.
#[global] Instance pipe_inhabited : Inhabited Pipe := populate (mkPipe [] 0 0 0 0 0 [] 0 0).

Record NamedPipe := mkNamedPipe { name : list Z; pipe_id : Z; np_used : Z }.
#[global] Instance named_pipe_settable : Settable NamedPipe :=
  {| rebuild n := mkNamedPipe (name n) (pipe_id n) (np_used n) |}.
#[global] Instance named_pipe_inhabited : Inhabited NamedPipe := populate (mkNamedPipe [] 0 0).

(** [static Pipe pipes[PIPE_MAX]] *)
Definition Pipes : Type := list Pipe.
(** [static NamedPipe named_pipes[NAMED_PIPE_MAX]] *)
Definition NamedPipes : Type := list NamedPipe.

Definition pipe_reset_waiters (p : Pipe) : Pipe :=
  p <| reader_waiters := [-1; -1; -1; -1] |> <| rw_head := 0 |> <| rw_tail := 0 |>.

Definition pipe_init_all (ps : Pipes) : Pipes :=
  iter (fun i ps => ps.[i <- pipe_reset_waiters (ps.[i] <| used := 0 |> <| head := 0 |> <| tail := 0 |>
                                                  <| eof := 0 |> <| write_refs := 0 |>)])
       0 (Z.to_nat PIPE_MAX) ps.

Definition pipe_alloc (ps : Pipes) : Pipes * Z :=
  match scan (fun i => negb (truth (used ps.[i]))) 0 (Z.to_nat PIPE_MAX) with
  | Some i =>
      (ps.[i <- pipe_reset_waiters (ps.[i] <| used := 1 |> <| head := 0 |> <| tail := 0 |>
                                     <| eof := 0 |> <| write_refs := 0 |>)], i)
  | None => (ps, -1)
  end.

Definition pipe_enqueue_waiter (tid : Z) (p : Pipe) : Pipe * Z :=
  let next := u8 ((rw_tail p + 1) mod PIPE_WAITER_MAX) in
  if next =? rw_head p then (p, -1)
  else (p <| reader_waiters := (reader_waiters p).[rw_tail p <- tid] |> <| rw_tail := next |>, 0).

Definition pipe_dequeue_waiter (p : Pipe) : Pipe * Z :=
  if rw_head p =? rw_tail p then (p, -1)
  else (p <| reader_waiters := (reader_waiters p).[rw_head p <- -1] |>
          <| rw_head := u8 ((rw_head p + 1) mod PIPE_WAITER_MAX) |>, (reader_waiters p).[rw_head p]).

Definition pipe_free (id : Z) (ps : Pipes) : Pipes :=
  if (0 <=? id) && (id <? PIPE_MAX) then ps.[id <- ps.[id] <| used := 0 |>] else ps.

(** [id >= 0 && id < PIPE_MAX && pipes[id].used] *)
Definition pipe_valid (id : Z) (ps : Pipes) : bool :=
  (0 <=? id) && (id <? PIPE_MAX) && truth (used ps.[id]).

Definition pipe_writer_attach (id : Z) (ps : Pipes) : Pipes :=
  if pipe_valid id ps then ps.[id <- ps.[id] <| write_refs := i8 (write_refs ps.[id] + 1) |>] else ps.

(** [while ( *str ) { ... if (next == p->head) break; ... written++; }] *)
Fixpoint put_bytes (str : list Z) (p : Pipe) (written : Z) : Pipe * Z :=
  match str with
  | [] => (p, written)
  | c :: str' =>
      let next := (tail p + 1) mod PIPE_BUF in
      if next =? head p then (p, written)
      else put_bytes str' (p <| buf := (buf p).[tail p <- c] |> <| tail := next |>) (written + 1)
  end.

(** The separator, dropped when the ring is full. *)
Definition put_nul (p : Pipe) : Pipe :=
  let next := (tail p + 1) mod PIPE_BUF in
  if negb (next =? head p) then p <| buf := (buf p).[tail p <- 0] |> <| tail := next |> else p.

(** One pass of the waiting loop of pipe_read(): data is there, end of file,
    sleep in task_block() or yield because the waiter ring is full (both followed
    by task_check_signals() and another pass). *)
Inductive read_result := Data | Eof | MustBlock | MustYield.

Definition pipe_read_turn (tid : Z) (p : Pipe) : Pipe * read_result :=
  if negb (head p =? tail p) then (p, Data)
  else if truth (eof p) then (p, Eof)
  else let '(p, r) := pipe_enqueue_waiter tid p in
       if r <? 0 then (p, MustYield) else (p, MustBlock).

(** [while (p->head != p->tail && i < PIPE_BUF - 1) { ... }] *)
Fixpoint take_loop (fuel : nat) (p : Pipe) (out : list Z) (i : Z) : Pipe * list Z * Z :=
  match fuel with
  | O => (p, out, i)
  | S fuel =>
      if negb (head p =? tail p) && (i <? PIPE_BUF - 1) then
        let c := (buf p).[head p] in
        let p := p <| head := (head p + 1) mod PIPE_BUF |> in
        if c =? 0 then (p, out, i) else take_loop fuel p (out.[i <- c]) (i + 1)
      else (p, out, i)
  end.

(** The rest of pipe_read() once data is there; [out] is the caller's buffer.
    The loop runs at most [PIPE_BUF - 1] times. *)
Definition pipe_take (p : Pipe) (out : list Z) : Pipe * list Z * Z :=
  let '(p, out, i) := take_loop (Z.to_nat PIPE_BUF) p out 0 in (p, out.[i <- 0], i).

Definition pipe_has_data (id : Z) (ps : Pipes) : Z :=
  if negb (pipe_valid id ps) then 0 else if negb (head ps.[id] =? tail ps.[id]) then 1 else 0.

Section ops.
Context {T : Type} `{!Scheduler T}.

(** [while ((w = pipe_dequeue_waiter(id)) >= 0) waiters[n++] = w;] *)
Fixpoint drain_waiters (fuel : nat) (p : Pipe) : Pipe * list Z :=
  match fuel with
  | O => (p, [])
  | S fuel =>
      let '(p', w) := pipe_dequeue_waiter p in
      if 0 <=? w then let '(p'', ws) := drain_waiters fuel p' in (p'', w :: ws) else (p', [])
  end.

Definition pipe_writer_detach (id : Z) (ps : Pipes) (t : T) : Pipes * T :=
  if negb (pipe_valid id ps) then (ps, t)
  else
    let p := ps.[id] in
    let p := if 0 <? write_refs p then p <| write_refs := write_refs p - 1 |> else p in
    if write_refs p =? 0 then
      let '(p, ws) := drain_waiters (Z.to_nat PIPE_WAITER_MAX) (p <| eof := 1 |>) in
      (ps.[id <- p], sch_unblock_all ws t)
    else (ps.[id <- p], t).

(** [str] is the C string argument, [None] a null pointer. *)
Definition pipe_write (id : Z) (str : option (list Z)) (ps : Pipes) (t : T) : Pipes * T * Z :=
  match str with
  | None => (ps, t, -1)
  | Some str =>
      if negb (pipe_valid id ps) then (ps, t, -1)
      else
        let '(p, written) := put_bytes (cstr str) ps.[id] 0 in
        let '(p, w) := pipe_dequeue_waiter (put_nul p) in
        (ps.[id <- p], (if 0 <=? w then sch_unblock w t else t), written)
  end.
End ops.

Definition named_pipe_open (nm : option (list Z)) (ns : NamedPipes) (ps : Pipes) : NamedPipes * Pipes * Z :=
  match nm with
  | None => (ns, ps, -1)
  | Some nm =>
      match scan (fun i => truth (np_used ns.[i]) && c_streq (name ns.[i]) nm) 0 (Z.to_nat NAMED_PIPE_MAX) with
      | Some i => (ns, ps, pipe_id ns.[i])
      | None =>
          match scan (fun i => negb (truth (np_used ns.[i]))) 0 (Z.to_nat NAMED_PIPE_MAX) with
          | Some i =>
              let '(ps, pid) := pipe_alloc ps in
              if pid <? 0 then (ns, ps, -1)
              else (ns.[i <- ns.[i] <| np_used := 1 |> <| pipe_id := pid |>
                                   <| name := c_strcpy (name ns.[i]) nm 16 |>], ps, pid)
          | None => (ns, ps, -1)
          end
      end
  end.

Definition named_pipe_close (nm : option (list Z)) (ns : NamedPipes) (ps : Pipes) : NamedPipes * Pipes :=
  match nm with
  | None => (ns, ps)
  | Some nm =>
      match scan (fun i => truth (np_used ns.[i]) && c_streq (name ns.[i]) nm) 0 (Z.to_nat NAMED_PIPE_MAX) with
      | Some i => (ns.[i <- ns.[i] <| np_used := 0 |> <| name := (name ns.[i]).[0 <- 0] |>],
                   pipe_free (pipe_id ns.[i]) ps)
      | None => (ns, ps)
      end
  end.

(** ** Invariant and abstraction *)
Definition bytes_wf (p : Pipe) : Prop := ring_wf PIPE_BUF (buf p) (head p) (tail p).
Definition readers_wf (p : Pipe) : Prop :=
  ring_wf PIPE_WAITER_MAX (reader_waiters p) (rw_head p) (rw_tail p).
Definition contents (p : Pipe) : list Z := ring_items PIPE_BUF (buf p) (head p) (tail p).
Definition readers (p : Pipe) : list Z := ring_items PIPE_WAITER_MAX (reader_waiters p) (rw_head p) (rw_tail p).
Definition pipe_wf (p : Pipe) : Prop :=
  bytes_wf p /\ readers_wf p /\ Forall (fun w => 0 <= w) (readers p).
Definition wf (ps : Pipes) : Prop := zlen ps = PIPE_MAX /\ Forall pipe_wf ps.

(** Free bytes in the ring. *)
Definition room (p : Pipe) : Z := PIPE_BUF - 1 - zlen (contents p).

(** Everything but the byte ring. *)
Definition same_control (p p' : Pipe) : Prop :=
  used p' = used p /\ eof p' = eof p /\ write_refs p' = write_refs p /\
  reader_waiters p' = reader_waiters p /\ rw_head p' = rw_head p /\ rw_tail p' = rw_tail p.

Lemma pipe_wf_get ps id : wf ps -> pipe_valid id ps = true -> 0 <= id < zlen ps /\ pipe_wf ps.[id].
Proof.
  intros [Hl Hf] H. unfold pipe_valid in H. bool_to_prop. rewrite Forall_aget in Hf.
  split; [lia|]. apply Hf. lia.
Qed.

Lemma pipe_wf_set ps id p : wf ps -> pipe_wf p -> wf (ps.[id <- p]).
Proof. intros [Hl Hf] Hp. split; [by rewrite zlen_aset|]. by apply Forall_insert. Qed.

Lemma room_full p : bytes_wf p -> (tail p + 1) mod PIPE_BUF = head p <-> room p = 0.
Proof. intros Hp. rewrite (ring_full_iff _ _ _ _ Hp). fold (contents p). unfold room. lia. Qed.

Lemma room_nonneg p : bytes_wf p -> 0 <= room p.
Proof. intros Hp. pose proof (ring_items_bound _ _ _ _ Hp). unfold room, contents. lia. Qed.

Lemma push_byte p c :
  bytes_wf p -> room p <> 0 ->
  let p' := p <| buf := (buf p).[tail p <- c] |> <| tail := (tail p + 1) mod PIPE_BUF |> in
  bytes_wf p' /\ contents p' = contents p ++ [c] /\ room p' = room p - 1.
Proof.
  intros Hp Hr. cbv zeta. assert ((tail p + 1) mod PIPE_BUF <> head p) as Hne by (rewrite room_full; done).
  split; [by apply ring_wf_push|].
  assert (contents (p <| buf := (buf p).[tail p <- c] |> <| tail := (tail p + 1) mod PIPE_BUF |>)
            = contents p ++ [c]) as Hc by by apply ring_items_push.
  split; [done|]. unfold room. rewrite Hc. unfold zlen. rewrite length_app. simpl. lia.
Qed.

(** Writing stores the longest prefix that fits. *)
Lemma put_bytes_spec str : forall p n,
  bytes_wf p ->
  let k := Z.min (zlen str) (room p) in
  let '(p', w) := put_bytes str p n in
  bytes_wf p' /\ same_control p p' /\ w = n + k /\
  contents p' = contents p ++ take (Z.to_nat k) str /\ room p' = room p - k.
Proof.
  induction str as [|c str IH]; intros p n Hp; simpl; pose proof (room_nonneg _ Hp) as Hr.
  - rewrite take_nil, app_nil_r. unfold zlen. simpl. repeat split; try done; try apply Hp; lia.
  - pose proof (zlen_nonneg str). assert (zlen (c :: str) = zlen str + 1) as Hz by (unfold zlen; simpl; lia).
    destruct (Z.eqb_spec ((tail p + 1) mod PIPE_BUF) (head p)) as [He|He].
    + apply (room_full _ Hp) in He. rewrite He, Z.min_r by lia. rewrite app_nil_r.
      repeat split; try done; try apply Hp; lia.
    + rewrite (room_full _ Hp) in He. destruct (push_byte p c Hp He) as (Hp' & Hc' & Hr').
      specialize (IH _ (n + 1) Hp'). rewrite Hc', Hr' in IH.
      destruct (put_bytes str _ (n + 1)) as [p' w]. destruct IH as (H1 & H2 & -> & H4 & ->).
      split; [done|]. split; [done|]. split; [lia|]. split; [|lia]. rewrite H4, <- app_assoc. f_equal.
      replace (Z.to_nat (Z.min (zlen (c :: str)) (room p))) with (S (Z.to_nat (Z.min (zlen str) (room p - 1)))) by lia.
      done.
Qed.

Lemma put_nul_spec p :
  bytes_wf p -> bytes_wf (put_nul p) /\ same_control p (put_nul p) /\
  contents (put_nul p) = contents p ++ (if 0 <? room p then [0] else []).
Proof.
  intros Hp. pose proof (room_nonneg _ Hp). unfold put_nul.
  destruct (Z.eqb_spec ((tail p + 1) mod PIPE_BUF) (head p)) as [He|He]; simpl.
  - apply (room_full _ Hp) in He. rewrite He. simpl. by rewrite app_nil_r.
  - rewrite (room_full _ Hp) in He. destruct (push_byte p 0 Hp He) as (H1 & H2 & _).
    split; [done|]. split; [done|]. rewrite (proj2 (Z.ltb_lt 0 (room p))) by lia. done.
Qed.

Lemma u8_waiter a : u8 (a mod PIPE_WAITER_MAX) = a mod PIPE_WAITER_MAX.
Proof. apply u8_small. pose proof (Z.mod_pos_bound a PIPE_WAITER_MAX). unfold PIPE_WAITER_MAX in *. lia. Qed.

Lemma same_control_readers p p' :
  same_control p p' -> readers p' = readers p /\ (readers_wf p -> readers_wf p').
Proof. intros (_ & _ & _ & H1 & H2 & H3). unfold readers, readers_wf. by rewrite H1, H2, H3. Qed.

Lemma dequeue_waiter_spec p :
  pipe_wf p ->
  let '(p', w) := pipe_dequeue_waiter p in
  pipe_wf p' /\ contents p' = contents p /\ eof p' = eof p /\ write_refs p' = write_refs p /\ used p' = used p /\
  match readers p with [] => w = -1 /\ readers p' = [] | x :: ws => w = x /\ readers p' = ws end.
Proof.
  intros (Hb & Hr & Hf). unfold pipe_dequeue_waiter. rewrite u8_waiter.
  destruct (Z.eqb_spec (rw_head p) (rw_tail p)) as [He|He].
  - assert (readers p = []) as Hq by (unfold readers; by rewrite He, ring_items_empty).
    rewrite Hq. done.
  - set (p' := p <| reader_waiters := _ |> <| rw_head := _ |>).
    assert (readers p = (reader_waiters p).[rw_head p] :: readers p') as Hq.
    { apply ring_items_pop; [done|done|]. intros i Hi Hne. apply aget_aset_ne; destruct Hr as (? & ? & ?); lia. }
    assert (readers_wf p') as Hw by (apply (ring_wf_pop _ (reader_waiters p)); [apply zlen_aset|done]).
    rewrite Hq in *. apply Forall_cons_1 in Hf as [_ Hf].
    split; [by split_and!|]. done.
Qed.

Lemma write_spec `{!Scheduler T} id str ps (t : T) :
  wf ps -> pipe_valid id ps = true ->
  let m := cstr str in
  let k := Z.min (zlen m) (room ps.[id]) in
  let '(ps', t', r) := pipe_write id (Some str) ps t in
  wf ps' /\ r = k /\
  contents ps'.[id] = contents ps.[id] ++ take (Z.to_nat k) m ++ (if zlen m <? room ps.[id] then [0] else []) /\
  match readers ps.[id] with
  | [] => t' = t /\ readers ps'.[id] = []
  | w :: ws => t' = sch_unblock w t /\ readers ps'.[id] = ws
  end.
Proof.
  intros Hwf Hv. simpl. rewrite Hv. simpl. destruct (pipe_wf_get _ _ Hwf Hv) as (Hid & Hb & Hr & Hf).
  pose proof (put_bytes_spec (cstr str) ps.[id] 0 Hb) as Hp. simpl in Hp.
  destruct (put_bytes (cstr str) ps.[id] 0) as [p1 w1]. destruct Hp as (Hb1 & Hs1 & -> & Hc1 & Hr1).
  destruct (put_nul_spec p1 Hb1) as (Hb2 & Hs2 & Hc2).
  assert (readers (put_nul p1) = readers ps.[id] /\ readers_wf (put_nul p1)) as [Hq Hrw].
  { destruct (same_control_readers _ _ Hs1) as [E1 W1], (same_control_readers _ _ Hs2) as [E2 W2].
    split; [congruence|auto]. }
  assert (pipe_wf (put_nul p1)) as Hw2 by (split_and!; [done|done|by rewrite Hq]).
  pose proof (dequeue_waiter_spec _ Hw2) as Hd. destruct (pipe_dequeue_waiter (put_nul p1)) as [p3 w].
  destruct Hd as (Hw3 & Hc3 & _ & _ & _ & Hm). rewrite Hq in Hm.
  split; [by apply pipe_wf_set|]. split; [lia|]. rewrite aget_aset_eq by done. split.
  - rewrite Hc3, Hc2, Hc1, <- app_assoc, Hr1. do 2 f_equal. do 2 case_if; bool_to_prop; try done; lia.
  - destruct (readers ps.[id]) as [|x ws]; destruct Hm as [-> Hm]; [done|].
    apply Forall_cons_1 in Hf as [Hx _]. rewrite (proj2 (Z.leb_le 0 x)) by lia. done.
Qed.

(** pipe_write() on a live pipe stores the longest prefix of the string that
    fits, followed by the separator if a byte is left, returns the number of
    characters stored, and wakes the oldest waiting reader; on an invalid pipe
    or a null string it returns -1 and changes nothing. *)
Theorem pipe_write_spec `{!Scheduler T} id str ps (t : T) :
  wf ps -> pipe_valid id ps = true ->
  let m := cstr str in
  let k := Z.min (zlen m) (room ps.[id]) in
  let '(ps', t', r) := pipe_write id (Some str) ps t in
  wf ps' /\ r = k /\
  contents ps'.[id] = contents ps.[id] ++ take (Z.to_nat k) m ++ (if zlen m <? room ps.[id] then [0] else []) /\
  match readers ps.[id] with
  | [] => t' = t /\ readers ps'.[id] = []
  | w :: ws => t' = sch_unblock w t /\ readers ps'.[id] = ws
  end.
Proof. apply write_spec. Qed.

Lemma pop_byte p :
  bytes_wf p -> head p <> tail p ->
  let p' := p <| head := (head p + 1) mod PIPE_BUF |> in
  bytes_wf p' /\ same_control p p' /\ contents p = (buf p).[head p] :: contents p'.
Proof.
  intros Hp Hne. cbv zeta. split; [by apply (ring_wf_pop _ (buf p))|]. split; [done|].
  by apply ring_items_pop.
Qed.

(** The bytes taken by one read: up to the first separator, at most 255. *)
Lemma take_loop_spec fuel : forall p out i,
  bytes_wf p -> 0 <= i -> (length (contents p) < fuel)%nat ->
  i + zlen (contents p) <= PIPE_BUF - 1 -> PIPE_BUF <= zlen out ->
  let '(p', out', n) := take_loop fuel p out i in
  let m := cstr (contents p) in
  bytes_wf p' /\ same_control p p' /\ n = i + zlen m /\
  contents p' = drop (S (length m)) (contents p) /\ zlen out' = zlen out /\
  take (Z.to_nat n) out' = take (Z.to_nat i) out ++ m.
Proof.
  induction fuel as [|fuel IH]; intros p out i Hp Hi Hf Hle Ho; [lia|]. cbn [take_loop].
  pose proof (ring_items_nil _ _ _ _ Hp) as Hnil. fold (contents p) in Hnil.
  destruct (Z.eqb_spec (head p) (tail p)) as [He|He]; cbn [negb andb].
  - assert (contents p = []) as E by tauto. rewrite E. simpl. unfold zlen in *. simpl.
    rewrite app_nil_r, Z.add_0_r. done.
  - destruct (pop_byte p Hp He) as (Hp' & Hs' & Hc). cbv zeta. set (p' := p <| head := _ |>) in *.
    assert (zlen (contents p) = zlen (contents p') + 1) as Hz by (rewrite Hc; unfold zlen; simpl; lia).
    pose proof (zlen_nonneg (contents p')).
    rewrite (proj2 (Z.ltb_lt i (PIPE_BUF - 1))) by lia.
    destruct (Z.eqb_spec (buf p).[head p] 0) as [Ez|Ez].
    + rewrite Hc, Ez. simpl. unfold zlen. simpl. rewrite drop_0, app_nil_r, Z.add_0_r. done.
    + assert (cstr (contents p) = (buf p).[head p] :: cstr (contents p')) as Em.
      { rewrite Hc. simpl. by rewrite (proj2 (Z.eqb_neq _ _) Ez). }
      specialize (IH p' (out.[i <- (buf p).[head p]]) (i + 1) Hp').
      destruct (take_loop fuel p' _ (i + 1)) as [[p2 out2] n].
      destruct IH as (H1 & H2 & H3 & H4 & H5 & H6); [lia|unfold zlen in *; lia|lia|by rewrite zlen_aset|].
      cbv zeta. split; [done|]. rewrite Em. split; [|split; [|split; [|split]]].
      * unfold same_control in *. simpl in *. intuition congruence.
      * rewrite H3. unfold zlen. simpl. lia.
      * rewrite H4, Hc. done.
      * by rewrite H5, zlen_aset.
      * rewrite H6. replace (Z.to_nat (i + 1)) with (S (Z.to_nat i)) by lia.
        rewrite (take_S_r _ _ (buf p).[head p]).
        -- unfold aset. rewrite take_insert_ge by lia. by rewrite <- app_assoc.
        -- unfold aset. apply list_lookup_insert_eq. unfold zlen in Ho. lia.
Qed.

Lemma take_spec p out :
  bytes_wf p -> PIPE_BUF <= zlen out ->
  let '(p', out', n) := pipe_take p out in
  let m := cstr (contents p) in
  bytes_wf p' /\ same_control p p' /\ n = zlen m /\
  contents p' = drop (S (length m)) (contents p) /\ cstr out' = m.
Proof.
  intros Hp Ho. unfold pipe_take. pose proof (ring_items_bound _ _ _ _ Hp) as Hb. fold (contents p) in Hb.
  pose proof (take_loop_spec (Z.to_nat PIPE_BUF) p out 0 Hp) as H.
  destruct (take_loop (Z.to_nat PIPE_BUF) p out 0) as [[p' out'] n].
  destruct H as (H1 & H2 & H3 & H4 & H5 & H6); [lia|unfold zlen in *; lia|lia|done|].
  cbv zeta. do 2 (split; [done|]). split; [lia|]. split; [done|].
  assert (length (cstr (contents p)) <= length (contents p))%nat as Hlen.
  { clear. induction (contents p) as [|c l IH]; simpl; [lia|]. destruct (c =? 0); simpl; lia. }
  rewrite aset_split by (unfold zlen in *; lia). rewrite H6. simpl. apply cstr_app_nul, cstr_nonzero.
Qed.

(** The byte encoding of a list of messages. *)
Definition enc (msgs : list (list Z)) : list Z := concat ((fun m => m ++ [0]) <$> msgs).

Lemma enc_app ms m : enc (ms ++ [m]) = enc ms ++ m ++ [0].
Proof. unfold enc. rewrite fmap_app, concat_app. simpl. by rewrite app_nil_r. Qed.

(** C36: A pipe is a FIFO of messages.  While the ring holds whole messages, a
    message that fits with its separator is appended by pipe_write(), which
    returns its length; a read finds the data at once, returns the oldest
    message and its length, and leaves the others. *)
Theorem pipe_message_fifo `{!Scheduler T} id ps (t : T) msgs :
  wf ps -> pipe_valid id ps = true -> contents ps.[id] = enc msgs ->
  Forall (Forall (fun c => c <> 0)) msgs ->
  (forall str, zlen (cstr str) < room ps.[id] ->
     let '(ps', _, r) := pipe_write id (Some str) ps t in
     r = zlen (cstr str) /\ contents ps'.[id] = enc (msgs ++ [cstr str])) /\
  (forall m rest tid out, msgs = m :: rest -> PIPE_BUF <= zlen out ->
     pipe_read_turn tid ps.[id] = (ps.[id], Data) /\
     let '(p', out', n) := pipe_take ps.[id] out in
     n = zlen m /\ cstr out' = m /\ contents p' = enc rest /\ same_control ps.[id] p').
Proof.
  intros Hwf Hv Hc Hnz. split.
  - intros str Hfit. pose proof (write_spec id str ps t Hwf Hv) as Hw. cbv zeta in Hw.
    destruct (pipe_write id (Some str) ps t) as [[ps' t'] r]. destruct Hw as (_ & -> & Hc' & _).
    rewrite Z.min_l in * by lia. split; [done|].
    rewrite Hc', Hc, enc_app, take_ge by (unfold zlen; lia). by rewrite (proj2 (Z.ltb_lt _ _) Hfit).
  - intros m rest tid out -> Ho. destruct (pipe_wf_get _ _ Hwf Hv) as (Hid & Hb & _).
    apply Forall_cons_1 in Hnz as [Hm _].
    assert (contents ps.[id] = m ++ 0 :: enc rest) as Hc'.
    { rewrite Hc. unfold enc. simpl. by rewrite <- app_assoc. }
    split.
    + unfold pipe_read_turn. destruct (Z.eqb_spec (head ps.[id]) (tail ps.[id])) as [He|]; [|done].
      apply (ring_items_nil _ _ _ _ Hb) in He. fold (contents ps.[id]) in He. rewrite Hc' in He.
      by apply app_nil in He as [_ ?].
    + pose proof (take_spec ps.[id] out Hb Ho) as Ht. destruct (pipe_take ps.[id] out) as [[p' out'] n].
      cbv zeta in Ht. rewrite Hc', cstr_app_nul in Ht by done. destruct Ht as (_ & Hs & -> & Hd & Hout).
      split; [done|]. split; [done|]. split; [|done].
      rewrite Hd, drop_app_ge by lia. by replace (S (length m) - length m)%nat with 1%nat by lia.
Qed.

Lemma drain_spec fuel : forall p,
  pipe_wf p -> (length (readers p) < fuel)%nat ->
  let '(p', ws) := drain_waiters fuel p in
  pipe_wf p' /\ ws = readers p /\ readers p' = [] /\ contents p' = contents p /\ eof p' = eof p /\ used p' = used p.
Proof.
  induction fuel as [|fuel IH]; intros p Hp Hf; [lia|]. cbn [drain_waiters].
  pose proof (dequeue_waiter_spec p Hp) as Hd. destruct (pipe_dequeue_waiter p) as [p1 w].
  destruct Hd as (Hp1 & Hc & He & _ & Hu & Hm). pose proof Hp as (_ & _ & Hpos).
  destruct (readers p) as [|x ws]; destruct Hm as [-> Hm]; [done|]. apply Forall_cons_1 in Hpos as [Hx _].
  rewrite (proj2 (Z.leb_le 0 x)) by lia. specialize (IH p1 Hp1). rewrite Hm in IH. simpl in Hf.
  destruct (drain_waiters fuel p1) as [p2 ws2]. destruct IH as (? & -> & ? & ? & ? & ?); [lia|].
  split; [done|]. split; [done|]. split; [done|]. by split_and!; congruence.
Qed.

(** Closing the last write end sets end-of-file and unblocks every waiting
    reader; a reader that then finds the ring empty gets end-of-file instead of
    sleeping.  Closing an earlier one only counts down. *)
Theorem pipe_last_writer_gives_eof `{!Scheduler T} id ps (t : T) :
  wf ps -> pipe_valid id ps = true ->
  let '(ps', t') := pipe_writer_detach id ps t in
  wf ps' /\ contents ps'.[id] = contents ps.[id] /\
  if write_refs ps.[id] <=? 1
  then (0 <= write_refs ps.[id] ->
        eof ps'.[id] = 1 /\ readers ps'.[id] = [] /\ t' = sch_unblock_all (readers ps.[id]) t /\
        (contents ps.[id] = [] -> forall tid, snd (pipe_read_turn tid ps'.[id]) = Eof))
  else t' = t /\ write_refs ps'.[id] = write_refs ps.[id] - 1 /\ eof ps'.[id] = eof ps.[id].
Proof.
  intros Hwf Hv. unfold pipe_writer_detach. rewrite Hv. cbn [negb].
  destruct (pipe_wf_get _ _ Hwf Hv) as (Hid & Hp). cbv zeta.
  set (p1 := if 0 <? write_refs ps.[id] then _ else _).
  assert (pipe_wf p1 /\ contents p1 = contents ps.[id] /\ readers p1 = readers ps.[id] /\
          eof p1 = eof ps.[id] /\ (0 <= write_refs ps.[id] -> write_refs p1 = Z.max 0 (write_refs ps.[id] - 1)) /\
          (write_refs ps.[id] < 0 -> write_refs p1 = write_refs ps.[id]))
    as (Hp1 & Hc1 & Hr1 & He1 & Hw1 & Hw1').
  { unfold p1. case_if; bool_to_prop; simpl; split_and!; try done; try apply Hp; lia. }
  assert (pipe_wf (p1 <| eof := 1 |>)) as Hp2 by apply Hp1.
  pose proof (drain_spec (Z.to_nat PIPE_WAITER_MAX) _ Hp2) as Hd.
  destruct Hp1 as (Hb1 & Hrw1 & Hf1). pose proof (ring_items_bound _ _ _ _ Hrw1) as Hlen.
  change (readers (p1 <| eof := 1 |>)) with (readers p1) in Hd.
  destruct (Z.eqb_spec (write_refs p1) 0) as [Hz|Hz].
  - destruct (drain_waiters (Z.to_nat PIPE_WAITER_MAX) (p1 <| eof := 1 |>)) as [p3 ws].
    destruct Hd as (Hp3 & -> & Hr3 & Hc3 & He3 & _); [unfold readers, zlen, PIPE_WAITER_MAX in *; lia|].
    split; [by apply pipe_wf_set|]. rewrite aget_aset_eq by done.
    change (contents (p1 <| eof := 1 |>)) with (contents p1) in Hc3. split; [congruence|].
    case_if; bool_to_prop; [|lia]. intros _. split; [done|]. split; [done|]. split; [congruence|].
    intros Hnil tid. unfold pipe_read_turn.
    assert (head p3 = tail p3) as -> by (apply (ring_items_nil _ _ _ _ (proj1 Hp3)); fold (contents p3); congruence).
    rewrite Z.eqb_refl, He3. done.
  - split; [apply pipe_wf_set; [done|by split_and!]|]. rewrite aget_aset_eq by done. split; [done|].
    case_if; bool_to_prop; [lia|]. split; [done|]. split; [lia|done].
Qed.

Definition named_wf (ns : NamedPipes) : Prop :=
  zlen ns = NAMED_PIPE_MAX /\ Forall (fun n => zlen (name n) = 16) ns.

Lemma pipe_alloc_id ps : wf ps -> snd (pipe_alloc ps) = -1 \/ 0 <= snd (pipe_alloc ps) < PIPE_MAX.
Proof.
  intros _. unfold pipe_alloc. destruct (scan _ _ _) as [i|] eqn:E; [|auto].
  apply scan_Some in E as (? & _). right. simpl. unfold PIPE_MAX in *. lia.
Qed.

(** Opening a named pipe again, under a name of at most 15 characters,
    returns the pipe the first open returned and allocates nothing. *)
Theorem named_pipe_open_idempotent nm ns ps :
  named_wf ns -> wf ps -> c_strlen nm < 16 ->
  let '(ns1, ps1, pid) := named_pipe_open (Some nm) ns ps in
  0 <= pid -> named_pipe_open (Some nm) ns1 ps1 = (ns1, ps1, pid).
Proof.
  intros [Hl Hf] Hwf Hlen. unfold named_pipe_open.
  destruct (scan (fun i => truth (np_used ns.[i]) && c_streq (name ns.[i]) nm) 0 (Z.to_nat NAMED_PIPE_MAX))
    as [i|] eqn:E1.
  { intros _. by rewrite E1. }
  destruct (scan (fun i => negb (truth (np_used ns.[i]))) 0 (Z.to_nat NAMED_PIPE_MAX)) as [i|] eqn:E2; [|lia].
  pose proof (scan_Some _ _ _ _ E2) as (Hi & _ & _). pose proof (scan_None _ _ _ E1) as Hno.
  destruct (pipe_alloc ps) as [ps1 pid]. destruct (Z.ltb_spec pid 0); [lia|]. intros _.
  set (n' := ns.[i] <| np_used := 1 |> <| pipe_id := pid |> <| name := c_strcpy (name ns.[i]) nm 16 |>).
  erewrite (scan_first _ _ _ i Hi).
  - rewrite aget_aset_eq by (unfold NAMED_PIPE_MAX in *; lia). done.
  - rewrite aget_aset_eq by (unfold NAMED_PIPE_MAX in *; lia). simpl. apply c_streq_spec.
    by apply cstr_strcpy_fits.
  - intros j Hj. rewrite aget_aset_ne by lia. apply Hno. lia.
Qed.

(** ** Concrete pipes *)
Definition pipes0 : Pipes :=
  pipe_init_all (replicate 8 (mkPipe (replicate 256 0) 0 0 0 0 0 [0; 0; 0; 0] 0 0)).
Definition named0 : NamedPipes := replicate 8 (mkNamedPipe (replicate 16 0) 0 0).
Definition one_pipe : Pipes := pipe_writer_attach 0 (fst (pipe_alloc pipes0)).

Lemma pipe_wf_bool ps :
  forallb (fun p => (zlen (buf p) =? PIPE_BUF) && (0 <=? head p) && (head p <? PIPE_BUF)
     && (0 <=? tail p) && (tail p <? PIPE_BUF) && (zlen (reader_waiters p) =? PIPE_WAITER_MAX)
     && (0 <=? rw_head p) && (rw_head p <? PIPE_WAITER_MAX) && (0 <=? rw_tail p)
     && (rw_tail p <? PIPE_WAITER_MAX) && forallb (fun w => 0 <=? w) (readers p)) ps = true ->
  zlen ps = PIPE_MAX -> wf ps.
Proof.
  intros H Hl. split; [done|]. rewrite forallb_forall in H. apply Forall_forall. intros p Hp.
  specialize (H p Hp). bool_to_prop. rewrite forallb_forall in *. split; [repeat split; lia|].
  split; [repeat split; lia|]. apply Forall_forall. intros w Hw. apply Z.leb_le. auto.
Qed.

Lemma one_pipe_wf : wf one_pipe.
Proof. apply pipe_wf_bool; reflexivity. Qed.

Lemma pipe_write_spec_witness :
  let '(ps', t', r) := pipe_write 0 (Some [104; 105]) one_pipe Task.demo_sys in
  wf ps' /\ r = 2 /\ contents ps'.[0] = [104; 105; 0].
Proof.
  pose proof (pipe_write_spec 0 [104; 105] one_pipe Task.demo_sys one_pipe_wf eq_refl) as H. cbv zeta in H.
  destruct (pipe_write 0 (Some [104; 105]) one_pipe Task.demo_sys) as [[ps' t'] r].
  destruct H as (H1 & H2 & H3 & _). split; [exact H1|].
  split; [rewrite H2|rewrite H3]; vm_compute; reflexivity.
Defined.

Lemma pipe_message_fifo_witness :
  let '(ps', _, r) := pipe_write 0 (Some [104; 105]) one_pipe Task.demo_sys in
  r = 2 /\ contents ps'.[0] = enc [[104; 105]].
Proof.
  assert (contents one_pipe.[0] = enc []) as Hc by (vm_compute; reflexivity).
  refine (proj1 (pipe_message_fifo 0 one_pipe Task.demo_sys [] one_pipe_wf eq_refl Hc _) [104; 105] _);
    [constructor|vm_compute; reflexivity].
Defined.

Lemma pipe_last_writer_gives_eof_witness :
  eof (fst (pipe_writer_detach 0 one_pipe Task.demo_sys)).[0] = 1.
Proof.
  pose proof (pipe_last_writer_gives_eof 0 one_pipe Task.demo_sys one_pipe_wf eq_refl) as H.
  destruct (pipe_writer_detach 0 one_pipe Task.demo_sys) as [ps' t'].
  destruct H as (_ & _ & H). replace (write_refs one_pipe.[0] <=? 1) with true in H by (vm_compute; reflexivity).
  refine (proj1 (H _)). vm_compute. congruence.
Defined.

Lemma named_pipe_open_idempotent_witness :
  let '(ns1, ps1, pid) := named_pipe_open (Some [108; 111; 103]) named0 pipes0 in
  pid = 0 /\ named_pipe_open (Some [108; 111; 103]) ns1 ps1 = (ns1, ps1, pid).
Proof.
  assert (wf pipes0) as Hp by (apply pipe_wf_bool; reflexivity).
  assert (named_wf named0) as Hn by (split; [reflexivity|repeat constructor]).
  pose proof (named_pipe_open_idempotent [108; 111; 103] named0 pipes0 Hn Hp eq_refl) as H.
  destruct (named_pipe_open (Some [108; 111; 103]) named0 pipes0) as [[ns1 ps1] pid] eqn:E.
  assert (pid = 0) as -> by (vm_compute in E; congruence).
  split; [reflexivity|apply H; vm_compute; congruence].
Defined.

(** Message boundaries are lost when a message fills the ring exactly: its
    separator is dropped, and the next message is read glued to it. *)
Theorem pipe_messages_merge :
  let w ps m := fst (fst (pipe_write 0 (Some m) ps Task.demo_sys)) in
  let big := replicate 253 97 in
  let ps2 := w (w one_pipe [120]) big in
  let p3 := fst (fst (pipe_take ps2.[0] (replicate 256 0))) in
  let ps4 := w (ps2.[0 <- p3]) [121] in
  let '(_, out, n) := pipe_take ps4.[0] (replicate 256 0) in
  cstr out = big ++ [121] /\ n = 254.
Proof. vm_compute. split; reflexivity. Qed.

(** A name of 16 or more characters is stored cut to 15, so it never matches
    again: two opens of the same name return two different pipes. *)
Theorem named_pipe_long_name_not_shared :
  let nm := replicate 16 97 in
  let '(ns1, ps1, pid1) := named_pipe_open (Some nm) named0 pipes0 in
  let '(_, _, pid2) := named_pipe_open (Some nm) ns1 ps1 in
  pid1 = 0 /\ pid2 = 1.
Proof. vm_compute. split; reflexivity. Qed.

End Pipe.
