(* ===== verification/Heap.v ===== *)
(** * memory.c: the kernel heap

    The first-fit allocator, at the level of its linked list of headers in
    memory: [Headers] maps the address of a header to its fields, and malloc()
    and free() follow and rewrite [next] pointers as the C code does.  The
    abstract allocator is a list of blocks that tile the heap ([alloc_spec],
    [release_spec]); [chain] relates the two, and the theorems show that the
    pointer code implements the abstract one (and terminates), that the regions
    handed out are disjoint, large enough and inside the heap, that free() gives
    back exactly one region and leaves no two adjacent free blocks, and what
    happens when the rounding of the size wraps. *)

From Stdlib Require Import ZArith Lia.
From stdpp Require Import base numbers list gmap tactics.
From S2P Require Import Prelude.

Module Heap.

Definition HEAP_START : Z := 0x100000.
Definition HEAP_SIZE : Z := 0x600000.

(** [_pad] is written 0 and never read. *)
Record BlockHeader := mkBlockHeader { size : Z; free_ : Z; next : Z }.
#[global] Instance block_header_settable : Settable BlockHeader :=
  {| rebuild b := mkBlockHeader (size b) (free_ b) (next b) |}.
#[global] Instance block_header_inhabited : Inhabited BlockHeader := populate (mkBlockHeader 0 0 0).

(** [sizeof(BlockHeader)] on x86_64: 4 + 1 + 3 + 8. *)
Definition HEADER_SIZE : Z := 16.

Abbreviation Headers := (gmap Z BlockHeader).
(** [heap_head] is HEAP_START from mem_init() on. *)
Record State := mkState { headers : Headers; heap_head : Z }.

Definition hdr (h : Headers) (a : Z) : BlockHeader := h !!! a.

Definition mem_init (s : State) : State :=
  mkState (<[HEAP_START := mkBlockHeader (HEAP_SIZE - HEADER_SIZE) 1 0]> (headers s)) HEAP_START.

(** [size = (size + 3u) & ~3u;] *)
Definition round4 (n : Z) : Z := Z.land (u32 (n + 3)) (u32 (Z.lnot 3)).

(** The body of the search loop once a block fits. *)
Definition take_block (h : Headers) (curr n : Z) : Headers :=
  let b := hdr h curr in
  let h :=
    if u32 (n + HEADER_SIZE + 4) <=? size b then
      let split := curr + HEADER_SIZE + n in
      let h := <[split := mkBlockHeader (u32 (size b - n - HEADER_SIZE)) 1 (next b)]> h in
      <[curr := (hdr h curr) <| size := n |> <| next := split |>]> h
    else h in
  <[curr := (hdr h curr) <| free_ := 0 |>]> h.

(** [while (curr) { ... }]; [None] is running out of fuel. *)
Fixpoint malloc_loop (fuel : nat) (h : Headers) (curr n : Z) : option (Headers * Z) :=
  match fuel with
  | O => None
  | S fuel =>
      if curr =? 0 then Some (h, 0)
      else if truth (free_ (hdr h curr)) && (n <=? size (hdr h curr)) then
        Some (take_block h curr n, curr + HEADER_SIZE)
      else malloc_loop fuel h (next (hdr h curr)) n
  end.

(** A heap of [HEAP_SIZE] bytes holds fewer blocks than this. *)
Definition heap_fuel : nat := Z.to_nat (HEAP_SIZE / 16 + 2).

Arguments heap_fuel : simpl never.

Definition malloc (n : Z) (s : State) : option (State * Z) :=
  if n =? 0 then Some (s, 0)
  else '(h, p) ← malloc_loop heap_fuel (headers s) (heap_head s) (round4 n);
       Some (mkState h (heap_head s), p).

(** The coalescing pass. *)
Fixpoint coalesce_loop (fuel : nat) (h : Headers) (curr : Z) : option Headers :=
  match fuel with
  | O => None
  | S fuel =>
      if curr =? 0 then Some h
      else
        let b := hdr h curr in
        if truth (free_ b) && truth (next b) && truth (free_ (hdr h (next b))) then
          let b2 := hdr h (next b) in
          coalesce_loop fuel
            (<[curr := b <| size := u32 (size b + (HEADER_SIZE + size b2)) |> <| next := next b2 |>]> h) curr
        else coalesce_loop fuel h (next b)
  end.

Definition free (ptr : Z) (s : State) : option State :=
  if ptr =? 0 then Some s
  else
    let block := ptr - HEADER_SIZE in
    let h := <[block := (hdr (headers s) block) <| free_ := 1 |>]> (headers s) in
    h' ← coalesce_loop heap_fuel h (heap_head s);
    Some (mkState h' (heap_head s)).

(** ** The abstract allocator

    A block is its size and its free flag; the blocks tile the heap in address
    order, each preceded by its header. *)
Abbreviation block := (Z * bool)%type.
Implicit Types bs : list block.

Definition flag (f : bool) : Z := if f then 1 else 0.

Fixpoint alloc_spec (a : Z) (bs : list block) (n : Z) : option (list block * Z) :=
  match bs with
  | [] => None
  | (sz, f) :: r =>
      if f && (n <=? sz) then
        Some ((if n + HEADER_SIZE + 4 <=? sz then (n, false) :: (sz - n - HEADER_SIZE, true) :: r
               else (sz, false) :: r), a + HEADER_SIZE)
      else '(r', p) ← alloc_spec (a + HEADER_SIZE + sz) r n; Some ((sz, f) :: r', p)
  end.

(** Merge runs of free blocks; [b] is the block before [r]. *)
Fixpoint coalesce (b : block) (r : list block) : list block :=
  match r with
  | [] => [b]
  | c :: r' =>
      if snd b && snd c then coalesce (fst b + HEADER_SIZE + fst c, true) r' else b :: coalesce c r'
  end.

(** Mark the block whose payload starts at [p] as free. *)
Fixpoint mark_free (a : Z) (bs : list block) (p : Z) : list block :=
  match bs with
  | [] => []
  | (sz, f) :: r =>
      if a + HEADER_SIZE =? p then (sz, true) :: r else (sz, f) :: mark_free (a + HEADER_SIZE + sz) r p
  end.

Definition release_spec (a : Z) (bs : list block) (p : Z) : list block :=
  match mark_free a bs p with [] => [] | b :: r => coalesce b r end.

(** Payload address and size of the allocated blocks. *)
Fixpoint allocated (a : Z) (bs : list block) : list (Z * Z) :=
  match bs with
  | [] => []
  | (sz, f) :: r => (if f then [] else [(a + HEADER_SIZE, sz)]) ++ allocated (a + HEADER_SIZE + sz) r
  end.

(** The end of the last block. *)
Fixpoint extent (a : Z) (bs : list block) : Z :=
  match bs with [] => a | (sz, _) :: r => extent (a + HEADER_SIZE + sz) r end.

Definition block_ok (b : block) : Prop := 4 <= fst b /\ (fst b) mod 4 = 0.

(** ** Concrete and abstract heaps *)
Definition link (a : Z) (bs : list block) : Z := match bs with [] => 0 | _ => a end.

Fixpoint chain (h : Headers) (a : Z) (bs : list block) : Prop :=
  match bs with
  | [] => True
  | (sz, f) :: r =>
      h !! a = Some (mkBlockHeader sz (flag f) (link (a + HEADER_SIZE + sz) r)) /\
      chain h (a + HEADER_SIZE + sz) r
  end.

(** The heap [s] holds the blocks [bs]. *)
Definition represents (s : State) (bs : list block) : Prop :=
  heap_head s = HEAP_START /\ bs <> [] /\ chain (headers s) HEAP_START bs /\ Forall block_ok bs /\
  extent HEAP_START bs = HEAP_START + HEAP_SIZE.

(** ** Layout lemmas *)
Lemma block_ok_pos b : block_ok b -> 4 <= fst b.
Proof. intros [? _]. done. Qed.

Lemma extent_ge bs : forall a, Forall block_ok bs -> a + 20 * zlen bs <= extent a bs.
Proof.
  induction bs as [|[sz f] r IH]; intros a H; simpl; [unfold zlen; simpl; lia|].
  apply Forall_cons_1 in H as [[Hs _] H]. simpl in Hs. specialize (IH (a + HEADER_SIZE + sz) H).
  unfold zlen, HEADER_SIZE in *. simpl. lia.
Qed.

(** A chain starting at [a] depends on the headers from [a] on only. *)
Lemma chain_frame h h' bs : forall a,
  Forall block_ok bs -> (forall x, a <= x -> h' !! x = h !! x) -> chain h a bs -> chain h' a bs.
Proof.
  induction bs as [|[sz f] r IH]; intros a Hok Heq Hc; simpl in *; [done|].
  apply Forall_cons_1 in Hok as [[Hs _] Hok]. simpl in Hs. destruct Hc as [H1 H2].
  split; [rewrite Heq by lia; done|]. apply IH; [done| |done].
  intros x Hx. apply Heq. unfold HEADER_SIZE in *. lia.
Qed.

Lemma hdr_Some h a b : h !! a = Some b -> hdr h a = b.
Proof. apply lookup_total_correct. Qed.

Lemma allocated_range bs : forall a,
  Forall block_ok bs ->
  Forall (fun '(p, n) => a + HEADER_SIZE <= p /\ p + n <= extent a bs /\ 0 < n) (allocated a bs).
Proof.
  induction bs as [|[sz f] r IH]; intros a H; simpl; [constructor|].
  apply Forall_cons_1 in H as [[Hs _] H]. simpl in Hs. pose proof (extent_ge r (a + HEADER_SIZE + sz) H).
  pose proof (zlen_nonneg r). specialize (IH (a + HEADER_SIZE + sz) H).
  apply Forall_app. split.
  - destruct f; [constructor|]. repeat constructor; unfold HEADER_SIZE in *; lia.
  - eapply Forall_impl; [|exact IH]. intros [p n] ?. unfold HEADER_SIZE in *. lia.
Qed.

Definition disjoint (x y : Z * Z) : Prop := fst x + snd x <= fst y \/ fst y + snd y <= fst x.

(** Regions in address order do not overlap. *)
Lemma allocated_disjoint bs : forall a,
  Forall block_ok bs -> ForallOrdPairs disjoint (allocated a bs).
Proof.
  induction bs as [|[sz f] r IH]; intros a H; simpl; [constructor|].
  apply Forall_cons_1 in H as [[Hs _] H]. simpl in Hs. specialize (IH (a + HEADER_SIZE + sz) H).
  destruct f; [done|]. simpl. constructor; [|done].
  eapply Forall_impl; [|exact (allocated_range r _ H)]. intros [p n] ?. left. simpl. unfold HEADER_SIZE in *. lia.
Qed.

(** ** Rounding *)
Lemma round4_spec n :
  0 <= n < 0xFFFFFFFD -> n <= round4 n < n + 4 /\ round4 n mod 4 = 0.
Proof.
  intros Hn. unfold round4. rewrite (u32_small (n + 3)) by lia.
  replace (u32 (Z.lnot 3)) with (Z.shiftl (Z.ones 30) 2) by reflexivity.
  assert (Z.land (n + 3) (Z.shiftl (Z.ones 30) 2) = (n + 3) / 4 * 4) as ->.
  { replace ((n + 3) / 4 * 4) with (Z.shiftl (Z.shiftr (n + 3) 2) 2)
      by (rewrite Z.shiftl_mul_pow2, Z.shiftr_div_pow2 by lia; done).
    apply Z.bits_inj'. intros i Hi. rewrite Z.land_spec, !Z.shiftl_spec by lia.
    destruct (Z.ltb_spec i 2).
    - rewrite !(Z.testbit_neg_r _ (i - 2)) by lia. by rewrite andb_false_r.
    - rewrite Z.shiftr_spec by lia. replace (i - 2 + 2) with i by lia.
      destruct (Z.ltb_spec (i - 2) 30); [rewrite Z.ones_spec_low by lia; by rewrite andb_true_r|].
      rewrite Z.ones_spec_high by lia. rewrite andb_false_r. symmetry.
      destruct (Z.testbit (n + 3) i) eqn:E; [|done]. exfalso.
      pose proof (Z.testbit_true (n + 3) i ltac:(lia)) as [Ht _]. specialize (Ht E).
      rewrite Z.div_small in Ht; [done|]. split; [lia|].
      apply Z.lt_le_trans with (2 ^ 32); [change (2 ^ 32) with 4294967296; lia|]. apply Z.pow_le_mono_r; lia. }
  pose proof (Z.div_mod (n + 3) 4). pose proof (Z.mod_pos_bound (n + 3) 4).
  split; [lia|]. apply Z.mod_mul. lia.
Qed.

(** ** malloc() implements [alloc_spec] *)
Lemma alloc_spec_shape n bs : forall a bs' p,
  alloc_spec a bs n = Some (bs', p) -> bs <> [] /\ bs' <> [] /\ extent a bs' = extent a bs.
Proof.
  induction bs as [|[sz f] r IH]; intros a bs' p H; [done|]. cbn [alloc_spec] in H.
  destruct (f && (n <=? sz)).
  - simplify_eq. split; [done|]. case_if; simpl; (split; [done|]); [|done]. f_equal. unfold HEADER_SIZE. lia.
  - destruct (alloc_spec (a + HEADER_SIZE + sz) r n) as [[r' p']|] eqn:E; simplify_eq/=.
    split; [done|]. split; [done|]. by eapply IH.
Qed.

Lemma link_nonempty x bs bs' : bs <> [] -> bs' <> [] -> link x bs = link x bs'.
Proof. by destruct bs, bs'. Qed.

Lemma link_length x bs bs' : length bs = length bs' -> link x bs = link x bs'.
Proof. by destruct bs, bs'. Qed.

Lemma truth_flag f : truth (flag f) = f.
Proof. by destruct f. Qed.

Section malloc.
Context (n : Z) (Hn : 4 <= n < 0xFFFFFFEC) (Hn4 : n mod 4 = 0).

Lemma take_block_spec h a sz r :
  0 < a -> Forall block_ok ((sz, true) :: r) -> sz < 0x100000000 -> n <= sz ->
  chain h a ((sz, true) :: r) ->
  let bs' := if n + HEADER_SIZE + 4 <=? sz then (n, false) :: (sz - n - HEADER_SIZE, true) :: r
             else (sz, false) :: r in
  chain (take_block h a n) a bs' /\ Forall block_ok bs' /\
  (forall x, x < a -> take_block h a n !! x = h !! x).
Proof.
  intros Ha Hok Hsz Hle [Hb Hc]. apply Forall_cons_1 in Hok as [[Hs Hs4] Hok]. simpl in Hs, Hs4.
  unfold take_block. rewrite (hdr_Some _ _ _ Hb). cbn [size next]. rewrite u32_small by (unfold HEADER_SIZE; lia).
  destruct (Z.leb_spec (n + HEADER_SIZE + 4) sz) as [Hsplit|Hsplit]; cbv zeta.
  - rewrite u32_small by (unfold HEADER_SIZE in *; lia).
    set (q := a + HEADER_SIZE + n). assert (a <> q) by (unfold q, HEADER_SIZE; lia).
    set (h1 := <[q := _]> h). assert (h1 !! a = h !! a) as Hh1 by (unfold h1; by rewrite lookup_insert_ne).
    rewrite Hb in Hh1. rewrite (hdr_Some _ _ _ Hh1). set (h2 := <[a := _]> h1).
    assert (hdr h2 a = mkBlockHeader n 1 q) as -> by (apply hdr_Some; unfold h2; by rewrite lookup_insert_eq).
    split; [|split].
    + simpl. fold q. split; [by rewrite lookup_insert_eq|]. split.
      * rewrite lookup_insert_ne by done. unfold h2, h1. rewrite lookup_insert_ne, lookup_insert_eq by done.
        do 2 f_equal. unfold q, HEADER_SIZE. f_equal. lia.
      * replace (q + HEADER_SIZE + (sz - n - HEADER_SIZE)) with (a + HEADER_SIZE + sz) by (unfold q, HEADER_SIZE; lia).
        eapply chain_frame; [done| |exact Hc]. intros x Hx. unfold h2, h1.
        rewrite !lookup_insert_ne; [done|..]; unfold q, HEADER_SIZE in *; lia.
    + repeat constructor; simpl; [lia|done|unfold HEADER_SIZE in *; lia| |done].
      unfold HEADER_SIZE. rewrite Zminus_mod, (Zminus_mod sz n), Hs4, Hn4. done.
    + intros x Hx. unfold h2, h1. rewrite !lookup_insert_ne; [done|..]; unfold q, HEADER_SIZE in *; lia.
  - rewrite (hdr_Some _ _ _ Hb). split; [|split].
    + simpl. split; [by rewrite lookup_insert_eq|]. eapply chain_frame; [done| |exact Hc].
      intros x Hx. rewrite lookup_insert_ne; [done|]. unfold HEADER_SIZE in *. lia.
    + by repeat constructor.
    + intros x Hx. rewrite lookup_insert_ne; [done|lia].
Qed.

Lemma malloc_loop_spec bs : forall fuel h a,
  0 < a -> Forall block_ok bs -> extent a bs < 0x100000000 -> chain h a bs -> (length bs < fuel)%nat ->
  match alloc_spec a bs n with
  | None => malloc_loop fuel h (link a bs) n = Some (h, 0)
  | Some (bs', p) => exists h',
      malloc_loop fuel h (link a bs) n = Some (h', p) /\ chain h' a bs' /\ Forall block_ok bs' /\
      (forall x, x < a -> h' !! x = h !! x)
  end.
Proof.
  induction bs as [|[sz f] r IH]; intros fuel h a Ha Hok Hex Hc Hf; [destruct fuel; [lia|done]|].
  destruct fuel as [|fuel]; [lia|]. cbn [alloc_spec link malloc_loop].
  rewrite (proj2 (Z.eqb_neq a 0)) by lia. pose proof Hc as [Hb Hr]. rewrite (hdr_Some _ _ _ Hb).
  cbn [size free_ next]. rewrite truth_flag. pose proof Hok as Hok0.
  apply Forall_cons_1 in Hok as [[Hs _] Hok]. simpl in Hs.
  pose proof (extent_ge r (a + HEADER_SIZE + sz) Hok) as Hge. pose proof (zlen_nonneg r). simpl in Hex.
  destruct f; simpl.
  - destruct (Z.leb_spec n sz).
    + destruct (take_block_spec h a sz r Ha Hok0) as (H1 & H2 & H3); [unfold HEADER_SIZE in *; lia|lia|done|].
      eexists. split; [done|]. done.
    + specialize (IH fuel h (a + HEADER_SIZE + sz)).
      destruct (alloc_spec (a + HEADER_SIZE + sz) r n) as [[r' p]|] eqn:E; simpl.
      * destruct IH as (h' & H1 & H2 & H3 & H4); [unfold HEADER_SIZE; lia|done|done|done|simpl in Hf; lia|].
        exists h'. apply alloc_spec_shape in E as (? & ? & _).
        split; [done|]. split; [split; [|done]|split].
        -- rewrite H4 by (unfold HEADER_SIZE; lia). rewrite Hb. by rewrite (link_nonempty _ r r').
        -- constructor; [by apply Forall_cons_1 in Hok0 as [? _]|done].
        -- intros x Hx. apply H4. unfold HEADER_SIZE. lia.
      * apply IH; [unfold HEADER_SIZE; lia|done|done|done|simpl in Hf; lia].
  - specialize (IH fuel h (a + HEADER_SIZE + sz)).
    destruct (alloc_spec (a + HEADER_SIZE + sz) r n) as [[r' p]|] eqn:E; simpl.
    * destruct IH as (h' & H1 & H2 & H3 & H4); [unfold HEADER_SIZE; lia|done|done|done|simpl in Hf; lia|].
      exists h'. apply alloc_spec_shape in E as (? & ? & _).
      split; [done|]. split; [split; [|done]|split].
      -- rewrite H4 by (unfold HEADER_SIZE; lia). rewrite Hb. by rewrite (link_nonempty _ r r').
      -- constructor; [by apply Forall_cons_1 in Hok0 as [? _]|done].
      -- intros x Hx. apply H4. unfold HEADER_SIZE. lia.
    * apply IH; [unfold HEADER_SIZE; lia|done|done|done|simpl in Hf; lia].
Qed.
End malloc.

Lemma represents_short s bs : represents s bs -> (length bs < heap_fuel)%nat.
Proof.
  intros (_ & _ & _ & Hok & Hex). pose proof (extent_ge bs HEAP_START Hok). rewrite Hex in *.
  unfold heap_fuel. unfold zlen, HEAP_SIZE in *. change (0x600000 / 16 + 2) with 393218. lia.
Qed.

Lemma malloc_refines n s bs :
  represents s bs -> 0 < n < 0xFFFFFFE8 ->
  match alloc_spec HEAP_START bs (round4 n) with
  | None => malloc n s = Some (s, 0)
  | Some (bs', p) => exists s', malloc n s = Some (s', p) /\ represents s' bs'
  end.
Proof.
  intros Hrep Hn. pose proof (represents_short s bs Hrep) as Hf. destruct Hrep as (Hh & Hne & Hc & Hok & Hex).
  destruct (round4_spec n) as [Hr Hr4]; [lia|].
  assert (4 <= round4 n) as Hr' by (pose proof (Z.div_mod (round4 n) 4); lia).
  unfold malloc. rewrite (proj2 (Z.eqb_neq n 0)) by lia. rewrite Hh.
  assert (extent HEAP_START bs < 0x100000000) as Hex' by (rewrite Hex; vm_compute; reflexivity).
  assert (4 <= round4 n < 0xFFFFFFEC) as Hr'' by lia. assert (0 < HEAP_START) as H0 by (vm_compute; reflexivity).
  pose proof (malloc_loop_spec (round4 n) Hr'' Hr4 bs heap_fuel (headers s) HEAP_START H0 Hok Hex' Hc Hf) as H.
  replace (link HEAP_START bs) with HEAP_START in H by (by destruct bs).
  destruct (alloc_spec HEAP_START bs (round4 n)) as [[bs' p]|] eqn:E.
  - destruct H as (h' & H1 & H2 & H3 & _). rewrite H1. simpl. eexists. split; [done|].
    apply alloc_spec_shape in E as (_ & ? & He). split_and!; try done. by rewrite He.
  - rewrite H. simpl. rewrite <- Hh. by destruct s.
Qed.

Definition no_fit (n : Z) (bs : list block) : Prop := Forall (fun b => snd b = true -> fst b < n) bs.

Lemma alloc_spec_allocated n bs : forall a,
  0 < a -> Forall block_ok bs -> a mod 4 = 0 ->
  match alloc_spec a bs n with
  | None => no_fit n bs
  | Some (bs', p) => exists m, allocated a bs' ≡ₚ (p, m) :: allocated a bs /\ n <= m < n + 20 /\
      p mod 4 = 0 /\ 0 < p
  end.
Proof.
  induction bs as [|[sz f] r IH]; intros a Ha Hok Ha4; simpl; [constructor|].
  apply Forall_cons_1 in Hok as [[Hs Hs4] Hok]. simpl in Hs, Hs4.
  assert ((a + HEADER_SIZE) mod 4 = 0) as Hp4 by (unfold HEADER_SIZE; rewrite Zplus_mod, Ha4; done).
  destruct (f && (n <=? sz)) eqn:E.
  - bool_to_prop. subst f. destruct (Z.leb_spec (n + HEADER_SIZE + 4) sz); simpl.
    + exists n. replace (a + HEADER_SIZE + n + HEADER_SIZE + (sz - n - HEADER_SIZE)) with (a + HEADER_SIZE + sz) by lia.
      split; [done|]. unfold HEADER_SIZE in *. split_and!; [lia|lia|done|lia].
    + exists sz. split; [done|]. unfold HEADER_SIZE in *. split_and!; [lia|lia|done|lia].
  - specialize (IH (a + HEADER_SIZE + sz)).
    destruct (alloc_spec (a + HEADER_SIZE + sz) r n) as [[r' p]|]; simpl.
    + destruct IH as (m & Hm & ?); [unfold HEADER_SIZE; lia|done|by rewrite Zplus_mod, Hp4, Hs4|].
      exists m. split; [|done]. rewrite Hm. by rewrite Permutation_middle.
    + constructor; [|apply IH; [unfold HEADER_SIZE; lia|done|by rewrite Zplus_mod, Hp4, Hs4]].
      simpl. intros ->. simpl in E. bool_to_prop. done.
Qed.

(** C9: malloc() terminates on every well-formed heap.  It returns 0, with the
    heap unchanged, only if no free block holds the rounded size; otherwise the
    returned region is 4-byte aligned, at least as large as requested (less than
    24 bytes larger), and is added to the allocated regions, all of which keep
    their address and size. *)
Theorem malloc_correct n s bs :
  represents s bs -> 0 < n < 0xFFFFFFE8 ->
  exists s' p, malloc n s = Some (s', p) /\
    ((p = 0 /\ s' = s /\ no_fit (round4 n) bs) \/
     (exists bs' m, 0 < p /\ p mod 4 = 0 /\ n <= m < n + 24 /\ represents s' bs' /\
        allocated HEAP_START bs' ≡ₚ (p, m) :: allocated HEAP_START bs)).
Proof.
  intros Hrep Hn. pose proof (malloc_refines n s bs Hrep Hn) as Hr.
  pose proof Hrep as (_ & _ & _ & Hok & _). destruct (round4_spec n) as [Hrn _]; [lia|].
  pose proof (alloc_spec_allocated (round4 n) bs HEAP_START ltac:(reflexivity) Hok ltac:(reflexivity)) as Ha.
  destruct (alloc_spec HEAP_START bs (round4 n)) as [[bs' p]|].
  - destruct Hr as (s' & H1 & H2), Ha as (m & H3 & H4 & H5 & H6). exists s', p. split; [done|]. right.
    exists bs', m. split_and!; try done; lia.
  - exists s, 0. split; [done|]. by left.
Qed.

(** In a well-formed heap the allocated regions lie inside the heap and are
    pairwise disjoint. *)
Theorem heap_regions_disjoint s bs :
  represents s bs ->
  ForallOrdPairs disjoint (allocated HEAP_START bs) /\
  Forall (fun '(p, n) => HEAP_START + HEADER_SIZE <= p /\ p + n <= HEAP_START + HEAP_SIZE) (allocated HEAP_START bs).
Proof.
  intros (_ & _ & _ & Hok & Hex). split; [by apply allocated_disjoint|].
  eapply Forall_impl; [|apply (allocated_range _ _ Hok)]. intros [p m] ?. lia.
Qed.

(** ** free() implements [release_spec] *)
Lemma coalesce_nonempty b r : coalesce b r <> [].
Proof. revert b. induction r as [|c r IH]; intros b; simpl; [done|]. by case_if. Qed.

Lemma coalesce_ok r : forall b, Forall block_ok (b :: r) -> Forall block_ok (coalesce b r).
Proof.
  induction r as [|c r IH]; intros b H; simpl; [done|].
  apply Forall_cons_1 in H as [[Hb Hb4] H]. pose proof H as H'. apply Forall_cons_1 in H as [[Hc Hc4] H]. case_if.
  - apply IH. constructor; [|done]. split; simpl; [unfold HEADER_SIZE; lia|].
    unfold HEADER_SIZE. rewrite Zplus_mod, (Zplus_mod (fst b)), Hb4, Hc4. done.
  - constructor; [done|]. by apply IH.
Qed.

Lemma coalesce_extent r : forall b a, extent a (coalesce b r) = extent a (b :: r).
Proof.
  induction r as [|[sz2 f2] r IH]; intros [sz f] a; [done|]. cbn [coalesce fst snd]. case_if.
  - rewrite IH. simpl. f_equal. unfold HEADER_SIZE. lia.
  - cbn [extent]. by rewrite IH.
Qed.

Lemma coalesce_allocated r : forall b a, allocated a (coalesce b r) = allocated a (b :: r).
Proof.
  induction r as [|[sz2 f2] r IH]; intros [sz f] a; [done|]. cbn [coalesce fst snd]. case_if; bool_to_prop.
  - subst. rewrite IH. simpl. f_equal. unfold HEADER_SIZE. lia.
  - cbn [allocated]. by rewrite IH.
Qed.

(** No two neighbours are free. *)
Fixpoint coalesced (bs : list block) : Prop :=
  match bs with
  | [] => True
  | b :: r => match r with [] => True | c :: _ => ~ (snd b = true /\ snd c = true) end /\ coalesced r
  end.

Lemma coalesce_head_flag r : forall b, exists b' t, coalesce b r = b' :: t /\ snd b' = snd b.
Proof.
  induction r as [|c r IH]; intros b; simpl; [eauto|]. case_if; bool_to_prop; [|eauto].
  destruct (IH (fst b + HEADER_SIZE + fst c, true)) as (b' & t & -> & Hb). simpl in Hb. exists b', t. split; congruence.
Qed.

Lemma coalesce_coalesced r : forall b, coalesced (coalesce b r).
Proof.
  induction r as [|c r IH]; intros b; simpl; [done|]. case_if; [apply IH|].
  destruct (coalesce_head_flag r c) as (b' & t & Hc & Hs). specialize (IH c). rewrite Hc in *. split; [|exact IH]. rewrite Hs. intros [H1 H2]. by rewrite H1, H2 in E.
Qed.

Lemma coalesce_loop_spec r : forall fuel h a sz f,
  0 < a -> Forall block_ok ((sz, f) :: r) -> extent a ((sz, f) :: r) < 0x100000000 ->
  chain h a ((sz, f) :: r) -> (S (length r) < fuel)%nat ->
  exists h', coalesce_loop fuel h a = Some h' /\ chain h' a (coalesce (sz, f) r) /\
    (forall x, x < a -> h' !! x = h !! x).
Proof.
  induction r as [|[sz2 f2] r IH]; intros fuel h a sz f Ha Hok Hex Hc Hf; pose proof Hc as [Hb Hr];
    destruct fuel as [|fuel]; simpl in Hf; try lia; cbn [coalesce_loop coalesce fst snd];
    rewrite (proj2 (Z.eqb_neq a 0)) by lia; rewrite (hdr_Some _ _ _ Hb); cbn [size free_ next link]; rewrite truth_flag.
  - rewrite andb_false_r. simpl. destruct fuel; [lia|]. by exists h.
  - pose proof Hr as [Hb2 Hr2]. set (q := a + HEADER_SIZE + sz) in *. rewrite (hdr_Some _ _ _ Hb2).
    cbn [size free_ next]. rewrite truth_flag.
    apply Forall_cons_1 in Hok as [Hk1 Hok]. pose proof Hok as Hok2. apply Forall_cons_1 in Hok as [Hk2 Hok].
    destruct Hk1 as [Hs Hs4], Hk2 as [Hs2 Hs24]. simpl in Hs, Hs4, Hs2, Hs24.
    assert (a < q) by (unfold q, HEADER_SIZE; lia). replace (truth q) with true.
    2:{ unfold truth. symmetry. apply negb_true_iff, Z.eqb_neq. lia. }
    pose proof (extent_ge r (q + HEADER_SIZE + sz2) Hok) as Hge. pose proof (zlen_nonneg r).
    cbn [extent] in Hex. fold q in Hex.
    assert (sz + (HEADER_SIZE + sz2) < 0x100000000) as Hbnd by (subst q; unfold HEADER_SIZE in *; lia).
    destruct f, f2; cbn [andb].
    1: { set (h1 := <[a := _]> h).
      destruct (IH fuel h1 a (sz + HEADER_SIZE + sz2) true) as (h' & H1 & H2 & H3).
      - done.
      - constructor; [|done]. split; simpl; [unfold HEADER_SIZE; lia|].
        unfold HEADER_SIZE. rewrite Zplus_mod, (Zplus_mod sz), Hs4, Hs24. done.
      - cbn [extent]. replace (a + HEADER_SIZE + (sz + HEADER_SIZE + sz2)) with (q + HEADER_SIZE + sz2) by (unfold q; lia). done.
      - split.
        + unfold h1. rewrite lookup_insert_eq. simpl. rewrite u32_small by (unfold HEADER_SIZE in *; lia).
          do 2 f_equal; [lia|]. f_equal. unfold q. lia.
        + replace (a + HEADER_SIZE + (sz + HEADER_SIZE + sz2)) with (q + HEADER_SIZE + sz2) by (unfold q; lia).
          eapply chain_frame; [done| |exact Hr2]. intros x Hx. unfold h1. rewrite lookup_insert_ne; [done|].
          unfold HEADER_SIZE in *. lia.
      - lia.
      - exists h'. split; [done|]. split; [done|]. intros x Hx. rewrite H3 by lia. unfold h1. by rewrite lookup_insert_ne by lia. }
    all: match type of Hb2 with _ = Some (mkBlockHeader _ (flag ?g) _) =>
           destruct (IH fuel h q sz2 g) as (h' & H1 & H2 & H3); [lia|done|done|done|lia|] end.
    all: exists h'; (split; [done|]); split; [split; [|done]|intros x Hx; apply H3; lia].
    all: rewrite H3 by lia; rewrite Hb; do 2 f_equal; symmetry; apply link_nonempty; [apply coalesce_nonempty|done].
Qed.

Lemma mark_free_spec p m bs : forall a h,
  Forall block_ok bs -> (p, m) ∈ allocated a bs -> chain h a bs ->
  let h' := <[p - HEADER_SIZE := (hdr h (p - HEADER_SIZE)) <| free_ := 1 |>]> h in
  chain h' a (mark_free a bs p) /\ Forall block_ok (mark_free a bs p) /\
  length (mark_free a bs p) = length bs /\ extent a (mark_free a bs p) = extent a bs /\
  allocated a bs ≡ₚ (p, m) :: allocated a (mark_free a bs p).
Proof.
  induction bs as [|[sz f] r IH]; intros a h Hok Hin Hc; simpl in Hin; [by apply not_elem_of_nil in Hin|].
  cbv zeta. apply Forall_cons_1 in Hok as [[Hs Hs4] Hok]. simpl in Hs, Hs4. destruct Hc as [Hb Hr]. cbn [mark_free].
  pose proof (allocated_range r (a + HEADER_SIZE + sz) Hok) as Hrange. rewrite Forall_forall in Hrange.
  apply elem_of_app in Hin.
  destruct (Z.eqb_spec (a + HEADER_SIZE) p) as [<-|Hne].
  - assert (f = false /\ m = sz) as [-> ->].
    { destruct Hin as [Hin|Hin].
      - destruct f; [by apply not_elem_of_nil in Hin|]. apply list_elem_of_singleton in Hin. by simplify_eq.
      - apply list_elem_of_In in Hin. apply Hrange in Hin. unfold HEADER_SIZE in *. lia. }
    replace (a + HEADER_SIZE - HEADER_SIZE) with a by lia. rewrite (hdr_Some _ _ _ Hb).
    split_and!; try done.
    + simpl. split; [by rewrite lookup_insert_eq|]. eapply chain_frame; [done| |exact Hr].
      intros x Hx. rewrite lookup_insert_ne; [done|]. unfold HEADER_SIZE in *. lia.
    + constructor; done.
  - destruct Hin as [Hin|Hin].
    { destruct f; [by apply not_elem_of_nil in Hin|]. apply list_elem_of_singleton in Hin. by simplify_eq. }
    destruct (IH (a + HEADER_SIZE + sz) h Hok Hin Hr) as (H1 & H2 & H3 & H4 & H5).
    apply list_elem_of_In in Hin. apply Hrange in Hin.
    split_and!.
    + simpl. split; [|done]. rewrite lookup_insert_ne by (unfold HEADER_SIZE in *; lia). rewrite Hb.
      by rewrite (link_length _ _ r H3).
    + constructor; done.
    + simpl. by f_equal.
    + done.
    + simpl. rewrite H5. by rewrite Permutation_middle.
Qed.

Lemma free_spec p m s bs :
  represents s bs -> (p, m) ∈ allocated HEAP_START bs ->
  exists s' bs', free p s = Some s' /\ represents s' bs' /\ coalesced bs' /\
    allocated HEAP_START bs ≡ₚ (p, m) :: allocated HEAP_START bs'.
Proof.
  intros Hrep Hin. pose proof (represents_short s bs Hrep) as Hf. destruct Hrep as (Hh & Hne & Hc & Hok & Hex).
  pose proof (allocated_range bs HEAP_START Hok) as Hrange. rewrite Forall_forall in Hrange.
  pose proof (Hrange _ (proj1 (list_elem_of_In _ _) Hin)) as Hp. simpl in Hp.
  unfold free. rewrite (proj2 (Z.eqb_neq p 0)) by (unfold HEAP_START, HEADER_SIZE in *; lia). rewrite Hh.
  destruct (mark_free_spec p m bs HEAP_START (headers s) Hok Hin Hc) as (H1 & H2 & H3 & H4 & H5). cbv zeta in *.
  destruct (mark_free HEAP_START bs p) as [|[sz f] r] eqn:E; [destruct bs; done|].
  assert (0 < HEAP_START) as H0 by (vm_compute; reflexivity).
  assert (extent HEAP_START ((sz, f) :: r) < 0x100000000) as Hex' by (rewrite H4, Hex; vm_compute; reflexivity).
  assert (S (length r) < heap_fuel)%nat as Hf' by (simpl in H3; lia).
  destruct (coalesce_loop_spec r heap_fuel _ HEAP_START sz f H0 H2 Hex' H1 Hf') as (h' & K1 & K2 & _).
  rewrite K1. simpl. eexists _, (coalesce (sz, f) r). split; [done|]. split_and!.
  - split_and!; [done|apply coalesce_nonempty|done|by apply coalesce_ok|by rewrite coalesce_extent, H4].
  - apply coalesce_coalesced.
  - by rewrite coalesce_allocated.
Qed.

(** C10: free() of an allocated region terminates, gives back exactly that region,
    leaves every other one in place, and leaves no two adjacent free blocks. *)
Theorem free_correct p m s bs :
  represents s bs -> (p, m) ∈ allocated HEAP_START bs ->
  exists s' bs', free p s = Some s' /\ represents s' bs' /\ coalesced bs' /\
    allocated HEAP_START bs ≡ₚ (p, m) :: allocated HEAP_START bs'.
Proof. apply free_spec. Qed.

Definition booted : State := mem_init (mkState ∅ 0).

Lemma booted_represents : represents booted [(HEAP_SIZE - HEADER_SIZE, true)].
Proof.
  unfold represents. split_and!; try done. repeat constructor; vm_compute; congruence.
Qed.

(** A coalesced heap without allocations is one free block. *)
Lemma empty_coalesced s bs :
  represents s bs -> coalesced bs -> allocated HEAP_START bs = [] -> bs = [(HEAP_SIZE - HEADER_SIZE, true)].
Proof.
  intros (_ & Hne & _ & _ & Hex) Hco Hal.
  assert (forall a l, allocated a l = [] -> Forall (fun b => snd b = true) l) as Hall.
  { intros a l. revert a. induction l as [|[sz f] r IH]; intros a H; simpl in H; [constructor|].
    apply app_eq_nil in H as [H1 H2]. constructor; [by destruct f|eauto]. }
  apply Hall in Hal. destruct bs as [|[sz f] [|[sz2 f2] r]]; [done| |].
  - apply Forall_cons_1 in Hal as [Hs _]. simpl in Hs, Hex. subst. do 2 f_equal. unfold HEAP_START, HEADER_SIZE in *. lia.
  - apply Forall_cons_1 in Hal as [? Hal]. apply Forall_cons_1 in Hal as [? _]. destruct Hco as [Hco _].
    exfalso. by apply Hco.
Qed.

(** Freeing the only allocation restores the initial heap: one free block
    spanning the whole heap, whatever was allocated and freed before. *)
Theorem free_last_restores p m s bs :
  represents s bs -> allocated HEAP_START bs = [(p, m)] ->
  exists s', free p s = Some s' /\ represents s' [(HEAP_SIZE - HEADER_SIZE, true)].
Proof.
  intros Hrep Hal. pose proof (represents_short s bs Hrep) as Hf.
  assert ((p, m) ∈ allocated HEAP_START bs) as Hin by (rewrite Hal; by apply list_elem_of_singleton).
  destruct (free_spec p m s bs Hrep Hin) as (s' & bs' & H1 & H2 & H3 & H4).
  exists s'. split; [done|]. rewrite Hal in H4. apply Permutation_cons_inv, Permutation_nil in H4.
  by rewrite <- (empty_coalesced s' bs').
Qed.

(** ** Concrete heaps *)
Definition after (f : State -> option (State * Z)) (s : State) : State :=
  match f s with Some (s', _) => s' | None => s end.
Definition one_block : State := after (malloc 100) booted.

Lemma one_block_represents :
  represents one_block [(100, false); (HEAP_SIZE - HEADER_SIZE - 100 - HEADER_SIZE, true)].
Proof.
  unfold represents. split_and!; try done; repeat constructor; vm_compute; congruence.
Qed.

Lemma malloc_correct_witness :
  exists s' p, malloc 100 booted = Some (s', p) /\
    ((p = 0 /\ s' = booted /\ no_fit (round4 100) [(HEAP_SIZE - HEADER_SIZE, true)]) \/
     (exists bs' m, 0 < p /\ p mod 4 = 0 /\ 100 <= m < 100 + 24 /\ represents s' bs' /\
        allocated HEAP_START bs' ≡ₚ [(p, m)])).
Proof. refine (malloc_correct 100 booted _ booted_represents _). lia. Defined.

Lemma heap_regions_disjoint_witness :
  ForallOrdPairs disjoint (allocated HEAP_START [(100, false); (HEAP_SIZE - HEADER_SIZE - 100 - HEADER_SIZE, true)]).
Proof. exact (proj1 (heap_regions_disjoint _ _ one_block_represents)). Defined.

Lemma free_correct_witness :
  exists s' bs', free (HEAP_START + HEADER_SIZE) one_block = Some s' /\ represents s' bs' /\ coalesced bs'.
Proof.
  assert ((HEAP_START + HEADER_SIZE, 100) ∈ allocated HEAP_START
    [(100, false); (HEAP_SIZE - HEADER_SIZE - 100 - HEADER_SIZE, true)]) as Hin by (by apply list_elem_of_singleton).
  destruct (free_correct _ _ _ _ one_block_represents Hin) as (s' & bs' & H1 & H2 & H3 & _).
  exists s', bs'. auto.
Defined.

Lemma free_last_restores_witness :
  exists s', free (HEAP_START + HEADER_SIZE) one_block = Some s' /\ represents s' [(HEAP_SIZE - HEADER_SIZE, true)].
Proof. refine (free_last_restores _ 100 _ _ one_block_represents _). reflexivity. Defined.

(** The rounding of the size wraps: a request of 0xFFFFFFFD bytes or more is
    served as one of 0 bytes, with a non-null pointer to a block of size 0. *)
Theorem malloc_huge_wraps :
  round4 0xFFFFFFFD = 0 /\
  snd (default (booted, 0) (malloc 0xFFFFFFFD booted)) = HEAP_START + HEADER_SIZE /\
  size (hdr (headers (after (malloc 0xFFFFFFFD) booted)) HEAP_START) = 0.
Proof. vm_compute. split_and!; reflexivity. Qed.

End Heap.
