(* ===== verification/Pmm.v ===== *)
(** * vmm.c, first half: physical memory

    The frame bitmap of the physical memory manager, the copy-on-write
    reference counts, and physical memory itself as a map from 8-byte aligned
    addresses to 64-bit words.  The theorems give the allocator's contract: it
    returns a frame that was free, page aligned and outside the reserved area,
    changes no other frame's state, fails only when none is left, and
    pmm_free_frame() undoes it. *)

From Stdlib Require Import ZArith Lia.
From stdpp Require Import base numbers list gmap tactics.
From S2P Require Import Prelude.

Module Pmm.

Definition PAGE_SIZE : Z := 4096.
Definition TOTAL_FRAMES : Z := 16384.
Definition KERNEL_RESERVED_FRAMES : Z := 2048.

Record State := mkState {
  frame_bitmap : list Z;      (* uint8_t [TOTAL_FRAMES / 8] *)
  frame_cow_cnt : list Z;     (* uint8_t [TOTAL_FRAMES] *)
  mem : gmap Z Z;             (* physical memory, by 8-byte word *)
  cr3 : Z
}.
#[global] Instance pmm_settable : Settable State :=
  {| rebuild s := mkState (frame_bitmap s) (frame_cow_cnt s) (mem s) (cr3 s) |}.

Definition bitmap_set (frame : Z) (s : State) : State :=
  s <| frame_bitmap := (frame_bitmap s).[frame / 8 <-
         u8 (Z.lor (frame_bitmap s).[frame / 8] (Z.shiftl 1 (frame mod 8)))] |>.

Definition bitmap_clear (frame : Z) (s : State) : State :=
  s <| frame_bitmap := (frame_bitmap s).[frame / 8 <-
         Z.land (frame_bitmap s).[frame / 8] (u8 (Z.lnot (Z.shiftl 1 (frame mod 8))))] |>.

Definition bitmap_test (frame : Z) (s : State) : bool :=
  truth (Z.land (frame_bitmap s).[frame / 8] (Z.shiftl 1 (frame mod 8))).

Definition pmm_init (s : State) : State :=
  iter bitmap_set 0 (Z.to_nat KERNEL_RESERVED_FRAMES)
    (s <| frame_bitmap := replicate (Z.to_nat (TOTAL_FRAMES / 8)) 0 |>).

Definition pmm_alloc_frame (s : State) : State * Z :=
  match scan (fun i => negb (bitmap_test i s)) KERNEL_RESERVED_FRAMES
             (Z.to_nat (TOTAL_FRAMES - KERNEL_RESERVED_FRAMES)) with
  | Some i => (bitmap_set i s, i * PAGE_SIZE)
  | None => (s, 0)
  end.

Definition pmm_free_frame (addr : Z) (s : State) : State :=
  let frame := u32 (addr / PAGE_SIZE) in
  if (KERNEL_RESERVED_FRAMES <=? frame) && (frame <? TOTAL_FRAMES) then bitmap_clear frame s else s.

Definition pmm_free_count (s : State) : Z :=
  iter (fun i count => if negb (bitmap_test i s) then u32 (count + 1) else count)
    KERNEL_RESERVED_FRAMES (Z.to_nat (TOTAL_FRAMES - KERNEL_RESERVED_FRAMES)) 0.

(** ** Words of physical memory *)
Definition word (s : State) (a : Z) : Z := default 0 (mem s !! a).
Definition set_word (a v : Z) (s : State) : State := s <| mem := <[a := v]> (mem s) |>.

(** [for (i = 0; i < PAGE_SIZE / 8; i++) p[i] = 0;] *)
Definition zero_frame (phys : Z) (s : State) : State :=
  iter (fun i s => set_word (phys + 8 * i) 0 s) 0 (Z.to_nat (PAGE_SIZE / 8)) s.

Definition vmm_zero_frame (phys : Z) (s : State) : State := zero_frame phys s.

(** Byte access, little endian within a word. *)
Definition get_byte (s : State) (a : Z) : Z :=
  Z.land (Z.shiftr (word s (8 * (a / 8))) (8 * (a mod 8))) 255.
Definition set_byte (a b : Z) (s : State) : State :=
  let w := 8 * (a / 8) in
  set_word w (Z.lor (Z.ldiff (word s w) (Z.shiftl 255 (8 * (a mod 8))))
                    (Z.shiftl (u8 b) (8 * (a mod 8)))) s.

Definition vmm_copy_to_frame (phys off : Z) (src : list Z) (len : Z) (s : State) : State :=
  iter (fun i s => set_byte (phys + off + i) src.[i] s) 0 (Z.to_nat len) s.

(** [uint8_t *src, *dst; for (k = 0; k < PAGE_SIZE; k++) dst[k] = src[k];] between
    two page-aligned frames, by word. *)
Definition copy_frame (src dst : Z) (s : State) : State :=
  iter (fun k s => set_word (dst + 8 * k) (word s (src + 8 * k)) s) 0 (Z.to_nat (PAGE_SIZE / 8)) s.

Definition vmm_switch_dir (pml4 : Z) (s : State) : State := s <| cr3 := pml4 |>.

(** ** Invariant *)
Definition wf (s : State) : Prop :=
  zlen (frame_bitmap s) = TOTAL_FRAMES / 8 /\ Forall (fun b => 0 <= b < 256) (frame_bitmap s) /\
  zlen (frame_cow_cnt s) = TOTAL_FRAMES /\ Forall (fun b => 0 <= b < 256) (frame_cow_cnt s).

Definition frame_range (f : Z) : Prop := 0 <= f < TOTAL_FRAMES.

Lemma frame_byte s f : wf s -> frame_range f ->
  0 <= f / 8 < zlen (frame_bitmap s) /\ 0 <= f mod 8 < 8 /\ 0 <= (frame_bitmap s).[f / 8] < 256.
Proof.
  intros (Hl & Hb & _) Hf. unfold frame_range, TOTAL_FRAMES in *. rewrite Forall_aget in Hb.
  assert (0 <= f / 8 < zlen (frame_bitmap s)) as H.
  { rewrite Hl. change (16384 / 8) with 2048. split; [apply Z.div_pos; lia|apply Z.div_lt_upper_bound; lia]. }
  split; [done|]. split; [apply Z.mod_pos_bound; lia|]. by apply Hb.
Qed.

Lemma frame_inj f g : f / 8 = g / 8 -> f mod 8 = g mod 8 -> f = g.
Proof. intros H1 H2. rewrite (Z.div_mod f 8), (Z.div_mod g 8) by lia. lia. Qed.

(** The test reads one bit. *)
Lemma bitmap_test_bit s f : bitmap_test f s = Z.testbit (frame_bitmap s).[f / 8] (f mod 8).
Proof. apply truth_land_bit. apply Z.mod_pos_bound. lia. Qed.

Lemma wf_set_byte s k b :
  wf s -> 0 <= b < 256 -> wf (s <| frame_bitmap := (frame_bitmap s).[k <- b] |>).
Proof.
  intros (Hl & Hb & Hc & Hd) Hr. split_and!; simpl; [by rewrite zlen_aset|by apply Forall_insert|done|done].
Qed.

Lemma wf_bitmap_set s f : wf s -> wf (bitmap_set f s).
Proof. intros. apply wf_set_byte; [done|apply u8_range]. Qed.

Lemma wf_bitmap_clear s f : wf s -> frame_range f -> wf (bitmap_clear f s).
Proof.
  intros Hwf Hf. apply wf_set_byte; [done|]. destruct (frame_byte s f Hwf Hf) as (_ & _ & Hb).
  apply (bits_small 8); [lia|]. intros i Hi. rewrite Z.land_spec, (bits_high 8) by lia. done.
Qed.

Lemma test_set s f g : wf s -> frame_range f -> frame_range g ->
  bitmap_test g (bitmap_set f s) = (f =? g) || bitmap_test g s.
Proof.
  intros Hwf Hf Hg. destruct (frame_byte s f Hwf Hf) as (Hi & Hm & _), (frame_byte s g Hwf Hg) as (Hi' & Hm' & _).
  rewrite !bitmap_test_bit. simpl. rewrite aget_aset by lia. case_decide as He.
  - rewrite testbit_u8, Z.lor_spec, testbit_shiftl_1 by lia. rewrite He.
    rewrite (proj2 (Z.ltb_lt (g mod 8) 8)) by lia. simpl. rewrite orb_comm. f_equal.
    destruct (Z.eqb_spec (f mod 8) (g mod 8)), (Z.eqb_spec f g); subst; try done. exfalso. by apply n, frame_inj.
  - destruct (Z.eqb_spec f g); [by subst|done].
Qed.

Lemma test_clear s f g : wf s -> frame_range f -> frame_range g ->
  bitmap_test g (bitmap_clear f s) = negb (f =? g) && bitmap_test g s.
Proof.
  intros Hwf Hf Hg. destruct (frame_byte s f Hwf Hf) as (Hi & Hm & _), (frame_byte s g Hwf Hg) as (Hi' & Hm' & _).
  rewrite !bitmap_test_bit. simpl. rewrite aget_aset by lia. case_decide as He.
  - rewrite Z.land_spec, testbit_u8, Z.lnot_spec, testbit_shiftl_1 by lia. rewrite He.
    rewrite (proj2 (Z.ltb_lt (g mod 8) 8)) by lia. simpl. rewrite andb_comm. f_equal.
    destruct (Z.eqb_spec (f mod 8) (g mod 8)), (Z.eqb_spec f g); subst; try done. exfalso. by apply n, frame_inj.
  - destruct (Z.eqb_spec f g); [by subst|done].
Qed.

(** A frame address: page aligned, below the end of memory. *)
Definition frame_addr (a : Z) : Prop := a mod PAGE_SIZE = 0 /\ 0 <= a < TOTAL_FRAMES * PAGE_SIZE.
Definition frame_used (a : Z) (s : State) : bool := bitmap_test (a / PAGE_SIZE) s.

Lemma frame_addr_range a : frame_addr a -> frame_range (a / PAGE_SIZE).
Proof.
  intros [_ H]. unfold frame_range, PAGE_SIZE, TOTAL_FRAMES in *.
  split; [apply Z.div_pos; lia|apply Z.div_lt_upper_bound; lia].
Qed.

Lemma frame_addr_inj a b : frame_addr a -> frame_addr b -> a / PAGE_SIZE = b / PAGE_SIZE -> a = b.
Proof.
  intros [Ha _] [Hb _] H. unfold PAGE_SIZE in *.
  rewrite (Z.div_mod a 4096), (Z.div_mod b 4096) by lia. lia.
Qed.

Lemma alloc_frame_spec s :
  wf s ->
  let '(s', p) := pmm_alloc_frame s in
  wf s' /\ mem s' = mem s /\ frame_cow_cnt s' = frame_cow_cnt s /\
  ((p = 0 /\ s' = s /\ forall f, KERNEL_RESERVED_FRAMES <= f < TOTAL_FRAMES -> bitmap_test f s = true) \/
   (frame_addr p /\ KERNEL_RESERVED_FRAMES * PAGE_SIZE <= p /\ frame_used p s = false /\
    forall f, frame_range f -> bitmap_test f s' = (p / PAGE_SIZE =? f) || bitmap_test f s)).
Proof.
  intros Hwf. unfold pmm_alloc_frame. destruct (scan _ _ _) as [i|] eqn:E.
  - apply scan_Some in E as (Hi & Ht & _). rewrite Z2Nat.id in Hi by done.
    assert (frame_range i) as Hr by (unfold frame_range, KERNEL_RESERVED_FRAMES, TOTAL_FRAMES in *; lia).
    assert (i * PAGE_SIZE / PAGE_SIZE = i) as Hd by (apply Z.div_mul; done).
    split; [by apply wf_bitmap_set|]. split; [done|]. split; [done|]. right.
    unfold frame_used. rewrite Hd. split.
    { split; [apply Z.mod_mul; done|]. unfold frame_range, PAGE_SIZE, TOTAL_FRAMES in *. lia. }
    split; [unfold PAGE_SIZE, KERNEL_RESERVED_FRAMES in *; lia|]. split; [by apply negb_true_iff|].
    intros f Hf. by apply test_set.
  - split; [done|]. split; [done|]. split; [done|]. left. split; [done|]. split; [done|].
    intros f Hf. apply negb_false_iff. apply (scan_None _ _ _ E).
    rewrite Z2Nat.id by done. lia.
Qed.

(** pmm_alloc_frame() returns either a frame that was free, page aligned and
    above the reserved area, and marks that frame and no other used; or 0, the
    state unchanged, and then every frame is in use.  Memory contents and
    reference counts are not touched. *)
Theorem pmm_alloc_spec s :
  wf s ->
  let '(s', p) := pmm_alloc_frame s in
  wf s' /\ mem s' = mem s /\ frame_cow_cnt s' = frame_cow_cnt s /\
  ((p = 0 /\ s' = s /\ forall f, KERNEL_RESERVED_FRAMES <= f < TOTAL_FRAMES -> bitmap_test f s = true) \/
   (frame_addr p /\ KERNEL_RESERVED_FRAMES * PAGE_SIZE <= p /\ frame_used p s = false /\
    forall f, frame_range f -> bitmap_test f s' = (p / PAGE_SIZE =? f) || bitmap_test f s)).
Proof. apply alloc_frame_spec. Qed.

Lemma free_frame_spec s a f :
  wf s -> frame_addr a -> KERNEL_RESERVED_FRAMES * PAGE_SIZE <= a -> frame_range f ->
  wf (pmm_free_frame a s) /\
  bitmap_test f (pmm_free_frame a s) = negb (a / PAGE_SIZE =? f) && bitmap_test f s.
Proof.
  intros Hwf Ha Hlo Hf. pose proof (frame_addr_range a Ha) as Hr. unfold pmm_free_frame.
  assert (KERNEL_RESERVED_FRAMES <= a / PAGE_SIZE) as Hlo'
    by (apply Z.div_le_lower_bound; unfold PAGE_SIZE, KERNEL_RESERVED_FRAMES in *; lia).
  rewrite u32_small by (unfold frame_range, TOTAL_FRAMES in Hr; lia).
  rewrite (proj2 (Z.leb_le _ _) Hlo'), (proj2 (Z.ltb_lt _ _) (proj2 Hr)). simpl.
  split; [by apply wf_bitmap_clear|by apply test_clear].
Qed.

(** Two states with the same use of every frame. *)
Definition same_frames (s s' : State) : Prop := forall f, frame_range f -> bitmap_test f s' = bitmap_test f s.

(** Freeing the frame just allocated restores the state of every frame. *)
Theorem pmm_alloc_free_roundtrip s :
  wf s -> let '(s', p) := pmm_alloc_frame s in p <> 0 -> same_frames s (pmm_free_frame p s').
Proof.
  intros Hwf. pose proof (alloc_frame_spec s Hwf) as H. destruct (pmm_alloc_frame s) as [s' p].
  destruct H as (Hw & _ & _ & [(-> & _)|(Ha & Hlo & Hu & Ht)]); [done|]. intros _ f Hf.
  destruct (free_frame_spec s' p f Hw Ha Hlo Hf) as [_ ->]. rewrite Ht by done. unfold frame_used in Hu.
  destruct (Z.eqb_spec (p / PAGE_SIZE) f) as [<-|]; simpl; [by rewrite Hu|done].
Qed.

(** ** Counting free frames *)
Fixpoint count (p : Z -> bool) (lo : Z) (n : nat) : Z :=
  match n with O => 0 | S n => (if p lo then 1 else 0) + count p (lo + 1) n end.

Lemma count_range p n : forall lo, 0 <= count p lo n <= Z.of_nat n.
Proof. induction n as [|n IH]; intros lo; simpl; [lia|]. specialize (IH (lo + 1)). case_if; lia. Qed.

Lemma count_ext p q n : forall lo,
  (forall i, lo <= i < lo + Z.of_nat n -> p i = q i) -> count p lo n = count q lo n.
Proof.
  induction n as [|n IH]; intros lo H; simpl; [done|]. rewrite H by lia. f_equal. apply IH. intros. apply H. lia.
Qed.

Lemma count_change p q k n : forall lo,
  lo <= k < lo + Z.of_nat n -> p k = true -> q k = false -> (forall i, i <> k -> q i = p i) ->
  count q lo n = count p lo n - 1.
Proof.
  induction n as [|n IH]; intros lo Hk Hp Hq Ho; simpl; [lia|].
  destruct (decide (lo = k)) as [->|].
  - rewrite Hp, Hq. rewrite (count_ext q p); [lia|]. intros. apply Ho. lia.
  - rewrite Ho, IH by (done || lia). lia.
Qed.

Lemma count_none p n : forall lo, count p lo n = 0 -> forall i, lo <= i < lo + Z.of_nat n -> p i = false.
Proof.
  induction n as [|n IH]; intros lo H i Hi; simpl in *; [lia|]. pose proof (count_range p n (lo + 1)).
  destruct (p lo) eqn:E; [lia|]. destruct (decide (i = lo)) as [->|]; [done|]. apply (IH (lo + 1)); lia.
Qed.

Lemma count_all p n : forall lo, (forall i, lo <= i < lo + Z.of_nat n -> p i = false) -> count p lo n = 0.
Proof.
  induction n as [|n IH]; intros lo H; simpl; [done|]. rewrite H by lia. rewrite IH; [done|]. intros. apply H. lia.
Qed.

Lemma iter_count (p : Z -> bool) n : forall lo c, 0 <= c -> c + Z.of_nat n < 4294967296 ->
  iter (fun i c => if p i then u32 (c + 1) else c) lo n c = c + count p lo n.
Proof.
  induction n as [|n IH]; intros lo c Hc Hn; simpl; [lia|]. destruct (p lo).
  - rewrite IH; rewrite ?u32_small by lia; lia.
  - rewrite IH; lia.
Qed.

Definition free_frames (s : State) : Z :=
  count (fun f => negb (bitmap_test f s)) KERNEL_RESERVED_FRAMES (Z.to_nat (TOTAL_FRAMES - KERNEL_RESERVED_FRAMES)).

Lemma free_count_frames s : pmm_free_count s = free_frames s.
Proof. unfold pmm_free_count. rewrite iter_count; [done|lia|]. rewrite Z2Nat.id by done. done. Qed.

Lemma alloc_frame_counts s :
  wf s ->
  let '(s', p) := pmm_alloc_frame s in
  (p <> 0 <-> 0 < pmm_free_count s) /\ (p <> 0 -> pmm_free_count s' = pmm_free_count s - 1).
Proof.
  intros Hwf. pose proof (alloc_frame_spec s Hwf) as H. destruct (pmm_alloc_frame s) as [s' p].
  rewrite !free_count_frames. destruct H as (Hw & _ & _ & [(-> & -> & Hall)|(Ha & Hlo & Hu & Ht)]).
  - unfold free_frames. rewrite count_all; [done|]. intros i Hi. rewrite Z2Nat.id in Hi by done.
    rewrite Hall; [done|lia].
  - pose proof (frame_addr_range p Ha) as Hr. unfold frame_used in Hu.
    assert (KERNEL_RESERVED_FRAMES <= p / PAGE_SIZE) as Hlo'
      by (apply Z.div_le_lower_bound; unfold PAGE_SIZE, KERNEL_RESERVED_FRAMES in *; lia).
    assert (free_frames s' = free_frames s - 1) as Heq.
    { set (q := fun f => if (0 <=? f) && (f <? TOTAL_FRAMES) then negb (bitmap_test f s') else negb (bitmap_test f s)).
      unfold free_frames. rewrite (count_ext _ q).
      2:{ intros i Hi. rewrite Z2Nat.id in Hi by done. unfold q. case_if; [done|].
          unfold KERNEL_RESERVED_FRAMES in *. lia. }
      apply (count_change _ q (p / PAGE_SIZE)).
      - rewrite Z2Nat.id by done. unfold frame_range in Hr. lia.
      - by rewrite Hu.
      - unfold q. case_if; [|unfold frame_range in Hr; lia]. rewrite Ht by done. by rewrite Z.eqb_refl.
      - intros i Hi. unfold q. case_if; [|done]. bool_to_prop. rewrite Ht by (unfold frame_range; lia).
        rewrite (proj2 (Z.eqb_neq _ _)); [done|lia]. }
    pose proof (count_range (fun f => negb (bitmap_test f s')) (Z.to_nat (TOTAL_FRAMES - KERNEL_RESERVED_FRAMES)) KERNEL_RESERVED_FRAMES) as Hc.
    fold (free_frames s') in Hc. unfold KERNEL_RESERVED_FRAMES, PAGE_SIZE in Hlo. split; [split; lia|done].
Qed.

(** pmm_free_count() goes down by exactly one with each allocation that
    succeeds, and an allocation succeeds exactly when the count is positive. *)
Theorem pmm_alloc_counts s :
  wf s ->
  let '(s', p) := pmm_alloc_frame s in
  (p <> 0 <-> 0 < pmm_free_count s) /\ (p <> 0 -> pmm_free_count s' = pmm_free_count s - 1).
Proof. apply alloc_frame_counts. Qed.

Lemma zero_bytes n : 0 <= n ->
  zlen (replicate (Z.to_nat n) 0) = n /\ Forall (fun b => 0 <= b < 256) (replicate (Z.to_nat n) 0).
Proof.
  intros Hn. unfold zlen. rewrite length_replicate, Z2Nat.id by done. split; [done|]. apply Forall_replicate. lia.
Qed.

Lemma wf_init s :
  zlen (frame_cow_cnt s) = TOTAL_FRAMES -> Forall (fun b => 0 <= b < 256) (frame_cow_cnt s) -> wf (pmm_init s).
Proof.
  intros Hl Hf. unfold pmm_init. apply (iter_ind (fun _ => wf)).
  - destruct (zero_bytes (TOTAL_FRAMES / 8)) as [H1 H2]; [done|]. split; [exact H1|]. split; [exact H2|]. by split.
  - intros. by apply wf_bitmap_set.
Qed.

(** ** Memory *)
Lemma word_set s a b v : word (set_word a v s) b = if decide (a = b) then v else word s b.
Proof.
  unfold word, set_word. simpl. case_decide as H; [subst; by rewrite lookup_insert_eq|].
  by rewrite lookup_insert_ne.
Qed.

Lemma bitmap_set_word s a v : frame_bitmap (set_word a v s) = frame_bitmap s.
Proof. done. Qed.

(** Nothing but memory changes, and only inside the frame [p]. *)
Definition within (p : Z) (s s' : State) : Prop :=
  frame_bitmap s' = frame_bitmap s /\ frame_cow_cnt s' = frame_cow_cnt s /\ cr3 s' = cr3 s /\
  forall a, ~ (p <= a < p + PAGE_SIZE) -> word s' a = word s a.

Lemma frame_loop_spec (v : Z -> State -> Z) p s :
  let s' := iter (fun i s => set_word (p + 8 * i) (v i s) s) 0 (Z.to_nat (PAGE_SIZE / 8)) s in
  within p s s'.
Proof.
  cbv zeta. apply (iter_ind (fun _ s' => within p s s')); [done|].
  intros i s' Hi (H1 & H2 & H3 & H4). split_and!; try done. intros a Ha.
  rewrite word_set, decide_False; [by apply H4|]. rewrite Z2Nat.id in Hi by done.
  change (PAGE_SIZE / 8) with 512 in Hi. unfold PAGE_SIZE in *. lia.
Qed.

Lemma zero_frame_word s p i : 0 <= i < 512 -> word (zero_frame p s) (p + 8 * i) = 0.
Proof.
  intros Hi. unfold zero_frame.
  pose proof (iter_ind (fun k s' => forall j, 0 <= j < k -> word s' (p + 8 * j) = 0)
    (fun i s => set_word (p + 8 * i) 0 s) (Z.to_nat (PAGE_SIZE / 8)) 0 s) as H.
  rewrite Z2Nat.id in H by done. apply H; [lia| |done].
  intros k s' Hk IH j Hj. rewrite word_set. case_decide; [done|]. apply IH. lia.
Qed.

Lemma copy_frame_word s src dst i :
  frame_addr src -> frame_addr dst -> src <> dst -> 0 <= i < 512 ->
  word (copy_frame src dst s) (dst + 8 * i) = word s (src + 8 * i).
Proof.
  intros Hs Hd Hne Hi. unfold copy_frame.
  assert (forall j, 0 <= j < 512 -> ~ (dst <= src + 8 * j < dst + PAGE_SIZE)) as Hdis.
  { destruct Hs as [Hs _], Hd as [Hd _]. unfold PAGE_SIZE in *. intros j Hj Hin.
    pose proof (Z.div_mod src 4096). pose proof (Z.div_mod dst 4096). lia. }
  pose proof (iter_ind (fun k s' => (forall j, 0 <= j < k -> word s' (dst + 8 * j) = word s (src + 8 * j)) /\
                                    (forall j, 0 <= j < 512 -> word s' (src + 8 * j) = word s (src + 8 * j)))
    (fun k s => set_word (dst + 8 * k) (word s (src + 8 * k)) s) (Z.to_nat (PAGE_SIZE / 8)) 0 s) as H.
  rewrite Z2Nat.id in H by done. change (0 + PAGE_SIZE / 8) with 512 in H. apply H; [split; [lia|done]| |done].
  intros k s' Hk [IH1 IH2]. split; intros j Hj; rewrite word_set; case_decide as Heq.
  - rewrite IH2 by lia. f_equal. lia.
  - apply IH1. lia.
  - exfalso. apply (Hdis j Hj). unfold PAGE_SIZE. lia.
  - by apply IH2.
Qed.

Lemma zero_frame_within s p : within p s (zero_frame p s).
Proof. apply (frame_loop_spec (fun _ _ => 0)). Qed.

Lemma copy_frame_within s src dst : within dst s (copy_frame src dst s).
Proof. apply (frame_loop_spec (fun k s => word s (src + 8 * k))). Qed.

(** ** A booted machine *)
Definition boot : State := pmm_init (mkState [] (replicate (Z.to_nat TOTAL_FRAMES) 0) ∅ 0x1000).

Lemma boot_wf : wf boot.
Proof.
  destruct (zero_bytes TOTAL_FRAMES) as [H1 H2]; [done|]. apply wf_init; [exact H1|exact H2].
Qed.

Lemma boot_first_frame : snd (pmm_alloc_frame boot) = 0x800000.
Proof. vm_compute. reflexivity. Qed.

Lemma pmm_alloc_spec_witness :
  let '(s', p) := pmm_alloc_frame boot in p = 0x800000 /\ wf s' /\ mem s' = ∅.
Proof.
  pose proof (pmm_alloc_spec boot boot_wf) as H. pose proof boot_first_frame as Hp.
  destruct (pmm_alloc_frame boot) as [s' p]. simpl in Hp. destruct H as (H1 & H2 & _).
  split; [exact Hp|]. split; [exact H1|]. rewrite H2. vm_compute. reflexivity.
Defined.

Lemma pmm_alloc_free_roundtrip_witness :
  same_frames boot (pmm_free_frame 0x800000 (fst (pmm_alloc_frame boot))).
Proof.
  pose proof (pmm_alloc_free_roundtrip boot boot_wf) as H. pose proof boot_first_frame as Hp.
  destruct (pmm_alloc_frame boot) as [s' p]. simpl in Hp. subst p. apply H. lia.
Defined.

Lemma pmm_alloc_counts_witness :
  pmm_free_count boot = 14336 /\ pmm_free_count (fst (pmm_alloc_frame boot)) = 14335.
Proof.
  assert (pmm_free_count boot = 14336) as Hc by (vm_compute; reflexivity).
  pose proof (pmm_alloc_counts boot boot_wf) as H. pose proof boot_first_frame as Hp.
  destruct (pmm_alloc_frame boot) as [s' p]. simpl in Hp. subst p. destruct H as [_ H].
  split; [exact Hc|]. simpl. rewrite H by lia. rewrite Hc. reflexivity.
Defined.

End Pmm.
