(* ===== verification/Vmm.v ===== *)
(** * vmm.c, second half: page tables and copy-on-write

    The four-level page tables of a process, in physical memory: each operation
    walks and rewrites 64-bit entries as the C code does.  [descend] is the walk
    along a path of indices; a well-formed address space ([tree]) is one in which
    every table is reached along one path only and lies in a frame marked used.
    The theorems show that vmm_map_page() changes the translation of exactly one
    page (or nothing), that vmm_unmap_page() undoes it, that two address spaces
    do not affect each other, what a new page directory maps, that a
    copy-on-write fault gives the process a private copy, and two defects: pages
    below 8 MB are never remapped, and the frames of a forked process are not
    given back. *)

From Stdlib Require Import ZArith Lia.
From stdpp Require Import base numbers list gmap tactics.
From S2P Require Import Prelude Pmm.

Module Vmm.
Import Pmm.

(** [~(uint64_t)0xFFF] *)
Definition mask : Z := 0xFFFFFFFFFFFFF000.
Definition PTE_COW : Z := Z.shiftl 1 9.

(** The index fields of a virtual address. *)
Definition pml4_idx (virt : Z) : Z := Z.land (Z.shiftr virt 39) 0x1FF.
Definition pdpt_idx (virt : Z) : Z := Z.land (Z.shiftr virt 30) 0x1FF.
Definition pd_idx (virt : Z) : Z := Z.land (Z.shiftr virt 21) 0x1FF.
Definition pt_idx (virt : Z) : Z := Z.land (Z.shiftr virt 12) 0x1FF.

(** [t[i]] for a table at physical address [t] (identity mapped under the boot
    page tables every operation switches to). *)
Definition entry (s : State) (t i : Z) : Z := word s (t + 8 * i).
Definition set_entry (t i v : Z) (s : State) : State := set_word (t + 8 * i) v s.

Definition present (e : Z) : bool := truth (Z.land e 1).
(** [e & (1ULL << 7)]: a 2 MB page. *)
Definition large (e : Z) : bool := truth (Z.land e (Z.shiftl 1 7)).

(** The step that is repeated at each level: follow the entry, or allocate and
    link a zeroed table.  [None]: out of frames. *)
Definition next_table (t i : Z) (s : State) : State * option Z :=
  if present (entry s t i) then (s, Some (Z.land (entry s t i) mask))
  else
    let '(s, p) := pmm_alloc_frame s in
    if p =? 0 then (s, None) else (set_entry t i (Z.lor p 7) (zero_frame p s), Some p).

Definition vmm_map_page (pml4 virt phys flags : Z) (s : State) : State :=
  match next_table pml4 (pml4_idx virt) s with
  | (s, None) => s
  | (s, Some pdpt) =>
      match next_table pdpt (pdpt_idx virt) s with
      | (s, None) => s
      | (s, Some pd) =>
          if large (entry s pd (pd_idx virt)) then s
          else
            match next_table pd (pd_idx virt) s with
            | (s, None) => s
            | (s, Some pt) => set_entry pt (pt_idx virt) (Z.lor (Z.lor (Z.land phys mask) flags) 1) s
            end
      end
  end.

Definition vmm_unmap_page (pml4 virt : Z) (s : State) : State :=
  if pml4 =? 0 then s
  else if present (entry s pml4 (pml4_idx virt)) then
    let pdpt := Z.land (entry s pml4 (pml4_idx virt)) mask in
    if present (entry s pdpt (pdpt_idx virt)) then
      let pd := Z.land (entry s pdpt (pdpt_idx virt)) mask in
      if present (entry s pd (pd_idx virt)) && negb (large (entry s pd (pd_idx virt))) then
        let pt := Z.land (entry s pd (pd_idx virt)) mask in
        set_entry pt (pt_idx virt) 0 s
      else s
    else s
  else s.

Definition vmm_get_phys (pml4 virt : Z) (s : State) : Z :=
  if pml4 =? 0 then 0
  else if present (entry s pml4 (pml4_idx virt)) then
    let pdpt := Z.land (entry s pml4 (pml4_idx virt)) mask in
    if present (entry s pdpt (pdpt_idx virt)) then
      let pd := Z.land (entry s pdpt (pdpt_idx virt)) mask in
      if present (entry s pd (pd_idx virt)) then
        if large (entry s pd (pd_idx virt)) then
          u64 (Z.land (entry s pd (pd_idx virt)) (u64 (Z.lnot 0x1FFFFF)) + Z.land virt 0x1FFFFF)
        else
          let pt := Z.land (entry s pd (pd_idx virt)) mask in
          if present (entry s pt (pt_idx virt)) then Z.land (entry s pt (pt_idx virt)) mask else 0
      else 0
    else 0
  else 0.

(** The address of the PTE, 0 if there is no page table. *)
Definition vmm_get_pte (pml4 virt : Z) (s : State) : Z :=
  if pml4 =? 0 then 0
  else if negb (present (entry s pml4 (pml4_idx virt))) then 0
  else
    let pdpt := Z.land (entry s pml4 (pml4_idx virt)) mask in
    if negb (present (entry s pdpt (pdpt_idx virt))) then 0
    else
      let pd := Z.land (entry s pdpt (pdpt_idx virt)) mask in
      if negb (present (entry s pd (pd_idx virt))) then 0
      else if large (entry s pd (pd_idx virt)) then 0
      else Z.land (entry s pd (pd_idx virt)) mask + 8 * pt_idx virt.

(** The entries written into a new page directory. *)
Definition fill_pd_low (pd_low : Z) (s : State) : State :=
  set_entry pd_low 37 0x4A00083 (set_entry pd_low 36 0x4800083 (set_entry pd_low 35 0x4600083
    (set_entry pd_low 34 0x4400083 (set_entry pd_low 33 0x4200083 (set_entry pd_low 32 0x4000083
      (set_entry pd_low 3 0x600087 (set_entry pd_low 2 0x400087 (set_entry pd_low 1 0x200087
        (set_entry pd_low 0 0x87 s))))))))).

Definition vmm_create_page_dir (s : State) : State * Z :=
  let '(s, pml4) := pmm_alloc_frame s in
  if pml4 =? 0 then (s, 0)
  else
    let s := zero_frame pml4 s in
    let '(s, pdpt) := pmm_alloc_frame s in
    if pdpt =? 0 then (pmm_free_frame pml4 s, 0)
    else
      let s := zero_frame pdpt s in
      let '(s, pd_low) := pmm_alloc_frame s in
      if pd_low =? 0 then (pmm_free_frame pml4 (pmm_free_frame pdpt s), 0)
      else
        let s := zero_frame pd_low s in
        let s := set_entry pml4 0 (Z.lor pdpt 7) s in
        let s := set_entry pdpt 3 0x6003 (set_entry pdpt 2 0x5003 (set_entry pdpt 1 0x4003
                   (set_entry pdpt 0 (Z.lor pd_low 7) s))) in
        (fill_pd_low pd_low s, pml4).

Definition RESERVED_END : Z := KERNEL_RESERVED_FRAMES * PAGE_SIZE.

Definition free_if_user (phys : Z) (s : State) : State :=
  if RESERVED_END <=? phys then pmm_free_frame phys s else s.

(** One leaf of the table being torn down. *)
Definition free_leaf (e : Z) (s : State) : State :=
  if negb (present e) then s
  else
    let phys := Z.land e mask in
    if RESERVED_END <=? phys then
      let fn := u32 (phys / PAGE_SIZE) in
      if (fn <? TOTAL_FRAMES) && (0 <? (frame_cow_cnt s).[fn])
      then s <| frame_cow_cnt := (frame_cow_cnt s).[fn <- (frame_cow_cnt s).[fn] - 1] |>
      else pmm_free_frame phys s
    else s.

Definition free_table (e : Z) (s : State) : State :=
  if negb (present e) then s
  else if large e then s
  else
    let pt := Z.land e mask in
    let s := iter (fun j s => free_leaf (entry s pt j) s) 0 512 s in
    free_if_user pt s.

Definition vmm_free_user_memory (pml4 : Z) (s : State) : State :=
  if pml4 =? 0 then s
  else
    let s :=
      if present (entry s pml4 0) then
        let pdpt := Z.land (entry s pml4 0) mask in
        let s :=
          if present (entry s pdpt 0) then
            let pd_low := Z.land (entry s pdpt 0) mask in
            let s := iter (fun i s => free_table (entry s pd_low i) s) 0 512 s in
            free_if_user (Z.land (entry s pdpt 0) mask) s
          else s in
        free_if_user (Z.land (entry s pml4 0) mask) s
      else s in
    free_if_user pml4 s.

(** One user page shared by fork. *)
Definition share_page (child_pml4 parent_pt i j : Z) (s : State) : State :=
  let e := entry s parent_pt j in
  if negb (present e) then s
  else
    let phys := Z.land e mask in
    if phys <? RESERVED_END then s
    else
      let va := i * 0x200000 + j * 0x1000 in
      let s := set_entry parent_pt j (Z.lor phys 0x205) s in
      let s := vmm_map_page child_pml4 va phys 0x205 s in
      let fn := u32 (phys / PAGE_SIZE) in
      if fn <? TOTAL_FRAMES then
        s <| frame_cow_cnt := (frame_cow_cnt s).[fn <-
               if (frame_cow_cnt s).[fn] <? 254 then (frame_cow_cnt s).[fn] + 2 else 255] |>
      else s.

Definition share_table (child_pml4 parent_pd i : Z) (s : State) : State :=
  let e := entry s parent_pd i in
  if negb (present e) then s
  else if large e then s
  else iter (fun j s => share_page child_pml4 (Z.land e mask) i j s) 0 512 s.

Definition vmm_copy_cow (parent_pml4 child_pml4 : Z) (s : State) : State :=
  if (parent_pml4 =? 0) || (child_pml4 =? 0) then s
  else if negb (present (entry s parent_pml4 0)) then s
  else
    let parent_pdpt := Z.land (entry s parent_pml4 0) mask in
    if negb (present (entry s parent_pdpt 0)) then s
    else
      let parent_pd := Z.land (entry s parent_pdpt 0) mask in
      iter (fun i s => share_table child_pml4 parent_pd i s) 0 512 s.

Definition vmm_cow_fault (pml4 virt : Z) (s : State) : State * Z :=
  let fa := Z.land virt mask in
  let pte := vmm_get_pte pml4 fa s in
  if (pte =? 0) || negb (present (word s pte)) then (s, 0)
  else if negb (truth (Z.land (word s pte) PTE_COW)) then (s, 0)
  else
    let old_phys := Z.land (word s pte) mask in
    let old_frame := u32 (old_phys / PAGE_SIZE) in
    if (old_frame <? TOTAL_FRAMES) && (1 <? (frame_cow_cnt s).[old_frame]) then
      let '(s, new_phys) := pmm_alloc_frame s in
      if new_phys =? 0 then (s, 0)
      else
        let s := copy_frame old_phys new_phys s in
        let s := set_word pte (Z.lor new_phys 7) s in
        (s <| frame_cow_cnt := (frame_cow_cnt s).[old_frame <- (frame_cow_cnt s).[old_frame] - 1] |>, 1)
    else (set_word pte (Z.lor old_phys 7) s, 1).

#[local] Opaque zero_frame copy_frame pmm_alloc_frame pmm_free_count.

(** ** Walks *)
Definition step (s : State) (depth : nat) (t i : Z) : option Z :=
  let e := entry s t i in
  if present e && negb (bool_decide (depth = 2%nat) && large e) then Some (Z.land e mask) else None.

Fixpoint descend (s : State) (t : Z) (depth : nat) (path : list Z) : option Z :=
  match path with
  | [] => Some t
  | i :: path' => u ← step s depth t i; descend s u (S depth) path'
  end.

Definition valid_path (path : list Z) : Prop := (length path <= 3)%nat /\ Forall (fun i => 0 <= i < 512) path.

(** The frames of an address space: each table is a used frame, and is reached
    along one path only. *)
Record tree (s : State) (root : Z) : Prop := {
  tree_root : root <> 0;
  tree_frame path t : valid_path path -> descend s root 0 path = Some t -> frame_addr t /\ frame_used t s = true;
  tree_inj path path' t : valid_path path -> valid_path path' ->
    descend s root 0 path = Some t -> descend s root 0 path' = Some t -> path = path'
}.

Lemma descend_app s path path' : forall t d,
  descend s t d (path ++ path') = u ← descend s t d path; descend s u (d + length path) path'.
Proof.
  induction path as [|i path IH]; intros t d; simpl; [by rewrite Nat.add_0_r|].
  destruct (step s d t i); simpl; [|done]. rewrite IH. by rewrite Nat.add_succ_r.
Qed.

Lemma descend_snoc s t path i :
  descend s t 0 (path ++ [i]) = u ← descend s t 0 path; step s (length path) u i.
Proof.
  rewrite descend_app. destruct (descend s t 0 path) as [u|]; simpl; [|done].
  destruct (step s (length path) u i); done.
Qed.

Lemma valid_snoc path i : valid_path (path ++ [i]) <-> (length path <= 2)%nat /\ Forall (fun i => 0 <= i < 512) path /\ 0 <= i < 512.
Proof.
  unfold valid_path. rewrite length_app, Forall_app. simpl. rewrite Forall_singleton. intuition lia.
Qed.

Lemma valid_prefix p q : valid_path (p ++ q) -> valid_path p.
Proof. unfold valid_path. rewrite length_app, Forall_app. intuition lia. Qed.

(** Slots of different frames, or different slots, are different words. *)
Lemma slot_inj t u i j :
  frame_addr t -> frame_addr u -> 0 <= i < 512 -> 0 <= j < 512 -> t + 8 * i = u + 8 * j -> t = u /\ i = j.
Proof.
  intros [Ht _] [Hu _] Hi Hj H. unfold PAGE_SIZE in *.
  pose proof (Z.div_mod t 4096). pose proof (Z.div_mod u 4096). lia.
Qed.

Lemma slot_in_frame t p i :
  frame_addr t -> frame_addr p -> 0 <= i < 512 -> t <> p -> ~ (p <= t + 8 * i < p + PAGE_SIZE).
Proof.
  intros [Ht _] [Hp _] Hi Hne H. unfold PAGE_SIZE in *.
  pose proof (Z.div_mod t 4096). pose proof (Z.div_mod p 4096). lia.
Qed.

Lemma entry_set s t i u j v :
  frame_addr t -> frame_addr u -> 0 <= i < 512 -> 0 <= j < 512 ->
  entry (set_entry t i v s) u j = if decide (t = u /\ i = j) then v else entry s u j.
Proof.
  intros Ht Hu Hi Hj. unfold entry, set_entry. rewrite word_set.
  do 2 case_decide; try done; exfalso.
  - pose proof (slot_inj t u i j Ht Hu Hi Hj H). tauto.
  - destruct H0. subst. done.
Qed.

Lemma entry_set_eqb s t i u j v :
  frame_addr t -> frame_addr u -> 0 <= i < 512 -> 0 <= j < 512 ->
  entry (set_entry t i v s) u j = if (t =? u) && (i =? j) then v else entry s u j.
Proof.
  intros. rewrite entry_set by done. destruct (Z.eqb_spec t u), (Z.eqb_spec i j); simpl; case_decide; tauto.
Qed.

(** States that agree on the words of the tables of [root]. *)
Definition same_tables (s s' : State) (root : Z) : Prop :=
  forall path t i, valid_path path -> 0 <= i < 512 -> descend s root 0 path = Some t -> entry s' t i = entry s t i.

Lemma descend_same s s' root path :
  same_tables s s' root -> valid_path path -> descend s' root 0 path = descend s root 0 path.
Proof.
  intros Hs. induction path as [|i path IH] using rev_ind; intros Hv; [done|].
  pose proof (valid_prefix _ _ Hv) as Hp. rewrite !descend_snoc, IH by done.
  destruct (descend s root 0 path) as [u|] eqn:E; simpl; [|done]. unfold step.
  apply valid_snoc in Hv as (_ & _ & Hi). by rewrite (Hs path u i).
Qed.

Lemma tree_same s s' root :
  same_tables s s' root -> (forall t, frame_addr t -> frame_used t s = true -> frame_used t s' = true) ->
  tree s root -> tree s' root.
Proof.
  intros Hs Hu [H1 H2 H3]. split; [done|..].
  - intros path t Hv Hd. rewrite (descend_same s) in Hd by done. destruct (H2 _ _ Hv Hd). auto.
  - intros path path' t Hv Hv' Hd Hd'. rewrite (descend_same s) in Hd, Hd' by done. eauto.
Qed.

(** ** Translation in terms of walks *)
Lemma idx_range v k : 0 <= Z.land (Z.shiftr v k) 0x1FF < 512.
Proof.
  change 0x1FF with (Z.ones 9). rewrite Z.land_ones by lia. change (2 ^ 9) with 512. apply Z.mod_pos_bound. lia.
Qed.
Lemma pml4_range v : 0 <= pml4_idx v < 512. Proof. apply idx_range. Qed.
Lemma pdpt_range v : 0 <= pdpt_idx v < 512. Proof. apply idx_range. Qed.
Lemma pd_range v : 0 <= pd_idx v < 512. Proof. apply idx_range. Qed.
Lemma pt_range v : 0 <= pt_idx v < 512. Proof. apply idx_range. Qed.
#[local] Hint Resolve pml4_range pdpt_range pd_range pt_range : core.

Definition dir_path (v : Z) : list Z := [pml4_idx v; pdpt_idx v].
Definition table_path (v : Z) : list Z := [pml4_idx v; pdpt_idx v; pd_idx v].

Lemma valid_dir v : valid_path (dir_path v).
Proof. split; [simpl; lia|]. unfold dir_path, table_path. repeat (apply Forall_cons_2; [auto|]). apply Forall_nil_2. Qed.
Lemma valid_table v : valid_path (table_path v).
Proof. split; [simpl; lia|]. unfold dir_path, table_path. repeat (apply Forall_cons_2; [auto|]). apply Forall_nil_2. Qed.
#[local] Hint Resolve valid_dir valid_table : core.

(** The 2 MB page that covers [v], if any. *)
Definition large_entry (s : State) (root v : Z) : option Z :=
  pd ← descend s root 0 (dir_path v);
  if large (entry s pd (pd_idx v)) then Some (entry s pd (pd_idx v)) else None.

Lemma get_phys_walk s root v :
  root <> 0 ->
  vmm_get_phys root v s =
    match large_entry s root v with
    | Some e => if present e then u64 (Z.land e (u64 (Z.lnot 0x1FFFFF)) + Z.land v 0x1FFFFF) else 0
    | None =>
        match descend s root 0 (table_path v) with
        | Some pt => if present (entry s pt (pt_idx v)) then Z.land (entry s pt (pt_idx v)) mask else 0
        | None => 0
        end
    end.
Proof.
  intros Hr. unfold vmm_get_phys, large_entry, table_path, dir_path. rewrite (proj2 (Z.eqb_neq root 0)) by done.
  cbn [descend]. unfold step. cbn [bool_decide decide]. cbv zeta.
  rewrite !bool_decide_false by lia. rewrite bool_decide_true by done. cbn [andb negb].
  rewrite !andb_true_r.
  destruct (present (entry s root (pml4_idx v))); cbn [mbind option_bind]; [|done].
  destruct (present (entry s _ (pdpt_idx v))); cbn [mbind option_bind]; [|done].
  set (pd := Z.land _ mask). destruct (large (entry s pd (pd_idx v))) eqn:El; unfold mbind, option_bind; cbn [andb]; cbv beta iota.
  - by rewrite ?El.
  - rewrite ?El. cbn [negb]. rewrite andb_true_r. destruct (present (entry s pd (pd_idx v))); done.
Qed.

Lemma get_phys_same s s' root v :
  same_tables s s' root -> root <> 0 -> vmm_get_phys root v s' = vmm_get_phys root v s.
Proof.
  intros Hs Hr. rewrite !get_phys_walk by done. unfold large_entry.
  rewrite (descend_same s s' root (dir_path v)), (descend_same s s' root (table_path v)) by auto.
  assert (match descend s root 0 (table_path v) with
          | Some pt => entry s' pt (pt_idx v) = entry s pt (pt_idx v) | None => True end) as Hpt.
  { destruct (descend s root 0 (table_path v)) as [pt|] eqn:E; [|done]. by apply (Hs (table_path v)). }
  assert (match descend s root 0 (dir_path v) with
          | Some pd => entry s' pd (pd_idx v) = entry s pd (pd_idx v) | None => True end) as Hpd.
  { destruct (descend s root 0 (dir_path v)) as [pd|] eqn:E; [|done]. by apply (Hs (dir_path v)). }
  destruct (descend s root 0 (dir_path v)), (descend s root 0 (table_path v)); simpl; by rewrite ?Hpd, ?Hpt.
Qed.

(** ** Entry bits *)
Lemma testbit_mask i : 0 <= i -> Z.testbit mask i = (12 <=? i) && (i <? 64).
Proof.
  intros Hi. change mask with (Z.shiftl (Z.ones 52) 12). rewrite Z.shiftl_spec by lia.
  destruct (Z.leb_spec 12 i), (Z.ltb_spec i 64); simpl.
  - apply Z.ones_spec_low. lia.
  - apply Z.ones_spec_high. lia.
  - apply Z.testbit_neg_r. lia.
  - apply Z.testbit_neg_r. lia.
Qed.

Lemma aligned_bit p i : p mod PAGE_SIZE = 0 -> 0 <= i < 12 -> Z.testbit p i = false.
Proof.
  intros Hp Hi. rewrite (Z.div_mod p PAGE_SIZE), Hp, Z.add_0_r, Z.mul_comm by done.
  change PAGE_SIZE with (2 ^ 12). apply Z.mul_pow2_bits_low. lia.
Qed.

Lemma present_bit e : present e = Z.testbit e 0.
Proof. apply (truth_land_bit e 0). lia. Qed.
Lemma large_bit e : large e = Z.testbit e 7.
Proof. apply truth_land_bit. lia. Qed.

(** Address and flags of an entry. *)
Lemma entry_addr p f :
  p mod PAGE_SIZE = 0 -> 0 <= p < 2 ^ 64 -> 0 <= f < 4096 -> Z.land (Z.lor p f) mask = p.
Proof.
  intros Hp Hr Hf. apply Z.bits_inj'. intros i Hi. rewrite Z.land_spec, Z.lor_spec, testbit_mask by done.
  destruct (Z.leb_spec 12 i); simpl.
  - rewrite (bits_high 12 f) by (done || lia). rewrite orb_false_r.
    destruct (Z.ltb_spec i 64); [apply andb_true_r|]. rewrite andb_false_r. symmetry. by apply (bits_high 64).
  - rewrite andb_false_r. symmetry. apply aligned_bit; [done|lia].
Qed.

Lemma land_mask_aligned z : 0 <= Z.land z mask < 2 ^ 64 /\ Z.land z mask mod PAGE_SIZE = 0.
Proof.
  split.
  - apply bits_small; [lia|]. intros i Hi. rewrite Z.land_spec, testbit_mask by lia.
    rewrite (proj2 (Z.ltb_ge i 64)) by lia. by rewrite !andb_false_r.
  - change PAGE_SIZE with (2 ^ 12). apply Z.bits_inj'. intros i Hi. rewrite Z.testbit_mod_pow2, Z.testbit_0_l by lia.
    destruct (Z.ltb_spec i 12); [|done]. rewrite Z.land_spec, testbit_mask by lia.
    rewrite (proj2 (Z.leb_gt 12 i)) by lia. by rewrite andb_false_r.
Qed.

Lemma table_entry p : frame_addr p ->
  Z.land (Z.lor p 7) mask = p /\ present (Z.lor p 7) = true /\ large (Z.lor p 7) = false.
Proof.
  intros [Hp Hr]. split; [|split].
  - apply entry_addr; [done| |lia]. unfold TOTAL_FRAMES, PAGE_SIZE in Hr. lia.
  - rewrite present_bit, Z.lor_spec, (aligned_bit p 0) by (done || lia). done.
  - rewrite large_bit, Z.lor_spec, (aligned_bit p 7) by (done || lia). done.
Qed.

(** ** Linking a new table *)
Section link.
Context (s s' : State) (root : Z) (path : list Z) (t i p : Z).
Context (Htree : tree s root) (Hvalid : valid_path (path ++ [i])) (Hat : descend s root 0 path = Some t).
Context (Habsent : present (entry s t i) = false) (Hsmall : length path = 2%nat -> large (entry s t i) = false).
Context (Hp : frame_addr p) (Hfresh : frame_used p s = false).
Context (Hset : entry s' t i = Z.lor p 7).
Context (Hzero : forall j, 0 <= j < 512 -> entry s' p j = 0).
Context (Hsame : forall u j, frame_addr u -> frame_used u s = true -> 0 <= j < 512 ->
           ~ (u = t /\ j = i) -> entry s' u j = entry s u j).
Context (Hused : forall u, frame_addr u -> frame_used u s' = (u =? p) || frame_used u s).

Lemma link_reached q u : valid_path q -> descend s root 0 q = Some u -> frame_addr u /\ frame_used u s = true /\ u <> p.
Proof.
  intros Hq Hd. destruct (tree_frame _ _ Htree q u Hq Hd) as [Ha Hu]. split; [done|]. split; [done|].
  intros ->. congruence.
Qed.

Lemma link_absent q : valid_path (path ++ i :: q) -> descend s root 0 (path ++ i :: q) = None.
Proof.
  intros _. rewrite descend_app, Hat. simpl. unfold step. by rewrite Habsent.
Qed.

Lemma link_other q : valid_path q -> ~ (path ++ [i]) `prefix_of` q -> descend s' root 0 q = descend s root 0 q.
Proof.
  induction q as [|j q IH] using rev_ind; intros Hv Hn; [done|].
  pose proof (valid_prefix _ _ Hv) as Hq. rewrite !descend_snoc, IH; [|done|].
  2:{ intros Hpre. apply Hn. by apply prefix_app_r. }
  destruct (descend s root 0 q) as [u|] eqn:E; simpl; [|done].
  destruct (link_reached q u Hq E) as (Ha & Hu & _). apply valid_snoc in Hv as (_ & _ & Hj).
  unfold step. rewrite Hsame; [done|done|done|done|]. intros [-> ->]. apply Hn.
  pose proof (tree_inj _ _ Htree q path t Hq (valid_prefix _ _ Hvalid) E Hat) as ->. done.
Qed.

Lemma link_new : descend s' root 0 (path ++ [i]) = Some p.
Proof.
  destruct (table_entry p Hp) as (H1 & H2 & H3). rewrite descend_snoc, link_other, Hat; [|by eapply valid_prefix|].
  - simpl. unfold step. rewrite Hset, H2, H3, H1, andb_false_r. done.
  - intros Hpre%prefix_length. rewrite length_app in Hpre. simpl in Hpre. lia.
Qed.

Lemma link_below j q : valid_path (path ++ i :: j :: q) -> descend s' root 0 (path ++ i :: j :: q) = None.
Proof.
  intros [_ Hv]. replace (path ++ i :: j :: q) with ((path ++ [i]) ++ j :: q) by by rewrite <- app_assoc.
  rewrite descend_app, link_new. simpl. unfold step. rewrite Hzero; [done|].
  rewrite Forall_app in Hv. destruct Hv as [_ Hv]. apply Forall_cons_1 in Hv as [_ Hv]. by apply Forall_cons_1 in Hv as [? _].
Qed.

(** Walks after linking: the new path, the old ones, nothing else. *)
Lemma link_descend q u : valid_path q ->
  descend s' root 0 q = Some u <-> (q = path ++ [i] /\ u = p) \/ (q <> path ++ [i] /\ descend s root 0 q = Some u).
Proof.
  intros Hq. destruct (decide ((path ++ [i]) `prefix_of` q)) as [[k ->]|Hn].
  - destruct k as [|j k].
    + rewrite app_nil_r, link_new. naive_solver.
    + rewrite <- app_assoc in *. simpl in *. rewrite link_below by done. rewrite link_absent by done.
      split; [done|]. intros [[H _]|[_ H]]; [|done]. apply (f_equal length) in H.
      rewrite !length_app in H. simpl in H. lia.
  - rewrite link_other by done. split; [|intros [[-> _]|[_ H]]; [|done]].
    + intros H. right. split; [|done]. intros ->. by apply Hn.
    + exfalso. by apply Hn.
Qed.

Lemma link_tree : tree s' root.
Proof.
  split; [apply Htree|..].
  - intros q u Hq Hd%link_descend; [|done]. destruct Hd as [[-> ->]|[_ Hd]].
    + split; [done|]. rewrite Hused, Z.eqb_refl by done. done.
    + destruct (link_reached q u Hq Hd) as (Ha & Hu & _). split; [done|]. rewrite Hused, Hu by done. apply orb_true_r.
  - intros q q' u Hq Hq' Hd%link_descend Hd'%link_descend; [|done|done].
    destruct Hd as [[-> ->]|[_ Hd]], Hd' as [[-> ?]|[_ Hd']]; subst; try done.
    + by apply link_reached in Hd' as (_ & _ & ?).
    + by apply link_reached in Hd as (_ & _ & ?).
    + by eapply (tree_inj _ _ Htree).
Qed.

Lemma link_large v : large_entry s' root v = large_entry s root v.
Proof.
  pose proof (proj1 (valid_snoc _ _) Hvalid) as (Hlen & _ & Hi).
  destruct (table_entry p Hp) as (_ & _ & Hl7).
  unfold large_entry. destruct (descend s' root 0 (dir_path v)) as [pd|] eqn:E'.
  - apply link_descend in E' as [[Hd ->]|[_ E]]; [..|auto].
    + rewrite Hd. rewrite (link_absent []) by (by rewrite <- Hd). simpl.
      rewrite Hzero by auto. done.
    + rewrite E. simpl. destruct (link_reached _ _ (valid_dir v) E) as (Ha & Hu & _).
      destruct (decide (pd = t /\ pd_idx v = i)) as [[-> Hi']|Hne].
      * pose proof (tree_inj _ _ Htree _ _ _ (valid_dir v) (valid_prefix _ _ Hvalid) E Hat) as Hdp.
        rewrite Hi', Hset, Hl7, Hsmall; [done|]. by rewrite <- Hdp.
      * by rewrite Hsame by auto.
  - destruct (descend s root 0 (dir_path v)) as [pd|] eqn:E; simpl; [|done]. exfalso.
    assert (descend s' root 0 (dir_path v) = Some pd); [|congruence].
    apply link_descend; [auto|]. right. split; [|done]. intros Hd. rewrite Hd, (link_absent []) in E; [done|].
    by rewrite <- Hd.
Qed.

Lemma link_phys v : vmm_get_phys root v s' = vmm_get_phys root v s.
Proof.
  pose proof (tree_root _ _ Htree) as Hr. rewrite !get_phys_walk by done. rewrite link_large.
  pose proof (proj1 (valid_snoc _ _) Hvalid) as (Hlen & _ & Hi).
  destruct (large_entry s root v); [done|].
  destruct (descend s' root 0 (table_path v)) as [pt|] eqn:E'.
  - apply link_descend in E' as [[Hd ->]|[Hnd E]]; [..|auto].
    + rewrite Hd, (link_absent []) by (by rewrite <- Hd). rewrite Hzero by auto. done.
    + rewrite E. destruct (link_reached _ _ (valid_table v) E) as (Ha & Hu & _). rewrite Hsame; [done|done|done|auto|].
      intros [-> Hi']. pose proof (tree_inj _ _ Htree _ _ _ (valid_table v) (valid_prefix _ _ Hvalid) E Hat) as Hdp.
      rewrite <- Hdp in Hlen. simpl in Hlen. lia.
  - destruct (descend s root 0 (table_path v)) as [pt|] eqn:E; [|done]. exfalso.
    assert (descend s' root 0 (table_path v) = Some pt); [|congruence].
    apply link_descend; [auto|]. right. split; [|done]. intros Hd. rewrite Hd, (link_absent []) in E; [done|].
    by rewrite <- Hd.
Qed.
End link.

(** [s'] extends [s]: used frames stay used, no table of [root] is lost, no
    translation of [root] changes, tables are added in unused frames only, and
    no word of a used frame changes outside the slots listed in [ws], which are
    absent entries of tables of [root] (or lie in new tables). *)
Record extends (root : Z) (ws : list (Z * Z)) (s s' : State) : Prop := {
  ext_wf : wf s';
  ext_tree : tree s' root;
  ext_used u : frame_addr u -> frame_used u s = true -> frame_used u s' = true;
  ext_reach q u : valid_path q -> descend s root 0 q = Some u -> descend s' root 0 q = Some u;
  ext_words u j : frame_addr u -> frame_used u s = true -> 0 <= j < 512 -> (u, j) ∉ ws -> entry s' u j = entry s u j;
  ext_phys v : vmm_get_phys root v s' = vmm_get_phys root v s;
  ext_large v : large_entry s' root v = large_entry s root v;
  ext_cow : frame_cow_cnt s' = frame_cow_cnt s;
  ext_new q u : valid_path q -> descend s' root 0 q = Some u -> descend s root 0 q = Some u \/ frame_used u s = false;
  ext_slots t i : (t, i) ∈ ws -> (frame_addr t /\ frame_used t s = false) \/
    exists q, valid_path q /\ 0 <= i < 512 /\ descend s root 0 q = Some t /\ present (entry s t i) = false
}.

Lemma extends_refl root s : wf s -> tree s root -> extends root [] s s.
Proof. intros Hw Ht. split; auto. intros t i Hin. by apply not_elem_of_nil in Hin. Qed.

Lemma extends_trans root ws ws' s1 s2 s3 :
  tree s1 root -> extends root ws s1 s2 -> extends root ws' s2 s3 -> extends root (ws ++ ws') s1 s3.
Proof.
  intros Ht1 [A1 A2 A3 A4 A5 A6 A6' A7 A8 A9] [B1 B2 B3 B4 B5 B6 B6' B7 B8 B9].
  assert (forall u, frame_addr u -> frame_used u s2 = false -> frame_used u s1 = false) as Hun.
  { intros u Hu H. destruct (frame_used u s1) eqn:E; [|done]. by rewrite A3 in H. }
  split; auto; try congruence.
  - intros u j Hu Hus Hj Hn. rewrite elem_of_app in Hn. rewrite B5, A5 by auto. done.
  - intros q u Hq Hd. destruct (tree_frame _ _ B2 q u Hq Hd) as [Hu _]. destruct (B8 q u Hq Hd); auto.
  - intros t i [H|H]%elem_of_app; [auto|]. destruct (B9 t i H) as [Hf|(q & Hq & Hi & Hd & Habs)].
    + destruct Hf as [Hta Hf]. left. auto.
    + destruct (tree_frame _ _ A2 q t Hq Hd) as [Hta _]. destruct (A8 q t Hq Hd) as [Hd1|Hun1]; [|by left].
      destruct (decide ((t, i) ∈ ws)) as [Hin|Hin]; [auto|]. right. exists q. split_and!; try done; try apply Hi.
      destruct (tree_frame _ _ Ht1 q t Hq Hd1). by rewrite <- (A5 t i).
Qed.

Lemma free_count_bitmap s s' : frame_bitmap s = frame_bitmap s' -> pmm_free_count s = pmm_free_count s'.
Proof.
  intros H. rewrite !free_count_frames. apply count_ext. intros i _. unfold bitmap_test. by rewrite H.
Qed.

(** The outcome of allocating and zeroing a frame. *)
Lemma alloc_zero s s0 p :
  wf s -> pmm_alloc_frame s = (s0, p) -> p <> 0 ->
  let s' := zero_frame p s0 in
  wf s' /\ frame_addr p /\ frame_used p s = false /\ pmm_free_count s - 1 <= pmm_free_count s' /\
  frame_cow_cnt s' = frame_cow_cnt s /\
  (forall u, frame_addr u -> frame_used u s' = (u =? p) || frame_used u s) /\
  (forall j, 0 <= j < 512 -> entry s' p j = 0) /\
  (forall u j, frame_addr u -> u <> p -> 0 <= j < 512 -> entry s' u j = entry s u j).
Proof.
  intros Hwf Halloc Hp0. pose proof (alloc_frame_spec s Hwf) as Ha. pose proof (alloc_frame_counts s Hwf) as Hcnt.
  rewrite Halloc in Ha, Hcnt. destruct Hcnt as [_ H1]. specialize (H1 Hp0).
  destruct Ha as (Hw0 & Hm0 & Hcow0 & [(Hp & _)|(Hp & Hlo & Hfresh & Ht0)]); [exfalso; exact (Hp0 Hp)|]. cbv zeta.
  destruct (zero_frame_within s0 p) as (Hzb & Hzc & _ & Hzw). pose proof (zero_frame_word s0 p) as Hz.
  assert (forall f, bitmap_test f (zero_frame p s0) = bitmap_test f s0) as Hbt by (intros f; unfold bitmap_test; by rewrite Hzb).
  split; [destruct Hw0 as (? & ? & ? & ?); unfold wf; rewrite Hzb, Hzc; tauto|].
  split; [exact Hp|]. split; [exact Hfresh|]. split.
  { rewrite <- H1. rewrite !free_count_frames. apply Z.eq_le_incl, count_ext. intros i _. by rewrite Hbt. }
  split; [congruence|]. split; [|split; [exact Hz|]].
  - intros u Hu. unfold frame_used. rewrite Hbt, Ht0 by (by apply frame_addr_range). f_equal.
    destruct (Z.eqb_spec u p) as [->|Hne]; [apply Z.eqb_refl|]. apply Z.eqb_neq. intros He. apply Hne. symmetry.
    apply frame_addr_inj; assumption.
  - intros u j Hu Hne Hj. unfold entry, word.
    pose proof (Hzw (u + 8 * j) (slot_in_frame u p j Hu Hp Hj Hne)) as Hw. unfold word in Hw. by rewrite Hw, Hm0.
Qed.

Lemma alloc_fails s s0 : wf s -> pmm_alloc_frame s = (s0, 0) -> s0 = s /\ pmm_free_count s = 0.
Proof.
  intros Hwf Ha. pose proof (alloc_frame_spec s Hwf) as Hs. pose proof (alloc_frame_counts s Hwf) as Hc.
  rewrite Ha in Hs, Hc. destruct Hc as [Hc _]. destruct Hs as (_ & _ & _ & [(_ & H & _)|(_ & H & _)]).
  - split; [exact H|]. pose proof (count_range (fun f => negb (bitmap_test f s))
      (Z.to_nat (TOTAL_FRAMES - KERNEL_RESERVED_FRAMES)) KERNEL_RESERVED_FRAMES) as Hr.
    fold (free_frames s) in Hr. rewrite <- free_count_frames in Hr. lia.
  - unfold KERNEL_RESERVED_FRAMES, PAGE_SIZE in H. lia.
Qed.

Lemma next_table_spec s root path t i :
  wf s -> tree s root -> valid_path (path ++ [i]) -> descend s root 0 path = Some t ->
  (length path = 2%nat -> large (entry s t i) = false) ->
  let '(s', r) := next_table t i s in
  extends root (if present (entry s t i) then [] else [(t, i)]) s s' /\
  pmm_free_count s - 1 <= pmm_free_count s' /\
  match r with
  | None => s' = s /\ pmm_free_count s = 0
  | Some t' => descend s' root 0 (path ++ [i]) = Some t' /\
      (present (entry s t i) = true \/ forall j, 0 <= j < 512 -> entry s' t' j = 0)
  end.
Proof.
  intros Hwf Htree Hv Hat Hsmall. unfold next_table. destruct (present (entry s t i)) eqn:Epres.
  - split; [by apply extends_refl|]. split; [lia|]. split; [|by left].
    rewrite descend_snoc, Hat. simpl. unfold step. rewrite Epres. simpl.
    case_bool_decide as Hd; [rewrite Hsmall by done|]; done.
  - pose proof (proj1 (valid_snoc _ _) Hv) as (_ & _ & Hi).
    assert (valid_path path) as Hvp by (by apply (valid_prefix _ [i])).
    destruct (pmm_alloc_frame s) as [s0 p] eqn:Halloc. destruct (Z.eqb_spec p 0) as [->|Hp0].
    { destruct (alloc_fails s s0 Hwf Halloc) as [-> Hc]. split; [|split; [lia|split; [reflexivity|exact Hc]]].
      clear Halloc Hc.
      destruct (extends_refl root s Hwf Htree). split; auto. intros t' i' Hin.
      apply list_elem_of_singleton in Hin as [= -> ->]. right. by exists path. }
    destruct (alloc_zero s s0 p Hwf Halloc Hp0) as (Hw1 & Hp & Hfresh & Hcnt & Hcow & Hused1 & Hz1 & Hsame1).
    clear Halloc. generalize dependent (zero_frame p s0). intros s1 Hw1 Hcnt Hcow Hused1 Hz1 Hsame1. clear s0.
    destruct (tree_frame _ _ Htree path t Hvp Hat) as [Hta Htu].
    assert (t <> p) as Htp by congruence.
    assert (entry (set_entry t i (Z.lor p 7) s1) t i = Z.lor p 7) as Hset
      by (rewrite entry_set by assumption; by rewrite decide_True).
    assert (forall j, 0 <= j < 512 -> entry (set_entry t i (Z.lor p 7) s1) p j = 0) as Hzero.
    { intros j Hj. rewrite entry_set by assumption. rewrite decide_False by (intros [? _]; congruence). by apply Hz1. }
    assert (forall u j, frame_addr u -> frame_used u s = true -> 0 <= j < 512 -> ~ (u = t /\ j = i) ->
              entry (set_entry t i (Z.lor p 7) s1) u j = entry s u j) as Hsame.
    { intros u j Hu Hus Hj Hne. rewrite entry_set by assumption.
      rewrite decide_False by (intros [-> ->]; by apply Hne). apply Hsame1; congruence. }
    assert (wf (set_entry t i (Z.lor p 7) s1)) as Hw' by exact Hw1.
    assert (pmm_free_count s - 1 <= pmm_free_count (set_entry t i (Z.lor p 7) s1)) as Hcnt'
      by (rewrite (free_count_bitmap (set_entry t i (Z.lor p 7) s1) s1); [exact Hcnt|reflexivity]).
    assert (frame_cow_cnt (set_entry t i (Z.lor p 7) s1) = frame_cow_cnt s) as Hcow' by exact Hcow.
    assert (forall u, frame_addr u -> frame_used u (set_entry t i (Z.lor p 7) s1) = (u =? p) || frame_used u s) as Hused
      by exact Hused1.
    generalize dependent (set_entry t i (Z.lor p 7) s1). clear s1 Hw1 Hcnt Hcow Hused1 Hz1 Hsame1.
    intros s' Hset Hzero Hsame Hw' Hcnt Hcow Hused.
    split; [|split; [lia|split; [by apply (link_new s s' root path t i p)|by right]]].
    split; [done|by apply (link_tree s s' root path t i p)|..].
    + intros u Hu Hus. rewrite Hused, Hus by done. apply orb_true_r.
    + intros q u Hq Hd. apply (link_descend s s' root path t i p); try done. right. split; [|done]. intros ->.
      by rewrite (link_absent s root path t i Hat Epres []) in Hd.
    + intros u j Hu Hus Hj Hn. apply Hsame; try done. rewrite list_elem_of_singleton in Hn. intros [-> ->]. by apply Hn.
    + intros v. by apply (link_phys s s' root path t i p).
    + intros v. by apply (link_large s s' root path t i p).
    + done.
    + intros q u Hq Hd. apply (link_descend s s' root path t i p) in Hd; try done.
      destruct Hd as [[_ ->]|[_ Hd]]; auto.
    + intros t' i' Hin. apply list_elem_of_singleton in Hin as [= -> ->]. right. by exists path.
Qed.

(** ** Mapping a page *)

(** Writing a leaf entry changes the translation of that page only. *)
Lemma leaf_write s root v pt e :
  wf s -> tree s root -> descend s root 0 (table_path v) = Some pt ->
  let s' := set_entry pt (pt_idx v) e s in
  tree s' root /\
  (forall q, valid_path q -> descend s' root 0 q = descend s root 0 q) /\
  (forall u j, frame_addr u -> 0 <= j < 512 -> ~ (u = pt /\ j = pt_idx v) -> entry s' u j = entry s u j) /\
  forall v', vmm_get_phys root v' s' =
    if decide (table_path v' = table_path v /\ pt_idx v' = pt_idx v)
    then (if present e then Z.land e mask else 0) else vmm_get_phys root v' s.
Proof.
  intros Hwf Htree Hd s'. destruct (tree_frame _ _ Htree _ _ (valid_table v) Hd) as [Ha Hu].
  assert (forall u j, frame_addr u -> 0 <= j < 512 -> ~ (u = pt /\ j = pt_idx v) -> entry s' u j = entry s u j) as Hw.
  { intros u j Hua Hj Hne. unfold s'. rewrite entry_set by auto. apply decide_False.
    intros [H1 H2]. by apply Hne. }
  assert (forall q, valid_path q -> (length q <= 2)%nat -> forall u j, descend s root 0 q = Some u -> 0 <= j < 512 ->
            entry s' u j = entry s u j) as Hup.
  { intros q Hq Hlen u j Hdu Hj. destruct (tree_frame _ _ Htree _ _ Hq Hdu) as [Hua _]. apply Hw; [done|done|].
    intros [-> _]. pose proof (tree_inj _ _ Htree _ _ _ Hq (valid_table v) Hdu Hd) as ->. simpl in Hlen. lia. }
  assert (forall q, valid_path q -> descend s' root 0 q = descend s root 0 q) as Hdesc.
  { intros q. induction q as [|j q IH] using rev_ind; intros Hq; [done|]. pose proof (valid_prefix _ _ Hq) as Hq'.
    rewrite !descend_snoc, IH by done. destruct (descend s root 0 q) as [u|] eqn:E; simpl; [|done].
    apply valid_snoc in Hq as (Hl & _ & Hj). unfold step. by rewrite (Hup q) by done. }
  split; [|split; [done|split; [done|]]].
  - destruct Htree as [H1 H2 H3]. split; [done|..].
    + intros q u Hq Hdu. rewrite Hdesc in Hdu by done. by apply (H2 q).
    + intros q q' u Hq Hq' Hdu Hdu'. rewrite Hdesc in Hdu, Hdu' by done. eauto.
  - intros v'. pose proof (tree_root _ _ Htree) as Hr. rewrite !get_phys_walk by done. unfold large_entry.
    rewrite !Hdesc by auto.
    assert (match descend s root 0 (dir_path v') with
            | Some pd => entry s' pd (pd_idx v') = entry s pd (pd_idx v') | None => True end) as Hpd.
    { destruct (descend s root 0 (dir_path v')) as [pd|] eqn:E; [|done]. apply (Hup (dir_path v')); auto. }
    case_decide as Hc.
    + destruct Hc as [Htp Hpt]. rewrite Htp, Hd, Hpt.
      assert (descend s root 0 (dir_path v' ++ [pd_idx v']) = Some pt) as Hdd by (rewrite <- Hd, <- Htp; done).
      rewrite descend_snoc in Hdd. destruct (descend s root 0 (dir_path v')) as [pd|] eqn:E; simpl in *; [|done].
      rewrite Hpd. unfold step in Hdd. rewrite bool_decide_true in Hdd by done.
      destruct (large (entry s pd (pd_idx v'))); [by rewrite andb_false_r in Hdd|].
      replace (entry s' pt (pt_idx v)) with e; [done|]. unfold s'. rewrite entry_set by auto. by rewrite decide_True.
    + assert (match descend s root 0 (table_path v') with
              | Some u => entry s' u (pt_idx v') = entry s u (pt_idx v') | None => True end) as Hpt.
      { destruct (descend s root 0 (table_path v')) as [u|] eqn:E; [|done].
        destruct (tree_frame _ _ Htree _ _ (valid_table v') E) as [Hua _]. apply Hw; [done|auto|].
        intros [-> Hj]. apply Hc. split; [|done]. by eapply (tree_inj _ _ Htree). }
      destruct (descend s root 0 (dir_path v')), (descend s root 0 (table_path v')); simpl; by rewrite ?Hpd, ?Hpt.
Qed.

(** vmm_map_page() adds the missing tables, and then writes the leaf unless the
    frames ran out or a 2 MB page covers the address. *)
Lemma map_page_cases s root v phys flags :
  wf s -> tree s root ->
  exists s1 ws, extends root ws s s1 /\
    ((vmm_map_page root v phys flags s = s1 /\ (pmm_free_count s < 3 \/ large_entry s1 root v <> None)) \/
     (exists pt, descend s1 root 0 (table_path v) = Some pt /\ large_entry s1 root v = None /\
        vmm_map_page root v phys flags s = set_entry pt (pt_idx v) (Z.lor (Z.lor (Z.land phys mask) flags) 1) s1)).
Proof.
  intros Hwf Ht0. unfold vmm_map_page.
  pose proof (next_table_spec s root [] root (pml4_idx v) Hwf Ht0) as H1.
  destruct (next_table root (pml4_idx v) s) as [s1 r1].
  destruct H1 as (E1 & C1 & R1); [split; [simpl; lia|]; apply Forall_cons_2; [auto|apply Forall_nil_2]|done|done|].
  destruct r1 as [pdpt|]; [|destruct R1 as [-> Hc]; eexists _, _; split; [exact E1|]; left; split; [done|left; lia]].
  destruct R1 as [D1 _]. pose proof (ext_wf _ _ _ _ E1) as W1. pose proof (ext_tree _ _ _ _ E1) as T1.
  pose proof (next_table_spec s1 root [pml4_idx v] pdpt (pdpt_idx v) W1 T1) as H2.
  destruct (next_table pdpt (pdpt_idx v) s1) as [s2 r2].
  destruct H2 as (E2 & C2 & R2); [apply valid_dir|done|done|].
  pose proof (extends_trans _ _ _ _ _ _ Ht0 E1 E2) as E12.
  destruct r2 as [pd|]; [|destruct R2 as [-> Hc]; eexists _, _; split; [exact E12|]; left; split; [done|left; lia]].
  destruct R2 as [D2 _]. pose proof (ext_wf _ _ _ _ E2) as W2. pose proof (ext_tree _ _ _ _ E2) as T2.
  assert (large_entry s2 root v = if large (entry s2 pd (pd_idx v)) then Some (entry s2 pd (pd_idx v)) else None) as Hl2.
  { unfold large_entry. change (dir_path v) with ([pml4_idx v] ++ [pdpt_idx v]). by rewrite D2. }
  destruct (large (entry s2 pd (pd_idx v))) eqn:El.
  { exists s2, (((if present (entry s root (pml4_idx v)) then [] else [(root, pml4_idx v)])) ++
                (if present (entry s1 pdpt (pdpt_idx v)) then [] else [(pdpt, pdpt_idx v)])).
    split; [exact E12|]. left. split; [done|right]. by rewrite Hl2. }
  pose proof (next_table_spec s2 root (dir_path v) pd (pd_idx v) W2 T2) as H3.
  destruct (next_table pd (pd_idx v) s2) as [s3 r3].
  destruct H3 as (E3 & C3 & R3); [apply valid_table|done|done|].
  pose proof (extends_trans _ _ _ _ _ _ Ht0 E12 E3) as E123.
  destruct r3 as [pt|]; [|destruct R3 as [-> Hc]; eexists _, _; split; [exact E123|]; left; split; [done|left; lia]].
  destruct R3 as [D3 _]. eexists _, _. split; [exact E123|]. right. exists pt. split; [exact D3|]. split; [|done].
  unfold large_entry. rewrite (ext_reach _ _ _ _ E3 (dir_path v) pd) by (auto; exact D2). simpl.
  assert (descend s3 root 0 (dir_path v ++ [pd_idx v]) = Some pt) as D3' by exact D3.
  rewrite descend_snoc, (ext_reach _ _ _ _ E3 (dir_path v) pd) in D3' by (auto; exact D2). simpl in D3'.
  unfold step in D3'. rewrite bool_decide_true in D3' by done.
  destruct (large (entry s3 pd (pd_idx v))); [by rewrite andb_false_r in D3'|done].
Qed.

Lemma leaf_value phys flags : 0 <= flags < 4096 ->
  Z.land (Z.lor (Z.lor (Z.land phys mask) flags) 1) mask = Z.land phys mask /\
  present (Z.lor (Z.lor (Z.land phys mask) flags) 1) = true.
Proof.
  intros Hf. destruct (land_mask_aligned phys) as [Hr Ha]. split.
  - rewrite <- Z.lor_assoc. apply entry_addr; [done|done|].
    apply (bits_small 12); [lia|]. intros i Hi. rewrite Z.lor_spec, (bits_high 12 flags) by (done || lia).
    apply (bits_high 12); lia.
  - rewrite present_bit, Z.lor_spec. apply orb_true_r.
Qed.

(** The pages of two virtual addresses. *)
Definition same_page (v v' : Z) : Prop := table_path v' = table_path v /\ pt_idx v' = pt_idx v.
#[global] Instance same_page_dec v v' : Decision (same_page v v').
Proof. unfold same_page. apply _. Defined.

Lemma map_page_spec s root virt phys flags :
  wf s -> tree s root -> 0 <= flags < 4096 -> 3 <= pmm_free_count s ->
  let s' := vmm_map_page root virt phys flags s in
  tree s' root /\
  forall v, vmm_get_phys root v s' =
    match large_entry s root virt with
    | Some _ => vmm_get_phys root v s
    | None => if decide (same_page virt v) then Z.land phys mask else vmm_get_phys root v s
    end.
Proof.
  intros Hwf Ht Hf Hfree. cbv zeta.
  destruct (map_page_cases s root virt phys flags Hwf Ht) as (s1 & ws & E & Hcase).
  rewrite <- (ext_large _ _ _ _ E virt).
  destruct Hcase as [[-> [?|Hl]]|(pt & Hd & -> & ->)].
  - lia.
  - split; [apply E|]. intros v. rewrite (ext_phys _ _ _ _ E). by destruct (large_entry s1 root virt).
  - destruct (leaf_write s1 root virt pt (Z.lor (Z.lor (Z.land phys mask) flags) 1)
                (ext_wf _ _ _ _ E) (ext_tree _ _ _ _ E) Hd) as (T' & _ & _ & P').
    split; [exact T'|]. intros v. rewrite P', (ext_phys _ _ _ _ E).
    destruct (leaf_value phys flags Hf) as [-> ->]. unfold same_page. by repeat case_decide.
Qed.

(** C3: Mapping a page.  With three free frames, vmm_map_page() on a well-formed
    address space keeps it well formed and changes the translation of exactly
    the page of [virt], to the frame of [phys]; if a 2 MB page covers [virt] no
    translation changes. *)
Theorem vmm_map_page_spec s root virt phys flags :
  wf s -> tree s root -> 0 <= flags < 4096 -> 3 <= pmm_free_count s ->
  let s' := vmm_map_page root virt phys flags s in
  tree s' root /\
  forall v, vmm_get_phys root v s' =
    match large_entry s root virt with
    | Some _ => vmm_get_phys root v s
    | None => if decide (same_page virt v) then Z.land phys mask else vmm_get_phys root v s
    end.
Proof. apply map_page_spec. Qed.

(** Unmapping a page: vmm_unmap_page() keeps the address space well formed,
    makes the page of [virt] untranslated (unless a 2 MB page covers it) and
    changes no other translation. *)
Theorem vmm_unmap_page_spec s root virt :
  wf s -> tree s root ->
  let s' := vmm_unmap_page root virt s in
  tree s' root /\
  forall v, vmm_get_phys root v s' =
    match large_entry s root virt with
    | Some _ => vmm_get_phys root v s
    | None => if decide (same_page virt v) then 0 else vmm_get_phys root v s
    end.
Proof.
  intros Hwf Ht. cbv zeta. pose proof (tree_root _ _ Ht) as Hr.
  assert (vmm_unmap_page root virt s =
            match large_entry s root virt, descend s root 0 (table_path virt) with
            | None, Some pt => set_entry pt (pt_idx virt) 0 s | _, _ => s end) as ->.
  { unfold vmm_unmap_page, large_entry, table_path, dir_path. rewrite (proj2 (Z.eqb_neq root 0)) by done.
    cbn [descend]. unfold step. rewrite !bool_decide_false by lia. rewrite bool_decide_true by done. cbv zeta.
    unfold mbind, option_bind. cbn [andb negb]. rewrite !andb_true_r.
    destruct (present (entry s root (pml4_idx virt))); [|done].
    destruct (present (entry s _ (pdpt_idx virt))); [|done].
    set (pd := Z.land _ mask). destruct (large (entry s pd (pd_idx virt))) eqn:El; cbn [andb negb]; rewrite ?El.
    - cbn [negb]. by rewrite andb_false_r.
    - cbn [negb]. rewrite andb_true_r. destruct (present (entry s pd (pd_idx virt))); done. }
  pose proof (get_phys_walk s root virt Hr) as Hwalk.
  destruct (large_entry s root virt) as [e|] eqn:El; [done|].
  destruct (descend s root 0 (table_path virt)) as [pt|] eqn:Ed.
  - destruct (leaf_write s root virt pt 0 Hwf Ht Ed) as (T' & _ & _ & P'). split; [exact T'|]. intros v. rewrite P'.
    unfold same_page. by repeat case_decide.
  - split; [done|]. intros v. case_decide as Hsp; [|done]. destruct Hsp as [Htp _]. rewrite get_phys_walk by done.
    rewrite Htp, Ed. assert (dir_path v = dir_path virt /\ pd_idx v = pd_idx virt) as [Hdp Hpd].
    { unfold dir_path, table_path in *. by injection Htp as -> -> ->. }
    unfold large_entry in *. by rewrite Hdp, Hpd, El.
Qed.

(** ** Isolation *)

(** Two address spaces share at most page directories made of 2 MB pages only
    (the boot directories for 1-4 GB). *)
Definition separate (s : State) (r1 r2 : Z) : Prop :=
  forall q q' u, valid_path q -> valid_path q' -> descend s r1 0 q = Some u -> descend s r2 0 q' = Some u ->
    length q = 2%nat /\ forall j, 0 <= j < 512 -> present (entry s u j) = true /\ large (entry s u j) = true.

(** Mapping in [r1] leaves the tables of [r2] alone. *)
Lemma map_page_others s r1 r2 virt phys flags :
  wf s -> tree s r1 -> tree s r2 -> separate s r1 r2 -> same_tables s (vmm_map_page r1 virt phys flags s) r2.
Proof.
  intros Hwf T1 T2 Hsep. destruct (map_page_cases s r1 virt phys flags Hwf T1) as (s1 & ws & E & Hcase).
  assert (same_tables s s1 r2) as Hs1.
  { intros q u j Hq Hj Hd. destruct (tree_frame _ _ T2 q u Hq Hd) as [Ha Hu].
    apply (ext_words _ _ _ _ E); [done|done|done|]. intros Hin.
    destruct (ext_slots _ _ _ _ E u j Hin) as [[_ Hun]|(q' & Hq' & _ & Hd' & Habs)]; [congruence|].
    destruct (Hsep q' q u Hq' Hq Hd' Hd) as [_ Hall]. destruct (Hall j Hj). congruence. }
  destruct Hcase as [[-> _]|(pt & Hd & _ & ->)]; [done|].
  intros q u j Hq Hj Hdu. rewrite <- (Hs1 q u j Hq Hj Hdu).
  destruct (tree_frame _ _ T2 q u Hq Hdu) as [Ha Hu].
  destruct (leaf_write s1 r1 virt pt (Z.lor (Z.lor (Z.land phys mask) flags) 1)
              (ext_wf _ _ _ _ E) (ext_tree _ _ _ _ E) Hd) as (_ & _ & W & _).
  apply W; [done|done|]. intros [-> _].
  destruct (ext_new _ _ _ _ E _ _ (valid_table virt) Hd) as [Hd1|Hun]; [|congruence].
  destruct (Hsep _ _ _ (valid_table virt) Hq Hd1 Hdu) as [Hlen _]. done.
Qed.

Lemma map_page_used s r1 virt phys flags u :
  wf s -> tree s r1 -> frame_addr u -> frame_used u s = true -> frame_used u (vmm_map_page r1 virt phys flags s) = true.
Proof.
  intros Hwf T1 Ha Hu. destruct (map_page_cases s r1 virt phys flags Hwf T1) as (s1 & ws & E & Hcase).
  pose proof (ext_used _ _ _ _ E u Ha Hu) as H. by destruct Hcase as [[-> _]|(pt & Hd & _ & ->)].
Qed.

Lemma map_page_wf s r1 virt phys flags : wf s -> tree s r1 -> wf (vmm_map_page r1 virt phys flags s).
Proof.
  intros Hwf T1. destruct (map_page_cases s r1 virt phys flags Hwf T1) as (s1 & ws & E & Hcase).
  pose proof (ext_wf _ _ _ _ E) as H. by destruct Hcase as [[-> _]|(pt & Hd & _ & ->)].
Qed.

Lemma map_page_tree s r1 virt phys flags : wf s -> tree s r1 -> tree (vmm_map_page r1 virt phys flags s) r1.
Proof.
  intros Hwf T1. destruct (map_page_cases s r1 virt phys flags Hwf T1) as (s1 & ws & E & Hcase).
  destruct Hcase as [[-> _]|(pt & Hd & _ & ->)]; [apply E|]. by apply leaf_write; [apply E|apply E|].
Qed.

(** Separation is kept by mapping. *)
Lemma map_page_separate s r1 r2 virt phys flags :
  wf s -> tree s r1 -> tree s r2 -> separate s r1 r2 -> separate (vmm_map_page r1 virt phys flags s) r1 r2.
Proof.
  intros Hwf T1 T2 Hsep q q' u Hq Hq' Hd Hd'. pose proof (map_page_others s r1 r2 virt phys flags Hwf T1 T2 Hsep) as Hst.
  rewrite (descend_same s) in Hd' by done. destruct (tree_frame _ _ T2 q' u Hq' Hd') as [_ Hu].
  assert (descend s r1 0 q = Some u) as Hd1.
  { destruct (map_page_cases s r1 virt phys flags Hwf T1) as (s1 & ws & E & Hcase).
    assert (descend s1 r1 0 q = Some u) as H1.
    { destruct Hcase as [[Heq _]|(pt & Hpt & _ & Heq)]; [congruence|]. rewrite Heq in Hd.
      destruct (leaf_write s1 r1 virt pt (Z.lor (Z.lor (Z.land phys mask) flags) 1)
              (ext_wf _ _ _ _ E) (ext_tree _ _ _ _ E) Hpt) as (_ & D & _). by rewrite D in Hd. }
    destruct (ext_new _ _ _ _ E q u Hq H1); [done|congruence]. }
  destruct (Hsep q q' u Hq Hq' Hd1 Hd') as [Hlen Hall]. split; [done|]. intros j Hj.
  rewrite (Hst q' u j) by done. by apply Hall.
Qed.

(** Mapping a page in one address space never changes a translation in
    another, whatever the address, the frame and the flags, and whether or not
    the frames run out. *)
Theorem vmm_map_page_isolated s r1 r2 virt phys flags v :
  wf s -> tree s r1 -> tree s r2 -> separate s r1 r2 ->
  vmm_get_phys r2 v (vmm_map_page r1 virt phys flags s) = vmm_get_phys r2 v s.
Proof. intros Hwf T1 T2 Hsep. apply get_phys_same; [by apply map_page_others|apply T2]. Qed.

(** ** New page directories *)

(** What kernel_entry.asm leaves: the page directories of 1-4 GB consist of 2 MB
    pages; pmm_init() has reserved their frames. *)
Definition boot_dirs (s : State) : Prop :=
  forall b, b ∈ [0x4000; 0x5000; 0x6000] -> frame_used b s = true /\
    forall j, 0 <= j < 512 -> present (entry s b j) = true /\ large (entry s b j) = true.

Definition pd_low_entry (j : Z) : Z :=
  if j =? 0 then 0x87 else if j =? 1 then 0x200087 else if j =? 2 then 0x400087 else if j =? 3 then 0x600087
  else if j =? 32 then 0x4000083 else if j =? 33 then 0x4200083 else if j =? 34 then 0x4400083
  else if j =? 35 then 0x4600083 else if j =? 36 then 0x4800083 else if j =? 37 then 0x4A00083 else 0.

Lemma fill_pd_low_entry pd s u j :
  frame_addr pd -> frame_addr u -> 0 <= j < 512 -> (forall k, 0 <= k < 512 -> entry s pd k = 0) ->
  entry (fill_pd_low pd s) u j = if decide (u = pd) then pd_low_entry j else entry s u j.
Proof.
  intros Hp Hu Hj Hz. unfold fill_pd_low. rewrite !entry_set_eqb by (done || lia).
  destruct (decide (u = pd)) as [->|Hc].
  - rewrite Z.eqb_refl, Hz by done. cbn [andb]. unfold pd_low_entry.
    rewrite !(Z.eqb_sym _ j).
    destruct (Z.eqb_spec j 0) as [->|]; [reflexivity|]. destruct (Z.eqb_spec j 1) as [->|]; [reflexivity|].
    destruct (Z.eqb_spec j 2) as [->|]; [reflexivity|]. destruct (Z.eqb_spec j 3) as [->|]; [reflexivity|].
    destruct (Z.eqb_spec j 32) as [->|]; [reflexivity|]. destruct (Z.eqb_spec j 33) as [->|]; [reflexivity|].
    destruct (Z.eqb_spec j 34) as [->|]; [reflexivity|]. destruct (Z.eqb_spec j 35) as [->|]; [reflexivity|].
    destruct (Z.eqb_spec j 36) as [->|]; [reflexivity|]. destruct (Z.eqb_spec j 37) as [->|]; reflexivity.
  - by rewrite (proj2 (Z.eqb_neq pd u)) by done.
Qed.

Lemma pd_low_entry_kinds j : pd_low_entry j = 0 \/ (present (pd_low_entry j) = true /\ large (pd_low_entry j) = true).
Proof. unfold pd_low_entry. repeat (case_if; [right; split; reflexivity|]). by left. Qed.


(** The tables of a new page directory. *)
Definition new_tables (pml4 pdpt pd_low : Z) : list (list Z * Z) :=
  [([], pml4); ([0], pdpt); ([0; 0], pd_low); ([0; 1], 0x4000); ([0; 2], 0x5000); ([0; 3], 0x6000)].

Definition pdpt_entry (pd_low j : Z) : Z :=
  if j =? 3 then 0x6003 else if j =? 2 then 0x5003 else if j =? 1 then 0x4003 else if j =? 0 then Z.lor pd_low 7 else 0.

Section new_dir.
Context (s : State) (pml4 pdpt pd_low : Z).
Context (A1 : frame_addr pml4) (A2 : frame_addr pdpt) (A3 : frame_addr pd_low).
Context (P1 : forall j, 0 <= j < 512 -> entry s pml4 j = if j =? 0 then Z.lor pdpt 7 else 0).
Context (P2 : forall j, 0 <= j < 512 -> entry s pdpt j = pdpt_entry pd_low j).
Context (P3 : forall j, 0 <= j < 512 -> entry s pd_low j = pd_low_entry j).
Context (Hboot : boot_dirs s).

Lemma new_step0 j : 0 <= j < 512 -> step s 0 pml4 j = if j =? 0 then Some pdpt else None.
Proof.
  intros Hj. unfold step. rewrite P1 by done. destruct (table_entry pdpt A2) as (H1 & H2 & _).
  rewrite bool_decide_false by lia. destruct (Z.eqb_spec j 0); [by rewrite H1, H2|done].
Qed.

Lemma new_step1 j : 0 <= j < 512 ->
  step s 1 pdpt j = if j =? 0 then Some pd_low else if j =? 1 then Some 0x4000 else if j =? 2 then Some 0x5000
                    else if j =? 3 then Some 0x6000 else None.
Proof.
  intros Hj. unfold step. rewrite P2 by done. destruct (table_entry pd_low A3) as (H1 & H2 & _).
  rewrite bool_decide_false by lia. unfold pdpt_entry.
  destruct (Z.eqb_spec j 0) as [->|]; [simpl; by rewrite H1, H2|].
  destruct (Z.eqb_spec j 1) as [->|]; [reflexivity|]. destruct (Z.eqb_spec j 2) as [->|]; [reflexivity|].
  by destruct (Z.eqb_spec j 3) as [->|].
Qed.

Lemma large_step2 u j : 0 <= j < 512 ->
  (entry s u j = 0 \/ (present (entry s u j) = true /\ large (entry s u j) = true)) -> step s 2 u j = None.
Proof. intros Hj [H|[H1 H2]]; unfold step; [by rewrite H|]. rewrite H1, H2. by rewrite bool_decide_true. Qed.

Lemma new_step2 u j : 0 <= j < 512 -> u ∈ [pd_low; 0x4000; 0x5000; 0x6000] -> step s 2 u j = None.
Proof.
  intros Hj Hu. apply large_step2; [done|]. apply elem_of_cons in Hu as [->|Hu].
  - rewrite P3 by done. apply pd_low_entry_kinds.
  - right. by apply (proj2 (Hboot u Hu)).
Qed.

Lemma new_descend q u : valid_path q -> descend s pml4 0 q = Some u -> (q, u) ∈ new_tables pml4 pdpt pd_low.
Proof.
  intros [Hlen Hq] Hd. unfold new_tables. destruct q as [|i q]; simpl in Hd; [simplify_eq; set_solver|].
  apply Forall_cons_1 in Hq as [Hi Hq]. rewrite new_step0 in Hd by done.
  destruct (Z.eqb_spec i 0) as [->|]; simpl in Hd; [|done].
  destruct q as [|j q]; simpl in Hd; [simplify_eq; set_solver|].
  apply Forall_cons_1 in Hq as [Hj Hq]. rewrite new_step1 in Hd by done.
  assert (exists w, w ∈ [pd_low; 0x4000; 0x5000; 0x6000] /\ ([0; j], w) ∈ new_tables pml4 pdpt pd_low /\
            descend s w 2 q = Some u) as (w & Hw & Hin & Hd').
  { unfold new_tables. destruct (Z.eqb_spec j 0) as [->|]; [exists pd_low; set_solver|].
    destruct (Z.eqb_spec j 1) as [->|]; [exists 0x4000; set_solver|].
    destruct (Z.eqb_spec j 2) as [->|]; [exists 0x5000; set_solver|].
    destruct (Z.eqb_spec j 3) as [->|]; [exists 0x6000; set_solver|done]. }
  destruct q as [|k q]; [simpl in Hd'; simplify_eq; done|].
  apply Forall_cons_1 in Hq as [Hk _]. simpl in Hd'. by rewrite new_step2 in Hd'.
Qed.

Lemma new_tree :
  pml4 <> pdpt -> pml4 <> pd_low -> pdpt <> pd_low ->
  RESERVED_END <= pml4 -> RESERVED_END <= pdpt -> RESERVED_END <= pd_low ->
  frame_used pml4 s = true -> frame_used pdpt s = true -> frame_used pd_low s = true -> tree s pml4.
Proof.
  intros N1 N2 N3 L1 L2 L3 U1 U2 U3. change RESERVED_END with 0x800000 in *. split; [lia|..].
  - intros q u Hq Hd%new_descend; [|done]. unfold new_tables in Hd.
    assert (forall b, b ∈ [0x4000; 0x5000; 0x6000] -> frame_addr b /\ frame_used b s = true) as Hb.
    { intros b Hb. split; [|by apply Hboot].
      repeat (apply elem_of_cons in Hb as [->|Hb]; [split; [reflexivity|vm_compute; split; congruence]|]).
      by apply not_elem_of_nil in Hb. }
    rewrite !elem_of_cons in Hd.
    destruct Hd as [[= -> ->]|[[= -> ->]|[[= -> ->]|[[= -> ->]|[[= -> ->]|[[= -> ->]|Hd]]]]]];
      try done; try (apply Hb; set_solver).
  - intros q q' u Hq Hq' Hd%new_descend Hd'%new_descend; [|done|done]. unfold new_tables in *.
    rewrite !elem_of_cons in Hd, Hd'.
    destruct Hd as [E|[E|[E|[E|[E|[E|Hd]]]]]]; try (by apply not_elem_of_nil in Hd);
      destruct Hd' as [E'|[E'|[E'|[E'|[E'|[E'|Hd']]]]]]; try (by apply not_elem_of_nil in Hd');
      injection E as Eq Eu; injection E' as Eq' Eu'; rewrite Eu in Eu'; first [congruence | exfalso; lia].
Qed.
End new_dir.

Lemma alloc_above s s0 p : wf s -> pmm_alloc_frame s = (s0, p) -> p <> 0 -> RESERVED_END <= p.
Proof.
  intros Hwf Ha Hp. pose proof (alloc_frame_spec s Hwf) as H. rewrite Ha in H.
  destruct H as (_ & _ & _ & [(H & _)|(_ & H & _)]); [exfalso; exact (Hp H)|exact H].
Qed.

Lemma alloc_succeeds s : wf s -> 0 < pmm_free_count s -> exists s0 p, pmm_alloc_frame s = (s0, p) /\ p <> 0.
Proof.
  intros Hwf Hc. pose proof (alloc_frame_counts s Hwf) as H. destruct (pmm_alloc_frame s) as [s0 p]. exists s0, p.
  split; [reflexivity|]. destruct H as [[_ H] _]. exact (H Hc).
Qed.

(** The three frames of a new page directory, zeroed and distinct. *)
Lemma three_frames s :
  wf s -> 3 <= pmm_free_count s ->
  exists s3 pml4 pdpt pd_low,
    (forall (f : State -> Z -> Z -> Z -> State * Z),
       (let '(s, a) := pmm_alloc_frame s in if a =? 0 then (s, 0) else
        let s := zero_frame a s in let '(s, b) := pmm_alloc_frame s in if b =? 0 then (pmm_free_frame a s, 0) else
        let s := zero_frame b s in let '(s, c) := pmm_alloc_frame s in
        if c =? 0 then (pmm_free_frame a (pmm_free_frame b s), 0) else f (zero_frame c s) a b c) = f s3 pml4 pdpt pd_low) /\
    wf s3 /\ frame_addr pml4 /\ frame_addr pdpt /\ frame_addr pd_low /\
    RESERVED_END <= pml4 /\ RESERVED_END <= pdpt /\ RESERVED_END <= pd_low /\
    pml4 <> pdpt /\ pml4 <> pd_low /\ pdpt <> pd_low /\
    frame_used pml4 s = false /\ frame_used pdpt s = false /\ frame_used pd_low s = false /\
    (forall u, frame_addr u -> frame_used u s3 = (u =? pml4) || (u =? pdpt) || (u =? pd_low) || frame_used u s) /\
    (forall u j, u ∈ [pml4; pdpt; pd_low] -> 0 <= j < 512 -> entry s3 u j = 0) /\
    (forall u j, frame_addr u -> u ∉ [pml4; pdpt; pd_low] -> 0 <= j < 512 -> entry s3 u j = entry s u j).
Proof.
  intros Hwf Hc. destruct (alloc_succeeds s Hwf) as (s0 & a & Ha & Na); [lia|].
  pose proof (alloc_above s s0 a Hwf Ha Na) as La.
  destruct (alloc_zero s s0 a Hwf Ha Na) as (W1 & Aa & Fa & C1 & _ & U1 & Z1 & S1).
  destruct (alloc_succeeds (zero_frame a s0) W1) as (s1 & b & Hb & Nb); [lia|].
  pose proof (alloc_above _ s1 b W1 Hb Nb) as Lb.
  destruct (alloc_zero _ s1 b W1 Hb Nb) as (W2 & Ab & Fb & C2 & _ & U2 & Z2 & S2).
  destruct (alloc_succeeds (zero_frame b s1) W2) as (s2 & c & Hd & Nc); [lia|].
  pose proof (alloc_above _ s2 c W2 Hd Nc) as Lc.
  destruct (alloc_zero _ s2 c W2 Hd Nc) as (W3 & Ac & Fc & C3 & _ & U3 & Z3 & S3).
  exists (zero_frame c s2), a, b, c.
  split.
  { intros f. cbv zeta. rewrite Ha, (proj2 (Z.eqb_neq a 0) Na), Hb, (proj2 (Z.eqb_neq b 0) Nb), Hd, (proj2 (Z.eqb_neq c 0) Nc).
    reflexivity. }
  clear Ha Hb Hd C1 C2 C3.
  generalize dependent (zero_frame c s2). generalize dependent (zero_frame b s1). generalize dependent (zero_frame a s0).
  intros t1 W1 U1 Z1 S1 Fb t2 W2 U2 Z2 S2 Fc t3 W3 U3 Z3 S3. clear s0 s1 s2.
  rewrite U1 in Fb by done. apply orb_false_elim in Fb as [Nba Fb]. apply Z.eqb_neq in Nba.
  rewrite U2, U1 in Fc by done. apply orb_false_elim in Fc as [Ncb Fc]. apply orb_false_elim in Fc as [Nca Fc].
  apply Z.eqb_neq in Nca, Ncb.
  split_and!; auto.
  - intros u Hu. rewrite U3, U2, U1 by done. destruct (u =? a), (u =? b), (u =? c); done.
  - intros u j Hu Hj. rewrite !elem_of_cons in Hu. destruct Hu as [->|[->|[->|Hu]]]; [..|by apply not_elem_of_nil in Hu].
    + rewrite S3, S2 by auto. auto.
    + rewrite S3 by auto. auto.
    + auto.
  - intros u j Hu Hn Hj. rewrite !not_elem_of_cons in Hn. destruct Hn as (? & ? & ? & _). rewrite S3, S2, S1 by done. done.
Qed.

(** What vmm_create_page_dir() writes. *)
Lemma create_tables s :
  wf s -> 3 <= pmm_free_count s ->
  exists s' pml4 pdpt pd, vmm_create_page_dir s = (s', pml4) /\
    frame_addr pml4 /\ frame_addr pdpt /\ frame_addr pd /\
    RESERVED_END <= pml4 /\ RESERVED_END <= pdpt /\ RESERVED_END <= pd /\
    pml4 <> pdpt /\ pml4 <> pd /\ pdpt <> pd /\
    frame_used pml4 s = false /\ frame_used pdpt s = false /\ frame_used pd s = false /\
    (forall u, frame_addr u -> frame_used u s' = (u =? pml4) || (u =? pdpt) || (u =? pd) || frame_used u s) /\
    (forall u j, frame_addr u -> 0 <= j < 512 -> entry s' u j =
       if u =? pd then pd_low_entry j else if u =? pdpt then pdpt_entry pd j
       else if u =? pml4 then (if j =? 0 then Z.lor pdpt 7 else 0) else entry s u j).
Proof.
  intros Hwf Hc. destruct (three_frames s Hwf Hc) as
    (s3 & pml4 & pdpt & pd & Hrun & W3 & A1 & A2 & A3 & L1 & L2 & L3 & N12 & N13 & N23 & F1 & F2 & F3 & HU & HZ & HS).
  pose (fin := fun s a b c => (fill_pd_low c (set_entry b 3 0x6003 (set_entry b 2 0x5003 (set_entry b 1 0x4003
                   (set_entry b 0 (Z.lor c 7) (set_entry a 0 (Z.lor b 7) s))))), a)).
  assert (vmm_create_page_dir s = fin s3 pml4 pdpt pd) as -> by exact (Hrun fin). clear Hrun. unfold fin. clear fin.
  assert (forall u j, frame_addr u -> 0 <= j < 512 ->
    entry (fill_pd_low pd (set_entry pdpt 3 0x6003 (set_entry pdpt 2 0x5003 (set_entry pdpt 1 0x4003
      (set_entry pdpt 0 (Z.lor pd 7) (set_entry pml4 0 (Z.lor pdpt 7) s3)))))) u j =
    if u =? pd then pd_low_entry j else if u =? pdpt then pdpt_entry pd j
    else if u =? pml4 then (if j =? 0 then Z.lor pdpt 7 else 0) else entry s u j) as HE.
  { intros u j Hu Hj. rewrite fill_pd_low_entry; [..|done|done|done|].
    2:{ intros k Hk. rewrite !entry_set_eqb by (done || lia).
        rewrite (proj2 (Z.eqb_neq pdpt pd)), (proj2 (Z.eqb_neq pml4 pd)) by done. apply HZ; [set_solver|done]. }
    destruct (Z.eqb_spec u pd) as [->|Hn]; [by rewrite decide_True|]. rewrite decide_False by done.
    rewrite !entry_set_eqb by (done || lia). rewrite !(Z.eqb_sym _ u), !(Z.eqb_sym _ j).
    destruct (Z.eqb_spec u pdpt) as [->|Hn2].
    - rewrite (proj2 (Z.eqb_neq pdpt pml4)) by done. cbn [andb]. unfold pdpt_entry.
      rewrite HZ by (done || set_solver). done.
    - cbn [andb]. destruct (Z.eqb_spec u pml4) as [->|Hn3]; cbn [andb]; [rewrite HZ by (done || set_solver); done|].
      apply HS; [done|set_solver|done]. }
  assert (forall u, frame_addr u -> frame_used u (fill_pd_low pd (set_entry pdpt 3 0x6003 (set_entry pdpt 2 0x5003
      (set_entry pdpt 1 0x4003 (set_entry pdpt 0 (Z.lor pd 7) (set_entry pml4 0 (Z.lor pdpt 7) s3)))))) =
    (u =? pml4) || (u =? pdpt) || (u =? pd) || frame_used u s) as HU' by exact HU.
  eexists _, pml4, pdpt, pd. split; [reflexivity|]. split_and!; assumption.
Qed.

Lemma low_idx v : 0 <= v < 0x40000000 ->
  pml4_idx v = 0 /\ pdpt_idx v = 0 /\ pd_idx v = v / 0x200000 /\ Z.land v 0x1FFFFF = v mod 0x200000.
Proof.
  intros Hv. unfold pml4_idx, pdpt_idx, pd_idx. change 0x1FF with (Z.ones 9). change 0x1FFFFF with (Z.ones 21).
  rewrite !Z.land_ones, !Z.shiftr_div_pow2 by lia. change (2 ^ 39) with 0x8000000000.
  change (2 ^ 30) with 0x40000000. change (2 ^ 21) with 0x200000. change (2 ^ 9) with 512.
  rewrite (Z.div_small v 0x8000000000), (Z.div_small v 0x40000000) by lia. split_and!; try done.
  apply Z.mod_small. split; [apply Z.div_pos; lia|apply Z.div_lt_upper_bound; lia].
Qed.

Lemma new_dir_phys s' pml4 pdpt pd v :
  frame_addr pdpt -> frame_addr pd -> pml4 <> 0 ->
  (forall j, 0 <= j < 512 -> entry s' pml4 j = if j =? 0 then Z.lor pdpt 7 else 0) ->
  (forall j, 0 <= j < 512 -> entry s' pdpt j = pdpt_entry pd j) ->
  (forall j, 0 <= j < 512 -> entry s' pd j = pd_low_entry j) ->
  0 <= v < 0x40000000 ->
  vmm_get_phys pml4 v s' = if (v <? 0x800000) || ((0x4000000 <=? v) && (v <? 0x4C00000)) then v else 0.
Proof.
  intros A2 A3 Hr P1 P2 P3 Hv. destruct (low_idx v Hv) as (I4 & I3 & I2 & Il). rewrite get_phys_walk by done.
  assert (0 <= pd_idx v < 512) as Hi by auto.
  assert (descend s' pml4 0 (dir_path v) = Some pd) as Hdir.
  { unfold dir_path. rewrite I4, I3. cbn [descend]. rewrite (new_step0 s' pml4 pdpt) by done. simpl.
    by rewrite (new_step1 s' pdpt pd). }
  assert (descend s' pml4 0 (table_path v) = None) as Htab.
  { change (table_path v) with (dir_path v ++ [pd_idx v]). rewrite descend_snoc, Hdir. simpl.
    apply large_step2; [done|]. rewrite P3 by done. apply pd_low_entry_kinds. }
  unfold large_entry. rewrite Hdir, Htab. cbn [mbind option_bind]. rewrite P3, I2 by done. rewrite Il.
  pose proof (Z.div_mod v 0x200000 ltac:(lia)) as Hdm. pose proof (Z.mod_pos_bound v 0x200000 ltac:(lia)) as Hm.
  rewrite I2 in Hi. set (k := v / 0x200000) in *. set (m := v mod 0x200000) in *. clear I2 Il. clearbody k m.
  assert (forall b f, pd_low_entry k = b -> large b = true -> present b = true ->
    Z.land b (u64 (Z.lnot 0x1FFFFF)) = f -> f = k * 0x200000 ->
    match (if large (pd_low_entry k) then Some (pd_low_entry k) else None) with
    | Some e => if present e then u64 (Z.land e (u64 (Z.lnot 0x1FFFFF)) + m) else 0 | None => 0 end = v) as Hbig.
  { intros b f -> -> -> -> ->. rewrite u64_small by lia. lia. }
  unfold pd_low_entry in Hbig.
  destruct ((v <? 0x800000) || ((0x4000000 <=? v) && (v <? 0x4C00000))) eqn:E.
  - assert (k = 0 \/ k = 1 \/ k = 2 \/ k = 3 \/ k = 32 \/ k = 33 \/ k = 34 \/ k = 35 \/ k = 36 \/ k = 37) as Hk by lia.
    repeat destruct Hk as [Hk|Hk]; subst k; eapply Hbig; reflexivity.
  - assert (k <> 0 /\ k <> 1 /\ k <> 2 /\ k <> 3 /\ k <> 32 /\ k <> 33 /\ k <> 34 /\ k <> 35 /\ k <> 36 /\ k <> 37) as Hk by lia.
    unfold pd_low_entry. repeat (rewrite (proj2 (Z.eqb_neq k _)) by lia). done.
Qed.

Lemma create_page_dir_spec s :
  wf s -> 3 <= pmm_free_count s -> boot_dirs s ->
  let '(s', root) := vmm_create_page_dir s in
  tree s' root /\
  (forall v, 0 <= v < 0x40000000 ->
     vmm_get_phys root v s' = if (v <? 0x800000) || ((0x4000000 <=? v) && (v <? 0x4C00000)) then v else 0) /\
  (forall r, tree s r -> tree s' r /\ (forall v, vmm_get_phys r v s' = vmm_get_phys r v s) /\ separate s' root r).
Proof.
  intros Hwf Hc Hboot. destruct (create_tables s Hwf Hc) as
    (s' & pml4 & pdpt & pd & -> & A1 & A2 & A3 & L1 & L2 & L3 & N12 & N13 & N23 & F1 & F2 & F3 & HU & HE).
  assert (forall j, 0 <= j < 512 -> entry s' pml4 j = if j =? 0 then Z.lor pdpt 7 else 0) as P1.
  { intros j Hj. rewrite HE, (proj2 (Z.eqb_neq pml4 pd)), (proj2 (Z.eqb_neq pml4 pdpt)), Z.eqb_refl by done. done. }
  assert (forall j, 0 <= j < 512 -> entry s' pdpt j = pdpt_entry pd j) as P2.
  { intros j Hj. rewrite HE, (proj2 (Z.eqb_neq pdpt pd)), Z.eqb_refl by done. done. }
  assert (forall j, 0 <= j < 512 -> entry s' pd j = pd_low_entry j) as P3 by (intros j Hj; rewrite HE, Z.eqb_refl by done; done).
  assert (forall u j, frame_addr u -> frame_used u s = true -> 0 <= j < 512 -> entry s' u j = entry s u j) as Hold.
  { intros u j Hu Hus Hj. rewrite HE, !(proj2 (Z.eqb_neq u _)) by (done || congruence). done. }
  assert (boot_dirs s') as Hboot'.
  { intros b Hb. destruct (Hboot b Hb) as [Hu He].
    assert (frame_addr b) as Ha by (rewrite !elem_of_cons in Hb;
      destruct Hb as [->|[->|[->|Hb]]]; [split; [reflexivity|vm_compute; split; congruence]..|by apply not_elem_of_nil in Hb]).
    split; [rewrite HU, Hu by done; apply orb_true_r|]. intros j Hj. rewrite Hold by done. by apply He. }
  assert (pml4 <> 0) as Hr by (change RESERVED_END with 0x800000 in L1; lia).
  split; [|split].
  - apply (new_tree s' pml4 pdpt pd); try assumption; rewrite HU, Z.eqb_refl by assumption; by rewrite ?orb_true_r.
  - intros v Hv. by apply (new_dir_phys s' pml4 pdpt pd).
  - intros r Tr. assert (same_tables s s' r) as Hst.
    { intros q u j Hq Hj Hd. destruct (tree_frame _ _ Tr q u Hq Hd). by apply Hold. }
    split; [|split].
    + apply (tree_same s); [done| |done]. intros u Hu Hus. rewrite HU, Hus by done. apply orb_true_r.
    + intros v. apply get_phys_same; [done|apply Tr].
    + intros q q' u Hq Hq' Hd Hd'. rewrite (descend_same s) in Hd' by done.
      destruct (tree_frame _ _ Tr q' u Hq' Hd') as [Ha Hus].
      apply (new_descend s' pml4 pdpt pd) in Hd; try assumption. unfold new_tables in Hd. rewrite !elem_of_cons in Hd.
      destruct Hd as [[= -> ->]|[[= -> ->]|[[= -> ->]|[[= -> ->]|[[= -> ->]|[[= -> ->]|Hd]]]]]]; try congruence;
        try (split; [done|apply Hboot'; set_solver]). by apply not_elem_of_nil in Hd.
Qed.


(** ** Copy-on-write faults *)
Lemma idx_mask v k : 12 <= k <= 39 -> Z.land (Z.shiftr (Z.land v mask) k) 0x1FF = Z.land (Z.shiftr v k) 0x1FF.
Proof.
  intros Hk. apply Z.bits_inj'. intros i Hi. change 0x1FF with (Z.ones 9).
  rewrite !Z.land_spec, !Z.shiftr_spec, Z.land_spec, testbit_mask by lia.
  destruct (Z.ltb_spec i 9); [|rewrite Z.ones_spec_high by lia; by rewrite !andb_false_r].
  rewrite (proj2 (Z.leb_le 12 (i + k))), (proj2 (Z.ltb_lt (i + k) 64)) by lia. by rewrite andb_true_r.
Qed.

Lemma page_paths v : table_path (Z.land v mask) = table_path v /\ dir_path (Z.land v mask) = dir_path v /\
  pd_idx (Z.land v mask) = pd_idx v /\ pt_idx (Z.land v mask) = pt_idx v.
Proof. unfold table_path, dir_path, pml4_idx, pdpt_idx, pd_idx, pt_idx. by rewrite !idx_mask by lia. Qed.

Lemma get_pte_walk s root v : root <> 0 ->
  vmm_get_pte root v s =
    match large_entry s root v, descend s root 0 (table_path v) with
    | None, Some pt => pt + 8 * pt_idx v | _, _ => 0 end.
Proof.
  intros Hr. unfold vmm_get_pte, large_entry, table_path, dir_path. rewrite (proj2 (Z.eqb_neq root 0)) by done.
  cbn [descend]. unfold step. rewrite !bool_decide_false by lia. rewrite bool_decide_true by done. cbv zeta.
  unfold mbind, option_bind. cbn [andb negb]. rewrite !andb_true_r.
  destruct (present (entry s root (pml4_idx v))); [|done].
  destruct (present (entry s _ (pdpt_idx v))); [|done]. cbn [negb].
  set (pd := Z.land _ mask). destruct (large (entry s pd (pd_idx v))) eqn:El; cbn [andb negb]; rewrite ?El.
  - destruct (present (entry s pd (pd_idx v))); done.
  - cbn [negb andb]. rewrite andb_true_r. destruct (present (entry s pd (pd_idx v))); done.
Qed.

(** Writing into a fresh frame touches no used frame. *)
Lemma copy_fresh s s0 p old :
  wf s -> pmm_alloc_frame s = (s0, p) -> p <> 0 -> frame_addr old -> frame_used old s = true ->
  let s' := copy_frame old p s0 in
  wf s' /\ frame_addr p /\ frame_used p s = false /\ frame_cow_cnt s' = frame_cow_cnt s /\
  (forall u, frame_addr u -> frame_used u s = true -> frame_used u s' = true) /\
  (forall j, 0 <= j < 512 -> entry s' p j = entry s old j) /\
  (forall u j, frame_addr u -> frame_used u s = true -> 0 <= j < 512 -> entry s' u j = entry s u j).
Proof.
  intros Hwf Halloc Hp0 Ho Hou. pose proof (alloc_frame_spec s Hwf) as Ha. rewrite Halloc in Ha.
  destruct Ha as (Hw0 & Hm0 & Hcow0 & [(Hp & _)|(Hp & Hlo & Hfresh & Ht0)]); [exfalso; exact (Hp0 Hp)|]. cbv zeta.
  clear Halloc. assert (old <> p) as Hne by congruence.
  destruct (copy_frame_within s0 old p) as (Hzb & Hzc & _ & Hzw).
  pose proof (fun j => copy_frame_word s0 old p j Ho Hp Hne) as Hcp.
  assert (forall a, word s0 a = word s a) as Hw by (intros a; unfold word; by rewrite Hm0).
  generalize dependent (copy_frame old p s0). intros s' Hzb Hzc Hzw Hcp.
  split; [destruct Hw0 as (? & ? & ? & ?); unfold wf; rewrite Hzb, Hzc; tauto|].
  split; [exact Hp|]. split; [exact Hfresh|]. split; [congruence|]. split; [|split].
  - intros u Hu Hus. unfold frame_used in *.
    replace (bitmap_test (u / PAGE_SIZE) s') with (bitmap_test (u / PAGE_SIZE) s0) by (unfold bitmap_test; by rewrite Hzb).
    rewrite Ht0, Hus by by apply frame_addr_range. apply orb_true_r.
  - intros j Hj. unfold entry. by rewrite Hcp, Hw.
  - intros u j Hu Hus Hj. assert (u <> p) as Hup by congruence. unfold entry.
    by rewrite (Hzw _ (slot_in_frame u p j Hu Hp Hj Hup)), Hw.
Qed.

Lemma cow_remap s root r2 virt pt :
  tree s root -> tree s r2 -> separate s root r2 -> descend s root 0 (table_path virt) = Some pt ->
  forall s1, wf s1 -> same_tables s s1 root -> same_tables s s1 r2 ->
    (forall t, frame_addr t -> frame_used t s = true -> frame_used t s1 = true) ->
    forall p, frame_addr p -> let s' := set_entry pt (pt_idx virt) (Z.lor p 7) s1 in
    tree s' root /\ (forall v, vmm_get_phys r2 v s' = vmm_get_phys r2 v s) /\
    entry s' pt (pt_idx virt) = Z.lor p 7 /\
    forall v, vmm_get_phys root v s' = if decide (same_page virt v) then p else vmm_get_phys root v s.
Proof.
  intros Ht T2 Hsep Hd s1 W1 S1 S2 U1 p Hp s'. pose proof (tree_same s s1 root S1 U1 Ht) as T1.
  destruct (tree_frame _ _ Ht _ _ (valid_table virt) Hd) as [Hpa Hpu].
  assert (descend s1 root 0 (table_path virt) = Some pt) as Hd1 by (rewrite (descend_same s); auto).
  destruct (leaf_write s1 root virt pt (Z.lor p 7) W1 T1 Hd1) as (T' & _ & W' & P').
  destruct (table_entry p Hp) as (E1 & E2 & _). split; [exact T'|]. split; [|split].
  - intros v. apply get_phys_same; [|apply T2]. intros q u j Hq Hj Hdu. rewrite <- (S2 q u j Hq Hj Hdu).
    destruct (tree_frame _ _ T2 q u Hq Hdu) as [Hua _]. apply W'; [done|done|]. intros [-> _].
    destruct (Hsep _ _ _ (valid_table virt) Hq Hd Hdu) as [Hlen _]. done.
  - unfold s'. rewrite entry_set by auto. by rewrite decide_True.
  - intros v. unfold s'. rewrite P', E1, E2, (get_phys_same s s1) by (done || apply Ht).
    unfold same_page. by repeat case_decide.
Qed.

(** The reference counts play no part in translation. *)
Lemma counts_irrelevant s l root :
  tree s root -> tree (s <| frame_cow_cnt := l |>) root /\
  forall v, vmm_get_phys root v (s <| frame_cow_cnt := l |>) = vmm_get_phys root v s.
Proof.
  intros Ht. assert (same_tables s (s <| frame_cow_cnt := l |>) root) as Hs by (intros q u j _ _ _; reflexivity).
  split; [|intros v; apply get_phys_same; [exact Hs|apply Ht]].
  apply (tree_same s); [exact Hs| |exact Ht]. intros t _ H. exact H.
Qed.

(** C8: A write fault on a present copy-on-write page is resolved.  If the frame
    is shared (count above 1) and a frame is free, the page is remapped writable
    to a frame that was unused and now holds the same 4096 bytes, and the count
    of the old frame goes down by one; otherwise, if it is not shared, the page
    becomes writable in place.  No other page of this address space, and no page
    of a separate one, changes its translation. *)
Theorem vmm_cow_fault_spec s root r2 virt pt e :
  wf s -> tree s root -> tree s r2 -> separate s root r2 ->
  large_entry s root virt = None -> descend s root 0 (table_path virt) = Some pt -> pt <> 0 ->
  entry s pt (pt_idx virt) = e -> present e = true -> truth (Z.land e PTE_COW) = true ->
  frame_addr (Z.land e mask) -> frame_used (Z.land e mask) s = true -> 0 < pmm_free_count s ->
  let old := Z.land e mask in
  let '(s', r) := vmm_cow_fault root virt s in
  r = 1 /\ tree s' root /\ (forall v, vmm_get_phys r2 v s' = vmm_get_phys r2 v s) /\
  exists p, entry s' pt (pt_idx virt) = Z.lor p 7 /\
    (forall v, vmm_get_phys root v s' = if decide (same_page virt v) then p else vmm_get_phys root v s) /\
    if 1 <? (frame_cow_cnt s).[old / PAGE_SIZE]
    then frame_used p s = false /\ (forall j, 0 <= j < 512 -> p <> pt -> entry s' p j = entry s old j) /\
         frame_cow_cnt s' = (frame_cow_cnt s).[old / PAGE_SIZE <- (frame_cow_cnt s).[old / PAGE_SIZE] - 1]
    else p = old /\ frame_cow_cnt s' = frame_cow_cnt s.
Proof.
  intros Hwf Ht T2 Hsep Hl Hd Hpt0 He Hpres Hcow Ho Hou Hfree. cbv zeta.
  destruct (tree_frame _ _ Ht _ _ (valid_table virt) Hd) as [Hpa Hpu].
  destruct (page_paths virt) as (Q1 & Q2 & Q3 & Q4).
  assert (vmm_get_pte root (Z.land virt mask) s = pt + 8 * pt_idx virt) as Hpte.
  { rewrite get_pte_walk by apply Ht. unfold large_entry in *. by rewrite Q1, Q2, Q3, Q4, Hl, Hd. }
  assert (pt + 8 * pt_idx virt <> 0) as Hpte0.
  { pose proof (pt_range virt). destruct Hpa as [_ Hpa]. lia. }
  assert (word s (pt + 8 * pt_idx virt) = e) as Hw by exact He.
  unfold vmm_cow_fault. cbv zeta. rewrite Hpte, (proj2 (Z.eqb_neq _ 0) Hpte0), Hw, Hpres, Hcow. cbn [orb negb].
  pose proof (frame_addr_range _ Ho) as Hor.
  rewrite u32_small by (unfold frame_range, TOTAL_FRAMES in Hor; lia).
  rewrite (proj2 (Z.ltb_lt _ _) (proj2 Hor)). cbn [andb].
  pose proof (cow_remap s root r2 virt pt Ht T2 Hsep Hd) as Hremap.
  destruct (1 <? (frame_cow_cnt s).[Z.land e mask / PAGE_SIZE]).
  - destruct (alloc_succeeds s Hwf Hfree) as (s0 & p & Ha & Hp0). rewrite Ha, (proj2 (Z.eqb_neq p 0) Hp0).
    destruct (copy_fresh s s0 p _ Hwf Ha Hp0 Ho Hou) as (W1 & Hp & Hfr & Hc1 & U1 & Hcp & Hsm). clear Ha Hfree.
    generalize dependent (copy_frame (Z.land e mask) p s0). intros s1 W1 Hc1 U1 Hcp Hsm.
    destruct (Hremap s1 W1) with (p := p) as (R1 & R2 & R3 & R4); [..|done|].
    { intros q u j Hq Hj Hdu. destruct (tree_frame _ _ Ht q u Hq Hdu). by apply Hsm. }
    { intros q u j Hq Hj Hdu. destruct (tree_frame _ _ T2 q u Hq Hdu). by apply Hsm. }
    { done. }
    rewrite <- Hc1. split; [reflexivity|].
    change (set_word (pt + 8 * pt_idx virt) (Z.lor p 7) s1) with (set_entry pt (pt_idx virt) (Z.lor p 7) s1).
    match goal with |- tree (upd frame_cow_cnt (fun _ => ?l) ?s2) root /\ _ =>
      destruct (counts_irrelevant s2 l root R1) as [K1 K2]; pose proof (fun H => proj2 (counts_irrelevant s2 l r2 H)) as K3
    end.
    split; [exact K1|]. split.
    { intros v. rewrite <- (R2 v). apply K3. apply (tree_same s); [|exact U1|exact T2].
      intros q u j Hq Hj Hdu. destruct (tree_frame _ _ T2 q u Hq Hdu) as [Hua Huu]. rewrite <- (Hsm u j) by assumption.
      rewrite entry_set by auto. rewrite decide_False; [reflexivity|]. intros [<- _].
      destruct (Hsep _ _ _ (valid_table virt) Hq Hd Hdu) as [Hlen _]. discriminate Hlen. }
    exists p. split; [exact R3|]. split; [intros v; rewrite K2; apply R4|]. split; [exact Hfr|]. split; [|reflexivity].
    intros j Hj Hne. rewrite <- Hcp by done.
    change (entry (set_entry pt (pt_idx virt) (Z.lor p 7) s1) p j = entry s1 p j).
    rewrite entry_set by auto. rewrite decide_False; [reflexivity|]. intros [? _]. congruence.
  - assert (forall r, same_tables s s r) as Hrefl by (intros r q u j _ _ _; reflexivity).
    destruct (Hremap s Hwf (Hrefl root) (Hrefl r2) (fun _ _ H => H) _ Ho) as (R1 & R2 & R3 & R4).
    split; [reflexivity|]. split; [exact R1|]. split; [exact R2|]. exists (Z.land e mask).
    split; [exact R3|]. split; [exact R4|]. split; reflexivity.
Qed.

(** ** Low addresses *)
Lemma set_entries_wf s t i v : wf s -> wf (set_entry t i v s).
Proof. intros H. exact H. Qed.

Lemma zero_frame_wf s p : wf s -> wf (zero_frame p s).
Proof.
  intros (? & ? & ? & ?). destruct (zero_frame_within s p) as (Hb & Hc & _). unfold wf. rewrite Hb, Hc. tauto.
Qed.

Lemma create_page_dir_wf s : wf s -> wf (fst (vmm_create_page_dir s)).
Proof.
  assert (forall s, wf s -> wf (fst (pmm_alloc_frame s))) as Ha.
  { intros t Ht. pose proof (alloc_frame_spec t Ht) as H. destruct (pmm_alloc_frame t). apply H. }
  assert (forall p s, wf s -> wf (pmm_free_frame p s)) as Hfr.
  { intros p t Ht. unfold pmm_free_frame. case_if; [|exact Ht]. bool_to_prop. apply wf_bitmap_clear; [exact Ht|].
    unfold frame_range, KERNEL_RESERVED_FRAMES in *. lia. }
  intros Hwf. unfold vmm_create_page_dir.
  pose proof (Ha s Hwf) as W1. destruct (pmm_alloc_frame s) as [s1 a]. cbn [fst] in W1. case_if; [exact W1|]. cbv zeta.
  pose proof (Ha _ (zero_frame_wf s1 a W1)) as W2. destruct (pmm_alloc_frame (zero_frame a s1)) as [s2 b].
  cbn [fst] in W2. case_if; [apply Hfr, W2|].
  pose proof (Ha _ (zero_frame_wf s2 b W2)) as W3. destruct (pmm_alloc_frame (zero_frame b s2)) as [s3 c].
  cbn [fst] in W3. case_if; [apply Hfr, Hfr, W3|]. cbn [fst].
  unfold fill_pd_low. do 15 apply set_entries_wf. apply zero_frame_wf, W3.
Qed.

Lemma create_low_large s :
  wf s -> 3 <= pmm_free_count s ->
  let '(s', root) := vmm_create_page_dir s in
  forall v, 0 <= v < 0x800000 -> large_entry s' root v <> None.
Proof.
  intros Hwf Hc. destruct (create_tables s Hwf Hc) as
    (s' & pml4 & pdpt & pd & -> & A1 & A2 & A3 & _ & _ & _ & N12 & N13 & N23 & _ & _ & _ & _ & HE).
  clear Hc. intros v Hv. destruct (low_idx v) as (I4 & I3 & I2 & _); [lia|].
  assert (descend s' pml4 0 (dir_path v) = Some pd) as Hdir.
  { unfold dir_path. rewrite I4, I3. cbn [descend]. rewrite (new_step0 s' pml4 pdpt); [|done| |done].
    - simpl. rewrite (new_step1 s' pdpt pd); [done|done| |done].
      intros j Hj. rewrite HE, (proj2 (Z.eqb_neq pdpt pd)), Z.eqb_refl by done. done.
    - intros j Hj. rewrite HE, (proj2 (Z.eqb_neq pml4 pd)), (proj2 (Z.eqb_neq pml4 pdpt)), Z.eqb_refl by done. done. }
  assert (0 <= v / 0x200000 < 4) as Hk by (split; [apply Z.div_pos; lia|apply Z.div_lt_upper_bound; lia]).
  unfold large_entry. rewrite Hdir. cbn [mbind option_bind]. rewrite HE, Z.eqb_refl, I2 by auto.
  assert (v / 0x200000 = 0 \/ v / 0x200000 = 1 \/ v / 0x200000 = 2 \/ v / 0x200000 = 3) as Hk' by lia.
  destruct Hk' as [->|[->|[->| ->]]]; discriminate.
Qed.

(** Reserving a frame for use by a process, and setting its count. *)
Lemma reserve_frame s r1 r2 f n :
  wf s -> tree s r1 -> tree s r2 -> separate s r2 r1 -> frame_range f -> 0 <= n < 256 ->
  let s' := (bitmap_set f s) <| frame_cow_cnt := (frame_cow_cnt s).[f <- n] |> in
  wf s' /\ tree s' r1 /\ tree s' r2 /\ separate s' r2 r1.
Proof.
  intros Hwf T1 T2 Hs Hf Hn s'. assert (forall r, same_tables s s' r) as Hst by (intros r q u j _ _ _; reflexivity).
  assert (forall t, frame_addr t -> frame_used t s = true -> frame_used t s' = true) as Hus.
  { intros t Ht Hu. unfold frame_used in *. change (bitmap_test (t / PAGE_SIZE) (bitmap_set f s) = true).
    rewrite test_set, Hu; [apply orb_true_r|exact Hwf|exact Hf|by apply frame_addr_range]. }
  split.
  { destruct (wf_bitmap_set s f Hwf) as (H1 & H2 & H3 & H4). split; [exact H1|]. split; [exact H2|].
    split; [exact (eq_trans (zlen_aset _ _ _) H3)|]. exact (Forall_insert _ _ _ _ H4 Hn). }
  split; [by apply (tree_same s)|]. split; [by apply (tree_same s)|].
  intros q q' u Hq Hq' Hd Hd'. rewrite (descend_same s) in Hd, Hd' by auto. exact (Hs q q' u Hq Hq' Hd Hd').
Qed.

(** Below 8 MB nothing can be remapped.  In a new page directory the 2 MB
    pages cover 0-8 MB, and vmm_map_page() silently skips them, so the addresses
    shm_attach() (0x500000) and thread stacks (0x700000) are given stay identity
    mapped to kernel memory. *)
Theorem vmm_low_addresses_stay_identity s virt phys flags :
  wf s -> 3 <= pmm_free_count s -> boot_dirs s -> 0 <= virt < 0x800000 ->
  let '(s', root) := vmm_create_page_dir s in
  vmm_get_phys root virt (vmm_map_page root virt phys flags s') = virt.
Proof.
  intros Hwf Hc Hb Hv. pose proof (create_low_large s Hwf Hc) as Hl. pose proof (create_page_dir_spec s Hwf Hc Hb) as H.
  pose proof (create_page_dir_wf s Hwf) as Hw. clear Hc.
  destruct (vmm_create_page_dir s) as [s' root]. destruct H as (Ht & Hp & _).
  destruct (map_page_cases s' root virt phys flags Hw Ht) as (s1 & ws & E & Hcase).
  destruct Hcase as [[-> _]|(pt & _ & Hn & _)].
  { rewrite (ext_phys _ _ _ _ E), (Hp virt) by lia. by rewrite (proj2 (Z.ltb_lt virt 0x800000)) by lia. }
  rewrite (ext_large _ _ _ _ E) in Hn. exfalso. exact (Hl virt Hv Hn).
Qed.

(** ** Frames

    Whatever the tables contain, mapping a page takes at most three frames and gives none back. *)
Definition grows (n : Z) (s s' : State) : Prop :=
  wf s' /\ pmm_free_count s - n <= pmm_free_count s' <= pmm_free_count s /\
  forall u, frame_addr u -> frame_used u s = true -> frame_used u s' = true.

Lemma grows_refl n s : 0 <= n -> wf s -> grows n s s.
Proof. intros Hn Hwf. split; [done|]. split; [lia|auto]. Qed.

Lemma grows_trans n m k s1 s2 s3 : grows n s1 s2 -> grows m s2 s3 -> n + m <= k -> grows k s1 s3.
Proof. intros (_ & C1 & U1) (W2 & C2 & U2) Hk. split; [done|]. split; [lia|auto]. Qed.

Lemma grows_entry n t i v s s' : grows n s s' -> grows n s (set_entry t i v s').
Proof.
  intros (W & C & U). split; [by apply set_entries_wf|]. split; [|exact U].
  rewrite (free_count_bitmap (set_entry t i v s') s') by reflexivity. exact C.
Qed.

Lemma grows_alloc s s0 p : wf s -> pmm_alloc_frame s = (s0, p) -> p <> 0 -> grows 1 s (zero_frame p s0).
Proof.
  intros Hwf EA Hp. destruct (alloc_zero s s0 p Hwf EA Hp) as (Hw & _ & _ & _ & _ & Hu & _).
  pose proof (alloc_frame_counts s Hwf) as Hc. rewrite EA in Hc. destruct Hc as [_ Hc]. specialize (Hc Hp).
  destruct (zero_frame_within s0 p) as (Hb & _). rewrite <- (free_count_bitmap (zero_frame p s0) s0 Hb) in Hc. clear Hb EA.
  generalize dependent (zero_frame p s0). intros s1 Hw Hu Hc. split; [done|]. split; [lia|].
  intros u Ha Hus. rewrite Hu, Hus by done. apply orb_true_r.
Qed.

Lemma next_table_grows t i s : wf s -> grows 1 s (fst (next_table t i s)).
Proof.
  intros Hwf. unfold next_table. destruct (present (entry s t i)); [by apply grows_refl|].
  destruct (pmm_alloc_frame s) as [s0 p] eqn:EA. destruct (Z.eqb_spec p 0) as [->|Hp].
  - destruct (alloc_fails s s0 Hwf EA) as [-> _]. by apply grows_refl.
  - by apply grows_entry, grows_alloc.
Qed.

Lemma map_page_grows root virt phys flags s : wf s -> grows 3 s (vmm_map_page root virt phys flags s).
Proof.
  intros Hwf. unfold vmm_map_page.
  pose proof (next_table_grows root (pml4_idx virt) s Hwf) as G1. destruct (next_table root (pml4_idx virt) s) as [s1 r1]. cbn [fst] in G1.
  destruct r1 as [pdpt|]; [|exact (grows_trans 1 0 3 _ _ _ G1 (grows_refl 0 s1 (Z.le_refl 0) (proj1 G1)) ltac:(lia))].
  pose proof (next_table_grows pdpt (pdpt_idx virt) s1 (proj1 G1)) as G2. destruct (next_table pdpt (pdpt_idx virt) s1) as [s2 r2]. cbn [fst] in G2.
  pose proof (grows_trans 1 1 3 _ _ _ G1 G2 ltac:(lia)) as G. pose proof (grows_trans 1 1 2 _ _ _ G1 G2 ltac:(lia)) as G'.
  destruct r2 as [pd|]; [|exact G]. destruct (large (entry s2 pd (pd_idx virt))); [exact G|].
  pose proof (next_table_grows pd (pd_idx virt) s2 (proj1 G2)) as G3. destruct (next_table pd (pd_idx virt) s2) as [s3 r3]. cbn [fst] in G3.
  pose proof (grows_trans 2 1 3 _ _ _ G' G3 ltac:(lia)) as G4. destruct r3 as [pt|]; [by apply grows_entry|exact G4].
Qed.

End Vmm.
