(* ===== verification/VmmBoot.v ===== *)
(** * Concrete address spaces

    Two processes on a booted machine: the hypotheses of the theorems of Vmm.v
    hold for the page directories vmm_create_page_dir() builds, and the frames of
    a forked process are followed through copy-on-write and teardown. *)

From Stdlib Require Import ZArith Lia.
From stdpp Require Import base numbers list gmap tactics.
From S2P Require Import Prelude Pmm Vmm.

Module VmmBoot.
Import Pmm Vmm.

(** ** A machine with one process *)
Definition vm0 : State :=
  iter (fun j s => set_entry 0x4000 j (0x40000083 + j * 0x200000)
                     (set_entry 0x5000 j (0x80000083 + j * 0x200000)
                        (set_entry 0x6000 j (0xC0000083 + j * 0x200000) s))) 0 512 boot.
Definition vm1 : State := fst (vmm_create_page_dir vm0).
Definition root1 : Z := snd (vmm_create_page_dir vm0).

Lemma vm0_wf : wf vm0.
Proof. unfold vm0. apply (iter_ind (fun _ => wf)); [apply boot_wf|]. intros i s _ H. exact H. Qed.

Lemma boot_dirs_bool s :
  forallb (fun b => frame_used b s && forallb (fun j => present (entry s b j) && large (entry s b j))
                      (Z.of_nat <$> seq 0 512)) [0x4000; 0x5000; 0x6000] = true -> boot_dirs s.
Proof.
  intros H. rewrite forallb_forall in H. intros b Hb. apply list_elem_of_In in Hb. specialize (H b Hb).
  apply andb_prop in H as [H1 H2]. split; [exact H1|]. rewrite forallb_forall in H2. intros j Hj. specialize (H2 j).
  apply andb_prop. apply H2. apply list_elem_of_In, list_elem_of_fmap. exists (Z.to_nat j).
  split; [lia|]. apply elem_of_seq. lia.
Qed.

Lemma vm0_boot_dirs : boot_dirs vm0.
Proof.
  assert (forallb (fun b => frame_used b vm0 && forallb (fun j => present (entry vm0 b j) && large (entry vm0 b j))
                              (Z.of_nat <$> seq 0 512)) [0x4000; 0x5000; 0x6000] = true) as H by (vm_compute; reflexivity).
  apply boot_dirs_bool. exact H.
Qed.

Lemma vm0_free : pmm_free_count vm0 = 14336.
Proof. vm_compute. reflexivity. Qed.


Lemma vm1_tree : wf vm1 /\ tree vm1 root1 /\ large_entry vm1 root1 0xC00000 = None /\ 3 <= pmm_free_count vm1.
Proof.
  split_and!.
  - split_and!; [vm_compute; reflexivity| |vm_compute; reflexivity|].
    + apply Forall_forall. assert (forallb (fun b => (0 <=? b) && (b <? 256)) (frame_bitmap vm1) = true) as H by (vm_compute; reflexivity).
      rewrite forallb_forall in H. intros b Hb. apply H in Hb. lia.
    + apply Forall_forall. assert (forallb (fun b => (0 <=? b) && (b <? 256)) (frame_cow_cnt vm1) = true) as H by (vm_compute; reflexivity).
      rewrite forallb_forall in H. intros b Hb. apply H in Hb. lia.
  - assert (3 <= pmm_free_count vm0) as Hc by (rewrite vm0_free; lia).
    pose proof (create_page_dir_spec vm0 vm0_wf Hc vm0_boot_dirs) as H. clear Hc.
    unfold vm1, root1. destruct (vmm_create_page_dir vm0) as [s' root]. destruct H as (Ht & _). exact Ht.
  - vm_compute. reflexivity.
  - assert (pmm_free_count vm1 = 14333) as -> by (vm_compute; reflexivity). lia.
Qed.

Definition vm2 : State := fst (vmm_create_page_dir vm1).
Definition root2 : Z := snd (vmm_create_page_dir vm1).

Lemma bytes_bool l : forallb (fun b => (0 <=? b) && (b <? 256)) l = true -> Forall (fun b => 0 <= b < 256) l.
Proof. intros H. rewrite forallb_forall in H. apply Forall_forall. intros b Hb. apply H in Hb. lia. Qed.

Lemma vm1_boot_dirs : boot_dirs vm1.
Proof.
  assert (forallb (fun b => frame_used b vm1 && forallb (fun j => present (entry vm1 b j) && large (entry vm1 b j))
                              (Z.of_nat <$> seq 0 512)) [0x4000; 0x5000; 0x6000] = true) as H by (vm_compute; reflexivity).
  apply boot_dirs_bool. exact H.
Qed.

Lemma vm2_wf : wf vm2.
Proof.
  split_and!; [vm_compute; reflexivity|apply bytes_bool; vm_compute; reflexivity|vm_compute; reflexivity|
               apply bytes_bool; vm_compute; reflexivity].
Qed.

Lemma vm2_free : pmm_free_count vm2 = 14330.
Proof. vm_compute. reflexivity. Qed.

Lemma create_facts s :
  wf s -> 3 <= pmm_free_count s -> boot_dirs s ->
  tree (fst (vmm_create_page_dir s)) (snd (vmm_create_page_dir s)) /\
  (forall r, tree s r -> tree (fst (vmm_create_page_dir s)) r /\
     separate (fst (vmm_create_page_dir s)) (snd (vmm_create_page_dir s)) r).
Proof.
  intros Hwf Hc Hb. pose proof (create_page_dir_spec s Hwf Hc Hb) as H.
  destruct (vmm_create_page_dir s) as [s' root]. destruct H as (H1 & _ & H2). split; [exact H1|].
  intros r Hr. destruct (H2 r Hr) as (H3 & _ & H4). split; [exact H3|exact H4].
Qed.

Lemma vm2_facts : wf vm2 /\ tree vm2 root1 /\ tree vm2 root2 /\ separate vm2 root2 root1 /\ 4 <= pmm_free_count vm2.
Proof.
  destruct vm1_tree as (W1 & T1 & _ & C1).
  destruct (create_facts vm1 W1 C1 vm1_boot_dirs) as [H1 H2]. destruct (H2 root1 T1) as [H3 H4]. clear C1 H2.
  split; [exact vm2_wf|]. split; [exact H3|]. split; [exact H1|]. split; [exact H4|].
  rewrite vm2_free. lia.
Qed.

Lemma vmm_map_page_spec_witness :
  vmm_get_phys root1 0xC00123 (vmm_map_page root1 0xC00000 0x900000 7 vm1) = 0x900000.
Proof.
  destruct vm1_tree as (W1 & T1 & L1 & C1).
  destruct (vmm_map_page_spec vm1 root1 0xC00000 0x900000 7 W1 T1 ltac:(lia) C1) as [_ H].
  rewrite (H 0xC00123), L1. rewrite decide_True by (vm_compute; split; reflexivity). vm_compute. reflexivity.
Defined.

Lemma vmm_unmap_page_spec_witness :
  vmm_get_phys root1 0xC00123 (vmm_unmap_page root1 0xC00000 vm1) = 0.
Proof.
  destruct vm1_tree as (W1 & T1 & L1 & _). destruct (vmm_unmap_page_spec vm1 root1 0xC00000 W1 T1) as [_ H].
  rewrite (H 0xC00123), L1. rewrite decide_True by (vm_compute; split; reflexivity). reflexivity.
Defined.

Lemma vmm_map_page_isolated_witness :
  vmm_get_phys root1 0xC00000 (vmm_map_page root2 0xC00000 0x900000 7 vm2) = 0.
Proof.
  destruct vm2_facts as (W & T1 & T2 & Hs & _).
  rewrite (vmm_map_page_isolated vm2 root2 root1 0xC00000 0x900000 7 0xC00000 W T2 T1 Hs). vm_compute. reflexivity.
Defined.

(** A process with one copy-on-write page on frame 0x900000, counted twice. *)
Definition vm3 : State :=
  (bitmap_set 0x900 vm2) <| frame_cow_cnt := (frame_cow_cnt vm2).[0x900 <- 2] |>.
Definition vm4 : State := vmm_map_page root2 0xC00000 0x900000 0x205 vm3.

Lemma vm4_facts : wf vm4 /\ tree vm4 root1 /\ tree vm4 root2 /\ separate vm4 root2 root1.
Proof.
  destruct vm2_facts as (W & T1 & T2 & Hs & _).
  destruct (reserve_frame vm2 root1 root2 0x900 2 W T1 T2 Hs) as (W3 & S1 & S2 & Ss);
    [vm_compute; split; congruence|lia|]. fold vm3 in W3, S1, S2, Ss.
  split; [exact (map_page_wf _ _ _ _ _ W3 S2)|].
  split; [|split; [exact (map_page_tree _ _ _ _ _ W3 S2)|exact (map_page_separate _ _ _ _ _ _ W3 S2 S1 Ss)]].
  apply (tree_same vm3 vm4); [exact (map_page_others _ _ _ _ _ _ W3 S2 S1 Ss)| |exact S1].
  intros u Hu Huu. exact (map_page_used _ _ _ _ _ _ W3 S2 Hu Huu).
Qed.

Lemma vm4_free : pmm_free_count vm4 = 14328.
Proof. vm_compute. reflexivity. Qed.

Lemma vmm_cow_fault_spec_witness :
  snd (vmm_cow_fault root2 0xC00008 vm4) = 1 /\
  exists p, vmm_get_phys root2 0xC00000 (fst (vmm_cow_fault root2 0xC00008 vm4)) = p /\ frame_used p vm4 = false.
Proof.
  destruct vm4_facts as (W & T1 & T2 & Hs).
  assert (0 < pmm_free_count vm4) as Hc0 by (rewrite vm4_free; lia).
  assert (frame_addr (Z.land 0x900205 mask)) as Ha by (split; [reflexivity|vm_compute; split; congruence]).
  epose proof (vmm_cow_fault_spec vm4 root2 root1 0xC00008 0x806000 0x900205 W T2 T1 Hs
    ltac:(vm_compute; reflexivity) ltac:(vm_compute; reflexivity) ltac:(lia) ltac:(vm_compute; reflexivity)
    ltac:(vm_compute; reflexivity) ltac:(vm_compute; reflexivity) Ha ltac:(vm_compute; reflexivity) Hc0) as H.
  assert ((1 <? (frame_cow_cnt vm4).[Z.land 0x900205 mask / PAGE_SIZE]) = true) as Hb by (vm_compute; reflexivity).
  cbv zeta in H. rewrite Hb in H. clear Hc0 Hb.
  destruct (vmm_cow_fault root2 0xC00008 vm4) as [s' r]. destruct H as (Hr & _ & _ & p & _ & Hp & Hf & _).
  split; [exact Hr|]. exists p. split; [|exact Hf]. cbn [fst]. rewrite (Hp 0xC00000).
  apply decide_True. vm_compute. split; reflexivity.
Defined.

Lemma vmm_low_addresses_stay_identity_witness :
  vmm_get_phys root1 0x500000 (vmm_map_page root1 0x500000 0x900000 7 vm1) = 0x500000.
Proof.
  assert (3 <= pmm_free_count vm0) as Hc by (rewrite vm0_free; lia).
  pose proof (vmm_low_addresses_stay_identity vm0 0x500000 0x900000 7 vm0_wf Hc vm0_boot_dirs ltac:(lia)) as H. clear Hc.
  unfold vm1, root1. destruct (vmm_create_page_dir vm0) as [s' root]. exact H.
Defined.

(** The frame of a forked page is never given back.  vmm_copy_cow() adds 2 to
    its count while each of the two processes takes off at most one, so after
    both are torn down the frame is still marked used although nothing maps it;
    all other frames are free again. *)
Theorem vmm_forked_frame_leaks :
  let s := vmm_map_page root1 0xC00000 0x900000 7 (bitmap_set 0x900 vm2) in
  let s := vmm_copy_cow root1 root2 s in
  let s := vmm_free_user_memory root1 (vmm_free_user_memory root2 s) in
  frame_used 0x900000 s = true /\ (frame_cow_cnt s).[0x900] = 0 /\ pmm_free_count s = pmm_free_count vm0 - 1.
Proof. vm_compute. split_and!; reflexivity. Qed.

End VmmBoot.
