(* ===== verification/Elf.v ===== *)
(** * elf_loader.c: loading a program into an address space

    elf_load() over the frames and page tables of Pmm.v and Vmm.v.  The file is the list
    [data] of the bytes in its buffer; a read outside them is [None].  The theorems show
    that the loop over the pages of a segment ends, and that an image whose segments lie
    in the file and on pages of their own is loaded: every byte of a segment can be read
    at its virtual address, the rest of its pages is zero and no other page changes. *)

From Stdlib Require Import ZArith Lia.
From stdpp Require Import base numbers list gmap tactics.
From S2P Require Import Prelude Pmm Vmm VmmBoot.
Import Pmm Vmm.

Module Elf.

(** [n] bytes at offset [off], the low one first. *)
Definition le (l : list Z) : Z := foldr (fun b v => b + 256 * v) 0 l.
Definition rd (data : list Z) (off : Z) (n : nat) : option Z :=
  if off + Z.of_nat n <=? zlen data then Some (le (take n (drop (Z.to_nat off) data))) else None.

(** The fields that are used of the two headers. *)
Record Elf64_Ehdr := mkEhdr { e_ident : list Z; e_type : Z; e_machine : Z; e_entry : Z; e_phoff : Z; e_phentsize : Z; e_phnum : Z }.
Record Elf64_Phdr := mkPhdr { p_offset : Z; p_vaddr : Z; p_filesz : Z; p_memsz : Z }.

Definition read_ehdr (data : list Z) : option Elf64_Ehdr :=
  ty ← rd data 16 2; mc ← rd data 18 2; en ← rd data 24 8; po ← rd data 32 8; ps ← rd data 54 2; pn ← rd data 56 2;
  Some (mkEhdr (take 16 data) ty mc en po ps pn).
Definition read_phdr (data : list Z) (ph : Z) : option Elf64_Phdr :=
  po ← rd data (ph + 8) 8; pv ← rd data (ph + 16) 8; pf ← rd data (ph + 32) 8; pm ← rd data (ph + 40) 8;
  Some (mkPhdr po pv pf pm).

Definition page_of (v : Z) : Z := Z.land v mask.
Definition virt_end_of (ph : Elf64_Phdr) : Z := page_of (u64 (p_vaddr ph + p_memsz ph + PAGE_SIZE - 1)).

(** One page of a segment; the flag is false when there is no frame. *)
Definition load_page (data : list Z) (ph : Elf64_Phdr) (pml4 virt_page : Z) (s : State) : option (State * bool) :=
  let '(s, phys) := pmm_alloc_frame s in
  if phys =? 0 then Some (s, false)
  else
    let s := vmm_zero_frame phys s in
    let seg_file_end := u64 (p_vaddr ph + p_filesz ph) in
    let page_end := u64 (virt_page + PAGE_SIZE) in
    let copy_start := if p_vaddr ph <? virt_page then virt_page else p_vaddr ph in
    let copy_end := if seg_file_end <? page_end then seg_file_end else page_end in
    s ← (if copy_start <? copy_end then
           let src := u64 (p_offset ph + u64 (copy_start - p_vaddr ph)) in
           let len := copy_end - copy_start in
           if zlen data <? src + len then None
           else Some (vmm_copy_to_frame phys (copy_start - virt_page) (drop (Z.to_nat src) data) len s)
         else Some s);
    Some (vmm_map_page pml4 virt_page phys 7 s, true).

(** [while (virt_page < virt_end)]: every round takes a frame, so more rounds than free
    frames are not needed ([load_pages_fuel]). *)
Fixpoint load_pages (fuel : nat) (data : list Z) (ph : Elf64_Phdr) (pml4 virt_page virt_end : Z) (s : State) : option (State * bool) :=
  match fuel with
  | O => Some (s, false)
  | S fuel =>
      if virt_page <? virt_end then
        '(s, ok) ← load_page data ph pml4 virt_page s;
        if ok : bool then load_pages fuel data ph pml4 (u64 (virt_page + PAGE_SIZE)) virt_end s else Some (s, false)
      else Some (s, true)
  end.

Definition load_segment (data : list Z) (ph : Elf64_Phdr) (pml4 : Z) (s : State) : option (State * bool) :=
  load_pages (Z.to_nat TOTAL_FRAMES) data ph pml4 (page_of (p_vaddr ph)) (virt_end_of ph) s.

(** The bounds check of a segment. *)
Definition in_file (size : Z) (ph : Elf64_Phdr) : bool :=
  (p_filesz ph =? 0) || ((p_offset ph <? size) && (u64 (p_offset ph + p_filesz ph) <=? size)).

(** The program headers from number [i] on, [n] of them. *)
Fixpoint load_headers (n : nat) (i : Z) (data : list Z) (size : Z) (hdr : Elf64_Ehdr) (pml4 : Z) (s : State) : option (State * Z) :=
  match n with
  | O => Some (s, e_entry hdr)
  | S n =>
      let ph_off := u64 (e_phoff hdr + i * e_phentsize hdr) in
      if size <? u64 (ph_off + e_phentsize hdr) then Some (s, 0)
      else
        ty ← rd data ph_off 4;
        if negb (ty =? 1) then load_headers n (i + 1) data size hdr pml4 s
        else
          ph ← read_phdr data ph_off;
          if negb (in_file size ph) then Some (s, 0)
          else
            '(s, ok) ← load_segment data ph pml4 s;
            if ok : bool then load_headers n (i + 1) data size hdr pml4 s else Some (s, 0)
  end.

Definition elf_load (data : list Z) (size pml4 : Z) (s : State) : option (State * Z) :=
  if size <? 64 then Some (s, 0)
  else
    hdr ← read_ehdr data;
    if negb (bool_decide (take 4 (e_ident hdr) = [0x7F; 69; 76; 70])) then Some (s, 0)
    else if negb ((e_ident hdr).[4] =? 2) then Some (s, 0)
    else if negb (e_type hdr =? 2) || negb (e_machine hdr =? 0x3E) then Some (s, 0)
    else if e_phnum hdr =? 0 then Some (s, 0)
    else load_headers (Z.to_nat (e_phnum hdr)) 0 data size hdr pml4 s.

#[local] Opaque zero_frame pmm_alloc_frame pmm_free_count.

(** ** Bytes of memory *)

Lemma get_byte_bit s a i : 0 <= i -> Z.testbit (get_byte s a) i = (i <? 8) && Z.testbit (word s (8 * (a / 8))) (i + 8 * (a mod 8)).
Proof.
  intros Hi. unfold get_byte. rewrite Z.land_spec, Z.shiftr_spec by done. change 255 with (Z.ones 8).
  destruct (Z.ltb_spec i 8); [rewrite Z.ones_spec_low by lia; by rewrite andb_true_r|rewrite Z.ones_spec_high by lia; by rewrite andb_false_r].
Qed.

Lemma get_set_byte s a b c : get_byte (set_byte a b s) c = if c =? a then u8 b else get_byte s c.
Proof.
  apply Z.bits_inj'. intros i Hi. pose proof (Z.mod_pos_bound a 8 ltac:(lia)) as Ha. pose proof (Z.mod_pos_bound c 8 ltac:(lia)) as Hc.
  rewrite get_byte_bit by done. unfold set_byte. rewrite word_set.
  destruct (Z.eqb_spec c a) as [->|Hne].
  - rewrite decide_True by done. rewrite testbit_u8, Z.lor_spec, Z.ldiff_spec, !Z.shiftl_spec by lia.
    replace (i + 8 * (a mod 8) - 8 * (a mod 8)) with i by lia. change 255 with (Z.ones 8).
    destruct (Z.ltb_spec i 8); [|done]. rewrite Z.ones_spec_low, testbit_u8 by lia. rewrite (proj2 (Z.ltb_lt i 8)) by lia. cbn. by rewrite andb_false_r.
  - rewrite get_byte_bit by done. destruct (Z.ltb_spec i 8); [|done]. cbn [andb]. case_decide as Hw; [|done].
    assert (a mod 8 <> c mod 8) as Hd by (intros E; apply Hne; rewrite (Z.div_mod a 8), (Z.div_mod c 8) by lia; lia).
    assert (word s (8 * (c / 8)) = word s (8 * (a / 8))) as -> by (f_equal; lia).
    rewrite Z.lor_spec, Z.ldiff_spec, !Z.shiftl_spec by lia. change 255 with (Z.ones 8).
    destruct (Z.ltb_spec (c mod 8) (a mod 8)).
    + rewrite !(Z.testbit_neg_r _ (_ - _)) by lia. cbn. by rewrite andb_true_r, orb_false_r.
    + rewrite Z.ones_spec_high, testbit_u8 by lia. rewrite (proj2 (Z.ltb_ge _ 8)) by lia. cbn. by rewrite andb_true_r, orb_false_r.
Qed.

Lemma copy_within phys off src len s : 0 <= off -> off + len <= PAGE_SIZE -> phys mod PAGE_SIZE = 0 -> within phys s (vmm_copy_to_frame phys off src len s).
Proof.
  intros H0 Hl Hp. unfold vmm_copy_to_frame. apply (iter_ind (fun _ s' => within phys s s')); [done|].
  intros i s' Hi (H1 & H2 & H3 & H4). split; [done|]. split; [done|]. split; [done|]. intros a Ha. unfold set_byte.
  rewrite word_set, decide_False; [by apply H4|]. intros <-. apply Ha. clear -Hi H0 Hl Hp. unfold PAGE_SIZE in *.
  Z.to_euclidean_division_equations; lia.
Qed.

Lemma copy_byte phys off src len s c : 0 <= len ->
  get_byte (vmm_copy_to_frame phys off src len s) c =
    if (phys + off <=? c) && (c <? phys + off + len) then u8 src.[c - (phys + off)] else get_byte s c.
Proof.
  intros Hl. unfold vmm_copy_to_frame.
  pose proof (iter_ind (fun n s' => get_byte s' c = if (phys + off <=? c) && (c <? phys + off + n) then u8 src.[c - (phys + off)] else get_byte s c)
    (fun i s => set_byte (phys + off + i) src.[i] s) (Z.to_nat len) 0 s) as H. rewrite Z2Nat.id in H by done. apply H; clear H; cbv beta.
  - destruct (Z.leb_spec (phys + off) c), (Z.ltb_spec c (phys + off + 0)); cbn [andb]; (reflexivity || (exfalso; lia)).
  - intros i s' Hi IH. rewrite get_set_byte, IH. destruct (Z.eqb_spec c (phys + off + i)) as [->|Hne].
    + rewrite (proj2 (Z.leb_le _ _)), (proj2 (Z.ltb_lt _ _)) by lia. cbn [andb]. by replace (phys + off + i - (phys + off)) with i by lia.
    + destruct (Z.leb_spec (phys + off) c), (Z.ltb_spec c (phys + off + i)), (Z.ltb_spec c (phys + off + (i + 1))); cbn [andb]; (reflexivity || (exfalso; lia)).
Qed.

(** A byte of a frame is in one of its words. *)
Lemma frame_byte_entry s p k : frame_addr p -> 0 <= k < PAGE_SIZE ->
  get_byte s (p + k) = Z.land (Z.shiftr (entry s p (k / 8)) (8 * (k mod 8))) 255 /\ 0 <= k / 8 < 512.
Proof.
  intros [Hp _] Hk. unfold PAGE_SIZE in *. assert (8 * ((p + k) / 8) = p + 8 * (k / 8) /\ (p + k) mod 8 = k mod 8) as [E1 E2] by (Z.to_euclidean_division_equations; lia).
  unfold get_byte, entry. rewrite E1, E2. split; [done|]. split; [apply Z.div_pos; lia|apply Z.div_lt_upper_bound; lia].
Qed.

Lemma zero_byte s p k : frame_addr p -> 0 <= k < PAGE_SIZE -> get_byte (zero_frame p s) (p + k) = 0.
Proof. intros Hp Hk. destruct (frame_byte_entry (zero_frame p s) p k Hp Hk) as [-> Hj]. unfold entry. rewrite zero_frame_word by done. by rewrite Z.shiftr_0_l. Qed.

(** ** Frames of data *)

(** A used frame that is no table of [root]. *)
Definition data_frame (s : State) (root u : Z) : Prop :=
  frame_addr u /\ frame_used u s = true /\ forall q, valid_path q -> descend s root 0 q <> Some u.

(** Mapping a page leaves the data frames alone. *)
Lemma map_page_data s root virt phys flags u : wf s -> tree s root -> data_frame s root u ->
  let s' := vmm_map_page root virt phys flags s in
  data_frame s' root u /\ forall j, 0 <= j < 512 -> entry s' u j = entry s u j.
Proof.
  intros Hwf Ht (Ha & Hu & Hn). cbv zeta. destruct (map_page_cases s root virt phys flags Hwf Ht) as (s1 & ws & E & Hcase).
  assert (data_frame s1 root u) as (_ & Hu1 & Hn1).
  { split; [done|]. split; [by apply (ext_used _ _ _ _ E)|]. intros q Hq Hd. destruct (ext_new _ _ _ _ E q u Hq Hd) as [H|H]; [by apply (Hn q)|congruence]. }
  assert (forall j, 0 <= j < 512 -> entry s1 u j = entry s u j) as Hw1.
  { intros j Hj. apply (ext_words _ _ _ _ E); [done|done|done|]. intros Hin.
    destruct (ext_slots _ _ _ _ E u j Hin) as [[_ H]|(q & Hq & _ & Hd & _)]; [congruence|by apply (Hn q)]. }
  destruct Hcase as [[-> _]|(pt & Hd & _ & ->)]; [done|].
  destruct (leaf_write s1 root virt pt (Z.lor (Z.lor (Z.land phys mask) flags) 1) (ext_wf _ _ _ _ E) (ext_tree _ _ _ _ E) Hd) as (_ & D & W & _).
  split; [split; [done|split; [done|]]|].
  - intros q Hq. rewrite D by done. by apply Hn1.
  - intros j Hj. rewrite W; [by apply Hw1|done|done|]. intros [-> _]. by apply (Hn1 (table_path virt)); [apply valid_table|].
Qed.

Lemma map_page_large s root virt phys flags v : wf s -> tree s root -> large_entry (vmm_map_page root virt phys flags s) root v = large_entry s root v.
Proof.
  intros Hwf Ht. destruct (map_page_cases s root virt phys flags Hwf Ht) as (s1 & ws & E & Hcase). rewrite <- (ext_large _ _ _ _ E).
  destruct Hcase as [[-> _]|(pt & Hd & _ & ->)]; [done|]. pose proof (ext_tree _ _ _ _ E) as T1.
  destruct (leaf_write s1 root virt pt (Z.lor (Z.lor (Z.land phys mask) flags) 1) (ext_wf _ _ _ _ E) T1 Hd) as (_ & D & W & _).
  unfold large_entry. rewrite D by apply valid_dir. destruct (descend s1 root 0 (dir_path v)) as [pd|] eqn:Ed; [|done]. cbn [mbind option_bind].
  destruct (tree_frame _ _ T1 _ _ (valid_dir v) Ed) as [Hpd _]. rewrite W; [done|done|apply pd_range|].
  intros [-> _]. pose proof (tree_inj _ _ T1 _ _ _ (valid_dir v) (valid_table virt) Ed Hd) as H. discriminate H.
Qed.

(** ** The loop ends *)

Lemma within_count p s s' : wf s -> within p s s' -> wf s' /\ pmm_free_count s' = pmm_free_count s.
Proof.
  intros (? & ? & ? & ?) (Hb & Hc & _). split; [|by apply free_count_bitmap]. unfold wf. rewrite Hb, Hc. tauto.
Qed.

Lemma load_page_takes data ph pml4 vp s s' : wf s -> load_page data ph pml4 vp s = Some (s', true) ->
  wf s' /\ pmm_free_count s' < pmm_free_count s.
Proof.
  intros Hwf. unfold load_page. destruct (pmm_alloc_frame s) as [s0 p] eqn:EA. destruct (Z.eqb_spec p 0) as [->|Hp]; [done|].
  pose proof (alloc_frame_spec s Hwf) as Ha. pose proof (alloc_frame_counts s Hwf) as Hc. rewrite EA in Ha, Hc. clear EA.
  destruct Hc as [_ Hc]. specialize (Hc Hp). destruct Ha as (Hw0 & _).
  destruct (within_count p s0 (vmm_zero_frame p s0) Hw0 (zero_frame_within s0 p)) as [W1 C1].
  generalize dependent (vmm_zero_frame p s0). intros s1 W1 C1. cbv zeta. intros H.
  apply bind_Some in H as (s2 & H2 & [= <-]).
  assert (wf s2 /\ pmm_free_count s2 = pmm_free_count s1) as [W2 C2].
  { revert H2. case_if; [|intros H2; injection H2 as <-; exact (conj W1 eq_refl)]. case_if; [discriminate|].
    intros H2. injection H2 as <-. unfold vmm_copy_to_frame.
    apply (iter_ind (fun _ s' => wf s' /\ pmm_free_count s' = pmm_free_count s1)); [exact (conj W1 eq_refl)|]. intros i s2 _ [W C].
    split; [exact W|]. rewrite <- C. by apply free_count_bitmap. }
  destruct (map_page_grows pml4 vp p 7 s2 W2) as (W3 & C3 & _). split; [done|lia].
Qed.

Lemma free_count_nonneg s : 0 <= pmm_free_count s.
Proof. rewrite free_count_frames. apply count_range. Qed.

Lemma free_count_bound s : pmm_free_count s <= 14336.
Proof.
  rewrite free_count_frames. pose proof (count_range (fun f => negb (bitmap_test f s)) (Z.to_nat (TOTAL_FRAMES - KERNEL_RESERVED_FRAMES)) KERNEL_RESERVED_FRAMES) as [_ H].
  rewrite Z2Nat.id in H by done. exact H.
Qed.

(** With more rounds than free frames the bound on the loop is never met. *)
Lemma load_pages_fuel data ph pml4 vend n : forall m vp s, wf s -> pmm_free_count s < Z.of_nat n -> (n <= m)%nat ->
  load_pages m data ph pml4 vp vend s = load_pages n data ph pml4 vp vend s.
Proof.
  induction n as [|n IH]; intros m vp s Hwf Hc Hm.
  { pose proof (free_count_nonneg s). lia. }
  destruct m as [|m]; [lia|]. cbn [load_pages]. case_if; [|done]. destruct (load_page data ph pml4 vp s) as [[s' [|]]|] eqn:El; cbn; [|done|done].
  destruct (load_page_takes _ _ _ _ _ _ Hwf El) as [W C]. apply IH; [done|lia|lia].
Qed.

(** ** What a loaded segment contains *)

(** The byte at virtual address [v] through the tables of [root]. *)
Definition user_byte (s : State) (root v : Z) : Z := get_byte s (vmm_get_phys root v s + v mod PAGE_SIZE).

(** The byte the file gives for [v]: bytes past p_filesz are zero. *)
Definition seg_byte (data : list Z) (ph : Elf64_Phdr) (v : Z) : Z :=
  if (p_vaddr ph <=? v) && (v <? p_vaddr ph + p_filesz ph) then data.[p_offset ph + (v - p_vaddr ph)] else 0.

(** The segment lies in the file and in the lower half of the address space. *)
Definition seg_ok (data : list Z) (ph : Elf64_Phdr) : Prop :=
  0 <= p_vaddr ph /\ 0 <= p_filesz ph <= p_memsz ph /\ p_vaddr ph + p_memsz ph + PAGE_SIZE <= 2 ^ 47 /\
  0 <= p_offset ph /\ p_offset ph + p_filesz ph <= zlen data /\ zlen data < 2 ^ 32.

(** Virtual addresses of the lower half are on the same page if their page numbers agree. *)
Lemma idx_eq v k : 0 <= v -> 0 <= k -> Z.land (Z.shiftr v k) 0x1FF = v / 2 ^ k mod 512.
Proof. intros. change 0x1FF with (Z.ones 9). by rewrite Z.land_ones, Z.shiftr_div_pow2 by lia. Qed.

Lemma same_page_number v v' : 0 <= v < 2 ^ 48 -> 0 <= v' < 2 ^ 48 -> same_page v v' <-> v / PAGE_SIZE = v' / PAGE_SIZE.
Proof.
  intros Hv Hv'. unfold same_page, table_path, pml4_idx, pdpt_idx, pd_idx, pt_idx. rewrite !idx_eq by lia.
  assert (forall w, w / 2 ^ 21 = w / 2 ^ 12 / 512 /\ w / 2 ^ 30 = w / 2 ^ 12 / 512 / 512 /\ w / 2 ^ 39 = w / 2 ^ 12 / 512 / 512 / 512) as Hd
    by (intros w; rewrite !Z.div_div by lia; repeat split; f_equal).
  destruct (Hd v) as (-> & -> & ->), (Hd v') as (-> & -> & ->). clear Hd. change PAGE_SIZE with (2 ^ 12).
  assert (forall w, 0 <= w < 2 ^ 48 -> 0 <= w / 2 ^ 12 < 2 ^ 36) as Hr
    by (intros w Hw; split; [apply Z.div_pos; lia|apply Z.div_lt_upper_bound; lia]).
  apply Hr in Hv, Hv'. revert Hv Hv'. generalize (v / 2 ^ 12), (v' / 2 ^ 12). clear v v' Hr. intros n m Hn Hm.
  split; [|intros ->; done]. intros [[= H1 H2 H3] H4].
  assert (forall w, 0 <= w < 2 ^ 36 -> 0 <= w / 512 / 512 / 512 < 512) as Hr
    by (intros w Hw; rewrite !Z.div_div by lia; split; [apply Z.div_pos; lia|apply Z.div_lt_upper_bound; lia]).
  rewrite !(Z.mod_small (_ / 512 / 512 / 512)) in H1 by auto.
  pose proof (Z.div_mod (n / 512 / 512) 512). pose proof (Z.div_mod (m / 512 / 512) 512).
  pose proof (Z.div_mod (n / 512) 512). pose proof (Z.div_mod (m / 512) 512). pose proof (Z.div_mod n 512). pose proof (Z.div_mod m 512). lia.
Qed.

Lemma page_of_div v : 0 <= v < 2 ^ 64 -> page_of v = PAGE_SIZE * (v / PAGE_SIZE).
Proof.
  intros Hv. unfold page_of. apply Z.bits_inj'. intros i Hi. rewrite Z.land_spec, testbit_mask by done. change PAGE_SIZE with (2 ^ 12).
  rewrite Z.mul_comm, <- Z.shiftr_div_pow2, <- Z.shiftl_mul_pow2 by lia. rewrite Z.shiftl_spec by done. destruct (Z.leb_spec 12 i).
  - rewrite Z.shiftr_spec by lia. replace (i - 12 + 12) with i by lia. destruct (Z.ltb_spec i 64); [apply andb_true_r|].
    rewrite (bits_high 64) by lia. done.
  - rewrite (Z.testbit_neg_r _ (i - 12)) by lia. apply andb_false_r.
Qed.

(** ** What loading keeps: the translations outside the pages [P], the frames of data
    and the 2 MB pages. *)
Record keeps (root : Z) (P : Z -> Prop) (s s' : State) : Prop := {
  keeps_phys v : 0 <= v < 2 ^ 48 -> ~ P (v / PAGE_SIZE) -> vmm_get_phys root v s' = vmm_get_phys root v s;
  keeps_frame u : data_frame s root u -> data_frame s' root u;
  keeps_byte u k : data_frame s root u -> 0 <= k < PAGE_SIZE -> get_byte s' (u + k) = get_byte s (u + k);
  keeps_used u : frame_addr u -> frame_used u s = true -> frame_used u s' = true;
  keeps_large v : large_entry s' root v = large_entry s root v
}.

Lemma keeps_refl root P s : keeps root P s s.
Proof. split; done. Qed.

Lemma keeps_trans root P Q R s1 s2 s3 : keeps root P s1 s2 -> keeps root Q s2 s3 -> (forall n, P n \/ Q n -> R n) -> keeps root R s1 s3.
Proof.
  intros [A1 A2 A3 A4 A5] [B1 B2 B3 B4 B5] HR. split.
  - intros v Hv Hn. rewrite B1, A1; auto.
  - auto.
  - intros u k Hu Hk. rewrite B3, A3; auto.
  - auto.
  - intros v. by rewrite B5.
Qed.

Lemma same_tables_large s s' root v : same_tables s s' root -> large_entry s' root v = large_entry s root v.
Proof.
  intros Hs. unfold large_entry. rewrite (descend_same s s' root) by (done || apply valid_dir).
  destruct (descend s root 0 (dir_path v)) as [pd|] eqn:E; [|done]. cbn. rewrite (Hs (dir_path v) pd); [done|apply valid_dir|apply pd_range|done].
Qed.

Lemma keeps_same root P s s' : same_tables s s' root -> tree s root ->
  (forall u, frame_addr u -> frame_used u s = true -> frame_used u s' = true /\ forall j, 0 <= j < 512 -> entry s' u j = entry s u j) ->
  keeps root P s s'.
Proof.
  intros Hs Ht Hu. split.
  - intros v _ _. apply get_phys_same; [done|apply Ht].
  - intros u (Ha & Hus & Hn). split; [done|]. split; [by apply Hu|]. intros q Hq. rewrite (descend_same s) by done. by apply Hn.
  - intros u k (Ha & Hus & _) Hk. destruct (frame_byte_entry s u k Ha Hk) as [-> Hj]. destruct (frame_byte_entry s' u k Ha Hk) as [-> _].
    by rewrite (proj2 (Hu u Ha Hus)).
  - intros u Ha Hus. by apply Hu.
  - intros v. by apply same_tables_large.
Qed.

(** A frame that is allocated, zeroed and partly overwritten. *)
Lemma fill_frame s s0 root p off src len :
  wf s -> tree s root -> pmm_alloc_frame s = (s0, p) -> p <> 0 -> 0 <= off -> 0 <= len -> off + len <= PAGE_SIZE ->
  let s2 := vmm_copy_to_frame p off src len (vmm_zero_frame p s0) in
  wf s2 /\ tree s2 root /\ keeps root (fun _ => False) s s2 /\ data_frame s2 root p /\ frame_used p s = false /\
  pmm_free_count s - 1 <= pmm_free_count s2 /\
  forall k, 0 <= k < PAGE_SIZE -> get_byte s2 (p + k) = if (off <=? k) && (k <? off + len) then u8 src.[k - off] else 0.
Proof.
  intros Hwf Ht EA Hp Ho Hl Hol. destruct (alloc_zero s s0 p Hwf EA Hp) as (W1 & Ha & Hf & C1 & _ & U1 & Z1 & E1).
  assert (forall k, 0 <= k < PAGE_SIZE -> get_byte (zero_frame p s0) (p + k) = 0) as B1 by (intros; by apply zero_byte).
  unfold vmm_zero_frame. clear EA. generalize dependent (zero_frame p s0). intros s1 W1 C1 U1 Z1 E1 B1. cbv zeta.
  pose proof (copy_within p off src len s1 Ho Hol (proj1 Ha)) as Hw. destruct (within_count _ _ _ W1 Hw) as [W2 C2].
  destruct Hw as (Hb & _ & _ & Hm).
  assert (forall k, 0 <= k < PAGE_SIZE -> get_byte (vmm_copy_to_frame p off src len s1) (p + k) =
    if (off <=? k) && (k <? off + len) then u8 src.[k - off] else 0) as B2.
  { intros k Hk. rewrite copy_byte, B1 by done. replace (p + k - (p + off)) with (k - off) by lia.
    replace (p + off <=? p + k) with (off <=? k) by (apply eq_true_iff_eq; rewrite !Z.leb_le; lia).
    replace (p + k <? p + off + len) with (k <? off + len) by (apply eq_true_iff_eq; rewrite !Z.ltb_lt; lia).
    reflexivity. }
  generalize dependent (vmm_copy_to_frame p off src len s1). intros s2 Hb Hm W2 C2 B2.
  assert (forall u, frame_addr u -> frame_used u s2 = (u =? p) || frame_used u s) as U2
    by (intros u Hu; rewrite <- U1 by done; unfold frame_used, bitmap_test; by rewrite Hb).
  assert (forall u j, frame_addr u -> frame_used u s = true -> 0 <= j < 512 -> entry s2 u j = entry s u j) as E2.
  { intros u j Hu Hus Hj. assert (u <> p) as Hne by congruence. rewrite <- (E1 u j) by done. unfold entry. apply Hm. by apply slot_in_frame. }
  assert (same_tables s s2 root) as Hs.
  { intros q t j Hq Hj Hd. destruct (tree_frame _ _ Ht q t Hq Hd). by apply E2. }
  assert (forall u, frame_addr u -> frame_used u s = true -> frame_used u s2 = true) as U3
    by (intros u Hu Hus; rewrite U2, Hus by done; apply orb_true_r).
  split; [done|]. split; [by apply (tree_same s)|]. split; [apply keeps_same; auto|]. split; [|split; [done|split; [lia|done]]].
  split; [done|]. split; [rewrite U2, Z.eqb_refl by done; done|]. intros q Hq Hd. rewrite (descend_same s) in Hd by done.
  destruct (tree_frame _ _ Ht q p Hq Hd). congruence.
Qed.

(** Mapping a frame of data. *)
Lemma keeps_map s root virt u : wf s -> tree s root -> 3 <= pmm_free_count s -> data_frame s root u -> large_entry s root virt = None ->
  0 <= virt < 2 ^ 48 ->
  let s' := vmm_map_page root virt u 7 s in
  wf s' /\ tree s' root /\ pmm_free_count s - 3 <= pmm_free_count s' /\ keeps root (fun n => n = virt / PAGE_SIZE) s s' /\
  forall v, 0 <= v < 2 ^ 48 -> v / PAGE_SIZE = virt / PAGE_SIZE -> vmm_get_phys root v s' = u.
Proof.
  intros Hwf Ht Hc Hd Hl Hv. cbv zeta. destruct (map_page_grows root virt u 7 s Hwf) as (W & C & _).
  destruct (map_page_spec s root virt u 7 Hwf Ht ltac:(lia) Hc) as [T P].
  pose proof (fun w => map_page_data s root virt u 7 w Hwf Ht) as D. pose proof (fun v => map_page_large s root virt u 7 v Hwf Ht) as L.
  pose proof (fun w => map_page_used s root virt u 7 w Hwf Ht) as U. cbv zeta in D.
  generalize dependent (vmm_map_page root virt u 7 s). intros s' W C T P D L U.
  split; [done|]. split; [done|]. split; [lia|]. split; [split|].
  - intros v Hv' Hn. rewrite P, Hl. apply decide_False. by rewrite same_page_number by lia.
  - intros w Hw. by apply D.
  - intros w k Hw Hk. pose proof Hw as (Ha & _). destruct (frame_byte_entry s w k Ha Hk) as [-> Hj]. destruct (frame_byte_entry s' w k Ha Hk) as [-> _].
    by rewrite (proj2 (D w Hw)).
  - exact U.
  - done.
  - intros v Hv' Hn. rewrite P, Hl. rewrite decide_True by (rewrite same_page_number by lia; done).
    destruct Hd as ((Hp & Hr) & _). unfold TOTAL_FRAMES, PAGE_SIZE in Hr.
    pose proof (page_of_div u ltac:(lia)) as E. unfold page_of in E. rewrite E. pose proof (Z.div_mod u PAGE_SIZE). unfold PAGE_SIZE in *. lia.
Qed.

(** Page [n] of the segment is mapped to a frame of its own, free in [s0], with the bytes
    of the file. *)
Definition page_loaded (s0 s : State) (root : Z) (data : list Z) (ph : Elf64_Phdr) (n : Z) : Prop :=
  exists u, data_frame s root u /\ frame_used u s0 = false /\
    forall v, 0 <= v < 2 ^ 48 -> v / PAGE_SIZE = n -> vmm_get_phys root v s = u /\ user_byte s root v = seg_byte data ph v.

Lemma page_loaded_keeps s0 s s' root data ph n (P : Z -> Prop) :
  keeps root P s s' -> ~ P n -> page_loaded s0 s root data ph n -> page_loaded s0 s' root data ph n.
Proof.
  intros K Hn (u & Hd & Hf & Hv). exists u. split; [by apply (keeps_frame _ _ _ _ K)|]. split; [done|]. intros v Hr Hp.
  destruct (Hv v Hr Hp) as [E1 E2]. unfold user_byte in *. rewrite (keeps_phys _ _ _ _ K) by (done || by rewrite Hp). rewrite E1 in *. split; [done|].
  rewrite (keeps_byte _ _ _ _ K); [done|done|]. apply Z.mod_pos_bound. done.
Qed.

(** The bytes that are copied into a page are those of the file. *)
Lemma copied_byte data ph vp k : seg_ok data ph -> Forall byte data -> 0 <= k < PAGE_SIZE ->
  let cs := if p_vaddr ph <? vp then vp else p_vaddr ph in
  let ce := if p_vaddr ph + p_filesz ph <? vp + PAGE_SIZE then p_vaddr ph + p_filesz ph else vp + PAGE_SIZE in
  0 <= vp ->
  (if (cs <=? vp + k) && (vp + k <? ce) then u8 (drop (Z.to_nat (p_offset ph + (cs - p_vaddr ph))) data).[vp + k - cs] else 0) =
  seg_byte data ph (vp + k).
Proof.
  intros (H1 & H2 & H3 & H4 & H5 & H6) Hb Hk cs ce Hvp. unfold seg_byte.
  replace ((cs <=? vp + k) && (vp + k <? ce)) with ((p_vaddr ph <=? vp + k) && (vp + k <? p_vaddr ph + p_filesz ph)).
  2:{ apply eq_true_iff_eq. rewrite !andb_true_iff, !Z.leb_le, !Z.ltb_lt. subst cs ce.
      destruct (Z.ltb_spec (p_vaddr ph) vp), (Z.ltb_spec (p_vaddr ph + p_filesz ph) (vp + PAGE_SIZE)); lia. }
  destruct (Z.leb_spec (p_vaddr ph) (vp + k)), (Z.ltb_spec (vp + k) (p_vaddr ph + p_filesz ph)); cbn [andb]; [|reflexivity..].
  assert (cs <= vp + k /\ p_vaddr ph <= cs) as [Hc Hc'] by (subst cs; destruct (Z.ltb_spec (p_vaddr ph) vp); lia).
  unfold aget at 1. rewrite lookup_total_drop, <- Z2Nat.inj_add by lia.
  replace (p_offset ph + (cs - p_vaddr ph) + (vp + k - cs)) with (p_offset ph + (vp + k - p_vaddr ph)) by lia. fold (aget data (p_offset ph + (vp + k - p_vaddr ph))).
  apply u8_small. rewrite Forall_aget in Hb. apply Hb. lia.
Qed.

Lemma load_page_spec data ph root vp s0 s : seg_ok data ph -> Forall byte data ->
  0 <= vp -> vp mod PAGE_SIZE = 0 -> p_vaddr ph < vp + PAGE_SIZE -> vp < p_vaddr ph + p_memsz ph ->
  wf s -> tree s root -> large_entry s root vp = None -> 4 <= pmm_free_count s ->
  (forall u, frame_addr u -> frame_used u s0 = true -> frame_used u s = true) ->
  exists s', load_page data ph root vp s = Some (s', true) /\ wf s' /\ tree s' root /\ pmm_free_count s - 4 <= pmm_free_count s' /\
    keeps root (fun n => n = vp / PAGE_SIZE) s s' /\ page_loaded s0 s' root data ph (vp / PAGE_SIZE).
Proof.
  intros Hok Hb Hvp Hal H1 H2 Hwf Ht Hl Hc Hused. pose proof Hok as (O1 & O2 & O3 & O4 & O5 & O6).
  destruct (alloc_succeeds s Hwf ltac:(lia)) as (s1 & p & EA & Hp). unfold load_page. rewrite EA, (proj2 (Z.eqb_neq p 0)) by done. cbv zeta.
  assert (PAGE_SIZE = 4096) as HP by reflexivity. rewrite (u64_small (p_vaddr ph + p_filesz ph)), (u64_small (vp + PAGE_SIZE)) by lia.
  set (cs := if p_vaddr ph <? vp then vp else p_vaddr ph). set (ce := if p_vaddr ph + p_filesz ph <? vp + PAGE_SIZE then _ else _).
  assert (vp <= cs /\ p_vaddr ph <= cs /\ cs < vp + PAGE_SIZE) as Hcs by (subst cs; destruct (Z.ltb_spec (p_vaddr ph) vp); lia).
  assert (ce <= vp + PAGE_SIZE /\ ce <= p_vaddr ph + p_filesz ph) as Hce
    by (subst ce; destruct (Z.ltb_spec (p_vaddr ph + p_filesz ph) (vp + PAGE_SIZE)); lia).
  set (len := Z.max 0 (ce - cs)). set (src := drop (Z.to_nat (p_offset ph + (cs - p_vaddr ph))) data).
  assert (exists s2, (if cs <? ce then
           if zlen data <? u64 (p_offset ph + u64 (cs - p_vaddr ph)) + (ce - cs) then None
           else Some (vmm_copy_to_frame p (cs - vp) (drop (Z.to_nat (u64 (p_offset ph + u64 (cs - p_vaddr ph)))) data) (ce - cs) (vmm_zero_frame p s1))
         else Some (vmm_zero_frame p s1)) = Some s2 /\ s2 = vmm_copy_to_frame p (cs - vp) src len (vmm_zero_frame p s1)) as (s2 & -> & E2).
  { destruct (Z.ltb_spec cs ce).
    - rewrite (u64_small (cs - _)), u64_small by lia. rewrite (proj2 (Z.ltb_ge _ _)) by lia. eexists. split; [reflexivity|]. subst src len. by rewrite Z.max_r by lia.
    - eexists. split; [reflexivity|]. subst len. by rewrite Z.max_l by lia. }
  pose proof (fill_frame s s1 root p (cs - vp) src len Hwf Ht EA Hp ltac:(lia) ltac:(lia) ltac:(lia)) as F. cbv zeta in F. rewrite <- E2 in F.
  clear E2 EA. destruct F as (W2 & T2 & K2 & D2 & F2 & C2 & B2). cbn [mbind option_bind].
  assert (large_entry s2 root vp = None) as L2 by (by rewrite (keeps_large _ _ _ _ K2)).
  destruct (keeps_map s2 root vp p W2 T2 ltac:(lia) D2 L2 ltac:(lia)) as (W3 & T3 & C3 & K3 & P3).
  generalize dependent (vmm_map_page root vp p 7 s2). intros s3 W3 T3 C3 K3 P3.
  exists s3. split; [reflexivity|]. split; [exact W3|]. split; [exact T3|]. split; [lia|].
  split; [apply (keeps_trans _ _ _ _ _ _ _ K2 K3); intros n [[]|H]; exact H|].
  exists p. split; [exact (keeps_frame _ _ _ _ K3 _ D2)|]. split.
  { destruct (frame_used p s0) eqn:E; [|reflexivity]. rewrite (Hused p) in F2; [done|apply D2|exact E]. }
  intros v Hv Hn. rewrite (P3 v Hv Hn). split; [reflexivity|]. unfold user_byte. rewrite (P3 v Hv Hn).
  pose proof (Z.mod_pos_bound v PAGE_SIZE ltac:(lia)) as Hm. rewrite (keeps_byte _ _ _ _ K3) by done. rewrite B2 by done.
  assert (v = vp + v mod PAGE_SIZE) as Ev by (pose proof (Z.div_mod v PAGE_SIZE); pose proof (Z.div_mod vp PAGE_SIZE); lia).
  rewrite Ev at 4. rewrite <- copied_byte by done. fold cs ce.
  replace (v mod PAGE_SIZE - (cs - vp)) with (vp + v mod PAGE_SIZE - cs) by lia. subst src.
  match goal with |- (if ?a then _ else _) = (if ?b then _ else _) => replace a with b; [reflexivity|] end.
  apply eq_true_iff_eq. rewrite !andb_true_iff, !Z.leb_le, !Z.ltb_lt. subst len. lia.
Qed.

(** The page numbers of a segment. *)
Definition last_page (ph : Elf64_Phdr) : Z := (p_vaddr ph + p_memsz ph + PAGE_SIZE - 1) / PAGE_SIZE.
Definition seg_pages (ph : Elf64_Phdr) : list Z := seqZ (p_vaddr ph / PAGE_SIZE) (last_page ph - p_vaddr ph / PAGE_SIZE).

Lemma load_pages_spec data ph root s0 n : seg_ok data ph -> Forall byte data -> forall m fuel s,
  p_vaddr ph / PAGE_SIZE <= m -> m + Z.of_nat n = last_page ph -> (n < fuel)%nat ->
  wf s -> tree s root -> (forall k, m <= k < m + Z.of_nat n -> large_entry s root (PAGE_SIZE * k) = None) -> 4 * Z.of_nat n <= pmm_free_count s ->
  (forall u, frame_addr u -> frame_used u s0 = true -> frame_used u s = true) ->
  exists s', load_pages fuel data ph root (PAGE_SIZE * m) (PAGE_SIZE * last_page ph) s = Some (s', true) /\ wf s' /\ tree s' root /\
    pmm_free_count s - 4 * Z.of_nat n <= pmm_free_count s' /\ keeps root (fun k => m <= k < m + Z.of_nat n) s s' /\
    forall k, m <= k < m + Z.of_nat n -> page_loaded s0 s' root data ph k.
Proof.
  intros Hok Hb. pose proof Hok as (O1 & O2 & O3 & _). assert (PAGE_SIZE = 4096) as HP by reflexivity.
  induction n as [|n IH]; intros m fuel s Hm Hn Hf Hwf Ht Hl Hc Hu; (destruct fuel as [|fuel]; [lia|]); cbn [load_pages].
  - rewrite (proj2 (Z.ltb_ge (PAGE_SIZE * m) _)) by lia. exists s. split; [reflexivity|]. split; [done|]. split; [done|]. split; [lia|].
    split; [apply keeps_refl|]. intros k Hk. lia.
  - rewrite (proj2 (Z.ltb_lt (PAGE_SIZE * m) _)) by lia. unfold last_page in Hn.
    pose proof (Z.div_mod (p_vaddr ph + p_memsz ph + PAGE_SIZE - 1) PAGE_SIZE ltac:(lia)) as D1.
    pose proof (Z.mod_pos_bound (p_vaddr ph + p_memsz ph + PAGE_SIZE - 1) PAGE_SIZE ltac:(lia)) as M1.
    pose proof (Z.div_mod (p_vaddr ph) PAGE_SIZE ltac:(lia)) as D2. pose proof (Z.mod_pos_bound (p_vaddr ph) PAGE_SIZE ltac:(lia)) as M2.
    assert (0 <= p_vaddr ph / PAGE_SIZE) as M3 by (apply Z.div_pos; lia).
    assert (PAGE_SIZE * m / PAGE_SIZE = m) as Em by (rewrite Z.mul_comm; by apply Z.div_mul).
    destruct (load_page_spec data ph root (PAGE_SIZE * m) s0 s Hok Hb ltac:(lia) ltac:(rewrite Z.mul_comm; by apply Z.mod_mul) ltac:(lia) ltac:(lia)
      Hwf Ht (Hl m ltac:(lia)) ltac:(lia) Hu) as (s1 & -> & W1 & T1 & C1 & K1 & L1). rewrite Em in K1, L1. cbn [mbind option_bind].
    rewrite u64_small by lia. replace (PAGE_SIZE * m + PAGE_SIZE) with (PAGE_SIZE * (m + 1)) by lia.
    destruct (IH (m + 1) fuel s1) as (s2 & E & W2 & T2 & C2 & K2 & L2); try done; try lia.
    { unfold last_page. lia. }
    { intros k Hk. rewrite (keeps_large _ _ _ _ K1). apply Hl. lia. }
    { intros u Ha Hus. apply (keeps_used _ _ _ _ K1); auto. }
    exists s2. split; [exact E|]. split; [done|]. split; [done|]. split; [lia|].
    split; [apply (keeps_trans _ _ _ _ _ _ _ K1 K2); intros k Hk; lia|]. intros k Hk.
    destruct (Z.eq_dec k m) as [->|Hne]; [|apply L2; lia]. apply (page_loaded_keeps _ _ _ _ _ _ _ _ K2); [lia|done].
Qed.

Lemma load_segment_spec data ph root s0 s : seg_ok data ph -> Forall byte data -> wf s -> tree s root ->
  (forall k, k ∈ seg_pages ph -> large_entry s root (PAGE_SIZE * k) = None) -> 4 * zlen (seg_pages ph) <= pmm_free_count s ->
  (forall u, frame_addr u -> frame_used u s0 = true -> frame_used u s = true) ->
  exists s', load_segment data ph root s = Some (s', true) /\ wf s' /\ tree s' root /\
    pmm_free_count s - 4 * zlen (seg_pages ph) <= pmm_free_count s' /\ keeps root (fun k => k ∈ seg_pages ph) s s' /\
    forall k, k ∈ seg_pages ph -> page_loaded s0 s' root data ph k.
Proof.
  intros Hok Hb Hwf Ht Hl Hc Hu. pose proof Hok as (O1 & O2 & O3 & _). assert (PAGE_SIZE = 4096) as HP by reflexivity. unfold load_segment, virt_end_of.
  rewrite u64_small, !page_of_div by lia. fold (last_page ph).
  assert (p_vaddr ph / PAGE_SIZE <= last_page ph) as Hle by (apply Z.div_le_mono; lia).
  assert (zlen (seg_pages ph) = last_page ph - p_vaddr ph / PAGE_SIZE) as En by (unfold zlen, seg_pages; rewrite length_seqZ; lia).
  assert (forall k, k ∈ seg_pages ph <-> p_vaddr ph / PAGE_SIZE <= k < p_vaddr ph / PAGE_SIZE + Z.of_nat (length (seg_pages ph))) as Hin
    by (intros k; unfold seg_pages at 1; rewrite elem_of_seqZ; fold (zlen (seg_pages ph)); lia).
  pose proof (free_count_bound s) as Hbd. unfold zlen in *.
  assert (length (seg_pages ph) < Z.to_nat TOTAL_FRAMES)%nat as Hfu by (unfold TOTAL_FRAMES; lia).
  destruct (load_pages_spec data ph root s0 (length (seg_pages ph)) Hok Hb (p_vaddr ph / PAGE_SIZE) (Z.to_nat TOTAL_FRAMES) s)
    as (s' & E & W & T & C & K & L); try done; try lia.
  { intros k Hk. by apply Hl, Hin. }
  exists s'. split; [exact E|]. split; [done|]. split; [done|]. split; [lia|]. split.
  - destruct K as [K1 K2 K3 K4 K5]. split; [|done..]. intros v Hv Hn. apply K1; [done|]. by rewrite <- Hin.
  - intros k Hk. by apply L, Hin.
Qed.

(** ** Whole files *)

(** The segments to load, from program header [i] on. *)
Fixpoint segments (n : nat) (i : Z) (data : list Z) (hdr : Elf64_Ehdr) : option (list Elf64_Phdr) :=
  match n with
  | O => Some []
  | S n =>
      let ph_off := e_phoff hdr + i * e_phentsize hdr in
      if zlen data <? ph_off + e_phentsize hdr then None
      else
        ty ← rd data ph_off 4;
        rest ← segments n (i + 1) data hdr;
        if ty =? 1 then ph ← read_phdr data ph_off; Some (ph :: rest) else Some rest
  end.

(** An executable the kernel accepts. *)
Record executable (data : list Z) (hdr : Elf64_Ehdr) (image : list Elf64_Phdr) : Prop := {
  exe_bytes : Forall byte data;
  exe_size : 64 <= zlen data < 2 ^ 32;
  exe_hdr : read_ehdr data = Some hdr;
  exe_magic : take 4 (e_ident hdr) = [0x7F; 69; 76; 70] /\ (e_ident hdr).[4] = 2;
  exe_kind : e_type hdr = 2 /\ e_machine hdr = 0x3E /\ e_phnum hdr <> 0;
  exe_segments : segments (Z.to_nat (e_phnum hdr)) 0 data hdr = Some image;
  exe_in_file : Forall (seg_ok data) image;
  exe_disjoint : NoDup (image ≫= seg_pages)
}.

Lemma le_nonneg l : Forall byte l -> 0 <= le l.
Proof. induction 1 as [|b l Hb _ IH]; cbn; [done|]. unfold byte in Hb. fold (le l). lia. Qed.

Lemma rd_nonneg data off n v : Forall byte data -> rd data off n = Some v -> 0 <= v.
Proof. intros Hb. unfold rd. case_if; [|done]. intros [= <-]. by apply le_nonneg, Forall_take, Forall_drop. Qed.

Lemma ehdr_nonneg data hdr : Forall byte data -> read_ehdr data = Some hdr -> 0 <= e_phoff hdr /\ 0 <= e_phentsize hdr.
Proof.
  intros Hb H. unfold read_ehdr in H. repeat (apply bind_Some in H as (? & ? & H)). injection H as <-. cbn. eauto using rd_nonneg.
Qed.

Lemma load_headers_spec data hdr root s0 n : Forall byte data -> zlen data < 2 ^ 32 -> 0 <= e_phoff hdr -> 0 <= e_phentsize hdr -> forall i image s,
  0 <= i -> segments n i data hdr = Some image -> Forall (seg_ok data) image -> NoDup (image ≫= seg_pages) -> wf s -> tree s root ->
  (forall k, k ∈ image ≫= seg_pages -> large_entry s root (PAGE_SIZE * k) = None) -> 4 * zlen (image ≫= seg_pages) <= pmm_free_count s ->
  (forall u, frame_addr u -> frame_used u s0 = true -> frame_used u s = true) ->
  exists s', load_headers n i data (zlen data) hdr root s = Some (s', e_entry hdr) /\ wf s' /\ tree s' root /\
    keeps root (fun k => k ∈ image ≫= seg_pages) s s' /\
    forall ph k, ph ∈ image -> k ∈ seg_pages ph -> page_loaded s0 s' root data ph k.
Proof.
  intros Hb Hsz Hpo Hpe. induction n as [|n IH]; intros i image s Hi; cbn [segments load_headers].
  { intros [= <-] _ _ Hwf Ht _ _ _. exists s. split; [reflexivity|]. split; [done|]. split; [done|]. split; [apply keeps_refl|].
    intros ph k H. by apply elem_of_nil in H. }
  destruct (Z.ltb_spec (zlen data) (e_phoff hdr + i * e_phentsize hdr + e_phentsize hdr)); [discriminate|].
  assert (0 <= i * e_phentsize hdr) as Hie by (by apply Z.mul_nonneg_nonneg).
  rewrite (u64_small (e_phoff hdr + i * e_phentsize hdr)), u64_small by lia. rewrite (proj2 (Z.ltb_ge (zlen data) _)) by lia.
  destruct (rd data _ 4) as [ty|]; cbn [mbind option_bind]; [|discriminate]. intros Hseg. apply bind_Some in Hseg as (rest & Hrest & Hseg).
  destruct (Z.eqb_spec ty 1); cbn [negb].
  2:{ injection Hseg as <-. apply IH; [lia|done]. }
  apply bind_Some in Hseg as (ph & -> & [= <-]). cbn [mbind option_bind list_bind]. intros [Hok Hoks]%Forall_cons_1 Hnd Hwf Ht Hl Hc Hu.
  pose proof Hok as (_ & O2 & _ & O4 & O5 & _).
  assert (in_file (zlen data) ph = true) as ->.
  { unfold in_file. rewrite u64_small by lia. apply orb_true_iff. rewrite Z.eqb_eq, andb_true_iff, Z.ltb_lt, Z.leb_le. lia. }
  cbn [negb]. apply list.NoDup_app in Hnd as (_ & Hdis & Hnd). fold (mbind seg_pages rest) in *. unfold zlen in Hc. rewrite length_app in Hc. fold (zlen (seg_pages ph)) in Hc.
  destruct (load_segment_spec data ph root s0 s Hok Hb Hwf Ht) as (s1 & -> & W1 & T1 & C1 & K1 & L1);
    [intros k Hk; apply Hl, elem_of_app; by left|unfold zlen; lia|done|]. cbn [mbind option_bind].
  destruct (IH (i + 1) rest s1) as (s2 & -> & W2 & T2 & K2 & L2); try done; [lia| | | |].
  { intros k Hk. rewrite (keeps_large _ _ _ _ K1). apply Hl, elem_of_app. by right. }
  { unfold zlen in *. lia. }
  { intros u Ha Hus. apply (keeps_used _ _ _ _ K1); auto. }
  exists s2. split; [reflexivity|]. split; [done|]. split; [done|].
  split; [apply (keeps_trans _ _ _ _ _ _ _ K1 K2); intros k Hk; by apply elem_of_app|].
  intros ph' k [->|Hin]%elem_of_cons Hk; [|by apply L2]. apply (page_loaded_keeps _ _ _ _ _ _ _ _ K2); [by apply Hdis|by apply L1].
Qed.

(** C5: An executable is loaded.  When the segments lie in the file, on pages of their own that
    no 2 MB page covers, and four frames are free for each page, elf_load() returns the entry
    point; every page of a segment is mapped to a frame that was free and holds, at each
    virtual address, the byte of the file or zero; no other translation changes. *)
Theorem elf_load_executable s root data hdr image :
  wf s -> tree s root -> executable data hdr image ->
  (forall k, k ∈ image ≫= seg_pages -> large_entry s root (PAGE_SIZE * k) = None) ->
  4 * zlen (image ≫= seg_pages) <= pmm_free_count s ->
  exists s', elf_load data (zlen data) root s = Some (s', e_entry hdr) /\ wf s' /\ tree s' root /\
    (forall ph v, ph ∈ image -> 0 <= v < 2 ^ 48 -> v / PAGE_SIZE ∈ seg_pages ph ->
       frame_used (vmm_get_phys root v s') s = false /\ user_byte s' root v = seg_byte data ph v) /\
    (forall v, 0 <= v < 2 ^ 48 -> v / PAGE_SIZE ∉ image ≫= seg_pages -> vmm_get_phys root v s' = vmm_get_phys root v s).
Proof.
  intros Hwf Ht [Hb Hsz Hh [Hm Hc] (Hty & Hma & Hpn) Hs Hok Hnd] Hl Hfree. unfold elf_load.
  rewrite (proj2 (Z.ltb_ge _ _)) by lia. rewrite Hh. cbn [mbind option_bind]. rewrite bool_decide_true by exact Hm. rewrite Hc, Hty, Hma.
  rewrite (proj2 (Z.eqb_neq (e_phnum hdr) 0)) by exact Hpn. cbn [negb Z.eqb Pos.eqb orb].
  destruct (ehdr_nonneg data hdr Hb Hh) as [Hpo Hpe].
  destruct (load_headers_spec data hdr root s _ Hb ltac:(lia) Hpo Hpe 0 image s ltac:(lia) Hs Hok Hnd Hwf Ht Hl Hfree ltac:(auto)) as (s' & E & W & T & K & L).
  exists s'. split; [exact E|]. split; [exact W|]. split; [exact T|]. split.
  - intros ph v Hin Hv Hp. destruct (L ph _ Hin Hp) as (u & _ & Hf & Hpg). destruct (Hpg v Hv eq_refl) as [E1 E2]. by rewrite E1.
  - intros v Hv Hn. by apply (keeps_phys _ _ _ _ K).
Qed.

(** ** Failure *)

(** A page that is not loaded had no frame. *)
Lemma load_page_full data ph pml4 vp s s' : wf s -> load_page data ph pml4 vp s = Some (s', false) -> s' = s /\ pmm_free_count s = 0.
Proof.
  intros Hwf. unfold load_page. destruct (pmm_alloc_frame s) as [s0 p] eqn:EA. destruct (Z.eqb_spec p 0) as [->|Hp].
  - intros [= <-]. by apply alloc_fails.
  - cbv zeta. intros H. apply bind_Some in H as (s2 & _ & H). discriminate H.
Qed.

Lemma load_pages_full data ph pml4 vend n : forall vp s s', wf s -> pmm_free_count s < Z.of_nat n ->
  load_pages n data ph pml4 vp vend s = Some (s', false) -> pmm_free_count s' = 0.
Proof.
  induction n as [|n IH]; intros vp s s' Hwf Hc; cbn [load_pages]; [pose proof (free_count_nonneg s); lia|].
  case_if; [|discriminate]. destruct (load_page data ph pml4 vp s) as [[s1 [|]]|] eqn:El; cbn [mbind option_bind]; [| |discriminate].
  - destruct (load_page_takes _ _ _ _ _ _ Hwf El) as [W C]. apply IH; [done|lia].
  - intros [= <-]. by destruct (load_page_full _ _ _ _ _ _ Hwf El) as [-> ?].
Qed.


(** ** A program *)

Definition le_bytes (n : nat) (v : Z) : list Z := (fun i => Z.shiftr v (8 * Z.of_nat i) mod 256) <$> seq 0 n.
Definition phdr_bytes (off vaddr filesz memsz : Z) : list Z :=
  le_bytes 4 1 ++ le_bytes 4 5 ++ le_bytes 8 off ++ le_bytes 8 vaddr ++ le_bytes 8 vaddr ++ le_bytes 8 filesz ++ le_bytes 8 memsz ++ le_bytes 8 4096.
Definition ehdr_bytes (entry phnum : Z) : list Z :=
  [0x7F; 69; 76; 70; 2; 1; 1; 0; 0; 0; 0; 0; 0; 0; 0; 0] ++ le_bytes 2 2 ++ le_bytes 2 0x3E ++ le_bytes 4 1 ++ le_bytes 8 entry ++
  le_bytes 8 64 ++ le_bytes 8 0 ++ le_bytes 4 0 ++ le_bytes 2 64 ++ le_bytes 2 56 ++ le_bytes 2 phnum ++ le_bytes 6 0.

(** Five bytes of code, and two bytes of data that straddle a page, with a .bss. *)
Definition program : list Z :=
  ehdr_bytes 0xC000B0 2 ++ phdr_bytes 176 0xC000B0 5 5 ++ phdr_bytes 181 0xC01FFF 2 100 ++ [0xB8; 1; 2; 3; 0xC3] ++ [7; 9].
Definition program_hdr : Elf64_Ehdr := mkEhdr (take 16 program) 2 0x3E 0xC000B0 64 56 2.
Definition program_image : list Elf64_Phdr := [mkPhdr 176 0xC000B0 5 5; mkPhdr 181 0xC01FFF 2 100].

Lemma program_executable : executable program program_hdr program_image.
Proof.
  split.
  - apply VmmBoot.bytes_bool. vm_compute. reflexivity.
  - assert (zlen program = 183) as -> by (vm_compute; reflexivity). lia.
  - vm_compute. reflexivity.
  - split; vm_compute; reflexivity.
  - split; [vm_compute; reflexivity|]. split; [vm_compute; reflexivity|]. discriminate.
  - vm_compute. reflexivity.
  - assert (zlen program = 183) as E by (vm_compute; reflexivity). unfold program_image, seg_ok. rewrite E.
    repeat (apply Forall_cons_2); [..|apply Forall_nil_2]; cbn; unfold PAGE_SIZE; lia.
  - assert (program_image ≫= seg_pages = [0xC00; 0xC01; 0xC02]) as -> by (vm_compute; reflexivity).
    apply (bool_decide_unpack _). vm_compute. exact I.
Qed.

Lemma elf_load_executable_witness :
  exists s', elf_load program (zlen program) VmmBoot.root1 VmmBoot.vm1 = Some (s', 0xC000B0) /\
    user_byte s' VmmBoot.root1 0xC000B4 = 0xC3 /\ user_byte s' VmmBoot.root1 0xC02000 = 9 /\ user_byte s' VmmBoot.root1 0xC02001 = 0.
Proof.
  destruct VmmBoot.vm1_tree as (W & T & _ & _).
  assert (program_image ≫= seg_pages = [0xC00; 0xC01; 0xC02]) as Ep by (vm_compute; reflexivity).
  assert (forall k, k ∈ program_image ≫= seg_pages -> large_entry VmmBoot.vm1 VmmBoot.root1 (PAGE_SIZE * k) = None) as Hl.
  { rewrite Ep. intros k Hk. apply list_elem_of_In in Hk. destruct Hk as [<-|[<-|[<-|[]]]]; vm_compute; reflexivity. }
  assert (4 * zlen (program_image ≫= seg_pages) <= pmm_free_count VmmBoot.vm1) as Hf.
  { rewrite Ep. assert (pmm_free_count VmmBoot.vm1 = 14333) as -> by (vm_compute; reflexivity). change (zlen [0xC00; 0xC01; 0xC02]) with 3. lia. }
  destruct (elf_load_executable VmmBoot.vm1 VmmBoot.root1 program program_hdr program_image W T program_executable Hl Hf) as (s' & E & _ & _ & H & _).
  exists s'. split; [exact E|].
  assert (forall ph v, ph ∈ program_image -> 0 <= v < 2 ^ 48 -> v / PAGE_SIZE ∈ seg_pages ph -> user_byte s' VmmBoot.root1 v = seg_byte program ph v) as Hb
    by (intros ph v H1 H2 H3; exact (proj2 (H ph v H1 H2 H3))).
  clear H Hl Hf. split; [|split].
  - rewrite (Hb (mkPhdr 176 0xC000B0 5 5)); [vm_compute; reflexivity|by left|lia|apply (bool_decide_unpack _); vm_compute; exact I].
  - rewrite (Hb (mkPhdr 181 0xC01FFF 2 100)); [vm_compute; reflexivity|by right; left|lia|apply (bool_decide_unpack _); vm_compute; exact I].
  - rewrite (Hb (mkPhdr 181 0xC01FFF 2 100)); [vm_compute; reflexivity|by right; left|lia|apply (bool_decide_unpack _); vm_compute; exact I].
Defined.


(** The check of a segment adds in 64 bits: a file of 120 bytes that announces 2^64 - 1 is
    accepted, and what lies behind the file is copied. *)
Definition liar : list Z := ehdr_bytes 0 1 ++ phdr_bytes 1 0 0xFFFFFFFFFFFFFFFF 1.

Lemma elf_wrapped_size_reads_outside :
  in_file (zlen liar) (mkPhdr 1 0 0xFFFFFFFFFFFFFFFF 1) = true /\ elf_load liar (zlen liar) VmmBoot.root1 VmmBoot.vm1 = None.
Proof. split; vm_compute; reflexivity. Qed.

(** Every segment maps its pages to new frames: when two share a page the bytes of the first
    are gone. *)
Definition shared_page : list Z :=
  ehdr_bytes 0xC000B0 2 ++ phdr_bytes 176 0xC000B0 5 5 ++ phdr_bytes 181 0xC000C0 2 2 ++ [0xB8; 1; 2; 3; 0xC3] ++ [7; 9].

Lemma elf_shared_page_lost :
  let s' := from_option fst VmmBoot.vm1 (elf_load shared_page (zlen shared_page) VmmBoot.root1 VmmBoot.vm1) in
  user_byte s' VmmBoot.root1 0xC000C0 = 7 /\ user_byte s' VmmBoot.root1 0xC000B0 = 0.
Proof. split; vm_compute; reflexivity. Qed.

End Elf.
