(* ===== verification/Shm.v ===== *)
(** * shm.c: shared memory

    The table of shared regions over the frames and page tables of Pmm.v and Vmm.v.  The
    theorems show that the regions in use have frames of their own, whatever happens in
    between, that a region is found again under its name if the name has at most 15
    characters, and that attaching a region to a process maps nothing. *)

From Stdlib Require Import ZArith Lia String.
From stdpp Require Import base numbers list gmap tactics.
From S2P Require Import Prelude Pmm Vmm VmmBoot.

Module Shm.
Import Pmm Vmm.

Definition SHM_MAX : Z := 8.
Definition SHM_PAGE_SIZE : Z := 4096.
Definition SHM_VA_BASE : Z := 0x500000.

Record ShmSlot := mkSlot { key : list Z; phys : Z; refcount : Z }.
#[global] Instance shm_slot_settable : Settable ShmSlot := {| rebuild c := mkSlot (key c) (phys c) (refcount c) |}.
#[global] Instance shm_slot_inhabited : Inhabited ShmSlot := populate (mkSlot [] 0 0).

(** [static ShmSlot shm_slots[SHM_MAX]], and physical memory. *)
Record Shared := mkShared { shm_slots : list ShmSlot; pm : State }.
#[global] Instance shared_settable : Settable Shared := {| rebuild c := mkShared (shm_slots c) (pm c) |}.

Definition empty_slot (sl : ShmSlot) : ShmSlot := mkSlot (key sl).[0 <- 0] 0 0.

Definition shm_init (m : Shared) : Shared :=
  m <| shm_slots := iter (fun i ss => ss.[i <- empty_slot ss.[i]]) 0 (Z.to_nat SHM_MAX) (shm_slots m) |>.

Definition shm_find (k : list Z) (m : Shared) : Z :=
  match scan (fun i => truth (phys (shm_slots m).[i]) && c_streq (key (shm_slots m).[i]) k) 0 (Z.to_nat SHM_MAX) with
  | Some i => i
  | None => -1
  end.

Definition shm_create (k : list Z) (m : Shared) : Shared * Z :=
  match scan (fun i => truth (phys (shm_slots m).[i]) && c_streq (key (shm_slots m).[i]) k) 0 (Z.to_nat SHM_MAX) with
  | Some i => (m, i)
  | None =>
      match scan (fun i => negb (truth (phys (shm_slots m).[i]))) 0 (Z.to_nat SHM_MAX) with
      | Some i =>
          let '(s, frame) := pmm_alloc_frame (pm m) in
          if frame =? 0 then (m <| pm := s |>, -1)
          else
            (m <| pm := vmm_zero_frame frame s |>
               <| shm_slots := (shm_slots m).[i <- mkSlot (c_strcpy (key (shm_slots m).[i]) k 16) frame 0] |>, i)
      | None => (m, -1)
      end
  end.

Definition shm_phys (id : Z) (m : Shared) : Z :=
  if (id <? 0) || (SHM_MAX <=? id) then 0 else phys (shm_slots m).[id].

(** [id < 0 || id >= SHM_MAX || !shm_slots[id].phys] *)
Definition no_slot (id : Z) (m : Shared) : bool :=
  (id <? 0) || (SHM_MAX <=? id) || negb (truth (phys (shm_slots m).[id])).

Definition shm_attach (id pml4 : Z) (m : Shared) : Shared * Z :=
  if no_slot id m then (m, 0)
  else
    let sl := (shm_slots m).[id] in
    let va := SHM_VA_BASE + id * SHM_PAGE_SIZE in
    (m <| pm := vmm_map_page pml4 va (phys sl) 7 (pm m) |>
       <| shm_slots := (shm_slots m).[id <- sl <| refcount := i32 (refcount sl + 1) |>] |>, va).

Definition shm_detach (id pml4 : Z) (m : Shared) : Shared * Z :=
  if no_slot id m then (m, 0)
  else
    let sl := (shm_slots m).[id] in
    (if 0 <? refcount sl then m <| shm_slots := (shm_slots m).[id <- sl <| refcount := refcount sl - 1 |>] |> else m, 1).

Definition shm_destroy (id : Z) (m : Shared) : Shared :=
  if no_slot id m then m
  else
    let sl := (shm_slots m).[id] in
    if refcount sl <=? 0 then
      m <| pm := pmm_free_frame (phys sl) (pm m) |> <| shm_slots := (shm_slots m).[id <- empty_slot sl] |>
    else m.

#[local] Opaque zero_frame pmm_alloc_frame pmm_free_count.

(** ** Regions have frames of their own *)

Definition frame_ok (s : State) (p : Z) : Prop := frame_addr p /\ RESERVED_END <= p /\ frame_used p s = true.

Record wf (m : Shared) : Prop := {
  wf_pm : Pmm.wf (pm m);
  wf_len : zlen (shm_slots m) = SHM_MAX;
  wf_keys : Forall (fun sl => zlen (key sl) = 16) (shm_slots m);
  wf_frames : Forall (fun sl => phys sl <> 0 -> frame_ok (pm m) (phys sl)) (shm_slots m);
  wf_distinct i j : 0 <= i < SHM_MAX -> 0 <= j < SHM_MAX -> phys (shm_slots m).[i] <> 0 ->
    phys (shm_slots m).[i] = phys (shm_slots m).[j] -> i = j
}.

(** One call, or anything else in the kernel that keeps used frames used. *)
Inductive step : Shared -> Shared -> Prop :=
  | step_create k m : step m (fst (shm_create k m))
  | step_attach id pml4 m : step m (fst (shm_attach id pml4 m))
  | step_detach id pml4 m : step m (fst (shm_detach id pml4 m))
  | step_destroy id m : step m (shm_destroy id m)
  | step_other m s : Pmm.wf s -> (forall i, 0 <= i < SHM_MAX -> phys (shm_slots m).[i] <> 0 -> frame_used (phys (shm_slots m).[i]) s = true) ->
      step m (m <| pm := s |>).

Lemma no_slot_false id m : no_slot id m = false <-> 0 <= id < SHM_MAX /\ phys (shm_slots m).[id] <> 0.
Proof.
  unfold no_slot, truth. rewrite !orb_false_iff, Z.ltb_ge, Z.leb_gt, negb_involutive, Z.eqb_neq. intuition lia.
Qed.

(** Replacing one slot, the frames of the others still used. *)
Lemma wf_update m s id sl : wf m -> Pmm.wf s -> 0 <= id < SHM_MAX -> zlen (key sl) = 16 ->
  (phys sl <> 0 -> frame_ok s (phys sl)) ->
  (forall i, 0 <= i < SHM_MAX -> i <> id -> phys (shm_slots m).[i] <> 0 ->
     frame_used (phys (shm_slots m).[i]) s = true /\ phys (shm_slots m).[i] <> phys sl) ->
  wf (mkShared (shm_slots m).[id <- sl] s).
Proof.
  intros [W L K F D] Hs Hid Hk Hf Ho. unfold SHM_MAX in *.
  assert (forall i, 0 <= i < 8 -> (shm_slots m).[id <- sl].[i] = if decide (id = i) then sl else (shm_slots m).[i]) as G
    by (intros i Hi; apply aget_aset; lia).
  split; cbn [shm_slots pm]; [done|by rewrite zlen_aset|by apply Forall_insert| |].
  - apply Forall_aget. rewrite zlen_aset, L. unfold SHM_MAX. intros i Hi. rewrite G by done. case_decide as E; [done|]. intros Hp.
    rewrite Forall_aget, L in F. destruct (F i Hi Hp) as (A & B & _). split; [done|]. split; [done|]. by apply Ho; [..|congruence|].
  - unfold SHM_MAX. intros i j Hi Hj. rewrite !G by done. repeat case_decide; subst; try done.
    + intros Hp E. destruct (Ho j Hj ltac:(congruence)) as [_ Hne]; congruence.
    + intros Hp E. destruct (Ho i Hi ltac:(congruence) Hp) as [_ Hne]. congruence.
    + by apply D.
Qed.

Lemma wf_slot m i : wf m -> 0 <= i < SHM_MAX ->
  zlen (key (shm_slots m).[i]) = 16 /\ (phys (shm_slots m).[i] <> 0 -> frame_ok (pm m) (phys (shm_slots m).[i])).
Proof.
  intros [W L K F D] Hi. rewrite Forall_aget, L in K. rewrite Forall_aget, L in F. split; [by apply K|by apply F].
Qed.

Lemma frame_ok_grows n s s' p : grows n s s' -> frame_ok s p -> frame_ok s' p.
Proof. intros (_ & _ & U) (A & B & H). split; [done|]. split; [done|auto]. Qed.

(** The slot that is changed keeps its frame, and physical memory grows. *)
Lemma wf_grows m n s id sl : wf m -> grows n (pm m) s -> 0 <= id < SHM_MAX -> key sl = key (shm_slots m).[id] ->
  phys sl = phys (shm_slots m).[id] -> wf (mkShared (shm_slots m).[id <- sl] s).
Proof.
  intros Hwf G Hid Hk Hp. destruct (wf_slot m id Hwf Hid) as [K F]. apply wf_update; [done|apply G|done|by rewrite Hk| |].
  - rewrite Hp. intros Hn. by apply (frame_ok_grows n (pm m)); [|apply F].
  - intros i Hi Hne Hn. destruct (wf_slot m i Hwf Hi) as [_ Fi]. destruct (frame_ok_grows _ _ _ _ G (Fi Hn)) as (_ & _ & U).
    split; [done|]. rewrite Hp. intros E. apply Hne. by apply (wf_distinct m Hwf).
Qed.

Lemma create_wf k m : wf m -> wf (fst (shm_create k m)).
Proof.
  intros Hwf. unfold shm_create. destruct (scan _ 0 _) as [i|]; [done|].
  destruct (scan (fun i => negb _) 0 _) as [i|] eqn:E; [|done]. apply scan_Some in E as (Hi & _ & _). change (0 + Z.of_nat (Z.to_nat SHM_MAX)) with SHM_MAX in Hi.
  pose proof (alloc_frame_spec (pm m) (wf_pm m Hwf)) as Ha. destruct (pmm_alloc_frame (pm m)) as [s p] eqn:EA. destruct (Z.eqb_spec p 0) as [->|Hp].
  - destruct (alloc_fails _ _ (wf_pm m Hwf) EA) as [-> _]. by destruct m.
  - destruct Ha as (_ & _ & _ & [(? & _)|(A & B & Fr & _)]); [done|]. pose proof (grows_alloc _ _ _ (wf_pm m Hwf) EA Hp) as G.
    destruct (alloc_zero _ _ _ (wf_pm m Hwf) EA Hp) as (_ & _ & _ & _ & _ & U & _). unfold vmm_zero_frame. clear EA.
    generalize dependent (zero_frame p s). intros s1 G U. cbn [fst]. destruct (wf_slot m i Hwf Hi) as [Kl _].
    apply (wf_update m s1 i); [done|apply G|done| | |].
    + cbn [key]. unfold zlen in *. rewrite length_c_strcpy; lia.
    + intros _. split; [done|]. split; [done|]. cbn [phys]. rewrite U, Z.eqb_refl by done. done.
    + intros j Hj Hne Hn. destruct (wf_slot m j Hwf Hj) as [_ Fj]. destruct (Fj Hn) as (Aj & _ & Uj). cbn [phys].
      split; [rewrite U, Uj by done; apply orb_true_r|]. intros E. rewrite E in Uj. congruence.
Qed.

Lemma destroy_wf id m : wf m -> wf (shm_destroy id m).
Proof.
  intros Hwf. unfold shm_destroy. destruct (no_slot id m) eqn:E; [done|]. apply no_slot_false in E as [Hid Hp]. case_if; [|done].
  destruct (wf_slot m id Hwf Hid) as [K F]. destruct (F Hp) as (A & B & U).
  assert (forall f, frame_range f -> Pmm.wf (pmm_free_frame (phys (shm_slots m).[id]) (pm m)) /\
     bitmap_test f (pmm_free_frame (phys (shm_slots m).[id]) (pm m)) = negb (phys (shm_slots m).[id] / PAGE_SIZE =? f) && bitmap_test f (pm m)) as Hfree
    by (intros f Hf; by apply free_frame_spec; [apply wf_pm|..]).
  apply (wf_update m (pmm_free_frame (phys (shm_slots m).[id]) (pm m)) id); [done| |done| |done|].
  - by apply (Hfree 0).
  - cbn. by rewrite zlen_aset.
  - intros i Hi Hne Hn. destruct (wf_slot m i Hwf Hi) as [_ Fi]. destruct (Fi Hn) as (Ai & _ & Ui). split; [|cbn; congruence].
    unfold frame_used in *. rewrite (proj2 (Hfree _ (frame_addr_range _ Ai))), Ui, andb_true_r. apply negb_true_iff, Z.eqb_neq.
    intros Eq. apply Hne. apply (wf_distinct m Hwf); [done|done|done|]. symmetry. by apply frame_addr_inj.
Qed.

(** Shared regions have frames of their own.  After shm_init(), through any calls and
    anything else that leaves used frames used, each region in use has a page-aligned frame
    above the reserved area that is marked used, and no two regions have the same. *)
Theorem shm_regions_private m m' : wf m -> rtc step m m' -> wf m'.
Proof.
  intros Hwf. induction 1 as [m|m m1 m' Hs _ IH]; [done|]. apply IH. clear IH m'. destruct Hs as [k m|id pml4 m|id pml4 m|id m|m s Hs Hu].
  - by apply create_wf.
  - unfold shm_attach. destruct (no_slot id m) eqn:E; [done|]. apply no_slot_false in E as [Hid Hp]. cbn [fst].
    eapply (wf_grows m 3); [done|apply map_page_grows; apply Hwf|done|done|done].
  - unfold shm_detach. destruct (no_slot id m) eqn:E; [done|]. apply no_slot_false in E as [Hid Hp]. case_if; [|done]. cbn [fst].
    eapply (wf_grows m 0); [done|apply grows_refl; [lia|apply Hwf]|done|done|done].
  - by apply destroy_wf.
  - destruct Hwf as [W L K F D]. split; cbn [shm_slots pm] in *; try done. rewrite Forall_aget in *. intros i Hi Hp.
    destruct (F i Hi Hp) as (A & B & _). split; [done|]. split; [done|]. apply Hu; [by rewrite <- L|done].
Qed.

(** ** Names *)

(** Creating a region under a name of at most 15 characters makes it found under that name,
    and creating it again changes nothing. *)
Lemma shm_create_found k m m' id : wf m -> c_strlen k < 16 -> shm_create k m = (m', id) -> 0 <= id ->
  shm_find k m' = id /\ shm_create k m' = (m', id) /\ phys (shm_slots m').[id] <> 0 /\ cstr (key (shm_slots m').[id]) = cstr k.
Proof.
  intros Hwf Hk. unfold shm_create. destruct (scan _ 0 _) as [i|] eqn:E.
  { intros [= <- <-] Hi. unfold shm_find. rewrite E. split; [done|]. split; [done|]. apply scan_Some in E as (_ & [H1 H2]%andb_true_iff & _).
    split; [|by apply c_streq_spec]. unfold truth in H1. by apply negb_true_iff, Z.eqb_neq in H1. }
  destruct (scan (fun i => negb _) 0 _) as [i|] eqn:E'; [|intros [= <- <-]; lia]. apply scan_Some in E' as (Hi & _ & _).
  change (0 + Z.of_nat (Z.to_nat SHM_MAX)) with SHM_MAX in Hi. destruct (pmm_alloc_frame (pm m)) as [s p]. destruct (Z.eqb_spec p 0) as [->|Hp]; [intros [= <- <-]; lia|].
  generalize (vmm_zero_frame p s). intros s1 [= <- <-] _. set (sl := mkSlot _ p 0). set (m' := mkShared _ s1).
  assert (forall j, 0 <= j < SHM_MAX -> (shm_slots m').[j] = if decide (i = j) then sl else (shm_slots m).[j]) as G
    by (pose proof (wf_len m Hwf); intros j Hj; apply aget_aset; lia).
  assert ((shm_slots m').[i] = sl) as Gi by (rewrite G by lia; by rewrite decide_True).
  assert (cstr (key sl) = cstr k) as Hkey by (by apply cstr_strcpy_fits).
  assert (scan (fun j => truth (phys (shm_slots m').[j]) && c_streq (key (shm_slots m').[j]) k) 0 (Z.to_nat SHM_MAX) = Some i) as Hs.
  { apply scan_first; [lia| |].
    - rewrite Gi. apply andb_true_iff. split; [by apply negb_true_iff, Z.eqb_neq|by apply c_streq_spec].
    - intros j Hj. rewrite G by lia. rewrite decide_False by lia. apply (scan_None _ _ _ E). lia. }
  unfold shm_find. rewrite Hs, Gi. done.
Qed.

(** ** Attaching *)

(** C7: Attaching a region shares nothing.  In a process as vmm_create_page_dir() makes it,
    shm_attach() answers with the address SHM_VA_BASE + id * 4096 and counts the process, but
    the address keeps its identity translation, which is not the frame of the region. *)
Theorem shm_attach_maps_nothing m id :
  wf m -> 3 <= pmm_free_count (pm m) -> boot_dirs (pm m) -> 0 <= id < SHM_MAX -> phys (shm_slots m).[id] <> 0 ->
  let '(s, pml4) := vmm_create_page_dir (pm m) in
  let '(m', va) := shm_attach id pml4 (m <| pm := s |>) in
  va = SHM_VA_BASE + id * SHM_PAGE_SIZE /\ vmm_get_phys pml4 va (pm m') = va /\ va <> phys (shm_slots m').[id] /\
  refcount (shm_slots m').[id] = i32 (refcount (shm_slots m).[id] + 1).
Proof.
  intros Hwf Hc Hb Hid Hp. destruct (wf_slot m id Hwf Hid) as [_ F]. destruct (F Hp) as (_ & Hr & _).
  set (va := SHM_VA_BASE + id * SHM_PAGE_SIZE).
  assert (0 <= va < 0x800000) as Hva by (unfold va, SHM_VA_BASE, SHM_PAGE_SIZE, SHM_MAX in *; lia).
  pose proof (vmm_low_addresses_stay_identity (pm m) va (phys (shm_slots m).[id]) 7 (wf_pm m Hwf) Hc Hb Hva) as H. clear Hc.
  destruct (vmm_create_page_dir (pm m)) as [s pml4].
  assert (no_slot id (m <| pm := s |>) = false) as En by (by apply no_slot_false). unfold shm_attach. rewrite En. fold va.
  change (shm_slots (m <| pm := s |>)) with (shm_slots m). change (pm (m <| pm := s |>)) with s.
  revert H. generalize (vmm_map_page pml4 va (phys (shm_slots m).[id]) 7 s). intros s' H.
  change (pm _) with s' at 1. change (shm_slots (_ <| shm_slots := ?l |>)) with l.
  split; [done|]. split; [exact H|]. pose proof (wf_len m Hwf). rewrite !aget_aset_eq by lia. cbn [phys refcount]. split; [|done].
  unfold RESERVED_END, KERNEL_RESERVED_FRAMES, PAGE_SIZE in Hr. cbn. lia.
Qed.

(** ** A table *)

Definition shm0 : Shared := shm_init (mkShared (replicate (Z.to_nat SHM_MAX) (mkSlot (replicate 16 0) 0 0)) VmmBoot.vm0).

Lemma shm0_wf : wf shm0.
Proof.
  assert (shm_slots shm0 = replicate 8 (mkSlot (replicate 16 0) 0 0)) as E by (vm_compute; reflexivity).
  split.
  - exact VmmBoot.vm0_wf.
  - rewrite E. reflexivity.
  - rewrite E. apply Forall_replicate. reflexivity.
  - rewrite E. apply Forall_replicate. intros H. by destruct H.
  - rewrite E. intros i j Hi Hj H. destruct H. unfold SHM_MAX in *. unfold aget. rewrite lookup_total_replicate_2 by lia. done.
Qed.

Definition shm1 : Shared := fst (shm_create (lit "log") shm0).

Lemma shm_regions_private_witness :
  let m := fst (shm_attach 0 0x4000 (fst (shm_create (lit "data") shm1))) in
  wf m /\ phys (shm_slots m).[0] = 0x800000 /\ phys (shm_slots m).[1] = 0x801000.
Proof.
  assert (rtc step shm0 (fst (shm_attach 0 0x4000 (fst (shm_create (lit "data") shm1))))) as H.
  { eapply rtc_l; [apply (step_create (lit "log"))|]. eapply rtc_l; [apply (step_create (lit "data"))|].
    eapply rtc_l; [apply (step_attach 0 0x4000)|]. apply rtc_refl. }
  split; [exact (shm_regions_private _ _ shm0_wf H)|]. split; vm_compute; reflexivity.
Defined.

Lemma shm1_wf : wf shm1.
Proof. apply create_wf, shm0_wf. Qed.

Lemma shm1_boot_dirs : boot_dirs (pm shm1).
Proof.
  assert (forallb (fun b => frame_used b (pm shm1) && forallb (fun j => present (entry (pm shm1) b j) && large (entry (pm shm1) b j))
                              (Z.of_nat <$> seq 0 512)) [0x4000; 0x5000; 0x6000] = true) as H by (vm_compute; reflexivity).
  by apply VmmBoot.boot_dirs_bool.
Qed.

Lemma shm_attach_maps_nothing_witness :
  let '(s, pml4) := vmm_create_page_dir (pm shm1) in
  let '(m', va) := shm_attach 0 pml4 (shm1 <| pm := s |>) in
  va = 0x500000 /\ vmm_get_phys pml4 0x500000 (pm m') = 0x500000.
Proof.
  assert (3 <= pmm_free_count (pm shm1)) as Hc by (apply Z.leb_le; vm_compute; reflexivity).
  assert (phys (shm_slots shm1).[0] <> 0) as Hp by (assert (phys (shm_slots shm1).[0] = 0x800000) as -> by (vm_compute; reflexivity); lia).
  pose proof (shm_attach_maps_nothing shm1 0 shm1_wf Hc shm1_boot_dirs ltac:(unfold SHM_MAX; lia) Hp) as H. clear Hc Hp.
  destruct (vmm_create_page_dir (pm shm1)) as [s pml4]. destruct (shm_attach 0 pml4 _) as [m' va]. destruct H as (E & H & _).
  rewrite E in *. split; [reflexivity|exact H].
Defined.

(** A name of 16 characters is stored cut, so creating it again takes another region. *)
Lemma shm_long_key_not_shared :
  let k := lit "0123456789abcdef" in
  let '(m1, id1) := shm_create k shm0 in
  let '(m2, id2) := shm_create k m1 in
  id1 = 0 /\ id2 = 1 /\ shm_find k m2 = -1.
Proof. vm_compute. split; [|split]; reflexivity. Qed.

End Shm.
