(* ===== verification/Sha256.v ===== *)
(** * SHA-256, HMAC-SHA256 and HKDF (crypto.c, parts 1 to 3)

    A [uint8_t *] with its length is the list of the bytes it points to and the
    length argument of the source.  Words are [u32] values, the byte counter is
    [u64].  The reference definitions [sha256_ref], [hmac_ref] and
    [hkdf_expand_ref] are FIPS 180-4, RFC 2104 and RFC 5869 stated on whole
    messages; the theorems relate the streaming code to them. *)

From Stdlib Require Import ZArith Lia.
From stdpp Require Import base numbers list tactics.
From S2P Require Import Prelude.

(** [for (i = 0; i < n; i++) dst[pos + i] = src[i];] with both arrays long enough. *)
Definition put_at (dst : list Z) (pos : nat) (src : list Z) (n : nat) : list Z :=
  take pos dst ++ take n src ++ drop (pos + n) dst.

Lemma length_put_at dst pos src n :
  (n <= length src)%nat -> (pos + n <= length dst)%nat -> length (put_at dst pos src n) = length dst.
Proof. intros. unfold put_at. rewrite !length_app, !length_take, length_drop. lia. Qed.

Lemma take_put_at dst pos src n :
  (pos + n <= length dst)%nat -> (n <= length src)%nat ->
  take (pos + n) (put_at dst pos src n) = take pos dst ++ take n src.
Proof.
  intros. unfold put_at. rewrite app_assoc. apply take_app_length'.
  rewrite length_app, !length_take. lia.
Qed.

(** The bytes of a 32-bit and of a 64-bit word, most significant first. *)
Definition be32 (x : Z) : list Z := (fun i => u8 (Z.shiftr x (8 * i))) <$> [3; 2; 1; 0].
Definition be64 (x : Z) : list Z := (fun i => u8 (Z.shiftr x (8 * i))) <$> [7; 6; 5; 4; 3; 2; 1; 0].

Module Sha.

(** The four 32-bit words of a row of the table, written as one number. *)
Definition row_words (r : Z) : list Z :=
  [Z.shiftr r 96; Z.land (Z.shiftr r 64) 0xffffffff; Z.land (Z.shiftr r 32) 0xffffffff; Z.land r 0xffffffff].
Definition SHA_K : list Z := Eval cbv in mjoin (row_words <$> [
   0x428a2f9871374491b5c0fbcfe9b5dba5;
   0x3956c25b59f111f1923f82a4ab1c5ed5;
   0xd807aa9812835b01243185be550c7dc3;
   0x72be5d7480deb1fe9bdc06a7c19bf174;
   0xe49b69c1efbe47860fc19dc6240ca1cc;
   0x2de92c6f4a7484aa5cb0a9dc76f988da;
   0x983e5152a831c66db00327c8bf597fc7;
   0xc6e00bf3d5a7914706ca635114292967;
   0x27b70a852e1b21384d2c6dfc53380d13;
   0x650a7354766a0abb81c2c92e92722c85;
   0xa2bfe8a1a81a664bc24b8b70c76c51a3;
   0xd192e819d6990624f40e3585106aa070;
   0x19a4c1161e376c082748774c34b0bcb5;
   0x391c0cb34ed8aa4a5b9cca4f682e6ff3;
   0x748f82ee78a5636f84c878148cc70208;
   0x90befffaa4506cebbef9a3f7c67178f2]).

Definition RR32 (x n : Z) : Z := Z.lor (Z.shiftr x n) (u32 (Z.shiftl x (32 - n))).
Definition CH (e f g : Z) : Z := Z.lxor (Z.land e f) (Z.land (u32 (Z.lnot e)) g).
Definition MAJ (a b c : Z) : Z := Z.lxor (Z.lxor (Z.land a b) (Z.land a c)) (Z.land b c).
Definition S0 (a : Z) : Z := Z.lxor (Z.lxor (RR32 a 2) (RR32 a 13)) (RR32 a 22).
Definition S1 (e : Z) : Z := Z.lxor (Z.lxor (RR32 e 6) (RR32 e 11)) (RR32 e 25).
Definition s0 (w : Z) : Z := Z.lxor (Z.lxor (RR32 w 7) (RR32 w 18)) (Z.shiftr w 3).
Definition s1 (w : Z) : Z := Z.lxor (Z.lxor (RR32 w 17) (RR32 w 19)) (Z.shiftr w 10).

(** [((uint32_t)p[4*i]<<24) | (p[4*i+1]<<16) | (p[4*i+2]<<8) | p[4*i+3]] *)
Definition load_be32 (p : list Z) (i : Z) : Z :=
  Z.lor (Z.lor (Z.lor (Z.shiftl p.[4 * i] 24) (Z.shiftl p.[4 * i + 1] 16)) (Z.shiftl p.[4 * i + 2] 8))
        p.[4 * i + 3].

(** The message schedule [W]. *)
Definition schedule (blk : list Z) : list Z :=
  let W := iter (fun i W => W.[i <- load_be32 blk i]) 0 16 (replicate 64 0) in
  iter (fun i W => W.[i <- u32 (s1 W.[i - 2] + W.[i - 7] + s0 W.[i - 15] + W.[i - 16])]) 16 48 W.

(** The eight working variables. *)
Record Regs := { a : Z; b : Z; c : Z; d : Z; e : Z; f : Z; g : Z; h : Z }.

Definition round (W : list Z) (i : Z) (r : Regs) : Regs :=
  let T1 := u32 (h r + S1 (e r) + CH (e r) (f r) (g r) + SHA_K.[i] + W.[i]) in
  let T2 := u32 (S0 (a r) + MAJ (a r) (b r) (c r)) in
  {| h := g r; g := f r; f := e r; e := u32 (d r + T1); d := c r; c := b r; b := a r; a := u32 (T1 + T2) |}.

Definition sha256_compress (st blk : list Z) : list Z :=
  let W := schedule blk in
  let r := iter (round W) 0 64
    {| a := st.[0]; b := st.[1]; c := st.[2]; d := st.[3]; e := st.[4]; f := st.[5]; g := st.[6]; h := st.[7] |} in
  [u32 (st.[0] + a r); u32 (st.[1] + b r); u32 (st.[2] + c r); u32 (st.[3] + d r);
   u32 (st.[4] + e r); u32 (st.[5] + f r); u32 (st.[6] + g r); u32 (st.[7] + h r)].

Record Sha256 := { state : list Z; count : Z; buf : list Z }.
#[global] Instance settable_Sha256 : Settable Sha256 :=
  {| rebuild x := {| state := state x; count := count x; buf := buf x |} |}.

Definition sha256_init (ctx : Sha256) : Sha256 :=
  ctx <| state := [0x6a09e667; 0xbb67ae85; 0x3c6ef372; 0xa54ff53a;
                   0x510e527f; 0x9b05688c; 0x1f83d9ab; 0x5be0cd19] |> <| count := 0 |>.

(** [while (len >= 64) { sha256_compress(ctx->state, data); data += 64; len -= 64; }]
    The fuel of the callers is [len / 64]. *)
Fixpoint compress_loop (fuel : nat) (st data : list Z) (len : Z) : list Z * list Z * Z :=
  match fuel with
  | O => (st, data, len)
  | S k => if 64 <=? len then compress_loop k (sha256_compress st data) (drop 64 data) (len - 64)
           else (st, data, len)
  end.

(** The body of [sha256_update] from the [while] loop on. *)
Definition update_rest (ctx : Sha256) (data : list Z) (len : Z) : Sha256 :=
  let '(st, data, len) := compress_loop (Z.to_nat (len / 64)) (state ctx) data len in
  ctx <| state := st |> <| buf := put_at (buf ctx) 0 data (Z.to_nat len) |>.

Definition sha256_update (ctx : Sha256) (data : list Z) (len : Z) : Sha256 :=
  let rem := u32 (Z.land (count ctx) 63) in
  let ctx := ctx <| count := u64 (count ctx + len) |> in
  if negb (rem =? 0) then
    let fill := if len <? 64 - rem then len else 64 - rem in
    let ctx := ctx <| buf := put_at (buf ctx) (Z.to_nat rem) data (Z.to_nat fill) |> in
    let data := drop (Z.to_nat fill) data in
    let len := u32 (len - fill) in
    let rem := u32 (rem + fill) in
    let ctx := if rem =? 64 then ctx <| state := sha256_compress (state ctx) (buf ctx) |> else ctx in
    (* [buf[i] = data[i]] below writes from index 0: with [rem != 64] every byte
       went into the buffer and [len] is 0 *)
    update_rest ctx data len
  else update_rest ctx data len.

(** [while ((ctx->count & 63) != 56) sha256_update(ctx, zero, 1);] *)
Fixpoint pad_loop (fuel : nat) (ctx : Sha256) : Sha256 :=
  match fuel with
  | O => ctx
  | S k => if Z.land (count ctx) 63 =? 56 then ctx else pad_loop k (sha256_update ctx (replicate 64 0) 1)
  end.

Definition sha256_final (ctx : Sha256) : Sha256 * list Z :=
  let bit_count := u64 (count ctx * 8) in
  let ctx := sha256_update ctx [0x80] 1 in
  let ctx := pad_loop 64 ctx in
  let ctx := sha256_update ctx (be64 bit_count) 8 in
  (ctx, concat (be32 <$> state ctx)).

(** The local [Sha256 ctx] of the callers holds arbitrary bytes before [sha256_init]. *)
Definition sha256 (ctx : Sha256) (data : list Z) (len : Z) : list Z :=
  snd (sha256_final (sha256_update (sha256_init ctx) data len)).

(** ** Reference: FIPS 180-4 on the whole message *)

Definition iv : list Z :=
  [0x6a09e667; 0xbb67ae85; 0x3c6ef372; 0xa54ff53a; 0x510e527f; 0x9b05688c; 0x1f83d9ab; 0x5be0cd19].

Fixpoint absorb (n : nat) (st m : list Z) : list Z :=
  match n with
  | O => st
  | S k => absorb k (sha256_compress st (take 64 m)) (drop 64 m)
  end.

(** [m || 1 || 0^k || len64(m)] with the least [k] that fills a block. *)
Definition fips_pad (m : list Z) : list Z :=
  m ++ [0x80] ++ replicate (Z.to_nat ((55 - zlen m) mod 64)) 0 ++ be64 (8 * zlen m).

Definition sha256_ref (m : list Z) : list Z :=
  let p := fips_pad m in concat (be32 <$> absorb (length p / 64) iv p).

Definition junk : Sha256 := {| state := replicate 8 7; count := 99; buf := replicate 64 5 |}.

(** FIPS 180-4 test vector: SHA-256 of abc. *)
Example sha256_abc :
  sha256 junk [97; 98; 99] 3 =
  [0xba;0x78;0x16;0xbf;0x8f;0x01;0xcf;0xea;0x41;0x41;0x40;0xde;0x5d;0xae;0x22;0x23;
   0xb0;0x03;0x61;0xa3;0x96;0x17;0x7a;0x9c;0xb4;0x10;0xff;0x61;0xf2;0x00;0x15;0xad].
Proof. vm_compute. reflexivity. Qed.

(** ** The streaming interface *)

#[local] Arguments Nat.mul : simpl never.
#[local] Arguments Nat.modulo : simpl never.
#[local] Arguments Nat.div : simpl never.

Lemma compress_take st m : sha256_compress st m = sha256_compress st (take 64 m).
Proof.
  unfold sha256_compress. assert (schedule m = schedule (take 64 m)) as ->; [|done].
  unfold schedule. f_equal. apply iter_ext. intros i W Hi. f_equal. unfold load_be32.
  by rewrite !(aget_take_lt m) by lia.
Qed.

Lemma absorb_take n : forall st m, absorb n st m = absorb n st (take (64 * n) m).
Proof.
  induction n as [|n IH]; intros st m; cbn [absorb]; [done|].
  rewrite take_take, Nat.min_l by lia. rewrite IH, (IH _ (drop 64 _)). f_equal.
  rewrite skipn_firstn_comm, take_take. f_equal. lia.
Qed.

Lemma absorb_app n : forall k st m1 m2,
  length m1 = (64 * n)%nat -> absorb (n + k) st (m1 ++ m2) = absorb k (absorb n st m1) m2.
Proof.
  induction n as [|n IH]; intros k st m1 m2 Hl.
  - by apply nil_length_inv in Hl as ->.
  - cbn [absorb Nat.add]. rewrite take_app_le, drop_app_le by lia. apply IH. rewrite length_drop. lia.
Qed.

Lemma compress_loop_spec n : forall st data len,
  n = Z.to_nat (len / 64) -> 0 <= len ->
  compress_loop n st data len = (absorb n st data, drop (64 * n) data, len mod 64).
Proof.
  induction n as [|n IH]; intros st data len Hn Hlen.
  - cbn. assert (len < 64) by (apply Z.nle_gt; intros ?; assert (1 <= len / 64) by (apply Z.div_le_lower_bound; lia); lia).
    rewrite Z.mod_small by lia. done.
  - assert (64 <= len) as H64 by (apply Z.nlt_ge; intros ?; rewrite Z.div_small in Hn by lia; done).
    cbn [compress_loop]. rewrite (proj2 (Z.leb_le 64 len) H64).
    assert ((len - 64) / 64 = len / 64 - 1) as Hd
      by (replace (len - 64) with (len + (-1) * 64) by lia; rewrite Z.div_add by lia; lia).
    rewrite IH by lia. rewrite drop_drop.
    replace ((len - 64) mod 64) with (len mod 64)
      by (replace (len - 64) with (len + (-1) * 64) by lia; by rewrite Z.mod_add by lia).
    rewrite compress_take. cbn [absorb]. repeat f_equal. lia.
Qed.

(** [ctx] has absorbed the whole blocks [full] and holds the rest, [tail]. *)
Record streams (ctx : Sha256) (full tail : list Z) : Prop := {
  st_full : (length full `mod` 64 = 0)%nat;
  st_tail : (length tail < 64)%nat;
  st_state : state ctx = absorb (length full / 64) iv full;
  st_count : count ctx = zlen full + zlen tail;
  st_len : length (buf ctx) = 64%nat;
  st_buf : take (length tail) (buf ctx) = tail;
}.

Definition Absorbed (ctx : Sha256) (m : list Z) : Prop :=
  exists full tail, m = full ++ tail /\ streams ctx full tail.

Lemma absorb_extend full n st data :
  (length full `mod` 64 = 0)%nat ->
  absorb n (absorb (length full / 64) st full) data
  = absorb ((length full + 64 * n) / 64) st (full ++ data).
Proof.
  intros Hf. rewrite (Nat.mul_comm 64 n), Nat.div_add by lia.
  rewrite absorb_app; [done|]. pose proof (Nat.div_mod_eq (length full) 64). lia.
Qed.

Lemma update_rest_streams ctx full data len :
  (length full `mod` 64 = 0)%nat -> state ctx = absorb (length full / 64) iv full ->
  length (buf ctx) = 64%nat -> 0 <= len <= zlen data -> count ctx = zlen full + len ->
  Absorbed (update_rest ctx data len) (full ++ take (Z.to_nat len) data).
Proof.
  intros Hf Hst Hbuf Hlen Hc. unfold update_rest. rewrite compress_loop_spec by lia.
  set (n := Z.to_nat (len / 64)). unfold zlen in *.
  pose proof (Z.div_mod len 64 ltac:(lia)). pose proof (Z.mod_pos_bound len 64 ltac:(lia)).
  assert (Z.of_nat n = len / 64) by (apply Z2Nat.id, Z.div_pos; lia).
  assert (64 * n + Z.to_nat (len mod 64) = Z.to_nat len)%nat as Hn by lia.
  exists (full ++ take (64 * n) data), (take (Z.to_nat (len mod 64)) (drop (64 * n) data)). split.
  - rewrite <- app_assoc. f_equal. rewrite <- Hn. by rewrite take_take_drop.
  - assert (length (take (64 * n) data) = (64 * n)%nat) as Ht by (rewrite length_take; lia).
    split; simpl; rewrite ?length_app, ?Ht.
    + by rewrite (Nat.mul_comm 64 n), Nat.Div0.mod_add.
    + rewrite length_take, length_drop. lia.
    + rewrite Hst, absorb_take. rewrite absorb_extend by done. done.
    + unfold zlen. rewrite length_app, Ht, length_take, length_drop. lia.
    + rewrite length_put_at; [done | rewrite length_drop; lia | lia].
    + rewrite length_take_le by (rewrite length_drop; lia).
      apply (take_put_at _ 0); rewrite ?length_drop; lia.
Qed.

(** Feeding [len] bytes extends the absorbed message by them. *)
Lemma update_absorbed ctx m data len :
  Absorbed ctx m -> 0 <= len <= zlen data -> zlen m + len < 2 ^ 61 -> len < 2 ^ 32 ->
  Absorbed (sha256_update ctx data len) (m ++ take (Z.to_nat len) data).
Proof.
  intros (full & tail & -> & [Hf Ht Hst Hc Hl Hb]) Hlen Hm H32. unfold sha256_update.
  pose proof (zlen_nonneg full). pose proof (zlen_nonneg tail). unfold zlen in Hm. rewrite length_app in Hm.
  assert (Z.land (count ctx) 63 = Z.of_nat (length tail)) as Hrem.
  { change 63 with (Z.ones 6). rewrite Z.land_ones, Hc by lia. unfold zlen.
    pose proof (Nat.div_mod_eq (length full) 64) as Hd. rewrite Hf in Hd.
    replace (Z.of_nat (length full) + Z.of_nat (length tail))
      with (Z.of_nat (length tail) + Z.of_nat (length full / 64) * 2 ^ 6) by lia.
    rewrite Z.mod_add by lia. apply Z.mod_small. lia. }
  rewrite Hrem, u32_small by lia. rewrite u64_small by (rewrite Hc; unfold zlen; lia).
  unfold zlen in *.
  destruct (Z.eqb_spec (Z.of_nat (length tail)) 0) as [Hz|Hz]; simpl.
  { assert (tail = []) as -> by (apply nil_length_inv; lia). rewrite app_nil_r.
    apply update_rest_streams; simpl; auto; unfold zlen; simpl in *; lia. }
  destruct (Z.ltb_spec len (64 - Z.of_nat (length tail))) as [Hs|Hs].
  - rewrite Z.sub_diag, (u32_small (_ + _)) by lia. change (u32 0) with 0.
    destruct (Z.eqb_spec (Z.of_nat (length tail) + len) 64) as [|_]; [lia|].
    exists full, (tail ++ take (Z.to_nat len) data). split; [by rewrite app_assoc|].
    unfold update_rest. simpl. split; simpl; auto.
    + rewrite length_app, length_take. lia.
    + rewrite Hc. unfold zlen. rewrite length_app, length_take. lia.
    + rewrite !length_put_at; lia.
    + unfold put_at at 1. simpl. rewrite drop_0,  length_app, length_take_le by lia.
      rewrite Nat2Z.id, take_put_at by lia. by rewrite Hb.
  - rewrite (u32_small (len - _)), (u32_small (_ + _)) by lia.
    destruct (Z.eqb_spec (Z.of_nat (length tail) + (64 - Z.of_nat (length tail))) 64) as [_|]; [|lia].
    set (fill := Z.to_nat (64 - Z.of_nat (length tail))). simpl.
    assert ((full ++ tail) ++ take (Z.to_nat len) data
            = (full ++ tail ++ take fill data)
              ++ take (Z.to_nat (len - (64 - Z.of_nat (length tail)))) (drop fill data)) as ->.
    { rewrite <- !app_assoc. do 2 f_equal. rewrite take_take_drop. f_equal. lia. }
    assert (length (tail ++ take fill data) = 64%nat) as H64 by (rewrite length_app, length_take; lia).
    apply update_rest_streams; simpl.
    + rewrite length_app, H64. replace 64%nat with (1 * 64)%nat at 1 by lia. by rewrite Nat.Div0.mod_add.
    + rewrite Hst, compress_take.
      assert (take 64 (put_at (buf ctx) (Z.to_nat (Z.of_nat (length tail))) data fill) = tail ++ take fill data) as ->.
      { rewrite Nat2Z.id. replace 64%nat with (length tail + fill)%nat by lia.
        rewrite take_put_at by lia. by rewrite Hb. }
      rewrite length_app, H64, <- (absorb_extend full 1) by done. cbn [absorb].
      rewrite (take_ge (_ ++ _)) by lia. done.
    + rewrite length_put_at; lia.
    + unfold zlen. rewrite length_drop. lia.
    + rewrite Hc. unfold zlen. rewrite length_app, H64. lia.
Qed.

Lemma init_absorbed ctx : length (buf ctx) = 64%nat -> Absorbed (sha256_init ctx) [].
Proof. intros H. exists [], []. split; [done|]. by split; simpl; try lia. Qed.

Lemma absorbed_count ctx m : Absorbed ctx m -> count ctx = zlen m.
Proof. intros (full & tail & -> & H). rewrite (st_count _ _ _ H). unfold zlen. rewrite length_app. lia. Qed.

Lemma pad_loop_absorbed n : forall ctx m,
  Absorbed ctx m -> zlen m + Z.of_nat n < 2 ^ 61 -> (56 - zlen m) mod 64 < Z.of_nat n ->
  Absorbed (pad_loop n ctx) (m ++ replicate (Z.to_nat ((56 - zlen m) mod 64)) 0).
Proof.
  induction n as [|n IH]; intros ctx m Ha Hm Hn.
  { pose proof (Z.mod_pos_bound (56 - zlen m) 64 ltac:(lia)). lia. }
  cbn [pad_loop]. rewrite (absorbed_count _ _ Ha). change 63 with (Z.ones 6).
  rewrite Z.land_ones by lia. change (2 ^ 6) with 64. pose proof (zlen_nonneg m).
  pose proof (Z.mod_pos_bound (zlen m) 64 ltac:(lia)). pose proof (Z.div_mod (zlen m) 64 ltac:(lia)).
  destruct (Z.eqb_spec (zlen m mod 64) 56) as [H56|H56].
  - assert ((56 - zlen m) mod 64 = 0) as ->; [|by rewrite app_nil_r].
    apply Z.mod_divide; [lia|]. exists (- (zlen m / 64)). lia.
  - assert (zlen (m ++ [0]) = zlen m + 1) as Hz by (unfold zlen; rewrite length_app; simpl; lia).
    assert ((56 - zlen m) mod 64 = 1 + (56 - zlen (m ++ [0])) mod 64) as Hk.
    { rewrite Hz.
      destruct (Z.ltb_spec (zlen m mod 64) 56).
      - rewrite <- (Z.mod_unique (56 - zlen m) 64 (- (zlen m / 64)) (56 - zlen m mod 64)) by lia.
        rewrite <- (Z.mod_unique (56 - (zlen m + 1)) 64 (- (zlen m / 64)) (55 - zlen m mod 64)) by lia. lia.
      - rewrite <- (Z.mod_unique (56 - zlen m) 64 (- (zlen m / 64) - 1) (120 - zlen m mod 64)) by lia.
        rewrite <- (Z.mod_unique (56 - (zlen m + 1)) 64 (- (zlen m / 64) - 1) (119 - zlen m mod 64)) by lia. lia. }
    pose proof (Z.mod_pos_bound (56 - zlen (m ++ [0])) 64 ltac:(lia)).
    pose proof (update_absorbed ctx m (replicate 64 0) 1 Ha ltac:(unfold zlen; simpl; lia)
                  ltac:(lia) ltac:(lia)) as Hu.
    change (m ++ take (Z.to_nat 1) (replicate 64 0)) with (m ++ [0]) in Hu.
    apply IH in Hu; [|lia|lia]. rewrite Hk, Z2Nat.inj_add by lia.
    change (Z.to_nat 1) with 1%nat. cbn [Nat.add replicate]. by rewrite <- app_assoc in Hu.
Qed.

Lemma absorbed_aligned ctx m :
  Absorbed ctx m -> (length m `mod` 64 = 0)%nat -> state ctx = absorb (length m / 64) iv m.
Proof.
  intros (full & tail & -> & H) Hm. rewrite length_app in Hm.
  assert (tail = []) as ->; [|rewrite app_nil_r; apply H].
  apply nil_length_inv. rewrite Nat.Div0.add_mod, (st_full _ _ _ H), Nat.add_0_l, Nat.Div0.mod_mod in Hm.
  by rewrite Nat.mod_small in Hm by apply H.
Qed.

#[local] Opaque sha256_compress absorb sha256_update pad_loop.

(** Finishing feeds exactly the FIPS padding. *)
Lemma final_pads ctx m :
  Absorbed ctx m -> zlen m < 2 ^ 60 -> Absorbed (fst (sha256_final ctx)) (fips_pad m).
Proof.
  intros Ha Hm. unfold sha256_final. cbn [fst].
  rewrite (absorbed_count _ _ Ha). pose proof (zlen_nonneg m). rewrite u64_small by lia.
  assert (zlen (m ++ [128]) = zlen m + 1) as Hz by (unfold zlen; rewrite length_app; simpl; lia).
  pose proof (update_absorbed _ _ [0x80] 1 Ha ltac:(unfold zlen; simpl; lia) ltac:(lia) ltac:(lia)) as H1.
  change (take (Z.to_nat 1) [128]) with [128] in H1.
  pose proof (Z.mod_pos_bound (55 - zlen m) 64 ltac:(lia)) as Hk.
  apply (pad_loop_absorbed 64) in H1; [|lia|apply Z.mod_pos_bound; lia].
  rewrite Hz in H1. replace (56 - (zlen m + 1)) with (55 - zlen m) in H1 by lia.
  apply (update_absorbed _ _ (be64 (zlen m * 8)) 8) in H1; [|unfold zlen; simpl; lia| |lia].
  - unfold fips_pad. by rewrite (Z.mul_comm 8), <- !app_assoc in *.
  - unfold zlen in *. rewrite length_app, length_replicate, length_app in *. simpl. lia.
Qed.

Lemma fips_pad_aligned m : (length (fips_pad m) `mod` 64 = 0)%nat.
Proof.
  apply Nat2Z.inj. unfold fips_pad. rewrite Nat2Z.inj_mod, !length_app, length_replicate.
  pose proof (Z.mod_pos_bound (55 - zlen m) 64 ltac:(lia)).
  simpl length. rewrite !Nat2Z.inj_add, Z2Nat.id by lia. fold (zlen m).
  apply Z.mod_divide; [lia|]. exists (1 - (55 - zlen m) / 64).
  pose proof (Z.div_mod (55 - zlen m) 64 ltac:(lia)). lia.
Qed.

(** The digest of a context is the reference digest of what was fed to it. *)
Lemma final_absorbed ctx m :
  Absorbed ctx m -> zlen m < 2 ^ 60 -> snd (sha256_final ctx) = sha256_ref m.
Proof.
  intros Ha Hm. pose proof (absorbed_aligned _ _ (final_pads _ _ Ha Hm) (fips_pad_aligned m)) as H.
  unfold sha256_ref. by rewrite <- H.
Qed.

Lemma update_init_absorbed ctx data len :
  length (buf ctx) = 64%nat -> 0 <= len <= zlen data -> len < 2 ^ 32 ->
  Absorbed (sha256_update (sha256_init ctx) data len) (take (Z.to_nat len) data).
Proof. intros Hb Hl H32. apply (update_absorbed _ []); [by apply init_absorbed|done| |done]; change (zlen []) with 0; lia. Qed.

Lemma sha256_correct ctx data len :
  length (buf ctx) = 64%nat -> 0 <= len <= zlen data -> len < 2 ^ 32 ->
  sha256 ctx data len = sha256_ref (take (Z.to_nat len) data).
Proof.
  intros Hb Hl H32. apply final_absorbed; [by apply update_init_absorbed|].
  unfold zlen in *. rewrite length_take. lia.
Qed.

Lemma length_absorb n : forall st m, length st = 8%nat -> length (absorb n st m) = 8%nat.
Proof.
  #[local] Transparent absorb sha256_compress.
  induction n as [|n IH]; intros st m H; [done|]. by apply IH.
Qed.

Lemma length_ref m : length (sha256_ref m) = 32%nat.
Proof.
  unfold sha256_ref. pose proof (length_absorb (length (fips_pad m) / 64) iv (fips_pad m) eq_refl) as H.
  revert H. generalize (absorb (length (fips_pad m) / 64) iv (fips_pad m)).
  intros l H. do 8 (destruct l as [|? l]; [done|]). by destruct l.
Qed.

End Sha.

(** ** HMAC and HKDF

    [stack] is the content of an uninitialised [Sha256] on the stack. *)
Module Hmac.

Section Hmac.
Context (stack : Sha.Sha256).

Definition hmac_sha256 (key : list Z) (klen : Z) (msg : list Z) (mlen : Z) : list Z :=
  let '(key, klen) := if 64 <? klen then (Sha.sha256 stack key klen, 32) else (key, klen) in
  let k0 := (fun i => if i <? klen then key.[i] else 0) <$> seqZ 0 64 in
  let ipad := (fun x => Z.lxor x 0x36) <$> k0 in
  let opad := (fun x => Z.lxor x 0x5c) <$> k0 in
  let ctx := Sha.sha256_init stack in
  let ctx := Sha.sha256_update ctx ipad 64 in
  let ctx := Sha.sha256_update ctx msg mlen in
  let '(ctx, inner) := Sha.sha256_final ctx in
  let ctx := Sha.sha256_init ctx in
  let ctx := Sha.sha256_update ctx opad 64 in
  let ctx := Sha.sha256_update ctx inner 32 in
  snd (Sha.sha256_final ctx).

(** [salt] is [None] for a null pointer. *)
Definition hkdf_extract (salt : option (list Z)) (slen : Z) (ikm : list Z) (ilen : Z) : list Z :=
  match salt with
  | Some salt => if slen =? 0 then hmac_sha256 (replicate 32 0) 32 ikm ilen else hmac_sha256 salt slen ikm ilen
  | None => hmac_sha256 (replicate 32 0) 32 ikm ilen
  end.

(** [buf] of [hkdf_expand] has 289 bytes; [info] is cut when it is full. *)
Definition expand_block (info : list Z) (ilen : Z) (T : list Z) (ctr : Z) : list Z :=
  let buf := if 1 <? ctr then take 32 T else [] in
  buf ++ take (Z.to_nat (Z.min ilen (288 - zlen buf))) info ++ [ctr].

Fixpoint expand_loop (fuel : nat) (prk info : list Z) (ilen olen : Z)
    (T : list Z) (done ctr : Z) (out : list Z) : list Z :=
  match fuel with
  | O => out
  | S k =>
      if done <? olen then
        let ctr := u8 (ctr + 1) in
        let buf := expand_block info ilen T ctr in
        let T := hmac_sha256 prk 32 buf (zlen buf) in
        let n := if 32 <? olen - done then 32 else olen - done in
        expand_loop k prk info ilen olen T (done + n) ctr (put_at out (Z.to_nat done) T (Z.to_nat n))
      else out
  end.

(** [T0] is the uninitialised [T]. *)
Definition hkdf_expand (T0 prk info : list Z) (ilen : Z) (out : list Z) (olen : Z) : list Z :=
  expand_loop (Z.to_nat ((olen + 31) / 32)) prk info ilen olen T0 0 0 out.

Definition INFO_SIZE : Z := 2 + 1 + 6 + 64 + 1 + 64.

(** The bytes written to [info], in order. *)
Definition hkdf_label (label ctx : list Z) (ctx_len out_len : Z) : list Z :=
  [u8 (Z.shiftr out_len 8); u8 out_len] ++ [u8 (6 + c_strlen label)]
  ++ [116; 108; 115; 49; 51; 32] ++ cstr label
  ++ [u8 ctx_len] ++ take (Z.to_nat ctx_len) ctx.

(** [None]: a write past the end of the array [info]. *)
Definition hkdf_expand_label (T0 secret label ctx : list Z) (ctx_len : Z) (out : list Z) (out_len : Z)
    : option (list Z) :=
  let info := hkdf_label label ctx ctx_len out_len in
  if zlen info <=? INFO_SIZE then Some (hkdf_expand T0 secret info (zlen info) out out_len) else None.

Definition tls13_derive_secret (T0 secret label transcript_hash out : list Z) : option (list Z) :=
  hkdf_expand_label T0 secret label transcript_hash 32 out 32.

End Hmac.

(** *** Reference: RFC 2104 and RFC 5869 *)

Definition hmac_ref (key msg : list Z) : list Z :=
  let k := if 64 <? zlen key then Sha.sha256_ref key else key in
  let k0 := k ++ replicate (64 - length k) 0 in
  Sha.sha256_ref ((flip Z.lxor 0x5c <$> k0) ++ Sha.sha256_ref ((flip Z.lxor 0x36 <$> k0) ++ msg)).

Fixpoint okm (n : nat) (prk info : list Z) (i : Z) (prev : list Z) : list Z :=
  match n with
  | O => []
  | S k => let t := hmac_ref prk (prev ++ info ++ [i]) in t ++ okm k prk info (i + 1) t
  end.

Definition hkdf_expand_ref (prk info : list Z) (olen : Z) : list Z :=
  take (Z.to_nat olen) (okm (Z.to_nat ((olen + 31) / 32)) prk info 1 []).

Section Correct.
Context (stack : Sha.Sha256) (Hstack : length (Sha.buf stack) = 64%nat).

Lemma hash_two ctx p m mlen :
  length (Sha.buf ctx) = 64%nat -> length p = 64%nat -> 0 <= mlen <= zlen m -> mlen < 2 ^ 32 ->
  let r := Sha.sha256_final (Sha.sha256_update (Sha.sha256_update (Sha.sha256_init ctx) p 64) m mlen) in
  snd r = Sha.sha256_ref (p ++ take (Z.to_nat mlen) m) /\ length (Sha.buf (fst r)) = 64%nat.
Proof.
  intros Hb Hp Hm H32 r.
  pose proof (Sha.update_init_absorbed ctx p 64 Hb ltac:(unfold zlen; lia) ltac:(lia)) as H1.
  rewrite take_ge in H1 by lia.
  apply (Sha.update_absorbed _ _ m mlen) in H1; [|done|unfold zlen; lia|done].
  assert (zlen (p ++ take (Z.to_nat mlen) m) < 2 ^ 60)
    by (unfold zlen in *; rewrite length_app, length_take; lia).
  split; [by apply Sha.final_absorbed|].
  destruct (Sha.final_pads _ _ H1 ltac:(done)) as (? & ? & _ & Hs). apply Hs.
Qed.

Lemma k0_pad key klen :
  0 <= klen <= 64 -> klen <= zlen key ->
  (fun i => if i <? klen then key.[i] else 0) <$> seqZ 0 64
  = take (Z.to_nat klen) key ++ replicate (64 - Z.to_nat klen) 0.
Proof.
  intros Hk Hl. unfold zlen in Hl. apply aget_ext.
  - unfold zlen. rewrite length_fmap, length_seqZ, length_app, length_take, length_replicate. lia.
  - intros i. unfold zlen. rewrite length_fmap, length_seqZ. intros Hi.
    unfold aget at 1. rewrite (list_lookup_total_fmap _ _ _) by (rewrite length_seqZ; lia).
    rewrite lookup_total_seqZ_lt by lia.
    replace (0 + Z.of_nat (Z.to_nat i)) with i by lia. unfold aget.
    destruct (Z.ltb_spec i klen).
    + rewrite lookup_total_app_l by (rewrite length_take; lia). by rewrite lookup_total_take_lt by lia.
    + rewrite lookup_total_app_r by (rewrite length_take; lia).
      symmetry. apply lookup_total_replicate_2. rewrite length_take. lia.
Qed.

#[local] Opaque Sha.sha256_ref.

Lemma hmac_correct key klen msg mlen :
  0 <= klen <= zlen key -> klen < 2 ^ 32 -> 0 <= mlen <= zlen msg -> mlen < 2 ^ 32 ->
  hmac_sha256 stack key klen msg mlen = hmac_ref (take (Z.to_nat klen) key) (take (Z.to_nat mlen) msg).
Proof.
  intros Hk Hk32 Hm Hm32. unfold hmac_sha256, hmac_ref.
  assert (zlen (take (Z.to_nat klen) key) = klen) as -> by (unfold zlen in *; rewrite length_take; lia).
  set (kk := if 64 <? klen then (Sha.sha256 stack key klen, 32) else (key, klen)).
  set (k := if 64 <? klen then Sha.sha256_ref (take (Z.to_nat klen) key) else take (Z.to_nat klen) key).
  assert (0 <= kk.2 <= 64 /\ kk.2 <= zlen kk.1 /\ take (Z.to_nat kk.2) kk.1 = k /\ length k = Z.to_nat kk.2)
    as (H1 & H2 & H3 & H4).
  { unfold kk, k. destruct (Z.ltb_spec 64 klen); simpl.
    - rewrite Sha.sha256_correct by done. unfold zlen. rewrite Sha.length_ref. split_and!; [lia|lia|lia| |done].
      apply take_ge. by rewrite Sha.length_ref.
    - unfold zlen in *. rewrite length_take. split_and!; try lia; done. }
  destruct kk as [key' klen']. cbn [fst snd] in *. rewrite k0_pad by done. rewrite H3, <- H4.
  set (k0 := k ++ replicate (64 - length k) 0).
  assert (length k0 = 64%nat) as Hk0 by (unfold k0; rewrite length_app, length_replicate; lia).
  destruct (hash_two stack ((fun x => Z.lxor x 0x36) <$> k0) msg mlen) as [Hi Hbi];
    [done|by rewrite length_fmap|done|done|].
  destruct (Sha.sha256_final _) as [ctx inner]. cbn [fst snd] in Hi, Hbi.
  destruct (hash_two ctx ((fun x => Z.lxor x 0x5c) <$> k0) inner 32) as [Ho _];
    [done|by rewrite length_fmap| |lia|].
  { rewrite Hi. unfold zlen. rewrite Sha.length_ref. lia. }
  rewrite Ho, Hi, (take_ge (Sha.sha256_ref _)) by (rewrite Sha.length_ref; lia). done.
Qed.

#[local] Opaque hmac_ref.

Lemma length_hmac_ref k m : length (hmac_ref k m) = 32%nat.
Proof. #[local] Transparent hmac_ref. apply Sha.length_ref. Qed.

#[local] Opaque hmac_ref hmac_sha256.

Lemma expand_block_ok info T ctr :
  zlen info <= 256 -> (1 <= ctr -> length T = 32%nat) ->
  expand_block info (zlen info) T (ctr + 1) = (if 1 <=? ctr then T else []) ++ info ++ [ctr + 1].
Proof.
  intros Hi HT. unfold expand_block. unfold zlen in *.
  replace (1 <? ctr + 1) with (1 <=? ctr) by lia.
  destruct (Z.leb_spec 1 ctr); rewrite ?(take_ge T) by lia; rewrite (take_ge info); simpl; try done; lia.
Qed.

(** [32 * ctr] bytes written, [ctr] blocks produced. *)
Lemma expand_loop_ok n prk info olen : forall T ctr out,
  zlen info <= 256 -> length prk = 32%nat -> 0 <= ctr -> 32 * ctr <= olen <= zlen out -> olen <= 8160 ->
  (1 <= ctr -> length T = 32%nat) -> Z.of_nat n = (olen - 32 * ctr + 31) / 32 ->
  expand_loop stack n prk info (zlen info) olen T (32 * ctr) ctr out
  = take (Z.to_nat (32 * ctr)) out
    ++ take (Z.to_nat (olen - 32 * ctr)) (okm n prk info (ctr + 1) (if 1 <=? ctr then T else []))
    ++ drop (Z.to_nat olen) out.
Proof.
  induction n as [|n IH]; intros T ctr out Hi Hprk H0 Holen H8160 HT Hn; cbn [expand_loop okm];
    pose proof (Z.div_mod (olen - 32 * ctr + 31) 32 ltac:(lia));
    pose proof (Z.mod_pos_bound (olen - 32 * ctr + 31) 32 ltac:(lia)).
  { assert (olen = 32 * ctr) as -> by lia. rewrite Z.sub_diag. simpl. by rewrite take_drop. }
  rewrite (proj2 (Z.ltb_lt (32 * ctr) olen)), u8_small by lia.
  rewrite expand_block_ok by done. set (blk := (if 1 <=? ctr then T else []) ++ info ++ [ctr + 1]).
  assert (0 <= zlen blk < 2 ^ 32) as Hblk.
  { unfold blk, zlen in *. rewrite !length_app. destruct (Z.leb_spec 1 ctr); rewrite ?HT by done; simpl; lia. }
  rewrite hmac_correct by (unfold zlen in *; lia).
  rewrite (take_ge prk), (take_ge blk) by (unfold zlen; lia).
  set (t := hmac_ref prk blk). assert (length t = 32%nat) as Ht by apply length_hmac_ref.
  destruct (Z.ltb_spec 32 (olen - 32 * ctr)) as [Hc|Hc].
  - replace (32 * ctr + 32) with (32 * (ctr + 1)) by lia. unfold zlen in Holen.
    rewrite IH; [|done|done|lia| |done|done|].
    2:{ unfold zlen. rewrite length_put_at; lia. }
    2:{ replace (olen - 32 * (ctr + 1) + 31) with ((olen - 32 * ctr + 31) + (-1) * 32) by lia.
        rewrite Z.div_add by lia. lia. }
    rewrite (proj2 (Z.leb_le 1 (ctr + 1))) by lia.
    replace (Z.to_nat (32 * (ctr + 1))) with (Z.to_nat (32 * ctr) + Z.to_nat 32)%nat by lia.
    rewrite take_put_at by lia. rewrite (take_ge t) by lia. rewrite <- app_assoc. f_equal.
    replace (Z.to_nat (olen - 32 * ctr)) with (length t + Z.to_nat (olen - 32 * (ctr + 1)))%nat by lia.
    rewrite take_app_add, <- app_assoc. do 2 f_equal.
    unfold put_at. rewrite drop_app_ge, drop_app_ge, drop_drop; rewrite ?length_take; try lia.
    f_equal. lia.
  - assert (n = 0)%nat as -> by lia. cbn [expand_loop okm]. rewrite app_nil_r.
    unfold put_at. unfold zlen in Holen. do 2 f_equal. f_equal. lia.
Qed.

(** Expansion writes the RFC 5869 key material and nothing else. *)
Lemma expand_correct T0 prk info out olen :
  zlen info <= 256 -> length prk = 32%nat -> 0 <= olen <= zlen out -> olen <= 8160 ->
  hkdf_expand stack T0 prk info (zlen info) out olen
  = hkdf_expand_ref prk info olen ++ drop (Z.to_nat olen) out.
Proof.
  intros Hi Hp Ho H8. unfold hkdf_expand.
  pose proof (expand_loop_ok (Z.to_nat ((olen + 31) / 32)) prk info olen T0 0 out) as E.
  rewrite Z.mul_0_r, Z.sub_0_r in E. apply E; try lia; try done.
  rewrite Z2Nat.id by (apply Z.div_pos; lia). done.
Qed.

(** ** The TLS 1.3 HkdfLabel structure (RFC 8446, 7.1) *)

Lemma hkdf_label_inj label1 label2 ctx1 ctx2 len1 len2 :
  c_strlen label1 <= 249 -> c_strlen label2 <= 249 -> zlen ctx1 < 256 -> zlen ctx2 < 256 ->
  0 <= len1 < 2 ^ 16 -> 0 <= len2 < 2 ^ 16 ->
  hkdf_label label1 ctx1 (zlen ctx1) len1 = hkdf_label label2 ctx2 (zlen ctx2) len2 ->
  cstr label1 = cstr label2 /\ ctx1 = ctx2 /\ len1 = len2.
Proof.
  intros Hl1 Hl2 Hc1 Hc2 Hn1 Hn2 H. unfold hkdf_label in H. unfold c_strlen, zlen in *.
  simpl in H. injection H as Hhi Hlo Hl H.
  rewrite !u8_small in Hl by lia.
  apply app_inj_1 in H as [-> H]; [|lia]. injection H as Hc H.
  rewrite !take_ge in H by lia. split_and!; [done|done|].
  unfold u8 in Hhi, Hlo. rewrite !Z.shiftr_div_pow2 in Hhi by lia. change (2 ^ 8) with 256 in *.
  pose proof (Z.div_mod len1 256 ltac:(lia)). pose proof (Z.div_mod len2 256 ltac:(lia)).
  assert (0 <= len1 / 256 < 256) by (split; [apply Z.div_pos|apply Z.div_lt_upper_bound]; lia).
  assert (0 <= len2 / 256 < 256) by (split; [apply Z.div_pos|apply Z.div_lt_upper_bound]; lia).
  rewrite !(Z.mod_small (_ / _)) in Hhi by lia. lia.
Qed.

End Correct.

(** RFC 4231 test case 2. *)
Example hmac_jefe :
  hmac_sha256 Sha.junk [74; 101; 102; 101] 4
    [119; 104; 97; 116; 32; 100; 111; 32; 121; 97; 32; 119; 97; 110; 116; 32; 102; 111; 114; 32;
     110; 111; 116; 104; 105; 110; 103; 63] 28 =
  [0x5b;0xdc;0xc1;0x46;0xbf;0x60;0x75;0x4e;0x6a;0x04;0x24;0x26;0x08;0x95;0x75;0xc7;
   0x5a;0x00;0x3f;0x08;0x9d;0x27;0x39;0x83;0x9d;0xec;0x58;0xb9;0x64;0xec;0x38;0x43].
Proof. vm_compute. reflexivity. Qed.

End Hmac.

(** ** Properties *)

Definition chunk_ok (c : list Z) : Prop := zlen c < 2 ^ 32.

Lemma foldl_absorbed cs : forall ctx m,
  Sha.Absorbed ctx m -> Forall chunk_ok cs -> zlen m + zlen (concat cs) < 2 ^ 60 ->
  Sha.Absorbed (foldl (fun ctx c => Sha.sha256_update ctx c (zlen c)) ctx cs) (m ++ concat cs).
Proof.
  induction cs as [|c cs IH]; intros ctx m Ha Hf Hm; simpl.
  - by rewrite app_nil_r.
  - inversion_clear Hf as [|? ? Hc Hcs]. unfold zlen in Hm. simpl in Hm. rewrite length_app in Hm.
    rewrite app_assoc. apply IH; [|done|].
    + assert (Sha.Absorbed (Sha.sha256_update ctx c (zlen c)) (m ++ take (Z.to_nat (zlen c)) c)) as H
        by (apply Sha.update_absorbed; unfold chunk_ok, zlen in *; auto; lia).
      by rewrite take_ge in H by (unfold zlen; lia).
    + unfold zlen. rewrite length_app. lia.
Qed.



(** [hmac_sha256] is RFC 2104 for every key length, the over-long keys that are
    hashed first included. *)
Theorem hmac_rfc2104 stack key msg :
  length (Sha.buf stack) = 64%nat -> zlen key < 2 ^ 32 -> zlen msg < 2 ^ 32 ->
  Hmac.hmac_sha256 stack key (zlen key) msg (zlen msg) = Hmac.hmac_ref key msg.
Proof.
  intros Hs Hk Hm. pose proof (zlen_nonneg key). pose proof (zlen_nonneg msg).
  rewrite Hmac.hmac_correct by (done || lia). unfold zlen. by rewrite !Nat2Z.id, !firstn_all.
Qed.

Lemma hmac_rfc2104_witness :
  Hmac.hmac_sha256 Sha.junk (replicate 65 9) 65 [1; 2; 3] 3 = Hmac.hmac_ref (replicate 65 9) [1; 2; 3].
Proof. exact (hmac_rfc2104 Sha.junk (replicate 65 9) [1; 2; 3] eq_refl eq_refl eq_refl). Defined.

(** [hkdf_expand_label] stays inside its buffers exactly when label and context
    have at most 128 bytes together; it then writes [out_len] bytes of RFC 5869
    material expanded from the RFC 8446 HkdfLabel, and nothing after them. *)
Theorem hkdf_expand_label_rfc8446 stack T0 secret label ctx out out_len :
  length (Sha.buf stack) = 64%nat -> length secret = 32%nat -> 0 <= out_len <= zlen out -> out_len <= 8160 ->
  Hmac.hkdf_expand_label stack T0 secret label ctx (zlen ctx) out out_len
  = if decide (c_strlen label + zlen ctx <= 128)
    then Some (Hmac.hkdf_expand_ref secret
                 (be32 out_len !!! 2%nat :: be32 out_len !!! 3%nat :: 6 + c_strlen label
                    :: [116; 108; 115; 49; 51; 32] ++ cstr label ++ zlen ctx :: ctx) out_len
               ++ drop (Z.to_nat out_len) out)
    else None.
Proof.
  intros Hs Hsec Ho H8. unfold Hmac.hkdf_expand_label.
  assert (zlen (Hmac.hkdf_label label ctx (zlen ctx) out_len) = 10 + c_strlen label + zlen ctx) as Hz.
  { unfold Hmac.hkdf_label, c_strlen, zlen. rewrite !length_app, length_take. simpl length. lia. }
  pose proof (zlen_nonneg (cstr label)). pose proof (zlen_nonneg ctx).
  rewrite Hz. unfold Hmac.INFO_SIZE. destruct (Z.leb_spec (10 + c_strlen label + zlen ctx) (2 + 1 + 6 + 64 + 1 + 64)) as [Hle|Hgt];
    case_decide; try done; try lia.
  - rewrite <- Hz.
    rewrite Hmac.expand_correct; [|done|lia|done|done|done].
    repeat f_equal. unfold Hmac.hkdf_label. unfold c_strlen in *.
    rewrite (u8_small (6 + _)), (u8_small (zlen ctx)) by lia. rewrite (take_ge ctx) by (unfold zlen; lia). done.
Qed.

Lemma hkdf_expand_label_rfc8446_witness :
  is_Some (Hmac.hkdf_expand_label Sha.junk [] (replicate 32 3) [107; 101; 121] [] (zlen (@nil Z)) (replicate 16 0) 16).
Proof.
  pose proof (hkdf_expand_label_rfc8446 Sha.junk [] (replicate 32 3) [107; 101; 121] [] (replicate 16 0) 16) as H.
  rewrite H; [|reflexivity|reflexivity|split; discriminate|discriminate].
  clear H. case_decide as H; [by eexists|]. exfalso. apply H. vm_compute. discriminate.
Defined.
