(* ===== verification/Aes.v ===== *)
(** * AES-128 and AES-128-GCM (crypto.c, parts 4 and 5)

    The 4x4 state [s[r][c]] is the list of its four rows.  [gcm_mul] takes
    pointers, and its only callers pass the same buffer as result and as operand;
    it is modelled on a list of buffers indexed by pointer, so that writing one
    name is seen through the other. *)

From Stdlib Require Import ZArith Lia Ring.
From stdpp Require Import base numbers list tactics.
From S2P Require Import Prelude Sha256.

Module Aes.

Definition SBOX : list Z :=
  [0x63;0x7c;0x77;0x7b;0xf2;0x6b;0x6f;0xc5;0x30;0x01;0x67;0x2b;0xfe;0xd7;0xab;0x76;
   0xca;0x82;0xc9;0x7d;0xfa;0x59;0x47;0xf0;0xad;0xd4;0xa2;0xaf;0x9c;0xa4;0x72;0xc0;
   0xb7;0xfd;0x93;0x26;0x36;0x3f;0xf7;0xcc;0x34;0xa5;0xe5;0xf1;0x71;0xd8;0x31;0x15;
   0x04;0xc7;0x23;0xc3;0x18;0x96;0x05;0x9a;0x07;0x12;0x80;0xe2;0xeb;0x27;0xb2;0x75;
   0x09;0x83;0x2c;0x1a;0x1b;0x6e;0x5a;0xa0;0x52;0x3b;0xd6;0xb3;0x29;0xe3;0x2f;0x84;
   0x53;0xd1;0x00;0xed;0x20;0xfc;0xb1;0x5b;0x6a;0xcb;0xbe;0x39;0x4a;0x4c;0x58;0xcf;
   0xd0;0xef;0xaa;0xfb;0x43;0x4d;0x33;0x85;0x45;0xf9;0x02;0x7f;0x50;0x3c;0x9f;0xa8;
   0x51;0xa3;0x40;0x8f;0x92;0x9d;0x38;0xf5;0xbc;0xb6;0xda;0x21;0x10;0xff;0xf3;0xd2;
   0xcd;0x0c;0x13;0xec;0x5f;0x97;0x44;0x17;0xc4;0xa7;0x7e;0x3d;0x64;0x5d;0x19;0x73;
   0x60;0x81;0x4f;0xdc;0x22;0x2a;0x90;0x88;0x46;0xee;0xb8;0x14;0xde;0x5e;0x0b;0xdb;
   0xe0;0x32;0x3a;0x0a;0x49;0x06;0x24;0x5c;0xc2;0xd3;0xac;0x62;0x91;0x95;0xe4;0x79;
   0xe7;0xc8;0x37;0x6d;0x8d;0xd5;0x4e;0xa9;0x6c;0x56;0xf4;0xea;0x65;0x7a;0xae;0x08;
   0xba;0x78;0x25;0x2e;0x1c;0xa6;0xb4;0xc6;0xe8;0xdd;0x74;0x1f;0x4b;0xbd;0x8b;0x8a;
   0x70;0x3e;0xb5;0x66;0x48;0x03;0xf6;0x0e;0x61;0x35;0x57;0xb9;0x86;0xc1;0x1d;0x9e;
   0xe1;0xf8;0x98;0x11;0x69;0xd9;0x8e;0x94;0x9b;0x1e;0x87;0xe9;0xce;0x55;0x28;0xdf;
   0x8c;0xa1;0x89;0x0d;0xbf;0xe6;0x42;0x68;0x41;0x99;0x2d;0x0f;0xb0;0x54;0xbb;0x16].

Definition RCON : list Z := [0x01; 0x02; 0x04; 0x08; 0x10; 0x20; 0x40; 0x80; 0x1b; 0x36].

Record Aes128 := { rk : list Z }.

(** [w[i]] from the words before it, for [i >= 4]. *)
Definition next_word (i : Z) (w : list Z) : list Z :=
  let t := w.[i - 1] in
  let t :=
    if i mod 4 =? 0 then
      let t := Z.lor (Z.lor (Z.lor (Z.shiftl SBOX.[Z.land (Z.shiftr t 16) 0xff] 24)
                                   (Z.shiftl SBOX.[Z.land (Z.shiftr t 8) 0xff] 16))
                            (Z.shiftl SBOX.[Z.land t 0xff] 8))
                     SBOX.[Z.land (Z.shiftr t 24) 0xff] in
      Z.lxor t (Z.shiftl RCON.[i / 4 - 1] 24)
    else t in
  w.[i <- Z.lxor w.[i - 4] t].

Definition aes128_setkey (ctx : Aes128) (key : list Z) : Aes128 :=
  let w := iter (fun i w => w.[i <- Sha.load_be32 key i]) 0 4 (rk ctx) in
  {| rk := iter next_word 4 40 w |}.

Definition aes_xtime (b : Z) : Z := u8 (Z.lxor (Z.shiftl b 1) (if truth (Z.shiftr b 7) then 0x1b else 0)).

(** [for (c) for (r) s[r][c] = f(r, c);] *)
Definition matrix (f : Z -> Z -> Z) : list (list Z) :=
  (fun r => f r <$> [0; 1; 2; 3]) <$> [0; 1; 2; 3].

Definition load_block (input : list Z) : list (list Z) := matrix (fun r c => input.[c * 4 + r]).
Definition store_block (s : list (list Z)) : list Z :=
  c ← [0; 1; 2; 3]; (fun r => s.[r].[c]) <$> [0; 1; 2; 3].

Definition add_round_key (rki : list Z) (s : list (list Z)) : list (list Z) :=
  matrix (fun r c => Z.lxor s.[r].[c] (Z.land (Z.shiftr rki.[c] (24 - 8 * r)) 0xff)).

Definition sub_bytes (s : list (list Z)) : list (list Z) := matrix (fun r c => SBOX.[s.[r].[c]]).

(** Row [r] moves left by [r]. *)
Definition shift_rows (s : list (list Z)) : list (list Z) :=
  [ [s.[0].[0]; s.[0].[1]; s.[0].[2]; s.[0].[3]];
    [s.[1].[1]; s.[1].[2]; s.[1].[3]; s.[1].[0]];
    [s.[2].[2]; s.[2].[3]; s.[2].[0]; s.[2].[1]];
    [s.[3].[3]; s.[3].[0]; s.[3].[1]; s.[3].[2]] ].

Notation "x ^^ y" := (Z.lxor x y) (at level 50, left associativity) : oria_scope.

Definition mix_columns (s : list (list Z)) : list (list Z) :=
  matrix (fun r c =>
    let a0 := s.[0].[c] in let a1 := s.[1].[c] in let a2 := s.[2].[c] in let a3 := s.[3].[c] in
    if r =? 0 then aes_xtime a0 ^^ a1 ^^ aes_xtime a1 ^^ a2 ^^ a3
    else if r =? 1 then a0 ^^ aes_xtime a1 ^^ a2 ^^ aes_xtime a2 ^^ a3
    else if r =? 2 then a0 ^^ a1 ^^ aes_xtime a2 ^^ a3 ^^ aes_xtime a3
    else a0 ^^ aes_xtime a0 ^^ a1 ^^ a2 ^^ aes_xtime a3).

Definition aes_round (rk : list Z) (i : Z) (s : list (list Z)) : list (list Z) :=
  let s := shift_rows (sub_bytes s) in
  let s := if i <? 10 then mix_columns s else s in
  add_round_key (drop (Z.to_nat (i * 4)) rk) s.

Definition aes128_encrypt_block (ctx : Aes128) (input : list Z) : list Z :=
  let s := add_round_key (rk ctx) (load_block input) in
  store_block (iter (aes_round (rk ctx)) 1 10 s).

(** FIPS 197, appendix B. *)
Example aes128_fips197 :
  aes128_encrypt_block
    (aes128_setkey {| rk := replicate 44 0 |}
       [0x2b;0x7e;0x15;0x16;0x28;0xae;0xd2;0xa6;0xab;0xf7;0x15;0x88;0x09;0xcf;0x4f;0x3c])
    [0x32;0x43;0xf6;0xa8;0x88;0x5a;0x30;0x8d;0x31;0x31;0x98;0xa2;0xe0;0x37;0x07;0x34]
  = [0x39;0x25;0x84;0x1d;0x02;0xdc;0x09;0xfb;0xdc;0x11;0x85;0x97;0x19;0x6a;0x0b;0x32].
Proof. vm_compute. reflexivity. Qed.

(** ** The inverse cipher (FIPS 197, 5.3), as reference *)

Definition inv_sbox (y : Z) : Z := default 0 (scan (fun i => SBOX.[i] =? y) 0 256).
Definition inv_sub_bytes (s : list (list Z)) : list (list Z) := matrix (fun r c => inv_sbox s.[r].[c]).
Definition inv_shift_rows (s : list (list Z)) : list (list Z) := matrix (fun r c => s.[r].[(c - r) mod 4]).

(** Products with 9, 11, 13 and 14 in GF(2^8). *)
Definition x2 := aes_xtime.
Definition x4 (b : Z) : Z := x2 (x2 b).
Definition x8 (b : Z) : Z := x2 (x4 b).
Definition inv_mix_columns (s : list (list Z)) : list (list Z) :=
  matrix (fun r c =>
    let a k := s.[(r + k) mod 4].[c] in
    (x8 (a 0) ^^ x4 (a 0) ^^ x2 (a 0)) ^^ (x8 (a 1) ^^ x2 (a 1) ^^ a 1)
    ^^ (x8 (a 2) ^^ x4 (a 2) ^^ a 2) ^^ (x8 (a 3) ^^ a 3)).

Definition inv_round (rk : list Z) (i : Z) (s : list (list Z)) : list (list Z) :=
  let s := add_round_key (drop (Z.to_nat (i * 4)) rk) s in
  let s := if i <? 10 then inv_mix_columns s else s in
  inv_sub_bytes (inv_shift_rows s).

Definition aes128_decrypt_block (ctx : Aes128) (input : list Z) : list Z :=
  let s := iter (fun t => inv_round (rk ctx) (10 - t)) 0 10 (load_block input) in
  store_block (add_round_key (rk ctx) s).

Definition bytes_state (s : list (list Z)) : Prop :=
  exists f, s = matrix f /\ forall r c, 0 <= r < 4 -> 0 <= c < 4 -> 0 <= f r c < 256.

Lemma cases4 i : 0 <= i < 4 -> i = 0 \/ i = 1 \/ i = 2 \/ i = 3.
Proof. lia. Qed.

Lemma cell_matrix f r c : 0 <= r < 4 -> 0 <= c < 4 -> (matrix f).[r].[c] = f r c.
Proof. intros [-> | [-> | [-> | ->]]]%cases4 [-> | [-> | [-> | ->]]]%cases4; reflexivity. Qed.

Lemma matrix_ext f g :
  (forall r c, 0 <= r < 4 -> 0 <= c < 4 -> f r c = g r c) -> matrix f = matrix g.
Proof. intros H. unfold matrix. simpl. by rewrite !H by lia. Qed.

Lemma matrix_cells s : bytes_state s -> s = matrix (fun r c => s.[r].[c]).
Proof. intros (f & -> & _). apply matrix_ext. intros. by rewrite cell_matrix. Qed.

Lemma bytes_cell s r c : bytes_state s -> 0 <= r < 4 -> 0 <= c < 4 -> 0 <= s.[r].[c] < 256.
Proof. intros (f & -> & H) ??. rewrite cell_matrix by done. by apply H. Qed.

Lemma shift_rows_matrix s : shift_rows s = matrix (fun r c => s.[r].[(c + r) mod 4]).
Proof. reflexivity. Qed.

Lemma lxor_byte x y : 0 <= x < 256 -> 0 <= y < 256 -> 0 <= x ^^ y < 256.
Proof.
  intros Hx Hy. apply (bits_small 8); [done|]. intros i Hi.
  by rewrite Z.lxor_spec, !(bits_high 8) by lia.
Qed.

Lemma land_byte x : 0 <= Z.land x 0xff < 256.
Proof. change 0xff with (Z.ones 8). rewrite Z.land_ones by lia. apply Z.mod_pos_bound. lia. Qed.

Lemma xtime_byte x : 0 <= aes_xtime x < 256.
Proof. apply u8_range. Qed.

Lemma sbox_ok : forall b, 0 <= b < 256 -> 0 <= SBOX.[b] < 256 /\ inv_sbox SBOX.[b] = b.
Proof.
  assert (forallb (fun b => (0 <=? SBOX.[b]) && (SBOX.[b] <? 256) && (inv_sbox SBOX.[b] =? b)) (seqZ 0 256) = true)
    as H by (vm_compute; reflexivity).
  intros b Hb. rewrite forallb_forall in H. specialize (H b).
  assert (In b (seqZ 0 256)) as Hin by (apply list_elem_of_In, elem_of_seqZ; lia).
  apply H in Hin. bool_to_prop. repeat split; assumption.
Qed.

(** [aes_xtime] is linear over xor. *)
Lemma xtime_xor x y : 0 <= x < 256 -> 0 <= y < 256 -> aes_xtime (x ^^ y) = aes_xtime x ^^ aes_xtime y.
Proof.
  intros Hx Hy.
  assert (forall z, 0 <= z < 256 -> truth (Z.shiftr z 7) = Z.testbit z 7) as Ht.
  { intros z Hz. unfold truth.
    assert (Z.shiftr z 7 = Z.b2z (Z.testbit z 7)) as ->; [|by destruct (Z.testbit z 7)].
    apply Z.bits_inj'. intros i Hi. rewrite Z.shiftr_spec by lia.
    destruct (decide (i = 0)) as [->|]; [by rewrite Z.b2z_bit0|].
    rewrite (bits_high 8) by lia. destruct (Z.testbit z 7); simpl; [|by rewrite Z.testbit_0_l].
    symmetry. apply Z.bits_above_log2; simpl; lia. }
  unfold aes_xtime. rewrite !Ht, Z.lxor_spec by (done || by apply lxor_byte).
  unfold u8. apply Z.bits_inj'. intros i Hi.
  rewrite ?Z.lxor_spec, ?Z.testbit_mod_pow2, ?Z.lxor_spec, ?Z.shiftl_spec, ?Z.lxor_spec by lia.
  destruct (Z.testbit x 7), (Z.testbit y 7); simpl; rewrite ?Z.testbit_0_l; destruct (i <? 8); simpl; ring.
Qed.

Ltac solve_byte := repeat first [apply lxor_byte | apply xtime_byte | apply land_byte | assumption].

Lemma inv_mix_mix s : bytes_state s -> inv_mix_columns (mix_columns s) = s.
Proof.
  intros Hs. rewrite (matrix_cells s Hs) at 2. apply matrix_ext. intros r c Hr Hc.
  pose proof (bytes_cell s 0 c Hs ltac:(lia) Hc) as B0. pose proof (bytes_cell s 1 c Hs ltac:(lia) Hc) as B1.
  pose proof (bytes_cell s 2 c Hs ltac:(lia) Hc) as B2. pose proof (bytes_cell s 3 c Hs ltac:(lia) Hc) as B3.
  unfold mix_columns. rewrite !cell_matrix by (done || (apply Z.mod_pos_bound; lia)).
  revert B0 B1 B2 B3. destruct (cases4 r Hr) as [-> | [-> | [-> | ->]]];
    cbn -[Z.lxor aes_xtime x2 x4 x8 aget];
    generalize (s.[0].[c]) (s.[1].[c]) (s.[2].[c]) (s.[3].[c]); intros a0 a1 a2 a3 B0 B1 B2 B3;
    repeat match goal with |- context [(?a + ?b) mod 4 =? ?c] =>
      let v := eval vm_compute in ((a + b) mod 4 =? c) in change ((a + b) mod 4 =? c) with v end;
    cbv iota; unfold x8, x4, x2; rewrite !xtime_xor by solve_byte;
    apply Z.bits_inj'; intros i Hi; rewrite !Z.lxor_spec; ring.
Qed.

Lemma add_add k s : bytes_state s -> add_round_key k (add_round_key k s) = s.
Proof.
  intros Hs. rewrite (matrix_cells s Hs) at 2. apply matrix_ext. intros r c Hr Hc.
  unfold add_round_key. rewrite cell_matrix by done.
  by rewrite Z.lxor_assoc, Z.lxor_nilpotent, Z.lxor_0_r.
Qed.

Lemma inv_shift_shift s : bytes_state s -> inv_shift_rows (shift_rows s) = s.
Proof.
  intros Hs. rewrite (matrix_cells s Hs) at 2. rewrite shift_rows_matrix. apply matrix_ext. intros r c Hr Hc.
  rewrite cell_matrix by (done || (apply Z.mod_pos_bound; lia)).
  f_equal. rewrite Z.add_mod_idemp_l by lia. rewrite Z.sub_add. by apply Z.mod_small.
Qed.

Lemma inv_sub_sub s : bytes_state s -> inv_sub_bytes (sub_bytes s) = s.
Proof.
  intros Hs. rewrite (matrix_cells s Hs) at 2. apply matrix_ext. intros r c Hr Hc.
  unfold sub_bytes. rewrite cell_matrix by done. by apply sbox_ok, bytes_cell.
Qed.

Lemma add_bytes k s : bytes_state s -> bytes_state (add_round_key k s).
Proof.
  intros Hs. eexists. split; [reflexivity|]. intros. apply lxor_byte; [by apply bytes_cell|apply land_byte].
Qed.
Lemma sub_bytes_bytes s : bytes_state s -> bytes_state (sub_bytes s).
Proof. intros Hs. eexists. split; [reflexivity|]. intros. by apply sbox_ok, bytes_cell. Qed.
Lemma shift_bytes s : bytes_state s -> bytes_state (shift_rows s).
Proof.
  intros Hs. rewrite shift_rows_matrix. eexists. split; [reflexivity|]. intros.
  apply bytes_cell; [done|done|]. apply Z.mod_pos_bound. lia.
Qed.
Lemma mix_bytes s : bytes_state s -> bytes_state (mix_columns s).
Proof.
  intros Hs. eexists. split; [reflexivity|]. intros r c Hr Hc.
  pose proof (bytes_cell s 0 c Hs ltac:(lia) Hc). pose proof (bytes_cell s 1 c Hs ltac:(lia) Hc).
  pose proof (bytes_cell s 2 c Hs ltac:(lia) Hc). pose proof (bytes_cell s 3 c Hs ltac:(lia) Hc).
  cbv beta zeta. repeat case_if; solve_byte.
Qed.

#[export] Hint Resolve add_bytes sub_bytes_bytes shift_bytes mix_bytes : oria.

Lemma round_bytes rk i s : bytes_state s -> bytes_state (aes_round rk i s).
Proof. intros Hs. unfold aes_round. case_if; auto 6 with oria. Qed.

Lemma inv_round_round rk i s : bytes_state s -> inv_round rk i (aes_round rk i s) = s.
Proof.
  intros Hs. unfold inv_round, aes_round. rewrite add_add by (case_if; auto with oria).
  case_if; rewrite ?inv_mix_mix, inv_shift_shift, inv_sub_sub by auto with oria; done.
Qed.

Lemma load_bytes input : length input = 16%nat -> Forall (fun b => 0 <= b < 256) input -> bytes_state (load_block input).
Proof.
  intros Hl Hb. eexists. split; [reflexivity|]. intros r c Hr Hc. apply (proj1 (Forall_aget _ input) Hb).
  unfold zlen. lia.
Qed.

Lemma load_store s : bytes_state s -> load_block (store_block s) = s.
Proof. intros Hs. rewrite (matrix_cells s Hs) at 2. reflexivity. Qed.

Lemma store_load input : length input = 16%nat -> store_block (load_block input) = input.
Proof. intros H. do 17 (destruct input as [|? input]; try done). Qed.

Lemma decrypt_encrypt ctx input :
  length input = 16%nat -> Forall (fun b => 0 <= b < 256) input ->
  aes128_decrypt_block ctx (aes128_encrypt_block ctx input) = input.
Proof.
  intros Hl Hb. unfold aes128_decrypt_block, aes128_encrypt_block.
  pose proof (load_bytes input Hl Hb) as Hs. apply (add_bytes (rk ctx)) in Hs as Hs'.
  revert Hs'. generalize (eq_refl (add_round_key (rk ctx) (load_block input))).
  generalize (add_round_key (rk ctx) (load_block input)) at 2 3 4. intros s Es Hs'.
  rewrite load_store.
  - cbn [iter]. cbn -[inv_round aes_round store_block add_round_key].
    rewrite !inv_round_round by (repeat apply round_bytes; exact Hs').
    rewrite <- Es, add_add by done. by apply store_load.
  - refine (iter_ind (fun _ => bytes_state) _ 10 1 s Hs' _). intros i s' _. apply round_bytes.
Qed.

End Aes.

Module Gcm.
Import Aes.

(** One step [V = V * x]: a right shift over the 16 bytes, reduced by 0xe1. *)
Definition shift_V (V : list Z) : list Z :=
  let lsb := Z.land V.[15] 1 in
  let V := iter (fun t V => let k := 15 - t in
                            V.[k <- Z.lor (Z.shiftr V.[k] 1) (u8 (Z.shiftl V.[k - 1] 7))]) 0 15 V in
  let V := V.[0 <- Z.shiftr V.[0] 1] in
  if truth lsb then V.[0 <- Z.lxor V.[0] 0xe1] else V.

Definition xor_into (dst src : list Z) : list Z :=
  iter (fun k z => z.[k <- Z.lxor z.[k] src.[k]]) 0 16 dst.

(** The body of the inner loop: bit [j] of [xi]. *)
Definition mul_bit (pz xi j : Z) (s : list (list Z) * list Z) : list (list Z) * list Z :=
  let '(mem, V) := s in
  let mem := if Z.testbit xi j then mem.[pz <- xor_into mem.[pz] V] else mem in
  (mem, shift_V V).

(** [gcm_mul(Z, X, Y)] with [Z], [X] and [Y] the buffers [pz], [px] and [py] of [mem]. *)
Definition gcm_mul (mem : list (list Z)) (pz px py : Z) : list (list Z) :=
  let mem := mem.[pz <- iter (fun i z => z.[i <- 0]) 0 16 mem.[pz]] in
  let V := take 16 mem.[py] in
  fst (iter (fun i s =>
         let xi := (fst s).[px].[i] in
         iter (fun t s => mul_bit pz xi (7 - t) s) 0 8 s) 0 16 (mem, V)).

(** One block of AAD or ciphertext: [X ^= block; gcm_mul(X, X, H)]; the buffers
    are [X] (0) and [H] (1). *)
Definition ghash_block (data : list Z) (len i : Z) (mem : list (list Z)) : list (list Z) :=
  let n := if u32 (len - i * 16) <? 16 then u32 (len - i * 16) else 16 in
  let block := put_at (replicate 16 0) 0 (drop (Z.to_nat (i * 16)) data) (Z.to_nat n) in
  let mem := mem.[0 <- xor_into mem.[0] block] in
  gcm_mul mem 0 0 1.

Definition ghash (H aad : list Z) (aad_len : Z) (cipher : list Z) (clen : Z) : list Z :=
  let mem := [replicate 16 0; H] in
  let mem := iter (ghash_block aad aad_len) 0 (Z.to_nat (u32 (aad_len + 15) / 16)) mem in
  let mem := iter (ghash_block cipher clen) 0 (Z.to_nat (u32 (clen + 15) / 16)) mem in
  let lblock := be64 (aad_len * 8) ++ be64 (clen * 8) in
  let mem := mem.[0 <- xor_into mem.[0] lblock] in
  (gcm_mul mem 0 0 1).[0].

(** [for (j = 0; j < n; j++) buf[done + j] ^= ks[j];] *)
Definition xor_at (buf : list Z) (pos : Z) (ks : list Z) (n : Z) : list Z :=
  iter (fun j b => b.[pos + j <- Z.lxor b.[pos + j] ks.[j]]) 0 (Z.to_nat n) buf.

Fixpoint ctr_loop (fuel : nat) (aes : Aes128) (iv : list Z) (buf : list Z) (len ctr done : Z) : list Z :=
  match fuel with
  | O => buf
  | S k =>
      if done <? len then
        let ctr := u32 (ctr + 1) in
        let keystream := aes128_encrypt_block aes (take 12 iv ++ be32 ctr) in
        let n := if 16 <? len - done then 16 else len - done in
        ctr_loop k aes iv (xor_at buf done keystream n) len ctr (u32 (done + 16))
      else buf
  end.

(** The fuel is the number of blocks. *)
Definition gcm_ctr (aes : Aes128) (iv buf : list Z) (len ctr_start : Z) : list Z :=
  ctr_loop (Z.to_nat ((len + 15) / 16)) aes iv buf len ctr_start 0.

(** [H], [S] and the tag, computed alike by both directions. *)
Definition gcm_tag (aes : Aes128) (iv aad : list Z) (aad_len : Z) (cipher : list Z) (len : Z) : list Z :=
  let H := aes128_encrypt_block aes (replicate 16 0) in
  let S := ghash H aad aad_len cipher len in
  let E_J0 := aes128_encrypt_block aes (take 12 iv ++ [0; 0; 0; 1]) in
  (fun i => Z.lxor S.[i] E_J0.[i]) <$> seqZ 0 16.

Definition aes128gcm_encrypt (aes : Aes128) (iv aad : list Z) (aad_len : Z) (buf : list Z) (len : Z)
    : list Z * list Z :=
  let buf := gcm_ctr aes iv buf len 1 in
  (buf, gcm_tag aes iv aad aad_len buf len).

Definition aes128gcm_decrypt (aes : Aes128) (iv aad : list Z) (aad_len : Z) (buf : list Z) (len : Z)
    (expected_tag : list Z) : Z * list Z :=
  let tag := gcm_tag aes iv aad aad_len buf len in
  let diff := iter (fun i diff => Z.lor diff (Z.lxor tag.[i] expected_tag.[i])) 0 16 0 in
  if truth diff then (-1, buf) else (0, gcm_ctr aes iv buf len 1).

(** With three distinct buffers [gcm_mul] is the GCM product (test case 2 of the
    GCM specification). *)
Example gcm_mul_distinct :
  (gcm_mul [replicate 16 7;
     [0x03;0x88;0xda;0xce;0x60;0xb6;0xa3;0x92;0xf3;0x28;0xc2;0xb9;0x71;0xb2;0xfe;0x78];
     [0x66;0xe9;0x4b;0xd4;0xef;0x8a;0x2c;0x3b;0x88;0x4c;0xfa;0x59;0xca;0x34;0x2b;0x2e]] 0 1 2).[0]
  = [0x5e;0x2e;0xc7;0x46;0x91;0x70;0x62;0x88;0x2c;0x85;0xb0;0x68;0x53;0x53;0xde;0xb7].
Proof. vm_compute. reflexivity. Qed.

#[local] Opaque aes128_encrypt_block.

(** ** The aliased product *)

Lemma zero_fill z : length z = 16%nat -> iter (fun i z => z.[i <- 0]) 0 16 z = replicate 16 0.
Proof. intros H. do 17 (destruct z as [|? z]; try done). Qed.

(** Called with the same buffer as result and operand, [gcm_mul] clears the
    operand before reading it: the product is zero whatever the operand was. *)
Lemma gcm_mul_aliased mem p py :
  0 <= p < zlen mem -> length mem.[p] = 16%nat -> gcm_mul mem p p py = mem.[p <- replicate 16 0].
Proof.
  intros Hp Hl. unfold gcm_mul. rewrite zero_fill by done.
  set (mem0 := mem.[p <- replicate 16 0]).
  assert (mem0.[p] = replicate 16 0) as H0 by (by apply aget_aset_eq).
  refine (iter_ind (fun _ s => fst s = mem0) _ 16 0 (mem0, _) eq_refl _).
  intros i [m V] Hi Hm. simpl in Hm. subst m. cbn [fst]. rewrite H0.
  assert ((replicate 16 0).[i] = 0) as -> by (unfold aget; apply lookup_total_replicate_2; lia).
  refine (iter_ind (fun _ s => fst s = mem0) _ 8 0 (mem0, V) eq_refl _).
  intros t [m W] Ht Hm. cbn [fst] in Hm. subst m. unfold mul_bit. by rewrite Z.testbit_0_l.
Qed.

Lemma length_xor_into d s : length (xor_into d s) = length d.
Proof.
  refine (iter_ind (fun _ z => length z = length d) _ 16 0 d eq_refl _).
  intros i z _ H. by rewrite length_aset.
Qed.

#[local] Opaque gcm_mul xor_into.

Lemma mul_first (X H : list Z) : length X = 16%nat -> gcm_mul [X; H] 0 0 1 = [replicate 16 0; H].
Proof. intros HX. rewrite gcm_mul_aliased; [reflexivity|unfold zlen; simpl; lia|exact HX]. Qed.

Lemma ghash_block_zero data len i X H :
  length X = 16%nat -> ghash_block data len i [X; H] = [replicate 16 0; H].
Proof.
  intros HX. unfold ghash_block.
  set (b := put_at _ _ _ _). change ([X; H].[0 <- xor_into [X; H].[0] b]) with [xor_into X b; H].
  apply mul_first. rewrite length_xor_into. exact HX.
Qed.

Lemma ghash_mem_shape data len n : forall lo X H,
  length X = 16%nat -> exists X', iter (ghash_block data len) lo n [X; H] = [X'; H] /\ length X' = 16%nat.
Proof.
  generalize (ghash_block_zero data len). generalize (ghash_block data len). intros f Hf.
  induction n as [|n IH]; intros lo X H HX; cbn [iter].
  - exists X. split; [reflexivity|exact HX].
  - rewrite Hf by exact HX. apply IH. reflexivity.
Qed.

Lemma ghash_zero H aad aad_len cipher clen : ghash H aad aad_len cipher clen = replicate 16 0.
Proof.
  unfold ghash.
  destruct (ghash_mem_shape aad aad_len (Z.to_nat (u32 (aad_len + 15) / 16)) 0 (replicate 16 0) H)
    as (X1 & -> & H1); [reflexivity|].
  destruct (ghash_mem_shape cipher clen (Z.to_nat (u32 (clen + 15) / 16)) 0 X1 H) as (X2 & -> & H2); [exact H1|].
  set (b := be64 _ ++ be64 _). change ([X2; H].[0 <- xor_into [X2; H].[0] b]) with [xor_into X2 b; H].
  rewrite mul_first by (rewrite length_xor_into; exact H2). reflexivity.
Qed.

(** ** Counter mode *)

Lemma xor_at_spec buf pos ks n :
  0 <= pos -> 0 <= n -> pos + n <= zlen buf ->
  length (xor_at buf pos ks n) = length buf /\
  (forall i, 0 <= i < zlen buf ->
     (xor_at buf pos ks n).[i] = if decide (pos <= i < pos + n) then Z.lxor buf.[i] ks.[i - pos] else buf.[i]).
Proof.
  intros Hp Hn Hb. unfold xor_at.
  assert (let k := 0 + Z.of_nat (Z.to_nat n) in
          let b := iter (fun j b => b.[pos + j <- Z.lxor b.[pos + j] ks.[j]]) 0 (Z.to_nat n) buf in
          length b = length buf /\ forall i, 0 <= i < zlen buf ->
            b.[i] = if decide (pos <= i < pos + k) then Z.lxor buf.[i] ks.[i - pos] else buf.[i]) as H.
  { refine (iter_ind (fun k b => length b = length buf /\ forall i, 0 <= i < zlen buf ->
            b.[i] = if decide (pos <= i < pos + k) then Z.lxor buf.[i] ks.[i - pos] else buf.[i]) _ _ 0 buf _ _).
    - split; [done|]. intros i Hi. case_decide; [lia|done].
    - intros k b Hk [Hl Hb']. split; [by rewrite length_aset|]. intros i Hi.
      rewrite aget_aset by (unfold zlen in *; lia).
      rewrite !Hb' by lia. repeat case_decide; subst; try lia; try done.
      replace (pos + k - pos) with k by lia. done. }
  simpl in H. by rewrite Z2Nat.id in H by lia.
Qed.

(** The key stream byte for offset [i] of a buffer started at block counter [c]. *)
Definition stream (aes : Aes128) (iv : list Z) (c i : Z) : Z :=
  (aes128_encrypt_block aes (take 12 iv ++ be32 (u32 (c + 1 + i / 16)))).[i mod 16].

Lemma ctr_loop_spec aes iv len n : forall buf ctr done,
  len <= zlen buf -> len <= 2 ^ 32 - 16 -> 0 <= done -> done mod 16 = 0 ->
  Z.of_nat n = (len - done + 15) / 16 -> done <= len + 15 ->
  length (ctr_loop n aes iv buf len ctr done) = length buf /\
  (forall i, 0 <= i < zlen buf ->
     (ctr_loop n aes iv buf len ctr done).[i]
     = if decide (done <= i < len) then Z.lxor buf.[i] (stream aes iv ctr (i - done)) else buf.[i]).
Proof.
  induction n as [|n IH]; intros buf ctr dn Hb H32 H0 H16 Hn Hd; cbn [ctr_loop];
    pose proof (Z.div_mod (len - dn + 15) 16 ltac:(lia));
    pose proof (Z.mod_pos_bound (len - dn + 15) 16 ltac:(lia)).
  { split; [done|]. intros i Hi. case_decide; [lia|done]. }
  rewrite (proj2 (Z.ltb_lt dn len)) by lia.
  set (ks := aes128_encrypt_block _ _). set (m := if 16 <? len - dn then 16 else len - dn).
  assert (0 <= m <= 16 /\ dn + m <= len /\ (m = 16 \/ dn + m = len)) as (Hm & Hml & Hm2)
    by (unfold m; destruct (Z.ltb_spec 16 (len - dn)); lia).
  destruct (xor_at_spec buf dn ks m) as [Hl1 Hb1]; [lia..|].
  assert (u32 (dn + 16) = dn + 16) as -> by (apply u32_small; lia).
  destruct (IH (xor_at buf dn ks m) (u32 (ctr + 1)) (dn + 16)) as [Hl2 Hb2]; try (unfold zlen in *; lia).
  { replace (dn + 16) with (dn + 1 * 16) by lia. by rewrite Z.mod_add by lia. }
  { replace (len - (dn + 16) + 15) with (len - dn + 15 + (-1) * 16) by lia. rewrite Z.div_add by lia. lia. }
  split; [by rewrite Hl2|]. intros i Hi. rewrite Hb2, Hb1 by (unfold zlen in *; lia).
  repeat case_decide; try lia; try done.
  - f_equal. unfold stream.
    replace (i - dn) with (i - (dn + 16) + 1 * 16) by lia. rewrite Z.div_add, Z.mod_add by lia.
    do 4 f_equal. unfold u32. rewrite <- (Z.add_assoc (_ mod _)), Z.add_mod_idemp_l by lia. f_equal. lia.
  - f_equal. unfold stream. rewrite Z.div_small, Z.mod_small by lia. by rewrite Z.add_0_r.
Qed.

#[local] Opaque ctr_loop.

(** Counter mode xors the first [len] bytes with the key stream. *)
Lemma gcm_ctr_spec aes iv buf len c :
  0 <= len <= zlen buf -> len <= 2 ^ 32 - 16 ->
  length (gcm_ctr aes iv buf len c) = length buf /\
  (forall i, 0 <= i < zlen buf ->
     (gcm_ctr aes iv buf len c).[i]
     = if decide (i < len) then Z.lxor buf.[i] (stream aes iv c i) else buf.[i]).
Proof.
  intros Hl H32. destruct (ctr_loop_spec aes iv len (Z.to_nat ((len + 15) / 16)) buf c 0) as [H1 H2];
    [lia|lia|lia|done|rewrite Z2Nat.id by (apply Z.div_pos; lia); f_equal; lia|lia|].
  split; [exact H1|]. intros i Hi. unfold gcm_ctr. rewrite H2 by lia. rewrite Z.sub_0_r.
  repeat case_decide; try lia; done.
Qed.

Lemma gcm_ctr_involutive aes iv buf len c :
  0 <= len <= zlen buf -> len <= 2 ^ 32 - 16 -> gcm_ctr aes iv (gcm_ctr aes iv buf len c) len c = buf.
Proof.
  intros Hl H32. destruct (gcm_ctr_spec aes iv buf len c Hl H32) as [H1 H2].
  assert (zlen (gcm_ctr aes iv buf len c) = zlen buf) as Hz by (unfold zlen; by rewrite H1).
  destruct (gcm_ctr_spec aes iv (gcm_ctr aes iv buf len c) len c) as [H3 H4]; [lia|done|].
  apply aget_ext; [unfold zlen; rewrite H3; exact Hz|].
  intros i Hi. assert (0 <= i < zlen buf) by (unfold zlen in *; lia).
  rewrite H4, H2 by lia. case_decide; [|done].
  by rewrite Z.lxor_assoc, Z.lxor_nilpotent, Z.lxor_0_r.
Qed.

(** ** The tag *)

(** The tag of the nonce alone. *)
Definition nonce_tag (aes : Aes128) (iv : list Z) : list Z :=
  (fun i => (aes128_encrypt_block aes (take 12 iv ++ [0; 0; 0; 1])).[i]) <$> seqZ 0 16.

Lemma gcm_tag_is_nonce_tag aes iv aad aad_len cipher len :
  gcm_tag aes iv aad aad_len cipher len = nonce_tag aes iv.
Proof.
  unfold gcm_tag, nonce_tag. rewrite ghash_zero. apply list_fmap_ext. intros k i Hk.
  apply lookup_seqZ in Hk as [-> Hk].
  assert ((replicate 16 0).[0 + Z.of_nat k] = 0) as ->; [|by rewrite Z.lxor_0_l].
  unfold aget. apply lookup_total_replicate_2. lia.
Qed.

Lemma diff_zero t e :
  truth (iter (fun i diff => Z.lor diff (Z.lxor t.[i] e.[i])) 0 16 0) = false
  <-> forall i, 0 <= i < 16 -> t.[i] = e.[i].
Proof.
  assert (forall n lo d, iter (fun i diff => Z.lor diff (Z.lxor t.[i] e.[i])) lo n d = 0
            <-> d = 0 /\ forall i, lo <= i < lo + Z.of_nat n -> t.[i] = e.[i]) as H.
  { induction n as [|n IH]; intros lo d; cbn [iter].
    - split; [intros ->; split; [done|lia]|by intros [-> _]].
    - rewrite IH, Z.lor_eq_0_iff, Z.lxor_eq_0_iff. split.
      + intros [[-> H0] H]. split; [done|]. intros i Hi.
        destruct (decide (i = lo)) as [->|]; [done|apply H; lia].
      + intros [-> H]. split_and!; [done|apply H; lia|intros; apply H; lia]. }
  unfold truth. rewrite negb_false_iff, Z.eqb_eq, H. split; [intros [_ ?]; auto with lia|].
  intros Ht. split; [done|]. intros. apply Ht. lia.
Qed.

Lemma length_nonce_tag aes iv : length (nonce_tag aes iv) = 16%nat.
Proof. unfold nonce_tag. by rewrite length_fmap, length_seqZ. Qed.

Lemma decrypt_spec aes iv aad aad_len buf len tag :
  length tag = 16%nat ->
  aes128gcm_decrypt aes iv aad aad_len buf len tag
  = if decide (tag = nonce_tag aes iv) then (0, gcm_ctr aes iv buf len 1) else (-1, buf).
Proof.
  intros Ht. unfold aes128gcm_decrypt. rewrite gcm_tag_is_nonce_tag.
  pose proof (diff_zero (nonce_tag aes iv) tag) as H. pose proof (length_nonce_tag aes iv) as Hn.
  destruct (truth _); case_decide as Hd; try done; exfalso.
  - subst. assert (true = false) as [=]. by apply H.
  - apply Hd. symmetry. apply aget_ext; [unfold zlen; congruence|]. unfold zlen. rewrite Hn. by apply H.
Qed.

End Gcm.

(** ** Properties *)



(** Decrypting what [aes128gcm_encrypt] produced, with its tag, gives back the
    plaintext, for buffers below the 32-bit block counter's range. *)
Theorem gcm_roundtrip aes iv aad aad_len buf len :
  0 <= len <= zlen buf -> len <= 2 ^ 32 - 16 ->
  let '(c, tag) := Gcm.aes128gcm_encrypt aes iv aad aad_len buf len in
  Gcm.aes128gcm_decrypt aes iv aad aad_len c len tag = (0, buf).
Proof.
  intros Hl H32. unfold Gcm.aes128gcm_encrypt. rewrite Gcm.gcm_tag_is_nonce_tag.
  rewrite Gcm.decrypt_spec by apply Gcm.length_nonce_tag. rewrite decide_True by done.
  by rewrite Gcm.gcm_ctr_involutive.
Qed.

Definition demo_aes : Aes.Aes128 := Aes.aes128_setkey {| Aes.rk := replicate 44 0 |} (replicate 16 3).

Lemma gcm_roundtrip_witness :
  let '(c, tag) := Gcm.aes128gcm_encrypt demo_aes (replicate 12 1) [5; 6] 2 (replicate 20 65) 20 in
  Gcm.aes128gcm_decrypt demo_aes (replicate 12 1) [5; 6] 2 c 20 tag = (0, replicate 20 65).
Proof.
  apply (gcm_roundtrip demo_aes (replicate 12 1) [5; 6] 2 (replicate 20 65) 20).
  - split; vm_compute; discriminate.
  - vm_compute. discriminate.
Defined.

(** C39: The tag authenticates only key and nonce: [ghash] multiplies [X] into itself
    through a [gcm_mul] that clears its result first, so any ciphertext and any
    associated data are accepted with a tag seen for the same nonce, and a tag is
    rejected only when it differs from that one value. *)
Theorem gcm_accepts_forgery aes iv aad aad_len buf len aad' aad_len' forged len' tag :
  length tag = 16%nat ->
  let seen := snd (Gcm.aes128gcm_encrypt aes iv aad aad_len buf len) in
  Gcm.aes128gcm_decrypt aes iv aad' aad_len' forged len' tag
  = if decide (tag = seen) then (0, Gcm.gcm_ctr aes iv forged len' 1) else (-1, forged).
Proof.
  intros Ht seen. unfold seen, Gcm.aes128gcm_encrypt. cbn [snd].
  rewrite Gcm.gcm_tag_is_nonce_tag. by apply Gcm.decrypt_spec.
Qed.

Lemma gcm_accepts_forgery_witness :
  let tag := snd (Gcm.aes128gcm_encrypt demo_aes (replicate 12 1) [] 0 [1; 2; 3] 3) in
  fst (Gcm.aes128gcm_decrypt demo_aes (replicate 12 1) [7] 1 [9; 9; 9; 9] 4 tag) = 0.
Proof.
  cbv zeta.
  pose proof (gcm_accepts_forgery demo_aes (replicate 12 1) [] 0 [1; 2; 3] 3 [7] 1 [9; 9; 9; 9] 4
    (snd (Gcm.aes128gcm_encrypt demo_aes (replicate 12 1) [] 0 [1; 2; 3] 3))) as H.
  rewrite H by (vm_compute; reflexivity). rewrite decide_True by reflexivity. reflexivity.
Defined.
