(* ===== verification/X25519.v ===== *)
(** * X25519 and the kernel PRNG (crypto.c, part 6)

    A field element is five 64-bit limbs of 51 bits; 128-bit products are kept at
    their width.  [fe_*] take the values of their arguments before writing the
    result, so a result that aliases an argument is the same function. *)

From Stdlib Require Import ZArith Zpow_facts Lia.
From stdpp Require Import base numbers list tactics.
From S2P Require Import Prelude.

Definition u128 (z : Z) : Z := z mod 2 ^ 128.

Module X.

Record fe := Fe { l0 : Z; l1 : Z; l2 : Z; l3 : Z; l4 : Z }.

Definition FE_MASK : Z := Z.shiftl 1 51 - 1.

Definition fe_zero : fe := Fe 0 0 0 0 0.
Definition fe_one : fe := Fe 1 0 0 0 0.

Definition fe_add (f g : fe) : fe :=
  Fe (u64 (l0 f + l0 g)) (u64 (l1 f + l1 g)) (u64 (l2 f + l2 g)) (u64 (l3 f + l3 g)) (u64 (l4 f + l4 g)).

Definition fe_sub (f g : fe) : fe :=
  let p0 := 4 * Z.shiftl 1 51 - 76 in
  let pi := 4 * Z.shiftl 1 51 - 4 in
  Fe (u64 (l0 f - l0 g + p0)) (u64 (l1 f - l1 g + pi)) (u64 (l2 f - l2 g + pi))
     (u64 (l3 f - l3 g + pi)) (u64 (l4 f - l4 g + pi)).

(** [c = (uint64_t)(t >> 51); t &= FE_MASK;] *)
Definition carry (t : Z) : Z := u64 (Z.shiftr t 51).
Definition low (t : Z) : Z := Z.land t FE_MASK.

(** Carries from limb 0 up to limb 4, on 128-bit accumulators. *)
Definition pass (t : fe) : fe :=
  let c := carry (l0 t) in let t0 := low (l0 t) in let t1 := u128 (l1 t + c) in
  let c := carry t1 in let t1 := low t1 in let t2 := u128 (l2 t + c) in
  let c := carry t2 in let t2 := low t2 in let t3 := u128 (l3 t + c) in
  let c := carry t3 in let t3 := low t3 in let t4 := u128 (l4 t + c) in
  Fe t0 t1 t2 t3 t4.

(** The five accumulators of the schoolbook product. *)
Definition products (f g : fe) : fe :=
  let f19_1 := u64 (l1 f * 19) in let f19_2 := u64 (l2 f * 19) in
  let f19_3 := u64 (l3 f * 19) in let f19_4 := u64 (l4 f * 19) in
  Fe (u128 (l0 f * l0 g + f19_1 * l4 g + f19_2 * l3 g + f19_3 * l2 g + f19_4 * l1 g))
     (u128 (l0 f * l1 g + l1 f * l0 g + f19_2 * l4 g + f19_3 * l3 g + f19_4 * l2 g))
     (u128 (l0 f * l2 g + l1 f * l1 g + l2 f * l0 g + f19_3 * l4 g + f19_4 * l3 g))
     (u128 (l0 f * l3 g + l1 f * l2 g + l2 f * l1 g + l3 f * l0 g + f19_4 * l4 g))
     (u128 (l0 f * l4 g + l1 f * l3 g + l2 f * l2 g + l3 f * l1 g + l4 f * l0 g)).

(** [c = t4 >> 51; t4 &= FE_MASK; t0 += (u128)19*c;] *)
Definition fold_top (t : fe) : fe :=
  let c := carry (l4 t) in Fe (u128 (l0 t + u128 (19 * c))) (l1 t) (l2 t) (l3 t) (low (l4 t)).

Definition fe_mul (f g : fe) : fe :=
  let t := pass (fold_top (pass (products f g))) in
  Fe (u64 (l0 t)) (u64 (l1 t)) (u64 (l2 t)) (u64 (l3 t)) (u64 (l4 t)).

Definition fe_sq (f : fe) : fe := fe_mul f f.

Definition fe_mul_scalar (f : fe) (n : Z) : fe :=
  let t := pass (Fe (u128 (l0 f * n)) (u128 (l1 f * n)) (u128 (l2 f * n)) (u128 (l3 f * n)) (u128 (l4 f * n))) in
  let c := carry (l4 t) in let t4 := low (l4 t) in
  let t0 := u128 (l0 t + u64 (19 * c)) in   (* the product is 64 bits wide here *)
  let c := carry t0 in let t0 := low t0 in let t1 := u128 (l1 t + c) in
  Fe (u64 t0) (u64 t1) (u64 (l2 t)) (u64 (l3 t)) (u64 t4).

(** [n] squarings in a row. *)
Definition sq_times (n : nat) (f : fe) : fe := Nat.iter n fe_sq f.

Definition fe_invert (z : fe) : fe :=
  let t0 := fe_sq z in
  let t1 := fe_sq t0 in let t1 := fe_sq t1 in
  let t1 := fe_mul z t1 in
  let t0 := fe_mul t0 t1 in
  let t2 := fe_sq t0 in
  let t1 := fe_mul t1 t2 in
  let t2 := sq_times 4 (fe_sq t1) in let t1 := fe_mul t2 t1 in
  let t2 := sq_times 9 (fe_sq t1) in let t2 := fe_mul t2 t1 in
  let t3 := sq_times 19 (fe_sq t2) in let t2 := fe_mul t3 t2 in
  let t2 := sq_times 9 (fe_sq t2) in let t1 := fe_mul t2 t1 in
  let t2 := sq_times 49 (fe_sq t1) in let t2 := fe_mul t2 t1 in
  let t3 := sq_times 99 (fe_sq t2) in let t2 := fe_mul t3 t2 in
  let t2 := sq_times 49 (fe_sq t2) in let t1 := fe_mul t2 t1 in
  let t1 := sq_times 4 (fe_sq t1) in fe_mul t1 t0.

(** One limb of [fe_cswap], and the swap of both elements. *)
Definition cswap_limb (mask f g : Z) : Z * Z :=
  let x := Z.land (Z.lxor f g) mask in (Z.lxor f x, Z.lxor g x).

Definition fe_cswap (f g : fe) (bit : Z) : fe * fe :=
  let mask := u64 (0 - bit) in
  let '(f0, g0) := cswap_limb mask (l0 f) (l0 g) in
  let '(f1, g1) := cswap_limb mask (l1 f) (l1 g) in
  let '(f2, g2) := cswap_limb mask (l2 f) (l2 g) in
  let '(f3, g3) := cswap_limb mask (l3 f) (l3 g) in
  let '(f4, g4) := cswap_limb mask (l4 f) (l4 g) in
  (Fe f0 f1 f2 f3 f4, Fe g0 g1 g2 g3 g4).

(** Eight bytes of [s] from [i], little-endian. *)
Definition load_le64 (s : list Z) (i : Z) : Z :=
  Z.lor (Z.lor (Z.lor (Z.lor (Z.lor (Z.lor (Z.lor s.[i] (Z.shiftl s.[i + 1] 8)) (Z.shiftl s.[i + 2] 16))
    (Z.shiftl s.[i + 3] 24)) (Z.shiftl s.[i + 4] 32)) (Z.shiftl s.[i + 5] 40))
    (Z.shiftl s.[i + 6] 48)) (Z.shiftl s.[i + 7] 56).

Definition fe_from_bytes (s : list Z) : fe :=
  let w0 := load_le64 s 0 in let w1 := load_le64 s 8 in
  let w2 := load_le64 s 16 in let w3 := load_le64 s 24 in
  Fe (Z.land w0 FE_MASK)
     (Z.land (Z.lor (Z.shiftr w0 51) (u64 (Z.shiftl w1 13))) FE_MASK)
     (Z.land (Z.lor (Z.shiftr w1 38) (u64 (Z.shiftl w2 26))) FE_MASK)
     (Z.land (Z.lor (Z.shiftr w2 25) (u64 (Z.shiftl w3 39))) FE_MASK)
     (Z.land (Z.shiftr w3 12) FE_MASK).

(** One round of the carry propagation of [fe_to_bytes]. *)
Definition propagate (t : fe) : fe :=
  let c := Z.shiftr (l4 t) 51 in let t4 := low (l4 t) in let t0 := u64 (l0 t + u64 (19 * c)) in
  let c := Z.shiftr t0 51 in let t0 := low t0 in let t1 := u64 (l1 t + c) in
  let c := Z.shiftr t1 51 in let t1 := low t1 in let t2 := u64 (l2 t + c) in
  let c := Z.shiftr t2 51 in let t2 := low t2 in let t3 := u64 (l3 t + c) in
  let c := Z.shiftr t3 51 in let t3 := low t3 in let t4 := u64 (t4 + c) in
  Fe t0 t1 t2 t3 t4.

(** The conditional subtraction of [p]. *)
Definition sub_p (t : fe) : fe :=
  let m := if truth (Z.shiftr (l4 t) 51) then 1 else 0 in
  let m := if (l4 t =? FE_MASK) && (l3 t =? FE_MASK) && (l2 t =? FE_MASK) && (l1 t =? FE_MASK)
              && (FE_MASK - 18 <=? l0 t) then 1 else m in
  Fe (u64 (l0 t - m * (FE_MASK - 18))) (u64 (l1 t - m * FE_MASK)) (u64 (l2 t - m * FE_MASK))
     (u64 (l3 t - m * FE_MASK)) (u64 (l4 t - m * FE_MASK)).

Definition le64 (w : Z) : list Z := (fun i => u8 (Z.shiftr w (i * 8))) <$> [0; 1; 2; 3; 4; 5; 6; 7].

Definition fe_to_bytes (h : fe) : list Z :=
  let t := sub_p (propagate (propagate h)) in
  let w0 := Z.lor (l0 t) (u64 (Z.shiftl (l1 t) 51)) in
  let w1 := Z.lor (Z.shiftr (l1 t) 13) (u64 (Z.shiftl (l2 t) 38)) in
  let w2 := Z.lor (Z.shiftr (l2 t) 26) (u64 (Z.shiftl (l3 t) 25)) in
  let w3 := Z.lor (Z.shiftr (l3 t) 39) (u64 (Z.shiftl (l4 t) 12)) in
  le64 w0 ++ le64 w1 ++ le64 w2 ++ le64 w3.

Record Ladder := { x_2 : fe; z_2 : fe; x_3 : fe; z_3 : fe; swap : Z }.

(** The differential addition and doubling of one iteration. *)
Definition ladder_step (x_1 x_2 z_2 x_3 z_3 : fe) : fe * fe * fe * fe :=
  let A := fe_add x_2 z_2 in let AA := fe_sq A in
  let B := fe_sub x_2 z_2 in let BB := fe_sq B in
  let E := fe_sub AA BB in
  let C := fe_add x_3 z_3 in
  let D := fe_sub x_3 z_3 in
  let DA := fe_mul D A in
  let CB := fe_mul C B in
  let x_3 := fe_sq (fe_add DA CB) in
  let z_3 := fe_sq (fe_sub DA CB) in
  let z_3 := fe_mul z_3 x_1 in
  let x_2 := fe_mul AA BB in
  let A := fe_mul_scalar E 121666 in
  let A := fe_add AA A in
  let z_2 := fe_mul E A in
  (x_2, z_2, x_3, z_3).

(** The loop body for bit [i] of [k]. *)
Definition ladder_bit (x_1 : fe) (k : list Z) (i : Z) (s : Ladder) : Ladder :=
  let bit := Z.land (Z.shiftr k.[i / 8] (Z.land i 7)) 1 in
  let s2 := Z.lxor (swap s) bit in
  let '(x2, x3) := fe_cswap (x_2 s) (x_3 s) s2 in
  let '(z2, z3) := fe_cswap (z_2 s) (z_3 s) s2 in
  let '(x2, z2, x3, z3) := ladder_step x_1 x2 z2 x3 z3 in
  {| x_2 := x2; z_2 := z2; x_3 := x3; z_3 := z3; swap := bit |}.

Definition clamp (k : list Z) : list Z :=
  let k := k.[0 <- Z.land k.[0] 248] in
  let k := k.[31 <- Z.land k.[31] 127] in
  k.[31 <- Z.lor k.[31] 64].

Definition curve25519_ladder (scalar u_in : list Z) : list Z :=
  let x_1 := fe_from_bytes u_in in
  let k := clamp (take 32 scalar) in
  let s := iter (fun t => ladder_bit x_1 k (254 - t)) 0 255
             {| x_2 := fe_one; z_2 := fe_zero; x_3 := x_1; z_3 := fe_one; swap := 0 |} in
  let '(x2, _) := fe_cswap (x_2 s) (x_3 s) (swap s) in
  let '(z2, _) := fe_cswap (z_2 s) (z_3 s) (swap s) in
  fe_to_bytes (fe_mul x2 (fe_invert z2)).

Definition BASE_POINT : list Z := 9 :: replicate 31 0.

Definition x25519_public (priv : list Z) : list Z := curve25519_ladder priv BASE_POINT.
Definition x25519_shared (priv peer_pub : list Z) : list Z := curve25519_ladder priv peer_pub.

(** [ticks] is [get_ticks()], [addr] the address of [prng_state]. *)
Definition prng_next (ticks addr prng_state : Z) : Z :=
  let s := if truth prng_state then prng_state
           else Z.lxor (Z.lxor ticks addr) 0xdeadbeefcafe in
  let s := Z.lxor s (u64 (Z.shiftl s 13)) in
  let s := Z.lxor s (Z.shiftr s 7) in
  Z.lxor s (u64 (Z.shiftl s 17)).

(** [priv] and the generator's new state. *)
Definition x25519_generate_private (ticks addr prng_state : Z) : list Z * Z :=
  let '(priv, st) :=
    iter (fun _ '(priv, st) => let r := prng_next ticks addr st in (priv ++ le64 r, r)) 0 4 ([], prng_state) in
  (clamp priv, st).

(** ** Reference: RFC 7748 over the integers modulo p *)

Definition P : Z := 2 ^ 255 - 19.

(** Little-endian value of bytes. *)
Fixpoint le_val (s : list Z) : Z := match s with [] => 0 | b :: s' => b + 256 * le_val s' end.
Fixpoint le_bytes (n : nat) (v : Z) : list Z :=
  match n with O => [] | S k => v mod 256 :: le_bytes k (v / 256) end.

Definition decode_u (u : list Z) : Z := (le_val u mod 2 ^ 255) mod P.
Definition decode_scalar (k : list Z) : Z := le_val (clamp k).

Record RLadder := { rx2 : Z; rz2 : Z; rx3 : Z; rz3 : Z; rswap : bool }.

Definition rstep (a24 x1 x2 z2 x3 z3 : Z) : Z * Z * Z * Z :=
  let A := (x2 + z2) mod P in let AA := A * A mod P in
  let B := (x2 - z2) mod P in let BB := B * B mod P in
  let E := (AA - BB) mod P in
  let C := (x3 + z3) mod P in let D := (x3 - z3) mod P in
  let DA := D * A mod P in let CB := C * B mod P in
  (AA * BB mod P, E * ((AA + a24 * E) mod P) mod P,
   (DA + CB) ^ 2 mod P, x1 * ((DA - CB) ^ 2 mod P) mod P).

Definition rbit (a24 x1 k i : Z) (s : RLadder) : RLadder :=
  let kt := Z.testbit k i in
  let sw := xorb (rswap s) kt in
  let '(x2, x3) := if sw then (rx3 s, rx2 s) else (rx2 s, rx3 s) in
  let '(z2, z3) := if sw then (rz3 s, rz2 s) else (rz2 s, rz3 s) in
  let '(x2, z2, x3, z3) := rstep a24 x1 x2 z2 x3 z3 in
  {| rx2 := x2; rz2 := z2; rx3 := x3; rz3 := z3; rswap := kt |}.

Definition x25519_ref (a24 : Z) (scalar u : list Z) : list Z :=
  let x1 := decode_u u in
  let k := decode_scalar scalar in
  let s := iter (fun t => rbit a24 x1 k (254 - t)) 0 255
             {| rx2 := 1; rz2 := 0; rx3 := x1; rz3 := 1; rswap := false |} in
  let x2 := if rswap s then rx3 s else rx2 s in
  let z2 := if rswap s then rz3 s else rz2 s in
  le_bytes 32 (x2 * Zpow_mod z2 (P - 2) P mod P).

(** RFC 7748, section 5: [a24 = (486662 - 2) / 4]. *)
Definition rfc7748_a24 : Z := 121665.


(** ** Arithmetic modulo p *)

Definition cong (a b : Z) : Prop := a mod P = b mod P.
Infix "==" := cong (at level 70, no associativity) : oria_scope.

#[global] Instance cong_equiv : Equivalence cong.
Proof. split; unfold cong; [intros a | intros a b H | intros a b c H1 H2]; congruence. Qed.
#[global] Instance cong_add : Proper (cong ==> cong ==> cong) Z.add.
Proof. intros a b H c d H'. unfold cong in *. by rewrite Z.add_mod, H, H', <- Z.add_mod. Qed.
#[global] Instance cong_mul : Proper (cong ==> cong ==> cong) Z.mul.
Proof. intros a b H c d H'. unfold cong in *. by rewrite Z.mul_mod, H, H', <- Z.mul_mod. Qed.
#[global] Instance cong_sub : Proper (cong ==> cong ==> cong) Z.sub.
Proof. intros a b H c d H'. unfold cong in *. by rewrite Zminus_mod, H, H', <- Zminus_mod. Qed.

Lemma cong_mod a : a mod P == a.
Proof. apply Z.mod_mod. done. Qed.

Lemma cong_plus_kP a k : a + k * P == a.
Proof. apply Z.mod_add. done. Qed.

(** ** The value of five limbs *)

Definition val (f : fe) : Z :=
  l0 f + 2251799813685248 * l1 f + 5070602400912917605986812821504 * l2 f
  + 11417981541647679048466287755595961091061972992 * l3 f
  + 25711008708143844408671393477458601640355247900524685364822016 * l4 f.

Definition below (B : Z) (f : fe) : Prop :=
  (0 <= l0 f < B) /\ (0 <= l1 f < B) /\ (0 <= l2 f < B) /\ (0 <= l3 f < B) /\ (0 <= l4 f < B).

(** What every multiplication returns. *)
Abbreviation tight := (below (2 ^ 52)).
Abbreviation loose := (below (2 ^ 54)).

Lemma low_mod t : low t = t mod 2251799813685248.
Proof. unfold low, FE_MASK. change (Z.shiftl 1 51 - 1) with (Z.ones 51). by rewrite Z.land_ones. Qed.

Lemma carry_div t : 0 <= t < 2 ^ 115 -> carry t = t / 2251799813685248.
Proof.
  intros Ht. unfold carry. rewrite Z.shiftr_div_pow2 by lia. change (2 ^ 51) with 2251799813685248.
  apply u64_small. split; [apply Z.div_pos; lia|apply Z.div_lt_upper_bound; lia].
Qed.

Lemma u128_small z : 0 <= z < 2 ^ 128 -> u128 z = z.
Proof. intros. apply Z.mod_small. lia. Qed.

(** Division of [t] by 2^51 as two fresh variables. *)
Ltac split51 t q r :=
  let H := fresh in
  pose proof (Z.div_mod t 2251799813685248 ltac:(lia)) as H;
  pose proof (Z.mod_pos_bound t 2251799813685248 ltac:(lia));
  set (q := t / 2251799813685248) in *; set (r := t mod 2251799813685248) in *;
  clearbody q r.

Lemma pass_spec t :
  below (2 ^ 114 + 2 ^ 113) t -> let r := pass t in
  val r = val t /\ 0 <= l0 r < 2 ^ 51 /\ 0 <= l1 r < 2 ^ 51 /\ 0 <= l2 r < 2 ^ 51 /\ 0 <= l3 r < 2 ^ 51
  /\ l4 t <= l4 r <= l4 t + 2 ^ 64
  /\ (l0 t < 2 ^ 101 -> l1 t < 2 ^ 51 -> l2 t < 2 ^ 51 -> l3 t < 2 ^ 51 -> l4 r <= l4 t + 1).
Proof.
  destruct t as [t0 t1 t2 t3 t4]. unfold below, pass, val. simpl. intros (H0 & H1 & H2 & H3 & H4).
  rewrite (carry_div t0) by lia. rewrite !low_mod. split51 t0 q0 r0.
  rewrite (u128_small (t1 + q0)) by lia. rewrite (carry_div (t1 + q0)) by lia. split51 (t1 + q0) q1 r1.
  rewrite (u128_small (t2 + q1)) by lia. rewrite (carry_div (t2 + q1)) by lia. split51 (t2 + q1) q2 r2.
  rewrite (u128_small (t3 + q2)) by lia. rewrite (carry_div (t3 + q2)) by lia. split51 (t3 + q2) q3 r3.
  rewrite (u128_small (t4 + q3)) by lia.
  split_and!; try lia.
Qed.

Lemma fold_top_spec t :
  0 <= l0 t < 2 ^ 51 -> 0 <= l4 t < 2 ^ 114 -> let r := fold_top t in
  val r == val t /\ 0 <= l0 r < 2 ^ 69 /\ 0 <= l4 r < 2 ^ 51.
Proof.
  destruct t as [t0 t1 t2 t3 t4]. unfold fold_top, val. simpl. intros H0 H4.
  rewrite (carry_div t4), low_mod by lia. split51 t4 q r.
  rewrite (u128_small (19 * q)), u128_small by lia. split; [|lia].
  match goal with |- ?a == ?b => replace a with (b + - q * P) by (unfold P; lia) end.
  apply cong_plus_kP.
Qed.

(** The part of the product above 2^255. *)
Definition high (f g : fe) : Z :=
  (l1 f * l4 g + l2 f * l3 g + l3 f * l2 g + l4 f * l1 g)
  + 2251799813685248 * (l2 f * l4 g + l3 f * l3 g + l4 f * l2 g)
  + 5070602400912917605986812821504 * (l3 f * l4 g + l4 f * l3 g)
  + 11417981541647679048466287755595961091061972992 * (l4 f * l4 g).

Lemma mul_bound x y A B : 0 <= x < A -> 0 <= y < B -> 0 <= x * y < A * B.
Proof. nia. Qed.

Ltac mul_row F G0 G1 G2 G3 G4 :=
  pose proof (mul_bound _ _ _ _ F G0); pose proof (mul_bound _ _ _ _ F G1);
  pose proof (mul_bound _ _ _ _ F G2); pose proof (mul_bound _ _ _ _ F G3);
  pose proof (mul_bound _ _ _ _ F G4).

(** Forget the factors of the bounded products. *)
Ltac gen_products :=
  repeat match goal with H : 0 <= ?x * ?y < _ |- _ => revert H; generalize (x * y); intros ? H end.

Lemma mul_19 x y : x * 19 * y = 19 * (x * y).
Proof. ring. Qed.

(** No accumulator wraps. *)
Lemma products_exact f g :
  loose f -> loose g ->
  let r := Fe (l0 f * l0 g + 19 * (l1 f * l4 g) + 19 * (l2 f * l3 g) + 19 * (l3 f * l2 g) + 19 * (l4 f * l1 g))
              (l0 f * l1 g + l1 f * l0 g + 19 * (l2 f * l4 g) + 19 * (l3 f * l3 g) + 19 * (l4 f * l2 g))
              (l0 f * l2 g + l1 f * l1 g + l2 f * l0 g + 19 * (l3 f * l4 g) + 19 * (l4 f * l3 g))
              (l0 f * l3 g + l1 f * l2 g + l2 f * l1 g + l3 f * l0 g + 19 * (l4 f * l4 g))
              (l0 f * l4 g + l1 f * l3 g + l2 f * l2 g + l3 f * l1 g + l4 f * l0 g) in
  products f g = r /\ below (2 ^ 114 + 2 ^ 113) r /\ l4 r < 2 ^ 111.
Proof.
  intros (F0 & F1 & F2 & F3 & F4) (G0 & G1 & G2 & G3 & G4). unfold products. cbv zeta.
  rewrite !(u64_small (_ * 19)) by lia. rewrite !mul_19.
  mul_row F0 G0 G1 G2 G3 G4. mul_row F1 G0 G1 G2 G3 G4. mul_row F2 G0 G1 G2 G3 G4.
  mul_row F3 G0 G1 G2 G3 G4. mul_row F4 G0 G1 G2 G3 G4.
  clear F0 F1 F2 F3 F4 G0 G1 G2 G3 G4. gen_products. unfold below. cbn [l0 l1 l2 l3 l4].
  rewrite !u128_small by lia. split; [reflexivity|]. lia.
Qed.

Lemma products_spec f g :
  loose f -> loose g ->
  let r := products f g in
  val r == val f * val g /\ below (2 ^ 114 + 2 ^ 113) r /\ l4 r < 2 ^ 111.
Proof.
  intros Hf Hg. destruct (products_exact f g Hf Hg) as (-> & Hb & H4). split; [|exact (conj Hb H4)].
  transitivity (val f * val g + - high f g * P); [|apply cong_plus_kP].
  unfold cong. f_equal. unfold val, high, P. cbn [l0 l1 l2 l3 l4]. ring.
Qed.

Lemma below_mono A B f : A <= B -> below A f -> below B f.
Proof. unfold below. lia. Qed.

Lemma fe_mul_spec f g : loose f -> loose g -> tight (fe_mul f g) /\ val (fe_mul f g) == val f * val g.
Proof.
  intros Hf Hg. unfold fe_mul.
  destruct (products_spec f g Hf Hg) as (Ev & Hb & H4). set (t := products f g) in *. clearbody t.
  destruct (pass_spec t Hb) as (E1 & B0 & B1 & B2 & B3 & B4 & _). set (u := pass t) in *. clearbody u.
  unfold below in Hb. destruct (fold_top_spec u B0) as (E2 & C0 & C4); [lia|].
  assert (l1 (fold_top u) = l1 u /\ l2 (fold_top u) = l2 u /\ l3 (fold_top u) = l3 u) as (D1 & D2 & D3) by done.
  set (w := fold_top u) in *. clearbody w.
  destruct (pass_spec w) as (E3 & G0 & G1 & G2 & G3 & G4 & G5); [unfold below; lia|].
  specialize (G5 ltac:(lia) ltac:(lia) ltac:(lia) ltac:(lia)). set (h := pass w) in *. clearbody h.
  rewrite !u64_small by lia. split; [unfold below; simpl; lia|].
  transitivity (val h); [by destruct h|]. by rewrite E3, E2, E1, Ev.
Qed.

Lemma fe_sq_spec f : loose f -> tight (fe_sq f) /\ val (fe_sq f) == val f * val f.
Proof. intros H. exact (fe_mul_spec f f H H). Qed.

Lemma div51 t :
  exists q r, t / 2251799813685248 = q /\ t mod 2251799813685248 = r
              /\ t = 2251799813685248 * q + r /\ 0 <= r < 2251799813685248.
Proof.
  eexists _, _. split_and!; try reflexivity; [apply Z.div_mod; lia|apply Z.mod_pos_bound; lia..].
Qed.

Lemma fe_mul_scalar_spec f n :
  loose f -> 0 <= n < 2 ^ 17 -> tight (fe_mul_scalar f n) /\ val (fe_mul_scalar f n) == val f * n.
Proof.
  intros (F0 & F1 & F2 & F3 & F4) Hn. unfold fe_mul_scalar.
  assert (exists t, Fe (u128 (l0 f * n)) (u128 (l1 f * n)) (u128 (l2 f * n)) (u128 (l3 f * n)) (u128 (l4 f * n)) = t
            /\ below (2 ^ 71) t /\ val t = val f * n) as (t & -> & Hb & Et).
  { mul_row Hn F0 F1 F2 F3 F4. rewrite !(Z.mul_comm n) in *.
    eexists. split; [reflexivity|]. unfold val, below. cbn [l0 l1 l2 l3 l4].
    rewrite Z.mul_add_distr_r, !(Z.mul_add_distr_r _ _ n), <- !(Z.mul_assoc _ _ n).
    clear F0 F1 F2 F3 F4 Hn. gen_products. rewrite !u128_small by lia. split; [lia|reflexivity]. }
  destruct (pass_spec t) as (E1 & B0 & B1 & B2 & B3 & B4 & _); [unfold below in *; lia|].
  assert (0 <= l4 t < 2 ^ 71) as Ht by apply Hb.
  set (u := pass t) in *. clearbody u.
  rewrite (carry_div (l4 u)), !low_mod by lia.
  destruct (div51 (l4 u)) as (q & r & -> & -> & Hd & Hm).
  rewrite (u64_small (19 * q)), (u128_small (l0 u + 19 * q)) by lia.
  rewrite carry_div by lia. split51 (l0 u + 19 * q) q0 r0.
  rewrite (u128_small (l1 u + q0)) by lia. rewrite !u64_small by lia.
  split; [unfold below; simpl; lia|].
  transitivity (val u); [|by rewrite E1, Et].
  transitivity (val u + - q * P); [|apply cong_plus_kP].
  unfold cong. f_equal. unfold val, P. simpl. lia.
Qed.

Lemma fe_add_spec f g B C :
  below B f -> below C g -> B + C <= 2 ^ 64 ->
  below (B + C) (fe_add f g) /\ val (fe_add f g) = val f + val g.
Proof.
  unfold below, fe_add. simpl. intros Hf Hg HBC. rewrite !u64_small by lia.
  split; [lia|]. unfold val. simpl. lia.
Qed.

Lemma fe_sub_spec f g :
  below (2 ^ 53) f -> tight g -> loose (fe_sub f g) /\ val (fe_sub f g) == val f - val g.
Proof.
  unfold below, fe_sub. intros Hf Hg. change (4 * Z.shiftl 1 51 - 76) with 9007199254740916.
  change (4 * Z.shiftl 1 51 - 4) with 9007199254740988. cbn [l0 l1 l2 l3 l4].
  rewrite !u64_small by lia. split; [lia|].
  transitivity (val f - val g + 4 * P); [|apply cong_plus_kP].
  unfold cong. f_equal. unfold val, P. simpl. lia.
Qed.

(** ** Bytes *)

Abbreviation bytes := (Forall (fun b => 0 <= b < 256)).

Lemma load_le64_val b0 b1 b2 b3 b4 b5 b6 b7 :
  bytes [b0; b1; b2; b3; b4; b5; b6; b7] ->
  Z.lor (Z.lor (Z.lor (Z.lor (Z.lor (Z.lor (Z.lor b0 (Z.shiftl b1 8)) (Z.shiftl b2 16))
    (Z.shiftl b3 24)) (Z.shiftl b4 32)) (Z.shiftl b5 40)) (Z.shiftl b6 48)) (Z.shiftl b7 56)
  = le_val [b0; b1; b2; b3; b4; b5; b6; b7] /\ 0 <= le_val [b0; b1; b2; b3; b4; b5; b6; b7] < 2 ^ 64.
Proof.
  intros H. repeat (apply Forall_cons_1 in H; destruct H as [? H]). cbn [le_val]. cbv beta in *.
  split; [|lia]. rewrite (lor_shiftl b0 b1 8), (lor_shiftl _ b2 16), (lor_shiftl _ b3 24), (lor_shiftl _ b4 32),
    (lor_shiftl _ b5 40), (lor_shiftl _ b6 48), (lor_shiftl _ b7 56) by lia. lia.
Qed.

Lemma le_val_app s t : le_val (s ++ t) = le_val s + 256 ^ Z.of_nat (length s) * le_val t.
Proof.
  induction s as [|b s IH]; simpl le_val; [change (length (@nil Z)) with 0%nat; lia|].
  cbn [length]. rewrite IH, Nat2Z.inj_succ, Z.pow_succ_r by lia. lia.
Qed.

Lemma cut_mod y x up k :
  0 <= up -> 0 <= k -> 0 <= y < 2 ^ up -> (y + 2 ^ up * x) mod 2 ^ (up + k) = y + 2 ^ up * (x mod 2 ^ k).
Proof.
  intros Hu Hk Hy. rewrite Z.pow_add_r by lia.
  pose proof (Z.div_mod x (2 ^ k) ltac:(lia)) as Hd. pose proof (Z.mod_pos_bound x (2 ^ k) ltac:(lia)).
  symmetry. apply (Z.mod_unique _ _ (x / 2 ^ k)); [left; nia|]. rewrite Hd at 1. ring.
Qed.

(** The top [up] bits of [w] below the low bits of the next word [v], cut to 51 bits. *)
Lemma limb_cut w v up :
  0 <= w < 2 ^ 64 -> 0 < up < 51 ->
  Z.land (Z.lor (Z.shiftr w (64 - up)) (u64 (Z.shiftl v up))) FE_MASK
  = w / 2 ^ (64 - up) + 2 ^ up * (v mod 2 ^ (51 - up)).
Proof.
  intros Hw Hup. rewrite Z.shiftr_div_pow2 by lia. unfold u64.
  assert (0 <= w / 2 ^ (64 - up) < 2 ^ up) as Hy.
  { split; [apply Z.div_pos; lia|]. apply Z.div_lt_upper_bound; [lia|].
    rewrite <- Z.pow_add_r by lia. replace (64 - up + up) with 64 by lia. lia. }
  assert (Z.shiftl v up mod 2 ^ 64 = Z.shiftl (v mod 2 ^ (64 - up)) up) as ->.
  { rewrite !Z.shiftl_mul_pow2 by lia. replace 64 with (64 - up + up) at 1 by lia.
    rewrite Z.pow_add_r by lia. apply Z.mul_mod_distr_r; lia. }
  rewrite lor_shiftl by lia. fold (low (w / 2 ^ (64 - up) + 2 ^ up * (v mod 2 ^ (64 - up)))).
  rewrite low_mod. change 2251799813685248 with (2 ^ 51). replace 51 with (up + (51 - up)) at 1 by lia.
  rewrite cut_mod by lia. do 2 f_equal.
  replace (64 - up) with ((51 - up) + 13) by lia. rewrite Z.pow_add_r by lia.
  apply Z.mod_mod_divide, Z.divide_factor_l.
Qed.

Lemma aget_mid (p s q : list Z) k :
  0 <= k < zlen s -> (p ++ s ++ q).[zlen p + k] = s.[k].
Proof.
  unfold zlen, aget. intros Hk. rewrite lookup_total_app_r by lia. rewrite lookup_total_app_l by lia.
  f_equal. lia.
Qed.

Lemma load_word p s q :
  length s = 8%nat -> bytes s ->
  load_le64 (p ++ s ++ q) (zlen p) = le_val s /\ 0 <= le_val s < 2 ^ 64.
Proof.
  intros Hl Hb. unfold load_le64. assert (zlen s = 8) as Hz by (unfold zlen; lia).
  rewrite <- (Z.add_0_r (zlen p)) at 1. rewrite !aget_mid by lia.
  do 9 (destruct s as [|? s]; try done). by apply load_le64_val.
Qed.

Lemma le_val_bound s : bytes s -> 0 <= le_val s < 256 ^ zlen s.
Proof.
  unfold zlen. induction 1 as [|b s Hb Hs IH]; cbn [le_val length]; [done|].
  rewrite Nat2Z.inj_succ, Z.pow_succ_r by lia. lia.
Qed.

(** Quotient and remainder of [t] by the number [m], as fresh variables. *)
Ltac divide t m q r :=
  let D := fresh "D" in let B := fresh "B" in
  pose proof (Z.div_mod t m ltac:(lia)) as D; pose proof (Z.mod_pos_bound t m ltac:(lia)) as B;
  generalize dependent (t / m); generalize dependent (t mod m); intros r B q D.

Lemma from_bytes_spec s :
  length s = 32%nat -> bytes s ->
  below (2 ^ 51) (fe_from_bytes s) /\ val (fe_from_bytes s) = le_val s mod 2 ^ 255.
Proof.
  intros Hl Hb.
  assert (exists a b c d, s = a ++ b ++ c ++ d /\ length a = 8%nat /\ length b = 8%nat /\ length c = 8%nat
            /\ length d = 8%nat) as (a & b & c & d & -> & La & Lb & Lc & Ld).
  { exists (take 8 s), (take 8 (drop 8 s)), (take 8 (drop 16 s)), (drop 24 s).
    rewrite !length_take, !length_drop. split; [|lia].
    replace 24%nat with (16 + 8)%nat by lia. rewrite <- drop_drop, take_drop.
    replace 16%nat with (8 + 8)%nat by lia. by rewrite <- drop_drop, !take_drop. }
  rewrite !Forall_app in Hb. destruct Hb as (Ba & Bb & Bc & Bd).
  destruct (load_word [] a (b ++ c ++ d) La Ba) as [Ea Va].
  destruct (load_word a b (c ++ d) Lb Bb) as [Eb Vb].
  destruct (load_word (a ++ b) c d Lc Bc) as [Ec Vc].
  destruct (load_word (a ++ b ++ c) d [] Ld Bd) as [Ed Vd].
  rewrite <- !app_assoc in *. rewrite app_nil_r in Ed. cbn [app] in Ea.
  unfold zlen in *. rewrite !length_app, ?La, ?Lb, ?Lc in *.
  change (Z.of_nat (length [])) with 0 in Ea. change (Z.of_nat 8) with 8 in Eb.
  change (Z.of_nat (8 + 8)) with 16 in Ec. change (Z.of_nat (8 + (8 + 8))) with 24 in Ed.
  unfold fe_from_bytes. rewrite Ea, Eb, Ec, Ed, !le_val_app, La, Lb, Lc.
  generalize (le_val a) (le_val b) (le_val c) (le_val d) Va Vb Vc Vd. clear.
  intros w0 w1 w2 w3 H0 H1 H2 H3. change (Z.of_nat 8) with 8.
  pose proof (limb_cut w0 w1 13 H0 ltac:(lia)) as E1. pose proof (limb_cut w1 w2 26 H1 ltac:(lia)) as E2.
  pose proof (limb_cut w2 w3 39 H2 ltac:(lia)) as E3.
  change (64 - 13) with 51 in E1. change (64 - 26) with 38 in E2. change (64 - 39) with 25 in E3.
  rewrite E1, E2, E3. clear E1 E2 E3.
  fold (low w0) (low (Z.shiftr w3 12)). rewrite !low_mod, Z.shiftr_div_pow2 by lia.
  unfold below, val. cbn [l0 l1 l2 l3 l4].
  change (2 ^ 51) with 2251799813685248. change (2 ^ 38) with 274877906944. change (2 ^ 25) with 33554432.
  change (2 ^ (51 - 13)) with 274877906944.
  change (2 ^ (51 - 26)) with 33554432. change (2 ^ (51 - 39)) with 4096. change (2 ^ 12) with 4096.
  change (2 ^ 13) with 8192. change (2 ^ 26) with 67108864. change (2 ^ 39) with 549755813888.
  change (256 ^ 8) with (2 ^ 64).
  destruct (div51 w0) as (q0 & r0 & -> & -> & D0 & B0).
  divide w1 274877906944 q1 r1. divide w2 33554432 q2 r2. divide w3 4096 q3 r3.
  destruct (div51 q3) as (q4 & r4 & _ & -> & D4 & B4).
  split; [lia|]. apply (Z.mod_unique _ _ q4); [left; lia|]. lia.
Qed.

Lemma le_bytes_app m : forall n w v,
  0 <= w < 256 ^ Z.of_nat m -> le_bytes (m + n) (w + 256 ^ Z.of_nat m * v) = le_bytes m w ++ le_bytes n v.
Proof.
  induction m as [|m IH]; intros n w v Hw; cbn [Nat.add le_bytes app].
  - simpl in Hw. f_equal. assert (w = 0) as -> by lia. change (256 ^ Z.of_nat 0) with 1. lia.
  - rewrite Nat2Z.inj_succ, Z.pow_succ_r in * by lia.
    replace (w + 256 * 256 ^ Z.of_nat m * v) with (w + 256 ^ Z.of_nat m * v * 256) by lia.
    rewrite Z.mod_add, Z.div_add by lia. f_equal. apply IH.
    split; [apply Z.div_pos; lia|apply Z.div_lt_upper_bound; lia].
Qed.

Lemma le64_bytes w : le64 w = le_bytes 8 w.
Proof.
  unfold le64, u8. simpl. rewrite !Z.div_div by lia. change (2 ^ 8) with 256.
  rewrite !Z.shiftr_div_pow2 by lia. simpl. by rewrite Z.div_1_r.
Qed.

(** Two rounds of carries bring every limb below 2^51. *)
Lemma propagate_spec t :
  below (2 ^ 63) t -> let r := propagate t in
  val r == val t /\ 0 <= l0 r < 2 ^ 51 /\ 0 <= l1 r < 2 ^ 51 /\ 0 <= l2 r < 2 ^ 51 /\ 0 <= l3 r < 2 ^ 51
  /\ 0 <= l4 r < 2 ^ 51 + 2 ^ 13
  /\ (l0 t < 2 ^ 51 -> l1 t < 2 ^ 51 -> l2 t < 2 ^ 51 -> l3 t < 2 ^ 51 -> l4 t < 2 ^ 51 + 2 ^ 13 -> l4 r < 2 ^ 51).
Proof.
  destruct t as [t0 t1 t2 t3 t4]. unfold below, propagate. cbn [l0 l1 l2 l3 l4]. cbv zeta.
  intros (H0 & H1 & H2 & H3 & H4). rewrite !low_mod, !(Z.shiftr_div_pow2 _ 51) by lia.
  change (2 ^ 51) with 2251799813685248.
  destruct (div51 t4) as (q4 & r4 & -> & -> & D4 & B4).
  rewrite (u64_small (19 * q4)), (u64_small (t0 + _)) by lia.
  destruct (div51 (t0 + 19 * q4)) as (q0 & r0 & -> & -> & D0 & B0).
  rewrite (u64_small (t1 + _)) by lia. destruct (div51 (t1 + q0)) as (q1 & r1 & -> & -> & D1 & B1).
  rewrite (u64_small (t2 + _)) by lia. destruct (div51 (t2 + q1)) as (q2 & r2 & -> & -> & D2 & B2).
  rewrite (u64_small (t3 + _)) by lia. destruct (div51 (t3 + q2)) as (q3 & r3 & -> & -> & D3 & B3).
  rewrite (u64_small (r4 + _)) by lia. split; [|split_and!; lia].
  transitivity (val (Fe t0 t1 t2 t3 t4) + - q4 * P); [|apply cong_plus_kP].
  unfold cong. f_equal. unfold val, P. cbn [l0 l1 l2 l3 l4]. lia.
Qed.

Lemma sub_p_spec t :
  below (2 ^ 51) t -> below (2 ^ 51) (sub_p t) /\ val (sub_p t) = val t mod P.
Proof.
  destruct t as [t0 t1 t2 t3 t4]. unfold below, sub_p. cbn [l0 l1 l2 l3 l4].
  intros (H0 & H1 & H2 & H3 & H4).
  assert (truth (Z.shiftr t4 51) = false) as ->
    by (unfold truth; rewrite Z.shiftr_div_pow2, Z.div_small by lia; done).
  change FE_MASK with 2251799813685247. cbv zeta.
  destruct ((t4 =? 2251799813685247) && (t3 =? 2251799813685247) && (t2 =? 2251799813685247)
            && (t1 =? 2251799813685247) && (2251799813685247 - 18 <=? t0)) eqn:E.
  - bool_to_prop. rewrite !u64_small by lia. split; [lia|].
    apply (Z.mod_unique _ _ 1); unfold val, P; cbn [l0 l1 l2 l3 l4]; [left; lia|lia].
  - rewrite !Z.mul_0_l, !Z.sub_0_r, !u64_small by lia. split; [lia|].
    symmetry. apply Z.mod_small. unfold val, P. cbn [l0 l1 l2 l3 l4]. split; [lia|].
    destruct (Z.eqb_spec t4 2251799813685247), (Z.eqb_spec t3 2251799813685247),
      (Z.eqb_spec t2 2251799813685247), (Z.eqb_spec t1 2251799813685247); simpl in E; try lia.
Qed.

(** The high bits of one limb below the low bits of the next, as a 64-bit word. *)
Lemma word_cut a b sh up :
  0 <= a < 2 ^ 51 -> 0 <= sh -> 0 < up < 64 -> sh + up = 51 ->
  Z.lor (Z.shiftr a sh) (u64 (Z.shiftl b up)) = a / 2 ^ sh + 2 ^ up * (b mod 2 ^ (64 - up)).
Proof.
  intros Ha Hs Hu E. rewrite Z.shiftr_div_pow2 by lia. unfold u64.
  assert (Z.shiftl b up mod 2 ^ 64 = Z.shiftl (b mod 2 ^ (64 - up)) up) as ->.
  { rewrite !Z.shiftl_mul_pow2 by lia. replace 64 with (64 - up + up) at 1 by lia.
    rewrite Z.pow_add_r by lia. apply Z.mul_mod_distr_r; lia. }
  apply lor_shiftl; [lia|]. split; [apply Z.div_pos; lia|].
  apply Z.div_lt_upper_bound; [lia|]. rewrite <- Z.pow_add_r by lia. rewrite E. lia.
Qed.

Lemma to_bytes_spec f : below (2 ^ 63) f -> fe_to_bytes f = le_bytes 32 (val f mod P).
Proof.
  intros Hf. unfold fe_to_bytes.
  destruct (propagate_spec f Hf) as (E1 & A0 & A1 & A2 & A3 & A4 & _). set (t1 := propagate f) in *.
  destruct (propagate_spec t1) as (E2 & B0 & B1 & B2 & B3 & B4 & B5); [unfold below; lia|].
  specialize (B5 ltac:(lia) ltac:(lia) ltac:(lia) ltac:(lia) ltac:(lia)). set (t2 := propagate t1) in *.
  destruct (sub_p_spec t2) as [Hb Ev]; [unfold below; lia|].
  assert (val f mod P = val (sub_p t2)) as -> by (rewrite Ev; symmetry; etransitivity; [apply E2|apply E1]).
  destruct (sub_p t2) as [a b c d e]. clear - Hb. unfold below, val in *. cbn [l0 l1 l2 l3 l4] in *.
  destruct Hb as (Ha & Hb & Hc & Hd & He).
  pose proof (word_cut a b 0 51 Ha ltac:(lia) ltac:(lia) ltac:(lia)) as W0.
  pose proof (word_cut b c 13 38 Hb ltac:(lia) ltac:(lia) ltac:(lia)) as W1.
  pose proof (word_cut c d 26 25 Hc ltac:(lia) ltac:(lia) ltac:(lia)) as W2.
  pose proof (word_cut d e 39 12 Hd ltac:(lia) ltac:(lia) ltac:(lia)) as W3.
  rewrite Z.shiftr_0_r in W0. rewrite W0, W1, W2, W3. clear W0 W1 W2 W3. rewrite !le64_bytes.
  change (2 ^ 0) with 1. rewrite Z.div_1_r. change (64 - 51) with 13. change (64 - 38) with 26.
  change (64 - 25) with 39. change (64 - 12) with 52.
  change (2 ^ 13) with 8192. change (2 ^ 26) with 67108864. change (2 ^ 39) with 549755813888.
  rewrite (Z.mod_small e) by lia.
  divide b 8192 q1 r1. divide c 67108864 q2 r2. divide d 549755813888 q3 r3.
  rewrite <- (le_bytes_app 8 8), <- (le_bytes_app 8 16), <- (le_bytes_app 8 24);
    change (256 ^ Z.of_nat 8) with 18446744073709551616; try lia.
  change (8 + 24)%nat with 32%nat. f_equal. lia.
Qed.

(** ** Inversion *)

Lemma tight_loose f : tight f -> loose f.
Proof. apply below_mono. lia. Qed.

(** [f] is tight and holds the [e]-th power of [z]. *)
Definition power (z : Z) (f : fe) (e : Z) : Prop := tight f /\ 0 <= e /\ val f == z ^ e.

Lemma power_mul z f g a b : power z f a -> power z g b -> power z (fe_mul f g) (a + b).
Proof.
  intros (Tf & Ha & Ef) (Tg & Hb & Eg).
  destruct (fe_mul_spec f g (tight_loose f Tf) (tight_loose g Tg)) as [T E].
  split; [exact T|]. split; [lia|]. rewrite E, Ef, Eg, Z.pow_add_r by lia. reflexivity.
Qed.

Lemma power_sq z f a : power z f a -> power z (fe_sq f) (2 * a).
Proof. intros H. replace (2 * a) with (a + a) by lia. exact (power_mul z f f a a H H). Qed.

Lemma power_sq_times z n : forall f a, power z f a -> power z (sq_times n f) (2 ^ Z.of_nat n * a).
Proof.
  unfold sq_times. induction n as [|n IH]; intros f a H.
  - cbn [Nat.iter]. change (2 ^ Z.of_nat 0) with 1. rewrite Z.mul_1_l. exact H.
  - cbn [Nat.iter]. rewrite Nat2Z.inj_succ, Z.pow_succ_r, <- Z.mul_assoc by lia.
    apply power_sq, IH, H.
Qed.

#[local] Opaque fe_mul fe_sq.

(** The addition chain raises to [p - 2]. *)
Lemma fe_invert_spec f : tight f -> tight (fe_invert f) /\ val (fe_invert f) == val f ^ (P - 2).
Proof.
  intros Hf. assert (power (val f) f 1) as H1 by (split; [exact Hf|split; [lia|rewrite Z.pow_1_r; reflexivity]]).
  enough (power (val f) (fe_invert f) (P - 2)) as (T & _ & E) by (split; [exact T|exact E]).
  unfold fe_invert. cbv zeta. set (z := val f) in *. clearbody z.
  pose proof (power_sq _ _ _ H1) as A0. set (t0 := fe_sq f) in *. clearbody t0.
  pose proof (power_mul _ _ _ _ _ H1 (power_sq _ _ _ (power_sq _ _ _ A0))) as A1.
  set (t1 := fe_mul f _) in *. clearbody t1.
  pose proof (power_mul _ _ _ _ _ A0 A1) as A2. set (u0 := fe_mul t0 t1) in *. clearbody u0.
  pose proof (power_mul _ _ _ _ _ A1 (power_sq _ _ _ A2)) as A3. set (t2 := fe_mul t1 _) in *. clearbody t2.
  pose proof (power_mul _ _ _ _ _ (power_sq_times _ 4 _ _ (power_sq _ _ _ A3)) A3) as A4.
  set (t3 := fe_mul _ t2) in *. clearbody t3.
  pose proof (power_mul _ _ _ _ _ (power_sq_times _ 9 _ _ (power_sq _ _ _ A4)) A4) as A5.
  set (t4 := fe_mul _ t3) in *. clearbody t4.
  pose proof (power_mul _ _ _ _ _ (power_sq_times _ 19 _ _ (power_sq _ _ _ A5)) A5) as A6.
  set (t5 := fe_mul _ t4) in *. clearbody t5.
  pose proof (power_mul _ _ _ _ _ (power_sq_times _ 9 _ _ (power_sq _ _ _ A6)) A4) as A7.
  set (t6 := fe_mul _ t3) in *. clearbody t6.
  pose proof (power_mul _ _ _ _ _ (power_sq_times _ 49 _ _ (power_sq _ _ _ A7)) A7) as A8.
  set (t7 := fe_mul _ t6) in *. clearbody t7.
  pose proof (power_mul _ _ _ _ _ (power_sq_times _ 99 _ _ (power_sq _ _ _ A8)) A8) as A9.
  set (t8 := fe_mul _ t7) in *. clearbody t8.
  pose proof (power_mul _ _ _ _ _ (power_sq_times _ 49 _ _ (power_sq _ _ _ A9)) A7) as A10.
  set (t9 := fe_mul _ t6) in *. clearbody t9.
  pose proof (power_mul _ _ _ _ _ (power_sq_times _ 4 _ _ (power_sq _ _ _ A10)) A2) as A11.
  match type of A11 with power _ _ ?e => assert (e = P - 2) as E by (vm_compute; reflexivity) end.
  rewrite E in A11. exact A11.
Qed.

(** ** The ladder *)

Lemma lxor_mask x : 0 <= x < 2 ^ 64 -> Z.land x (u64 (0 - 1)) = x.
Proof.
  intros H. change (u64 (0 - 1)) with (Z.ones 64). rewrite Z.land_ones by lia. by apply Z.mod_small.
Qed.

Lemma cswap_limb_spec f g (b : bool) :
  0 <= f < 2 ^ 64 -> 0 <= g < 2 ^ 64 ->
  cswap_limb (u64 (0 - Z.b2z b)) f g = if b then (g, f) else (f, g).
Proof.
  intros Hf Hg. unfold cswap_limb. destruct b; simpl Z.b2z.
  - rewrite lxor_mask.
    + f_equal; [by rewrite <- Z.lxor_assoc, Z.lxor_nilpotent, Z.lxor_0_l|].
      by rewrite (Z.lxor_comm f g), <- Z.lxor_assoc, Z.lxor_nilpotent, Z.lxor_0_l.
    + apply (bits_small 64); [lia|]. intros i Hi. by rewrite Z.lxor_spec, !(bits_high 64) by lia.
  - change (u64 (0 - 0)) with 0. by rewrite Z.land_0_r, !Z.lxor_0_r.
Qed.

Lemma cswap_spec f g (b : bool) :
  tight f -> tight g -> fe_cswap f g (Z.b2z b) = if b then (g, f) else (f, g).
Proof.
  destruct f as [f0 f1 f2 f3 f4], g as [g0 g1 g2 g3 g4]. unfold below, fe_cswap. cbn [l0 l1 l2 l3 l4].
  intros Hf Hg. rewrite !cswap_limb_spec by lia. by destruct b.
Qed.

#[local] Opaque fe_add fe_sub fe_mul_scalar.

(** [f] has limbs below [B] and stands for [a] modulo [p]. *)
Definition reps (B : Z) (f : fe) (a : Z) : Prop := below B f /\ val f == a.

Lemma reps_mono A B f a : A <= B -> reps A f a -> reps B f a.
Proof. intros H [Hb He]. split; [by eapply below_mono|done]. Qed.

Lemma reps_mul f g a b : reps (2 ^ 54) f a -> reps (2 ^ 54) g b -> reps (2 ^ 52) (fe_mul f g) (a * b).
Proof.
  intros [Tf Ef] [Tg Eg]. destruct (fe_mul_spec f g Tf Tg) as [T E].
  split; [exact T|]. rewrite E, Ef, Eg. reflexivity.
Qed.

Lemma reps_sq f a : reps (2 ^ 54) f a -> reps (2 ^ 52) (fe_sq f) (a * a).
Proof. intros H. exact (reps_mul f f a a H H). Qed.

Lemma reps_add f g a b : reps (2 ^ 52) f a -> reps (2 ^ 52) g b -> reps (2 ^ 53) (fe_add f g) (a + b).
Proof.
  intros [Tf Ef] [Tg Eg]. destruct (fe_add_spec f g _ _ Tf Tg ltac:(lia)) as [T E].
  split; [exact T|]. rewrite E, Ef, Eg. reflexivity.
Qed.

Lemma reps_sub f g a b : reps (2 ^ 53) f a -> reps (2 ^ 52) g b -> reps (2 ^ 54) (fe_sub f g) (a - b).
Proof.
  intros [Tf Ef] [Tg Eg]. destruct (fe_sub_spec f g Tf Tg) as [T E].
  split; [exact T|]. rewrite E, Ef, Eg. reflexivity.
Qed.

Lemma reps_scalar f a n : reps (2 ^ 54) f a -> 0 <= n < 2 ^ 17 -> reps (2 ^ 52) (fe_mul_scalar f n) (n * a).
Proof.
  intros [Tf Ef] Hn. destruct (fe_mul_scalar_spec f n Tf Hn) as [T E].
  split; [exact T|]. rewrite E, Ef, Z.mul_comm. reflexivity.
Qed.

Lemma reps_cong B f a b : reps B f a -> a == b -> reps B f b.
Proof. intros [T E] H. split; [exact T|]. rewrite E. exact H. Qed.

Lemma widen52 f a : reps (2 ^ 52) f a -> reps (2 ^ 54) f a.
Proof. apply reps_mono. lia. Qed.
Lemma widen53 f a : reps (2 ^ 53) f a -> reps (2 ^ 54) f a.
Proof. apply reps_mono. lia. Qed.

Ltac widen := first [eassumption | eapply reps_mono; [|eassumption]; lia].

(** Drop the reductions inside a congruence. *)
Ltac push_mod :=
  repeat match goal with |- context [?a mod P] => setoid_rewrite (cong_mod a) end.

(** One iteration computes [rstep] with the constant of the source. *)
Lemma ladder_step_spec x1 f2 g2 f3 g3 a1 a2 b2 a3 b3 :
  reps (2 ^ 52) x1 a1 -> reps (2 ^ 52) f2 a2 -> reps (2 ^ 52) g2 b2 ->
  reps (2 ^ 52) f3 a3 -> reps (2 ^ 52) g3 b3 ->
  let '(x2, z2, x3, z3) := ladder_step x1 f2 g2 f3 g3 in
  let '(rx2, rz2, rx3, rz3) := rstep 121666 a1 a2 b2 a3 b3 in
  reps (2 ^ 52) x2 rx2 /\ reps (2 ^ 52) z2 rz2 /\ reps (2 ^ 52) x3 rx3 /\ reps (2 ^ 52) z3 rz3.
Proof.
  intros R1 R2 S2 R3 S3. unfold ladder_step, rstep. cbv zeta.
  pose proof (reps_add _ _ _ _ R2 S2) as HA.
  assert (reps (2 ^ 52) (fe_sq (fe_add f2 g2)) ((a2 + b2) * (a2 + b2))) as HAA by (apply reps_sq; widen).
  assert (reps (2 ^ 54) (fe_sub f2 g2) (a2 - b2)) as HB by (apply reps_sub; widen).
  pose proof (reps_sq _ _ HB) as HBB.
  set (A := fe_add f2 g2) in *. set (AA := fe_sq A) in *. set (BB := fe_sq (fe_sub f2 g2)) in *.
  assert (reps (2 ^ 54) (fe_sub AA BB) ((a2 + b2) * (a2 + b2) - (a2 - b2) * (a2 - b2))) as HE
    by (apply reps_sub; widen).
  set (E := fe_sub AA BB) in *.
  pose proof (reps_add _ _ _ _ R3 S3) as HC.
  assert (reps (2 ^ 54) (fe_sub f3 g3) (a3 - b3)) as HD by (apply reps_sub; widen).
  assert (reps (2 ^ 52) (fe_mul (fe_sub f3 g3) A) ((a3 - b3) * (a2 + b2))) as HDA by (apply reps_mul; widen).
  assert (reps (2 ^ 52) (fe_mul (fe_add f3 g3) (fe_sub f2 g2)) ((a3 + b3) * (a2 - b2))) as HCB
    by (apply reps_mul; widen).
  set (DA := fe_mul (fe_sub f3 g3) A) in *. set (CB := fe_mul (fe_add f3 g3) (fe_sub f2 g2)) in *.
  pose proof (reps_add _ _ _ _ HDA HCB) as HX.
  assert (reps (2 ^ 54) (fe_sub DA CB) ((a3 - b3) * (a2 + b2) - (a3 + b3) * (a2 - b2))) as HZ
    by (apply reps_sub; widen).
  pose proof (reps_sq _ _ (widen53 _ _ HX)) as HX3.
  pose proof (reps_mul _ _ _ _ (widen52 _ _ (reps_sq _ _ HZ)) (widen52 _ _ R1)) as HZ3.
  pose proof (reps_mul _ _ _ _ (widen52 _ _ HAA) (widen52 _ _ HBB)) as HX2.
  pose proof (reps_add _ _ _ _ HAA (reps_scalar _ _ 121666 HE ltac:(lia))) as HS.
  pose proof (reps_mul _ _ _ _ HE (widen53 _ _ HS)) as HZ2.
  split_and!.
  - eapply reps_cong; [exact HX2|]. by push_mod.
  - eapply reps_cong; [exact HZ2|]. by push_mod.
  - eapply reps_cong; [exact HX3|]. rewrite Z.pow_2_r. by push_mod.
  - eapply reps_cong; [exact HZ3|]. rewrite Z.pow_2_r. push_mod. unfold cong. f_equal. ring.
Qed.

(** Bit [i] of a little-endian number is bit [i mod 8] of byte [i / 8]. *)
Lemma testbit_le_val s : bytes s -> forall i,
  0 <= i < 8 * zlen s -> Z.testbit (le_val s) i = Z.testbit s.[i / 8] (i mod 8).
Proof.
  unfold zlen. induction 1 as [|b s Hb Hs IH]; intros i Hi; [simpl in Hi; lia|].
  cbn [le_val length] in *. change 256 with (2 ^ 8). rewrite <- lor_shiftl by lia.
  rewrite Z.lor_spec, Z.shiftl_spec by lia. destruct (Z.ltb_spec i 8).
  - rewrite Z.div_small, Z.mod_small by lia. rewrite (Z.testbit_neg_r (le_val s)) by lia. by rewrite orb_false_r.
  - rewrite (bits_high 8) by lia. simpl. rewrite IH by lia.
    replace i with (i - 8 + 1 * 8) at 3 4 by lia. rewrite Z.div_add, Z.mod_add by lia.
    f_equal. unfold aget.
    assert (0 <= (i - 8) / 8) by (apply Z.div_pos; lia).
    by replace (Z.to_nat ((i - 8) / 8 + 1)) with (S (Z.to_nat ((i - 8) / 8))) by lia.
Qed.

Lemma land_low x m : 0 <= x < 256 -> 0 <= m < 256 -> 0 <= Z.land x m < 256.
Proof.
  intros Hx Hm. apply (bits_small 8); [lia|]. intros i Hi. by rewrite Z.land_spec, !(bits_high 8) by lia.
Qed.

Lemma lor_low x m : 0 <= x < 256 -> 0 <= m < 256 -> 0 <= Z.lor x m < 256.
Proof.
  intros Hx Hm. apply (bits_small 8); [lia|]. intros i Hi. by rewrite Z.lor_spec, !(bits_high 8) by lia.
Qed.

Lemma bytes_aset s i x : bytes s -> 0 <= x < 256 -> bytes s.[i <- x].
Proof. intros Hs Hx. by apply Forall_insert. Qed.

Lemma clamp_bytes k : length k = 32%nat -> bytes k -> length (clamp k) = 32%nat /\ bytes (clamp k).
Proof.
  intros Hl Hb. unfold clamp. rewrite !length_aset. split; [done|].
  assert (forall s i, length s = 32%nat -> bytes s -> 0 <= i < 32 -> 0 <= s.[i] < 256) as Hget.
  { intros s i Hs Hbs Hi. apply (proj1 (Forall_aget _ s) Hbs). unfold zlen. lia. }
  repeat (apply bytes_aset || apply lor_low || apply land_low || apply Hget); rewrite ?length_aset; done || lia.
Qed.

Lemma key_bit k i :
  length k = 32%nat -> bytes k -> 0 <= i < 256 ->
  Z.land (Z.shiftr k.[i / 8] (Z.land i 7)) 1 = Z.b2z (Z.testbit (le_val k) i).
Proof.
  intros Hl Hb Hi. rewrite testbit_le_val by (unfold zlen; done || lia).
  change 7 with (Z.ones 3). rewrite Z.land_ones by lia. change (2 ^ 3) with 8.
  pose proof (Z.mod_pos_bound i 8 ltac:(lia)).
  change 1 with (Z.ones 1) at 1. rewrite Z.land_ones by lia. change (2 ^ 1) with 2.
  by rewrite <- Z.bit0_mod, Z.shiftr_spec, Z.add_0_l by lia.
Qed.

(** The states of the two ladders correspond. *)
Record same (s : Ladder) (r : RLadder) : Prop := {
  same_x2 : reps (2 ^ 52) (x_2 s) (rx2 r); same_z2 : reps (2 ^ 52) (z_2 s) (rz2 r);
  same_x3 : reps (2 ^ 52) (x_3 s) (rx3 r); same_z3 : reps (2 ^ 52) (z_3 s) (rz3 r);
  same_swap : swap s = Z.b2z (rswap r);
}.

#[local] Opaque ladder_step rstep.

Lemma ladder_bit_spec x1 a1 k i s r :
  reps (2 ^ 52) x1 a1 -> length k = 32%nat -> bytes k -> 0 <= i < 256 -> same s r ->
  same (ladder_bit x1 k i s) (rbit 121666 a1 (le_val k) i r).
Proof.
  intros R1 Hl Hb Hi [X2 Z2 X3 Z3 Hs]. unfold ladder_bit, rbit.
  rewrite (key_bit k i Hl Hb Hi), Hs. set (bt := Z.testbit (le_val k) i).
  assert (Z.lxor (Z.b2z (rswap r)) (Z.b2z bt) = Z.b2z (xorb (rswap r) bt)) as ->
    by (destruct (rswap r), bt; reflexivity).
  rewrite !cswap_spec by (apply X2 || apply X3 || apply Z2 || apply Z3).
  destruct (xorb (rswap r) bt);
    match goal with |- context [ladder_step ?x ?f ?g ?h ?l] =>
      match goal with |- context [rstep _ ?a ?b ?c ?d ?e] =>
        pose proof (ladder_step_spec x f g h l a b c d e R1 ltac:(assumption) ltac:(assumption)
                      ltac:(assumption) ltac:(assumption)) as H end end;
    destruct (ladder_step _ _ _ _ _) as [[[? ?] ?] ?]; destruct (rstep _ _ _ _ _ _) as [[[? ?] ?] ?];
    destruct H as (? & ? & ? & ?); split; try assumption; reflexivity.
Qed.

Lemma reps_one : reps (2 ^ 52) fe_one 1.
Proof. split; [unfold below; simpl; lia|reflexivity]. Qed.
Lemma reps_zero : reps (2 ^ 52) fe_zero 0.
Proof. split; [unfold below; simpl; lia|reflexivity]. Qed.

Lemma decode_u_reps u : length u = 32%nat -> bytes u -> reps (2 ^ 52) (fe_from_bytes u) (decode_u u).
Proof.
  intros Hl Hb. destruct (from_bytes_spec u Hl Hb) as [Hbl Ev].
  split; [eapply below_mono; [|exact Hbl]; lia|]. rewrite Ev. unfold decode_u. by rewrite cong_mod.
Qed.

#[local] Opaque ladder_bit rbit fe_invert fe_to_bytes le_bytes.

(** The whole ladder. *)
Lemma ladder_ref scalar u :
  length scalar = 32%nat -> bytes scalar -> length u = 32%nat -> bytes u ->
  curve25519_ladder scalar u = x25519_ref 121666 scalar u.
Proof.
  intros Hk Hbk Hu Hbu. unfold curve25519_ladder, x25519_ref. rewrite (take_ge scalar) by lia.
  unfold decode_scalar. destruct (clamp_bytes scalar Hk Hbk) as [Hc Hbc].
  pose proof (decode_u_reps u Hu Hbu) as R1. set (x1 := fe_from_bytes u) in *. set (a1 := decode_u u) in *.
  set (k := clamp scalar) in *. clearbody x1 a1 k.
  assert (same (iter (fun t => ladder_bit x1 k (254 - t)) 0 255
                  {| x_2 := fe_one; z_2 := fe_zero; x_3 := x1; z_3 := fe_one; swap := 0 |})
               (iter (fun t => rbit 121666 a1 (le_val k) (254 - t)) 0 255
                  {| rx2 := 1; rz2 := 0; rx3 := a1; rz3 := 1; rswap := false |})) as Hs.
  { apply (iter_rel same).
    - split; [exact reps_one|exact reps_zero|exact R1|exact reps_one|reflexivity].
    - intros i s r Hi Hsr. apply ladder_bit_spec; [exact R1|exact Hc|exact Hbc|lia|exact Hsr]. }
  revert Hs. generalize (iter (fun t => ladder_bit x1 k (254 - t)) 0 255
    {| x_2 := fe_one; z_2 := fe_zero; x_3 := x1; z_3 := fe_one; swap := 0 |}).
  generalize (iter (fun t => rbit 121666 a1 (le_val k) (254 - t)) 0 255
    {| rx2 := 1; rz2 := 0; rx3 := a1; rz3 := 1; rswap := false |}).
  intros r s [X2 Z2 X3 Z3 Hsw]. rewrite Hsw.
  rewrite !cswap_spec by (apply X2 || apply X3 || apply Z2 || apply Z3).
  assert (forall x z a b, reps (2 ^ 52) x a -> reps (2 ^ 52) z b ->
            fe_to_bytes (fe_mul x (fe_invert z)) = le_bytes 32 (a * Zpow_mod b (P - 2) P mod P)) as Hfin.
  { intros x z a b Hx [Tz Ez]. destruct (fe_invert_spec z Tz) as [Ti Ei].
    assert (reps (2 ^ 52) (fe_invert z) (b ^ (P - 2))) as Hi.
    { split; [exact Ti|]. rewrite Ei. unfold cong in *.
      rewrite (Zpower_mod (val z)), (Zpower_mod b), Ez by reflexivity. reflexivity. }
    destruct (reps_mul _ _ _ _ (widen52 _ _ Hx) (widen52 _ _ Hi)) as [T E].
    rewrite to_bytes_spec by (eapply below_mono; [|exact T]; lia).
    rewrite Zpow_mod_correct by discriminate. rewrite Z.mul_mod_idemp_r by discriminate. f_equal. exact E. }
  destruct (rswap r); apply Hfin; assumption.
Qed.

End X.

(** ** Properties *)

Definition byte_list (s : list Z) : Prop := length s = 32%nat /\ Forall (fun b => 0 <= b < 256) s.

(** C37: No limb operation of the ladder overflows: on every scalar and every peer key
    the bytes computed are those of the RFC 7748 ladder over the integers modulo
    2^255 - 19, run with the doubling constant 121666 of the source. *)
Theorem x25519_is_ladder_mod_p scalar u :
  byte_list scalar -> byte_list u -> X.x25519_shared scalar u = X.x25519_ref 121666 scalar u.
Proof. intros [Hk Hbk] [Hu Hbu]. by apply X.ladder_ref. Qed.

Lemma x25519_is_ladder_mod_p_witness :
  X.x25519_shared (replicate 32 77) X.BASE_POINT = X.x25519_ref 121666 (replicate 32 77) X.BASE_POINT.
Proof.
  apply x25519_is_ladder_mod_p; split; try reflexivity; unfold X.BASE_POINT; simpl;
    repeat (apply Forall_cons_2; [split; [discriminate|reflexivity]|]); apply Forall_nil_2.
Defined.

(** One iteration doubles the point [x : z] by the formula of the Montgomery curve
    with coefficient 486666, not 486662: the constant for [z_2 = E * (AA + c * E)]
    on Curve25519 is 121665. *)
Theorem ladder_doubles_on_486666 x1 f2 g2 f3 g3 x z :
  X.reps (2 ^ 52) x1 (X.val x1) -> X.reps (2 ^ 52) f2 x -> X.reps (2 ^ 52) g2 z ->
  X.reps (2 ^ 52) f3 (X.val f3) -> X.reps (2 ^ 52) g3 (X.val g3) ->
  let '(x2, z2, _, _) := X.ladder_step x1 f2 g2 f3 g3 in
  X.val x2 mod X.P = (x ^ 2 - z ^ 2) ^ 2 mod X.P /\
  X.val z2 mod X.P = 4 * x * z * (x ^ 2 + 486666 * x * z + z ^ 2) mod X.P.
Proof.
  intros R1 R2 S2 R3 S3.
  pose proof (X.ladder_step_spec _ _ _ _ _ _ _ _ _ _ R1 R2 S2 R3 S3) as H.
  destruct (X.ladder_step _ _ _ _ _) as [[[x2 z2] ?] ?]. unfold X.rstep in H. cbv zeta in H.
  destruct H as ([_ EX] & [_ EZ] & _). split; [etransitivity; [exact EX|]|etransitivity; [exact EZ|]].
  - match goal with |- ?a mod X.P = ?b mod X.P => change (X.cong a b) end.
    X.push_mod. unfold X.cong. f_equal. ring.
  - match goal with |- ?a mod X.P = ?b mod X.P => change (X.cong a b) end.
    X.push_mod. unfold X.cong. f_equal. ring.
Qed.

Lemma ladder_doubles_on_486666_witness :
  let '(x2, z2, _, _) :=
    X.ladder_step (X.Fe 9 0 0 0 0) (X.Fe 9 0 0 0 0) X.fe_one (X.Fe 9 0 0 0 0) X.fe_one in
  X.val x2 mod X.P = (9 ^ 2 - 1 ^ 2) ^ 2 mod X.P /\
  X.val z2 mod X.P = 4 * 9 * 1 * (9 ^ 2 + 486666 * 9 * 1 + 1 ^ 2) mod X.P.
Proof.
  apply (ladder_doubles_on_486666 (X.Fe 9 0 0 0 0) (X.Fe 9 0 0 0 0) X.fe_one (X.Fe 9 0 0 0 0) X.fe_one 9 1);
    (split; [unfold X.below; simpl; lia|reflexivity]).
Defined.
