(* ===== verification/Storage.v ===== *)
(** * The interfaces below the file systems: allocator and block device

    [Allocator] is what fs.c uses of memory.c: a pointer to fresh memory or null,
    and releasing a pointer that was handed out.  The heap of [Heap.v] is an
    instance, by its refinement lemmas.  [BlockDevice] is the sector interface of
    ata.c, whose port protocol is not modelled; [ReliableDevice] states what a
    working disk does, and a map from sector numbers to sectors is an instance. *)

From Stdlib Require Import ZArith Lia.
From stdpp Require Import base numbers list gmap tactics.
From S2P Require Import Prelude Heap.

(** ** Allocator *)

(** [kmalloc n h] is the new heap and the pointer, 0 for null; [live] relates a
    heap to the regions handed out (address and size). *)
Class Allocator (H : Type) := {
  kmalloc : Z -> H -> H * Z;
  kfree : Z -> H -> H;
  live : H -> gmap Z Z -> Prop;
  kmalloc_live n h m h' p :
    live h m -> 0 < n <= 0x100000 -> kmalloc n h = (h', p) ->
    (p = 0 /\ live h' m) \/ (0 < p /\ m !! p = None /\ exists k, n <= k /\ live h' (<[p := k]> m));
  kmalloc_zero h : kmalloc 0 h = (h, 0);
  kfree_live h m p k : live h m -> m !! p = Some k -> live (kfree p h) (delete p m);
}.

(** [n] requests of [size] bytes in a row succeed. *)
Fixpoint can_alloc `{Allocator H} (n : nat) (size : Z) (h : H) : bool :=
  match n with
  | O => true
  | S k => let '(h', p) := kmalloc size h in negb (p =? 0) && can_alloc k size h'
  end.

Module KernelHeap.
Import Heap.

Definition kmalloc (n : Z) (h : State) : State * Z := default (h, 0) (malloc n h).
Definition kfree (p : Z) (h : State) : State := default h (free p h).
Definition live (h : State) (m : gmap Z Z) : Prop :=
  exists bs, represents h bs /\ m = list_to_map (allocated HEAP_START bs).

Lemma disjoint_NoDup l :
  ForallOrdPairs disjoint l -> Forall (fun x => 0 < snd x) l -> NoDup l.*1.
Proof.
  induction 1 as [|x l Hx Hl IH]; intros Hp; simpl; [constructor|].
  apply Forall_cons_1 in Hp as [Hx0 Hp]. constructor; [|by apply IH].
  intros ([p n] & Hpn & Hin)%list_elem_of_fmap. rewrite Forall_forall in Hx, Hp.
  apply list_elem_of_In in Hin.
  specialize (Hx _ Hin). specialize (Hp _ Hin). unfold disjoint in Hx. simpl in *. lia.
Qed.

Lemma allocated_NoDup h bs : represents h bs -> NoDup (allocated HEAP_START bs).*1.
Proof.
  intros (_ & _ & _ & Hok & _). apply disjoint_NoDup; [by apply allocated_disjoint|].
  eapply Forall_impl; [|apply (allocated_range bs HEAP_START Hok)]. intros [p n] ?. simpl. lia.
Qed.

Lemma malloc_ok n h m h' p :
  live h m -> 0 < n <= 0x100000 -> kmalloc n h = (h', p) ->
  (p = 0 /\ live h' m) \/ (0 < p /\ m !! p = None /\ exists k, n <= k /\ live h' (<[p := k]> m)).
Proof.
  intros (bs & Hr & ->) Hn. unfold kmalloc.
  pose proof (malloc_refines n h bs Hr ltac:(lia)) as Hm.
  pose proof Hr as (_ & _ & _ & Hok & _). destruct (round4_spec n) as [Hrn _]; [lia|].
  pose proof (alloc_spec_allocated (round4 n) bs HEAP_START ltac:(reflexivity) Hok ltac:(reflexivity)) as Ha.
  destruct (alloc_spec HEAP_START bs (round4 n)) as [[bs' p']|].
  - destruct Hm as (s' & -> & Hr'), Ha as (k & Hperm & Hk & _ & Hp). simpl. intros [= <- <-]. right.
    pose proof (allocated_NoDup _ _ Hr') as Hnd. rewrite Hperm in Hnd. simpl in Hnd.
    apply list.NoDup_cons in Hnd as [Hni Hnd]. split; [exact Hp|]. split.
    + apply not_elem_of_list_to_map_1. exact Hni.
    + exists k. split; [lia|]. exists bs'. split; [exact Hr'|].
      change (<[p' := k]> (list_to_map (allocated HEAP_START bs)))
        with (list_to_map ((p', k) :: allocated HEAP_START bs) : gmap Z Z).
      symmetry. apply list_to_map_proper; [|exact Hperm]. by apply (allocated_NoDup s').
  - rewrite Hm. simpl. intros [= <- <-]. left. split; [reflexivity|]. by exists bs.
Qed.

Lemma free_ok h m p k : live h m -> m !! p = Some k -> live (kfree p h) (delete p m).
Proof.
  intros (bs & Hr & ->) Hp. apply elem_of_list_to_map_2 in Hp.
  destruct (free_spec p k h bs Hr Hp) as (s' & bs' & Hf & Hr' & _ & Hperm).
  exists bs'. unfold kfree. rewrite Hf. split; [exact Hr'|].
  pose proof (allocated_NoDup _ _ Hr) as Hnd.
  rewrite (list_to_map_proper _ _ Hnd Hperm). simpl.
  rewrite Hperm in Hnd. simpl in Hnd. apply list.NoDup_cons in Hnd as [Hni _].
  apply delete_insert_id. by apply not_elem_of_list_to_map_1.
Qed.

#[global] Instance heap_allocator : Allocator State := {|
  Storage.kmalloc := kmalloc; Storage.kfree := kfree; Storage.live := live;
  kmalloc_live := malloc_ok; kmalloc_zero := fun h => eq_refl; kfree_live := free_ok |}.

Lemma booted_live : live booted ∅.
Proof. exists [(HEAP_SIZE - HEADER_SIZE, true)]. split; [exact booted_represents|reflexivity]. Qed.

(** The booted heap serves the file table and 64 buffers of 64 KB. *)
Lemma booted_room : can_alloc 64 65536 (fst (Storage.kmalloc 4096 booted)) = true.
Proof. vm_compute. reflexivity. Qed.

End KernelHeap.

(** ** Block device *)

Class BlockDevice (D : Type) := {
  ata_disk_present : D -> bool;
  ata_read_sector : D -> Z -> option (list Z);   (** [None]: a nonzero return *)
  ata_write_sector : D -> Z -> list Z -> D;
}.

(** A disk that is there and keeps what is written to it. *)
Class ReliableDevice (D : Type) `{!BlockDevice D} := {
  reliable : D -> Prop;
  reliable_present d : reliable d -> ata_disk_present d = true;
  reliable_write d l b : reliable d -> reliable (ata_write_sector d l b);
  read_write d l b : reliable d -> length b = 512%nat -> ata_read_sector (ata_write_sector d l b) l = Some b;
  read_write_ne d l l' b : reliable d -> l <> l' ->
    ata_read_sector (ata_write_sector d l b) l' = ata_read_sector d l';
}.

Module RamDisk.

Definition blank : list Z := replicate 512 0.

#[global] Instance ram_disk : BlockDevice (gmap Z (list Z)) := {|
  ata_disk_present := fun _ => true;
  ata_read_sector := fun d l => Some (default blank (d !! l));
  ata_write_sector := fun d l b => <[l := b]> d |}.

#[global] Program Instance ram_disk_reliable : ReliableDevice (gmap Z (list Z)) := {|
  reliable := fun _ => True |}.
Next Obligation. done. Qed.
Next Obligation. done. Qed.
Next Obligation. intros. simpl. by rewrite lookup_insert_eq. Qed.
Next Obligation. intros. simpl. by rewrite lookup_insert_ne. Qed.

End RamDisk.
