(* ===== verification/Buffer.v ===== *)
(** * Outcomes of C code, and buffers

    The outcome of code that reads and writes fixed buffers, and the two accesses with
    their laws: what a write leaves, writes that continue one another, reads in the front
    part. *)

From Stdlib Require Import ZArith Lia.
From stdpp Require Import base numbers list tactics.
From S2P Require Import Prelude.

Module Buffer.

(** A result; behaviour that C leaves undefined; a loop whose rounds are used up. *)
Inductive res (A : Type) := Ret (a : A) | UB | Running.
#[global] Arguments Ret {A} a.
#[global] Arguments UB {A}.
#[global] Arguments Running {A}.
#[global] Instance res_bind : MBind res := fun A B f m => match m with Ret a => f a | UB => UB | Running => Running end.

(** [xmemcpy(buf + off, b, ...)] *)
Definition put (buf : list Z) (off : Z) (b : list Z) : list Z := take (Z.to_nat off) buf ++ b ++ drop (Z.to_nat off + length b) buf.

(** [n] bytes at [off]. *)
Definition get (buf : list Z) (off n : Z) : res (list Z) :=
  if (off <? 0) || (zlen buf <? off + n) then UB else Ret (take (Z.to_nat n) (drop (Z.to_nat off) buf)).
Definition u8_at (buf : list Z) (off : Z) : res Z := p ← get buf off 1; Ret p.[0].

Definition of_option {A} (o : option A) : res A := match o with Some a => Ret a | None => UB end.

Lemma zlen_put buf off b : 0 <= off -> off + zlen b <= zlen buf -> zlen (put buf off b) = zlen buf.
Proof. unfold put, zlen. intros. rewrite !length_app, length_take, length_drop. lia. Qed.

Lemma put_nil buf off : put buf off [] = buf.
Proof. unfold put. cbn. rewrite Nat.add_0_r. apply take_drop. Qed.

(** Writing on behind what was written. *)
Lemma put_put buf off a b : 0 <= off -> off + zlen a <= zlen buf -> put (put buf off a) (off + zlen a) b = put buf off (a ++ b).
Proof.
  unfold put, zlen. intros Ho Hl. rewrite Z2Nat.inj_add, Nat2Z.id by lia. set (n := Z.to_nat off).
  assert (length (take n buf ++ a) = n + length a)%nat as E by (rewrite length_app, length_take; lia).
  rewrite (app_assoc (take n buf) a). rewrite (take_app_length' _ _ _ (eq_sym E)), <- drop_drop, (drop_app_length' _ _ _ (eq_sym E)).
  rewrite drop_drop, length_app, <- !app_assoc. do 4 f_equal. lia.
Qed.

Lemma put_all buf b : zlen b = zlen buf -> put buf 0 b = b.
Proof. unfold put, zlen. intros. cbn. rewrite drop_ge by lia. apply app_nil_r. Qed.

Lemma get_ret buf off n : 0 <= off -> off + n <= zlen buf -> get buf off n = Ret (take (Z.to_nat n) (drop (Z.to_nat off) buf)).
Proof. intros. unfold get. rewrite (proj2 (Z.ltb_ge off 0)), (proj2 (Z.ltb_ge _ _)) by lia. done. Qed.

Lemma get_in buf off n r : get buf off n = Ret r -> 0 <= off /\ off + n <= zlen buf /\ r = take (Z.to_nat n) (drop (Z.to_nat off) buf).
Proof. unfold get. destruct (Z.ltb_spec off 0), (Z.ltb_spec (zlen buf) (off + n)); try discriminate. intros [= <-]. done. Qed.

(** A read that stays in the front part of a buffer. *)
Lemma get_app buf r off n x : 0 <= n -> get buf off n = Ret x -> get (buf ++ r) off n = Ret x.
Proof.
  intros Hn H. apply get_in in H as (H1 & H2 & ->). rewrite get_ret by (unfold zlen in *; rewrite ?length_app; lia). f_equal.
  unfold zlen in *. rewrite drop_app_le by lia. rewrite take_app_le by (rewrite length_drop; lia). done.
Qed.

Lemma res_bind_Ret {A B} (m : res A) (f : A -> res B) b : (m ≫= f) = Ret b -> exists a, m = Ret a /\ f a = Ret b.
Proof. destruct m; cbn; intros H; [by exists a|discriminate..]. Qed.

End Buffer.
