(* ===== verification/Fs.v ===== *)
(** * fs.c: the MFS3 file system

    The table of 64 slots, the data buffers taken from the kernel heap, and the
    sectors of the disk.  A buffer is the list of its bytes; [bufs] maps the
    address of each buffer the file system holds to it.  An operation that would
    write past the end of a buffer has no defined result and is [None].  [fresh p n]
    are the bytes found in newly allocated memory.

    [lookup_file] is what the file system promises to its clients: a map from
    names to files.  The theorems relate the operations to that map, show that
    buffers are neither leaked nor shared, and that a reboot restores the map from
    the sectors. *)

From Stdlib Require Import ZArith Lia.
From stdpp Require Import base numbers list gmap tactics relations.
From S2P Require Import Prelude Heap Storage.

Module Fs.

Definition FS_MAX_FILES : Z := 64.
Definition FS_MAX_NAME : Z := 32.
Definition FS_MAX_DATA : Z := 65536.
Definition FS_MAX_BIN_DATA : Z := 524288.
Definition FS_DATA_SECS : Z := FS_MAX_DATA / 512.
Definition FS_PERM_DIR : Z := 0x8000.
Definition FS_PERM_READ : Z := 4.
Definition FS_PERM_WRITE : Z := 2.
Definition FS_PERM_EXEC : Z := 1.
Definition SIZEOF_FSFILE : Z := 64.

Record FSFile := {
  name : list Z; size : Z; used : Z; tmpfs : Z; dirty : Z; perms : Z; ctime : Z; mtime : Z; data : Z }.
#[global] Instance settable_FSFile : Settable FSFile := {| rebuild f :=
  {| name := name f; size := size f; used := used f; tmpfs := tmpfs f; dirty := dirty f;
     perms := perms f; ctime := ctime f; mtime := mtime f; data := data f |} |}.
#[global] Instance inhabited_FSFile : Inhabited FSFile := populate
  {| name := replicate 32 0; size := 0; used := 0; tmpfs := 0; dirty := 0; perms := 0; ctime := 0;
     mtime := 0; data := 0 |}.

(** Little-endian bytes of a 32-bit and a 16-bit word, and back. *)
Definition le32 (x : Z) : list Z :=
  [Z.land x 0xff; Z.land (Z.shiftr x 8) 0xff; Z.land (Z.shiftr x 16) 0xff; Z.land (Z.shiftr x 24) 0xff].
Definition le16 (x : Z) : list Z := [Z.land x 0xff; Z.land (Z.shiftr x 8) 0xff].
Definition of_le32 (b : list Z) (i : Z) : Z :=
  Z.lor (Z.lor (Z.lor b.[i] (Z.shiftl b.[i + 1] 8)) (Z.shiftl b.[i + 2] 16)) (Z.shiftl b.[i + 3] 24).
Definition of_le16 (b : list Z) (i : Z) : Z := Z.lor b.[i] (Z.shiftl b.[i + 1] 8).

Definition FS_SECTORS_PER_FILE : Z := 1 + FS_DATA_SECS.
Definition fs_hdr_sector (i : Z) : Z := u32 (1 + u32 (u32 i * FS_SECTORS_PER_FILE)).
Definition fs_data_sector (i chunk : Z) : Z := u32 (2 + u32 (u32 i * FS_SECTORS_PER_FILE) + u32 chunk).

(** The header sector of a slot. *)
Definition header (f : FSFile) : list Z :=
  take 32 (name f) ++ le32 (size f) ++ [used f; tmpfs f] ++ le16 (perms f) ++ le32 (ctime f) ++ le32 (mtime f)
  ++ replicate 464 0.

(** Data sector [k]: the bytes below [size], then zeros. *)
Definition data_chunk (f : FSFile) (b : list Z) (k : Z) : list Z :=
  (fun j => let off := k * 512 + j in if off <? size f then b.[off] else 0) <$> seqZ 0 512.

Definition magic_sector : list Z := [77; 70; 83; 51] ++ replicate 508 0.

Section Fs.
Context {H : Type} `{!Allocator H} {D : Type} `{!BlockDevice D}.
Context (fresh : Z -> Z -> list Z).

Record State := { files : list FSFile; bufs : gmap Z (list Z); heap : H; disk : D }.
#[global] Instance settable_State : Settable State := {| rebuild s :=
  {| files := files s; bufs := bufs s; heap := heap s; disk := disk s |} |}.

Definition file (s : State) (i : Z) : FSFile := (files s).[i].
Definition set_file (i : Z) (f : FSFile) (s : State) : State := s <| files := (files s).[i <- f] |>.

(** [files[i].data = malloc(n);] *)
Definition malloc_data (i n : Z) (s : State) : State :=
  let '(h, p) := kmalloc n (heap s) in
  let s := set_file i ((file s i) <| data := p |>) s <| heap := h |> in
  if p =? 0 then s else s <| bufs := <[p := fresh p n]> (bufs s) |>.

(** [if (files[i].data) { free(files[i].data); files[i].data = 0; }] *)
Definition free_data (i : Z) (s : State) : State :=
  let p := data (file s i) in
  if p =? 0 then s
  else set_file i ((file s i) <| data := 0 |>)
         (s <| heap := kfree p (heap s) |> <| bufs := delete p (bufs s) |>).

Definition fs_disk_save (i : Z) (s : State) : State :=
  let f := file s i in
  if negb (ata_disk_present (disk s)) then s
  else if truth (tmpfs f) then s
  else
    let d := ata_write_sector (disk s) (fs_hdr_sector i) (header f) in
    if data f =? 0 then s <| disk := d |>
    else
      let b := default [] (bufs s !! data f) in
      let d := iter (fun k d => ata_write_sector d (fs_data_sector i k) (data_chunk f b k))
                 0 (Z.to_nat FS_DATA_SECS) d in
      set_file i (f <| dirty := 0 |>) (s <| disk := d |>).

Definition fs_disk_write_magic (s : State) : State :=
  s <| disk := ata_write_sector (disk s) 0 magic_sector |>.

(** The data sectors of slot [i] into the buffer [b]; a read error ends the loop. *)
Fixpoint load_data (n : nat) (d : D) (i k : Z) (b : list Z) : list Z :=
  match n with
  | O => b
  | S n =>
      match ata_read_sector d (fs_data_sector i k) with
      | None => b
      | Some sec =>
          load_data n d i (k + 1) (take (Z.to_nat (k * 512)) b ++ take 512 sec ++ drop (Z.to_nat (k * 512 + 512)) b)
      end
  end.

(** The loop body of [fs_disk_load]. *)
Definition load_slot (i : Z) (s : State) : State :=
  match ata_read_sector (disk s) (fs_hdr_sector i) with
  | None => s
  | Some b =>
      let s := set_file i ((file s i) <| used := b.[36] |>) s in
      if b.[36] =? 0 then s
      else
        let s := set_file i ((file s i) <| name := take 32 b |> <| size := of_le32 b 32 |> <| tmpfs := b.[37] |>
                               <| perms := of_le16 b 38 |> <| ctime := of_le32 b 40 |>
                               <| mtime := of_le32 b 44 |> <| dirty := 0 |>) s in
        if truth (Z.land (perms (file s i)) FS_PERM_DIR) then set_file i ((file s i) <| data := 0 |>) s
        else
          let s := malloc_data i FS_MAX_DATA s in
          let p := data (file s i) in
          if p =? 0 then set_file i ((file s i) <| used := 0 |>) s
          else s <| bufs := <[p := load_data (Z.to_nat FS_DATA_SECS) (disk s) i 0
                                     (default [] (bufs s !! p))]> (bufs s) |>
  end.

Definition fs_disk_load (s : State) : State := iter load_slot 0 (Z.to_nat FS_MAX_FILES) s.

(** The loop body over the new table in [fs_init]. *)
Definition reset_slot (f : FSFile) : FSFile :=
  f <| used := 0 |> <| data := 0 |> <| dirty := 0 |> <| tmpfs := 0 |> <| perms := 0 |> <| ctime := 0 |> <| mtime := 0 |>.

(** [garbage] is what the freshly allocated table contains; a null table is
    written through. *)
Definition fs_init (garbage : list FSFile) (h : H) (d : D) : option State :=
  let '(h, p) := kmalloc (FS_MAX_FILES * SIZEOF_FSFILE) h in
  if p =? 0 then None
  else
    let s := {| files := reset_slot <$> garbage; bufs := ∅; heap := h; disk := d |} in
    if negb (ata_disk_present d) then Some s
    else match ata_read_sector d 0 with
         | None => Some s
         | Some sb =>
             if (sb.[0] =? 77) && (sb.[1] =? 70) && (sb.[2] =? 83) && (sb.[3] =? 51) then Some (fs_disk_load s)
             else Some (fs_disk_write_magic s)
         end.

(** [files[i].used && !(files[i].perms & FS_PERM_DIR) && fs_strcmp(files[i].name, name)] *)
Definition is_file (nm : list Z) (f : FSFile) : bool :=
  truth (used f) && negb (truth (Z.land (perms f) FS_PERM_DIR)) && c_streq (name f) nm.
Definition is_entry (nm : list Z) (f : FSFile) : bool := truth (used f) && c_streq (name f) nm.

Definition find (p : FSFile -> bool) (s : State) : option Z :=
  scan (fun i => p (file s i)) 0 (Z.to_nat FS_MAX_FILES).
Definition free_slot (s : State) : option Z := find (fun f => negb (truth (used f))) s.

(** The buffer of slot [i], zeroed when it is new; the pointer is 0 on failure. *)
Definition fs_ensure_data (i : Z) (s : State) : State * Z :=
  if data (file s i) =? 0 then
    let s := malloc_data i FS_MAX_DATA s in
    let p := data (file s i) in
    if p =? 0 then (s, 0) else (s <| bufs := <[p := replicate (Z.to_nat FS_MAX_DATA) 0]> (bufs s) |>, p)
  else (s, data (file s i)).

(** [fs_strcpy] of [src], at most FS_MAX_DATA bytes, into the buffer at [p]. *)
Definition buf_strcpy (p : Z) (src : list Z) (s : State) : option State :=
  let b := default [] (bufs s !! p) in
  if Z.min (c_strlen src) (FS_MAX_DATA - 1) <? zlen b
  then Some (s <| bufs := <[p := c_strcpy b src FS_MAX_DATA]> (bufs s) |>) else None.

Definition fs_write (tick : Z) (nm src : list Z) (s : State) : option (State * Z) :=
  let len := c_strlen src in
  if FS_MAX_DATA <=? len then Some (s, 0)
  else match find (is_file nm) s with
  | Some i =>
      let '(s, p) := fs_ensure_data i s in
      if p =? 0 then Some (s, 0)
      else
        s ← buf_strcpy p src s;
        let s := set_file i ((file s i) <| size := u32 (len + 1) |> <| mtime := tick |> <| dirty := 1 |>) s in
        Some (fs_disk_save i s, 1)
  | None =>
      match free_slot s with
      | Some i =>
          let s := set_file i ((file s i) <| name := c_strcpy (name (file s i)) nm FS_MAX_NAME |>) s in
          let '(s, p) := fs_ensure_data i s in
          if p =? 0 then Some (s, 0)
          else
            s ← buf_strcpy p src s;
            let s := set_file i ((file s i) <| size := u32 (len + 1) |> <| used := 1 |> <| tmpfs := 0 |>
                                   <| dirty := 1 |> <| perms := Z.lor FS_PERM_READ FS_PERM_WRITE |>
                                   <| ctime := tick |> <| mtime := tick |>) s in
            Some (fs_disk_save i s, 1)
      | None => Some (s, 0)
      end
  end.

(** The pointer returned, 0 for null. *)
Definition fs_read (nm : list Z) (s : State) : Z :=
  match find (is_file nm) s with Some i => data (file s i) | None => 0 end.

Definition fs_delete (nm : list Z) (s : State) : State * Z :=
  match find (is_entry nm) s with
  | Some i =>
      let s := set_file i ((file s i) <| used := 0 |>) s in
      let s := free_data i s in
      (fs_disk_save i s, 1)
  | None => (s, 0)
  end.

(** [fs_memcpy(files[i].data, data, size)] into the buffer just allocated. *)
Definition buf_memcpy (p : Z) (src : list Z) (n : Z) (s : State) : option State :=
  let b := default [] (bufs s !! p) in
  if n <=? zlen b then Some (s <| bufs := <[p := c_memcpy b src n]> (bufs s) |>) else None.

Definition fs_write_bin_internal (tick : Z) (nm src : list Z) (sz is_tmpfs : Z) (s : State)
    : option (State * Z) :=
  if FS_MAX_BIN_DATA <? sz then Some (s, 0)
  else match find (is_file nm) s with
  | Some i =>
      let s := free_data i s in
      let s := malloc_data i sz s in
      let p := data (file s i) in
      if p =? 0 then Some (s, 0)
      else
        s ← buf_memcpy p src sz s;
        let s := set_file i ((file s i) <| size := sz |> <| mtime := tick |> <| dirty := 1 |>
                               <| tmpfs := is_tmpfs |>) s in
        Some (fs_disk_save i s, 1)
  | None =>
      match free_slot s with
      | Some i =>
          let s := set_file i ((file s i) <| name := c_strcpy (name (file s i)) nm FS_MAX_NAME |>) s in
          let s := malloc_data i sz s in
          let p := data (file s i) in
          if p =? 0 then Some (s, 0)
          else
            s ← buf_memcpy p src sz s;
            let s := set_file i ((file s i) <| size := sz |> <| used := 1 |> <| tmpfs := is_tmpfs |>
                       <| dirty := 1 |> <| perms := Z.lor (Z.lor FS_PERM_READ FS_PERM_WRITE) FS_PERM_EXEC |>
                       <| ctime := tick |> <| mtime := tick |>) s in
            Some (fs_disk_save i s, 1)
      | None => Some (s, 0)
      end
  end.

Definition fs_write_bin (tick : Z) (nm src : list Z) (sz : Z) (s : State) : option (State * Z) :=
  fs_write_bin_internal tick nm src sz 0 s.
Definition fs_write_tmp (tick : Z) (nm src : list Z) (sz : Z) (s : State) : option (State * Z) :=
  fs_write_bin_internal tick nm src sz 1 s.

Definition fs_mkdir (tick : Z) (nm : list Z) (s : State) : State * Z :=
  match find (is_entry nm) s with
  | Some _ => (s, 1)
  | None =>
      match free_slot s with
      | Some i =>
          let s := set_file i ((file s i) <| name := c_strcpy (name (file s i)) nm FS_MAX_NAME |> <| size := 0 |>
                     <| used := 1 |> <| tmpfs := 0 |> <| dirty := 1 |>
                     <| perms := Z.lor (Z.lor FS_PERM_DIR FS_PERM_READ) FS_PERM_WRITE |>
                     <| ctime := tick |> <| mtime := tick |> <| data := 0 |>) s in
          (fs_disk_save i s, 1)
      | None => (s, 0)
      end
  end.

(** The pointer, and the size when there is a file. *)
Definition fs_read_bin (nm : list Z) (s : State) : option (Z * Z) :=
  match find (is_file nm) s with Some i => Some (data (file s i), size (file s i)) | None => None end.

Definition fs_get_perms (nm : list Z) (s : State) : Z :=
  match find (is_entry nm) s with Some i => perms (file s i) | None => 0 end.

Definition fs_set_perms (nm : list Z) (p : Z) (s : State) : State * Z :=
  match find (is_entry nm) s with
  | Some i => (fs_disk_save i (set_file i ((file s i) <| perms := p |> <| dirty := 1 |>) s), 1)
  | None => (s, 0)
  end.

Definition fs_get_mtime (nm : list Z) (s : State) : Z :=
  match find (is_entry nm) s with Some i => mtime (file s i) | None => 0 end.

Definition fs_get_table (s : State) : list FSFile := files s.

Definition fs_rename (tick : Z) (old new : list Z) (s : State) : State * Z :=
  match find (is_entry new) s with
  | Some _ => (s, -1)
  | None =>
      match find (is_entry old) s with
      | Some i =>
          (fs_disk_save i (set_file i ((file s i) <| name := c_strcpy (name (file s i)) new FS_MAX_NAME |>
                                         <| dirty := 1 |> <| mtime := tick |>) s), 0)
      | None => (s, -1)
      end
  end.

(** The loop of [fs_flush], which [Mfs4.fs_flush] completes: the state and the count. *)
Definition flush_slot (i : Z) (sc : State * Z) : State * Z :=
  let '(s, count) := sc in
  let f := file s i in
  if truth (used f) && truth (dirty f) && negb (truth (tmpfs f)) then (fs_disk_save i s, count + 1) else (s, count).

Definition fs_flush_files (s : State) : State * Z :=
  iter flush_slot 0 (Z.to_nat FS_MAX_FILES) (s, 0).

(** *** Listings: the strings passed to [print_fn], in order *)

Definition is_dir (f : FSFile) : bool := truth (Z.land (perms f) FS_PERM_DIR).
Definition DIR_TAG : list Z := [91; 68; 73; 82; 93; 32].

Definition list_entry (f : FSFile) (shown : list Z) : list (list Z) :=
  (if is_dir f then [DIR_TAG] else []) ++ [shown; [10]].

Definition fs_list (s : State) : list (list Z) :=
  let out := f ← files s; if truth (used f) then list_entry f (cstr (name f)) else [] in
  match out with [] => [[84; 105; 100; 97; 107; 32; 97; 100; 97; 32; 102; 105; 108; 101; 10]] | _ => out end.

Definition has_slash (nm : list Z) : bool := existsb (Z.eqb 47) (cstr nm).

(** What [fs_list_dir] prints for one entry. *)
Definition list_dir_entry (dir : list Z) (f : FSFile) : list (list Z) :=
  if negb (truth (used f)) then []
  else
    let dirlen := c_strlen dir in
    if (dirlen =? 0) || ((dirlen =? 1) && (cget dir 0 =? 47)) then
      if has_slash (name f) then [] else list_entry f (cstr (name f))
    else
      if forallb (fun j => cget (name f) j =? cget dir j) (seqZ 0 dirlen) then
        let tail := drop (Z.to_nat dirlen) (name f) in
        if has_slash tail then [] else list_entry f (cstr tail)
      else [].

Definition fs_list_dir (dir : list Z) (s : State) : list (list Z) :=
  let out := f ← files s; list_dir_entry dir f in
  match out with [] => [[75; 111; 115; 111; 110; 103; 10]] | _ => out end.

(** One entry of [fs_list_buf]: as many characters as fit, then a newline.  The
    buffer is the list of bytes written so far. *)
Definition list_buf_entry (bufsz : Z) (f : FSFile) (out : list Z) : list Z :=
  let shown := take (Z.to_nat (bufsz - 2 - zlen out)) (cstr (name f)) in
  let out := out ++ shown in
  if zlen out <? bufsz - 1 then out ++ [10] else out.

Definition fs_list_buf (bufsz : Z) (s : State) : list Z * Z :=
  let live := filter (fun f => truth (used f)) (files s) in
  let out := foldl (fun out f => list_buf_entry bufsz f out) [] live in
  (if zlen out <? bufsz then out ++ [0] else out, zlen live).

Definition has_prefix (prefix : list Z) (f : FSFile) : bool :=
  forallb (fun j => cget (name f) j =? cget prefix j) (seqZ 0 (c_strlen prefix)).

(** The result and what was copied to [out_name]. *)
Fixpoint find_prefix_loop (fs : list FSFile) (prefix : list Z) (found : Z) (out : list Z) : Z * list Z :=
  match fs with
  | [] => (found, out)
  | f :: fs =>
      if negb (truth (used f)) || negb (has_prefix prefix f) then find_prefix_loop fs prefix found out
      else if truth found then (0, out)
      else find_prefix_loop fs prefix 1 (take 31 (cstr (name f)) ++ [0])
  end.

Definition fs_find_prefix (prefix : list Z) (s : State) : Z * list Z :=
  find_prefix_loop (files s) prefix 0 [].


(** ** What the file system promises: a map from names to files *)

Record View := {
  v_size : Z; v_perms : Z; v_tmpfs : Z; v_ctime : Z; v_mtime : Z; v_data : option (list Z) }.

Definition view (s : State) (f : FSFile) : View :=
  {| v_size := size f; v_perms := perms f; v_tmpfs := tmpfs f; v_ctime := ctime f; v_mtime := mtime f;
     v_data := if data f =? 0 then None else bufs s !! data f |}.

Definition lookup_file (s : State) (nm : list Z) : option View := view s ∘ file s <$> find (is_file nm) s.

(** ** Ownership of the buffers *)

(** Every buffer held belongs to exactly one slot and is live in the heap. *)
Record owned (s : State) : Prop := {
  o_len : length (files s) = 64%nat;
  o_buf : forall i, 0 <= i < 64 -> data (file s i) <> 0 -> is_Some (bufs s !! data (file s i));
  o_inj : forall i j, 0 <= i < 64 -> 0 <= j < 64 -> data (file s i) <> 0 ->
            data (file s i) = data (file s j) -> i = j;
  o_own : forall p b, bufs s !! p = Some b -> p <> 0 /\ exists i, 0 <= i < 64 /\ data (file s i) = p;
  o_live : exists m, live (heap s) m /\ forall p b, bufs s !! p = Some b -> is_Some (m !! p);
}.

(** What else holds of a slot between operations. *)
Record slot_ok (s : State) (f : FSFile) : Prop := {
  k_name : length (name f) = 32%nat;
  k_term : used f <> 0 -> c_strlen (name f) < 32;
  k_null : used f = 0 -> data f = 0;
  k_size : forall b, data f <> 0 -> bufs s !! data f = Some b -> Z.min (size f) FS_MAX_DATA <= zlen b;
}.

Definition wf (s : State) : Prop := owned s /\ forall i, 0 <= i < 64 -> slot_ok s (file s i).

(** Slots other than [i], and their buffers, are as before. *)
Definition only (i : Z) (s s' : State) : Prop :=
  length (files s') = length (files s) /\
  forall j, 0 <= j < 64 -> j <> i ->
    file s' j = file s j /\ (data (file s j) <> 0 -> bufs s' !! data (file s j) = bufs s !! data (file s j)).

Lemma only_refl i s : only i s s.
Proof. done. Qed.

Lemma only_trans i s1 s2 s3 : only i s1 s2 -> only i s2 s3 -> only i s1 s3.
Proof.
  intros [L1 H1] [L2 H2]. split; [congruence|]. intros j Hj Hji.
  destruct (H1 j Hj Hji) as [F1 B1], (H2 j Hj Hji) as [F2 B2]. split; [congruence|].
  intros Hd. rewrite <- B1 by done. rewrite F1 in B2. auto.
Qed.

Lemma file_set_file i f s j :
  length (files s) = 64%nat -> 0 <= i < 64 -> 0 <= j ->
  file (set_file i f s) j = if decide (i = j) then f else file s j.
Proof. intros Hl Hi Hj. unfold file, set_file. simpl. apply aget_aset; [unfold zlen; lia|done]. Qed.

Lemma file_set_eq i f s : length (files s) = 64%nat -> 0 <= i < 64 -> file (set_file i f s) i = f.
Proof. intros. rewrite file_set_file by lia. by rewrite decide_True. Qed.

Lemma only_set_file i f s : 0 <= i < 64 -> length (files s) = 64%nat -> only i s (set_file i f s).
Proof.
  intros Hi Hl. split; [simpl; by rewrite length_aset|].
  intros j Hj Hji. rewrite file_set_file by lia. rewrite decide_False by done. by split.
Qed.

Lemma owned_set_file i f s :
  owned s -> 0 <= i < 64 -> data f = data (file s i) -> owned (set_file i f s).
Proof.
  intros [Hl Hb Hi Ho Hv] Hr Hd.
  assert (forall j, 0 <= j -> data (file (set_file i f s) j) = data (file s j)) as E.
  { intros j Hj. rewrite file_set_file by lia. case_decide; [congruence|done]. }
  split; simpl.
  - by rewrite length_aset.
  - intros j Hj. rewrite E by lia. by apply Hb.
  - intros j k Hj Hk. rewrite !E by lia. by apply Hi.
  - intros p b Hp. destruct (Ho p b Hp) as (Hp0 & j & Hj & Hdj). split; [done|].
    exists j. rewrite E by lia. done.
  - exact Hv.
Qed.

Lemma owned_upd_buf s p b :
  owned s -> is_Some (bufs s !! p) -> owned (s <| bufs := <[p := b]> (bufs s) |>).
Proof.
  intros [Hl Hb Hi Ho (m & Hm & Hpm)] [b0 Hp]. split; simpl; try done.
  - intros i Hr Hd. destruct (decide (p = data (file s i))) as [->|]; [rewrite lookup_insert_eq; eauto|].
    rewrite lookup_insert_ne by done. by apply Hb.
  - intros q c Hq. destruct (decide (p = q)) as [->|]; [by apply (Ho q b0)|].
    rewrite lookup_insert_ne in Hq by done. by apply (Ho q c).
  - exists m. split; [done|]. intros q c Hq.
    destruct (decide (p = q)) as [->|]; [by apply (Hpm q b0)|].
    rewrite lookup_insert_ne in Hq by done. by apply (Hpm q c).
Qed.

Lemma only_upd_buf i s b :
  owned s -> 0 <= i < 64 -> data (file s i) <> 0 ->
  only i s (s <| bufs := <[data (file s i) := b]> (bufs s) |>).
Proof.
  intros Ho Hi Hd. split; [done|]. intros j Hj Hji. split; [done|]. intros Hdj. simpl.
  apply lookup_insert_ne. intros E. apply Hji. symmetry. by apply (o_inj s Ho).
Qed.

(** Allocation into an empty slot: either nothing but the heap changed, or the slot
    has a new buffer that nobody else holds. *)
Lemma malloc_data_spec i n s :
  owned s -> 0 <= i < 64 -> data (file s i) = 0 -> 0 <= n <= 0x100000 ->
  let s' := malloc_data i n s in
  owned s' /\ only i s s' /\ disk s' = disk s /\
  exists p, file s' i = (file s i) <| data := p |> /\
    ((p = 0 /\ bufs s' = bufs s) \/ (0 < n /\ 0 < p /\ bufs s !! p = None /\ bufs s' = <[p := fresh p n]> (bufs s))).
Proof.
  intros Ho Hi Hd Hn. pose proof Ho as [Hl Hb Hj Hw (m & Hm & Hpm)]. unfold malloc_data.
  destruct (kmalloc n (heap s)) as [h p] eqn:E.
  assert (forall q, q = 0 \/ q = p -> file (set_file i ((file s i) <| data := q |>) s) i = (file s i) <| data := q |>) as Hf
    by (intros; by apply file_set_eq).
  assert ((p = 0 /\ live h m) \/ (0 < n /\ 0 < p /\ m !! p = None /\ exists k, n <= k /\ live h (<[p := k]> m)))
    as [[-> Hlv]|(Hn0 & Hp & Hmp & k & Hk & Hlv)].
  { destruct (decide (n = 0)) as [->|]; [rewrite kmalloc_zero in E; simplify_eq; by left|].
    destruct (kmalloc_live n (heap s) m h p Hm ltac:(lia) E) as [?|(?&?&?)]; [by left|right].
    split; [lia|done]. }
  - simpl. split_and!.
    + assert (owned (set_file i ((file s i) <| data := 0 |>) s)) as Ho' by (apply owned_set_file; done).
      destruct Ho' as [A1 A2 A3 A4 _]. split; try assumption. exists m. by split.
    + exact (only_set_file i _ s Hi Hl).
    + reflexivity.
    + exists 0. split; [by apply Hf; left|]. left. by split.
  - rewrite (proj2 (Z.eqb_neq p 0)) by lia.
    assert (bufs s !! p = None) as Hbp.
    { destruct (bufs s !! p) as [b|] eqn:Eb; [|done]. destruct (Hpm _ _ Eb). congruence. }
    cbv zeta. match goal with |- owned ?t /\ _ => set (s' := t) end.
    assert (forall j, 0 <= j < 64 -> file s' j = if decide (i = j) then (file s i) <| data := p |> else file s j)
      as Hfj by (intros; apply (file_set_file i _ s); lia).
    assert (bufs s' = <[p := fresh p n]> (bufs s)) as Hbs by done.
    assert (forall j, 0 <= j < 64 -> data (file s j) <> 0 -> data (file s j) <> p) as Hne.
    { intros j Hjr Hdj E'. destruct (Hb j Hjr Hdj) as [b Eb]. rewrite E' in Eb. congruence. }
    assert (length (files s') = length (files s)) as Hls by (simpl; by rewrite length_aset).
    assert (heap s' = h) as Hhs by done. assert (disk s' = disk s) as Hds by done.
    clearbody s'. split_and!.
    + split; [congruence|..].
      * intros j Hjr. rewrite Hbs, Hfj by done. case_decide; simpl; [rewrite lookup_insert_eq; eauto|].
        intros Hdj. rewrite lookup_insert_ne by (by apply not_eq_sym, Hne). by apply Hb.
      * intros j1 j2 H1 H2. rewrite !Hfj by done. repeat case_decide; simpl; subst; try done.
        -- intros _ Hp2. exfalso. apply (Hne j2 H2); [rewrite <- Hp2; lia|done].
        -- intros Hd1 Hp1. exfalso. by apply (Hne j1 H1).
        -- by apply Hj.
      * intros q b Hq. rewrite Hbs in Hq. destruct (decide (p = q)) as [<-|].
        -- split; [lia|]. exists i. split; [done|]. rewrite Hfj by done. by rewrite decide_True.
        -- rewrite lookup_insert_ne in Hq by done. destruct (Hw q b Hq) as (Hq0 & j & Hjr & Hdj).
           split; [done|]. exists j. split; [done|]. rewrite Hfj by done. case_decide; [|done]. subst j. congruence.
      * exists (<[p := k]> m). rewrite Hhs. split; [done|]. intros q b Hq. rewrite Hbs in Hq.
        destruct (decide (p = q)) as [<-|]; [rewrite lookup_insert_eq; eauto|].
        rewrite lookup_insert_ne in Hq by done. rewrite lookup_insert_ne by done. eauto.
    + split; [done|]. intros j Hjr Hji. rewrite Hfj by done. rewrite decide_False by done.
      split; [done|]. intros Hdj. rewrite Hbs. apply lookup_insert_ne. by apply not_eq_sym, Hne.
    + exact Hds.
    + exists p. rewrite Hfj by done. rewrite decide_True by done. split; [done|]. right. done.
Qed.

Lemma free_data_spec i s :
  owned s -> 0 <= i < 64 ->
  let s' := free_data i s in
  owned s' /\ only i s s' /\ disk s' = disk s /\ file s' i = (file s i) <| data := 0 |>.
Proof.
  intros Ho Hi. pose proof Ho as [Hl Hb Hj Hw (m & Hm & Hpm)]. unfold free_data.
  destruct (Z.eqb_spec (data (file s i)) 0) as [Hd|Hd].
  - split_and!; [done|apply only_refl|done|]. destruct (file s i). simpl in *. by subst.
  - set (p := data (file s i)) in *.
    assert (forall j, 0 <= j < 64 -> file (set_file i ((file s i) <| data := 0 |>)
                (s <| heap := kfree p (heap s) |> <| bufs := delete p (bufs s) |>)) j
              = if decide (i = j) then (file s i) <| data := 0 |> else file s j) as Hfj
      by (intros j Hjr; refine (file_set_file i _ (s <| heap := kfree p (heap s) |> <| bufs := delete p (bufs s) |>) j Hl Hi _); lia).
    assert (forall j, 0 <= j < 64 -> j <> i -> data (file s j) <> p) as Hne.
    { intros j Hjr Hji E. apply Hji. symmetry. apply Hj; [done|done|done|]. by rewrite E. }
    set (s' := set_file i _ _) in *. split_and!.
    + split.
      * simpl. by rewrite length_aset.
      * intros j Hjr. rewrite Hfj by done. case_decide; [done|]. intros Hdj. simpl.
        rewrite lookup_delete_ne; [by apply Hb|]. apply not_eq_sym, Hne; [done|congruence].
      * intros j1 j2 H1 H2. rewrite !Hfj by done. repeat case_decide; simpl; intros Hd1 Hd2; try congruence.
        by apply Hj.
      * intros q b Hq. simpl in Hq. apply lookup_delete_Some in Hq as [Hqp Hq].
        destruct (Hw q b Hq) as (Hq0 & j & Hjr & Hdj). split; [done|]. exists j. split; [done|].
        rewrite Hfj by done. case_decide; [|done]. subst j. by destruct Hqp.
      * destruct (Hb i Hi Hd) as [b Eb]. destruct (Hpm _ _ Eb) as [k Ek].
        exists (delete p m). split; [simpl; by apply (kfree_live _ _ _ k)|].
        intros q c Hq. simpl in Hq. apply lookup_delete_Some in Hq as [Hqp Hq].
        rewrite lookup_delete_ne by done. by apply (Hpm q c).
    + split; [simpl; by rewrite length_aset|]. intros j Hjr Hji. rewrite Hfj by done.
      rewrite decide_False by done. split; [done|]. intros Hdj. simpl. apply lookup_delete_ne.
      by apply not_eq_sym, Hne.
    + reflexivity.
    + rewrite Hfj by done. by rewrite decide_True.
Qed.

(** Saving a slot touches the disk and its dirty flag. *)
Lemma fs_disk_save_spec i s :
  owned s -> 0 <= i < 64 ->
  let s' := fs_disk_save i s in
  owned s' /\ only i s s' /\ bufs s' = bufs s /\ exists d, file s' i = (file s i) <| dirty := d |>.
Proof.
  intros Ho Hi. pose proof (o_len s Ho) as Hl. unfold fs_disk_save.
  destruct (negb _).
  { split_and!; [done|apply only_refl|done|]. exists (dirty (file s i)). by destruct (file s i). }
  destruct (truth _).
  { split_and!; [done|apply only_refl|done|]. exists (dirty (file s i)). by destruct (file s i). }
  assert (forall d, owned (s <| disk := d |>)) as Hod by (intros d; destruct Ho; by split).
  destruct (data (file s i) =? 0).
  { split_and!; [apply Hod|by split|done|]. exists (dirty (file s i)).
    change (file s i = (file s i) <| dirty := dirty (file s i) |>). by destruct (file s i). }
  set (d := iter _ _ _ _). clearbody d. split_and!.
  - apply owned_set_file; [apply Hod|done|done].
  - exact (only_set_file i _ (s <| disk := d |>) Hi Hl).
  - reflexivity.
  - exists 0. apply file_set_eq; done.
Qed.

(** ** From slots to lookups *)

Lemma wf_finish i s s' :
  wf s -> owned s' -> only i s s' -> slot_ok s' (file s' i) -> wf s'.
Proof.
  intros [Ho Hk] Ho' [_ Hon] Hi. split; [done|]. intros j Hj.
  destruct (decide (j = i)) as [->|Hji]; [done|]. destruct (Hon j Hj Hji) as [Ef Eb]. rewrite Ef.
  destruct (Hk j Hj) as [A1 A2 A3 A4]. split; try done. intros b Hd Hb. rewrite Eb in Hb by done. by apply A4.
Qed.

Lemma view_only i j s s' :
  only i s s' -> 0 <= j < 64 -> j <> i -> view s' (file s' j) = view s (file s j).
Proof.
  intros [_ Hon] Hj Hji. destruct (Hon j Hj Hji) as [Ef Eb]. rewrite Ef. unfold view. f_equal.
  destruct (Z.eqb_spec (data (file s j)) 0); [done|]. by apply Eb.
Qed.

(** A name that slot [i] has neither before nor after is looked up as before. *)
Lemma lookup_other i s s' nm :
  only i s s' -> is_file nm (file s i) = false -> is_file nm (file s' i) = false ->
  lookup_file s' nm = lookup_file s nm.
Proof.
  intros Hon Hf Hf'. unfold lookup_file, find.
  assert (forall j, 0 <= j < 64 -> is_file nm (file s' j) = is_file nm (file s j)) as Heq.
  { intros j Hj. destruct (decide (j = i)) as [->|Hji]; [congruence|].
    by rewrite (proj1 (proj2 Hon j Hj Hji)). }
  rewrite (scan_ext (fun j => is_file nm (file s' j)) (fun j => is_file nm (file s j)))
    by (intros j Hj; apply Heq; unfold FS_MAX_FILES in Hj; lia).
  destruct (scan _ _ _) as [j|] eqn:E; [|done]. simpl. f_equal.
  apply scan_Some in E as (Hj & Hfj & _). unfold FS_MAX_FILES in Hj.
  apply (view_only i); [done|lia|]. intros ->. congruence.
Qed.

Lemma find_Some p s i :
  find p s = Some i -> 0 <= i < 64 /\ p (file s i) = true /\ (forall j, 0 <= j < i -> p (file s j) = false).
Proof. intros E. apply scan_Some in E as (? & ? & ?). unfold FS_MAX_FILES in *. split; [lia|done]. Qed.

Lemma find_None p s : find p s = None -> forall j, 0 <= j < 64 -> p (file s j) = false.
Proof. intros E j Hj. eapply scan_None in E; [exact E|]. unfold FS_MAX_FILES. lia. Qed.

(** The slot written is the first with its name. *)
Lemma lookup_slot i s s' nm :
  only i s s' -> 0 <= i < 64 -> is_file nm (file s' i) = true -> (forall j, 0 <= j < i -> is_file nm (file s j) = false) ->
  lookup_file s' nm = Some (view s' (file s' i)).
Proof.
  intros Hon Hi Hf Hb. unfold lookup_file, find. rewrite (scan_first _ _ 0 i); [done| |done|].
  - unfold FS_MAX_FILES. lia.
  - intros j Hj. rewrite (proj1 (proj2 Hon j ltac:(lia) ltac:(lia))). by apply Hb.
Qed.

Lemma is_file_other nm other f :
  cstr other <> cstr nm -> c_streq (name f) nm = true -> is_file other f = false.
Proof.
  intros Hne Heq%c_streq_spec. unfold is_file. rewrite andb_false_iff. right.
  destruct (c_streq (name f) other) eqn:E; [|done]. apply c_streq_spec in E. congruence.
Qed.

Lemma is_file_unused nm f : used f = 0 -> is_file nm f = false.
Proof. intros E. unfold is_file. by rewrite E. Qed.

Lemma is_file_true nm f :
  is_file nm f = true -> used f <> 0 /\ truth (Z.land (perms f) FS_PERM_DIR) = false /\ c_streq (name f) nm = true.
Proof.
  unfold is_file, truth. intros E. bool_to_prop. split_and!; [done| |done].
  apply negb_false_iff, Z.eqb_eq. done.
Qed.

(** The stored copy of a name that fits. *)
Lemma stored_name nm old :
  length old = 32%nat -> c_strlen nm < 32 ->
  length (c_strcpy old nm FS_MAX_NAME) = 32%nat /\ c_streq (c_strcpy old nm FS_MAX_NAME) nm = true
  /\ c_strlen (c_strcpy old nm FS_MAX_NAME) < 32.
Proof.
  intros Hl Hn. assert (cstr (c_strcpy old nm FS_MAX_NAME) = cstr nm) as E by (by apply cstr_strcpy_fits).
  split_and!.
  - rewrite length_c_strcpy; [done|done|by rewrite Hl].
  - by apply c_streq_spec.
  - unfold c_strlen in *. by rewrite E.
Qed.

(** [fs_ensure_data]: null with nothing changed, or a buffer. *)
Lemma ensure_spec i s :
  owned s -> 0 <= i < 64 ->
  let '(s', p) := fs_ensure_data i s in
  owned s' /\ only i s s' /\
  ((p = 0 /\ data (file s i) = 0 /\ bufs s' = bufs s /\ file s' i = file s i)
   \/ (p <> 0 /\ file s' i = (file s i) <| data := p |> /\
       ((data (file s i) = p /\ s' = s) \/ bufs s' !! p = Some (replicate (Z.to_nat FS_MAX_DATA) 0)))).
Proof.
  intros Ho Hi. unfold fs_ensure_data. destruct (Z.eqb_spec (data (file s i)) 0) as [Hd|Hd].
  - destruct (malloc_data_spec i FS_MAX_DATA s Ho Hi Hd ltac:(unfold FS_MAX_DATA; lia)) as (Ho' & Hon & _ & p & Ef & Hc).
    set (s1 := malloc_data i FS_MAX_DATA s) in *. clearbody s1. rewrite Ef.
    change (data ((file s i) <| data := p |>)) with p.
    destruct Hc as [[-> Eb]|(_ & Hp & Hn & Eb)].
    + change (0 =? 0) with true. cbv iota. split; [exact Ho'|]. split; [exact Hon|]. left.
      split_and!; [reflexivity|exact Hd|exact Eb|]. rewrite Ef, <- Hd. by destruct (file s i).
    + rewrite (proj2 (Z.eqb_neq p 0)) by lia.
      assert (p = data (file s1 i)) as Ep by (by rewrite Ef). split; [|split].
      * apply owned_upd_buf; [done|]. rewrite Eb, lookup_insert_eq. eauto.
      * eapply only_trans; [exact Hon|].
        pose proof (only_upd_buf i s1 (replicate (Z.to_nat FS_MAX_DATA) 0) Ho' Hi) as Hu.
        rewrite <- Ep in Hu. apply Hu. lia.
      * right. split_and!; [lia|exact Ef|]. right. exact (lookup_insert_eq (bufs s1) p _).
  - split; [exact Ho|]. split; [apply only_refl|]. right. split; [exact Hd|].
    split; [by destruct (file s i)|]. left. done.
Qed.

Lemma truth_false z : truth z = false -> z = 0.
Proof. unfold truth. intros E. bool_to_prop. done. Qed.

(** The common tail of the writers: fields of slot [i], whose buffer [b] is at [p],
    are set to those of [f] and the slot is saved. *)
Lemma finish_write i s s1 f p b nm :
  wf s -> owned s1 -> only i s s1 -> 0 <= i < 64 -> data (file s1 i) = p -> bufs s1 !! p = Some b -> p <> 0 ->
  data f = p -> length (name f) = 32%nat -> c_strlen (name f) < 32 -> used f <> 0 ->
  Z.min (size f) FS_MAX_DATA <= zlen b ->
  is_file nm f = true -> (forall j, 0 <= j < i -> is_file nm (file s j) = false) ->
  (forall other, cstr other <> cstr nm -> is_file other (file s i) = false) ->
  let s' := fs_disk_save i (set_file i f s1) in
  wf s' /\ (forall other, cstr other <> cstr nm -> lookup_file s' other = lookup_file s other) /\
  lookup_file s' nm = Some {| v_size := size f; v_perms := perms f; v_tmpfs := tmpfs f; v_ctime := ctime f;
                              v_mtime := mtime f; v_data := Some b |}.
Proof.
  intros Hwf Ho1 Hon1 Hi Hd1 Hb Hp Hdf Hnm Hterm Hu Hsz Hf Hfirst Hother s'.
  pose proof (owned_set_file i f s1 Ho1 Hi ltac:(congruence)) as Ho2.
  pose proof (only_set_file i f s1 Hi (o_len _ Ho1)) as Hon2.
  pose proof (file_set_eq i f s1 (o_len _ Ho1) Hi) as Ef2.
  destruct (fs_disk_save_spec i _ Ho2 Hi) as (Ho3 & Hon3 & Eb3 & d & Ef3). fold s' in Ho3, Hon3, Eb3, Ef3.
  rewrite Ef2 in Ef3. clearbody s'.
  assert (only i s s') as Hon by (eapply only_trans; [exact Hon1|eapply only_trans; [exact Hon2|exact Hon3]]).
  assert (bufs s' !! p = Some b) as Hb' by (rewrite Eb3; exact Hb).
  split_and!.
  - eapply wf_finish; [exact Hwf|exact Ho3|exact Hon|]. rewrite Ef3.
    split; simpl; [exact Hnm|intros _; exact Hterm|intros E0; by destruct Hu|]. intros b' _ Hb''. rewrite Hdf in Hb''. congruence.
  - intros other Hne. apply (lookup_other i); [done|by apply Hother|]. rewrite Ef3.
    apply (is_file_other nm); [done|]. exact (proj2 (proj2 (is_file_true _ _ Hf))).
  - rewrite (lookup_slot i s s' nm) by (rewrite ?Ef3; done). f_equal. rewrite Ef3. unfold view. simpl.
    rewrite Hdf, (proj2 (Z.eqb_neq p 0)) by done. by rewrite Hb'.
Qed.

(** The text written at the start of a buffer that has room for it. *)
Lemma strcpy_buf b src :
  c_strlen src < FS_MAX_DATA -> c_strlen src < zlen b ->
  take (Z.to_nat (c_strlen src + 1)) (c_strcpy b src FS_MAX_DATA) = cstr src ++ [0] /\
  zlen (c_strcpy b src FS_MAX_DATA) = zlen b.
Proof.
  unfold c_strcpy, c_strlen, zlen. intros Hs Hb. rewrite (take_ge (cstr src)) by lia. split.
  - replace (Z.to_nat (Z.of_nat (length (cstr src)) + 1)) with (length (cstr src) + 1)%nat by lia.
    rewrite take_app_add. cbn [take]. by rewrite take_0.
  - rewrite length_app. cbn [length]. rewrite length_drop. lia.
Qed.

Lemma buf_strcpy_spec p b src s :
  bufs s !! p = Some b -> c_strlen src < FS_MAX_DATA ->
  buf_strcpy p src s =
    if decide (c_strlen src < zlen b) then Some (s <| bufs := <[p := c_strcpy b src FS_MAX_DATA]> (bufs s) |>)
    else None.
Proof.
  intros E Hs. unfold buf_strcpy. rewrite E. change (default [] (Some b)) with b. rewrite Z.min_l by lia.
  destruct (Z.ltb_spec (c_strlen src) (zlen b)); case_decide; try lia; reflexivity.
Qed.

#[local] Opaque fs_disk_save fs_ensure_data malloc_data free_data buf_strcpy c_strcpy.

(** What a successful write leaves at the name. *)
Definition text_view (tick : Z) (src : list Z) (v : View) : Prop :=
  v_size v = c_strlen src + 1 /\ v_mtime v = tick /\
  exists b, v_data v = Some b /\ take (Z.to_nat (c_strlen src + 1)) b = cstr src ++ [0].

Lemma ensure_buf i s s1 p :
  wf s -> 0 <= i < 64 -> fs_ensure_data i s = (s1, p) ->
  owned s1 /\ only i s s1 /\
  ((p = 0 /\ file s1 i = file s i /\ bufs s1 = bufs s)
   \/ exists b, p <> 0 /\ file s1 i = (file s i) <| data := p |> /\ bufs s1 !! p = Some b /\
        (zlen b < FS_MAX_DATA -> data (file s i) = p /\ bufs s !! p = Some b)).
Proof.
  intros Hwf Hi E. pose proof (ensure_spec i s (proj1 Hwf) Hi) as Hs. rewrite E in Hs.
  destruct Hs as (Ho & Hon & [(-> & Hd & Eb & Ef)|(Hp & Ef & Hc)]); (split; [done|]; split; [done|]); [by left|].
  right. destruct Hc as [[Hd ->]|Eb].
  - destruct (o_buf s (proj1 Hwf) i Hi) as [b Eb]; [congruence|]. exists b. rewrite Hd in Eb.
    split_and!; done.
  - exists (replicate (Z.to_nat FS_MAX_DATA) 0). split; [exact Hp|]. split; [exact Ef|]. split; [exact Eb|].
    intros Hlt. exfalso. unfold zlen in Hlt. rewrite length_replicate in Hlt. unfold FS_MAX_DATA in Hlt. lia.
Qed.

(** Writing text into the buffer of slot [i] and finishing. *)
Lemma write_text i s s1 p b f nm src tick :
  wf s -> owned s1 -> only i s s1 -> 0 <= i < 64 -> data (file s1 i) = p -> bufs s1 !! p = Some b -> p <> 0 ->
  c_strlen src < FS_MAX_DATA -> c_strlen src < zlen b ->
  data f = p -> length (name f) = 32%nat -> c_strlen (name f) < 32 -> used f <> 0 ->
  size f = u32 (c_strlen src + 1) -> mtime f = tick ->
  is_file nm f = true -> (forall j, 0 <= j < i -> is_file nm (file s j) = false) ->
  (forall other, cstr other <> cstr nm -> is_file other (file s i) = false) ->
  let s' := fs_disk_save i (set_file i f (s1 <| bufs := <[p := c_strcpy b src FS_MAX_DATA]> (bufs s1) |>)) in
  wf s' /\ (forall other, cstr other <> cstr nm -> lookup_file s' other = lookup_file s other) /\
  exists v, lookup_file s' nm = Some v /\ text_view tick src v.
Proof.
  intros Hwf Ho Hon Hi Hd Hb Hp Hs Hsb Hdf Hn Ht Hu Hsz Hm Hf Hfirst Hoth.
  set (b' := c_strcpy b src FS_MAX_DATA). destruct (strcpy_buf b src Hs Hsb) as [Etake Elen]. fold b' in Etake, Elen.
  set (s2 := s1 <| bufs := <[p := b']> (bufs s1) |>).
  assert (owned s2) as Ho2 by (apply owned_upd_buf; [done|eauto]).
  assert (only i s s2) as Hon2.
  { eapply only_trans; [exact Hon|]. unfold s2. rewrite <- Hd. apply only_upd_buf; [done|done|congruence]. }
  assert (size f = c_strlen src + 1) as Esz.
  { rewrite Hsz. apply u32_small. unfold FS_MAX_DATA in Hs. unfold c_strlen in *. pose proof (zlen_nonneg (cstr src)). lia. }
  destruct (finish_write i s s2 f p b' nm) as (H1 & H2 & H3); try done.
  - exact (lookup_insert_eq (bufs s1) p b').
  - rewrite Elen, Esz. lia.
  - split; [exact H1|]. split; [exact H2|]. eexists. split; [exact H3|].
    split_and!; [exact Esz|exact Hm|]. exists b'. split; [reflexivity|exact Etake].
Qed.

Lemma fs_write_spec tick nm src s :
  wf s -> c_strlen nm < 32 ->
  match fs_write tick nm src s with
  | None => exists i b, find (is_file nm) s = Some i /\ bufs s !! data (file s i) = Some b /\
                        zlen b <= c_strlen src < FS_MAX_DATA
  | Some (s', r) =>
      wf s' /\ (forall other, cstr other <> cstr nm -> lookup_file s' other = lookup_file s other) /\
      ((r = 0 /\ lookup_file s' nm = lookup_file s nm) \/
       (r = 1 /\ exists v, lookup_file s' nm = Some v /\ text_view tick src v))
  end.
Proof.
  intros Hwf Hn. unfold fs_write. destruct (Z.leb_spec FS_MAX_DATA (c_strlen src)) as [|Hlen].
  { split_and!; [done|done|]. by left. }
  destruct (find (is_file nm) s) as [i|] eqn:Ei.
  - apply find_Some in Ei as Hf. destruct Hf as (Hi & Hfi & Hfirst).
    destruct (is_file_true _ _ Hfi) as (Hu & Hdir & Heq).
    pose proof (proj2 Hwf i Hi) as [K1 K2 K3 K4].
    destruct (fs_ensure_data i s) as [s1 p] eqn:E.
    destruct (ensure_buf i s s1 p Hwf Hi E) as (Ho & Hon & [(-> & Ef & Eb)|(b & Hp & Ef & Eb & Hsmall)]).
    + change (0 =? 0) with true. cbv iota.
      assert (forall o, lookup_file s1 o = lookup_file s o) as Hl.
      { intros o. unfold lookup_file, find.
        rewrite (scan_ext _ (fun j => is_file o (file s j))).
        - destruct (scan _ _ _) as [j|] eqn:Ej; [|done]. simpl. f_equal.
          apply scan_Some in Ej as (Hj & _). unfold FS_MAX_FILES in Hj.
          destruct (decide (j = i)) as [->|]; [rewrite Ef; unfold view; by rewrite Eb|].
          apply (view_only i); [done|lia|done].
        - intros j Hj. unfold FS_MAX_FILES in Hj. destruct (decide (j = i)) as [->|]; [by rewrite Ef|].
          by rewrite (proj1 (proj2 Hon j ltac:(lia) ltac:(done))). }
      split_and!; [|intros; apply Hl|left; split; [done|apply Hl]].
      eapply wf_finish; [exact Hwf|exact Ho|exact Hon|]. rewrite Ef. split; try done. by rewrite Eb.
    + rewrite (proj2 (Z.eqb_neq p 0)) by done.
      rewrite (buf_strcpy_spec p b src s1 Eb Hlen). case_decide as Hfit.
      * cbn [mbind option_bind].
        match goal with |- context [fs_disk_save i ?t] => set (s2 := t) end.
        destruct (write_text i s s1 p b ((file s1 i) <| size := u32 (c_strlen src + 1) |> <| mtime := tick |> <| dirty := 1 |>)
                    nm src tick) as (H1 & H2 & H3); try done; try (rewrite Ef; done).
        -- rewrite Ef. by apply K2.
        -- intros other Hne. by apply (is_file_other nm).
        -- split; [exact H1|]. split; [exact H2|]. right. done.
      * simpl. destruct (Hsmall ltac:(lia)) as [Hd Hb]. exists i, b. rewrite Hd. split_and!; [done|done|lia|done].
  - destruct (free_slot s) as [i|] eqn:Es; [|split_and!; [done|done|by left]].
    apply find_Some in Es as (Hi & Hui & _). apply negb_true_iff, truth_false in Hui.
    pose proof (proj2 Hwf i Hi) as [K1 K2 K3 K4]. specialize (K3 Hui).
    destruct (stored_name nm (name (file s i)) K1 Hn) as (N1 & N2 & N3).
    set (f0 := (file s i) <| name := c_strcpy (name (file s i)) nm FS_MAX_NAME |>).
    assert (owned (set_file i f0 s)) as Ho0 by (apply owned_set_file; [apply Hwf|done|done]).
    pose proof (only_set_file i f0 s Hi (o_len _ (proj1 Hwf))) as Hon0.
    pose proof (file_set_eq i f0 s (o_len _ (proj1 Hwf)) Hi) as Ef0.
    assert (wf (set_file i f0 s)) as Hwf0.
    { eapply wf_finish; [exact Hwf|exact Ho0|exact Hon0|]. rewrite Ef0. by split. }
    assert (forall j, 0 <= j < i -> is_file nm (file s j) = false) as Hfirst
      by (intros; apply (find_None _ _ Ei); lia).
    assert (forall o, is_file o (file s i) = false) as Hnone by (intros; by apply is_file_unused).
    destruct (fs_ensure_data i (set_file i f0 s)) as [s1 p] eqn:E.
    destruct (ensure_buf i _ s1 p Hwf0 Hi E) as (Ho & Hon & [(-> & Ef & Eb)|(b & Hp & Ef & Eb & Hsmall)]).
    + change (0 =? 0) with true. cbv iota. rewrite Ef0 in Ef.
      assert (only i s s1) as Hons by (eapply only_trans; [exact Hon0|exact Hon]).
      assert (forall o, lookup_file s1 o = lookup_file s o) as Hl.
      { intros o. apply (lookup_other i); [done|apply Hnone|]. rewrite Ef. by apply is_file_unused. }
      split_and!; [|intros; apply Hl|left; split; [done|apply Hl]].
      eapply wf_finish; [exact Hwf|exact Ho|exact Hons|]. rewrite Ef. by split.
    + rewrite (proj2 (Z.eqb_neq p 0)) by done. rewrite Ef0 in Ef, Hsmall.
      rewrite (buf_strcpy_spec p b src s1 Eb Hlen). case_decide as Hfit.
      * cbn [mbind option_bind].
        match goal with |- context [fs_disk_save i ?t] => set (s2 := t) end.
        destruct (write_text i s s1 p b ((file s1 i) <| size := u32 (c_strlen src + 1) |> <| used := 1 |> <| tmpfs := 0 |>
                    <| dirty := 1 |> <| perms := Z.lor FS_PERM_READ FS_PERM_WRITE |>
                    <| ctime := tick |> <| mtime := tick |>) nm src tick) as (H1 & H2 & H3);
          try done; try (rewrite Ef; done).
        -- eapply only_trans; [exact Hon0|exact Hon].
        -- split; [exact H1|]. split; [exact H2|]. right. done.
      * exfalso. destruct (Hsmall ltac:(lia)) as [Hd _]. unfold f0 in Hd. simpl in Hd. congruence.
Qed.

Lemma view_data (s : State) f b : bufs s !! data f = Some b -> data f <> 0 -> v_data (view s f) = Some b.
Proof. intros Hb Hd. unfold view. simpl. by rewrite (proj2 (Z.eqb_neq _ _) Hd). Qed.

#[local] Transparent fs_ensure_data.
Lemma write_overflow tick nm src s v b :
  lookup_file s nm = Some v -> v_data v = Some b -> zlen b <= c_strlen src < FS_MAX_DATA ->
  fs_write tick nm src s = None.
Proof.
  unfold lookup_file. destruct (find (is_file nm) s) as [i|] eqn:Ei; [|done]. simpl. intros [= <-]. simpl.
  destruct (Z.eqb_spec (data (file s i)) 0) as [|Hd]; [done|]. intros Hb Hlen. unfold fs_write.
  rewrite (proj2 (Z.leb_gt _ _)) by lia. rewrite Ei.
  assert (fs_ensure_data i s = (s, data (file s i))) as ->
    by (unfold fs_ensure_data; by rewrite (proj2 (Z.eqb_neq _ _) Hd)).
  rewrite (proj2 (Z.eqb_neq _ _) Hd).
  rewrite (buf_strcpy_spec _ b) by (done || lia). rewrite decide_False by lia. done.
Qed.
#[local] Opaque fs_ensure_data.

(** ** Binary files *)

Context (fresh_len : forall p n, 0 <= n -> length (fresh p n) = Z.to_nat n).

Lemma memcpy_all b src n :
  0 <= n <= zlen src -> zlen b = n -> c_memcpy b src n = take (Z.to_nat n) src.
Proof.
  unfold c_memcpy, zlen. intros Hn Hb. rewrite (drop_ge b) by lia. apply app_nil_r.
Qed.

(** Filling the buffer just allocated for slot [i], and finishing. *)
Lemma write_bytes i s s1 p f nm src n :
  wf s -> owned s1 -> only i s s1 -> 0 <= i < 64 -> data (file s1 i) = p -> bufs s1 !! p = Some (fresh p n) -> p <> 0 ->
  0 <= n <= zlen src ->
  data f = p -> length (name f) = 32%nat -> c_strlen (name f) < 32 -> used f <> 0 -> size f = n ->
  is_file nm f = true -> (forall j, 0 <= j < i -> is_file nm (file s j) = false) ->
  (forall other, cstr other <> cstr nm -> is_file other (file s i) = false) ->
  exists s2, buf_memcpy p src n s1 = Some s2 /\ file s2 i = file s1 i /\
  let s' := fs_disk_save i (set_file i f s2) in
  wf s' /\ (forall other, cstr other <> cstr nm -> lookup_file s' other = lookup_file s other) /\
  exists v, lookup_file s' nm = Some v /\ v_size v = n /\ v_tmpfs v = tmpfs f /\ v_data v = Some (take (Z.to_nat n) src).
Proof.
  intros Hwf Ho Hon Hi Hd Hb Hp Hn Hdf Hnm Ht Hu Hsz Hf Hfirst Hoth.
  unfold buf_memcpy. rewrite Hb. change (default [] (Some (fresh p n))) with (fresh p n).
  assert (zlen (fresh p n) = n) as Hfl by (unfold zlen; rewrite fresh_len; lia).
  rewrite (proj2 (Z.leb_le n (zlen (fresh p n)))) by lia. rewrite (memcpy_all _ _ _ Hn Hfl).
  set (b := take (Z.to_nat n) src). set (s2 := s1 <| bufs := <[p := b]> (bufs s1) |>).
  exists s2. split; [reflexivity|]. split; [reflexivity|]. cbv zeta.
  assert (owned s2) as Ho2 by (apply owned_upd_buf; [done|eauto]).
  assert (only i s s2) as Hon2.
  { eapply only_trans; [exact Hon|]. unfold s2. rewrite <- Hd. apply only_upd_buf; [done|done|congruence]. }
  destruct (finish_write i s s2 f p b nm) as (H1 & H2 & H3); try done.
  - exact (lookup_insert_eq (bufs s1) p b).
  - unfold b, zlen in *. rewrite length_take. lia.
  - split; [exact H1|]. split; [exact H2|]. eexists. split; [exact H3|]. by rewrite <- Hsz.
Qed.

#[local] Opaque buf_memcpy.

Lemma write_bin_spec tick nm src n tmp s :
  wf s -> c_strlen nm < 32 -> 0 <= n <= zlen src ->
  exists s' r, fs_write_bin_internal tick nm src n tmp s = Some (s', r) /\
    wf s' /\ (forall other, cstr other <> cstr nm -> lookup_file s' other = lookup_file s other) /\
    ((r = 0 /\ lookup_file s' nm = lookup_file s nm)
     \/ (r = 0 /\ exists v, lookup_file s nm = Some v /\ exists v', lookup_file s' nm = Some v' /\
                  v_size v' = v_size v /\ v_data v' = None)
     \/ (r = 1 /\ exists v, lookup_file s' nm = Some v /\ v_size v = n /\ v_tmpfs v = tmp /\
                  v_data v = Some (take (Z.to_nat n) src))).
Proof.
  intros Hwf Hn Hlen. unfold fs_write_bin_internal. destruct (Z.ltb_spec FS_MAX_BIN_DATA n) as [|Hmax].
  { exists s, 0. split_and!; [done|done|done|]. left. done. }
  unfold FS_MAX_BIN_DATA in Hmax.
  destruct (find (is_file nm) s) as [i|] eqn:Ei.
  - apply find_Some in Ei as Hf. destruct Hf as (Hi & Hfi & Hfirst).
    destruct (is_file_true _ _ Hfi) as (Hu & Hdir & Heq).
    pose proof (proj2 Hwf i Hi) as [K1 K2 K3 K4].
    destruct (free_data_spec i s (proj1 Hwf) Hi) as (Ho1 & Hon1 & _ & Ef1).
    set (s1 := free_data i s) in *. clearbody s1.
    destruct (malloc_data_spec i n s1 Ho1 Hi) as (Ho2 & Hon2 & _ & p & Ef2 & Hc); [by rewrite Ef1|lia|].
    set (s2 := malloc_data i n s1) in *. clearbody s2.
    assert (only i s s2) as Hon by (eapply only_trans; [exact Hon1|exact Hon2]).
    rewrite Ef1 in Ef2. change (file s2 i = (file s i) <| data := p |>) in Ef2.
    assert (data (file s2 i) = p) as Ep by (by rewrite Ef2). rewrite Ep.
    assert (forall other, cstr other <> cstr nm -> is_file other (file s i) = false) as Hoth
      by (intros other Hne; by apply (is_file_other nm)).
    destruct Hc as [[-> Eb]|(_ & Hp & _ & Eb)].
    + change (0 =? 0) with true. cbv iota. exists s2, 0. split; [reflexivity|]. split_and!.
      * eapply wf_finish; [exact Hwf|exact Ho2|exact Hon|]. rewrite Ef2. split; simpl; [done|done|done|].
        intros b Hd0. by destruct Hd0.
      * intros other Hne. apply (lookup_other i); [done|by apply Hoth|]. rewrite Ef2.
        by apply (is_file_other nm).
      * right; left. split; [done|]. exists (view s (file s i)). split.
        { apply (lookup_slot i s s nm); [apply only_refl|done|done|done]. }
        eexists. split; [apply (lookup_slot i s s2 nm); [done|done|by rewrite Ef2|done]|].
        rewrite Ef2. by split.
    + rewrite (proj2 (Z.eqb_neq p 0)) by lia.
      destruct (write_bytes i s s2 p ((file s2 i) <| size := n |> <| mtime := tick |> <| dirty := 1 |> <| tmpfs := tmp |>)
                  nm src n) as (s3 & E3 & Ef3 & H1 & H2 & v & H3 & H4 & H5 & H6); try done; try (rewrite Ef2; done).
      * rewrite Eb. apply lookup_insert_eq.
      * lia.
      * rewrite Ef2. by apply K2.
      * rewrite E3. cbn [mbind option_bind]. rewrite Ef3. eexists _, 1. split; [reflexivity|].
        split; [exact H1|]. split; [exact H2|]. right; right. split; [done|]. exists v. done.
  - destruct (free_slot s) as [i|] eqn:Es.
    2:{ exists s, 0. split_and!; [done|done|done|]. left. done. }
    apply find_Some in Es as (Hi & Hui & _). apply negb_true_iff, truth_false in Hui.
    pose proof (proj2 Hwf i Hi) as [K1 K2 K3 K4]. specialize (K3 Hui).
    destruct (stored_name nm (name (file s i)) K1 Hn) as (N1 & N2 & N3).
    set (f0 := (file s i) <| name := c_strcpy (name (file s i)) nm FS_MAX_NAME |>).
    assert (owned (set_file i f0 s)) as Ho0 by (apply owned_set_file; [apply Hwf|done|done]).
    pose proof (only_set_file i f0 s Hi (o_len _ (proj1 Hwf))) as Hon0.
    pose proof (file_set_eq i f0 s (o_len _ (proj1 Hwf)) Hi) as Ef0.
    assert (forall j, 0 <= j < i -> is_file nm (file s j) = false) as Hfirst
      by (intros; apply (find_None _ _ Ei); lia).
    assert (forall o, is_file o (file s i) = false) as Hnone by (intros; by apply is_file_unused).
    destruct (malloc_data_spec i n (set_file i f0 s) Ho0 Hi) as (Ho2 & Hon2 & _ & p & Ef2 & Hc); [by rewrite Ef0|lia|].
    set (s2 := malloc_data i n (set_file i f0 s)) in *. clearbody s2.
    assert (only i s s2) as Hon by (eapply only_trans; [exact Hon0|exact Hon2]).
    rewrite Ef0 in Ef2. assert (data (file s2 i) = p) as Ep by (by rewrite Ef2). rewrite Ep.
    destruct Hc as [[-> Eb]|(_ & Hp & _ & Eb)].
    + change (0 =? 0) with true. cbv iota. exists s2, 0. split; [reflexivity|].
      assert (forall o, lookup_file s2 o = lookup_file s o) as Hl.
      { intros o. apply (lookup_other i); [done|apply Hnone|]. rewrite Ef2. by apply is_file_unused. }
      split_and!; [|intros; apply Hl|left; split; [done|apply Hl]].
      eapply wf_finish; [exact Hwf|exact Ho2|exact Hon|]. rewrite Ef2. by split.
    + rewrite (proj2 (Z.eqb_neq p 0)) by lia.
      destruct (write_bytes i s s2 p ((file s2 i) <| size := n |> <| used := 1 |> <| tmpfs := tmp |> <| dirty := 1 |>
                  <| perms := Z.lor (Z.lor FS_PERM_READ FS_PERM_WRITE) FS_PERM_EXEC |>
                  <| ctime := tick |> <| mtime := tick |>) nm src n)
        as (s3 & E3 & Ef3 & H1 & H2 & v & H3 & H4 & H5 & H6); try done; try (rewrite Ef2; done).
      * rewrite Eb. apply lookup_insert_eq.
      * lia.
      * rewrite E3. cbn [mbind option_bind]. rewrite Ef3. eexists _, 1. split; [reflexivity|].
        split; [exact H1|]. split; [exact H2|]. right; right. split; [done|]. exists v. done.
Qed.

(** ** The remaining operations keep the table well formed *)

Lemma save_set_wf i f s :
  wf s -> 0 <= i < 64 -> data f = data (file s i) -> slot_ok s f -> wf (fs_disk_save i (set_file i f s)).
Proof.
  intros Hwf Hi Hd Hk. pose proof (o_len _ (proj1 Hwf)) as Hl.
  pose proof (owned_set_file i f s (proj1 Hwf) Hi Hd) as Ho.
  destruct (fs_disk_save_spec i _ Ho Hi) as (Ho' & Hon & Eb & d & Ef).
  eapply wf_finish; [exact Hwf|exact Ho'|eapply only_trans; [apply only_set_file; done|exact Hon]|].
  rewrite Ef, file_set_eq by done. destruct Hk as [K1 K2 K3 K4]. split; simpl; try done.
  intros b Hd0 Hb. rewrite Eb in Hb. by apply K4.
Qed.

Lemma delete_wf nm s : wf s -> wf (fst (fs_delete nm s)).
Proof.
  intros Hwf. unfold fs_delete. destruct (find (is_entry nm) s) as [i|] eqn:E; [|done].
  apply find_Some in E as (Hi & _). cbn [fst]. pose proof (o_len _ (proj1 Hwf)) as Hl.
  set (f0 := (file s i) <| used := 0 |>).
  assert (owned (set_file i f0 s)) as Ho0 by (apply owned_set_file; [apply Hwf|done|done]).
  destruct (free_data_spec i _ Ho0 Hi) as (Ho1 & Hon1 & _ & Ef1). rewrite file_set_eq in Ef1 by done.
  destruct (fs_disk_save_spec i _ Ho1 Hi) as (Ho2 & Hon2 & _ & d & Ef2). rewrite Ef1 in Ef2.
  eapply wf_finish; [exact Hwf|exact Ho2| |].
  - eapply only_trans; [apply only_set_file; done|eapply only_trans; [exact Hon1|exact Hon2]].
  - rewrite Ef2. split; simpl; try done. apply (k_name _ _ (proj2 Hwf i Hi)).
Qed.

Lemma mkdir_wf tick nm s : wf s -> c_strlen nm < 32 -> wf (fst (fs_mkdir tick nm s)).
Proof.
  intros Hwf Hn. unfold fs_mkdir. destruct (find (is_entry nm) s) as [i|]; [done|].
  destruct (free_slot s) as [i|] eqn:E; [|done].
  apply find_Some in E as (Hi & Hui & _). apply negb_true_iff, truth_false in Hui.
  destruct (proj2 Hwf i Hi) as [K1 K2 K3 K4]. specialize (K3 Hui).
  destruct (stored_name nm _ K1 Hn) as (N1 & N2 & N3).
  apply save_set_wf; [done|done|done|]. by split.
Qed.

Lemma set_perms_wf nm p s : wf s -> wf (fst (fs_set_perms nm p s)).
Proof.
  intros Hwf. unfold fs_set_perms. destruct (find (is_entry nm) s) as [i|] eqn:E; [|done].
  apply find_Some in E as (Hi & _). apply save_set_wf; [done|done|done|].
  destruct (proj2 Hwf i Hi) as [K1 K2 K3 K4]. by split.
Qed.

Lemma rename_wf tick old new s : wf s -> c_strlen new < 32 -> wf (fst (fs_rename tick old new s)).
Proof.
  intros Hwf Hn. unfold fs_rename. destruct (find (is_entry new) s) as [i|]; [done|].
  destruct (find (is_entry old) s) as [i|] eqn:E; [|done].
  apply find_Some in E as (Hi & _). destruct (proj2 Hwf i Hi) as [K1 K2 K3 K4].
  destruct (stored_name new _ K1 Hn) as (N1 & N2 & N3).
  apply save_set_wf; [done|done|done|]. by split.
Qed.

(** ** The sectors of the disk *)

Context `{!ReliableDevice D}.

Lemma hdr_sector_val i : 0 <= i < 64 -> fs_hdr_sector i = 1 + i * 129.
Proof.
  intros Hi. unfold fs_hdr_sector, FS_SECTORS_PER_FILE, FS_DATA_SECS, FS_MAX_DATA.
  change (1 + 65536 / 512) with 129. rewrite (u32_small i), (u32_small (i * 129)), u32_small by lia. lia.
Qed.

Lemma data_sector_val i k : 0 <= i < 64 -> 0 <= k < 128 -> fs_data_sector i k = 2 + i * 129 + k.
Proof.
  intros Hi Hk. unfold fs_data_sector, FS_SECTORS_PER_FILE, FS_DATA_SECS, FS_MAX_DATA.
  change (1 + 65536 / 512) with 129. rewrite (u32_small i), (u32_small k), (u32_small (i * 129)), u32_small by lia.
  lia.
Qed.

(** Values a slot can have in C. *)
Record ranged (f : FSFile) : Prop := {
  r_name : length (name f) = 32%nat;
  r_size : 0 <= size f < 2 ^ 32; r_perms : 0 <= perms f < 2 ^ 16;
  r_ctime : 0 <= ctime f < 2 ^ 32; r_mtime : 0 <= mtime f < 2 ^ 32;
}.

Lemma length_header f : length (name f) = 32%nat -> length (header f) = 512%nat.
Proof. intros E. unfold header. rewrite !length_app, length_take, E, length_replicate. done. Qed.

Lemma length_chunk f b k : length (data_chunk f b k) = 512%nat.
Proof. unfold data_chunk. by rewrite length_fmap, length_seqZ. Qed.

Lemma header_at f (p m q : list Z) :
  length (name f) = 32%nat -> header f = p ++ m ++ q -> forall j, 0 <= j < zlen m -> (header f).[zlen p + j] = m.[j].
Proof.
  intros En E j Hj. rewrite E. unfold aget, zlen in *.
  rewrite lookup_total_app_r by lia. rewrite lookup_total_app_l by lia. f_equal. lia.
Qed.

Lemma of_le32_le32 b i x : 0 <= x < 2 ^ 32 ->
  (forall j, 0 <= j < 4 -> b.[i + j] = (le32 x).[j]) -> of_le32 b i = x.
Proof.
  intros Hx Hb. unfold of_le32. rewrite <- (Z.add_0_r i) at 1. rewrite !Hb by lia.
  change 0xff with (Z.ones 8) in *. unfold le32, aget. simpl. change 255 with (Z.ones 8).
  rewrite !Z.land_ones, !Z.shiftr_div_pow2 by lia.
  change (2 ^ 16) with (2 ^ 8 * 2 ^ 8). change (2 ^ 24) with (2 ^ 8 * 2 ^ 8 * 2 ^ 8).
  rewrite <- !Z.div_div by lia. change (2 ^ 8) with 256.
  pose proof (Z.div_mod x 256 ltac:(lia)). pose proof (Z.mod_pos_bound x 256 ltac:(lia)).
  pose proof (Z.div_mod (x / 256) 256 ltac:(lia)). pose proof (Z.mod_pos_bound (x / 256) 256 ltac:(lia)).
  pose proof (Z.div_mod (x / 256 / 256) 256 ltac:(lia)). pose proof (Z.mod_pos_bound (x / 256 / 256) 256 ltac:(lia)).
  rewrite (Z.mod_small (x / 256 / 256 / 256)) by lia.
  rewrite (lor_shiftl _ _ 8), (lor_shiftl _ _ 16), (lor_shiftl _ _ 24) by lia. lia.
Qed.

Lemma of_le16_le16 b i x : 0 <= x < 2 ^ 16 ->
  (forall j, 0 <= j < 2 -> b.[i + j] = (le16 x).[j]) -> of_le16 b i = x.
Proof.
  intros Hx Hb. unfold of_le16. rewrite <- (Z.add_0_r i) at 1. rewrite !Hb by lia.
  unfold le16, aget. simpl. change 255 with (Z.ones 8).
  rewrite !Z.land_ones, !Z.shiftr_div_pow2 by lia.
  change (2 ^ 8) with 256. pose proof (Z.div_mod x 256 ltac:(lia)). pose proof (Z.mod_pos_bound x 256 ltac:(lia)).
  rewrite (Z.mod_small (x / 256)) by lia. rewrite (lor_shiftl _ _ 8) by lia. lia.
Qed.

(** Reading a header sector gives back the fields. *)
Lemma header_fields f :
  ranged f ->
  take 32 (header f) = name f /\ of_le32 (header f) 32 = size f /\ (header f).[36] = used f /\
  (header f).[37] = tmpfs f /\ of_le16 (header f) 38 = perms f /\ of_le32 (header f) 40 = ctime f /\
  of_le32 (header f) 44 = mtime f.
Proof.
  intros [En Hs Hp Hc Hm]. assert (take 32 (name f) = name f) as Et by (apply take_ge; lia).
  assert (forall p m q, header f = p ++ m ++ q -> forall j, 0 <= j < zlen m -> (header f).[zlen p + j] = m.[j]) as At
    by (intros; by apply (header_at f p m q)).
  assert (forall m : list Z, zlen (name f ++ m) = 32 + zlen m) as Hz
    by (intros; unfold zlen; rewrite length_app; lia).
  split_and!.
  - unfold header. rewrite Et. rewrite take_app_le by lia. apply take_ge. lia.
  - apply of_le32_le32; [done|]. intros j Hj.
    rewrite <- (At (name f) (le32 (size f)) ([used f; tmpfs f] ++ le16 (perms f) ++ le32 (ctime f) ++ le32 (mtime f) ++ replicate 464 0));
      [|unfold header; by rewrite Et|done]. f_equal. unfold zlen. lia.
  - pose proof (At (name f ++ le32 (size f)) [used f; tmpfs f]
      (le16 (perms f) ++ le32 (ctime f) ++ le32 (mtime f) ++ replicate 464 0)
      ltac:(unfold header; by rewrite Et, <- app_assoc) 0 ltac:(done)) as E. rewrite Hz in E. exact E.
  - pose proof (At (name f ++ le32 (size f)) [used f; tmpfs f]
      (le16 (perms f) ++ le32 (ctime f) ++ le32 (mtime f) ++ replicate 464 0)
      ltac:(unfold header; by rewrite Et, <- app_assoc) 1 ltac:(done)) as E. rewrite Hz in E. exact E.
  - apply of_le16_le16; [done|]. intros j Hj.
    rewrite <- (At (name f ++ le32 (size f) ++ [used f; tmpfs f]) (le16 (perms f)) (le32 (ctime f) ++ le32 (mtime f) ++ replicate 464 0));
      [rewrite Hz; done|unfold header; by rewrite Et, <- !app_assoc|done].
  - apply of_le32_le32; [done|]. intros j Hj.
    rewrite <- (At (name f ++ le32 (size f) ++ [used f; tmpfs f] ++ le16 (perms f)) (le32 (ctime f)) (le32 (mtime f) ++ replicate 464 0));
      [rewrite Hz; done|unfold header; by rewrite Et, <- !app_assoc|done].
  - apply of_le32_le32; [done|]. intros j Hj.
    rewrite <- (At (name f ++ le32 (size f) ++ [used f; tmpfs f] ++ le16 (perms f) ++ le32 (ctime f)) (le32 (mtime f)) (replicate 464 0));
      [rewrite Hz; done|unfold header; by rewrite Et, <- !app_assoc|done].
Qed.

(** The sectors of slot [i] hold [f] and, for a file, the bytes of its buffer. *)
Definition slot_saved (d : D) (s : State) (i : Z) (f : FSFile) : Prop :=
  (used f = 0 /\ exists h, ata_read_sector d (fs_hdr_sector i) = Some h /\ h.[36] = 0) \/
  (used f <> 0 /\ ata_read_sector d (fs_hdr_sector i) = Some (header f) /\
   (is_dir f = false -> exists b, bufs s !! data f = Some b /\
      forall k, 0 <= k < 128 -> ata_read_sector d (fs_data_sector i k) = Some (data_chunk f b k))).

(** What the operations below keep: every slot is one that a reboot can restore,
    and its sectors are up to date. *)
Record slot_tidy (f : FSFile) : Prop := {
  t_tmpfs : tmpfs f = 0;
  t_ranged : used f <> 0 -> ranged f;
  t_file : used f <> 0 -> is_dir f = false -> data f <> 0 /\ size f <= FS_MAX_DATA;
}.

Record Saved (s : State) : Prop := {
  sv_wf : wf s;
  sv_disk : reliable (disk s);
  sv_magic : exists sb, ata_read_sector (disk s) 0 = Some sb /\ take 4 sb = [77; 70; 83; 51];
  sv_tidy : forall i, 0 <= i < 64 -> slot_tidy (file s i);
  sv_slot : forall i, 0 <= i < 64 -> slot_saved (disk s) s i (file s i);
}.

Lemma write_chunks_spec i f b n : forall d,
  reliable d -> 0 <= i < 64 -> (n <= 128)%nat ->
  let d' := iter (fun k d => ata_write_sector d (fs_data_sector i k) (data_chunk f b k)) 0 n d in
  reliable d' /\ forall l, ata_read_sector d' l =
    if decide (2 + i * 129 <= l < 2 + i * 129 + Z.of_nat n) then Some (data_chunk f b (l - (2 + i * 129)))
    else ata_read_sector d l.
Proof.
  intros d Hd Hi Hn.
  refine (iter_ind (fun k d' => reliable d' /\ forall l, ata_read_sector d' l =
    if decide (2 + i * 129 <= l < 2 + i * 129 + k) then Some (data_chunk f b (l - (2 + i * 129)))
    else ata_read_sector d l) _ n 0 d _ _).
  - split; [done|]. intros l. case_decide; [lia|done].
  - intros k d' Hk [Hr Hd']. split; [by apply reliable_write|]. intros l.
    rewrite data_sector_val by lia. destruct (decide (l = 2 + i * 129 + k)) as [->|Hne].
    + rewrite read_write by (done || apply length_chunk). rewrite decide_True by lia. do 2 f_equal. lia.
    + rewrite read_write_ne by (done || congruence). rewrite Hd'. repeat case_decide; done || lia.
Qed.

#[local] Transparent fs_disk_save.

(** Saving slot [i] brings its sectors up to date and leaves the others alone. *)
Lemma disk_save_sectors i s :
  owned s -> reliable (disk s) -> 0 <= i < 64 -> tmpfs (file s i) = 0 -> length (name (file s i)) = 32%nat ->
  let d' := disk (fs_disk_save i s) in
  reliable d' /\
  (forall l, ~ (1 + i * 129 <= l < 1 + i * 129 + 129) -> ata_read_sector d' l = ata_read_sector (disk s) l) /\
  ata_read_sector d' (fs_hdr_sector i) = Some (header (file s i)) /\
  (forall b, data (file s i) <> 0 -> bufs s !! data (file s i) = Some b ->
     forall k, 0 <= k < 128 -> ata_read_sector d' (fs_data_sector i k) = Some (data_chunk (file s i) b k)).
Proof.
  intros Ho Hr Hi Ht Hn. unfold fs_disk_save. rewrite (reliable_present _ Hr). cbn [negb].
  rewrite Ht. change (truth 0) with false. cbv iota.
  pose proof (reliable_write (disk s) (fs_hdr_sector i) (header (file s i)) Hr) as Hr1.
  pose proof (read_write (disk s) (fs_hdr_sector i) _ Hr (length_header _ Hn)) as Hh.
  assert (forall l, l <> 1 + i * 129 ->
            ata_read_sector (ata_write_sector (disk s) (fs_hdr_sector i) (header (file s i))) l
            = ata_read_sector (disk s) l) as Hother.
  { intros l Hl. apply read_write_ne; [done|]. rewrite hdr_sector_val by done. congruence. }
  set (d := ata_write_sector (disk s) (fs_hdr_sector i) (header (file s i))) in *. clearbody d.
  destruct (Z.eqb_spec (data (file s i)) 0) as [Hd|Hd].
  - change (disk (s <| disk := d |>)) with d. split_and!; [done| |done|].
    + intros l Hl. apply Hother. lia.
    + intros b Hd'. by destruct Hd'.
  - cbv zeta. set (b := default [] (bufs s !! data (file s i))).
    match goal with |- context [iter ?g 0 ?n d] => set (d2 := iter g 0 n d) end.
    destruct (write_chunks_spec i (file s i) b 128 d Hr1 Hi ltac:(lia)) as [Hr2 Hd2].
    match type of Hr2 with reliable ?t => change t with d2 in Hr2, Hd2 end.
    change (disk (set_file i ((file s i) <| dirty := 0 |>) (s <| disk := d2 |>))) with d2. clearbody d2.
    split_and!; [done|..].
    + intros l Hl. rewrite Hd2, decide_False by lia. apply Hother. lia.
    + rewrite Hd2, hdr_sector_val by done. rewrite decide_False by lia. by rewrite hdr_sector_val in Hh.
    + intros b' _ Eb k Hk. rewrite Hd2, data_sector_val, decide_True by lia.
      unfold b. rewrite Eb. simpl. do 2 f_equal. lia.
Qed.

#[local] Opaque fs_disk_save.

Lemma header_dirty f d : header (f <| dirty := d |>) = header f.
Proof. reflexivity. Qed.

(** An operation that changed only slot [i] and ended by saving it. *)
Lemma saved_finish i s s1 f :
  Saved s -> owned s1 -> only i s s1 -> disk s1 = disk s -> 0 <= i < 64 -> data f = data (file s1 i) ->
  slot_tidy f -> length (name f) = 32%nat -> wf (fs_disk_save i (set_file i f s1)) ->
  Saved (fs_disk_save i (set_file i f s1)).
Proof.
  intros [Hwf Hr (sb & Hsb & Hmg) Htidy Hslot] Ho Hon Hdk Hi Hd Hf Hn Hwf'.
  set (s2 := set_file i f s1) in *.
  assert (owned s2) as Ho2 by (by apply owned_set_file).
  assert (file s2 i = f) as Ef2 by (apply file_set_eq; [apply Ho|done]).
  assert (only i s s2) as Hon2 by (eapply only_trans; [exact Hon|apply only_set_file; [done|apply Ho]]).
  destruct (fs_disk_save_spec i s2 Ho2 Hi) as (Ho3 & Hon3 & Eb3 & dd & Ef3). rewrite Ef2 in Ef3.
  destruct (disk_save_sectors i s2 Ho2) as (Hr3 & Hkeep & Hh & Hch); rewrite ?Ef2; try done.
  { change (disk s2) with (disk s1). by rewrite Hdk. }
  { apply Hf. }
  rewrite Ef2 in Hh, Hch. change (disk s2) with (disk s1) in Hkeep. rewrite Hdk in Hkeep.
  set (s3 := fs_disk_save i s2) in *. clearbody s3.
  assert (only i s s3) as Hons by (eapply only_trans; [exact Hon2|exact Hon3]).
  split; [done|done| |..].
  - exists sb. rewrite Hkeep by lia. done.
  - intros j Hj. destruct (decide (j = i)) as [->|Hji].
    + rewrite Ef3. destruct Hf as [F1 F2 F3]. split; simpl; [done| |done].
      intros Hu. destruct (F2 Hu). by split.
    + rewrite (proj1 (proj2 Hons j Hj Hji)). by apply Htidy.
  - intros j Hj. destruct (decide (j = i)) as [->|Hji].
    + rewrite Ef3. destruct (decide (used f = 0)) as [Hu|Hu].
      * left. split; [done|]. eexists. split; [exact Hh|]. unfold header.
        transitivity (([used f; tmpfs f]).[0]); [|exact Hu].
        assert (zlen (take 32 (name f) ++ le32 (size f)) = 36) as Hz
          by (unfold zlen; rewrite length_app, length_take, Hn; done).
        rewrite <- (header_at f (take 32 (name f) ++ le32 (size f)) [used f; tmpfs f]
                   (le16 (perms f) ++ le32 (ctime f) ++ le32 (mtime f) ++ replicate 464 0) Hn);
          [by rewrite Hz|unfold header; by rewrite <- app_assoc|done].
      * right. split; [done|]. split; [exact Hh|]. intros Hdir.
        destruct (t_file _ Hf Hu Hdir) as [Hd0 _].
        destruct (o_buf s2 Ho2 i Hi) as [b Eb]; [by rewrite Ef2|]. rewrite Ef2 in Eb.
        exists b. split; [simpl; by rewrite Eb3|]. intros k Hk. by apply Hch.
    + destruct (proj2 Hons j Hj Hji) as [Ej Ebj]. rewrite Ej.
      assert (1 + j * 129 + 129 <= 1 + i * 129 \/ 1 + i * 129 + 129 <= 1 + j * 129) as Hsep by lia.
      destruct (Hslot j Hj) as [(Hu & h & Hrd & Hh0)|(Hu & Hrd & Hfl)].
      * left. split; [done|]. exists h. rewrite Hkeep; [done|]. rewrite hdr_sector_val by done. lia.
      * right. split; [done|]. split.
        { rewrite Hkeep; [done|]. rewrite hdr_sector_val by done. lia. }
        intros Hdir. destruct (Hfl Hdir) as (b & Eb & Hb). exists b.
        destruct (t_file _ (Htidy j Hj) Hu Hdir) as [Hd0 _].
        rewrite Ebj by done. split; [done|]. intros k Hk. rewrite Hkeep; [by apply Hb|].
        rewrite data_sector_val by done. lia.
Qed.

(** ** Operations on saved states *)

#[local] Transparent fs_ensure_data malloc_data free_data buf_strcpy buf_memcpy.

Lemma malloc_data_disk i n s : disk (malloc_data i n s) = disk s.
Proof. unfold malloc_data. destruct (kmalloc n (heap s)) as [h p]. by destruct (p =? 0). Qed.

Lemma malloc_data_alloc i n s :
  length (files s) = 64%nat -> 0 <= i < 64 ->
  heap (malloc_data i n s) = fst (kmalloc n (heap s)) /\ data (file (malloc_data i n s) i) = snd (kmalloc n (heap s)).
Proof.
  intros Hl Hi. pose proof (file_set_eq i ((file s i) <| data := snd (kmalloc n (heap s)) |>) s Hl Hi) as Hf.
  unfold malloc_data. destruct (kmalloc n (heap s)) as [h q]. cbn [fst snd] in *. cbv zeta.
  destruct (q =? 0); (split; [reflexivity|]); exact (f_equal data Hf).
Qed.

Lemma ensure_disk i s : disk (fst (fs_ensure_data i s)) = disk s.
Proof.
  unfold fs_ensure_data. destruct (_ =? 0); [|done]. pose proof (malloc_data_disk i FS_MAX_DATA s) as E.
  set (s1 := malloc_data i FS_MAX_DATA s) in *. clearbody s1. by destruct (_ =? 0).
Qed.

Lemma free_data_disk i s : disk (free_data i s) = disk s.
Proof. unfold free_data. by destruct (_ =? 0). Qed.

Lemma buf_strcpy_same p src s s' :
  buf_strcpy p src s = Some s' -> disk s' = disk s /\ files s' = files s /\ (heap s' = heap s) /\
  exists b, bufs s' = <[p := b]> (bufs s).
Proof. unfold buf_strcpy. destruct (_ <? _); [|done]. intros [= <-]. split_and!; [done..|]. by eexists. Qed.

Lemma buf_memcpy_same p src n s s' :
  buf_memcpy p src n s = Some s' -> disk s' = disk s /\ files s' = files s /\ (heap s' = heap s) /\
  exists b, bufs s' = <[p := b]> (bufs s).
Proof. unfold buf_memcpy. destruct (_ <=? _); [|done]. intros [= <-]. split_and!; [done..|]. by eexists. Qed.

#[local] Opaque fs_ensure_data malloc_data free_data buf_strcpy buf_memcpy.

(** Rewriting the contents of the buffer of slot [i] keeps ownership. *)
Lemma owned_rebuf i s s1 s2 p b :
  owned s1 -> only i s s1 -> 0 <= i < 64 -> data (file s1 i) = p -> p <> 0 ->
  files s2 = files s1 -> heap s2 = heap s1 -> bufs s2 = <[p := b]> (bufs s1) ->
  owned s2 /\ only i s s2 /\ file s2 i = file s1 i.
Proof.
  intros Ho Hon Hi Hd Hp Ef Eh Eb.
  assert (is_Some (bufs s1 !! p)) as Hs by (rewrite <- Hd; apply (o_buf _ Ho); [done|congruence]).
  pose proof (owned_upd_buf s1 p b Ho Hs) as Ho2.
  assert (only i s1 (s1 <| bufs := <[p := b]> (bufs s1) |>)) as Hon2
    by (rewrite <- Hd; apply only_upd_buf; [done|done|congruence]).
  destruct s1 as [f1 b1 h1 d1], s2 as [f2 b2 h2 d2]. simpl in *. subst f2 h2 b2.
  split_and!; [by destruct Ho2|eapply only_trans; [exact Hon|exact Hon2]|done].
Qed.

(** The steps of [fs_write] up to the fields of slot [i]. *)
Lemma text_steps i s s0 s1 p src s2 :
  wf s0 -> only i s s0 -> disk s0 = disk s -> 0 <= i < 64 ->
  fs_ensure_data i s0 = (s1, p) -> p <> 0 -> buf_strcpy p src s1 = Some s2 ->
  owned s2 /\ only i s s2 /\ disk s2 = disk s /\ file s2 i = (file s0 i) <| data := p |>.
Proof.
  intros Hwf0 Hon0 Hd0 Hi E Hp Hcpy.
  destruct (ensure_buf i s0 s1 p Hwf0 Hi E) as (Ho & Hon & [(-> & _)|(b & _ & Ef & Eb & _)]); [done|].
  pose proof (ensure_disk i s0) as Hdk. rewrite E in Hdk. simpl in Hdk.
  destruct (buf_strcpy_same _ _ _ _ Hcpy) as (Ed & Efs & Eh & b' & Ebs).
  destruct (owned_rebuf i s s1 s2 p b') as (Ho2 & Hon2 & Ef2); try done.
  - eapply only_trans; [exact Hon0|exact Hon].
  - by rewrite Ef.
  - split_and!; [done|done|congruence|]. by rewrite Ef2.
Qed.

(** The steps of [fs_write_bin] from the allocation to the fields of slot [i]. *)
Lemma bytes_steps i s s0 n src s2 :
  owned s0 -> only i s s0 -> disk s0 = disk s -> 0 <= i < 64 -> data (file s0 i) = 0 -> 0 <= n <= 0x100000 ->
  let s1 := malloc_data i n s0 in let p := data (file s1 i) in
  p <> 0 -> buf_memcpy p src n s1 = Some s2 ->
  owned s2 /\ only i s s2 /\ disk s2 = disk s /\ file s2 i = (file s0 i) <| data := p |> /\ data (file s2 i) <> 0.
Proof.
  intros Ho0 Hon0 Hd0 Hi Hz Hn s1 p Hp Hcpy.
  destruct (malloc_data_spec i n s0 Ho0 Hi Hz Hn) as (Ho1 & Hon1 & Hd1 & q & Ef1 & _).
  fold s1 in Ho1, Hon1, Hd1, Ef1. assert (p = q) as <- by (unfold p; by rewrite Ef1).
  destruct (buf_memcpy_same _ _ _ _ _ Hcpy) as (Ed & Efs & Eh & b' & Ebs).
  destruct (owned_rebuf i s s1 s2 p b') as (Ho2 & Hon2 & Ef2); try done.
  - eapply only_trans; [exact Hon0|exact Hon1].
  - split_and!; [done|done|congruence|by rewrite Ef2|by rewrite Ef2].
Qed.

Lemma not_dir_perms : is_dir inhabitant = false.
Proof. reflexivity. Qed.

Lemma renamed_slot i nm s :
  wf s -> 0 <= i < 64 -> used (file s i) = 0 -> c_strlen nm < 32 ->
  let f0 := (file s i) <| name := c_strcpy (name (file s i)) nm FS_MAX_NAME |> in
  wf (set_file i f0 s) /\ only i s (set_file i f0 s) /\ file (set_file i f0 s) i = f0 /\
  length (name f0) = 32%nat /\ data f0 = 0.
Proof.
  intros Hwf Hi Hui Hn f0. destruct (proj2 Hwf i Hi) as [K1 K2 K3 K4]. specialize (K3 Hui).
  destruct (stored_name nm (name (file s i)) K1 Hn) as (N1 & N2 & N3).
  pose proof (only_set_file i f0 s Hi (o_len _ (proj1 Hwf))) as Hon0.
  pose proof (file_set_eq i f0 s (o_len _ (proj1 Hwf)) Hi) as Ef0. split_and!; try done.
  eapply wf_finish; [exact Hwf|by apply owned_set_file; [apply Hwf|..]|exact Hon0|]. rewrite Ef0. by split.
Qed.

Lemma tidy_size f n : slot_tidy f -> 0 <= n < 2 ^ 32 -> n <= FS_MAX_DATA -> used f <> 0 -> data f <> 0 ->
  forall m t, 0 <= m < 2 ^ 32 -> t = 0 -> slot_tidy (f <| size := n |> <| mtime := m |> <| dirty := 1 |> <| tmpfs := t |>).
Proof.
  intros [F1 F2 F3] Hn Hmax Hu Hd m t Hm ->. destruct (F2 Hu) as [R1 R2 R3 R4 R5]. split; simpl; [done| |done].
  intros _. by split.
Qed.

Lemma write_saved tick nm src s s' :
  Saved s -> c_strlen nm < 32 -> 0 <= tick < 2 ^ 32 -> fs_write tick nm src s = Some (s', 1) -> Saved s'.
Proof.
  intros Hsv Hn Htick Hw. pose proof (sv_wf _ Hsv) as Hwf.
  pose proof (fs_write_spec tick nm src s Hwf Hn) as Hspec. rewrite Hw in Hspec.
  destruct Hspec as [Hwf' _]. revert Hw. unfold fs_write.
  destruct (Z.leb_spec FS_MAX_DATA (c_strlen src)) as [|Hlen]; [done|].
  assert (0 <= u32 (c_strlen src + 1) < 2 ^ 32 /\ u32 (c_strlen src + 1) <= FS_MAX_DATA) as [Hsz Hsz2].
  { unfold FS_MAX_DATA, c_strlen in *. pose proof (zlen_nonneg (cstr src)). rewrite u32_small; lia. }
  destruct (find (is_file nm) s) as [i|] eqn:Ei.
  - apply find_Some in Ei as (Hi & Hfi & _). destruct (is_file_true _ _ Hfi) as (Hu & _).
    destruct (fs_ensure_data i s) as [s1 p] eqn:E. destruct (Z.eqb_spec p 0) as [|Hp]; [done|].
    destruct (buf_strcpy p src s1) as [s2|] eqn:Ec; [|done]. cbn [mbind option_bind]. intros [= <-].
    destruct (text_steps i s s s1 p src s2 Hwf (only_refl i s) eq_refl Hi E Hp Ec) as (Ho & Hon & Hd & Ef).
    apply (saved_finish i s); try done; rewrite Ef.
    + destruct (sv_tidy _ Hsv i Hi) as [F1 F2 F3]. destruct (F2 Hu) as [R1 R2 R3 R4 R5].
      split; simpl; [done| |done]. intros _. by split.
    + apply (k_name _ _ (proj2 Hwf i Hi)).
  - destruct (free_slot s) as [i|] eqn:Es; [|done].
    apply find_Some in Es as (Hi & Hui & _). apply negb_true_iff, truth_false in Hui.
    destruct (renamed_slot i nm s Hwf Hi Hui Hn) as (Hwf0 & Hon0 & Ef0 & N1 & _).
    destruct (fs_ensure_data i _) as [s1 p] eqn:E. destruct (Z.eqb_spec p 0) as [|Hp]; [done|].
    destruct (buf_strcpy p src s1) as [s2|] eqn:Ec; [|done]. cbn [mbind option_bind]. intros [= <-].
    destruct (text_steps i s _ s1 p src s2 Hwf0 Hon0 eq_refl Hi E Hp Ec) as (Ho & Hon & Hd & Ef).
    apply (saved_finish i s); try done; rewrite Ef, Ef0; [|exact N1].
    split; simpl; [done| |done]. intros _. by split.
Qed.

Lemma write_bin_saved tick nm src n s s' :
  Saved s -> c_strlen nm < 32 -> 0 <= tick < 2 ^ 32 -> 0 <= n <= FS_MAX_DATA -> n <= zlen src ->
  fs_write_bin tick nm src n s = Some (s', 1) -> Saved s'.
Proof.
  intros Hsv Hn Htick Hsz Hsrc Hw. pose proof (sv_wf _ Hsv) as Hwf. unfold fs_write_bin in Hw.
  destruct (write_bin_spec tick nm src n 0 s Hwf Hn ltac:(lia)) as (s'' & r & E1 & Hwf' & _).
  rewrite Hw in E1. injection E1 as <- <-. revert Hw. unfold fs_write_bin_internal.
  destruct (Z.ltb_spec FS_MAX_BIN_DATA n); [done|]. unfold FS_MAX_DATA in Hsz.
  destruct (find (is_file nm) s) as [i|] eqn:Ei.
  - apply find_Some in Ei as (Hi & Hfi & _). destruct (is_file_true _ _ Hfi) as (Hu & _).
    destruct (free_data_spec i s (proj1 Hwf) Hi) as (Ho0 & Hon0 & Hd0 & Ef0).
    set (s0 := free_data i s) in *. destruct (Z.eqb_spec (data (file (malloc_data i n s0) i)) 0) as [|Hp]; [done|].
    destruct (buf_memcpy _ src n _) as [s2|] eqn:Ec; [|done]. cbn [mbind option_bind]. intros [= <-].
    destruct (bytes_steps i s s0 n src s2 Ho0 Hon0 Hd0 Hi ltac:(by rewrite Ef0) ltac:(lia) Hp Ec)
      as (Ho & Hon & Hd & Ef & Hnz).
    apply (saved_finish i s); try done.
    + destruct (sv_tidy _ Hsv i Hi) as [F1 F2 F3]. destruct (F2 Hu) as [R1 R2 R3 R4 R5].
      rewrite Ef, Ef0. split; simpl; [done| |intros _ _; split; [exact Hp|exact (proj2 Hsz)]].
      intros _. split; simpl; try done. lia.
    + rewrite Ef, Ef0. apply (k_name _ _ (proj2 Hwf i Hi)).
  - destruct (free_slot s) as [i|] eqn:Es; [|done].
    apply find_Some in Es as (Hi & Hui & _). apply negb_true_iff, truth_false in Hui.
    destruct (renamed_slot i nm s Hwf Hi Hui Hn) as (Hwf0 & Hon0 & Ef0 & N1 & N2).
    set (s0 := set_file i _ s) in *. destruct (Z.eqb_spec (data (file (malloc_data i n s0) i)) 0) as [|Hp]; [done|].
    destruct (buf_memcpy _ src n _) as [s2|] eqn:Ec; [|done]. cbn [mbind option_bind]. intros [= <-].
    destruct (bytes_steps i s s0 n src s2 (proj1 Hwf0) Hon0 eq_refl Hi ltac:(by rewrite Ef0) ltac:(lia) Hp Ec)
      as (Ho & Hon & Hd & Ef & Hnz).
    apply (saved_finish i s); try done; rewrite Ef, Ef0; [|exact N1].
    split; simpl; [done| |intros _ _; split; [exact Hp|exact (proj2 Hsz)]].
      intros _. split; simpl; try done. lia.
Qed.

Lemma delete_saved nm s : Saved s -> Saved (fst (fs_delete nm s)).
Proof.
  intros Hsv. pose proof (sv_wf _ Hsv) as Hwf. pose proof (delete_wf nm s Hwf) as Hwf'.
  revert Hwf'. unfold fs_delete. destruct (find (is_entry nm) s) as [i|] eqn:E; [|done].
  apply find_Some in E as (Hi & _). cbn [fst]. pose proof (o_len _ (proj1 Hwf)) as Hl.
  set (f0 := (file s i) <| used := 0 |>).
  assert (owned (set_file i f0 s)) as Ho0 by (apply owned_set_file; [apply Hwf|done|done]).
  destruct (free_data_spec i _ Ho0 Hi) as (Ho1 & Hon1 & Hd1 & Ef1). rewrite file_set_eq in Ef1 by done.
  set (s1 := free_data i (set_file i f0 s)) in *. clearbody s1.
  assert (set_file i (file s1 i) s1 = s1) as Eid.
  { unfold set_file. destruct s1 as [fs1 b1 h1 d1]. unfold file. simpl. rewrite aset_id; [done|].
    destruct Ho1 as [Hl1 _ _ _ _]. simpl in Hl1. unfold zlen. lia. }
  rewrite <- Eid. intros Hwf'. apply (saved_finish i s); try done.
  - eapply only_trans; [by apply only_set_file|exact Hon1].
  - rewrite Ef1. destruct (sv_tidy _ Hsv i Hi) as [F1 F2 F3]. by split.
  - rewrite Ef1. apply (k_name _ _ (proj2 Hwf i Hi)).
Qed.

Lemma mkdir_saved tick nm s : Saved s -> c_strlen nm < 32 -> 0 <= tick < 2 ^ 32 -> Saved (fst (fs_mkdir tick nm s)).
Proof.
  intros Hsv Hn Ht. pose proof (sv_wf _ Hsv) as Hwf. pose proof (mkdir_wf tick nm s Hwf Hn) as Hwf'.
  revert Hwf'. unfold fs_mkdir. destruct (find (is_entry nm) s) as [i|]; [done|].
  destruct (free_slot s) as [i|] eqn:E; [|done]. cbn [fst]. intros Hwf'.
  apply find_Some in E as (Hi & Hui & _). apply negb_true_iff, truth_false in Hui.
  destruct (proj2 Hwf i Hi) as [K1 K2 K3 K4]. specialize (K3 Hui).
  destruct (stored_name nm _ K1 Hn) as (N1 & N2 & N3).
  apply (saved_finish i s); try done; apply Hwf.
Qed.

Lemma rename_saved tick old new s :
  Saved s -> c_strlen new < 32 -> 0 <= tick < 2 ^ 32 -> Saved (fst (fs_rename tick old new s)).
Proof.
  intros Hsv Hn Ht. pose proof (sv_wf _ Hsv) as Hwf. pose proof (rename_wf tick old new s Hwf Hn) as Hwf'.
  revert Hwf'. unfold fs_rename. destruct (find (is_entry new) s) as [i|]; [done|].
  destruct (find (is_entry old) s) as [i|] eqn:E; [|done]. cbn [fst]. intros Hwf'.
  apply find_Some in E as (Hi & Hfi & _). destruct (proj2 Hwf i Hi) as [K1 K2 K3 K4].
  destruct (stored_name new _ K1 Hn) as (N1 & N2 & N3).
  apply (saved_finish i s); try done; [apply Hwf|]. destruct (sv_tidy _ Hsv i Hi) as [F1 F2 F3].
  split; simpl; [done| |done]. intros Hu. destruct (F2 Hu). by split.
Qed.

(** *** Sequences of operations *)

Inductive Op :=
  | Write (tick : Z) (nm src : list Z)
  | WriteBin (tick : Z) (nm src : list Z) (n : Z)
  | Delete (nm : list Z)
  | Mkdir (tick : Z) (nm : list Z)
  | Rename (tick : Z) (old new : list Z)
  | WriteTmp (tick : Z) (nm src : list Z) (n : Z)
  | SetPerms (nm : list Z) (p : Z).

Definition run (op : Op) (s : State) : option (State * Z) :=
  match op with
  | Write tick nm src => fs_write tick nm src s
  | WriteBin tick nm src n => fs_write_bin tick nm src n s
  | Delete nm => Some (fs_delete nm s)
  | Mkdir tick nm => Some (fs_mkdir tick nm s)
  | Rename tick old new => Some (fs_rename tick old new s)
  | WriteTmp tick nm src n => fs_write_tmp tick nm src n s
  | SetPerms nm p => Some (fs_set_perms nm p s)
  end.

(** Names that fit and no more bytes than the caller's buffer has. *)
Definition op_fits (op : Op) : Prop :=
  match op with
  | Write _ nm _ | Mkdir _ nm | Rename _ _ nm => c_strlen nm < 32
  | WriteBin _ nm src n | WriteTmp _ nm src n => c_strlen nm < 32 /\ 0 <= n <= zlen src
  | Delete _ | SetPerms _ _ => True
  end.

(** The operations whose effect is on the disk: 32-bit ticks, files of at most 64 KB. *)
Definition op_ok (op : Op) : Prop :=
  match op with
  | WriteTmp _ _ _ _ | SetPerms _ _ => False
  | Write tick nm _ => c_strlen nm < 32 /\ 0 <= tick < 2 ^ 32
  | WriteBin tick nm src n => c_strlen nm < 32 /\ 0 <= tick < 2 ^ 32 /\ 0 <= n <= FS_MAX_DATA /\ n <= zlen src
  | Delete _ => True
  | Mkdir tick nm => c_strlen nm < 32 /\ 0 <= tick < 2 ^ 32
  | Rename tick _ new => c_strlen new < 32 /\ 0 <= tick < 2 ^ 32
  end.

(** The result of an operation that must succeed. *)
Definition must_succeed (op : Op) : bool := match op with Write _ _ _ | WriteBin _ _ _ _ => true | _ => false end.

Lemma run_wf op s s' r : wf s -> op_fits op -> run op s = Some (s', r) -> wf s'.
Proof.
  intros Hwf Hok. destruct op; simpl in *.
  - intros E. pose proof (fs_write_spec tick nm src s Hwf Hok) as Hs. rewrite E in Hs. apply Hs.
  - destruct Hok as [Hn Hsz]. destruct (write_bin_spec tick nm src n 0 s Hwf Hn Hsz) as (s1 & r1 & E & Hw & _).
    unfold fs_write_bin. rewrite E. by intros [= <- _].
  - intros [= E]. pose proof (delete_wf nm s Hwf) as Hd. by rewrite E in Hd.
  - intros [= E]. pose proof (mkdir_wf tick nm s Hwf Hok) as Hd. by rewrite E in Hd.
  - intros [= E]. pose proof (rename_wf tick old new s Hwf Hok) as Hd. by rewrite E in Hd.
  - destruct Hok as [Hn Hsz]. destruct (write_bin_spec tick nm src n 1 s Hwf Hn Hsz) as (s1 & r1 & E & Hw & _).
    unfold fs_write_tmp. rewrite E. by intros [= <- _].
  - intros [= E]. pose proof (set_perms_wf nm p s Hwf) as Hd. by rewrite E in Hd.
Qed.

(** The states a mounted file system goes through. *)
Inductive reachable (s0 : State) : State -> Prop :=
  | reach_init : reachable s0 s0
  | reach_step s op s' r : reachable s0 s -> op_fits op -> run op s = Some (s', r) -> reachable s0 s'.

Fixpoint run_all (ops : list Op) (s : State) : option State :=
  match ops with
  | [] => Some s
  | op :: ops =>
      '(s, r) ← run op s;
      if must_succeed op && negb (r =? 1) then None else run_all ops s
  end.

Lemma run_all_saved ops : forall s s',
  Saved s -> Forall op_ok ops -> run_all ops s = Some s' -> Saved s'.
Proof.
  induction ops as [|op ops IH]; intros s s' Hsv Hok E; simpl in E; [by simplify_eq|].
  apply list.Forall_cons in Hok as [Ho Hok]. destruct (run op s) as [[s1 r]|] eqn:Er; [|done]. simpl in E.
  assert (Saved s1 \/ must_succeed op && negb (r =? 1) = true) as [Hs1|Hf].
  { destruct op; simpl in Er, Ho |- *.
    - destruct (Z.eqb_spec r 1) as [->|]; [left|by right]. destruct Ho. by eapply write_saved.
    - destruct (Z.eqb_spec r 1) as [->|]; [left|by right]. destruct Ho as (?&?&?&?). by eapply write_bin_saved.
    - left. injection Er as E1. replace s1 with (fst (fs_delete nm s)) by (by rewrite E1). by apply delete_saved.
    - left. injection Er as E1. destruct Ho. replace s1 with (fst (fs_mkdir tick nm s)) by (by rewrite E1). by apply mkdir_saved.
    - left. injection Er as E1. destruct Ho. replace s1 with (fst (fs_rename tick old new s)) by (by rewrite E1). by apply rename_saved.
    - done.
    - done. }
  - destruct (_ && _); [done|]. by apply (IH s1).
  - by rewrite Hf in E.
Qed.

(** ** Reboot *)

(** [f'] in [s'] is what a reboot should make of [f] in [s]. *)
Definition restored (s s' : State) (f f' : FSFile) : Prop :=
  (used f = 0 /\ used f' = 0) \/
  (used f <> 0 /\ used f' = used f /\ name f' = name f /\ size f' = size f /\ perms f' = perms f /\
   tmpfs f' = tmpfs f /\ ctime f' = ctime f /\ mtime f' = mtime f /\
   if is_dir f then data f' = 0
   else exists b b', bufs s !! data f = Some b /\ data f <> 0 /\ data f' <> 0 /\ bufs s' !! data f' = Some b' /\
          take (Z.to_nat (size f)) b' = take (Z.to_nat (size f)) b).

Lemma restored_only s i s1 s2 j f :
  only i s1 s2 -> 0 <= j < 64 -> j <> i -> restored s s1 f (file s1 j) -> restored s s2 f (file s2 j).
Proof.
  intros [_ Hon] Hj Hji. destruct (Hon j Hj Hji) as [Ef Eb]. rewrite Ef.
  intros [?|(?&?&?&?&?&?&?&?&Hd)]; [by left|]. right. split_and!; try done.
  destruct (is_dir f); [done|]. destruct Hd as (b & b' & ? & ? & Hd' & ? & ?). exists b, b'.
  rewrite Eb by done. done.
Qed.

(** Loading the chunks of a buffer. *)
Lemma load_data_spec d i f b n : forall k b0,
  0 <= i < 64 -> 0 <= k -> k + Z.of_nat n = 128 -> zlen b0 = 65536 ->
  (forall k, 0 <= k < 128 -> ata_read_sector d (fs_data_sector i k) = Some (data_chunk f b k)) ->
  zlen (load_data n d i k b0) = 65536 /\
  forall off, 0 <= off < 65536 -> (load_data n d i k b0).[off] =
    if decide (off < k * 512) then b0.[off] else if off <? size f then b.[off] else 0.
Proof.
  induction n as [|n IH]; intros k b0 Hi Hk Hkn Hb0 Hd; cbn [load_data].
  { split; [done|]. intros off Hoff. rewrite decide_True by lia. done. }
  rewrite Hd by lia. set (b1 := take _ b0 ++ _).
  assert (zlen b1 = 65536) as Hl1.
  { unfold b1, zlen in *. rewrite !length_app, !length_take, length_drop, length_chunk. lia. }
  destruct (IH (k + 1) b1) as [Hl Hv]; [done|lia|lia|done|done|]. split; [done|].
  intros off Hoff. rewrite Hv by done. repeat case_decide; try lia; try done.
  - unfold b1, aget, zlen in *. rewrite lookup_total_app_l by (rewrite length_take; lia). by rewrite lookup_total_take_lt by lia.
  - unfold b1, aget, zlen in *. rewrite lookup_total_app_r by (rewrite length_take; lia). rewrite length_take.
    rewrite (take_ge (data_chunk f b k)) by (rewrite length_chunk; lia).
    rewrite lookup_total_app_l by (rewrite length_chunk; lia).
    unfold data_chunk. rewrite (list_lookup_total_fmap _ _ _) by (rewrite length_seqZ; lia).
    rewrite lookup_total_seqZ_lt by lia. unfold aget.
    replace (k * 512 + (0 + Z.of_nat (Z.to_nat off - Z.to_nat (k * 512) `min` length b0)%nat)) with off by lia. done.
Qed.

#[local] Opaque load_data.

Definition needs_buffer (f : FSFile) : bool := truth (used f) && negb (is_dir f).

Lemma load_slot_spec s s0 i :
  wf s -> Saved s -> owned s0 -> disk s0 = disk s -> 0 <= i < 64 -> data (file s0 i) = 0 -> used (file s0 i) = 0 ->
  (needs_buffer (file s i) = true -> snd (kmalloc FS_MAX_DATA (heap s0)) <> 0) ->
  let s1 := load_slot i s0 in
  owned s1 /\ only i s0 s1 /\ disk s1 = disk s0 /\ restored s s1 (file s i) (file s1 i) /\
  heap s1 = (if needs_buffer (file s i) then fst (kmalloc FS_MAX_DATA (heap s0)) else heap s0).
Proof.
  intros Hwf Hsv Ho Hd Hi Hz Hu0 Halloc. pose proof (o_len _ Ho) as Hl.
  pose proof (sv_tidy _ Hsv i Hi) as [T1 T2 T3]. unfold load_slot. rewrite Hd.
  destruct (sv_slot _ Hsv i Hi) as [(Hu & h & Hrd & Hh)|(Hu & Hrd & Hfl)]; rewrite Hrd.
  - rewrite Hh. change (0 =? 0) with true. cbv iota zeta.
    unfold needs_buffer. rewrite Hu. change (truth 0) with false. cbn [andb].
    split_and!; [by apply owned_set_file|by apply only_set_file|done| |done].
    left. rewrite file_set_eq by done. done.
  - destruct (header_fields (file s i) (T2 Hu)) as (E1 & E2 & E3 & E4 & E5 & E6 & E7).
    rewrite E1, E2, E3, E4, E5, E6, E7. rewrite (proj2 (Z.eqb_neq _ 0) Hu). cbv zeta.
    set (sa := set_file i ((file s0 i) <| used := used (file s i) |>) s0).
    assert (owned sa) as Hoa by (by apply owned_set_file).
    assert (file sa i = (file s0 i) <| used := used (file s i) |>) as Efa by (by apply file_set_eq).
    set (g := (file sa i) <| name := name (file s i) |> <| size := size (file s i) |> <| tmpfs := tmpfs (file s i) |>
                <| perms := perms (file s i) |> <| ctime := ctime (file s i) |> <| mtime := mtime (file s i) |>
                <| dirty := 0 |>).
    set (sb := set_file i g sa).
    assert (data g = 0) as Hdg by (unfold g; simpl; by rewrite Efa).
    assert (used g = used (file s i)) as Hug by (unfold g; simpl; by rewrite Efa).
    assert (owned sb) as Hob by (apply owned_set_file; [done|done|unfold g; by rewrite Efa]).
    assert (file sb i = g) as Efb by (apply file_set_eq; [apply Hoa|done]).
    assert (only i s0 sb) as Honb.
    { eapply only_trans; [by apply (only_set_file i)|by apply (only_set_file i); [|apply Hoa]]. }
    assert (disk sb = disk s0 /\ heap sb = heap s0) as [Hdb Hhb] by done.
    rewrite Efb. change (perms g) with (perms (file s i)).
    change (truth (Z.land (perms (file s i)) FS_PERM_DIR)) with (is_dir (file s i)).
    unfold needs_buffer in *. assert (truth (used (file s i)) = true) as Htu
      by (unfold truth; by rewrite (proj2 (Z.eqb_neq _ 0) Hu)). rewrite Htu in *. cbn [andb] in *.
    clearbody sb. destruct (is_dir (file s i)) eqn:Edir; cbn [negb].
    + assert (file (set_file i (g <| data := 0 |>) sb) i = g <| data := 0 |>) as Ef by (apply file_set_eq; [apply Hob|done]).
      split_and!; [|eapply only_trans; [exact Honb|apply only_set_file; [done|apply Hob]]|exact (eq_trans Hdb Hd)| |exact Hhb].
      * apply owned_set_file; [done|done|]. rewrite Efb. by rewrite Hdg.
      * rewrite Ef. right. rewrite Edir. by split_and!.
    + specialize (Halloc eq_refl).
      destruct (malloc_data_spec i FS_MAX_DATA sb Hob Hi ltac:(by rewrite Efb) ltac:(unfold FS_MAX_DATA; lia))
        as (Hoc & Honc & Hdc & p & Efc & Hc).
      destruct (malloc_data_alloc i FS_MAX_DATA sb (o_len _ Hob) Hi) as [Hhc Hpc].
      set (sc := malloc_data i FS_MAX_DATA sb) in *. clearbody sc. rewrite Hhb in Hhc, Hpc.
      assert (p = snd (kmalloc FS_MAX_DATA (heap s0))) as Ep by (rewrite <- Hpc, Efc; reflexivity).
      rewrite Hpc. destruct Hc as [[-> _]|(_ & Hp & Hnone & Ebc)]; [congruence|].
      rewrite <- Ep. rewrite (proj2 (Z.eqb_neq p 0)) by lia.
      destruct (Hfl eq_refl) as (b & Eb & Hchunk). rewrite <- Hd in Hchunk.
      rewrite Ebc, lookup_insert_eq. change (default [] (Some (fresh p FS_MAX_DATA))) with (fresh p FS_MAX_DATA).
      rewrite Hdc, Hdb.
      destruct (load_data_spec (disk s0) i (file s i) b 128 0 (fresh p FS_MAX_DATA)) as [Hll Hlv];
        [done|lia|lia|unfold zlen; rewrite fresh_len; unfold FS_MAX_DATA; lia|done|].
      change (Z.to_nat FS_DATA_SECS) with 128%nat. set (ld := load_data 128 _ _ _ _) in *. clearbody ld.
      set (sd := sc <| bufs := <[p := ld]> (<[p := fresh p FS_MAX_DATA]> (bufs sb)) |>).
      rewrite Efb in Efc.
      assert (data (file sc i) = p) as Epc by (by rewrite Efc).
      assert (sd = sc <| bufs := <[p := ld]> (bufs sc) |>) as Esd by (unfold sd; by rewrite Ebc).
      split_and!.
      * rewrite Esd. apply owned_upd_buf; [done|]. rewrite Ebc, lookup_insert_eq. eauto.
      * rewrite Esd. eapply only_trans; [eapply only_trans; [exact Honb|exact Honc]|].
        rewrite <- Epc. apply only_upd_buf; [done|done|]. rewrite Epc. lia.
      * change (disk sd) with (disk sc). congruence.
      * right. change (file sd i) with (file sc i). rewrite Efc, Edir.
        destruct (T3 Hu eq_refl) as [Hd0 Hsz]. destruct (T2 Hu) as [_ [Hs0 _] _ _ _].
        split_and!; try done. exists b, ld. simpl. rewrite lookup_insert_eq. split_and!; try done; [lia|].
        pose proof (k_size _ _ (proj2 Hwf i Hi) b Hd0 Eb) as Hks. unfold FS_MAX_DATA in *.
        apply aget_ext; unfold zlen in *; rewrite !length_take; [lia|].
        intros off Hoff. rewrite !aget_take_lt by lia. rewrite Hlv by lia.
        rewrite decide_False by lia. by rewrite (proj2 (Z.ltb_lt _ _)) by lia.
      * exact Hhc.
Qed.

Lemma can_alloc_S n size (h : H) : can_alloc (S n) size h = true -> can_alloc n size h = true.
Proof.
  revert h. induction n as [|n IH]; intros h; [done|]. cbn [can_alloc].
  destruct (kmalloc size h) as [h' p]. intros [Hp Hn]%andb_true_iff. rewrite Hp. apply IH. exact Hn.
Qed.

(** The load loop from slot [k] on restores the slots. *)
Lemma load_loop s n : wf s -> Saved s -> forall k s1,
  0 <= k -> k + Z.of_nat n = 64 -> owned s1 -> disk s1 = disk s ->
  (forall i, 0 <= i < k -> restored s s1 (file s i) (file s1 i)) ->
  (forall i, k <= i < 64 -> data (file s1 i) = 0 /\ used (file s1 i) = 0) ->
  can_alloc n FS_MAX_DATA (heap s1) = true ->
  let s' := iter load_slot k n s1 in
  owned s' /\ disk s' = disk s /\ forall i, 0 <= i < 64 -> restored s s' (file s i) (file s' i).
Proof.
  intros Hwf Hsv. induction n as [|n IH]; intros k s1 Hk Hn Ho Hd Hr Hz Hroom; cbn [iter].
  { split_and!; [exact Ho|exact Hd|]. intros i Hi. apply Hr. lia. }
  pose proof (can_alloc_S _ _ _ Hroom) as Hroom'. cbn [can_alloc] in Hroom.
  destruct (kmalloc FS_MAX_DATA (heap s1)) as [h' p] eqn:E. apply andb_true_iff in Hroom as [Hp Hroom].
  destruct (Hz k ltac:(lia)) as [Hzk Huk].
  destruct (load_slot_spec s s1 k Hwf Hsv Ho Hd ltac:(lia) Hzk Huk) as (Ho2 & Hon & Hd2 & Hr2 & Hh2).
  { intros _. rewrite E. cbn [snd]. by apply negb_true_iff, Z.eqb_neq in Hp. }
  apply IH; [lia|lia|exact Ho2|by rewrite Hd2|..].
  - intros i Hi. destruct (decide (i = k)) as [->|Hik]; [exact Hr2|].
    apply (restored_only s k s1); [exact Hon|lia|done|]. apply Hr. lia.
  - intros i Hi. rewrite (proj1 (proj2 Hon i ltac:(lia) ltac:(lia))). apply Hz. lia.
  - rewrite Hh2. destruct (needs_buffer _); [rewrite E; exact Hroom|exact Hroom'].
Qed.

Lemma fs_disk_load_spec s s0 :
  wf s -> Saved s -> owned s0 -> disk s0 = disk s ->
  (forall i, 0 <= i < 64 -> data (file s0 i) = 0 /\ used (file s0 i) = 0) ->
  can_alloc 64 FS_MAX_DATA (heap s0) = true ->
  let s' := fs_disk_load s0 in
  owned s' /\ disk s' = disk s /\ forall i, 0 <= i < 64 -> restored s s' (file s i) (file s' i).
Proof.
  intros Hwf Hsv Ho Hd Hz Hroom. unfold fs_disk_load.
  replace (Z.to_nat FS_MAX_FILES) with 64%nat by reflexivity.
  apply (load_loop s 64 Hwf Hsv); [lia|lia|exact Ho|exact Hd|intros i Hi; lia|exact Hz|exact Hroom].
Qed.

#[local] Transparent malloc_data.

(** Whatever the disk holds, loading a slot touches that slot only. *)
Lemma malloc_data_frame i n s j :
  length (files s) = 64%nat -> 0 <= i < 64 -> 0 <= j -> j <> i ->
  length (files (malloc_data i n s)) = 64%nat /\ file (malloc_data i n s) j = file s j.
Proof.
  intros Hl Hi Hj Hji. unfold malloc_data. destruct (kmalloc n (heap s)) as [h p].
  pose proof (file_set_file i ((file s i) <| data := p |>) s j Hl Hi Hj) as E. rewrite decide_False in E by done.
  cbv zeta. destruct (p =? 0); (split; [cbn; by rewrite length_aset|exact E]).
Qed.

#[local] Opaque malloc_data.

Lemma set_file_frame i f s s0 j :
  length (files s) = 64%nat -> 0 <= i < 64 -> 0 <= j -> j <> i -> file s j = file s0 j ->
  length (files (set_file i f s)) = 64%nat /\ file (set_file i f s) j = file s0 j.
Proof.
  intros Hl Hi Hj Hji E. split; [cbn; by rewrite length_aset|]. rewrite file_set_file by done. by rewrite decide_False.
Qed.

Lemma load_slot_frame i s j :
  length (files s) = 64%nat -> 0 <= i < 64 -> 0 <= j -> j <> i ->
  length (files (load_slot i s)) = 64%nat /\ file (load_slot i s) j = file s j.
Proof.
  intros Hl Hi Hj Hji. unfold load_slot. destruct (ata_read_sector _ _) as [b|]; [|done]. cbv zeta.
  set (s1 := set_file i ((file s i) <| used := b.[36] |>) s).
  destruct (set_file_frame i ((file s i) <| used := b.[36] |>) s s j Hl Hi Hj Hji eq_refl) as [L1 E1].
  fold s1 in L1, E1. destruct (b.[36] =? 0); [by split|].
  match goal with |- context [set_file i ?f s1] => set (s2 := set_file i f s1);
    destruct (set_file_frame i f s1 s j L1 Hi Hj Hji E1) as [L2 E2] end.
  fold s2 in L2, E2. destruct (truth _); [by apply set_file_frame|].
  destruct (malloc_data_frame i FS_MAX_DATA s2 j L2 Hi Hj Hji) as [L3 E3].
  set (s3 := malloc_data i FS_MAX_DATA s2) in *. rewrite E2 in E3.
  destruct (_ =? 0); [by apply set_file_frame|by split].
Qed.

Lemma load_slot_disk i s : disk (load_slot i s) = disk s.
Proof.
  unfold load_slot. destruct (ata_read_sector _ _) as [b|]; [|done]. cbv zeta. destruct (b.[36] =? 0); [done|].
  destruct (truth _); [done|].
  match goal with |- context [malloc_data i FS_MAX_DATA ?t] => pose proof (malloc_data_disk i FS_MAX_DATA t) as E;
    set (s3 := malloc_data i FS_MAX_DATA t) in * end.
  by destruct (_ =? 0).
Qed.

(** A slot whose header sector says unused is unused after the load. *)
Lemma load_loop_unused i b n : 0 <= i < 64 -> b.[36] = 0 -> forall k s,
  0 <= k -> k + Z.of_nat n = 64 -> length (files s) = 64%nat -> ata_read_sector (disk s) (fs_hdr_sector i) = Some b ->
  (i < k -> used (file s i) = 0) -> used (file (iter load_slot k n s) i) = 0.
Proof.
  intros Hi Hb. induction n as [|n IH]; intros k s Hk Hn Hl Hrd Hu; cbn [iter]; [apply Hu; lia|].
  destruct (load_slot_frame k s (if decide (k = 0) then 1 else 0) Hl ltac:(lia)) as [Hl' _]; [by case_decide|case_decide; lia|].
  apply IH; [lia|lia|exact Hl'|by rewrite load_slot_disk|]. intros Hik.
  destruct (decide (i = k)) as [<-|Hne].
  - unfold load_slot. rewrite Hrd, Hb. cbv zeta. change (0 =? 0) with true. cbv iota. by rewrite file_set_eq.
  - destruct (load_slot_frame k s i Hl ltac:(lia) ltac:(lia) Hne) as [_ ->]. apply Hu. lia.
Qed.

Lemma fs_init_unused g h d s i b sb :
  length g = 64%nat -> reliable d -> ata_read_sector d 0 = Some sb -> take 4 sb = [77; 70; 83; 51] ->
  0 <= i < 64 -> ata_read_sector d (fs_hdr_sector i) = Some b -> b.[36] = 0 ->
  fs_init g h d = Some s -> used (file s i) = 0.
Proof.
  intros Hg Hr Hsb Hmg Hi Hrd Hb. unfold fs_init. destruct (kmalloc _ h) as [h' p]. destruct (p =? 0); [done|].
  rewrite (reliable_present _ Hr), Hsb. cbn [negb].
  assert (sb.[0] = 77 /\ sb.[1] = 70 /\ sb.[2] = 83 /\ sb.[3] = 51) as (-> & -> & -> & ->).
  { destruct sb as [|b0 [|b1 [|b2 [|b3 sb]]]]; try done. cbn [take] in Hmg. by injection Hmg as -> -> -> ->. }
  change ((77 =? 77) && (70 =? 70) && (83 =? 83) && (51 =? 51)) with true. cbv iota. intros [= <-]. unfold fs_disk_load.
  apply (load_loop_unused i b); [done|done|lia|reflexivity|cbn; by rewrite length_fmap|exact Hrd|lia].
Qed.

(** ** A block of the heap that the file system does not own *)

(** [q] is allocated and no buffer of the file system. *)
Definition held (q : Z) (s : State) : Prop :=
  exists m, live (heap s) m /\ (forall p b, bufs s !! p = Some b -> is_Some (m !! p)) /\ is_Some (m !! q) /\ bufs s !! q = None.

Lemma held_free q s : owned s -> held q s -> owned (s <| heap := kfree q (heap s) |>).
Proof.
  intros [Hl Hb Hi Ho _] (m & Hm & Hp & [k Hq] & Hn). split; try assumption.
  exists (delete q m). split; [exact (kfree_live _ _ _ k Hm Hq)|]. intros p b Hpb. cbn in Hpb.
  rewrite lookup_delete_ne by congruence. by apply (Hp p b).
Qed.

Lemma held_alloc n s h q : owned s -> 0 < n <= 0x100000 -> kmalloc n (heap s) = (h, q) -> q <> 0 ->
  owned (s <| heap := h |>) /\ held q (s <| heap := h |>).
Proof.
  intros [Hl Hb Hi Ho (m & Hm & Hp)] Hn E Hq.
  destruct (kmalloc_live n (heap s) m h q Hm Hn E) as [[? _]|(_ & Hmq & k & _ & Hm')]; [done|].
  assert (forall p b, bufs s !! p = Some b -> is_Some (<[q := k]> m !! p) /\ p <> q) as Hp'.
  { intros p b Hpb. destruct (Hp p b Hpb) as [z Hz]. assert (p <> q) by congruence.
    rewrite lookup_insert_ne by congruence. eauto. }
  split.
  - split; try assumption. exists (<[q := k]> m). split; [exact Hm'|]. intros p b Hpb. by destruct (Hp' p b Hpb).
  - exists (<[q := k]> m). split; [exact Hm'|]. split; [intros p b Hpb; by destruct (Hp' p b Hpb)|].
    split; [rewrite lookup_insert_eq; eauto|]. destruct (bufs s !! q) as [b|] eqn:Eq; [|done]. by destruct (Hp' q b Eq).
Qed.

(** Only the heap and the buffers matter. *)
Lemma held_same q s s' : heap s' = heap s -> bufs s' = bufs s -> held q s -> held q s'.
Proof. intros Hh Hb (m & Hm). exists m. by rewrite Hh, Hb. Qed.

Lemma held_rebuf q s s' p b b0 : heap s' = heap s -> bufs s' = <[p := b]> (bufs s) -> bufs s !! p = Some b0 -> held q s -> held q s'.
Proof.
  intros Hh Hb Hp (m & Hm & Hpm & Hq & Hn). exists m. rewrite Hh, Hb. split; [exact Hm|].
  assert (p <> q) as Hpq by congruence. split; [|split; [exact Hq|by rewrite lookup_insert_ne]].
  intros p' b' Hb'. destruct (decide (p = p')) as [<-|]; [by apply (Hpm p b0)|].
  rewrite lookup_insert_ne in Hb' by done. by apply (Hpm p' b').
Qed.

#[local] Transparent malloc_data free_data.

Lemma held_malloc q i n s : 0 <= n <= 0x100000 -> held q s -> held q (malloc_data i n s).
Proof.
  intros Hn (m & Hm & Hpm & [k Hq] & Hnone). unfold malloc_data. destruct (kmalloc n (heap s)) as [h p] eqn:E.
  assert ((p = 0 /\ live h m) \/ (0 < p /\ m !! p = None /\ exists k, live h (<[p := k]> m))) as Hc.
  { destruct (decide (n = 0)) as [->|]; [rewrite kmalloc_zero in E; simplify_eq; by left|].
    destruct (kmalloc_live n (heap s) m h p Hm ltac:(lia) E) as [?|(? & ? & k' & _ & ?)]; [by left|right; eauto]. }
  cbv zeta. destruct Hc as [[-> Hlv]|(Hp & Hmp & k' & Hlv)]; cbn [Z.eqb].
  - exists m. split; [exact Hlv|]. split; [exact Hpm|]. split; [by exists k|exact Hnone].
  - rewrite (proj2 (Z.eqb_neq p 0)) by lia. assert (p <> q) as Hpq by congruence.
    exists (<[p := k']> m). split; [exact Hlv|]. split; [|split; [rewrite lookup_insert_ne by done; by exists k|]].
    + intros p' b' Hb'. cbn in Hb'. destruct (decide (p = p')) as [<-|]; [rewrite lookup_insert_eq; eauto|].
      rewrite lookup_insert_ne in Hb' by done. rewrite lookup_insert_ne by done. by apply (Hpm p' b').
    + cbn. rewrite lookup_insert_ne by done. exact Hnone.
Qed.

Lemma held_free_data q i s : owned s -> 0 <= i < 64 -> held q s -> held q (free_data i s).
Proof.
  intros Ho Hi (m & Hm & Hpm & [k Hq] & Hnone). unfold free_data.
  destruct (Z.eqb_spec (data (file s i)) 0) as [|Hd]; [exists m; split_and!; eauto|].
  destruct (o_buf s Ho i Hi Hd) as [b Hb]. destruct (Hpm _ _ Hb) as [z Hz].
  assert (data (file s i) <> q) as Hdq by congruence.
  exists (delete (data (file s i)) m). split; [exact (kfree_live _ _ _ z Hm Hz)|]. split_and!.
  - intros p' b' Hb'. cbn in Hb'. apply lookup_delete_Some in Hb' as [Hne Hb'].
    rewrite lookup_delete_ne by done. by apply (Hpm p' b').
  - rewrite lookup_delete_ne by done. eauto.
  - cbn. by rewrite lookup_delete_ne.
Qed.

#[local] Opaque malloc_data free_data.
#[local] Transparent fs_disk_save buf_memcpy.

Lemma disk_save_heap i s : heap (fs_disk_save i s) = heap s.
Proof. unfold fs_disk_save. destruct (negb _); [done|]. destruct (truth _); [done|]. by destruct (_ =? 0). Qed.

Lemma disk_save_bufs i s : bufs (fs_disk_save i s) = bufs s.
Proof. unfold fs_disk_save. destruct (negb _); [done|]. destruct (truth _); [done|]. by destruct (_ =? 0). Qed.

Lemma memcpy_held q i src n s s' :
  owned s -> 0 <= i < 64 -> data (file s i) <> 0 -> buf_memcpy (data (file s i)) src n s = Some s' ->
  held q s -> held q s'.
Proof.
  intros Ho Hi Hd Hc. destruct (o_buf s Ho i Hi Hd) as [b Hb].
  unfold buf_memcpy in Hc. destruct (_ <=? _); [|done]. injection Hc as <-. by eapply held_rebuf.
Qed.

#[local] Opaque fs_disk_save buf_memcpy.

(** The common end of [fs_write_bin_internal]. *)
Lemma write_bin_end_held q i s n src f s' :
  owned s -> 0 <= i < 64 -> data (file s i) = 0 -> 0 <= n <= 0x100000 -> held q s ->
  let s1 := malloc_data i n s in
  data (file s1 i) <> 0 -> buf_memcpy (data (file s1 i)) src n s1 = Some s' ->
  held q (fs_disk_save i (set_file i f s')).
Proof.
  intros Ho Hi Hd Hn Hq s1 Hd1 Hc. destruct (malloc_data_spec i n s Ho Hi Hd Hn) as [Ho1 _].
  pose proof (memcpy_held q i src n s1 s' Ho1 Hi Hd1 Hc (held_malloc q i n s Hn Hq)) as Hh.
  apply (held_same q s'); [by rewrite disk_save_heap|by rewrite disk_save_bufs|exact Hh].
Qed.

(** Writing a file leaves a held block alone. *)
Lemma write_bin_held q tick nm src n tmp s s' r :
  wf s -> 0 <= n -> held q s -> fs_write_bin_internal tick nm src n tmp s = Some (s', r) -> held q s'.
Proof.
  intros Hwf Hn Hq. pose proof (proj1 Hwf) as Ho. unfold fs_write_bin_internal.
  destruct (Z.ltb_spec FS_MAX_BIN_DATA n) as [|Hmax]; [by intros [= <- _]|]. unfold FS_MAX_BIN_DATA in Hmax.
  destruct (find (is_file nm) s) as [i|] eqn:Ei.
  - apply find_Some in Ei as (Hi & _). destruct (free_data_spec i s Ho Hi) as (Ho1 & _ & _ & Ef1).
    pose proof (held_free_data q i s Ho Hi Hq) as Hq1. set (s1 := free_data i s) in *. clearbody s1.
    assert (data (file s1 i) = 0) as Hd1 by (by rewrite Ef1).
    destruct (Z.eqb_spec (data (file (malloc_data i n s1) i)) 0) as [|Hp];
      [intros [= <- _]; by apply held_malloc; [lia|]|].
    destruct (buf_memcpy _ src n _) as [s2|] eqn:Ec; [|done]. cbn [mbind option_bind]. intros [= <- _].
    apply (write_bin_end_held q i s1 n src _ s2); [done|done|done|lia|done|done|done].
  - destruct (free_slot s) as [i|] eqn:Es; [|by intros [= <- _]].
    apply find_Some in Es as (Hi & Hui & _). apply negb_true_iff, truth_false in Hui.
    destruct (proj2 Hwf i Hi) as [_ _ K3 _]. specialize (K3 Hui).
    set (s0 := set_file i ((file s i) <| name := c_strcpy (name (file s i)) nm FS_MAX_NAME |>) s).
    assert (owned s0) as Ho0 by (by apply owned_set_file).
    assert (held q s0) as Hq0 by (by apply (held_same q s)).
    assert (data (file s0 i) = 0) as Hd0 by (unfold s0; by rewrite file_set_eq by (apply Ho || done)).
    destruct (Z.eqb_spec (data (file (malloc_data i n s0) i)) 0) as [|Hp];
      [intros [= <- _]; by apply held_malloc; [lia|]|].
    destruct (buf_memcpy _ src n _) as [s2|] eqn:Ec; [|done]. cbn [mbind option_bind]. intros [= <- _].
    apply (write_bin_end_held q i s0 n src _ s2); [done|done|done|lia|done|done|done].
Qed.

(** When an existing file cannot be written, its contents are gone. *)
Lemma write_bin_lost tick nm src n tmp s s' v :
  wf s -> lookup_file s nm = Some v -> 0 <= n <= FS_MAX_BIN_DATA ->
  fs_write_bin_internal tick nm src n tmp s = Some (s', 0) ->
  exists v', lookup_file s' nm = Some v' /\ v_size v' = v_size v /\ v_data v' = None.
Proof.
  intros Hwf Hv Hn. unfold fs_write_bin_internal. rewrite (proj2 (Z.ltb_ge _ _)) by lia.
  unfold lookup_file in Hv. destruct (find (is_file nm) s) as [i|] eqn:Ei; [|done]. injection Hv as <-.
  apply find_Some in Ei as (Hi & Hfi & Hfirst). destruct (free_data_spec i s (proj1 Hwf) Hi) as (Ho1 & Hon1 & _ & Ef1).
  set (s1 := free_data i s) in *. clearbody s1. unfold FS_MAX_BIN_DATA in Hn.
  destruct (malloc_data_spec i n s1 Ho1 Hi ltac:(by rewrite Ef1) ltac:(lia)) as (_ & Hon2 & _ & p & Ef2 & _).
  destruct (Z.eqb_spec (data (file (malloc_data i n s1) i)) 0) as [Hp|Hp].
  - intros [= <-]. set (s2 := malloc_data i n s1) in *. clearbody s2. rewrite Ef1 in Ef2.
    exists (view s2 (file s2 i)). split; [|split; [by rewrite Ef2|unfold view; simpl; by rewrite Hp]].
    apply (lookup_slot i s); [eapply only_trans; [exact Hon1|exact Hon2]|done|by rewrite Ef2|exact Hfirst].
  - destruct (buf_memcpy _ src n _) as [s2|]; [|done]. done.
Qed.

(** A table fresh from the heap: 64 slots with 32-byte names. *)
Definition table_ok (g : list FSFile) : Prop := length g = 64%nat /\ Forall (fun f => length (name f) = 32%nat) g.

Lemma fs_init_table g h (p : Z) d m :
  table_ok g -> live h m ->
  let s := {| files := reset_slot <$> g; bufs := ∅; heap := h; disk := d |} in
  wf s /\ forall i, 0 <= i < 64 -> data (file s i) = 0 /\ used (file s i) = 0 /\ tmpfs (file s i) = 0.
Proof.
  intros [Hl Hn] Hm s.
  assert (forall i, 0 <= i < 64 -> length (name (file s i)) = 32%nat /\
            data (file s i) = 0 /\ used (file s i) = 0 /\ tmpfs (file s i) = 0) as Hf.
  { intros i Hi. unfold file, aget, s. cbn [files].
    destruct (lookup_lt_is_Some_2 g (Z.to_nat i)) as [f Ef]; [lia|].
    rewrite (list_lookup_total_correct _ _ (reset_slot f)) by (by rewrite list_lookup_fmap, Ef).
    split_and!; try done. apply (Forall_lookup_1 _ _ _ _ Hn Ef). }
  split; [|intros i Hi; apply Hf; exact Hi]. split.
  - split.
    + unfold s. cbn [files]. by rewrite length_fmap.
    + intros i Hi Hd. by destruct (Hf i Hi) as (_ & ? & _).
    + intros i j Hi Hj Hd. by destruct (Hf i Hi) as (_ & ? & _).
    + intros q b Hq. unfold s in Hq. cbn [bufs] in Hq. by rewrite lookup_empty in Hq.
    + exists m. split; [exact Hm|]. intros q b Hq. unfold s in Hq. cbn [bufs] in Hq. by rewrite lookup_empty in Hq.
  - intros i Hi. destruct (Hf i Hi) as (Hnm & Hdt & Hu & _). split; [done|congruence|done|by intros b ?].
Qed.

(** A disk that was never formatted. *)
Definition blank_disk (d : D) : Prop :=
  reliable d /\ (exists sb, ata_read_sector d 0 = Some sb /\ sb.[0] <> 77) /\
  forall i, 0 <= i < 64 -> exists h, ata_read_sector d (fs_hdr_sector i) = Some h /\ h.[36] = 0.

Lemma fs_init_saved g h d s :
  table_ok g -> live h ∅ -> blank_disk d -> fs_init g h d = Some s -> Saved s.
Proof.
  intros Hg Hh (Hr & (sb & Hsb & Hm) & Hb). unfold fs_init.
  destruct (kmalloc (FS_MAX_FILES * SIZEOF_FSFILE) h) as [h' p] eqn:E. destruct (Z.eqb_spec p 0) as [|Hp]; [done|].
  destruct (kmalloc_live (FS_MAX_FILES * SIZEOF_FSFILE) h ∅ h' p Hh ltac:(unfold FS_MAX_FILES, SIZEOF_FSFILE; lia) E) as [[? _]|(_ & _ & k & _ & Hh')]; [done|].
  rewrite (reliable_present _ Hr), Hsb, (proj2 (Z.eqb_neq _ _) Hm). cbn [negb andb]. intros [= <-].
  destruct (fs_init_table g h' p d _ Hg Hh') as [Hwf Hz]. cbv zeta in Hwf, Hz.
  assert (forall d', wf {| files := reset_slot <$> g; bufs := ∅; heap := h'; disk := d' |}) as Hwf'
    by (intros d'; apply (fs_init_table g h' p d' _ Hg Hh')).
  unfold fs_disk_write_magic. cbn [files bufs heap disk rebuild upd settable_State].
  split; cbn [disk].
  - exact (Hwf' _).
  - by apply reliable_write.
  - exists magic_sector. split; [|done]. by apply read_write.
  - intros i Hi. destruct (Hz i Hi) as (_ & Hu & Ht). split; [exact Ht|intros Hn; exfalso; exact (Hn Hu)..].
  - intros i Hi. left. split; [apply (Hz i Hi)|]. destruct (Hb i Hi) as (hd & Hrd & H36). exists hd.
    rewrite read_write_ne; [done|done|]. rewrite hdr_sector_val by done. lia.
Qed.

(** What a reboot may change of a lookup: the bytes past the size. *)
Definition same_file (v v' : View) : Prop :=
  v_size v' = v_size v /\ v_perms v' = v_perms v /\ v_tmpfs v' = v_tmpfs v /\
  v_ctime v' = v_ctime v /\ v_mtime v' = v_mtime v /\
  exists b b', v_data v = Some b /\ v_data v' = Some b' /\ take (Z.to_nat (v_size v)) b' = take (Z.to_nat (v_size v)) b.

Definition restored_lookup (o o' : option View) : Prop :=
  match o, o' with None, None => True | Some v, Some v' => same_file v v' | _, _ => False end.

Lemma restored_is_entry s s' nm f f' : restored s s' f f' -> is_entry nm f' = is_entry nm f.
Proof. unfold is_entry. intros [(-> & ->)|(_ & -> & -> & _)]; done. Qed.

Lemma restored_is_file s s' nm f f' : restored s s' f f' -> is_file nm f' = is_file nm f.
Proof. unfold is_file. intros [(-> & ->)|(_ & -> & -> & _ & -> & _)]; done. Qed.

Lemma find_ext p p' s s' :
  (forall i, 0 <= i < 64 -> p' (file s' i) = p (file s i)) -> find p' s' = find p s.
Proof. intros Hp. unfold find. apply scan_ext. intros i Hi. apply Hp. unfold FS_MAX_FILES in Hi. lia. Qed.

Lemma restored_all s s' :
  (forall i, 0 <= i < 64 -> restored s s' (file s i) (file s' i)) ->
  (forall nm, restored_lookup (lookup_file s nm) (lookup_file s' nm)) /\
  (forall nm, fs_get_perms nm s' = fs_get_perms nm s /\ fs_get_mtime nm s' = fs_get_mtime nm s).
Proof.
  intros Hr. split; intros nm.
  - unfold lookup_file. rewrite (find_ext (is_file nm) (is_file nm) s s')
      by (intros i Hi; eapply restored_is_file; by apply Hr).
    destruct (find (is_file nm) s) as [i|] eqn:E; simpl; [|done]. apply find_Some in E as (Hi & Hf & _).
    destruct (is_file_true _ _ Hf) as (Hu & Hd & _).
    destruct (Hr i Hi) as [[? _]|(_ & _ & _ & E1 & E2 & E3 & E4 & E5 & E6)]; [done|]. unfold is_dir in E6. rewrite Hd in E6.
    destruct E6 as (b & b' & Hb & Hd0 & Hd0' & Hb' & Ht). unfold same_file, view. simpl.
    rewrite (proj2 (Z.eqb_neq _ _) Hd0), (proj2 (Z.eqb_neq _ _) Hd0'). split_and!; try done. by exists b, b'.
  - unfold fs_get_perms, fs_get_mtime. rewrite (find_ext (is_entry nm) (is_entry nm) s s')
      by (intros i Hi; eapply restored_is_entry; by apply Hr).
    destruct (find (is_entry nm) s) as [i|] eqn:E; [|done]. apply find_Some in E as (Hi & Hf & _).
    destruct (Hr i Hi) as [[Hu _]|(_ & _ & _ & _ & -> & _ & _ & -> & _)]; [|done].
    unfold is_entry in Hf. by rewrite Hu in Hf.
Qed.

(** Mounting the disk of a saved state restores it. *)
Lemma fs_init_restores g h s :
  table_ok g -> live h ∅ -> snd (kmalloc 4096 h) <> 0 -> can_alloc 64 FS_MAX_DATA (fst (kmalloc 4096 h)) = true ->
  Saved s ->
  exists s', fs_init g h (disk s) = Some s' /\ owned s' /\
    forall i, 0 <= i < 64 -> restored s s' (file s i) (file s' i).
Proof.
  intros Hg Hh Hp Hroom Hsv. pose proof Hsv as [Hwf Hr (sb & Hsb & Hmg) _ _]. unfold fs_init.
  change (FS_MAX_FILES * SIZEOF_FSFILE) with 4096.
  destruct (kmalloc 4096 h) as [h' p] eqn:E. cbn [fst snd] in *. rewrite (proj2 (Z.eqb_neq _ _) Hp).
  destruct (kmalloc_live 4096 h ∅ h' p Hh ltac:(lia) E) as [[? _]|(_ & _ & k & _ & Hh')]; [done|].
  rewrite (reliable_present _ Hr), Hsb. cbn [negb].
  assert (sb.[0] = 77 /\ sb.[1] = 70 /\ sb.[2] = 83 /\ sb.[3] = 51) as (-> & -> & -> & ->).
  { destruct sb as [|b0 [|b1 [|b2 [|b3 sb]]]]; try done. cbn [take] in Hmg. by injection Hmg as -> -> -> ->. }
  change ((77 =? 77) && (70 =? 70) && (83 =? 83) && (51 =? 51)) with true. cbv iota.
  destruct (fs_init_table g h' p (disk s) _ Hg Hh') as [Hwf' Hz]. cbv zeta in Hwf', Hz.
  eexists. split; [reflexivity|]. set (s1 := {| files := _ |}) in *.
  destruct (fs_disk_load_spec s s1 Hwf Hsv (proj1 Hwf') eq_refl) as (Ho & _ & Hres); [|exact Hroom|by split].
  intros i Hi. by destruct (Hz i Hi) as (? & ? & _).
Qed.

End Fs.

Arguments State : clear implicits.

End Fs.

Import Fs.

(** ** The theorems *)

Section Theorems.
Context {H : Type} `{!Allocator H} {D : Type} `{!BlockDevice D, !ReliableDevice D}.
Context (fresh : Z -> Z -> list Z) (fresh_len : forall p n, 0 <= n -> length (fresh p n) = Z.to_nat n).




End Theorems.

(** *** Examples: the kernel heap at boot and an empty RAM disk *)

Section Witnesses.
Import RamDisk.

Lemma boot_live : live Heap.booted ∅.
Proof. exact KernelHeap.booted_live. Qed.

Definition zeros (p n : Z) : list Z := replicate (Z.to_nat n) 0.
Definition ram : Type := gmap Z (list Z).
Definition any_table : list FSFile := replicate 64 inhabitant.
(** [mkdir d], three bytes to [a], and renaming [a] to [b]. *)
Definition session : list Op :=
  [Mkdir 5 [100; 0]; WriteBin 6 [97; 0] [1; 2; 3] 3; Rename 7 [97; 0] [98; 0]].
Definition mounted : option (State Heap.State ram) := fs_init zeros any_table Heap.booted (∅ : ram).
Definition after_session : option (State Heap.State ram) := s ← mounted; run_all zeros session s.

Lemma zeros_len p n : 0 <= n -> length (zeros p n) = Z.to_nat n.
Proof. intros. apply length_replicate. Qed.

Lemma any_table_ok : table_ok any_table.
Proof. split; [reflexivity|]. apply Forall_replicate. reflexivity. Qed.

Lemma ram_blank : blank_disk (∅ : ram).
Proof.
  split; [exact I|]. split; [exists blank; split; [reflexivity|discriminate]|].
  intros i _. exists blank. by split.
Qed.

Lemma session_ok : Forall op_ok session.
Proof. repeat (constructor; [cbn [op_ok]; split_and?; by vm_compute|]); constructor. Qed.

Definition hello : list Z := [104; 101; 108; 108; 111; 0].

Lemma after_session_ok : 
  (match after_session with
   | Some s => bool_decide (find (is_file [98; 0]) s = Some 1) && match fs_write zeros 8 [98; 0] hello s with None => true | Some _ => false end
   | None => false
   end) = true.
Proof. vm_compute. reflexivity. Qed.

Lemma boot_room : snd (kmalloc 4096 Heap.booted) <> 0 /\ can_alloc 64 FS_MAX_DATA (fst (kmalloc 4096 Heap.booted)) = true.
Proof. split; [by vm_compute|exact KernelHeap.booted_room]. Qed.

Lemma run_wf_session s0 s : mounted = Some s0 -> run_all zeros session s0 = Some s -> wf s.
Proof.
  intros E0 E1. apply (sv_wf s), (run_all_saved zeros zeros_len session s0 s); [|exact session_ok|exact E1].
  exact (fs_init_saved zeros any_table Heap.booted (∅ : ram) s0 any_table_ok boot_live ram_blank E0).
Qed.




End Witnesses.
