(* ===== verification/Mfs4.v ===== *)
(** * mfs4.c: the MFS4 inode layer

    The table of 128 inodes above MFS3, path resolution through symbolic links,
    hard links that share an inode number and a target, and the raw image of the
    table on the disk.  The MFS3 state of [Fs.v], which holds the disk, is a part
    of the state, since MFS4 operations call MFS3 ones.

    The invariant [ok] says that paths are unique, that inode numbers in use are
    below the next one, and that the hard links of a file agree on the MFS3 name of
    its data. *)

From Stdlib Require Import ZArith Lia.
From stdpp Require Import base numbers list gmap tactics relations.
From S2P Require Import Prelude Heap Storage Fs.

Module Mfs4.

Definition MFS4_MAX_INODES : Z := 128.
Definition MFS4_PATH_LEN : Z := 64.
Definition MFS4_TYPE_FILE : Z := 1.
Definition MFS4_TYPE_DIR : Z := 2.
Definition MFS4_TYPE_SYMLINK : Z := 3.
Definition MFS4_LBA_META : Z := 513.
Definition MFS4_LBA_DATA : Z := 514.
Definition SIZEOF_INODE : Z := 144.
Definition MFS4_INODE_BYTES : Z := u32 (MFS4_MAX_INODES * SIZEOF_INODE).
Definition MFS4_INODE_SECTS : Z := (MFS4_INODE_BYTES + 511) / 512.

Record MFS4Inode := {
  type : Z; used : Z; pad : Z; inode_id : Z; path : list Z; target : list Z; ctime : Z; mtime : Z }.
#[global] Instance settable_MFS4Inode : Settable MFS4Inode := {| rebuild n :=
  {| type := type n; used := used n; pad := pad n; inode_id := inode_id n; path := path n; target := target n;
     ctime := ctime n; mtime := mtime n |} |}.
#[global] Instance inhabited_MFS4Inode : Inhabited MFS4Inode := populate
  {| type := 0; used := 0; pad := 0; inode_id := 0; path := replicate 64 0; target := replicate 64 0;
     ctime := 0; mtime := 0 |}.

Record MFS4Stat := { st_type : Z; st_size : Z; st_ctime : Z; st_mtime : Z; st_perms : Z }.

(** The bytes of an inode in memory. *)
Definition inode_bytes (n : MFS4Inode) : list Z :=
  [type n; used n] ++ Fs.le16 (pad n) ++ Fs.le32 (inode_id n) ++ path n ++ target n
  ++ Fs.le32 (ctime n) ++ Fs.le32 (mtime n).

Definition inode_of (b : list Z) : MFS4Inode :=
  {| type := b.[0]; used := b.[1]; pad := Fs.of_le16 b 2; inode_id := Fs.of_le32 b 4;
     path := take 64 (drop 8 b); target := take 64 (drop 72 b);
     ctime := Fs.of_le32 b 136; mtime := Fs.of_le32 b 140 |}.

Definition table_bytes (t : list MFS4Inode) : list Z := mjoin (inode_bytes <$> t).
Definition table_of (raw : list Z) : list MFS4Inode :=
  (fun k => inode_of (take 144 (drop (Z.to_nat (144 * k)) raw))) <$> seqZ 0 MFS4_MAX_INODES.

(** Sector [k] of the image, zero-filled past the end of the table. *)
Definition table_sector (raw : list Z) (k : Z) : list Z :=
  let n := Z.min 512 (MFS4_INODE_BYTES - 512 * k) in
  take (Z.to_nat n) (drop (Z.to_nat (512 * k)) raw) ++ replicate (Z.to_nat (512 - n)) 0.

Definition meta_sector (next : Z) : list Z := [77; 70; 83; 52] ++ Fs.le32 next ++ replicate 504 0.

(** [path_dirname]: the part before the last slash, cut to the buffer. *)
Definition last_slash (p : list Z) : Z :=
  foldl (fun last i => if (cstr p).[i] =? 47 then i else last) (-1) (seqZ 0 (c_strlen p)).
Definition path_dirname (p : list Z) (dir_sz : Z) : list Z :=
  let last := last_slash p in
  if last <? 0 then [0] else take (Z.to_nat (if last <? dir_sz - 1 then last else dir_sz - 1)) p ++ [0].

Section Mfs4.
Context {H : Type} `{!Allocator H} {D : Type} `{!BlockDevice D}.

(** [resolved] is the static buffer of [mfs4_resolve]. *)
Record State := { inodes : list MFS4Inode; next_inode_id : Z; resolved : list Z; fs : Fs.State H D }.
#[global] Instance settable_State : Settable State := {| rebuild s :=
  {| inodes := inodes s; next_inode_id := next_inode_id s; resolved := resolved s; fs := fs s |} |}.

Definition node (s : State) (i : Z) : MFS4Inode := (inodes s).[i].
Definition set_node (i : Z) (n : MFS4Inode) (s : State) : State := s <| inodes := (inodes s).[i <- n] |>.
Definition disk (s : State) : D := Fs.disk (fs s).

Definition has_path (p : list Z) (n : MFS4Inode) : bool := truth (used n) && c_streq (path n) p.
Definition find_inode (p : list Z) (s : State) : option Z :=
  scan (fun i => has_path p (node s i)) 0 (Z.to_nat MFS4_MAX_INODES).
Definition alloc_inode (s : State) : option Z :=
  scan (fun i => negb (truth (used (node s i)))) 0 (Z.to_nat MFS4_MAX_INODES).

(** *** The image of the table on the disk *)

Definition mfs4_flush (s : State) : State :=
  if negb (ata_disk_present (disk s)) then s
  else
    let d := ata_write_sector (disk s) MFS4_LBA_META (meta_sector (next_inode_id s)) in
    let raw := table_bytes (inodes s) in
    let d := iter (fun k d => ata_write_sector d (MFS4_LBA_DATA + k) (table_sector raw k))
               0 (Z.to_nat MFS4_INODE_SECTS) d in
    s <| fs := (fs s) <| Fs.disk := d |> |>.

(** The sectors read over the table; false when a read failed. *)
Fixpoint load_table (n : nat) (d : D) (k : Z) (raw : list Z) : list Z * bool :=
  match n with
  | O => (raw, true)
  | S n =>
      match ata_read_sector d (MFS4_LBA_DATA + k) with
      | None => (raw, false)
      | Some sec =>
          let m := Z.min 512 (MFS4_INODE_BYTES - 512 * k) in
          load_table n d (k + 1)
            (take (Z.to_nat (512 * k)) raw ++ take (Z.to_nat m) sec ++ drop (Z.to_nat (512 * k + m)) raw)
      end
  end.

Definition mfs4_load (s : State) : State * Z :=
  if negb (ata_disk_present (disk s)) then (s, -1)
  else match ata_read_sector (disk s) MFS4_LBA_META with
  | None => (s, -1)
  | Some b =>
      if negb ((b.[0] =? 77) && (b.[1] =? 70) && (b.[2] =? 83) && (b.[3] =? 52)) then (s, -1)
      else
        let s := s <| next_inode_id := Fs.of_le32 b 4 |> in
        let '(raw, ok) := load_table (Z.to_nat MFS4_INODE_SECTS) (disk s) 0 (table_bytes (inodes s)) in
        (s <| inodes := table_of raw |>, if ok then 0 else -1)
  end.

(** *** Registration *)

(** A fresh inode for [p] with its own number; [pad] keeps what the slot had. *)
Definition new_inode (i ty : Z) (p tgt : list Z) (ct mt : Z) (s : State) : State :=
  set_node i ((node s i) <| used := 1 |> <| type := ty |> <| inode_id := next_inode_id s |>
                <| path := c_strcpy (path (node s i)) p MFS4_PATH_LEN |>
                <| target := c_strcpy (target (node s i)) tgt MFS4_PATH_LEN |> <| ctime := ct |> <| mtime := mt |>)
    (s <| next_inode_id := u32 (next_inode_id s + 1) |>).

(** One MFS3 entry of the scan; [None] leaves the loop. *)
Definition register_entry (f : Fs.FSFile) (s : State) : option State :=
  if negb (truth (Fs.used f)) then Some s
  else
    let t := if Fs.is_dir f then MFS4_TYPE_DIR else MFS4_TYPE_FILE in
    match alloc_inode s with
    | None => None
    | Some i => Some (new_inode i t (Fs.name f) (Fs.name f) (Fs.ctime f) (Fs.mtime f) s)
    end.

Fixpoint register_all (tbl : list Fs.FSFile) (s : State) : State :=
  match tbl with
  | [] => s
  | f :: tbl => match register_entry f s with None => s | Some s => register_all tbl s end
  end.

Definition mfs4_init (s : State) : State :=
  let s := s <| inodes := (fun n => n <| used := 0 |>) <$> inodes s |> <| next_inode_id := 1 |> in
  let '(s, r) := mfs4_load s in
  if r =? 0 then s else register_all (Fs.fs_get_table (fs s)) s.

(** *** Paths *)

(** The loop of [mfs4_resolve]; out of depth, the result is the empty path. *)
Fixpoint resolve_loop (depth : nat) (s : State) : State :=
  match depth with
  | O => s <| resolved := (resolved s).[0 <- 0] |>
  | S depth =>
      match find_inode (resolved s) s with
      | Some i =>
          if type (node s i) =? MFS4_TYPE_SYMLINK
          then resolve_loop depth (s <| resolved := c_strcpy (resolved s) (target (node s i)) MFS4_PATH_LEN |>)
          else s
      | None => s
      end
  end.

Definition mfs4_resolve (p : list Z) (max_depth : Z) (s : State) : State :=
  resolve_loop (Z.to_nat max_depth) (s <| resolved := c_strcpy (resolved s) p MFS4_PATH_LEN |>).

Definition mfs4_symlink (tick : Z) (link_path target_path : list Z) (s : State) : State * Z :=
  match find_inode link_path s with
  | Some _ => (s, -1)
  | None =>
      match alloc_inode s with
      | None => (s, -1)
      | Some i => (new_inode i MFS4_TYPE_SYMLINK link_path target_path tick tick s, 0)
      end
  end.

Definition mfs4_hardlink (tick : Z) (link_path original_path : list Z) (s : State) : State * Z :=
  match find_inode link_path s with
  | Some _ => (s, -1)
  | None =>
      match find_inode original_path s with
      | None => (s, -1)
      | Some o =>
          if negb (type (node s o) =? MFS4_TYPE_FILE) then (s, -1)
          else match alloc_inode s with
          | None => (s, -1)
          | Some i =>
              (set_node i ((node s i) <| used := 1 |> <| type := MFS4_TYPE_FILE |> <| inode_id := inode_id (node s o) |>
                             <| path := c_strcpy (path (node s i)) link_path MFS4_PATH_LEN |>
                             <| target := c_strcpy (target (node s i)) (target (node s o)) MFS4_PATH_LEN |>
                             <| ctime := tick |> <| mtime := tick |>) s, 0)
          end
      end
  end.

Definition mfs4_mkdir (tick : Z) (p : list Z) (s : State) : State * Z :=
  if cget p 0 =? 0 then (s, -1)
  else match find_inode p s with
  | Some _ => (s, -1)
  | None =>
      let s := s <| fs := fst (Fs.fs_mkdir tick p (fs s)) |> in
      match alloc_inode s with
      | None => (s, -1)
      | Some i => (new_inode i MFS4_TYPE_DIR p p tick tick s, 0)
      end
  end.

(** The inode's data as MFS3 reports it: size and permissions. *)
Definition stat_node (s : State) (n : MFS4Inode) : MFS4Stat :=
  {| st_type := type n; st_ctime := ctime n; st_mtime := mtime n;
     st_size := if type n =? MFS4_TYPE_FILE
                then match Fs.fs_read_bin (target n) (fs s) with Some (_, sz) => sz | None => 0 end else 0;
     st_perms := if type n =? MFS4_TYPE_FILE then Fs.fs_get_perms (target n) (fs s)
                 else if type n =? MFS4_TYPE_DIR then Z.lor Fs.FS_PERM_DIR Fs.FS_PERM_READ else 0 |}.

Definition mfs4_stat (p : list Z) (s : State) : State * option MFS4Stat :=
  let s := mfs4_resolve p 8 s in
  match find_inode (resolved s) s with
  | None => (s, None)
  | Some i => (s, Some (stat_node s (node s i)))
  end.

(** Is [p] directly below [dir]? *)
Definition is_child (dir p : list Z) : bool :=
  let dl := c_strlen dir in
  if dl =? 0 then negb (Fs.has_slash p)
  else (dl + 1 <? c_strlen p) && (cget p dl =? 47)
       && forallb (fun j => cget p j =? cget dir j) (seqZ 0 dl)
       && negb (Fs.has_slash (drop (Z.to_nat (dl + 1)) p)).

Definition base_name (p : list Z) : list Z := drop (Z.to_nat (last_slash p + 1)) (cstr p).

(** The loop of [mfs4_listdir]: the bytes written and the count. *)
Fixpoint listdir_loop (t : list MFS4Inode) (dir : list Z) (bufsz : Z) (out : list Z) (count : Z) : list Z * Z :=
  match t with
  | [] => (out, count)
  | n :: t =>
      if negb (truth (used n)) || negb (is_child dir (path n)) then listdir_loop t dir bufsz out count
      else
        let name := base_name (path n) in
        if bufsz <=? zlen out + zlen name + 2 then (out, count)
        else listdir_loop t dir bufsz
               (out ++ name ++ (if type n =? MFS4_TYPE_DIR then [47] else []) ++ [10]) (count + 1)
  end.

Definition mfs4_listdir (dir : list Z) (bufsz : Z) (s : State) : list Z * Z :=
  let '(out, count) := listdir_loop (inodes s) dir bufsz [] 0 in
  (if zlen out <? bufsz then out ++ [0] else out, count).

(** [inodes[i].used && inodes[i].type == MFS4_TYPE_FILE && inodes[i].inode_id == id] *)
Definition is_link (id : Z) (n : MFS4Inode) : bool :=
  truth (used n) && (type n =? MFS4_TYPE_FILE) && (inode_id n =? id).
Definition link_count (id : Z) (s : State) : Z := zlen (filter (fun n => is_link id n) (inodes s)).

Definition mfs4_unlink (p : list Z) (s : State) : State * Z :=
  match find_inode p s with
  | None => (s, -1)
  | Some i =>
      let n := node s i in
      let s := if (type n =? MFS4_TYPE_FILE) && (link_count (inode_id n) s <=? 1)
               then s <| fs := fst (Fs.fs_delete (target n) (fs s)) |> else s in
      (set_node i ((node s i) <| used := 0 |>) s, 0)
  end.

Definition mfs4_register (tick : Z) (p : list Z) (ty : Z) (s : State) : State * Z :=
  if cget p 0 =? 0 then (s, -1)
  else match find_inode p s with
  | Some _ => (s, 0)
  | None =>
      match alloc_inode s with
      | None => (s, -1)
      | Some i => (new_inode i ty p p tick tick s, 0)
      end
  end.

(** The loop that gives every hard link of the renamed file its new target. *)
Definition retarget (id : Z) (new : list Z) (n : MFS4Inode) : MFS4Inode :=
  if is_link id n then n <| target := c_strcpy (target n) new MFS4_PATH_LEN |> else n.

Definition mfs4_rename (tick : Z) (old new : list Z) (s : State) : State * Z :=
  match find_inode old s with
  | None => (s, -1)
  | Some i =>
      match find_inode new s with
      | Some _ => (s, -1)
      | None =>
          let n := node s i in
          let moved :=
            if type n =? MFS4_TYPE_FILE then
              let '(f, r) := Fs.fs_rename tick (target n) new (fs s) in
              if negb (r =? 0) then (s <| fs := f |>, false)
              else (s <| fs := f |> <| inodes := retarget (inode_id n) new <$> inodes s |>, true)
            else (s, true) in
          let '(s, ok) := moved in
          if negb ok then (s, -1)
          else (set_node i ((node s i) <| path := c_strcpy (path (node s i)) new MFS4_PATH_LEN |> <| mtime := tick |>) s, 0)
      end
  end.

(** [fs_flush] of fs.c: the dirty MFS3 slots, then the inode table. *)
Definition fs_flush (s : State) : State * Z :=
  if negb (ata_disk_present (disk s)) then (s, 0)
  else
    let '(f, count) := Fs.fs_flush_files (fs s) in
    (mfs4_flush (s <| fs := f |>), count).

(** ** The image of the table *)

Record node_ranged (n : MFS4Inode) : Prop := {
  n_path : length (path n) = 64%nat; n_target : length (target n) = 64%nat;
  n_pad : 0 <= pad n < 2 ^ 16; n_id : 0 <= inode_id n < 2 ^ 32;
  n_ctime : 0 <= ctime n < 2 ^ 32; n_mtime : 0 <= mtime n < 2 ^ 32 }.

Definition table_ranged (t : list MFS4Inode) : Prop := length t = 128%nat /\ Forall node_ranged t.

Lemma inode_bytes_length n : length (path n) = 64%nat -> length (target n) = 64%nat -> length (inode_bytes n) = 144%nat.
Proof. intros Hp Ht. unfold inode_bytes. rewrite !length_app, Hp, Ht. reflexivity. Qed.

Lemma slice_app {A} (p m q : list A) n k : length p = n -> length m = k -> take k (drop n (p ++ m ++ q)) = m.
Proof. intros <- <-. rewrite drop_app_length. apply take_app_length. Qed.

Lemma aget_slice (p m q : list Z) k : 0 <= k < zlen m -> (p ++ m ++ q).[zlen p + k] = m.[k].
Proof.
  intros Hk. unfold aget, zlen in *. rewrite lookup_total_app_r by lia. rewrite lookup_total_app_l by lia. f_equal. lia.
Qed.

Lemma inode_of_bytes n : node_ranged n -> inode_of (inode_bytes n) = n.
Proof.
  intros [Hp Ht Hpad Hid Hc Hm].
  assert (forall (p m q : list Z) a k, inode_bytes n = p ++ m ++ q -> zlen p = a -> 0 <= k < zlen m ->
            (inode_bytes n).[a + k] = m.[k]) as Hat by (intros p m q a k -> <-; apply aget_slice).
  assert (Fs.of_le16 (inode_bytes n) 2 = pad n) as E1.
  { apply Fs.of_le16_le16; [exact Hpad|]. intros k Hk.
    by apply (Hat [type n; used n] _ (Fs.le32 (inode_id n) ++ path n ++ target n ++ Fs.le32 (ctime n) ++ Fs.le32 (mtime n))). }
  assert (Fs.of_le32 (inode_bytes n) 4 = inode_id n) as E2.
  { apply Fs.of_le32_le32; [exact Hid|]. intros k Hk.
    by apply (Hat ([type n; used n] ++ Fs.le16 (pad n)) _ (path n ++ target n ++ Fs.le32 (ctime n) ++ Fs.le32 (mtime n))). }
  assert (zlen ([type n; used n] ++ Fs.le16 (pad n) ++ Fs.le32 (inode_id n) ++ path n ++ target n) = 136) as HL
    by (unfold zlen; rewrite !length_app, Hp, Ht; reflexivity).
  assert (Fs.of_le32 (inode_bytes n) 136 = ctime n) as E3.
  { apply Fs.of_le32_le32; [exact Hc|]. intros k Hk.
    apply (Hat ([type n; used n] ++ Fs.le16 (pad n) ++ Fs.le32 (inode_id n) ++ path n ++ target n) _ (Fs.le32 (mtime n))); [|exact HL|exact Hk]. unfold inode_bytes. by rewrite <- !app_assoc. }
  assert (Fs.of_le32 (inode_bytes n) 140 = mtime n) as E4.
  { apply Fs.of_le32_le32; [exact Hm|]. intros k Hk.
    apply (Hat (([type n; used n] ++ Fs.le16 (pad n) ++ Fs.le32 (inode_id n) ++ path n ++ target n) ++ Fs.le32 (ctime n)) _ []);
      [|unfold zlen in *; rewrite length_app; change (length (Fs.le32 (ctime n))) with 4%nat; lia|exact Hk].
    unfold inode_bytes. by rewrite app_nil_r, <- !app_assoc. }
  assert (take 64 (drop 8 (inode_bytes n)) = path n) as E5
    by (by apply (slice_app ([type n; used n] ++ Fs.le16 (pad n) ++ Fs.le32 (inode_id n)))).
  assert (take 64 (drop 72 (inode_bytes n)) = target n) as E6.
  { unfold inode_bytes.
    replace ([type n; used n] ++ Fs.le16 (pad n) ++ Fs.le32 (inode_id n) ++ path n ++ target n ++ Fs.le32 (ctime n) ++ Fs.le32 (mtime n))
      with (([type n; used n] ++ Fs.le16 (pad n) ++ Fs.le32 (inode_id n) ++ path n) ++ target n ++ Fs.le32 (ctime n) ++ Fs.le32 (mtime n))
      by (by rewrite <- !app_assoc).
    apply slice_app; [|exact Ht]. rewrite !length_app, Hp. reflexivity. }
  unfold inode_of. rewrite E1, E2, E3, E4, E5, E6. by destruct n.
Qed.

Lemma length_table t : Forall (fun n => length (inode_bytes n) = 144%nat) t -> length (table_bytes t) = (144 * length t)%nat.
Proof.
  induction 1 as [|n t Hn _ IH]; [done|].
  change (table_bytes (n :: t)) with (inode_bytes n ++ table_bytes t). rewrite length_app, Hn, IH. simpl. lia.
Qed.

Lemma table_slice t : Forall (fun n => length (inode_bytes n) = 144%nat) t -> forall k n,
  t !! k = Some n -> take 144 (drop (144 * k) (table_bytes t)) = inode_bytes n.
Proof.
  induction 1 as [|m t Hm _ IH]; intros k n Hk; [done|].
  change (table_bytes (m :: t)) with (inode_bytes m ++ table_bytes t).
  destruct k as [|k]; simpl in Hk.
  - simplify_eq. rewrite Nat.mul_0_r, drop_0. rewrite <- Hm. apply take_app_length.
  - replace (144 * S k)%nat with (length (inode_bytes m) + 144 * k)%nat by lia.
    rewrite drop_app_add. by apply IH.
Qed.

Lemma ranged_bytes t : Forall node_ranged t -> Forall (fun n => length (inode_bytes n) = 144%nat) t.
Proof. intros Hr. eapply Forall_impl; [exact Hr|]. intros n [? ? _ _ _ _]. by apply inode_bytes_length. Qed.

Lemma table_of_bytes t : table_ranged t -> table_of (table_bytes t) = t.
Proof.
  intros [Hl Hr]. apply list_eq. intros k. unfold table_of. rewrite list_lookup_fmap.
  destruct (decide (k < 128)%nat) as [Hk|Hk].
  - rewrite lookup_seqZ_lt by (unfold MFS4_MAX_INODES; lia). simpl.
    destruct (lookup_lt_is_Some_2 t k ltac:(lia)) as [n Hn].
    replace (Z.to_nat (144 * (0 + Z.of_nat k))) with (144 * k)%nat by lia.
    rewrite (table_slice t (ranged_bytes t Hr) k n Hn), inode_of_bytes; [done|]. by apply (Forall_lookup_1 _ _ _ _ Hr Hn).
  - rewrite lookup_seqZ_ge by (unfold MFS4_MAX_INODES; lia). by rewrite lookup_ge_None_2 by lia.
Qed.

(** *** The disk after a flush *)

Lemma sects : MFS4_INODE_SECTS = 36.
Proof. reflexivity. Qed.

Lemma table_sector_full raw k :
  0 <= k < 36 -> table_sector raw k = take 512 (drop (Z.to_nat (512 * k)) raw).
Proof.
  intros Hk. unfold table_sector. change MFS4_INODE_BYTES with 18432. rewrite Z.min_l by lia.
  rewrite Z.sub_diag, app_nil_r. reflexivity.
Qed.

Lemma length_sector raw k : zlen raw = 18432 -> 0 <= k < 36 -> length (table_sector raw k) = 512%nat.
Proof. intros Hr Hk. rewrite table_sector_full by done. unfold zlen in Hr. rewrite length_take, length_drop. lia. Qed.

Context `{!ReliableDevice D}.

Lemma flush_sectors s :
  reliable (disk s) -> zlen (table_bytes (inodes s)) = 18432 ->
  let d := disk (mfs4_flush s) in
  reliable d /\
  ata_read_sector d 513 = Some (meta_sector (next_inode_id s)) /\
  (forall k, 0 <= k < 36 -> ata_read_sector d (514 + k) = Some (table_sector (table_bytes (inodes s)) k)) /\
  forall l, ~ 513 <= l < 550 -> ata_read_sector d l = ata_read_sector (disk s) l.
Proof.
  intros Hr Hl. unfold mfs4_flush. rewrite (reliable_present _ Hr). cbn [negb]. cbv zeta.
  rewrite sects. change (Z.to_nat 36) with 36%nat. unfold MFS4_LBA_META, MFS4_LBA_DATA.
  set (d0 := ata_write_sector (disk s) 513 (meta_sector (next_inode_id s))).
  pose proof (reliable_write (disk s) 513 (meta_sector (next_inode_id s)) Hr) as Hr0. fold d0 in Hr0.
  set (raw := table_bytes (inodes s)) in *.
  match goal with |- context [iter ?g 0 36 d0] => set (d1 := iter g 0 36 d0); set (step := g) in * end.
  change (disk (s <| fs := (fs s) <| Fs.disk := d1 |> |>)) with d1.
  enough (reliable d1 /\ forall l, ata_read_sector d1 l =
            if decide (514 <= l < 514 + 36) then Some (table_sector raw (l - 514)) else ata_read_sector d0 l) as [Hr1 Hd1].
  { split_and!; [exact Hr1|..].
    - rewrite Hd1, decide_False by lia. by apply read_write.
    - intros k Hk. rewrite Hd1, decide_True by lia. do 2 f_equal. lia.
    - intros l Hl'. rewrite Hd1, decide_False by lia. apply read_write_ne; [done|lia]. }
  refine (iter_ind (fun k d => reliable d /\ forall l, ata_read_sector d l =
            if decide (514 <= l < 514 + k) then Some (table_sector raw (l - 514)) else ata_read_sector d0 l) step 36 0 d0 _ _).
  - split; [exact Hr0|]. intros l. by rewrite decide_False by lia.
  - intros k d Hk [Hrd Hd]. split; [by apply reliable_write|]. intros l. unfold step.
    destruct (decide (l = 514 + k)) as [->|Hne].
    + rewrite read_write by (done || by apply length_sector). rewrite decide_True by lia. do 2 f_equal. lia.
    + rewrite read_write_ne by (done || congruence). rewrite Hd. repeat case_decide; done || lia.
Qed.

Lemma load_table_spec d raw n : forall k raw0,
  zlen raw = 18432 -> zlen raw0 = 18432 -> 0 <= k -> Z.of_nat n + k = 36 ->
  (forall k, 0 <= k < 36 -> ata_read_sector d (514 + k) = Some (table_sector raw k)) ->
  load_table n d k raw0 = (take (Z.to_nat (512 * k)) raw0 ++ drop (Z.to_nat (512 * k)) raw, true).
Proof.
  induction n as [|n IH]; intros k raw0 Hr Hr0 Hk Hn Hd; cbn [load_table].
  - unfold zlen in *. rewrite (take_ge raw0), (drop_ge raw), app_nil_r by lia. done.
  - unfold MFS4_LBA_DATA. rewrite Hd by lia. change MFS4_INODE_BYTES with 18432. rewrite Z.min_l by lia. cbv zeta.
    rewrite table_sector_full by lia. set (a := take (Z.to_nat (512 * k)) raw0).
    change (Z.to_nat 512) with 512%nat. unfold zlen in *. rewrite take_take, Nat.min_id.
    set (m := take 512 (drop (Z.to_nat (512 * k)) raw)).
    assert (length a = Z.to_nat (512 * k)) as Ha by (unfold a; rewrite length_take; lia).
    assert (length m = 512%nat) as Hm by (unfold m; rewrite length_take, length_drop; lia).
    rewrite IH; [|done| |lia|lia|done].
    + f_equal. rewrite app_assoc, take_app_le by (rewrite length_app; lia). rewrite take_ge by (rewrite length_app; lia).
      rewrite <- app_assoc. f_equal. unfold m. replace (Z.to_nat (512 * (k + 1))) with (Z.to_nat (512 * k) + 512)%nat by lia.
      rewrite <- drop_drop. by rewrite take_drop.
    + rewrite !length_app, length_drop. lia.
Qed.

Lemma le32_wf_meta next : 0 <= next < 2 ^ 32 -> Fs.of_le32 (meta_sector next) 4 = next.
Proof.
  intros Hn. apply Fs.of_le32_le32; [exact Hn|]. intros k Hk. unfold meta_sector. by apply (aget_slice [77; 70; 83; 52]).
Qed.

Lemma ranged_size t : table_ranged t -> zlen (table_bytes t) = 18432.
Proof. intros [Hl Hr]. unfold zlen. rewrite (length_table t (ranged_bytes t Hr)), Hl. reflexivity. Qed.

Lemma load_flushed s s' :
  reliable (disk s) -> table_ranged (inodes s) -> 0 <= next_inode_id s < 2 ^ 32 ->
  disk s' = disk (mfs4_flush s) -> zlen (table_bytes (inodes s')) = 18432 ->
  mfs4_load s' = (s' <| next_inode_id := next_inode_id s |> <| inodes := inodes s |>, 0).
Proof.
  intros Hr Ht Hn Hd Hl'. destruct (flush_sectors s Hr (ranged_size _ Ht)) as (Hr1 & Hm & Hs & _).
  rewrite <- Hd in Hr1, Hm, Hs. unfold mfs4_load. rewrite (reliable_present _ Hr1). cbn [negb].
  unfold MFS4_LBA_META. rewrite Hm.
  change ((meta_sector (next_inode_id s)).[0]) with 77. change ((meta_sector (next_inode_id s)).[1]) with 70.
  change ((meta_sector (next_inode_id s)).[2]) with 83. change ((meta_sector (next_inode_id s)).[3]) with 52.
  change (negb ((77 =? 77) && (70 =? 70) && (83 =? 83) && (52 =? 52))) with false. cbv iota zeta.
  rewrite le32_wf_meta by done. rewrite sects. change (Z.to_nat 36) with 36%nat.
  set (s1 := s' <| next_inode_id := next_inode_id s |>).
  change (inodes s1) with (inodes s'). change (disk s1) with (disk s').
  rewrite (load_table_spec (disk s') (table_bytes (inodes s)) 36 0 _ (ranged_size _ Ht) Hl' ltac:(lia) eq_refl Hs).
  cbn [Z.mul Z.to_nat take drop app]. change (Z.to_nat (512 * 0)) with 0%nat. rewrite take_0, drop_0. cbn [app].
  by rewrite table_of_bytes.
Qed.

(** ** The inode table *)

(** Paths are unique, numbers in use are below the next one, and the hard links of
    a file agree on the MFS3 name of its data. *)
Record ok (s : State) : Prop := {
  ok_len : length (inodes s) = 128%nat;
  ok_str : forall i, 0 <= i < 128 -> length (path (node s i)) = 64%nat /\ length (target (node s i)) = 64%nat;
  ok_fit : forall i, 0 <= i < 128 -> used (node s i) <> 0 ->
             c_strlen (path (node s i)) < 64 /\ c_strlen (target (node s i)) < 64;
  ok_uniq : forall i j, 0 <= i < 128 -> 0 <= j < 128 -> used (node s i) <> 0 -> used (node s j) <> 0 ->
              cstr (path (node s i)) = cstr (path (node s j)) -> i = j;
  ok_id : forall i, 0 <= i < 128 -> used (node s i) <> 0 -> inode_id (node s i) < next_inode_id s;
  ok_links : forall i j id, 0 <= i < 128 -> 0 <= j < 128 -> is_link id (node s i) = true -> is_link id (node s j) = true ->
               cstr (target (node s i)) = cstr (target (node s j));
}.

Lemma node_set i n s j :
  length (inodes s) = 128%nat -> 0 <= i < 128 -> 0 <= j -> node (set_node i n s) j = if decide (i = j) then n else node s j.
Proof. intros Hl Hi Hj. unfold node, set_node. simpl. apply aget_aset; [unfold zlen; lia|done]. Qed.

Lemma has_path_spec p n : has_path p n = true <-> used n <> 0 /\ cstr (path n) = cstr p.
Proof. unfold has_path, truth. rewrite andb_true_iff, negb_true_iff, Z.eqb_neq, c_streq_spec. done. Qed.

Lemma find_inode_Some p s i : find_inode p s = Some i -> 0 <= i < 128 /\ used (node s i) <> 0 /\ cstr (path (node s i)) = cstr p.
Proof. intros (Hi & Hp%has_path_spec & _)%scan_Some. unfold MFS4_MAX_INODES in Hi. split; [lia|exact Hp]. Qed.

Lemma find_inode_None p s : find_inode p s = None ->
  forall i, 0 <= i < 128 -> used (node s i) <> 0 -> cstr (path (node s i)) <> cstr p.
Proof.
  intros E i Hi Hu He. pose proof (scan_None _ _ _ E i Hi) as Hn. cbv beta in Hn.
  by rewrite (proj2 (has_path_spec p (node s i)) (conj Hu He)) in Hn.
Qed.

Lemma alloc_inode_Some s i : alloc_inode s = Some i -> 0 <= i < 128 /\ used (node s i) = 0.
Proof.
  intros (Hi & Hu & _)%scan_Some. unfold MFS4_MAX_INODES in Hi. apply negb_true_iff, Fs.truth_false in Hu. split; [lia|done].
Qed.

Lemma find_inode_eq p s i : ok s -> 0 <= i < 128 -> used (node s i) <> 0 -> cstr (path (node s i)) = cstr p -> find_inode p s = Some i.
Proof.
  intros Hok Hi Hu Hp. apply scan_first; [unfold MFS4_MAX_INODES; lia|by apply has_path_spec|].
  intros j Hj. destruct (has_path p (node s j)) eqn:E; [|done]. apply has_path_spec in E as [Huj Hpj].
  assert (j = i) by (apply (ok_uniq s Hok); [lia|lia|done|done|congruence]). lia.
Qed.

Lemma is_link_spec id n : is_link id n = true <-> used n <> 0 /\ type n = MFS4_TYPE_FILE /\ inode_id n = id.
Proof. unfold is_link, truth. rewrite !andb_true_iff, negb_true_iff, Z.eqb_neq, !Z.eqb_eq. tauto. Qed.

(** A new inode in a free slot. *)
Lemma add_node_ok s i n nxt :
  ok s -> 0 <= i < 128 -> used (node s i) = 0 ->
  length (path n) = 64%nat -> length (target n) = 64%nat -> c_strlen (path n) < 64 -> c_strlen (target n) < 64 ->
  inode_id n < nxt -> next_inode_id s <= nxt ->
  (forall j, 0 <= j < 128 -> used (node s j) <> 0 -> cstr (path (node s j)) <> cstr (path n)) ->
  (forall j id, 0 <= j < 128 -> is_link id n = true -> is_link id (node s j) = true -> cstr (target n) = cstr (target (node s j))) ->
  ok (set_node i n (s <| next_inode_id := nxt |>)).
Proof.
  intros [L Str Fit Un Id Li] Hi Hu Hp Ht Hpf Htf Hid Hnx Hnew Hlk.
  assert (forall j, 0 <= j < 128 -> node (set_node i n (s <| next_inode_id := nxt |>)) j = if decide (i = j) then n else node s j) as E
    by (intros j Hj; refine (node_set i n (s <| next_inode_id := nxt |>) j L Hi _); lia).
  split.
  - cbn. by rewrite length_aset.
  - intros j Hj. rewrite E by done. case_decide; [done|by apply Str].
  - intros j Hj. rewrite E by done. case_decide; [done|by apply Fit].
  - intros j k Hj Hk. rewrite !E by done. repeat case_decide; subst; try done.
    + intros _ Huk He. by destruct (Hnew k Hk Huk).
    + intros Huj _ He. by destruct (Hnew j Hj Huj).
    + by apply Un.
  - intros j Hj. rewrite E by done. change (next_inode_id (set_node i n (s <| next_inode_id := nxt |>))) with nxt.
    case_decide; [done|]. intros Huj. specialize (Id j Hj Huj). lia.
  - intros j k id Hj Hk. rewrite !E by done. repeat case_decide; subst; try done.
    + intros G1 G2. by apply (Hlk k id).
    + intros G1 G2. symmetry. by apply (Hlk j id).
    + by apply Li.
Qed.

Lemma str_copy old new : length old = 64%nat -> c_strlen new < 64 ->
  length (c_strcpy old new MFS4_PATH_LEN) = 64%nat /\ cstr (c_strcpy old new MFS4_PATH_LEN) = cstr new /\
  c_strlen (c_strcpy old new MFS4_PATH_LEN) < 64.
Proof.
  intros Hl Hn. assert (cstr (c_strcpy old new MFS4_PATH_LEN) = cstr new) as E by (by apply cstr_strcpy_fits).
  split_and!; [|done|unfold c_strlen; by rewrite E]. rewrite length_c_strcpy; [done|done|by rewrite Hl].
Qed.

Lemma new_inode_ok s i ty p tgt ct mt :
  ok s -> alloc_inode s = Some i -> find_inode p s = None -> c_strlen p < 64 -> c_strlen tgt < 64 ->
  0 <= next_inode_id s < 2 ^ 32 - 1 -> ok (new_inode i ty p tgt ct mt s).
Proof.
  intros Hok (Hi & Hu)%alloc_inode_Some Hf Hp Ht Hn. unfold new_inode. rewrite u32_small by lia.
  destruct (ok_str s Hok i Hi) as [S1 S2]. destruct (str_copy _ p S1 Hp) as (P1 & P2 & P3).
  destruct (str_copy _ tgt S2 Ht) as (T1 & T2 & T3).
  apply add_node_ok; try done; try (simpl; lia).
  - intros j Hj Huj. simpl. rewrite P2. by apply (find_inode_None p s Hf).
  - intros j id Hj (_ & _ & <-)%is_link_spec (Huj & _ & He)%is_link_spec. simpl in He.
    pose proof (ok_id s Hok j Hj Huj). lia.
Qed.

Lemma used_zero_ok s i : ok s -> 0 <= i < 128 -> ok (set_node i ((node s i) <| used := 0 |>) s).
Proof.
  intros [L Str Fit Un Id Li] Hi.
  pose proof (fun j Hj => node_set i ((node s i) <| used := 0 |>) s j L Hi Hj) as E.
  split.
  - cbn. by rewrite length_aset.
  - intros j Hj. rewrite E by lia. case_decide; subst; by apply Str.
  - intros j Hj. rewrite E by lia. case_decide; [done|by apply Fit].
  - intros j k Hj Hk. rewrite !E by lia. repeat case_decide; try done. by apply Un.
  - intros j Hj. rewrite E by lia. case_decide; [done|by apply Id].
  - intros j k id Hj Hk. rewrite !E by lia. repeat case_decide; try done. by apply Li.
Qed.

Lemma fs_irrelevant_ok s f : ok s -> ok (s <| fs := f |>).
Proof. intros [? ? ? ? ? ?]. by split. Qed.

Lemma node_retarget id new (s : State) i :
  length (inodes s) = 128%nat -> 0 <= i < 128 ->
  node (s <| inodes := retarget id new <$> inodes s |>) i = retarget id new (node s i).
Proof.
  intros Hl Hi. unfold node, aget. simpl. apply list_lookup_total_fmap. lia.
Qed.

Lemma retarget_same id new n :
  used (retarget id new n) = used n /\ path (retarget id new n) = path n /\ inode_id (retarget id new n) = inode_id n /\
  type (retarget id new n) = type n.
Proof. unfold retarget. by destruct (is_link id n). Qed.

Lemma is_link_retarget id new k n : is_link k (retarget id new n) = is_link k n.
Proof. unfold is_link. by destruct (retarget_same id new n) as (-> & _ & -> & ->). Qed.

Lemma retarget_ok id new s : ok s -> c_strlen new < 64 -> ok (s <| inodes := retarget id new <$> inodes s |>).
Proof.
  intros [L Str Fit Un Id Li] Hn.
  assert (forall i, 0 <= i < 128 -> length (target (retarget id new (node s i))) = 64%nat /\
            (c_strlen (target (node s i)) < 64 -> c_strlen (target (retarget id new (node s i))) < 64) /\
            cstr (target (retarget id new (node s i))) = if is_link id (node s i) then cstr new else cstr (target (node s i))) as Ht.
  { intros i Hi. destruct (Str i Hi) as [_ S2]. destruct (str_copy _ new S2 Hn) as (T1 & T2 & T3).
    unfold retarget. by destruct (is_link id (node s i)). }
  pose proof (node_retarget id new s) as E.
  split.
  - cbn. by rewrite length_fmap.
  - intros i Hi. rewrite E by done. destruct (retarget_same id new (node s i)) as (_ & -> & _).
    split; [by apply Str|by apply Ht].
  - intros i Hi. rewrite E by done. destruct (retarget_same id new (node s i)) as (-> & -> & _).
    intros Hu. destruct (Fit i Hi Hu). split; [done|]. by apply Ht.
  - intros i j Hi Hj. rewrite !E by done. destruct (retarget_same id new (node s i)) as (-> & -> & _).
    destruct (retarget_same id new (node s j)) as (-> & -> & _). by apply Un.
  - intros i Hi. rewrite E by done. destruct (retarget_same id new (node s i)) as (-> & _ & -> & _). by apply Id.
  - intros i j k Hi Hj. rewrite !E by done. rewrite !is_link_retarget. intros H1 H2.
    destruct (Ht i Hi) as (_ & _ & ->), (Ht j Hj) as (_ & _ & ->).
    destruct (decide (k = id)) as [->|Hk]; [by rewrite H1, H2|].
    apply is_link_spec in H1 as G1, H2 as G2. destruct G1 as (_ & _ & G1), G2 as (_ & _ & G2).
    destruct (is_link id (node s i)) eqn:B1; [apply is_link_spec in B1 as (_ & _ & B1); congruence|].
    destruct (is_link id (node s j)) eqn:B2; [apply is_link_spec in B2 as (_ & _ & B2); congruence|].
    by apply (Li i j k).
Qed.

(** *** Operations *)

Inductive Op :=
  | Symlink (tick : Z) (link tgt : list Z)
  | Hardlink (tick : Z) (link orig : list Z)
  | Mkdir (tick : Z) (p : list Z)
  | Register (tick : Z) (p : list Z) (ty : Z)
  | Unlink (p : list Z)
  | Rename (tick : Z) (old new : list Z).

Definition run (op : Op) (s : State) : State * Z :=
  match op with
  | Symlink tick link tgt => mfs4_symlink tick link tgt s
  | Hardlink tick link orig => mfs4_hardlink tick link orig s
  | Mkdir tick p => mfs4_mkdir tick p s
  | Register tick p ty => mfs4_register tick p ty s
  | Unlink p => mfs4_unlink p s
  | Rename tick old new => mfs4_rename tick old new s
  end.

(** Paths that fit in an inode. *)
Definition op_fits (op : Op) : Prop :=
  match op with
  | Symlink _ p q => c_strlen p < 64 /\ c_strlen q < 64
  | Hardlink _ p _ | Mkdir _ p | Register _ p _ | Rename _ _ p => c_strlen p < 64
  | Unlink _ => True
  end.

Lemma find_fs p s f : find_inode p (s <| fs := f |>) = find_inode p s.
Proof. reflexivity. Qed.

Lemma hardlink_ok tick link orig s : ok s -> c_strlen link < 64 -> ok (fst (mfs4_hardlink tick link orig s)).
Proof.
  intros Hok Hl. unfold mfs4_hardlink. destruct (find_inode link s) eqn:Ef; [done|].
  destruct (find_inode orig s) as [o|] eqn:Eo; [|done]. apply find_inode_Some in Eo as (Ho & Huo & _).
  destruct (Z.eqb_spec (type (node s o)) MFS4_TYPE_FILE) as [Hty|]; [|done]. cbn [negb].
  destruct (alloc_inode s) as [i|] eqn:Ea; [|done]. apply alloc_inode_Some in Ea as (Hi & Hui). cbn [fst].
  destruct (ok_str s Hok i Hi) as [S1 S2]. destruct (str_copy _ link S1 Hl) as (P1 & P2 & P3).
  destruct (ok_fit s Hok o Ho Huo) as [_ Hto]. destruct (str_copy _ (target (node s o)) S2 Hto) as (T1 & T2 & T3).
  match goal with |- ok (set_node i ?n s) => set (m := n) end.
  assert (set_node i m (s <| next_inode_id := next_inode_id s |>) = set_node i m s) as <- by (by destruct s).
  apply add_node_ok; try done.
  - simpl. by apply ok_id.
  - intros j Hj Huj. simpl. rewrite P2. by apply (find_inode_None link s Ef).
  - intros j id Hj (_ & _ & Hid)%is_link_spec Hlj. simpl in Hid |- *. rewrite T2.
    apply (ok_links s Hok o j id); [done|done|by apply is_link_spec|done].
Qed.

Lemma rename_ok tick old new s : ok s -> c_strlen new < 64 -> ok (fst (mfs4_rename tick old new s)).
Proof.
  intros Hok Hl. unfold mfs4_rename. destruct (find_inode old s) as [i|] eqn:Ei; [|done].
  apply find_inode_Some in Ei as (Hi & Hu & _). destruct (find_inode new s) eqn:En; [done|].
  assert (forall s', ok s' -> (forall j, 0 <= j < 128 -> used (node s' j) = used (node s j) /\ path (node s' j) = path (node s j)) ->
            ok (set_node i ((node s' i) <| path := c_strcpy (path (node s' i)) new MFS4_PATH_LEN |> <| mtime := tick |>) s')) as Hfin.
  { intros s' [L Str Fit Un Id Li] Hsame.
    set (n := (node s' i) <| path := _ |> <| mtime := tick |>).
    destruct (str_copy _ new (proj1 (Str i Hi)) Hl) as (P1 & P2 & P3).
    assert (forall j, 0 <= j < 128 -> used (node s' j) <> 0 -> cstr (path (node s' j)) <> cstr new) as Hnew.
    { intros j Hj. destruct (Hsame j Hj) as [-> ->]. by apply (find_inode_None new s En). }
    pose proof (fun j Hj => node_set i n s' j L Hi Hj) as E.
    split.
    - cbn. by rewrite length_aset.
    - intros j Hj. rewrite E by lia. case_decide; subst; [split; [done|by apply Str]|by apply Str].
    - intros j Hj. rewrite E by lia. case_decide; subst; [intros Huj; split; [done|by apply Fit]|by apply Fit].
    - intros j k Hj Hk. rewrite !E by lia. repeat case_decide; subst; try done.
      + unfold n. simpl. rewrite P2. intros _ Huk He. by destruct (Hnew k Hk Huk).
      + unfold n. simpl. rewrite P2. intros Huj _ He. by destruct (Hnew j Hj Huj).
      + by apply Un.
    - intros j Hj. rewrite E by lia. case_decide; subst; by apply Id.
    - intros j k id Hj Hk. rewrite !E by lia. repeat case_decide; subst; by apply (Li _ _ id). }
  destruct (type (node s i) =? MFS4_TYPE_FILE).
  - destruct (Fs.fs_rename tick (target (node s i)) new (fs s)) as [f r]. destruct (negb (r =? 0)).
    + by apply fs_irrelevant_ok.
    + cbn [negb fst]. apply Hfin; [exact (retarget_ok _ _ (s <| fs := f |>) (fs_irrelevant_ok s f Hok) Hl)|].
      intros j Hj. pose proof (node_retarget (inode_id (node s i)) new (s <| fs := f |>) j (ok_len s Hok) Hj) as E.
      split; [etransitivity; [exact (f_equal used E)|apply retarget_same]|etransitivity; [exact (f_equal path E)|apply retarget_same]].
  - cbn [negb fst]. by apply Hfin.
Qed.

Lemma run_ok op s : ok s -> op_fits op -> 0 <= next_inode_id s < 2 ^ 32 - 1 -> ok (fst (run op s)).
Proof.
  intros Hok Hf Hn. destruct op; simpl in *.
  - destruct Hf. unfold mfs4_symlink. destruct (find_inode link s) eqn:?; [done|].
    destruct (alloc_inode s) eqn:?; [|done]. by apply new_inode_ok.
  - by apply hardlink_ok.
  - unfold mfs4_mkdir. destruct (_ =? 0); [done|]. destruct (find_inode p s) eqn:?; [done|].
    set (f := fst (Fs.fs_mkdir tick p (fs s))). destruct (alloc_inode (s <| fs := f |>)) eqn:?; [|by apply fs_irrelevant_ok].
    apply new_inode_ok; try done. by apply fs_irrelevant_ok.
  - unfold mfs4_register. destruct (_ =? 0); [done|]. destruct (find_inode p s) eqn:?; [done|].
    destruct (alloc_inode s) eqn:?; [|done]. by apply new_inode_ok.
  - unfold mfs4_unlink. destruct (find_inode p s) as [i|] eqn:E; [|done]. apply find_inode_Some in E as (Hi & _ & _).
    cbn [fst]. apply used_zero_ok; [|done]. destruct (_ && _); [by apply fs_irrelevant_ok|done].
  - by apply rename_ok.
Qed.

(** The number in use grows by at most one per operation. *)
Lemma run_next op s : 0 <= next_inode_id s < 2 ^ 32 - 1 ->
  next_inode_id s <= next_inode_id (fst (run op s)) <= next_inode_id s + 1.
Proof.
  intros Hn.
  assert (forall i ty p tgt ct mt s', next_inode_id s' = next_inode_id s ->
            next_inode_id s <= next_inode_id (new_inode i ty p tgt ct mt s') <= next_inode_id s + 1) as Hnew.
  { intros i ty p tgt ct mt s' E. unfold new_inode. change (next_inode_id (set_node _ _ ?t)) with (next_inode_id t).
    cbn. rewrite E, u32_small; lia. }
  assert (next_inode_id s <= next_inode_id s <= next_inode_id s + 1) as Hid by lia.
  destruct op; cbn [run]; unfold mfs4_symlink, mfs4_hardlink, mfs4_mkdir, mfs4_register, mfs4_unlink, mfs4_rename.
  - destruct (find_inode _ _); [exact Hid|]. destruct (alloc_inode _); [by apply Hnew|exact Hid].
  - destruct (find_inode link s); [exact Hid|]. destruct (find_inode orig s); [|exact Hid].
    destruct (negb _); [exact Hid|]. destruct (alloc_inode _); exact Hid.
  - destruct (_ =? 0); [exact Hid|]. destruct (find_inode _ _); [exact Hid|]. set (f := fst (Fs.fs_mkdir tick p (fs s))).
    destruct (alloc_inode _); [by apply Hnew|exact Hid].
  - destruct (_ =? 0); [exact Hid|]. destruct (find_inode _ _); [exact Hid|]. destruct (alloc_inode _); [by apply Hnew|exact Hid].
  - destruct (find_inode _ _); [|exact Hid]. destruct (_ && _); exact Hid.
  - destruct (find_inode old s); [|exact Hid]. destruct (find_inode new s); [exact Hid|].
    destruct (_ =? MFS4_TYPE_FILE); [|exact Hid]. destruct (Fs.fs_rename _ _ _ _) as [f r].
    destruct (negb (r =? 0)); exact Hid.
Qed.

(** *** Hard links *)

Lemma link_count_two s i j id :
  length (inodes s) = 128%nat -> 0 <= i < 128 -> 0 <= j < 128 -> i <> j ->
  is_link id (node s i) = true -> is_link id (node s j) = true -> 1 < link_count id s.
Proof.
  intros Hl Hi Hj Hij G1 G2. unfold link_count, node, zlen in *.
  assert (forall a b, (a < b)%nat -> (b < 128)%nat ->
            is_link id (inodes s !!! a) = true -> is_link id (inodes s !!! b) = true ->
            (1 < length (filter (fun n => is_link id n) (inodes s)))%nat) as Hw.
  { intros a b Hab Hb Ga Gb.
    destruct (lookup_lt_is_Some_2 (inodes s) a ltac:(lia)) as [x Hx], (lookup_lt_is_Some_2 (inodes s) b ltac:(lia)) as [y Hy].
    rewrite (list_lookup_total_correct _ _ _ Hx) in Ga. rewrite (list_lookup_total_correct _ _ _ Hy) in Gb.
    rewrite <- (take_drop_middle _ _ _ Hx), filter_app, filter_cons_True by (by rewrite Ga).
    rewrite length_app. simpl.
    assert (drop (S a) (inodes s) !! (b - S a)%nat = Some y) as Hy' by (rewrite lookup_drop; by replace (S a + (b - S a))%nat with b by lia).
    rewrite <- (take_drop_middle _ _ _ Hy'), filter_app, filter_cons_True by (by rewrite Gb).
    rewrite length_app. simpl. lia. }
  unfold aget in *. destruct (decide (i < j)); [specialize (Hw (Z.to_nat i) (Z.to_nat j))|specialize (Hw (Z.to_nat j) (Z.to_nat i))];
    specialize (Hw ltac:(lia) ltac:(lia)); lia || (apply Nat2Z.inj_lt in Hw; [lia|done|done]).
Qed.

Lemma link_count_one s i id :
  length (inodes s) = 128%nat -> 0 <= i < 128 -> is_link id (node s i) = true ->
  (forall j, 0 <= j < 128 -> j <> i -> is_link id (node s j) = false) -> link_count id s = 1.
Proof.
  intros Hl Hi Gi Hn. unfold link_count, node, zlen, aget in *.
  destruct (lookup_lt_is_Some_2 (inodes s) (Z.to_nat i) ltac:(lia)) as [x Hx].
  assert (forall l k, (forall m z, l !! m = Some z -> inodes s !! (k + m)%nat = Some z /\ (k + m)%nat <> Z.to_nat i) ->
            filter (fun n => is_link id n) l = []) as Hnil.
  { intros l k Hlk. apply filter_none. apply Forall_lookup. intros m z Hz. destruct (Hlk m z Hz) as [Hs Hne].
    specialize (Hn (Z.of_nat (k + m))). rewrite Nat2Z.id, (list_lookup_total_correct _ _ _ Hs) in Hn.
    apply lookup_lt_Some in Hs. rewrite Hn by lia. auto. }
  rewrite (list_lookup_total_correct _ _ _ Hx) in Gi.
  rewrite <- (take_drop_middle _ _ _ Hx), filter_app, filter_cons_True by (by rewrite Gi).
  rewrite (Hnil (take (Z.to_nat i) (inodes s)) 0%nat), (Hnil (drop (S (Z.to_nat i)) (inodes s)) (S (Z.to_nat i))); [done|..].
  - intros m z Hz. rewrite lookup_drop in Hz. split; [done|lia].
  - intros m z Hz. apply lookup_take_Some in Hz as [Hz Hm]. split; [done|lia].
Qed.

(** What [mfs4_unlink] does to the table and to MFS3. *)
Lemma unlink_spec p s i :
  ok s -> find_inode p s = Some i ->
  let n := node s i in
  let s' := fst (mfs4_unlink p s) in
  snd (mfs4_unlink p s) = 0 /\ ok s' /\ find_inode p s' = None /\
  (forall j, 0 <= j < 128 -> j <> i -> node s' j = node s j) /\
  (forall j, 0 <= j < 128 -> j <> i -> is_link (inode_id n) n = true -> is_link (inode_id n) (node s j) = true -> fs s' = fs s) /\
  (is_link (inode_id n) n = true -> (forall j, 0 <= j < 128 -> j <> i -> is_link (inode_id n) (node s j) = false) ->
     fs s' = fst (Fs.fs_delete (target n) (fs s))).
Proof.
  intros Hok Hf. pose proof (find_inode_Some p s i Hf) as (Hi & Hu & Hp). pose proof (ok_len s Hok) as Hl.
  unfold mfs4_unlink. rewrite Hf. cbv zeta. cbn [fst snd].
  set (f' := if (type (node s i) =? MFS4_TYPE_FILE) && (link_count (inode_id (node s i)) s <=? 1)
             then s <| fs := fst (Fs.fs_delete (target (node s i)) (fs s)) |> else s).
  assert (ok f' /\ forall j, node f' j = node s j) as [Hok' Hn].
  { unfold f'. destruct (_ && _); [by split; [apply fs_irrelevant_ok|]|by split]. }
  set (s' := set_node i ((node f' i) <| used := 0 |>) f').
  assert (ok s') as Hoks by (by apply used_zero_ok).
  assert (forall j, 0 <= j < 128 -> node s' j = if decide (i = j) then (node s i) <| used := 0 |> else node s j) as E.
  { intros j Hj. unfold s'. rewrite node_set by (apply Hok' || lia). by rewrite !Hn. }
  assert (fs s' = fs f') as Hfs by reflexivity.
  split_and!; [done|done|..].
  - destruct (find_inode p s') as [j|] eqn:Ej; [|done]. apply find_inode_Some in Ej as (Hj & Huj & Hpj).
    rewrite E in Huj, Hpj by done. case_decide; [done|].
    assert (i = j); [|done]. apply (ok_uniq s Hok); try done. congruence.
  - intros j Hj Hji. rewrite E by done. by rewrite decide_False.
  - intros j Hj Hji G1 G2. rewrite Hfs. unfold f'.
    pose proof (link_count_two s i j (inode_id (node s i)) Hl Hi Hj ltac:(done) G1 G2).
    rewrite (proj2 (Z.leb_gt _ _)) by lia. by rewrite andb_false_r.
  - intros G1 Hnone. rewrite Hfs. unfold f'. rewrite (link_count_one s i _ Hl Hi G1 Hnone).
    apply is_link_spec in G1 as (_ & -> & _). done.
Qed.

(** *** Resolution *)

Definition is_symlink (s : State) (p : list Z) : Prop :=
  exists i, find_inode p s = Some i /\ type (node s i) = MFS4_TYPE_SYMLINK.

(** [q] is reached from [p] through [n] symbolic links. *)
Inductive follows (s : State) : nat -> list Z -> list Z -> Prop :=
  | follows_here p : follows s 0 p p
  | follows_link n p q i :
      find_inode p s = Some i -> type (node s i) = MFS4_TYPE_SYMLINK ->
      follows s n (cstr (target (node s i))) q -> follows s (S n) p q.

Lemma find_inode_cstr p q s : cstr p = cstr q -> find_inode p s = find_inode q s.
Proof.
  intros E. apply scan_ext. intros i _. apply eq_true_iff_eq. rewrite !has_path_spec. by rewrite E.
Qed.

Lemma resolve_loop_frame d : forall s,
  inodes (resolve_loop d s) = inodes s /\ fs (resolve_loop d s) = fs s /\ next_inode_id (resolve_loop d s) = next_inode_id s.
Proof.
  induction d as [|d IH]; intros s; cbn [resolve_loop]; [done|].
  destruct (find_inode (resolved s) s) as [i|]; [|done]. destruct (_ =? _); [|done].
  destruct (IH (s <| resolved := c_strcpy (resolved s) (target (node s i)) MFS4_PATH_LEN |>)) as (E1 & E2 & E3).
  split; [exact E1|]. split; [exact E2|exact E3].
Qed.

Lemma resolve_loop_spec s d : ok s -> forall b,
  let r := cstr (resolved (resolve_loop d (s <| resolved := b |>))) in
  (exists n, (n < d)%nat /\ follows s n (cstr b) r /\ ~ is_symlink s r) \/ (r = [] /\ exists q, follows s d (cstr b) q).
Proof.
  intros Hok. induction d as [|d IH]; intros b; cbn [resolve_loop].
  - right. split; [|exists (cstr b); constructor]. by destruct b.
  - change (find_inode _ _) with (find_inode b s). destruct (find_inode b s) as [i|] eqn:Ef.
    + change (node (s <| resolved := b |>) i) with (node s i).
      destruct (Z.eqb_spec (type (node s i)) MFS4_TYPE_SYMLINK) as [Ht|Ht].
      * change (resolved (s <| resolved := b |>)) with b.
        specialize (IH (c_strcpy b (target (node s i)) MFS4_PATH_LEN)).
        pose proof (find_inode_Some b s i Ef) as (Hi & Hu & _). destruct (ok_fit s Hok i Hi Hu) as [_ Hfit].
        rewrite (cstr_strcpy_fits b (target (node s i)) MFS4_PATH_LEN Hfit) in IH.
        assert (find_inode (cstr b) s = Some i) as Ef' by (rewrite (find_inode_cstr _ b); [done|apply cstr_idem]).
        destruct IH as [(n & Hn & Hfo & Hns)|(Hr & q & Hq)].
        -- left. exists (S n). split; [lia|]. split; [by apply (follows_link s n _ _ i)|exact Hns].
        -- right. split; [exact Hr|]. exists q. by apply (follows_link s d _ _ i).
      * left. exists 0%nat. split; [lia|]. split; [constructor|]. intros (j & Hj & Hsy).
        change (resolved _) with b in Hj. rewrite (find_inode_cstr _ b) in Hj by apply cstr_idem. congruence.
    + left. exists 0%nat. split; [lia|]. split; [constructor|]. intros (j & Hj & Hsy).
      change (resolved _) with b in Hj. rewrite (find_inode_cstr _ b) in Hj by apply cstr_idem. congruence.
Qed.

(** Byte 36 of the sector where MFS3 keeps the header of its slot 4. *)
Lemma slot4_byte s : table_ranged (inodes s) -> (table_sector (table_bytes (inodes s)) 3).[36] = (target (node s 10)).[60].
Proof.
  intros Ht. pose proof Ht as [Hl Hr]. rewrite table_sector_full by lia.
  destruct (lookup_lt_is_Some_2 (inodes s) 10 ltac:(lia)) as [n Hn].
  assert (node s 10 = n) as -> by (unfold node, aget; by apply list_lookup_total_correct).
  pose proof (table_slice _ (ranged_bytes _ Hr) 10 n Hn) as Hs.
  pose proof (Forall_lookup_1 _ _ _ _ Hr Hn) as [Hp Htg _ _ _ _].
  unfold aget. rewrite lookup_total_take_lt by (simpl; lia). rewrite lookup_total_drop.
  change (Z.to_nat (512 * 3) + Z.to_nat 36)%nat with (144 * 10 + 132)%nat.
  rewrite <- lookup_total_drop. rewrite <- (lookup_total_take_lt (drop (144 * 10) _) 144 132) by lia. rewrite Hs.
  replace (inode_bytes n) with (([type n; used n] ++ Fs.le16 (pad n) ++ Fs.le32 (inode_id n) ++ path n)
     ++ target n ++ (Fs.le32 (ctime n) ++ Fs.le32 (mtime n))) by (unfold inode_bytes; by rewrite <- !app_assoc).
  assert (length ([type n; used n] ++ Fs.le16 (pad n) ++ Fs.le32 (inode_id n) ++ path n) = 72%nat) as H72
    by (rewrite !length_app, Hp; reflexivity).
  rewrite lookup_total_app_r by lia. rewrite H72. rewrite lookup_total_app_l by lia. reflexivity.
Qed.

End Mfs4.

Arguments State : clear implicits.

End Mfs4.

Import Mfs4.

Section Theorems.
Context {H : Type} `{!Allocator H} {D : Type} `{!BlockDevice D, !ReliableDevice D}.

(** C14: [mfs4_flush] overwrites MFS3 data: its sectors 513 to 549 include the header
    sector of MFS3 slot 4.  After a flush with an inode table whose eleventh target is
    shorter than 60 characters, the next mount finds slot 4 unused, whatever file it
    held and although MFS3 had saved it. *)
Theorem mfs4_flush_erases_slot_4 fresh g (h : H) (s : State H D) f :
  Fs.Saved (fs s) -> table_ranged (inodes s) -> (target (node s 10)).[60] = 0 ->
  Fs.table_ok g -> Fs.fs_init fresh g h (disk (mfs4_flush s)) = Some f -> Fs.used (Fs.file f 4) = 0.
Proof.
  intros [_ Hr (sb & Hsb & Hmg) _ _] Ht H60 [Hg _] Hinit.
  destruct (flush_sectors s Hr (ranged_size _ Ht)) as (Hr1 & _ & Hs & Hkeep).
  apply (Fs.fs_init_unused fresh g h (disk (mfs4_flush s)) f 4 (table_sector (table_bytes (inodes s)) 3) sb Hg Hr1);
    [|exact Hmg|lia| |by rewrite slot4_byte|exact Hinit].
  - rewrite Hkeep by lia. exact Hsb.
  - rewrite Fs.hdr_sector_val by lia. exact (Hs 3 ltac:(lia)).
Qed.

(** What [mfs4_flush] writes, [mfs4_init] reads back at the next boot: the inode
    table, byte for byte, and the next inode number. *)
Theorem mfs4_flush_load_roundtrip (s s' : State H D) :
  reliable (disk s) -> table_ranged (inodes s) -> 0 <= next_inode_id s < 2 ^ 32 ->
  length (inodes s') = 128%nat -> Forall (fun n => length (path n) = 64%nat /\ length (target n) = 64%nat) (inodes s') ->
  disk s' = disk (mfs4_flush s) ->
  mfs4_init s' = s' <| next_inode_id := next_inode_id s |> <| inodes := inodes s |>.
Proof.
  intros Hr Ht Hn Hl Hs Hd. unfold mfs4_init.
  set (s1 := s' <| inodes := (fun n => n <| used := 0 |>) <$> inodes s' |> <| next_inode_id := 1 |>).
  assert (zlen (table_bytes (inodes s1)) = 18432) as Hz.
  { unfold zlen. rewrite length_table; [unfold s1; cbn; rewrite length_fmap, Hl; reflexivity|].
    apply Forall_fmap. eapply Forall_impl; [exact Hs|]. intros n [? ?]. by apply inode_bytes_length. }
  rewrite (load_flushed s s1 Hr Ht Hn Hd Hz). reflexivity.
Qed.


(** [mfs4_unlink] removes exactly the path; while another hard link of the file is
    left, MFS3 is not touched and every other inode reports the same status as before;
    the data is deleted from MFS3 with the last link. *)
Theorem mfs4_unlink_last_link p (s : State H D) i :
  ok s -> find_inode p s = Some i -> type (node s i) = MFS4_TYPE_FILE ->
  let n := node s i in
  let s' := fst (mfs4_unlink p s) in
  ok s' /\ find_inode p s' = None /\ (forall j, 0 <= j < 128 -> j <> i -> node s' j = node s j) /\
  ((exists j, 0 <= j < 128 /\ j <> i /\ is_link (inode_id n) (node s j) = true) ->
     fs s' = fs s /\ forall j, 0 <= j < 128 -> j <> i -> stat_node s' (node s' j) = stat_node s (node s j)) /\
  ((forall j, 0 <= j < 128 -> j <> i -> is_link (inode_id n) (node s j) = false) ->
     fs s' = fst (Fs.fs_delete (target n) (fs s))).
Proof.
  intros Hok Hf Hty n s'. pose proof (find_inode_Some p s i Hf) as (Hi & Hu & _).
  destruct (unlink_spec p s i Hok Hf) as (_ & Hok' & Hnone & Hsame & Hshare & Hlast).
  assert (is_link (inode_id n) n = true) as Hlk by (by apply is_link_spec).
  split_and!; [exact Hok'|exact Hnone|exact Hsame| |exact (Hlast Hlk)].
  intros (j & Hj & Hji & Hjl). assert (fs s' = fs s) as E by exact (Hshare j Hj Hji Hlk Hjl).
  split; [exact E|]. intros k Hk Hki. rewrite (Hsame k Hk Hki : node s' k = node s k). unfold stat_node. by rewrite E.
Qed.

(** [mfs4_resolve] terminates and returns either a path that is not a symbolic link
    and that is reached through fewer than [max_depth] of them, or, when there are at
    least [max_depth] (a cycle, but also a chain of exactly that length), the empty path. *)
Theorem mfs4_resolve_follows p d (s : State H D) :
  ok s -> c_strlen p < 64 -> 0 <= d ->
  let s' := mfs4_resolve p d s in
  let r := cstr (resolved s') in
  inodes s' = inodes s /\ fs s' = fs s /\
  ((exists n, Z.of_nat n < d /\ follows s n (cstr p) r /\ ~ is_symlink s r)
   \/ (r = [] /\ exists q, follows s (Z.to_nat d) (cstr p) q)).
Proof.
  intros Hok Hp Hd s' r. unfold mfs4_resolve in s'.
  destruct (resolve_loop_frame (Z.to_nat d) (s <| resolved := c_strcpy (resolved s) p MFS4_PATH_LEN |>)) as (E1 & E2 & _).
  split; [exact E1|]. split; [exact E2|].
  pose proof (resolve_loop_spec s (Z.to_nat d) Hok (c_strcpy (resolved s) p MFS4_PATH_LEN)) as Hr.
  rewrite (cstr_strcpy_fits (resolved s) p MFS4_PATH_LEN Hp) in Hr.
  destruct Hr as [(n & Hn & Hfo & Hns)|Hr]; [left; exists n; split_and!; [lia|exact Hfo|exact Hns]|right; exact Hr].
Qed.

End Theorems.

(** *** Examples *)

Section Witnesses.

Definition no_inodes : list MFS4Inode := replicate 128 inhabitant.
(** An empty inode table above [f]. *)
Definition above {H D} (f : Fs.State H D) : State H D :=
  {| inodes := no_inodes; next_inode_id := 1; resolved := replicate 64 0; fs := f |}.

Lemma no_inodes_node {H D} (f : Fs.State H D) i : 0 <= i < 128 -> node (above f) i = inhabitant.
Proof. intros Hi. unfold node, above, no_inodes, aget. cbn [inodes]. apply lookup_total_replicate_2. lia. Qed.

Lemma above_ok {H D} (f : Fs.State H D) : ok (above f).
Proof.
  split.
  - reflexivity.
  - intros i Hi. by rewrite no_inodes_node.
  - intros i Hi. by rewrite no_inodes_node.
  - intros i j Hi Hj. by rewrite !no_inodes_node.
  - intros i Hi. by rewrite no_inodes_node.
  - intros i j id Hi Hj. by rewrite !no_inodes_node.
Qed.

Lemma no_inodes_ranged : table_ranged no_inodes.
Proof. split; [reflexivity|]. apply Forall_replicate. split; [reflexivity|reflexivity|done..]. Qed.

(** Five directories: the fifth is in slot 4. *)
Definition five : list Fs.Op := Fs.Mkdir 5 <$> [[97; 0]; [98; 0]; [99; 0]; [100; 0]; [101; 0]].
Definition five_dirs : option (Fs.State Heap.Heap.State Fs.ram) := s ← Fs.mounted; Fs.run_all Fs.zeros five s.

Lemma five_ok : Forall Fs.op_ok five.
Proof. repeat (constructor; [cbn [Fs.op_ok]; split_and?; by vm_compute|]); constructor. Qed.

Lemma five_dirs_slots :
  (match five_dirs with
   | Some s => bool_decide (Fs.find (Fs.is_entry [101; 0]) s = Some 4) &&
       match Fs.fs_init Fs.zeros Fs.any_table Heap.Heap.booted (disk (mfs4_flush (above s))) with Some _ => true | None => false end
   | None => false
   end) = true.
Proof. vm_compute. reflexivity. Qed.

Lemma five_saved s : five_dirs = Some s -> Fs.Saved s.
Proof.
  unfold five_dirs. destruct Fs.mounted as [s0|] eqn:E0; [|discriminate]. cbn [mbind option_bind]. intros E1.
  apply (Fs.run_all_saved Fs.zeros Fs.zeros_len five s0 s); [|exact five_ok|exact E1].
  exact (Fs.fs_init_saved Fs.zeros Fs.any_table Heap.Heap.booted (∅ : Fs.ram) s0 Fs.any_table_ok Fs.boot_live Fs.ram_blank E0).
Qed.

Lemma mfs4_flush_erases_slot_4_witness :
  exists s f, five_dirs = Some s /\ Fs.find (Fs.is_entry [101; 0]) s = Some 4 /\
    Fs.fs_init Fs.zeros Fs.any_table Heap.Heap.booted (disk (mfs4_flush (above s))) = Some f /\ Fs.used (Fs.file f 4) = 0.
Proof.
  pose proof five_dirs_slots as Hok. pose proof five_saved as Hsv. destruct five_dirs as [s|]; [|discriminate Hok].
  apply andb_true_iff in Hok as [Hs Hf]. apply bool_decide_eq_true in Hs.
  destruct (Fs.fs_init _ _ _ _) as [f|] eqn:Ef; [|discriminate Hf]. exists s, f.
  split; [reflexivity|]. split; [exact Hs|]. split; [exact Ef|].
  apply (mfs4_flush_erases_slot_4 Fs.zeros Fs.any_table Heap.Heap.booted (above s) f (Hsv s eq_refl) no_inodes_ranged);
    [by rewrite no_inodes_node|exact Fs.any_table_ok|exact Ef].
Defined.

(** A file system on an empty RAM disk, and its inode table with a file [a], a hard
    link [b] to it, and a symbolic link [c] to itself. *)
Definition bare : Fs.State Heap.Heap.State Fs.ram :=
  {| Fs.files := Fs.any_table; Fs.bufs := ∅; Fs.heap := Heap.Heap.booted; Fs.disk := ∅ |}.
Definition links : list Op := [Register 5 [97; 0] 1; Hardlink 6 [98; 0] [97; 0]; Symlink 7 [99; 0] [99; 0]].
Definition linked : State Heap.Heap.State Fs.ram := foldl (fun s op => fst (run op s)) (above bare) links.

Lemma links_fit : Forall op_fits links.
Proof. repeat (constructor; [cbn [op_fits]; split_and?; by vm_compute|]); constructor. Qed.

Definition ranged_bool (n : MFS4Inode) : bool :=
  bool_decide (length (path n) = 64%nat) && bool_decide (length (target n) = 64%nat) &&
  (0 <=? pad n) && (pad n <? 2 ^ 16) && (0 <=? inode_id n) && (inode_id n <? 2 ^ 32) &&
  (0 <=? ctime n) && (ctime n <? 2 ^ 32) && (0 <=? mtime n) && (mtime n <? 2 ^ 32).

Lemma ranged_by_bool t : length t = 128%nat -> forallb ranged_bool t = true -> table_ranged t.
Proof.
  intros Hl Hb. split; [exact Hl|]. apply Forall_forall. intros n Hn. rewrite forallb_forall in Hb.
  apply list_elem_of_In in Hn. specialize (Hb n Hn). unfold ranged_bool in Hb. bool_to_prop.
  repeat match goal with Hd : bool_decide _ = true |- _ => apply bool_decide_eq_true in Hd end. by split.
Qed.

Lemma linked_ok : ok linked.
Proof.
  unfold linked, links. cbn [foldl].
  repeat (apply run_ok; [|cbn [op_fits]; split_and?; by vm_compute|split; by vm_compute]). apply above_ok.
Qed.

Lemma mfs4_flush_load_roundtrip_witness :
  mfs4_init (above ((fs linked) <| Fs.disk := disk (mfs4_flush linked) |>))
  = (above ((fs linked) <| Fs.disk := disk (mfs4_flush linked) |>)) <| next_inode_id := 3 |> <| inodes := inodes linked |>.
Proof.
  apply (mfs4_flush_load_roundtrip linked); [exact I| |split; by vm_compute|reflexivity|by apply Forall_replicate|reflexivity].
  apply ranged_by_bool; [reflexivity|by vm_compute].
Defined.


Lemma mfs4_unlink_last_link_witness : fs (fst (mfs4_unlink [97; 0] linked)) = fs linked.
Proof.
  destruct (mfs4_unlink_last_link [97; 0] linked 0 linked_ok ltac:(by vm_compute) ltac:(by vm_compute))
    as (_ & _ & _ & Hshare & _).
  apply Hshare. exists 1. by vm_compute.
Defined.

Lemma mfs4_resolve_follows_witness : cstr (resolved (mfs4_resolve [99; 0] 8 linked)) = [].
Proof.
  destruct (mfs4_resolve_follows [99; 0] 8 linked linked_ok eq_refl ltac:(lia)) as (_ & _ & [Hn|[Hr _]]); [|exact Hr].
  by vm_compute.
Defined.

End Witnesses.
