(* ===== verification/Ext2.v ===== *)
(** * ext2.c: reading ext2 volumes

    The driver above the sector interface of Storage.v, with its static buffers as fields
    of [State].  Outcomes are those of Buffer.v; a division by zero and a shift by 32 or
    more are undefined too.  What is printed is collected in [screen], without its colours.  The theorems
    relate the driver to a volume given by its files: the bytes of a file through the
    block pointers of its inode, the entries of a directory, the lookup of a path. *)

From Stdlib Require Import ZArith Lia String.
From stdpp Require Import base numbers list gmap tactics.
From S2P Require Import Prelude Heap Storage Buffer.

Module Ext2.
Import Buffer.

Definition EXT2_MAGIC : Z := 0xEF53.
Definition EXT2_ROOT_INO : Z := 2.
Definition EXT2_MAX_BLOCK : Z := 4096.
Definition SB_BLOCKS_PER_GRP : Z := 32.
Definition SB_INODES_PER_GRP : Z := 40.
Definition SB_LOG_BLOCK_SIZE : Z := 24.
Definition SB_MAGIC : Z := 56.
Definition SB_INODE_SIZE : Z := 88.
Definition SB_REV_LEVEL : Z := 76.
Definition BGD_INODE_TABLE : Z := 8.
Definition BGD_SIZE : Z := 32.
Definition INO_MODE : Z := 0.
Definition INO_SIZE : Z := 4.
Definition INO_BLOCK : Z := 40.
Definition DE_NAME : Z := 8.
Definition EXT2_S_IFDIR : Z := 0x4000.
Definition EXT2_S_IFREG : Z := 0x8000.
Definition CAT_CHUNK : Z := 512.

Record State := mkState {
  g_mounted : Z; g_block_size : Z; g_inodes_per_grp : Z; g_inode_size : Z; g_blocks_per_grp : Z; g_bgdt_block : Z;
  g_sb_buf : list Z; g_block_buf : list Z; g_inode_buf : list Z; g_indir_buf : list Z; g_dir_buf : list Z; indir2 : list Z;
  cat_buf : list Z;
  screen : list Z
}.
#[global] Instance state_settable : Settable State :=
  {| rebuild s := mkState (g_mounted s) (g_block_size s) (g_inodes_per_grp s) (g_inode_size s) (g_blocks_per_grp s) (g_bgdt_block s)
       (g_sb_buf s) (g_block_buf s) (g_inode_buf s) (g_indir_buf s) (g_dir_buf s) (indir2 s) (cat_buf s) (screen s) |}.

Definition print (t : list Z) (s : State) : State := s <| screen := screen s ++ cstr t |>.

(** The digits, the last one first. *)
Fixpoint digits (fuel : nat) (n : Z) : list Z :=
  match fuel with
  | O => []
  | S fuel => if n <=? 0 then [] else (48 + n mod 10) :: digits fuel (n / 10)
  end.
Definition itoa (n : Z) : list Z := if n =? 0 then [48] else rev (digits 32 n).

Definition u32_at (buf : list Z) (off : Z) : res Z :=
  p ← get buf off 4; Ret (Z.lor (Z.lor (Z.lor p.[0] (Z.shiftl p.[1] 8)) (Z.shiftl p.[2] 16)) (Z.shiftl p.[3] 24)).
Definition u16_at (buf : list Z) (off : Z) : res Z :=
  p ← get buf off 2; Ret (Z.lor p.[0] (Z.shiftl p.[1] 8)).

(** [xstrncmp(buf + off, b, strlen(b))]: a byte of the buffer is read as long as all agree. *)
Fixpoint xstrncmp (buf : list Z) (off : Z) (b : list Z) : res Z :=
  match b with
  | [] => Ret 0
  | y :: b =>
      x ← u8_at buf off;
      if negb (x =? 0) && negb (y =? 0) && (x =? y) then xstrncmp buf (off + 1) b else Ret (x - y)
  end.

(** Division of unsigned numbers. *)
Definition udiv (a b : Z) : res Z := if b =? 0 then UB else Ret (a / b).
Definition umod (a b : Z) : res Z := if b =? 0 then UB else Ret (a mod b).

Section ext2.
Context {D : Type} `{!BlockDevice D} (d : D).

(** [for (i=0; i<count; i++) if (ata_read_sector(lba+i, buf + i*512) != 0) return -1;] *)
Fixpoint read_sectors_from (n : nat) (i lba : Z) (buf : list Z) : list Z * Z :=
  match n with
  | O => (buf, 0)
  | S n =>
      match ata_read_sector d (u32 (lba + i)) with
      | None => (buf, -1)
      | Some sector => read_sectors_from n (i + 1) lba (put buf (i * 512) sector)
      end
  end.
Definition read_sectors (lba count : Z) (buf : list Z) : list Z * Z := read_sectors_from (Z.to_nat count) 0 lba buf.

Definition ext2_read_block (blk : Z) (buf : list Z) (s : State) : list Z * Z :=
  if blk =? 0 then (put buf 0 (replicate (Z.to_nat (g_block_size s)) 0), 0)
  else
    let sectors_per_block := g_block_size s / 512 in
    read_sectors (u32 (blk * sectors_per_block)) sectors_per_block buf.

Definition ext2_mount (s : State) : res (State * Z) :=
  let s := s <| g_mounted := 0 |> in
  if negb (ata_disk_present d) then Ret (print (lit "ext2: ATA disk tidak ditemukan" ++ nl) s, 0)
  else
    let '(sb, rc) := read_sectors 2 2 (g_sb_buf s) in
    let s := s <| g_sb_buf := sb |> in
    if negb (rc =? 0) then Ret (print (lit "ext2: gagal baca superblock" ++ nl) s, 0)
    else
      magic ← u16_at sb SB_MAGIC;
      if negb (magic =? EXT2_MAGIC) then Ret (print (lit "ext2: magic tidak cocok (bukan EXT2 atau disk kosong)" ++ nl) s, 0)
      else
        log_bs ← u32_at sb SB_LOG_BLOCK_SIZE;
        if 32 <=? log_bs then UB
        else
          let s := s <| g_block_size := u32 (Z.shiftl 1024 log_bs) |> in
          if EXT2_MAX_BLOCK <? g_block_size s then Ret (print (lit "ext2: block size terlalu besar" ++ nl) s, 0)
          else
            bpg ← u32_at sb SB_BLOCKS_PER_GRP;
            ipg ← u32_at sb SB_INODES_PER_GRP;
            rev ← u32_at sb SB_REV_LEVEL;
            isz ← u16_at sb SB_INODE_SIZE;
            let isz := if 1 <=? rev then (if isz =? 0 then 128 else isz) else 128 in
            let isz := if 256 <? isz then 256 else isz in
            let s := s <| g_blocks_per_grp := bpg |> <| g_inodes_per_grp := ipg |> <| g_inode_size := isz |> in
            let s := s <| g_bgdt_block := if g_block_size s =? 1024 then 2 else 1 |> <| g_mounted := 1 |> in
            let s := print (lit "ext2: mounted OK  blksz=") s in
            let s := print (itoa (g_block_size s)) s in
            let s := print (lit "  inosz=") s in
            let s := print (itoa (g_inode_size s)) s in
            let s := print (lit "  ino/grp=") s in
            let s := print (itoa (g_inodes_per_grp s)) s in
            Ret (print nl s, 1).

Definition ext2_is_mounted (s : State) : Z := g_mounted s.

(** The descriptor, or -1. *)
Definition read_bgd (grp : Z) (s : State) : res (State * option (list Z)) :=
  let byte_off := u32 (grp * BGD_SIZE) in
  blk_off ← udiv byte_off (g_block_size s);
  blk_in ← umod byte_off (g_block_size s);
  let '(b, rc) := ext2_read_block (u32 (g_bgdt_block s + blk_off)) (g_block_buf s) s in
  let s := s <| g_block_buf := b |> in
  if negb (rc =? 0) then Ret (s, None)
  else bg ← get b blk_in BGD_SIZE; Ret (s, Some bg).

Definition read_inode (ino : Z) (s : State) : res (State * Z) :=
  if (ino =? 0) || (g_inodes_per_grp s =? 0) then Ret (s, -1)
  else
    let grp := (ino - 1) / g_inodes_per_grp s in
    let idx := (ino - 1) mod g_inodes_per_grp s in
    '(s, bgd) ← read_bgd grp s;
    match bgd with
    | None => Ret (s, -1)
    | Some bgd =>
        itable ← u32_at bgd BGD_INODE_TABLE;
        let byte_off := u32 (idx * g_inode_size s) in
        q ← udiv byte_off (g_block_size s);
        off_in ← umod byte_off (g_block_size s);
        let '(b, rc) := ext2_read_block (u32 (itable + q)) (g_block_buf s) s in
        let s := s <| g_block_buf := b |> in
        if negb (rc =? 0) then Ret (s, -1)
        else
          raw ← get b off_in (if g_inode_size s <? 256 then g_inode_size s else 256);
          Ret (s <| g_inode_buf := put (g_inode_buf s) 0 raw |>, 0)
    end.

Definition inode_get_block (idx : Z) (s : State) : res (State * Z) :=
  let ptrs_per_block := g_block_size s / 4 in
  let direct := 12 in
  if idx <? direct then
    blkno ← u32_at (g_inode_buf s) (INO_BLOCK + idx * 4); Ret (s, blkno)
  else
    let idx := idx - direct in
    if idx <? ptrs_per_block then
      indir ← u32_at (g_inode_buf s) (INO_BLOCK + 12 * 4);
      if indir =? 0 then Ret (s, 0)
      else
        let '(b, rc) := ext2_read_block indir (g_indir_buf s) s in
        let s := s <| g_indir_buf := b |> in
        if negb (rc =? 0) then Ret (s, 0)
        else v ← u32_at b (idx * 4); Ret (s, v)
    else
      let idx := idx - ptrs_per_block in
      if idx <? u32 (ptrs_per_block * ptrs_per_block) then
        dindir ← u32_at (g_inode_buf s) (INO_BLOCK + 13 * 4);
        if dindir =? 0 then Ret (s, 0)
        else
          let '(b, rc) := ext2_read_block dindir (g_indir_buf s) s in
          let s := s <| g_indir_buf := b |> in
          if negb (rc =? 0) then Ret (s, 0)
          else
            l1 ← u32_at b (idx / ptrs_per_block * 4);
            if l1 =? 0 then Ret (s, 0)
            else
              let '(b2, rc) := ext2_read_block l1 (indir2 s) s in
              let s := s <| indir2 := b2 |> in
              if negb (rc =? 0) then Ret (s, 0)
              else v ← u32_at b2 (idx mod ptrs_per_block * 4); Ret (s, v)
      else Ret (s, 0).

(** [while (offset < end)]: a byte at least per round. *)
Fixpoint inode_read_loop (fuel : nat) (end_ offset total : Z) (buf : list Z) (s : State) : res (State * list Z * Z) :=
  if negb (offset <? end_) then Ret (s, buf, total)
  else
    match fuel with
    | O => Running
    | S fuel =>
        blk_idx ← udiv offset (g_block_size s);
        blk_off ← umod offset (g_block_size s);
        '(s, blk_no) ← inode_get_block blk_idx s;
        let chunk := g_block_size s - blk_off in
        let chunk := if end_ - offset <? chunk then end_ - offset else chunk in
        if blk_no =? 0 then
          inode_read_loop fuel end_ (u32 (offset + chunk)) (u32 (total + chunk)) (put buf total (replicate (Z.to_nat chunk) 0)) s
        else
          let '(b, rc) := ext2_read_block blk_no (g_dir_buf s) s in
          let s := s <| g_dir_buf := b |> in
          if negb (rc =? 0) then Ret (s, buf, total)
          else
            c ← get b blk_off chunk;
            inode_read_loop fuel end_ (u32 (offset + chunk)) (u32 (total + chunk)) (put buf total c) s
    end.

Definition inode_read (file_size offset : Z) (buf : list Z) (len : Z) (s : State) : res (State * list Z * Z) :=
  let end_ := u32 (offset + len) in
  let end_ := if file_size <? end_ then file_size else end_ in
  if end_ <=? offset then Ret (s, buf, 0) else inode_read_loop (Z.to_nat (end_ - offset)) end_ offset 0 buf s.

(** The entries of one block: the inode number of [name] from offset [p] on. *)
Fixpoint find_entry (fuel : nat) (blk name : list Z) (p limit : Z) : res (option Z) :=
  if negb (p <? limit) then Ret None
  else
    match fuel with
    | O => Running
    | S fuel =>
        ino ← u32_at blk p;
        rec_len ← u16_at blk (p + 4);
        if rec_len =? 0 then Ret None
        else
          nlen ← u8_at blk (p + 6);
          if negb (ino =? 0) && (nlen =? u8 (zlen name)) then
            c ← xstrncmp blk (p + DE_NAME) name;
            if c =? 0 then Ret (Some ino) else find_entry fuel blk name (u32 (p + rec_len)) limit
          else find_entry fuel blk name (u32 (p + rec_len)) limit
    end.

(** Rounds for a walk over the blocks of a directory. *)
Definition dir_rounds (dir_size bs : Z) : nat := S (Z.to_nat (dir_size / bs)).

Fixpoint dir_find_loop (fuel : nat) (inode_save : list Z) (dir_size : Z) (name : list Z) (offset : Z) (s : State) : res (State * Z) :=
  if negb (offset <? dir_size) then Ret (s, 0)
  else
    match fuel with
    | O => Running
    | S fuel =>
        blk_idx ← udiv offset (g_block_size s);
        blk_off ← umod offset (g_block_size s);
        '(s, blk_no) ← inode_get_block blk_idx (s <| g_inode_buf := inode_save |>);
        let s := s <| g_inode_buf := inode_save |> in
        if blk_no =? 0 then Ret (s, 0)
        else
          let '(b, rc) := ext2_read_block blk_no (g_dir_buf s) s in
          let s := s <| g_dir_buf := b |> in
          if negb (rc =? 0) then Ret (s, 0)
          else
            let bs := g_block_size s in
            let block_limit := if dir_size <? u32 (offset + bs) then u32 (dir_size - u32 (blk_idx * bs)) else bs in
            if negb (blk_off =? 0) then dir_find_loop fuel inode_save dir_size name (u32 (offset + (bs - blk_off))) s
            else
              found ← find_entry (Z.to_nat block_limit) b name 0 block_limit;
              match found with
              | Some ino => Ret (s, ino)
              | None => dir_find_loop fuel inode_save dir_size name (u32 (offset + bs)) s
              end
    end.

Definition dir_find (dir_ino : Z) (name : list Z) (s : State) : res (State * Z) :=
  '(s, rc) ← read_inode dir_ino s;
  if negb (rc =? 0) then Ret (s, 0)
  else
    mode ← u16_at (g_inode_buf s) INO_MODE;
    if Z.land mode EXT2_S_IFDIR =? 0 then Ret (s, 0)
    else
      dir_size ← u32_at (g_inode_buf s) INO_SIZE;
      dir_find_loop (dir_rounds dir_size (g_block_size s)) (g_inode_buf s) dir_size (cstr name) 0 s.

(** The characters up to the next slash, and what follows it. *)
Fixpoint component (p : list Z) : list Z * list Z :=
  match p with
  | [] => ([], [])
  | c :: p => if c =? 47 then ([], p) else let '(w, rest) := component p in (c :: w, rest)
  end.

(** [while ( *p)]: a character at least per round. *)
Fixpoint resolve_loop (fuel : nat) (cur : Z) (p : list Z) (s : State) : res (State * Z) :=
  match p with
  | [] => Ret (s, cur)
  | _ =>
      match fuel with
      | O => Running
      | S fuel =>
          let '(comp, rest) := component p in
          if zlen comp =? 0 then resolve_loop fuel cur rest s
          else if 255 <=? zlen comp then Ret (s, 0)
          else
            '(s, cur) ← dir_find cur comp s;
            if cur =? 0 then Ret (s, 0) else resolve_loop fuel cur rest s
      end
  end.

Definition resolve_path (path : option (list Z)) (s : State) : res (State * Z) :=
  match path with
  | None => Ret (s, EXT2_ROOT_INO)
  | Some path =>
      let path := cstr path in
      if bool_decide (path = []) || bool_decide (path = [47]) then Ret (s, EXT2_ROOT_INO)
      else
        let p := if path.[0] =? 47 then drop 1 path else path in
        resolve_loop (length p) EXT2_ROOT_INO p s
  end.

(** A number right-aligned in [w] columns. *)
Definition print_padded (w : Z) (n : Z) (s : State) : State :=
  print (itoa n) (print (replicate (Z.to_nat (w - zlen (itoa n))) 32) s).

(** One line of a listing. *)
Definition ls_entry (inode_save : list Z) (ino : Z) (name : list Z) (s : State) : res (State) :=
  let s := print_padded 6 ino (print (lit "  ") s) in
  let s := print (lit "  ") s in
  '(s, rc) ← read_inode ino s;
  s ← (if rc =? 0 then fsz ← u32_at (g_inode_buf s) INO_SIZE; Ret (print_padded 7 fsz s) else Ret (print (lit "       ") s));
  let s := print (lit "  ") s in
  let s := print name s in
  let s := print nl s in
  Ret (s <| g_inode_buf := inode_save |>).

(** [name[0]=='.' && (name[1]=='\0' || (name[1]=='.' && name[2]=='\0'))] *)
Definition dot_name (name : list Z) : bool :=
  (cget name 0 =? 46) && ((cget name 1 =? 0) || ((cget name 1 =? 46) && (cget name 2 =? 0))).

Fixpoint ls_block (fuel : nat) (inode_save : list Z) (p limit : Z) (s : State) : res State :=
  if negb (p <? limit) then Ret s
  else
    match fuel with
    | O => Running
    | S fuel =>
        ino ← u32_at (g_dir_buf s) p;
        rec_len ← u16_at (g_dir_buf s) (p + 4);
        if rec_len =? 0 then Ret s
        else
          nlen ← u8_at (g_dir_buf s) (p + 6);
          s ← (if negb (ino =? 0) && (0 <? nlen) then
                 name ← get (g_dir_buf s) (p + DE_NAME) (if nlen <? 255 then nlen else 255);
                 if dot_name name then Ret s else ls_entry inode_save ino name s
               else Ret s);
          ls_block fuel inode_save (u32 (p + rec_len)) limit s
    end.

Fixpoint ls_loop (fuel : nat) (inode_save : list Z) (dir_size offset : Z) (s : State) : res State :=
  if negb (offset <? dir_size) then Ret s
  else
    match fuel with
    | O => Running
    | S fuel =>
        let bs := g_block_size s in
        blk_idx ← udiv offset bs;
        '(s, blk_no) ← inode_get_block blk_idx (s <| g_inode_buf := inode_save |>);
        let s := s <| g_inode_buf := inode_save |> in
        if blk_no =? 0 then ls_loop fuel inode_save dir_size (u32 (offset + bs)) s
        else
          let '(b, rc) := ext2_read_block blk_no (g_dir_buf s) s in
          let s := s <| g_dir_buf := b |> in
          if negb (rc =? 0) then Ret s
          else
            let block_limit := if dir_size <? u32 ((blk_idx + 1) * bs) then u32 (dir_size - u32 (blk_idx * bs)) else bs in
            s ← ls_block (Z.to_nat block_limit) inode_save 0 block_limit s;
            ls_loop fuel inode_save dir_size (u32 (offset + bs)) s
    end.

Definition ext2_ls (path : list Z) (s : State) : res State :=
  if g_mounted s =? 0 then Ret (print (lit "ext2: tidak di-mount. Gunakan: mount ext2" ++ nl) s)
  else
    '(s, dir_ino) ← resolve_path (Some path) s;
    if dir_ino =? 0 then Ret (print nl (print path (print (lit "ext2: path tidak ditemukan: ") s)))
    else
      '(s, rc) ← read_inode dir_ino s;
      if negb (rc =? 0) then Ret (print (lit "ext2: gagal baca inode" ++ nl) s)
      else
        mode ← u16_at (g_inode_buf s) INO_MODE;
        if Z.land mode EXT2_S_IFDIR =? 0 then Ret (print nl (print path (print (lit "ext2: bukan direktori: ") s)))
        else
          dir_size ← u32_at (g_inode_buf s) INO_SIZE;
          let s := print (lit "  inode   size     name" ++ nl) s in
          let s := print (lit "  ------  -------  ----" ++ nl) s in
          ls_loop (dir_rounds dir_size (g_block_size s)) (g_inode_buf s) dir_size 0 s.

Fixpoint cat_loop (fuel : nat) (inode_save : list Z) (fsz offset : Z) (s : State) : res (State * Z) :=
  if negb (offset <? fsz) then Ret (s, offset)
  else
    match fuel with
    | O => Running
    | S fuel =>
        let chunk := fsz - offset in
        let chunk := if CAT_CHUNK <? chunk then CAT_CHUNK else chunk in
        '(s, buf, got) ← inode_read fsz offset (cat_buf s) chunk (s <| g_inode_buf := inode_save |>);
        let s := s <| cat_buf := buf |> in
        if got <=? 0 then Ret (s, offset)
        else
          let s := s <| cat_buf := (cat_buf s).[got <- 0] |> in
          cat_loop fuel inode_save fsz (u32 (offset + got)) (print (cat_buf s) s)
    end.

Definition ext2_cat (path : list Z) (s : State) : res State :=
  if g_mounted s =? 0 then Ret (print (lit "ext2: tidak di-mount. Gunakan: mount ext2" ++ nl) s)
  else
    '(s, ino) ← resolve_path (Some path) s;
    if ino =? 0 then Ret (print nl (print path (print (lit "ext2: tidak ditemukan: ") s)))
    else
      '(s, rc) ← read_inode ino s;
      if negb (rc =? 0) then Ret (print (lit "ext2: gagal baca inode" ++ nl) s)
      else
        mode ← u16_at (g_inode_buf s) INO_MODE;
        if Z.land mode EXT2_S_IFREG =? 0 then Ret (print nl (print path (print (lit "ext2: bukan file biasa: ") s)))
        else
          fsz ← u32_at (g_inode_buf s) INO_SIZE;
          if fsz =? 0 then Ret (print (lit "(file kosong)" ++ nl) s)
          else
            '(s, offset) ← cat_loop (Z.to_nat fsz) (g_inode_buf s) fsz 0 s;
            if negb ((cat_buf s).[0] =? 0) then
              last ← u8_at (cat_buf s) ((if CAT_CHUNK <? offset then CAT_CHUNK else offset mod CAT_CHUNK) - 1);
              Ret (if negb (last =? 10) then print nl s else s)
            else Ret s.

(** ** Buffers *)

Lemma u32_app buf r off x : u32_at buf off = Ret x -> u32_at (buf ++ r) off = Ret x.
Proof. unfold u32_at. intros (p & H & E)%res_bind_Ret. rewrite (get_app _ _ _ 4 _ ltac:(lia) H). exact E. Qed.
Lemma u16_app buf r off x : u16_at buf off = Ret x -> u16_at (buf ++ r) off = Ret x.
Proof. unfold u16_at. intros (p & H & E)%res_bind_Ret. rewrite (get_app _ _ _ 2 _ ltac:(lia) H). exact E. Qed.

(** ** Blocks *)

Definition block_size (bs : Z) : Prop := bs = 1024 \/ bs = 2048 \/ bs = 4096.

(** The block [blk] of the disk can be read and holds [c]. *)
Definition block_at (bs blk : Z) (c : list Z) : Prop :=
  0 < blk /\ zlen c = bs /\ (blk + 1) * (bs / 512) <= 2 ^ 32 /\
  forall k, 0 <= k < bs / 512 -> ata_read_sector d (blk * (bs / 512) + k) = Some (take 512 (drop (Z.to_nat (512 * k)) c)).

Lemma read_sectors_spec n : forall i lba c buf, 0 <= i -> 0 <= lba -> lba + i + Z.of_nat n <= 2 ^ 32 ->
  512 * (i + Z.of_nat n) <= zlen c -> 512 * (i + Z.of_nat n) <= zlen buf ->
  (forall k, i <= k < i + Z.of_nat n -> ata_read_sector d (lba + k) = Some (take 512 (drop (Z.to_nat (512 * k)) c))) ->
  read_sectors_from n i lba buf = (put buf (512 * i) (take (512 * n) (drop (Z.to_nat (512 * i)) c)), 0).
Proof.
  induction n as [|n IH]; intros i lba c buf Hi Hl Hm Hc Hb Hs; cbn [read_sectors_from].
  { rewrite Nat.mul_0_r. cbn [take]. by rewrite put_nil. }
  rewrite u32_small by lia. rewrite Hs by lia.
  assert (zlen (take 512 (drop (Z.to_nat (512 * i)) c)) = 512) as E by (unfold zlen in *; rewrite length_take, length_drop; lia).
  replace (i * 512) with (512 * i) by lia. rewrite (IH (i + 1) lba c) by (try (rewrite zlen_put by lia); try lia; intros; apply Hs; lia).
  replace (512 * (i + 1)) with (512 * i + zlen (take 512 (drop (Z.to_nat (512 * i)) c))) by lia. rewrite put_put by lia. do 2 f_equal.
  rewrite E, Z2Nat.inj_add, <- drop_drop by lia. change (Z.to_nat 512) with 512%nat.
  generalize (drop (Z.to_nat (512 * i)) c). intros l. replace (512 * S n)%nat with (512 + 512 * n)%nat by lia. by rewrite take_take_drop.
Qed.

Lemma read_block_spec bs blk c buf s : block_size bs -> g_block_size s = bs -> bs <= zlen buf -> block_at bs blk c ->
  ext2_read_block blk buf s = (put buf 0 c, 0).
Proof.
  intros Hbs Hs Hbuf (Hb & Hc & Hm & Hr). unfold ext2_read_block, read_sectors. rewrite (proj2 (Z.eqb_neq blk 0)), Hs by lia.
  assert (0 < bs / 512 /\ 512 * (bs / 512) = bs) as [H1 H2] by (destruct Hbs as [->|[->| ->]]; done).
  rewrite u32_small by nia. rewrite (read_sectors_spec (Z.to_nat (bs / 512)) 0 (blk * (bs / 512)) c) by (try nia; intros k Hk; apply Hr; lia).
  do 2 f_equal. cbn [drop Z.to_nat Z.mul]. apply take_ge. unfold zlen in Hc. lia.
Qed.

(** ** A mounted volume *)

Record vol := mkVol { v_bs : Z; v_ipg : Z; v_isz : Z; v_bgdt : Z }.

Definition vol_ok (v : vol) : Prop := block_size (v_bs v) /\ 0 < v_ipg v /\ 128 <= v_isz v <= 256 /\ 0 <= v_bgdt v.

Record mounted (v : vol) (s : State) : Prop := {
  m_on : g_mounted s <> 0;
  m_bs : g_block_size s = v_bs v;
  m_ipg : g_inodes_per_grp s = v_ipg v;
  m_isz : g_inode_size s = v_isz v;
  m_bgdt : g_bgdt_block s = v_bgdt v;
  m_bufs : zlen (g_block_buf s) = 4096 /\ zlen (g_inode_buf s) = 256 /\ zlen (g_indir_buf s) = 4096 /\ zlen (g_dir_buf s) = 4096 /\
    zlen (indir2 s) = 4096 /\ zlen (cat_buf s) = 513
}.

(** Only scratch buffers differ. *)
Definition quiet (s s' : State) : Prop :=
  g_inode_buf s' = g_inode_buf s /\ g_dir_buf s' = g_dir_buf s /\ cat_buf s' = cat_buf s /\ screen s' = screen s.

Lemma quiet_refl s : quiet s s.
Proof. done. Qed.

Lemma mounted_block_buf v s b : mounted v s -> zlen b = 4096 -> mounted v (s <| g_block_buf := b |>) /\ quiet s (s <| g_block_buf := b |>).
Proof. intros [A B C E F (G1 & G2 & G3 & G4 & G5 & G6)] Hb. split; [split; cbn; auto 10|done]. Qed.
Lemma mounted_indir_buf v s b : mounted v s -> zlen b = 4096 -> mounted v (s <| g_indir_buf := b |>) /\ quiet s (s <| g_indir_buf := b |>).
Proof. intros [A B C E F (G1 & G2 & G3 & G4 & G5 & G6)] Hb. split; [split; cbn; auto 10|done]. Qed.
Lemma mounted_indir2 v s b : mounted v s -> zlen b = 4096 -> mounted v (s <| indir2 := b |>) /\ quiet s (s <| indir2 := b |>).
Proof. intros [A B C E F (G1 & G2 & G3 & G4 & G5 & G6)] Hb. split; [split; cbn; auto 10|done]. Qed.
Lemma mounted_dir_buf v s b : mounted v s -> zlen b = 4096 -> mounted v (s <| g_dir_buf := b |>).
Proof. intros [A B C E F (G1 & G2 & G3 & G4 & G5 & G6)] Hb. split; cbn; auto 10. Qed.
Lemma mounted_inode_buf v s b : mounted v s -> zlen b = 256 -> mounted v (s <| g_inode_buf := b |>).
Proof. intros [A B C E F (G1 & G2 & G3 & G4 & G5 & G6)] Hb. split; cbn; auto 10. Qed.
Lemma mounted_cat_buf v s b : mounted v s -> zlen b = 513 -> mounted v (s <| cat_buf := b |>).
Proof. intros [A B C E F (G1 & G2 & G3 & G4 & G5 & G6)] Hb. split; cbn; auto 10. Qed.
Lemma mounted_print v s t : mounted v s -> mounted v (print t s).
Proof. intros [A B C E F (G1 & G2 & G3 & G4 & G5 & G6)]. split; cbn; auto 10. Qed.

(** Inode [ino] is where the group descriptors say, with the bytes [raw]. *)
Definition inode_at (v : vol) (ino : Z) (raw : list Z) : Prop :=
  let grp := (ino - 1) / v_ipg v in
  let idx := (ino - 1) mod v_ipg v in
  0 < ino < 2 ^ 32 /\ grp * 32 < 2 ^ 32 /\ idx * v_isz v < 2 ^ 32 /\
  exists c1 bgd itable c2,
    block_at (v_bs v) (v_bgdt v + grp * 32 / v_bs v) c1 /\ get c1 ((grp * 32) mod v_bs v) 32 = Ret bgd /\ u32_at bgd 8 = Ret itable /\
    0 <= itable /\ block_at (v_bs v) (itable + idx * v_isz v / v_bs v) c2 /\ get c2 ((idx * v_isz v) mod v_bs v) (v_isz v) = Ret raw.

Lemma block_at_bound bs blk c : block_size bs -> block_at bs blk c -> 0 < blk < 2 ^ 32 /\ 0 < bs <= 4096.
Proof.
  intros Hbs (H1 & _ & H2 & _). assert (2 <= bs / 512 /\ 0 < bs <= 4096) as [H3 H4] by (destruct Hbs as [->|[->| ->]]; (split; [|lia]); vm_compute; congruence).
  split; [nia|done].
Qed.

(** Reading a block into a buffer of 4096 bytes. *)
Lemma read_block_4096 v blk c buf s : vol_ok v -> mounted v s -> zlen buf = 4096 -> block_at (v_bs v) blk c ->
  ext2_read_block blk buf s = (c ++ drop (length c) buf, 0) /\ zlen (c ++ drop (length c) buf) = 4096.
Proof.
  intros (Hbs & _) Hm Hb Hc. pose proof (block_at_bound _ _ _ Hbs Hc) as [_ Hr]. pose proof Hc as (_ & Hl & _).
  rewrite (read_block_spec (v_bs v) blk c) by (done || apply Hm || lia). unfold put. cbn [take Z.to_nat app Nat.add]. split; [done|].
  unfold zlen in *. rewrite length_app, length_drop. lia.
Qed.

Lemma read_inode_spec v s ino raw : vol_ok v -> mounted v s -> inode_at v ino raw ->
  exists s', read_inode ino s = Ret (s' <| g_inode_buf := put (g_inode_buf s) 0 raw |>, 0) /\ mounted v s' /\ quiet s s' /\ zlen raw = v_isz v.
Proof.
  intros Hv Hm (Hi & Hg & Hx & c1 & bgd & itable & c2 & B1 & G1 & T1 & Ht & B2 & G2). pose proof Hv as (Hbs & Hip & Hsz & Hbg).
  destruct (block_at_bound _ _ _ Hbs B1) as [R1 Rb]. destruct (block_at_bound _ _ _ Hbs B2) as [R2 _].
  assert (0 <= (ino - 1) / v_ipg v) as Hg0 by (apply Z.div_pos; lia). pose proof (Z.mod_pos_bound (ino - 1) (v_ipg v) ltac:(lia)) as Hx0.
  pose proof Hm as [_ Mb Mi Ms Md (L1 & _)].
  unfold read_inode. rewrite (proj2 (Z.eqb_neq ino 0)), Mi, (proj2 (Z.eqb_neq (v_ipg v) 0)) by lia. cbn [orb].
  unfold read_bgd, BGD_SIZE. rewrite u32_small, Mb, Md by lia. unfold udiv, umod. rewrite (proj2 (Z.eqb_neq (v_bs v) 0)) by lia. cbn [mbind res_bind].
  rewrite u32_small by lia. destruct (read_block_4096 v _ c1 (g_block_buf s) s Hv Hm L1 B1) as [-> Lb]. cbn [negb Z.eqb]. rewrite (get_app _ _ _ 32 _ ltac:(lia) G1). cbn [mbind res_bind].
  destruct (mounted_block_buf v s _ Hm Lb) as [Hm1 Q1]. generalize dependent (s <| g_block_buf := c1 ++ drop (length c1) (g_block_buf s) |>). intros s1 Hm1 Q1.
  unfold BGD_INODE_TABLE. rewrite T1. cbn [mbind res_bind]. pose proof Hm1 as [_ Mb1 _ Ms1 _ (L2 & _)]. rewrite Ms1, Mb1, (proj2 (Z.eqb_neq (v_bs v) 0)) by lia. cbn [mbind res_bind].
  rewrite (u32_small (_ * v_isz v)), u32_small by nia. destruct (read_block_4096 v _ c2 (g_block_buf s1) s1 Hv Hm1 L2 B2) as [-> Lb2]. cbn [negb Z.eqb].
  destruct (mounted_block_buf v s1 _ Hm1 Lb2) as [Hm2 Q2]. generalize dependent (s1 <| g_block_buf := c2 ++ drop (length c2) (g_block_buf s1) |>). intros s2 Hm2 Q2.
  rewrite (m_isz _ _ Hm2). assert ((if v_isz v <? 256 then v_isz v else 256) = v_isz v) as -> by (destruct (Z.ltb_spec (v_isz v) 256); lia).
  rewrite (get_app _ _ _ (v_isz v) _ ltac:(lia) G2). cbn [mbind res_bind].
  exists s2. destruct Q1 as (E1 & E2 & E3 & E4), Q2 as (F1 & F2 & F3 & F4). rewrite F1, E1. split; [done|]. split; [done|]. split; [split; [congruence|split; [congruence|split; congruence]]|].
  apply get_in in G2 as (J1 & J2 & ->). unfold zlen in *. rewrite length_take, length_drop. lia.
Qed.

(** ** Block pointers *)

(** Block [idx] of the file with inode [raw] is block [blk] of the disk, 0 for a hole. *)
Inductive points (v : vol) (raw : list Z) : Z -> Z -> Prop :=
  | points_direct idx blk : 0 <= idx < 12 -> u32_at raw (40 + idx * 4) = Ret blk -> points v raw idx blk
  | points_single idx ind c blk : 0 <= idx < v_bs v / 4 -> u32_at raw 88 = Ret ind -> block_at (v_bs v) ind c ->
      u32_at c (idx * 4) = Ret blk -> points v raw (12 + idx) blk
  | points_no_single idx : 0 <= idx < v_bs v / 4 -> u32_at raw 88 = Ret 0 -> points v raw (12 + idx) 0
  | points_double idx ind c1 ind2 c2 blk : 0 <= idx < v_bs v / 4 * (v_bs v / 4) -> u32_at raw 92 = Ret ind -> block_at (v_bs v) ind c1 ->
      u32_at c1 (idx / (v_bs v / 4) * 4) = Ret ind2 -> block_at (v_bs v) ind2 c2 -> u32_at c2 (idx mod (v_bs v / 4) * 4) = Ret blk ->
      points v raw (12 + v_bs v / 4 + idx) blk
  | points_no_second idx ind c1 : 0 <= idx < v_bs v / 4 * (v_bs v / 4) -> u32_at raw 92 = Ret ind -> block_at (v_bs v) ind c1 ->
      u32_at c1 (idx / (v_bs v / 4) * 4) = Ret 0 -> points v raw (12 + v_bs v / 4 + idx) 0
  | points_no_double idx : 0 <= idx < v_bs v / 4 * (v_bs v / 4) -> u32_at raw 92 = Ret 0 -> points v raw (12 + v_bs v / 4 + idx) 0.

(** The buffer of the current inode starts with [raw]. *)
Definition current (raw : list Z) (s : State) : Prop := exists r, g_inode_buf s = raw ++ r.

Lemma quiet_current raw s s' : quiet s s' -> current raw s -> current raw s'.
Proof. intros (E & _) [r H]. exists r. congruence. Qed.

Lemma quiet_trans s1 s2 s3 : quiet s1 s2 -> quiet s2 s3 -> quiet s1 s3.
Proof. intros (A & B & C & E) (A' & B' & C' & E'). split; [congruence|split; [congruence|split; congruence]]. Qed.

Lemma get_block_spec v s raw idx blk : vol_ok v -> mounted v s -> current raw s -> points v raw idx blk ->
  exists s', inode_get_block idx s = Ret (s', blk) /\ mounted v s' /\ quiet s s'.
Proof.
  intros Hv Hm [r Hr] Hp. pose proof Hv as (Hbs & _). pose proof Hm as [_ Mb _ _ _ (_ & _ & L1 & _ & L2 & _)].
  assert (256 <= v_bs v / 4 <= 1024) as Hpp by (destruct Hbs as [->|[->| ->]]; (split; vm_compute; congruence)).
  unfold inode_get_block, INO_BLOCK. rewrite Mb, Hr.
  destruct Hp as [idx blk Hi E|idx ind c blk Hi E B F|idx Hi E|idx ind c1 ind2 c2 blk Hi E B F B2 F2|idx ind c1 Hi E B F|idx Hi E].
  - rewrite (proj2 (Z.ltb_lt idx 12)) by lia. rewrite (u32_app _ _ _ _ E). cbn [mbind res_bind]. exists s. done.
  - rewrite (proj2 (Z.ltb_ge _ 12)), (proj2 (Z.ltb_lt (12 + idx - 12) _)) by lia. change (40 + 12 * 4) with 88. rewrite (u32_app _ _ _ _ E). cbn [mbind res_bind].
    destruct (block_at_bound _ _ _ Hbs B) as [Hb _]. rewrite (proj2 (Z.eqb_neq ind 0)) by lia.
    destruct (read_block_4096 v _ c (g_indir_buf s) s Hv Hm L1 B) as [-> Lb]. cbn [negb Z.eqb]. replace (12 + idx - 12) with idx by lia.
    rewrite (u32_app _ _ _ _ F). cbn [mbind res_bind]. eexists. split; [reflexivity|]. by apply mounted_indir_buf.
  - rewrite (proj2 (Z.ltb_ge _ 12)), (proj2 (Z.ltb_lt (12 + idx - 12) _)) by lia. change (40 + 12 * 4) with 88. rewrite (u32_app _ _ _ _ E). cbn [mbind res_bind Z.eqb].
    exists s. done.
  - rewrite (proj2 (Z.ltb_ge _ 12)), (proj2 (Z.ltb_ge _ (v_bs v / 4))) by lia. replace (12 + v_bs v / 4 + idx - 12 - v_bs v / 4) with idx by lia.
    rewrite u32_small, (proj2 (Z.ltb_lt idx _)) by nia. change (40 + 13 * 4) with 92. rewrite (u32_app _ _ _ _ E). cbn [mbind res_bind].
    destruct (block_at_bound _ _ _ Hbs B) as [Hb _]. rewrite (proj2 (Z.eqb_neq ind 0)) by lia.
    destruct (read_block_4096 v _ c1 (g_indir_buf s) s Hv Hm L1 B) as [-> Lb]. cbn [negb Z.eqb]. rewrite (u32_app _ _ _ _ F). cbn [mbind res_bind].
    destruct (block_at_bound _ _ _ Hbs B2) as [Hb2 _]. rewrite (proj2 (Z.eqb_neq ind2 0)) by lia.
    destruct (mounted_indir_buf v s _ Hm Lb) as [Hm1 Q1]. assert (zlen (indir2 (s <| g_indir_buf := c1 ++ drop (length c1) (g_indir_buf s) |>)) = 4096) as L3 by done.
    generalize dependent (s <| g_indir_buf := c1 ++ drop (length c1) (g_indir_buf s) |>). intros s1 Hm1 Q1 L3.
    destruct (read_block_4096 v _ c2 (indir2 s1) s1 Hv Hm1 L3 B2) as [-> Lb2]. cbn [negb Z.eqb]. rewrite (u32_app _ _ _ _ F2). cbn [mbind res_bind].
    destruct (mounted_indir2 v s1 _ Hm1 Lb2) as [Hm2 Q2]. eexists. split; [reflexivity|]. split; [done|]. by apply (quiet_trans s s1).
  - rewrite (proj2 (Z.ltb_ge _ 12)), (proj2 (Z.ltb_ge _ (v_bs v / 4))) by lia. replace (12 + v_bs v / 4 + idx - 12 - v_bs v / 4) with idx by lia.
    rewrite u32_small, (proj2 (Z.ltb_lt idx _)) by nia. change (40 + 13 * 4) with 92. rewrite (u32_app _ _ _ _ E). cbn [mbind res_bind].
    destruct (block_at_bound _ _ _ Hbs B) as [Hb _]. rewrite (proj2 (Z.eqb_neq ind 0)) by lia.
    destruct (read_block_4096 v _ c1 (g_indir_buf s) s Hv Hm L1 B) as [-> Lb]. cbn [negb Z.eqb]. rewrite (u32_app _ _ _ _ F). cbn [mbind res_bind Z.eqb].
    eexists. split; [reflexivity|]. by apply mounted_indir_buf.
  - rewrite (proj2 (Z.ltb_ge _ 12)), (proj2 (Z.ltb_ge _ (v_bs v / 4))) by lia. replace (12 + v_bs v / 4 + idx - 12 - v_bs v / 4) with idx by lia.
    rewrite u32_small, (proj2 (Z.ltb_lt idx _)) by nia. change (40 + 13 * 4) with 92. rewrite (u32_app _ _ _ _ E). cbn [mbind res_bind Z.eqb]. exists s. done.
Qed.

(** ** Contents of a file *)

(** Each block of [content] is the one the inode points to, or a hole of zeros. *)
Definition holds (v : vol) (raw content : list Z) : Prop :=
  zlen content < 2 ^ 32 /\ forall idx, 0 <= idx -> idx * v_bs v < zlen content ->
    exists blk c, points v raw idx blk /\ zlen c = v_bs v /\
      (if blk =? 0 then c = replicate (Z.to_nat (v_bs v)) 0 else block_at (v_bs v) blk c) /\
      forall k, 0 <= k < v_bs v -> idx * v_bs v + k < zlen content -> content.[idx * v_bs v + k] = c.[k].

Definition slice (l : list Z) (off n : Z) : list Z := take (Z.to_nat n) (drop (Z.to_nat off) l).

Lemma zlen_slice l off n : 0 <= off -> 0 <= n -> off + n <= zlen l -> zlen (slice l off n) = n.
Proof. unfold slice, zlen. intros. rewrite length_take, length_drop. lia. Qed.

Lemma slice_split l off n m : 0 <= off -> 0 <= n -> 0 <= m -> slice l off (n + m) = slice l off n ++ slice l (off + n) m.
Proof.
  intros Ho Hn Hm. unfold slice. rewrite !Z2Nat.inj_add, <- drop_drop by lia. generalize (drop (Z.to_nat off) l). intros k. by rewrite take_take_drop.
Qed.

Lemma slice_ext l l' off off' n : 0 <= off -> 0 <= off' -> 0 <= n -> off + n <= zlen l -> off' + n <= zlen l' ->
  (forall k, 0 <= k < n -> l.[off + k] = l'.[off' + k]) -> slice l off n = slice l' off' n.
Proof.
  intros Ho Ho' Hn Hl Hl' H. apply aget_ext; [pose proof (zlen_slice l off n Ho Hn Hl); pose proof (zlen_slice l' off' n Ho' Hn Hl'); unfold zlen in *; lia|].
  intros k Hk. rewrite zlen_slice in Hk by done. unfold slice. rewrite !aget_take by (unfold zlen in *; rewrite ?length_drop; lia). unfold aget. rewrite !lookup_total_drop, <- !Z2Nat.inj_add by lia. by apply H.
Qed.

(** The block buffer of files may differ as well. *)
Definition calm (s s' : State) : Prop := g_inode_buf s' = g_inode_buf s /\ cat_buf s' = cat_buf s /\ screen s' = screen s.

Lemma calm_trans s1 s2 s3 : calm s1 s2 -> calm s2 s3 -> calm s1 s3.
Proof. intros (A & B & C) (A' & B' & C'). split; [congruence|split; congruence]. Qed.
Lemma quiet_calm s s' : quiet s s' -> calm s s'.
Proof. intros (A & B & C & E). done. Qed.
Lemma calm_current raw s s' : calm s s' -> current raw s -> current raw s'.
Proof. intros (E & _) [r H]. exists r. congruence. Qed.

Lemma inode_read_loop_spec v raw content : vol_ok v -> holds v raw content -> forall fuel end_ offset total buf s,
  mounted v s -> current raw s -> 0 <= offset <= end_ -> end_ <= zlen content -> end_ - offset <= Z.of_nat fuel ->
  0 <= total -> total + (end_ - offset) <= zlen buf -> zlen buf < 2 ^ 32 ->
  exists s', inode_read_loop fuel end_ offset total buf s = Ret (s', put buf total (slice content offset (end_ - offset)), total + (end_ - offset)) /\
    mounted v s' /\ calm s s'.
Proof.
  intros Hv [Hlt Hc]. pose proof Hv as (Hbs & _). assert (0 < v_bs v <= 4096) as Hb by (destruct Hbs as [->|[->| ->]]; lia).
  induction fuel as [|fuel IH]; intros end_ offset total buf s Hm Hcur Ho He Hf Ht Hl Hbuf; cbn [inode_read_loop].
  { rewrite (proj2 (Z.ltb_ge offset end_)) by lia. cbn [negb]. exists s. replace (end_ - offset) with 0 by lia. unfold slice. cbn [take Z.to_nat].
    rewrite put_nil, Z.add_0_r. done. }
  destruct (Z.ltb_spec offset end_) as [Hlo|Hlo]; cbn [negb].
  2:{ exists s. replace (end_ - offset) with 0 by lia. unfold slice. cbn [take Z.to_nat]. rewrite put_nil, Z.add_0_r. done. }
  unfold udiv, umod. rewrite (m_bs _ _ Hm), (proj2 (Z.eqb_neq (v_bs v) 0)) by lia. cbn [mbind res_bind].
  pose proof (Z.div_mod offset (v_bs v) ltac:(lia)) as Hdm. pose proof (Z.mod_pos_bound offset (v_bs v) ltac:(lia)) as Hmod. set (q := offset / v_bs v) in *. set (r := offset mod v_bs v) in *.
  assert (0 <= q) as Hq by (apply Z.div_pos; lia).
  destruct (Hc q Hq ltac:(lia)) as (blk & c & Hp & Hlc & Hbc & Hbytes). destruct (get_block_spec v s raw q blk Hv Hm Hcur Hp) as (s1 & -> & Hm1 & Q1). cbn [mbind res_bind].
  rewrite (m_bs _ _ Hm1). set (chunk := if end_ - offset <? v_bs v - r then end_ - offset else v_bs v - r).
  assert (0 < chunk /\ offset + chunk <= end_ /\ r + chunk <= v_bs v) as (Hk1 & Hk2 & Hk3) by (subst chunk; destruct (Z.ltb_spec (end_ - offset) (v_bs v - r)); lia).
  rewrite (u32_small (offset + chunk)), (u32_small (total + chunk)) by lia.
  assert (slice c r chunk = slice content offset chunk) as Hs.
  { apply slice_ext; try lia. intros k Hk. rewrite <- (Hbytes (r + k)) by lia. f_equal. lia. }
  assert (forall s2 buf2, mounted v s2 -> calm s s2 -> buf2 = put buf total (slice content offset chunk) ->
    exists s', inode_read_loop fuel end_ (offset + chunk) (total + chunk) buf2 s2 = Ret (s', put buf total (slice content offset (end_ - offset)), total + (end_ - offset)) /\ mounted v s' /\ calm s s') as Hnext.
  { intros s2 buf2 Hm2 Q2 ->. assert (zlen (slice content offset chunk) = chunk) as Hz by (apply zlen_slice; lia).
    destruct (IH end_ (offset + chunk) (total + chunk) (put buf total (slice content offset chunk)) s2) as (s' & -> & Hm' & Q'); try done; try lia.
    { by apply (calm_current raw s). } { rewrite zlen_put by lia. lia. } { rewrite zlen_put by lia. lia. }
    exists s'. split; [|split; [done|by apply (calm_trans s s2)]]. rewrite <- Hz at 2. rewrite put_put by lia.
    replace (end_ - offset) with (chunk + (end_ - (offset + chunk))) by lia. rewrite slice_split by lia. do 2 f_equal. lia. }
  destruct (Z.eqb_spec blk 0) as [->|Hbk].
  - apply Hnext; [done|by apply quiet_calm|]. cbn in Hbc. rewrite <- Hs, Hbc. unfold slice. f_equal. rewrite drop_replicate, take_replicate. f_equal. lia.
  - destruct (read_block_4096 v _ c (g_dir_buf s1) s1 Hv Hm1 (proj1 (proj2 (proj2 (proj2 (m_bufs _ _ Hm1))))) Hbc) as [-> Lb]. cbn [negb Z.eqb].
    rewrite (get_app c _ r chunk (slice c r chunk)) by (try lia; apply get_ret; lia). cbn [mbind res_bind].
    pose proof (mounted_dir_buf v s1 _ Hm1 Lb) as Hm2. apply Hnext; [done| |by rewrite Hs]. apply (calm_trans s s1); [by apply quiet_calm|done].
Qed.

Lemma inode_read_spec v raw content s buf offset len : vol_ok v -> holds v raw content -> mounted v s -> current raw s ->
  0 <= offset -> 0 <= len <= zlen buf -> zlen buf < 2 ^ 32 -> offset + len < 2 ^ 32 ->
  let n := Z.max 0 (Z.min (offset + len) (zlen content) - offset) in
  exists s', inode_read (zlen content) offset buf len s = Ret (s', put buf 0 (slice content offset n), n) /\ mounted v s' /\ calm s s'.
Proof.
  intros Hv Hh Hm Hcur Ho Hl Hb Hw. cbv zeta. unfold inode_read. rewrite u32_small by lia.
  set (e := if zlen content <? offset + len then zlen content else offset + len).
  assert (e = Z.min (offset + len) (zlen content)) as He by (subst e; destruct (Z.ltb_spec (zlen content) (offset + len)); lia). rewrite <- He.
  destruct (Z.leb_spec e offset).
  - rewrite Z.max_l by lia. exists s. unfold slice. cbn [take Z.to_nat]. by rewrite put_nil.
  - rewrite Z.max_r by lia.
    destruct (inode_read_loop_spec v raw content Hv Hh (Z.to_nat (e - offset)) e offset 0 buf s) as (s' & E & Hm' & Q); try done; try lia.
    rewrite E. exists s'. done.
Qed.

(** ** Directories *)

(** The inode number and the name of an entry; the number is 0 when it is unused. *)
Definition entry : Type := Z * list Z.

(** The bytes of a block from [p] to [limit] are the entries [es]. *)
Inductive entries_at (blk : list Z) (limit : Z) : Z -> list entry -> Prop :=
  | entries_end : entries_at blk limit limit []
  | entries_next p ino name rec_len ty es :
      u32_at blk p = Ret ino -> u16_at blk (p + 4) = Ret rec_len -> u8_at blk (p + 6) = Ret (zlen name) -> u8_at blk (p + 7) = Ret ty ->
      get blk (p + 8) (zlen name) = Ret name -> 8 + zlen name <= rec_len -> p + rec_len <= limit ->
      entries_at blk limit (p + rec_len) es -> entries_at blk limit p ((ino, name) :: es).

(** The first entry in use with the name. *)
Fixpoint find_name (name : list Z) (es : list entry) : option Z :=
  match es with
  | [] => None
  | (ino, nm) :: es => if negb (ino =? 0) && bool_decide (nm = name) then Some ino else find_name name es
  end.

Definition plain_name (name : list Z) : Prop := 0 < zlen name <= 254 /\ Forall (fun c => c <> 0 /\ c <> 47) name.

Lemma plain_nonzero name : plain_name name -> Forall (fun c => c <> 0) name.
Proof. intros [_ H]. induction H as [|c l [Hc _] _ IH]; by constructor. Qed.

Lemma get_cons blk off x nm : get blk off (zlen (x :: nm)) = Ret (x :: nm) -> u8_at blk off = Ret x /\ get blk (off + 1) (zlen nm) = Ret nm.
Proof.
  intros (H1 & H2 & H3)%get_in. unfold zlen in *. cbn [length] in *. rewrite Nat2Z.id in H3. unfold u8_at. rewrite !get_ret by (unfold zlen; lia). cbn [mbind res_bind].
  rewrite Z2Nat.inj_add, <- drop_drop, Nat2Z.id by lia. change (Z.to_nat 1) with 1%nat. generalize dependent (drop (Z.to_nat off) blk). intros l H3.
  destruct l as [|y l]; [done|]. cbn in H3. injection H3 as -> H3. cbn. by rewrite drop_0, <- H3.
Qed.

Lemma xstrncmp_spec blk b : forall nm off, get blk off (zlen nm) = Ret nm -> length nm = length b -> Forall (fun c => c <> 0 /\ c <> 47) b ->
  exists c, xstrncmp blk off b = Ret c /\ (c = 0 <-> nm = b).
Proof.
  induction b as [|y b IH]; intros nm off Hg Hl Hb; (destruct nm as [|x nm]; [|]); try discriminate Hl; cbn [xstrncmp].
  { by exists 0. }
  apply get_cons in Hg as [-> Hg]. cbn [mbind res_bind]. apply Forall_cons_1 in Hb as [[Hy _] Hb]. injection Hl as Hl.
  rewrite (proj2 (Z.eqb_neq y 0)) by done. cbn [negb]. destruct (Z.eqb_spec x y) as [->|Hxy].
  - rewrite (proj2 (Z.eqb_neq y 0)) by done. cbn [negb andb]. destruct (IH nm (off + 1) Hg Hl Hb) as (c & -> & Hc). exists c. split; [done|]. rewrite Hc.
    split; [by intros ->|by intros [= ->]].
  - rewrite andb_false_r. exists (x - y). split; [done|]. split; [intros; lia|]. intros [= ? _]. done.
Qed.

Lemma u8_app buf r off x : u8_at buf off = Ret x -> u8_at (buf ++ r) off = Ret x.
Proof. unfold u8_at. intros (p & H & E)%res_bind_Ret. rewrite (get_app _ _ _ 1 _ ltac:(lia) H). exact E. Qed.

Lemma find_entry_spec blk r name limit p es : entries_at blk limit p es -> plain_name name -> limit <= 4096 -> forall fuel,
  0 <= p -> limit - p <= Z.of_nat fuel -> find_entry fuel (blk ++ r) name p limit = Ret (find_name name es).
Proof.
  intros He [Hn Hb] Hl. induction He as [|p ino nm rec_len ty es E1 E2 E3 E4 E5 H1 H2 He IH]; intros fuel Hp Hf.
  { destruct fuel; cbn [find_entry]; by rewrite (proj2 (Z.ltb_ge limit limit)) by lia. }
  pose proof (Zle_0_nat (length nm)) as Hz. fold (zlen nm) in Hz.
  destruct fuel as [|fuel]; [lia|]. cbn [find_entry]. rewrite (proj2 (Z.ltb_lt p limit)) by lia. cbn [negb].
  rewrite (u32_app _ _ _ _ E1), (u16_app _ _ _ _ E2). cbn [mbind res_bind]. rewrite (proj2 (Z.eqb_neq rec_len 0)) by lia.
  rewrite (u8_app _ _ _ _ E3). cbn [mbind res_bind]. rewrite !u32_small by lia. specialize (IH fuel ltac:(lia) ltac:(lia)). cbn [find_name].
  rewrite u8_small by lia. destruct (Z.eqb_spec ino 0); cbn [negb andb]; [exact IH|]. destruct (Z.eqb_spec (zlen nm) (zlen name)) as [El|El].
  - unfold DE_NAME. destruct (xstrncmp_spec (blk ++ r) name nm (p + 8)) as (c & -> & Hc); [by apply get_app|unfold zlen in El; lia|done|]. cbn [mbind res_bind].
    case_bool_decide as Hd; [by rewrite (proj2 (Z.eqb_eq c 0)) by tauto|by rewrite (proj2 (Z.eqb_neq c 0)) by tauto].
  - rewrite bool_decide_false by congruence. exact IH.
Qed.

(** The inode of a directory with the blocks [bl] of entries. *)
Definition is_dir (v : vol) (raw : list Z) (bl : list (list entry)) : Prop :=
  (exists mode, u16_at raw 0 = Ret mode /\ Z.land mode EXT2_S_IFDIR <> 0 /\ Z.land mode EXT2_S_IFREG = 0) /\
  u32_at raw 4 = Ret (zlen bl * v_bs v) /\ zlen bl * v_bs v < 2 ^ 32 /\
  forall k es, bl !! k = Some es -> exists blk c, points v raw (Z.of_nat k) blk /\ block_at (v_bs v) blk c /\ entries_at c (v_bs v) 0 es.

Definition is_file (v : vol) (raw content : list Z) : Prop :=
  (exists mode, u16_at raw 0 = Ret mode /\ Z.land mode EXT2_S_IFREG <> 0 /\ Z.land mode EXT2_S_IFDIR = 0) /\
  u32_at raw 4 = Ret (zlen content) /\ holds v raw content.

Lemma find_name_app name es es' : find_name name (es ++ es') = match find_name name es with Some i => Some i | None => find_name name es' end.
Proof. induction es as [|[ino nm] es IH]; [done|]. cbn. by case_if. Qed.

Definition settled (s s' : State) : Prop := cat_buf s' = cat_buf s /\ screen s' = screen s.
Lemma settled_trans s1 s2 s3 : settled s1 s2 -> settled s2 s3 -> settled s1 s3.
Proof. intros (A & B) (A' & B'). split; congruence. Qed.
Lemma quiet_settled s s' : quiet s s' -> settled s s'.
Proof. by intros (_ & _ & A & B). Qed.

Lemma dir_find_loop_spec v raw save bl name : vol_ok v -> is_dir v raw bl -> plain_name name -> (exists r, save = raw ++ r) -> zlen save = 256 ->
  forall fuel k s, mounted v s -> (k <= length bl)%nat -> (length bl - k < fuel)%nat ->
  exists s', dir_find_loop fuel save (zlen bl * v_bs v) name (Z.of_nat k * v_bs v) s = Ret (s', default 0 (find_name name (concat (drop k bl)))) /\
    mounted v s' /\ settled s s'.
Proof.
  intros Hv (_ & _ & Hlt & Hbl) Hn Hsave Hls. pose proof Hv as (Hbs & _). assert (0 < v_bs v <= 4096) as Hb by (destruct Hbs as [->|[->| ->]]; lia). unfold zlen in Hlt.
  induction fuel as [|fuel IH]; intros k s Hm Hk Hf; [lia|]. cbn [dir_find_loop]. destruct (decide (k = length bl)) as [->|Hne].
  { rewrite (proj2 (Z.ltb_ge _ (zlen bl * v_bs v))) by (unfold zlen; lia). cbn [negb]. rewrite drop_ge by lia. exists s. done. }
  rewrite (proj2 (Z.ltb_lt _ (zlen bl * v_bs v))) by (unfold zlen; nia). cbn [negb]. unfold udiv, umod. rewrite (m_bs _ _ Hm), (proj2 (Z.eqb_neq (v_bs v) 0)) by lia. cbn [mbind res_bind].
  rewrite Z.div_mul, Z.mod_mul by lia. destruct (lookup_lt_is_Some_2 bl k ltac:(lia)) as [es Hes]. destruct (Hbl k es Hes) as (blk & c & Hp & Hbc & He).
  pose proof (mounted_inode_buf v s save Hm Hls) as Hm0. assert (current raw (s <| g_inode_buf := save |>)) as Hcur by (destruct Hsave as [r ->]; by exists r).
  assert (settled s (s <| g_inode_buf := save |>)) as Q0 by done. generalize dependent (s <| g_inode_buf := save |>). intros s0 Hm0 Hcur Q0.
  destruct (get_block_spec v s0 raw _ blk Hv Hm0 Hcur Hp) as (s1 & -> & Hm1 & Q1%quiet_settled). cbn [mbind res_bind].
  pose proof (mounted_inode_buf v s1 save Hm1 Hls) as Hm2. assert (settled s1 (s1 <| g_inode_buf := save |>)) as Q2 by done.
  generalize dependent (s1 <| g_inode_buf := save |>). intros s2 Hm2 Q2. destruct (block_at_bound _ _ _ Hbs Hbc) as [Hbk _]. rewrite (proj2 (Z.eqb_neq blk 0)) by lia.
  destruct (read_block_4096 v _ c (g_dir_buf s2) s2 Hv Hm2 (proj1 (proj2 (proj2 (proj2 (m_bufs _ _ Hm2))))) Hbc) as [-> Lb]. cbn [negb Z.eqb].
  pose proof (mounted_dir_buf v s2 _ Hm2 Lb) as Hm3. assert (settled s2 (s2 <| g_dir_buf := c ++ drop (length c) (g_dir_buf s2) |>)) as Q3 by done.
  generalize dependent (s2 <| g_dir_buf := c ++ drop (length c) (g_dir_buf s2) |>). intros s3 Hm3 Q3. rewrite (m_bs _ _ Hm3).
  assert (settled s s3) as Q by eauto using settled_trans. clear Q0 Q1 Q2 Q3.
  rewrite u32_small by nia. assert ((zlen bl * v_bs v <? Z.of_nat k * v_bs v + v_bs v) = false) as -> by (apply Z.ltb_ge; unfold zlen; nia).
  rewrite (find_entry_spec c _ name (v_bs v) 0 es He Hn ltac:(lia)) by lia. cbn [mbind res_bind].
  rewrite (drop_S _ _ _ Hes). cbn [concat]. rewrite find_name_app. destruct (find_name name es) as [i|]; [by exists s3|].
  replace (Z.of_nat k * v_bs v + v_bs v) with (Z.of_nat (S k) * v_bs v) by lia.
  destruct (IH (S k) s3 Hm3 ltac:(lia) ltac:(lia)) as (s' & -> & Hm' & Q'). exists s'. split; [done|]. split; [done|by apply (settled_trans s s3)].
Qed.

(** ** Paths *)

Inductive node := Dir (bl : list (list entry)) | File (content : list Z).

(** The disk holds the volume [v] with the inodes [files]; the entries in use of its
    directories are among them. *)
Definition volume (v : vol) (files : gmap Z node) : Prop :=
  vol_ok v /\
  (forall ino nd, files !! ino = Some nd -> exists raw, inode_at v ino raw /\
     match nd with Dir bl => is_dir v raw bl | File content => is_file v raw content end) /\
  (forall ino bl i nm, files !! ino = Some (Dir bl) -> (i, nm) ∈ concat bl -> i <> 0 -> is_Some (files !! i)).

(** The inode a list of names leads to, 0 if there is none. *)
Fixpoint lookup_path (files : gmap Z node) (cur : Z) (names : list (list Z)) : Z :=
  match names with
  | [] => cur
  | name :: names =>
      match files !! cur with
      | Some (Dir bl) => match find_name name (concat bl) with Some i => lookup_path files i names | None => 0 end
      | _ => 0
      end
  end.

(** The nonempty parts of a path between slashes. *)
Fixpoint split_slash (p : list Z) : list (list Z) :=
  match p with
  | [] => [[]]
  | c :: p => if c =? 47 then [] :: split_slash p else match split_slash p with w :: ws => (c :: w) :: ws | [] => [[c]] end
  end.
Definition names_of (p : list Z) : list (list Z) := filter (fun w => w <> []) (split_slash p).

Lemma component_split p : exists ws, split_slash p = fst (component p) :: ws /\ filter (fun w => w <> []) ws = names_of (snd (component p)) /\
  (length (snd (component p)) <= length p)%nat.
Proof.
  induction p as [|c p (ws & E & F & L)]; cbn [split_slash component]; [by exists []|]. destruct (Z.eqb_spec c 47).
  { exists (split_slash p). cbn. split; [done|]. split; [done|lia]. }
  rewrite E. destruct (component p) as [w rest]. cbn [fst snd] in *. exists ws. split; [done|]. split; [done|cbn; lia].
Qed.

Lemma component_names p : names_of p = (if decide (fst (component p) = []) then [] else [fst (component p)]) ++ names_of (snd (component p)).
Proof.
  destruct (component_split p) as (ws & E & F & _). unfold names_of at 1. rewrite E, filter_cons, F. destruct (decide (fst (component p) = [])).
  - rewrite decide_False by tauto. done.
  - rewrite decide_True by done. done.
Qed.

Lemma component_shorter c p : (length (snd (component (c :: p))) <= length p)%nat.
Proof.
  cbn [component]. destruct (c =? 47); [cbn; lia|]. destruct (component_split p) as (_ & _ & _ & L). destruct (component p). cbn in *. lia.
Qed.

Lemma read_inode_current v s ino raw : vol_ok v -> mounted v s -> inode_at v ino raw ->
  exists s' r, read_inode ino s = Ret (s', 0) /\ mounted v s' /\ settled s s' /\ g_inode_buf s' = raw ++ r /\ zlen (g_inode_buf s') = 256.
Proof.
  intros Hv Hm Hi. destruct (read_inode_spec v s ino raw Hv Hm Hi) as (s1 & E & Hm1 & Q & Hl). destruct Hv as (_ & _ & Hsz & _).
  pose proof (m_bufs _ _ Hm) as (_ & L & _). assert (zlen (put (g_inode_buf s) 0 raw) = 256) as Lp by (rewrite zlen_put; lia).
  exists (s1 <| g_inode_buf := put (g_inode_buf s) 0 raw |>), (drop (length raw) (g_inode_buf s)). split; [exact E|].
  split; [by apply mounted_inode_buf|]. split; [exact (quiet_settled _ _ Q)|]. split; [done|exact Lp].
Qed.

Lemma dir_find_spec v files s ino nd name : volume v files -> mounted v s -> files !! ino = Some nd -> plain_name name ->
  exists s', dir_find ino name s = Ret (s', match nd with Dir bl => default 0 (find_name name (concat bl)) | File _ => 0 end) /\ mounted v s' /\ settled s s'.
Proof.
  intros (Hv & Hf & _) Hm Hi Hn. destruct (Hf ino nd Hi) as (raw & Hraw & Hnd). unfold dir_find.
  destruct (read_inode_current v s ino raw Hv Hm Hraw) as (s1 & r & -> & Hm1 & Q1 & Hr & Hl). cbn [mbind res_bind negb Z.eqb]. rewrite Hr. unfold INO_MODE, INO_SIZE.
  destruct nd as [bl|content].
  - pose proof Hnd as ((mode & E1 & H1 & _) & E2 & _). rewrite (u16_app _ _ _ _ E1). cbn [mbind res_bind]. rewrite (proj2 (Z.eqb_neq _ 0)) by exact H1.
    rewrite (u32_app _ _ _ _ E2). cbn [mbind res_bind]. rewrite (cstr_id name) by (by apply plain_nonzero).
    rewrite <- Hr. destruct (dir_find_loop_spec v raw (g_inode_buf s1) bl name Hv Hnd Hn (ex_intro _ r Hr) Hl (dir_rounds (zlen bl * v_bs v) (g_block_size s1)) 0 s1 Hm1 ltac:(lia)) as (s' & E & Hm' & Q').
    { unfold dir_rounds. rewrite (m_bs _ _ Hm1), Z.div_mul by (destruct Hv as ([->|[->| ->]] & _); lia). unfold zlen. lia. }
    exists s'. rewrite drop_0 in E. split; [exact E|]. split; [done|by apply (settled_trans s s1)].
  - destruct Hnd as ((mode & E1 & _ & H1) & _). rewrite (u16_app _ _ _ _ E1). cbn [mbind res_bind]. rewrite H1. exists s1. done.
Qed.

Lemma find_name_in name es i : find_name name es = Some i -> i <> 0 /\ (i, name) ∈ es.
Proof.
  induction es as [|[j nm] es IH]; [done|]. cbn. destruct (Z.eqb_spec j 0); cbn [negb andb].
  - intros H. destruct (IH H). split; [done|by right].
  - case_bool_decide; [intros [= <-]; subst; split; [done|by left]|]. intros H'. destruct (IH H'). split; [done|by right].
Qed.

Lemma path_loop_spec v files : volume v files -> forall fuel p cur s, mounted v s -> is_Some (files !! cur) -> cur <> 0 -> Forall plain_name (names_of p) ->
  (length p <= fuel)%nat -> exists s', resolve_loop fuel cur p s = Ret (s', lookup_path files cur (names_of p)) /\ mounted v s' /\ settled s s'.
Proof.
  intros Hvol. induction fuel as [|fuel IH]; intros p cur s Hm [nd Hc] Hc0 Hp Hf; (destruct p as [|c p]; [by exists s|]); [cbn in Hf; lia|]. cbn [resolve_loop].
  rewrite component_names in *. pose proof (component_shorter c p) as Hs. destruct (component (c :: p)) as [w rest]. cbn [fst snd length] in *.
  destruct (decide (w = [])) as [->|Hw].
  { cbn [zlen length Z.of_nat Z.eqb app] in *. apply IH; try done. lia. }
  cbn [app] in *. apply Forall_cons_1 in Hp as [Hw1 Hp]. assert (zlen w <> 0 /\ zlen w < 255) as [H1 H2] by (destruct Hw1 as [? _]; lia).
  rewrite (proj2 (Z.eqb_neq (zlen w) 0)), (proj2 (Z.leb_gt 255 (zlen w))) by done. cbn [lookup_path].
  destruct (dir_find_spec v files s cur nd w Hvol Hm Hc Hw1) as (s1 & -> & Hm1 & Q1). cbn [mbind res_bind]. rewrite Hc. destruct nd as [bl|content]; [|by exists s1].
  destruct (find_name w (concat bl)) as [i|] eqn:Ei; cbn [default from_option]; [|by exists s1]. destruct (find_name_in _ _ _ Ei) as [Hi0 Hin]. cbn [id].
  rewrite (proj2 (Z.eqb_neq i 0)) by done. destruct (IH rest i s1 Hm1) as (s' & -> & Hm' & Q'); try done; [|lia|].
  { destruct Hvol as (_ & _ & Hcl). by apply (Hcl cur bl i w). }
  exists s'. split; [done|]. split; [done|by apply (settled_trans s s1)].
Qed.

Lemma resolve_path_spec v files s path : volume v files -> mounted v s -> is_Some (files !! EXT2_ROOT_INO) -> Forall plain_name (names_of (cstr path)) ->
  exists s', resolve_path (Some path) s = Ret (s', lookup_path files EXT2_ROOT_INO (names_of (cstr path))) /\ mounted v s' /\ settled s s'.
Proof.
  intros Hvol Hm Hroot Hp. unfold resolve_path. destruct (cstr path) as [|c p] eqn:E; [by exists s|]. rewrite bool_decide_false by done. cbn [orb].
  case_bool_decide as H; [rewrite H; by exists s|]. change ((c :: p).[0]) with c.
  assert (names_of (if c =? 47 then drop 1 (c :: p) else c :: p) = names_of (c :: p)) as En.
  { destruct (Z.eqb_spec c 47) as [->|]; [|done]. cbn [drop]. by rewrite drop_0. }
  rewrite <- En in *. apply (path_loop_spec v); done.
Qed.

(** ** Printing a file *)

(** The buffer after a chunk of [n] bytes: the chunk, a NUL, and what was there. *)
Lemma chunk_buffer buf b : zlen b < zlen buf -> (put buf 0 b).[zlen b <- 0] = b ++ 0 :: drop (S (length b)) buf.
Proof.
  unfold put, zlen, aset. intros H. change (Z.to_nat 0) with 0%nat. rewrite take_0. cbn [app Nat.add]. rewrite Nat2Z.id. destruct (drop (length b) buf) as [|x r] eqn:E.
  { apply (f_equal length) in E. rewrite length_drop in E. cbn in E. lia. }
  assert (drop (S (length b)) buf = r) as -> by (rewrite <- Nat.add_1_r, <- drop_drop, E; done).
  rewrite (insert_app_r_alt b (x :: r) (length b) 0 (Nat.le_refl _)). by rewrite Nat.sub_diag.
Qed.

Lemma aget_slice_at l off n k : 0 <= off -> 0 <= k < n -> off + n <= zlen l -> (slice l off n).[k] = l.[off + k].
Proof.
  intros. unfold slice. rewrite aget_take by (unfold zlen in *; rewrite ?length_drop; lia). unfold aget. by rewrite lookup_total_drop, <- Z2Nat.inj_add by lia.
Qed.

Lemma aget_app_l (l r : list Z) k : 0 <= k < zlen l -> (l ++ r).[k] = l.[k].
Proof. intros. unfold aget. apply lookup_total_app_l. unfold zlen in *. lia. Qed.

(** A byte of the buffer behind the NUL is an old one. *)
Lemma aget_behind (b buf : list Z) k : zlen b < k -> k < zlen buf -> (b ++ 0 :: drop (S (length b)) buf).[k] = buf.[k].
Proof.
  intros Hk Hl. unfold aget, zlen in *. rewrite lookup_total_app_r by lia. replace (Z.to_nat k - length b)%nat with (S (Z.to_nat k - S (length b))) by lia.
  change ((0 :: drop (S (length b)) buf) !!! S (Z.to_nat k - S (length b))) with (drop (S (length b)) buf !!! (Z.to_nat k - S (length b))%nat).
  rewrite lookup_total_drop. f_equal. lia.
Qed.

(** The buffer when the whole of [content] is printed. *)
Definition last_chunk (content buf : list Z) : Prop :=
  let m := (zlen content - 1) / CAT_CHUNK in
  let g := zlen content - CAT_CHUNK * m in
  (forall k, 0 <= k < g -> buf.[k] = content.[CAT_CHUNK * m + k]) /\ buf.[g] = 0 /\
  (0 < m -> g < 511 -> buf.[511] = content.[CAT_CHUNK * m - 1]).

Lemma cat_last content b old j buf n : b = slice content (CAT_CHUNK * j) n -> zlen old = 513 -> 0 <= j -> CAT_CHUNK * j < zlen content ->
  n = Z.min 512 (zlen content - CAT_CHUNK * j) -> CAT_CHUNK * j + n = zlen content -> zlen b = n -> buf = b ++ 0 :: drop (S (length b)) old ->
  (0 < j -> old.[511] = content.[CAT_CHUNK * j - 1]) -> last_chunk content buf.
Proof.
  intros Hb Hold Hj Hjl Hn He Hz -> Hprev. assert (CAT_CHUNK = 512) as HC by reflexivity. unfold last_chunk.
  assert ((zlen content - 1) / CAT_CHUNK = j) as -> by (symmetry; apply (Z.div_unique _ _ _ (n - 1)); lia).
  replace (zlen content - CAT_CHUNK * j) with n by lia. split; [|split].
  - intros k Hk. rewrite aget_app_l by lia. rewrite Hb. apply aget_slice_at; lia.
  - rewrite <- Hz. unfold aget, zlen. rewrite Nat2Z.id, lookup_total_app_r by lia. by rewrite Nat.sub_diag.
  - intros H0 Hn'. rewrite aget_behind by lia. by apply Hprev.
Qed.

Lemma cat_loop_spec v raw content : vol_ok v -> holds v raw content -> Forall (fun c => c <> 0) content -> forall fuel j save s,
  mounted v s -> (exists r, save = raw ++ r) -> zlen save = 256 -> 0 <= j -> CAT_CHUNK * j < zlen content -> zlen content - CAT_CHUNK * j <= Z.of_nat fuel ->
  (0 < j -> (cat_buf s).[511] = content.[CAT_CHUNK * j - 1]) ->
  exists s', cat_loop fuel save (zlen content) (CAT_CHUNK * j) s = Ret (s', zlen content) /\ mounted v s' /\
    screen s' = screen s ++ drop (Z.to_nat (CAT_CHUNK * j)) content /\ last_chunk content (cat_buf s').
Proof.
  intros Hv Hh Hnz. assert (CAT_CHUNK = 512) as HC by reflexivity. pose proof Hh as [Hlt _].
  induction fuel as [|fuel IH]; intros j save s Hm Hsave Hls Hj Hjl Hf Hprev; [lia|]. cbn [cat_loop].
  rewrite (proj2 (Z.ltb_lt _ (zlen content))) by lia. cbn [negb]. set (n := if CAT_CHUNK <? zlen content - CAT_CHUNK * j then CAT_CHUNK else _).
  assert (n = Z.min 512 (zlen content - CAT_CHUNK * j)) as Hn by (subst n; destruct (Z.ltb_spec CAT_CHUNK (zlen content - CAT_CHUNK * j)); lia).
  pose proof (mounted_inode_buf v s save Hm Hls) as Hm0. assert (current raw (s <| g_inode_buf := save |>)) as Hcur by (destruct Hsave as [r ->]; by exists r).
  pose proof (m_bufs _ _ Hm) as (_ & _ & _ & _ & _ & Lc).
  destruct (inode_read_spec v raw content _ (cat_buf s) (CAT_CHUNK * j) n Hv Hh Hm0 Hcur ltac:(lia) ltac:(lia) ltac:(lia) ltac:(lia)) as (s1 & -> & Hm1 & C1).
  cbn [mbind res_bind]. replace (Z.max 0 (Z.min (CAT_CHUNK * j + n) (zlen content) - CAT_CHUNK * j)) with n by lia. rewrite (proj2 (Z.leb_gt n 0)) by lia.
  set (b := slice content (CAT_CHUNK * j) n). assert (zlen b = n) as Hb by (apply zlen_slice; lia). change (cat_buf (s1 <| cat_buf := put (cat_buf s) 0 b |>)) with (put (cat_buf s) 0 b).
  assert ((put (cat_buf s) 0 b).[n <- 0] = b ++ 0 :: drop (S (length b)) (cat_buf s)) as Eb by (rewrite <- Hb; apply chunk_buffer; lia).
  set (buf := (put (cat_buf s) 0 b).[n <- 0]) in *. assert (zlen buf = 513) as Lb by (unfold buf; rewrite zlen_aset, zlen_put; lia).
  assert (Forall (fun c => c <> 0) b) as Hbz by (apply Forall_take, Forall_drop, Hnz).
  rewrite u32_small by lia. set (s2 := s1 <| cat_buf := put (cat_buf s) 0 b |> <| cat_buf := buf |>).
  assert (mounted v s2) as Hm2 by (apply mounted_cat_buf; [|done]; apply mounted_cat_buf; [done|rewrite zlen_put; lia]).
  change (cat_buf s2) with buf. assert (cstr buf = b) as Ec by (rewrite Eb; by apply cstr_app_nul).
  assert (screen (print buf s2) = screen s ++ b) as Es.
  { unfold print. cbn [screen]. change (screen (s2 <| screen := screen s2 ++ cstr buf |>)) with (screen s2 ++ cstr buf). rewrite Ec. f_equal. exact (proj2 (proj2 C1)). }
  pose proof (mounted_print v s2 buf Hm2) as Hm3. assert (cat_buf (print buf s2) = buf) as Ebuf by done.
  assert (drop (Z.to_nat (CAT_CHUNK * j)) content = b ++ drop (Z.to_nat (CAT_CHUNK * j + n)) content) as Ed.
  { unfold b, slice. rewrite Z2Nat.inj_add, <- drop_drop by lia. by rewrite take_drop. }
  generalize dependent (print buf s2). intros s3 Es Hm3 Ebuf. clear s2 Hm2.
  destruct (Z.eq_dec (CAT_CHUNK * j + n) (zlen content)) as [He|He].
  - rewrite He. destruct fuel as [|fuel']; cbn [cat_loop]; rewrite (proj2 (Z.ltb_ge (zlen content) (zlen content))) by lia; cbn [negb]; exists s3.
    all: split; [done|]; split; [done|]; split; [rewrite Es, Ed, He; unfold zlen; by rewrite Nat2Z.id, drop_all, app_nil_r|].
    all: rewrite Ebuf; apply (cat_last content b (cat_buf s) j buf n); done || lia.
  - destruct (IH (j + 1) save s3) as (s' & E & Hm' & Hscr & Hlast); try done; try lia.
    { intros _. rewrite Ebuf, Eb, aget_app_l by lia. unfold b. rewrite aget_slice_at by lia. f_equal. lia. }
    exists s'. replace (CAT_CHUNK * j + n) with (CAT_CHUNK * (j + 1)) in * by lia. split; [exact E|]. split; [done|]. split; [|done].
    by rewrite Hscr, Es, Ed, app_assoc.
Qed.

Lemma lookup_closed v files : volume v files -> forall names cur, is_Some (files !! cur) ->
  lookup_path files cur names = 0 \/ is_Some (files !! lookup_path files cur names).
Proof.
  intros Hvol. induction names as [|w names IH]; intros cur Hc; cbn [lookup_path]; [by right|]. destruct (files !! cur) as [[bl|content]|] eqn:Ec; [|by left..].
  destruct (find_name w (concat bl)) as [i|] eqn:Ei; [|by left]. destruct (find_name_in _ _ _ Ei) as [H0 Hin]. destruct Hvol as (_ & _ & Hcl). apply IH. by apply (Hcl cur bl i w).
Qed.

Lemma no_inode_0 v files : volume v files -> files !! 0 = None.
Proof. intros (_ & Hf & _). destruct (files !! 0) as [nd|] eqn:E; [|done]. destruct (Hf 0 nd E) as (raw & (H & _) & _). lia. Qed.

(** The byte that decides whether a line feed is added: the last of the file only below 512
    bytes and at multiples of 512. *)
Definition last_looked_at (content : list Z) : Z :=
  if zlen content <? 512 then content.[zlen content - 1]
  else if zlen content mod 512 =? 511 then 0
  else content.[512 * (zlen content / 512) - 1].

(** What ext2_cat() prints; [None] for a file of 512 bytes. *)
Definition cat_output (files : gmap Z node) (path : list Z) : option (list Z) :=
  match files !! lookup_path files EXT2_ROOT_INO (names_of (cstr path)) with
  | None => Some (lit "ext2: tidak ditemukan: " ++ cstr path ++ nl)
  | Some (Dir _) => Some (lit "ext2: bukan file biasa: " ++ cstr path ++ nl)
  | Some (File content) =>
      if zlen content =? 0 then Some (lit "(file kosong)" ++ nl)
      else if zlen content =? 512 then None
      else Some (content ++ if last_looked_at content =? 10 then [] else nl)
  end.

Lemma print_screen t s : screen (print t s) = screen s ++ cstr t.
Proof. done. Qed.

Lemma last_looked_spec content buf : 0 < zlen content -> zlen content <> 512 -> zlen buf = 513 -> last_chunk content buf ->
  u8_at buf ((if CAT_CHUNK <? zlen content then CAT_CHUNK else zlen content mod CAT_CHUNK) - 1) = Ret (last_looked_at content).
Proof.
  unfold CAT_CHUNK. intros H0 Hne Hb (A & B & C). unfold CAT_CHUNK in *. unfold u8_at. set (m := (zlen content - 1) / 512) in *.
  pose proof (Z.div_mod (zlen content - 1) 512 ltac:(lia)) as Hdm. pose proof (Z.mod_pos_bound (zlen content - 1) 512 ltac:(lia)) as Hmod. fold m in Hdm.
  assert (forall k, 0 <= k < 513 -> (p ← get buf k 1; Ret p.[0]) = Ret buf.[k]) as Hu.
  { intros k Hk. rewrite get_ret by lia. cbn [mbind res_bind]. f_equal. change (Z.to_nat 1) with (Z.to_nat (0 + 1)). rewrite aget_take by (unfold zlen in *; rewrite ?length_drop; lia).
    unfold aget. by rewrite lookup_total_drop, Nat.add_0_r. }
  unfold last_looked_at. destruct (Z.ltb_spec 512 (zlen content)) as [Hgt|Hle].
  - rewrite (proj2 (Z.ltb_ge (zlen content) 512)), Hu by lia. f_equal. change (512 - 1) with 511. assert (1 <= m) as Hm1 by lia. destruct (Z.eqb_spec (zlen content mod 512) 511) as [E|E].
    + assert (zlen content - 512 * m = 511) as <-; [|exact B]. pose proof (Z.div_mod (zlen content) 512 ltac:(lia)). lia.
    + destruct (Z.eq_dec (zlen content - 512 * m) 512) as [E2|E2].
      * rewrite A by lia. f_equal. assert (zlen content / 512 = m + 1) as -> by (symmetry; apply (Z.div_unique _ _ _ 0); lia). lia.
      * assert (zlen content / 512 = m) as -> by (symmetry; apply (Z.div_unique _ _ _ (zlen content - 512 * m)); lia). apply C; [lia|].
        assert (zlen content - 512 * m <> 511) by (intros E3; apply E; symmetry; apply (Z.mod_unique _ _ m); lia). lia.
  - rewrite (proj2 (Z.ltb_lt (zlen content) 512)), Z.mod_small, Hu by lia. f_equal. assert (m = 0) as E by lia. rewrite A by lia. f_equal. lia.
Qed.


(** ** Listing a directory *)

Definition node_size (v : vol) (nd : node) : Z := match nd with Dir bl => zlen bl * v_bs v | File content => zlen content end.

Definition columns (w n : Z) : list Z := replicate (Z.to_nat (w - zlen (itoa n))) 32 ++ itoa n.

(** The line of an entry; [.], [..] and unused entries have none. *)
Definition ls_line (v : vol) (files : gmap Z node) (e : entry) : list Z :=
  let '(ino, name) := e in
  if (ino =? 0) || dot_name name then []
  else lit "  " ++ columns 6 ino ++ lit "  " ++ columns 7 (default 0 (node_size v <$> files !! ino)) ++ lit "  " ++ name ++ nl.

Definition ls_header : list Z := lit "  inode   size     name" ++ nl ++ lit "  ------  -------  ----" ++ nl.

Definition listed_name (name : list Z) : Prop := 0 < zlen name <= 254 /\ Forall (fun c => c <> 0) name.

Lemma digits_nonzero fuel : forall n, 0 <= n -> Forall (fun c => c <> 0) (digits fuel n).
Proof.
  induction fuel as [|fuel IH]; intros n Hn; cbn [digits]; [constructor|]. case_if; [constructor|]. pose proof (Z.mod_pos_bound n 10 ltac:(lia)).
  constructor; [lia|]. apply IH. apply Z.div_pos; lia.
Qed.

Lemma columns_cstr w n : 0 <= n -> cstr (replicate (Z.to_nat (w - zlen (itoa n))) 32) ++ cstr (itoa n) = columns w n.
Proof.
  intros Hn. unfold columns. rewrite cstr_id by (apply Forall_replicate; lia). f_equal. apply cstr_id. unfold itoa. case_if; [by repeat constructor|].
  apply Forall_rev, digits_nonzero, Hn.
Qed.

(** Reading the inode of a node of the volume. *)
Lemma read_size v files s ino nd : volume v files -> mounted v s -> files !! ino = Some nd ->
  exists s', read_inode ino s = Ret (s', 0) /\ mounted v s' /\ u32_at (g_inode_buf s') INO_SIZE = Ret (node_size v nd) /\ screen s' = screen s /\ g_dir_buf s' = g_dir_buf s /\ 0 <= node_size v nd.
Proof.
  intros (Hv & Hf & _) Hm Hi. destruct (Hf ino nd Hi) as (raw & Hraw & Hnd). destruct (read_inode_spec v s ino raw Hv Hm Hraw) as (s1 & E & Hm1 & (_ & Q2 & _ & Q4) & Hl).
  pose proof (m_bufs _ _ Hm) as (_ & L & _). pose proof Hv as (Hbs & _ & Hsz & _).
  exists (s1 <| g_inode_buf := put (g_inode_buf s) 0 raw |>). split; [exact E|]. split; [apply mounted_inode_buf; [done|rewrite zlen_put; lia]|]. split; [|split; [exact Q4|split; [exact Q2|]]].
  - change (g_inode_buf (s1 <| g_inode_buf := put (g_inode_buf s) 0 raw |>)) with (raw ++ drop (length raw) (g_inode_buf s)). apply u32_app.
    destruct nd as [bl|content]; [by destruct Hnd as (_ & H & _)|by destruct Hnd as (_ & H & _)].
  - destruct nd; cbn [node_size]; unfold zlen; [|lia]. destruct Hbs as [->|[->| ->]]; lia.
Qed.

Lemma ls_entry_spec v files save s ino nd name : volume v files -> mounted v s -> zlen save = 256 -> files !! ino = Some nd -> ino <> 0 -> dot_name name = false ->
  Forall (fun c => c <> 0) name ->
  exists s', ls_entry save ino name s = Ret s' /\ mounted v s' /\ screen s' = screen s ++ ls_line v files (ino, name) /\ g_dir_buf s' = g_dir_buf s.
Proof.
  intros Hvol Hm Hl Hi H0 Hd Hn. assert (0 <= ino) as Hpos by (destruct Hvol as (_ & Hf & _); destruct (Hf ino nd Hi) as (raw & (? & _) & _); lia).
  unfold ls_entry, print_padded, ls_line. rewrite (proj2 (Z.eqb_neq ino 0)), Hd, Hi by done. cbn [orb default from_option fmap option_fmap option_map id].
  set (s0 := print (lit "  ") (print (itoa ino) _)). assert (mounted v s0) as Hm0 by (unfold s0; by repeat apply mounted_print).
  assert (screen s0 = screen s ++ lit "  " ++ columns 6 ino ++ lit "  ") as Es0 by (unfold s0; rewrite !print_screen, <- columns_cstr, <- !app_assoc by lia; done).
  assert (g_dir_buf s0 = g_dir_buf s) as Ed0 by done. generalize dependent s0. intros s0 Hm0 Es0 Ed0.
  destruct (read_size v files s0 ino nd Hvol Hm0 Hi) as (s1 & -> & Hm1 & E1 & Q1 & D1 & Hs). cbn [mbind res_bind Z.eqb]. rewrite E1. cbn [mbind res_bind]. eexists. split; [reflexivity|].
  split; [apply mounted_inode_buf; [by repeat apply mounted_print|done]|]. split.
  - change (screen (?a <| g_inode_buf := save |>)) with (screen a). rewrite !print_screen, Q1, Es0, <- columns_cstr, (cstr_id name), <- !app_assoc by (done || lia). rewrite <- columns_cstr, <- !app_assoc by lia. done.
  - cbn. by rewrite D1.
Qed.

Lemma ls_block_spec v files save c r es p : volume v files -> zlen save = 256 -> entries_at c (v_bs v) p es -> Forall (fun e => listed_name (snd e)) es ->
  (forall i nm, (i, nm) ∈ es -> i <> 0 -> is_Some (files !! i)) -> forall fuel s, mounted v s -> g_dir_buf s = c ++ r -> 0 <= p -> v_bs v - p <= Z.of_nat fuel ->
  exists s', ls_block fuel save p (v_bs v) s = Ret s' /\ mounted v s' /\ screen s' = screen s ++ (es ≫= ls_line v files) /\ g_dir_buf s' = g_dir_buf s.
Proof.
  intros Hvol Hl He. pose proof Hvol as ((Hbs & _) & _ & _). assert (v_bs v <= 4096) as Hb4 by (destruct Hbs as [->|[->| ->]]; lia).
  induction He as [|p ino nm rec_len ty es E1 E2 E3 E4 E5 H1 H2 He IH]; intros Hnm Hcl fuel s Hm Hd Hp Hf.
  { exists s. destruct fuel; cbn [ls_block]; rewrite (proj2 (Z.ltb_ge (v_bs v) (v_bs v))) by lia; cbn [negb mbind list_bind]; by rewrite app_nil_r. }
  apply Forall_cons_1 in Hnm as [[Hn1 Hn2] Hnm]. cbn [snd] in Hn1, Hn2. destruct fuel as [|fuel]; [lia|]. cbn [ls_block]. rewrite (proj2 (Z.ltb_lt p (v_bs v))) by lia. cbn [negb].
  rewrite Hd, (u32_app _ _ _ _ E1), (u16_app _ _ _ _ E2). cbn [mbind res_bind]. rewrite (proj2 (Z.eqb_neq rec_len 0)), (u8_app _ _ _ _ E3) by lia. cbn [mbind res_bind].
  rewrite u32_small by lia. rewrite (proj2 (Z.ltb_lt 0 (zlen nm))), (proj2 (Z.ltb_lt (zlen nm) 255)) by lia. rewrite andb_true_r. unfold DE_NAME.
  rewrite (get_app _ _ _ (zlen nm) _ ltac:(lia) E5). cbn [mbind res_bind list_bind].
  assert (exists s1, (if negb (ino =? 0) then if dot_name nm then Ret s else ls_entry save ino nm s else Ret s) = Ret s1 /\ mounted v s1 /\
    screen s1 = screen s ++ ls_line v files (ino, nm) /\ g_dir_buf s1 = g_dir_buf s) as (s1 & -> & Hm1 & Q1 & D1).
  { unfold ls_line. destruct (Z.eqb_spec ino 0) as [->|H0]; cbn [negb orb]; [exists s; by rewrite app_nil_r|].
    destruct (dot_name nm) eqn:Ed; [exists s; by rewrite app_nil_r|]. destruct (Hcl ino nm ltac:(by left) H0) as [nd Hnd].
    pose proof (ls_entry_spec v files save s ino nd nm Hvol Hm Hl Hnd H0 Ed Hn2) as H. unfold ls_line in H. by rewrite (proj2 (Z.eqb_neq ino 0)), Ed in H by done. }
  cbn [mbind res_bind]. destruct (IH Hnm ltac:(intros i n' Hin; apply (Hcl i n'); by right) fuel s1 Hm1 ltac:(congruence) ltac:(lia) ltac:(lia)) as (s' & -> & Hm' & Q' & D').
  exists s'. split; [done|]. split; [done|]. split; [by rewrite Q', Q1, <- app_assoc|congruence].
Qed.

Lemma ls_loop_spec v files save raw bl : volume v files -> is_dir v raw bl -> (exists r, save = raw ++ r) -> zlen save = 256 ->
  Forall (fun e => listed_name (snd e)) (concat bl) -> (forall i nm, (i, nm) ∈ concat bl -> i <> 0 -> is_Some (files !! i)) ->
  forall fuel k s, mounted v s -> (k <= length bl)%nat -> (length bl - k < fuel)%nat ->
  exists s', ls_loop fuel save (zlen bl * v_bs v) (Z.of_nat k * v_bs v) s = Ret s' /\ mounted v s' /\ screen s' = screen s ++ (concat (drop k bl) ≫= ls_line v files).
Proof.
  intros Hvol (_ & _ & Hlt & Hbl) Hsave Hls Hnm Hcl. pose proof Hvol as (Hv & _). pose proof Hv as (Hbs & _).
  assert (0 < v_bs v <= 4096) as Hb by (destruct Hbs as [->|[->| ->]]; lia). unfold zlen in Hlt.
  induction fuel as [|fuel IH]; intros k s Hm Hk Hf; [lia|]. cbn [ls_loop]. destruct (decide (k = length bl)) as [->|Hne].
  { rewrite (proj2 (Z.ltb_ge _ (zlen bl * v_bs v))) by (unfold zlen; lia). cbn [negb]. rewrite drop_ge by lia. exists s. by rewrite app_nil_r. }
  rewrite (proj2 (Z.ltb_lt _ (zlen bl * v_bs v))) by (unfold zlen; nia). cbn [negb]. unfold udiv. rewrite (m_bs _ _ Hm), (proj2 (Z.eqb_neq (v_bs v) 0)) by lia. cbn [mbind res_bind].
  rewrite Z.div_mul by lia. destruct (lookup_lt_is_Some_2 bl k ltac:(lia)) as [es Hes]. destruct (Hbl k es Hes) as (blk & c & Hp & Hbc & He).
  pose proof (mounted_inode_buf v s save Hm Hls) as Hm0. assert (current raw (s <| g_inode_buf := save |>)) as Hcur by (destruct Hsave as [r ->]; by exists r).
  assert (settled s (s <| g_inode_buf := save |>)) as Q0 by done. generalize dependent (s <| g_inode_buf := save |>). intros s0 Hm0 Hcur Q0.
  destruct (get_block_spec v s0 raw _ blk Hv Hm0 Hcur Hp) as (s1 & -> & Hm1 & Q1%quiet_settled). cbn [mbind res_bind].
  pose proof (mounted_inode_buf v s1 save Hm1 Hls) as Hm2. assert (settled s1 (s1 <| g_inode_buf := save |>)) as Q2 by done.
  generalize dependent (s1 <| g_inode_buf := save |>). intros s2 Hm2 Q2. destruct (block_at_bound _ _ _ Hbs Hbc) as [Hbk _]. rewrite (proj2 (Z.eqb_neq blk 0)) by lia.
  destruct (read_block_4096 v _ c (g_dir_buf s2) s2 Hv Hm2 (proj1 (proj2 (proj2 (proj2 (m_bufs _ _ Hm2))))) Hbc) as [-> Lb]. cbn [negb Z.eqb].
  pose proof (mounted_dir_buf v s2 _ Hm2 Lb) as Hm3. assert (settled s2 (s2 <| g_dir_buf := c ++ drop (length c) (g_dir_buf s2) |>)) as Q3 by done.
  assert (g_dir_buf (s2 <| g_dir_buf := c ++ drop (length c) (g_dir_buf s2) |>) = c ++ drop (length c) (g_dir_buf s2)) as D3 by done.
  generalize dependent (s2 <| g_dir_buf := c ++ drop (length c) (g_dir_buf s2) |>). intros s3 Hm3 Q3 D3.
  assert (screen s3 = screen s) as Q by (destruct Q0 as [_ Q0], Q1 as [_ Q1], Q2 as [_ Q2], Q3 as [_ Q3]; congruence). clear Q0 Q1 Q2 Q3.
  rewrite (u32_small ((Z.of_nat k + 1) * v_bs v)) by nia. assert ((zlen bl * v_bs v <? (Z.of_nat k + 1) * v_bs v) = false) as -> by (apply Z.ltb_ge; unfold zlen; nia).
  rewrite (drop_S _ _ _ Hes). cbn [concat].
  assert (forall e, e ∈ es -> e ∈ concat bl) as Hsub by (intros e Hin; apply list_elem_of_In, List.in_concat; exists es; rewrite <- !list_elem_of_In; split; [by apply list_elem_of_lookup_2 in Hes|done]).
  destruct (ls_block_spec v files save c (drop (length c) (g_dir_buf s2)) es 0 Hvol Hls He) with (fuel := Z.to_nat (v_bs v)) (s := s3) as (s4 & -> & Hm4 & Q4 & _); [|by eauto|done|done|lia|lia|].
  { rewrite Forall_forall in *. intros e Hin. apply Hnm, list_elem_of_In, Hsub. by apply list_elem_of_In. }
  cbn [mbind res_bind]. rewrite u32_small by nia. replace (Z.of_nat k * v_bs v + v_bs v) with (Z.of_nat (S k) * v_bs v) by lia.
  destruct (IH (S k) s4 Hm4 ltac:(lia) ltac:(lia)) as (s' & -> & Hm' & Q'). exists s'. split; [done|]. split; [done|]. by rewrite Q', Q4, Q, bind_app, <- app_assoc.
Qed.

(** C17: Listing a directory.  On a disk that holds a volume, ext2_ls() prints one line with the
    inode number, the size and the name for each entry in use of the directory the path leads
    to, in the order of the disk and without the entries for itself and its parent. *)
Theorem ext2_ls_lists v files s path bl :
  volume v files -> mounted v s -> is_Some (files !! EXT2_ROOT_INO) -> Forall plain_name (names_of (cstr path)) ->
  files !! lookup_path files EXT2_ROOT_INO (names_of (cstr path)) = Some (Dir bl) -> Forall (fun e => listed_name (snd e)) (concat bl) ->
  exists s', ext2_ls path s = Ret s' /\ mounted v s' /\ screen s' = screen s ++ ls_header ++ (concat bl ≫= ls_line v files).
Proof.
  intros Hvol Hm Hroot Hp Hdir Hnm. pose proof Hvol as (Hv & Hf & Hcl). unfold ext2_ls. rewrite (proj2 (Z.eqb_neq _ 0) (m_on _ _ Hm)).
  destruct (resolve_path_spec v files s path Hvol Hm Hroot Hp) as (s1 & -> & Hm1 & _ & Q1). cbn [mbind res_bind].
  set (ino := lookup_path _ _ _) in *. destruct (Hf ino _ Hdir) as (raw & Hraw & Hk). pose proof Hraw as (Hi & _). rewrite (proj2 (Z.eqb_neq ino 0)) by lia.
  destruct (read_inode_current v s1 ino raw Hv Hm1 Hraw) as (s2 & r & -> & Hm2 & [_ Q2] & Hr & Hl). cbn [mbind res_bind negb Z.eqb].
  pose proof Hk as ((mode & E1 & H1 & _) & E2 & _). rewrite Hr. rewrite Hr in Hl. unfold INO_MODE, INO_SIZE. rewrite (u16_app _ _ _ _ E1). cbn [mbind res_bind].
  rewrite (proj2 (Z.eqb_neq _ 0) H1), (u32_app _ _ _ _ E2). cbn [mbind res_bind]. set (s3 := print _ (print _ s2)).
  assert (mounted v s3) as Hm3 by (unfold s3; by repeat apply mounted_print). assert (screen s3 = screen s ++ ls_header) as Q3 by (unfold s3; rewrite !print_screen, Q2, Q1, <- !app_assoc; done).
  assert (g_block_size s3 = v_bs v) as Eb by apply (m_bs _ _ Hm3). assert (g_inode_buf s3 = raw ++ r) as Er by exact Hr. generalize dependent s3. intros s3 Hm3 Q3 Eb Er. rewrite Eb, ?Er.
  destruct (ls_loop_spec v files (raw ++ r) raw bl Hvol Hk (ex_intro _ r eq_refl) Hl Hnm ltac:(intros i nm; by apply (Hcl ino)) (dir_rounds (zlen bl * v_bs v) (v_bs v)) 0 s3 Hm3 ltac:(lia))
    as (s' & E & Hm' & Q').
  { unfold dir_rounds. rewrite Z.div_mul by (destruct Hv as ([->|[->| ->]] & _); lia). unfold zlen. lia. }
  rewrite drop_0 in Q'. exists s'. split; [exact E|]. split; [done|]. by rewrite Q', Q3, <- app_assoc.
Qed.

(** ** A directory without blocks *)

(** When all block pointers are zero every block is a hole. *)
Lemma hole_block s idx : (forall k, 0 <= k < 14 -> u32_at (g_inode_buf s) (40 + k * 4) = Ret 0) -> 0 <= idx -> inode_get_block idx s = Ret (s, 0).
Proof.
  intros Hz Hi. unfold inode_get_block, INO_BLOCK. destruct (Z.ltb_spec idx 12); [rewrite Hz by lia; done|].
  case_if; [rewrite (Hz 12) by lia; done|]. case_if; [|done]. rewrite (Hz 13) by lia. done.
Qed.

(** A directory of holes whose size is within a block of 2^32 is listed for ever: the offset
    wraps before it reaches the size. *)
Lemma ext2_ls_never_ends v save dir_size : vol_ok v -> zlen save = 256 -> (forall k, 0 <= k < 14 -> u32_at save (40 + k * 4) = Ret 0) ->
  2 ^ 32 - v_bs v < dir_size < 2 ^ 32 ->
  forall fuel n s, mounted v s -> 0 <= n -> n * v_bs v < 2 ^ 32 -> ls_loop fuel save dir_size (n * v_bs v) s = Running.
Proof.
  intros (Hbs & _) Hls Hz Hd. assert (exists m, 0 < v_bs v /\ 2 ^ 32 = m * v_bs v) as (m & Hb & Em)
    by (destruct Hbs as [->|[->| ->]]; [exists 4194304|exists 2097152|exists 1048576]; split; reflexivity || lia).
  assert (forall n, n * v_bs v < 2 ^ 32 -> n <= m - 1 /\ n * v_bs v <= 2 ^ 32 - v_bs v) as Hstep.
  { intros n H. assert (n < m) by (apply (Z.mul_lt_mono_pos_r (v_bs v)); lia). split; [lia|].
    assert (n * v_bs v <= (m - 1) * v_bs v) by (apply Z.mul_le_mono_nonneg_r; lia). lia. }
  induction fuel as [|fuel IH]; intros n s Hm Hn Hlt; destruct (Hstep n Hlt) as [Hnm Hle]; cbn [ls_loop];
    (rewrite (proj2 (Z.ltb_lt (n * v_bs v) dir_size)) by lia); cbn [negb]; [done|].
  unfold udiv. rewrite (m_bs _ _ Hm), (proj2 (Z.eqb_neq (v_bs v) 0)) by lia. cbn [mbind res_bind].
  pose proof (mounted_inode_buf v s save Hm Hls) as Hm0. rewrite hole_block by (try exact Hz; apply Z.div_pos; nia). cbn [mbind res_bind Z.eqb].
  pose proof (mounted_inode_buf v _ save Hm0 Hls) as Hm1. destruct (Z.eq_dec (n + 1) m) as [E|E].
  - assert (u32 (n * v_bs v + v_bs v) = 0 * v_bs v) as ->; [|apply IH; [done|lia|lia]].
    unfold u32. replace (n * v_bs v + v_bs v) with (2 ^ 32) by nia. done.
  - rewrite u32_small by nia. replace (n * v_bs v + v_bs v) with ((n + 1) * v_bs v) by lia. apply IH; [done|lia|nia].
Qed.

End ext2.

(** ** A volume *)

Definition le4 (n : Z) : list Z := [n mod 256; n / 256 mod 256; n / 65536 mod 256; n / 16777216 mod 256].
Definition le2 (n : Z) : list Z := [n mod 256; n / 256 mod 256].
Definition pad (n : nat) (l : list Z) : list Z := take n (l ++ replicate n 0).

Definition inode_bytes (mode size : Z) (blocks : list Z) : list Z :=
  pad 128 (le2 mode ++ [0; 0] ++ le4 size ++ replicate 32 0 ++ (blocks ≫= le4)).
Definition entry_bytes (ino rec_len ty : Z) (name : list Z) : list Z :=
  pad (Z.to_nat rec_len) (le4 ino ++ le2 rec_len ++ [zlen name; ty] ++ name).

(** A file of 1500 bytes that ends with a line feed, below a directory. *)
Definition note : list Z := replicate 1499 97 ++ [10].
Definition super : list Z :=
  pad 1024 (le4 16 ++ le4 64 ++ replicate 24 0 ++ le4 64 ++ replicate 4 0 ++ le4 16 ++ replicate 12 0 ++ le2 0xEF53 ++ replicate 18 0 ++ le4 1 ++ replicate 8 0 ++ le2 128).
Definition table : list (list Z) :=
  [replicate 128 0; inode_bytes 0x41ED 1024 [7]; replicate 128 0; replicate 128 0; replicate 128 0; replicate 128 0; replicate 128 0; replicate 128 0].
Definition table2 : list (list Z) :=
  [replicate 128 0; replicate 128 0; inode_bytes 0x41ED 1024 [10]; inode_bytes 0x81A4 1500 [8; 9]].
Definition root_block : list Z := entry_bytes 2 12 2 (lit ".") ++ entry_bytes 2 12 2 (lit "..") ++ entry_bytes 0 20 1 (lit "gone") ++ entry_bytes 11 980 2 (lit "doc").
Definition doc_block : list Z := entry_bytes 11 12 2 (lit ".") ++ entry_bytes 2 12 2 (lit "..") ++ entry_bytes 12 1000 1 (lit "note").

Definition disk : gmap Z (list Z) :=
  foldr (fun '(b, c) m => <[2 * b := take 512 c]> (<[2 * b + 1 := drop 512 c]> m)) ∅
    [(1, super); (2, pad 1024 (le4 3 ++ le4 4 ++ le4 5)); (5, concat table); (6, pad 1024 (concat table2)); (7, root_block); (10, doc_block);
     (8, take 1024 note); (9, pad 1024 (drop 1024 note))].

Definition unmounted : State := mkState 0 1024 0 128 0 0 (replicate 1024 0) (replicate 4096 0) (replicate 256 0) (replicate 4096 0) (replicate 4096 0) (replicate 4096 0) (replicate 513 0) [].
Definition ready : State := match ext2_mount disk unmounted with Ret (s, _) => s | _ => unmounted end.
Definition the_vol : vol := mkVol 1024 16 128 2.
Definition doc_dir : list entry := [(11, lit "."); (2, lit ".."); (12, lit "note")].
Definition root_dir : list entry := [(2, lit "."); (2, lit ".."); (0, lit "gone"); (11, lit "doc")].
Definition the_files : gmap Z node := {[2 := Dir [root_dir]; 11 := Dir [doc_dir]; 12 := File note]}.

Lemma disk_block blk c : 0 < blk < 1000 -> zlen c = 1024 -> disk !! (2 * blk) = Some (take 512 c) -> disk !! (2 * blk + 1) = Some (drop 512 c) ->
  block_at disk 1024 blk c.
Proof.
  intros Hb Hl H1 H2. unfold block_at. change (1024 / 512) with 2. split; [lia|]. split; [done|]. split; [lia|]. intros k Hk.
  assert (k = 0 \/ k = 1) as [-> | ->] by lia; cbn [ata_read_sector RamDisk.ram_disk].
  - replace (blk * 2 + 0) with (2 * blk) by lia. rewrite H1. cbn. by rewrite drop_0.
  - replace (blk * 2 + 1) with (2 * blk + 1) by lia. rewrite H2. change (Z.to_nat (512 * 1)) with 512%nat. cbn [default from_option id].
    rewrite (take_ge (drop 512 c)); [done|]. rewrite length_drop. unfold zlen in Hl. lia.
Qed.

Ltac block :=
  match goal with
  | |- block_at _ ?bs ?b ?c =>
      let b' := eval vm_compute in b in
      change (block_at disk bs b c) with (block_at disk 1024 b' c);
      apply disk_block; [lia|vm_compute; reflexivity..]
  end.

Lemma ready_mounted : mounted the_vol ready.
Proof. split; [vm_compute; congruence|vm_compute; reflexivity..|]. split_and!; vm_compute; reflexivity. Qed.

Lemma note_holds : holds disk the_vol (inode_bytes 0x81A4 1500 [8; 9]) note.
Proof.
  assert (zlen note = 1500) as Hl by (vm_compute; reflexivity). split; [lia|]. change (v_bs the_vol) with 1024. rewrite Hl. intros idx Hi Hlt.
  assert (idx = 0 \/ idx = 1) as [-> | ->] by lia.
  - exists 8, (take 1024 note). split; [by apply points_direct; [lia|vm_compute; reflexivity]|]. split; [vm_compute; reflexivity|]. split; [cbn [Z.eqb]; block|].
    intros k Hk _. symmetry. apply (aget_take note k 1024); lia.
  - exists 9, (pad 1024 (drop 1024 note)). split; [by apply points_direct; [lia|vm_compute; reflexivity]|]. split; [vm_compute; reflexivity|]. split; [cbn [Z.eqb]; block|].
    intros k Hk Hk2. unfold pad. rewrite (aget_take _ k 1024) by (try lia; vm_compute; congruence). rewrite aget_app_l by (unfold zlen in *; rewrite length_drop; lia).
    unfold aget. rewrite lookup_total_drop. f_equal. lia.
Qed.

Ltac one_entry := eapply entries_next; [vm_compute; reflexivity..|vm_compute; congruence|vm_compute; congruence|].

Lemma the_volume : volume disk the_vol the_files.
Proof.
  split; [split; [by left|split; [vm_compute; reflexivity|split; vm_compute; (split; congruence) || congruence]]|]. split.
  - intros ino nd H. unfold the_files in H. apply lookup_insert_Some in H as [[<- <-]|[_ H]]; [|apply lookup_insert_Some in H as [[<- <-]|[_ H]]; [|apply lookup_singleton_Some in H as [<- <-]]].
    + exists (inode_bytes 0x41ED 1024 [7]). split.
      * split; [lia|]. split; [vm_compute; reflexivity|]. split; [vm_compute; reflexivity|].
        exists (pad 1024 (le4 3 ++ le4 4 ++ le4 5)), (pad 32 (le4 3 ++ le4 4 ++ le4 5)), 5, (concat table).
        split; [block|]. split; [vm_compute; reflexivity|]. split; [vm_compute; reflexivity|]. split; [lia|]. split; [block|vm_compute; reflexivity].
      * split; [exists 0x41ED; split; [vm_compute; reflexivity|split; [vm_compute; congruence|vm_compute; reflexivity]]|]. split; [vm_compute; reflexivity|]. split; [vm_compute; reflexivity|].
        intros k es [-> Hes]%list_lookup_singleton_Some. subst es. exists 7, root_block. split; [by apply points_direct; [lia|vm_compute; reflexivity]|]. split; [block|].
        unfold root_dir. do 4 one_entry. apply entries_end.
    + exists (inode_bytes 0x41ED 1024 [10]). split.
      * split; [lia|]. split; [vm_compute; reflexivity|]. split; [vm_compute; reflexivity|].
        exists (pad 1024 (le4 3 ++ le4 4 ++ le4 5)), (pad 32 (le4 3 ++ le4 4 ++ le4 5)), 5, (pad 1024 (concat table2)).
        split; [block|]. split; [vm_compute; reflexivity|]. split; [vm_compute; reflexivity|]. split; [lia|]. split; [block|vm_compute; reflexivity].
      * split; [exists 0x41ED; split; [vm_compute; reflexivity|split; [vm_compute; congruence|vm_compute; reflexivity]]|]. split; [vm_compute; reflexivity|]. split; [vm_compute; reflexivity|].
        intros k es [-> Hes]%list_lookup_singleton_Some. subst es. exists 10, doc_block. split; [by apply points_direct; [lia|vm_compute; reflexivity]|]. split; [block|].
        unfold doc_dir. do 3 one_entry. apply entries_end.
    + exists (inode_bytes 0x81A4 1500 [8; 9]). split.
      * split; [lia|]. split; [vm_compute; reflexivity|]. split; [vm_compute; reflexivity|].
        exists (pad 1024 (le4 3 ++ le4 4 ++ le4 5)), (pad 32 (le4 3 ++ le4 4 ++ le4 5)), 5, (pad 1024 (concat table2)).
        split; [block|]. split; [vm_compute; reflexivity|]. split; [vm_compute; reflexivity|]. split; [lia|]. split; [block|vm_compute; reflexivity].
      * split; [exists 0x81A4; split; [vm_compute; reflexivity|split; [vm_compute; congruence|vm_compute; reflexivity]]|]. split; [vm_compute; reflexivity|]. exact note_holds.
  - intros ino bl i nm H Hin Hi. assert (i = 2 \/ i = 11 \/ i = 12) as Hc; [|destruct Hc as [-> |[-> | ->]]; by eexists].
    unfold the_files in H. apply lookup_insert_Some in H as [[<- [= <-]]|[_ H]]; [|apply lookup_insert_Some in H as [[<- [= <-]]|[_ H]]; [|by apply lookup_singleton_Some in H as [_ ?]]].
    + unfold root_dir in Hin. cbn [concat app] in Hin. rewrite !elem_of_cons in Hin. destruct Hin as [[= -> _]|[[= -> _]|[[= -> _]|[[= -> _]|Hin]]]]; [auto|auto|by destruct Hi|auto|by apply not_elem_of_nil in Hin].
    + unfold doc_dir in Hin. cbn [concat app] in Hin. rewrite !elem_of_cons in Hin. destruct Hin as [[= -> _]|[[= -> _]|[[= -> _]|Hin]]]; [auto..|by apply not_elem_of_nil in Hin].
Qed.


Lemma ext2_ls_lists_witness :
  exists s', ext2_ls disk (lit "/doc") ready = Ret s' /\ screen s' = screen ready ++ ls_header ++ lit "      12     1500  note" ++ nl.
Proof.
  assert (Forall plain_name (names_of (cstr (lit "/doc")))) as Hp.
  { assert (names_of (cstr (lit "/doc")) = [lit "doc"]) as -> by (vm_compute; reflexivity).
    repeat (apply Forall_cons_2; [split; [vm_compute; split; congruence|repeat (apply Forall_cons_2; [vm_compute; split; congruence|]); apply Forall_nil_2]|]). apply Forall_nil_2. }
  assert (Forall (fun e => listed_name (snd e)) (concat [doc_dir])) as Hn.
  { repeat (apply Forall_cons_2; [split; [vm_compute; split; congruence|repeat (apply Forall_cons_2; [vm_compute; congruence|]); apply Forall_nil_2]|]). apply Forall_nil_2. }
  assert (the_files !! lookup_path the_files EXT2_ROOT_INO (names_of (cstr (lit "/doc"))) = Some (Dir [doc_dir])) as Hd by (vm_compute; reflexivity).
  destruct (ext2_ls_lists disk the_vol the_files ready (lit "/doc") [doc_dir] the_volume ready_mounted ltac:(by eexists) Hp Hd Hn) as (s' & H1 & _ & H2).
  exists s'. split; [exact H1|]. rewrite H2. assert (concat [doc_dir] ≫= ls_line the_vol the_files = lit "      12     1500  note" ++ nl) as -> by (vm_compute; reflexivity). reflexivity.
Defined.

(** A superblock with a block size of 1024 * 2^22 bytes is mounted with the block size 0, and
    the first access divides by it. *)
Definition huge : gmap Z (list Z) := <[2 := take 24 (take 512 super) ++ le4 22 ++ drop 28 (take 512 super)]> disk.
Lemma ext2_mounts_block_size_0 :
  match ext2_mount huge unmounted with Ret (s, r) => r = 1 /\ g_block_size s = 0 /\ ext2_cat huge (lit "/note") s = UB | _ => False end.
Proof. vm_compute. split; [|split]; reflexivity. Qed.

End Ext2.
