(* ===== verification/X509.v ===== *)
(** * x509.c: certificates

    The DER reader of x509.c.  The certificate is the list [der] of the bytes that can be
    read; a read outside it is [None].  Positions and lengths are the [uint32_t] of the
    source, and a character array is the list of all its bytes.  The theorems show that
    the fields of an encoded certificate are found, what a host name is matched against,
    and two faults: a malformed certificate is read behind its end, and a name with a NUL
    byte stands for the part before it. *)

From Stdlib Require Import ZArith Lia String.
From stdpp Require Import base numbers list tactics.
From S2P Require Import Prelude.

Module X509.

Definition ASN1_SEQUENCE : Z := 0x30.
Definition ASN1_SET : Z := 0x31.
Definition ASN1_INTEGER : Z := 0x02.
Definition ASN1_BITSTRING : Z := 0x03.
Definition ASN1_OCTETSTRING : Z := 0x04.
Definition ASN1_OID : Z := 0x06.
Definition ASN1_UTF8STR : Z := 0x0C.
Definition ASN1_PRINTSTR : Z := 0x13.
Definition ASN1_IA5STR : Z := 0x16.
Definition ASN1_UTCTIME : Z := 0x17.
Definition ASN1_GENTIME : Z := 0x18.
Definition ASN1_CONT0 : Z := 0xA0.
Definition ASN1_CONT3 : Z := 0xA3.

Definition OID_CN : list Z := [0x55; 0x04; 0x03].
Definition OID_SAN : list Z := [0x55; 0x1D; 0x11].
Definition OID_RSA : list Z := [0x2A; 0x86; 0x48; 0x86; 0xF7; 0x0D; 0x01; 0x01; 0x01].
Definition OID_EC : list Z := [0x2A; 0x86; 0x48; 0xCE; 0x3D; 0x02; 0x01].

Record X509Cert := mkCert {
  subject_cn : list Z; issuer_cn : list Z; not_before : list Z; not_after : list Z;
  key_type : Z; key_bits : Z; san_count : Z; san : list (list Z); valid : Z
}.
#[global] Instance cert_settable : Settable X509Cert :=
  {| rebuild c := mkCert (subject_cn c) (issuer_cn c) (not_before c) (not_after c) (key_type c) (key_bits c) (san_count c) (san c) (valid c) |}.

(** The characters of a date between the separators. *)
Definition date_string (y m d h mi s : list Z) : list Z := y ++ [45] ++ m ++ [45] ++ d ++ [32] ++ h ++ [58] ++ mi ++ [58] ++ s ++ [0].

Definition no_date : list Z := lit "0000-00-00 00:00:00" ++ [0].

(** YYMMDDHHMMSS, and YYYYMMDDHHMMSS. *)
Definition utc_string (v : list Z) : list Z :=
  let two k := take 2 (drop k v) in
  let yy := (v.[0] - 48) * 10 + (v.[1] - 48) in
  let yr := if yy <? 50 then 2000 + yy else 1900 + yy in
  let digit n := u8 (48 + n) in
  let year := [digit (yr ÷ 1000); digit (Z.rem (yr ÷ 100) 10); digit (Z.rem (yr ÷ 10) 10); digit (Z.rem yr 10)] in
  date_string year (two 2%nat) (two 4%nat) (two 6%nat) (two 8%nat) (two 10%nat).
Definition gen_string (v : list Z) : list Z :=
  let two k := take 2 (drop k v) in
  date_string (take 4 v) (two 4%nat) (two 6%nat) (two 8%nat) (two 10%nat) (two 12%nat).

(** [xmemset(cert, 0, sizeof(X509Cert))] *)
Definition zero_cert : X509Cert :=
  mkCert (replicate 128 0) (replicate 128 0) (replicate 20 0) (replicate 20 0) 0 0 0 (replicate 4 (replicate 128 0)) 0.

(** [der[p]], and [n] bytes at [p]. *)
Definition rd (der : list Z) (p : Z) : option Z := der !! Z.to_nat p.
Definition bytes (der : list Z) (p n : Z) : option (list Z) :=
  if zlen der <? p + n then None else Some (take (Z.to_nat n) (drop (Z.to_nat p) der)).

(** The bytes [b] and a NUL at the front of an array. *)
Definition put_string (buf b : list Z) : list Z := b ++ 0 :: drop (S (length b)) buf.

Section der.
Context (der : list Z).

(** [while (nbytes--) len = (len << 8) | der[( *pos)++];] *)
Fixpoint long_length (nbytes : nat) (pos len : Z) : option (Z * Z) :=
  match nbytes with
  | O => Some (pos, len)
  | S nbytes => b ← rd der pos; long_length nbytes (u32 (pos + 1)) (i32 (Z.lor (Z.shiftl len 8) b))
  end.

(** The new position, and the length or -1. *)
Definition asn1_length (pos dlen : Z) : option (Z * Z) :=
  if dlen <=? pos then Some (pos, -1)
  else
    b ← rd der pos;
    let pos := u32 (pos + 1) in
    if b <? 0x80 then Some (pos, b)
    else if (b =? 0x80) || (b =? 0xFF) then Some (pos, -1)
    else
      let nbytes := Z.land b 0x7F in
      if (4 <? nbytes) || (dlen <? u32 (pos + nbytes)) then Some (pos, -1)
      else long_length (Z.to_nat nbytes) pos 0.

(** The tag, the length of the content and of the header; no result when it is malformed. *)
Definition asn1_peek (pos dlen : Z) : option (option (Z * Z * Z)) :=
  if dlen <=? pos then Some None
  else
    let start := pos in
    tag ← rd der pos;
    '(pos, clen) ← asn1_length (u32 (pos + 1)) dlen;
    if clen <? 0 then Some None
    else if u32 (dlen - pos) <? clen then Some None
    else Some (Some (tag, clen, u32 (pos - start))).

(** The new position and the return value. *)
Definition asn1_skip (pos dlen : Z) : option (Z * Z) :=
  if dlen <=? pos then Some (pos, -1)
  else
    '(pos, clen) ← asn1_length (u32 (pos + 1)) dlen;
    if clen <? 0 then Some (pos, -1)
    else
      let pos := u32 (pos + clen) in
      Some (pos, if dlen <? pos then -1 else 0).

(** The new position, and the length of the content. *)
Definition asn1_enter (pos dlen expected_tag : Z) : option (Z * option Z) :=
  if dlen <=? pos then Some (pos, None)
  else
    tag ← rd der pos;
    let pos := u32 (pos + 1) in
    if negb (tag =? expected_tag) then Some (pos, None)
    else
      '(pos, clen) ← asn1_length pos dlen;
      if (clen <? 0) || (dlen <? u32 (pos + clen)) then Some (pos, None) else Some (pos, Some clen).

(** The new position, and the identifier. *)
Definition asn1_read_oid (pos dlen buflen : Z) : option (Z * option (list Z)) :=
  if dlen <=? pos then Some (pos, None)
  else
    tag ← rd der pos;
    if negb (tag =? ASN1_OID) then Some (pos, None)
    else
      '(pos, clen) ← asn1_length (u32 (pos + 1)) dlen;
      if (clen <? 0) || (buflen <? clen) || (dlen <? u32 (pos + clen)) then Some (pos, None)
      else b ← bytes der pos clen; Some (u32 (pos + clen), Some b).

(** The new position, and the array with the string. *)
Definition asn1_read_string (pos dlen : Z) (buf : list Z) (buflen : Z) : option (Z * list Z) :=
  if dlen <=? pos then Some (pos, buf)
  else
    tag ← rd der pos;
    if negb (tag =? ASN1_UTF8STR) && negb (tag =? ASN1_PRINTSTR) && negb (tag =? ASN1_IA5STR) && negb (tag =? 0x14) then Some (pos, buf)
    else
      '(pos, clen) ← asn1_length (u32 (pos + 1)) dlen;
      if (clen <? 0) || (dlen <? u32 (pos + clen)) then Some (pos, buf)
      else
        let n := if clen <? buflen - 1 then clen else buflen - 1 in
        b ← bytes der pos n;
        Some (u32 (pos + clen), put_string buf b).

Definition parse_time (pos dlen : Z) : option (Z * list Z) :=
  if dlen <=? pos then Some (pos, no_date)
  else
    tag ← rd der pos;
    '(pos, clen) ← asn1_length (u32 (pos + 1)) dlen;
    if (clen <? 0) || (dlen <? u32 (pos + clen)) then Some (pos, no_date)
    else
      let next := u32 (pos + clen) in
      if (tag =? ASN1_UTCTIME) && (12 <=? clen) then
        v ← bytes der pos 12; Some (next, utc_string v)
      else if (tag =? ASN1_GENTIME) && (14 <=? clen) then
        v ← bytes der pos 14; Some (next, gen_string v)
      else Some (next, no_date).

(** The attributes of one SET: the array when the common name is found. *)
Fixpoint name_set (fuel : nat) (p2 rdn_end : Z) (cn : list Z) : option (option (list Z)) :=
  match fuel with
  | O => Some None
  | S fuel =>
      if negb (p2 <? rdn_end) then Some None
      else
        pk ← asn1_peek p2 rdn_end;
        match pk with
        | None => Some None
        | Some (t2, cl2, h2) =>
            if t2 =? ASN1_SEQUENCE then
              let seq_start := u32 (p2 + h2) in
              let seq_end := u32 (seq_start + cl2) in
              '(ps, oid) ← asn1_read_oid seq_start seq_end 16;
              if bool_decide (oid = Some OID_CN) then
                '(_, cn) ← asn1_read_string ps seq_end cn 128;
                Some (Some cn)
              else name_set fuel seq_end rdn_end cn
            else name_set fuel (u32 (p2 + u32 (h2 + cl2))) rdn_end cn
        end
  end.

Fixpoint name_loop (fuel : nat) (pos end_ : Z) (cn : list Z) : option (list Z) :=
  match fuel with
  | O => Some cn
  | S fuel =>
      if negb (pos <? end_) then Some cn
      else
        pk ← asn1_peek pos end_;
        match pk with
        | None => Some cn
        | Some (tag, clen, hdr) =>
            if tag =? ASN1_SET then
              let rdn_start := u32 (pos + hdr) in
              let rdn_end := u32 (rdn_start + clen) in
              found ← name_set (Z.to_nat clen) rdn_start rdn_end cn;
              match found with
              | Some cn => Some cn
              | None => name_loop fuel rdn_end end_ cn
              end
            else name_loop fuel (u32 (pos + u32 (hdr + clen))) end_ cn
        end
  end.

(** Every round of the two loops passes an element of two bytes at least. *)
Definition parse_name_cn (pos end_ : Z) (cn : list Z) : option (list Z) :=
  name_loop (Z.to_nat (end_ - pos)) pos end_ cn.[0 <- 0].

End der.

(** [data] is the part of the certificate from the extension value on. *)
Fixpoint san_loop (fuel : nat) (data : list Z) (pos end_ len : Z) (cert : X509Cert) : option X509Cert :=
  match fuel with
  | O => Some cert
  | S fuel =>
      if negb ((pos <? end_) && (san_count cert <? 4)) then Some cert
      else
        tag ← rd data pos;
        '(pos, gl) ← asn1_length data (u32 (pos + 1)) len;
        if gl <? 0 then Some cert
        else
          cert ← (if tag =? 0x82 then
                    b ← bytes data pos (if gl <? 127 then gl else 127);
                    let k := san_count cert in
                    Some (cert <| san := (san cert).[k <- put_string (san cert).[k] b] |> <| san_count := u8 (k + 1) |>)
                  else Some cert);
          san_loop fuel data (u32 (pos + gl)) end_ len cert
  end.

Definition parse_san (data : list Z) (len : Z) (cert : X509Cert) : option X509Cert :=
  '(pos, clen) ← asn1_enter data 0 len ASN1_SEQUENCE;
  match clen with
  | None => Some cert
  | Some clen => let end_ := u32 (pos + clen) in san_loop (Z.to_nat clen) data pos end_ len cert
  end.

Section parse.
Context (der : list Z).

(** The modulus of an RSA key. *)
Definition rsa_bits (pos spki_end : Z) (cert : X509Cert) : option X509Cert :=
  t ← (if spki_end <=? pos then Some 0 else rd der pos);
  if (spki_end <=? pos) || negb (t =? ASN1_BITSTRING) then Some cert
  else
    '(pos, blen) ← asn1_length der (u32 (pos + 1)) spki_end;
    if blen <? 2 then Some cert
    else
      let pos := u32 (pos + 1) in
      let iend := u32 (u32 (pos + blen) - 1) in
      '(inner, ilen) ← asn1_enter der pos iend ASN1_SEQUENCE;
      match ilen with
      | None => Some cert
      | Some _ =>
          t ← (if iend <=? inner then Some 0 else rd der inner);
          if (iend <=? inner) || negb (t =? ASN1_INTEGER) then Some cert
          else
            '(inner, mlen) ← asn1_length der (u32 (inner + 1)) iend;
            if 0 <? mlen then
              z ← rd der inner;
              let keybytes := if z =? 0 then mlen - 1 else mlen in
              Some (cert <| key_bits := u32 (keybytes * 8) |>)
            else Some cert
      end.

Definition ec_bits (pos spki_end : Z) (cert : X509Cert) : option X509Cert :=
  t ← (if spki_end <=? pos then Some 0 else rd der pos);
  if (spki_end <=? pos) || negb (t =? ASN1_BITSTRING) then Some cert
  else
    '(_, blen) ← asn1_length der (u32 (pos + 1)) spki_end;
    Some (if 0 <? blen then cert <| key_bits := u32 (i32 ((blen - 1) * 4)) |> else cert).

(** [olen == n && oid[0] == o[0] && oid[1] == o[1]] *)
Definition oid_starts (n : Z) (o oid : list Z) : bool := (zlen oid =? n) && (oid.[0] =? o.[0]) && (oid.[1] =? o.[1]).

Definition parse_spki (pos end_ : Z) (cert : X509Cert) : option X509Cert :=
  '(pos, clen) ← asn1_enter der pos end_ ASN1_SEQUENCE;
  match clen with
  | None => Some cert
  | Some clen =>
      let spki_end := u32 (pos + clen) in
      '(pos, clen) ← asn1_enter der pos spki_end ASN1_SEQUENCE;
      match clen with
      | None => Some cert
      | Some clen =>
          '(_, oid) ← asn1_read_oid der pos (u32 (pos + clen)) 16;
          let pos := u32 (pos + clen) in
          if from_option (oid_starts 9 OID_RSA) false oid then rsa_bits pos spki_end (cert <| key_type := 0 |>)
          else if from_option (oid_starts 7 OID_EC) false oid then ec_bits pos spki_end (cert <| key_type := 1 |>)
          else Some (cert <| key_type := 2 |>)
      end
  end.

(** One extension, from its content on. *)
Definition parse_extension (exts_pos ext_end : Z) (cert : X509Cert) : option X509Cert :=
  '(exts_pos, oid) ← asn1_read_oid der exts_pos ext_end 16;
  t ← (if exts_pos <? ext_end then rd der exts_pos else Some 0);
  '(exts_pos, rc) ← (if (exts_pos <? ext_end) && (t =? 0x01) then asn1_skip der exts_pos ext_end else Some (exts_pos, 0));
  if negb (rc =? 0) then Some cert
  else
    t ← (if exts_pos <? ext_end then rd der exts_pos else Some 0);
    if (exts_pos <? ext_end) && (t =? ASN1_OCTETSTRING) then
      '(exts_pos, oval) ← asn1_length der (u32 (exts_pos + 1)) ext_end;
      if oval <? 0 then Some cert
      else if bool_decide (oid = Some OID_SAN) then parse_san (drop (Z.to_nat exts_pos) der) oval cert
      else Some cert
    else Some cert.

Fixpoint extensions_loop (fuel : nat) (exts_pos ext_list_end : Z) (cert : X509Cert) : option X509Cert :=
  match fuel with
  | O => Some cert
  | S fuel =>
      if negb (exts_pos <? ext_list_end) then Some cert
      else
        '(exts_pos, ext_len) ← asn1_enter der exts_pos ext_list_end ASN1_SEQUENCE;
        match ext_len with
        | None => Some cert
        | Some ext_len =>
            let ext_end := u32 (exts_pos + ext_len) in
            cert ← parse_extension exts_pos ext_end cert;
            extensions_loop fuel ext_end ext_list_end cert
        end
  end.

(** [if (pos < tbs_end && der[pos] == tag) { if (asn1_skip(...) != 0) return 0; }]; the
    flag is false for the return. *)
Definition skip_if (tag pos tbs_end : Z) : option (Z * bool) :=
  if pos <? tbs_end then
    t ← rd der pos;
    if t =? tag then '(pos, rc) ← asn1_skip der pos tbs_end; Some (pos, rc =? 0) else Some (pos, true)
  else Some (pos, true).

(** [while (pos < tbs_end && (der[pos] == 0xA1 || der[pos] == 0xA2))] *)
Fixpoint skip_ids (fuel : nat) (pos tbs_end : Z) : option Z :=
  match fuel with
  | O => Some pos
  | S fuel =>
      if pos <? tbs_end then
        t ← rd der pos;
        if (t =? 0xA1) || (t =? 0xA2) then
          '(pos, rc) ← asn1_skip der pos tbs_end;
          if rc =? 0 then skip_ids fuel pos tbs_end else Some pos
        else Some pos
      else Some pos
  end.

(** The part with the extensions. *)
Definition parse_extensions (pos tbs_end : Z) (cert : X509Cert) : option X509Cert :=
  t ← (if pos <? tbs_end then rd der pos else Some 0);
  if (pos <? tbs_end) && (t =? ASN1_CONT3) then
    '(pos, ewl) ← asn1_length der (u32 (pos + 1)) tbs_end;
    if ewl <? 0 then Some cert
    else
      '(exts_pos, len) ← asn1_enter der pos (u32 (pos + ewl)) ASN1_SEQUENCE;
      match len with
      | None => Some cert
      | Some len => extensions_loop (Z.to_nat len) exts_pos (u32 (exts_pos + len)) cert
      end
  else Some cert.

(** A Name: its common name, and the position behind it. *)
Definition parse_name (pos tbs_end : Z) (cn : list Z) : option (option (Z * list Z)) :=
  pk ← asn1_peek der pos tbs_end;
  match pk with
  | None => Some None
  | Some (tag, clen, hdr) =>
      if negb (tag =? ASN1_SEQUENCE) then Some None
      else
        cn ← parse_name_cn der (u32 (pos + hdr)) (u32 (u32 (pos + hdr) + clen)) cn;
        Some (Some (u32 (pos + u32 (hdr + clen)), cn))
  end.

(** From the public key on. *)
Definition parse_tail (pos tbs_end : Z) (cert : X509Cert) : option X509Cert :=
  pk ← asn1_peek der pos tbs_end;
  '(pos, cert) ← match pk with
    | Some (tag, clen, hdr) =>
        if tag =? ASN1_SEQUENCE then
          cert ← parse_spki pos (u32 (u32 (pos + hdr) + clen)) cert;
          Some (u32 (pos + u32 (hdr + clen)), cert)
        else Some (pos, cert)
    | None => Some (pos, cert)
    end;
  pos ← skip_ids (Z.to_nat (tbs_end - pos)) pos tbs_end;
  parse_extensions pos tbs_end cert.

(** The certificate, and the return value. *)
Definition x509_parse (der_len : Z) : option (X509Cert * Z) :=
  let cert := zero_cert in
  '(pos, outer_len) ← asn1_enter der 0 der_len ASN1_SEQUENCE;
  match outer_len with
  | None => Some (cert, 0)
  | Some outer_len =>
      let cert_end := u32 (pos + outer_len) in
      '(pos, tbs_len) ← asn1_enter der pos cert_end ASN1_SEQUENCE;
      match tbs_len with
      | None => Some (cert, 0)
      | Some tbs_len =>
          let tbs_end := u32 (pos + tbs_len) in
          '(pos, ok0) ← skip_if ASN1_CONT0 pos tbs_end;
          if negb ok0 then Some (cert, 0)
          else
            '(pos, ok1) ← skip_if ASN1_INTEGER pos tbs_end;
            if negb ok1 then Some (cert, 0)
            else
              '(pos, ok2) ← skip_if ASN1_SEQUENCE pos tbs_end;
              if negb ok2 then Some (cert, 0)
              else
                issuer ← parse_name pos tbs_end (issuer_cn cert);
                match issuer with
                | None => Some (cert, 0)
                | Some (pos, cn) =>
                    let cert := cert <| issuer_cn := cn |> in
                    '(pos, val_len) ← asn1_enter der pos tbs_end ASN1_SEQUENCE;
                    match val_len with
                    | None => Some (cert, 0)
                    | Some val_len =>
                        let val_end := u32 (pos + val_len) in
                        '(pos, nb) ← parse_time der pos val_end;
                        '(pos, na) ← parse_time der pos val_end;
                        let cert := cert <| not_before := nb |> <| not_after := na |> in
                        subject ← parse_name val_end tbs_end (subject_cn cert);
                        match subject with
                        | None => Some (cert, 0)
                        | Some (pos, cn) =>
                            cert ← parse_tail pos tbs_end (cert <| subject_cn := cn |>);
                            Some (cert <| valid := 1 |>, 1)
                        end
                    end
                end
      end
  end.

End parse.

(** ** Host names *)

(** Case-insensitive comparison of C strings; zero when they are equal. *)
Definition lower (c : Z) : Z := if (65 <=? c) && (c <=? 90) then c + 32 else c.
Fixpoint xstricmp (a b : list Z) : Z :=
  match a, b with
  | x :: a', y :: b' =>
      if (x =? 0) || (y =? 0) then x - y
      else if negb (lower x =? lower y) then lower x - lower y else xstricmp a' b'
  | _, _ => cget a 0 - cget b 0
  end.

(** [while ( *dot && *dot != '.') dot++;] *)
Fixpoint from_dot (h : list Z) : list Z :=
  match h with
  | [] => []
  | c :: h' => if (c =? 0) || (c =? 46) then h else from_dot h'
  end.

Definition wildcard_match (pattern hostname : list Z) : bool :=
  if (cget pattern 0 =? 42) && (cget pattern 1 =? 46) then
    let suffix := drop 2 pattern in
    let dot := from_dot hostname in
    if cget dot 0 =? 46 then xstricmp (drop 1 dot) suffix =? 0 else false
  else xstricmp pattern hostname =? 0.

Definition x509_check_hostname (cert : X509Cert) (hostname : list Z) : Z :=
  match scan (fun i => wildcard_match (san cert).[i] hostname) 0 (Z.to_nat (san_count cert)) with
  | Some _ => 1
  | None => if negb (cget (subject_cn cert) 0 =? 0) && wildcard_match (subject_cn cert) hostname then 1 else 0
  end.

(** ** DER *)

(** The length of a content below 65536 bytes, and an element. *)
Definition len_bytes (n : Z) : list Z := if n <? 128 then [n] else if n <? 256 then [0x81; n] else [0x82; n / 256; n mod 256].
Definition tlv (tag : Z) (c : list Z) : list Z := tag :: len_bytes (zlen c) ++ c.
Definition hdr (c : list Z) : Z := 1 + zlen (len_bytes (zlen c)).

Lemma zlen_app {A} (l k : list A) : zlen (l ++ k) = zlen l + zlen k.
Proof. unfold zlen. rewrite length_app. lia. Qed.
Lemma zlen_cons {A} (x : A) l : zlen (x :: l) = 1 + zlen l.
Proof. unfold zlen. cbn [length]. lia. Qed.

Lemma zlen_tlv tag c : zlen (tlv tag c) = hdr c + zlen c.
Proof. unfold tlv, hdr. rewrite zlen_cons, zlen_app. lia. Qed.
Lemma hdr_range c : 2 <= hdr c <= 4.
Proof. unfold hdr, len_bytes. repeat case_if; rewrite !zlen_cons; change (zlen (@nil Z)) with 0; lia. Qed.

(** The bytes [l] are at position [p]. *)
Definition at_ (der : list Z) (p : Z) (l : list Z) : Prop := 0 <= p /\ take (length l) (drop (Z.to_nat p) der) = l.

Section reading.
Context (der : list Z) (Hsize : zlen der < 2 ^ 31).

Lemma at_bound p l : at_ der p l -> zlen l = 0 \/ p + zlen l <= zlen der.
Proof.
  intros [Hp H]. apply (f_equal length) in H. rewrite length_take, length_drop in H. unfold zlen. lia.
Qed.

Lemma at_app p l k : at_ der p (l ++ k) -> at_ der p l /\ at_ der (p + zlen l) k.
Proof.
  intros [Hp H]. rewrite length_app, <- take_take_drop in H. apply app_inj_1 in H as [H1 H2].
  - split; [done|]. split; [unfold zlen; lia|]. unfold zlen. rewrite Z2Nat.inj_add, Nat2Z.id, <- drop_drop by lia. exact H2.
  - apply (f_equal length) in H. rewrite !length_app, !length_take, !length_drop in H. rewrite length_take, length_drop. lia.
Qed.

Lemma at_cons p x l : at_ der p (x :: l) -> rd der p = Some x /\ at_ der (p + 1) l.
Proof.
  intros H. apply (at_app p [x] l) in H as [[Hp H1] H2]. split; [|exact H2]. unfold rd. destruct (der !! Z.to_nat p) as [y|] eqn:E.
  - rewrite (drop_S _ _ _ E) in H1. cbn in H1. by injection H1 as ->.
  - apply lookup_ge_None_1 in E. rewrite drop_ge in H1 by lia. discriminate H1.
Qed.

Lemma at_bytes p l n : at_ der p l -> 0 <= n <= zlen l -> zlen l = 0 \/ p + zlen l <= zlen der -> bytes der p n = Some (take (Z.to_nat n) l) \/ n = 0.
Proof.
  intros [Hp H] Hn Hb. unfold bytes. destruct (Z.ltb_spec (zlen der) (p + n)).
  { right. lia. }
  left. f_equal. rewrite <- H, take_take. f_equal. unfold zlen in *. lia.
Qed.

Lemma asn1_length_spec p n rest dlen : at_ der p (len_bytes n ++ rest) -> 0 <= n < 65536 -> p + zlen (len_bytes n) <= dlen -> dlen < 2 ^ 31 ->
  asn1_length der p dlen = Some (p + zlen (len_bytes n), n).
Proof.
  intros H Hn Hd Hm. pose proof (proj1 H) as Hp. unfold asn1_length, len_bytes in *. destruct (Z.ltb_spec n 128); [|destruct (Z.ltb_spec n 256)].
  - cbn [app] in H. apply at_cons in H as [-> _]. change (zlen [n]) with 1 in *. rewrite (proj2 (Z.leb_gt dlen p)) by lia. cbn [mbind option_bind].
    rewrite (proj2 (Z.ltb_lt n 0x80)), u32_small by lia. done.
  - cbn [app] in H. apply at_cons in H as [-> H]. apply at_cons in H as [E _]. change (zlen [0x81; n]) with 2 in *. rewrite (proj2 (Z.leb_gt dlen p)) by lia. cbn [mbind option_bind].
    rewrite (u32_small (p + 1)) by lia. change (Z.land 0x81 0x7F) with 1. change (0x81 <? 0x80) with false. change ((0x81 =? 0x80) || (0x81 =? 0xFF)) with false. cbn [Z.ltb orb].
    rewrite u32_small, (proj2 (Z.ltb_ge dlen _)) by lia. change (Z.to_nat 1) with 1%nat. change (4 <? 1) with false. cbn [orb long_length]. rewrite E. cbn [mbind option_bind]. rewrite u32_small by lia.
    do 2 f_equal; [lia|]. rewrite Z.shiftl_0_l, Z.lor_0_l. apply i32_small. lia.
  - cbn [app] in H. apply at_cons in H as [-> H]. apply at_cons in H as [E1 H]. apply at_cons in H as [E2 _]. change (zlen [0x82; n / 256; n mod 256]) with 3 in *.
    rewrite (proj2 (Z.leb_gt dlen p)) by lia. cbn [mbind option_bind].
    rewrite (u32_small (p + 1)) by lia. change (Z.land 0x82 0x7F) with 2. change (0x82 <? 0x80) with false. change ((0x82 =? 0x80) || (0x82 =? 0xFF)) with false. change (4 <? 2) with false. cbn [orb].
    rewrite u32_small, (proj2 (Z.ltb_ge dlen _)) by lia. change (Z.to_nat 2) with 2%nat. cbn [long_length]. rewrite E1. cbn [mbind option_bind]. rewrite (u32_small (p + 1 + 1)), E2 by lia. cbn [mbind option_bind].
    rewrite u32_small by lia. assert (0 <= n / 256 < 256) as Hq by (split; [apply Z.div_pos; lia|apply Z.div_lt_upper_bound; lia]). pose proof (Z.mod_pos_bound n 256 ltac:(lia)).
    rewrite Z.shiftl_0_l, Z.lor_0_l, (i32_small (n / 256)) by lia. rewrite Z.lor_comm, lor_shiftl by lia. change (2 ^ 8) with 256. pose proof (Z.div_mod n 256 ltac:(lia)).
    rewrite i32_small by lia. do 2 f_equal; lia.
Qed.

(** ** Elements *)

(** The element with tag [tag] and content [c] is at [p], before [dlen]. *)
Definition elem (p tag : Z) (c : list Z) (dlen : Z) : Prop :=
  at_ der p (tlv tag c) /\ zlen c < 65536 /\ p + zlen (tlv tag c) <= dlen /\ dlen < 2 ^ 31.

Lemma elem_content p tag c dlen : elem p tag c dlen -> at_ der (p + hdr c) c.
Proof.
  intros (H & _). unfold tlv in H. apply at_cons in H as [_ H]. apply at_app in H as [_ H]. unfold hdr. by rewrite Z.add_assoc.
Qed.

Lemma elem_header p tag c dlen : elem p tag c dlen ->
  0 <= p /\ 2 <= hdr c <= 4 /\ 0 <= zlen c < 65536 /\ p + hdr c + zlen c <= dlen /\ dlen < 2 ^ 31 /\
  rd der p = Some tag /\ asn1_length der (p + 1) dlen = Some (p + hdr c, zlen c).
Proof.
  intros (H & Hc & Hd & Hm). pose proof (hdr_range c). pose proof (zlen_nonneg c). rewrite zlen_tlv in Hd. pose proof (proj1 H).
  unfold tlv in H. apply at_cons in H as [E H]. do 3 (split; [lia|]). split; [lia|]. split; [lia|]. split; [exact E|]. unfold hdr in *.
  rewrite (asn1_length_spec (p + 1) (zlen c) c dlen H) by lia. do 2 f_equal. lia.
Qed.

Lemma enter_spec p tag c dlen : elem p tag c dlen -> asn1_enter der p dlen tag = Some (p + hdr c, Some (zlen c)).
Proof.
  intros H. destruct (elem_header _ _ _ _ H) as (Hp & Hh & Hc & Hd & Hm & E1 & E2). unfold asn1_enter. rewrite (proj2 (Z.leb_gt dlen p)), E1 by lia. cbn [mbind option_bind].
  rewrite Z.eqb_refl, (u32_small (p + 1)), E2 by lia. cbn [negb mbind option_bind]. rewrite (proj2 (Z.ltb_ge (zlen c) 0)), u32_small, (proj2 (Z.ltb_ge dlen _)) by lia. done.
Qed.

Lemma peek_spec p tag c dlen : elem p tag c dlen -> asn1_peek der p dlen = Some (Some (tag, zlen c, hdr c)).
Proof.
  intros H. destruct (elem_header _ _ _ _ H) as (Hp & Hh & Hc & Hd & Hm & E1 & E2). unfold asn1_peek. rewrite (proj2 (Z.leb_gt dlen p)), E1 by lia. cbn [mbind option_bind].
  rewrite (u32_small (p + 1)), E2 by lia. cbn [mbind option_bind]. rewrite (proj2 (Z.ltb_ge (zlen c) 0)) by lia. rewrite (u32_small (dlen - _)), (proj2 (Z.ltb_ge _ (zlen c))), u32_small by lia.
  do 4 f_equal. lia.
Qed.

Lemma skip_spec p tag c dlen : elem p tag c dlen -> asn1_skip der p dlen = Some (p + zlen (tlv tag c), 0).
Proof.
  intros H. destruct (elem_header _ _ _ _ H) as (Hp & Hh & Hc & Hd & Hm & E1 & E2). unfold asn1_skip. rewrite (proj2 (Z.leb_gt dlen p)) by lia.
  rewrite (u32_small (p + 1)), E2 by lia. cbn [mbind option_bind]. rewrite (proj2 (Z.ltb_ge (zlen c) 0)), zlen_tlv by lia. rewrite u32_small, (proj2 (Z.ltb_ge dlen _)) by lia. do 2 f_equal. lia.
Qed.

(** [n] bytes of the content. *)
Lemma content_bytes p tag c dlen n : elem p tag c dlen -> dlen <= zlen der -> 0 <= n <= zlen c -> bytes der (p + hdr c) n = Some (take (Z.to_nat n) c).
Proof.
  intros H Hl Hn. destruct (elem_header _ _ _ _ H) as (Hp & Hh & Hc & Hd & Hm & _). destruct (elem_content _ _ _ _ H) as [_ E]. unfold bytes.
  rewrite (proj2 (Z.ltb_ge (zlen der) _)) by lia. f_equal. rewrite <- E at 2. rewrite take_take. f_equal. unfold zlen in *. lia.
Qed.

Lemma oid_spec p oid dlen : elem p ASN1_OID oid dlen -> dlen <= zlen der -> zlen oid <= 16 -> asn1_read_oid der p dlen 16 = Some (p + zlen (tlv ASN1_OID oid), Some oid).
Proof.
  intros H Hl Ho. destruct (elem_header _ _ _ _ H) as (Hp & Hh & Hc & Hd & Hm & E1 & E2). unfold asn1_read_oid. rewrite (proj2 (Z.leb_gt dlen p)), E1 by lia. cbn [mbind option_bind].
  rewrite Z.eqb_refl, (u32_small (p + 1)), E2 by lia. cbn [negb mbind option_bind]. rewrite (proj2 (Z.ltb_ge (zlen oid) 0)), (proj2 (Z.ltb_ge 16 (zlen oid))), u32_small, (proj2 (Z.ltb_ge dlen _)) by lia.
  cbn [orb]. rewrite (content_bytes p ASN1_OID oid dlen) by (done || lia). cbn [mbind option_bind]. rewrite zlen_tlv, (take_ge oid (Z.to_nat (zlen oid))) by (unfold zlen; lia). do 2 f_equal. lia.
Qed.

(** A long identifier is not read. *)
Lemma oid_long_spec p oid dlen : elem p ASN1_OID oid dlen -> 16 < zlen oid -> exists p', asn1_read_oid der p dlen 16 = Some (p', None).
Proof.
  intros H Ho. destruct (elem_header _ _ _ _ H) as (Hp & Hh & Hc & Hd & Hm & E1 & E2). unfold asn1_read_oid. rewrite (proj2 (Z.leb_gt dlen p)), E1 by lia. cbn [mbind option_bind].
  rewrite Z.eqb_refl, (u32_small (p + 1)), E2 by lia. cbn [negb mbind option_bind]. rewrite (proj2 (Z.ltb_lt 16 (zlen oid))), orb_true_r by lia. by eexists.
Qed.

Definition string_tag (tag : Z) : bool := (tag =? ASN1_UTF8STR) || (tag =? ASN1_PRINTSTR) || (tag =? ASN1_IA5STR) || (tag =? 0x14).

Lemma string_spec p tag c dlen buf : elem p tag c dlen -> dlen <= zlen der ->
  exists p', asn1_read_string der p dlen buf 128 = Some (p', if string_tag tag then put_string buf (take 127 c) else buf).
Proof.
  intros H Hl. destruct (elem_header _ _ _ _ H) as (Hp & Hh & Hc & Hd & Hm & E1 & E2). unfold asn1_read_string, string_tag. rewrite (proj2 (Z.leb_gt dlen p)), E1 by lia. cbn [mbind option_bind].
  destruct (tag =? ASN1_UTF8STR), (tag =? ASN1_PRINTSTR), (tag =? ASN1_IA5STR), (tag =? 0x14); cbn [negb andb orb]; try (by eexists).
  all: rewrite (u32_small (p + 1)), E2 by lia; cbn [mbind option_bind]; rewrite (proj2 (Z.ltb_ge (zlen c) 0)), u32_small, (proj2 (Z.ltb_ge dlen _)) by lia; cbn [orb].
  all: change (128 - 1) with 127; rewrite (content_bytes p tag c dlen) by (try done; destruct (Z.ltb_spec (zlen c) 127); lia); cbn [mbind option_bind].
  all: eexists; do 3 f_equal; destruct (Z.ltb_spec (zlen c) 127); [rewrite !take_ge by (unfold zlen in *; lia); done|done].
Qed.

(** Consecutive elements. *)
Lemma elem_of_at p tag c rest dlen : at_ der p (tlv tag c ++ rest) -> p + zlen (tlv tag c ++ rest) <= dlen -> dlen < 2 ^ 31 -> zlen c < 65536 ->
  elem p tag c dlen /\ at_ der (p + zlen (tlv tag c)) rest /\ p + zlen (tlv tag c) + zlen rest <= dlen.
Proof.
  intros H Hd Hm Hc. rewrite zlen_app in Hd. pose proof (zlen_nonneg rest). apply at_app in H as [H1 H2]. split; [|split; [done|lia]]. split; [done|]. split; [done|]. split; [lia|done].
Qed.

(** ** Names *)

(** An attribute: its identifier, and the tag and the content of its value. *)
Definition attr : Type := list Z * Z * list Z.
Definition attr_enc (a : attr) : list Z := let '(oid, tag, v) := a in tlv ASN1_SEQUENCE (tlv ASN1_OID oid ++ tlv tag v).
Definition set_enc (s : list attr) : list Z := tlv ASN1_SET (s ≫= attr_enc).
Definition name_enc (n : list (list attr)) : list Z := n ≫= set_enc.

(** The first common name. *)
Fixpoint first_cn (s : list attr) : option (Z * list Z) :=
  match s with
  | [] => None
  | (oid, tag, v) :: s => if bool_decide (oid = OID_CN) then Some (tag, v) else first_cn s
  end.

Definition cn_array (buf : list Z) (f : Z * list Z) : list Z := if string_tag (fst f) then put_string buf (take 127 (snd f)) else buf.

Lemma first_cn_app s s' : first_cn (s ++ s') = match first_cn s with Some f => Some f | None => first_cn s' end.
Proof. induction s as [|[[oid tag] v] s IH]; [done|]. cbn. by case_bool_decide. Qed.

Lemma attr_enc_length a : 2 <= zlen (attr_enc a).
Proof. destruct a as [[oid tag] v]. cbn [attr_enc]. rewrite zlen_tlv. pose proof (hdr_range (tlv ASN1_OID oid ++ tlv tag v)). pose proof (zlen_nonneg (tlv ASN1_OID oid ++ tlv tag v)). lia. Qed.

Lemma name_set_spec buf s : forall fuel p rdn_end, at_ der p (s ≫= attr_enc) -> p + zlen (s ≫= attr_enc) = rdn_end -> rdn_end <= zlen der -> zlen (s ≫= attr_enc) < 65536 ->
  zlen (s ≫= attr_enc) <= Z.of_nat fuel -> name_set der fuel p rdn_end buf = Some (cn_array buf <$> first_cn s).
Proof.
  induction s as [|a s IH]; intros fuel p rdn_end Hat He Hd Hl Hf; cbn [mbind list_bind] in *.
  { change (zlen (@nil Z)) with 0 in *. destruct fuel; cbn [name_set]; [done|]. by rewrite (proj2 (Z.ltb_ge p rdn_end)) by lia. }
  fold (mbind attr_enc s) in *. pose proof (attr_enc_length a) as Ha. pose proof (zlen_nonneg (s ≫= attr_enc)) as Hs. rewrite zlen_app in *.
  destruct fuel as [|fuel]; [lia|]. cbn [name_set]. rewrite (proj2 (Z.ltb_lt p rdn_end)) by lia. cbn [negb]. destruct a as [[oid tag] v]. cbn [attr_enc first_cn] in *.
  set (c := tlv ASN1_OID oid ++ tlv tag v) in *. rewrite zlen_tlv in *. pose proof (hdr_range c) as Hh. pose proof (zlen_nonneg c) as Hcn. pose proof (proj1 Hat) as Hp.
  assert (elem p ASN1_SEQUENCE c rdn_end /\ at_ der (p + zlen (tlv ASN1_SEQUENCE c)) (s ≫= attr_enc)) as [He1 Hat2].
  { destruct (elem_of_at p ASN1_SEQUENCE c (s ≫= attr_enc) rdn_end Hat) as (A & B & _); [rewrite zlen_app, zlen_tlv; lia|lia|lia|done]. }
  rewrite (peek_spec p _ _ _ He1). cbn [mbind option_bind]. rewrite Z.eqb_refl, (u32_small (p + hdr c)), (u32_small (p + hdr c + zlen c)) by lia.
  pose proof (elem_content _ _ _ _ He1) as Hc.
  assert (zlen oid < 65536 /\ zlen v < 65536) as [Ho Hv].
  { assert (zlen c = hdr oid + zlen oid + (hdr v + zlen v)) by (unfold c; by rewrite zlen_app, !zlen_tlv). pose proof (hdr_range oid). pose proof (hdr_range v). pose proof (zlen_nonneg oid). pose proof (zlen_nonneg v). lia. }
  destruct (elem_of_at (p + hdr c) ASN1_OID oid (tlv tag v) (p + hdr c + zlen c) Hc) as (A & B & _); [done|lia|done|].
  assert (elem (p + hdr c + zlen (tlv ASN1_OID oid)) tag v (p + hdr c + zlen c)) as He2.
  { split; [done|]. split; [done|]. split; [|lia]. unfold c. rewrite zlen_app. lia. }
  assert (name_set der fuel (p + hdr c + zlen c) rdn_end buf = Some (cn_array buf <$> first_cn s)) as Hrest.
  { apply IH; try lia. rewrite zlen_tlv in Hat2. by rewrite <- Z.add_assoc. }
  destruct (Z.leb_spec (zlen oid) 16).
  - rewrite (oid_spec _ _ _ A) by lia. cbn [mbind option_bind]. case_bool_decide as Hcn2.
    + injection Hcn2 as ->. rewrite bool_decide_true by done. destruct (string_spec _ _ _ _ buf He2 ltac:(lia)) as [p' ->]. done.
    + rewrite bool_decide_false by congruence. exact Hrest.
  - destruct (oid_long_spec _ _ _ A ltac:(lia)) as [p' ->]. cbn [mbind option_bind]. rewrite bool_decide_false by done.
    rewrite bool_decide_false by (intros ->; by vm_compute in H). exact Hrest.
Qed.

Lemma name_loop_spec buf n : forall fuel p end_, at_ der p (name_enc n) -> p + zlen (name_enc n) = end_ -> end_ <= zlen der -> zlen (name_enc n) < 65536 ->
  zlen (name_enc n) <= Z.of_nat fuel -> name_loop der fuel p end_ buf = Some (from_option (cn_array buf) buf (first_cn (concat n))).
Proof.
  induction n as [|s n IH]; intros fuel p end_ Hat He Hd Hl Hf; unfold name_enc in *; cbn [mbind list_bind] in *.
  { change (zlen (@nil Z)) with 0 in *. destruct fuel; cbn [name_loop]; [done|]. by rewrite (proj2 (Z.ltb_ge p end_)) by lia. }
  fold (mbind set_enc n) in *. pose proof (zlen_nonneg (n ≫= set_enc)) as Hs. rewrite zlen_app in *. unfold set_enc at 1 in Hat. unfold set_enc at 1 in He. unfold set_enc at 1 in Hl.
  unfold set_enc at 1 in Hf. set (c := s ≫= attr_enc) in *. rewrite zlen_tlv in *. pose proof (hdr_range c) as Hh. pose proof (zlen_nonneg c) as Hcn. pose proof (proj1 Hat) as Hp.
  destruct fuel as [|fuel]; [lia|]. cbn [name_loop]. rewrite (proj2 (Z.ltb_lt p end_)) by lia. cbn [negb].
  destruct (elem_of_at p ASN1_SET c (n ≫= set_enc) end_ Hat) as (He1 & Hat2 & _); [rewrite zlen_app, zlen_tlv; lia|lia|lia|].
  rewrite (peek_spec p _ _ _ He1). cbn [mbind option_bind]. rewrite Z.eqb_refl, (u32_small (p + hdr c)), (u32_small (p + hdr c + zlen c)) by lia.
  rewrite (name_set_spec buf s) by (try (fold c; lia); exact (elem_content _ _ _ _ He1)). cbn [mbind option_bind concat]. rewrite first_cn_app.
  destruct (first_cn s); cbn [fmap option_fmap option_map]; [done|]. apply IH; try lia. rewrite zlen_tlv in Hat2. by rewrite <- Z.add_assoc.
Qed.

(** A Name at [p]. *)
Lemma parse_name_spec n p dlen : elem p ASN1_SEQUENCE (name_enc n) dlen -> dlen <= zlen der ->
  parse_name der p dlen (replicate 128 0) = Some (Some (p + zlen (tlv ASN1_SEQUENCE (name_enc n)), from_option (cn_array (replicate 128 0)) (replicate 128 0) (first_cn (concat n)))).
Proof.
  intros He Hl. destruct (elem_header _ _ _ _ He) as (Hp & Hh & Hc & Hd & Hm & _). unfold parse_name. rewrite (peek_spec _ _ _ _ He). cbn [mbind option_bind].
  rewrite Z.eqb_refl, (u32_small (p + hdr _)), (u32_small (p + hdr _ + _)) by lia. cbn [negb]. unfold parse_name_cn. change ((replicate 128 0).[0 <- 0]) with (replicate 128 0).
  rewrite (name_loop_spec _ n) by (try lia; exact (elem_content _ _ _ _ He)). cbn [mbind option_bind]. rewrite (u32_small (hdr _ + _)), u32_small, zlen_tlv by lia. done.
Qed.

(** ** Dates *)

(** A date, with the characters behind the seconds. *)
Inductive date := UTCTime (v rest : list Z) | GeneralizedTime (v rest : list Z).
Definition date_ok (t : date) : Prop := match t with UTCTime v _ => zlen v = 12 | GeneralizedTime v _ => zlen v = 14 end.
Definition date_tag (t : date) : Z := match t with UTCTime _ _ => ASN1_UTCTIME | GeneralizedTime _ _ => ASN1_GENTIME end.
Definition date_content (t : date) : list Z := match t with UTCTime v r => v ++ r | GeneralizedTime v r => v ++ r end.
Definition date_enc (t : date) : list Z := tlv (date_tag t) (date_content t).
Definition date_text (t : date) : list Z := match t with UTCTime v _ => utc_string v | GeneralizedTime v _ => gen_string v end.

Lemma parse_time_spec t p dlen : date_ok t -> elem p (date_tag t) (date_content t) dlen -> dlen <= zlen der ->
  parse_time der p dlen = Some (p + zlen (date_enc t), date_text t).
Proof.
  intros Ht He Hl. destruct (elem_header _ _ _ _ He) as (Hp & Hh & Hc & Hd & Hm & E1 & E2). unfold parse_time. rewrite (proj2 (Z.leb_gt dlen p)), E1 by lia. cbn [mbind option_bind].
  rewrite (u32_small (p + 1)), E2 by lia. cbn [mbind option_bind]. rewrite (proj2 (Z.ltb_ge _ 0)), (u32_small (_ + zlen _)), (proj2 (Z.ltb_ge dlen _)) by lia. cbn [orb].
  assert (p + hdr (date_content t) + zlen (date_content t) = p + zlen (date_enc t)) as Ep by (unfold date_enc; rewrite zlen_tlv; lia). rewrite Ep.
  destruct t as [v r|v r]; cbn [date_tag date_content date_ok date_text] in *; rewrite zlen_app in *; pose proof (zlen_nonneg r).
  - change (ASN1_UTCTIME =? ASN1_UTCTIME) with true. rewrite (proj2 (Z.leb_le 12 _)) by lia. cbn [andb].
    rewrite (content_bytes p ASN1_UTCTIME (v ++ r) dlen) by (done || rewrite ?zlen_app; lia). cbn [mbind option_bind].
    rewrite take_app_le, take_ge by (unfold zlen in Ht; lia). done.
  - change (ASN1_GENTIME =? ASN1_UTCTIME) with false. change (ASN1_GENTIME =? ASN1_GENTIME) with true. rewrite (proj2 (Z.leb_le 14 _)) by lia. cbn [andb].
    rewrite (content_bytes p ASN1_GENTIME (v ++ r) dlen) by (done || rewrite ?zlen_app; lia). cbn [mbind option_bind].
    rewrite take_app_le, take_ge by (unfold zlen in Ht; lia). done.
Qed.

End reading.

(** ** Public keys *)

Inductive key := RSA (params modulus exponent : list Z) | EC (params point : list Z) | OtherKey (oid params bits : list Z).

Definition key_alg (k : key) : list Z :=
  match k with RSA params _ _ => tlv ASN1_OID OID_RSA ++ params | EC params _ => tlv ASN1_OID OID_EC ++ params | OtherKey oid params _ => tlv ASN1_OID oid ++ params end.
Definition key_bitstring (k : key) : list Z :=
  match k with RSA _ m e => tlv ASN1_BITSTRING (0 :: tlv ASN1_SEQUENCE (tlv ASN1_INTEGER m ++ tlv ASN1_INTEGER e)) | EC _ point => tlv ASN1_BITSTRING (0 :: point) | OtherKey _ _ bits => bits end.
Definition key_content (k : key) : list Z := tlv ASN1_SEQUENCE (key_alg k) ++ key_bitstring k.
Definition key_oid (k : key) : list Z := match k with RSA _ _ _ => OID_RSA | EC _ _ => OID_EC | OtherKey oid _ _ => oid end.
Definition key_ok (k : key) : Prop :=
  match k with
  | RSA _ m _ => m <> [] /\ Forall byte m
  | EC _ _ => True
  | OtherKey oid _ _ => zlen oid <= 16 /\ oid_starts 9 OID_RSA oid = false /\ oid_starts 7 OID_EC oid = false
  end.

(** Eight bits for each byte of the modulus, a leading zero not counted; four for each byte
    of the point. *)
Definition key_fields (k : key) (cert : X509Cert) : X509Cert :=
  match k with
  | RSA _ m _ => cert <| key_type := 0 |> <| key_bits := 8 * (if m.[0] =? 0 then zlen m - 1 else zlen m) |>
  | EC _ point => cert <| key_type := 1 |> <| key_bits := 4 * zlen point |>
  | OtherKey _ _ _ => cert <| key_type := 2 |>
  end.

Lemma key_alg_oid k : exists params, key_alg k = tlv ASN1_OID (key_oid k) ++ params.
Proof. destruct k; by eexists. Qed.

Lemma tlv_small tag c n : zlen (tlv tag c) < n -> zlen c < n.
Proof. rewrite zlen_tlv. pose proof (hdr_range c). lia. Qed.

(** An element that ends where it is read to. *)
Lemma elem_last der p tag c dlen : at_ der p (tlv tag c) -> p + zlen (tlv tag c) = dlen -> dlen < 2 ^ 31 -> zlen c < 65536 -> elem der p tag c dlen.
Proof. intros H E Hd Hc. split; [done|]. split; [done|]. split; [lia|done]. Qed.

Lemma rsa_bits_spec der p params m e spki_end cert : zlen der < 2 ^ 31 -> m <> [] -> at_ der p (key_bitstring (RSA params m e)) ->
  p + zlen (key_bitstring (RSA params m e)) = spki_end -> spki_end <= zlen der -> zlen (key_bitstring (RSA params m e)) < 65536 ->
  rsa_bits der p spki_end (cert <| key_type := 0 |>) = Some (key_fields (RSA params m e) cert).
Proof.
  intros Hsz Hm Hat He Hd Hl. cbn [key_bitstring] in *. set (ints := tlv ASN1_INTEGER m ++ tlv ASN1_INTEGER e) in *. set (c := 0 :: tlv ASN1_SEQUENCE ints) in *.
  pose proof (tlv_small _ _ _ Hl) as Hlc. assert (zlen c = 1 + zlen (tlv ASN1_SEQUENCE ints)) as Ec by (unfold c; by rewrite zlen_cons).
  assert (elem der p ASN1_BITSTRING c spki_end) as He1 by (apply elem_last; done || lia). destruct (elem_header _ _ _ _ _ He1) as (Hp & Hh & Hc & Hb & _ & E1 & E2).
  rewrite zlen_tlv in He, Hl. unfold rsa_bits. rewrite (proj2 (Z.leb_gt spki_end p)), E1 by lia. cbn [mbind option_bind orb]. rewrite Z.eqb_refl, (u32_small (p + 1)), E2 by lia. cbn [negb mbind option_bind].
  pose proof (zlen_tlv ASN1_SEQUENCE ints) as Es. pose proof (hdr_range ints) as Hhi. pose proof (zlen_nonneg ints) as Hi0. rewrite (proj2 (Z.ltb_ge (zlen c) 2)) by lia.
  rewrite (u32_small (p + hdr c + 1)), (u32_small (p + hdr c + 1 + zlen c)), u32_small by lia. replace (p + hdr c + 1 + zlen c - 1) with spki_end by lia.
  pose proof (elem_content _ _ _ _ _ He1) as Hcc. unfold c in Hcc. apply at_cons in Hcc as [_ Hcc].
  assert (elem der (p + hdr c + 1) ASN1_SEQUENCE ints spki_end) as He2 by (apply elem_last; done || lia). fold c in Hcc.
  rewrite (enter_spec _ _ _ _ _ He2). cbn [mbind option_bind]. pose proof (elem_content _ _ _ _ _ He2) as Hic. destruct (elem_header _ _ _ _ _ He2) as (Hp2 & _ & _ & Hb2 & _).
  set (q := p + hdr c + 1 + hdr ints) in *. assert (zlen ints = hdr m + zlen m + (hdr e + zlen e)) as Ei by (unfold ints; by rewrite zlen_app, !zlen_tlv).
  pose proof (hdr_range m). pose proof (zlen_nonneg m). pose proof (hdr_range e). pose proof (zlen_nonneg e).
  destruct (elem_of_at der q ASN1_INTEGER m (tlv ASN1_INTEGER e) spki_end Hic) as (He3 & _ & _); [fold ints; lia|lia|lia|].
  destruct (elem_header _ _ _ _ _ He3) as (_ & _ & _ & _ & _ & E3 & E4). rewrite (proj2 (Z.leb_gt spki_end q)), E3 by lia. cbn [mbind option_bind orb]. rewrite Z.eqb_refl, (u32_small (q + 1)), E4 by lia.
  cbn [negb mbind option_bind]. pose proof (elem_content _ _ _ _ _ He3) as Hmc. destruct m as [|x m]; [done|]. apply at_cons in Hmc as [E5 _].
  assert (1 <= zlen (x :: m) < 65536) as Hmx by (split; [rewrite zlen_cons; pose proof (zlen_nonneg m); lia|lia]). rewrite (proj2 (Z.ltb_lt 0 _)), E5 by lia.
  cbn [mbind option_bind key_fields]. change ((x :: m).[0]) with x. rewrite u32_small by (destruct (x =? 0); lia). by rewrite (Z.mul_comm _ 8).
Qed.

Lemma ec_bits_spec der p params point spki_end cert : zlen der < 2 ^ 31 -> at_ der p (key_bitstring (EC params point)) ->
  p + zlen (key_bitstring (EC params point)) = spki_end -> spki_end <= zlen der -> zlen (key_bitstring (EC params point)) < 65536 ->
  ec_bits der p spki_end (cert <| key_type := 1 |>) = Some (key_fields (EC params point) cert).
Proof.
  intros Hsz Hat He Hd Hl. cbn [key_bitstring] in *. set (c := 0 :: point) in *. pose proof (tlv_small _ _ _ Hl) as Hlc. assert (zlen c = 1 + zlen point) as Ec by (unfold c; by rewrite zlen_cons).
  pose proof (zlen_nonneg point). assert (elem der p ASN1_BITSTRING c spki_end) as He1 by (apply elem_last; done || lia). destruct (elem_header _ _ _ _ _ He1) as (Hp & Hh & Hc & Hb & _ & E1 & E2).
  rewrite zlen_tlv in He. unfold ec_bits. rewrite (proj2 (Z.leb_gt spki_end p)), E1 by lia. cbn [mbind option_bind orb]. rewrite Z.eqb_refl, (u32_small (p + 1)), E2 by lia. cbn [negb mbind option_bind].
  rewrite (proj2 (Z.ltb_lt 0 (zlen c))), (i32_small ((zlen c - 1) * 4)), u32_small by lia. cbn [key_fields]. by replace ((zlen c - 1) * 4) with (4 * zlen point) by lia.
Qed.

Lemma parse_spki_spec der k p end_ cert : zlen der < 2 ^ 31 -> key_ok k -> elem der p ASN1_SEQUENCE (key_content k) end_ -> p + zlen (tlv ASN1_SEQUENCE (key_content k)) = end_ -> end_ <= zlen der ->
  parse_spki der p end_ cert = Some (key_fields k cert).
Proof.
  intros Hsz Hk He Hend Hd. destruct (elem_header _ _ _ _ _ He) as (Hp & Hh & Hc & Hb & Hm & _). rewrite zlen_tlv in Hend. unfold parse_spki. rewrite (enter_spec _ _ _ _ _ He). cbn [mbind option_bind].
  rewrite u32_small by lia. set (q := p + hdr (key_content k)) in *. replace (q + zlen (key_content k)) with end_ by lia. pose proof (elem_content _ _ _ _ _ He) as Hat. fold q in Hat.
  assert (zlen (key_content k) = hdr (key_alg k) + zlen (key_alg k) + zlen (key_bitstring k)) as El by (unfold key_content; by rewrite zlen_app, zlen_tlv).
  pose proof (hdr_range (key_alg k)). pose proof (zlen_nonneg (key_alg k)). pose proof (zlen_nonneg (key_bitstring k)). unfold key_content in Hat.
  destruct (elem_of_at der q ASN1_SEQUENCE (key_alg k) (key_bitstring k) end_ Hat) as (He2 & Hat2 & _); [rewrite zlen_app, zlen_tlv; lia|lia|lia|].
  rewrite (enter_spec _ _ _ _ _ He2). cbn [mbind option_bind]. rewrite u32_small by lia. pose proof (elem_content _ _ _ _ _ He2) as Hac. destruct (key_alg_oid k) as [params Ea].
  rewrite zlen_tlv in Hat2. assert (at_ der (q + hdr (key_alg k)) (tlv ASN1_OID (key_oid k) ++ params)) as Hac' by (rewrite <- Ea; exact Hac). assert (zlen (key_alg k) = zlen (tlv ASN1_OID (key_oid k)) + zlen params) as Ela by (rewrite Ea; apply zlen_app). pose proof (zlen_nonneg params).
  pose proof (zlen_tlv ASN1_OID (key_oid k)). pose proof (hdr_range (key_oid k)). pose proof (zlen_nonneg (key_oid k)).
  destruct (elem_of_at der _ ASN1_OID (key_oid k) params (q + hdr (key_alg k) + zlen (key_alg k)) Hac') as (He3 & _ & _); [rewrite zlen_app; lia|lia|lia|].
  assert (zlen (key_oid k) <= 16) as Hk16 by (destruct k; [vm_compute; congruence|vm_compute; congruence|by destruct Hk]).
  rewrite (oid_spec der Hsz _ _ _ He3) by lia. cbn [mbind option_bind from_option]. rewrite <- (Z.add_assoc q). destruct k as [ps m e|ps pt|o ps bits]; cbn [key_oid] in *.
  - change (oid_starts 9 OID_RSA OID_RSA) with true. cbv iota. destruct Hk as [Hm0 _]. apply rsa_bits_spec; done || lia.
  - change (oid_starts 9 OID_RSA OID_EC) with false. change (oid_starts 7 OID_EC OID_EC) with true. cbv iota. apply ec_bits_spec; done || lia.
  - destruct Hk as (_ & -> & ->). done.
Qed.

(** ** Extensions *)

(** The alternative names, by tag and content, or any other extension. *)
Inductive ext := SubjectAltName (critical : bool) (names : list (Z * list Z)) | OtherExt (oid : list Z) (critical : bool) (value : list Z).
Definition gn_enc (g : Z * list Z) : list Z := tlv (fst g) (snd g).
Definition names_enc (names : list (Z * list Z)) : list Z := tlv ASN1_SEQUENCE (names ≫= gn_enc).
Definition ext_oid (e : ext) : list Z := match e with SubjectAltName _ _ => OID_SAN | OtherExt oid _ _ => oid end.
Definition ext_critical (e : ext) : bool := match e with SubjectAltName c _ => c | OtherExt _ c _ => c end.
Definition ext_value (e : ext) : list Z := match e with SubjectAltName _ names => names_enc names | OtherExt _ _ v => v end.
Definition flag_enc (critical : bool) : list Z := if critical then tlv 0x01 [0xFF] else [].
Definition ext_content (e : ext) : list Z := tlv ASN1_OID (ext_oid e) ++ flag_enc (ext_critical e) ++ tlv ASN1_OCTETSTRING (ext_value e).
Definition ext_enc (e : ext) : list Z := tlv ASN1_SEQUENCE (ext_content e).
Definition ext_ok (e : ext) : Prop := match e with SubjectAltName _ _ => True | OtherExt oid _ _ => zlen oid <= 16 /\ oid <> OID_SAN end.

(** At most four DNS names are kept, of 127 bytes each. *)
Definition add_name (cert : X509Cert) (v : list Z) : X509Cert :=
  cert <| san := (san cert).[san_count cert <- put_string (san cert).[san_count cert] (take 127 v)] |> <| san_count := u8 (san_count cert + 1) |>.
Fixpoint add_names (names : list (Z * list Z)) (cert : X509Cert) : X509Cert :=
  match names with
  | [] => cert
  | (tag, v) :: names => if san_count cert <? 4 then add_names names (if tag =? 0x82 then add_name cert v else cert) else cert
  end.
Definition add_ext (cert : X509Cert) (e : ext) : X509Cert := match e with SubjectAltName _ names => add_names names cert | OtherExt _ _ _ => cert end.

Lemma san_loop_spec data names : forall fuel p end_ len cert, zlen data < 2 ^ 31 -> at_ data p (names ≫= gn_enc) -> p + zlen (names ≫= gn_enc) = end_ -> end_ <= len -> len <= zlen data ->
  zlen (names ≫= gn_enc) < 65536 -> zlen (names ≫= gn_enc) <= Z.of_nat fuel -> san_loop fuel data p end_ len cert = Some (add_names names cert).
Proof.
  induction names as [|[tag v] names IH]; intros fuel p end_ len cert Hsz Hat He Hd Hln Hl Hf; cbn [mbind list_bind] in *.
  { change (zlen (@nil Z)) with 0 in *. destruct fuel; cbn [san_loop]; [done|]. by rewrite (proj2 (Z.ltb_ge p end_)) by lia. }
  fold (mbind gn_enc names) in *. pose proof (zlen_nonneg (names ≫= gn_enc)) as Hs. rewrite zlen_app in *. unfold gn_enc at 1 in Hat. unfold gn_enc at 1 in He. unfold gn_enc at 1 in Hl.
  unfold gn_enc at 1 in Hf. cbn [fst snd] in *. rewrite zlen_tlv in *. pose proof (hdr_range v) as Hh. pose proof (zlen_nonneg v) as Hcn. pose proof (proj1 Hat) as Hp.
  destruct fuel as [|fuel]; [lia|]. cbn [san_loop add_names]. rewrite (proj2 (Z.ltb_lt p end_)) by lia. cbn [andb negb]. destruct (san_count cert <? 4); cbn [negb]; [|done].
  destruct (elem_of_at data p tag v (names ≫= gn_enc) len Hat) as (He1 & Hat2 & _); [rewrite zlen_app, zlen_tlv; lia|lia|lia|].
  destruct (elem_header _ _ _ _ _ He1) as (_ & _ & _ & Hb & _ & -> & E2). cbn [mbind option_bind]. rewrite (u32_small (p + 1)), E2 by lia. cbn [mbind option_bind].
  rewrite (proj2 (Z.ltb_ge (zlen v) 0)), u32_small by lia. rewrite zlen_tlv, Z.add_assoc in Hat2.
  assert (forall c, san_loop fuel data (p + hdr v + zlen v) end_ len c = Some (add_names names c)) as Hrest by (intros c; apply IH; done || lia).
  destruct (tag =? 0x82); [|apply Hrest]. rewrite (content_bytes data p tag v len) by (try done; destruct (Z.ltb_spec (zlen v) 127); lia). cbn [mbind option_bind].
  rewrite Hrest. do 2 f_equal. unfold add_name. destruct (Z.ltb_spec (zlen v) 127); [|done]. by rewrite !take_ge by (unfold zlen in *; lia).
Qed.

Lemma at_drop der q p l : 0 <= q -> 0 <= p -> at_ der (q + p) l -> at_ (drop (Z.to_nat q) der) p l.
Proof. intros Hq Hp [_ H]. split; [done|]. by rewrite drop_drop, <- Z2Nat.inj_add by lia. Qed.

Lemma parse_san_spec der q names n cert : zlen der < 2 ^ 31 -> 0 <= q -> at_ der q (names_enc names) -> n = zlen (names_enc names) -> q + n <= zlen der -> n < 65536 ->
  parse_san (drop (Z.to_nat q) der) n cert = Some (add_names names cert).
Proof.
  intros Hsz Hq Hat Hn Hd Hl. set (data := drop (Z.to_nat q) der). assert (zlen data = zlen der - q) as Hzd by (unfold data, zlen in *; rewrite length_drop; lia).
  assert (at_ data 0 (names_enc names)) as Hat0 by (apply at_drop; [done|done|by rewrite Z.add_0_r]). unfold names_enc in *. set (c := names ≫= gn_enc) in *.
  pose proof (zlen_tlv ASN1_SEQUENCE c). pose proof (hdr_range c). pose proof (zlen_nonneg c). assert (elem data 0 ASN1_SEQUENCE c n) as He by (apply elem_last; done || lia).
  unfold parse_san. rewrite (enter_spec _ _ _ _ _ He). cbn [mbind option_bind]. rewrite u32_small by lia. pose proof (elem_content _ _ _ _ _ He).
  apply (san_loop_spec data names); fold c; done || lia.
Qed.

Lemma flag_skip der p critical v dlen : zlen der < 2 ^ 31 -> dlen <= zlen der -> zlen v < 65536 ->
  at_ der p (flag_enc critical ++ tlv ASN1_OCTETSTRING v) -> p + zlen (flag_enc critical ++ tlv ASN1_OCTETSTRING v) = dlen ->
  exists t, (if p <? dlen then rd der p else Some 0) = Some t /\
    (if (p <? dlen) && (t =? 0x01) then asn1_skip der p dlen else Some (p, 0)) = Some (p + zlen (flag_enc critical), 0).
Proof.
  intros Hsz Hd Hv Hat He. rewrite zlen_app in He. pose proof (zlen_tlv ASN1_OCTETSTRING v). pose proof (hdr_range v). pose proof (zlen_nonneg v). pose proof (zlen_nonneg (flag_enc critical)).
  rewrite (proj2 (Z.ltb_lt p dlen)) by lia. destruct critical; cbn [flag_enc] in *.
  - destruct (elem_of_at der p 0x01 [0xFF] (tlv ASN1_OCTETSTRING v) dlen Hat) as (He1 & _ & _); [rewrite zlen_app; lia|lia|by vm_compute|].
    destruct (elem_header _ _ _ _ _ He1) as (_ & _ & _ & _ & _ & -> & _). exists 1. split; [done|]. exact (skip_spec _ _ _ _ _ He1).
  - cbn [app] in Hat. unfold tlv in Hat. apply at_cons in Hat as [-> _]. exists ASN1_OCTETSTRING. split; [done|]. cbn. by rewrite Z.add_0_r.
Qed.

Lemma parse_extension_spec der e p end_ cert : zlen der < 2 ^ 31 -> ext_ok e -> at_ der p (ext_content e) -> p + zlen (ext_content e) = end_ -> end_ <= zlen der -> zlen (ext_content e) < 65536 ->
  parse_extension der p end_ cert = Some (add_ext cert e).
Proof.
  intros Hsz Hok Hat He Hd Hl. unfold ext_content in *. set (rest := flag_enc (ext_critical e) ++ tlv ASN1_OCTETSTRING (ext_value e)) in *.
  assert (zlen rest = zlen (flag_enc (ext_critical e)) + (hdr (ext_value e) + zlen (ext_value e))) as Er by (unfold rest; by rewrite zlen_app, zlen_tlv).
  pose proof (hdr_range (ext_value e)). pose proof (zlen_nonneg (ext_value e)). pose proof (zlen_nonneg (flag_enc (ext_critical e))). rewrite zlen_app, zlen_tlv in *.
  pose proof (hdr_range (ext_oid e)). pose proof (zlen_nonneg (ext_oid e)). pose proof (proj1 Hat) as Hp.
  destruct (elem_of_at der p ASN1_OID (ext_oid e) rest end_ Hat) as (He1 & Hat2 & _); [rewrite zlen_app, zlen_tlv; lia|lia|lia|]. rewrite zlen_tlv in Hat2.
  assert (zlen (ext_oid e) <= 16) as Ho by (destruct e; [vm_compute; congruence|by destruct Hok]). unfold parse_extension. rewrite (oid_spec der Hsz _ _ _ He1) by lia. cbn [mbind option_bind]. rewrite zlen_tlv.
  set (q := p + (hdr (ext_oid e) + zlen (ext_oid e))) in *. destruct (flag_skip der q (ext_critical e) (ext_value e) end_ Hsz Hd ltac:(lia) Hat2) as (t & Et & Es); [fold rest; lia|]. rewrite Et. cbn [mbind option_bind].
  rewrite Es. cbn [mbind option_bind negb Z.eqb]. set (q2 := q + zlen (flag_enc (ext_critical e))) in *. apply at_app in Hat2 as [_ Hat3]. fold q2 in Hat3.
  assert (elem der q2 ASN1_OCTETSTRING (ext_value e) end_) as He2 by (apply elem_last; try done; rewrite ?zlen_tlv; lia). destruct (elem_header _ _ _ _ _ He2) as (_ & _ & _ & Hb & _ & E1 & E2).
  rewrite (proj2 (Z.ltb_lt q2 end_)), E1 by lia. cbn [mbind option_bind andb]. rewrite Z.eqb_refl, (u32_small (q2 + 1)), E2 by lia. cbn [mbind option_bind]. rewrite (proj2 (Z.ltb_ge _ 0)) by lia.
  destruct e as [cr names|oid cr v]; cbn [ext_oid ext_value add_ext] in *.
  - rewrite bool_decide_true by done. apply parse_san_spec; try done; try lia. exact (elem_content _ _ _ _ _ He2).
  - destruct Hok as [_ Hne]. by rewrite bool_decide_false by congruence.
Qed.

Lemma extensions_loop_spec der es : forall fuel p end_ cert, zlen der < 2 ^ 31 -> Forall ext_ok es -> at_ der p (es ≫= ext_enc) -> p + zlen (es ≫= ext_enc) = end_ -> end_ <= zlen der ->
  zlen (es ≫= ext_enc) < 65536 -> zlen (es ≫= ext_enc) <= Z.of_nat fuel -> extensions_loop der fuel p end_ cert = Some (foldl add_ext cert es).
Proof.
  induction es as [|e es IH]; intros fuel p end_ cert Hsz Hok Hat He Hd Hl Hf; cbn [mbind list_bind] in *.
  { change (zlen (@nil Z)) with 0 in *. destruct fuel; cbn [extensions_loop]; [done|]. by rewrite (proj2 (Z.ltb_ge p end_)) by lia. }
  apply Forall_cons_1 in Hok as [Hok1 Hok]. fold (mbind ext_enc es) in *. pose proof (zlen_nonneg (es ≫= ext_enc)) as Hs. rewrite zlen_app in *. unfold ext_enc at 1 in Hat. unfold ext_enc at 1 in He. unfold ext_enc at 1 in Hl.
  unfold ext_enc at 1 in Hf. set (c := ext_content e) in *. rewrite zlen_tlv in *. pose proof (hdr_range c) as Hh. pose proof (zlen_nonneg c) as Hcn. pose proof (proj1 Hat) as Hp.
  destruct fuel as [|fuel]; [lia|]. cbn [extensions_loop foldl]. rewrite (proj2 (Z.ltb_lt p end_)) by lia. cbn [negb].
  destruct (elem_of_at der p ASN1_SEQUENCE c (es ≫= ext_enc) end_ Hat) as (He1 & Hat2 & _); [rewrite zlen_app, zlen_tlv; lia|lia|lia|].
  rewrite (enter_spec _ _ _ _ _ He1). cbn [mbind option_bind]. rewrite u32_small by lia.
  rewrite (parse_extension_spec der e) by (try done; try (fold c; lia); exact (elem_content _ _ _ _ _ He1)). cbn [mbind option_bind]. rewrite zlen_tlv, Z.add_assoc in Hat2. apply IH; done || lia.
Qed.

(** ** Certificates *)

Record certificate := mkCertificate {
  version : option (list Z);       (* content of [0] *)
  serial : list Z; algorithm : list Z;
  issuer : list (list attr); subject : list (list attr);
  nb : date; na : date;
  public_key : key;
  extensions : option (list ext);
  signature : list Z               (* what follows the part that is signed *)
}.

Definition name_tlv (n : list (list attr)) : list Z := tlv ASN1_SEQUENCE (name_enc n).
Definition key_enc (k : key) : list Z := tlv ASN1_SEQUENCE (key_content k).
Definition exts_enc (o : option (list ext)) : list Z := match o with Some es => tlv ASN1_CONT3 (tlv ASN1_SEQUENCE (es ≫= ext_enc)) | None => [] end.
Definition version_enc (o : option (list Z)) : list Z := match o with Some v => tlv ASN1_CONT0 v | None => [] end.

Definition tbs_enc (c : certificate) : list Z :=
  version_enc (version c) ++ tlv ASN1_INTEGER (serial c) ++ tlv ASN1_SEQUENCE (algorithm c) ++ name_tlv (issuer c) ++
  tlv ASN1_SEQUENCE (date_enc (nb c) ++ date_enc (na c)) ++ name_tlv (subject c) ++ key_enc (public_key c) ++ exts_enc (extensions c).
Definition certificate_enc (c : certificate) : list Z := tlv ASN1_SEQUENCE (tlv ASN1_SEQUENCE (tbs_enc c) ++ signature c).

Definition certificate_ok (c : certificate) : Prop :=
  date_ok (nb c) /\ date_ok (na c) /\ key_ok (public_key c) /\ from_option (Forall ext_ok) True (extensions c) /\ zlen (certificate_enc c) < 65536.

(** What is kept of it. *)
Definition cn_field (n : list (list attr)) : list Z := from_option (cn_array (replicate 128 0)) (replicate 128 0) (first_cn (concat n)).
Definition fields (c : certificate) : X509Cert :=
  (foldl add_ext
    (key_fields (public_key c) (mkCert (cn_field (subject c)) (cn_field (issuer c)) (date_text (nb c)) (date_text (na c)) 0 0 0 (replicate 4 (replicate 128 0)) 0))
    (default [] (extensions c))) <| valid := 1 |>.

Lemma skip_if_spec der tag c p dlen : elem der p tag c dlen -> skip_if der tag p dlen = Some (p + zlen (tlv tag c), true).
Proof.
  intros He. destruct (elem_header _ _ _ _ _ He) as (Hp & Hh & Hc & Hb & Hm & E1 & _). unfold skip_if. rewrite (proj2 (Z.ltb_lt p dlen)), E1 by lia. cbn [mbind option_bind].
  rewrite Z.eqb_refl, (skip_spec _ _ _ _ _ He). done.
Qed.

Lemma skip_if_other der tag tag' c p dlen : elem der p tag' c dlen -> tag' <> tag -> skip_if der tag p dlen = Some (p, true).
Proof.
  intros He Ht. destruct (elem_header _ _ _ _ _ He) as (Hp & Hh & Hc & Hb & Hm & E1 & _). unfold skip_if. rewrite (proj2 (Z.ltb_lt p dlen)), E1 by lia. cbn [mbind option_bind].
  by rewrite (proj2 (Z.eqb_neq tag' tag)) by done.
Qed.

Lemma version_spec der o c rest p dlen : zlen der < 2 ^ 31 -> at_ der p (version_enc o ++ tlv ASN1_INTEGER c ++ rest) -> p + zlen (version_enc o ++ tlv ASN1_INTEGER c ++ rest) <= dlen -> dlen <= zlen der ->
  zlen (version_enc o ++ tlv ASN1_INTEGER c ++ rest) < 65536 -> skip_if der ASN1_CONT0 p dlen = Some (p + zlen (version_enc o), true).
Proof.
  intros Hsz Hat He Hd Hl. destruct o as [v|]; cbn [version_enc app] in *.
  - rewrite zlen_app, zlen_tlv in Hl. pose proof (zlen_nonneg (tlv ASN1_INTEGER c ++ rest)). pose proof (hdr_range v).
    destruct (elem_of_at der p ASN1_CONT0 v _ dlen Hat He) as (He1 & _ & _); [lia|lia|]. exact (skip_if_spec _ _ _ _ _ He1).
  - rewrite zlen_app, zlen_tlv in Hl. pose proof (zlen_nonneg rest). pose proof (hdr_range c).
    destruct (elem_of_at der p ASN1_INTEGER c _ dlen Hat He) as (He1 & _ & _); [lia|lia|]. rewrite (skip_if_other der ASN1_CONT0 _ _ _ _ He1) by discriminate. by rewrite Z.add_0_r.
Qed.

Lemma parse_extensions_spec der o p dlen cert : zlen der < 2 ^ 31 -> from_option (Forall ext_ok) True o -> at_ der p (exts_enc o) -> p + zlen (exts_enc o) = dlen -> dlen <= zlen der -> zlen (exts_enc o) < 65536 ->
  parse_extensions der p dlen cert = Some (foldl add_ext cert (default [] o)).
Proof.
  intros Hsz Hok Hat He Hd Hl. unfold parse_extensions. destruct o as [es|]; cbn [exts_enc from_option default] in *.
  2:{ change (zlen (@nil Z)) with 0 in He. by rewrite (proj2 (Z.ltb_ge p dlen)) by lia. }
  set (c := es ≫= ext_enc) in *. pose proof (tlv_small _ _ _ Hl) as Hl2. pose proof (tlv_small _ _ _ Hl2) as Hl3.
  assert (elem der p ASN1_CONT3 (tlv ASN1_SEQUENCE c) dlen) as He1 by (apply elem_last; done || lia). destruct (elem_header _ _ _ _ _ He1) as (Hp & Hh & Hc & Hb & Hm & E1 & E2).
  rewrite (proj2 (Z.ltb_lt p dlen)), E1 by lia. cbn [mbind option_bind andb]. rewrite Z.eqb_refl, (u32_small (p + 1)), E2 by lia. cbn [mbind option_bind]. rewrite (proj2 (Z.ltb_ge _ 0)) by lia.
  rewrite zlen_tlv in He. rewrite u32_small by lia. pose proof (elem_content _ _ _ _ _ He1) as Hat2. set (q := p + hdr (tlv ASN1_SEQUENCE c)) in *.
  assert (elem der q ASN1_SEQUENCE c (q + zlen (tlv ASN1_SEQUENCE c))) as He2 by (apply elem_last; done || lia). rewrite (enter_spec _ _ _ _ _ He2). cbn [mbind option_bind].
  pose proof (zlen_tlv ASN1_SEQUENCE c). pose proof (hdr_range c). pose proof (zlen_nonneg c). rewrite u32_small by lia.
  apply (extensions_loop_spec der es); try done; try (fold c; lia). exact (elem_content _ _ _ _ _ He2).
Qed.

Lemma skip_ids_spec der o p dlen : zlen der < 2 ^ 31 -> at_ der p (exts_enc o) -> p + zlen (exts_enc o) = dlen -> dlen <= zlen der -> skip_ids der (Z.to_nat (dlen - p)) p dlen = Some p.
Proof.
  intros Hsz Hat He Hd. destruct (Z.to_nat (dlen - p)) as [|n]; cbn [skip_ids]; [done|]. destruct (Z.ltb_spec p dlen); [|done]. destruct o as [es|]; cbn [exts_enc] in *.
  - unfold tlv in Hat. apply at_cons in Hat as [-> _]. done.
  - change (zlen (@nil Z)) with 0 in He. lia.
Qed.

Lemma parse_tail_spec der k o p dlen cert : zlen der < 2 ^ 31 -> key_ok k -> from_option (Forall ext_ok) True o -> at_ der p (key_enc k ++ exts_enc o) -> p + zlen (key_enc k ++ exts_enc o) = dlen ->
  dlen <= zlen der -> zlen (key_enc k ++ exts_enc o) < 65536 -> parse_tail der p dlen cert = Some (foldl add_ext (key_fields k cert) (default [] o)).
Proof.
  intros Hsz Hk Ho Hat He Hd Hl. unfold key_enc in *. set (c := key_content k) in *. rewrite zlen_app, zlen_tlv in He, Hl. pose proof (zlen_nonneg (exts_enc o)). pose proof (hdr_range c). pose proof (zlen_nonneg c).
  pose proof (proj1 Hat) as Hp. destruct (elem_of_at der p ASN1_SEQUENCE c (exts_enc o) dlen Hat) as (He1 & Hat2 & _); [rewrite zlen_app, zlen_tlv; lia|lia|lia|].
  unfold parse_tail. rewrite (peek_spec _ _ _ _ _ He1). cbn [mbind option_bind]. rewrite Z.eqb_refl, (u32_small (p + hdr c)), (u32_small (p + hdr c + zlen c)) by lia.
  assert (zlen (tlv ASN1_SEQUENCE c) = hdr c + zlen c) as Ec by apply zlen_tlv.
  assert (elem der p ASN1_SEQUENCE c (p + hdr c + zlen c)) as He2 by (split; [exact (proj1 He1)|split; [exact (proj1 (proj2 He1))|lia]]).
  rewrite (parse_spki_spec der k) by (try fold c; done || lia).
  cbn [mbind option_bind]. rewrite (u32_small (hdr c + zlen c)), u32_small by lia. rewrite zlen_tlv in Hat2. rewrite (skip_ids_spec der o) by (done || lia). cbn [mbind option_bind].
  apply parse_extensions_spec; done || lia.
Qed.

(** One element of a sequence and what follows. *)
Lemma seq_step der p tag c rest dlen : zlen der < 2 ^ 31 -> dlen <= zlen der -> at_ der p (tlv tag c ++ rest) -> p + zlen (tlv tag c ++ rest) = dlen -> zlen (tlv tag c ++ rest) < 65536 ->
  elem der p tag c dlen /\ at_ der (p + zlen (tlv tag c)) rest /\ p + zlen (tlv tag c) + zlen rest = dlen /\ zlen rest < 65536.
Proof.
  intros Hsz Hd Hat He Hl. pose proof Hl as Hl2. rewrite zlen_app, zlen_tlv in Hl2. pose proof (hdr_range c). pose proof (zlen_nonneg c). pose proof (zlen_nonneg rest).
  destruct (elem_of_at der p tag c rest dlen Hat) as (A & B & _); [lia|lia|lia|]. split; [done|]. split; [done|]. rewrite zlen_app in He. lia.
Qed.

(** C18: A certificate is understood.  Given the DER encoding of a certificate below 64 KB, with
    anything behind it, x509_parse() returns 1 and the fields of the certificate: the first
    common names, the dates as text, the kind and size of the key and the first four DNS
    names, each cut to 127 bytes; no byte outside the buffer is read. *)
Theorem x509_parse_encoded c rest :
  certificate_ok c -> zlen (certificate_enc c ++ rest) < 2 ^ 31 ->
  x509_parse (certificate_enc c ++ rest) (zlen (certificate_enc c ++ rest)) = Some (fields c, 1).
Proof.
  intros (Hnb & Hna & Hk & Hx & Hl) Hsz. set (der := certificate_enc c ++ rest) in *. assert (zlen (certificate_enc c) <= zlen der) as Hcd by (unfold der; rewrite zlen_app; pose proof (zlen_nonneg rest); lia).
  assert (at_ der 0 (certificate_enc c)) as Hat by (split; [done|]; unfold der; change (Z.to_nat 0) with 0%nat; rewrite drop_0; apply take_app_length). clearbody der.
  unfold certificate_enc in *. set (outer := tlv ASN1_SEQUENCE (tbs_enc c) ++ signature c) in *. pose proof (tlv_small _ _ _ Hl) as Hlo.
  assert (elem der 0 ASN1_SEQUENCE outer (zlen der)) as He0 by (split; [done|]; split; [done|]; split; [lia|done]). destruct (elem_header _ _ _ _ _ He0) as (_ & Hh0 & Hc0 & Hb0 & _ & _).
  unfold x509_parse. rewrite (enter_spec _ _ _ _ _ He0). cbn [mbind option_bind]. rewrite Z.add_0_l, u32_small in * by lia. pose proof (elem_content _ _ _ _ _ He0) as Hat1. rewrite Z.add_0_l in Hat1.
  destruct (seq_step der (hdr outer) ASN1_SEQUENCE (tbs_enc c) (signature c) (hdr outer + zlen outer) Hsz ltac:(lia) Hat1 eq_refl Hlo) as (He1 & _). rewrite (enter_spec _ _ _ _ _ He1). cbn [mbind option_bind].
  destruct (elem_header _ _ _ _ _ He1) as (_ & Hh1 & Hc1 & Hb1 & _ & _). rewrite u32_small by lia. pose proof (elem_content _ _ _ _ _ He1) as Hat2. clear Hat Hat1 He0.
  set (p0 := hdr outer + hdr (tbs_enc c)) in *. set (dlen := p0 + zlen (tbs_enc c)) in *. assert (dlen <= zlen der) as Hd by lia. assert (0 <= p0) as Hp0 by lia. assert (zlen (tbs_enc c) < 65536) as Hlt by lia.
  clear He1 Hb1 Hh1 Hc1 Hh0 Hc0 Hb0. assert (p0 + zlen (tbs_enc c) = dlen) as Edl by done. clearbody p0 dlen. clear outer Hl Hlo Hcd. unfold tbs_enc in *.
  set (t1 := tlv ASN1_SEQUENCE (algorithm c) ++ _) in *. rewrite (version_spec der (version c) (serial c) t1 p0 dlen Hsz Hat2) by (done || lia). cbn [mbind option_bind negb].
  apply at_app in Hat2 as [_ Hat2]. pose proof (zlen_nonneg (version_enc (version c))). rewrite (zlen_app (version_enc (version c))) in *. set (p1 := p0 + zlen (version_enc (version c))) in *.
  destruct (seq_step der p1 _ _ t1 dlen Hsz Hd Hat2 ltac:(lia) ltac:(lia)) as (E1 & A1 & B1 & L1). rewrite (skip_if_spec _ _ _ _ _ E1). cbn [mbind option_bind negb]. clear E1 Hat2. set (p2 := p1 + _) in *. clearbody p2. subst t1.
  set (t2 := name_tlv (issuer c) ++ _) in *. destruct (seq_step der p2 _ _ t2 dlen Hsz Hd A1 B1 L1) as (E2 & A2 & B2 & L2). rewrite (skip_if_spec _ _ _ _ _ E2). cbn [mbind option_bind negb]. clear E2 A1 B1 L1.
  set (p3 := p2 + _) in *. clearbody p3. subst t2. set (t3 := tlv ASN1_SEQUENCE (date_enc (nb c) ++ date_enc (na c)) ++ _) in *.
  destruct (seq_step der p3 _ _ t3 dlen Hsz Hd A2 B2 L2) as (E3 & A3 & B3 & L3). change (issuer_cn zero_cert) with (replicate 128 0). rewrite (parse_name_spec der Hsz _ _ _ E3 Hd). cbn [mbind option_bind].
  clear E3 A2 B2 L2. set (p4 := p3 + _) in *. clearbody p4. subst t3. fold (cn_field (issuer c)). set (t4 := name_tlv (subject c) ++ _) in *. set (dates := date_enc (nb c) ++ date_enc (na c)) in *.
  destruct (seq_step der p4 _ _ t4 dlen Hsz Hd A3 B3 L3) as (E4 & A4 & B4 & L4). rewrite (enter_spec _ _ _ _ _ E4). cbn [mbind option_bind]. destruct (elem_header _ _ _ _ _ E4) as (Hp4 & Hh4 & Hc4 & Hb4 & _ & _).
  rewrite u32_small by lia. pose proof (elem_content _ _ _ _ _ E4) as D. set (q := p4 + hdr dates) in *. unfold dates in D.
  assert (zlen dates = zlen (date_enc (nb c)) + zlen (date_enc (na c))) as Ed by (unfold dates; apply zlen_app).
  destruct (seq_step der q (date_tag (nb c)) (date_content (nb c)) (date_enc (na c)) (q + zlen dates) Hsz ltac:(lia) D eq_refl (proj2 Hc4)) as (F1 & F2 & F3 & _).
  rewrite (parse_time_spec der Hsz _ _ _ Hnb F1) by lia. cbn [mbind option_bind].
  assert (elem der (q + zlen (date_enc (nb c))) (date_tag (na c)) (date_content (na c)) (q + zlen dates)) as F4.
  { apply elem_last; [exact F2|exact F3|lia|]. pose proof (zlen_nonneg (date_enc (nb c))). apply (tlv_small (date_tag (na c))). fold (date_enc (na c)). lia. }
  rewrite (parse_time_spec der Hsz _ _ _ Hna F4) by lia. cbn [mbind option_bind]. clear F1 F2 F3 F4 D A3 B3 L3 E4. rewrite zlen_tlv, Z.add_assoc in A4, B4. fold q in A4, B4.
  set (p5 := q + zlen dates) in *. clearbody p5. subst t4. set (t5 := key_enc (public_key c) ++ _) in *. destruct (seq_step der p5 _ _ t5 dlen Hsz Hd A4 B4 L4) as (E5 & A5 & B5 & L5).
  match goal with |- context [parse_name der p5 dlen ?x] => change x with (replicate 128 0) end. rewrite (parse_name_spec der Hsz _ _ _ E5 Hd). cbn [mbind option_bind]. fold (cn_field (subject c)).
  rewrite (parse_tail_spec der (public_key c) (extensions c)) by done. cbn [mbind option_bind]. done.
Qed.

(** ** Matching *)

(** A pattern names a host: they are equal but for the case, or the pattern is "*." and what
    follows the first dot of the host. *)
Definition plain (p : list Z) : Prop := ~ exists s, p = 42 :: 46 :: s.
Definition names_host (p h : list Z) : Prop :=
  (plain p /\ map lower p = map lower h) \/
  exists s label t, p = 42 :: 46 :: s /\ h = label ++ 46 :: t /\ (46 ∉ label) /\ map lower t = map lower s.

Lemma cget_cons x l : cget (x :: l) 0 = x.
Proof. done. Qed.

Lemma cstr_cons x l : x <> 0 -> cstr (x :: l) = x :: cstr l.
Proof. intros H. cbn. by rewrite (proj2 (Z.eqb_neq x 0)) by done. Qed.

Lemma cstr_nil_head l : cstr l = [] <-> cget l 0 = 0.
Proof. destruct l as [|x l]; [done|]. rewrite cget_cons. cbn. destruct (Z.eqb_spec x 0); [done|]. by split; intros. Qed.

Lemma xstricmp_spec a : forall b, xstricmp a b = 0 <-> map lower (cstr a) = map lower (cstr b).
Proof.
  assert (forall l, [] = map lower (cstr l) <-> cget l 0 = 0) as Hnil.
  { intros l. rewrite <- cstr_nil_head. split; [|by intros ->]. by destruct (cstr l). }
  induction a as [|x a IH]; intros b.
  { cbn [xstricmp]. change (cget [] 0) with 0. change (map lower (cstr [])) with (@nil Z). rewrite Hnil. lia. }
  destruct b as [|y b].
  { cbn [xstricmp]. change (cget [] 0) with 0. change (map lower (cstr [])) with (@nil Z). split; [intros H; symmetry|intros H; symmetry in H]; apply Hnil in H || apply Hnil; lia. }
  cbn [xstricmp]. destruct (Z.eqb_spec x 0) as [->|Hx]; cbn [orb].
  { change (cstr (0 :: a)) with (@nil Z). change (map lower []) with (@nil Z). rewrite Hnil, cget_cons. lia. }
  destruct (Z.eqb_spec y 0) as [->|Hy].
  { rewrite (cstr_cons x) by done. change (cstr (0 :: b)) with (@nil Z). split; [lia|discriminate]. }
  rewrite !cstr_cons by done. cbn [map]. destruct (Z.eqb_spec (lower x) (lower y)) as [E|E]; cbn [negb].
  - rewrite IH, E. split; [by intros ->|]. by intros [= ->].
  - split; [lia|]. by intros [= ? _].
Qed.

(** What is searched is the first dot of the name. *)
Lemma from_dot_found h : cget (from_dot h) 0 = 46 -> exists label t, cstr h = label ++ 46 :: cstr t /\ (46 ∉ label) /\ drop 1 (from_dot h) = t.
Proof.
  induction h as [|x h IH]; [done|]. cbn [from_dot]. destruct (Z.eqb_spec x 0) as [->|Hx]; cbn [orb]; [discriminate|].
  destruct (Z.eqb_spec x 46) as [->|Hd]; intros H.
  - exists [], h. split; [by rewrite cstr_cons|]. by split; [apply not_elem_of_nil|].
  - destruct (IH H) as (label & t & E & Hl & Ht). exists (x :: label), t. rewrite cstr_cons, E by done. split; [done|]. split; [|done]. by rewrite not_elem_of_cons.
Qed.

Lemma from_dot_at label : forall h t, cstr h = label ++ 46 :: t -> 46 ∉ label -> cget (from_dot h) 0 = 46 /\ cstr (drop 1 (from_dot h)) = t.
Proof.
  induction label as [|x label IH]; intros h t E Hl; destruct h as [|y h]; try discriminate; cbn in E; destruct (Z.eqb_spec y 0) as [|Hy]; try discriminate; injection E as Ey E.
  - subst y. split; [done|exact E].
  - subst y. apply not_elem_of_cons in Hl as [Hx Hl]. cbn [from_dot]. rewrite (proj2 (Z.eqb_neq x 0)), (proj2 (Z.eqb_neq x 46)) by congruence. by apply IH.
Qed.

Lemma star_dot p : (cget p 0 =? 42) && (cget p 1 =? 46) = true <-> exists s, p = 42 :: 46 :: s.
Proof.
  rewrite andb_true_iff, !Z.eqb_eq. split; [|by intros [s ->]]. intros [H0 H1]. unfold cget in H0, H1. change (Z.to_nat 0) with 0%nat in H0. change (Z.to_nat 1) with 1%nat in H1. destruct p as [|x [|y p]]; cbn in H0, H1; subst; try discriminate. by exists p.
Qed.

Lemma wildcard_match_spec p h : wildcard_match p h = true <-> names_host (cstr p) (cstr h).
Proof.
  unfold wildcard_match, names_host, plain. destruct ((cget p 0 =? 42) && (cget p 1 =? 46)) eqn:E.
  - apply star_dot in E as [s ->]. change (drop 2 (42 :: 46 :: s)) with s. change (cstr (42 :: 46 :: s)) with (42 :: 46 :: cstr s).
    destruct (Z.eqb_spec (cget (from_dot h) 0) 46) as [Ed|Ed].
    + rewrite Z.eqb_eq, xstricmp_spec. destruct (from_dot_found h Ed) as (label & t & Eh & Hl & ->). split.
      * intros Hm. right. by exists (cstr s), label, (cstr t).
      * intros [[Hp _]|(s' & label' & t' & [= <-] & Eh' & Hl' & Hm)]; [by destruct Hp; eexists|].
        pose proof (from_dot_at label h (cstr t) Eh Hl) as [_ E1]. pose proof (from_dot_at label' h t' Eh' Hl') as [_ E2]. congruence.
    + split; [discriminate|]. intros [[Hp _]|(s' & label' & t' & _ & Eh' & Hl' & _)]; [by destruct Hp; eexists|]. by destruct (from_dot_at label' h t' Eh' Hl').
  - rewrite Z.eqb_eq, xstricmp_spec. assert (~ exists s, cstr p = 42 :: 46 :: s) as Hn.
    { intros [s Es]. apply not_true_iff_false in E. apply E, star_dot. destruct p as [|x [|y p]]; [discriminate| |]; cbn in Es; destruct (x =? 0); try discriminate.
      destruct (y =? 0); [discriminate|]. injection Es as -> -> _. by eexists. }
    split; [by left|]. intros [[_ H]|(s & _ & _ & Hs & _)]; [done|]. by destruct Hn; exists s.
Qed.

(** C19: A certificate is accepted for a host exactly when one of its DNS names, or its common name, is
    the host name without regard to case, or is "*." followed by what follows the first dot of
    the host name.  Names end at their first NUL byte, and the common name counts even when
    there are DNS names. *)
Theorem x509_hostname_accepted cert h :
  x509_check_hostname cert h = 1 <->
  (exists i, 0 <= i < san_count cert /\ names_host (cstr (san cert).[i]) (cstr h)) \/
  (cstr (subject_cn cert) <> [] /\ names_host (cstr (subject_cn cert)) (cstr h)).
Proof.
  unfold x509_check_hostname. destruct (scan _ 0 _) as [i|] eqn:E.
  - destruct (scan_Some _ _ _ _ E) as (Hi & Hf & _). apply wildcard_match_spec in Hf. split; [intros _; left; exists i; split; [lia|done]|done].
  - pose proof (scan_None _ _ _ E) as Hn. split.
    + destruct (Z.eqb_spec (cget (subject_cn cert) 0) 0) as [|H0]; cbn [negb andb]; [discriminate|]. destruct (wildcard_match _ _) eqn:Hw; [|discriminate]. intros _. right. split; [|by apply wildcard_match_spec].
      rewrite cstr_nil_head. exact H0.
    + intros [(i & Hi & Hm)|[H0 Hm]].
      * apply wildcard_match_spec in Hm. rewrite Hn in Hm by lia. discriminate.
      * rewrite cstr_nil_head in H0. apply wildcard_match_spec in Hm. rewrite Hm. by rewrite (proj2 (Z.eqb_neq _ 0)).
Qed.

(** ** A certificate *)

Definition host_name : list Z := lit "www.example.org".
Definition example_cert (san_name : list Z) : certificate :=
  mkCertificate (Some [2; 1; 2]) [1] (tlv ASN1_OID [0x2A; 3])
    [[([0x55; 4; 6], ASN1_PRINTSTR, lit "ID"); (OID_CN, ASN1_UTF8STR, lit "Example CA")]] [[(OID_CN, ASN1_PRINTSTR, lit "example.org")]]
    (UTCTime (lit "240101000000") (lit "Z")) (GeneralizedTime (lit "20491231235959") (lit "Z"))
    (RSA [5; 0] (0 :: replicate 256 0xC3) [1; 0; 1])
    (Some [OtherExt [0x55; 0x1D; 0x0F] true [3; 2; 5; 0xA0]; SubjectAltName false [(0x81, lit "admin@example.org"); (0x82, san_name)]])
    (tlv ASN1_SEQUENCE (tlv ASN1_OID [0x2A; 3]) ++ tlv ASN1_BITSTRING [0; 1; 2; 3]).

Lemma example_ok san_name : zlen (certificate_enc (example_cert san_name)) < 65536 -> certificate_ok (example_cert san_name).
Proof.
  intros H. unfold certificate_ok. split; [reflexivity|]. split; [reflexivity|]. split.
  { split; [discriminate|]. constructor; [unfold byte; lia|]. apply Forall_replicate. unfold byte. lia. }
  split; [|exact H]. cbn [extensions example_cert from_option]. constructor; [|constructor; [exact I|constructor]].
  split; [vm_compute; discriminate|discriminate].
Qed.

Lemma x509_parse_encoded_witness :
  x509_parse (certificate_enc (example_cert host_name) ++ [0; 0]) (zlen (certificate_enc (example_cert host_name) ++ [0; 0])) = Some (fields (example_cert host_name), 1) /\
  (subject_cn (fields (example_cert host_name)), san_count (fields (example_cert host_name)), key_bits (fields (example_cert host_name)), not_after (fields (example_cert host_name))) =
    (put_string (replicate 128 0) (lit "example.org"), 1, 2048, lit "2049-12-31 23:59:59" ++ [0]).
Proof. split; [|vm_compute; reflexivity]. apply x509_parse_encoded; [apply example_ok; vm_compute; reflexivity|vm_compute; reflexivity]. Defined.

Definition is_accepted (c : certificate) (h : list Z) : bool :=
  match x509_parse (certificate_enc c) (zlen (certificate_enc c)) with Some (cert, 1) => x509_check_hostname cert h =? 1 | _ => false end.

(** A name with a NUL byte stands for what precedes it, and the common name counts beside DNS
    names. *)
Lemma x509_nul_name_accepted : is_accepted (example_cert (host_name ++ 0 :: lit ".attacker.net")) host_name = true.
Proof. vm_compute. reflexivity. Qed.
Lemma x509_cn_beside_san : is_accepted (example_cert host_name) (lit "example.org") = true /\ is_accepted (example_cert host_name) (lit "example.com") = false.
Proof. vm_compute. done. Qed.

(** The value of an extension may announce more bytes than the certificate has. *)
Definition short_san : list Z := tlv ASN1_SEQUENCE (tlv ASN1_OID OID_SAN ++ [ASN1_OCTETSTRING; 127; ASN1_SEQUENCE; 125]).
Definition short_cert : list Z :=
  tlv ASN1_SEQUENCE (tlv ASN1_SEQUENCE (tlv ASN1_INTEGER [1] ++ tlv ASN1_SEQUENCE [] ++ name_tlv [] ++ tlv ASN1_SEQUENCE [] ++ name_tlv [] ++ key_enc (EC [] []) ++
    tlv ASN1_CONT3 (tlv ASN1_SEQUENCE short_san))).
Lemma x509_reads_behind_the_end : x509_parse short_cert (zlen short_cert) = None.
Proof. vm_compute. reflexivity. Qed.

End X509.
