(* ===== verification/Keyboard.v ===== *)
(** * keyboard.c: the PS/2 keyboard

    The interrupt handler as a function of the scancode read from the port, on the
    keyboard's variables and the task table; a console switch is an output.  The
    ring of characters is related to the list of the waiting characters by the
    lemmas of [Ring.v].  A task that waits for a key registers itself and blocks
    ([Vfs.v] has the caller); the handler wakes it. *)

From Stdlib Require Import ZArith Lia.
From stdpp Require Import base numbers list tactics.
From S2P Require Import Prelude Ring Sched Task.

Module Kbd.
Import Task.

Definition KEY_BUFFER_SIZE : Z := 64.
Definition KEY_UP : Z := 1.
Definition KEY_DOWN : Z := 2.
Definition KEY_TAB : Z := 3.
Definition KEY_LEFT : Z := 4.
Definition KEY_RIGHT : Z := 5.
Definition KEY_DELETE : Z := 6.
Definition KEY_F1 : Z := 16.

Record Kbd := mkKbd {
  key_buffer : list Z; key_head : Z; key_tail : Z;
  extended : Z; shift_pressed : Z; ctrl_pressed : Z; alt_pressed : Z; capslock_on : Z;
  fg_task_pid : Z; kwaiter : Z }.
#[global] Instance settable_Kbd : Settable Kbd := {| rebuild k :=
  mkKbd (key_buffer k) (key_head k) (key_tail k) (extended k) (shift_pressed k) (ctrl_pressed k)
    (alt_pressed k) (capslock_on k) (fg_task_pid k) (kwaiter k) |}.

Definition scancode_table : list Z :=
  [0; 0; 49; 50; 51; 52; 53; 54; 55; 56; 57; 48; 45; 61; 0; 0; 113; 119; 101; 114;
   116; 121; 117; 105; 111; 112; 91; 93; 0; 0; 97; 115; 100; 102; 103; 104; 106; 107; 108; 59;
   39; 96; 0; 92; 122; 120; 99; 118; 98; 110; 109; 44; 46; 47; 0; 42; 0; 32].
Definition scancode_shift_table : list Z :=
  [0; 0; 33; 64; 35; 36; 37; 94; 38; 42; 40; 41; 95; 43; 0; 0; 81; 87; 69; 82;
   84; 89; 85; 73; 79; 80; 123; 125; 0; 0; 65; 83; 68; 70; 71; 72; 74; 75; 76; 58;
   34; 126; 0; 124; 90; 88; 67; 86; 66; 78; 77; 60; 62; 63; 0; 42; 0; 32].

Definition key_push (c : Z) (k : Kbd) : Kbd :=
  let next := (key_tail k + 1) mod KEY_BUFFER_SIZE in
  if negb (next =? key_head k) then k <| key_buffer := (key_buffer k).[key_tail k <- c] |> <| key_tail := next |> else k.

Definition keyboard_getchar (k : Kbd) : Kbd * Z :=
  if key_head k =? key_tail k then (k, 0)
  else (k <| key_head := (key_head k + 1) mod KEY_BUFFER_SIZE |>, (key_buffer k).[key_head k]).

Definition keyboard_has_char (k : Kbd) : bool := negb (key_head k =? key_tail k).
Definition keyboard_set_waiter (tid : Z) (k : Kbd) : Kbd := k <| kwaiter := tid |>.
Definition keyboard_set_fg_pid (pid : Z) (k : Kbd) : Kbd := k <| fg_task_pid := pid |>.
Definition keyboard_ctrl_pressed (k : Kbd) : Z := ctrl_pressed k.
Definition keyboard_alt_pressed (k : Kbd) : Z := alt_pressed k.
Definition keyboard_capslock_state (k : Kbd) : Z := capslock_on k.

(** [wake = kwaiter; kwaiter = -1; if (wake >= 0) task_unblock(wake);] *)
Definition wake_waiter (k : Kbd) (s : Sys) : Kbd * Sys :=
  let wake := kwaiter k in
  (k <| kwaiter := -1 |>, if 0 <=? wake then task_unblock wake s else s).

(** The key after the 0xE0 prefix. *)
Definition extended_key (sc : Z) (k : Kbd) : Kbd :=
  let k := k <| extended := 0 |> in
  if sc =? 0x48 then key_push KEY_UP k
  else if sc =? 0x50 then key_push KEY_DOWN k
  else if sc =? 0x4B then key_push KEY_LEFT k
  else if sc =? 0x4D then key_push KEY_RIGHT k
  else if sc =? 0x53 then key_push KEY_DELETE k
  else if sc =? 0x9D then k <| ctrl_pressed := 0 |>
  else k.

Definition is_lower (c : Z) : bool := (97 <=? c) && (c <=? 122).
Definition is_upper (c : Z) : bool := (65 <=? c) && (c <=? 90).

(** The table character with Caps Lock applied. *)
Definition caps_char (sc : Z) (k : Kbd) : Z :=
  let c := if truth (shift_pressed k) then scancode_shift_table.[sc] else scancode_table.[sc] in
  if truth c && truth (capslock_on k) then
    if is_lower c then c - 32 else if is_upper c then c + 32 else c
  else c.

Definition ctrl_char (c : Z) (k : Kbd) : Z :=
  if truth c && truth (ctrl_pressed k) then
    if is_lower c then c - 97 + 1 else if is_upper c then c - 65 + 1 else c
  else c.

(** The console number is the output of the Ctrl+Alt+F1..F6 branch. *)
Definition keyboard_handler (sc : Z) (k : Kbd) (s : Sys) : Kbd * Sys * option Z :=
  if sc =? 0xE0 then (k <| extended := 1 |>, s, None)
  else if (sc =? 0xAA) || (sc =? 0xB6) then (k <| shift_pressed := 0 |> <| extended := 0 |>, s, None)
  else if sc =? 0x9D then (k <| ctrl_pressed := 0 |> <| extended := 0 |>, s, None)
  else if sc =? 0xB8 then (k <| alt_pressed := 0 |> <| extended := 0 |>, s, None)
  else if truth (Z.land sc 0x80) then (k <| extended := 0 |>, s, None)
  else if (sc =? 0x2A) || (sc =? 0x36) then (k <| shift_pressed := 1 |>, s, None)
  else if sc =? 0x1D then (k <| ctrl_pressed := 1 |>, s, None)
  else if sc =? 0x38 then (k <| alt_pressed := 1 |>, s, None)
  else if sc =? 0x3A then (k <| capslock_on := Z.lxor (capslock_on k) 1 |>, s, None)
  else if truth (extended k) then (extended_key sc k, s, None)
  else if sc =? 0x0F then let '(k, s) := wake_waiter (key_push KEY_TAB k) s in (k, s, None)
  else if (0x3B <=? sc) && (sc <=? 0x44) then
    if truth (ctrl_pressed k) && truth (alt_pressed k) && (sc - 0x3B <? 6) then (k, s, Some (sc - 0x3B))
    else let '(k, s) := wake_waiter (key_push (KEY_F1 + (sc - 0x3B)) k) s in (k, s, None)
  else if sc =? 0x0E then let '(k, s) := wake_waiter (key_push 8 k) s in (k, s, None)
  else if sc =? 0x1C then let '(k, s) := wake_waiter (key_push 10 k) s in (k, s, None)
  else if sc =? 0x01 then let '(k, s) := wake_waiter (key_push 0x1B k) s in (k, s, None)
  else if sc <? zlen scancode_table then
    let c := caps_char sc k in
    if truth (ctrl_pressed k) && (sc =? 0x2E) then
      if 0 <=? fg_task_pid k
      then (k <| fg_task_pid := -1 |>, task_send_signal (fg_task_pid k) 2 s, None)
      else (k, s, None)
    else
      let c := ctrl_char c k in
      let k := if truth c then key_push c k else k in
      let '(k, s) := wake_waiter k s in (k, s, None)
  else let '(k, s) := wake_waiter k s in (k, s, None).

(** One round of [keyboard_getchar_block]: the character, or 0 after yielding. *)
Definition keyboard_getchar_block (k : Kbd) (s : Sys) : Kbd * Sys * Z :=
  let '(k, c) := keyboard_getchar k in
  if truth c then (k, s, c) else (k, task_yield s, 0).

(** ** The characters waiting in the ring *)

Definition kbd_wf (k : Kbd) : Prop := ring_wf KEY_BUFFER_SIZE (key_buffer k) (key_head k) (key_tail k).
Definition keys (k : Kbd) : list Z := ring_items KEY_BUFFER_SIZE (key_buffer k) (key_head k) (key_tail k).

Lemma key_push_spec c k : kbd_wf k ->
  kbd_wf (key_push c k) /\ keys (key_push c k) = (if zlen (keys k) <? 63 then keys k ++ [c] else keys k).
Proof.
  intros Hk. unfold key_push. destruct (ring_full_iff KEY_BUFFER_SIZE _ _ _ Hk) as [F1 F2].
  pose proof (ring_items_bound KEY_BUFFER_SIZE _ _ _ Hk) as Hb. unfold KEY_BUFFER_SIZE in *. unfold keys in *.
  destruct (Z.eqb_spec ((key_tail k + 1) mod 64) (key_head k)) as [He|Hne]; cbn [negb].
  - split; [exact Hk|]. specialize (F1 He). rewrite (proj2 (Z.ltb_ge _ _)); [done|]. unfold KEY_BUFFER_SIZE. lia.
  - split; [by apply ring_wf_push|].
    rewrite (proj2 (Z.ltb_lt _ _)) by (unfold KEY_BUFFER_SIZE; destruct (Z.eq_dec (zlen (ring_items 64 (key_buffer k) (key_head k) (key_tail k))) 63); [by destruct Hne; apply F2|lia]).
    by apply ring_items_push.
Qed.

Lemma getchar_spec k : kbd_wf k ->
  match keys k with
  | [] => keyboard_getchar k = (k, 0)
  | c :: cs => snd (keyboard_getchar k) = c /\ kbd_wf (fst (keyboard_getchar k)) /\ keys (fst (keyboard_getchar k)) = cs
  end.
Proof.
  intros Hk. unfold keyboard_getchar. destruct (ring_items_nil KEY_BUFFER_SIZE _ _ _ Hk) as [N1 N2]. unfold keys in *.
  destruct (Z.eqb_spec (key_head k) (key_tail k)) as [He|Hne].
  - by rewrite N2.
  - rewrite (ring_items_pop KEY_BUFFER_SIZE (key_buffer k) (key_buffer k)) by done. split_and!; [done| |done].
    unfold kbd_wf. by apply (ring_wf_pop KEY_BUFFER_SIZE (key_buffer k)).
Qed.

(** What a scancode with the key pressed, no modifier and no prefix stands for:
    the character it enters. *)
Definition plain_char (sc : Z) : option Z :=
  if sc =? 0x0F then Some KEY_TAB
  else if (0x3B <=? sc) && (sc <=? 0x44) then Some (KEY_F1 + (sc - 0x3B))
  else if sc =? 0x0E then Some 8 else if sc =? 0x1C then Some 10 else if sc =? 0x01 then Some 0x1B
  else if (0 <=? sc) && (sc <? 58) && negb (scancode_table.[sc] =? 0) then Some scancode_table.[sc]
  else None.

Definition released (k : Kbd) : Prop :=
  extended k = 0 /\ shift_pressed k = 0 /\ ctrl_pressed k = 0 /\ alt_pressed k = 0 /\ capslock_on k = 0.

Definition modifier (sc : Z) : bool :=
  (sc =? 0x2A) || (sc =? 0x36) || (sc =? 0x1D) || (sc =? 0x38) || (sc =? 0x3A).

Lemma handler_plain sc k s : released k -> 0 <= sc < 128 -> modifier sc = false ->
  keyboard_handler sc k s =
    (let '(k, s) := wake_waiter (match plain_char sc with Some c => key_push c k | None => k end) s in (k, s, None)).
Proof.
  intros (He & Hs & Hc & Ha & Hl) Hsc Hm. unfold modifier in Hm. bool_to_prop. unfold keyboard_handler.
  assert (truth (Z.land sc 128) = false) as Hrel.
  { change 128 with (Z.shiftl 1 7). rewrite truth_land_bit by lia. by apply (bits_high 7). }
  rewrite Hrel. repeat (rewrite (proj2 (Z.eqb_neq sc _)) by lia; cbn [orb]; try done).
  rewrite He. change (truth 0) with false. cbv iota. unfold plain_char.
  destruct (Z.eqb_spec sc 0x0F) as [->|]; [done|].
  destruct ((0x3B <=? sc) && (sc <=? 0x44)) eqn:EF; [rewrite Hc; done|].
  destruct (sc =? 0x0E); [done|]. destruct (sc =? 0x1C); [done|]. destruct (Z.eqb_spec sc 1); [done|].
  change (zlen scancode_table) with 58. rewrite (proj2 (Z.leb_le 0 sc)) by lia. cbn [andb].
  destruct (sc <? 58); [|done]. rewrite Hc. cbn [andb truth negb Z.eqb].
  unfold ctrl_char, caps_char. rewrite Hs, Hc, Hl. change (truth 0) with false. rewrite !andb_false_r.
  unfold truth. by destruct (scancode_table.[sc] =? 0).
Qed.

End Kbd.

Import Task Kbd.

(** ** The theorems *)

Definition handle (ks : Kbd * Sys) (sc : Z) : Kbd * Sys := fst (keyboard_handler sc (fst ks) (snd ks)).

Lemma released_plain c k : released k -> released (key_push c k).
Proof. unfold key_push. by destruct (negb _). Qed.

Lemma handle_plain k s sc : kbd_wf k -> released k -> 0 <= sc < 128 -> modifier sc = false ->
  let k' := fst (handle (k, s) sc) in
  kbd_wf k' /\ released k' /\ kwaiter k' = -1 /\
  keys k' = (match plain_char sc with Some c => if zlen (keys k) <? 63 then keys k ++ [c] else keys k | None => keys k end) /\
  snd (handle (k, s) sc) = (if 0 <=? kwaiter k then task_unblock (kwaiter k) s else s).
Proof.
  intros Hk Hr Hsc Hm. unfold handle. cbn [fst snd]. rewrite handler_plain by done.
  destruct (plain_char sc) as [c|]; unfold wake_waiter; cbn [fst snd].
  - destruct (key_push_spec c k Hk) as [Hw Hks]. split_and!; [exact Hw|exact (released_plain c k Hr)|done|exact Hks|].
    assert (kwaiter (key_push c k) = kwaiter k) as -> by (unfold key_push; by destruct (negb _)). done.
  - by split_and!.
Qed.

Lemma handle_keys k s sc rest : kbd_wf k -> released k -> 0 <= sc < 128 -> modifier sc = false ->
  zlen (keys k) + zlen (omap plain_char (sc :: rest)) <= 63 ->
  keys (fst (handle (k, s) sc)) ++ omap plain_char rest = keys k ++ omap plain_char (sc :: rest).
Proof.
  intros Hk Hr Hsc Hm Hlen. destruct (handle_plain k s sc Hk Hr Hsc Hm) as (_ & _ & _ & -> & _).
  unfold zlen in *. cbn [omap list_omap] in *. destruct (plain_char sc) as [c|]; [|done].
  cbn [length] in Hlen. rewrite (proj2 (Z.ltb_lt _ _)) by lia. by rewrite <- app_assoc.
Qed.

Lemma types_loop scs : forall k s,
  kbd_wf k -> released k -> Forall (fun sc => 0 <= sc < 128 /\ modifier sc = false) scs ->
  zlen (keys k) + zlen (omap plain_char scs) <= 63 ->
  let '(k', s') := foldl handle (k, s) scs in
  kbd_wf k' /\ keys k' = keys k ++ omap plain_char scs /\ (scs <> [] -> kwaiter k' = -1) /\
  s' = match scs with [] => s | _ => if 0 <=? kwaiter k then task_unblock (kwaiter k) s else s end.
Proof.
  induction scs as [|sc scs IH]; intros k s Hk Hr Hscs Hlen; cbn [foldl].
  { split_and!; [done|by rewrite app_nil_r|done|done]. }
  apply list.Forall_cons in Hscs as [[Hsc Hm] Hscs].
  pose proof (handle_keys k s sc scs Hk Hr Hsc Hm Hlen) as E.
  destruct (handle_plain k s sc Hk Hr Hsc Hm) as (Hk1 & Hr1 & Hw1 & _ & Hs1).
  destruct (handle (k, s) sc) as [k1 s1]. cbn [fst snd] in *. rewrite <- E, <- Hs1.
  assert (zlen (keys k1) + zlen (omap plain_char scs) <= 63) as Hlen1.
  { apply (f_equal length) in E. rewrite !length_app in E. unfold zlen in *. lia. }
  specialize (IH k1 s1 Hk1 Hr1 Hscs Hlen1). destruct (foldl handle (k1, s1) scs) as [k' s'] eqn:Ef.
  destruct IH as (Hk' & Hks' & Hw' & Hs'). rewrite Hw1 in Hs'. split_and!; [exact Hk'|exact Hks'| |by destruct scs].
  intros _. destruct scs as [|sc' scs]; [by injection Ef as <- <-|by apply Hw'].
Qed.

(** Keys typed without modifiers are read back as their characters, in the order
    typed, as long as at most 63 are waiting; keys without a character are skipped;
    and whoever waits for the keyboard is woken by the first of them. *)
Theorem keyboard_types_in_order scs k s :
  kbd_wf k -> released k -> Forall (fun sc => 0 <= sc < 128 /\ modifier sc = false) scs ->
  zlen (keys k) + zlen (omap plain_char scs) <= 63 -> scs <> [] ->
  let '(k', s') := foldl handle (k, s) scs in
  kbd_wf k' /\ keys k' = keys k ++ omap plain_char scs /\ kwaiter k' = -1 /\
  s' = if 0 <=? kwaiter k then task_unblock (kwaiter k) s else s.
Proof.
  intros Hk Hr Hscs Hlen Hne. pose proof (types_loop scs k s Hk Hr Hscs Hlen) as Hl.
  destruct (foldl handle (k, s) scs) as [k' s']. destruct Hl as (Hk' & Hks & Hw & Hs).
  split_and!; [exact Hk'|exact Hks|exact (Hw Hne)|by destruct scs].
Qed.

(** An arrow key or Delete enters its character but does not wake the task that is
    blocked waiting for one: the task table is unchanged and the waiter stays
    registered, although there is something to read. *)
Theorem keyboard_arrow_leaves_waiter_asleep sc c k s :
  (sc, c) ∈ [(0x48, KEY_UP); (0x50, KEY_DOWN); (0x4B, KEY_LEFT); (0x4D, KEY_RIGHT); (0x53, KEY_DELETE)] ->
  kbd_wf k -> keys k = [] ->
  let '(k', s') := foldl handle (k, s) [0xE0; sc] in
  keys k' = [c] /\ keyboard_has_char k' = true /\ kwaiter k' = kwaiter k /\ s' = s.
Proof.
  intros Hsc Hk Hnil. unfold handle. cbn [foldl fst snd].
  assert (fst (keyboard_handler sc (k <| extended := 1 |>) s) = (key_push c (k <| extended := 1 |> <| extended := 0 |>), s)) as E.
  { repeat (apply elem_of_cons in Hsc as [Hsc|Hsc]; [injection Hsc as -> ->; reflexivity|]). by apply not_elem_of_nil in Hsc. }
  change (keyboard_handler 224 k s) with (k <| extended := 1 |>, s, @None Z). cbn [fst snd]. rewrite E. cbn [fst snd].
  set (k0 := k <| extended := 1 |> <| extended := 0 |>).
  assert (kbd_wf k0) as Hk0 by exact Hk. assert (keys k0 = []) as Hnil0 by exact Hnil.
  destruct (key_push_spec c k0 Hk0) as [Hw Hks]. rewrite Hnil0 in Hks. change (zlen [] <? 63) with true in Hks.
  split_and!; [exact Hks| | |done].
  - unfold keyboard_has_char. apply negb_true_iff, Z.eqb_neq. intros He.
    pose proof (proj2 (ring_items_nil KEY_BUFFER_SIZE _ _ _ Hw) He) as Hn. unfold keys in Hks. by rewrite Hks in Hn.
  - unfold key_push. by destruct (negb _).
Qed.

(** Pressing the right Ctrl key leaves the prefix flag set, so the next key, here [c],
    is taken for an extended one and lost. *)
Lemma right_ctrl_swallows_next_key k s :
  kwaiter (fst (foldl handle (k <| extended := 0 |>, s) [0xE0; 0x1D; 0x2E])) = kwaiter k /\
  keys (fst (foldl handle (k <| extended := 0 |>, s) [0xE0; 0x1D; 0x2E])) = keys k.
Proof. done. Qed.

(** *** Examples *)

Definition idle_kbd : Kbd := mkKbd (replicate 64 0) 0 0 0 0 0 0 0 (-1) 3.

Lemma idle_kbd_wf : kbd_wf idle_kbd.
Proof. split_and!; by vm_compute. Qed.

(** [h], [i], Enter while task 3 waits. *)
Lemma keyboard_types_in_order_witness : keys (fst (foldl handle (idle_kbd, demo_sys) [0x23; 0x17; 0x1C])) = [104; 105; 10].
Proof.
  pose proof (keyboard_types_in_order [0x23; 0x17; 0x1C] idle_kbd demo_sys idle_kbd_wf) as Ht.
  destruct (foldl handle _ _) as [k' s']. destruct Ht as (_ & E & _); [by vm_compute| |by vm_compute|done|exact E].
  repeat (constructor; [split; [lia|done]|]). constructor.
Defined.

Lemma keyboard_arrow_leaves_waiter_asleep_witness : kwaiter (fst (foldl handle (idle_kbd, demo_sys) [0xE0; 0x48])) = 3.
Proof.
  pose proof (keyboard_arrow_leaves_waiter_asleep 0x48 KEY_UP idle_kbd demo_sys) as Ht.
  destruct (foldl handle _ _) as [k' s']. destruct Ht as (_ & _ & E & _); [by left|exact idle_kbd_wf|done|exact E].
Defined.
