(* ===== verification/Dmesg.v ===== *)
(** * serial.c: the kernel log

    The ring of the last bytes logged, as [dmesg_log] fills it and [dmesg_read] copies
    it out.  The ring refines the list of all bytes ever logged: it keeps the last
    [DMESG_BUF_SIZE - 1] of them.  The COM1 port and the debugger of serial.c are not
    modelled. *)

From Stdlib Require Import ZArith Lia.
From stdpp Require Import base numbers list tactics.
From S2P Require Import Prelude Ring.

Module Dmesg.

Definition DMESG_BUF_SIZE : Z := 4096.

Record Log := mkLog { dmesg_buf : list Z; dmesg_head : Z; dmesg_len : Z }.

(** The loop body of [dmesg_log]. *)
Definition log_byte (l : Log) (c : Z) : Log :=
  mkLog ((dmesg_buf l).[dmesg_head l <- c]) ((dmesg_head l + 1) mod DMESG_BUF_SIZE)
    (if dmesg_len l <? DMESG_BUF_SIZE - 1 then dmesg_len l + 1 else dmesg_len l).

Definition dmesg_log (s : list Z) (l : Log) : Log := foldl log_byte l (cstr s).

(** The bytes stored, without the terminator, and the count. *)
Definition dmesg_read (maxlen : Z) (l : Log) : list Z * Z :=
  if maxlen <=? 0 then ([], 0)
  else
    let to_copy := if maxlen <=? dmesg_len l then maxlen - 1 else dmesg_len l in
    let start := (dmesg_head l - dmesg_len l + DMESG_BUF_SIZE * 2) mod DMESG_BUF_SIZE in
    ((fun i => (dmesg_buf l).[(start + i) mod DMESG_BUF_SIZE]) <$> seqZ 0 to_copy, to_copy).

(** ** Refinement *)

Definition last_n {A} (n : Z) (h : list A) : list A := drop (Z.to_nat (zlen h - n)) h.

(** [l] holds the end of the history [h]. *)
Definition holds (l : Log) (h : list Z) : Prop :=
  zlen (dmesg_buf l) = DMESG_BUF_SIZE /\ 0 <= dmesg_head l < DMESG_BUF_SIZE /\
  dmesg_len l = Z.min (zlen h) (DMESG_BUF_SIZE - 1) /\
  forall j, 1 <= j <= dmesg_len l -> (dmesg_buf l).[(dmesg_head l - j) mod DMESG_BUF_SIZE] = h.[zlen h - j].

Lemma log_byte_holds l h c : holds l h -> holds (log_byte l c) (h ++ [c]).
Proof.
  intros (Hb & Hh & Hl & Hj). pose proof (zlen_nonneg h) as H0.
  assert (zlen (h ++ [c]) = zlen h + 1) as Hz by (unfold zlen; rewrite length_app; simpl; lia).
  unfold holds, log_byte. cbn [dmesg_buf dmesg_head dmesg_len]. rewrite Hz.
  assert (0 <= (dmesg_head l + 1) mod DMESG_BUF_SIZE < DMESG_BUF_SIZE) as Hm by (apply Z.mod_pos_bound; done).
  split_and!; [by rewrite zlen_aset|lia|lia|..].
  - destruct (Z.ltb_spec (dmesg_len l) (DMESG_BUF_SIZE - 1)); unfold DMESG_BUF_SIZE in *; lia.
  - intros j Hj'. rewrite Zminus_mod_idemp_l. replace (dmesg_head l + 1 - j) with (dmesg_head l - (j - 1)) by lia.
    assert (1 <= j <= Z.min (zlen h + 1) (DMESG_BUF_SIZE - 1)) as Hjr.
    { revert Hj'. destruct (Z.ltb_spec (dmesg_len l) (DMESG_BUF_SIZE - 1)); intros Hj'; split; unfold DMESG_BUF_SIZE in *; lia. }
    destruct (decide (j = 1)) as [->|Hj1].
    + rewrite Z.sub_0_r, Z.mod_small, aget_aset_eq by lia. rewrite Z.add_simpl_r. unfold aget, zlen.
      by rewrite Nat2Z.id, lookup_total_app_r, Nat.sub_diag by lia.
    + rewrite aget_aset_ne; [|lia|apply Z.mod_pos_bound; done|].
      * rewrite Hj by lia. unfold aget, zlen in *. rewrite lookup_total_app_l by lia. f_equal. lia.
      * unfold DMESG_BUF_SIZE in *. intros E. destruct (decide (dmesg_head l < j - 1)).
        -- rewrite <- (Z.mod_add _ 1), Z.mod_small in E by lia. lia.
        -- rewrite Z.mod_small in E by lia. lia.
Qed.

Lemma log_holds s : forall l h, holds l h -> holds (dmesg_log s l) (h ++ cstr s).
Proof.
  unfold dmesg_log. generalize (cstr s). clear s. intros s. induction s as [|c s IH]; intros l h Hl; simpl.
  - by rewrite app_nil_r.
  - rewrite cons_middle, app_assoc. apply IH. by apply log_byte_holds.
Qed.

Lemma read_holds l h n : holds l h -> 0 < n ->
  let kept := last_n (DMESG_BUF_SIZE - 1) h in
  dmesg_read n l = (take (Z.to_nat (n - 1)) kept, Z.min (n - 1) (zlen kept)).
Proof.
  intros (Hb & Hh & Hl & Hj) Hn. pose proof (zlen_nonneg h) as H0. cbv zeta.
  assert (zlen (last_n (DMESG_BUF_SIZE - 1) h) = dmesg_len l) as Hk.
  { unfold last_n, zlen in *. rewrite length_drop. unfold DMESG_BUF_SIZE in *. lia. }
  unfold dmesg_read. rewrite (proj2 (Z.leb_gt _ _)) by lia.
  assert ((if n <=? dmesg_len l then n - 1 else dmesg_len l) = Z.min (n - 1) (dmesg_len l)) as ->
    by (destruct (Z.leb_spec n (dmesg_len l)); lia).
  rewrite Hk. f_equal. set (m := Z.min (n - 1) (dmesg_len l)).
  apply aget_ext.
  - unfold zlen in *. rewrite length_fmap, length_seqZ, length_take. lia.
  - intros i Hi. assert (0 <= i < m) as Him by (unfold zlen in Hi; rewrite length_fmap, length_seqZ in Hi; lia).
    rewrite aget_take_lt by lia. unfold aget at 1. rewrite (list_lookup_total_fmap _ _ _) by (rewrite length_seqZ; lia).
    rewrite lookup_total_seqZ_lt by lia. rewrite Zplus_mod_idemp_l.
    replace (dmesg_head l - dmesg_len l + DMESG_BUF_SIZE * 2 + (0 + Z.of_nat (Z.to_nat i)))
      with (dmesg_head l - (dmesg_len l - i) + 2 * DMESG_BUF_SIZE) by lia.
    rewrite Z.mod_add by done. rewrite Hj by lia. unfold last_n, aget. rewrite lookup_total_drop. f_equal.
    unfold zlen, DMESG_BUF_SIZE in *. lia.
Qed.

End Dmesg.

Import Dmesg.

(** Whatever was logged, [dmesg_read] returns what fits of the last
    [DMESG_BUF_SIZE - 1] bytes logged, oldest of them first: with a smaller buffer the
    newest messages are cut off. *)
Theorem dmesg_keeps_the_end logs n :
  0 < n ->
  let l := foldl (fun l s => dmesg_log s l) (mkLog (replicate (Z.to_nat DMESG_BUF_SIZE) 0) 0 0) logs in
  let kept := last_n (DMESG_BUF_SIZE - 1) (mjoin (cstr <$> logs)) in
  dmesg_read n l = (take (Z.to_nat (n - 1)) kept, Z.min (n - 1) (zlen kept)).
Proof.
  intros Hn. apply read_holds; [|exact Hn].
  enough (forall l h, holds l h -> holds (foldl (fun l s => dmesg_log s l) l logs) (h ++ mjoin (cstr <$> logs))) as Hall.
  { apply (Hall _ []). split_and!; [|done..|].
    - cbn [dmesg_buf]. unfold zlen. rewrite length_replicate. done.
    - cbn [dmesg_len]. intros j Hj. lia. }
  induction logs as [|s logs IH]; intros l h Hl; simpl; [by rewrite app_nil_r|].
  rewrite app_assoc. apply IH. by apply log_holds.
Qed.

(** Two messages, a buffer of four bytes: the second is cut off. *)
Lemma dmesg_keeps_the_end_witness :
  dmesg_read 4 (foldl (fun l s => dmesg_log s l) (mkLog (replicate (Z.to_nat DMESG_BUF_SIZE) 0) 0 0) [[97; 98; 0]; [99; 100; 0]])
  = ([97; 98; 99], 3).
Proof. rewrite dmesg_keeps_the_end by lia. reflexivity. Defined.
