(* ===== verification/Net.v ===== *)
(** * The interface of net.c to its callers

    [NetStack] is what vfs.c and websocket.c use of the network: whether a card is
    there, the TCP functions, the state of a connection and the resolver. *)

From Stdlib Require Import ZArith List.
Open Scope Z_scope.

Class NetStack (N : Type) := {
  net_present : N -> bool;
  net_tcp_connect : list Z -> Z -> N -> N * Z;
  net_tcp_close : Z -> N -> N;
  net_tcp_send : Z -> list Z -> N -> N * Z;
  (** the bytes stored and the result *)
  net_tcp_recv : Z -> Z -> N -> N * list Z * Z;
  net_tcp_state : Z -> N -> Z;
  dns_resolve : list Z -> N -> N * option (list Z);
}.
