(* ===== verification/Tls.v ===== *)
(** * tls13.c: the TLS 1.3 client

    The handshake, the record layer and the four sessions, above the network of Net.v and
    the cryptography of crypto.c.  A session is a [TlsConn]; [State] holds the variables of
    the file, the generator of crypto.c and the network.  Outcomes are those of Buffer.v.
    What arrays hold before they are written is in the parameters [stack], [junk] and [aes0];
    a polling loop is followed for [rounds] rounds.  The theorems give the key schedule, the
    stream of bytes between two sessions, and what the client does not check. *)

From Stdlib Require Import ZArith Lia String.
From stdpp Require Import base numbers list tactics.
From S2P Require Import Prelude Sha256 Aes X25519 X509 Net Buffer.

Module Tls.
Import Buffer.

Definition TLS_MAX_CONN : Z := 4.
Definition TLS_REC_BUF : Z := 16384.
Definition TLS_APP_BUF : Z := 16384.
Definition TLS_HANDSHAKE : Z := 0x16.
Definition TLS_APP_DATA : Z := 0x17.
Definition TLS_ALERT : Z := 0x15.
Definition TLS_CHANGE_CIPHER : Z := 0x14.
Definition HS_SERVER_HELLO : Z := 2.
Definition HS_CERTIFICATE : Z := 11.
Definition HS_FINISHED : Z := 20.
Definition CH_BUF : Z := 640.

Record TlsConn := mkConn {
  used : Z; tcp_id : Z;
  c_priv : list Z; c_pub : list Z; s_pub : list Z; ecdhe : list Z;
  hs_s_key : list Z; hs_s_iv : list Z; hs_c_key : list Z; hs_c_iv : list Z; c_hs_traffic : list Z;
  ap_s_key : list Z; ap_s_iv : list Z; ap_c_key : list Z; ap_c_iv : list Z;
  hs_s_seq : Z; hs_c_seq : Z; ap_s_seq : Z; ap_c_seq : Z;
  transcript : Sha.Sha256; state : Z;
  ap_buf : list Z; ap_head : Z; ap_tail : Z
}.
#[global] Instance conn_settable : Settable TlsConn :=
  {| rebuild c := mkConn (used c) (tcp_id c) (c_priv c) (c_pub c) (s_pub c) (ecdhe c) (hs_s_key c) (hs_s_iv c) (hs_c_key c) (hs_c_iv c) (c_hs_traffic c)
       (ap_s_key c) (ap_s_iv c) (ap_c_key c) (ap_c_iv c) (hs_s_seq c) (hs_c_seq c) (ap_s_seq c) (ap_c_seq c) (transcript c) (state c) (ap_buf c) (ap_head c) (ap_tail c) |}.

Definition bytes0 (n : Z) : list Z := replicate (Z.to_nat n) 0.

(** [tmemset(c, 0, sizeof(TlsConn))] *)
Definition zero_conn : TlsConn :=
  mkConn 0 0 (bytes0 32) (bytes0 32) (bytes0 32) (bytes0 32) (bytes0 16) (bytes0 12) (bytes0 16) (bytes0 12) (bytes0 32) (bytes0 16) (bytes0 12) (bytes0 16) (bytes0 12)
    0 0 0 0 {| Sha.state := bytes0 8; Sha.count := 0; Sha.buf := bytes0 64 |} 0 (bytes0 TLS_APP_BUF) 0 0.
#[global] Instance conn_inhabited : Inhabited TlsConn := populate zero_conn.

Definition be16 (n : Z) : list Z := [u8 (Z.shiftr n 8); u8 n].
Definition be24 (n : Z) : list Z := [u8 (Z.shiftr n 16); u8 (Z.shiftr n 8); u8 n].
Definition be16_at (d : list Z) (p : Z) : res Z := a ← u8_at d p; b ← u8_at d (p + 1); Ret (Z.lor (Z.shiftl a 8) b).
Definition be24_at (d : list Z) (p : Z) : res Z :=
  a ← u8_at d p; b ← u8_at d (p + 1); c ← u8_at d (p + 2); Ret (Z.lor (Z.lor (Z.shiftl a 16) (Z.shiftl b 8)) c).

(** [addr] is the address of [prng_st]; the new state, whose low byte is returned. *)
Definition prng_byte (ticks addr prng_st : Z) : Z :=
  let s := if truth prng_st then prng_st else Z.lxor (Z.lxor ticks addr) 0xdeadcafe1234 in
  let s := Z.lxor s (u64 (Z.shiftl s 13)) in
  let s := Z.lxor s (Z.shiftr s 7) in
  Z.lxor s (u64 (Z.shiftl s 17)).

(** The 32 bytes of [client_random] and the new state. *)
Definition client_random (ticks addr prng_st : Z) : list Z * Z :=
  iter (fun _ '(r, st) => let st := prng_byte ticks addr st in (r ++ [u8 st], st)) 0 32 ([], prng_st).

Definition make_nonce (iv : list Z) (seq : Z) : list Z :=
  iter (fun i nonce => nonce.[4 + i <- Z.lxor nonce.[4 + i] (u8 (Z.shiftr seq (56 - 8 * i)))]) 0 8 (take 12 iv).

(** [for (i = n - 1; i >= 0; i--) if (buf[i]) ...] *)
Fixpoint last_nonzero (buf : list Z) (n : nat) : option Z :=
  match n with
  | O => None
  | S k => if truth buf.[Z.of_nat k] then Some (Z.of_nat k) else last_nonzero buf k
  end.

(** ** The ClientHello *)

Definition sni (host : option (list Z)) : list Z :=
  match host with
  | None => []
  | Some host =>
      let hlen := zlen (cstr host) in
      [0x00; 0x00] ++ be16 (u16 (5 + hlen)) ++ be16 (u16 (3 + hlen)) ++ [0x00] ++ be16 hlen ++ cstr host
  end.
Definition hello_extensions (pub : list Z) (host : option (list Z)) : list Z :=
  sni host ++
  [0x00; 0x2b; 0x00; 0x03; 0x02; 0x03; 0x04] ++
  [0x00; 0x33; 0x00; 38; 0x00; 36; 0x00; 0x1d; 0x00; 32] ++ pub ++
  [0x00; 0x0a; 0x00; 4; 0x00; 2; 0x00; 0x1d] ++
  [0x00; 0x0d; 0x00; 4; 0x00; 2; 0x08; 0x04].
Definition client_hello (random pub : list Z) (host : option (list Z)) : list Z :=
  let exts := hello_extensions pub host in
  let body := [0x03; 0x03] ++ random ++ [0; 0; 2; 0x13; 0x01; 1; 0] ++ be16 (zlen exts) ++ exts in
  [1] ++ be24 (zlen body) ++ body.

(** ** The ServerHello *)

(** [d] is the buffer of the record; a round takes four bytes at least. *)
Fixpoint hello_ext_loop (fuel : nat) (d : list Z) (p ext_end : Z) (c : TlsConn) : res (TlsConn * Z) :=
  if negb (p + 4 <=? ext_end) then Ret (c, -1)
  else
    match fuel with
    | O => Running
    | S fuel =>
        etype ← be16_at d p;
        elen ← be16_at d (p + 2);
        let p := p + 4 in
        if etype =? 0x0033 then
          if elen <? 36 then Ret (c, -1)
          else
            grp ← be16_at d p;
            if negb (grp =? 0x001d) then Ret (c, -1)
            else k ← get d (p + 4) 32; Ret (c <| s_pub := k |>, 0)
        else hello_ext_loop fuel d (p + elen) ext_end c
    end.

Definition parse_server_hello (d : list Z) (len : Z) (c : TlsConn) : res (TlsConn * Z) :=
  if len <? 4 then Ret (c, -1)
  else
    t ← u8_at d 0;
    if negb (t =? HS_SERVER_HELLO) then Ret (c, -1)
    else
      let p := 4 + 2 + 32 in
      if len <=? p then Ret (c, -1)
      else
        sid_len ← u8_at d p;
        let p := p + 1 + (sid_len + 2 + 1) in
        if len <? p + 2 then Ret (c, -1)
        else
          n ← be16_at d p;
          hello_ext_loop (Z.to_nat n) d (p + 2) (p + 2 + n) c.

(** ** Rings *)

Fixpoint ring_take (n : nat) (head : Z) (ring : list Z) : list Z * Z :=
  match n with
  | O => ([], head)
  | S n => let '(l, h) := ring_take n ((head + 1) mod TLS_APP_BUF) ring in (ring.[head] :: l, h)
  end.
Fixpoint ring_put (l : list Z) (ring : list Z) (tail : Z) : list Z * Z :=
  match l with
  | [] => (ring, tail)
  | x :: l => ring_put l ring.[tail <- x] ((tail + 1) mod TLS_APP_BUF)
  end.

Section tls.
Context {N : Type} `{!NetStack N} (ticks : N -> Z) (rounds : nat).
Context (stack : Sha.Sha256) (junk : list Z) (aes0 : Aes.Aes128) (addr addr_st : Z).

Record State := mkState {
  tls_conns : list TlsConn; tls_last_cert : X509.X509Cert; tls_last_cert_valid : Z;
  prng_st : Z; prng_state : Z; rec_buf : list Z; saved_hs_secret : list Z; net : N
}.
#[global] Instance state_settable : Settable State :=
  {| rebuild s := mkState (tls_conns s) (tls_last_cert s) (tls_last_cert_valid s) (prng_st s) (prng_state s) (rec_buf s) (saved_hs_secret s) (net s) |}.

(** ** Records *)

(** A byte at least per round. *)
Fixpoint send_chunks (fuel : nat) (id : Z) (data : list Z) (w : N) : N :=
  match fuel with
  | O => w
  | S fuel =>
      let len := zlen data in
      if 0 <? len then
        let chunk := if 1400 <? len then 1400 else len in
        let '(w, _) := net_tcp_send id (take (Z.to_nat chunk) data) w in
        send_chunks fuel id (drop (Z.to_nat chunk) data) w
      else w
  end.
Definition tcp_send_all (id : Z) (data : list Z) (w : N) : N := send_chunks (length data) id data w.

Fixpoint read_loop (fuel : nat) (id n done start_tick : Z) (buf : list Z) (w : N) : res (N * list Z * Z) :=
  if negb (done <? n) then Ret (w, buf, 0)
  else
    match fuel with
    | O => Running
    | S fuel =>
        if 5000 <? u32 (u32 (ticks w) - start_tick) then Ret (w, buf, -1)
        else
          let '(w, b, r) := net_tcp_recv id (if n - done <? 1460 then n - done else 1460) w in
          if 0 <? r then read_loop fuel id n (done + r) (u32 (ticks w)) (put buf done b) w
          else read_loop fuel id n done start_tick buf w
    end.
Definition tcp_read_exact (id : Z) (buf : list Z) (n : Z) (w : N) : res (N * list Z * Z) := read_loop rounds id n 0 (u32 (ticks w)) buf w.

(** The type and the length of the record that is now at the front of [rec_buf]. *)
Definition read_record (c : TlsConn) (s : State) : res (State * option (Z * Z)) :=
  '(w, hdr, rc) ← tcp_read_exact (tcp_id c) (bytes0 5) 5 (net s);
  let s := s <| net := w |> in
  if negb (rc =? 0) then Ret (s, None)
  else
    let rlen := Z.lor (Z.shiftl hdr.[3] 8) hdr.[4] in
    if TLS_REC_BUF <? rlen then Ret (s, None)
    else
      '(w, b, rc) ← tcp_read_exact (tcp_id c) (rec_buf s) rlen (net s);
      let s := s <| net := w |> <| rec_buf := b |> in
      if negb (rc =? 0) then Ret (s, None) else Ret (s, Some (hdr.[0], rlen)).

(** The five bytes before a record, which are the associated data too. *)
Definition record_header (len : Z) : list Z := [0x17; 0x03; 0x03; u8 (Z.shiftr len 8); u8 len].

(** The network, the sequence number and the result.  The sum [len + 1] wraps in 32 bits; what
    passes the check and does not fit [enc_buf] is written behind it. *)
Definition send_encrypted (id ct : Z) (data : list Z) (len : Z) (key iv : list Z) (seq : Z) (w : N) : res (N * Z * Z) :=
  if TLS_REC_BUF <? u32 (len + 1) then Ret (w, seq, -1)
  else if TLS_REC_BUF + 32 <? len + 1 then UB
  else
    let enc_buf := take (Z.to_nat len) data ++ [u8 ct] in
    let ptlen := len + 1 in
    let clen := ptlen + 16 in
    let aad := record_header clen in
    let nonce := make_nonce iv seq in
    let '(enc_buf, tag) := Gcm.aes128gcm_encrypt (Aes.aes128_setkey aes0 key) nonce aad 5 enc_buf ptlen in
    let w := tcp_send_all id (record_header clen) w in
    let w := tcp_send_all id enc_buf w in
    Ret (tcp_send_all id tag w, u64 (seq + 1), 0).

(** The buffer, the length, the sequence number, and the content type or -1. *)
Definition decrypt_record (buf : list Z) (len : Z) (key iv : list Z) (seq : Z) (aad : list Z) : list Z * Z * Z * Z :=
  if len <? 16 then (buf, len, seq, -1)
  else
    let ptlen := len - 16 in
    let tag := take 16 (drop (Z.to_nat ptlen) buf) in
    let nonce := make_nonce iv seq in
    let seq := u64 (seq + 1) in
    let '(rc, buf) := Gcm.aes128gcm_decrypt (Aes.aes128_setkey aes0 key) nonce aad 5 buf ptlen tag in
    if negb (rc =? 0) then (buf, len, seq, -1)
    else
      match last_nonzero buf (Z.to_nat ptlen) with
      | Some i => (buf, i, seq, buf.[i])
      | None => (buf, len, seq, -1)
      end.

(** ** Keys *)

Definition derive_secret (secret label hash : list Z) : res (list Z) := of_option (Hmac.tls13_derive_secret stack junk secret label hash junk).
Definition expand (secret label out : list Z) : res (list Z) := of_option (Hmac.hkdf_expand_label stack junk secret label [] 0 out (zlen out)).

Definition derive_hs_keys (th1 : list Z) (c : TlsConn) (s : State) : res (TlsConn * State) :=
  let zero32 := bytes0 32 in
  let empty_hash := Sha.sha256 stack [] 0 in
  let early := Hmac.hkdf_extract stack (Some zero32) 32 zero32 32 in
  derived1 ← derive_secret early (lit "derived") empty_hash;
  let hs_sec := Hmac.hkdf_extract stack (Some derived1) 32 (ecdhe c) 32 in
  let s := s <| saved_hs_secret := hs_sec |> in
  s_traffic ← derive_secret hs_sec (lit "s hs traffic") th1;
  c_traffic ← derive_secret hs_sec (lit "c hs traffic") th1;
  k1 ← expand s_traffic (lit "key") (hs_s_key c);
  i1 ← expand s_traffic (lit "iv") (hs_s_iv c);
  k2 ← expand c_traffic (lit "key") (hs_c_key c);
  i2 ← expand c_traffic (lit "iv") (hs_c_iv c);
  Ret (c <| c_hs_traffic := c_traffic |> <| hs_s_key := k1 |> <| hs_s_iv := i1 |> <| hs_c_key := k2 |> <| hs_c_iv := i2 |> <| hs_s_seq := 0 |> <| hs_c_seq := 0 |>, s).

Definition derive_app_keys (th2 : list Z) (c : TlsConn) (s : State) : res TlsConn :=
  let zero32 := bytes0 32 in
  let empty_hash := Sha.sha256 stack [] 0 in
  derived2 ← derive_secret (saved_hs_secret s) (lit "derived") empty_hash;
  let master := Hmac.hkdf_extract stack (Some derived2) 32 zero32 32 in
  s_traffic ← derive_secret master (lit "s ap traffic") th2;
  c_traffic ← derive_secret master (lit "c ap traffic") th2;
  k1 ← expand s_traffic (lit "key") (ap_s_key c);
  i1 ← expand s_traffic (lit "iv") (ap_s_iv c);
  k2 ← expand c_traffic (lit "key") (ap_c_key c);
  i2 ← expand c_traffic (lit "iv") (ap_c_iv c);
  Ret (c <| ap_s_key := k1 |> <| ap_s_iv := i1 |> <| ap_c_key := k2 |> <| ap_c_iv := i2 |> <| ap_s_seq := 0 |> <| ap_c_seq := 0 |>).

(** The hash of the messages so far: [sha256_final] on a copy. *)
Definition transcript_hash (c : TlsConn) : list Z := snd (Sha.sha256_final (transcript c)).
Definition absorb (m : list Z) (len : Z) (c : TlsConn) : TlsConn := c <| transcript := Sha.sha256_update (transcript c) m len |>.

(** ** The handshake *)

Definition send_client_hello (host : option (list Z)) (c : TlsConn) (s : State) : res (TlsConn * State) :=
  let '(random, st) := client_random (ticks (net s)) addr_st (prng_st s) in
  let ch := client_hello random (c_pub c) host in
  if CH_BUF <? zlen ch then UB
  else
    let w := tcp_send_all (tcp_id c) [0x16; 0x03; 0x01; u8 (Z.shiftr (zlen ch) 8); u8 (zlen ch)] (net s) in
    Ret (absorb ch (zlen ch) c, s <| prng_st := st |> <| net := tcp_send_all (tcp_id c) ch w |>).

(** [spare] more records of the change cipher type are passed over. *)
Fixpoint hello_loop (spare : nat) (c : TlsConn) (s : State) : res (State * option (Z * Z)) :=
  '(s, r) ← read_record c s;
  match r with
  | None => Ret (s, None)
  | Some (rtype, rlen) =>
      if rtype =? TLS_CHANGE_CIPHER then match spare with O => Ret (s, None) | S spare => hello_loop spare c s end
      else if rtype =? TLS_ALERT then Ret (s, None)
      else Ret (s, Some (rtype, rlen))
  end.

(** The first certificate of a Certificate message whose content is from [cp] to [cp_end]. *)
Definition leaf_certificate (rdata : list Z) (cp cp_end : Z) (s : State) : res State :=
  let cp := if cp <? cp_end then cp + 1 else cp in
  if cp + 3 <=? cp_end then
    let cp := cp + 3 in
    if cp + 3 <=? cp_end then
      cder_len ← be24_at rdata cp;
      let cp := cp + 3 in
      if cp + cder_len <=? cp_end then
        '(cert, v) ← of_option (X509.x509_parse (drop (Z.to_nat cp) rdata) cder_len);
        Ret (s <| tls_last_cert := cert |> <| tls_last_cert_valid := v |>)
      else Ret s
    else Ret s
  else Ret s.

(** The messages of a record; the flag tells that there is one of type HS_FINISHED. *)
Fixpoint hs_scan (fuel : nat) (rdata : list Z) (hp dlen : Z) (got_fin : bool) (s : State) : res (State * bool) :=
  if negb (hp + 4 <=? dlen) then Ret (s, got_fin)
  else
    match fuel with
    | O => Running
    | S fuel =>
        hs_type ← u8_at rdata hp;
        hs_len ← be24_at rdata (hp + 1);
        let got_fin := if hs_type =? HS_FINISHED then true else got_fin in
        s ← (if (hs_type =? HS_CERTIFICATE) && (4 <? hs_len) then leaf_certificate rdata (hp + 4) (hp + 4 + hs_len) s else Ret s);
        hs_scan fuel rdata (hp + (4 + hs_len)) dlen got_fin s
    end.

(** False for [goto fail]. *)
Fixpoint hs_loop (passes : nat) (c : TlsConn) (s : State) : res (State * TlsConn * bool) :=
  match passes with
  | O => Ret (s, c, false)
  | S passes =>
      '(s, r) ← read_record c s;
      match r with
      | None => Ret (s, c, false)
      | Some (rtype, rlen) =>
          if rtype =? TLS_ALERT then Ret (s, c, false)
          else if negb (rtype =? TLS_APP_DATA) then hs_loop passes c s
          else
            let '(buf, dlen, seq, ict) := decrypt_record (rec_buf s) rlen (hs_s_key c) (hs_s_iv c) (hs_s_seq c) (record_header rlen) in
            let s := s <| rec_buf := buf |> in
            let c := c <| hs_s_seq := seq |> in
            if ict =? TLS_HANDSHAKE then
              let c := absorb buf dlen c in
              '(s, got_fin) ← hs_scan (Z.to_nat dlen) buf 0 dlen false s;
              if (got_fin : bool) then Ret (s, c, true) else hs_loop passes c s
            else hs_loop passes c s
      end
  end.

Definition send_finished (c : TlsConn) (s : State) : res (TlsConn * State) :=
  fin_key ← expand (c_hs_traffic c) (lit "finished") junk;
  let verify := Hmac.hmac_sha256 stack fin_key 32 (transcript_hash c) 32 in
  let fin_msg := [HS_FINISHED; 0; 0; 32] ++ verify in
  let c := absorb fin_msg 36 c in
  '(w, seq, _) ← send_encrypted (tcp_id c) TLS_HANDSHAKE fin_msg 36 (hs_c_key c) (hs_c_iv c) (hs_c_seq c) (net s);
  Ret (c <| hs_c_seq := seq |>, s <| net := w |>).

(** From the ClientHello on. *)
Definition handshake (host : option (list Z)) (c : TlsConn) (s : State) : res (State * TlsConn * bool) :=
  '(c, s) ← send_client_hello host c s;
  '(s, r) ← hello_loop 5 c s;
  match r with
  | None => Ret (s, c, false)
  | Some (rtype, rlen) =>
      if negb (rtype =? TLS_HANDSHAKE) then Ret (s, c, false)
      else
        let c := absorb (rec_buf s) rlen c in
        '(c, rc) ← parse_server_hello (rec_buf s) rlen c;
        if negb (rc =? 0) then Ret (s, c, false)
        else
          let c := c <| ecdhe := X.x25519_shared (c_priv c) (s_pub c) |> in
          '(c, s) ← derive_hs_keys (transcript_hash c) c s;
          '(s, c, got_fin) ← hs_loop 30 c s;
          if negb got_fin then Ret (s, c, false)
          else
            c ← derive_app_keys (transcript_hash c) c s;
            '(c, s) ← send_finished c s;
            Ret (s, c <| state := 1 |>, true)
  end.

Definition tls13_connect (id : Z) (host : option (list Z)) (s : State) : res (State * Z) :=
  match scan (fun i => used (tls_conns s).[i] =? 0) 0 (Z.to_nat TLS_MAX_CONN) with
  | None => Ret (s, -1)
  | Some i =>
      let c := zero_conn <| used := 1 |> <| tcp_id := id |> in
      let c := c <| transcript := Sha.sha256_init (transcript c) |> in
      let '(priv, st) := X.x25519_generate_private (ticks (net s)) addr (prng_state s) in
      let s := s <| prng_state := st |> in
      let c := c <| c_priv := priv |> <| c_pub := X.x25519_public priv |> in
      '(s, c, ok) ← handshake host c s;
      Ret (if ok : bool then (s <| tls_conns := (tls_conns s).[i <- c] |>, 0) else (s <| tls_conns := (tls_conns s).[i <- zero_conn] |>, -1))
  end.

(** ** Sessions *)

Definition find_conn (id : Z) (s : State) : option Z :=
  scan (fun i => let c := (tls_conns s).[i] in truth (used c) && (tcp_id c =? id) && (state c =? 1)) 0 (Z.to_nat TLS_MAX_CONN).

Definition set_conn (i : Z) (c : TlsConn) (s : State) : State := s <| tls_conns := (tls_conns s).[i <- c] |>.

Definition tls13_send (id : Z) (data : list Z) (len : Z) (s : State) : res (State * Z) :=
  match find_conn id s with
  | None => Ret (s, -1)
  | Some i =>
      let c := (tls_conns s).[i] in
      '(w, seq, rc) ← send_encrypted (tcp_id c) TLS_APP_DATA data len (ap_c_key c) (ap_c_iv c) (ap_c_seq c) (net s);
      Ret (set_conn i (c <| ap_c_seq := seq |>) s <| net := w |>, rc)
  end.

(** The bytes stored in the buffer of the caller and the result. *)
Fixpoint recv_loop (passes : nat) (i maxlen : Z) (s : State) : res (State * list Z * Z) :=
  match passes with
  | O => Ret (s, [], 0)
  | S passes =>
      '(s, r) ← read_record (tls_conns s).[i] s;
      match r with
      | None => Ret (s, [], 0)
      | Some (rtype, rlen) =>
          if rtype =? TLS_ALERT then Ret (s, [], 0)
          else if negb (rtype =? TLS_APP_DATA) then recv_loop passes i maxlen s
          else
            let c := (tls_conns s).[i] in
            let '(buf, dlen, seq, ict) := decrypt_record (rec_buf s) rlen (ap_s_key c) (ap_s_iv c) (ap_s_seq c) (record_header rlen) in
            let c := c <| ap_s_seq := seq |> in
            let s := set_conn i c s <| rec_buf := buf |> in
            if ict =? TLS_ALERT then Ret (s, [], 0)
            else if ict =? TLS_APP_DATA then
              let n := if dlen <? maxlen then dlen else maxlen in
              let '(ring, tail) := ring_put (drop (Z.to_nat n) (take (Z.to_nat dlen) buf)) (ap_buf c) (ap_tail c) in
              Ret (set_conn i (c <| ap_buf := ring |> <| ap_tail := tail |>) s, take (Z.to_nat n) buf, n)
            else recv_loop passes i maxlen s
      end
  end.

Definition tls13_recv (id maxlen : Z) (s : State) : res (State * list Z * Z) :=
  match find_conn id s with
  | None => Ret (s, [], -1)
  | Some i =>
      let c := (tls_conns s).[i] in
      if negb (ap_head c =? ap_tail c) then
        let avail := (ap_tail c - ap_head c + TLS_APP_BUF) mod TLS_APP_BUF in
        let n := if avail <? maxlen then avail else maxlen in
        let '(l, head) := ring_take (Z.to_nat n) (ap_head c) (ap_buf c) in
        Ret (set_conn i (c <| ap_head := head |>) s, l, n)
      else recv_loop 10 i maxlen s
  end.

Definition tls13_close (id : Z) (s : State) : res State :=
  match scan (fun i => let c := (tls_conns s).[i] in truth (used c) && (tcp_id c =? id)) 0 (Z.to_nat TLS_MAX_CONN) with
  | None => Ret s
  | Some i =>
      let c := (tls_conns s).[i] in
      s ← (if state c =? 1 then '(w, _, _) ← send_encrypted (tcp_id c) TLS_ALERT [1; 0] 2 (ap_c_key c) (ap_c_iv c) (ap_c_seq c) (net s); Ret (s <| net := w |>) else Ret s);
      Ret (set_conn i zero_conn s)
  end.

Definition tls13_is_open (id : Z) (s : State) : Z := match find_conn id s with Some _ => 1 | None => 0 end.

Definition tls13_get_last_cert (s : State) : option X509.X509Cert := if truth (tls_last_cert_valid s) then Some (tls_last_cert s) else None.

Definition tls13_check_hostname (hostname : list Z) (s : State) : Z :=
  if truth (tls_last_cert_valid s) then X509.x509_check_hostname (tls_last_cert s) hostname else -1.

End tls.

(** ** The network *)

(** What the theorems use of a connection: what is received are pieces of a stream of
    bytes, at least a byte at a time while there are any, and what is sent is appended to
    another stream. *)
Class TcpStream (N : Type) `{!NetStack N} := {
  pending : Z -> N -> list Z;
  sent : Z -> N -> list Z;
  recv_some id m w w' b r : net_tcp_recv id m w = (w', b, r) -> 0 < m -> pending id w <> [] -> r = zlen b /\ 0 < r <= m /\ pending id w = b ++ pending id w';
  send_all id data w w' r : net_tcp_send id data w = (w', r) -> sent id w' = sent id w ++ data /\ pending id w' = pending id w
}.

Lemma zlen_nil_inv {A} (l : list A) : zlen l = 0 -> l = [].
Proof. destruct l; [done|]. unfold zlen. cbn [length]. lia. Qed.

Lemma be16_join n : 0 <= n < 65536 -> Z.lor (Z.shiftl (u8 (Z.shiftr n 8)) 8) (u8 n) = n.
Proof.
  intros H. rewrite Z.lor_comm, lor_shiftl by (apply u8_range || lia). unfold u8. rewrite Z.shiftr_div_pow2 by lia. change (2 ^ 8) with 256.
  assert (0 <= n / 256 < 256) by (split; [apply Z.div_pos; lia|apply Z.div_lt_upper_bound; lia]). rewrite (Z.mod_small (n / 256)) by lia. pose proof (Z.div_mod n 256). lia.
Qed.

(** The front of a buffer that was overwritten. *)
Lemma take_put buf b : zlen b <= zlen buf -> take (length b) (put buf 0 b) = b.
Proof. intros H. unfold put. change (Z.to_nat 0) with 0%nat. rewrite take_0. cbn [app]. apply take_app_length. Qed.

Section stream.
Context {N : Type} `{!NetStack N} `{!TcpStream N} (ticks : N -> Z) (rounds : nat).

Lemma read_loop_spec id n rest x : forall fuel done start buf w,
  pending id w = x ++ rest -> zlen x = n - done -> 0 <= done -> n <= zlen buf -> start = u32 (ticks w) -> n - done <= Z.of_nat fuel ->
  exists w', read_loop ticks fuel id n done start buf w = Ret (w', put buf done x, 0) /\ pending id w' = rest.
Proof.
  intros fuel. revert x. induction fuel as [|fuel IH]; intros x done start buf w Hp Hx H0 Hb Hs Hf; cbn [read_loop].
  { pose proof (zlen_nonneg x). assert (x = []) as -> by (apply zlen_nil_inv; lia). rewrite (proj2 (Z.ltb_ge done n)) by lia. cbn [negb]. rewrite put_nil. by exists w. }
  destruct (Z.ltb_spec done n) as [Hlt|Hge]; cbn [negb].
  2:{ pose proof (zlen_nonneg x). assert (x = []) as -> by (apply zlen_nil_inv; lia). rewrite put_nil. by exists w. }
  subst start. rewrite Z.sub_diag. change (5000 <? u32 0) with false. cbn [negb]. set (m := if n - done <? 1460 then n - done else 1460).
  assert (0 < m <= n - done) as Hm by (unfold m; destruct (Z.ltb_spec (n - done) 1460); lia).
  destruct (net_tcp_recv id m w) as [[w1 b] r] eqn:E. destruct (recv_some id m w w1 b r E) as (-> & Hr & Hpend); [lia|intros E0; rewrite Hp in E0; apply app_eq_nil in E0 as [-> _]; change (zlen []) with 0 in Hx; lia|].
  rewrite (proj2 (Z.ltb_lt 0 (zlen b))) by lia. rewrite Hp in Hpend.
  assert (x = b ++ drop (length b) x) as Ex.
  { rewrite <- (take_drop (length b) x) at 1. f_equal. assert (length b <= length x)%nat by (unfold zlen in *; lia).
    apply (f_equal (take (length b))) in Hpend. rewrite take_app_le, take_app_length in Hpend by lia. done. }
  set (y := drop (length b) x) in *. rewrite Ex in Hpend. rewrite <- app_assoc in Hpend. apply app_inv_head in Hpend.
  assert (zlen x = zlen b + zlen y) as Hxy by (rewrite Ex; apply X509.zlen_app). pose proof (zlen_nonneg y).
  destruct (IH y (done + zlen b) (u32 (ticks w1)) (put buf done b) w1) as (w' & E' & Hw'); try done; try lia.
  { rewrite zlen_put; lia. }
  exists w'. split; [|done]. rewrite E', put_put by lia. by rewrite <- Ex.
Qed.

Lemma read_exact_spec id n rest x buf w : pending id w = x ++ rest -> zlen x = n -> n <= zlen buf -> n <= Z.of_nat rounds ->
  exists w', tcp_read_exact ticks rounds id buf n w = Ret (w', put buf 0 x, 0) /\ pending id w' = rest.
Proof. intros. apply (read_loop_spec id n rest x); done || lia. Qed.

(** A record on the wire. *)
Definition record (t : Z) (v1 v2 : Z) (body : list Z) : list Z := [t; v1; v2] ++ be16 (zlen body) ++ body.

Lemma read_record_spec c (s : State) t v1 v2 body rest :
  pending (tcp_id c) (net s) = record t v1 v2 body ++ rest -> zlen body <= TLS_REC_BUF -> zlen (rec_buf s) = TLS_REC_BUF -> TLS_REC_BUF <= Z.of_nat rounds ->
  exists w', read_record ticks rounds c s = Ret (s <| net := w' |> <| rec_buf := put (rec_buf s) 0 body |>, Some (t, zlen body)) /\ pending (tcp_id c) w' = rest.
Proof.
  unfold TLS_REC_BUF. intros Hp Hb Hrec Hr. unfold read_record. pose proof (zlen_nonneg body). unfold record in Hp. rewrite <- !app_assoc in Hp.
  destruct (read_exact_spec (tcp_id c) 5 (body ++ rest) ([t; v1; v2] ++ be16 (zlen body)) (bytes0 5) (net s)) as (w1 & E1 & Hp1); [by rewrite Hp, <- !app_assoc|done|reflexivity|lia|].
  rewrite E1. cbn [mbind res_bind negb Z.eqb]. change (put (bytes0 5) 0 ([t; v1; v2] ++ be16 (zlen body))) with [t; v1; v2; u8 (Z.shiftr (zlen body) 8); u8 (zlen body)].
  change ([t; v1; v2; u8 (Z.shiftr (zlen body) 8); u8 (zlen body)].[3]) with (u8 (Z.shiftr (zlen body) 8)). change ([t; v1; v2; u8 (Z.shiftr (zlen body) 8); u8 (zlen body)].[4]) with (u8 (zlen body)).
  change ([t; v1; v2; u8 (Z.shiftr (zlen body) 8); u8 (zlen body)].[0]) with t. rewrite be16_join by lia. unfold TLS_REC_BUF. rewrite (proj2 (Z.ltb_ge 16384 (zlen body))) by lia.
  destruct (read_exact_spec (tcp_id c) (zlen body) rest body (rec_buf s) w1) as (w2 & E2 & Hp2); [done|done|lia|lia|].
  change (rec_buf (s <| net := w1 |>)) with (rec_buf s). change (net (s <| net := w1 |>)) with w1. rewrite E2. cbn [mbind res_bind negb Z.eqb]. exists w2. done.
Qed.

Lemma send_chunks_spec id : forall fuel data w, (length data <= fuel)%nat ->
  sent id (send_chunks fuel id data w) = sent id w ++ data /\ pending id (send_chunks fuel id data w) = pending id w.
Proof.
  induction fuel as [|fuel IH]; intros data w Hf; cbn [send_chunks].
  { destruct data; [by rewrite app_nil_r|cbn in Hf; lia]. }
  destruct (Z.ltb_spec 0 (zlen data)) as [Hd|Hd].
  2:{ assert (data = []) as -> by (apply zlen_nil_inv; pose proof (zlen_nonneg data); lia). by rewrite app_nil_r. }
  set (n := if 1400 <? zlen data then 1400 else zlen data). assert (0 < n <= zlen data) as Hn by (unfold n; destruct (Z.ltb_spec 1400 (zlen data)); lia).
  destruct (net_tcp_send id _ w) as [w1 r] eqn:E. destruct (send_all _ _ _ _ _ E) as [H1 H2].
  destruct (IH (drop (Z.to_nat n) data) w1) as [H3 H4]; [unfold zlen in *; rewrite length_drop; lia|]. by rewrite H3, H4, H1, H2, <- app_assoc, take_drop.
Qed.

Lemma send_all_spec id data w : sent id (tcp_send_all id data w) = sent id w ++ data /\ pending id (tcp_send_all id data w) = pending id w.
Proof. by apply send_chunks_spec. Qed.


(** ** Encrypted records *)

Context (aes0 : Aes.Aes128).

(** The body of the record with [data], of content type [ct]. *)
Definition seal (key iv : list Z) (seq ct : Z) (data : list Z) : list Z :=
  Gcm.gcm_ctr (Aes.aes128_setkey aes0 key) (make_nonce iv seq) (data ++ [ct]) (zlen data + 1) 1 ++ Gcm.nonce_tag (Aes.aes128_setkey aes0 key) (make_nonce iv seq).

Lemma length_gcm_ctr aes iv buf len : 0 <= len <= zlen buf -> len <= 2 ^ 32 - 16 -> length (Gcm.gcm_ctr aes iv buf len 1) = length buf.
Proof. intros H1 H2. exact (proj1 (Gcm.gcm_ctr_spec aes iv buf len 1 H1 H2)). Qed.

Lemma zlen_seal key iv seq ct data : zlen data < 2 ^ 31 -> zlen (seal key iv seq ct data) = zlen data + 17.
Proof.
  intros H. pose proof (zlen_nonneg data). unfold seal. rewrite X509.zlen_app. unfold zlen at 1. rewrite length_gcm_ctr by (rewrite ?X509.zlen_app; change (zlen [ct]) with 1; lia).
  fold (zlen (data ++ [ct])). rewrite X509.zlen_app. unfold zlen at 3. rewrite Gcm.length_nonce_tag. change (zlen [ct]) with 1. lia.
Qed.

(** Counter mode on the front of a buffer. *)
Lemma gcm_ctr_app aes iv l r n : zlen l = n -> n <= 2 ^ 32 - 16 -> Gcm.gcm_ctr aes iv (l ++ r) n 1 = Gcm.gcm_ctr aes iv l n 1 ++ r.
Proof.
  intros Hn H. pose proof (zlen_nonneg l). pose proof (zlen_nonneg r). destruct (Gcm.gcm_ctr_spec aes iv (l ++ r) n 1) as [L1 B1]; [rewrite X509.zlen_app; lia|done|].
  destruct (Gcm.gcm_ctr_spec aes iv l n 1) as [L2 B2]; [lia|done|]. apply aget_ext; [unfold zlen in *; rewrite L1, !length_app, L2; done|].
  intros i Hi. assert (0 <= i < zlen (l ++ r)) as Hi2 by (unfold zlen in *; lia). rewrite B1 by done. rewrite X509.zlen_app in Hi2. case_decide as Hlt.
  - unfold aget at 1 2. rewrite !lookup_total_app_l by (rewrite ?L2; unfold zlen in *; lia). change (Gcm.gcm_ctr aes iv l n 1 !!! Z.to_nat i) with ((Gcm.gcm_ctr aes iv l n 1).[i]). rewrite B2 by lia.
    by rewrite decide_True by done.
  - unfold aget. rewrite !lookup_total_app_r by (rewrite ?L2; unfold zlen in *; lia). by rewrite L2.
Qed.

Lemma send_encrypted_returns id ct data len key iv seq (w : N) : 0 <= len < TLS_REC_BUF -> exists w' seq', send_encrypted aes0 id ct data len key iv seq w = Ret (w', seq', 0).
Proof.
  unfold TLS_REC_BUF. intros Hl. unfold send_encrypted, TLS_REC_BUF. rewrite u32_small, (proj2 (Z.ltb_ge 16384 _)), (proj2 (Z.ltb_ge (16384 + 32) _)) by lia. cbv zeta.
  destruct (Gcm.aes128gcm_encrypt _ _ _ _ _ _). by eexists _, _.
Qed.

Lemma send_encrypted_spec id ct data key iv seq (w : N) : 0 <= ct < 256 -> zlen data < TLS_REC_BUF ->
  exists w', send_encrypted aes0 id ct data (zlen data) key iv seq w = Ret (w', u64 (seq + 1), 0) /\
    sent id w' = sent id w ++ record 0x17 3 3 (seal key iv seq ct data) /\ pending id w' = pending id w.
Proof.
  unfold TLS_REC_BUF. intros Hc Hd. pose proof (zlen_nonneg data). unfold send_encrypted, TLS_REC_BUF. rewrite u32_small, (proj2 (Z.ltb_ge 16384 _)), (proj2 (Z.ltb_ge (16384 + 32) _)), (u8_small ct) by lia.
  rewrite take_ge by (unfold zlen; lia). unfold Gcm.aes128gcm_encrypt. rewrite Gcm.gcm_tag_is_nonce_tag. eexists. split; [reflexivity|].
  split; [|by rewrite !(proj2 (send_all_spec _ _ _))]. rewrite !(proj1 (send_all_spec _ _ _)). unfold record. rewrite zlen_seal by lia. unfold seal, record_header, be16.
  replace (zlen data + 17) with (zlen data + 1 + 16) by lia. rewrite <- !app_assoc. done.
Qed.

Lemma last_nonzero_app l ct r : ct <> 0 -> last_nonzero (l ++ ct :: r) (S (length l)) = Some (zlen l).
Proof.
  intros H. cbn [last_nonzero]. unfold aget. rewrite Nat2Z.id, lookup_total_app_r, Nat.sub_diag by lia. cbn. unfold truth. by rewrite (proj2 (Z.eqb_neq ct 0)).
Qed.

Lemma decrypt_record_spec key iv seq ct data r aad : 0 < ct < 256 -> zlen data < TLS_REC_BUF ->
  exists buf, decrypt_record aes0 (seal key iv seq ct data ++ r) (zlen (seal key iv seq ct data)) key iv seq aad = (buf, zlen data, u64 (seq + 1), ct) /\
    take (length data) buf = data /\ length buf = length (seal key iv seq ct data ++ r).
Proof.
  unfold TLS_REC_BUF. intros Hc Hd. pose proof (zlen_nonneg data). unfold decrypt_record. rewrite zlen_seal by lia. rewrite (proj2 (Z.ltb_ge _ 16)) by lia.
  set (aes := Aes.aes128_setkey aes0 key). set (nonce := make_nonce iv seq). set (plain := data ++ [ct]). assert (zlen data + 1 = zlen plain) as Ep by (unfold plain; rewrite X509.zlen_app; done).
  assert (seal key iv seq ct data = Gcm.gcm_ctr aes nonce plain (zlen plain) 1 ++ Gcm.nonce_tag aes nonce) as Es by (unfold seal; fold aes nonce plain; by rewrite Ep).
  replace (zlen data + 17 - 16) with (zlen plain) by lia. assert (length (Gcm.gcm_ctr aes nonce plain (zlen plain) 1) = length plain) as L by (apply length_gcm_ctr; lia).
  rewrite Es, <- app_assoc. set (e := Gcm.gcm_ctr aes nonce plain (zlen plain) 1) in *. assert (zlen e = zlen plain) as Le by (unfold zlen; by rewrite L).
  assert (take 16 (drop (Z.to_nat (zlen plain)) (e ++ Gcm.nonce_tag aes nonce ++ r)) = Gcm.nonce_tag aes nonce) as ->.
  { rewrite <- Le. unfold zlen. rewrite Nat2Z.id, drop_app_length. rewrite <- (Gcm.length_nonce_tag aes nonce). apply take_app_length. }
  rewrite Gcm.decrypt_spec, decide_True by (done || apply Gcm.length_nonce_tag). rewrite gcm_ctr_app by lia. assert (Gcm.gcm_ctr aes nonce e (zlen plain) 1 = plain) as -> by (unfold e; apply Gcm.gcm_ctr_involutive; lia).
  set (tail := Gcm.nonce_tag aes nonce ++ r). assert (plain ++ tail = data ++ ct :: tail) as -> by (unfold plain; by rewrite <- app_assoc).
  assert (Z.to_nat (zlen plain) = S (length data)) as -> by (unfold zlen in *; lia). change (negb (0 =? 0)) with false. cbn match. rewrite last_nonzero_app by lia.
  eexists. split; [|split; [apply take_app_length|]].
  - do 2 f_equal. unfold zlen, aget. rewrite Nat2Z.id, lookup_total_app_r, Nat.sub_diag by lia. done.
  - rewrite !length_app. cbn [length]. rewrite L. unfold zlen in Ep. lia.
Qed.

(** ** The ring of a session *)

(** The bytes [l] are in the ring from [head] on. *)
Definition in_ring (ring : list Z) (head : Z) (l : list Z) : Prop := forall k, 0 <= k < zlen l -> ring.[(head + k) mod TLS_APP_BUF] = l.[k].

Lemma aget_cons {A} `{!Inhabited A} (x : A) l k : 0 <= k -> (x :: l).[k + 1] = l.[k].
Proof. intros H. unfold aget. replace (Z.to_nat (k + 1)) with (S (Z.to_nat k)) by lia. done. Qed.

Lemma mod_step a k : ((a + 1) mod TLS_APP_BUF + k) mod TLS_APP_BUF = (a + (k + 1)) mod TLS_APP_BUF.
Proof. rewrite Z.add_mod_idemp_l by discriminate. f_equal. lia. Qed.

Lemma ring_take_spec ring : forall n head l, 0 <= head < TLS_APP_BUF -> in_ring ring head l -> (n <= length l)%nat ->
  ring_take n head ring = (take n l, (head + Z.of_nat n) mod TLS_APP_BUF).
Proof.
  induction n as [|n IH]; intros head l Hh Hr Hn; cbn [ring_take].
  { rewrite Z.add_0_r, Z.mod_small by done. done. }
  destruct l as [|x l]; [cbn in Hn; lia|]. assert (0 <= (head + 1) mod TLS_APP_BUF < TLS_APP_BUF) as Hm by (apply Z.mod_pos_bound; done).
  rewrite (IH _ l Hm); [|intros k Hk; rewrite mod_step, Hr by (unfold zlen in *; cbn [length]; lia); apply aget_cons; lia|cbn in Hn; lia].
  rewrite mod_step. cbn [take]. do 2 f_equal; [|f_equal; lia]. specialize (Hr 0). rewrite Z.add_0_r, Z.mod_small in Hr by done. apply Hr. unfold zlen. cbn [length]. lia.
Qed.

Lemma ring_put_spec : forall l ring tail, zlen ring = TLS_APP_BUF -> 0 <= tail < TLS_APP_BUF -> zlen l <= TLS_APP_BUF ->
  exists ring', ring_put l ring tail = (ring', (tail + zlen l) mod TLS_APP_BUF) /\ zlen ring' = TLS_APP_BUF /\ in_ring ring' tail l /\
    (forall d, zlen l <= d < TLS_APP_BUF -> ring'.[(tail + d) mod TLS_APP_BUF] = ring.[(tail + d) mod TLS_APP_BUF]).
Proof.
  induction l as [|x l IH]; intros ring tail Hr Ht Hl; cbn [ring_put].
  { exists ring. change (zlen []) with 0. rewrite Z.add_0_r, Z.mod_small by done. split; [done|]. split; [done|]. split; [|done]. intros k Hk. change (zlen []) with 0 in Hk. lia. }
  assert (zlen (x :: l) = zlen l + 1) as El by (unfold zlen; cbn [length]; lia). rewrite El in *. assert (0 <= (tail + 1) mod TLS_APP_BUF < TLS_APP_BUF) as Hm by (apply Z.mod_pos_bound; done).
  destruct (IH ring.[tail <- x] ((tail + 1) mod TLS_APP_BUF)) as (ring' & -> & L & B & D); [by rewrite zlen_aset|done|lia|]. exists ring'. rewrite mod_step. split; [done|]. split; [done|]. pose proof (zlen_nonneg l).
  assert (forall d, 0 <= d < TLS_APP_BUF - 1 -> (tail + (d + 1)) mod TLS_APP_BUF <> tail) as Hne.
  { intros d Hd E. pose proof (Z.div_mod (tail + (d + 1)) TLS_APP_BUF ltac:(discriminate)). rewrite E in *. unfold TLS_APP_BUF in *. nia. }
  split.
  - intros k Hk. destruct (Z.eq_dec k 0) as [->|Hk0].
    + specialize (D (TLS_APP_BUF - 1)). rewrite mod_step in D. replace (TLS_APP_BUF - 1 + 1) with TLS_APP_BUF in D by lia. rewrite Z.add_0_r.
      assert ((tail + TLS_APP_BUF) mod TLS_APP_BUF = tail) as E by (rewrite <- (Z.mul_1_l TLS_APP_BUF) at 1; rewrite Z.mod_add by discriminate; by apply Z.mod_small).
      rewrite E in D. rewrite Z.mod_small by done. rewrite D by lia. by rewrite aget_aset_eq by lia.
    + specialize (B (k - 1)). rewrite mod_step in B. replace (k - 1 + 1) with k in B by lia. rewrite B by lia. replace k with (k - 1 + 1) at 2 by lia. rewrite aget_cons by lia. done.
  - intros d Hd. specialize (D (d - 1)). rewrite mod_step in D. replace (d - 1 + 1) with d in D by lia. rewrite D by lia. apply aget_aset_ne; [lia|apply Z.mod_pos_bound; done|].
    replace d with (d - 1 + 1) by lia. intros E. symmetry in E. revert E. apply Hne. lia.
Qed.

(** ** Sessions as streams *)

Definition plain_ok (m : list Z) : Prop := 0 < zlen m /\ zlen m + 17 <= TLS_REC_BUF.

(** The records of the messages [ms], numbered from [seq] on. *)
Fixpoint records (key iv : list Z) (seq : Z) (ms : list (list Z)) : list Z :=
  match ms with
  | [] => []
  | m :: ms => record 0x17 3 3 (seal key iv seq TLS_APP_DATA m) ++ records key iv (u64 (seq + 1)) ms
  end.

(** Session [i] for the connection [id] has the bytes [l] in its ring and the records of [ms] before it. *)
Record carries (id i : Z) (l : list Z) (ms : list (list Z)) (s : State) : Prop := {
  ca_find : find_conn id s = Some i;
  ca_conns : zlen (tls_conns s) = TLS_MAX_CONN;
  ca_rec : zlen (rec_buf s) = TLS_REC_BUF;
  ca_ring : zlen (ap_buf (tls_conns s).[i]) = TLS_APP_BUF;
  ca_head : 0 <= ap_head (tls_conns s).[i] < TLS_APP_BUF;
  ca_tail : ap_tail (tls_conns s).[i] = (ap_head (tls_conns s).[i] + zlen l) mod TLS_APP_BUF;
  ca_len : zlen l < TLS_APP_BUF;
  ca_bytes : in_ring (ap_buf (tls_conns s).[i]) (ap_head (tls_conns s).[i]) l;
  ca_pending : pending id (net s) = records (ap_s_key (tls_conns s).[i]) (ap_s_iv (tls_conns s).[i]) (ap_s_seq (tls_conns s).[i]) ms;
  ca_ok : Forall plain_ok ms
}.

Lemma find_conn_range id (s : State (N := N)) i : find_conn id s = Some i -> 0 <= i < TLS_MAX_CONN /\ used (tls_conns s).[i] <> 0 /\ tcp_id (tls_conns s).[i] = id /\ state (tls_conns s).[i] = 1.
Proof.
  intros H. apply scan_Some in H as (Hi & Hf & _). cbv beta zeta in Hf. rewrite !andb_true_iff, !Z.eqb_eq in Hf. destruct Hf as [[Hu Hid] Hs]. split; [exact Hi|].
  split; [|done]. intros E. by rewrite E in Hu.
Qed.

Definition same_session (c c' : TlsConn) : Prop := used c' = used c /\ tcp_id c' = tcp_id c /\ state c' = state c.

Lemma find_conn_set id (s s' : State (N := N)) i c : zlen (tls_conns s) = TLS_MAX_CONN -> find_conn id s = Some i -> same_session (tls_conns s).[i] c -> tls_conns s' = (tls_conns s).[i <- c] -> find_conn id s' = Some i.
Proof.
  intros Hl Hf (Hu & Ht & Hs) Hc. pose proof (find_conn_range _ _ _ Hf) as (Hi & _). rewrite <- Hf. unfold find_conn. apply scan_ext. intros k Hk. cbv zeta. rewrite Hc. rewrite aget_aset by lia.
  case_decide; [subst k|done]. by rewrite Hu, Ht, Hs.
Qed.

Lemma put_front buf b : zlen b <= zlen buf -> exists r, put buf 0 b = b ++ r /\ zlen (b ++ r) = zlen buf.
Proof.
  intros H. exists (drop (length b) buf). unfold put. change (Z.to_nat 0) with 0%nat. rewrite take_0. split; [done|]. rewrite X509.zlen_app. unfold zlen in *. rewrite length_drop. lia.
Qed.

(** What is in the ring is returned first. *)
Lemma recv_ring id i l ms s maxlen : carries id i l ms s -> l <> [] -> 0 < maxlen ->
  exists s' b l', tls13_recv ticks rounds aes0 id maxlen s = Ret (s', b, zlen b) /\ carries id i l' ms s' /\ b <> [] /\ l = b ++ l'.
Proof.
  intros H Hl Hm. destruct H as [Hf Hc Hr Hring Hh Ht Hlen Hb Hp Hok]. pose proof (find_conn_range _ _ _ Hf) as (Hi & _). unfold tls13_recv. rewrite Hf. set (c := (tls_conns s).[i]) in *.
  assert (0 < zlen l) as Hpos by (pose proof (zlen_nonneg l); destruct (Z.eq_dec (zlen l) 0) as [E|]; [by apply zlen_nil_inv in E|lia]).
  assert ((ap_tail c - ap_head c + TLS_APP_BUF) mod TLS_APP_BUF = zlen l) as Hav.
  { rewrite Ht. replace ((ap_head c + zlen l) mod TLS_APP_BUF - ap_head c + TLS_APP_BUF) with ((ap_head c + zlen l) mod TLS_APP_BUF + (TLS_APP_BUF - ap_head c)) by lia.
    rewrite Z.add_mod_idemp_l by discriminate. replace (ap_head c + zlen l + (TLS_APP_BUF - ap_head c)) with (zlen l + 1 * TLS_APP_BUF) by lia. rewrite Z.mod_add by discriminate. apply Z.mod_small. lia. }
  assert (ap_head c <> ap_tail c) as Hne by (intros E; rewrite <- E, Z.sub_diag in Hav; change ((0 + TLS_APP_BUF) mod TLS_APP_BUF) with 0 in Hav; lia).
  rewrite (proj2 (Z.eqb_neq _ _) Hne). cbn [negb]. rewrite Hav. set (n := if zlen l <? maxlen then zlen l else maxlen). assert (0 < n <= zlen l) as Hn by (unfold n; destruct (Z.ltb_spec (zlen l) maxlen); lia).
  rewrite (ring_take_spec (ap_buf c) (Z.to_nat n) (ap_head c) l) by (try done; unfold zlen in *; lia). rewrite Z2Nat.id by lia.
  set (c' := c <| ap_head := (ap_head c + n) mod TLS_APP_BUF |>). assert (zlen (take (Z.to_nat n) l) = n) as En by (unfold zlen in *; rewrite length_take; lia).
  exists (set_conn i c' s), (take (Z.to_nat n) l), (drop (Z.to_nat n) l). rewrite En. split; [done|]. split; [|split; [intros E; rewrite E in En; change (zlen []) with 0 in En; lia|by rewrite take_drop]].
  assert ((tls_conns (set_conn i c' s)).[i] = c') as Ec by (apply aget_aset_eq; lia). assert (zlen (drop (Z.to_nat n) l) = zlen l - n) as Ed by (unfold zlen in *; rewrite length_drop; lia).
  split; rewrite ?Ec; try done.
  - apply (find_conn_set id s _ i c'); done.
  - unfold set_conn. change (tls_conns (s <| tls_conns := (tls_conns s).[i <- c'] |>)) with ((tls_conns s).[i <- c']). by rewrite zlen_aset.
  - apply Z.mod_pos_bound. done.
  - change (ap_tail c') with (ap_tail c). change (ap_head c') with ((ap_head c + n) mod TLS_APP_BUF). rewrite Ht, Ed, Z.add_mod_idemp_l by discriminate. f_equal. lia.
  - lia.
  - intros k Hk. change (ap_buf c') with (ap_buf c). change (ap_head c') with ((ap_head c + n) mod TLS_APP_BUF). rewrite Z.add_mod_idemp_l by discriminate. replace (ap_head c + n + k) with (ap_head c + (n + k)) by lia.
    rewrite Hb by lia. unfold aget. rewrite lookup_total_drop. f_equal. lia.
Qed.

Hypothesis Hrounds : TLS_REC_BUF <= Z.of_nat rounds.

(** A record is read when the ring is empty. *)
Lemma recv_record id i m ms s maxlen : carries id i [] (m :: ms) s -> 0 < maxlen ->
  exists s' b l', tls13_recv ticks rounds aes0 id maxlen s = Ret (s', b, zlen b) /\ carries id i l' ms s' /\ b <> [] /\ m = b ++ l'.
Proof.
  intros H Hm. destruct H as [Hf Hc Hr Hring Hh Ht Hlen Hb Hp Hok]. pose proof (find_conn_range _ _ _ Hf) as (Hi & _ & Hid & _). apply Forall_cons_1 in Hok as [[Hm0 Hm1] Hok].
  unfold tls13_recv. rewrite Hf. set (c := (tls_conns s).[i]) in *. change (zlen (@nil Z)) with 0 in Ht. rewrite Z.add_0_r, Z.mod_small in Ht by done. rewrite Ht, Z.eqb_refl. cbn [negb]. change 10%nat with (S 9). generalize 9%nat as passes. intros passes. cbn [recv_loop].
  fold c. set (body := seal (ap_s_key c) (ap_s_iv c) (ap_s_seq c) TLS_APP_DATA m). cbn [records] in Hp. fold body in Hp. rewrite <- Hid in Hp. unfold TLS_REC_BUF in Hm1.
  assert (zlen body = zlen m + 17) as Hb17 by (apply zlen_seal; lia).
  destruct (read_record_spec c s 0x17 3 3 body (records (ap_s_key c) (ap_s_iv c) (u64 (ap_s_seq c + 1)) ms)) as (w & E & Hw); [exact Hp|unfold TLS_REC_BUF; lia|exact Hr|exact Hrounds|]. rewrite E. cbn [mbind res_bind].
  change (0x17 =? TLS_ALERT) with false. change (0x17 =? TLS_APP_DATA) with true. cbn [negb]. destruct (put_front (rec_buf s) body) as (r & Er & Lr); [rewrite Hr; unfold TLS_REC_BUF; lia|].
  set (s1 := s <| net := w |> <| rec_buf := put (rec_buf s) 0 body |>). change (rec_buf s1) with (put (rec_buf s) 0 body). change (tls_conns s1) with (tls_conns s). fold c. rewrite Er.
  destruct (decrypt_record_spec (ap_s_key c) (ap_s_iv c) (ap_s_seq c) TLS_APP_DATA m r (record_header (zlen body))) as (buf & Ed & Hbuf & Lbuf); [done|unfold TLS_REC_BUF; lia|]. fold body in Ed, Lbuf. rewrite Ed.
  change (TLS_APP_DATA =? TLS_ALERT) with false. rewrite Z.eqb_refl. set (n := if zlen m <? maxlen then zlen m else maxlen). assert (0 < n <= zlen m) as Hn by (unfold n; destruct (Z.ltb_spec (zlen m) maxlen); lia).
  assert (take (Z.to_nat (zlen m)) buf = m) as -> by (unfold zlen; by rewrite Nat2Z.id). change (ap_buf (c <| ap_s_seq := u64 (ap_s_seq c + 1) |>)) with (ap_buf c). change (ap_tail (c <| ap_s_seq := u64 (ap_s_seq c + 1) |>)) with (ap_tail c).
  set (l' := drop (Z.to_nat n) m). assert (zlen l' = zlen m - n) as Ll by (unfold l', zlen in *; rewrite length_drop; lia). rewrite Ht.
  destruct (ring_put_spec l' (ap_buf c) (ap_head c) Hring Hh) as (ring' & -> & Lring & Bring & _); [unfold TLS_APP_BUF; lia|].
  assert (take (Z.to_nat n) buf = take (Z.to_nat n) m) as -> by (rewrite <- Hbuf, take_take; f_equal; unfold zlen in *; lia).
  assert (zlen (take (Z.to_nat n) m) = n) as En by (unfold zlen in *; rewrite length_take; lia).
  set (c1 := c <| ap_s_seq := u64 (ap_s_seq c + 1) |>). set (c2 := c1 <| ap_buf := ring' |> <| ap_tail := (ap_head c + zlen l') mod TLS_APP_BUF |>).
  exists (set_conn i c2 (set_conn i c1 s1 <| rec_buf := buf |>)), (take (Z.to_nat n) m), l'. rewrite En. split; [done|].
  split; [|split; [intros E0; rewrite E0 in En; change (zlen []) with 0 in En; lia|by unfold l'; rewrite take_drop]].
  set (s2 := set_conn i c2 _). assert (tls_conns s2 = ((tls_conns s).[i <- c1]).[i <- c2]) as Es2 by done. assert ((tls_conns s2).[i] = c2) as Ec by (rewrite Es2; apply aget_aset_eq; rewrite zlen_aset; lia).
  split; rewrite ?Ec; try done.
  - apply (find_conn_set id s s2 i c2); [done|done|done|by rewrite Es2, aset_aset].
  - by rewrite Es2, !zlen_aset.
  - change (rec_buf s2) with buf. unfold zlen in *. rewrite Lbuf. lia.
  - unfold TLS_APP_BUF. lia.
  - change (pending id w = records (ap_s_key c) (ap_s_iv c) (u64 (ap_s_seq c + 1)) ms). by rewrite <- Hid.
Qed.

(** One call: some of the bytes that are not read yet. *)
Lemma recv_step id i l ms s maxlen : carries id i l ms s -> l ++ concat ms <> [] -> 0 < maxlen ->
  exists s' b l' ms', tls13_recv ticks rounds aes0 id maxlen s = Ret (s', b, zlen b) /\ carries id i l' ms' s' /\ b <> [] /\ l ++ concat ms = b ++ l' ++ concat ms'.
Proof.
  intros H Hne Hm. destruct l as [|x l].
  - destruct ms as [|m ms]; [done|]. destruct (recv_record id i m ms s maxlen H Hm) as (s' & b & l' & E & H' & Hb & ->). exists s', b, l', ms. split; [done|]. split; [done|]. split; [done|].
    cbn [app concat]. by rewrite <- app_assoc.
  - destruct (recv_ring id i (x :: l) ms s maxlen H ltac:(done) Hm) as (s' & b & l' & E & H' & Hb & ->). exists s', b, l', ms. split; [done|]. split; [done|]. split; [done|]. by rewrite <- app_assoc.
Qed.

(** A reader that wants [want] bytes and asks for those of [sizes] in turn. *)
Fixpoint recv_all (id : Z) (sizes : list Z) (want : Z) (s : State) : res (State * list Z) :=
  match sizes with
  | [] => Ret (s, [])
  | maxlen :: sizes =>
      if want <=? 0 then Ret (s, [])
      else
        '(s, b, r) ← tls13_recv ticks rounds aes0 id maxlen s;
        '(s, l) ← recv_all id sizes (want - r) s;
        Ret (s, b ++ l)
  end.

(** A writer. *)
Fixpoint send_messages (id : Z) (ms : list (list Z)) (s : State) : res State :=
  match ms with
  | [] => Ret s
  | m :: ms => '(s, _) ← tls13_send aes0 id m (zlen m) s; send_messages id ms s
  end.

Lemma recv_all_spec id i : forall sizes l ms s, carries id i l ms s -> Forall (fun n => 0 < n) sizes ->
  exists s' b rest, recv_all id sizes (zlen (l ++ concat ms)) s = Ret (s', b) /\ l ++ concat ms = b ++ rest /\ (zlen (l ++ concat ms) <= zlen sizes -> rest = []).
Proof.
  induction sizes as [|maxlen sizes IH]; intros l ms s H Hs; cbn [recv_all].
  { exists s, [], (l ++ concat ms). split; [done|]. split; [done|]. change (zlen (@nil Z)) with 0. intros Hz. apply zlen_nil_inv. pose proof (zlen_nonneg (l ++ concat ms)). lia. }
  apply Forall_cons_1 in Hs as [Hm Hs]. destruct (Z.leb_spec (zlen (l ++ concat ms)) 0) as [Hz|Hz].
  { exists s, [], (l ++ concat ms). split; [done|]. split; [done|]. intros _. apply zlen_nil_inv. pose proof (zlen_nonneg (l ++ concat ms)). lia. }
  destruct (recv_step id i l ms s maxlen H) as (s1 & b & l1 & ms1 & E & H1 & Hb & Eq); [intros E; rewrite E in Hz; change (zlen []) with 0 in Hz; lia|done|]. rewrite E. cbn [mbind res_bind].
  assert (0 < zlen b) as Hb0 by (destruct b; [done|unfold zlen; cbn [length]; lia]). rewrite Eq, X509.zlen_app. replace (zlen b + zlen (l1 ++ concat ms1) - zlen b) with (zlen (l1 ++ concat ms1)) by lia.
  destruct (IH l1 ms1 s1 H1 Hs) as (s2 & b2 & rest & E2 & Eq2 & Hrest). rewrite E2. cbn [mbind res_bind]. exists s2, (b ++ b2), rest. split; [done|]. split; [by rewrite Eq2, app_assoc|].
  intros Hz2. apply Hrest. unfold zlen in Hz2 at 3. cbn [length] in Hz2. unfold zlen in *. lia.
Qed.

Lemma send_messages_spec id i : forall ms s c, zlen (tls_conns s) = TLS_MAX_CONN -> find_conn id s = Some i -> (tls_conns s).[i] = c -> Forall plain_ok ms ->
  exists s', send_messages id ms s = Ret s' /\ sent id (net s') = sent id (net s) ++ records (ap_c_key c) (ap_c_iv c) (ap_c_seq c) ms.
Proof.
  clear Hrounds. induction ms as [|m ms IH]; intros s c Hl Hf Hc Hok; cbn [send_messages records]; [exists s; by rewrite app_nil_r|]. apply Forall_cons_1 in Hok as [[Hm0 Hm1] Hok].
  pose proof (find_conn_range _ _ _ Hf) as (Hi & _ & Hid & _). unfold tls13_send. rewrite Hf, Hc. rewrite Hc in Hid. unfold TLS_REC_BUF in Hm1. rewrite Hid.
  destruct (send_encrypted_spec id TLS_APP_DATA m (ap_c_key c) (ap_c_iv c) (ap_c_seq c) (net s)) as (w & -> & Hw & _); [done|unfold TLS_REC_BUF; lia|]. cbn [mbind res_bind].
  set (c' := c <| ap_c_seq := u64 (ap_c_seq c + 1) |>). set (s' := set_conn i c' s <| net := w |>). assert (tls_conns s' = (tls_conns s).[i <- c']) as Es by done.
  destruct (IH s' c') as (s2 & E & Hs2); [by rewrite Es, zlen_aset|apply (find_conn_set id s s' i c'); [done|done|by rewrite Hc|done]|rewrite Es; apply aget_aset_eq; lia|done|].
  exists s2. split; [exact E|]. rewrite Hs2. change (net s') with w. rewrite Hw, <- app_assoc. done.
Qed.

End stream.
(** A line that delivers in pieces of any sizes. *)
Record Wire := mkWire { inbox : list Z; outbox : list Z; pieces : list Z; clock : Z }.
#[global] Instance wire_net : NetStack Wire := {|
  net_present _ := true;
  net_tcp_connect _ _ w := (w, 0);
  net_tcp_close _ w := w;
  net_tcp_send _ data w := (mkWire (inbox w) (outbox w ++ data) (pieces w) (clock w), zlen data);
  net_tcp_recv _ m w :=
    let k := Z.to_nat (Z.min m (Z.max 1 (hd m (pieces w)))) in
    (mkWire (drop k (inbox w)) (outbox w) (tl (pieces w)) (clock w + 1), take k (inbox w), zlen (take k (inbox w)));
  net_tcp_state _ _ := 0;
  dns_resolve _ w := (w, None)
|}.
#[global] Instance wire_stream : TcpStream Wire.
Proof.
  refine {| pending _ := inbox; sent _ := outbox |}.
  - intros id m w w' b r [= <- <- <-] Hm Hp. cbn [inbox]. split; [done|]. split; [|by rewrite take_drop]. destruct (inbox w) as [|x l]; [done|]. unfold zlen. rewrite length_take. cbn [length]. lia.
  - intros id data w w' r [= <- _]. done.
Defined.


Definition demo_session : TlsConn :=
  zero_conn <| used := 1 |> <| tcp_id := 3 |> <| state := 1 |> <| ap_c_key := replicate 16 7 |> <| ap_c_iv := replicate 12 9 |> <| ap_s_key := replicate 16 7 |> <| ap_s_iv := replicate 12 9 |>.
Definition demo_tls (w : Wire) : State := mkState [zero_conn; demo_session; zero_conn; zero_conn] X509.zero_cert 0 0 0 (bytes0 TLS_REC_BUF) (bytes0 32) w.
Definition demo_messages : list (list Z) := [lit "hello"; [0; 0]; replicate 40 1].

Definition demo_outbox (a : State) : list Z := match send_messages {| Aes.rk := replicate 44 0 |} 3 demo_messages a with Ret a' => outbox (net a') | _ => [] end.


(** A length of 2^32 - 1 passes the check of send_encrypted() and overruns its buffer. *)
Example send_encrypted_wraps : send_encrypted {| Aes.rk := replicate 44 0 |} 3 TLS_APP_DATA [] (2 ^ 32 - 1) [] [] 0 (mkWire [] [] [] 0) = UB.
Proof. reflexivity. Qed.

(** ** The key schedule *)

(** RFC 8446, 7.1: HKDF-Expand-Label, Derive-Secret, and the secrets. *)
Definition expand_label_ref (secret label ctx : list Z) (n : Z) : list Z :=
  Hmac.hkdf_expand_ref secret (be16 n ++ (6 + zlen label) :: lit "tls13 " ++ label ++ zlen ctx :: ctx) n.
Definition derive_ref (secret label hash : list Z) : list Z := expand_label_ref secret label hash 32.
Definition early_secret : list Z := Hmac.hmac_ref (bytes0 32) (bytes0 32).
Definition handshake_secret (dhe : list Z) : list Z := Hmac.hmac_ref (derive_ref early_secret (lit "derived") (Sha.sha256_ref [])) dhe.
Definition master_secret (dhe : list Z) : list Z := Hmac.hmac_ref (derive_ref (handshake_secret dhe) (lit "derived") (Sha.sha256_ref [])) (bytes0 32).
Definition key_of (traffic : list Z) : list Z := expand_label_ref traffic (lit "key") [] 16.
Definition iv_of (traffic : list Z) : list Z := expand_label_ref traffic (lit "iv") [] 12.

Lemma length_okm prk info : forall n i prev, length (Hmac.okm n prk info i prev) = (32 * n)%nat.
Proof. induction n as [|n IH]; intros i prev; cbn [Hmac.okm]; [done|]. rewrite length_app, IH, Hmac.length_hmac_ref. lia. Qed.

Lemma length_expand_label secret label ctx n : 0 <= n -> zlen (expand_label_ref secret label ctx n) = n.
Proof.
  intros Hn. unfold expand_label_ref, Hmac.hkdf_expand_ref, zlen. rewrite length_take, length_okm. pose proof (Z.div_mod (n + 31) 32 ltac:(lia)). pose proof (Z.mod_pos_bound (n + 31) 32 ltac:(lia)).
  assert (0 <= (n + 31) / 32) by (apply Z.div_pos; lia). lia.
Qed.

Lemma length_derive secret label hash : length (derive_ref secret label hash) = 32%nat.
Proof. pose proof (length_expand_label secret label hash 32 ltac:(lia)) as H. unfold derive_ref, zlen in *. lia. Qed.

Lemma bind_ret {A B} (m : res A) (f : A -> res B) a r : m = Ret a -> f a = r -> (m ≫= f) = r.
Proof. by intros ->. Qed.

Lemma ret_bind {A B} (a : A) (f : A -> res B) : (Ret a ≫= f) = f a.
Proof. done. Qed.

(** Continue behind a step whose result the lemma [H] gives. *)
Ltac step H := refine (bind_ret _ _ _ _ H _); cbv beta zeta.
Ltac next H := rewrite H, ret_bind; cbv beta iota zeta.

(** The side conditions of a derivation step: lengths of secrets and labels. *)
Ltac key_side := first [assumption | apply length_derive | apply Sha.length_ref | apply Hmac.length_hmac_ref | lia | reflexivity | vm_compute; discriminate].

Section keys.
Context (stack : Sha.Sha256) (Hstack : length (Sha.buf stack) = 64%nat) (junk : list Z) (Hjunk : length junk = 32%nat).

Lemma expand_label_spec secret label ctx out : length secret = 32%nat -> cstr label = label -> zlen label + zlen ctx <= 128 -> zlen out <= 8160 ->
  of_option (Hmac.hkdf_expand_label stack junk secret label ctx (zlen ctx) out (zlen out)) = Ret (expand_label_ref secret label ctx (zlen out)).
Proof.
  intros Hs Hl Hc Ho. pose proof (zlen_nonneg out). rewrite hkdf_expand_label_rfc8446 by (done || lia). unfold c_strlen. rewrite Hl, decide_True by done. cbn [of_option]. f_equal.
  rewrite drop_ge by (unfold zlen; lia). rewrite app_nil_r. reflexivity.
Qed.

Lemma expand_spec secret label out : length secret = 32%nat -> cstr label = label -> zlen label <= 128 -> zlen out <= 8160 -> expand stack junk secret label out = Ret (expand_label_ref secret label [] (zlen out)).
Proof. intros Hs Hl Hc Ho. apply (expand_label_spec secret label [] out); try done. change (zlen (@nil Z)) with 0. lia. Qed.

Lemma derive_spec secret label hash : length secret = 32%nat -> cstr label = label -> zlen label <= 96 -> length hash = 32%nat -> derive_secret stack junk secret label hash = Ret (derive_ref secret label hash).
Proof.
  intros Hs Hl Hc Hh. unfold derive_secret, Hmac.tls13_derive_secret, derive_ref. assert (zlen junk = 32) as Ej by (unfold zlen; lia). assert (zlen hash = 32) as Eh by (unfold zlen; lia).
  pose proof (expand_label_spec secret label hash junk Hs Hl) as H. rewrite Eh, Ej in H. apply H; lia.
Qed.

Lemma empty_hash_spec : Sha.sha256 stack [] 0 = Sha.sha256_ref [].
Proof. apply Sha.final_absorbed; [|done]. apply (Sha.update_absorbed _ [] [] 0); [by apply Sha.init_absorbed|done..]. Qed.

Lemma extract_spec salt ikm : length salt = 32%nat -> length ikm = 32%nat -> Hmac.hkdf_extract stack (Some salt) 32 ikm 32 = Hmac.hmac_ref salt ikm.
Proof.
  intros Hs Hi. unfold Hmac.hkdf_extract. change (32 =? 0) with false. cbn match. rewrite (Hmac.hmac_correct stack Hstack) by (unfold zlen; lia). by rewrite !take_ge by lia.
Qed.

#[local] Opaque Hmac.hmac_ref Sha.sha256_ref Hmac.hkdf_expand_ref expand_label_ref derive_ref Hmac.hkdf_extract derive_secret expand.

(** The arrays of a session have their sizes. *)
Record sized (c : TlsConn) : Prop := {
  sz_hsk : zlen (hs_s_key c) = 16; sz_hsi : zlen (hs_s_iv c) = 12; sz_hck : zlen (hs_c_key c) = 16; sz_hci : zlen (hs_c_iv c) = 12;
  sz_ask : zlen (ap_s_key c) = 16; sz_asi : zlen (ap_s_iv c) = 12; sz_ack : zlen (ap_c_key c) = 16; sz_aci : zlen (ap_c_iv c) = 12
}.

(** The session with the keys for the transcript hash [th1]. *)
Definition with_hs_keys (dhe th1 : list Z) (c : TlsConn) : TlsConn :=
  let st := derive_ref (handshake_secret dhe) (lit "s hs traffic") th1 in
  let ct := derive_ref (handshake_secret dhe) (lit "c hs traffic") th1 in
  c <| c_hs_traffic := ct |> <| hs_s_key := key_of st |> <| hs_s_iv := iv_of st |> <| hs_c_key := key_of ct |> <| hs_c_iv := iv_of ct |> <| hs_s_seq := 0 |> <| hs_c_seq := 0 |>.
Definition with_app_keys (dhe th2 : list Z) (c : TlsConn) : TlsConn :=
  let st := derive_ref (master_secret dhe) (lit "s ap traffic") th2 in
  let ct := derive_ref (master_secret dhe) (lit "c ap traffic") th2 in
  c <| ap_s_key := key_of st |> <| ap_s_iv := iv_of st |> <| ap_c_key := key_of ct |> <| ap_c_iv := iv_of ct |> <| ap_s_seq := 0 |> <| ap_c_seq := 0 |>.

Lemma derive_hs_keys_spec {N} th1 c (s : State (N := N)) : length th1 = 32%nat -> length (ecdhe c) = 32%nat -> sized c ->
  derive_hs_keys stack junk th1 c s = Ret (with_hs_keys (ecdhe c) th1 c, s <| saved_hs_secret := handshake_secret (ecdhe c) |>).
Proof.
  intros Ht Hd [S1 S2 S3 S4 _ _ _ _]. unfold derive_hs_keys. cbv zeta. rewrite (extract_spec (bytes0 32)), empty_hash_spec by done.
  step (derive_spec early_secret (lit "derived") (Sha.sha256_ref []) ltac:(key_side) eq_refl ltac:(key_side) ltac:(key_side)).
  rewrite extract_spec by key_side. set (hs := Hmac.hmac_ref _ (ecdhe c)). assert (length hs = 32%nat) as Lh by apply Hmac.length_hmac_ref.
  step (derive_spec hs (lit "s hs traffic") th1 Lh eq_refl ltac:(key_side) Ht). step (derive_spec hs (lit "c hs traffic") th1 Lh eq_refl ltac:(key_side) Ht).
  set (st := derive_ref hs (lit "s hs traffic") th1). set (ct := derive_ref hs (lit "c hs traffic") th1).
  step (expand_spec st (lit "key") (hs_s_key c) ltac:(key_side) eq_refl ltac:(key_side) ltac:(lia)). step (expand_spec st (lit "iv") (hs_s_iv c) ltac:(key_side) eq_refl ltac:(key_side) ltac:(lia)).
  step (expand_spec ct (lit "key") (hs_c_key c) ltac:(key_side) eq_refl ltac:(key_side) ltac:(lia)). step (expand_spec ct (lit "iv") (hs_c_iv c) ltac:(key_side) eq_refl ltac:(key_side) ltac:(lia)).
  rewrite S1, S2, S3, S4. unfold with_hs_keys, key_of, iv_of. reflexivity.
Qed.

Lemma derive_app_keys_spec {N} dhe th2 c (s : State (N := N)) : length th2 = 32%nat -> saved_hs_secret s = handshake_secret dhe -> sized c ->
  derive_app_keys stack junk th2 c s = Ret (with_app_keys dhe th2 c).
Proof.
  intros Ht Hd [_ _ _ _ S1 S2 S3 S4]. unfold derive_app_keys. cbv zeta. rewrite Hd, empty_hash_spec.
  step (derive_spec (handshake_secret dhe) (lit "derived") (Sha.sha256_ref []) ltac:(key_side) eq_refl ltac:(key_side) ltac:(key_side)).
  rewrite extract_spec by key_side. set (ms := Hmac.hmac_ref _ (bytes0 32)). assert (length ms = 32%nat) as Lm by apply Hmac.length_hmac_ref.
  step (derive_spec ms (lit "s ap traffic") th2 Lm eq_refl ltac:(key_side) Ht). step (derive_spec ms (lit "c ap traffic") th2 Lm eq_refl ltac:(key_side) Ht).
  set (st := derive_ref ms (lit "s ap traffic") th2). set (ct := derive_ref ms (lit "c ap traffic") th2).
  step (expand_spec st (lit "key") (ap_s_key c) ltac:(key_side) eq_refl ltac:(key_side) ltac:(lia)). step (expand_spec st (lit "iv") (ap_s_iv c) ltac:(key_side) eq_refl ltac:(key_side) ltac:(lia)).
  step (expand_spec ct (lit "key") (ap_c_key c) ltac:(key_side) eq_refl ltac:(key_side) ltac:(lia)). step (expand_spec ct (lit "iv") (ap_c_iv c) ltac:(key_side) eq_refl ltac:(key_side) ltac:(lia)).
  rewrite S1, S2, S3, S4. unfold with_app_keys, key_of, iv_of. reflexivity.
Qed.

Lemma transcript_hash_spec c m : Sha.Absorbed (transcript c) m -> zlen m < 2 ^ 60 -> transcript_hash c = Sha.sha256_ref m.
Proof. apply Sha.final_absorbed. Qed.

End keys.

(** C21: The key schedule is that of RFC 8446, section 7.1.  From the shared secret and the messages up
    to the ServerHello derive_hs_keys(), and from the messages up to the server's Finished
    derive_app_keys(), compute the traffic keys and vectors of both directions through
    HKDF-Extract, Derive-Secret and HKDF-Expand-Label with SHA-256, and no array is
    overrun. *)
Theorem tls13_key_schedule {N} stack junk hello flight c c' (s s' : State (N := N)) :
  length (Sha.buf stack) = 64%nat -> length junk = 32%nat -> sized c -> sized c' -> length (ecdhe c) = 32%nat ->
  Sha.Absorbed (transcript c) hello -> Sha.Absorbed (transcript c') (hello ++ flight) -> zlen (hello ++ flight) < 2 ^ 60 ->
  saved_hs_secret s' = handshake_secret (ecdhe c) ->
  let th1 := Sha.sha256_ref hello in let th2 := Sha.sha256_ref (hello ++ flight) in
  derive_hs_keys stack junk (transcript_hash c) c s = Ret (with_hs_keys (ecdhe c) th1 c, s <| saved_hs_secret := handshake_secret (ecdhe c) |>) /\
  derive_app_keys stack junk (transcript_hash c') c' s' = Ret (with_app_keys (ecdhe c) th2 c').
Proof.
  intros Hs Hj Hc Hc' Hd Ha Ha' Hl Hsv th1 th2. assert (zlen hello < 2 ^ 60) as Hl1 by (rewrite X509.zlen_app in Hl; pose proof (zlen_nonneg flight); lia).
  rewrite (transcript_hash_spec c hello Ha Hl1), (transcript_hash_spec c' (hello ++ flight) Ha' Hl).
  exact (conj (derive_hs_keys_spec stack Hs junk Hj th1 c s (Sha.length_ref _) Hd Hc) (derive_app_keys_spec stack Hs junk Hj (ecdhe c) th2 c' s' (Sha.length_ref _) Hsv Hc')).
Qed.

Definition fresh_session (m : list Z) : TlsConn := zero_conn <| ecdhe := replicate 32 5 |> <| transcript := Sha.sha256_update (Sha.sha256_init Sha.junk) m (zlen m) |>.

Lemma tls13_key_schedule_witness :
  derive_hs_keys Sha.junk (bytes0 32) (transcript_hash (fresh_session [1; 2])) (fresh_session [1; 2]) (demo_tls (mkWire [] [] [] 0)) =
    Ret (with_hs_keys (replicate 32 5) (Sha.sha256_ref [1; 2]) (fresh_session [1; 2]), (demo_tls (mkWire [] [] [] 0)) <| saved_hs_secret := handshake_secret (replicate 32 5) |>).
Proof.
  refine (proj1 (tls13_key_schedule Sha.junk (bytes0 32) [1; 2] [3] (fresh_session [1; 2]) (fresh_session [1; 2; 3]) (demo_tls (mkWire [] [] [] 0))
    ((demo_tls (mkWire [] [] [] 0)) <| saved_hs_secret := handshake_secret (replicate 32 5) |>) _ _ _ _ _ _ _ _ _)); try reflexivity.
  - split; reflexivity.
  - split; reflexivity.
  - exact (Sha.update_init_absorbed Sha.junk [1; 2] 2 eq_refl ltac:(split; discriminate) eq_refl).
  - exact (Sha.update_init_absorbed Sha.junk [1; 2; 3] 3 eq_refl ltac:(split; discriminate) eq_refl).
Defined.

(** ** What the handshake accepts *)

Lemma length_ladder priv pub : length (X.curve25519_ladder priv pub) = 32%nat.
Proof.
  unfold X.curve25519_ladder. generalize (X.fe_from_bytes pub). intros x1. cbv zeta. generalize (iter (fun t => X.ladder_bit x1 (X.clamp (take 32 priv)) (254 - t)) 0 255 {| X.x_2 := X.fe_one; X.z_2 := X.fe_zero; X.x_3 := x1; X.z_3 := X.fe_one; X.swap := 0 |}).
  intros l. destruct (X.fe_cswap (X.x_2 l) (X.x_3 l) (X.swap l)) as [x2 ?], (X.fe_cswap (X.z_2 l) (X.z_3 l) (X.swap l)) as [z2 ?]. generalize (X.fe_mul x2 (X.fe_invert z2)). intros q. unfold X.fe_to_bytes. cbv zeta. rewrite !length_app. unfold X.le64. by rewrite !length_fmap.
Qed.
Lemma length_shared priv pub : length (X.x25519_shared priv pub) = 32%nat.
Proof. unfold X.x25519_shared. exact (length_ladder priv pub). Qed.
Lemma length_public priv : length (X.x25519_public priv) = 32%nat.
Proof. unfold X.x25519_public. exact (length_ladder priv X.BASE_POINT). Qed.

Lemma length_client_random t addr st : length (fst (client_random t addr st)) = 32%nat.
Proof.
  unfold client_random. assert (forall n lo p, length (fst (iter (fun _ '(r, st) => let st := prng_byte t addr st in (r ++ [u8 st], st)) lo n p)) = (n + length (fst p))%nat) as H; [|apply H].
  induction n as [|n IH]; intros lo [r x]; cbn [iter]; [done|]. rewrite IH. cbn [fst]. rewrite length_app. cbn [length]. lia.
Qed.

Lemma zlen_key_of t : zlen (key_of t) = 16.
Proof. apply length_expand_label. lia. Qed.
Lemma zlen_iv_of t : zlen (iv_of t) = 12.
Proof. apply length_expand_label. lia. Qed.

#[local] Opaque X.x25519_shared X.x25519_public X.x25519_generate_private client_random seal handshake_secret master_secret key_of iv_of.

Definition host_len (host : option (list Z)) : Z := match host with Some h => 9 + zlen (cstr h) | None => 0 end.

Lemma zlen_client_hello random pub host : length random = 32%nat -> length pub = 32%nat -> zlen (client_hello random pub host) = 112 + host_len host.
Proof.
  intros Hr Hp. unfold client_hello, hello_extensions, sni, host_len, be24, be16, zlen. destruct host as [h|]; rewrite !length_app; cbn [length]; rewrite ?length_app; cbn [length]; rewrite ?length_app; cbn [length]; lia.
Qed.

(** A ServerHello for X25519; the version, the random bytes and the suite can be any. *)
Definition server_hello (version srandom suite pub : list Z) : list Z :=
  ([2] ++ be24 80 ++ version ++ srandom) ++ [0] ++ suite ++ [0] ++ be16 40 ++ [0; 0x33; 0; 36; 0; 0x1d; 0; 32] ++ pub.

Lemma u8_at_off pre tl n k x : zlen pre = n -> 0 <= k -> tl !! Z.to_nat k = Some x -> u8_at (pre ++ tl) (n + k) = Ret x.
Proof.
  intros <- Hk Hx. unfold u8_at. pose proof (zlen_nonneg pre). pose proof (lookup_lt_Some _ _ _ Hx). rewrite get_ret by (rewrite ?X509.zlen_app; unfold zlen in *; lia). cbn [mbind res_bind]. f_equal.
  rewrite Z2Nat.inj_add, <- drop_drop by (unfold zlen; lia). unfold zlen. rewrite Nat2Z.id, drop_app_length. unfold aget. change (Z.to_nat 1) with 1%nat. change (Z.to_nat 0) with 0%nat.
  apply drop_S in Hx as ->. done.
Qed.

Lemma be16_at_off pre tl n k a b : zlen pre = n -> 0 <= k -> tl !! Z.to_nat k = Some a -> tl !! Z.to_nat (k + 1) = Some b -> be16_at (pre ++ tl) (n + k) = Ret (Z.lor (Z.shiftl a 8) b).
Proof. intros Hn Hk Ha Hb. unfold be16_at. rewrite (u8_at_off pre tl n k a) by done. rewrite <- Z.add_assoc, (u8_at_off pre tl n (k + 1) b) by (done || lia). done. Qed.

Lemma parse_server_hello_spec version srandom suite pub r c : length version = 2%nat -> length srandom = 32%nat -> length suite = 2%nat -> length pub = 32%nat ->
  parse_server_hello (server_hello version srandom suite pub ++ r) (zlen (server_hello version srandom suite pub)) c = Ret (c <| s_pub := pub |>, 0).
Proof.
  intros Hv Hr Hs Hp. destruct suite as [|s1 [|s2 [|]]]; try discriminate. assert (zlen (server_hello version srandom [s1; s2] pub) = 84) as -> by (unfold server_hello, zlen; rewrite !length_app; cbn [length be24 be16]; lia).
  unfold server_hello. rewrite <- (app_assoc ([2] ++ _)). set (pre := [2] ++ be24 80 ++ version ++ srandom). assert (zlen pre = 38) as Hn by (unfold pre, zlen; rewrite !length_app; cbn [length be24]; lia).
  set (tl := (_ ++ r)). assert (tl = 0 :: s1 :: s2 :: 0 :: 0 :: 40 :: 0 :: 0x33 :: 0 :: 36 :: 0 :: 0x1d :: 0 :: 32 :: pub ++ r) as Et by done. clearbody tl. subst tl.
  unfold parse_server_hello. change (84 <? 4) with false. assert (forall x, u8_at (pre ++ x) 0 = Ret 2) as -> by exact (fun x => u8_at_off [] (pre ++ x) 0 0 2 eq_refl (Z.le_refl 0) eq_refl). cbn [mbind res_bind]. change (negb (2 =? HS_SERVER_HELLO)) with false. change (4 + 2 + 32) with 38. change (84 <=? 38) with false.
  pose proof (u8_at_off pre (0 :: s1 :: s2 :: 0 :: 0 :: 40 :: 0 :: 0x33 :: 0 :: 36 :: 0 :: 0x1d :: 0 :: 32 :: pub ++ r) 38 0 0 Hn ltac:(lia) eq_refl) as E. rewrite Z.add_0_r in E. rewrite E. clear E. cbn [mbind res_bind].
  change (38 + 1 + (0 + 2 + 1)) with (38 + 4). change (84 <? 38 + 4 + 2) with false. rewrite (be16_at_off pre _ 38 4 0 40 Hn) by done. cbn [mbind res_bind].
  change (Z.lor (Z.shiftl 0 8) 40) with 40. change (Z.to_nat 40) with 40%nat. cbn [hello_ext_loop]. change (38 + 4 + 2 + 4 <=? 38 + 4 + 2 + 40) with true. cbn [negb].
  change (38 + 4 + 2 + 2) with (38 + 8). change (38 + 4 + 2 + 4) with (38 + 10). change (38 + 4 + 2) with (38 + 6).
  rewrite (be16_at_off pre _ 38 6 0 0x33 Hn), (be16_at_off pre _ 38 8 0 36 Hn) by done. cbn [mbind res_bind]. change (Z.lor (Z.shiftl 0 8) 0x33 =? 0x33) with true. change (Z.lor (Z.shiftl 0 8) 36 <? 36) with false. cbn match.
  rewrite (be16_at_off pre _ 38 10 0 0x1d Hn) by done. cbn [mbind res_bind]. change (negb (Z.lor (Z.shiftl 0 8) 0x1d =? 0x1d)) with false. cbn match. change (38 + 10 + 4) with 52.
  rewrite get_ret by (rewrite ?X509.zlen_app; unfold zlen in *; cbn [length]; rewrite ?length_app; lia). cbn [mbind res_bind]. set (l := pre ++ _). assert (take (Z.to_nat 32) (drop (Z.to_nat 52) l) = pub) as ->; [|done]. unfold l.
  change (Z.to_nat 52) with (38 + 14)%nat. change (Z.to_nat 32) with 32%nat.
  rewrite <- drop_drop. assert (length pre = 38%nat) as <- by (unfold zlen in Hn; lia). rewrite drop_app_length. cbn [drop]. rewrite drop_0, <- Hp. apply take_app_length.
Qed.

Section forged.
Context {N : Type} `{!NetStack N} `{!TcpStream N} (ticks : N -> Z) (rounds : nat) (Hrounds : TLS_REC_BUF <= Z.of_nat rounds).
Context (stack : Sha.Sha256) (Hstack : length (Sha.buf stack) = 64%nat) (junk : list Z) (Hjunk : length junk = 32%nat) (aes0 : Aes.Aes128) (addr addr_st : Z).

(** What the handshake leaves alone on the way. *)
Definition untouched (s s' : State (N := N)) : Prop := tls_conns s' = tls_conns s /\ tls_last_cert s' = tls_last_cert s /\ tls_last_cert_valid s' = tls_last_cert_valid s.

Lemma untouched_trans s1 s2 s3 : untouched s1 s2 -> untouched s2 s3 -> untouched s1 s3.
Proof. intros (A1 & A2 & A3) (B1 & B2 & B3). split; [congruence|split; congruence]. Qed.

Lemma send_client_hello_spec host c (s : State) : length (c_pub c) = 32%nat -> host_len host <= 528 ->
  let ch := client_hello (fst (client_random (ticks (net s)) addr_st (prng_st s))) (c_pub c) host in
  exists s', send_client_hello ticks addr_st host c s = Ret (absorb ch (zlen ch) c, s') /\ pending (tcp_id c) (net s') = pending (tcp_id c) (net s) /\ rec_buf s' = rec_buf s /\ untouched s s'.
Proof.
  intros Hp Hh. unfold send_client_hello. pose proof (length_client_random (ticks (net s)) addr_st (prng_st s)) as Hr. destruct (client_random (ticks (net s)) addr_st (prng_st s)) as [random st]. cbn [fst] in *.
  set (ch := client_hello random (c_pub c) host). assert (zlen ch = 112 + host_len host) as Hl by (by apply zlen_client_hello). unfold CH_BUF. rewrite (proj2 (Z.ltb_ge 640 (zlen ch))) by lia.
  set (w := tcp_send_all _ ch _). eexists. split; [reflexivity|]. split; [|done]. change (pending (tcp_id c) w = pending (tcp_id c) (net s)). unfold w. by rewrite !(proj2 (send_all_spec _ _ _)).
Qed.

(** A record, with what stays. *)
Lemma read_record_keeps c (s : State) t v1 v2 body rest :
  pending (tcp_id c) (net s) = record t v1 v2 body ++ rest -> zlen body <= TLS_REC_BUF -> zlen (rec_buf s) = TLS_REC_BUF ->
  exists s' r, read_record ticks rounds c s = Ret (s', Some (t, zlen body)) /\ pending (tcp_id c) (net s') = rest /\ rec_buf s' = body ++ r /\ zlen (rec_buf s') = TLS_REC_BUF /\
    untouched s s' /\ saved_hs_secret s' = saved_hs_secret s.
Proof.
  intros Hp Hb Hr. destruct (read_record_spec ticks rounds c s t v1 v2 body rest Hp Hb Hr Hrounds) as (w & E & Hw). destruct (put_front (rec_buf s) body) as (r & Er & Lr); [lia|].
  eexists _, r. split; [exact E|]. split; [exact Hw|]. split; [exact Er|]. split; [|done]. change (zlen (put (rec_buf s) 0 body) = TLS_REC_BUF). by rewrite Er, Lr.
Qed.

(** A message of type HS_FINISHED alone in a record. *)
Definition finished_message (verify : list Z) : list Z := [HS_FINISHED; 0; 0; 32] ++ verify.

Lemma hs_scan_finished verify r (s : State (N := N)) : length verify = 32%nat -> hs_scan (Z.to_nat (zlen (finished_message verify))) (finished_message verify ++ r) 0 (zlen (finished_message verify)) false s = Ret (s, true).
Proof.
  intros Hv. assert (zlen (finished_message verify) = 36) as -> by (unfold finished_message, zlen; rewrite length_app; cbn [length]; lia). change (Z.to_nat 36) with (S 35). generalize 35%nat as fuel. intros fuel. cbn [hs_scan].
  change (0 + 4 <=? 36) with true. cbn [negb]. unfold finished_message. rewrite <- app_assoc. set (d := [HS_FINISHED; 0; 0; 32] ++ verify ++ r).
  assert (u8_at d 0 = Ret HS_FINISHED) as -> by exact (u8_at_off [] d 0 0 HS_FINISHED eq_refl (Z.le_refl 0) eq_refl). cbn [mbind res_bind]. unfold be24_at.
  assert (u8_at d (0 + 1) = Ret 0) as -> by exact (u8_at_off [] d 0 1 0 eq_refl ltac:(discriminate) eq_refl). cbn [mbind res_bind].
  assert (u8_at d (0 + 1 + 1) = Ret 0) as -> by exact (u8_at_off [] d 0 2 0 eq_refl ltac:(discriminate) eq_refl). cbn [mbind res_bind].
  assert (u8_at d (0 + 1 + 2) = Ret 32) as -> by exact (u8_at_off [] d 0 3 32 eq_refl ltac:(discriminate) eq_refl). cbn [mbind res_bind].
  change (HS_FINISHED =? HS_FINISHED) with true. change ((HS_FINISHED =? HS_CERTIFICATE) && (4 <? Z.lor (Z.lor (Z.shiftl 0 16) (Z.shiftl 0 8)) 32)) with false. cbn match. cbn [mbind res_bind].
  change (0 + (4 + Z.lor (Z.lor (Z.shiftl 0 16) (Z.shiftl 0 8)) 32)) with 36. destruct fuel; reflexivity.
Qed.

Lemma absorbed_more c m data r : Sha.Absorbed (transcript c) m -> zlen m < 2 ^ 32 -> zlen data < 2 ^ 32 -> Sha.Absorbed (transcript (absorb (data ++ r) (zlen data) c)) (m ++ data).
Proof.
  intros Ha Hm Hd. pose proof (zlen_nonneg data). pose proof (zlen_nonneg r). pose proof (Sha.update_absorbed (transcript c) m (data ++ r) (zlen data) Ha) as H1. rewrite X509.zlen_app in H1.
  assert (take (Z.to_nat (zlen data)) (data ++ r) = data) as E by (unfold zlen; rewrite Nat2Z.id; apply take_app_length). rewrite E in H1. apply H1; lia.
Qed.

Lemma zlen_finished verify : length verify = 32%nat -> zlen (finished_message verify) = 36.
Proof. intros Hv. unfold finished_message, zlen. rewrite length_app. cbn [length]. lia. Qed.

Lemma hs_loop_finished c (s : State) verify rest : length verify = 32%nat -> zlen (rec_buf s) = TLS_REC_BUF ->
  pending (tcp_id c) (net s) = record 0x17 3 3 (seal aes0 (hs_s_key c) (hs_s_iv c) (hs_s_seq c) TLS_HANDSHAKE (finished_message verify)) ++ rest ->
  exists s' r, hs_loop ticks rounds aes0 30 c s = Ret (s', absorb (finished_message verify ++ r) 36 (c <| hs_s_seq := u64 (hs_s_seq c + 1) |>), true) /\ untouched s s' /\ saved_hs_secret s' = saved_hs_secret s.
Proof.
  intros Hv Hr Hp. pose proof (zlen_finished verify Hv) as Hz. change 30%nat with (S 29). generalize 29%nat as passes. intros passes. cbn [hs_loop].
  set (m := finished_message verify) in *. set (body := seal aes0 (hs_s_key c) (hs_s_iv c) (hs_s_seq c) TLS_HANDSHAKE m) in *. assert (zlen body = 53) as Hb by (unfold body; rewrite zlen_seal by lia; lia).
  destruct (read_record_keeps c s 0x17 3 3 body rest Hp ltac:(rewrite Hb; discriminate) Hr) as (s1 & r & E & _ & Er & _ & Hu & Hsv). next E. change (0x17 =? TLS_ALERT) with false. change (negb (0x17 =? TLS_APP_DATA)) with false. cbv iota. rewrite Er.
  destruct (decrypt_record_spec aes0 (hs_s_key c) (hs_s_iv c) (hs_s_seq c) TLS_HANDSHAKE m r (record_header (zlen body))) as (buf & Ed & Hbuf & _); [done|rewrite Hz; done|]. fold body in Ed. rewrite Ed, Hz, Z.eqb_refl.
  assert (buf = m ++ drop (length m) buf) as Eb by (rewrite <- Hbuf at 1; by rewrite take_drop). set (r' := drop (length m) buf) in *. rewrite Eb.
  pose proof (hs_scan_finished verify r' (s1 <| rec_buf := m ++ r' |>) Hv) as Es. fold m in Es. rewrite Hz in Es. next Es. eexists _, r'. split; [reflexivity|]. done.
Qed.

Lemma send_finished_spec c (s : State (N := N)) : length (c_hs_traffic c) = 32%nat -> exists c' s', send_finished stack junk aes0 c s = Ret (c', s') /\ untouched s s' /\ same_session c c'.
Proof.
  intros Hc. unfold send_finished. next (expand_spec stack Hstack junk Hjunk (c_hs_traffic c) (lit "finished") junk Hc eq_refl ltac:(key_side) ltac:(unfold zlen; lia)).
  edestruct (send_encrypted_returns aes0) as (w' & seq & E); [|next E]; [done|]. eexists _, _. split; [reflexivity|]. done.
Qed.

Lemma sized_hs dhe th c : sized c -> sized (with_hs_keys dhe th c).
Proof. intros [S1 S2 S3 S4 S5 S6 S7 S8]. split; [apply zlen_key_of|apply zlen_iv_of|apply zlen_key_of|apply zlen_iv_of|exact S5|exact S6|exact S7|exact S8]. Qed.

Lemma sized_absorb c m len seq : sized c -> sized (absorb m len (c <| hs_s_seq := seq |>)).
Proof. intros [S1 S2 S3 S4 S5 S6 S7 S8]. split; assumption. Qed.

(** Everything in the flight but the keys is chosen freely. *)
Definition forged_flight (priv ch version srandom suite pub verify : list Z) : list Z :=
  let sh := server_hello version srandom suite pub in
  let st := derive_ref (handshake_secret (X.x25519_shared priv pub)) (lit "s hs traffic") (Sha.sha256_ref (ch ++ sh)) in
  record 0x16 3 3 sh ++ record 0x17 3 3 (seal aes0 (key_of st) (iv_of st) 0 TLS_HANDSHAKE (finished_message verify)).

Lemma handshake_forged host c (s : State) version srandom suite pub verify rest :
  length (c_pub c) = 32%nat -> host_len host <= 528 -> Sha.Absorbed (transcript c) [] -> sized c -> zlen (rec_buf s) = TLS_REC_BUF ->
  length version = 2%nat -> length srandom = 32%nat -> length suite = 2%nat -> length pub = 32%nat -> length verify = 32%nat ->
  pending (tcp_id c) (net s) = forged_flight (c_priv c) (client_hello (fst (client_random (ticks (net s)) addr_st (prng_st s))) (c_pub c) host) version srandom suite pub verify ++ rest ->
  exists s' c', handshake ticks rounds stack junk aes0 addr_st host c s = Ret (s', c', true) /\ untouched s s' /\ used c' = used c /\ tcp_id c' = tcp_id c /\ state c' = 1.
Proof.
  intros Hpub Hh Ha Hsz Hrec Hv Hsr Hsu Hp Hvf Hpend. unfold handshake. destruct (send_client_hello_spec host c s Hpub Hh) as (s1 & E1 & P1 & R1 & U1). set (ch := client_hello _ (c_pub c) host) in *.
  assert (zlen ch < 2 ^ 31) as Hch by (unfold ch; rewrite zlen_client_hello by (apply length_client_random || exact Hpub); lia).
  next E1. unfold forged_flight in Hpend. set (sh := server_hello version srandom suite pub) in *. cbv zeta in Hpend. set (dhe := X.x25519_shared (c_priv c) pub) in *.
  set (st := derive_ref (handshake_secret dhe) (lit "s hs traffic") (Sha.sha256_ref (ch ++ sh))) in *. rewrite <- app_assoc in Hpend.
  assert (zlen sh = 84) as Hsh by (unfold sh, server_hello, zlen; rewrite !length_app; cbn [length be24 be16]; lia).
  set (c1 := absorb ch (zlen ch) c).
  destruct (read_record_keeps c1 s1 0x16 3 3 sh _ (eq_trans P1 Hpend) ltac:(rewrite Hsh; discriminate) ltac:(by rewrite R1)) as (s2 & r & E2 & P2 & Er & R2 & U2 & _).
  assert (hello_loop ticks rounds 5 c1 s1 = Ret (s2, Some (0x16, zlen sh))) as E3.
  { change 5%nat with (S 4). generalize 4%nat as spare. intros spare. cbn [hello_loop]. next E2. reflexivity. }
  next E3. change (negb (0x16 =? TLS_HANDSHAKE)) with false. cbv iota zeta. rewrite Er. set (c2 := absorb (sh ++ r) (zlen sh) c1).
  pose proof (parse_server_hello_spec version srandom suite pub r c2 Hv Hsr Hsu Hp) as E4. change (server_hello version srandom suite pub) with sh in E4. next E4. change (negb (0 =? 0)) with false. cbv iota zeta.
  assert (Sha.Absorbed (transcript c1) ch) as A1 by (pose proof (absorbed_more c [] ch [] Ha ltac:(done) ltac:(lia)) as A; by rewrite app_nil_r in A).
  assert (Sha.Absorbed (transcript c2) (ch ++ sh)) as A2 by (apply absorbed_more; [exact A1|lia|lia]).
  set (c3 := c2 <| s_pub := pub |>). set (c4 := c3 <| ecdhe := X.x25519_shared (c_priv c3) (s_pub c3) |>). set (th1 := Sha.sha256_ref (ch ++ sh)) in *.
  assert (transcript_hash c4 = th1) as T4 by (apply transcript_hash_spec; [exact A2|rewrite X509.zlen_app; lia]). rewrite T4. assert (ecdhe c4 = dhe) as D4 by reflexivity. assert (sized c4) as S4 by (destruct Hsz; split; assumption).
  pose proof (derive_hs_keys_spec stack Hstack junk Hjunk th1 c4 s2 (Sha.length_ref _) (length_shared (c_priv c) pub) S4) as E5. rewrite D4 in E5. next E5.
  set (c5 := with_hs_keys dhe th1 c4). set (s3 := s2 <| saved_hs_secret := handshake_secret dhe |>).
  destruct (hs_loop_finished c5 s3 verify rest Hvf R2 P2) as (s4 & r' & E6 & U4 & V4). next E6. change (negb true) with false. cbv iota zeta.
  set (c5' := c5 <| hs_s_seq := u64 (hs_s_seq c5 + 1) |>). set (fin := finished_message verify) in *. set (c6 := absorb (fin ++ r') 36 c5'). pose proof (zlen_finished verify Hvf : zlen fin = 36) as Hz.
  assert (Sha.Absorbed (transcript c6) ((ch ++ sh) ++ fin)) as A6 by (pose proof (absorbed_more c5' (ch ++ sh) fin r' A2 ltac:(rewrite X509.zlen_app; lia) ltac:(lia)) as A; rewrite Hz in A; exact A).
  set (th2 := Sha.sha256_ref ((ch ++ sh) ++ fin)). assert (transcript_hash c6 = th2) as T6 by (apply transcript_hash_spec; [exact A6|rewrite !X509.zlen_app; lia]). rewrite T6.
  pose proof (sized_absorb c5 (fin ++ r') 36 (u64 (hs_s_seq c5 + 1)) (sized_hs dhe th1 c4 S4) : sized c6) as S6.
  next (derive_app_keys_spec stack Hstack junk Hjunk dhe th2 c6 s4 (Sha.length_ref _) V4 S6). set (c7 := with_app_keys dhe th2 c6).
  destruct (send_finished_spec c7 s4 (length_derive _ _ _)) as (c8 & s5 & E8 & U5 & (W1 & W2 & _)). next E8. exists s5, (c8 <| state := 1 |>). split; [reflexivity|].
  split; [|split; [exact W1|split; [exact W2|reflexivity]]]. exact (untouched_trans _ _ _ U1 (untouched_trans _ _ _ U2 (untouched_trans _ _ _ U4 U5))).
Qed.

End forged.
(** C22: The handshake authenticates nobody.  Whoever can answer the ClientHello with a key of their own
    completes it: neither the version and the suite of the ServerHello nor the verify data of
    the Finished message are looked at, and no Certificate and no CertificateVerify has to
    come.  The connection is then open, and the host name is checked against the
    certificate of whichever connection sent one before. *)
Theorem tls13_authenticates_nobody {N : Type} `{!NetStack N} `{!TcpStream N} (ticks : N -> Z) rounds stack junk aes0 addr addr_st id i host (s : State) version srandom suite pub verify rest :
  TLS_REC_BUF <= Z.of_nat rounds -> length (Sha.buf stack) = 64%nat -> length junk = 32%nat ->
  zlen (tls_conns s) = TLS_MAX_CONN -> zlen (rec_buf s) = TLS_REC_BUF -> scan (fun i => used (tls_conns s).[i] =? 0) 0 (Z.to_nat TLS_MAX_CONN) = Some i ->
  host_len host <= 528 -> length version = 2%nat -> length srandom = 32%nat -> length suite = 2%nat -> length pub = 32%nat -> length verify = 32%nat ->
  let priv := fst (X.x25519_generate_private (ticks (net s)) addr (prng_state s)) in
  let ch := client_hello (fst (client_random (ticks (net s)) addr_st (prng_st s))) (X.x25519_public priv) host in
  pending id (net s) = forged_flight aes0 priv ch version srandom suite pub verify ++ rest ->
  exists s', tls13_connect ticks rounds stack junk aes0 addr addr_st id host s = Ret (s', 0) /\ tls13_is_open id s' = 1 /\
    (forall h, tls13_check_hostname h s' = tls13_check_hostname h s).
Proof.
  intros Hr Hs Hj Hc Hrec Hi Hh Hv Hsr Hsu Hp Hvf priv ch Hpend. unfold tls13_connect. rewrite Hi. cbv zeta. subst priv. destruct (X.x25519_generate_private (ticks (net s)) addr (prng_state s)) as [priv st]. cbn [fst] in ch, Hpend.
  set (c := _ <| c_pub := X.x25519_public priv |>). set (s0 := s <| prng_state := st |>). assert (Sha.Absorbed (transcript c) []) as Ha by (apply Sha.init_absorbed; reflexivity). assert (sized c) as Hsz by (split; reflexivity).
  destruct (handshake_forged ticks rounds Hr stack Hs junk Hj aes0 addr_st host c s0 version srandom suite pub verify rest (length_public priv) Hh Ha Hsz Hrec Hv Hsr Hsu Hp Hvf Hpend)
    as (s' & c' & E & (U1 & U2 & U3) & Hu & Ht & Hst). next E. eexists. split; [reflexivity|]. change (tls_conns s0) with (tls_conns s) in U1. change (tls_last_cert s0) with (tls_last_cert s) in U2. change (tls_last_cert_valid s0) with (tls_last_cert_valid s) in U3.
  set (s2 := s' <| tls_conns := (tls_conns s').[i <- c'] |>). split.
  - pose proof (scan_Some _ _ _ _ Hi) as (Hir & _). unfold tls13_is_open. assert (is_Some (find_conn id s2)) as [k ->]; [|done]. apply (scan_is_Some _ _ _ i Hir). cbv zeta. change (tls_conns s2) with ((tls_conns s').[i <- c']).
    rewrite U1, aget_aset_eq by (rewrite Hc; exact Hir). rewrite Hu, Ht, Hst. change (used c) with 1. change (tcp_id c) with id. by rewrite Z.eqb_refl.
  - intros h. unfold tls13_check_hostname. change (tls_last_cert_valid s2) with (tls_last_cert_valid s'). change (tls_last_cert s2) with (tls_last_cert s'). by rewrite U2, U3.
Qed.

Definition demo_flight : list Z :=
  let priv := fst (X.x25519_generate_private 7 100 0) in
  forged_flight {| Aes.rk := replicate 44 0 |} priv (client_hello (fst (client_random 7 200 0)) (X.x25519_public priv) (Some (lit "bank.example"))) [9; 9] (replicate 32 1) [0; 0] X.BASE_POINT (replicate 32 0).

Lemma tls13_authenticates_nobody_witness :
  let s := mkState (replicate 4 zero_conn) X509.zero_cert 0 0 0 (bytes0 TLS_REC_BUF) (bytes0 32) (mkWire (demo_flight ++ []) [] [3; 1000] 7) in
  exists s', tls13_connect clock (Z.to_nat TLS_REC_BUF) Sha.junk (bytes0 32) {| Aes.rk := replicate 44 0 |} 100 200 5 (Some (lit "bank.example")) s = Ret (s', 0) /\ tls13_is_open 5 s' = 1 /\
    (forall h, tls13_check_hostname h s' = tls13_check_hostname h s).
Proof.
  intros s. apply (tls13_authenticates_nobody clock (Z.to_nat TLS_REC_BUF) Sha.junk (bytes0 32) {| Aes.rk := replicate 44 0 |} 100 200 5 0 (Some (lit "bank.example")) s [9; 9] (replicate 32 1) [0; 0] X.BASE_POINT (replicate 32 0) []).
  - vm_compute. discriminate.
  - reflexivity.
  - reflexivity.
  - reflexivity.
  - change (rec_buf s) with (bytes0 TLS_REC_BUF). vm_compute. reflexivity.
  - reflexivity.
  - vm_compute. discriminate.
  - reflexivity.
  - reflexivity.
  - reflexivity.
  - reflexivity.
  - reflexivity.
  - reflexivity.
Defined.

(** A host name of more than 528 characters (with what the extension needs) overruns the buffer
    of the ClientHello. *)
Lemma tls13_long_host_overruns {N : Type} `{!NetStack N} (ticks : N -> Z) addr_st host c (s : State) : length (c_pub c) = 32%nat -> 528 < host_len host -> send_client_hello ticks addr_st host c s = UB.
Proof.
  intros Hp Hh. unfold send_client_hello. pose proof (length_client_random (ticks (net s)) addr_st (prng_st s)) as Hr. destruct (client_random _ _ _) as [random st]. cbn [fst] in Hr. cbv zeta.
  rewrite zlen_client_hello by done. unfold CH_BUF. by rewrite (proj2 (Z.ltb_lt 640 _)) by lia.
Qed.

End Tls.
