(* ===== verification/Packet.v ===== *)
(** * net.c: checksums, ARP cache, outgoing frames and DNS messages

    The part of net.c without connections.  A frame is the list of its bytes; the frames
    handed to the card are collected in [sent].  [pkt_buf] is written from its start for
    every frame, so a frame is what the builder writes; one longer than [pkt_buf] is
    [None].  Reading a received message outside its bytes is [None] as well. *)

From Stdlib Require Import ZArith Lia.
From stdpp Require Import base numbers list tactics.
From S2P Require Import Prelude.

Module Pkt.

Definition ARP_CACHE : Z := 8.
Definition PKT_BUF : Z := 1514.
Definition ICMP_ID : Z := 0x4D59.
Definition BCAST_MAC : list Z := replicate 6 0xFF.

Record ArpEntry := mkArp { arp_ip : list Z; arp_mac : list Z; valid : Z }.
#[global] Instance inhabited_ArpEntry : Inhabited ArpEntry := populate (mkArp (replicate 4 0) (replicate 6 0) 0).

Record Eth := mkEth {
  my_mac : list Z; MY_IP : list Z; GW_IP : list Z; arp_tbl : list ArpEntry; ip_id_counter : Z;
  rtl8139_present : bool; sent : list (list Z) }.
#[global] Instance settable_Eth : Settable Eth := {| rebuild s :=
  mkEth (my_mac s) (MY_IP s) (GW_IP s) (arp_tbl s) (ip_id_counter s) (rtl8139_present s) (sent s) |}.

#[global] Instance inhabited_Eth : Inhabited Eth := populate (mkEth (replicate 6 0) (replicate 4 0) (replicate 4 0) (replicate 8 inhabitant) 1 false []).

(** ** Checksums *)

Definition hi (x : Z) : Z := u8 (Z.shiftr x 8).
Definition lo (x : Z) : Z := u8 (Z.land x 0xFF).

(** The sum of the 16-bit words of [data], the last byte padded. *)
Fixpoint sum16 (data : list Z) (sum : Z) : Z :=
  match data with
  | a :: b :: data => sum16 data (u32 (sum + Z.lor (Z.shiftl a 8) b))
  | [a] => u32 (sum + Z.shiftl a 8)
  | [] => sum
  end.

(** [while (sum >> 16) ...]; three rounds are enough for 32 bits. *)
Fixpoint fold16 (fuel : nat) (sum : Z) : Z :=
  match fuel with
  | O => sum
  | S fuel => if truth (Z.shiftr sum 16) then fold16 fuel (Z.land sum 0xFFFF + Z.shiftr sum 16) else sum
  end.

Definition cksum_of (sum : Z) : Z := u16 (Z.lnot (fold16 3 sum)).

Definition inet_cksum (data : list Z) (len : Z) : Z := cksum_of (sum16 (take (Z.to_nat len) data) 0).

Definition pseudo_header (src_ip dst_ip : list Z) (proto seg_len : Z) : list Z :=
  take 4 src_ip ++ take 4 dst_ip ++ [0; proto; hi seg_len; lo seg_len].

Definition transport_cksum (src_ip dst_ip : list Z) (proto : Z) (seg : list Z) (seg_len : Z) : Z :=
  cksum_of (sum16 (take (Z.to_nat seg_len) seg) (sum16 (pseudo_header src_ip dst_ip proto seg_len) 0)).

(** ** The ARP cache *)

Definition meq (a b : list Z) : bool := bool_decide (a = b).

Definition arp_cache_put (ip mac : list Z) (s : Eth) : Eth :=
  match scan (fun i => negb (truth (valid (arp_tbl s).[i])) || meq (arp_ip (arp_tbl s).[i]) ip) 0 (Z.to_nat ARP_CACHE) with
  | Some i => s <| arp_tbl := (arp_tbl s).[i <- mkArp ip mac 1] |>
  | None => s <| arp_tbl := (arp_tbl s).[0 <- mkArp ip mac (valid (arp_tbl s).[0])] |>
  end.

Definition arp_cache_get (ip : list Z) (s : Eth) : option (list Z) :=
  (fun i => arp_mac (arp_tbl s).[i]) <$>
    scan (fun i => truth (valid (arp_tbl s).[i]) && meq (arp_ip (arp_tbl s).[i]) ip) 0 (Z.to_nat ARP_CACHE).

(** ** Outgoing frames *)

Definition eth_hdr (dst : list Z) (ethertype : Z) (s : Eth) : list Z := take 6 dst ++ take 6 (my_mac s) ++ [hi ethertype; lo ethertype].

Definition rtl8139_send (frame : list Z) (s : Eth) : Eth := s <| sent := sent s ++ [frame] |>.

Definition arp_packet (oper : Z) (tha tpa : list Z) (s : Eth) : list Z :=
  [0; 1; 8; 0; 6; 4; 0; oper] ++ take 6 (my_mac s) ++ take 4 (MY_IP s) ++ take 6 tha ++ take 4 tpa.

Definition arp_send_request (target_ip : list Z) (s : Eth) : Eth :=
  rtl8139_send (eth_hdr BCAST_MAC 0x0806 s ++ arp_packet 1 BCAST_MAC target_ip s) s.

Definition arp_send_reply (req_mac req_ip : list Z) (s : Eth) : Eth :=
  rtl8139_send (eth_hdr req_mac 0x0806 s ++ arp_packet 2 req_mac req_ip s) s.

(** The IPv4 header, its checksum filled in at the end. *)
Definition ip_header (tlen proto : Z) (dst_ip : list Z) (s : Eth) : list Z :=
  let id := ip_id_counter s in
  let head := [0x45; 0; hi tlen; lo tlen; hi id; lo id; 0; 0; 64; proto] in
  let tail := take 4 (MY_IP s) ++ take 4 dst_ip in
  let ck := inet_cksum (head ++ [0; 0] ++ tail) 20 in
  head ++ [hi ck; lo ck] ++ tail.

Definition next_id (s : Eth) : Eth := s <| ip_id_counter := u16 (ip_id_counter s + 1) |>.

Definition icmp_echo_send (dst_ip dst_mac : list Z) (seq : Z) (s : Eth) : Eth :=
  let head := [8; 0] in
  let tail := [hi ICMP_ID; lo ICMP_ID; hi seq; lo seq] ++ (u8 <$> seqZ 0 56) in
  let ck := inet_cksum (head ++ [0; 0] ++ tail) 64 in
  rtl8139_send (eth_hdr dst_mac 0x0800 s ++ ip_header 84 1 dst_ip s ++ head ++ [hi ck; lo ck] ++ tail) (next_id s).

Definition next_hop_ip (dst : list Z) (s : Eth) : list Z :=
  if (dst.[0] =? (MY_IP s).[0]) && (dst.[1] =? (MY_IP s).[1]) && (dst.[2] =? (MY_IP s).[2]) then dst else GW_IP s.

(** What net_udp_send() sends once the MAC is known. *)
Definition udp_tx (dst_ip dst_mac : list Z) (dst_port src_port : Z) (data : list Z) (dlen : Z) (s : Eth) : option Eth :=
  let udp_len := u16 (8 + dlen) in
  let ip_tlen := u16 (20 + udp_len) in
  let u := [hi src_port; lo src_port; hi dst_port; lo dst_port; hi udp_len; lo udp_len; 0; 0] in
  if PKT_BUF <? 14 + 20 + 8 + dlen then None
  else Some (rtl8139_send (take (Z.to_nat (u16 (14 + 20 + udp_len)))
               (eth_hdr dst_mac 0x0800 s ++ ip_header ip_tlen 17 dst_ip s ++ u ++ take (Z.to_nat dlen) data)) (next_id s)).

(** ** DNS *)

Definition DNS_PORT : Z := 53.
Definition DNS_SRC_PORT : Z := 5353.
Definition DNS_MAX_PKT : Z := 512.
Definition DNS_SERVER : list Z := [8; 8; 8; 8].

(** The label at the start of a name, and what follows it. *)
Fixpoint label (p : list Z) : list Z * list Z :=
  match p with
  | c :: p' => if c =? 46 then ([], p) else let '(l, r) := label p' in (c :: l, r)
  | [] => ([], [])
  end.

(** The labels of the name [p] after the bytes [buf]; [None] when they do not fit. *)
Fixpoint dns_labels (fuel : nat) (p buf : list Z) : option (list Z) :=
  match fuel, p with
  | _, [] => Some buf
  | O, _ => None
  | S fuel, _ =>
      let '(l, p) := label p in
      let llen := zlen l in
      if DNS_MAX_PKT <? zlen buf + 1 + llen + 5 then None
      else dns_labels fuel (if cget p 0 =? 46 then drop 1 p else p) (buf ++ [u8 llen] ++ l)
  end.

(** The query, or [None] for the result -1.  Every label takes a character, so the
    length of the name is enough fuel. *)
Definition dns_build_query (hostname : list Z) (txid : Z) : option (list Z) :=
  let p := cstr hostname in
  buf ← dns_labels (length p) p [hi txid; lo txid; 1; 0; 0; 1; 0; 0; 0; 0; 0; 0];
  Some (buf ++ [0; 0; 1; 0; 1]).

(** [buf[i]] *)
Definition rd (buf : list Z) (i : Z) : option Z := if (0 <=? i) && (i <? zlen buf) then Some buf.[i] else None.

Definition rd16 (buf : list Z) (i : Z) : option Z := h ← rd buf i; l ← rd buf (i + 1); Some (u16 (Z.lor (Z.shiftl h 8) l)).

(** Skipping a name; [ptr] tells that a compression pointer ends it.  Every round takes
    a byte: [len] rounds are enough. *)
Fixpoint skip_name (fuel : nat) (ptr : bool) (buf : list Z) (len pos : Z) : option Z :=
  match fuel with
  | O => Some pos
  | S fuel =>
      if pos <? len then
        llen ← rd buf pos;
        let pos := pos + 1 in
        if llen =? 0 then Some pos
        else if ptr && (Z.land llen 0xC0 =? 0xC0) then Some (pos + 1)
        else skip_name fuel ptr buf len (pos + llen)
      else Some pos
  end.

(** [if (pos < len && (buf[pos] & 0xC0) == 0xC0) pos += 2; else ...] *)
Definition skip_owner (buf : list Z) (len pos : Z) : option Z :=
  if pos <? len then
    c ← rd buf pos;
    if Z.land c 0xC0 =? 0xC0 then Some (pos + 2) else skip_name (Z.to_nat len) false buf len pos
  else skip_name (Z.to_nat len) false buf len pos.

(** The answer records; the inner option is the address found. *)
Fixpoint dns_answers (n : nat) (buf : list Z) (len pos : Z) : option (option (list Z)) :=
  match n with
  | O => Some None
  | S n =>
      if pos <? len then
        pos ← skip_owner buf len pos;
        if len <? pos + 10 then Some None
        else
          rtype ← rd16 buf pos; rdlen ← rd16 buf (pos + 8);
          let pos := pos + 10 in
          if (rtype =? 1) && (rdlen =? 4) && (pos + 4 <=? len) then
            a ← rd buf pos; b ← rd buf (pos + 1); c ← rd buf (pos + 2); d ← rd buf (pos + 3);
            Some (Some [a; b; c; d])
          else dns_answers n buf len (pos + rdlen)
      else Some None
  end.

Definition dns_parse_response (buf : list Z) (len txid : Z) : option (option (list Z)) :=
  if len <? 12 then Some None
  else
    rid ← rd16 buf 0;
    if negb (rid =? txid) then Some None
    else
      f ← rd buf 2;
      if negb (truth (Z.land f 0x80)) then Some None
      else
        ancount ← rd16 buf 6;
        if ancount =? 0 then Some None
        else
          pos ← skip_name (Z.to_nat len) true buf len 12;
          dns_answers (Z.to_nat ancount) buf len (pos + 4).

(** ** Checksums verify *)

(** The sum of the words without bounds. *)
Fixpoint words (data : list Z) : Z :=
  match data with a :: b :: data => 256 * a + b + words data | [a] => 256 * a | [] => 0 end.

Lemma pairs_ind (P : list Z -> Prop) : P [] -> (forall a, P [a]) -> (forall a b l, P l -> P (a :: b :: l)) -> forall l, P l.
Proof.
  intros H0 H1 H2. fix IH 1. intros [|a [|b l]]; [exact H0|exact (H1 a)|]. apply H2. apply IH.
Qed.

Lemma words_bound data : Forall byte data -> 0 <= words data <= 65535 * ((zlen data + 1) / 2).
Proof.
  revert data. apply (pairs_ind (fun data => Forall byte data -> 0 <= words data <= 65535 * ((zlen data + 1) / 2))).
  - intros _. cbn. done.
  - intros a [Ha _]%Forall_cons_1. unfold byte in Ha. change ((zlen [a] + 1) / 2) with 1. cbn [words]. lia.
  - intros a b l IH [Ha [Hb Hl]%Forall_cons_1]%Forall_cons_1. specialize (IH Hl). unfold byte in *. cbn [words].
    assert (zlen (a :: b :: l) = zlen l + 2) as -> by (unfold zlen; cbn [length]; lia).
    replace (zlen l + 2 + 1) with (zlen l + 1 + 1 * 2) by lia. rewrite Z.div_add by lia. lia.
Qed.

Lemma word_join a b : byte b -> Z.lor (Z.shiftl a 8) b = 256 * a + b.
Proof. intros Hb. rewrite Z.lor_comm, lor_shiftl by (unfold byte in Hb; lia). change (2 ^ 8) with 256. lia. Qed.

Lemma sum_words data : Forall byte data -> forall s, 0 <= s -> s + words data < 2 ^ 32 -> sum16 data s = s + words data.
Proof.
  revert data. apply (pairs_ind (fun data => Forall byte data -> forall s, 0 <= s -> s + words data < 2 ^ 32 -> sum16 data s = s + words data)).
  - intros _ s _ _. cbn. lia.
  - intros a [Ha _]%Forall_cons_1 s Hs Hm. cbn [words sum16] in *. unfold byte in Ha. rewrite Z.shiftl_mul_pow2 by lia.
    change (2 ^ 8) with 256. rewrite u32_small by lia. lia.
  - intros a b l IH [Ha [Hb Hl]%Forall_cons_1]%Forall_cons_1 s Hs Hm. cbn [words sum16] in *. rewrite word_join by done.
    pose proof (words_bound l Hl). unfold byte in *. rewrite u32_small by lia. rewrite IH by (done || lia). lia.
Qed.

Lemma fold_step s : 0 <= s -> truth (Z.shiftr s 16) = negb (s <? 65536) /\
  Z.land s 0xFFFF + Z.shiftr s 16 = s - 65535 * (s / 65536).
Proof.
  intros Hs. change (Z.land s 0xFFFF) with (Z.land s (Z.ones 16)). rewrite Z.land_ones, Z.shiftr_div_pow2 by lia. change (2 ^ 16) with 65536.
  split; [|Z.to_euclidean_division_equations; lia]. unfold truth. f_equal.
  destruct (Z.ltb_spec s 65536), (Z.eqb_spec (s / 65536) 0); try done; Z.to_euclidean_division_equations; lia.
Qed.

(** Folding keeps the value modulo 65535, and is 0 for 0 only. *)
Lemma fold_spec s : 0 <= s < 2 ^ 32 -> exists k, (fold16 3 s = s - 65535 * k /\ 0 <= k) /\ 0 <= fold16 3 s < 65536 /\ (fold16 3 s = 0 -> s = 0).
Proof.
  intros Hs. cbn [fold16]. destruct (fold_step s ltac:(lia)) as [-> ->]. destruct (Z.ltb_spec s 65536); cbn [negb]; [exists 0; lia|].
  set (s1 := s - 65535 * (s / 65536)). assert (0 < s1 <= 131070) as H1 by (unfold s1; Z.to_euclidean_division_equations; lia).
  destruct (fold_step s1 ltac:(lia)) as [-> ->]. destruct (Z.ltb_spec s1 65536); cbn [negb]; [exists (s / 65536); pose proof (Z.div_pos s 65536 ltac:(lia) ltac:(lia)); lia|].
  set (s2 := s1 - 65535 * (s1 / 65536)). assert (0 < s2 < 65536) as H2 by (unfold s2; Z.to_euclidean_division_equations; lia).
  destruct (fold_step s2 ltac:(lia)) as [-> _]. rewrite (proj2 (Z.ltb_lt _ _)) by lia. cbn [negb].
  exists (s / 65536 + s1 / 65536). pose proof (Z.div_pos s 65536 ltac:(lia) ltac:(lia)). pose proof (Z.div_pos s1 65536 ltac:(lia) ltac:(lia)). 
  assert (s2 = s1 - 65535 * (s1 / 65536)) by done. assert (s1 = s - 65535 * (s / 65536)) by done. clearbody s2 s1. lia.
Qed.

Lemma cksum_fold s : 0 <= s < 2 ^ 32 -> cksum_of s = 65535 - fold16 3 s.
Proof.
  intros Hs. destruct (fold_spec s Hs) as (k & _ & Hf & _). unfold cksum_of, u16, Z.lnot. set (f := fold16 3 s) in *.
  symmetry. apply (Z.mod_unique _ _ (-1)); lia.
Qed.

Lemma hi_lo x : 0 <= x < 65536 -> 256 * hi x + lo x = x /\ byte (hi x) /\ byte (lo x).
Proof.
  intros Hx. unfold hi, lo, byte. change 0xFF with (Z.ones 8). rewrite Z.land_ones, Z.shiftr_div_pow2 by lia. change (2 ^ 8) with 256.
  rewrite !(u8_small) by (Z.to_euclidean_division_equations; lia). Z.to_euclidean_division_equations; lia.
Qed.

(** Adding the checksum makes the checksum 0. *)
Lemma cksum_zero x : 0 <= x -> x + 65535 < 2 ^ 32 -> cksum_of (x + cksum_of x) = 0.
Proof.
  intros Hx Hm. rewrite (cksum_fold x) by lia. destruct (fold_spec x ltac:(lia)) as (k & (Ek & Hk0) & Hk & Hz).
  set (f := fold16 3 x) in *. rewrite cksum_fold by lia.
  destruct (fold_spec (x + (65535 - f)) ltac:(lia)) as (k' & (Ek' & Hk0') & Hk' & Hz'). set (f' := fold16 3 (x + (65535 - f))) in *.
  assert (f' = 65535 * (k + 1 - k')) by lia. assert (f' <> 0) by (intros E; apply Hz' in E; lia).
  assert (k + 1 - k' = 1) by lia. lia.
Qed.

Lemma words_app pre post : Nat.even (length pre) = true -> words (pre ++ post) = words pre + words post.
Proof.
  revert pre. apply (pairs_ind (fun pre => Nat.even (length pre) = true -> words (pre ++ post) = words pre + words post)).
  - done.
  - done.
  - intros a b l IH He. cbn [words app]. rewrite IH by done. lia.
Qed.

(** A checksum over data with a zero field, put into the field. *)
Lemma cksum_field pre post base : Forall byte pre -> Forall byte post -> Nat.even (length pre) = true ->
  0 <= base < 2 ^ 20 -> zlen pre + zlen post < 2 ^ 16 ->
  let ck := cksum_of (sum16 (pre ++ [0; 0] ++ post) base) in
  byte (hi ck) /\ byte (lo ck) /\ cksum_of (sum16 (pre ++ [hi ck; lo ck] ++ post) base) = 0.
Proof.
  intros Hpre Hpost He Hb Hlen ck.
  assert (forall a b, byte a -> byte b -> sum16 (pre ++ [a; b] ++ post) base = base + words pre + words post + (256 * a + b)) as Hsum.
  { intros a b Ha Hbb. pose proof (words_bound pre Hpre) as B1. pose proof (words_bound post Hpost) as B2.
    pose proof (zlen_nonneg pre). pose proof (zlen_nonneg post).
    assert (words (pre ++ [a; b] ++ post) = words pre + (256 * a + b + words post)) as Ew by (rewrite words_app by done; done).
    assert ((zlen pre + 1) / 2 + (zlen post + 1) / 2 <= 32769) by (Z.to_euclidean_division_equations; lia).
    rewrite sum_words; [rewrite Ew; lia| |lia|rewrite Ew; unfold byte in *; lia].
    apply Forall_app. split; [done|]. by repeat apply Forall_cons_2. }
  assert (byte 0) as H00 by (unfold byte; lia).
  pose proof (Hsum 0 0 H00 H00) as H0. pose proof (words_bound pre Hpre) as B1. pose proof (words_bound post Hpost) as B2.
  pose proof (zlen_nonneg pre). pose proof (zlen_nonneg post).
  assert ((zlen pre + 1) / 2 + (zlen post + 1) / 2 <= 32769) by (Z.to_euclidean_division_equations; lia).
  assert (0 <= ck < 65536) as Hck.
  { unfold ck. rewrite cksum_fold by (rewrite H0; lia). destruct (fold_spec (sum16 (pre ++ [0; 0] ++ post) base)) as (? & _ & ? & _); [rewrite H0; lia|lia]. }
  destruct (hi_lo ck Hck) as (E & Hh & Hl). split_and!; [done|done|]. rewrite Hsum by done. rewrite E.
  unfold ck at 1. rewrite H0. replace (base + words pre + words post + (256 * 0 + 0)) with (base + words pre + words post) by lia.
  apply cksum_zero; lia.
Qed.

(** ** DNS messages *)

Lemma rd_in buf i : 0 <= i < zlen buf -> rd buf i = Some buf.[i].
Proof. intros Hi. unfold rd. by rewrite (proj2 (Z.leb_le _ _)), (proj2 (Z.ltb_lt _ _)) by lia. Qed.

Lemma rd_byte buf i b : Forall byte buf -> rd buf i = Some b -> byte b.
Proof.
  intros Hb. unfold rd. destruct ((0 <=? i) && (i <? zlen buf)) eqn:E; [|done]. intros [= <-]. bool_to_prop.
  rewrite Forall_aget in Hb. by apply Hb.
Qed.

Lemma rd16_in buf i : 0 <= i -> i + 1 < zlen buf -> exists v, rd16 buf i = Some v /\ 0 <= v.
Proof.
  intros. unfold rd16. rewrite !rd_in by lia. cbn [mbind option_bind]. eexists. split; [done|]. apply Z.mod_pos_bound. lia.
Qed.

Lemma skip_name_in fuel ptr buf len : Forall byte buf -> len <= zlen buf -> forall pos, 0 <= pos ->
  exists pos', skip_name fuel ptr buf len pos = Some pos' /\ pos <= pos'.
Proof.
  intros Hb Hl. induction fuel as [|fuel IH]; intros pos Hp; cbn [skip_name]; [by exists pos|].
  destruct (Z.ltb_spec pos len); [|by exists pos]. pose proof (rd_in buf pos ltac:(lia)) as E. rewrite E. cbn [mbind option_bind].
  pose proof (rd_byte _ _ _ Hb E) as Hc. unfold byte in Hc.
  destruct (buf.[pos] =? 0); [exists (pos + 1); split; [done|lia]|]. destruct (ptr && _); [exists (pos + 1 + 1); split; [done|lia]|].
  assert (0 <= pos + 1 + buf.[pos]) as Hq. { clear -Hp Hc. lia. } destruct (IH (pos + 1 + buf.[pos]) Hq) as (p' & -> & ?). exists p'. split; [done|lia].
Qed.

(** The fuel does not cut the loop short. *)
Lemma skip_name_fuel fuel ptr buf len k : Forall byte buf -> forall pos, 0 <= pos -> (Z.to_nat (len - pos) <= fuel)%nat ->
  skip_name (fuel + k) ptr buf len pos = skip_name fuel ptr buf len pos.
Proof.
  intros Hb. induction fuel as [|fuel IH]; intros pos Hp Hf; cbn [skip_name Nat.add].
  { destruct k as [|k]; cbn [skip_name]; [done|]. by rewrite (proj2 (Z.ltb_ge pos len)) by lia. }
  destruct (Z.ltb_spec pos len); [|done]. destruct (rd buf pos) as [c|] eqn:E; cbn [mbind option_bind]; [|done].
  pose proof (rd_byte _ _ _ Hb E) as Hc. unfold byte in Hc. case_if; [done|]. case_if; [done|]. apply IH; lia.
Qed.

Lemma skip_owner_in buf len pos : Forall byte buf -> len <= zlen buf -> 0 <= pos ->
  exists pos', skip_owner buf len pos = Some pos' /\ pos <= pos'.
Proof.
  intros Hb Hl Hp. unfold skip_owner. destruct (Z.ltb_spec pos len); [|by apply skip_name_in].
  rewrite rd_in by lia. cbn [mbind option_bind]. case_if; [exists (pos + 2); split; [done|lia]|]. by apply skip_name_in.
Qed.

Lemma dns_answers_in n buf len : Forall byte buf -> len <= zlen buf -> forall pos, 0 <= pos -> is_Some (dns_answers n buf len pos).
Proof.
  intros Hb Hl. induction n as [|n IH]; intros pos Hp; cbn [dns_answers]; [by eexists|].
  destruct (Z.ltb_spec pos len); [|by eexists].
  destruct (skip_owner_in buf len pos Hb Hl Hp) as (p & -> & Hpp). cbn [mbind option_bind].
  destruct (Z.ltb_spec len (p + 10)); [by eexists|].
  destruct (rd16_in buf p) as (t & -> & _); [lia|lia|]. destruct (rd16_in buf (p + 8)) as (rl & -> & Hr); [lia|lia|]. cbn [mbind option_bind].
  destruct ((t =? 1) && (rl =? 4) && (p + 10 + 4 <=? len)) eqn:E; [|apply IH; lia]. bool_to_prop.
  rewrite !rd_in by lia. cbn [mbind option_bind]. by eexists.
Qed.

(** The reference encoding of a name given by its labels, and the name in dotted form. *)
Definition qname (ls : list (list Z)) : list Z := mjoin ((fun l => zlen l :: l) <$> ls).
Fixpoint dotted (ls : list (list Z)) : list Z :=
  match ls with [] => [] | [l] => l | l :: ls => l ++ 46 :: dotted ls end.
Definition label_ok (l : list Z) : Prop := 0 < zlen l <= 63 /\ Forall (fun c => 0 < c < 256 /\ c <> 46) l.

Lemma label_dot l r : Forall (fun c => 0 < c < 256 /\ c <> 46) l -> label (l ++ 46 :: r) = (l, 46 :: r).
Proof.
  induction l as [|c l IH]; intros Hl; cbn [app label]; [done|]. apply Forall_cons_1 in Hl as [[_ Hc] Hl].
  rewrite (proj2 (Z.eqb_neq _ _) Hc). by rewrite IH.
Qed.
Lemma label_end l : Forall (fun c => 0 < c < 256 /\ c <> 46) l -> label l = (l, []).
Proof.
  induction l as [|c l IH]; intros Hl; cbn [label]; [done|]. apply Forall_cons_1 in Hl as [[_ Hc] Hl].
  rewrite (proj2 (Z.eqb_neq _ _) Hc). by rewrite IH.
Qed.

Lemma qname_cons l ls : qname (l :: ls) = zlen l :: l ++ qname ls.
Proof. done. Qed.

Lemma dns_labels_dotted ls : Forall label_ok ls -> forall fuel buf,
  (length (dotted ls) <= fuel)%nat -> zlen buf + zlen (qname ls) + 5 <= DNS_MAX_PKT ->
  dns_labels fuel (dotted ls) buf = Some (buf ++ qname ls).
Proof.
  induction ls as [|l ls IH]; intros Hls fuel buf Hf Hb.
  { cbn [dotted]. rewrite app_nil_r. by destruct fuel. }
  apply Forall_cons_1 in Hls as [[Hl Hc] Hls]. rewrite qname_cons in *.
  assert (zlen (zlen l :: l ++ qname ls) = 1 + zlen l + zlen (qname ls)) as Ez by (unfold zlen; cbn [length]; rewrite length_app; lia).
  pose proof (zlen_nonneg (qname ls)). assert (u8 (zlen l) = zlen l) as Eu by (apply u8_small; lia).
  assert (exists c l', l = c :: l') as (c & l' & El) by (destruct l as [|c l']; [change (zlen []) with 0 in Hl; lia|by exists c, l']).
  assert (zlen (buf ++ [zlen l] ++ l) = zlen buf + 1 + zlen l) as Ebl by (unfold zlen; rewrite !length_app; cbn [length]; lia).
  destruct ls as [|l2 ls].
  - cbn [dotted] in *. destruct fuel as [|fuel]; [rewrite El in Hf; cbn in Hf; lia|].
    assert (dns_labels (S fuel) l buf = (let '(l0, p) := label l in
      if DNS_MAX_PKT <? zlen buf + 1 + zlen l0 + 5 then None else dns_labels fuel (if cget p 0 =? 46 then drop 1 p else p) (buf ++ [u8 (zlen l0)] ++ l0))) as ->
      by (rewrite El; reflexivity).
    rewrite label_end by done. rewrite Eu. rewrite (proj2 (Z.ltb_ge _ _)) by lia. change (if cget [] 0 =? 46 then drop 1 [] else []) with (@nil Z).
    change (qname []) with (@nil Z). rewrite app_nil_r. by destruct fuel.
  - change (dotted (l :: l2 :: ls)) with (l ++ 46 :: dotted (l2 :: ls)) in *. set (rest := dotted (l2 :: ls)) in *.
    rewrite length_app in Hf. cbn [length] in Hf. destruct fuel as [|fuel]; [lia|].
    assert (dns_labels (S fuel) (l ++ 46 :: rest) buf = (let '(l0, p) := label (l ++ 46 :: rest) in
      if DNS_MAX_PKT <? zlen buf + 1 + zlen l0 + 5 then None else dns_labels fuel (if cget p 0 =? 46 then drop 1 p else p) (buf ++ [u8 (zlen l0)] ++ l0))) as ->
      by (rewrite El; reflexivity).
    rewrite label_dot by done. rewrite Eu. rewrite (proj2 (Z.ltb_ge _ _)) by lia.
    change (if cget (46 :: rest) 0 =? 46 then drop 1 (46 :: rest) else 46 :: rest) with rest.
    rewrite IH; [|done|lia|rewrite Ebl; lia]. by rewrite <- !app_assoc.
Qed.

Lemma aget_app_r {A} `{!Inhabited A} (l k : list A) i : i = zlen l -> (l ++ k).[i] = k.[0].
Proof. intros ->. unfold aget, zlen. rewrite lookup_total_app_r by lia. f_equal. lia. Qed.

Lemma skip_qname ls : Forall label_ok ls -> forall fuel ptr pre post len,
  len <= zlen (pre ++ qname ls ++ 0 :: post) -> zlen pre + zlen (qname ls) < len -> (length ls < fuel)%nat ->
  skip_name fuel ptr (pre ++ qname ls ++ 0 :: post) len (zlen pre) = Some (zlen pre + zlen (qname ls) + 1).
Proof.
  induction ls as [|l ls IH]; intros Hls fuel ptr pre post len Hlen Hlt Hf; (destruct fuel as [|fuel]; [lia|]); cbn [skip_name].
  - change (qname []) with (@nil Z) in *. cbn [app] in *. change (zlen []) with 0 in *. rewrite (proj2 (Z.ltb_lt _ _)) by lia.
    pose proof (zlen_nonneg pre). rewrite rd_in by lia. cbn [mbind option_bind]. rewrite aget_app_r by done. change ((0 :: post).[0]) with 0. cbn. f_equal. lia.
  - apply Forall_cons_1 in Hls as [[Hl Hc] Hls]. rewrite qname_cons in *.
    assert (zlen (zlen l :: l ++ qname ls) = 1 + zlen l + zlen (qname ls)) as Ez by (unfold zlen; cbn [length]; rewrite length_app; lia).
    pose proof (zlen_nonneg pre). pose proof (zlen_nonneg (qname ls)). rewrite (proj2 (Z.ltb_lt _ _)) by lia.
    rewrite rd_in by lia. cbn [mbind option_bind]. rewrite aget_app_r by done. cbn [app]. 
    change ((zlen l :: (l ++ qname ls) ++ 0 :: post).[0]) with (zlen l). rewrite (proj2 (Z.eqb_neq _ _)) by lia.
    assert (Z.land (zlen l) 0xC0 = 0) as ->.
    { assert (forallb (fun x => Z.land x 0xC0 =? 0) (seqZ 0 64) = true) as Hall by (vm_compute; reflexivity). rewrite forallb_forall in Hall.
      apply Z.eqb_eq, Hall, list_elem_of_In, elem_of_seqZ. lia. }
    change (0 =? 0xC0) with false. rewrite andb_false_r.
    assert (pre ++ zlen l :: (l ++ qname ls) ++ 0 :: post = (pre ++ zlen l :: l) ++ qname ls ++ 0 :: post) as Eb by (by rewrite <- !app_assoc).
    assert (zlen pre + 1 + zlen l = zlen (pre ++ zlen l :: l)) as -> by (unfold zlen; rewrite length_app; cbn [length]; lia).
    cbn [app] in Hlen. rewrite Eb in *. assert (zlen (pre ++ zlen l :: l) = zlen pre + 1 + zlen l) as Ep by (unfold zlen; rewrite length_app; cbn [length]; lia).
    rewrite IH; [|done|done|lia|cbn [length] in Hf; lia]. f_equal. lia.
Qed.

Lemma length_qname ls : (length ls <= length (qname ls))%nat.
Proof. induction ls as [|l ls IH]; [done|]. rewrite qname_cons. cbn [length]. rewrite length_app. lia. Qed.

Lemma dotted_chars ls : Forall label_ok ls -> Forall (fun c => c <> 0) (dotted ls).
Proof.
  assert (forall l, label_ok l -> Forall (fun c => c <> 0) l) as Hone.
  { intros l [_ Hl]. eapply Forall_impl; [|exact Hl]. cbn. lia. }
  induction ls as [|l [|l2 ls] IH]; intros Hls; [constructor|apply Forall_cons_1 in Hls as [Hl _]; by apply Hone|].
  apply Forall_cons_1 in Hls as [Hl Hls]. change (dotted (l :: l2 :: ls)) with (l ++ 46 :: dotted (l2 :: ls)).
  apply Forall_app. split; [by apply Hone|]. apply Forall_cons_2; [done|]. by apply IH.
Qed.

Lemma build_query_spec ls txid : Forall label_ok ls -> zlen (qname ls) + 17 <= DNS_MAX_PKT ->
  dns_build_query (dotted ls ++ [0]) txid
  = Some (([hi txid; lo txid; 1; 0; 0; 1; 0; 0; 0; 0; 0; 0] ++ qname ls) ++ [0; 0; 1; 0; 1]).
Proof.
  intros Hls Hf. unfold dns_build_query. rewrite cstr_app_nul by (by apply dotted_chars).
  rewrite dns_labels_dotted; [done|done|lia|]. change (zlen [hi txid; lo txid; 1; 0; 0; 1; 0; 0; 0; 0; 0; 0]) with 12. lia.
Qed.

Lemma rd_app_r pre l i k : i = zlen pre + k -> 0 <= k < zlen l -> rd (pre ++ l) i = Some l.[k].
Proof.
  intros -> Hk. pose proof (zlen_nonneg pre). rewrite rd_in by (unfold zlen in *; rewrite length_app; lia). f_equal.
  unfold aget, zlen in *. rewrite lookup_total_app_r by lia. f_equal. lia.
Qed.

(** The answer of a server to the query for the name [ls]: one A record. *)
Definition a_answer (ls : list (list Z)) (txid : Z) (ttl ip : list Z) : list Z :=
  [hi txid; lo txid; 0x81; 0x80; 0; 1; 0; 1; 0; 0; 0; 0] ++ qname ls ++ [0; 0; 1; 0; 1] ++
  [0xC0; 12; 0; 1; 0; 1] ++ ttl ++ [0; 4] ++ ip.

Lemma parse_answer ls txid ttl ip :
  Forall label_ok ls -> 0 <= txid < 65536 -> length ttl = 4%nat -> length ip = 4%nat ->
  dns_parse_response (a_answer ls txid ttl ip) (zlen (a_answer ls txid ttl ip)) txid = Some (Some ip).
Proof.
  intros Hls Ht Httl Hip. unfold a_answer. set (hdr := [hi txid; lo txid; 0x81; 0x80; 0; 1; 0; 1; 0; 0; 0; 0]).
  set (ans := [0xC0; 12; 0; 1; 0; 1] ++ ttl ++ [0; 4] ++ ip). set (buf := hdr ++ qname ls ++ [0; 0; 1; 0; 1] ++ ans).
  assert (zlen ans = 16) as Hza by (unfold ans, zlen; rewrite !length_app, Httl, Hip; done).
  assert (zlen buf = 12 + zlen (qname ls) + 5 + 16) as Hz by (unfold buf, zlen in *; rewrite !length_app; cbn [length hdr]; lia).
  pose proof (zlen_nonneg (qname ls)). unfold dns_parse_response. rewrite (proj2 (Z.ltb_ge _ _)) by lia.
  assert (rd16 buf 0 = Some txid) as ->.
  { unfold rd16. rewrite !rd_in by lia. cbn [mbind option_bind]. destruct (hi_lo txid Ht) as (E & _ & Hlo).
    transitivity (Some (u16 (Z.lor (Z.shiftl (hi txid) 8) (lo txid)))); [reflexivity|]. rewrite (word_join _ _ Hlo), E.
    f_equal. apply Z.mod_small. lia. }
  cbn [mbind option_bind]. rewrite Z.eqb_refl. cbn [negb].
  assert (rd buf 2 = Some 0x81) as -> by (rewrite rd_in by lia; reflexivity).
  cbn [mbind option_bind]. change (truth (Z.land 0x81 0x80)) with true. cbn [negb].
  assert (rd16 buf 6 = Some 1) as -> by (unfold rd16; rewrite !rd_in by lia; reflexivity).
  cbn [mbind option_bind].
  change (1 =? 0) with false. cbv iota.
  assert (skip_name (Z.to_nat (zlen buf)) true buf (zlen buf) 12 = Some (12 + zlen (qname ls) + 1)) as ->.
  { pose proof (length_qname ls). apply (skip_qname ls Hls _ true hdr ([0; 1; 0; 1] ++ ans) (zlen buf));
      [|change (zlen hdr) with 12; lia|unfold zlen in *; lia].
    change (hdr ++ qname ls ++ 0 :: ([0; 1; 0; 1] ++ ans)) with buf. lia. }
  cbn [mbind option_bind]. change (Z.to_nat 1) with 1%nat. cbn [dns_answers].
  set (pos := 12 + zlen (qname ls) + 1 + 4). assert (pos = zlen (hdr ++ qname ls ++ [0; 0; 1; 0; 1])) as Hpos
    by (unfold pos, zlen; rewrite !length_app; cbn [length hdr]; lia).
  assert (buf = (hdr ++ qname ls ++ [0; 0; 1; 0; 1]) ++ ans) as Eb by (unfold buf; by rewrite <- !app_assoc).
  set (pre := hdr ++ qname ls ++ [0; 0; 1; 0; 1]) in *. rewrite (proj2 (Z.ltb_lt pos _)) by (unfold pos; lia).
  assert (forall i k, i = pos + k -> 0 <= k < 16 -> rd buf i = Some ans.[k]) as Hrd.
  { intros i k -> Hk. rewrite Eb. apply rd_app_r; lia. }
  do 4 (destruct ttl as [|? ttl]; [done|]). destruct ttl; [|done].
  do 4 (destruct ip as [|? ip]; [done|]). destruct ip; [|done].
  unfold skip_owner. rewrite (proj2 (Z.ltb_lt pos _)) by (unfold pos; lia). rewrite (Hrd pos 0) by lia.
  cbn [mbind option_bind]. change (Z.land ans.[0] 0xC0 =? 0xC0) with true. cbv iota. cbn [mbind option_bind].
  rewrite (proj2 (Z.ltb_ge (zlen buf) (pos + 2 + 10))) by (unfold pos; lia).
  assert (rd16 buf (pos + 2) = Some 1) as -> by (unfold rd16; rewrite (Hrd (pos + 2) 2), (Hrd (pos + 2 + 1) 3) by lia; reflexivity).
  assert (rd16 buf (pos + 2 + 8) = Some 4) as -> by (unfold rd16; rewrite (Hrd (pos + 2 + 8) 10), (Hrd (pos + 2 + 8 + 1) 11) by lia; reflexivity).
  cbn [mbind option_bind]. change (1 =? 1) with true. change (4 =? 4) with true. cbn [andb].
  rewrite (proj2 (Z.leb_le (pos + 2 + 10 + 4) _)) by (unfold pos; lia).
  rewrite (Hrd (pos + 2 + 10) 12), (Hrd (pos + 2 + 10 + 1) 13), (Hrd (pos + 2 + 10 + 2) 14), (Hrd (pos + 2 + 10 + 3) 15) by lia.
  reflexivity.
Qed.

(** The header checks to 0. *)
Lemma ip_header_verifies tlen proto dst_ip s :
  0 <= tlen < 65536 -> byte proto -> 0 <= ip_id_counter s < 65536 -> Forall byte (MY_IP s) -> Forall byte dst_ip ->
  zlen (MY_IP s) = 4 -> zlen dst_ip = 4 ->
  zlen (ip_header tlen proto dst_ip s) = 20 /\ inet_cksum (ip_header tlen proto dst_ip s) 20 = 0.
Proof.
  intros Ht Hp Hid Hm Hd Hlm Hld. unfold ip_header. set (head := [0x45; 0; hi tlen; lo tlen; hi (ip_id_counter s); lo (ip_id_counter s); 0; 0; 64; proto]).
  set (tail := take 4 (MY_IP s) ++ take 4 dst_ip).
  assert (length tail = 8%nat) as Hlt by (unfold tail, zlen in *; rewrite length_app, !length_take; lia).
  assert (forall a b, take (Z.to_nat 20) (head ++ [a; b] ++ tail) = head ++ [a; b] ++ tail) as Htake.
  { intros a b. apply take_ge. rewrite !length_app. cbn [length head]. lia. }
  assert (Forall byte tail) as Hbt by (unfold tail; apply Forall_app; split; by apply Forall_take).
  assert (Forall byte head) as Hbh.
  { destruct (hi_lo tlen Ht) as (_ & A & B), (hi_lo _ Hid) as (_ & C & D).
    repeat (apply Forall_cons_2; [first [assumption|unfold byte; lia]|]). apply Forall_nil_2. }
  split; [unfold zlen; rewrite !length_app; cbn [length head]; lia|]. cbv zeta. unfold inet_cksum. rewrite !Htake.
  apply (cksum_field head tail 0 Hbh Hbt); [done|lia|]. unfold zlen. cbn [length head]. lia.
Qed.

End Pkt.

Import Pkt.

(** C29: parsing a DNS response reads no byte outside the message, whatever its bytes. *)
Theorem dns_parse_in_bounds buf len txid : Forall byte buf -> len <= zlen buf -> dns_parse_response buf len txid <> None.
Proof.
  intros Hb Hl. enough (is_Some (dns_parse_response buf len txid)) as [r ->] by done.
  unfold dns_parse_response. destruct (Z.ltb_spec len 12); [by eexists|].
  destruct (rd16_in buf 0) as (rid & -> & _); [lia|lia|]. cbn [mbind option_bind]. destruct (negb (rid =? txid)); [by eexists|].
  rewrite (rd_in buf 2) by lia. cbn [mbind option_bind]. destruct (negb _); [by eexists|].
  destruct (rd16_in buf 6) as (an & -> & _); [lia|lia|]. cbn [mbind option_bind]. destruct (an =? 0); [by eexists|].
  destruct (skip_name_in (Z.to_nat len) true buf len Hb Hl 12 ltac:(lia)) as (p & -> & ?). cbn [mbind option_bind].
  apply dns_answers_in; [done|done|lia].
Qed.

Lemma dns_parse_in_bounds_witness : dns_parse_response [0; 1; 128; 0; 0; 1; 0; 1; 0; 0; 0; 0; 192] 13 1 <> None.
Proof. apply dns_parse_in_bounds; [|by vm_compute]. by repeat apply Forall_cons_2. Defined.

(** C28: the query for a name of labels of 1 to 63 characters is the encoding of RFC 1035,
    and the address of a server's answer to it is found. *)
Theorem dns_answer_understood ls txid ttl ip :
  Forall label_ok ls -> zlen (qname ls) + 17 <= DNS_MAX_PKT -> 0 <= txid < 65536 -> length ttl = 4%nat -> length ip = 4%nat ->
  dns_build_query (dotted ls ++ [0]) txid = Some ([hi txid; lo txid; 1; 0; 0; 1; 0; 0; 0; 0; 0; 0] ++ qname ls ++ [0; 0; 1; 0; 1]) /\
  dns_parse_response (a_answer ls txid ttl ip) (zlen (a_answer ls txid ttl ip)) txid = Some (Some ip).
Proof.
  intros Hls Hf Ht Httl Hip. split; [rewrite build_query_spec by done; by rewrite <- app_assoc|by apply parse_answer].
Qed.

Lemma dns_answer_understood_witness :
  dns_parse_response (a_answer [[97; 98]; [99]] 7 [0; 0; 1; 0] [10; 0; 2; 2]) 38 7 = Some (Some [10; 0; 2; 2]).
Proof.
  apply (dns_answer_understood [[97; 98]; [99]] 7 [0; 0; 1; 0] [10; 0; 2; 2]); [|by vm_compute|lia|done|done].
  by repeat first [apply Forall_cons_2|apply Forall_nil_2|split].
Defined.
