(* ===== verification/Tcp.v ===== *)
(** * net.c: TCP, the packet dispatcher and the blocking calls

    Above Packet.v: the four connections, listening ports, what an incoming segment does,
    the retransmission and keepalive timer, and connect, send, receive, close, accept and
    the resolver.  A frame is received in a buffer of [PKT_BUF] bytes, a list of that
    length, with the length the card reports; a read past the buffer, or through the null
    pointer, is [None].  The clock does not advance while one frame is handled.

    A call that polls until a deadline takes the list of its [Round]s, the tick at which
    the loop looks at the clock and the frame it then receives, and returns those it has
    not used; when they run out the deadline has passed. *)

From Stdlib Require Import ZArith Lia.
From stdpp Require Import base numbers list tactics.
From S2P Require Import Prelude Ring Packet Net.
Import Pkt.

Module Tcp.

Definition TCP_CLOSED : Z := 0.
Definition TCP_SYN_SENT : Z := 1.
Definition TCP_ESTABLISHED : Z := 2.
Definition TCP_FIN_WAIT1 : Z := 3.
Definition TCP_FIN_WAIT2 : Z := 4.
Definition TCP_CLOSE_WAIT : Z := 5.
Definition TCP_LAST_ACK : Z := 6.
Definition TCP_TIME_WAIT : Z := 7.
Definition TCP_FIN : Z := 1.
Definition TCP_SYN : Z := 2.
Definition TCP_RST : Z := 4.
Definition TCP_PSH : Z := 8.
Definition TCP_ACK : Z := 16.
Definition TCP_RX_SIZE : Z := 4096.
Definition TCP_TX_SIZE : Z := 1400.
Definition TCP_MAX_CONN : Z := 4.
Definition TCP_RTO : Z := 200.
Definition TCP_MAX_RETRANS : Z := 5.
Definition TCP_KEEPALIVE_IDLE : Z := 30000.
Definition TCP_KEEPALIVE_INTVL : Z := 5000.
Definition TCP_KEEPALIVE_CNT : Z := 3.
Definition TCP_LISTEN_SLOTS : Z := 2.

(** [tx_buf] and [ooo_buf] are the bytes counted by [tx_len] and [ooo_len]. *)
Record TcpConn := mkConn {
  used : Z; state : Z; dst_ip : list Z; dst_mac : list Z; src_port : Z; dst_port : Z; snd_nxt : Z; rcv_nxt : Z;
  rx : list Z; rx_head : Z; rx_tail : Z; fin_recv : Z; rst_recv : Z;
  tx_buf : list Z; tx_len : Z; tx_seq : Z; retrans_tick : Z; retrans_count : Z;
  ooo_buf : list Z; ooo_len : Z; ooo_seq : Z; last_rx_tick : Z; ka_probes : Z; ka_next_tick : Z }.
#[global] Instance settable_TcpConn : Settable TcpConn := {| rebuild c :=
  mkConn (used c) (state c) (dst_ip c) (dst_mac c) (src_port c) (dst_port c) (snd_nxt c) (rcv_nxt c)
    (rx c) (rx_head c) (rx_tail c) (fin_recv c) (rst_recv c) (tx_buf c) (tx_len c) (tx_seq c) (retrans_tick c) (retrans_count c)
    (ooo_buf c) (ooo_len c) (ooo_seq c) (last_rx_tick c) (ka_probes c) (ka_next_tick c) |}.
#[global] Instance inhabited_TcpConn : Inhabited TcpConn := populate
  (mkConn 0 0 (replicate 4 0) (replicate 6 0) 0 0 0 0 (replicate 4096 0) 0 0 0 0 [] 0 0 0 0 [] 0 0 0 0 0).

Record TcpListen := mkListen { active : Z; lport : Z; accept_q : list Z; aq_head : Z; aq_tail : Z; aq_count : Z }.
#[global] Instance settable_TcpListen : Settable TcpListen := {| rebuild l :=
  mkListen (active l) (lport l) (accept_q l) (aq_head l) (aq_tail l) (aq_count l) |}.
#[global] Instance inhabited_TcpListen : Inhabited TcpListen := populate (mkListen 0 0 [0; 0] 0 0 0).

Record State := mkState { eth : Eth; tcp_conns : list TcpConn; tcp_port_ctr : Z; tcp_listen : list TcpListen; dns_txid : Z }.
#[global] Instance settable_State : Settable State := {| rebuild s :=
  mkState (eth s) (tcp_conns s) (tcp_port_ctr s) (tcp_listen s) (dns_txid s) |}.

Definition set_conn (i : Z) (c : TcpConn) (s : State) : State := s <| tcp_conns := (tcp_conns s).[i <- c] |>.

(** ** Segments out *)

Definition be4 (x : Z) : list Z := [u8 (Z.shiftr x 24); u8 (Z.shiftr x 16); hi x; lo x].

(** The TCP segment with its checksum; [dlen] is at most [TCP_TX_SIZE] in every call. *)
Definition tcp_segment (c : TcpConn) (flags seq ack : Z) (data : list Z) (dlen : Z) (e : Eth) : list Z :=
  let head := [hi (src_port c); lo (src_port c); hi (dst_port c); lo (dst_port c)] ++ be4 seq ++ be4 ack ++ [0x50; flags; 0xFF; 0xFF] in
  let tail := [0; 0] ++ take (Z.to_nat dlen) data in
  let tck := transport_cksum (MY_IP e) (dst_ip c) 6 (head ++ [0; 0] ++ tail) (u16 (20 + dlen)) in
  head ++ [hi tck; lo tck] ++ tail.

(** The frame that carries it. *)
Definition tcp_frame (c : TcpConn) (flags seq ack : Z) (data : list Z) (dlen : Z) (e : Eth) : list Z :=
  let tcp_tlen := u16 (20 + dlen) in
  let ip_tlen := u16 (20 + tcp_tlen) in
  eth_hdr (dst_mac c) 0x0800 e ++ ip_header ip_tlen 6 (dst_ip c) e ++ tcp_segment c flags seq ack data dlen e.

Definition tcp_tx (c : TcpConn) (flags seq ack : Z) (data : list Z) (dlen : Z) (e : Eth) : Eth :=
  rtl8139_send (tcp_frame c flags seq ack data dlen e) (next_id e).

Definition tx (c : TcpConn) (flags seq ack : Z) (data : list Z) (dlen : Z) (s : State) : State :=
  s <| eth := tcp_tx c flags seq ack data dlen (eth s) |>.

(** ** Segments in *)

(** [for (i = 0; i < len; i++)]; no byte left in the packet buffer is [None]. *)
Fixpoint tcp_rx_push (len : nat) (data : list Z) (c : TcpConn) : option TcpConn :=
  match len with
  | O => Some c
  | S len =>
      let next := u16 ((rx_head c + 1) mod TCP_RX_SIZE) in
      if next =? rx_tail c then Some c
      else match data with
      | [] => None
      | b :: data => tcp_rx_push len data (c <| rx := (rx c).[rx_head c <- b] |> <| rx_head := next |>)
      end
  end.

(** The fields of the segment at offset [o] of a packet; [data] is what the packet
    buffer holds from the payload on. *)
Record Seg := mkSeg { rsp : Z; rdp : Z; sseq : Z; sack : Z; doff : Z; flags : Z; dlen : Z; data : list Z }.

Definition get2 (p : list Z) (i : Z) : Z := u16 (Z.lor (Z.shiftl p.[i] 8) p.[i + 1]).
Definition get4 (p : list Z) (i : Z) : Z :=
  Z.lor (Z.lor (Z.lor (Z.shiftl p.[i] 24) (Z.shiftl p.[i + 1] 16)) (Z.shiftl p.[i + 2] 8)) p.[i + 3].

Definition parse_seg (pkt : list Z) (o tcp_total : Z) : Seg :=
  let doff := u8 (Z.shiftr pkt.[o + 12] 4 * 4) in
  mkSeg (get2 pkt o) (get2 pkt (o + 2)) (get4 pkt (o + 4)) (get4 pkt (o + 8)) doff pkt.[o + 13]
    (Z.max 0 (tcp_total - doff)) (drop (Z.to_nat (o + doff)) pkt).

Definition has (fl bits : Z) : bool := Z.land fl bits =? bits.

(** The acknowledgement of a segment on an open connection. *)
Definition rx_ack (g : Seg) (c : TcpConn) : TcpConn :=
  let c := if (0 <? tx_len c) && (0 <=? i32 (u32 (sack g - u32 (tx_seq c + tx_len c)))) then c <| tx_len := 0 |> else c in
  if (state c =? TCP_FIN_WAIT1) && (sack g =? snd_nxt c) then c <| state := TCP_FIN_WAIT2 |> else c <| snd_nxt := sack g |>.

(** Data in order, with the segment kept for it if that follows. *)
Definition rx_in_order (g : Seg) (c : TcpConn) : option TcpConn :=
  c ← tcp_rx_push (Z.to_nat (u16 (dlen g))) (data g) c;
  let c := c <| rcv_nxt := u32 (rcv_nxt c + dlen g) |> in
  if (0 <? ooo_len c) && (ooo_seq c =? rcv_nxt c) then
    c ← tcp_rx_push (Z.to_nat (ooo_len c)) (ooo_buf c) c;
    Some (c <| rcv_nxt := u32 (rcv_nxt c + ooo_len c) |> <| ooo_len := 0 |>)
  else Some c.

(** Data ahead of what is expected: one segment is kept. *)
Definition rx_ahead (g : Seg) (c : TcpConn) : option TcpConn :=
  if ooo_len c =? 0 then
    if zlen (data g) <? dlen g then None
    else Some (c <| ooo_buf := take (Z.to_nat (dlen g)) (data g) |> <| ooo_len := u16 (dlen g) |> <| ooo_seq := sseq g |>)
  else Some c.

Definition rx_data (now : Z) (g : Seg) (c : TcpConn) : option TcpConn :=
  let c := c <| last_rx_tick := now |> <| ka_probes := 0 |> <| ka_next_tick := u32 (now + TCP_KEEPALIVE_IDLE) |> in
  if sseq g =? rcv_nxt c then rx_in_order g c
  else if (rcv_nxt c <? sseq g) && (dlen g <=? TCP_TX_SIZE) then rx_ahead g c
  else Some c.

Definition send_ack (c : TcpConn) (e : Eth) : Eth := tcp_tx c TCP_ACK (snd_nxt c) (rcv_nxt c) [] 0 e.

Definition rx_established (now : Z) (g : Seg) (c : TcpConn) (e : Eth) : option (TcpConn * Eth) :=
  let c := if truth (Z.land (flags g) TCP_ACK) then rx_ack g c else c in
  '(c, e) ← (if (0 <? dlen g) && (state c =? TCP_ESTABLISHED)
             then c ← rx_data now g c; Some (c, send_ack c e) else Some (c, e));
  if truth (Z.land (flags g) TCP_FIN) then
    let c := c <| rcv_nxt := u32 (rcv_nxt c + 1) |> <| fin_recv := 1 |> in
    Some (c <| state := if state c =? TCP_ESTABLISHED then TCP_CLOSE_WAIT else TCP_TIME_WAIT |>, send_ack c e)
  else Some (c, e).

(** What a segment does to its connection; the flag tells that the handler returns. *)
Definition rx_conn (now : Z) (g : Seg) (c : TcpConn) (e : Eth) : option (TcpConn * Eth * bool) :=
  if truth (Z.land (flags g) TCP_RST) then Some (c <| rst_recv := 1 |> <| state := TCP_CLOSED |> <| used := 0 |>, e, true)
  else if state c =? TCP_SYN_SENT then
    if has (flags g) (Z.lor TCP_SYN TCP_ACK) then
      let c := c <| rcv_nxt := u32 (sseq g + 1) |> <| snd_nxt := sack g |> <| state := TCP_ESTABLISHED |> in
      Some (c, send_ack c e, false)
    else Some (c, e, false)
  else if (state c =? TCP_ESTABLISHED) || (state c =? TCP_FIN_WAIT1) || (state c =? TCP_FIN_WAIT2) then
    '(c, e) ← rx_established now g c e; Some (c, e, false)
  else if state c =? TCP_LAST_ACK then
    Some (if truth (Z.land (flags g) TCP_ACK) then c <| used := 0 |> <| state := TCP_CLOSED |> else c, e, false)
  else Some (c, e, false).

Definition matches (g : Seg) (src_ip : list Z) (c : TcpConn) : bool :=
  truth (used c) && (src_port c =? rdp g) && (dst_port c =? rsp g) && meq (dst_ip c) src_ip.

(** The temporary connection of tcp_send_rst_reply(). *)
Definition tcp_send_rst_reply (src_ip eth_src_mac : list Z) (our_port remote_port ack : Z) (s : State) : State :=
  tx (inhabitant <| dst_ip := src_ip |> <| dst_mac := eth_src_mac |> <| src_port := our_port |> <| dst_port := remote_port |>)
    (Z.lor TCP_RST TCP_ACK) 0 ack [] 0 s.

Definition new_conn (now : Z) (g : Seg) (src_ip src_mac : list Z) (c : TcpConn) : TcpConn :=
  c <| dst_ip := src_ip |> <| dst_mac := src_mac |> <| src_port := rdp g |> <| dst_port := rsp g |>
    <| rcv_nxt := u32 (sseq g + 1) |> <| snd_nxt := 0xAC000001 |> <| state := TCP_ESTABLISHED |> <| used := 1 |>
    <| fin_recv := 0 |> <| rst_recv := 0 |> <| tx_len := 0 |> <| rx_head := 0 |> <| rx_tail := 0 |> <| ooo_len := 0 |>
    <| ka_probes := 0 |> <| last_rx_tick := now |> <| ka_next_tick := u32 (now + TCP_KEEPALIVE_IDLE) |>.

Definition free_conn (s : State) : option Z := scan (fun i => negb (truth (used (tcp_conns s).[i]))) 0 (Z.to_nat TCP_MAX_CONN).

(** A SYN for a listening port. *)
Definition rx_listen (now : Z) (g : Seg) (src_ip src_mac : list Z) (s : State) : State :=
  match scan (fun i => truth (active (tcp_listen s).[i]) && (lport (tcp_listen s).[i] =? rdp g)) 0 (Z.to_nat TCP_LISTEN_SLOTS) with
  | None => s
  | Some li =>
      let l := (tcp_listen s).[li] in
      let reject := tcp_send_rst_reply src_ip src_mac (rdp g) (rsp g) (u32 (sseq g + 1)) s in
      if 2 <=? aq_count l then reject
      else match free_conn s with
      | None => reject
      | Some ci =>
          let nc := new_conn now g src_ip src_mac (tcp_conns s).[ci] in
          let s := tx nc (Z.lor TCP_SYN TCP_ACK) (u32 (snd_nxt nc - 1)) (rcv_nxt nc) [] 0 s in
          let s := set_conn ci (nc <| snd_nxt := u32 (snd_nxt nc + 1) |>) s in
          s <| tcp_listen := (tcp_listen s).[li <- l <| accept_q := (accept_q l).[aq_tail l <- ci] |>
                                                   <| aq_tail := (aq_tail l + 1) mod 2 |> <| aq_count := u8 (aq_count l + 1) |>] |>
      end
  end.

(** The segment [g] from [src_ip]; [src_mac] is the sender's of the Ethernet header. *)
Definition tcp_rx_seg (now : Z) (g : Seg) (src_ip src_mac : list Z) (s : State) : option State :=
  '(s, returned) ← match scan (fun i => matches g src_ip (tcp_conns s).[i]) 0 (Z.to_nat TCP_MAX_CONN) with
    | None => Some (s, false)
    | Some i =>
        '(c, e, returned) ← rx_conn now g (tcp_conns s).[i] (eth s);
        Some (set_conn i c (s <| eth := e |>), returned)
    end;
  if returned : bool then Some s
  else if Z.land (flags g) (Z.lor TCP_SYN TCP_ACK) =? TCP_SYN then Some (rx_listen now g src_ip src_mac s)
  else Some s.

(** [o] is the offset of the segment; the IP header is at 14, the source MAC at 6. *)
Definition tcp_rx_process (now : Z) (pkt : list Z) (o tcp_total : Z) (s : State) : option State :=
  tcp_rx_seg now (parse_seg pkt o tcp_total) (take 4 (drop 26 pkt)) (take 6 (drop 6 pkt)) s.

(** ** Packets *)

(** The round trip time when the expected echo reply came.  [expect_src] is [None] for
    the null pointer. *)
Definition net_process (now : Z) (pkt : list Z) (len : Z) (expect_src : option (list Z)) (send_tick : Z) (s : State)
    : option (State * option Z) :=
  if len <? 14 then Some (s, None)
  else
    let etype := get2 pkt 12 in
    if (etype =? 0x0806) && (42 <=? len) then
      let oper := get2 pkt 20 in
      let sha := take 6 (drop 22 pkt) in
      let spa := take 4 (drop 28 pkt) in
      if oper =? 2 then Some (s <| eth := arp_cache_put spa sha (eth s) |>, None)
      else if (oper =? 1) && meq (take 4 (drop 38 pkt)) (MY_IP (eth s)) then Some (s <| eth := arp_send_reply sha spa (eth s) |>, None)
      else Some (s, None)
    else if (etype =? 0x0800) && (34 <=? len) then
      let ihl := u8 (Z.land pkt.[14] 0xF * 4) in
      let proto := pkt.[23] in
      let pay := 14 + ihl in
      let pay_len := Z.max 0 (get2 pkt 16 - ihl) in
      let s := s <| eth := arp_cache_put (take 4 (drop 26 pkt)) (take 6 (drop 6 pkt)) (eth s) |> in
      let tcp := if (proto =? 6) && (20 <=? pay_len) then s ← tcp_rx_process now pkt pay pay_len s; Some (s, None) else Some (s, None) in
      if (proto =? 1) && (8 <=? pay_len) && (pkt.[pay] =? 0) then
        match expect_src with
        | None => None
        | Some src => if meq (take 4 (drop 26 pkt)) src then Some (s, Some (u16 (now - send_tick))) else tcp
        end
      else tcp
    else Some (s, None).

Record Round := mkRound { tick : Z; frame : option (list Z * Z) }.

Definition net_poll_once (r : Round) (s : State) : option State :=
  match frame r with
  | Some (pkt, len) => fst <$> net_process (tick r) pkt len None 0 s
  | None => Some s
  end.

(** The clock, at the next round. *)
Definition get_ticks (w : list Round) : Z := match w with r :: _ => tick r | [] => 0 end.

(** *** ARP resolution *)

Fixpoint arp_wait (ip : list Z) (deadline : Z) (w : list Round) (s : State) : option (State * option (list Z) * list Round) :=
  match w with
  | [] => Some (s, None, [])
  | r :: w =>
      if tick r <? deadline then
        s ← net_poll_once r s;
        match arp_cache_get ip (eth s) with
        | Some mac => Some (s, Some mac, w)
        | None => arp_wait ip deadline w s
        end
      else Some (s, None, w)
  end.

Definition arp_resolve (ip : list Z) (w : list Round) (s : State) : option (State * option (list Z) * list Round) :=
  match arp_cache_get ip (eth s) with
  | Some mac => Some (s, Some mac, w)
  | None => arp_wait ip (u32 (get_ticks w + 2000)) w (s <| eth := arp_send_request ip (eth s) |>)
  end.

(** *** Connecting *)

Definition next_port (p : Z) : Z := let p := u16 (p + 1) in if p <? 49152 then 49152 else p.

(** The fields of a connection that sends its first segment. *)
Definition open_conn (now : Z) (ip mac : list Z) (port src : Z) (c : TcpConn) : TcpConn :=
  c <| dst_mac := mac |> <| dst_ip := ip |> <| dst_port := port |> <| src_port := src |>
    <| snd_nxt := u32 (0x12340000 + u32 (src * 131)) |> <| rcv_nxt := 0 |> <| rx_head := 0 |> <| rx_tail := 0 |>
    <| fin_recv := 0 |> <| rst_recv := 0 |> <| tx_len := 0 |> <| tx_seq := 0 |> <| retrans_tick := 0 |> <| retrans_count := 0 |>
    <| ooo_len := 0 |> <| ooo_seq := 0 |> <| last_rx_tick := now |> <| ka_probes := 0 |>
    <| ka_next_tick := u32 (now + TCP_KEEPALIVE_IDLE) |> <| state := TCP_SYN_SENT |> <| used := 1 |>.

Definition connect_start (now id : Z) (ip mac : list Z) (port : Z) (s : State) : State :=
  let c := open_conn now ip mac port (tcp_port_ctr s) (tcp_conns s).[id] in
  let s := s <| tcp_port_ctr := next_port (tcp_port_ctr s) |> in
  let s := tx c TCP_SYN (snd_nxt c) 0 [] 0 s in
  set_conn id (c <| snd_nxt := u32 (snd_nxt c + 1) |>) s.

Definition connect_failed (id : Z) (s : State) : State * Z :=
  let c := (tcp_conns s).[id] in
  (set_conn id (c <| used := 0 |> <| state := TCP_CLOSED |>) s, if truth (rst_recv c) then -2 else -1).

Fixpoint connect_wait (id deadline : Z) (w : list Round) (s : State) : option (State * Z * list Round) :=
  match w with
  | [] => Some (connect_failed id s, [])
  | r :: w =>
      if tick r <? deadline then
        s ← net_poll_once r s;
        if state (tcp_conns s).[id] =? TCP_ESTABLISHED then Some (s, id, w)
        else if negb (truth (used (tcp_conns s).[id])) then Some (connect_failed id s, w)
        else connect_wait id deadline w s
      else Some (connect_failed id s, w)
  end.

Definition net_tcp_connect (ip : list Z) (port : Z) (w : list Round) (s : State) : option (State * Z * list Round) :=
  if negb (rtl8139_present (eth s)) then Some (s, -1, w)
  else match free_conn s with
  | None => Some (s, -1, w)
  | Some id =>
      '(s, mac, w) ← arp_resolve (next_hop_ip ip (eth s)) w s;
      match mac with
      | None => Some (s, -1, w)
      | Some mac => connect_wait id (u32 (get_ticks w + 5000)) w (connect_start (get_ticks w) id ip mac port s)
      end
  end.

(** *** Sending and receiving *)

Definition bad_id (id : Z) : bool := (id <? 0) || (TCP_MAX_CONN <=? id).

Definition net_tcp_send (now id : Z) (bytes : list Z) (len : Z) (s : State) : State * Z :=
  if bad_id id then (s, -1)
  else
    let c := (tcp_conns s).[id] in
    if negb (truth (used c)) || negb (state c =? TCP_ESTABLISHED) then (s, -1)
    else
      let chunk := if TCP_TX_SIZE <? len then TCP_TX_SIZE else len in
      let s := tx c (Z.lor TCP_PSH TCP_ACK) (snd_nxt c) (rcv_nxt c) bytes chunk s in
      (set_conn id (c <| tx_seq := snd_nxt c |> <| tx_len := chunk |> <| tx_buf := take (Z.to_nat chunk) bytes |>
                      <| retrans_tick := now |> <| retrans_count := 0 |> <| snd_nxt := u32 (snd_nxt c + chunk) |>) s, chunk).

(** [while (rx_tail != rx_head && got < maxlen)]; the ring has fewer than [TCP_RX_SIZE] bytes. *)
Fixpoint rx_pop (fuel : nat) (maxlen : Z) (out : list Z) (c : TcpConn) : list Z * TcpConn :=
  match fuel with
  | O => (out, c)
  | S fuel =>
      if negb (rx_tail c =? rx_head c) && (zlen out <? maxlen) then
        rx_pop fuel maxlen (out ++ [(rx c).[rx_tail c]]) (c <| rx_tail := u16 ((rx_tail c + 1) mod TCP_RX_SIZE) |>)
      else (out, c)
  end.

Fixpoint recv_wait (id maxlen deadline : Z) (w : list Round) (s : State) : option (State * list Z * Z * list Round) :=
  match w with
  | [] => Some (s, [], 0, [])
  | r :: w =>
      if tick r <? deadline then
        s ← net_poll_once r s;
        let c := (tcp_conns s).[id] in
        if negb (rx_head c =? rx_tail c) then
          let '(out, c) := rx_pop (Z.to_nat TCP_RX_SIZE) maxlen [] c in Some (set_conn id c s, out, zlen out, w)
        else if truth (fin_recv c) || (state c =? TCP_CLOSE_WAIT) || (state c =? TCP_CLOSED) || negb (truth (used c))
        then Some (s, [], 0, w)
        else recv_wait id maxlen deadline w s
      else Some (s, [], 0, w)
  end.

Definition net_tcp_recv (id maxlen : Z) (w : list Round) (s : State) : option (State * list Z * Z * list Round) :=
  if bad_id id then Some (s, [], -1, w)
  else if negb (truth (used (tcp_conns s).[id])) then Some (s, [], -1, w)
  else recv_wait id maxlen (u32 (get_ticks w + 5000)) w s.

Fixpoint close_wait (id deadline : Z) (w : list Round) (s : State) : option (State * list Round) :=
  match w with
  | [] => Some (s, [])
  | r :: w' =>
      if (tick r <? deadline) && truth (used (tcp_conns s).[id]) then
        s ← net_poll_once r s;
        let st := state (tcp_conns s).[id] in
        if (st =? TCP_TIME_WAIT) || (st =? TCP_CLOSED) then Some (s, w') else close_wait id deadline w' s
      else Some (s, w')
  end.

Definition net_tcp_close (id : Z) (w : list Round) (s : State) : option (State * list Round) :=
  if bad_id id then Some (s, w)
  else
    let c := (tcp_conns s).[id] in
    if negb (truth (used c)) then Some (s, w)
    else
      '(s, w) ← (if (state c =? TCP_ESTABLISHED) || (state c =? TCP_CLOSE_WAIT) then
                   let s := tx c (Z.lor TCP_FIN TCP_ACK) (snd_nxt c) (rcv_nxt c) [] 0 s in
                   let s := set_conn id (c <| snd_nxt := u32 (snd_nxt c + 1) |>
                                           <| state := if state c =? TCP_ESTABLISHED then TCP_FIN_WAIT1 else TCP_LAST_ACK |>) s in
                   close_wait id (u32 (get_ticks w + 3000)) w s
                 else Some (s, w));
      Some (set_conn id ((tcp_conns s).[id] <| used := 0 |> <| state := TCP_CLOSED |>) s, w).

Definition net_tcp_state (id : Z) (s : State) : Z :=
  if bad_id id || negb (truth (used (tcp_conns s).[id])) then TCP_CLOSED else state (tcp_conns s).[id].

(** *** The timer *)

(** The connection after the retransmission test; the flag tells that it is closed. *)
Definition tick_retrans (now : Z) (c : TcpConn) (e : Eth) : TcpConn * Eth * bool :=
  if (0 <? tx_len c) && (TCP_RTO <=? u32 (now - retrans_tick c)) then
    if TCP_MAX_RETRANS <=? retrans_count c then
      (c <| used := 0 |> <| state := TCP_CLOSED |>, tcp_tx c (Z.lor TCP_RST TCP_ACK) (snd_nxt c) (rcv_nxt c) [] 0 e, true)
    else
      (c <| retrans_tick := now |> <| retrans_count := u8 (retrans_count c + 1) |>,
       tcp_tx c (Z.lor TCP_PSH TCP_ACK) (tx_seq c) (rcv_nxt c) (tx_buf c) (tx_len c) e, false)
  else (c, e, false).

Definition tick_keepalive (now : Z) (c : TcpConn) (e : Eth) : TcpConn * Eth :=
  if (TCP_KEEPALIVE_IDLE <=? u32 (now - last_rx_tick c)) && (ka_next_tick c <=? now) then
    if TCP_KEEPALIVE_CNT <=? ka_probes c then
      (c <| used := 0 |> <| state := TCP_CLOSED |>, tcp_tx c (Z.lor TCP_RST TCP_ACK) (snd_nxt c) (rcv_nxt c) [] 0 e)
    else
      (c <| ka_probes := u8 (ka_probes c + 1) |> <| ka_next_tick := u32 (now + TCP_KEEPALIVE_INTVL) |>,
       tcp_tx c TCP_ACK (u32 (snd_nxt c - 1)) (rcv_nxt c) [] 0 e)
  else (c, e).

Definition tick_conn (now i : Z) (s : State) : State :=
  let c := (tcp_conns s).[i] in
  if negb (truth (used c)) || negb (state c =? TCP_ESTABLISHED) then s
  else
    let '(c, e, closed) := tick_retrans now c (eth s) in
    let '(c, e) := if closed : bool then (c, e) else tick_keepalive now c e in
    set_conn i c (s <| eth := e |>).

Definition net_tcp_tick (now : Z) (s : State) : State :=
  if negb (rtl8139_present (eth s)) then s else iter (tick_conn now) 0 (Z.to_nat TCP_MAX_CONN) s.

(** *** Listening *)

Definition net_tcp_listen (port : Z) (s : State) : State * Z :=
  match scan (fun i => negb (truth (active (tcp_listen s).[i]))) 0 (Z.to_nat TCP_LISTEN_SLOTS) with
  | Some i => (s <| tcp_listen := (tcp_listen s).[i <- mkListen 1 port [-1; -1] 0 0 0] |>, i)
  | None => (s, -1)
  end.

Fixpoint accept_wait (lid deadline : Z) (w : list Round) (s : State) : option (State * Z * list Round) :=
  match w with
  | [] => Some (s, -1, [])
  | r :: w =>
      if tick r <? deadline then
        s ← match frame r with
            | Some (pkt, len) => if 54 <? len then fst <$> net_process (tick r) pkt len None 0 s else Some s
            | None => Some s
            end;
        let l := (tcp_listen s).[lid] in
        if 0 <? aq_count l then
          Some (s <| tcp_listen := (tcp_listen s).[lid <- l <| aq_head := (aq_head l + 1) mod 2 |> <| aq_count := aq_count l - 1 |>] |>,
                (accept_q l).[aq_head l], w)
        else accept_wait lid deadline w s
      else Some (s, -1, w)
  end.

Definition net_tcp_accept (lid timeout_ms : Z) (w : list Round) (s : State) : option (State * Z * list Round) :=
  if (lid <? 0) || (TCP_LISTEN_SLOTS <=? lid) || negb (truth (active (tcp_listen s).[lid])) then Some (s, -2, w)
  else accept_wait lid (u32 (get_ticks w + timeout_ms)) w s.

Definition net_tcp_unlisten (lid : Z) (s : State) : State :=
  if (0 <=? lid) && (lid <? TCP_LISTEN_SLOTS)
  then s <| tcp_listen := (tcp_listen s).[lid <- (tcp_listen s).[lid] <| active := 0 |>] |> else s.

(** *** UDP and the resolver *)

Definition net_udp_send (ip : list Z) (dport sport : Z) (bytes : list Z) (dlen : Z) (w : list Round) (s : State)
    : option (State * Z * list Round) :=
  if negb (rtl8139_present (eth s)) then Some (s, -1, w)
  else
    '(s, mac, w) ← arp_resolve (next_hop_ip ip (eth s)) w s;
    match mac with
    | None => Some (s, -1, w)
    | Some mac => e ← udp_tx ip mac dport sport bytes dlen (eth s); Some (s <| eth := e |>, 0, w)
    end.

(** One frame of the wait for the answer: the address, when it has it. *)
Definition dns_frame (now : Z) (pkt : list Z) (plen txid : Z) (s : State) : option (State * option (list Z)) :=
  if plen <=? 42 then Some (s, None)
  else if negb (pkt.[23] =? 17) then Some (s, None)
  else
    let udp := 14 + Z.land pkt.[14] 0xF * 4 in
    if negb (get2 pkt udp =? DNS_PORT) || negb (get2 pkt (udp + 2) =? DNS_SRC_PORT) then
      '(s, _) ← net_process now pkt plen None 0 s; Some (s, None)
    else
      ip ← dns_parse_response (drop (Z.to_nat (udp + 8)) pkt) (plen - udp - 8) txid; Some (s, ip).

Fixpoint dns_wait (txid deadline : Z) (w : list Round) (s : State) : option (State * option (list Z) * list Round) :=
  match w with
  | [] => Some (s, None, [])
  | r :: w =>
      if tick r <? deadline then
        '(s, ip) ← match frame r with
                   | Some (pkt, plen) => dns_frame (tick r) pkt plen txid s
                   | None => Some (s, None)
                   end;
        match ip with Some ip => Some (s, Some ip, w) | None => dns_wait txid deadline w s end
      else Some (s, None, w)
  end.

(** The attempts left. *)
Fixpoint dns_attempts (n : nat) (query : list Z) (txid : Z) (w : list Round) (s : State) : option (State * option (list Z) * list Round) :=
  match n with
  | O => Some (s, None, w)
  | S n =>
      '(s, _, w) ← net_udp_send DNS_SERVER DNS_PORT DNS_SRC_PORT query (zlen query) w s;
      '(s, ip, w) ← dns_wait txid (u32 (get_ticks w + 1000)) w s;
      match ip with Some ip => Some (s, Some ip, w) | None => dns_attempts n query txid w s end
  end.

Definition dns_resolve (hostname : list Z) (w : list Round) (s : State) : option (State * option (list Z) * list Round) :=
  if negb (rtl8139_present (eth s)) then Some (s, None, w)
  else
    let s := s <| dns_txid := u16 (dns_txid s + 1) |> in
    match dns_build_query hostname (dns_txid s) with
    | None => Some (s, None, w)
    | Some q => dns_attempts 3 q (dns_txid s) w s
    end.

(** ** The interface the callers use

    The state and the rounds to come, or [None] after a memory error. *)
Definition Stack : Type := option (State * list Round).

#[global] Instance net_stack : NetStack Stack := {|
  net_present n := match n with Some (s, _) => rtl8139_present (eth s) | None => false end;
  Net.net_tcp_connect ip port n :=
    match (n ≫= fun '(s, w) => net_tcp_connect ip port w s) with Some (s, id, w) => (Some (s, w), id) | None => (None, -1) end;
  Net.net_tcp_close id n := n ≫= fun '(s, w) => net_tcp_close id w s;
  Net.net_tcp_send id bytes n :=
    match n with Some (s, w) => let '(s, r) := net_tcp_send (get_ticks w) id bytes (zlen bytes) s in (Some (s, w), r) | None => (None, -1) end;
  Net.net_tcp_recv id maxlen n :=
    match (n ≫= fun '(s, w) => net_tcp_recv id maxlen w s) with Some (s, out, r, w) => (Some (s, w), out, r) | None => (None, [], -1) end;
  Net.net_tcp_state id n := match n with Some (s, _) => net_tcp_state id s | None => TCP_CLOSED end;
  Net.dns_resolve host n :=
    match (n ≫= fun '(s, w) => dns_resolve host w s) with Some (s, ip, w) => (Some (s, w), ip) | None => (None, None) end |}.

(** ** A segment as it is received *)

(** A host and a connection with values of their types. *)
Record eth_ok (e : Eth) : Prop := {
  eth_mac_bytes : Forall byte (my_mac e); eth_mac_len : length (my_mac e) = 6%nat;
  eth_ip_bytes : Forall byte (MY_IP e); eth_ip_len : length (MY_IP e) = 4%nat; eth_id : 0 <= ip_id_counter e < 65536 }.
Record conn_ok (c : TcpConn) : Prop := {
  conn_mac_len : length (dst_mac c) = 6%nat; conn_ip_bytes : Forall byte (dst_ip c); conn_ip_len : length (dst_ip c) = 4%nat;
  conn_sport : 0 <= src_port c < 65536; conn_dport : 0 <= dst_port c < 65536 }.
Definition word (x : Z) : Prop := 0 <= x < 2 ^ 32.

Lemma be4_bytes x : Forall byte (be4 x) /\ length (be4 x) = 4%nat.
Proof.
  split; [|done]. unfold be4, hi, lo. by repeat (apply Forall_cons_2; [apply u8_range|]).
Qed.

Lemma get4_join a b c d : byte a -> byte b -> byte c -> byte d ->
  Z.lor (Z.lor (Z.lor (Z.shiftl a 24) (Z.shiftl b 16)) (Z.shiftl c 8)) d = 256 * (256 * (256 * a + b) + c) + d.
Proof.
  intros Ha Hb Hc Hd.
  assert (Z.lor (Z.lor (Z.shiftl a 24) (Z.shiftl b 16)) (Z.shiftl c 8) = Z.shiftl (Z.lor (Z.shiftl (Z.lor (Z.shiftl a 8) b) 8) c) 8) as ->.
  { rewrite !Z.shiftl_lor, !Z.shiftl_shiftl by lia. done. }
  by rewrite !word_join.
Qed.

Lemma be4_value x : word x ->
  256 * (256 * (256 * u8 (Z.shiftr x 24) + u8 (Z.shiftr x 16)) + hi x) + lo x = x.
Proof.
  unfold word. intros Hx. unfold hi, lo, u8. change 0xFF with (Z.ones 8). rewrite Z.land_ones, !Z.shiftr_div_pow2 by lia.
  change (2 ^ 8) with 256. change (2 ^ 16) with 65536. change (2 ^ 24) with 16777216. change (2 ^ 32) with 4294967296 in Hx.
  Z.to_euclidean_division_equations; lia.
Qed.

Lemma seg_bytes c fl seq ack : conn_ok c -> byte fl ->
  Forall byte ([hi (src_port c); lo (src_port c); hi (dst_port c); lo (dst_port c)] ++ be4 seq ++ be4 ack ++ [0x50; fl; 0xFF; 0xFF]).
Proof.
  intros Hc Hfl. destruct (hi_lo _ (conn_sport _ Hc)) as (_ & ? & ?), (hi_lo _ (conn_dport _ Hc)) as (_ & ? & ?).
  destruct (be4_bytes seq), (be4_bytes ack). repeat (apply Forall_app; split); try done.
  all: repeat (apply Forall_cons_2; [first [done|unfold byte; lia]|]); apply Forall_nil_2.
Qed.

(** The checksum of the segment verifies. *)
Lemma tcp_segment_verifies c fl seq ack data e : eth_ok e -> conn_ok c -> byte fl -> Forall byte data -> zlen data <= TCP_TX_SIZE ->
  length (tcp_segment c fl seq ack data (zlen data) e) = (20 + length data)%nat /\
  transport_cksum (MY_IP e) (dst_ip c) 6 (tcp_segment c fl seq ack data (zlen data) e) (20 + zlen data) = 0.
Proof.
  intros He Hc Hfl Hd Hl. unfold TCP_TX_SIZE in Hl. pose proof (zlen_nonneg data). pose proof (seg_bytes c fl seq ack Hc Hfl) as Hh.
  assert (u16 (20 + zlen data) = 20 + zlen data) as E16 by (apply Z.mod_small; lia). unfold tcp_segment. rewrite !E16.
  set (head := _ ++ be4 seq ++ _) in *. assert (length head = 16%nat) as Hlh by done.
  rewrite (take_ge data) by (unfold zlen; lia). set (tail := [0; 0] ++ data). assert (length tail = (2 + length data)%nat) as Hlt by done.
  assert (forall a b, take (Z.to_nat (20 + zlen data)) (head ++ [a; b] ++ tail) = head ++ [a; b] ++ tail) as Htake.
  { intros a b. apply take_ge. rewrite !length_app, Hlh, Hlt. unfold zlen. cbn [length]. lia. }
  split; [rewrite !length_app, Hlh, Hlt; cbn [length]; lia|]. unfold transport_cksum. rewrite !Htake.
  assert (Forall byte (pseudo_header (MY_IP e) (dst_ip c) 6 (20 + zlen data))) as Hp.
  { unfold pseudo_header. destruct (hi_lo (20 + zlen data) ltac:(lia)) as (_ & ? & ?).
    apply Forall_app; split; [apply Forall_take, He|]. apply Forall_app; split; [apply Forall_take, Hc|].
    by repeat (apply Forall_cons_2; [first [done|unfold byte; lia]|]). }
  assert (zlen (pseudo_header (MY_IP e) (dst_ip c) 6 (20 + zlen data)) = 12) as Hlp.
  { unfold pseudo_header, zlen. rewrite !length_app, !length_take, (eth_ip_len _ He), (conn_ip_len _ Hc). done. }
  pose proof (words_bound _ Hp) as Hw. rewrite Hlp in Hw. change ((12 + 1) / 2) with 6 in Hw.
  rewrite (sum_words _ Hp 0) by lia.
  assert (Forall byte tail) as Hbt by (repeat (apply Forall_cons_2; [unfold byte; lia|]); exact Hd).
  assert (zlen head + zlen tail < 2 ^ 16) as Hsz by (unfold zlen in *; lia).
  set (ps := pseudo_header _ _ _ _) in *. assert (0 <= 0 + words ps < 2 ^ 20) as Hb by lia.
  assert (Nat.even (length head) = true) as Hev by (rewrite Hlh; reflexivity).
  exact (proj2 (proj2 (cksum_field head tail _ Hh Hbt Hev Hb Hsz))).
Qed.

Lemma eth_hdr_len dst ty e : length dst = 6%nat -> eth_ok e -> length (eth_hdr dst ty e) = 14%nat.
Proof. intros Hd He. unfold eth_hdr. by rewrite !length_app, !length_take, Hd, (eth_mac_len _ He). Qed.

Lemma tcp_frame_parts c fl seq ack data e : eth_ok e -> conn_ok c -> zlen data <= TCP_TX_SIZE ->
  tcp_frame c fl seq ack data (zlen data) e =
    eth_hdr (dst_mac c) 0x0800 e ++ ip_header (40 + zlen data) 6 (dst_ip c) e ++ tcp_segment c fl seq ack data (zlen data) e.
Proof.
  intros He Hc Hl. unfold TCP_TX_SIZE in Hl. pose proof (zlen_nonneg data). unfold tcp_frame, u16.
  rewrite (Z.mod_small (20 + zlen data)), (Z.mod_small (20 + (20 + zlen data))) by lia.
  by replace (20 + (20 + zlen data)) with (40 + zlen data) by lia.
Qed.

Lemma len4 (l : list Z) : length l = 4%nat -> exists a b c d, l = [a; b; c; d].
Proof. do 4 (destruct l as [|? l]; [done|]). destruct l; [by eauto 6|done]. Qed.
Lemma len6 (l : list Z) : length l = 6%nat -> exists a b c d e f, l = [a; b; c; d; e; f].
Proof. do 6 (destruct l as [|? l]; [done|]). destruct l; [by eauto 8|done]. Qed.

(** The bytes of the frame; the identification and the two checksums are left open. *)
Lemma tcp_frame_bytes c fl seq ack data e : eth_ok e -> conn_ok c -> zlen data <= TCP_TX_SIZE ->
  exists i1 i2 k1 k2 t1 t2, tcp_frame c fl seq ack data (zlen data) e =
    dst_mac c ++ my_mac e ++ [8; 0; 0x45; 0; hi (40 + zlen data); lo (40 + zlen data); i1; i2; 0; 0; 64; 6; k1; k2] ++ MY_IP e ++ dst_ip c ++
    [hi (src_port c); lo (src_port c); hi (dst_port c); lo (dst_port c)] ++ be4 seq ++ be4 ack ++ [0x50; fl; 0xFF; 0xFF; t1; t2; 0; 0] ++ data.
Proof.
  intros He Hc Hl. rewrite tcp_frame_parts by done. unfold eth_hdr, ip_header, tcp_segment.
  set (ck := inet_cksum _ _). set (tck := transport_cksum _ _ _ _ _).
  exists (hi (ip_id_counter e)), (lo (ip_id_counter e)), (hi ck), (lo ck), (hi tck), (lo tck). clearbody ck tck.
  rewrite !take_ge by (rewrite ?(eth_mac_len _ He), ?(eth_ip_len _ He), ?(conn_mac_len _ Hc), ?(conn_ip_len _ Hc); unfold zlen; lia).
  rewrite <- !app_assoc. reflexivity.
Qed.

Lemma get2_words (p : list Z) i x : p.[i] = hi x -> p.[i + 1] = lo x -> 0 <= x < 65536 -> get2 p i = x.
Proof.
  intros E1 E2 Hx. destruct (hi_lo x Hx) as (E & _ & ?). unfold get2. rewrite E1, E2, word_join, E by done.
  apply Z.mod_small. lia.
Qed.

Lemma get4_words (p : list Z) i x : [p.[i]; p.[i + 1]; p.[i + 2]; p.[i + 3]] = be4 x -> word x -> get4 p i = x.
Proof.
  intros E Hx. unfold be4 in E. injection E as E1 E2 E3 E4. unfold get4. rewrite E1, E2, E3, E4.
  destruct (be4_bytes x) as [Hb _]. unfold be4 in Hb.
  apply Forall_cons_1 in Hb as [? Hb]. apply Forall_cons_1 in Hb as [? Hb]. apply Forall_cons_1 in Hb as [? Hb]. apply Forall_cons_1 in Hb as [? _].
  rewrite get4_join by done. by apply be4_value.
Qed.

(** What the receiver reads of a frame, whatever follows it in the buffer. *)
Lemma tcp_frame_fields c fl seq ack data e rest : eth_ok e -> conn_ok c -> word seq -> word ack -> zlen data <= TCP_TX_SIZE ->
  let p := tcp_frame c fl seq ack data (zlen data) e ++ rest in
  (get2 p 12 = 0x0800 /\ p.[14] = 0x45 /\ p.[23] = 6 /\ get2 p 16 = 40 + zlen data) /\
  (take 4 (drop 26 p) = MY_IP e /\ take 6 (drop 6 p) = my_mac e /\ take 4 (drop 30 p) = dst_ip c) /\
  parse_seg p 34 (20 + zlen data) = mkSeg (src_port c) (dst_port c) seq ack 20 fl (zlen data) (data ++ rest).
Proof.
  intros He Hc Hs Ha Hl p. pose proof (zlen_nonneg data).
  destruct (tcp_frame_bytes c fl seq ack data e He Hc Hl) as (i1 & i2 & k1 & k2 & t1 & t2 & E).
  assert (p = dst_mac c ++ my_mac e ++ [8; 0; 0x45; 0; hi (40 + zlen data); lo (40 + zlen data); i1; i2; 0; 0; 64; 6; k1; k2] ++ MY_IP e ++ dst_ip c ++
    [hi (src_port c); lo (src_port c); hi (dst_port c); lo (dst_port c)] ++ be4 seq ++ be4 ack ++ [0x50; fl; 0xFF; 0xFF; t1; t2; 0; 0] ++ data ++ rest) as Ep.
  { unfold p. rewrite E. by rewrite <- !app_assoc. }
  clearbody p. clear E. destruct He as [_ Hm _ Hi _], Hc as [Hd _ Hj Hsp Hdp].
  apply len6 in Hd as (d1 & d2 & d3 & d4 & d5 & d6 & E1). apply len6 in Hm as (m1 & m2 & m3 & m4 & m5 & m6 & E2).
  apply len4 in Hi as (a1 & a2 & a3 & a4 & E3). apply len4 in Hj as (b1 & b2 & b3 & b4 & E4).
  rewrite E2, E3, E4. rewrite E1, E2, E3, E4 in Ep. unfold be4 in Ep. cbn [app] in Ep. split_and!.
  - apply get2_words; [by rewrite Ep..|lia].
  - by rewrite Ep.
  - by rewrite Ep.
  - unfold TCP_TX_SIZE in Hl. apply get2_words; [by rewrite Ep..|lia].
  - by rewrite Ep.
  - by rewrite Ep.
  - by rewrite Ep.
  - unfold parse_seg. f_equal.
    + apply get2_words; [by rewrite Ep..|done].
    + apply get2_words; [by rewrite Ep..|done].
    + apply get4_words; [by rewrite Ep|done].
    + apply get4_words; [by rewrite Ep|done].
    + by rewrite Ep.
    + by rewrite Ep.
    + rewrite Ep. change (u8 (Z.shiftr _ 4 * 4)) with 20. lia.
    + by rewrite Ep.
Qed.

(** A TCP frame in a round reaches the connection code. *)
Lemma net_process_tcp now c fl seq ack data e rest len s : eth_ok e -> conn_ok c -> word seq -> word ack -> zlen data <= TCP_TX_SIZE -> 34 <= len ->
  net_process now (tcp_frame c fl seq ack data (zlen data) e ++ rest) len None 0 s =
  (s ← tcp_rx_seg now (mkSeg (src_port c) (dst_port c) seq ack 20 fl (zlen data) (data ++ rest)) (MY_IP e) (my_mac e)
         (s <| eth := arp_cache_put (MY_IP e) (my_mac e) (eth s) |>);
   Some (s, None)).
Proof.
  intros He Hc Hs Ha Hl Hlen. pose proof (zlen_nonneg data).
  destruct (tcp_frame_fields c fl seq ack data e rest He Hc Hs Ha Hl) as ((E12 & E14 & E23 & E16) & (Eip & Emac & _) & Eseg).
  unfold net_process, tcp_rx_process. set (p := tcp_frame c fl seq ack data (zlen data) e ++ rest) in *. clearbody p.
  rewrite (proj2 (Z.ltb_ge len 14)) by lia. rewrite E12, E14, E23, E16, Eip, Emac. change (0x0800 =? 0x0806) with false. change (0x0800 =? 0x0800) with true.
  rewrite (proj2 (Z.leb_le 34 len)) by lia. cbn [andb]. change (u8 (Z.land 0x45 0xF * 4)) with 20. change (14 + 20) with 34.
  replace (Z.max 0 (40 + zlen data - 20)) with (20 + zlen data) by lia. rewrite Eseg.
  change (6 =? 1) with false. change (6 =? 6) with true. rewrite (proj2 (Z.leb_le 20 _)) by lia. reflexivity.
Qed.

(** The receive ring: [rx_tail] is read next, [rx_head] written next. *)
Definition rx_wf (c : TcpConn) : Prop := ring_wf TCP_RX_SIZE (rx c) (rx_tail c) (rx_head c).
Definition rx_bytes (c : TcpConn) : list Z := ring_items TCP_RX_SIZE (rx c) (rx_tail c) (rx_head c).

Lemma rx_next h : 0 <= h < TCP_RX_SIZE -> u16 ((h + 1) mod TCP_RX_SIZE) = (h + 1) mod TCP_RX_SIZE.
Proof. intros. apply Z.mod_small. pose proof (Z.mod_pos_bound (h + 1) TCP_RX_SIZE ltac:(done)). unfold TCP_RX_SIZE in *. lia. Qed.

(** Pushing fills the ring as far as it goes. *)
Lemma tcp_rx_push_spec data rest : forall c, rx_wf c ->
  exists buf h, tcp_rx_push (length data) (data ++ rest) c = Some (c <| rx := buf |> <| rx_head := h |>) /\
    rx_wf (c <| rx := buf |> <| rx_head := h |>) /\
    rx_bytes (c <| rx := buf |> <| rx_head := h |>) = rx_bytes c ++ take (Z.to_nat (TCP_RX_SIZE - 1 - zlen (rx_bytes c))) data.
Proof.
  induction data as [|b data IH]; intros c Hwf.
  { exists (rx c), (rx_head c). rewrite take_nil, app_nil_r. by destruct c. }
  pose proof Hwf as (Hl & Ht & Hh). pose proof (ring_items_bound _ _ _ _ Hwf) as Hb. fold (rx_bytes c) in Hb.
  cbn [length tcp_rx_push app]. rewrite rx_next by done. destruct (Z.eqb_spec ((rx_head c + 1) mod TCP_RX_SIZE) (rx_tail c)) as [E|E].
  { apply (ring_full_iff TCP_RX_SIZE _ _ _ Hwf) in E. fold (rx_bytes c) in E.
    exists (rx c), (rx_head c). replace (Z.to_nat (TCP_RX_SIZE - 1 - zlen (rx_bytes c))) with O by lia. rewrite app_nil_r. by destruct c. }
  set (c1 := c <| rx := (rx c).[rx_head c <- b] |> <| rx_head := (rx_head c + 1) mod TCP_RX_SIZE |>).
  assert (rx_wf c1) as Hwf1 by exact (ring_wf_push TCP_RX_SIZE _ _ _ b Hwf).
  assert (rx_bytes c1 = rx_bytes c ++ [b]) as Eb by exact (ring_items_push TCP_RX_SIZE _ _ _ b Hwf E).
  assert (zlen (rx_bytes c) <> TCP_RX_SIZE - 1) as Hfull by (intros E'; by apply E, (ring_full_iff TCP_RX_SIZE _ _ _ Hwf)).
  destruct (IH c1 Hwf1) as (buf & h & E1 & Hwf2 & E2). exists buf, h. split; [exact E1|]. split; [exact Hwf2|].
  transitivity (rx_bytes (c1 <| rx := buf |> <| rx_head := h |>)); [reflexivity|]. rewrite E2, Eb, <- app_assoc. f_equal.
  assert (zlen (rx_bytes c ++ [b]) = zlen (rx_bytes c) + 1) as -> by (unfold zlen; rewrite length_app; cbn [length]; lia).
  replace (Z.to_nat (TCP_RX_SIZE - 1 - zlen (rx_bytes c))) with (S (Z.to_nat (TCP_RX_SIZE - 1 - (zlen (rx_bytes c) + 1)))) by lia. done.
Qed.

(** An acknowledgement on an established connection: the data in flight is released when
    all of it is covered, and [snd_nxt] becomes the acknowledgement. *)
Definition acked (sack : Z) (c : TcpConn) : TcpConn :=
  (if (0 <? tx_len c) && (0 <=? i32 (u32 (sack - u32 (tx_seq c + tx_len c)))) then c <| tx_len := 0 |> else c) <| snd_nxt := sack |>.

Lemma rx_ack_established g c : state c = TCP_ESTABLISHED -> rx_ack g c = acked (sack g) c.
Proof. intros Hs. unfold rx_ack, acked. destruct ((0 <? tx_len c) && _); cbn [state upd]; rewrite Hs; reflexivity. Qed.

(** The connection after [d] came in order: [buf] and [h] are the ring. *)
Definition data_base (now sack : Z) (c : TcpConn) : TcpConn :=
  (acked sack c) <| last_rx_tick := now |> <| ka_probes := 0 |> <| ka_next_tick := u32 (now + TCP_KEEPALIVE_IDLE) |>.
Definition data_in (now sack n : Z) (buf : list Z) (h : Z) (c : TcpConn) : TcpConn :=
  (data_base now sack c) <| rx := buf |> <| rx_head := h |> <| rcv_nxt := u32 (rcv_nxt c + n) |>.

Lemma data_base_fields now sack c : rx_wf c ->
  rx_wf (data_base now sack c) /\ rx_bytes (data_base now sack c) = rx_bytes c /\ rcv_nxt (data_base now sack c) = rcv_nxt c /\
  ooo_len (data_base now sack c) = ooo_len c.
Proof. intros Hwf. unfold data_base, acked. destruct ((0 <? tx_len c) && _); exact (conj Hwf (conj eq_refl (conj eq_refl eq_refl))). Qed.

Lemma rx_in_order_push g d rest c : data g = d ++ rest -> dlen g = zlen d -> zlen d < 65536 -> ooo_len c = 0 -> rx_wf c ->
  exists buf h, let c' := c <| rx := buf |> <| rx_head := h |> <| rcv_nxt := u32 (rcv_nxt c + zlen d) |> in
    rx_in_order g c = Some c' /\
    rx_wf c' /\ rx_bytes c' = rx_bytes c ++ take (Z.to_nat (TCP_RX_SIZE - 1 - zlen (rx_bytes c))) d.
Proof.
  intros Ed El Hd Ho Hwf. destruct (tcp_rx_push_spec d rest c Hwf) as (buf & h & Ep & Hwf' & Eb). exists buf, h. split; [|split; [exact Hwf'|exact Eb]].
  pose proof (zlen_nonneg d). unfold rx_in_order. rewrite Ed, El. assert (u16 (zlen d) = zlen d) as -> by (apply Z.mod_small; lia).
  assert (Z.to_nat (zlen d) = length d) as -> by apply Nat2Z.id. rewrite Ep. cbn [mbind option_bind]. destruct c. cbn in Ho. subst. reflexivity.
Qed.

Lemma rx_data_in_order now g c : sseq g = rcv_nxt c ->
  rx_data now g c = rx_in_order g (c <| last_rx_tick := now |> <| ka_probes := 0 |> <| ka_next_tick := u32 (now + TCP_KEEPALIVE_IDLE) |>).
Proof. intros E. unfold rx_data. rewrite (proj2 (Z.eqb_eq _ _)) by exact E. reflexivity. Qed.

Lemma rx_established_data now g c e c' : state c = TCP_ESTABLISHED -> truth (Z.land (flags g) TCP_ACK) = true -> Z.land (flags g) TCP_FIN = 0 ->
  0 < dlen g -> rx_data now g (acked (sack g) c) = Some c' -> rx_established now g c e = Some (c', send_ack c' e).
Proof.
  intros Hs Ha Hf Hd E. assert (state (acked (sack g) c) = TCP_ESTABLISHED) as Hs' by (unfold acked; by case_if).
  unfold rx_established. rewrite Ha, Hf, rx_ack_established, Hs' by done. rewrite (proj2 (Z.ltb_lt 0 (dlen g))) by lia. rewrite Z.eqb_refl, E. reflexivity.
Qed.

Lemma rx_conn_established now g c e : state c = TCP_ESTABLISHED -> Z.land (flags g) TCP_RST = 0 ->
  rx_conn now g c e = ('(c, e) ← rx_established now g c e; Some (c, e, false)).
Proof. intros Hs Hr. unfold rx_conn. by rewrite Hs, Hr. Qed.

Lemma rx_conn_data now sp dp ack off fl d rest c e :
  state c = TCP_ESTABLISHED -> ooo_len c = 0 -> rx_wf c -> 0 < zlen d < 65536 ->
  Z.land fl (Z.lor TCP_RST TCP_FIN) = 0 -> truth (Z.land fl TCP_ACK) = true ->
  exists buf h, let c' := data_in now ack (zlen d) buf h c in
    rx_conn now (mkSeg sp dp (rcv_nxt c) ack off fl (zlen d) (d ++ rest)) c e = Some (c', send_ack c' e, false) /\
    rx_wf c' /\ rx_bytes c' = rx_bytes c ++ take (Z.to_nat (TCP_RX_SIZE - 1 - zlen (rx_bytes c))) d.
Proof.
  intros Hs Ho Hwf Hd Hfl Hack.
  assert (Z.land fl TCP_RST = 0 /\ Z.land fl TCP_FIN = 0) as [Hr Hf] by (rewrite Z.land_lor_distr_r in Hfl; by apply Z.lor_eq_0_iff in Hfl).
  set (g := mkSeg sp dp (rcv_nxt c) ack off fl (zlen d) (d ++ rest)).
  destruct (data_base_fields now ack c Hwf) as (Hwf0 & Eb0 & Er0 & Eo0). rewrite Ho in Eo0.
  destruct (rx_in_order_push g d rest (data_base now ack c) eq_refl eq_refl ltac:(lia) Eo0 Hwf0) as (buf & h & Ei & Hwf' & Eb). exists buf, h.
  rewrite Er0 in Ei, Hwf', Eb. rewrite Eb0 in Eb. cbv zeta. fold (data_in now ack (zlen d) buf h c) in Ei, Hwf', Eb. split; [|split; [exact Hwf'|exact Eb]].
  rewrite rx_conn_established by done. rewrite (rx_established_data now g c e (data_in now ack (zlen d) buf h c)); [reflexivity|done|done|done|cbn [dlen g]; lia|].
  rewrite rx_data_in_order; [exact Ei|]. unfold acked. by destruct ((0 <? tx_len c) && _).
Qed.

(** A bare acknowledgement. *)
Lemma rx_conn_ack now sp dp seq ack off rest c e :
  state c = TCP_ESTABLISHED -> rx_conn now (mkSeg sp dp seq ack off TCP_ACK 0 rest) c e = Some (acked ack c, e, false).
Proof.
  intros Hs. unfold rx_conn. cbn [flags]. rewrite Hs. change (truth (Z.land TCP_ACK TCP_RST)) with false. change (TCP_ESTABLISHED =? TCP_SYN_SENT) with false.
  rewrite Z.eqb_refl. cbn [orb]. unfold rx_established. cbn [flags dlen]. change (truth (Z.land TCP_ACK TCP_ACK)) with true.
  change (truth (Z.land TCP_ACK TCP_FIN)) with false. rewrite rx_ack_established by done. change (0 <? 0) with false. reflexivity.
Qed.

(** ** The timer *)

(** What one tick does to a connection, whatever the Ethernet state is. *)
Definition ticked (now : Z) (c : TcpConn) : TcpConn :=
  if negb (truth (used c)) || negb (state c =? TCP_ESTABLISHED) then c
  else
    let '(c, _, closed) := tick_retrans now c inhabitant in
    if closed : bool then c else fst (tick_keepalive now c inhabitant).

Lemma tick_retrans_eth now c e e' : (tick_retrans now c e).1.1 = (tick_retrans now c e').1.1 /\ (tick_retrans now c e).2 = (tick_retrans now c e').2.
Proof. unfold tick_retrans. by repeat case_if. Qed.

Lemma tick_keepalive_eth now c e e' : fst (tick_keepalive now c e) = fst (tick_keepalive now c e').
Proof. unfold tick_keepalive. by repeat case_if. Qed.

Lemma tick_conn_conns now i s : 0 <= i < zlen (tcp_conns s) -> tcp_conns (tick_conn now i s) = (tcp_conns s).[i <- ticked now (tcp_conns s).[i]].
Proof.
  intros Hi. unfold tick_conn, ticked. set (c := (tcp_conns s).[i]). destruct (negb (truth (used c)) || negb (state c =? TCP_ESTABLISHED)).
  { symmetry. by apply aset_id. }
  destruct (tick_retrans_eth now c (eth s) inhabitant) as [E1 E2].
  destruct (tick_retrans now c (eth s)) as [[c1 e1] b1], (tick_retrans now c inhabitant) as [[c2 e2] b2]. cbn [fst snd] in E1, E2. subst c2 b2.
  destruct b1; [done|]. pose proof (tick_keepalive_eth now c1 e1 inhabitant) as E. destruct (tick_keepalive now c1 e1) as [c3 e3]. cbn [fst] in E. by rewrite <- E.
Qed.

(** A tick is [ticked] on every connection. *)
Lemma tick_all now s i : zlen (tcp_conns s) = TCP_MAX_CONN -> rtl8139_present (eth s) = true -> 0 <= i < TCP_MAX_CONN ->
  let s' := net_tcp_tick now s in
  zlen (tcp_conns s') = TCP_MAX_CONN /\ (tcp_conns s').[i] = ticked now (tcp_conns s).[i].
Proof.
  intros Hl Hp Hi s'. unfold s', net_tcp_tick. rewrite Hp. cbn [negb].
  assert (zlen (tcp_conns (iter (tick_conn now) 0 (Z.to_nat TCP_MAX_CONN) s)) = TCP_MAX_CONN /\
    forall k, 0 <= k < TCP_MAX_CONN -> (tcp_conns (iter (tick_conn now) 0 (Z.to_nat TCP_MAX_CONN) s)).[k] =
      if k <? 0 + Z.of_nat (Z.to_nat TCP_MAX_CONN) then ticked now (tcp_conns s).[k] else (tcp_conns s).[k]) as [E1 E2].
  { apply (iter_ind (fun n s' => zlen (tcp_conns s') = TCP_MAX_CONN /\ forall k, 0 <= k < TCP_MAX_CONN ->
      (tcp_conns s').[k] = if k <? n then ticked now (tcp_conns s).[k] else (tcp_conns s).[k])).
    - split; [done|]. intros k Hk. by rewrite (proj2 (Z.ltb_ge k 0)) by lia.
    - intros n s1 Hn [Hz Hs]. rewrite tick_conn_conns by (unfold TCP_MAX_CONN in *; lia). split; [by rewrite zlen_aset|].
      intros k Hk. destruct (Z.eq_dec k n) as [->|Hne].
      + rewrite aget_aset_eq by lia. rewrite Hs, (proj2 (Z.ltb_ge n n)), (proj2 (Z.ltb_lt n (n + 1))) by lia. done.
      + rewrite aget_aset_ne by lia. rewrite Hs by done. destruct (Z.ltb_spec k n), (Z.ltb_spec k (n + 1)); (done || lia). }
  split; [done|]. rewrite E2 by done. rewrite (proj2 (Z.ltb_lt _ _)); [done|]. unfold TCP_MAX_CONN in *. lia.
Qed.

(** A connection with data sent at tick [t] for the [n]th time again, and a closed one. *)
Definition waiting (n t : Z) (c : TcpConn) : Prop :=
  truth (used c) = true /\ state c = TCP_ESTABLISHED /\ 0 < tx_len c /\ retrans_count c = n /\ retrans_tick c = t.
Definition closed (c : TcpConn) : Prop := used c = 0 /\ state c = TCP_CLOSED.

Lemma closed_ticked now c : closed c -> ticked now c = c.
Proof. intros [Hu _]. unfold ticked. by rewrite Hu. Qed.

Lemma keepalive_cases now c e : let c' := fst (tick_keepalive now c e) in closed c' \/
  (used c' = used c /\ state c' = state c /\ tx_len c' = tx_len c /\ retrans_count c' = retrans_count c /\ retrans_tick c' = retrans_tick c).
Proof. unfold tick_keepalive. destruct (_ && _); [|by right]. destruct (_ <=? ka_probes c); destruct c; [left|right]; done. Qed.

Lemma waiting_ticked n t now c : waiting n t c -> 0 <= n <= TCP_MAX_RETRANS -> TCP_RTO <= now - t < 2 ^ 32 ->
  closed (ticked now c) \/ (n < TCP_MAX_RETRANS /\ waiting (n + 1) now (ticked now c)).
Proof.
  intros (Hu & Hs & Hx & Hn & Ht) Hr Hd. unfold TCP_RTO, TCP_MAX_RETRANS in *. unfold ticked. rewrite Hu, Hs, Z.eqb_refl. cbn [negb orb].
  unfold tick_retrans. rewrite Ht, Hn, (proj2 (Z.ltb_lt 0 _)) by lia.
  assert ((TCP_RTO <=? u32 (now - t)) = true) as -> by (apply Z.leb_le; unfold TCP_RTO, u32; rewrite Z.mod_small; lia).
  cbn [andb]. destruct (Z.leb_spec TCP_MAX_RETRANS n); unfold TCP_MAX_RETRANS in *; [left; by destruct c|].
  set (c1 := c <| retrans_tick := now |> <| retrans_count := u8 (n + 1) |>).
  assert (used c1 = used c /\ state c1 = state c /\ tx_len c1 = tx_len c /\ retrans_count c1 = u8 (n + 1) /\ retrans_tick c1 = now) as (E1 & E2 & E3 & E4 & E5) by (by destruct c).
  clearbody c1. destruct (keepalive_cases now c1 inhabitant) as [Hc|(F1 & F2 & F3 & F4 & F5)]; [left; exact Hc|right]. split; [lia|].
  unfold waiting. cbv beta iota. rewrite F1, F2, F3, F4, F5, E1, E2, E3, E4, E5. rewrite u8_small by lia. done.
Qed.

(** Ticks of the timer, each at least [TCP_RTO] after the one before, the first after [t]. *)
Fixpoint spaced (t : Z) (ts : list Z) : Prop :=
  match ts with [] => True | u :: ts => TCP_RTO <= u - t < 2 ^ 32 /\ spaced u ts end.
Definition ticks_at (ts : list Z) (s : State) : State := fold_left (fun s t => net_tcp_tick t s) ts s.

Lemma tick_card now s : rtl8139_present (eth (net_tcp_tick now s)) = rtl8139_present (eth s).
Proof.
  unfold net_tcp_tick. destruct (negb (rtl8139_present (eth s))); [done|].
  apply (iter_ind (fun _ s' => rtl8139_present (eth s') = rtl8139_present (eth s))); [done|]. intros k s1 _ <-.
  unfold tick_conn. case_if; [done|]. unfold tick_retrans, tick_keepalive. by repeat (case_if; try done).
Qed.

Lemma closed_stays ts i : forall s, zlen (tcp_conns s) = TCP_MAX_CONN -> rtl8139_present (eth s) = true -> 0 <= i < TCP_MAX_CONN ->
  closed (tcp_conns s).[i] -> closed (tcp_conns (ticks_at ts s)).[i].
Proof.
  induction ts as [|u ts IH]; intros s Hl Hp Hi Hc; [done|]. destruct (tick_all u s i Hl Hp Hi) as [Hl' E].
  apply (IH (net_tcp_tick u s)); [done|by rewrite tick_card|done|]. by rewrite E, closed_ticked.
Qed.

End Tcp.

Import Tcp.

(** C27: a segment built by the transmitter carries checksums that verify, in a frame of at
    most 1454 bytes, and the receiver reads back its ports, numbers, flags and data,
    whatever follows the frame in the buffer. *)
Theorem tcp_segment_roundtrip c fl seq ack data rest e :
  eth_ok e -> conn_ok c -> byte fl -> word seq -> word ack -> Forall byte data -> zlen data <= TCP_TX_SIZE ->
  let f := tcp_frame c fl seq ack data (zlen data) e in
  sent (tcp_tx c fl seq ack data (zlen data) e) = sent e ++ [f] /\
  zlen f = 54 + zlen data /\ inet_cksum (drop 14 f) 20 = 0 /\ transport_cksum (MY_IP e) (dst_ip c) 6 (drop 34 f) (20 + zlen data) = 0 /\
  parse_seg (f ++ rest) 34 (20 + zlen data) = mkSeg (src_port c) (dst_port c) seq ack 20 fl (zlen data) (data ++ rest).
Proof.
  intros He Hc Hfl Hs Ha Hd Hl f. pose proof (tcp_frame_parts c fl seq ack data e He Hc Hl) as Ef. fold f in Ef. pose proof (zlen_nonneg data).
  destruct (tcp_segment_verifies c fl seq ack data e He Hc Hfl Hd Hl) as [Hls Hcs].
  pose proof (eth_hdr_len (dst_mac c) 0x0800 e (conn_mac_len _ Hc) He) as Hle. unfold TCP_TX_SIZE in Hl.
  destruct (ip_header_verifies (40 + zlen data) 6 (dst_ip c) e) as [Hli Hci];
    [lia|unfold byte; lia|apply He|apply He|apply Hc|unfold zlen; by rewrite (eth_ip_len _ He)|unfold zlen; by rewrite (conn_ip_len _ Hc)|].
  set (eh := eth_hdr _ _ _) in *. set (ih := ip_header _ _ _ _) in *. set (sg := tcp_segment _ _ _ _ _ _ _) in *.
  assert (length ih = 20%nat) as Hli' by (unfold zlen in Hli; lia).
  assert (drop 14 f = ih ++ sg) as E14 by (rewrite Ef; apply drop_app_length'; done).
  split; [reflexivity|]. split; [rewrite Ef; unfold zlen; rewrite !length_app, Hle, Hli', Hls; lia|]. split.
  - rewrite E14. unfold inet_cksum in *. rewrite take_app_length' by lia. rewrite take_ge in Hci by lia. exact Hci.
  - split; [|by apply tcp_frame_fields]. replace 34%nat with (14 + 20)%nat by lia. rewrite <- drop_drop, E14, drop_app_length' by done. exact Hcs.
Qed.

(** A host and a connection to it, for the examples. *)
Definition host_eth (ip : Z) : Eth := mkEth [2; 0; 0; 0; 0; ip] [10; 0; 2; ip] [10; 0; 2; 2] (replicate 8 inhabitant) 1 true [].
Definition some_conn : TcpConn := inhabitant <| state := TCP_ESTABLISHED |> <| used := 1 |>.

Lemma bytes_of l : forallb (fun b => (0 <=? b) && (b <? 256)) l = true -> Forall byte l.
Proof. rewrite forallb_forall, List.Forall_forall. intros H x Hx. specialize (H x Hx). unfold byte. lia. Qed.

Lemma host_eth_ok ip : byte ip -> eth_ok (host_eth ip).
Proof. intros H. constructor; [|done| |done|cbn; lia]; repeat (apply Forall_cons_2; [first [exact H|unfold byte; lia]|]); apply Forall_nil_2. Qed.

Lemma tcp_segment_roundtrip_witness :
  parse_seg (tcp_frame some_conn 24 7 9 [1; 2; 3] 3 (host_eth 15) ++ [0; 0; 0]) 34 23 = mkSeg 0 0 7 9 20 24 3 [1; 2; 3; 0; 0; 0].
Proof.
  apply (tcp_segment_roundtrip some_conn 24 7 9 [1; 2; 3] [0; 0; 0] (host_eth 15));
    [apply host_eth_ok; unfold byte; lia|constructor; first [done|by apply bytes_of]|unfold byte; lia|done|done|by apply bytes_of|done].
Defined.

(** Data in order is put into the ring as far as it has room, and all of it is
    acknowledged: what does not fit is lost. *)
Theorem tcp_in_order_data now sp dp ack off fl d rest c e :
  state c = TCP_ESTABLISHED -> ooo_len c = 0 -> rx_wf c -> 0 < zlen d < 65536 ->
  Z.land fl (Z.lor TCP_RST TCP_FIN) = 0 -> truth (Z.land fl TCP_ACK) = true ->
  exists c', rx_conn now (mkSeg sp dp (rcv_nxt c) ack off fl (zlen d) (d ++ rest)) c e =
      Some (c', tcp_tx c' TCP_ACK (snd_nxt c') (rcv_nxt c') [] 0 e, false) /\
    rcv_nxt c' = u32 (rcv_nxt c + zlen d) /\ rx_wf c' /\
    rx_bytes c' = rx_bytes c ++ take (Z.to_nat (TCP_RX_SIZE - 1 - zlen (rx_bytes c))) d.
Proof.
  intros Hs Ho Hwf Hd Hfl Hack. destruct (rx_conn_data now sp dp ack off fl d rest c e Hs Ho Hwf Hd Hfl Hack) as (buf & h & E & Hwf' & Eb).
  exists (data_in now ack (zlen d) buf h c). split; [exact E|]. split; [reflexivity|]. split; [exact Hwf'|exact Eb].
Qed.

Lemma tcp_in_order_data_witness : exists c', rx_conn 0 (mkSeg 0 0 0 0 20 24 3 [1; 2; 3; 9]) some_conn (host_eth 15) =
    Some (c', tcp_tx c' TCP_ACK (snd_nxt c') (rcv_nxt c') [] 0 (host_eth 15), false) /\ rx_bytes c' = [1; 2; 3].
Proof.
  destruct (tcp_in_order_data 0 0 0 0 20 24 [1; 2; 3] [9] some_conn (host_eth 15)) as (c' & E & _ & _ & Eb);
    [done|done|repeat split; vm_compute; congruence|split; by vm_compute|done|done|].
  exists c'. split; [exact E|]. rewrite Eb. by vm_compute.
Defined.


