(* ===== verification/TcpLink.v ===== *)
(** * net.c: two hosts

    The theorems of this file are about two copies of the stack of Tcp.v that exchange
    frames: the handshake of net_tcp_connect() with a listening port, and the transfer of
    data with net_tcp_send() and net_tcp_recv().  [link] is what the two ends of an open
    connection agree on when nothing is in flight; the operations preserve it, and the
    bytes received are those sent. *)

From Stdlib Require Import ZArith Lia.
From stdpp Require Import base numbers list tactics.
From S2P Require Import Prelude Ring Packet Net Tcp.
Import Pkt Tcp.

Module Link.

(** What addresses a connection. *)
Definition addr_of (c : TcpConn) := (used c, (dst_ip c, dst_mac c), (src_port c, dst_port c)).
Definition peer_of (c : TcpConn) := (addr_of c, state c).

(** Connection [i] of a host, in state [st], to the host [ip] and its port [port]. *)
Record endpoint_in (st i : Z) (s : State) (ip : list Z) (port : Z) : Prop := {
  ep_eth : eth_ok (eth s); ep_slots : zlen (tcp_conns s) = TCP_MAX_CONN; ep_index : 0 <= i < TCP_MAX_CONN;
  ep_conn : conn_ok (tcp_conns s).[i]; ep_used : truth (used (tcp_conns s).[i]) = true; ep_state : state (tcp_conns s).[i] = st;
  ep_ip : dst_ip (tcp_conns s).[i] = ip; ep_port : dst_port (tcp_conns s).[i] = port;
  ep_first : forall g k, rsp g = port -> rdp g = src_port (tcp_conns s).[i] -> 0 <= k < i -> matches g ip (tcp_conns s).[k] = false;
  ep_rx : rx_wf (tcp_conns s).[i]; ep_ooo : ooo_len (tcp_conns s).[i] = 0;
  ep_snd : word (snd_nxt (tcp_conns s).[i]); ep_rcv : word (rcv_nxt (tcp_conns s).[i]) }.

#[global] Arguments ep_eth {_ _ _ _ _} _.
#[global] Arguments ep_slots {_ _ _ _ _} _.
#[global] Arguments ep_index {_ _ _ _ _} _.
#[global] Arguments ep_conn {_ _ _ _ _} _.
#[global] Arguments ep_used {_ _ _ _ _} _.
#[global] Arguments ep_state {_ _ _ _ _} _.
#[global] Arguments ep_port {_ _ _ _ _} _.
#[global] Arguments ep_rx {_ _ _ _ _} _.
#[global] Arguments ep_ooo {_ _ _ _ _} _.
#[global] Arguments ep_snd {_ _ _ _ _} _.
#[global] Arguments ep_rcv {_ _ _ _ _} _.
Notation endpoint := (endpoint_in TCP_ESTABLISHED).

(** Connection [i] of one host and [j] of another are the ends of an open connection, and
    nothing is in flight. *)
Record link (i j : Z) (a b : State) : Prop := {
  link_a : endpoint i a (MY_IP (eth b)) (src_port (tcp_conns b).[j]);
  link_b : endpoint j b (MY_IP (eth a)) (src_port (tcp_conns a).[i]);
  link_ab : snd_nxt (tcp_conns a).[i] = rcv_nxt (tcp_conns b).[j];
  link_ba : snd_nxt (tcp_conns b).[j] = rcv_nxt (tcp_conns a).[i];
  link_idle_a : tx_len (tcp_conns a).[i] = 0; link_idle_b : tx_len (tcp_conns b).[j] = 0 }.

Lemma link_sym i j a b : link i j a b -> link j i b a.
Proof. intros []. by constructor. Qed.

(** The round in which a frame arrives, followed by [pad] in the buffer. *)
Definition arrives (t : Z) (f pad : list Z) : Round := mkRound t (Some (f ++ pad, zlen (f ++ pad))).

(** ** The Ethernet state *)

Definition same_host (e e' : Eth) : Prop := my_mac e' = my_mac e /\ MY_IP e' = MY_IP e.

Lemma arp_put_host ip mac e : let e' := arp_cache_put ip mac e in
  same_host e e' /\ sent e' = sent e /\ ip_id_counter e' = ip_id_counter e /\ rtl8139_present e' = rtl8139_present e.
Proof. unfold arp_cache_put, same_host. by destruct (scan _ _ _). Qed.

Lemma eth_ok_arp ip mac e : eth_ok e -> eth_ok (arp_cache_put ip mac e).
Proof. intros []. destruct (arp_put_host ip mac e) as ((Em & Ei) & _ & Ec & _). constructor; by rewrite ?Em, ?Ei, ?Ec. Qed.

Lemma eth_ok_tx c fl seq ack d n e : eth_ok e -> eth_ok (tcp_tx c fl seq ack d n e).
Proof. intros []. constructor; try done. apply Z.mod_pos_bound. done. Qed.

(** ** Keeping an endpoint *)

Lemma endpoint_change st st' i s ip port c' e' : endpoint_in st i s ip port -> eth_ok e' -> addr_of c' = addr_of (tcp_conns s).[i] -> state c' = st' ->
  rx_wf c' -> ooo_len c' = 0 -> word (snd_nxt c') -> word (rcv_nxt c') -> endpoint_in st' i (set_conn i c' (s <| eth := e' |>)) ip port.
Proof.
  intros [] He Hp Hst Hrx Hoo Hs Hr. pose proof Hp as Hp'. unfold addr_of in Hp'. injection Hp' as E1 E3 E4 E5 E6.
  assert ((tcp_conns (set_conn i c' (s <| eth := e' |>))).[i] = c') as Ei by (apply aget_aset_eq; change (0 <= i < zlen (tcp_conns s)); lia).
  constructor; rewrite ?Ei; try done; try congruence.
  - cbn. by rewrite zlen_aset.
  - destruct ep_conn0. constructor; congruence.
  - intros g k Hg1 Hg2 Hk. rewrite E5 in Hg2. rewrite <- (ep_first0 g k Hg1 Hg2 Hk). cbn. f_equal. apply aget_aset_ne; lia.
Qed.

Lemma endpoint_set st i s ip port c' e' : endpoint_in st i s ip port -> eth_ok e' -> peer_of c' = peer_of (tcp_conns s).[i] ->
  rx_wf c' -> ooo_len c' = 0 -> word (snd_nxt c') -> word (rcv_nxt c') -> endpoint_in st i (set_conn i c' (s <| eth := e' |>)) ip port.
Proof.
  intros Hep He Hp. apply (endpoint_change st); [done|done|exact (f_equal fst Hp)|].
  transitivity (state (tcp_conns s).[i]); [exact (f_equal snd Hp)|apply Hep].
Qed.

(** A segment for an endpoint goes to its connection. *)
Lemma endpoint_receive st now g mac j s ip port c' e' :
  endpoint_in st j s ip port -> rsp g = port -> rdp g = src_port (tcp_conns s).[j] ->
  (Z.land (flags g) (Z.lor TCP_SYN TCP_ACK) =? TCP_SYN) = false ->
  rx_conn now g (tcp_conns s).[j] (eth s) = Some (c', e', false) ->
  tcp_rx_seg now g ip mac s = Some (set_conn j c' (s <| eth := e' |>)).
Proof.
  intros [] Hs Hd Hf E. unfold tcp_rx_seg. rewrite (scan_first _ _ 0 j).
  - by rewrite E; cbn [mbind option_bind]; rewrite Hf.
  - unfold TCP_MAX_CONN in *. lia.
  - unfold matches. rewrite ep_used0, Hs, Hd, ep_ip0, ep_port0, !Z.eqb_refl. unfold meq. by rewrite bool_decide_eq_true_2.
  - intros k Hk. apply ep_first0; [done|done|lia].
Qed.

Lemma frame_len c fl seq ack d e pad : eth_ok e -> conn_ok c -> zlen d <= TCP_TX_SIZE ->
  zlen (tcp_frame c fl seq ack d (zlen d) e ++ pad) = 54 + zlen d + zlen pad.
Proof.
  intros He Hc Hd. destruct (tcp_frame_bytes c fl seq ack d e He Hc Hd) as (? & ? & ? & ? & ? & ? & ->). unfold zlen.
  rewrite !length_app, (conn_mac_len _ Hc), (eth_mac_len _ He), (eth_ip_len _ He), (conn_ip_len _ Hc). unfold be4. cbn [length]. lia.
Qed.

(** The same when its frame arrives. *)
Lemma endpoint_poll st t pad j s port c fl seq ack d e c' e' :
  endpoint_in st j s (MY_IP e) port -> eth_ok e -> conn_ok c -> src_port c = port -> dst_port c = src_port (tcp_conns s).[j] ->
  word seq -> word ack -> zlen d <= TCP_TX_SIZE -> (Z.land fl (Z.lor TCP_SYN TCP_ACK) =? TCP_SYN) = false ->
  rx_conn t (mkSeg port (dst_port c) seq ack 20 fl (zlen d) (d ++ pad)) (tcp_conns s).[j] (arp_cache_put (MY_IP e) (my_mac e) (eth s)) = Some (c', e', false) ->
  net_poll_once (arrives t (tcp_frame c fl seq ack d (zlen d) e) pad) s = Some (set_conn j c' (s <| eth := e' |>)).
Proof.
  intros Hep He Hc Hsp Hdp Hsq Hak Hd Hf E. unfold net_poll_once, arrives. cbn [frame tick].
  assert (34 <= zlen (tcp_frame c fl seq ack d (zlen d) e ++ pad)) as Hlen.
  { rewrite frame_len by done. clear. pose proof (zlen_nonneg d). pose proof (zlen_nonneg pad). lia. }
  rewrite net_process_tcp by done. rewrite Hsp.
  set (s1 := s <| eth := _ |>). assert (endpoint_in st j s1 (MY_IP e) port) as Hep1.
  { destruct Hep. constructor; try done. by apply eth_ok_arp. }
  rewrite (endpoint_receive st t _ (my_mac e) j s1 (MY_IP e) port c' e'); [reflexivity|done|done|done|done|exact E].
Qed.

(** ** Data from one end to the other *)

Definition last_frame (s : State) : list Z := List.last (sent (eth s)) [].

(** The connection with [m] sent and not acknowledged. *)
Definition in_flight (t : Z) (m : list Z) (c : TcpConn) : TcpConn :=
  c <| tx_seq := snd_nxt c |> <| tx_len := zlen m |> <| tx_buf := m |> <| retrans_tick := t |> <| retrans_count := 0 |>
    <| snd_nxt := u32 (snd_nxt c + zlen m) |>.

Lemma send_spec t i m s ip port : endpoint i s ip port -> zlen m <= TCP_TX_SIZE ->
  let c := (tcp_conns s).[i] in
  net_tcp_send t i m (zlen m) s =
    (set_conn i (in_flight t m c) (s <| eth := tcp_tx c (Z.lor TCP_PSH TCP_ACK) (snd_nxt c) (rcv_nxt c) m (zlen m) (eth s) |>), zlen m).
Proof.
  intros Hep Hm c. unfold net_tcp_send, bad_id. destruct (ep_index Hep).
  rewrite (proj2 (Z.ltb_ge i 0)), (proj2 (Z.leb_gt TCP_MAX_CONN i)), (ep_used Hep), (ep_state Hep) by lia. cbn [orb negb].
  rewrite Z.eqb_refl. cbn [negb]. rewrite (proj2 (Z.ltb_ge TCP_TX_SIZE _)) by lia.
  rewrite (take_ge m) by (unfold zlen; lia). reflexivity.
Qed.

Lemma last_frame_tx i c' s c fl seq ack d n e : last_frame (set_conn i c' (s <| eth := tcp_tx c fl seq ack d n e |>)) = tcp_frame c fl seq ack d n e.
Proof. unfold last_frame. cbn -[tcp_frame]. by rewrite List.last_last. Qed.

Lemma acked_idle ack c : tx_len c = 0 -> acked ack c = c <| snd_nxt := ack |>.
Proof. intros H. unfold acked. by rewrite H. Qed.

(** The acknowledgement of what is in flight. *)
Definition settled (t : Z) (m : list Z) (c : TcpConn) : TcpConn := (in_flight t m c) <| tx_len := 0 |>.

Lemma in_flight_fields t m c : let c' := in_flight t m c in
  peer_of c' = peer_of c /\ ooo_len c' = ooo_len c /\ rcv_nxt c' = rcv_nxt c /\ snd_nxt c' = u32 (snd_nxt c + zlen m) /\ (rx_wf c -> rx_wf c').
Proof. destruct c. cbn. done. Qed.

Lemma settled_fields t m c : let c' := settled t m c in
  peer_of c' = peer_of c /\ ooo_len c' = ooo_len c /\ rcv_nxt c' = rcv_nxt c /\ snd_nxt c' = u32 (snd_nxt c + zlen m) /\ (rx_wf c -> rx_wf c') /\
  tx_len c' = 0 /\ rx_bytes c' = rx_bytes c.
Proof. destruct c. cbn. done. Qed.

Lemma popped_fields tl c : let c' := c <| rx_tail := tl |> in
  peer_of c' = peer_of c /\ ooo_len c' = ooo_len c /\ rcv_nxt c' = rcv_nxt c /\ snd_nxt c' = snd_nxt c /\ tx_len c' = tx_len c.
Proof. destruct c. cbn. done. Qed.

Lemma acked_in_flight t m c : 0 < zlen m -> acked (u32 (snd_nxt c + zlen m)) (in_flight t m c) = settled t m c.
Proof.
  intros Hm. unfold acked. change (tx_len (in_flight t m c)) with (zlen m). change (tx_seq (in_flight t m c)) with (snd_nxt c).
  rewrite (proj2 (Z.ltb_lt 0 (zlen m))) by lia. rewrite Z.sub_diag. change (0 <=? i32 (u32 0)) with true. cbn [andb]. unfold settled, in_flight. destruct c. cbn. done.
Qed.

(** net_tcp_recv() takes the ring apart from its oldest byte. *)
Lemma rx_pop_all fuel : forall maxlen out c, rx_wf c -> (length (rx_bytes c) < fuel)%nat -> zlen out + zlen (rx_bytes c) <= maxlen ->
  exists tl, rx_pop fuel maxlen out c = (out ++ rx_bytes c, c <| rx_tail := tl |>) /\ rx_wf (c <| rx_tail := tl |>) /\ rx_bytes (c <| rx_tail := tl |>) = [].
Proof.
  induction fuel as [|fuel IH]; intros maxlen out c Hwf Hf Hm; [lia|]. cbn [rx_pop]. pose proof Hwf as (Hl & Ht & Hh).
  destruct (Z.eqb_spec (rx_tail c) (rx_head c)) as [E|E]; cbn [negb andb].
  { apply (ring_items_nil _ _ _ _ Hwf) in E. fold (rx_bytes c) in E. exists (rx_tail c). rewrite E, app_nil_r. destruct c. done. }
  pose proof (ring_items_pop TCP_RX_SIZE (rx c) (rx c) _ _ Hwf E (fun _ _ _ => eq_refl)) as Ei. fold (rx_bytes c) in Ei. rewrite rx_next by done.
  set (tl := (rx_tail c + 1) mod TCP_RX_SIZE) in *. set (c1 := c <| rx_tail := tl |>). change (ring_items _ _ _ _) with (rx_bytes c1) in Ei.
  rewrite Ei in Hf, Hm. cbn [length] in Hf. assert (zlen ((rx c).[rx_tail c] :: rx_bytes c1) = 1 + zlen (rx_bytes c1)) as El by (unfold zlen; cbn [length]; lia).
  rewrite El in Hm. pose proof (zlen_nonneg (rx_bytes c1)). rewrite (proj2 (Z.ltb_lt _ _)) by lia.
  assert (rx_wf c1) as Hwf1 by exact (ring_wf_pop TCP_RX_SIZE (rx c) (rx c) _ _ eq_refl Hwf).
  destruct (IH maxlen (out ++ [(rx c).[rx_tail c]]) c1 Hwf1) as (tl' & E1 & Hwf' & E2); [lia|unfold zlen in *; rewrite length_app; cbn [length]; lia|].
  exists tl'. rewrite E1, Ei, <- app_assoc. unfold c1 in *. destruct c. done.
Qed.

Lemma rx_bytes_nil c : rx_wf c -> (rx_head c =? rx_tail c) = bool_decide (rx_bytes c = []).
Proof.
  intros Hwf. destruct (Z.eqb_spec (rx_head c) (rx_tail c)) as [E|E]; symmetry.
  - apply bool_decide_eq_true_2, (ring_items_nil _ _ _ _ Hwf). done.
  - apply bool_decide_eq_false_2. intros E'. by apply E; symmetry; apply (ring_items_nil _ _ _ _ Hwf).
Qed.

(** One frame of data and net_tcp_recv(). *)
Lemma tcp_recv_spec t maxlen j r s s' ip port : endpoint j s ip port -> net_poll_once r s = Some s' -> tick r = t -> 0 <= t -> t + 5000 < 2 ^ 32 ->
  endpoint j s' ip port -> rx_bytes (tcp_conns s').[j] <> [] -> zlen (rx_bytes (tcp_conns s').[j]) <= maxlen ->
  exists tl, let c' := (tcp_conns s').[j] <| rx_tail := tl |> in
    net_tcp_recv j maxlen [r] s = Some (set_conn j c' s', rx_bytes (tcp_conns s').[j], zlen (rx_bytes (tcp_conns s').[j]), []) /\
    rx_wf c' /\ rx_bytes c' = [].
Proof.
  intros Hep Hpoll Ht H0 Ht5 Hep' Hne Hmax. pose proof (ep_rx Hep') as Hwf. set (c := (tcp_conns s').[j]) in *.
  pose proof (ring_items_bound _ _ _ _ Hwf) as Hb. fold (rx_bytes c) in Hb.
  destruct (rx_pop_all (Z.to_nat TCP_RX_SIZE) maxlen [] c Hwf) as (tl & Ep & Hwf' & Eb).
  { unfold zlen in Hb. change (Z.to_nat TCP_RX_SIZE) with (Z.to_nat 4096). unfold TCP_RX_SIZE in Hb. lia. }
  { change (zlen []) with 0. lia. }
  exists tl. split; [|split; [exact Hwf'|exact Eb]]. unfold net_tcp_recv, bad_id. destruct (ep_index Hep).
  rewrite (proj2 (Z.ltb_ge j 0)), (proj2 (Z.leb_gt TCP_MAX_CONN j)), (ep_used Hep) by lia. cbn [orb negb recv_wait get_ticks]. rewrite Ht.
  rewrite u32_small by (change (2 ^ 32) with 4294967296 in Ht5; lia). rewrite (proj2 (Z.ltb_lt t (t + 5000))) by lia. rewrite Hpoll. cbn [mbind option_bind].
  fold c. rewrite (rx_bytes_nil c Hwf), bool_decide_eq_false_2 by done. cbn [negb]. rewrite Ep. reflexivity.
Qed.

(** One message: sent, received in the round in which its frame arrives, acknowledged. *)
Definition exchange (t maxlen : Z) (pad : list Z) (i j : Z) (m : list Z) (ab : State * State) : option (State * State * list Z) :=
  let a := fst (net_tcp_send t i m (zlen m) (fst ab)) in
  '(b, out, _, _) ← net_tcp_recv j maxlen [arrives t (last_frame a) pad] (snd ab);
  a ← net_poll_once (arrives t (last_frame b) pad) a;
  Some (a, b, out).

Lemma data_in_fields t ack n buf h c : tx_len c = 0 -> let c' := data_in t ack n buf h c in
  peer_of c' = peer_of c /\ tx_len c' = 0 /\ snd_nxt c' = ack /\ rcv_nxt c' = u32 (rcv_nxt c + n) /\ ooo_len c' = ooo_len c.
Proof. intros H. unfold data_in, data_base. rewrite acked_idle by done. destruct c. cbn in *. done. Qed.

(** The frame of [m] at the other end. *)
Lemma deliver_data t pad i j a b m : link i j a b -> 0 < zlen m <= TCP_TX_SIZE -> zlen (rx_bytes (tcp_conns b).[j]) + zlen m < TCP_RX_SIZE ->
  exists c', net_poll_once (arrives t (last_frame (fst (net_tcp_send t i m (zlen m) a))) pad) b =
      Some (set_conn j c' (b <| eth := send_ack c' (arp_cache_put (MY_IP (eth a)) (my_mac (eth a)) (eth b)) |>)) /\
    peer_of c' = peer_of (tcp_conns b).[j] /\ tx_len c' = 0 /\ snd_nxt c' = snd_nxt (tcp_conns b).[j] /\
    rcv_nxt c' = u32 (rcv_nxt (tcp_conns b).[j] + zlen m) /\ ooo_len c' = 0 /\ rx_wf c' /\ rx_bytes c' = rx_bytes (tcp_conns b).[j] ++ m.
Proof.
  intros [La Lb Lab Lba Lia' Lib] Hm Hroom. rewrite (send_spec t i m a _ _ La) by lia. cbn [fst]. rewrite last_frame_tx.
  set (ca := (tcp_conns a).[i]) in *. set (cb := (tcp_conns b).[j]) in *. unfold TCP_TX_SIZE in Hm.
  destruct (rx_conn_data t (src_port ca) (src_port cb) (rcv_nxt ca) 20 (Z.lor TCP_PSH TCP_ACK) m pad cb
              (arp_cache_put (MY_IP (eth a)) (my_mac (eth a)) (eth b))) as (buf & h & E & Hwf & Eb);
    [apply Lb|apply Lb|apply Lb|lia|done|done|].
  destruct (data_in_fields t (rcv_nxt ca) (zlen m) buf h cb Lib) as (F1 & F2 & F3 & F4 & F5).
  set (c' := data_in t (rcv_nxt ca) (zlen m) buf h cb) in *. clearbody c'. exists c'. split.
  - apply (endpoint_poll TCP_ESTABLISHED t pad j b (src_port ca) ca _ _ _ m (eth a) c' _ Lb);
      [apply La|apply La|done|apply (ep_port La)|apply La|apply La|unfold TCP_TX_SIZE; lia|done|]. assert (dst_port ca = src_port cb) as -> by apply La. rewrite Lab. exact E.
  - rewrite F3, F4, F5, Eb, take_ge by (unfold zlen, TCP_RX_SIZE in *; lia).
    split; [done|]. split; [done|]. split; [by rewrite Lba|]. split; [done|]. split; [apply Lb|]. split; [exact Hwf|done].
Qed.

Lemma endpoint_peer i s ip port ip' port' : endpoint i s ip port -> ip' = ip -> port' = port -> endpoint i s ip' port'.
Proof. by intros H -> ->. Qed.

Lemma conn_set i c s e : zlen (tcp_conns s) = TCP_MAX_CONN -> 0 <= i < TCP_MAX_CONN -> (tcp_conns (set_conn i c (s <| eth := e |>))).[i] = c.
Proof. intros Hl Hi. apply aget_aset_eq. change (0 <= i < zlen (tcp_conns s)). lia. Qed.

Lemma peer_fields c c' : peer_of c' = peer_of c ->
  used c' = used c /\ state c' = state c /\ dst_ip c' = dst_ip c /\ dst_mac c' = dst_mac c /\ src_port c' = src_port c /\ dst_port c' = dst_port c.
Proof. unfold peer_of, addr_of. by intros [= -> -> -> -> -> ->]. Qed.

Lemma src_port_peer c c' : peer_of c' = peer_of c -> src_port c' = src_port c.
Proof. unfold peer_of, addr_of. by intros [= _ _ _ -> _ _]. Qed.

Lemma conn_ok_peer c c' : peer_of c' = peer_of c -> conn_ok c -> conn_ok c'.
Proof. unfold peer_of, addr_of. intros [= _ E1 E2 E3 E4 _] []. constructor; congruence. Qed.

Lemma endpoint_in_flight t m i a ip port : endpoint i a ip port -> let c := (tcp_conns a).[i] in
  endpoint i (set_conn i (in_flight t m c) (a <| eth := tcp_tx c (Z.lor TCP_PSH TCP_ACK) (snd_nxt c) (rcv_nxt c) m (zlen m) (eth a) |>)) ip port.
Proof.
  intros La c. destruct (in_flight_fields t m c) as (F1 & F2 & F3 & F4 & F5).
  apply endpoint_set; [exact La|apply eth_ok_tx, La|exact F1|apply F5, La|rewrite F2; apply La|rewrite F4; apply u32_range|rewrite F3; apply La].
Qed.

Lemma rx_wf_idle c : rx_wf c -> rx_wf (c <| tx_len := 0 |>).
Proof. intros H. exact H. Qed.

Lemma endpoint_settled t m i a ip port c ip' mac : endpoint i a ip port -> (tcp_conns a).[i] = in_flight t m c ->
  endpoint i (set_conn i (settled t m c) (a <| eth := arp_cache_put ip' mac (eth a) |>)) ip port.
Proof.
  intros La Ec. destruct (in_flight_fields t m c) as (F1 & F2 & F3 & F4 & _), (settled_fields t m c) as (S1 & S2 & S3 & S4 & _).
  pose proof (ep_rx La) as Hwf. rewrite Ec in Hwf.
  apply endpoint_set; [exact La|apply eth_ok_arp, La|by rewrite Ec, F1| |rewrite S2, <- F2, <- Ec; apply La|rewrite S4; apply u32_range|rewrite S3, <- F3, <- Ec; apply La].
  exact (rx_wf_idle _ Hwf).
Qed.

(** The acknowledgement of [m] at the sender. *)
Lemma deliver_ack t pad i a port c' e m c : endpoint i a (MY_IP e) port -> (tcp_conns a).[i] = in_flight t m c -> eth_ok e -> conn_ok c' ->
  src_port c' = port -> dst_port c' = src_port c -> word (snd_nxt c') -> rcv_nxt c' = u32 (snd_nxt c + zlen m) -> 0 < zlen m ->
  net_poll_once (arrives t (tcp_frame c' TCP_ACK (snd_nxt c') (rcv_nxt c') [] 0 e) pad) a =
    Some (set_conn i (settled t m c) (a <| eth := arp_cache_put (MY_IP e) (my_mac e) (eth a) |>)).
Proof.
  intros La Ec He Hc Hsp Hdp Hs Hr Hm. destruct (in_flight_fields t m c) as (F1 & _).
  apply (endpoint_poll TCP_ESTABLISHED t pad i a port c' TCP_ACK (snd_nxt c') (rcv_nxt c') [] e _ _ La He Hc Hsp); [|done| |done|done|].
  - by rewrite Ec, (src_port_peer _ _ F1).
  - rewrite Hr. apply u32_range.
  - change (zlen (@nil Z)) with 0. rewrite rx_conn_ack by apply La. by rewrite Ec, Hr, acked_in_flight.
Qed.

Lemma exchange_spec t maxlen pad i j a b m : link i j a b -> 0 < zlen m <= TCP_TX_SIZE -> zlen m <= maxlen -> 0 <= t -> t + 5000 < 2 ^ 32 ->
  rx_bytes (tcp_conns b).[j] = [] ->
  exists a' b', exchange t maxlen pad i j m (a, b) = Some (a', b', m) /\ link i j a' b' /\ rx_bytes (tcp_conns b').[j] = [] /\
    rx_bytes (tcp_conns a').[i] = rx_bytes (tcp_conns a).[i].
Proof.
  intros L Hm Hmax H0 Ht Hemp. pose proof L as [La Lb Lab Lba _ _]. unfold exchange. cbn [fst snd].
  destruct (deliver_data t pad i j a b m L Hm) as (c' & Ed & Fp & Ftx & Fs & Fr & Fo & Fwf & Fb); [rewrite Hemp; unfold TCP_TX_SIZE, TCP_RX_SIZE, zlen in *; cbn [length]; lia|].
  rewrite (send_spec t i m a _ _ La) in Ed |- * by lia. cbn [fst] in *. rewrite Hemp in Fb. cbn [app] in Fb. pose proof (endpoint_in_flight t m i a _ _ La) as La1.
  set (ca := (tcp_conns a).[i]) in *. set (e1 := arp_cache_put (MY_IP (eth a)) (my_mac (eth a)) (eth b)) in *.
  assert (eth_ok e1) as He1 by apply eth_ok_arp, Lb. assert (MY_IP e1 = MY_IP (eth b)) as Ei by exact (proj2 (proj1 (arp_put_host _ _ (eth b)))).
  set (b1 := set_conn j c' (b <| eth := send_ack c' e1 |>)) in *. set (a1 := set_conn i (in_flight t m ca) _) in *.
  assert (endpoint j b1 (MY_IP (eth a)) (src_port ca)) as Lb1
    by (apply endpoint_set; [exact Lb|by apply eth_ok_tx|done|done|done|rewrite Fs; apply Lb|rewrite Fr; apply u32_range]).
  assert ((tcp_conns a1).[i] = in_flight t m ca) as Eca by (apply conn_set; apply La). assert ((tcp_conns b1).[j] = c') as Ecb by (apply conn_set; apply Lb).
  destruct (tcp_recv_spec t maxlen j (arrives t (last_frame a1) pad) b b1 _ _ Lb Ed eq_refl H0 Ht Lb1) as (tl & Er & Hwf2 & Eb2);
    [rewrite Ecb, Fb; intros ->; unfold zlen in Hm; cbn [length] in Hm; lia|rewrite Ecb, Fb; lia|].
  rewrite Ecb, Fb in Er. rewrite Ecb in Hwf2, Eb2. rewrite Er. cbn [mbind option_bind].
  destruct (popped_fields tl c') as (G1 & G2 & G3 & G4 & G5). set (c2 := c' <| rx_tail := tl |>) in *. clearbody c2.
  assert (last_frame (set_conn j c2 b1) = tcp_frame c' TCP_ACK (snd_nxt c') (rcv_nxt c') [] 0 e1) as -> by exact (last_frame_tx j c' b c' _ _ _ _ _ e1).
  assert (src_port c' = src_port (tcp_conns b).[j]) as Esp by exact (src_port_peer _ _ Fp).
  rewrite (deliver_ack t pad i a1 (src_port (tcp_conns b).[j]) c' e1 m ca); [cbn [mbind option_bind]| | | | | | | | |lia];
    [|rewrite Ei; exact La1|exact Eca|exact He1|exact (conn_ok_peer _ _ Fp (ep_conn Lb))|exact Esp| |rewrite Fs; apply Lb|by rewrite Fr, Lab].
  2: { unfold peer_of, addr_of in Fp. injection Fp as _ _ _ _ -> _. apply Lb. }
  destruct (settled_fields t m ca) as (S1 & S2 & S3 & S4 & S5 & S6 & S7). rewrite Ei.
  set (a2 := set_conn i (settled t m ca) _). exists a2, (set_conn j c2 b1). split; [reflexivity|].
  assert ((tcp_conns a2).[i] = settled t m ca) as Eca2 by (apply conn_set; [exact (ep_slots La1)|apply La]).
  assert ((tcp_conns (set_conn j c2 b1)).[j] = c2) as Ecb2 by (apply (conn_set j c2 b1 (eth b1)); [exact (ep_slots Lb1)|apply Lb]).
  rewrite Ecb2, Eca2. split; [|split; [exact Eb2|exact S7]].
  assert (MY_IP (eth a2) = MY_IP (eth a)) as Eia by exact (proj2 (proj1 (arp_put_host _ _ (eth a1)))).
  assert (MY_IP (eth (set_conn j c2 b1)) = MY_IP (eth b)) as Eib by exact Ei.
  constructor; rewrite ?Ecb2, ?Eca2, ?Eia, ?Eib.
  - rewrite (src_port_peer _ _ G1), Esp. by apply endpoint_settled.
  - rewrite (src_port_peer _ _ S1). apply (endpoint_set _ j b1 _ _ c2 (eth b1) Lb1); [apply Lb1|by rewrite Ecb|exact Hwf2|by rewrite G2|rewrite G4, Fs; apply Lb|rewrite G3, Fr; apply u32_range].
  - by rewrite S4, G3, Fr, Lab.
  - by rewrite G4, Fs, S3.
  - exact S6.
  - by rewrite G5.
Qed.

(** The messages one after the other; the bytes received. *)
Fixpoint stream (t maxlen : Z) (pad : list Z) (i j : Z) (ms : list (list Z)) (ab : State * State) : option (State * State * list Z) :=
  match ms with
  | [] => Some (ab, [])
  | m :: ms =>
      '(a, b, out) ← exchange t maxlen pad i j m ab;
      '(ab, rest) ← stream t maxlen pad i j ms (a, b);
      Some (ab, out ++ rest)
  end.

(** ** The handshake *)

(** Connection slots with rings of the declared size. *)
Definition slots_ok (s : State) : Prop := zlen (tcp_conns s) = TCP_MAX_CONN /\ Forall (fun c => zlen (rx c) = TCP_RX_SIZE) (tcp_conns s).

(** No connection of [s] below [n] is for the segments from [ip] and [port] to [own]. *)
Definition unclaimed (s : State) (ip : list Z) (port own n : Z) : Prop :=
  forall g k, rsp g = port -> rdp g = own -> 0 <= k < n -> matches g ip (tcp_conns s).[k] = false.

Lemma open_conn_fields now ip mac port src c : let c' := open_conn now ip mac port src c in
  (truth (used c') = true /\ state c' = TCP_SYN_SENT /\ dst_ip c' = ip /\ dst_mac c' = mac /\ src_port c' = src /\ dst_port c' = port) /\
  rx c' = rx c /\ rx_head c' = 0 /\ rx_tail c' = 0 /\ ooo_len c' = 0 /\ tx_len c' = 0 /\ rcv_nxt c' = 0 /\
  snd_nxt c' = u32 (0x12340000 + u32 (src * 131)).
Proof. destruct c. cbn. done. Qed.

Lemma new_conn_fields now g ip mac c : let c' := new_conn now g ip mac c in
  (truth (used c') = true /\ state c' = TCP_ESTABLISHED /\ dst_ip c' = ip /\ dst_mac c' = mac /\ src_port c' = rdp g /\ dst_port c' = rsp g) /\
  rx c' = rx c /\ rx_head c' = 0 /\ rx_tail c' = 0 /\ ooo_len c' = 0 /\ tx_len c' = 0 /\ rcv_nxt c' = u32 (sseq g + 1) /\
  snd_nxt c' = 0xAC000001.
Proof. destruct c. cbn. done. Qed.

(** The connection after its SYN, with or without ACK, takes a number. *)
Lemma bump_fields n c : let c' := c <| snd_nxt := n |> in
  peer_of c' = peer_of c /\ (rx_wf c -> rx_wf c') /\ rx_bytes c' = rx_bytes c /\ ooo_len c' = ooo_len c /\ tx_len c' = tx_len c /\ rcv_nxt c' = rcv_nxt c /\ snd_nxt c' = n.
Proof. destruct c. cbn. done. Qed.

Lemma free_slot s i : slots_ok s -> free_conn s = Some i -> 0 <= i < TCP_MAX_CONN /\ zlen (rx (tcp_conns s).[i]) = TCP_RX_SIZE.
Proof.
  intros [Hl Hrx] E. apply scan_Some in E as (Hi & _). unfold TCP_MAX_CONN in *. split; [lia|].
  rewrite Forall_aget in Hrx. apply Hrx. lia.
Qed.

Lemma empty_ring c : zlen (rx c) = TCP_RX_SIZE -> rx_head c = 0 -> rx_tail c = 0 -> rx_wf c /\ rx_bytes c = [].
Proof.
  intros Hl Hh Ht. assert (rx_wf c) as Hwf by (unfold rx_wf, ring_wf; rewrite Hl, Hh, Ht; done). split; [exact Hwf|].
  apply (ring_items_nil TCP_RX_SIZE _ _ _ Hwf). by rewrite Hh, Ht.
Qed.

(** A slot taken for a new connection. *)
Lemma endpoint_new st i s s0 ip port c : eth_ok (eth s) -> tcp_conns s = tcp_conns s0 -> zlen (tcp_conns s0) = TCP_MAX_CONN -> 0 <= i < TCP_MAX_CONN ->
  conn_ok c -> truth (used c) = true -> state c = st -> dst_ip c = ip -> dst_port c = port -> unclaimed s0 ip port (src_port c) i ->
  rx_wf c -> ooo_len c = 0 -> word (snd_nxt c) -> word (rcv_nxt c) -> endpoint_in st i (set_conn i c s) ip port.
Proof.
  intros He Es Hl Hi Hc Hu Hst Hip Hp Hun Hrx Ho Hs Hr.
  assert ((tcp_conns (set_conn i c s)).[i] = c) as Ei by (apply aget_aset_eq; rewrite Es; lia).
  constructor; rewrite ?Ei; try done.
  - cbn. by rewrite zlen_aset, Es.
  - intros g k Hg1 Hg2 Hk. rewrite <- (Hun g k Hg1 Hg2 Hk), <- Es. cbn. f_equal. apply aget_aset_ne; lia.
Qed.

Lemma endpoint_bumped st i s s0 ip port c n : eth_ok (eth s) -> tcp_conns s = tcp_conns s0 -> zlen (tcp_conns s0) = TCP_MAX_CONN -> 0 <= i < TCP_MAX_CONN ->
  conn_ok c -> truth (used c) = true -> state c = st -> dst_ip c = ip -> dst_port c = port -> unclaimed s0 ip port (src_port c) i ->
  rx_wf c -> ooo_len c = 0 -> word n -> word (rcv_nxt c) -> endpoint_in st i (set_conn i (c <| snd_nxt := n |>) s) ip port.
Proof.
  intros. destruct (bump_fields n c) as (G1 & G2 & G3 & G4 & G5 & G6 & G7). destruct (peer_fields _ _ G1) as (E1 & E2 & E3 & _ & E4 & E5).
  set (c' := c <| snd_nxt := n |>) in *. clearbody c'.
  apply (endpoint_new _ i s s0); rewrite ?E1, ?E2, ?E3, ?E4, ?E5, ?G4, ?G6, ?G7; try done; [by apply (conn_ok_peer _ _ G1)|by apply G2].
Qed.

(** The client before it calls net_tcp_connect(): the MAC address of the next hop is known. *)
Record client_ready (i port : Z) (ip mac : list Z) (s : State) : Prop := {
  cr_eth : eth_ok (eth s); cr_card : rtl8139_present (eth s) = true; cr_slots : slots_ok s; cr_free : free_conn s = Some i;
  cr_arp : arp_cache_get (next_hop_ip ip (eth s)) (eth s) = Some mac; cr_mac : length mac = 6%nat;
  cr_ip : Forall byte ip /\ length ip = 4%nat; cr_port : 0 <= port < 65536; cr_ctr : 0 <= tcp_port_ctr s < 65536;
  cr_unclaimed : unclaimed s ip port (tcp_port_ctr s) i }.

(** The server with a free place in the queue of the port, and the slot it will use. *)
Record server_ready (l j port : Z) (ip : list Z) (own : Z) (s : State) : Prop := {
  sr_eth : eth_ok (eth s); sr_slots : slots_ok s; sr_free : free_conn s = Some j;
  sr_listen : scan (fun k => truth (active (tcp_listen s).[k]) && (lport (tcp_listen s).[k] =? port)) 0 (Z.to_nat TCP_LISTEN_SLOTS) = Some l;
  sr_lslots : zlen (tcp_listen s) = TCP_LISTEN_SLOTS;
  sr_queue : zlen (accept_q (tcp_listen s).[l]) = 2 /\ aq_count (tcp_listen s).[l] = 0 /\
             aq_tail (tcp_listen s).[l] = aq_head (tcp_listen s).[l] /\ 0 <= aq_head (tcp_listen s).[l] < 2;
  sr_unclaimed : unclaimed s ip own port TCP_MAX_CONN }.

Lemma client_syn t i port ip mac s : client_ready i port ip mac s ->
  let c := open_conn t ip mac port (tcp_port_ctr s) (tcp_conns s).[i] in
  let s1 := connect_start t i ip mac port s in
  last_frame s1 = tcp_frame c TCP_SYN (snd_nxt c) 0 [] 0 (eth s) /\
  conn_ok c /\ endpoint_in TCP_SYN_SENT i s1 ip port /\ (tcp_conns s1).[i] = c <| snd_nxt := u32 (snd_nxt c + 1) |> /\
  rx_bytes c = [] /\ tx_len c = 0 /\ src_port c = tcp_port_ctr s /\ dst_port c = port /\ word (snd_nxt c).
Proof.
  intros [] c s1. destruct (free_slot s i cr_slots0 cr_free0) as [Hi Hrx].
  destruct (open_conn_fields t ip mac port (tcp_port_ctr s) (tcp_conns s).[i]) as ((F1 & F2 & F3 & F4 & F5 & F6) & F7 & F8 & F9 & F10 & F11 & F12 & F13).
  fold c in F1, F2, F3, F4, F5, F6, F7, F8, F9, F10, F11, F12, F13. destruct (bump_fields (u32 (snd_nxt c + 1)) c) as (G1 & G2 & G3 & G4 & G5 & G6 & G7).
  destruct (empty_ring c) as [Hwf Hb]; [by rewrite F7|done|done|].
  assert (conn_ok c) as Hc by (constructor; rewrite ?F3, ?F4, ?F5, ?F6; tauto).
  assert (word (snd_nxt c)) as Hw by (rewrite F13; apply u32_range).
  assert (s1 = set_conn i (c <| snd_nxt := u32 (snd_nxt c + 1) |>) (s <| tcp_port_ctr := next_port (tcp_port_ctr s) |> <| eth := tcp_tx c TCP_SYN (snd_nxt c) 0 [] 0 (eth s) |>)) as -> by reflexivity.
  clearbody c. split; [apply List.last_last|]. split; [exact Hc|].
  split; [|split; [apply aget_aset_eq; change (0 <= i < zlen (tcp_conns s)); pose proof (proj1 cr_slots0); lia|done]].
  apply (endpoint_bumped _ i _ s); rewrite ?F5, ?F12; try done; [by apply eth_ok_tx|apply cr_slots0|apply u32_range].
Qed.

Definition queued (l j : Z) (s : State) : Prop :=
  truth (active (tcp_listen s).[l]) = true /\ aq_count (tcp_listen s).[l] = 1 /\ (accept_q (tcp_listen s).[l]).[aq_head (tcp_listen s).[l]] = j.

(** The server's side of a SYN. *)
Lemma rx_listen_ready t g ip mac l j s : server_ready l j (rdp g) ip (rsp g) s ->
  let nc := new_conn t g ip mac (tcp_conns s).[j] in
  exists s1, rx_listen t g ip mac s = s1 /\
    tcp_conns s1 = (tcp_conns s).[j <- nc <| snd_nxt := 0xAC000002 |>] /\
    eth s1 = tcp_tx nc (Z.lor TCP_SYN TCP_ACK) 0xAC000000 (rcv_nxt nc) [] 0 (eth s) /\ queued l j s1.
Proof.
  intros [] nc. eexists. split; [reflexivity|]. unfold rx_listen. rewrite sr_listen0, sr_free0. destruct sr_queue0 as (Q1 & Q2 & Q3 & Q4).
  rewrite Q2. change (2 <=? 0) with false. fold nc. assert (snd_nxt nc = 0xAC000001) as Es by apply new_conn_fields.
  rewrite !Es. change (u32 (0xAC000001 - 1)) with 0xAC000000. change (u32 (0xAC000001 + 1)) with 0xAC000002. clearbody nc.
  split; [reflexivity|]. split; [reflexivity|]. apply scan_Some in sr_listen0 as (Hl & Ha & _). unfold TCP_LISTEN_SLOTS in *. apply andb_prop in Ha as [Ha _].
  unfold queued. set (li := (tcp_listen s).[l]) in *.
  assert (forall s2 x, (tcp_listen (s2 <| tcp_listen := (tcp_listen s).[l <- x] |>)).[l] = x) as E by (intros; apply aget_aset_eq; lia).
  change (tcp_listen (set_conn _ _ _)) with (tcp_listen s). rewrite !E. destruct li as [la lp lq lh lt lc]. cbn in Q1, Q2, Q3, Q4, Ha |- *.
  split; [done|]. split; [done|]. rewrite Q3. apply aget_aset_eq. lia.
Qed.

Lemma unclaimed_none s ip port own g : unclaimed s ip port own TCP_MAX_CONN -> rsp g = port -> rdp g = own ->
  scan (fun i => matches g ip (tcp_conns s).[i]) 0 (Z.to_nat TCP_MAX_CONN) = None.
Proof.
  intros Hun H1 H2. destruct (scan _ _ _) as [k|] eqn:E; [|done]. apply scan_Some in E as (Hk & Em & _).
  rewrite (Hun g k) in Em by (done || (unfold TCP_MAX_CONN in *; lia)). done.
Qed.

Lemma endpoint_eq st i s s' ip port : eth s' = eth s -> tcp_conns s' = tcp_conns s -> endpoint_in st i s ip port -> endpoint_in st i s' ip port.
Proof. intros E1 E2 []. constructor; rewrite ?E1, ?E2; done. Qed.

(** The SYN arrives at the server. *)
Lemma server_syn t pad l j port own c seq e s : server_ready l j port (MY_IP e) own s -> eth_ok e -> conn_ok c -> src_port c = own -> dst_port c = port -> word seq ->
  exists s1 nc e1, net_poll_once (arrives t (tcp_frame c TCP_SYN seq 0 [] 0 e) pad) s = Some s1 /\ queued l j s1 /\
    eth_ok e1 /\ MY_IP e1 = MY_IP (eth s) /\ eth s1 = tcp_tx nc (Z.lor TCP_SYN TCP_ACK) 0xAC000000 (rcv_nxt nc) [] 0 e1 /\
    (conn_ok nc /\ src_port nc = port /\ dst_port nc = own /\ rcv_nxt nc = u32 (seq + 1) /\ rx_bytes nc = [] /\ tx_len nc = 0) /\
    endpoint j s1 (MY_IP e) own /\ (tcp_conns s1).[j] = nc <| snd_nxt := 0xAC000002 |>.
Proof.
  intros Hr He Hc Hsp Hdp Hsq. set (e1 := arp_cache_put (MY_IP e) (my_mac e) (eth s)). assert (eth_ok e1) as He1 by apply eth_ok_arp, Hr.
  set (g := mkSeg own port seq 0 20 TCP_SYN 0 pad). assert (server_ready l j (rdp g) (MY_IP e) (rsp g) (s <| eth := e1 |>)) as Hr1 by (destruct Hr; by constructor).
  destruct (rx_listen_ready t g (MY_IP e) (my_mac e) l j _ Hr1) as (s1 & E & Ec & Ee & Hq). set (nc := new_conn _ _ _ _ _) in *.
  destruct (free_slot s j (sr_slots _ _ _ _ _ _ Hr) (sr_free _ _ _ _ _ _ Hr)) as [Hj Hrx].
  destruct (new_conn_fields t g (MY_IP e) (my_mac e) (tcp_conns s).[j]) as ((F1 & F2 & F3 & F4 & F5 & F6) & F7 & F8 & F9 & F10 & F11 & F12 & F13).
  change (new_conn _ _ _ _ _) with nc in F1, F2, F3, F4, F5, F6, F7, F8, F9, F10, F11, F12, F13. change (rdp g) with port in F5. change (rsp g) with own in F6. change (sseq g) with seq in F12.
  assert (rx_wf nc /\ rx_bytes nc = []) as [Hwf Hb] by (apply empty_ring; [by rewrite F7|done|done]).
  assert (conn_ok nc) as Hnc by (destruct He, Hc; constructor; rewrite ?F3, ?F4, ?F5, ?F6; by subst).
  clearbody nc. exists s1, nc, e1. split.
  - unfold net_poll_once, arrives. cbn [frame tick]. change 0 with (zlen (@nil Z)) at 2.
    rewrite net_process_tcp; [|done|done|done|done|done|rewrite frame_len by done; pose proof (zlen_nonneg pad); change (zlen (@nil Z)) with 0; lia].
    rewrite Hsp, Hdp. change (mkSeg own port seq 0 20 TCP_SYN (zlen []) ([] ++ pad)) with g. fold e1. unfold tcp_rx_seg.
    rewrite (unclaimed_none (s <| eth := e1 |>) (MY_IP e) own port g (sr_unclaimed _ _ _ _ _ _ Hr1)) by done. cbn [mbind option_bind].
    change (Z.land (flags g) (Z.lor TCP_SYN TCP_ACK) =? TCP_SYN) with true. cbv iota. rewrite E. reflexivity.
  - split; [exact Hq|]. split; [exact He1|]. split; [exact (proj2 (proj1 (arp_put_host _ _ _)))|]. split; [exact Ee|]. split; [done|].
    split; [|rewrite Ec; apply aget_aset_eq; change (0 <= j < zlen (tcp_conns s)); rewrite (proj1 (sr_slots _ _ _ _ _ _ Hr)); lia].
    apply (endpoint_eq _ _ (set_conn j (nc <| snd_nxt := 0xAC000002 |>) (s <| eth := eth s1 |>))); [done|exact Ec|].
    apply (endpoint_bumped _ j _ s); rewrite ?F5; try done; [cbn; rewrite Ee; by apply eth_ok_tx|apply Hr| |rewrite F12; apply u32_range].
    intros g' k H1 H2 Hk. apply (sr_unclaimed _ _ _ _ _ _ Hr); [done|done|unfold TCP_MAX_CONN in *; lia].
Qed.

Definition opened (seq ack : Z) (c : TcpConn) : TcpConn := c <| rcv_nxt := u32 (seq + 1) |> <| snd_nxt := ack |> <| state := TCP_ESTABLISHED |>.

Lemma opened_fields seq ack c : let c' := opened seq ack c in
  addr_of c' = addr_of c /\ state c' = TCP_ESTABLISHED /\ (rx_wf c -> rx_wf c') /\ rx_bytes c' = rx_bytes c /\ ooo_len c' = ooo_len c /\ tx_len c' = tx_len c /\
  rcv_nxt c' = u32 (seq + 1) /\ snd_nxt c' = ack.
Proof. destruct c. cbn. done. Qed.

(** The SYN with ACK arrives at the client. *)
Lemma client_synack t pad i port nc seq ack e a : endpoint_in TCP_SYN_SENT i a (MY_IP e) port -> eth_ok e -> conn_ok nc -> src_port nc = port ->
  dst_port nc = src_port (tcp_conns a).[i] -> word seq -> word ack ->
  let c' := opened seq ack (tcp_conns a).[i] in
  let a' := set_conn i c' (a <| eth := send_ack c' (arp_cache_put (MY_IP e) (my_mac e) (eth a)) |>) in
  net_poll_once (arrives t (tcp_frame nc (Z.lor TCP_SYN TCP_ACK) seq ack [] 0 e) pad) a = Some a' /\ endpoint i a' (MY_IP e) port.
Proof.
  intros La He Hc Hsp Hdp Hs Ha c' a'. destruct (opened_fields seq ack (tcp_conns a).[i]) as (F1 & F2 & F3 & F4 & F5 & F6 & F7 & F8). split.
  - apply (endpoint_poll TCP_SYN_SENT t pad i a port nc _ seq ack [] e c' _ La He Hc Hsp Hdp Hs Ha); [done|done|].
    unfold rx_conn. rewrite (ep_state La). reflexivity.
  - apply (endpoint_change TCP_SYN_SENT); [exact La|apply eth_ok_tx, eth_ok_arp, La|exact F1|exact F2|apply F3, La|unfold c'; rewrite F5; apply La| |].
    + unfold c'. by rewrite F8.
    + unfold c'. rewrite F7. apply u32_range.
Qed.

(** The last acknowledgement of the handshake at the server. *)
Lemma server_ack t pad j own c e s : endpoint j s (MY_IP e) own -> eth_ok e -> conn_ok c -> src_port c = own -> dst_port c = src_port (tcp_conns s).[j] ->
  word (snd_nxt c) -> word (rcv_nxt c) -> tx_len (tcp_conns s).[j] = 0 ->
  let s' := set_conn j ((tcp_conns s).[j] <| snd_nxt := rcv_nxt c |>) (s <| eth := arp_cache_put (MY_IP e) (my_mac e) (eth s) |>) in
  net_poll_once (arrives t (tcp_frame c TCP_ACK (snd_nxt c) (rcv_nxt c) [] 0 e) pad) s = Some s' /\ endpoint j s' (MY_IP e) own.
Proof.
  intros Ls He Hc Hsp Hdp Hs Hr Hidle s'. split.
  - apply (endpoint_poll TCP_ESTABLISHED t pad j s own c TCP_ACK (snd_nxt c) (rcv_nxt c) [] e _ _ Ls He Hc Hsp Hdp Hs Hr); [done|done|].
    change (zlen (@nil Z)) with 0. rewrite rx_conn_ack by apply Ls. by rewrite acked_idle.
  - destruct (bump_fields (rcv_nxt c) (tcp_conns s).[j]) as (G1 & G2 & G3 & G4 & G5 & G6 & G7).
    apply endpoint_set; [exact Ls|apply eth_ok_arp, Ls|exact G1|apply G2, Ls|rewrite G4; apply Ls|by rewrite G7|rewrite G6; apply Ls].
Qed.

(** net_tcp_connect() whose SYN is answered in the first round. *)
Lemma connect_answered t r i port ip mac a a' : client_ready i port ip mac a -> tick r = t -> 0 <= t -> t + 5000 < 2 ^ 32 ->
  net_poll_once r (connect_start t i ip mac port a) = Some a' -> state (tcp_conns a').[i] = TCP_ESTABLISHED ->
  net_tcp_connect ip port [r] a = Some (a', i, []).
Proof.
  intros [] Ht H0 Ht5 Hp Hs. unfold net_tcp_connect. rewrite cr_card0, cr_free0. cbn [negb]. unfold arp_resolve. rewrite cr_arp0. cbn [mbind option_bind get_ticks].
  rewrite Ht, u32_small by (change (2 ^ 32) with 4294967296 in Ht5; lia). cbn [connect_wait]. rewrite Ht, (proj2 (Z.ltb_lt t (t + 5000))) by lia.
  rewrite Hp. cbn [mbind option_bind]. by rewrite Hs, Z.eqb_refl.
Qed.

(** net_tcp_accept() with a connection in the queue after the first round. *)
Lemma accept_queued l j timeout t f pad s s' : 0 <= l < TCP_LISTEN_SLOTS -> truth (active (tcp_listen s).[l]) = true -> 54 < zlen (f ++ pad) ->
  0 <= t -> 0 < timeout -> t + timeout < 2 ^ 32 -> net_poll_once (arrives t f pad) s = Some s' -> queued l j s' ->
  exists s2, net_tcp_accept l timeout [arrives t f pad] s = Some (s2, j, []) /\ eth s2 = eth s' /\ tcp_conns s2 = tcp_conns s'.
Proof.
  intros Hl Ha Hlen H0 Htm Ht Hp (_ & Q1 & Q2). unfold net_tcp_accept. rewrite (proj2 (Z.ltb_ge l 0)), (proj2 (Z.leb_gt TCP_LISTEN_SLOTS l)), Ha by lia. cbn [orb negb get_ticks].
  change (tick (arrives t f pad)) with t. rewrite u32_small by (change (2 ^ 32) with 4294967296 in Ht; lia). cbn [accept_wait].
  change (tick (arrives t f pad)) with t. rewrite (proj2 (Z.ltb_lt t (t + timeout))) by lia. change (frame (arrives t f pad)) with (Some (f ++ pad, zlen (f ++ pad))).
  cbv iota beta. rewrite (proj2 (Z.ltb_lt 54 _)) by exact Hlen. unfold net_poll_once in Hp. change (frame (arrives t f pad)) with (Some (f ++ pad, zlen (f ++ pad))) in Hp. cbv iota beta in Hp.
  change (tick (arrives t f pad)) with t in Hp. rewrite Hp. cbn [mbind option_bind]. rewrite Q1, Q2. eexists. split; [reflexivity|done].
Qed.

(** The handshake up to the client's acknowledgement, which is still to reach the server. *)
Lemma handshake_open t pad i j l port mac a b :
  client_ready i port (MY_IP (eth b)) mac a -> server_ready l j port (MY_IP (eth a)) (tcp_port_ctr a) b ->
  exists syn b1 a1 e, let c1 := (tcp_conns a1).[i] in let nc := (tcp_conns b1).[j] in
    (net_poll_once (arrives t syn pad) b = Some b1 /\ net_poll_once (arrives t (last_frame b1) pad) (connect_start t i (MY_IP (eth b)) mac port a) = Some a1) /\
    (eth a1 = send_ack c1 e /\ eth_ok e /\ MY_IP e = MY_IP (eth a) /\ sent e = sent (eth a) ++ [syn]) /\
    (endpoint i a1 (MY_IP (eth b)) port /\ src_port c1 = tcp_port_ctr a /\ rcv_nxt c1 = 0xAC000001 /\ snd_nxt c1 = rcv_nxt nc /\ rx_bytes c1 = [] /\ tx_len c1 = 0) /\
    (endpoint j b1 (MY_IP (eth a)) (tcp_port_ctr a) /\ src_port nc = port /\ snd_nxt nc = 0xAC000002 /\ rx_bytes nc = [] /\ tx_len nc = 0) /\
    (queued l j b1 /\ MY_IP (eth b1) = MY_IP (eth b)).
Proof.
  intros Hc Hs. destruct (client_syn t i port _ mac a Hc) as (Elf & Hok & La & Eca & Hrx & Htx & Hsp & Hdp & Hw).
  set (c := open_conn _ _ _ _ _ _) in *. set (a0 := connect_start _ _ _ _ _ _) in *.
  assert (sent (eth a0) = sent (eth a) ++ [tcp_frame c TCP_SYN (snd_nxt c) 0 [] 0 (eth a)]) as Esa by reflexivity.
  destruct (server_syn t pad l j port _ c _ (eth a) b Hs (cr_eth _ _ _ _ _ Hc) Hok Hsp Hdp Hw)
    as (b1 & nc & e1 & Eb1 & Hq & He1 & Eip1 & Ee1 & (Hnc & Nsp & Ndp & Nr & Nrx & Ntx) & Lb & Ecb).
  assert (last_frame b1 = tcp_frame nc (Z.lor TCP_SYN TCP_ACK) 0xAC000000 (rcv_nxt nc) [] 0 e1) as Elb by (unfold last_frame; rewrite Ee1; apply List.last_last).
  destruct (bump_fields (u32 (snd_nxt c + 1)) c) as (B1 & B2 & B3 & B4 & B5 & B6 & B7). destruct (bump_fields 0xAC000002 nc) as (D1 & D2 & D3 & D4 & D5 & D6 & D7).
  rewrite <- Eca in B1, B3, B5. rewrite <- Ecb in D1, D3, D5, D6, D7.
  destruct (client_synack t pad i port nc 0xAC000000 (rcv_nxt nc) e1 a0) as [Ea1 La1];
    [by rewrite Eip1|done|done|done|by rewrite (src_port_peer _ _ B1), Ndp, Hsp|done|rewrite Nr; apply u32_range|].
  destruct (opened_fields 0xAC000000 (rcv_nxt nc) (tcp_conns a0).[i]) as (O1 & _ & _ & O4 & O5 & O6 & O7 & O8).
  set (c1 := opened _ _ _) in *. set (e2 := arp_cache_put _ _ _) in *. set (a1 := set_conn i c1 _) in *.
  assert ((tcp_conns a1).[i] = c1) as Ea1c by (apply conn_set; apply La).
  exists (tcp_frame c TCP_SYN (snd_nxt c) 0 [] 0 (eth a)), b1, a1, e2. cbv zeta. rewrite Ea1c, Elb. split; [done|].
  assert (sent e2 = sent (eth a0)) as Es2 by exact (proj1 (proj2 (arp_put_host _ _ _))).
  split; [split; [reflexivity|split; [apply eth_ok_arp, La|split; [exact (proj2 (proj1 (arp_put_host _ _ _)))|by rewrite Es2]]]|]. split.
  - rewrite <- Eip1. split; [exact La1|]. split; [transitivity (src_port (tcp_conns a0).[i]); [unfold addr_of in O1; congruence|by rewrite (src_port_peer _ _ B1)]|].
    split; [exact O7|]. split; [by rewrite O8, D6|]. split; [by rewrite O4, B3|by rewrite O6, B5].
  - split; [|split; [exact Hq|by rewrite Ee1]].
    split; [exact Lb|]. split; [by rewrite (src_port_peer _ _ D1)|]. split; [exact D7|]. split; [by rewrite D3|by rewrite D5].
Qed.

(** Data ahead of what is expected is kept aside. *)
Definition kept_aside (now : Z) (g : Seg) (c : TcpConn) : TcpConn :=
  c <| last_rx_tick := now |> <| ka_probes := 0 |> <| ka_next_tick := u32 (now + TCP_KEEPALIVE_IDLE) |>
    <| ooo_buf := take (Z.to_nat (dlen g)) (data g) |> <| ooo_len := u16 (dlen g) |> <| ooo_seq := sseq g |>.

Lemma kept_fields now g c : let c' := kept_aside now g c in
  rx_bytes c' = rx_bytes c /\ rcv_nxt c' = rcv_nxt c /\ state c' = state c.
Proof. destruct c. cbn. done. Qed.

Lemma rx_data_ahead now g c : rcv_nxt c < sseq g -> ooo_len c = 0 -> dlen g <= zlen (data g) -> dlen g <= TCP_TX_SIZE -> rx_data now g c = Some (kept_aside now g c).
Proof.
  intros Hs Ho Hd Hl. unfold rx_data. destruct c. cbn in Hs, Ho |- *. rewrite (proj2 (Z.eqb_neq _ _)), (proj2 (Z.ltb_lt _ _)), (proj2 (Z.leb_le _ _)) by lia. cbn [andb].
  unfold rx_ahead. cbn. rewrite Ho, (proj2 (Z.ltb_ge _ _)) by lia. done.
Qed.

Lemma acked_fields ack c : let c' := acked ack c in
  rx_bytes c' = rx_bytes c /\ rcv_nxt c' = rcv_nxt c /\ state c' = state c /\ ooo_len c' = ooo_len c /\ snd_nxt c' = ack.
Proof. unfold acked. destruct ((0 <? tx_len c) && _); destruct c; cbn; done. Qed.

Lemma acked_peer ack c : peer_of (acked ack c) = peer_of c.
Proof. unfold acked. destruct ((0 <? tx_len c) && _); destruct c; done. Qed.

Lemma acked_wf ack c : rx_wf c -> rx_wf (acked ack c).
Proof. unfold acked. destruct ((0 <? tx_len c) && _); destruct c; done. Qed.

Lemma rx_conn_ahead now g c e : state c = TCP_ESTABLISHED -> flags g = Z.lor TCP_PSH TCP_ACK -> rcv_nxt c < sseq g -> ooo_len c = 0 ->
  0 < dlen g <= TCP_TX_SIZE -> dlen g <= zlen (data g) ->
  exists c', rx_conn now g c e = Some (c', send_ack c' e, false) /\ rx_bytes c' = rx_bytes c /\ rcv_nxt c' = rcv_nxt c.
Proof.
  intros Hs Hf Hlt Ho Hd Hl. destruct (acked_fields (sack g) c) as (A1 & A2 & A3 & A4 & _). destruct (kept_fields now g (acked (sack g) c)) as (K1 & K2 & _).
  exists (kept_aside now g (acked (sack g) c)). rewrite K1, K2. split; [|done].
  rewrite rx_conn_established by (done || (rewrite Hf; done)). rewrite (rx_established_data now g c e (kept_aside now g (acked (sack g) c))); [done|done|by rewrite Hf|by rewrite Hf|lia|].
  apply rx_data_ahead; [by rewrite A2|by rewrite A4|lia|lia].
Qed.

(** ** Hosts for the examples: a client, a server that listens on port 80, and the two
    with an open connection. *)
Definition slots : list TcpConn := replicate 4 inhabitant.
Definition client : State :=
  mkState (arp_cache_put [10; 0; 2; 16] [2; 0; 0; 0; 0; 16] (host_eth 15)) slots 49152 (replicate 2 inhabitant) 0.
Definition server : State := mkState (host_eth 16) slots 49152 [mkListen 1 80 [-1; -1] 0 0 0; inhabitant] 0.
Definition open_to (ip sport dport snd rcv : Z) : TcpConn :=
  inhabitant <| used := 1 |> <| state := TCP_ESTABLISHED |> <| dst_ip := [10; 0; 2; ip] |> <| src_port := sport |> <| dst_port := dport |>
    <| snd_nxt := snd |> <| rcv_nxt := rcv |>.
Definition open_client : State := mkState (host_eth 15) (open_to 16 49152 80 5 7 :: replicate 3 inhabitant) 49153 (replicate 2 inhabitant) 0.
Definition open_server : State := mkState (host_eth 16) (open_to 15 80 49152 7 5 :: replicate 3 inhabitant) 49152 (replicate 2 inhabitant) 0.

Lemma slots_4 s : tcp_conns s = slots -> slots_ok s.
Proof. intros E. unfold slots_ok. rewrite E. split; [done|]. repeat (apply Forall_cons_2; [by vm_compute|]). apply Forall_nil_2. Qed.

Lemma slots_free ip port own s n : tcp_conns s = slots -> unclaimed s ip port own n.
Proof.
  intros E g k _ _ _. rewrite E. assert (slots.[k] = inhabitant) as ->; [|done].
  unfold aget, slots. rewrite list_lookup_total_alt. destruct (replicate 4 inhabitant !! Z.to_nat k) as [c|] eqn:Ek; [|done].
  by apply lookup_replicate in Ek as [-> _].
Qed.

Lemma client_is_ready : client_ready 0 80 [10; 0; 2; 16] [2; 0; 0; 0; 0; 16] client.
Proof.
  constructor; first [by apply slots_4|by apply slots_free|apply eth_ok_arp, host_eth_ok; unfold byte; lia|split; [by apply bytes_of|done]|done|by vm_compute].
Qed.

Lemma server_is_ready : server_ready 0 0 80 [10; 0; 2; 15] 49152 server.
Proof. constructor; first [by apply slots_4|by apply slots_free|apply host_eth_ok; unfold byte; lia|done|by vm_compute]. Qed.

Lemma open_endpoint ip peer sport dport snd rcv ctr : byte ip -> byte peer -> 0 <= sport < 65536 -> 0 <= dport < 65536 -> word snd -> word rcv ->
  endpoint 0 (mkState (host_eth ip) (open_to peer sport dport snd rcv :: replicate 3 inhabitant) ctr (replicate 2 inhabitant) 0) [10; 0; 2; peer] dport.
Proof.
  intros Hi Hp Hs Hd H1 H2. constructor; first [by apply host_eth_ok|done|intros g k; lia|split; by vm_compute|idtac].
  constructor; try done. repeat (apply Forall_cons_2; [first [exact Hp|unfold byte; lia]|]). apply Forall_nil_2.
Qed.

Lemma open_link : link 0 0 open_client open_server.
Proof.
  constructor; [| |done..].
  - apply (open_endpoint 15 16 49152 80 5 7 49153); unfold byte, word; lia.
  - apply (open_endpoint 16 15 80 49152 7 5 49152); unfold byte, word; lia.
Qed.

End Link.

Import Link.



(** C24: when the client's SYN reaches a host that listens on the port, the answer opens
    the client's connection, net_tcp_connect() returns its slot, the acknowledgement lets
    net_tcp_accept() return the server's, and the two ends agree on their numbers. *)
Theorem tcp_handshake t timeout pad i j l port mac a b :
  client_ready i port (MY_IP (eth b)) mac a -> server_ready l j port (MY_IP (eth a)) (tcp_port_ctr a) b ->
  0 <= t -> t + 5000 < 2 ^ 32 -> 0 < timeout -> t + timeout < 2 ^ 32 -> 0 < zlen pad ->
  exists syn b1 a1 b2,
    net_poll_once (arrives t syn pad) b = Some b1 /\
    net_tcp_connect (MY_IP (eth b)) port [arrives t (last_frame b1) pad] a = Some (a1, i, []) /\
    sent (eth a1) = sent (eth a) ++ [syn; last_frame a1] /\
    net_tcp_accept l timeout [arrives t (last_frame a1) pad] b1 = Some (b2, j, []) /\
    link i j a1 b2 /\ rx_bytes (tcp_conns a1).[i] = [] /\ rx_bytes (tcp_conns b2).[j] = [].
Proof.
  intros Hc Hs H0 Ht5 Htm Htt Hpad.
  destruct (handshake_open t pad i j l port mac a b Hc Hs) as (syn & b1 & a1 & e & (Eb1 & Ea1) & (Eea & He & Eip & Esent) & (La & Csp & Cr & Cs & Crx & Ctx) & (Lb & Nsp & Ns & Nrx & Ntx) & Hq & Eipb).
  set (c1 := (tcp_conns a1).[i]) in *. set (nc := (tcp_conns b1).[j]) in *. assert (conn_ok c1) as Hc1 by apply La.
  assert (last_frame a1 = tcp_frame c1 TCP_ACK (snd_nxt c1) (rcv_nxt c1) [] 0 e) as Ela by (unfold last_frame; rewrite Eea; apply List.last_last).
  destruct (server_ack t pad j (tcp_port_ctr a) c1 e b1) as [Eb2 Lb2];
    [by rewrite Eip|done|done|done|fold nc; rewrite Nsp; apply La|rewrite Cs; apply Lb|by rewrite Cr|done|].
  fold nc in Eb2, Lb2. destruct (bump_fields (rcv_nxt c1) nc) as (G1 & _ & G3 & _ & G5 & G6 & G7). set (b2 := set_conn j _ _) in *.
  assert ((tcp_conns b2).[j] = nc <| snd_nxt := rcv_nxt c1 |>) as Eb2c by (apply conn_set; apply Lb). rewrite <- Eb2c in G1, G3, G5, G6, G7.
  destruct (accept_queued l j timeout t (last_frame a1) pad b1 b2) as (s2 & Eacc & Ese & Esc);
    [pose proof (sr_listen _ _ _ _ _ _ Hs) as E; by apply scan_Some in E as [? _]|exact (proj1 Hq)| |done|done|done|by rewrite Ela|exact Hq|].
  { rewrite Ela. change 0 with (zlen (@nil Z)) at 1. rewrite frame_len; [change (zlen (@nil Z)) with 0; lia|done|done|done]. }
  exists syn, b1, a1, s2. rewrite Esc. split; [exact Eb1|]. split; [apply (connect_answered t _ i port _ mac); [done|done|done|done|exact Ea1|apply La]|].
  split; [rewrite Ela, Eea; cbn -[tcp_frame]; by rewrite Esent, <- app_assoc|]. split; [exact Eacc|]. split; [|split; [done|by rewrite G3]].
  assert (MY_IP (eth a1) = MY_IP (eth a)) as Eipa by (rewrite Eea; exact Eip).
  assert (MY_IP (eth s2) = MY_IP (eth b)) as Eips by (rewrite Ese, <- Eipb; exact (proj2 (proj1 (arp_put_host _ _ _)))).
  constructor; rewrite ?Esc, ?Eipa, ?Eips, ?(src_port_peer _ _ G1), ?Nsp.
  - exact La.
  - fold c1. rewrite Csp. apply (endpoint_eq _ _ b2); [done|done|]. by rewrite <- Eip.
  - fold c1. by rewrite Cs, G6.
  - exact G7.
  - exact Ctx.
  - by rewrite G5.
Qed.

Lemma tcp_handshake_witness : exists b1 a1 b2,
  net_tcp_connect [10; 0; 2; 16] 80 [arrives 100 (last_frame b1) (replicate 6 0)] client = Some (a1, 0, []) /\
  net_tcp_accept 0 1000 [arrives 100 (last_frame a1) (replicate 6 0)] b1 = Some (b2, 0, []) /\ link 0 0 a1 b2.
Proof.
  destruct (tcp_handshake 100 1000 (replicate 6 0) 0 0 0 80 [2; 0; 0; 0; 0; 16] client server) as (syn & b1 & a1 & b2 & _ & E1 & _ & E2 & L & _);
    [exact client_is_ready|exact server_is_ready|lia|lia|lia|lia|done|].
  exists b1, a1, b2. exact (conj E1 (conj E2 L)).
Defined.

(** C25: the connection that net_tcp_accept() hands out numbers its bytes one too high until
    the client's acknowledgement comes: what the server sends before is accepted by
    net_tcp_send() but not delivered, and a retransmission repeats the same number. *)
Theorem tcp_server_first_lost t pad i j l port mac a b m :
  client_ready i port (MY_IP (eth b)) mac a -> server_ready l j port (MY_IP (eth a)) (tcp_port_ctr a) b -> 0 < zlen m <= TCP_TX_SIZE ->
  exists syn b1 a1 b2 a2,
    net_poll_once (arrives t syn pad) b = Some b1 /\
    net_poll_once (arrives t (last_frame b1) pad) (connect_start t i (MY_IP (eth b)) mac port a) = Some a1 /\
    state (tcp_conns a1).[i] = TCP_ESTABLISHED /\ queued l j b1 /\
    net_tcp_send t j m (zlen m) b1 = (b2, zlen m) /\ net_poll_once (arrives t (last_frame b2) pad) a1 = Some a2 /\
    rx_bytes (tcp_conns a2).[i] = [] /\ rcv_nxt (tcp_conns a2).[i] = 0xAC000001 /\ tx_seq (tcp_conns b2).[j] = 0xAC000002.
Proof.
  intros Hc Hs Hm. unfold TCP_TX_SIZE in Hm.
  destruct (handshake_open t pad i j l port mac a b Hc Hs) as (syn & b1 & a1 & e & (Eb1 & Ea1) & _ & (La & Csp & Cr & Cs & Crx & Ctx) & (Lb & Nsp & Ns & Nrx & Ntx) & Hq & Eipb).
  pose proof (send_spec t j m b1 _ _ Lb ltac:(unfold TCP_TX_SIZE; lia)) as Esend. cbv zeta in Esend. set (nc := (tcp_conns b1).[j]) in *.
  set (g := mkSeg port (dst_port nc) (snd_nxt nc) (rcv_nxt nc) 20 (Z.lor TCP_PSH TCP_ACK) (zlen m) (m ++ pad)).
  destruct (rx_conn_ahead t g (tcp_conns a1).[i] (arp_cache_put (MY_IP (eth b1)) (my_mac (eth b1)) (eth a1))) as (c' & E & Erx & Ercv);
    [apply La|done|rewrite Cr; cbn [sseq g]; rewrite Ns; lia|apply La|cbn [dlen g]; unfold TCP_TX_SIZE; lia|cbn [dlen data g]; unfold zlen; rewrite length_app; lia|].
  exists syn, b1, a1. eexists _, _. split; [exact Eb1|]. split; [exact Ea1|]. split; [apply La|]. split; [exact Hq|]. split; [exact Esend|].
  rewrite last_frame_tx. split; [|rewrite (conn_set i); [rewrite Erx, Ercv, Crx, Cr|apply La|apply La]; split; [done|split; [done|rewrite (conn_set j); [exact Ns|apply Lb|apply Lb]]]].
  apply (endpoint_poll TCP_ESTABLISHED t pad i a1 port nc _ _ _ m (eth b1) c'); [by rewrite Eipb|apply Lb|apply Lb|exact Nsp|rewrite Csp; apply Lb|apply Lb|apply Lb|unfold TCP_TX_SIZE; lia|done|exact E].
Qed.

Lemma tcp_server_first_lost_witness : exists b1 b2 a2, net_tcp_send 100 0 [72; 105] 2 b1 = (b2, 2) /\ rx_bytes (tcp_conns a2).[0] = [].
Proof.
  destruct (tcp_server_first_lost 100 (replicate 6 0) 0 0 0 80 [2; 0; 0; 0; 0; 16] client server [72; 105]) as (syn & b1 & a1 & b2 & a2 & _ & _ & _ & _ & E & _ & Eb & _);
    [exact client_is_ready|exact server_is_ready|done|].
  exists b1, b2, a2. exact (conj E Eb).
Defined.

(** An acknowledgement of older data rewinds the send number: after two messages in
    flight and the acknowledgement of the first, the third message is sent with the
    numbers of the second, and net_tcp_send() reports success. *)
Theorem tcp_old_ack_rewinds t pad i a port c' e m1 m2 m3 :
  endpoint i a (MY_IP e) port -> eth_ok e -> conn_ok c' -> src_port c' = port -> dst_port c' = src_port (tcp_conns a).[i] -> word (snd_nxt c') ->
  zlen m1 <= TCP_TX_SIZE -> zlen m2 <= TCP_TX_SIZE -> zlen m3 <= TCP_TX_SIZE ->
  let a2 := fst (net_tcp_send t i m2 (zlen m2) (fst (net_tcp_send t i m1 (zlen m1) a))) in
  let ack := u32 (snd_nxt (tcp_conns a).[i] + zlen m1) in
  exists a3 a4, net_poll_once (arrives t (tcp_frame c' TCP_ACK (snd_nxt c') ack [] 0 e) pad) a2 = Some a3 /\
    net_tcp_send t i m3 (zlen m3) a3 = (a4, zlen m3) /\
    sseq (parse_seg (last_frame a2) 34 (20 + zlen m2)) = ack /\ sseq (parse_seg (last_frame a4) 34 (20 + zlen m3)) = ack.
Proof.
  intros La He Hc Hsp Hdp Hw Hm1 Hm2 Hm3 a2 ack. unfold a2. rewrite (send_spec t i m1 a _ _ La Hm1). cbn [fst]. pose proof (endpoint_in_flight t m1 i a _ _ La) as La1.
  set (c := (tcp_conns a).[i]) in *. set (a1 := set_conn i _ _) in *. rewrite (send_spec t i m2 a1 _ _ La1 Hm2). cbn [fst]. pose proof (endpoint_in_flight t m2 i a1 _ _ La1) as La2.
  assert ((tcp_conns a1).[i] = in_flight t m1 c) as E1 by (apply conn_set; apply La). destruct (in_flight_fields t m1 c) as (F1 & _ & _ & F4 & _).
  set (c1 := (tcp_conns a1).[i]) in *. rewrite last_frame_tx. destruct (in_flight_fields t m2 c1) as (F1' & _).
  clear a2. set (a2 := set_conn i (in_flight t m2 c1) _) in *. assert ((tcp_conns a2).[i] = in_flight t m2 c1) as E2 by (apply conn_set; apply La1).
  set (c2 := (tcp_conns a2).[i]) in *. set (a3 := set_conn i (acked ack c2) (a2 <| eth := arp_cache_put (MY_IP e) (my_mac e) (eth a2) |>)).
  destruct (acked_fields ack c2) as (_ & A2 & A3 & A4 & A5).
  assert (endpoint i a3 (MY_IP e) port) as La3.
  { apply endpoint_set; [exact La2|apply eth_ok_arp, La2|by apply acked_peer|apply acked_wf, La2|rewrite A4; apply La2|rewrite A5; apply u32_range|rewrite A2; apply La2]. }
  assert ((tcp_conns a3).[i] = acked ack c2) as E3 by (apply conn_set; apply La2).
  exists a3. eexists. split; [|split; [by apply (send_spec t i m3 a3 _ _ La3)|]].
  - apply (endpoint_poll TCP_ESTABLISHED t pad i a2 port c' TCP_ACK (snd_nxt c') ack [] e _ _ La2 He Hc Hsp); [|done|apply u32_range|done|done|].
    + fold c2. by rewrite E2, (src_port_peer _ _ F1'), E1, (src_port_peer _ _ F1).
    + change (zlen (@nil Z)) with 0. by rewrite rx_conn_ack by apply La2.
  - rewrite last_frame_tx, E3, A5. split.
    + rewrite <- (app_nil_r (tcp_frame _ _ _ _ _ _ _)). rewrite (proj2 (proj2 (tcp_frame_fields _ _ _ _ _ _ [] (ep_eth La1) (ep_conn La1) (ep_snd La1) (ep_rcv La1) Hm2))).
      transitivity (snd_nxt c1); [reflexivity|]. by rewrite E1, F4.
    + rewrite <- (app_nil_r (tcp_frame _ _ _ _ _ _ _)). pose proof (ep_conn La3) as H3. pose proof (ep_rcv La3) as R3. rewrite E3 in H3, R3.
      assert (word ack) as Hack by apply u32_range. by rewrite (proj2 (proj2 (tcp_frame_fields _ _ _ _ _ _ [] (ep_eth La3) H3 Hack R3 Hm3))).
Qed.

Lemma tcp_old_ack_rewinds_witness : exists a3 a4, net_tcp_send 100 0 [3] 1 a3 = (a4, 1) /\ sseq (parse_seg (last_frame a4) 34 21) = 6.
Proof.
  destruct (tcp_old_ack_rewinds 100 (replicate 6 0) 0 open_client 80 (open_to 15 80 49152 7 6) (host_eth 16) [1] [2] [3]) as (a3 & a4 & _ & E & _ & Eq);
    [apply open_link|apply host_eth_ok; unfold byte; lia|constructor; first [done|by apply bytes_of]|done|done|done|done|done|done|].
  exists a3, a4. exact (conj E Eq).
Defined.
