(* ===== verification/Vfs.v ===== *)
(** * vfs.c: file descriptors

    The descriptor table of every task, above the MFS3 state, the pipes, the
    keyboard, the task table and the network.  The union of [VfsFd] is its 32 bytes,
    so a name and the pipe, connection or terminal number share storage as in C.

    An operation that would touch memory outside a buffer, or whose loop does not end
    within the given [fuel], is [None].  A read that has to wait returns [Wait] with
    the state in which the caller sleeps (or has yielded); when it runs again it
    starts the same read over, as the loops of the code do.  A read returns the bytes
    it stores in the caller's buffer, from its start.

    [NetStack] of Net.v is the interface of net.c the descriptors use; the counters that
    /proc prints and that other files keep are the fields of [Counters]. *)

From Stdlib Require Import ZArith Lia String Ascii.
From stdpp Require Import base numbers list gmap tactics.
From S2P Require Import Prelude Sched Task Pipe Heap Storage Fs Keyboard Dmesg Net.

Module Vfs.

Definition VFS_MAX_FD : Z := 32.
Definition VFS_TYPE_STDIN : Z := 1.
Definition VFS_TYPE_STDOUT : Z := 2.
Definition VFS_TYPE_FILE : Z := 3.
Definition VFS_TYPE_PIPE : Z := 4.
Definition VFS_TYPE_NET : Z := 5.
Definition VFS_TYPE_TTY : Z := 6.
Definition VFS_TYPE_PROC : Z := 7.
Definition VFS_TYPE_DEV : Z := 8.
Definition VFS_DEV_NULL : Z := 0.
Definition VFS_DEV_ZERO : Z := 1.
Definition VFS_O_RDONLY : Z := 1.
Definition VFS_O_WRONLY : Z := 2.
Definition VFS_O_RDWR : Z := 3.
Definition VFS_O_CREATE : Z := 4.
Definition VFS_O_NONBLOCK : Z := 8.
Definition VFS_EAGAIN : Z := -11.
Definition POLLIN : Z := 1.
Definition POLLOUT : Z := 2.
Definition POLLERR : Z := 4.
Definition PROC_BUF_SIZE : Z := 2048.
Definition VFS_TTY_MAX : Z := 4.
Definition MM_USER_CODE_BASE : Z := 0xC00000.

(** [name] is the union of the struct. *)
Record VfsFd := mkVfsFd { type : Z; used : Z; flags : Z; offset : Z; name : list Z }.
#[global] Instance settable_VfsFd : Settable VfsFd := {| rebuild f :=
  mkVfsFd (type f) (used f) (flags f) (offset f) (name f) |}.
#[global] Instance inhabited_VfsFd : Inhabited VfsFd := populate (mkVfsFd 0 0 0 0 (replicate 32 0)).

(** The 16-bit members of the union at byte [o]. *)
Definition get16 (o : Z) (f : VfsFd) : Z := i16 ((name f).[o] + 256 * (name f).[o + 1]).
Definition set16 (o v : Z) (f : VfsFd) : VfsFd :=
  f <| name := (name f).[o <- v mod 256].[o + 1 <- v / 256 mod 256] |>.
Definition pipe_id : VfsFd -> Z := get16 0.
Definition pipe_end : VfsFd -> Z := get16 2.
Definition net_conn : VfsFd -> Z := get16 0.
Definition tty_id : VfsFd -> Z := get16 0.

Record TtySlot := mkTty { tty_used : Z; tty_pipe : Z }.
#[global] Instance inhabited_TtySlot : Inhabited TtySlot := populate (mkTty 0 0).

Record Counters := { free_frames : Z; ticks : Z; cpu_count : Z; smp_ap_started : Z }.

Section Vfs.
Context {H : Type} `{!Allocator H} {D : Type} `{!BlockDevice D} {N : Type} `{!NetStack N}.
Context (fresh : Z -> Z -> list Z).

Record State := mkState {
  fd_table : list (list VfsFd); tty_slots : list TtySlot; proc_buf : list Z; proc_buf_len : Z;
  fs : Fs.State H D; pipes : Pipe.Pipes; sys : Task.Sys; kbd : Kbd.Kbd; log : Dmesg.Log; net : N;
  counters : Counters; screen : list (list Z) }.
#[global] Instance settable_State : Settable State := {| rebuild s :=
  mkState (fd_table s) (tty_slots s) (proc_buf s) (proc_buf_len s) (fs s) (pipes s) (sys s) (kbd s) (log s)
    (net s) (counters s) (screen s) |}.

Definition fd (t j : Z) (s : State) : VfsFd := (fd_table s).[t].[j].
Definition set_fd (t j : Z) (f : VfsFd) (s : State) : State :=
  s <| fd_table := (fd_table s).[t <- (fd_table s).[t].[j <- f]] |>.

Definition bad_task (t : Z) : bool := (t <? 0) || (MAX_TASKS <=? t).
Definition bad_fd (j : Z) : bool := (j <? 0) || (VFS_MAX_FD <=? j).

(** The first free descriptor from 3 on. *)
Definition free_fd (t : Z) (s : State) : option Z :=
  scan (fun j => negb (truth (used (fd t j s)))) 3 (Z.to_nat (VFS_MAX_FD - 3)).

(** *** /proc *)

(** Appending to [proc_buf] while there is room. *)
Definition proc_puts (str out : list Z) : list Z := out ++ take (Z.to_nat (PROC_BUF_SIZE - 1 - zlen out)) (cstr str).

Fixpoint digits (fuel : nat) (n : Z) : list Z :=
  match fuel with O => [] | S fuel => if n =? 0 then [] else digits fuel (n / 10) ++ [48 + n mod 10] end.
(** A 32-bit number has at most ten digits. *)
Definition proc_putn (n : Z) (out : list Z) : list Z :=
  if n =? 0 then proc_puts (lit "0") out else proc_puts (digits 10 n) out.

Definition proc_ps_line (s : State) (i : Z) (out : list Z) : list Z :=
  if negb (truth (Task.task_is_used i (sys s))) then out
  else
    let out := proc_putn i out in
    let out := proc_puts (lit (if i <? 10 then "   " else if i <? 100 then "  " else " ")) out in
    let out := proc_puts (lit " ") out in
    let out := proc_puts (lit (if i =? Task.current_task (sys s) then "running   " else "blocked   ")) out in
    proc_puts nl (proc_puts (Task.task_get_name i (sys s)) out).

Definition proc_ps (s : State) : list Z :=
  let out := proc_puts (lit "TID  STATUS    NAME" ++ nl) [] in
  let out := proc_puts (lit "---- --------- --------------------------------" ++ nl) out in
  iter (proc_ps_line s) 0 (Z.to_nat MAX_TASKS) out.

Definition proc_meminfo (s : State) : list Z :=
  let free := free_frames (counters s) in
  let total := 16384 - 768 in
  let used := if free <? total then total - free else 0 in
  let out := proc_puts (lit " kB" ++ nl) (proc_putn (u32 (total * 4)) (proc_puts (lit "MemTotal:  ") [])) in
  let out := proc_puts (lit " kB" ++ nl) (proc_putn (u32 (free * 4)) (proc_puts (lit "MemFree:   ") out)) in
  let out := proc_puts (lit " kB" ++ nl) (proc_putn (u32 (used * 4)) (proc_puts (lit "MemUsed:   ") out)) in
  proc_puts (lit "PageSize:  4 kB" ++ nl) out.

Definition proc_uptime (s : State) : list Z :=
  proc_puts (lit " seconds" ++ nl) (proc_putn (ticks (counters s) / 100) []).

Definition proc_cpuinfo (s : State) : list Z :=
  let out := proc_puts (lit "arch:    x86_64" ++ nl) [] in
  let out := proc_puts (lit "vendor:  Oria OS" ++ nl) out in
  let out := proc_puts (lit "mode:    Long Mode (64-bit)" ++ nl) out in
  let out := proc_puts nl (proc_putn (u32 (cpu_count (counters s))) (proc_puts (lit "cores:   ") out)) in
  proc_puts nl (proc_putn (u32 (smp_ap_started (counters s) + 1)) (proc_puts (lit "online:  ") out)).

Definition proc_root (s : State) : list Z :=
  let out := proc_puts (lit "ps" ++ nl ++ lit "meminfo" ++ nl ++ lit "uptime" ++ nl ++ lit "cpuinfo" ++ nl ++ lit "dmesg" ++ nl) [] in
  iter (fun i out => if truth (Task.task_is_used i (sys s)) then proc_puts nl (proc_putn i out) else out)
    0 (Z.to_nat MAX_TASKS) out.

Definition is_digit (c : Z) : bool := (48 <=? c) && (c <=? 57).

(** The number at the start of a path and what follows it; an [int] that wraps. *)
Fixpoint parse_pid (p : list Z) (pid : Z) : Z * list Z :=
  match p with
  | c :: p' => if is_digit c then parse_pid p' (i32 (pid * 10 + (c - 48))) else (pid, p)
  | [] => (pid, [])
  end.

Definition state_name (pid : Z) (s : State) : string :=
  let st := Task.task_get_status pid (sys s) in
  if pid =? Task.current_task (sys s) then "R (running)"%string
  else if st =? TASK_SLEEPING then "S (sleeping)"%string
  else if st =? TASK_BLOCKED then "D (blocked)"%string else "R (ready)"%string.

Definition proc_status (pid : Z) (s : State) : list Z :=
  let tab := [9] in
  let out := proc_puts nl (proc_puts (Task.task_get_name pid (sys s)) (proc_puts (lit "Name:" ++ tab) [])) in
  let out := proc_puts nl (proc_putn (u32 pid) (proc_puts (lit "Pid:" ++ tab) out)) in
  let out := proc_puts nl (proc_puts (lit (state_name pid s)) (proc_puts (lit "State:" ++ tab) out)) in
  let out := proc_puts nl (proc_putn (u32 (Task.task_get_parent pid (sys s))) (proc_puts (lit "PPid:" ++ tab) out)) in
  proc_puts nl (proc_putn (u32 (Task.task_get_priority pid (sys s))) (proc_puts (lit "Priority:" ++ tab) out)).

Definition proc_maps (pid : Z) (s : State) : list Z :=
  let heap := Task.task_get_heap_end pid (sys s) in
  let out := proc_puts (lit "address            perm  region" ++ nl) [] in
  let out := proc_puts (lit "0000000000c00000   r-xp  [text]" ++ nl) out in
  let out := if MM_USER_CODE_BASE <? heap
             then proc_puts nl (proc_putn (u32 (heap - MM_USER_CODE_BASE))
                    (proc_puts (lit "0000000000c00000   rw-p  [heap] size=") out)) else out in
  proc_puts (lit "0000000000f00000   rw-p  [stack]" ++ nl) out.

Definition fd_type_name (f : VfsFd) (out : list Z) : list Z :=
  let t := type f in
  if t =? VFS_TYPE_STDIN then proc_puts (lit "stdin") out
  else if t =? VFS_TYPE_STDOUT then proc_puts (lit "stdout") out
  else if t =? VFS_TYPE_FILE then proc_puts (name f) (proc_puts (lit "file:") out)
  else if t =? VFS_TYPE_PIPE then proc_puts (lit "pipe") out
  else if t =? VFS_TYPE_NET then proc_puts (lit "socket") out
  else if t =? VFS_TYPE_TTY then proc_puts (lit "tty") out
  else if t =? VFS_TYPE_PROC then proc_puts (lit "proc") out
  else if t =? VFS_TYPE_DEV then proc_puts (lit "dev") out
  else proc_puts (lit "?") out.

Definition proc_fds (pid : Z) (s : State) : list Z :=
  iter (fun j out =>
      let f := fd pid j s in
      if truth (used f) then proc_puts nl (fd_type_name f (proc_puts (lit ": ") (proc_putn j out))) else out)
    0 (Z.to_nat VFS_MAX_FD) [].

Definition proc_task (path : list Z) (s : State) : list Z :=
  let '(pid, p) := parse_pid path 0 in
  let p := if cget p 0 =? 47 then drop 1 p else p in
  if negb (truth (Task.task_is_used pid (sys s))) then
    proc_puts nl (proc_putn (u32 pid) (proc_puts (lit "proc: PID tidak ada: ") []))
  else if (cget p 0 =? 0) || ((cget p 0 =? 115) && (cget p 1 =? 116)) then proc_status pid s
  else if (cget p 0 =? 109) && (cget p 1 =? 97) then proc_maps pid s
  else if (cget p 0 =? 102) && (cget p 1 =? 100) then proc_fds pid s
  else proc_puts nl (proc_puts p (proc_puts (lit "proc: sub-path tidak dikenal: ") [])).

Definition proc_content (path : list Z) (s : State) : list Z :=
  let c := cget path in
  if (c 0 =? 112) && (c 1 =? 115) && (c 2 =? 0) then proc_ps s
  else if (c 0 =? 109) && (c 1 =? 101) && (c 2 =? 109) then proc_meminfo s
  else if c 0 =? 117 then proc_uptime s
  else if (c 0 =? 99) && (c 1 =? 112) then proc_cpuinfo s
  else if (c 0 =? 100) && (c 1 =? 109) then
    take (Z.to_nat (PROC_BUF_SIZE - 1)) (fst (Dmesg.dmesg_read (PROC_BUF_SIZE - 1) (log s)))
  else if (c 0 =? 0) || ((c 0 =? 46) && (c 1 =? 0)) then proc_root s
  else if is_digit (c 0) then proc_task path s
  else proc_puts nl (proc_puts path (proc_puts (lit "proc: unknown entry /proc/") [])).

(** [proc_buf] holds the content and its terminator. *)
Definition proc_generate (path : list Z) (s : State) : State :=
  let out := proc_content path s in
  s <| proc_buf := c_memcpy (proc_buf s) (out ++ [0]) (zlen out + 1) |> <| proc_buf_len := zlen out |>.

(** *** Setting up, copying and closing *)

Definition vfs_init (s : State) : State :=
  s <| fd_table := (fun row : list VfsFd => (fun f => f <| used := 0 |>) <$> row) <$> fd_table s |>.

Definition vfs_init_task (t : Z) (s : State) : State :=
  if bad_task t then s
  else
    let s := s <| fd_table := (fd_table s).[t <- (fun f => f <| used := 0 |>) <$> (fd_table s).[t]] |> in
    let s := set_fd t 0 ((fd t 0 s) <| used := 1 |> <| type := VFS_TYPE_STDIN |> <| flags := VFS_O_RDONLY |>) s in
    let s := set_fd t 1 ((fd t 1 s) <| used := 1 |> <| type := VFS_TYPE_STDOUT |> <| flags := VFS_O_WRONLY |>) s in
    set_fd t 2 ((fd t 2 s) <| used := 1 |> <| type := VFS_TYPE_STDOUT |> <| flags := VFS_O_WRONLY |>) s.

Definition vfs_copy_fds (src dst : Z) (s : State) : State :=
  if bad_task src then s else if bad_task dst then s
  else s <| fd_table := (fd_table s).[dst <- (fd_table s).[src]] |>.

Definition detach_writer (id : Z) (s : State) : State :=
  let '(ps, t) := Pipe.pipe_writer_detach id (pipes s) (sys s) in s <| pipes := ps |> <| sys := t |>.

(** The loop body of [vfs_close_all]. *)
Definition close_one (t j : Z) (s : State) : State :=
  let f := fd t j s in
  if truth (used f) then
    let s := if type f =? VFS_TYPE_NET then s <| net := net_tcp_close (net_conn f) (net s) |> else s in
    let s := if (type f =? VFS_TYPE_PIPE) && (pipe_end f =? 1) then detach_writer (pipe_id f) s else s in
    set_fd t j (f <| used := 0 |>) s
  else s.

Definition vfs_close_all (t : Z) (s : State) : State :=
  if bad_task t then s else iter (close_one t) 0 (Z.to_nat VFS_MAX_FD) s.

(** *** Opening *)

Definition starts_with (prefix : string) (path : list Z) : bool :=
  bool_decide (take (String.length prefix) (cstr path) = lit prefix).

Definition open_slot (t ty fl off : Z) (nm : list Z) (j : Z) (s : State) : State :=
  set_fd t j ((fd t j s) <| used := 1 |> <| type := ty |> <| flags := fl |> <| offset := off |>
                <| name := c_strcpy (name (fd t j s)) nm Fs.FS_MAX_NAME |>) s.

(** [/dev/null] and [/dev/zero]; -1 for any other name. *)
Definition dev_sub (dev : list Z) : Z :=
  if bool_decide (cstr dev = lit "null") then VFS_DEV_NULL
  else if bool_decide (cstr dev = lit "zero") then VFS_DEV_ZERO else -1.

(** [if (!fs_read(path)) fs_write(path, "");] *)
Definition create_if_missing (path : list Z) (s : State) : option State :=
  if Fs.fs_read path (fs s) =? 0 then
    '(f, _) ← Fs.fs_write fresh (ticks (counters s)) path [0] (fs s); Some (s <| fs := f |>)
  else Some s.

(** [path] is [None] for a null pointer. *)
Definition vfs_open (t : Z) (path : option (list Z)) (fl : Z) (s : State) : option (State * Z) :=
  match path with
  | None => Some (s, -1)
  | Some path =>
      if bad_task t then Some (s, -1)
      else if starts_with "/proc/" path then
        match free_fd t s with
        | Some j => Some (open_slot t VFS_TYPE_PROC VFS_O_RDONLY 0 (drop 6 path) j s, j)
        | None => Some (s, -1)
        end
      else if starts_with "/dev/" path then
        let d := dev_sub (drop 5 path) in
        if d <? 0 then Some (s, -1)
        else match free_fd t s with
        | Some j => Some (open_slot t VFS_TYPE_DEV (u8 fl) d [0] j s, j)
        | None => Some (s, -1)
        end
      else match free_fd t s with
      | None => Some (s, -1)
      | Some j =>
          if truth (Z.land fl VFS_O_CREATE) then
            s ← create_if_missing path s;
            Some (open_slot t VFS_TYPE_FILE (u8 fl) 0 path j s, j)
          else match Fs.fs_read_bin path (fs s) with
          | Some (p, _) => if p =? 0 then Some (s, -1) else Some (open_slot t VFS_TYPE_FILE (u8 fl) 0 path j s, j)
          | None => Some (s, -1)
          end
      end
  end.

(** The two descriptors, when the result is 0. *)
Definition vfs_pipe (t : Z) (s : State) : State * option (Z * Z) :=
  if bad_task t then (s, None)
  else
    let '(ps, pid) := Pipe.pipe_alloc (pipes s) in
    let s := s <| pipes := ps |> in
    if pid <? 0 then (s, None)
    else
      let free := fun j => negb (truth (used (fd t j s))) in
      match scan free 3 (Z.to_nat (VFS_MAX_FD - 3)) with
      | None => (s <| pipes := Pipe.pipe_free pid (pipes s) |>, None)
      | Some r =>
          match scan free (r + 1) (Z.to_nat (VFS_MAX_FD - (r + 1))) with
          | None => (s <| pipes := Pipe.pipe_free pid (pipes s) |>, None)
          | Some w =>
              let s := set_fd t r (set16 2 0 (set16 0 pid ((fd t r s) <| used := 1 |> <| type := VFS_TYPE_PIPE |>
                                                             <| flags := VFS_O_RDONLY |>))) s in
              let s := set_fd t w (set16 2 1 (set16 0 pid ((fd t w s) <| used := 1 |> <| type := VFS_TYPE_PIPE |>
                                                             <| flags := VFS_O_WRONLY |>))) s in
              (s <| pipes := Pipe.pipe_writer_attach pid (pipes s) |>, Some (r, w))
          end
      end.

Definition vfs_net_open (t : Z) (dst_ip : list Z) (port : Z) (s : State) : State * Z :=
  if bad_task t then (s, -1)
  else if negb (net_present (net s)) then (s, -1)
  else
    let '(n, conn) := net_tcp_connect dst_ip port (net s) in
    let s := s <| net := n |> in
    if conn <? 0 then (s, -1)
    else match free_fd t s with
    | Some j => (set_fd t j (set16 0 conn ((fd t j s) <| used := 1 |> <| type := VFS_TYPE_NET |> <| flags := VFS_O_RDWR |>)) s, j)
    | None => (s <| net := net_tcp_close conn (net s) |>, -1)
    end.

Definition vfs_tty_open (t : Z) (s : State) : State * Z :=
  if bad_task t then (s, -1)
  else match scan (fun i => negb (truth (tty_used (tty_slots s).[i]))) 0 (Z.to_nat VFS_TTY_MAX) with
  | None => (s, -1)
  | Some slot =>
      let '(ps, pid) := Pipe.pipe_alloc (pipes s) in
      let s := s <| pipes := ps |> in
      if pid <? 0 then (s, -1)
      else
        let s := s <| tty_slots := (tty_slots s).[slot <- mkTty 1 pid] |> in
        match free_fd t s with
        | Some j => (set_fd t j (set16 0 slot ((fd t j s) <| used := 1 |> <| type := VFS_TYPE_TTY |> <| flags := VFS_O_RDWR |>)) s, j)
        | None => (s <| pipes := Pipe.pipe_free pid (pipes s) |> <| tty_slots := (tty_slots s).[slot <- mkTty 0 pid] |>, -1)
        end
  end.

(** *** Reading *)

Inductive Outcome :=
  | Ret (bytes : list Z) (r : Z)
  | Wait.

(** [keyboard_set_waiter(task_get_current()); task_block();] *)
Definition wait_key (s : State) : State :=
  s <| kbd := Kbd.keyboard_set_waiter (Task.current_task (sys s)) (kbd s) |> <| sys := Task.task_block (sys s) |>.

Definition read_stdin (f : VfsFd) (len : Z) (s : State) : State * Outcome :=
  if len <? 1 then (s, Ret [] 0)
  else if truth (Z.land (flags f) VFS_O_NONBLOCK) && negb (Kbd.keyboard_has_char (kbd s)) then (s, Ret [] VFS_EAGAIN)
  else if negb (Kbd.keyboard_has_char (kbd s)) then (wait_key s, Wait)
  else let '(k, c) := Kbd.keyboard_getchar (kbd s) in (s <| kbd := k |>, Ret [c] 1).

(** [None]: a byte past the end of the file's buffer is read. *)
Definition read_file (t j : Z) (f : VfsFd) (len : Z) (s : State) : option (State * Outcome) :=
  if negb (truth (Z.land (flags f) (Z.lor VFS_O_RDONLY VFS_O_RDWR))) then Some (s, Ret [] (-1))
  else match Fs.fs_read_bin (name f) (fs s) with
  | None => Some (s, Ret [] 0)
  | Some (p, file_len) =>
      if (p =? 0) || (file_len =? 0) then Some (s, Ret [] 0)
      else
        let remaining := i32 (i32 file_len - i32 (offset f)) in
        if remaining <=? 0 then Some (s, Ret [] 0)
        else
          let len := if remaining <? len then remaining else len in
          let data := default [] (Fs.bufs (fs s) !! p) in
          if (0 <? len) && negb (offset f + len <=? zlen data) then None
          else Some (set_fd t j (f <| offset := u32 (offset f + len) |>) s,
                     Ret (take (Z.to_nat len) (drop (Z.to_nat (offset f)) data)) len)
  end.

Definition read_dev (f : VfsFd) (len : Z) (s : State) : State * Outcome :=
  let dev := i32 (offset f) in
  if dev =? VFS_DEV_NULL then (s, Ret [] 0)
  else if dev =? VFS_DEV_ZERO then (s, Ret (replicate (Z.to_nat len) 0) len)
  else (s, Ret [] 0).

(** [None]: [proc_buf] is read outside its bounds. *)
Definition read_proc (t j : Z) (f : VfsFd) (len : Z) (s : State) : option (State * Outcome) :=
  let s := if offset f =? 0 then proc_generate (name f) s else s in
  let remaining := i32 (proc_buf_len s - i32 (offset f)) in
  if remaining <=? 0 then Some (s, Ret [] 0)
  else
    let len := if remaining <? len then remaining else len in
    if (0 <? len) && negb (offset f + len <=? PROC_BUF_SIZE) then None
    else Some (set_fd t j (f <| offset := u32 (offset f + len) |>) s,
               Ret (take (Z.to_nat len) (drop (Z.to_nat (offset f)) (proc_buf s))) len).

(** [pipe_read]: the bytes stored, with the terminator, and the result. *)
Definition pipe_read (id : Z) (s : State) : State * Outcome :=
  if negb (Pipe.pipe_valid id (pipes s)) then (s, Ret [] (-1))
  else
    let '(p, turn) := Pipe.pipe_read_turn (Task.current_task (sys s)) (pipes s).[id] in
    let s := s <| pipes := (pipes s).[id <- p] |> in
    match turn with
    | Pipe.Eof => (s, Ret [] 0)
    | Pipe.MustBlock => (s <| sys := Task.task_block (sys s) |>, Wait)
    | Pipe.MustYield => (s <| sys := Task.task_yield (sys s) |>, Wait)
    | Pipe.Data =>
        let '(p, out, n) := Pipe.pipe_take p (replicate 256 0) in
        (s <| pipes := (pipes s).[id <- p] |>, Ret (take (Z.to_nat (n + 1)) out) n)
    end.

Definition read_pipe (f : VfsFd) (len : Z) (s : State) : State * Outcome :=
  if negb (pipe_end f =? 0) then (s, Ret [] (-1))
  else if len <=? 0 then (s, Ret [] 0)
  else if truth (Z.land (flags f) VFS_O_NONBLOCK) && negb (truth (Pipe.pipe_has_data (pipe_id f) (pipes s)))
  then (s, Ret [] VFS_EAGAIN)
  else match pipe_read (pipe_id f) s with
  | (s, Ret out n) => (s, Ret out (if n <? len then n else len))
  | (s, Wait) => (s, Wait)
  end.

Definition read_tty (f : VfsFd) (s : State) : State * Outcome :=
  let pid := tty_pipe (tty_slots s).[tty_id f] in
  if truth (Z.land (flags f) VFS_O_NONBLOCK) && negb (truth (Pipe.pipe_has_data pid (pipes s)))
  then (s, Ret [] VFS_EAGAIN)
  else pipe_read pid s.

Definition vfs_read (t j len : Z) (s : State) : option (State * Outcome) :=
  if bad_task t then Some (s, Ret [] (-1))
  else if bad_fd j then Some (s, Ret [] (-1))
  else
    let f := fd t j s in
    if negb (truth (used f)) then Some (s, Ret [] (-1))
    else if type f =? VFS_TYPE_STDIN then Some (read_stdin f len s)
    else if type f =? VFS_TYPE_FILE then read_file t j f len s
    else if type f =? VFS_TYPE_DEV then Some (read_dev f len s)
    else if type f =? VFS_TYPE_PROC then read_proc t j f len s
    else if type f =? VFS_TYPE_PIPE then Some (read_pipe f len s)
    else if type f =? VFS_TYPE_NET then
      if negb (net_present (net s)) then Some (s, Ret [] (-1))
      else
        let '(n, bytes, r) := net_tcp_recv (net_conn f) (u16 (if 1400 <? len then 1400 else len)) (net s) in
        Some (s <| net := n |>, Ret bytes r)
    else if type f =? VFS_TYPE_TTY then Some (read_tty f s)
    else Some (s, Ret [] (-1)).

(** *** Writing *)

(** The file contents with [len] bytes of [buf] at the offset, in the temporary
    buffer at [tmp].  [None]: a byte outside a buffer is read or written. *)
Definition merge (f : VfsFd) (existing : option (list Z)) (file_len : Z) (buf : list Z) (len : Z) (tmp : list Z)
    : option (list Z) :=
  let n := Z.min (i32 file_len) Fs.FS_MAX_BIN_DATA in
  if (0 <? n) && negb (n <=? zlen (default [] existing)) then None
  else
    let tmp := c_memcpy tmp (default [] existing) n in
    if (0 <? len) && negb (offset f + len <=? Fs.FS_MAX_BIN_DATA) then None
    else Some (take (Z.to_nat (offset f)) tmp ++ take (Z.to_nat len) buf ++ drop (Z.to_nat (offset f + Z.max len 0)) tmp).

Definition write_file (t j : Z) (f : VfsFd) (buf : list Z) (len : Z) (s : State) : option (State * Z) :=
  if negb (truth (Z.land (flags f) (Z.lor VFS_O_WRONLY VFS_O_RDWR))) then Some (s, -1)
  else
    let '(p, file_len) := default (0, 0) (Fs.fs_read_bin (name f) (fs s)) in
    let existing := if p =? 0 then None else Fs.bufs (fs s) !! p in
    let '(h, tmp) := kmalloc Fs.FS_MAX_BIN_DATA (Fs.heap (fs s)) in
    let s := s <| fs := (fs s) <| Fs.heap := h |> |> in
    if tmp =? 0 then Some (s, -1)
    else
      let fend := i32 (i32 (offset f) + len) in
      let '(len, fend) := if Fs.FS_MAX_BIN_DATA - 1 <? fend
                          then (i32 (Fs.FS_MAX_BIN_DATA - 1 - i32 (offset f)), Fs.FS_MAX_BIN_DATA - 1) else (len, fend) in
      b ← merge f existing file_len buf len (fresh tmp Fs.FS_MAX_BIN_DATA);
      let total := if fend <? i32 file_len then i32 file_len else fend in
      '(fs', _) ← Fs.fs_write_bin fresh (ticks (counters s)) (name f) b (u32 total) (fs s);
      let s := s <| fs := fs' <| Fs.heap := kfree tmp (Fs.heap fs') |> |> in
      Some (set_fd t j (f <| offset := u32 (offset f + len) |>) s, len).

(** The loop that writes [buf] to a pipe in pieces of at most 255 bytes. *)
Fixpoint write_chunks (fuel : nat) (id : Z) (buf : list Z) (len written : Z) (s : State) : option (State * Z) :=
  match fuel with
  | O => None
  | S fuel =>
      if written <? len then
        let n := Z.min (len - written) 255 in
        let chunk := take (Z.to_nat n) (drop (Z.to_nat written) buf) ++ [0] in
        let '(ps, sy, r) := Pipe.pipe_write id (Some chunk) (pipes s) (sys s) in
        let s := s <| pipes := ps |> <| sys := sy |> in
        if r <? 0 then Some (s, written) else write_chunks fuel id buf len (written + r) s
      else Some (s, written)
  end.

Definition vfs_write (fuel : nat) (t j : Z) (buf : list Z) (len : Z) (s : State) : option (State * Z) :=
  if bad_task t then Some (s, -1)
  else if bad_fd j then Some (s, -1)
  else
    let f := fd t j s in
    if negb (truth (used f)) then Some (s, -1)
    else if type f =? VFS_TYPE_STDOUT then
      let n := if len <? 255 then len else 255 in
      Some (s <| screen := screen s ++ [cstr (take (Z.to_nat n) buf)] |>, n)
    else if type f =? VFS_TYPE_DEV then Some (s, len)
    else if type f =? VFS_TYPE_FILE then write_file t j f buf len s
    else if type f =? VFS_TYPE_PIPE then
      if negb (pipe_end f =? 1) then Some (s, -1) else write_chunks fuel (pipe_id f) buf len 0 s
    else if type f =? VFS_TYPE_NET then
      if negb (net_present (net s)) then Some (s, -1)
      else
        let '(n, r) := net_tcp_send (net_conn f) (take (Z.to_nat (u16 (if 1400 <? len then 1400 else len))) buf) (net s) in
        Some (s <| net := n |>, r)
    else if type f =? VFS_TYPE_TTY then write_chunks fuel (tty_pipe (tty_slots s).[tty_id f]) buf len 0 s
    else Some (s, -1).

(** *** The other operations *)

Definition vfs_set_flags (t j fl : Z) (s : State) : State * Z :=
  if bad_task t then (s, -1) else if bad_fd j then (s, -1)
  else if negb (truth (used (fd t j s))) then (s, -1)
  else (set_fd t j ((fd t j s) <| flags := u8 fl |>) s, 0).

Definition ready_in (f : VfsFd) (s : State) : bool :=
  if (type f =? VFS_TYPE_STDIN) && Kbd.keyboard_has_char (kbd s) then true
  else if (type f =? VFS_TYPE_PIPE) && (pipe_end f =? 0) && truth (Pipe.pipe_has_data (pipe_id f) (pipes s)) then true
  else if type f =? VFS_TYPE_FILE then true
  else (type f =? VFS_TYPE_TTY) && truth (Pipe.pipe_has_data (tty_pipe (tty_slots s).[tty_id f]) (pipes s)).

Definition ready_out (f : VfsFd) : bool :=
  if (type f =? VFS_TYPE_PIPE) && (pipe_end f =? 1) then true
  else (type f =? VFS_TYPE_STDOUT) || (type f =? VFS_TYPE_FILE) || (type f =? VFS_TYPE_NET).

Definition vfs_fd_ready (t j events : Z) (s : State) : Z :=
  if bad_task t then 0 else if bad_fd j then 0
  else
    let f := fd t j s in
    if negb (truth (used f)) then POLLERR
    else
      let ready := if truth (Z.land events POLLIN) && ready_in f s then POLLIN else 0 in
      if truth (Z.land events POLLOUT) && ready_out f then Z.lor ready POLLOUT else ready.

Definition vfs_close (t j : Z) (s : State) : State * Z :=
  if bad_task t then (s, -1)
  else if (j <? 3) || (VFS_MAX_FD <=? j) then (s, -1)
  else
    let f := fd t j s in
    if negb (truth (used f)) then (s, -1)
    else
      let s := if type f =? VFS_TYPE_NET then s <| net := net_tcp_close (net_conn f) (net s) |> else s in
      let s := if (type f =? VFS_TYPE_TTY) && truth (tty_used (tty_slots s).[tty_id f])
               then s <| pipes := Pipe.pipe_free (tty_pipe (tty_slots s).[tty_id f]) (pipes s) |>
                      <| tty_slots := (tty_slots s).[tty_id f <- mkTty 0 (tty_pipe (tty_slots s).[tty_id f])] |>
               else s in
      let s := if (type f =? VFS_TYPE_PIPE) && (pipe_end f =? 1) then detach_writer (pipe_id f) s else s in
      (set_fd t j (f <| used := 0 |>) s, 0).

Definition vfs_seek (t j off : Z) (s : State) : State * Z :=
  if bad_task t then (s, -1) else if bad_fd j then (s, -1)
  else if negb (truth (used (fd t j s))) then (s, -1)
  else (set_fd t j ((fd t j s) <| offset := u32 off |>) s, 0).

Definition vfs_stdout_is_file (t : Z) (s : State) : Z :=
  if bad_task t then 0
  else if negb (truth (used (fd t 1 s))) then 0
  else
    let ty := type (fd t 1 s) in
    if (ty =? VFS_TYPE_FILE) || (ty =? VFS_TYPE_PIPE) || (ty =? VFS_TYPE_NET) || (ty =? VFS_TYPE_TTY) then 1 else 0.

Definition vfs_redirect_out (t : Z) (path : option (list Z)) (s : State) : option (State * Z) :=
  match path with
  | None => Some (s, -1)
  | Some path =>
      if bad_task t || (cget path 0 =? 0) then Some (s, -1)
      else
        s ← create_if_missing path s;
        let s := open_slot t VFS_TYPE_FILE VFS_O_WRONLY 0 path 1 s in
        Some (set_fd t 2 (fd t 1 s) s, 0)
  end.

Definition vfs_redirect_in (t : Z) (path : option (list Z)) (s : State) : State * Z :=
  match path with
  | None => (s, -1)
  | Some path =>
      if bad_task t || (cget path 0 =? 0) then (s, -1)
      else if Fs.fs_read path (fs s) =? 0 then (s, -1)
      else (open_slot t VFS_TYPE_FILE VFS_O_RDONLY 0 path 0 s, 0)
  end.

Definition vfs_redirect_out_pipe (t pid : Z) (s : State) : State * Z :=
  if bad_task t then (s, -1)
  else
    let s := set_fd t 1 (set16 2 1 (set16 0 pid ((fd t 1 s) <| used := 1 |> <| type := VFS_TYPE_PIPE |>
                                                   <| flags := VFS_O_WRONLY |>))) s in
    (s <| pipes := Pipe.pipe_writer_attach pid (pipes s) |>, 0).

Definition vfs_redirect_in_pipe (t pid : Z) (s : State) : State * Z :=
  if bad_task t then (s, -1)
  else (set_fd t 0 (set16 2 0 (set16 0 pid ((fd t 0 s) <| used := 1 |> <| type := VFS_TYPE_PIPE |>
                                              <| flags := VFS_O_RDONLY |>))) s, 0).

Definition vfs_redirect_out_append (t : Z) (path : option (list Z)) (s : State) : option (State * Z) :=
  match path with
  | None => Some (s, -1)
  | Some path =>
      if bad_task t || (cget path 0 =? 0) then Some (s, -1)
      else
        let file_len := match Fs.fs_read_bin path (fs s) with Some (_, n) => n | None => 0 end in
        s ← (if file_len =? 0 then
               '(f, _) ← Fs.fs_write fresh (ticks (counters s)) path [0] (fs s); Some (s <| fs := f |>)
             else Some s);
        let s := open_slot t VFS_TYPE_FILE VFS_O_WRONLY file_len path 1 s in
        Some (set_fd t 2 (fd t 1 s) s, 0)
  end.

(** ** The table *)

Definition table_ok (s : State) : Prop := zlen (fd_table s) = MAX_TASKS /\ Forall (fun row => zlen row = VFS_MAX_FD) (fd_table s).

Lemma good_task t : bad_task t = false <-> 0 <= t < 32.
Proof. unfold bad_task, MAX_TASKS. rewrite orb_false_iff, Z.ltb_ge, Z.leb_gt. lia. Qed.
Lemma good_fd j : bad_fd j = false <-> 0 <= j < 32.
Proof. unfold bad_fd, VFS_MAX_FD. rewrite orb_false_iff, Z.ltb_ge, Z.leb_gt. lia. Qed.

Lemma row_len t s : table_ok s -> 0 <= t < 32 -> zlen (fd_table s).[t] = 32.
Proof. intros [Hl Hr] Ht. rewrite Forall_aget in Hr. apply Hr. unfold MAX_TASKS in Hl. lia. Qed.

Lemma fd_set t j f s t' j' :
  table_ok s -> 0 <= t < 32 -> 0 <= j < 32 -> 0 <= t' -> 0 <= j' ->
  fd t' j' (set_fd t j f s) = if decide (t' = t /\ j' = j) then f else fd t' j' s.
Proof.
  intros Hok Ht Hj Ht' Hj'. pose proof (row_len t s Hok Ht) as Hrow. destruct Hok as [Hl _]. unfold fd, set_fd. cbn [fd_table].
  change (fd_table (upd fd_table _ s)) with ((fd_table s).[t <- (fd_table s).[t].[j <- f]]).
  rewrite aget_aset by (unfold MAX_TASKS in Hl; lia). case_decide as E; subst.
  - rewrite aget_aset by lia. repeat case_decide; naive_solver.
  - rewrite decide_False by naive_solver. done.
Qed.

Lemma table_ok_set t j f s : table_ok s -> 0 <= t < 32 -> table_ok (set_fd t j f s).
Proof.
  intros Hok Ht. pose proof (row_len t s Hok Ht) as Hrow. destruct Hok as [Hl Hr]. unfold table_ok, set_fd.
  change (fd_table (upd fd_table _ s)) with ((fd_table s).[t <- (fd_table s).[t].[j <- f]]).
  split; [by rewrite zlen_aset|]. apply Forall_insert; [exact Hr|]. by rewrite zlen_aset.
Qed.

(** ** Files *)

Context (fresh_len : forall p n, 0 <= n -> length (fresh p n) = Z.to_nat n).

(** Descriptor [j] of task [t] is open on a file with the bytes [old]. *)
Record open_file (t j : Z) (s : State) (old : list Z) (v : Fs.View) : Prop := {
  of_task : 0 <= t < 32; of_fd : 0 <= j < 32; of_table : table_ok s; of_wf : Fs.wf (fs s);
  of_used : used (fd t j s) <> 0; of_type : type (fd t j s) = VFS_TYPE_FILE;
  of_mode : truth (Z.land (flags (fd t j s)) 3) = true;
  of_name : c_strlen (name (fd t j s)) < 32;
  of_lookup : Fs.lookup_file (fs s) (name (fd t j s)) = Some v;
  of_size : 0 < Fs.v_size v < 2 ^ 31;
  of_data : exists b, Fs.v_data v = Some b /\ Fs.v_size v <= zlen b /\ old = take (Z.to_nat (Fs.v_size v)) b;
}.

Lemma read_bin_lookup nm (f : Fs.State H D) v b :
  Fs.wf f -> Fs.lookup_file f nm = Some v -> Fs.v_data v = Some b ->
  exists p, Fs.fs_read_bin nm f = Some (p, Fs.v_size v) /\ p <> 0 /\ Fs.bufs f !! p = Some b.
Proof.
  intros Hwf. unfold Fs.lookup_file, Fs.fs_read_bin. destruct (Fs.find _ f) as [i|]; [|done]. cbn [fmap option_fmap option_map compose].
  intros [= <-]. unfold Fs.view. cbn [Fs.v_data Fs.v_size]. destruct (Z.eqb_spec (Fs.data (Fs.file f i)) 0) as [|Hp]; [done|].
  intros Hb. eexists. by split_and!.
Qed.

Lemma lookup_heap nm (f : Fs.State H D) h : Fs.lookup_file (f <| Fs.heap := h |>) nm = Fs.lookup_file f nm.
Proof. reflexivity. Qed.

Lemma wf_heap (f : Fs.State H D) h : Fs.wf f -> Fs.owned (f <| Fs.heap := h |>) -> Fs.wf (f <| Fs.heap := h |>).
Proof. intros [_ Hk] Ho. split; [exact Ho|]. intros i Hi. destruct (Hk i Hi) as [K1 K2 K3 K4]. by split. Qed.

Lemma merge_spec f old b buf len tmp :
  zlen old <= zlen b -> old = take (Z.to_nat (zlen old)) b -> zlen old < Fs.FS_MAX_BIN_DATA ->
  zlen tmp = Fs.FS_MAX_BIN_DATA -> 0 <= len <= zlen buf -> 0 <= offset f <= zlen old -> offset f + len < Fs.FS_MAX_BIN_DATA ->
  exists r, merge f (Some b) (zlen old) buf len tmp = Some r /\ zlen r = Fs.FS_MAX_BIN_DATA /\
    take (Z.to_nat (Z.max (zlen old) (offset f + len))) r
    = take (Z.to_nat (offset f)) old ++ take (Z.to_nat len) buf ++ drop (Z.to_nat (offset f + len)) old.
Proof.
  intros Hb Hold Hmax Htmp Hlen Hoff Hend. unfold merge. unfold Fs.FS_MAX_BIN_DATA in *.
  pose proof (zlen_nonneg old) as H0. rewrite (i32_small (zlen old)) by lia. rewrite (Z.min_l (zlen old)) by lia. cbn [default from_option id].
  rewrite (proj2 (Z.leb_le (zlen old) (zlen b))), (proj2 (Z.leb_le (offset f + len) _)) by lia. rewrite !andb_false_r.
  eexists. split; [reflexivity|]. rewrite Z.max_l by lia.
  set (t0 := c_memcpy tmp b (zlen old)).
  assert (t0 = old ++ drop (Z.to_nat (zlen old)) tmp) as Et by (unfold t0, c_memcpy; by rewrite <- Hold).
  unfold zlen in *. split.
  - rewrite !length_app, !length_take, length_drop, Et, length_app, length_drop. lia.
  - rewrite (take_app (take _ t0)), length_take. rewrite (take_ge (take _ t0)) by (rewrite length_take; lia).
    assert (length t0 = length tmp) as Lt by (rewrite Et, length_app, length_drop; lia).
    f_equal; [rewrite Et, take_app_le by lia; done|].
    rewrite (take_app (take _ buf)), length_take. rewrite (take_ge (take _ buf)) by (rewrite length_take; lia). f_equal.
    rewrite Lt, Et. destruct (decide (offset f + len <= Z.of_nat (length old))).
    + rewrite drop_app_le by lia. rewrite take_app_le by (rewrite length_drop; lia). apply take_ge. rewrite length_drop. lia.
    + rewrite (drop_ge old) by lia.
      match goal with |- take ?n _ = [] => replace n with 0%nat by lia end. apply take_0.
Qed.

(** The three ways a write to a file ends. *)
Lemma write_file_spec t j buf len s old v :
  open_file t j s old v -> 0 <= offset (fd t j s) <= zlen old -> 0 <= len <= zlen buf ->
  zlen old < Fs.FS_MAX_BIN_DATA -> offset (fd t j s) + len < Fs.FS_MAX_BIN_DATA ->
  let f := fd t j s in
  let new := take (Z.to_nat (offset f)) old ++ take (Z.to_nat len) buf ++ drop (Z.to_nat (offset f + len)) old in
  exists s' r, write_file t j f buf len s = Some (s', r) /\ Fs.wf (fs s') /\ table_ok s' /\
    (forall other, cstr other <> cstr (name f) -> Fs.lookup_file (fs s') other = Fs.lookup_file (fs s) other) /\
    ((r = -1 /\ fd_table s' = fd_table s /\ Fs.lookup_file (fs s') (name f) = Some v) \/
     (r = len /\ fd_table s' = fd_table (set_fd t j (f <| offset := offset f + len |>) s) /\
      exists v', Fs.lookup_file (fs s') (name f) = Some v' /\
        ((Fs.v_size v' = zlen new /\ Fs.v_data v' = Some new) \/ (Fs.v_size v' = Fs.v_size v /\ Fs.v_data v' = None)))).
Proof.
  intros [Ht Hj Htab Hwf Hu Hty Hmode Hnm Hlk Hsz (b & Hvb & Hlen & Hold)] Hoff Hl Hmax Hend f new. fold f in Hu, Hty, Hmode, Hnm, Hlk, Hoff, Hend.
  assert (zlen old = Fs.v_size v) as Ezo by (rewrite Hold; unfold zlen in *; rewrite length_take; lia).
  destruct (read_bin_lookup _ _ v b Hwf Hlk Hvb) as (p & Erd & Hp & Ebp).
  unfold write_file. change (Z.lor VFS_O_WRONLY VFS_O_RDWR) with 3. rewrite Hmode. cbn [negb].
  rewrite Erd. cbn [default from_option id]. rewrite (proj2 (Z.eqb_neq p 0) Hp), Ebp.
  destruct (kmalloc Fs.FS_MAX_BIN_DATA (Fs.heap (fs s))) as [h tmp] eqn:Em.
  set (f1 := (fs s) <| Fs.heap := h |>). set (s1 := s <| fs := f1 |>).
  destruct (Z.eqb_spec tmp 0) as [->|Htmp].
  { exists s1, (-1). split; [reflexivity|]. split; [|split; [exact Htab|split; [done|by left]]].
    apply wf_heap; [exact Hwf|]. pose proof (proj1 Hwf) as [A1 A2 A3 A4 (m & Hm & Hpm)].
    destruct (kmalloc_live Fs.FS_MAX_BIN_DATA _ m h 0 Hm ltac:(unfold Fs.FS_MAX_BIN_DATA; lia) Em) as [[_ Hm']|(? & _)]; [|lia].
    split; try assumption. by exists m. }
  destruct (Fs.held_alloc Fs.FS_MAX_BIN_DATA (fs s) h tmp (proj1 Hwf) ltac:(unfold Fs.FS_MAX_BIN_DATA; lia) Em Htmp) as [Ho1 Hh1].
  pose proof (wf_heap (fs s) h Hwf Ho1) as Hwf1. fold f1 in Ho1, Hh1, Hwf1.
  destruct (merge_spec f old b buf len (fresh tmp Fs.FS_MAX_BIN_DATA)) as (r & Emg & Hzr & Hr);
    [lia|by rewrite Ezo|lia|unfold zlen; rewrite fresh_len; done|lia|lia|lia|].
  rewrite Ezo in Emg, Hr. unfold Fs.FS_MAX_BIN_DATA in *.
  rewrite (i32_small (offset f)), (i32_small (offset f + len)), (i32_small (Fs.v_size v)) by lia.
  rewrite (proj2 (Z.ltb_ge (524288 - 1) (offset f + len))) by lia. cbv zeta. rewrite Emg. cbn [mbind option_bind].
  assert ((if offset f + len <? Fs.v_size v then Fs.v_size v else offset f + len) = Z.max (Fs.v_size v) (offset f + len)) as ->
    by (destruct (Z.ltb_spec (offset f + len) (Fs.v_size v)); lia).
  rewrite (u32_small (Z.max (Fs.v_size v) (offset f + len))) by lia. set (n := Z.max (Fs.v_size v) (offset f + len)) in *.
  destruct (Fs.write_bin_spec fresh fresh_len (ticks (counters s1)) (name f) r n 0 f1 Hwf1 Hnm ltac:(lia))
    as (f2 & r2 & Ew & Hwf2 & Hother & Hres).
  pose proof (Fs.write_bin_held fresh tmp _ _ _ n 0 f1 f2 r2 Hwf1 ltac:(lia) Hh1 Ew) as Hh2.
  match goal with |- context [Fs.fs_write_bin fresh ?a ?b ?c ?d ?e] =>
    change (Fs.fs_write_bin fresh a b c d e) with (Fs.fs_write_bin_internal fresh (ticks (counters s1)) (name f) r n 0 f1) end.
  rewrite Ew. cbn [mbind option_bind].
  eexists _, len. split; [reflexivity|]. set (f3 := f2 <| Fs.heap := kfree tmp (Fs.heap f2) |>).
  split; [exact (wf_heap f2 _ Hwf2 (Fs.held_free tmp f2 (proj1 Hwf2) Hh2))|].
  split; [apply table_ok_set; [exact Htab|exact Ht]|]. split; [exact Hother|]. right. split; [done|].
  split; [by rewrite u32_small by lia|].
  assert (zlen new = n) as Ezn.
  { unfold new, zlen in *. rewrite !length_app, !length_take, length_drop. lia. }
  destruct (decide (r2 = 0)) as [->|Hr2].
  { destruct (Fs.write_bin_lost fresh _ (name f) r n 0 f1 f2 v Hwf1 Hlk ltac:(unfold Fs.FS_MAX_BIN_DATA; lia) Ew) as (v' & Hv' & Hs' & Hd').
    exists v'. split; [exact Hv'|]. by right. }
  destruct Hres as [[-> _]|[(-> & _)|(_ & v' & Hv' & Hs' & _ & Hd')]]; [done|done|].
  - exists v'. split; [exact Hv'|]. left. split; [by rewrite Hs', Ezn|]. rewrite Hd'. f_equal. exact Hr.
Qed.

(** Changing the descriptor's offset keeps the file open on the same bytes. *)
Lemma open_file_offset t j o s s' old v :
  open_file t j s old v -> fs s' = fs s -> fd_table s' = fd_table (set_fd t j ((fd t j s) <| offset := o |>) s) ->
  open_file t j s' old v /\ offset (fd t j s') = o.
Proof.
  intros [Ht Hj Htab Hwf Hu Hty Hmode Hnm Hlk Hsz Hd] Efs Etab.
  assert (fd t j s' = (fd t j s) <| offset := o |>) as Efd.
  { unfold fd at 1. rewrite Etab. change ((fd_table ?x).[t].[j]) with (fd t j x). rewrite fd_set by (done || lia). by rewrite decide_True. }
  split; [|by rewrite Efd]. split; rewrite ?Efd, ?Efs; try assumption.
  unfold table_ok. rewrite Etab. by apply table_ok_set.
Qed.

Lemma vfs_seek_open t j o s old v :
  open_file t j s old v -> 0 <= o < 2 ^ 32 ->
  let s' := fst (vfs_seek t j o s) in
  snd (vfs_seek t j o s) = 0 /\ open_file t j s' old v /\ offset (fd t j s') = o.
Proof.
  intros Hf Ho. pose proof Hf as [Ht Hj _ _ Hu _ _ _ _ _ _]. unfold vfs_seek.
  rewrite (proj2 (good_task t) Ht), (proj2 (good_fd j) Hj). unfold truth. rewrite (proj2 (Z.eqb_neq _ _) Hu). cbn [negb fst snd].
  split; [done|]. rewrite (u32_small o) by done. by eapply open_file_offset.
Qed.

Lemma read_file_spec t j n s old v :
  open_file t j s old v -> 0 <= offset (fd t j s) < zlen old -> 0 < n < 2 ^ 31 ->
  read_file t j (fd t j s) n s
  = Some (set_fd t j ((fd t j s) <| offset := offset (fd t j s) + Z.min n (zlen old - offset (fd t j s)) |>) s,
          Ret (take (Z.to_nat n) (drop (Z.to_nat (offset (fd t j s))) old)) (Z.min n (zlen old - offset (fd t j s)))).
Proof.
  intros [Ht Hj Htab Hwf Hu Hty Hmode Hnm Hlk Hsz (b & Hvb & Hlen & Hold)] Hoff Hn.
  assert (zlen old = Fs.v_size v) as Ezo by (rewrite Hold; unfold zlen in *; rewrite length_take; lia).
  destruct (read_bin_lookup _ _ v b Hwf Hlk Hvb) as (p & Erd & Hp & Ebp).
  unfold read_file. change (Z.lor VFS_O_RDONLY VFS_O_RDWR) with 3. rewrite Hmode, Erd. cbn [negb].
  rewrite (proj2 (Z.eqb_neq p 0) Hp), (proj2 (Z.eqb_neq (Fs.v_size v) 0)) by lia. cbn [orb].
  set (f := fd t j s) in *. rewrite (i32_small (Fs.v_size v)), (i32_small (offset f)), (i32_small (_ - _)) by lia.
  rewrite (proj2 (Z.leb_gt _ _)) by lia. rewrite Ebp. cbn [default from_option id].
  assert ((if Fs.v_size v - offset f <? n then Fs.v_size v - offset f else n) = Z.min n (zlen old - offset f)) as ->
    by (rewrite Ezo; destruct (Z.ltb_spec (Fs.v_size v - offset f) n); lia).
  rewrite (proj2 (Z.leb_le (_ + _) (zlen b))) by lia. rewrite andb_false_r. rewrite u32_small by lia.
  f_equal. f_equal. f_equal. rewrite Ezo, Hold, skipn_firstn_comm, take_take. f_equal. lia.
Qed.

(** After a write that kept the contents, the descriptor is open on them. *)
Lemma write_reopens t j f' s s' old new v v' :
  open_file t j s old v -> Fs.wf (fs s') -> fd_table s' = fd_table (set_fd t j ((fd t j s) <| offset := f' |>) s) ->
  Fs.lookup_file (fs s') (name (fd t j s)) = Some v' -> 0 < zlen new < 2 ^ 31 ->
  Fs.v_size v' = zlen new -> Fs.v_data v' = Some new -> open_file t j s' new v'.
Proof.
  intros [Ht Hj Htab Hwf Hu Hty Hmode Hnm Hlk Hsz Hd] Hwf' Etab Hlk' Hnew Hs' Hd'.
  assert (fd t j s' = (fd t j s) <| offset := f' |>) as Efd.
  { unfold fd at 1. rewrite Etab. change ((fd_table ?x).[t].[j]) with (fd t j x). rewrite fd_set by (done || lia). by rewrite decide_True. }
  split; rewrite ?Efd; try assumption.
  - unfold table_ok. rewrite Etab. by apply table_ok_set.
  - lia.
  - exists new. split; [done|]. split; [lia|]. rewrite take_ge; [done|]. unfold zlen in *. lia.
Qed.

(** On such a descriptor [vfs_write] and [vfs_read] are the file branches. *)
Lemma write_is_file fuel t j buf len s old v :
  open_file t j s old v -> vfs_write fuel t j buf len s = write_file t j (fd t j s) buf len s.
Proof.
  intros [Ht Hj _ _ Hu Hty _ _ _ _ _]. unfold vfs_write. rewrite (proj2 (good_task t) Ht), (proj2 (good_fd j) Hj), Hty.
  unfold truth. by rewrite (proj2 (Z.eqb_neq _ _) Hu).
Qed.

Lemma read_is_file t j n s old v : open_file t j s old v -> vfs_read t j n s = read_file t j (fd t j s) n s.
Proof.
  intros [Ht Hj _ _ Hu Hty _ _ _ _ _]. unfold vfs_read. rewrite (proj2 (good_task t) Ht), (proj2 (good_fd j) Hj), Hty.
  unfold truth. by rewrite (proj2 (Z.eqb_neq _ _) Hu).
Qed.

Lemma seek_negative t j off s old v :
  open_file t j s old v -> - 2 ^ 31 <= off < 0 ->
  let s' := fst (vfs_seek t j off s) in
  snd (vfs_seek t j off s) = 0 /\ open_file t j s' old v /\ offset (fd t j s') = off + 2 ^ 32 /\ fs s' = fs s.
Proof.
  intros Hf Ho. pose proof Hf as [Ht Hj _ _ Hu _ _ _ _ _ _]. unfold vfs_seek.
  rewrite (proj2 (good_task t) Ht), (proj2 (good_fd j) Hj). unfold truth. rewrite (proj2 (Z.eqb_neq _ _) Hu). cbn [negb fst snd].
  assert (u32 off = off + 2 ^ 32) as -> by (unfold u32; rewrite <- (Z.mod_add _ 1) by lia; apply Z.mod_small; lia).
  split; [done|]. destruct (open_file_offset t j (off + 2 ^ 32) s (set_fd t j ((fd t j s) <| offset := off + 2 ^ 32 |>) s) old v Hf eq_refl eq_refl).
  done.
Qed.

Lemma write_outside t j buf len s old v :
  open_file t j s old v -> 2 ^ 31 <= offset (fd t j s) < 2 ^ 32 -> 0 < len < 2 ^ 31 ->
  offset (fd t j s) - 2 ^ 32 + len < Fs.FS_MAX_BIN_DATA ->
  snd (kmalloc Fs.FS_MAX_BIN_DATA (Fs.heap (fs s))) <> 0 ->
  write_file t j (fd t j s) buf len s = None.
Proof.
  intros [Ht Hj Htab Hwf Hu Hty Hmode Hnm Hlk Hsz (b & Hvb & Hlen & Hold)] Hoff Hl Hend Hm.
  destruct (read_bin_lookup _ _ v b Hwf Hlk Hvb) as (p & Erd & Hp & Ebp).
  unfold write_file. change (Z.lor VFS_O_WRONLY VFS_O_RDWR) with 3. rewrite Hmode, Erd. cbn [negb default from_option id].
  destruct (kmalloc Fs.FS_MAX_BIN_DATA (Fs.heap (fs s))) as [h tmp] eqn:Em. rewrite (proj2 (Z.eqb_neq tmp 0) Hm).
  set (f := fd t j s) in *.
  assert (i32 (offset f) = offset f - 2 ^ 32) as ->.
  { unfold i32. replace (offset f + 2 ^ 31) with (offset f - 2 ^ 31 + 1 * 2 ^ 32) by lia.
    rewrite Z.mod_add, Z.mod_small; lia. }
  unfold Fs.FS_MAX_BIN_DATA in *. rewrite (i32_small (offset f - 2 ^ 32 + len)) by lia.
  rewrite (proj2 (Z.ltb_ge (524288 - 1) (offset f - 2 ^ 32 + len))) by lia. unfold merge. rewrite (proj2 (Z.ltb_lt 0 len)) by lia.
  rewrite (proj2 (Z.leb_gt (offset f + len) _)) by (unfold Fs.FS_MAX_BIN_DATA; lia).
  by destruct ((0 <? _) && _).
Qed.

(** ** Pipes *)

(** A write that starts with a NUL byte makes no progress in any number of rounds. *)
Lemma pipe_write_nul id buf (ps : Pipe.Pipes) (t : Task.Sys) :
  zlen ps = Pipe.PIPE_MAX -> Pipe.pipe_valid id ps = true ->
  let '(ps', _, r) := Pipe.pipe_write id (Some (0 :: buf)) ps t in
  r = 0 /\ zlen ps' = Pipe.PIPE_MAX /\ Pipe.pipe_valid id ps' = true.
Proof.
  intros Hl Hv. unfold Pipe.pipe_write. rewrite Hv. cbn [negb cstr Z.eqb Pipe.put_bytes].
  destruct (Pipe.pipe_dequeue_waiter (Pipe.put_nul ps.[id])) as [p w] eqn:E.
  assert (Pipe.used p = Pipe.used ps.[id]) as Hu.
  { replace p with (fst (Pipe.pipe_dequeue_waiter (Pipe.put_nul ps.[id]))) by (by rewrite E).
    unfold Pipe.pipe_dequeue_waiter, Pipe.put_nul. by destruct (negb _); destruct (_ =? _). }
  split; [done|]. split; [by rewrite zlen_aset|].
  unfold Pipe.pipe_valid in *. bool_to_prop. rewrite aget_aset_eq by (rewrite Hl; lia). rewrite Hu.
  rewrite (proj2 (Z.leb_le _ _)), (proj2 (Z.ltb_lt _ _)) by lia. done.
Qed.

Lemma write_chunks_nul fuel id buf len : 0 < len -> forall s : State,
  zlen (pipes s) = Pipe.PIPE_MAX -> Pipe.pipe_valid id (pipes s) = true ->
  write_chunks fuel id (0 :: buf) len 0 s = None.
Proof.
  intros Hlen. induction fuel as [|fuel IH]; intros s Hl Hv; cbn [write_chunks]; [done|].
  rewrite (proj2 (Z.ltb_lt _ _)) by lia. rewrite Z.sub_0_r.
  assert (exists c, take (Z.to_nat (Z.min len 255)) (drop (Z.to_nat 0) (0 :: buf)) ++ [0] = 0 :: c) as [c ->].
  { change (Z.to_nat 0) with 0%nat. rewrite drop_0. destruct (Z.to_nat (Z.min len 255)) as [|m] eqn:E; [lia|]. by eexists. }
  pose proof (pipe_write_nul id c (pipes s) (sys s) Hl Hv) as Hw.
  destruct (Pipe.pipe_write id (Some (0 :: c)) (pipes s) (sys s)) as [[ps sy] r]. destruct Hw as (-> & Hl' & Hv').
  cbn [Z.ltb]. rewrite Z.add_0_r. by apply IH.
Qed.

Lemma get16_set16 o v f : 0 <= o <= 2 -> 0 <= v < 2 ^ 15 -> zlen (name f) = 32 -> get16 o (set16 o v f) = v.
Proof.
  intros Ho Hv Hn. unfold get16, set16. cbn [name rebuild upd settable_VfsFd].
  change (name (upd name _ f)) with ((name f).[o <- v mod 256].[o + 1 <- v / 256 mod 256]).
  rewrite aget_aset_ne, aget_aset_eq, aget_aset_eq by (rewrite ?zlen_aset; lia).
  pose proof (Z.div_mod v 256 ltac:(lia)) as E. pose proof (Z.mod_pos_bound v 256 ltac:(lia)).
  rewrite (Z.mod_small (v / 256)) by lia. unfold i16. rewrite Z.mod_small; lia.
Qed.

Lemma get16_set16_other v f : zlen (name f) = 32 -> get16 0 (set16 2 v f) = get16 0 f.
Proof.
  intros Hn. unfold get16, set16.
  change (name (upd name _ f)) with ((name f).[2 <- v mod 256].[2 + 1 <- v / 256 mod 256]).
  by rewrite !aget_aset_ne by lia.
Qed.

Lemma zlen_set16 o v f : zlen (name (set16 o v f)) = zlen (name f).
Proof. unfold set16. change (name (upd name _ f)) with ((name f).[o <- v mod 256].[o + 1 <- v / 256 mod 256]). by rewrite !zlen_aset. Qed.

(** The descriptor of the write end. *)
Definition write_end (pid : Z) (f : VfsFd) : VfsFd :=
  set16 2 1 (set16 0 pid (f <| used := 1 |> <| type := VFS_TYPE_PIPE |> <| flags := VFS_O_WRONLY |>)).

Lemma write_end_spec pid f : 0 <= pid < 2 ^ 15 -> zlen (name f) = 32 ->
  pipe_id (write_end pid f) = pid /\ pipe_end (write_end pid f) = 1 /\ used (write_end pid f) = 1 /\
  type (write_end pid f) = VFS_TYPE_PIPE.
Proof.
  intros Hp Hn. unfold write_end, pipe_id, pipe_end. set (g := f <| used := 1 |> <| type := VFS_TYPE_PIPE |> <| flags := VFS_O_WRONLY |>).
  assert (zlen (name g) = 32) as Hg by done.
  rewrite get16_set16_other by (by rewrite zlen_set16). rewrite !get16_set16 by (rewrite ?zlen_set16; done || lia). done.
Qed.

(** The new pipe has one writer. *)
Lemma alloc_attach ps ps' pid : zlen ps = Pipe.PIPE_MAX -> Pipe.pipe_alloc ps = (ps', pid) -> 0 <= pid ->
  pid < Pipe.PIPE_MAX /\ zlen ps' = Pipe.PIPE_MAX /\ Pipe.used ps'.[pid] = 1 /\ Pipe.eof ps'.[pid] = 0 /\ Pipe.write_refs ps'.[pid] = 0.
Proof.
  intros Hl. unfold Pipe.pipe_alloc. destruct (scan _ _ _) as [i|] eqn:E; [|intros [= <- <-]; lia].
  apply scan_Some in E as (Hi & _). change (0 + Z.of_nat (Z.to_nat Pipe.PIPE_MAX)) with 8 in Hi.
  intros [= <- <-] _. rewrite aget_aset_eq by (rewrite Hl; exact Hi). split; [apply Hi|]. split; [by rewrite zlen_aset|]. done.
Qed.

Lemma vfs_pipe_spec t s s1 r w :
  table_ok s -> zlen (pipes s) = Pipe.PIPE_MAX -> (forall j, 0 <= j < 32 -> zlen (name (fd t j s)) = 32) ->
  bad_task t = false -> vfs_pipe t s = (s1, Some (r, w)) ->
  3 <= r < w /\ w < 32 /\ table_ok s1 /\
  exists pid f, 0 <= pid < 8 /\ zlen (name f) = 32 /\ fd t w s1 = write_end pid f /\ zlen (pipes s1) = Pipe.PIPE_MAX /\
    Pipe.used (pipes s1).[pid] = 1 /\ Pipe.write_refs (pipes s1).[pid] = 1.
Proof.
  intros Hok Hl Hn Ht. unfold vfs_pipe. rewrite Ht. apply good_task in Ht.
  destruct (Pipe.pipe_alloc (pipes s)) as [ps pid] eqn:Ea. destruct (Z.ltb_spec pid 0); [done|].
  destruct (alloc_attach _ _ _ Hl Ea ltac:(lia)) as (Hpid & Hl' & Hu & He & Hw). unfold Pipe.PIPE_MAX in Hpid.
  set (s0 := s <| pipes := ps |>).
  destruct (scan _ 3 _) as [r'|] eqn:Er; [|done]. apply scan_Some in Er as (Hr & _).
  change (3 + Z.of_nat (Z.to_nat (VFS_MAX_FD - 3))) with 32 in Hr.
  destruct (scan _ (r' + 1) _) as [w'|] eqn:Ew; [|done]. apply scan_Some in Ew as (Hw' & _).
  unfold VFS_MAX_FD in Hw'. assert (r' < w' < 32) as Hwr by lia.
  set (fr := set16 2 0 _). set (sr := set_fd t r' fr s0).
  set (sw := set_fd t w' _ sr). intros [= <- <- <-].
  assert (table_ok sr) as Hokr by (apply table_ok_set; [exact Hok|exact Ht]).
  assert (table_ok sw) as Hokw by (apply table_ok_set; [exact Hokr|exact Ht]).
  split; [lia|]. split; [lia|]. split; [exact Hokw|]. exists pid, (fd t w' sr).
  assert (fd t w' sr = fd t w' s) as Efd.
  { unfold sr. rewrite fd_set by (exact Hok || lia). by rewrite decide_False by lia. }
  split; [lia|]. split; [rewrite Efd; apply Hn; lia|]. split.
  { change (fd t w' sw = write_end pid (fd t w' sr)). unfold sw. rewrite fd_set by (exact Hokr || lia). by rewrite decide_True by done. }
  match goal with |- zlen (pipes ?x) = _ /\ _ => set (s2 := x) end.
  assert (pipes s2 = ps.[pid <- ps.[pid] <| Pipe.write_refs := i8 (Pipe.write_refs ps.[pid] + 1) |>]) as ->.
  { change (pipes s2) with (Pipe.pipe_writer_attach pid ps). unfold Pipe.pipe_writer_attach, Pipe.pipe_valid.
    rewrite Hu. by rewrite (proj2 (Z.leb_le _ _)), (proj2 (Z.ltb_lt _ _)) by (unfold Pipe.PIPE_MAX; lia). }
  rewrite zlen_aset, aget_aset_eq by (rewrite Hl'; unfold Pipe.PIPE_MAX; lia). split; [done|]. split; [exact Hu|].
  cbn. by rewrite Hw.
Qed.

Lemma copy_fds t u s j : table_ok s -> 0 <= t < 32 -> 0 <= u < 32 -> t <> u -> 0 <= j ->
  let s' := vfs_copy_fds t u s in
  table_ok s' /\ fd u j s' = fd t j s /\ fd t j s' = fd t j s /\ pipes s' = pipes s /\ sys s' = sys s.
Proof.
  intros Hok Ht Hu Htu Hj. unfold vfs_copy_fds. rewrite (proj2 (good_task t) Ht), (proj2 (good_task u) Hu).
  pose proof (row_len t s Hok Ht) as Hrow. destruct Hok as [Hl Hr]. cbv zeta.
  match goal with |- table_ok ?x /\ _ => set (s' := x) end.
  assert (fd_table s' = (fd_table s).[u <- (fd_table s).[t]]) as E by done.
  unfold fd, table_ok. rewrite E, zlen_aset. unfold MAX_TASKS in Hl.
  rewrite aget_aset_eq, aget_aset_ne by lia. split_and!; try done. by apply Forall_insert.
Qed.

(** The last writer's detach sets the end-of-file mark. *)
Lemma drain_keeps fuel : forall p p' ws, Pipe.drain_waiters fuel p = (p', ws) -> Pipe.eof p' = Pipe.eof p.
Proof.
  induction fuel as [|fuel IH]; intros p p' ws; cbn [Pipe.drain_waiters]; [by intros [= <- _]|].
  destruct (Pipe.pipe_dequeue_waiter p) as [q w] eqn:Eq.
  assert (Pipe.eof q = Pipe.eof p) as Hq.
  { unfold Pipe.pipe_dequeue_waiter in Eq. case_if_in Eq; injection Eq; intros; subst; done. }
  case_if; [|intros [= <- _]; exact Hq].
  destruct (Pipe.drain_waiters fuel q) as [q' ws'] eqn:Ed. intros [= <- _]. rewrite <- Hq. by eapply IH.
Qed.

Lemma detach_last id ps (sy : Task.Sys) : zlen ps = Pipe.PIPE_MAX -> 0 <= id < 8 ->
  Pipe.used ps.[id] = 1 -> Pipe.write_refs ps.[id] = 1 ->
  Pipe.eof (fst (Pipe.pipe_writer_detach id ps sy)).[id] = 1.
Proof.
  intros Hl Hid Hu Hw. unfold Pipe.pipe_writer_detach, Pipe.pipe_valid. rewrite Hu.
  rewrite (proj2 (Z.leb_le _ _)), (proj2 (Z.ltb_lt _ _)) by (unfold Pipe.PIPE_MAX; lia).
  change (true && true && truth 1) with true. cbn [negb]. cbv zeta.
  assert (exists q, (if 0 <? Pipe.write_refs ps.[id] then ps.[id] <| Pipe.write_refs := Pipe.write_refs ps.[id] - 1 |> else ps.[id]) = q
                    /\ Pipe.write_refs q = 0) as (q & -> & Hq) by (eexists; split; [done|]; by rewrite Hw).
  rewrite Hq. change (0 =? 0) with true. cbv iota.
  destruct (Pipe.drain_waiters _ _) as [p ws] eqn:Ed. cbn [fst].
  rewrite aget_aset_eq by (rewrite Hl; unfold Pipe.PIPE_MAX; lia). by rewrite (drain_keeps _ _ _ _ Ed).
Qed.

End Vfs.

Arguments State : clear implicits.

End Vfs.

Import Vfs.

Section Claims.
Context {H : Type} `{!Allocator H} {D : Type} `{!BlockDevice D} {N : Type} `{!NetStack N}.
Context (fresh : Z -> Z -> list Z) (fresh_len : forall p n, 0 <= n -> length (fresh p n) = Z.to_nat n).
Implicit Types s : State H D N.


(** C31: after a write that kept the contents, seeking to a byte of the file and reading
    [n] bytes gives the bytes of the merged contents from there, as many as there are. *)
Theorem vfs_write_read_back fuel t j buf len s old v s' r v' o n :
  open_file t j s old v -> 0 <= offset (fd t j s) <= zlen old -> 0 <= len <= zlen buf ->
  zlen old < Fs.FS_MAX_BIN_DATA -> offset (fd t j s) + len < Fs.FS_MAX_BIN_DATA ->
  let f := fd t j s in
  let new := take (Z.to_nat (offset f)) old ++ take (Z.to_nat len) buf ++ drop (Z.to_nat (offset f + len)) old in
  vfs_write fresh fuel t j buf len s = Some (s', r) -> r <> -1 ->
  Fs.lookup_file (fs s') (name f) = Some v' -> Fs.v_data v' <> None ->
  0 <= o < zlen new -> 0 < n < 2 ^ 31 ->
  exists s'', vfs_read t j n (fst (vfs_seek t j o s'))
              = Some (s'', Ret (take (Z.to_nat n) (drop (Z.to_nat o) new)) (Z.min n (zlen new - o)))
    /\ offset (fd t j s'') = o + Z.min n (zlen new - o).
Proof.
  intros Hf Hoff Hl Hm He f new Hw Hr Hlk Hd Ho Hn.
  rewrite (write_is_file fresh fuel t j buf len s old v Hf) in Hw.
  destruct (write_file_spec fresh fresh_len t j buf len s old v Hf Hoff Hl Hm He) as (s1 & r1 & Ew & Hwf & _ & _ & Hres).
  fold f in Hw, Ew, Hres. rewrite Ew in Hw. injection Hw as -> ->.
  destruct Hres as [(? & _)|(_ & Htab & v1 & Hlk1 & Hv1)]; [done|]. rewrite Hlk in Hlk1. injection Hlk1 as <-.
  destruct Hv1 as [[Hs1 Hd1]|[_ ?]]; [|done]. fold new in Hs1, Hd1.
  assert (zlen new < 2 ^ 31) as Hnew.
  { unfold new, zlen in *. unfold Fs.FS_MAX_BIN_DATA in *. rewrite !length_app, !length_take, length_drop. lia. }
  pose proof (write_reopens fresh t j _ s s' old new v v' Hf Hwf Htab Hlk ltac:(lia) Hs1 Hd1) as Hopen.
  destruct (vfs_seek_open fresh t j o s' new v' Hopen ltac:(lia)) as (_ & Hopen' & Eo).
  set (s2 := fst (vfs_seek t j o s')) in *. rewrite (read_is_file t j n s2 new v' Hopen').
  rewrite (read_file_spec t j n s2 new v' Hopen') by (rewrite ?Eo; lia). rewrite Eo. eexists. split; [done|].
  pose proof Hopen' as [Ht2 Hj2 Htab2 _ _ _ _ _ _ _ _]. rewrite (fd_set fresh) by (exact Htab2 || lia). by rewrite decide_True.
Qed.

(** A write after a seek to a negative offset stores outside its buffer. *)
Theorem vfs_negative_seek_corrupts_memory fuel t j buf len off s old v :
  open_file t j s old v -> - 2 ^ 31 <= off < 0 -> 0 < len < 2 ^ 31 -> off + len < Fs.FS_MAX_BIN_DATA ->
  snd (kmalloc Fs.FS_MAX_BIN_DATA (Fs.heap (fs s))) <> 0 ->
  snd (vfs_seek t j off s) = 0 /\ vfs_write fresh fuel t j buf len (fst (vfs_seek t j off s)) = None.
Proof.
  intros Hf Hoff Hlen Hend Hm. destruct (seek_negative fresh t j off s old v Hf Hoff) as (Er & Hopen & Eo & Efs).
  split; [exact Er|]. set (s1 := fst (vfs_seek t j off s)) in *.
  rewrite (write_is_file fresh fuel t j buf len s1 old v Hopen). apply (write_outside fresh t j buf len s1 old v Hopen);
    rewrite ?Eo, ?Efs; done || lia.
Qed.

(** C32: a task makes a pipe and forks; when the child closes its write end, the pipe is
    at its end of file although the parent's write end is still open. *)
Theorem vfs_fork_gives_early_eof t u s s1 r w :
  table_ok s -> zlen (pipes s) = Pipe.PIPE_MAX -> (forall j, 0 <= j < 32 -> zlen (name (fd t j s)) = 32) ->
  bad_task t = false -> bad_task u = false -> t <> u -> vfs_pipe t s = (s1, Some (r, w)) ->
  let '(s2, c) := vfs_close u w (vfs_copy_fds t u s1) in
  let f := fd t w s2 in
  c = 0 /\ used f = 1 /\ type f = VFS_TYPE_PIPE /\ pipe_end f = 1 /\ Pipe.eof (pipes s2).[pipe_id f] = 1.
Proof.
  intros Hok Hl Hn Ht Hu Htu Ep.
  destruct (vfs_pipe_spec fresh t s s1 r w Hok Hl Hn Ht Ep) as (Hr & Hw & Hok1 & pid & g & Hpid & Hg & Efd & Hl1 & Hus & Hwr).
  apply good_task in Ht, Hu as Hu'. destruct (copy_fds t u s1 w Hok1 Ht Hu' Htu ltac:(lia)) as (Hok2 & Eu & Et & Eps & Esy).
  destruct (write_end_spec pid g ltac:(lia) Hg) as (Gi & Ge & Gu & Gt).
  set (s2 := vfs_copy_fds t u s1) in *. rewrite Efd in Eu, Et.
  unfold vfs_close. rewrite Hu. rewrite (proj2 (Z.ltb_ge _ _)), (proj2 (Z.leb_gt _ _)) by (unfold VFS_MAX_FD; lia).
  cbn [orb]. rewrite Eu, Gu, Gt, Ge, Gi. change (truth 1) with true.
  change (VFS_TYPE_PIPE =? VFS_TYPE_NET) with false. change (VFS_TYPE_PIPE =? VFS_TYPE_TTY) with false.
  change (VFS_TYPE_PIPE =? VFS_TYPE_PIPE) with true. change (1 =? 1) with true. cbn [negb andb]. cbv zeta iota.
  pose proof (detach_last pid (pipes s1) (sys s1) Hl1 Hpid Hus Hwr) as He.
  unfold detach_writer. rewrite Eps, Esy. destruct (Pipe.pipe_writer_detach pid (pipes s1) (sys s1)) as [ps sy].
  match goal with |- context [set_fd u w ?h ?x] => set (h0 := h); set (s3 := x) end.
  assert (fd t w (set_fd u w h0 s3) = write_end pid g) as ->.
  { rewrite (fd_set fresh) by (exact Hok2 || lia). rewrite decide_False by naive_solver. exact Et. }
  by rewrite Gi.
Qed.

(** A task that writes a buffer starting with a NUL byte to a pipe never returns. *)
Theorem vfs_write_nul_never_returns fuel t j buf len s :
  bad_task t = false -> bad_fd j = false -> 0 < len -> zlen (pipes s) = Pipe.PIPE_MAX ->
  used (fd t j s) <> 0 -> type (fd t j s) = VFS_TYPE_PIPE -> pipe_end (fd t j s) = 1 ->
  Pipe.pipe_valid (pipe_id (fd t j s)) (pipes s) = true ->
  vfs_write fresh fuel t j (0 :: buf) len s = None.
Proof.
  intros Ht Hj Hl Hp Hu Hty He Hv. unfold vfs_write. rewrite Ht, Hj, Hty, He. unfold truth. rewrite (proj2 (Z.eqb_neq _ _) Hu).
  cbn [negb Z.eqb VFS_TYPE_PIPE VFS_TYPE_STDOUT VFS_TYPE_DEV VFS_TYPE_FILE]. by apply write_chunks_nul.
Qed.

End Claims.

(** *** Examples: task 0 has the file [b] of [Fs.after_session] open for reading and writing *)

Section Witnesses.

#[local] Instance no_net : NetStack unit := {|
  net_present n := false; net_tcp_connect ip port n := (n, -1); net_tcp_close c n := n;
  net_tcp_send c bytes n := (n, -1); net_tcp_recv c len n := (n, [], -1);
  net_tcp_state c n := 0; dns_resolve h n := (n, None) |}.

Definition b_fd : VfsFd := mkVfsFd VFS_TYPE_FILE 1 VFS_O_RDWR 2 (98 :: replicate 31 0).
Definition above (f : Fs.State Heap.Heap.State Fs.ram) : State Heap.Heap.State Fs.ram unit := {|
  fd_table := (replicate 32 (replicate 32 inhabitant)).[0 <- (replicate 32 inhabitant).[3 <- b_fd]];
  tty_slots := replicate 4 inhabitant; proc_buf := replicate 2048 0; proc_buf_len := 0;
  fs := f; pipes := Pipe.pipes0; sys := Task.demo_sys; kbd := Keyboard.idle_kbd;
  log := Dmesg.mkLog [] 0 0; net := (); counters := {| free_frames := 0; ticks := 9; cpu_count := 1; smp_ap_started := 0 |};
  screen := [] |}.

(** The bytes of a view, as written there. *)
Definition view_is (size : Z) (bytes : list Z) (v : option Fs.View) : bool :=
  match v with
  | Some v => (Fs.v_size v =? size) && bool_decide (Fs.v_data v = Some bytes)
  | None => false
  end.

Definition b_bytes : bool :=
  match Fs.after_session with
  | Some f =>
      view_is 3 [1; 2; 3] (Fs.lookup_file f (name b_fd)) && negb (snd (kmalloc Fs.FS_MAX_BIN_DATA (Fs.heap f)) =? 0) &&
      match vfs_write Fs.zeros 0 0 3 [7; 8] 2 (above f) with
      | Some (s', r) => (r =? 2) && view_is 4 [1; 2; 7; 8] (Fs.lookup_file (fs s') (name b_fd))
      | None => false
      end
  | None => false
  end.

Lemma b_bytes_ok : b_bytes = true.
Proof. vm_compute. reflexivity. Qed.

Lemma view_is_spec size bytes v : view_is size bytes v = true ->
  exists w, v = Some w /\ Fs.v_size w = size /\ Fs.v_data w = Some bytes.
Proof.
  destruct v as [w|]; cbn [view_is]; [|done]. intros [Hs Hd]%andb_true_iff. apply Z.eqb_eq in Hs.
  apply bool_decide_eq_true in Hd. by exists w.
Qed.

Lemma above_table f : table_ok (above f).
Proof. split; [reflexivity|]. repeat (constructor; [reflexivity|]). constructor. Qed.

Lemma b_open : exists f v, Fs.after_session = Some f /\ open_file 0 3 (above f) [1; 2; 3] v /\
  snd (kmalloc Fs.FS_MAX_BIN_DATA (Fs.heap f)) <> 0 /\
  exists s' v', vfs_write Fs.zeros 0 0 3 [7; 8] 2 (above f) = Some (s', 2) /\
    Fs.lookup_file (fs s') (name b_fd) = Some v' /\ Fs.v_data v' <> None.
Proof.
  pose proof b_bytes_ok as Hok. unfold b_bytes in Hok.
  destruct Fs.after_session as [f|] eqn:Ef; [|discriminate Hok].
  apply andb_true_iff in Hok as [[Hv Hm]%andb_true_iff Hw]. apply view_is_spec in Hv as (v & Hl & Hsz & Hd).
  destruct (vfs_write _ _ _ _ _ _ _) as [[s' r]|] eqn:Ew; [|discriminate Hw].
  apply andb_true_iff in Hw as [Hr Hv']. apply Z.eqb_eq in Hr as ->. apply view_is_spec in Hv' as (v' & Hl' & _ & Hd').
  exists f, v. split; [done|]. split; [|split; [by destruct (Z.eqb_spec (snd (kmalloc Fs.FS_MAX_BIN_DATA (Fs.heap f))) 0)|]].
  - split; [lia|lia|exact (above_table f)| |discriminate|reflexivity|reflexivity|reflexivity|exact Hl|rewrite Hsz; lia|].
    + unfold Fs.after_session in Ef. destruct Fs.mounted as [f0|] eqn:E0; [|discriminate Ef]. cbn [mbind option_bind] in Ef.
      exact (Fs.run_wf_session f0 f E0 Ef).
    + exists [1; 2; 3]. split; [exact Hd|]. rewrite Hsz. by split.
  - exists s', v'. split; [exact Ew|]. split; [exact Hl'|]. rewrite Hd'. discriminate.
Qed.


Lemma vfs_write_read_back_witness :
  exists s' s'' : State Heap.Heap.State Fs.ram unit, vfs_read 0 3 10 (fst (vfs_seek 0 3 1 s')) = Some (s'', Ret [2; 7; 8] 3).
Proof.
  destruct b_open as (f & v & Ef & Hopen & _ & s' & v' & Hw & Hl & Hd).
  destruct (vfs_write_read_back Fs.zeros Fs.zeros_len 0 0 3 [7; 8] 2 (above f) [1; 2; 3] v s' 2 v' 1 10 Hopen)
    as (s'' & Hr & _); [change (0 <= 2 <= 3); lia|change (0 <= 2 <= 2); lia|reflexivity|reflexivity|exact Hw|discriminate|exact Hl|exact Hd|change (0 <= 1 < 4); lia|lia|].
  exists s', s''. exact Hr.
Defined.

Lemma vfs_negative_seek_corrupts_memory_witness :
  exists f, Fs.after_session = Some f /\ vfs_write Fs.zeros 0 0 3 [7; 8] 2 (fst (vfs_seek 0 3 (-4) (above f))) = None.
Proof.
  destruct b_open as (f & v & Ef & Hopen & Hm & _). exists f. split; [exact Ef|].
  apply (vfs_negative_seek_corrupts_memory Fs.zeros 0 0 3 [7; 8] 2 (-4) (above f) [1; 2; 3] v Hopen); [lia|lia|reflexivity|exact Hm].
Defined.

Definition bare : State Heap.Heap.State Fs.ram unit :=
  above {| Fs.files := Fs.any_table; Fs.bufs := ∅; Fs.heap := Heap.Heap.booted; Fs.disk := ∅ |}.
(** Task 0 with a pipe: descriptor 4 reads, 5 writes. *)
Definition piped : State Heap.Heap.State Fs.ram unit := fst (vfs_pipe 0 bare).

Lemma vfs_fork_gives_early_eof_witness :
  let '(s2, c) := vfs_close 1 5 (vfs_copy_fds 0 1 piped) in
  c = 0 /\ used (fd 0 5 s2) = 1 /\ Pipe.eof (pipes s2).[pipe_id (fd 0 5 s2)] = 1.
Proof.
  assert (forall j, 0 <= j < 32 -> zlen (name (fd 0 j bare)) = 32) as Hn.
  { intros j Hj. assert (Forall (fun f => zlen (name f) = 32) (fd_table bare).[0]) as Hall by (repeat (constructor; [reflexivity|]); constructor).
    rewrite Forall_aget in Hall. apply Hall. exact Hj. }
  pose proof (vfs_fork_gives_early_eof Fs.zeros 0 1 bare piped 4 5 (above_table _) eq_refl Hn eq_refl eq_refl ltac:(lia)
                ltac:(vm_compute; reflexivity)) as Hf.
  destruct (vfs_close _ _ _) as [s2 c]. destruct Hf as (Hc & Hu & _ & _ & He). by split_and!.
Defined.

Lemma vfs_write_nul_never_returns_witness : vfs_write Fs.zeros 1000 0 5 [0; 65] 2 piped = None.
Proof.
  apply (vfs_write_nul_never_returns Fs.zeros 1000 0 5 [65] 2 piped); [reflexivity|reflexivity|lia|reflexivity|discriminate| | |];
    by vm_compute.
Defined.

End Witnesses.
