(* ===== verification/WebSocket.v ===== *)
(** * websocket.c: the WebSocket client

    SHA-1, base64, the accept key, the frame codec and the client of [ws_connect]: the
    URL, the upgrade request, and the turns of its loop on the receive buffer and the
    line being typed.  A memory access outside a buffer, and a shift by the width of the
    word or more, is [None].  A [static] buffer that is filled before it is read is the
    list of what is in it; [padded] and [rxbuf], of which more than that is read, are
    arrays.  What is printed is a list of strings, without the colours. *)

From Stdlib Require Import ZArith Lia String Ascii.
From stdpp Require Import base numbers list tactics.
From S2P Require Import Prelude Sha256 Net.
Import Sha.

Module WS.

(** ** SHA-1 *)

Definition PADDED : Z := 128.

Definition rotl (x n : Z) : Z := Z.lor (u32 (Z.shiftl x n)) (Z.shiftr x (32 - n)).

(** The words [w] of a block. *)
Definition sha1_words (blk : list Z) : list Z :=
  let w := iter (fun t w => w.[t <- load_be32 blk t]) 0 16 (replicate 80 0) in
  iter (fun t w =>
      let v := Z.lxor (Z.lxor (Z.lxor w.[t - 3] w.[t - 8]) w.[t - 14]) w.[t - 16] in
      w.[t <- Z.lor (u32 (Z.shiftl v 1)) (Z.shiftr v 31)]) 16 64 w.

(** The five variables, [a] to [e] and [h0] to [h4]. *)
Record Regs5 := mkRegs5 { ra : Z; rb : Z; rc : Z; rd : Z; re : Z }.

Definition sha1_fk (t : Z) (r : Regs5) : Z * Z :=
  let '(mkRegs5 _ b c d _) := r in
  if t <? 20 then (Z.lor (Z.land b c) (Z.land (u32 (Z.lnot b)) d), 0x5A827999)
  else if t <? 40 then (Z.lxor (Z.lxor b c) d, 0x6ED9EBA1)
  else if t <? 60 then (Z.lor (Z.lor (Z.land b c) (Z.land b d)) (Z.land c d), 0x8F1BBCDC)
  else (Z.lxor (Z.lxor b c) d, 0xCA62C1D6).

Definition sha1_round (w : list Z) (t : Z) (r : Regs5) : Regs5 :=
  let '(f, k) := sha1_fk t r in
  let tmp := u32 (Z.lor (u32 (Z.shiftl (ra r) 5)) (Z.shiftr (ra r) 27) + f + re r + k + w.[t]) in
  mkRegs5 tmp (ra r) (Z.lor (u32 (Z.shiftl (rb r) 30)) (Z.shiftr (rb r) 2)) (rc r) (rd r).

Definition sha1_block (blk : list Z) (h : Regs5) : Regs5 :=
  let r := iter (sha1_round (sha1_words blk)) 0 80 h in
  mkRegs5 (u32 (ra h + ra r)) (u32 (rb h + rb r)) (u32 (rc h + rc r)) (u32 (rd h + rd r)) (u32 (re h + re r)).

(** [while ((padlen % 64) != 56) { ... }]; 64 rounds are enough. *)
Fixpoint pad_zeros (fuel : nat) (padded : list Z) (padlen : Z) : list Z * Z :=
  match fuel with
  | O => (padded, padlen)
  | S fuel =>
      if padlen mod 64 =? 56 then (padded, padlen)
      else if PADDED <=? padlen then (padded, padlen)
      else pad_zeros fuel padded.[padlen <- 0] (padlen + 1)
  end.

(** The eight bytes of the bit length, the last one first. *)
Definition put_bitlen (padded : list Z) (padlen bitlen : Z) : list Z :=
  fst (foldl (fun '(p, b) i => (p.[padlen + i <- Z.land b 0xFF], Z.shiftr b 8)) (padded, bitlen) [7; 6; 5; 4; 3; 2; 1; 0]).

Definition sha1_blocks (n : nat) (padded : list Z) (h : Regs5) : Regs5 :=
  iter (fun k h => sha1_block (drop (Z.to_nat (64 * k)) padded) h) 0 n h.

Definition sha1_iv : Regs5 := mkRegs5 0x67452301 0xEFCDAB89 0x98BADCFE 0x10325476 0xC3D2E1F0.

Definition sha1_out (h : Regs5) : list Z := concat (be32 <$> [ra h; rb h; rc h; rd h; re h]).

(** [padded] is the static buffer; the result has it as the call leaves it. *)
Definition sha1 (padded msg : list Z) (msglen : Z) : option (list Z * list Z) :=
  let padded := c_memcpy padded msg (Z.min msglen PADDED) in
  if PADDED <=? msglen then None
  else
    let padded := padded.[msglen <- 0x80] in
    let '(padded, padlen) := pad_zeros 64 padded (msglen + 1) in
    let '(padded, padlen) := if padlen + 8 <=? PADDED then (put_bitlen padded padlen (msglen * 8), padlen + 8)
                             else (padded, padlen) in
    Some (padded, sha1_out (sha1_blocks (Z.to_nat ((padlen + 63) / 64)) padded sha1_iv)).

(** ** Base64 and the accept key *)

Definition b64_tbl : list Z := Eval cbv in
  lit "ABCDEFGHIJKLMNOPQRSTUVWXYZabcdefghijklmnopqrstuvwxyz0123456789+/".

(** The loop body of [base64_encode] at [i]. *)
Definition b64_group (inp : list Z) (inlen i : Z) : list Z :=
  let v := Z.shiftl inp.[i] 16 in
  let v := if i + 1 <? inlen then Z.lor v (Z.shiftl inp.[i + 1] 8) else v in
  let v := if i + 2 <? inlen then Z.lor v inp.[i + 2] else v in
  [b64_tbl.[Z.land (Z.shiftr v 18) 0x3F]; b64_tbl.[Z.land (Z.shiftr v 12) 0x3F];
   if i + 1 <? inlen then b64_tbl.[Z.land (Z.shiftr v 6) 0x3F] else 61;
   if i + 2 <? inlen then b64_tbl.[Z.land v 0x3F] else 61].

Fixpoint b64_loop (n : nat) (inp : list Z) (inlen i : Z) : list Z :=
  match n with O => [] | S n => b64_group inp inlen i ++ b64_loop n inp inlen (i + 3) end.

(** The characters written, with the terminator. *)
Definition base64_encode (inp : list Z) (inlen : Z) : list Z :=
  b64_loop (Z.to_nat ((inlen + 2) / 3)) inp inlen 0 ++ [0].

Definition WS_GUID : list Z := Eval cbv in lit "258EAFA5-E914-47DA-95CA-C5AB0DC85B11".

Definition ws_concat (client_key : list Z) : list Z :=
  let c := take 100 (cstr client_key) in c ++ take (Z.to_nat (127 - zlen c)) WS_GUID.

Definition ws_accept_key (padded client_key : list Z) : option (list Z * list Z) :=
  let c := ws_concat client_key in
  '(padded, digest) ← sha1 padded c (zlen c); Some (padded, base64_encode digest 20).

(** ** Frames *)

Definition mask_from (mask : list Z) (j : Z) (payload : list Z) : list Z :=
  imap (fun k b => Z.lxor b mask.[(j + Z.of_nat k) mod 4]) payload.

(** The length bytes; shifting the 32-bit [plen] by 56 is undefined. *)
Definition frame_len (plen : Z) : option (list Z) :=
  if plen <=? 125 then Some [u8 (Z.lor 0x80 plen)]
  else if plen <=? 65535 then Some [0xFE; u8 (Z.shiftr plen 8); u8 (Z.land plen 0xFF)]
  else None.

(** The bytes written to the buffer and the result; no bytes when it is too small. *)
Definition ws_frame_encode (outmax opcode : Z) (payload : list Z) (plen : Z) (mask : list Z) : option (list Z * Z) :=
  if outmax <? i32 (u32 (plen + 10)) then Some ([], -1)
  else
    len ← frame_len plen;
    let out := [Z.lor 0x80 (Z.land opcode 0x0F)] ++ len ++ take 4 mask ++ mask_from mask 0 (take (Z.to_nat plen) payload) in
    if outmax <? zlen out then None else Some (out, zlen out).

(** The result 0, or the frame found: the result, the opcode, where the payload
    starts and its length. *)
Inductive Decoded := Incomplete | Frame (consumed opcode hdr plen : Z).

Definition ws_frame_decode (buf : list Z) (buflen : Z) : Decoded :=
  if buflen <? 2 then Incomplete
  else
    let opcode := Z.land buf.[0] 0x0F in
    let masked := truth (Z.land buf.[1] 0x80) in
    let plen := Z.land buf.[1] 0x7F in
    let finish := fun hdr plen =>
      let hdr := if masked then hdr + 4 else hdr in
      let total := i32 (hdr + i32 plen) in
      if buflen <? total then Incomplete else Frame total opcode hdr plen in
    if plen =? 126 then
      if buflen <? 4 then Incomplete else finish 4 (Z.lor (Z.shiftl buf.[2] 8) buf.[3])
    else if plen =? 127 then
      if buflen <? 10 then Incomplete
      else finish 10 (Z.lor (Z.lor (Z.lor (Z.shiftl buf.[6] 24) (Z.shiftl buf.[7] 16)) (Z.shiftl buf.[8] 8)) buf.[9])
    else finish 2 plen.

(** ** The client *)

Definition RXBUF : Z := 4096.
Definition FRBUF : Z := 2048.
Definition REQ : Z := 512.
Definition crlf : list Z := [13; 10].

Definition ws_rand (ticks seed : Z) : Z :=
  let seed := Z.lxor seed (u32 (Z.shiftl seed 13)) in
  let seed := Z.lxor seed (Z.shiftr seed 17) in
  let seed := Z.lxor seed (u32 (Z.shiftl seed 5)) in
  Z.lxor seed ticks.

(** Characters of [p] up to the first that stops the scan, at most [n]. *)
Fixpoint span (n : nat) (stop : Z -> bool) (p : list Z) : list Z * list Z :=
  match n, p with
  | S n, c :: p' => if stop c then ([], p) else let '(h, r) := span n stop p' in (c :: h, r)
  | _, _ => ([], p)
  end.

Fixpoint parse_port (p : list Z) (pv : Z) : Z * list Z :=
  match p with
  | c :: p' => if (48 <=? c) && (c <=? 57) then parse_port p' (u16 (pv * 10 + (c - 48))) else (pv, p)
  | [] => (pv, [])
  end.

Record Url := mkUrl { use_tls : bool; host : list Z; port : Z; path : list Z }.

Definition ws_parse_url (url : list Z) : option Url :=
  let c := cget url in
  let scheme :=
    if (c 0 =? 119) && (c 1 =? 115) && (c 2 =? 115) && (c 3 =? 58) then Some (true, drop 6 url)
    else if (c 0 =? 119) && (c 1 =? 115) && (c 2 =? 58) then Some (false, drop 5 url) else None in
  '(tls, p) ← scheme;
  let '(h, p) := span 127 (fun c => (c =? 0) || (c =? 47) || (c =? 58)) p in
  let '(pt, p) := if cget p 0 =? 58 then parse_port (drop 1 p) 0 else (if tls : bool then 443 else 80, p) in
  let pa := if cget p 0 =? 47 then fst (span 127 (fun c => c =? 0) p) else [47] in
  Some (mkUrl tls h pt pa).

(** The four bytes of a word, the high one first, as the keys and masks are cut. *)
Definition word_bytes (r : Z) : list Z := [u8 (Z.shiftr r 24); u8 (Z.shiftr r 16); u8 (Z.shiftr r 8); u8 r].

(** The sixteen random bytes of the key, and the seed after them. *)
Definition raw_key (ticks : Z -> Z) (seed : Z) : list Z * Z :=
  iter (fun ki (st : list Z * Z) => let r := ws_rand (ticks ki) st.2 in (st.1 ++ word_bytes r, r)) 0 4 ([], seed).

Definition ws_request (u : Url) (key_b64 : list Z) : list Z :=
  lit "GET " ++ path u ++ lit " HTTP/1.1" ++ crlf ++ lit "Host: " ++ host u ++ crlf ++ lit "Upgrade: websocket" ++ crlf ++
  lit "Connection: Upgrade" ++ crlf ++ lit "Sec-WebSocket-Key: " ++ cstr key_b64 ++ crlf ++
  lit "Sec-WebSocket-Version: 13" ++ crlf ++ crlf.

Section Client.
Context {N : Type} `{!NetStack N}.

(** The static variables and the locals of the loop. *)
Record Ws := mkWs {
  ws_rand_seed : Z; padded : list Z; resp : list Z; rxbuf : list Z; rx_accum : Z; linebuf : list Z;
  screen : list (list Z); net : N }.
#[global] Instance settable_Ws : Settable Ws := {| rebuild s :=
  mkWs (ws_rand_seed s) (padded s) (resp s) (rxbuf s) (rx_accum s) (linebuf s) (screen s) (net s) |}.

Definition print (strs : list (list Z)) (s : Ws) : Ws := s <| screen := screen s ++ strs |>.

Definition send (conn : Z) (bytes : list Z) (s : Ws) : Ws := s <| net := fst (net_tcp_send conn bytes (net s)) |>.
Definition close (conn : Z) (s : Ws) : Ws := s <| net := net_tcp_close conn (net s) |>.

(** What is done with a decoded frame whose payload starts at [off]; the flag tells
    that the server closed the connection. *)
Definition on_frame (ticks conn opcode off plen : Z) (s : Ws) : option (Ws * bool) :=
  if (opcode =? 1) || (opcode =? 0) then
    let n := if plen <? 511 then plen else 511 in
    if RXBUF <? off + n then None
    else Some (print [lit "<< "; cstr (take (Z.to_nat n) (drop (Z.to_nat off) (rxbuf s))); nl] s, false)
  else if opcode =? 8 then
    Some (close conn (print [lit "ws: server menutup koneksi" ++ nl] s), true)
  else if opcode =? 9 then
    let r := ws_rand ticks (ws_rand_seed s) in
    let s := s <| ws_rand_seed := r |> in
    '(pong, pfl) ← ws_frame_encode 32 0xA (drop (Z.to_nat off) (rxbuf s)) plen (word_bytes r);
    Some (if 0 <? pfl then send conn pong s else s, false)
  else Some (s, false).

(** [while (offset < rx_accum)]: every round takes a byte at least, so [rx_accum] rounds
    are enough.  [ticks] gives the tick count at each offset. *)
Fixpoint ws_frames (fuel : nat) (ticks : Z -> Z) (conn offset : Z) (s : Ws) : option (Z * Ws * bool) :=
  match fuel with
  | O => Some (offset, s, false)
  | S fuel =>
      if offset <? rx_accum s then
        match ws_frame_decode (drop (Z.to_nat offset) (rxbuf s)) (rx_accum s - offset) with
        | Incomplete => Some (offset, s, false)
        | Frame consumed opcode hdr plen =>
            if consumed <=? 0 then Some (offset, s, false)
            else
              '(s, closed) ← on_frame (ticks offset) conn opcode (offset + hdr) plen s;
              if closed : bool then Some (offset, s, true) else ws_frames fuel ticks conn (offset + consumed) s
        end
      else Some (offset, s, false)
  end.

(** The bytes received are appended, the complete frames handled, the rest moved to
    the front. *)
Definition ws_feed (ticks : Z -> Z) (conn : Z) (bytes : list Z) (got : Z) (s : Ws) : option (Ws * bool) :=
  let s := if 0 <? got then
             let space := RXBUF - rx_accum s - 1 in
             let got := if space <? got then space else got in
             s <| rxbuf := put_at (rxbuf s) (Z.to_nat (rx_accum s)) bytes (Z.to_nat got) |> <| rx_accum := rx_accum s + got |>
           else s in
  '(offset, s, closed) ← ws_frames (Z.to_nat (rx_accum s)) ticks conn 0 s;
  if closed : bool then Some (s, true)
  else if 0 <? offset then
    let rest := rx_accum s - offset in
    Some (s <| rxbuf := take (Z.to_nat rest) (drop (Z.to_nat offset) (rxbuf s)) ++ drop (Z.to_nat rest) (rxbuf s) |>
            <| rx_accum := rest |>, false)
  else Some (s, false).

(** A typed character; the flag tells that the loop is left. *)
Definition ws_key (ticks conn c : Z) (s : Ws) : option (Ws * bool) :=
  if c <=? 0 then Some (s, false)
  else if (c =? 10) || (c =? 13) then
    if bool_decide (linebuf s = [92; 113]) then
      '(frame, n) ← ws_frame_encode 10 8 [] 0 [0x12; 0x34; 0x56; 0x78];
      Some (if 0 <? n then send conn frame s else s, true)
    else
      s ← (if 0 <? zlen (linebuf s) then
             let r := ws_rand ticks (ws_rand_seed s) in
             let s := s <| ws_rand_seed := r |> in
             '(frame, n) ← ws_frame_encode 512 1 (linebuf s) (zlen (linebuf s)) (word_bytes r);
             let s := if 0 <? n then send conn frame s else s in
             Some (print [lit ">> "; linebuf s; nl] s)
           else Some s);
      Some (s <| linebuf := [] |>, false)
  else if (c =? 8) && (0 <? zlen (linebuf s)) then Some (s <| linebuf := take (length (linebuf s) - 1) (linebuf s) |>, false)
  else if (32 <=? c) && (zlen (linebuf s) <? 255) then
    Some (print [[c]] (s <| linebuf := linebuf s ++ [c] |>), false)
  else Some (s, false).

(** How a turn of the loop ends: the next turn, [break], or [return]. *)
Inductive Turn := Next | Break | Return.

(** One turn, with the character [c] read from the keyboard (-1 for none); [ticks]
    gives the tick count when that is handled, at -1, and when a frame is. *)
Definition ws_turn (ticks : Z -> Z) (conn c : Z) (s : Ws) : option (Ws * Turn) :=
  '(s, quit) ← ws_key (ticks (-1)) conn c s;
  if quit : bool then Some (s, Break)
  else
    let '(n, bytes, got) := net_tcp_recv conn (FRBUF - 1) (net s) in
    '(s, closed) ← ws_feed ticks conn bytes got (s <| net := n |>);
    if closed : bool then Some (s, Return)
    else if net_tcp_state conn (net s) =? 0 then Some (print [lit "ws: koneksi terputus" ++ nl] s, Break)
    else Some (s, Next).

(** The loop on the clocks and the characters of its turns, and what follows it. *)
Fixpoint ws_loop (conn : Z) (cs : list ((Z -> Z) * Z)) (s : Ws) : option (Ws * Turn) :=
  match cs with
  | [] => Some (s, Next)
  | (ticks, c) :: cs =>
      '(s, t) ← ws_turn ticks conn c s;
      match t with
      | Next => ws_loop conn cs s
      | Break => Some (print [lit "ws: selesai" ++ nl] (close conn s), Break)
      | Return => Some (s, Return)
      end
  end.

(** The upgrade on an open connection; the flag tells that the loop is entered. *)
Definition ws_upgrade (ticks : Z -> Z) (conn : Z) (u : Url) (s : Ws) : option (Ws * bool) :=
  let '(k, seed) := raw_key ticks (ws_rand_seed s) in
  let s := s <| ws_rand_seed := seed |> in
  let key_b64 := base64_encode k 16 in
  let req := ws_request u key_b64 in
  if REQ <? zlen req then None
  else if use_tls u then
    Some (close conn (print [lit "ws: wss:// belum didukung penuh, coba port plaintext" ++ nl] s), false)
  else
    let s := send conn req s in
    let '(n, bytes, rlen) := net_tcp_recv conn 1023 (net s) in
    let s := s <| net := n |> in
    if rlen <=? 0 then Some (close conn (print [lit "ws: tidak ada respon" ++ nl] s), false)
    else
      let s := s <| resp := (c_memcpy (resp s) bytes rlen).[rlen <- 0] |> in
      if negb (((resp s).[9] =? 49) && ((resp s).[10] =? 48) && ((resp s).[11] =? 49)) then
        Some (close conn (print [lit "ws: server menolak upgrade:" ++ nl; cstr (resp s)] s), false)
      else
        '(p, _) ← ws_accept_key (padded s) key_b64;
        Some (print [lit "ws: tersambung ke "; host u; path u; nl;
                     lit "ws: ketik pesan lalu Enter untuk kirim, '\q' untuk keluar" ++ nl] (s <| padded := p |>), true).

(** [ticks] is the clock while the key is made, [cs] are the turns of the loop. *)
Definition ws_connect (ticks : Z -> Z) (cs : list ((Z -> Z) * Z)) (url : list Z) (s : Ws) : option Ws :=
  match ws_parse_url url with
  | None => Some (print [lit "ws: URL harus diawali ws:// atau wss://" ++ nl] s)
  | Some u =>
      let s := print [lit "ws: resolve "; host u; lit "..." ++ nl] s in
      let '(n, ip) := dns_resolve (host u) (net s) in
      let s := s <| net := n |> in
      match ip with
      | None => Some (print [lit "ws: gagal resolve hostname" ++ nl] s)
      | Some ip =>
          let '(n, conn) := net_tcp_connect ip (port u) (net s) in
          let s := s <| net := n |> in
          if conn <? 0 then Some (print [lit "ws: gagal connect" ++ nl] s)
          else
            '(s, entered) ← ws_upgrade ticks conn u s;
            if entered : bool then fst <$> ws_loop conn cs (s <| rx_accum := 0 |> <| linebuf := [] |>)
            else Some s
      end
  end.

End Client.

Arguments Ws : clear implicits.

(** ** Reference: FIPS 180-4 SHA-1 on whole messages *)

Definition ROTL (n x : Z) : Z := Z.lor (u32 (Z.shiftl x n)) (Z.shiftr x (32 - n)).
Definition Ch (x y z : Z) : Z := Z.lxor (Z.land x y) (Z.land (u32 (Z.lnot x)) z).
Definition Parity (x y z : Z) : Z := Z.lxor (Z.lxor x y) z.
Definition Maj (x y z : Z) : Z := Z.lxor (Z.lxor (Z.land x y) (Z.land x z)) (Z.land y z).

(** The function and the constant of round [t]. *)
Definition f_t (t : Z) : Z -> Z -> Z -> Z :=
  if t <? 20 then Ch else if t <? 40 then Parity else if t <? 60 then Maj else Parity.
Definition K_t (t : Z) : Z :=
  if t <? 20 then 0x5A827999 else if t <? 40 then 0x6ED9EBA1 else if t <? 60 then 0x8F1BBCDC else 0xCA62C1D6.

(** [n] more words of the schedule. *)
Fixpoint expand (n : nat) (W : list Z) : list Z :=
  match n with
  | O => W
  | S n =>
      let t := zlen W in
      expand n (W ++ [ROTL 1 (Z.lxor (Z.lxor (Z.lxor W.[t - 3] W.[t - 8]) W.[t - 14]) W.[t - 16])])
  end.
Definition schedule1 (M : list Z) : list Z := expand 64 (load_be32 M <$> seqZ 0 16).

Definition ref_round (W : list Z) (t : Z) (r : Regs5) : Regs5 :=
  let '(mkRegs5 a b c d e) := r in
  mkRegs5 (u32 (ROTL 5 a + f_t t b c d + e + K_t t + W.[t])) a (ROTL 30 b) c d.

Definition ref_block (M : list Z) (h : Regs5) : Regs5 :=
  let r := foldl (fun r t => ref_round (schedule1 M) t r) h (seqZ 0 80) in
  mkRegs5 (u32 (ra r + ra h)) (u32 (rb r + rb h)) (u32 (rc r + rc h)) (u32 (rd r + rd h)) (u32 (re r + re h)).

Fixpoint absorb1 (n : nat) (h : Regs5) (m : list Z) : Regs5 :=
  match n with O => h | S n => absorb1 n (ref_block (take 64 m) h) (drop 64 m) end.

Definition sha1_ref (m : list Z) : list Z :=
  let p := fips_pad m in sha1_out (absorb1 (length p / 64) sha1_iv p).

(** ** SHA-1 is the reference *)

Lemma lor_xor_disjoint x y : Z.land x y = 0 -> Z.lor x y = Z.lxor x y.
Proof. intros Hd. symmetry. apply Z.lxor_lor. exact Hd. Qed.

Lemma ch_or x y z : Z.lor (Z.land x y) (Z.land (u32 (Z.lnot x)) z) = Ch x y z.
Proof.
  apply lor_xor_disjoint. unfold u32. rewrite <- Z.land_ones by lia. apply Z.bits_inj'. intros i Hi.
  rewrite !Z.land_spec, Z.lnot_spec, Z.testbit_0_l by lia. by destruct (Z.testbit x i), (Z.testbit y i), (Z.testbit z i), (Z.testbit (Z.ones 32) i).
Qed.

Lemma maj_or x y z : Z.lor (Z.lor (Z.land x y) (Z.land x z)) (Z.land y z) = Maj x y z.
Proof.
  apply Z.bits_inj'. intros i Hi. unfold Maj. rewrite !Z.lor_spec, !Z.lxor_spec, !Z.land_spec.
  by destruct (Z.testbit x i), (Z.testbit y i), (Z.testbit z i).
Qed.

(** Filling an array with words that depend on the earlier ones. *)
Lemma fill_expand (g : Z -> list Z -> Z) (h : list Z -> Z) k : forall pre,
  (forall w rest, zlen pre <= zlen w -> g (zlen w) (w ++ rest) = h w) ->
  iter (fun t w => w.[t <- g t w]) (zlen pre) k (pre ++ replicate k 0)
  = Nat.iter k (fun w => w ++ [h w]) pre.
Proof.
  induction k as [|k IH]; intros pre Hg; cbn [iter replicate]; [by rewrite app_nil_r|].
  rewrite Hg by lia. rewrite Nat.iter_succ_r.
  assert ((pre ++ 0 :: replicate k 0).[zlen pre <- h pre] = (pre ++ [h pre]) ++ replicate k 0) as ->.
  { unfold aset, zlen. rewrite Nat2Z.id, insert_app_r_alt by lia. rewrite Nat.sub_diag. by rewrite <- app_assoc. }
  assert (zlen pre + 1 = zlen (pre ++ [h pre])) as -> by (unfold zlen; rewrite length_app; simpl; lia).
  apply IH. intros w rest Hw. apply Hg. unfold zlen in *. rewrite length_app in Hw. simpl in Hw. lia.
Qed.

Lemma expand_iter n : forall W, 
  expand n W = Nat.iter n (fun W => W ++ [ROTL 1 (Z.lxor (Z.lxor (Z.lxor W.[zlen W - 3] W.[zlen W - 8]) W.[zlen W - 14]) W.[zlen W - 16])]) W.
Proof. induction n as [|n IH]; intros W; cbn [expand]; [done|]. by rewrite IH, Nat.iter_succ_r. Qed.

Lemma words_schedule blk : sha1_words blk = schedule1 blk.
Proof.
  unfold sha1_words, schedule1. change (load_be32 blk <$> seqZ 0 16) with
    (iter (fun t w => w.[t <- load_be32 blk t]) 0 16 (replicate 16 0)).
  set (w16 := iter _ 0 16 (replicate 16 0)).
  assert (iter (fun t w => w.[t <- load_be32 blk t]) 0 16 (replicate 80 0) = w16 ++ replicate 64 0) as -> by reflexivity.
  assert (zlen w16 = 16) as Hl by reflexivity.
  rewrite expand_iter. change 16 with (zlen w16) at 1.
  rewrite (fill_expand _ (fun W => ROTL 1 (Z.lxor (Z.lxor (Z.lxor W.[zlen W - 3] W.[zlen W - 8]) W.[zlen W - 14]) W.[zlen W - 16])) 64 w16);
    [reflexivity|].
  intros w rest Hw. rewrite Hl in Hw. unfold ROTL. change (32 - 1) with 31.
  rewrite <- !(aget_take_lt (w ++ rest) _ (length w)) by (unfold zlen in *; lia). by rewrite !take_app_length.
Qed.

Lemma round_ref W t r : sha1_round W t r = ref_round W t r.
Proof.
  destruct r as [a b c d e]. unfold sha1_round, sha1_fk, ref_round, f_t, K_t, ROTL. cbn [ra rb rc rd re].
  change (32 - 5) with 27. change (32 - 30) with 2. rewrite ch_or, maj_or.
  repeat case_if; reflexivity.
Qed.

Lemma iter_foldl {A} (f : Z -> A -> A) n : forall lo s, iter f lo n s = foldl (fun s t => f t s) s (seqZ lo (Z.of_nat n)).
Proof.
  induction n as [|n IH]; intros lo s; [done|]. rewrite seqZ_cons by lia. cbn [iter foldl].
  rewrite IH. do 2 f_equal; lia.
Qed.

Lemma block_ref blk h : sha1_block blk h = ref_block blk h.
Proof.
  unfold sha1_block, ref_block. rewrite words_schedule.
  rewrite (iter_ext _ (ref_round (schedule1 blk))) by (intros; apply round_ref).
  rewrite iter_foldl. change (Z.of_nat 80) with 80. cbv zeta. f_equal; f_equal; apply Z.add_comm.
Qed.

Lemma block_take m h : ref_block m h = ref_block (take 64 m) h.
Proof.
  unfold ref_block. assert (schedule1 m = schedule1 (take 64 m)) as ->; [|done].
  unfold schedule1. f_equal. apply list_fmap_ext. intros i x Hx. apply lookup_seqZ in Hx as [-> Hi].
  unfold load_be32. by rewrite !(aget_take_lt m) by lia.
Qed.

Lemma absorb1_take n : forall h m, absorb1 n h m = absorb1 n h (take (64 * n) m).
Proof.
  induction n as [|n IH]; intros h m; cbn [absorb1]; [done|].
  rewrite take_take, Nat.min_l by lia. rewrite IH, (IH _ (drop 64 _)). f_equal.
  rewrite skipn_firstn_comm, take_take. f_equal. lia.
Qed.

Lemma blocks_absorb n : forall k p h,
  iter (fun k h => sha1_block (drop (Z.to_nat (64 * k)) p) h) (Z.of_nat k) n h = absorb1 n h (drop (64 * k) p).
Proof.
  induction n as [|n IH]; intros k p h; cbn [iter absorb1]; [done|].
  rewrite block_ref, block_take. replace (Z.of_nat k + 1) with (Z.of_nat (S k)) by lia. rewrite IH, drop_drop.
  f_equal; [do 2 f_equal; f_equal; lia|]. f_equal. lia.
Qed.

Lemma sha1_blocks_ref n p h : sha1_blocks n p h = absorb1 n h p.
Proof. exact (blocks_absorb n 0 p h). Qed.

Lemma pad_zeros_spec fuel : forall k p padlen,
  (k < fuel)%nat -> 0 <= padlen -> zlen p = PADDED -> padlen + Z.of_nat k <= 120 ->
  (padlen + Z.of_nat k) mod 64 = 56 -> (forall j, 0 <= j < Z.of_nat k -> (padlen + j) mod 64 <> 56) ->
  exists p', pad_zeros fuel p padlen = (p', padlen + Z.of_nat k) /\ zlen p' = PADDED /\
    take (Z.to_nat (padlen + Z.of_nat k)) p' = take (Z.to_nat padlen) p ++ replicate k 0.
Proof.
  induction fuel as [|fuel IH]; intros k p padlen Hk H0 Hp Hle Hm Hlt; [lia|]. cbn [pad_zeros].
  destruct k as [|k].
  { rewrite Z.add_0_r in *. rewrite Hm. exists p. split_and!; [done|done|]. by rewrite app_nil_r. }
  rewrite (proj2 (Z.eqb_neq _ _)) by (specialize (Hlt 0 ltac:(lia)); by rewrite Z.add_0_r in Hlt).
  unfold PADDED in *. rewrite (proj2 (Z.leb_gt _ _)) by lia.
  destruct (IH k p.[padlen <- 0] (padlen + 1)) as (p' & E & Hp' & Ht); [lia|lia|by rewrite zlen_aset|lia| | |].
  - by replace (padlen + 1 + Z.of_nat k) with (padlen + Z.of_nat (S k)) by lia.
  - intros j Hj. specialize (Hlt (j + 1) ltac:(lia)). by replace (padlen + 1 + j) with (padlen + (j + 1)) by lia.
  - replace (padlen + 1 + Z.of_nat k) with (padlen + Z.of_nat (S k)) in * by lia. exists p'. split_and!; [done|done|].
    rewrite Ht. cbn [replicate]. replace (Z.to_nat (padlen + 1)) with (S (Z.to_nat padlen)) by lia.
    unfold aset, zlen in *. erewrite take_S_r by (apply list_lookup_insert_eq; lia).
    rewrite take_insert_ge by lia. by rewrite <- app_assoc.
Qed.

Lemma put_bitlen_spec p padlen bitlen : zlen p = PADDED -> 0 <= padlen <= 120 ->
  zlen (put_bitlen p padlen bitlen) = PADDED /\
  take (Z.to_nat (padlen + 8)) (put_bitlen p padlen bitlen) = take (Z.to_nat padlen) p ++ be64 bitlen.
Proof.
  intros Hp Hl. unfold put_bitlen. cbn [foldl fst]. rewrite !Z.shiftr_shiftr by lia. cbn [Z.add Pos.add Pos.succ].
  split; [by rewrite !zlen_aset|]. apply (aget_ext (A:=Z)).
  - unfold zlen, PADDED in *. rewrite !length_app, !length_take, !length_aset. simpl. lia.
  - intros i Hi. unfold zlen, PADDED in *. rewrite length_take, !length_aset in Hi.
    rewrite aget_take_lt by lia.
    rewrite !aget_aset by (rewrite ?zlen_aset; unfold zlen; lia).
    assert (forall x, Z.land x 255 = u8 x) as Hu by (intros x; change 255 with (Z.ones 8); by rewrite Z.land_ones by lia).
    rewrite !Hu.
    destruct (decide (i < padlen)) as [Hlt|Hge].
    + repeat (rewrite decide_False by lia). unfold aget. rewrite lookup_total_app_l by (rewrite length_take; lia).
      by rewrite lookup_total_take_lt by lia.
    + assert (exists k, i = padlen + k /\ 0 <= k < 8) as (k & -> & Hk) by (exists (i - padlen); lia).
      unfold aget. rewrite lookup_total_app_r by (rewrite length_take; lia). rewrite length_take.
      replace (Z.to_nat (padlen + k) - Z.to_nat padlen `min` length p)%nat with (Z.to_nat k) by lia.
      assert (k = 0 \/ k = 1 \/ k = 2 \/ k = 3 \/ k = 4 \/ k = 5 \/ k = 6 \/ k = 7) as Hc by lia.
      destruct Hc as [->|[->|[->|[->|[->|[->|[->| ->]]]]]]];
        repeat (rewrite decide_False by lia); rewrite decide_True by lia; reflexivity.
Qed.

(** The padding fills 64 or 128 bytes. *)
Lemma sha1_correct padded msg msglen :
  zlen padded = PADDED -> 0 <= msglen <= 119 -> msglen <= zlen msg ->
  exists padded', sha1 padded msg msglen = Some (padded', sha1_ref (take (Z.to_nat msglen) msg)) /\ zlen padded' = PADDED.
Proof.
  intros Hp Hm Hl. set (m := take (Z.to_nat msglen) msg).
  assert (zlen m = msglen) as Hzm by (unfold m, zlen in *; rewrite length_take; lia).
  unfold sha1, PADDED in *. rewrite (Z.min_l msglen) by lia. rewrite (proj2 (Z.leb_gt _ _)) by lia.
  set (p0 := (c_memcpy padded msg msglen).[msglen <- 0x80]).
  assert (zlen (c_memcpy padded msg msglen) = 128) as Hp1 by (unfold zlen at 1; rewrite length_c_memcpy by lia; exact Hp).
  assert (zlen p0 = 128) as Hp0 by (unfold p0; by rewrite zlen_aset).
  assert (take (Z.to_nat (msglen + 1)) p0 = m ++ [0x80]) as Ht0.
  { unfold p0, aset. replace (Z.to_nat (msglen + 1)) with (S (Z.to_nat msglen)) by lia.
    unfold zlen in Hp1. erewrite take_S_r by (apply list_lookup_insert_eq; lia). rewrite take_insert_ge by lia. f_equal.
    unfold c_memcpy, m. rewrite take_app_le by (rewrite length_take; unfold zlen in Hl; lia). by rewrite take_take, Nat.min_id. }
  assert (exists k, 0 <= Z.of_nat k < 64 /\ Z.of_nat k = (55 - msglen) mod 64 /\ (msglen + 1 + Z.of_nat k = 56 \/ msglen + 1 + Z.of_nat k = 120))
    as (k & Hk & Ek & Hc).
  { destruct (Z.le_gt_cases msglen 55).
    - exists (Z.to_nat (55 - msglen)). rewrite Z2Nat.id, Z.mod_small by lia. lia.
    - exists (Z.to_nat (119 - msglen)). rewrite Z2Nat.id by lia. split; [lia|]. split; [|lia].
      apply (Z.mod_unique _ _ (-1)); lia. }
  destruct (pad_zeros_spec 64 k p0 (msglen + 1)) as (p2 & -> & Hp2 & Ht2); [lia|lia|exact Hp0|lia| | |].
  { by destruct Hc as [-> | ->]. }
  { intros j Hj Hj'. pose proof (Z.div_mod (msglen + 1 + j) 64 ltac:(lia)). lia. }
  rewrite (proj2 (Z.leb_le _ _)) by lia.
  destruct (put_bitlen_spec p2 (msglen + 1 + Z.of_nat k) (msglen * 8) Hp2 ltac:(lia)) as [Hp3 Ht3].
  eexists. split; [|exact Hp3]. do 2 f_equal. unfold sha1_ref.
  assert (take (Z.to_nat (msglen + 1 + Z.of_nat k + 8)) (put_bitlen p2 (msglen + 1 + Z.of_nat k) (msglen * 8)) = fips_pad m) as E.
  { rewrite Ht3, Ht2, Ht0. unfold fips_pad. rewrite Hzm, <- Ek, Nat2Z.id, (Z.mul_comm 8), <- !app_assoc. done. }
  assert (length (fips_pad m) = Z.to_nat (msglen + 1 + Z.of_nat k + 8)) as El.
  { rewrite <- E. unfold zlen, PADDED in Hp3. rewrite length_take. lia. }
  f_equal. rewrite sha1_blocks_ref, El.
  destruct Hc as [Hc|Hc]; rewrite Hc in *; [change (Z.to_nat ((56 + 8 + 63) / 64)) with 1%nat|change (Z.to_nat ((120 + 8 + 63) / 64)) with 2%nat];
    rewrite absorb1_take, <- E; reflexivity.
Qed.

(** The test vector of FIPS 180-4. *)
Example sha1_abc : snd <$> sha1 (replicate 128 7) [97; 98; 99] 3 =
  Some [0xA9; 0x99; 0x3E; 0x36; 0x47; 0x06; 0x81; 0x6A; 0xBA; 0x3E; 0x25; 0x71; 0x78; 0x50; 0xC2; 0x6C; 0x9C; 0xD0; 0xD8; 0x9D].
Proof. vm_compute. reflexivity. Qed.

(** ** Base64 *)

(** Reference: the decoder of RFC 4648, which takes canonical encodings only. *)
Definition b64_val (c : Z) : option Z :=
  if (65 <=? c) && (c <=? 90) then Some (c - 65)
  else if (97 <=? c) && (c <=? 122) then Some (c - 71)
  else if (48 <=? c) && (c <=? 57) then Some (c + 4)
  else if c =? 43 then Some 62 else if c =? 47 then Some 63 else None.

Fixpoint b64_decode (s : list Z) : option (list Z) :=
  match s with
  | [] => Some []
  | c0 :: c1 :: c2 :: c3 :: s =>
      x0 ← b64_val c0; x1 ← b64_val c1;
      if (c2 =? 61) && (c3 =? 61) then
        if bool_decide (s = []) && (x1 mod 16 =? 0) then Some [4 * x0 + x1 / 16] else None
      else
        x2 ← b64_val c2;
        if c3 =? 61 then
          if bool_decide (s = []) && (x2 mod 4 =? 0) then Some [4 * x0 + x1 / 16; 16 * (x1 mod 16) + x2 / 4] else None
        else
          x3 ← b64_val c3; rest ← b64_decode s;
          Some (4 * x0 + x1 / 16 :: 16 * (x1 mod 16) + x2 / 4 :: 64 * (x2 mod 4) + x3 :: rest)
  | _ => None
  end.

Lemma b64_char x : 0 <= x < 64 -> b64_val b64_tbl.[x] = Some x /\ b64_tbl.[x] <> 61 /\ b64_tbl.[x] <> 0.
Proof.
  intros Hx. assert (forallb (fun x => bool_decide (b64_val b64_tbl.[x] = Some x /\ b64_tbl.[x] <> 61 /\ b64_tbl.[x] <> 0)) (seqZ 0 64) = true)
    as Hall by (vm_compute; reflexivity).
  rewrite forallb_forall in Hall. specialize (Hall x). rewrite bool_decide_eq_true in Hall. apply Hall.
  apply list_elem_of_In, elem_of_seqZ. lia.
Qed.

(** The four sextets of three bytes. *)
Lemma sextets a b c v : 0 <= a < 256 -> 0 <= b < 256 -> 0 <= c < 256 -> v = 65536 * a + 256 * b + c ->
  Z.land (Z.shiftr v 18) 0x3F = a / 4 /\ Z.land (Z.shiftr v 12) 0x3F = 16 * (a mod 4) + b / 16 /\
  Z.land (Z.shiftr v 6) 0x3F = 4 * (b mod 16) + c / 64 /\ Z.land v 0x3F = c mod 64.
Proof.
  intros Ha Hb Hc ->. change 0x3F with (Z.ones 6). rewrite !Z.land_ones, !Z.shiftr_div_pow2 by lia.
  change (2 ^ 18) with 262144. change (2 ^ 12) with 4096. change (2 ^ 6) with 64.
  split_and!; Z.to_euclidean_division_equations; lia.
Qed.

Lemma join3 a b c : 0 <= a < 256 -> 0 <= b < 256 -> 0 <= c < 256 ->
  Z.lor (Z.lor (Z.shiftl a 16) (Z.shiftl b 8)) c = 65536 * a + 256 * b + c.
Proof.
  intros. rewrite <- Z.lor_assoc, (Z.lor_comm (Z.shiftl b 8)), (lor_shiftl c b 8) by lia.
  rewrite Z.lor_comm, lor_shiftl by lia. lia.
Qed.

Lemma aget_drop3 (a b c : Z) r i : 0 <= i -> (a :: b :: c :: r).[i + 3] = r.[i].
Proof. intros. unfold aget. by replace (Z.to_nat (i + 3)) with (S (S (S (Z.to_nat i)))) by lia. Qed.

Lemma b64_loop_shift a b c r len n : forall i, 0 <= i ->
  b64_loop n (a :: b :: c :: r) len (i + 3) = b64_loop n r (len - 3) i.
Proof.
  induction n as [|n IH]; intros i Hi; cbn [b64_loop]; [done|]. rewrite IH by lia. f_equal. unfold b64_group.
  replace (i + 3 + 1) with (i + 1 + 3) by lia. replace (i + 3 + 2) with (i + 2 + 3) by lia. rewrite !aget_drop3 by lia.
  assert (forall x, (x + 3 <? len) = (x <? len - 3)) as Hx by (intros x; destruct (Z.ltb_spec (x + 3) len), (Z.ltb_spec x (len - 3)); lia).
  by rewrite !Hx.
Qed.

(** One group of the encoder, with its padding. *)
Lemma group_chars l a b c : byte a -> byte b -> byte c ->
  l = [a] /\ b = 0 /\ c = 0 \/ l = [a; b] /\ c = 0 \/ (exists r, l = a :: b :: c :: r) ->
  b64_group l (zlen l) 0 =
    [b64_tbl.[a / 4]; b64_tbl.[16 * (a mod 4) + b / 16];
     if 1 <? zlen l then b64_tbl.[4 * (b mod 16) + c / 64] else 61; if 2 <? zlen l then b64_tbl.[c mod 64] else 61].
Proof.
  intros Ha Hb Hc Hl. unfold b64_group. cbv zeta. change (0 + 1) with 1. change (0 + 2) with 2.
  match goal with |- context [if 2 <? zlen l then Z.lor ?x ?y else _] => set (v := if 2 <? zlen l then Z.lor x y else x) end.
  assert (v = 65536 * a + 256 * b + c) as Hv.
  { rewrite <- join3 by done. destruct Hl as [(-> & -> & ->)|[(-> & ->)|(r & ->)]].
    - change v with (Z.shiftl a 16). by rewrite !Z.lor_0_r.
    - change v with (Z.lor (Z.shiftl a 16) (Z.shiftl b 8)). by rewrite !Z.lor_0_r.
    - unfold v, zlen. cbn [length]. rewrite !(proj2 (Z.ltb_lt _ _)) by lia. done. }
  destruct (sextets a b c v Ha Hb Hc Hv) as (-> & -> & -> & ->). done.
Qed.

Lemma b64_roundtrip_le n : forall l, (length l <= n)%nat -> Forall byte l ->
  let s := b64_loop (Z.to_nat ((zlen l + 2) / 3)) l (zlen l) 0 in
  b64_decode s = Some l /\ Forall (fun c => c <> 0) s /\ length s = (4 * Z.to_nat ((zlen l + 2) / 3))%nat.
Proof.
  induction n as [|n IH]; intros l Hn Hl; destruct l as [|a l]; try done; cbn [length] in Hn; try lia.
  apply Forall_cons_1 in Hl as [Ha Hl].
  assert (forall x y, byte x -> byte y -> 0 <= x / 4 < 64 /\ 0 <= 16 * (x mod 4) + y / 16 < 64 /\ 0 <= 4 * (x mod 16) + y / 64 < 64 /\ 0 <= x mod 64 < 64) as Hr.
  { unfold byte. intros x y Hx Hy. split_and!; Z.to_euclidean_division_equations; lia. }
  destruct l as [|b [|c l]]; [|apply Forall_cons_1 in Hl as [Hb _]|apply Forall_cons_1 in Hl as [Hb [Hc Hl]%Forall_cons_1]].
  - change (Z.to_nat ((zlen [a] + 2) / 3)) with 1%nat. cbn [b64_loop]. rewrite app_nil_r.
    rewrite (group_chars [a] a 0 0) by (done || auto). change (1 <? zlen [a]) with false. change (2 <? zlen [a]) with false.
    change (0 / 16) with 0. rewrite Z.add_0_r. cbv iota zeta.
    destruct (Hr a 0 Ha ltac:(done)) as (R0 & R1 & _). rewrite Z.div_0_l, Z.add_0_r in R1 by lia.
    destruct (b64_char _ R0) as (E0 & _ & N0), (b64_char _ R1) as (E1 & _ & N1).
    split_and!; [|by repeat constructor|done]. cbn [b64_decode]. rewrite E0, E1. cbn [mbind option_bind].
    change (61 =? 61) with true. cbn [andb]. rewrite bool_decide_true by done. cbn [andb].
    rewrite (proj2 (Z.eqb_eq _ _)) by (Z.to_euclidean_division_equations; lia). do 2 f_equal. Z.to_euclidean_division_equations; lia.
  - change (Z.to_nat ((zlen [a; b] + 2) / 3)) with 1%nat. cbn [b64_loop]. rewrite app_nil_r.
    rewrite (group_chars [a; b] a b 0) by (done || auto). change (1 <? zlen [a; b]) with true. change (2 <? zlen [a; b]) with false.
    change (0 / 64) with 0. rewrite (Z.add_0_r (4 * _)). cbv iota zeta.
    destruct (Hr a b Ha Hb) as (R0 & R1 & _), (Hr b 0 Hb ltac:(done)) as (_ & _ & R2 & _). rewrite Z.div_0_l, Z.add_0_r in R2 by lia.
    destruct (b64_char _ R0) as (E0 & _ & N0), (b64_char _ R1) as (E1 & _ & N1), (b64_char _ R2) as (E2 & P2 & N2).
    split_and!; [|by repeat constructor|done]. cbn [b64_decode]. rewrite E0, E1, E2. cbn [mbind option_bind].
    rewrite (proj2 (Z.eqb_neq _ 61) P2). cbn [andb]. change (61 =? 61) with true. rewrite bool_decide_true by done. cbn [andb].
    unfold byte in *. rewrite (proj2 (Z.eqb_eq _ _)) by (Z.to_euclidean_division_equations; lia).
    do 2 f_equal; [|f_equal]; Z.to_euclidean_division_equations; lia.
  - assert (zlen (a :: b :: c :: l) = zlen l + 3) as Ez by (unfold zlen; cbn [length]; lia).
    assert (Z.to_nat ((zlen (a :: b :: c :: l) + 2) / 3) = S (Z.to_nat ((zlen l + 2) / 3))) as ->.
    { pose proof (zlen_nonneg l). rewrite Ez. rewrite <- Z2Nat.inj_succ by (apply Z.div_pos; lia). f_equal.
      Z.to_euclidean_division_equations; lia. }
    cbn [b64_loop]. rewrite (group_chars (a :: b :: c :: l) a b c) by eauto. rewrite Ez.
    pose proof (zlen_nonneg l). rewrite !(proj2 (Z.ltb_lt _ _)) by lia. rewrite (b64_loop_shift a b c l _ _ 0) by lia.
    replace (zlen l + 3 - 3) with (zlen l) by lia.
    destruct (IH l ltac:(cbn [length] in Hn; lia) Hl) as (Hd & Hnz & Hlen). cbv zeta in Hd, Hnz, Hlen.
    set (s := b64_loop _ l _ _) in *.
    destruct (Hr a b Ha Hb) as (R0 & R1 & _), (Hr b c Hb Hc) as (_ & _ & R2 & _), (Hr c c Hc Hc) as (_ & _ & _ & R3).
    destruct (b64_char _ R0) as (E0 & _ & N0), (b64_char _ R1) as (E1 & _ & N1), (b64_char _ R2) as (E2 & P2 & N2), (b64_char _ R3) as (E3 & P3 & N3).
    split_and!; [|by repeat constructor|cbn [length app]; rewrite Hlen; lia]. cbn [b64_decode app]. rewrite E0, E1, E2, E3. cbn [mbind option_bind].
    rewrite (proj2 (Z.eqb_neq _ 61) P2), (proj2 (Z.eqb_neq _ 61) P3). cbn [andb]. rewrite Hd. cbn [mbind option_bind].
    unfold byte in *. f_equal. f_equal; [|f_equal; [|f_equal]]; Z.to_euclidean_division_equations; lia.
Qed.

(** ** Frames *)

(** The header of RFC 6455 with the mask bit [m] (0 or 128), lengths of at most two bytes. *)
Definition frame_header (m opcode plen : Z) : list Z :=
  128 + opcode :: (if plen <=? 125 then [m + plen] else [m + 126; plen / 256; plen mod 256]).

(** A decision on small numbers, checked on each. *)
Lemma check_below n (P : Z -> bool) : forallb P (seqZ 0 n) = true -> forall x, 0 <= x < n -> P x = true.
Proof.
  intros Hall x Hx. rewrite forallb_forall in Hall. apply Hall. apply list_elem_of_In, elem_of_seqZ. lia.
Qed.

Lemma opcode_bits op : 0 <= op < 16 -> Z.lor 0x80 (Z.land op 0x0F) = 128 + op /\ Z.land (128 + op) 0x0F = op.
Proof.
  intros H. apply (check_below 16 (fun op => (Z.lor 0x80 (Z.land op 0x0F) =? 128 + op) && (Z.land (128 + op) 0x0F =? op))) in H;
    [|vm_compute; reflexivity]. by bool_to_prop.
Qed.

Lemma length_bits m l : m = 0 \/ m = 128 -> 0 <= l < 128 ->
  truth (Z.land (m + l) 0x80) = (m =? 128) /\ Z.land (m + l) 0x7F = l /\ u8 (Z.lor 0x80 l) = 128 + l.
Proof.
  intros Hm H.
  apply (check_below 128 (fun l => (Z.land (0 + l) 0x80 =? 0) && (Z.land (128 + l) 0x80 =? 128) && (Z.land (0 + l) 0x7F =? l) &&
    (Z.land (128 + l) 0x7F =? l) && (u8 (Z.lor 0x80 l) =? 128 + l))) in H; [|vm_compute; reflexivity].
  bool_to_prop. unfold truth. destruct Hm as [-> | ->]; repeat match goal with E : Z.land _ _ = _ |- _ => rewrite E; clear E end; done.
Qed.

(** The decoder reads no byte past [buflen]. *)
Lemma decode_take buf buflen : ws_frame_decode buf buflen = ws_frame_decode (take (Z.to_nat buflen) buf) buflen.
Proof.
  unfold ws_frame_decode. destruct (Z.ltb_spec buflen 2); [done|].
  rewrite !(aget_take_lt buf 0), !(aget_take_lt buf 1) by lia. cbv zeta.
  case_if; [destruct (Z.ltb_spec buflen 4); [done|]; by rewrite !(aget_take_lt buf) by lia|].
  case_if; [destruct (Z.ltb_spec buflen 10); [done|]; by rewrite !(aget_take_lt buf) by lia|]. done.
Qed.

(** On the start of a frame the decoder waits until all of it is there. *)
Lemma decode_frame m op plen body buflen : m = 0 \/ m = 128 -> 0 <= op < 16 -> 0 <= plen <= 65535 -> 0 <= buflen ->
  let hdr := zlen (frame_header m op plen) + (if m =? 128 then 4 else 0) in
  ws_frame_decode (frame_header m op plen ++ body) buflen =
    if buflen <? hdr + plen then Incomplete else Frame (hdr + plen) op hdr plen.
Proof.
  intros Hm Hop Hpl Hb. unfold ws_frame_decode, frame_header. cbn [app]. cbv zeta.
  destruct (opcode_bits op Hop) as [_ Eop].
  destruct (Z.leb_spec plen 125) as [H125|H125]; cbn [app].
  - destruct (length_bits m plen Hm ltac:(lia)) as (E1 & E2 & _).
    change ((128 + op :: m + plen :: body).[0]) with (128 + op). change ((128 + op :: m + plen :: body).[1]) with (m + plen).
    rewrite E1, E2, Eop. rewrite (proj2 (Z.eqb_neq plen 126)), (proj2 (Z.eqb_neq plen 127)) by lia.
    change (zlen [128 + op; m + plen]) with 2. rewrite (i32_small plen) by lia.
    destruct (m =? 128); rewrite (i32_small (_ + _)) by lia;
      destruct (Z.ltb_spec buflen 2); [rewrite (proj2 (Z.ltb_lt _ _)) by lia| |rewrite (proj2 (Z.ltb_lt _ _)) by lia|]; reflexivity.
  - destruct (length_bits m 126 Hm ltac:(lia)) as (E1 & E2 & _).
    set (l := 128 + op :: m + 126 :: plen / 256 :: plen mod 256 :: body).
    change (l.[0]) with (128 + op). change (l.[1]) with (m + 126). change (l.[2]) with (plen / 256). change (l.[3]) with (plen mod 256).
    rewrite E1, E2, Eop. change (126 =? 126) with true. change (zlen (_ :: _)) with 4.
    assert (Z.lor (Z.shiftl (plen / 256) 8) (plen mod 256) = plen) as ->.
    { rewrite Z.lor_comm, lor_shiftl by (pose proof (Z.mod_pos_bound plen 256); lia). pose proof (Z.div_mod plen 256). lia. }
    rewrite (i32_small plen) by lia. cbv iota.
    destruct (m =? 128); rewrite (i32_small (_ + _)) by lia;
      destruct (Z.ltb_spec buflen 2); try (rewrite (proj2 (Z.ltb_lt _ (_ + plen))) by lia; reflexivity);
      destruct (Z.ltb_spec buflen 4); try (rewrite (proj2 (Z.ltb_lt _ (_ + plen))) by lia; reflexivity); reflexivity.
Qed.

(** The bytes the encoder writes. *)
Lemma encode_frame outmax op payload plen mask :
  0 <= op < 16 -> 0 <= plen <= 65535 -> plen = zlen payload -> zlen mask = 4 -> plen + 10 <= outmax < 2 ^ 31 ->
  let out := frame_header 128 op plen ++ mask ++ mask_from mask 0 payload in
  ws_frame_encode outmax op payload plen mask = Some (out, zlen out) /\ zlen out <= outmax.
Proof.
  intros Hop Hpl Hz Hm Hmax out. unfold ws_frame_encode. rewrite (u32_small (plen + 10)), (i32_small (plen + 10)) by lia.
  rewrite (proj2 (Z.ltb_ge outmax (plen + 10))) by lia.
  destruct (opcode_bits op Hop) as [Eop _]. rewrite Eop.
  assert (zlen out <= outmax) as Hle.
  { unfold out, frame_header, mask_from, zlen in *. rewrite !length_app, length_imap. cbn [length].
    destruct (plen <=? 125); cbn [length]; lia. }
  assert (frame_len plen = Some (if plen <=? 125 then [128 + plen] else [128 + 126; plen / 256; plen mod 256])) as ->.
  { unfold frame_len. destruct (Z.leb_spec plen 125).
    - destruct (length_bits 128 plen ltac:(auto) ltac:(lia)) as (_ & _ & ->). done.
    - rewrite (proj2 (Z.leb_le _ _)) by lia. change 0xFF with (Z.ones 8). rewrite Z.land_ones, Z.shiftr_div_pow2 by lia.
      change (2 ^ 8) with 256. assert (forall x, 0 <= x < 256 -> u8 x = x) as Hu by (apply u8_small).
      rewrite !Hu; [done|apply Z.mod_pos_bound; lia|]. split; [apply Z.div_pos; lia|apply Z.div_lt_upper_bound; lia]. }
  cbn [mbind option_bind]. assert (take 4 mask = mask) as -> by (apply take_ge; unfold zlen in Hm; lia).
  assert (take (Z.to_nat plen) payload = payload) as -> by (apply take_ge; unfold zlen in Hz; lia).
  assert ([128 + op] ++ (if plen <=? 125 then [128 + plen] else [128 + 126; plen / 256; plen mod 256]) ++ mask ++ mask_from mask 0 payload = out) as ->
    by (unfold out, frame_header; by destruct (plen <=? 125)).
  rewrite (proj2 (Z.ltb_ge _ _)) by lia. done.
Qed.

Lemma unmask mask payload : mask_from mask 0 (mask_from mask 0 payload) = payload.
Proof.
  apply list_eq. intros i. unfold mask_from. rewrite !list_lookup_imap. destruct (payload !! i) as [x|]; [|done]. cbn. f_equal.
  by rewrite Z.lxor_assoc, Z.lxor_nilpotent, Z.lxor_0_r.
Qed.

(** ** Receiving *)

Section Receive.
Context {N : Type} `{!NetStack N}.

(** A frame of the server, and what it prints. *)
Definition server_frame (f : Z * list Z) : list Z := frame_header 0 f.1 (zlen f.2) ++ f.2.
Definition shown (f : Z * list Z) : list (list Z) :=
  if (f.1 =? 1) || (f.1 =? 0) then [lit "<< "; cstr (take 511 f.2); nl] else [].

(** A data frame of at most [FRBUF] bytes. *)
Definition data_frame (f : Z * list Z) : Prop := 0 <= f.1 < 16 /\ f.1 <> 8 /\ f.1 <> 9 /\ zlen (server_frame f) <= FRBUF.

(** [rxbuf] holds the bytes [pend]. *)
Definition holds (s : Ws N) (pend : list Z) : Prop :=
  zlen (rxbuf s) = RXBUF /\ rx_accum s = zlen pend /\ take (length pend) (rxbuf s) = pend.

(** [pend] is the beginning of a frame, not all of it. *)
Definition partial (pend : list Z) (fs : list (Z * list Z)) : Prop :=
  pend = [] \/ exists f fs', fs = f :: fs' /\ (exists r, server_frame f = pend ++ r) /\ (length pend < length (server_frame f))%nat.

Lemma zlen_server_frame f : zlen (server_frame f) = zlen (frame_header 0 f.1 (zlen f.2)) + zlen f.2.
Proof. unfold server_frame, zlen. rewrite length_app. lia. Qed.

Lemma decode_server f rest buf buflen :
  data_frame f -> 0 <= buflen -> take (Z.to_nat buflen) buf = take (Z.to_nat buflen) (server_frame f ++ rest) ->
  ws_frame_decode buf buflen =
    if buflen <? zlen (server_frame f) then Incomplete
    else Frame (zlen (server_frame f)) f.1 (zlen (frame_header 0 f.1 (zlen f.2))) (zlen f.2).
Proof.
  intros (Hop & _ & _ & Hl) Hb E. rewrite decode_take, E, <- decode_take. unfold server_frame at 1. rewrite <- app_assoc.
  pose proof (zlen_nonneg f.2). rewrite zlen_server_frame in *. pose proof (zlen_nonneg (frame_header 0 f.1 (zlen f.2))).
  unfold FRBUF in Hl. rewrite (decode_frame 0) by (auto || lia). change (0 =? 128) with false. cbv iota zeta. by rewrite Z.add_0_r.
Qed.

Lemma frame_pos f : 2 <= zlen (server_frame f).
Proof. rewrite zlen_server_frame. pose proof (zlen_nonneg f.2). unfold frame_header, zlen. cbn [length]. destruct (_ <=? 125); cbn [length]; lia. Qed.

(** The loop handles the complete frames at the offset and stops at the rest. *)
Lemma frames_spec ticks conn fs fs' pend : Forall data_frame (fs ++ fs') -> partial pend fs' -> forall fuel offset (s : Ws N),
  0 <= offset -> zlen (rxbuf s) = RXBUF -> rx_accum s < RXBUF -> (Z.to_nat (rx_accum s - offset) <= fuel)%nat ->
  rx_accum s = offset + zlen (mjoin (server_frame <$> fs) ++ pend) ->
  take (Z.to_nat (rx_accum s - offset)) (drop (Z.to_nat offset) (rxbuf s)) = mjoin (server_frame <$> fs) ++ pend ->
  ws_frames fuel ticks conn offset s
  = Some (rx_accum s - zlen pend, print (mjoin (shown <$> fs)) s, false).
Proof.
  induction fs as [|f fs IH]; intros Hall Hpend fuel offset s H0 Hrx Hmax Hfuel Hacc Hbytes.
  - change (mjoin (server_frame <$> [])) with (@nil Z) in *. change (mjoin (shown <$> [])) with (@nil (list Z)).
    assert (print [] s = s) as -> by (destruct s; unfold print; cbn; by rewrite app_nil_r).
    replace (rx_accum s - zlen pend) with offset by (cbn [app] in Hacc; lia). cbn [app] in *.
    destruct fuel as [|fuel]; [done|]. cbn [ws_frames]. destruct (Z.ltb_spec offset (rx_accum s)) as [Hlt|]; [|done].
    destruct Hpend as [-> | (f & fs2 & -> & (r & Er) & Hlen)]; [change (zlen []) with 0 in Hacc; lia|].
    cbn [app] in Hall. apply Forall_cons_1 in Hall as [Hf _].
    rewrite (decode_server f []) by (done || lia || (rewrite Hbytes, app_nil_r, Er, take_app_le, take_ge by (unfold zlen in *; lia); done)).
    rewrite (proj2 (Z.ltb_lt _ _)) by (unfold zlen in *; lia). done.
  - cbn [app] in Hall. apply Forall_cons_1 in Hall as [Hf Hall]. pose proof (frame_pos f) as Hpos.
    change (mjoin (server_frame <$> f :: fs)) with (server_frame f ++ mjoin (server_frame <$> fs)) in *.
    change (mjoin (shown <$> f :: fs)) with (shown f ++ mjoin (shown <$> fs)).
    set (rest := mjoin (server_frame <$> fs) ++ pend) in *.
    assert ((server_frame f ++ mjoin (server_frame <$> fs)) ++ pend = server_frame f ++ rest) as Ejoin by (unfold rest; by rewrite app_assoc).
    rewrite Ejoin in *. unfold zlen in Hacc at 1. rewrite length_app in Hacc.
    destruct fuel as [|fuel]; [unfold zlen in *; lia|]. cbn [ws_frames]. rewrite (proj2 (Z.ltb_lt _ _)) by (unfold zlen in *; lia).
    rewrite (decode_server f rest) by (done || lia || (rewrite Hbytes, take_ge by (rewrite length_app; unfold zlen in *; lia); done)).
    rewrite (proj2 (Z.ltb_ge _ _)) by (unfold zlen in *; lia). rewrite (proj2 (Z.leb_gt _ _)) by lia.
    destruct Hf as (Hop & H8 & H9 & Hl). set (h := zlen (frame_header 0 f.1 (zlen f.2))).
    assert (on_frame (ticks offset) conn f.1 (offset + h) (zlen f.2) s = Some (print (shown f) s, false)) as ->.
    { unfold on_frame, shown. rewrite (proj2 (Z.eqb_neq f.1 8)), (proj2 (Z.eqb_neq f.1 9)) by done.
      destruct ((f.1 =? 1) || (f.1 =? 0)); [|destruct s; unfold print; cbn; by rewrite app_nil_r].
      set (n := if zlen f.2 <? 511 then zlen f.2 else 511). assert (n = Z.min (zlen f.2) 511) as Hn by (unfold n; destruct (Z.ltb_spec (zlen f.2) 511); lia).
      rewrite zlen_server_frame in *. fold h in Hpos, Hl. pose proof (zlen_nonneg f.2).
      assert (zlen (server_frame f) = h + zlen f.2) as Hsf by (unfold h; by rewrite zlen_server_frame).
      assert (0 <= h) by apply zlen_nonneg.
      rewrite (proj2 (Z.ltb_ge _ _)) by (unfold zlen in *; lia). do 4 f_equal. f_equal. f_equal.
      assert (take (Z.to_nat n) (drop (Z.to_nat h) (take (Z.to_nat (rx_accum s - offset)) (drop (Z.to_nat offset) (rxbuf s)))) = take 511 f.2) as Et.
      { rewrite Hbytes. unfold server_frame at 1. rewrite <- app_assoc. rewrite drop_app_length' by (unfold h, zlen; lia).
        rewrite take_app_le by (unfold zlen in *; lia). rewrite Hn. destruct (Z.le_ge_cases (zlen f.2) 511).
        - rewrite !take_ge; [done|unfold zlen in *; lia..].
        - f_equal. lia. }
      rewrite <- Et. rewrite skipn_firstn_comm, take_take, drop_drop. f_equal; [unfold zlen in *; lia|]. f_equal. lia. }
    cbn [mbind option_bind]. rewrite IH; [|done|done|lia|done|done|unfold zlen in *; cbn; lia| |].
    + f_equal. f_equal. f_equal. unfold print. destruct s; cbn. by rewrite <- app_assoc.
    + change (rx_accum (print (shown f) s)) with (rx_accum s). fold rest. unfold zlen in *. lia.
    + change (rx_accum (print (shown f) s)) with (rx_accum s). change (rxbuf (print (shown f) s)) with (rxbuf s).
      replace (Z.to_nat (offset + zlen (server_frame f))) with (Z.to_nat offset + length (server_frame f))%nat by (unfold zlen; lia).
      rewrite <- drop_drop. replace (Z.to_nat (rx_accum s - (offset + zlen (server_frame f)))) with (Z.to_nat (rx_accum s - offset) - length (server_frame f))%nat by (unfold zlen; lia).
      rewrite <- skipn_firstn_comm, Hbytes. apply drop_app_length.
Qed.

Lemma feed_spec ticks conn chunk (s : Ws N) pend fs fs' pend' :
  holds s pend -> 0 < zlen chunk -> zlen pend + zlen chunk < RXBUF -> Forall data_frame (fs ++ fs') -> partial pend' fs' ->
  pend ++ chunk = mjoin (server_frame <$> fs) ++ pend' ->
  exists s', ws_feed ticks conn chunk (zlen chunk) s = Some (s', false) /\ holds s' pend' /\
    screen s' = screen s ++ mjoin (shown <$> fs) /\ net s' = net s.
Proof.
  intros (Hrx & Hacc & Htk) Hpos Hroom Hall Hpart Ebytes. unfold ws_feed. rewrite (proj2 (Z.ltb_lt _ _)) by done.
  rewrite (proj2 (Z.ltb_ge (RXBUF - rx_accum s - 1) _)) by lia. cbv zeta.
  set (buf1 := put_at (rxbuf s) (Z.to_nat (rx_accum s)) chunk (Z.to_nat (zlen chunk))).
  set (s1 := s <| rxbuf := buf1 |> <| rx_accum := rx_accum s + zlen chunk |>).
  assert (zlen buf1 = RXBUF) as Hb1 by (unfold buf1, zlen, RXBUF in *; rewrite length_put_at; lia).
  assert (take (Z.to_nat (rx_accum s + zlen chunk)) buf1 = pend ++ chunk) as Hb1t.
  { unfold buf1. replace (Z.to_nat (rx_accum s + zlen chunk)) with (Z.to_nat (rx_accum s) + Z.to_nat (zlen chunk))%nat by (unfold zlen in *; lia).
    unfold RXBUF in *. rewrite take_put_at by (unfold zlen in *; lia). f_equal; [|apply take_ge; unfold zlen; lia].
    rewrite Hacc. unfold zlen. by rewrite Nat2Z.id. }
  assert (rx_accum s1 = zlen (pend ++ chunk)) as Hacc1 by (change (rx_accum s1) with (rx_accum s + zlen chunk); unfold zlen in *; rewrite length_app; lia).
  assert (zlen pend' <= rx_accum s1) as Hp' by (rewrite Hacc1, Ebytes; unfold zlen; rewrite length_app; lia).
  rewrite (frames_spec ticks conn fs fs' pend' Hall Hpart);
    [|lia|exact Hb1|change (rx_accum s1) with (rx_accum s + zlen chunk); lia|lia|by rewrite Hacc1, Ebytes|
     change (rxbuf s1) with buf1; change (drop (Z.to_nat 0) buf1) with buf1; rewrite Z.sub_0_r, <- Ebytes; exact Hb1t].
  cbn [mbind option_bind]. set (s2 := print (mjoin (shown <$> fs)) s1).
  destruct (Z.ltb_spec 0 (rx_accum s1 - zlen pend')) as [Hlt|Hle].
  - eexists. split; [reflexivity|]. split; [|split; reflexivity].
    change (rx_accum s2) with (rx_accum s1). change (rxbuf s2) with buf1. replace (rx_accum s1 - (rx_accum s1 - zlen pend')) with (zlen pend') by lia.
    assert (take (Z.to_nat (zlen pend')) (drop (Z.to_nat (rx_accum s1 - zlen pend')) buf1) = pend') as Ep.
    { transitivity (drop (length (mjoin (server_frame <$> fs))) (mjoin (server_frame <$> fs) ++ pend')); [|apply drop_app_length].
      rewrite <- Ebytes, <- Hb1t, skipn_firstn_comm.
      change (rx_accum s + zlen chunk) with (rx_accum s1). rewrite Hacc1, Ebytes. unfold zlen. rewrite length_app.
      f_equal; [lia|]. f_equal. lia. }
    match goal with |- holds ?x _ => unfold holds; change (rxbuf x) with (take (Z.to_nat (zlen pend')) (drop (Z.to_nat (rx_accum s1 - zlen pend')) buf1) ++ drop (Z.to_nat (zlen pend')) buf1);
      change (rx_accum x) with (zlen pend') end.
    rewrite Ep. split_and!; [|done|apply take_app_length].
    unfold zlen, RXBUF in *. rewrite length_app, length_drop.
    change (rx_accum s1) with (rx_accum s + Z.of_nat (length chunk)) in Hp'. lia.
  - exists s2. split; [reflexivity|]. split; [|split; reflexivity].
    assert (mjoin (server_frame <$> fs) = []) as E0.
    { apply nil_length_inv. rewrite Hacc1, Ebytes in Hle. unfold zlen in Hle. rewrite length_app in Hle. lia. }
    rewrite E0 in Ebytes. cbn [app] in Ebytes. rewrite <- Ebytes in *. split_and!; [exact Hb1|exact Hacc1|].
    rewrite <- Hb1t at 2. change (rxbuf s2) with buf1. f_equal. change (rx_accum s + zlen chunk) with (rx_accum s1). rewrite Hacc1. unfold zlen. lia.
Qed.

(** A prefix of a stream of frames is some frames and a part of the next. *)
Lemma prefix_split fs : forall d rest, d ++ rest = mjoin (server_frame <$> fs) ->
  exists fs1 fs2 p, fs = fs1 ++ fs2 /\ d = mjoin (server_frame <$> fs1) ++ p /\ partial p fs2 /\ p ++ rest = mjoin (server_frame <$> fs2).
Proof.
  induction fs as [|f fs IH]; intros d rest E.
  - apply app_eq_nil in E as [-> ->]. exists [], [], []. split_and!; try done. by left.
  - change (mjoin (server_frame <$> f :: fs)) with (server_frame f ++ mjoin (server_frame <$> fs)) in E.
    destruct (decide (length d < length (server_frame f))%nat) as [Hlt|Hge].
    + exists [], (f :: fs), d. split_and!; [done|done| |exact E]. right. exists f, fs. split; [done|]. split; [|done].
      exists (drop (length d) (server_frame f)). rewrite <- (take_drop (length d) (server_frame f)) at 1. f_equal.
      apply (f_equal (take (length d))) in E. rewrite take_app_length, take_app_le in E by lia. done.
    + assert (d = server_frame f ++ drop (length (server_frame f)) d) as Ed.
      { rewrite <- (take_drop (length (server_frame f)) d) at 1. f_equal.
        apply (f_equal (take (length (server_frame f)))) in E. rewrite take_app_length, take_app_le in E by lia. done. }
      rewrite Ed, <- app_assoc in E. apply app_inv_head in E.
      destruct (IH _ _ E) as (fs1 & fs2 & p & -> & Ed' & Hp & Hr). exists (f :: fs1), fs2, p. split_and!; [done| |done|done].
      rewrite Ed, Ed'. change (mjoin (server_frame <$> f :: fs1)) with (server_frame f ++ mjoin (server_frame <$> fs1)). by rewrite app_assoc.
Qed.

(** The chunks received one after the other. *)
Fixpoint feed_all (ticks : Z -> Z) (conn : Z) (chunks : list (list Z)) (s : Ws N) : option (Ws N) :=
  match chunks with
  | [] => Some s
  | c :: cs => '(s, closed) ← ws_feed ticks conn c (zlen c) s; if closed : bool then None else feed_all ticks conn cs s
  end.

Lemma feed_all_spec ticks conn chunks : forall (s : Ws N) pend fs,
  Forall data_frame fs -> partial pend fs -> holds s pend -> Forall (fun c => 0 < zlen c < FRBUF) chunks ->
  pend ++ mjoin chunks = mjoin (server_frame <$> fs) ->
  exists s', feed_all ticks conn chunks s = Some s' /\ holds s' [] /\ screen s' = screen s ++ mjoin (shown <$> fs) /\ net s' = net s.
Proof.
  induction chunks as [|c cs IH]; intros s pend fs Hall Hpart Hh Hc E; cbn [feed_all].
  - change (mjoin []) with (@nil Z) in E. rewrite app_nil_r in E. exists s.
    destruct Hpart as [-> | (f & fs' & -> & _ & Hlt)].
    + destruct fs as [|f fs]; [by rewrite app_nil_r|]. apply (f_equal length) in E.
      change (mjoin (server_frame <$> f :: fs)) with (server_frame f ++ mjoin (server_frame <$> fs)) in E. rewrite length_app in E.
      pose proof (frame_pos f). unfold zlen in *. cbn [length] in E. lia.
    + apply (f_equal length) in E. change (mjoin (server_frame <$> f :: fs')) with (server_frame f ++ mjoin (server_frame <$> fs')) in E.
      rewrite length_app in E. lia.
  - apply Forall_cons_1 in Hc as [Hc Hcs]. change (mjoin (c :: cs)) with (c ++ mjoin cs) in E. rewrite app_assoc in E.
    destruct (prefix_split fs _ _ E) as (fs1 & fs2 & p & -> & Ed & Hp & Hr).
    assert (zlen pend < FRBUF) as Hpl.
    { destruct Hpart as [-> | (f & fs' & Efs & _ & Hlt)]; [done|]. rewrite Efs in Hall. apply Forall_cons_1 in Hall as [(_ & _ & _ & Hl) _].
      unfold zlen in *. lia. }
    destruct (feed_spec ticks conn c s pend fs1 fs2 p Hh ltac:(lia) ltac:(unfold RXBUF, FRBUF in *; lia) Hall Hp Ed) as (s1 & -> & Hh1 & Hs1 & Hn1).
    cbn [mbind option_bind]. apply Forall_app in Hall as [_ Hall2].
    destruct (IH s1 p fs2 Hall2 Hp Hh1 Hcs Hr) as (s' & -> & Hh' & Hs' & Hn'). exists s'. split_and!; [done|done| |congruence].
    rewrite Hs', Hs1, <- app_assoc, fmap_app. by rewrite join_app.
Qed.

End Receive.

Lemma sha1_ref_bytes m : zlen (sha1_ref m) = 20 /\ Forall byte (sha1_ref m).
Proof. split; [done|]. repeat (apply Forall_cons_2; [apply u8_range|]). apply Forall_nil_2. Qed.

Lemma span_spec stop n : forall p, zlen (span n stop p).1 <= Z.of_nat n.
Proof.
  unfold zlen. induction n as [|n IH]; intros p; cbn [span]; [done|]. destruct p as [|c p]; [cbn; lia|]. destruct (stop c); [cbn; lia|].
  specialize (IH p). destruct (span n stop p) as [h r]. cbn in *. lia.
Qed.

Lemma request_len u k : zlen k = 16 -> zlen (host u) <= 127 -> zlen (path u) <= 127 -> zlen (ws_request u (base64_encode k 16)) <= REQ.
Proof.
  intros Hk Hh Hp. assert (zlen (cstr (base64_encode k 16)) <= 25) as Hc.
  { transitivity (zlen (base64_encode k 16)); [|done]. unfold zlen. clear. generalize (base64_encode k 16) as l.
    induction l as [|c l IH]; cbn [cstr]; [done|]. destruct (c =? 0); cbn [length]; lia. }
  unfold ws_request, REQ, zlen in *. rewrite !length_app. change (length crlf) with 2%nat.
  repeat match goal with |- context [length (lit ?x)] => let n := eval vm_compute in (length (lit x)) in change (length (lit x)) with n end.
  lia.
Qed.

(** The request fits its buffer for every URL. *)
Lemma request_fits url u k : ws_parse_url url = Some u -> zlen k = 16 -> zlen (ws_request u (base64_encode k 16)) <= REQ.
Proof.
  unfold ws_parse_url. intros Hu Hk. cbv zeta in Hu.
  match type of Hu with (?x ≫= _) = _ => destruct x as [[tls p]|]; [|discriminate Hu] end. cbn [mbind option_bind] in Hu.
  pose proof (span_spec (fun c => (c =? 0) || (c =? 47) || (c =? 58)) 127 p) as Hh. destruct (span _ _ p) as [h p1].
  match type of Hu with (let '(_, _) := ?x in _) = _ => destruct x as [pt p2] end. apply (inj Some) in Hu as <-.
  apply request_len; [exact Hk|exact Hh|]. cbv beta iota delta [path]. destruct (cget p2 0 =? 47); [exact (span_spec _ 127 p2)|done].
Qed.

End WS.

Import WS.

(** C34: the accept key of RFC 6455: for a key of at most 83 characters, [ws_accept_key]
    writes the base64 encoding of the FIPS 180-4 SHA-1 digest of the key and the GUID. *)
Theorem ws_accept_rfc6455 padded key :
  zlen padded = PADDED -> c_strlen key <= 83 ->
  exists padded' e, ws_accept_key padded key = Some (padded', e) /\ zlen e = 29 /\
    b64_decode (cstr e) = Some (sha1_ref (cstr key ++ WS_GUID)).
Proof.
  intros Hp Hk. unfold c_strlen in Hk. assert (ws_concat key = cstr key ++ WS_GUID) as Ec.
  { unfold ws_concat. rewrite (take_ge (cstr key)) by (unfold zlen in Hk; lia). f_equal. apply take_ge. unfold zlen in *. cbn. lia. }
  assert (zlen (cstr key ++ WS_GUID) = zlen (cstr key) + 36) as Ez by (unfold zlen; rewrite length_app; cbn [length WS_GUID]; lia).
  unfold ws_accept_key. rewrite Ec. pose proof (zlen_nonneg (cstr key)).
  destruct (sha1_correct padded (cstr key ++ WS_GUID) (zlen (cstr key ++ WS_GUID)) Hp) as (p' & -> & _); [lia|lia|].
  cbn [mbind option_bind]. rewrite take_ge by (unfold zlen; lia). set (m := cstr key ++ WS_GUID).
  destruct (sha1_ref_bytes m) as [Hl Hb]. do 2 eexists. split; [done|]. unfold base64_encode.
  replace 20 with (zlen (sha1_ref m)) by done. destruct (b64_roundtrip_le _ (sha1_ref m) (le_n _) Hb) as (Hd & Hnz & Hlen).
  cbv zeta in *. rewrite cstr_app_nul by done. split; [|done]. rewrite Hl in *. unfold zlen. rewrite length_app, Hlen. done.
Qed.

(** The example of RFC 6455: the key dGhlIHNhbXBsZSBub25jZQ==. *)
Lemma ws_accept_rfc6455_witness :
  b64_decode (lit "s3pPLMBiTxaQ9kYGzzhZRbK+xOo=") = Some (sha1_ref (lit "dGhlIHNhbXBsZSBub25jZQ==" ++ WS_GUID)).
Proof.
  destruct (ws_accept_rfc6455 (replicate 128 0) (lit "dGhlIHNhbXBsZSBub25jZQ==" ++ [0])) as (p & e & He & _ & Hd); [reflexivity|by vm_compute|].
  change (cstr (lit "dGhlIHNhbXBsZSBub25jZQ==" ++ [0])) with (lit "dGhlIHNhbXBsZSBub25jZQ==") in Hd. rewrite <- Hd.
  assert (e = lit "s3pPLMBiTxaQ9kYGzzhZRbK+xOo=" ++ [0]) as ->; [|by vm_compute].
  assert (snd <$> ws_accept_key (replicate 128 0) (lit "dGhlIHNhbXBsZSBub25jZQ==" ++ [0]) = Some (lit "s3pPLMBiTxaQ9kYGzzhZRbK+xOo=" ++ [0])) as Ev
    by (vm_compute; reflexivity).
  rewrite He in Ev. by injection Ev.
Defined.

(** What [base64_encode] writes is decoded to its input by the decoder of RFC 4648,
    and is four characters per three bytes. *)
Theorem base64_roundtrip l : Forall byte l ->
  let s := base64_encode l (zlen l) in
  b64_decode (cstr s) = Some l /\ zlen s = 4 * ((zlen l + 2) / 3) + 1.
Proof.
  intros Hl. destruct (b64_roundtrip_le _ l (le_n _) Hl) as (Hd & Hnz & Hlen). cbv zeta in *. unfold base64_encode.
  rewrite cstr_app_nul by done. split; [done|]. pose proof (zlen_nonneg l). pose proof (Z.div_pos (zlen l + 2) 3 ltac:(lia) ltac:(lia)).
  unfold zlen at 1. rewrite length_app, Hlen. cbn [length]. lia.
Qed.

Lemma base64_roundtrip_witness : b64_decode (cstr (base64_encode [1; 2; 255; 7] 4)) = Some [1; 2; 255; 7].
Proof. apply (base64_roundtrip [1; 2; 255; 7]). repeat constructor; done. Defined.

(** The frame [ws_frame_encode] writes stays in a buffer of [plen + 10] bytes, and
    [ws_frame_decode] finds in it, whatever follows, the opcode and the masked payload; on
    a part of it the decoder waits for more. *)
Theorem ws_frame_roundtrip outmax op payload mask rest buflen :
  0 <= op < 16 -> zlen payload <= 65535 -> zlen mask = 4 -> zlen payload + 10 <= outmax < 2 ^ 31 -> 0 <= buflen ->
  exists out hdr, ws_frame_encode outmax op payload (zlen payload) mask = Some (out, zlen out) /\ zlen out <= outmax /\
    zlen out = hdr + zlen payload /\
    ws_frame_decode (out ++ rest) buflen = (if buflen <? zlen out then Incomplete else Frame (zlen out) op hdr (zlen payload)) /\
    mask_from mask 0 (drop (Z.to_nat hdr) out) = payload.
Proof.
  intros Hop Hpl Hm Hmax Hb. pose proof (zlen_nonneg payload).
  destruct (encode_frame outmax op payload (zlen payload) mask Hop ltac:(lia) eq_refl Hm Hmax) as [He Hle].
  set (out := frame_header 128 op (zlen payload) ++ mask ++ mask_from mask 0 payload) in *.
  exists out, (zlen (frame_header 128 op (zlen payload)) + 4).
  assert (zlen out = zlen (frame_header 128 op (zlen payload)) + 4 + zlen payload) as Ez.
  { unfold out, mask_from, zlen in *. rewrite !length_app, length_imap. lia. }
  split_and!; [exact He|exact Hle|exact Ez| |].
  - unfold out at 1. rewrite <- app_assoc. rewrite (decode_frame 128) by (auto || lia). change (128 =? 128) with true. cbv iota zeta. by rewrite Ez.
  - unfold out. rewrite app_assoc, drop_app_length'; [apply unmask|]. unfold zlen in *. rewrite length_app. lia.
Qed.

Lemma ws_frame_roundtrip_witness :
  exists out hdr, ws_frame_encode 512 1 [104; 105] 2 [1; 2; 3; 4] = Some (out, zlen out) /\
    mask_from [1; 2; 3; 4] 0 (drop (Z.to_nat hdr) out) = [104; 105].
Proof.
  destruct (ws_frame_roundtrip 512 1 [104; 105] [1; 2; 3; 4] [] 8) as (out & hdr & He & _ & _ & _ & Hm);
    [lia|by vm_compute|reflexivity|by vm_compute|lia|].
  exists out, hdr. by split.
Defined.


(** A ping frame of the server that announces 2^32 - 1 bytes is accepted with
    nine, and answering it writes outside the buffer of the answer. *)
Theorem ws_ping_corrupts_memory {N} `{!NetStack N} ticks conn (s : Ws N) a b c d :
  take 10 (rxbuf s) = [0x89; 0x7F; a; b; c; d; 0xFF; 0xFF; 0xFF; 0xFF] -> 10 <= rx_accum s ->
  ws_frame_decode (rxbuf s) (rx_accum s) = Frame 9 9 10 (2 ^ 32 - 1) /\
  forall fuel, ws_frames (S fuel) ticks conn 0 s = None.
Proof.
  intros Hrx Hacc. assert (ws_frame_decode (rxbuf s) (rx_accum s) = Frame 9 9 10 (2 ^ 32 - 1)) as Hd.
  { assert (rxbuf s = [0x89; 0x7F; a; b; c; d; 0xFF; 0xFF; 0xFF; 0xFF] ++ drop 10 (rxbuf s)) as -> by (rewrite <- Hrx; by rewrite take_drop).
    unfold ws_frame_decode. cbn [app]. set (l := 0x89 :: _).
    change (Z.land l.[0] 15) with 9. change (Z.land l.[1] 127) with 127. change (truth (Z.land l.[1] 128)) with false.
    change (Z.lor (Z.lor (Z.lor (Z.shiftl l.[6] 24) (Z.shiftl l.[7] 16)) (Z.shiftl l.[8] 8)) l.[9]) with (2 ^ 32 - 1). cbv zeta iota.
    change (127 =? 126) with false. change (127 =? 127) with true. change (i32 (10 + i32 (2 ^ 32 - 1))) with 9. cbv iota.
    by rewrite (proj2 (Z.ltb_ge (rx_accum s) 2)), (proj2 (Z.ltb_ge (rx_accum s) 10)), (proj2 (Z.ltb_ge (rx_accum s) 9)) by lia. }
  split; [exact Hd|]. intros fuel. cbn [ws_frames]. rewrite (proj2 (Z.ltb_lt _ _)) by lia. rewrite Z.sub_0_r.
  change (drop (Z.to_nat 0) (rxbuf s)) with (rxbuf s). rewrite Hd. reflexivity.
Qed.

Section Witnesses.

#[local] Instance silent : NetStack unit := {|
  net_present n := true; net_tcp_connect ip port n := (n, 0); net_tcp_close c n := n;
  net_tcp_send c bytes n := (n, zlen bytes); net_tcp_recv c len n := (n, [], 0);
  net_tcp_state c n := 2; dns_resolve h n := (n, None) |}.

Definition client (rx : list Z) (n : Z) : Ws unit := {|
  ws_rand_seed := 0xDEAD4321; padded := replicate 128 0; resp := replicate 1024 0;
  rxbuf := take 4096 (rx ++ replicate 4096 0); rx_accum := n; linebuf := []; screen := []; net := () |}.


Lemma ws_ping_corrupts_memory_witness :
  ws_frames 10 (fun _ => 0) 0 0 (client [0x89; 0x7F; 0; 0; 0; 0; 0xFF; 0xFF; 0xFF; 0xFF] 10) = None.
Proof.
  apply (proj2 (ws_ping_corrupts_memory (fun _ => 0) 0 (client [0x89; 0x7F; 0; 0; 0; 0; 0xFF; 0xFF; 0xFF; 0xFF] 10) 0 0 0 0 eq_refl ltac:(by vm_compute))).
Defined.

End Witnesses.
